(* ===== verification/_CoqProject ===== *)
-Q . S2P
Prelude.v
Text.v
Encoding.v
Models.v
Registry.v
Store.v
Fingerprint.v
ApplicationSecrets.v
JsonText.v
Authorization.v
ReportDocuments.v
Versions.v
Lifecycle.v
Artifacts.v
Tablets.v
Accounts.v
Roles.v
TabletQueries.v
Manifests.v
Grants.v
Restore.v
Queue.v
Assignments.v
Organizations.v
Personnel.v
MailProviders.v
MailServices.v
ReportDelivery.v
ReportTransfer.v
ReportPortal.v
ScopeState.v
Build.v
Worker.v
FileLibrary.v
Admin.v
Retention.v
Simulation.v
QueueSim.v
AdminSim.v
System.v
Demo.v
SecretTheorems.v
SystemTheorems.v
Totality.v
MailInv.v
ReportInv.v
MailRotation.v
MailSystem.v
ReportPortalInv.v
ReportRequests.v
DataTheorems.v
TabletInv.v
TabletServices.v
DeliveryInv.v
TabletSystem.v
RoleInv.v
RoleSystem.v
TabletDemo.v
OrganizationSystem.v
RoleDemo.v
RoleTheorems.v
MailDemo.v
MailTheorems.v
RecipientTheorems.v
ReportDemo.v
AuditTheorems.v
StateTheorems.v
OrganizationTheorems.v
TabletTheorems.v
LeaseTheorems.v
DeliveryTheorems.v
QueueTheorems.v
AccessTheorems.v
WorkerTheorems.v
PublishTheorems.v
RetentionTheorems.v
ReportTheorems.v
DocumentTheorems.v
