(* ===== verification/Prelude.v ===== *)
(** * FireDash Server: publications, tablets and delivery

    FireDash publishes reference data of fire departments to tablets in vehicles.
    Administrators change canonical data; a worker turns a change into an immutable,
    encrypted, versioned publication of a dataset scope (a department, a station or
    the system); tablets adopt an installation, keep a lease alive by checking in,
    and receive signed manifests and content keys wrapped for their own public key.
    This library models the services behind that, from the Python code under
    [src/apps/], and proves what makes them correct.

    ** The shape of the model

    The database is one record [Db] of tables ([Models]), each a finite map from
    primary keys to rows; foreign keys are keys.  Its other fields are the clock,
    the audit trail, the callbacks of [transaction.on_commit] and the effects
    outside the database.  A piece of code is a program [M Db A]: a function from a
    store to a value or an exception and the store it leaves ([Prelude]).  [atomic]
    is [transaction.atomic()]: an exception restores the store.  [save] is
    [obj.save(update_fields=...)], a function on the named fields of a row;
    [create], [update_where], [first_where] and the others in [Store] are the
    queries the code uses, with the unique constraints and widths that matter
    checked where the rows are written.  The clock stands still inside a
    transaction.  A transaction runs by itself, so row and advisory locks have no
    counterpart; where one request is several transactions (building a job,
    [complete_adoption], the delivery lane) an argument ([interleave n], [others])
    is what other sessions do in between, and the theorems hold for all of them
    within a stated contract.

    Integers of Python are [Z]; the database's widths are checked only where the
    code relies on them.  Strings are characters below U+0100 and bytes are
    strings.  Loops over rows recurse on the list of rows.  Loops with a bound in
    the code recurse on that bound: the slots of a worker cycle, the 1000 attempts
    of a number allocation, so no fuel is invented.

    Parameters stand for code that is not under [src/]: [Hash] (SHA-256),
    [HpkeSuite], [Secrets] and [Credentials] (the [cryptography] package, [hmac],
    [secrets] and the credentials on disk), [Accounts] (password hashing, random tokens
    and the limits for failed sign-ins), [DeliverySettings] ([urlsplit] and the report
    transfer keys), [Settings], and [ProtectedRows] for protecting foreign keys of tables
    outside the model; [Builders], [DocumentGenerations],
    [ArtifactStore] and [FileLibraries] stand for the builders of single datasets
    and the file system; [Aesgcm] with its laws, [SecretSettings], [MailEnvironment]
    (address validation, [ipaddress], name resolution, sockets, [requests]),
    [MailSettings] and [PdfLibrary] ([pypdf]) are those of secrets and mail; [Floats],
    [ReportCrypto] (RSA, AES-GCM, images), [ReportSettings], [ReportStorage] (the spool's
    directory and the refusals of the operating system) and [PortalSettings] those of report
    transfer.  [SpoolLaws] says that a new [uuid4] is not the name of a file while the spool
    has room, and [BuildersQuiet] and [FileLibrariesSimulated] say that
    builders leave the publication tables alone and that preparing file libraries
    moves the lifecycle by its own steps.  [Demo], [TabletDemo], [RoleDemo],
    [MailDemo] and [ReportDemo] instantiate all of them, and every witness runs there.

    ** Publications

    [Registry] is [publications/registry.py]; [Authorization] the scope queries and
    [require_*] checks of [authorization/scopes.py] and [services.py] and temporary
    access of [file_library/services.py]; [Fingerprint] the payloads, fingerprints
    and summaries of [publications/builders.py]; [Artifacts] what a publication
    leaves behind ([manifests.py], [document_artifacts.py]); [Restore]
    [publications/restore.py].  [publications/services.py] is in [Queue] (dirty
    scopes, enqueueing, coalescing, claiming), [Build] and [Worker] (finalizing,
    failing and recovering a job, the build of a claimed job, the build lane of
    [work_cycle.py]) and [Admin] (publish, reject, stage, rebuild, cancel, roll
    back, delete).  [Retention] is [publications/retention.py].

    [Lifecycle] is the contract: a state machine on a [View] of the scopes, the
    attempts and the jobs, with its steps [lstep] and invariant [Inv].
    [Simulation] gives the rules by which a service is shown to move by these
    steps, [QueueSim] and [AdminSim] (the build, the administrators, retention and the
    worker) apply them, and
    [System] puts all services together as requests with reachability.

    - [SystemTheorems]: every request refines the lifecycle; one published
      publication and one active job per scope; attempts follow their jobs;
      versions are never reused; attempts and ended jobs are history.
    - [QueueTheorems], [PublishTheorems], [WorkerTheorems]:
      what claiming, coalescing, failing, recovering,
      finalizing, building and rolling back do, errors included.
    - [AccessTheorems]: who may administer a scope, and that anybody else changes
      nothing.  [RetentionTheorems]: what retention keeps and
      when a shared artifact is removed.  [DataTheorems]: the registry's table,
      fingerprints, summaries and the nightly window.

    [Totality] has the shared rules: which tables a program touches, and programs that do
    not raise.

    ** Tablets and delivery

    [Text] is Python's text and number formatting, [Versions]
    [tablets/versions.py]; [publications/hpke.py] is in [ApplicationSecrets].  [Tablets] is the whole of
    [tablets/services.py]; [TabletQueries] is [queries.py] and [activity.py];
    [Assignments] is [assignments/services.py].  [Manifests] is what an installation
    may receive ([publications/manifests.py], features, rescue guides, the version
    policy, [document_authorization.py]) and [Grants] the work of the delivery lane
    ([worker_grants.py], the key grants of [document_v2.py], [work_cycle.py]).

    [TabletInv] states the invariant: names and numbers, current installations,
    invitations, and that only current installations hold keys.  [TabletServices]
    and [DeliveryInv] show that every service keeps it; [DeliveryInv] also defines
    [entitled], who may have a publication.  [TabletSystem] adds what never
    changes back and composes all services with what happens between requests.

    - [TabletTheorems]: who holds keys, uniqueness and history in every reachable
      store; adoption against its specification [adopted]; failed proofs.
    - [LeaseTheorems]: credentials, when a lease is renewed, the end of leases, and
      what a withdrawn tablet leaves behind; allocation of asset numbers ends with a
      free one; a tablet has one vehicle.
    - [DeliveryTheorems]: keys only for the entitled and sealed for their own key,
      manifests only for the present state, and a safe clean-up.
    - [Versions] proves that reading and printing versions and builds are inverse.

    ** Accounts, roles, organization and personnel

    [Accounts] is [accounts/services.py], [managers.py] and the two commands that set up
    the first administrator; [Roles] the administration in [authorization/services.py];
    [Organizations] [organizations/services.py]; [Personnel] [personnel/services.py].
    [RoleInv] states the invariant of accounts and roles and what authority never
    becomes again, [RoleSystem] shows that every service keeps both and
    puts them together with the tablet services.  [OrganizationSystem] has the services
    of organization and personnel as requests and shows how they sit beside the other
    systems: lifecycle steps to the publications, at most revoked keys to the tablets,
    nothing to the roles, with the invariant of people and assignments.

    - [RoleTheorems]: a department keeps an administrator, removed administrators stay
      out, authority is unambiguous, setup tokens work once, strangers change nothing;
      when failed sign-ins lock an account.
    - [OrganizationTheorems]: what retiring a vehicle and closing a station leave behind,
      why a station is never deleted; people are kept
      consistently, the anonymized stay anonymous, offboarding.
    - [AuditTheorems]: the audit trail is append-only, across all services, those of
      report transfer included.
    - [ScopeState] is [publications/state.py], the state the pages show;
      [StateTheorems] that it follows the jobs, and what the summaries count.

    ** Application secrets and outbound mail

    [Encoding] is UTF-8 and base64, [ApplicationSecrets]
    [application_secrets/crypto.py]: key rings, envelopes and the cipher.  Of
    [outbound_mail/], [MailProviders] has the messages, the network policy, the HTTPS
    transport, the configuration rows, the SMTP and Brevo adapters
    and their registry, [MailServices] [services.py] and [secret_rotation.py], [ReportDelivery]
    the admission of a report, the provider of a department, the attempt and the
    idempotent requests.  Between the steps of a
    submission other sessions run ([others n]).

    [MailInv] is the invariant of the settings: usable modes, credentials in pairs, and
    that a verification recorded as successful was one of exactly the present settings;
    [MailRotation] shows that rotation keeps every secret.  [MailSystem] has the services
    as requests.  [ReportRequests] is the protocol of the delivery requests as rely and
    guarantee: what a session relies on ([request_rely]) while others run and what it
    guarantees them.

    - [SecretTheorems]: secrets come back, only under their context; a generated key ring
      is accepted.
    - [MailTheorems]: providers are used only with settings they were verified with;
      reports go to authorized recipients, at most once per request, with the documented
      answers; rotation loses nothing; strangers change no settings.
    - [RecipientTheorems]: the recipient policy decides as its form says, and SMTP
      connections reach permitted addresses only.  [MailDemo] is their concrete set-up.

    ** Report transfer

    Of [report_transfer/], [JsonText] and [ReportDocuments] are [contract.py] and
    [documents.py]: the text of a package is read with the hooks that refuse duplicate
    keys, deep nesting and wrong numbers, the envelope and the document are validated, and
    the package is decrypted.  The reader's fuel is twice the length of the text, which the
    round trip shows to be enough for all that was written by [json_dumps].
    [ReportTransfer] is [storage.py], [services.py] and the loaders of [exports.py]: the spool
    is a map of file names beside the tables, and a transaction that fails leaves
    the files it wrote ([transaction_files]).  [ReportPortal] is [transfers.py] and [portal.py]: the
    grants, the one mail with their link, its redemption, sessions and downloads.

    [ReportInv] is the invariant of reports, receipts and grants, with the history that no
    run takes back ([evolves_reports]), kept by submission, downloads and clean-up;
    [ReportPortalInv] adds the grants and puts all services together as requests.

    - [ReportTheorems]: a link opens once and gives what was granted while its recipient
      is entitled; a package is accepted once and stays readable as it was submitted until
      its deadline; expiry is final; the clean-up removes what has expired and nothing else; a
      grant is mailed at most once.
    - [DocumentTheorems]: canonical JSON is read back, and validated documents are within
      their bounds.  [ReportDemo] is the concrete set-up.

    ** Not modelled

    Views, forms, templates, serializers and management commands (glue around the
    services); the file system and sockets (I/O); the builders of single
    datasets and document generations, which mostly call libraries;
    ingestion and reference data, and file libraries.  Of report transfer: the drawing of
    [pdf.py], the request checks of [security.py], the HTTP views of the portal,
    the removal of unfinished receipts in the clean-up.  Columns the
    database fills by itself ([auto_now]) are left out unless a service reads them.
    Deadlocks, isolation anomalies and the lost races the code answers with
    [IntegrityError] cannot occur in the model, except where a handler for them is part
    of a service and is modelled with it. *)
From stdpp Require Export prelude gmap strings sorting pretty.
From Stdlib Require Export ZArith Lia.

#[global] Set Default Goal Selector "!".
Open Scope string_scope.
Open Scope Z_scope.
Open Scope list_scope.

(** ** Exceptions

    The Python exception classes the modelled code raises or catches.  A value
    of [Exn] is one raised exception: its class and its message; a [TabletError] also has a
    [code], and so have the errors of mail, secrets and report transfer.
    [EDiverges] is not one of them: it marks a loop of the code that does not end. *)
Inductive exn_class :=
| EPublication | EPublicationBuild | EDatasetRegistry | EPermissionDenied
| EValidation | EIntegrity | EDatabaseGuard | EDatabase | EDoesNotExist | EValue
| EKey | EAttribute | EType | EOSError | EArtifact | EManifest | EKeyGrant | EHPKE | EAppVersion
| EAssignment | EDuplicateEmail | ECommand | EPersonnel | EFeature | EDocumentV2 | EInvalidUnwrap | ECredential
| ELibrary | EStorage | EPdfValidation (code : string) | EPdfSanitizer | EProtected
| EDiverges
| ETransport | ENetworkPolicy | ESecret (code : string)
| ESecretRotation (reference code : string) | EMailProvider (code : string)
| EAdmission (code : string) | ETransfer (code : string) (status : Z) | ETablet (code : string).

#[export] Instance exn_class_eq : EqDecision exn_class.
Proof. solve_decision. Defined.

Record Exn := mkExn { exn_kind : exn_class; exn_message : string }.

(** ** The state-and-error monad

    A piece of Python code over a store [S] is a function that returns a value
    or an exception together with the store it leaves behind. *)
Inductive outcome (A : Type) :=
| Val (a : A)
| Exc (e : Exn).
Arguments Val {A} a.
Arguments Exc {A} e.

Definition M (S A : Type) : Type := S → outcome A * S.

Definition ret {S A} (a : A) : M S A := λ s, (Val a, s).

Definition bind {S A B} (m : M S A) (k : A → M S B) : M S B := λ s,
  match m s with
  | (Val a, s') => k a s'
  | (Exc e, s') => (Exc e, s')
  end.

Definition raise {S A} (c : exn_class) (msg : string) : M S A :=
  λ s, (Exc (mkExn c msg), s).

Definition reraise {S A} (e : Exn) : M S A := λ s, (Exc e, s).

Definition gets {S A} (f : S → A) : M S A := λ s, (Val (f s), s).

Definition modify {S} (f : S → S) : M S unit := λ s, (Val tt, f s).

(** [with transaction.atomic():] — an exception leaves the store as it was
    when the block was entered. *)
Definition atomic {S A} (m : M S A) : M S A := λ s,
  match m s with
  | (Val a, s') => (Val a, s')
  | (Exc e, _) => (Exc e, s)
  end.

(** [try: m except ...: h] — the handler gives the code of the [except] clause
    that matches, or [None] when the exception propagates. *)
Definition try_except {S A} (m : M S A) (h : Exn → option (M S A)) : M S A := λ s,
  match m s with
  | (Val a, s') => (Val a, s')
  | (Exc e, s') =>
      match h e with
      | Some k => k s'
      | None => (Exc e, s')
      end
  end.

(** [try: m finally: f] *)
Definition try_finally {S A} (m : M S A) (f : M S unit) : M S A := λ s,
  match m s with
  | (r, s') =>
      match f s' with
      | (Val _, s'') => (r, s'')
      | (Exc e, s'') => (Exc e, s'')
      end
  end.

(** [for x in l: f x] *)
Fixpoint for_each {S A} (l : list A) (f : A → M S unit) : M S unit :=
  match l with
  | [] => ret tt
  | x :: l' => bind (f x) (λ _, for_each l' f)
  end.

(** [[f(x) for x in l]] *)
Fixpoint map_m {S A B} (f : A → M S B) (l : list A) : M S (list B) :=
  match l with
  | [] => ret []
  | x :: l' => bind (f x) (λ y, bind (map_m f l') (λ ys, ret (y :: ys)))
  end.

(** A loop that threads an accumulator. *)
Fixpoint fold_m {S A B} (f : B → A → M S B) (b : B) (l : list A) : M S B :=
  match l with
  | [] => ret b
  | x :: l' => bind (f b x) (λ b', fold_m f b' l')
  end.

Declare Scope py_scope.
Delimit Scope py_scope with py.
Notation "'let!' x ':=' m 'in' k" := (bind m (λ x, k))
  (at level 10, x name, m at level 100, k at level 200) : py_scope.
Notation "'let!' ' p ':=' m 'in' k" := (bind m (λ p, k))
  (at level 10, p strict pattern, m at level 100, k at level 200) : py_scope.
Notation "m ;;; k" := (bind m (λ _, k))
  (at level 100, k at level 200, right associativity) : py_scope.
Open Scope py_scope.

(** [if c: raise ...] — the early exits of the services. *)
Definition guard {S} (c : bool) (k : exn_class) (msg : string) : M S unit :=
  if c then ret tt else raise k msg.

Definition when {S} (c : bool) (m : M S unit) : M S unit :=
  if c then m else ret tt.

(** [.get()] on a query that may have no row. *)
Definition get_or_raise {S A} (o : option A) (k : exn_class) (msg : string) : M S A :=
  match o with
  | Some a => ret a
  | None => raise k msg
  end.

(** ** Record update

    [x <| field := v |>] is the assignment [x.field = v] on a record value. *)
Class Setter {R T} (proj : R → T) := set : (T → T) → R → R.
Arguments set {R T} proj {_} _ _.
Notation "x <| proj ::= f |>" := (set proj f x)
  (at level 1, left associativity, f at level 200).
Notation "x <| proj := v |>" := (set proj (λ _, v) x)
  (at level 1, left associativity, v at level 200).

(** ** Weakest liberal preconditions

    [wlp m s Q]: if [m] returns normally from [s] then [Q] holds of its value
    and of the store it leaves. *)
Definition wlp {S A} (m : M S A) (s : S) (Q : A → S → Prop) : Prop :=
  match m s with
  | (Val a, s') => Q a s'
  | (Exc _, _) => True
  end.

(** [wp m s Q]: [m] does return normally, with [Q]. *)
Definition wp {S A} (m : M S A) (s : S) (Q : A → S → Prop) : Prop :=
  match m s with
  | (Val a, s') => Q a s'
  | (Exc _, _) => False
  end.

(** ** Python values used as conditions *)

(** A string is true when it is not empty. *)
Definition str_true (x : string) : bool := negb (String.eqb x "").

(** [x or y] on strings. *)
Definition str_or (x y : string) : string := if str_true x then x else y.

Definition opt_true {A} (o : option A) : bool :=
  match o with Some _ => true | None => false end.

(** [s[:n]] *)
Fixpoint str_take (n : nat) (x : string) : string :=
  match n, x with
  | S n', String c x' => String c (str_take n' x')
  | _, _ => EmptyString
  end.

(** [a or b] on optional values. *)
Definition opt_or {A} (a b : option A) : option A :=
  match a with Some _ => a | None => b end.

(** ** Query helpers on tables

    A table is a finite map from primary keys to rows.  [rows m P] is the
    list of the rows a [filter()] selects, with their keys. *)
Definition rows {A} (m : gmap N A) (P : N → A → bool) : list (N * A) :=
  filter (λ r, P r.1 r.2 = true) (map_to_list m).

Definition exists_row {A} (m : gmap N A) (P : N → A → bool) : bool :=
  match rows m P with [] => false | _ => true end.

(** [order_by(...)]: a stable sort by an integer-list key. *)
Fixpoint lex_le (x y : list Z) : bool :=
  match x, y with
  | [], _ => true
  | _ :: _, [] => false
  | a :: x', b :: y' => if a <? b then true else if a =? b then lex_le x' y' else false
  end.

Definition key_le {A} (key : A → list Z) (x y : A) : Prop :=
  lex_le (key x) (key y) = true.

#[export] Instance key_le_dec {A} (key : A → list Z) : RelDecision (key_le key).
Proof. intros x y. unfold key_le. apply bool_eq_dec. Defined.

Definition order_by {A} (key : A → list Z) (l : list A) : list A :=
  merge_sort (key_le key) l.

(** A key that no row of the table has; [uuid.uuid4()] for a new row. *)
Definition fresh_id {A} (m : gmap N A) : N :=
  N.succ (map_fold (λ k _ acc, N.max k acc) 0%N m).

(** ** Lemmas on the tables *)

Section tables.
Context {A : Type}.
Implicit Types (m : gmap N A) (P : N → A → bool).

Lemma rows_elem m P k a : (k, a) ∈ rows m P ↔ m !! k = Some a ∧ P k a = true.
Proof.
  unfold rows. rewrite list_elem_of_filter, elem_of_map_to_list. simpl. tauto.
Qed.

Lemma rows_NoDup m P : NoDup (rows m P).*1.
Proof.
  unfold rows. pose proof (NoDup_fst_map_to_list m) as H.
  induction (map_to_list m) as [|[k a] l IH]; [exact H|].
  inversion H as [|? ? Hnot Hl]; subst. rewrite filter_cons.
  destruct (decide _); [|apply IH, Hl]. constructor; [|apply IH, Hl].
  intros Hin. apply Hnot. apply list_elem_of_fmap in Hin as ([k' a'] & Heq & Hin).
  apply list_elem_of_filter in Hin as [_ Hin]. simpl in Heq. subst k'.
  apply list_elem_of_fmap. eexists. split; [|exact Hin]. reflexivity.
Qed.

Lemma exists_row_true m P : exists_row m P = true ↔ ∃ k a, m !! k = Some a ∧ P k a = true.
Proof.
  unfold exists_row. destruct (rows m P) as [|[k a] l] eqn:E.
  - split; [discriminate|]. intros (k & a & H). apply rows_elem in H. rewrite E in H.
    inversion H.
  - split; [intros _|reflexivity]. exists k, a. apply rows_elem. rewrite E. left.
Qed.

Lemma exists_row_false m P :
  exists_row m P = false ↔ ∀ k a, m !! k = Some a → P k a = false.
Proof.
  rewrite <- not_true_iff_false, exists_row_true. split.
  - intros H k a Hk. apply not_true_is_false. intros HP. apply H. eauto.
  - intros H (k & a & Hk & HP). rewrite (H k a Hk) in HP. discriminate.
Qed.

Lemma fresh_id_above m k a : m !! k = Some a → (k < fresh_id m)%N.
Proof.
  unfold fresh_id. intros Hk.
  enough (k ≤ map_fold (λ k _ acc, N.max k acc) 0 m)%N by lia.
  revert k a Hk. apply (map_fold_weak_ind (λ r m, ∀ k a, m !! k = Some a → (k ≤ r)%N)).
  - intros k a Hk. rewrite lookup_empty in Hk. discriminate.
  - intros i x m' r Hi IH k a Hk. apply lookup_insert_Some in Hk as [[-> _]|[_ Hk]]; [lia|].
    specialize (IH _ _ Hk). lia.
Qed.

Lemma fresh_id_fresh m : m !! fresh_id m = None.
Proof.
  destruct (m !! fresh_id m) as [a|] eqn:E; [|reflexivity].
  apply fresh_id_above in E. lia.
Qed.
End tables.

(** A row with what an evaluation shows of it. *)
Lemma row_with {A B} (f : A → B) (o : option A) b : f <$> o = Some b → ∃ a, o = Some a ∧ f a = b.
Proof. destruct o as [a|]; [|discriminate]. intros [= <-]. eauto. Qed.

(** ** Ordering *)

Lemma lex_le_refl x : lex_le x x = true.
Proof. induction x as [|a x IH]; simpl; [reflexivity|]. rewrite Z.ltb_irrefl, Z.eqb_refl. exact IH. Qed.

Lemma lex_le_total x y : lex_le x y = true ∨ lex_le y x = true.
Proof.
  revert y. induction x as [|a x IH]; intros [|b y]; simpl; [auto..|].
  destruct (Z.ltb_spec a b), (Z.ltb_spec b a); auto.
  assert (a = b) as -> by lia. rewrite Z.eqb_refl. apply IH.
Qed.

Lemma lex_le_trans x y z : lex_le x y = true → lex_le y z = true → lex_le x z = true.
Proof.
  revert y z. induction x as [|a x IH]; intros [|b y] [|c z]; simpl; try easy.
  destruct (Z.ltb_spec a b), (Z.ltb_spec b c), (Z.ltb_spec a c),
    (Z.eqb_spec a b), (Z.eqb_spec b c), (Z.eqb_spec a c); intros; try easy; try lia.
  eapply IH; eassumption.
Qed.

Section order.
Context {A : Type} (key : A → list Z).

#[export] Instance key_le_trans : Transitive (key_le key).
Proof. intros x y z. unfold key_le. apply lex_le_trans. Qed.

#[export] Instance key_le_total : Total (key_le key).
Proof. intros x y. unfold key_le. apply lex_le_total. Qed.

Lemma order_by_perm l : order_by key l ≡ₚ l.
Proof. apply merge_sort_Permutation. Qed.

Lemma order_by_elem l x : x ∈ order_by key l ↔ x ∈ l.
Proof. rewrite order_by_perm. reflexivity. Qed.

Lemma order_by_sorted l : StronglySorted (key_le key) (order_by key l).
Proof. apply (StronglySorted_merge_sort _). Qed.

(** The first row of an ordered query has the least key. *)
Lemma order_by_head_Some l x :
  head (order_by key l) = Some x → x ∈ l ∧ ∀ y, y ∈ l → lex_le (key x) (key y) = true.
Proof.
  intros Hx. pose proof (order_by_sorted l) as Hs.
  destruct (order_by key l) as [|x' r] eqn:E; simplify_eq/=. split.
  - apply order_by_elem. rewrite E. left.
  - intros y Hy. apply order_by_elem in Hy. rewrite E in Hy.
    inversion Hy as [|? ? ? Hr]; subst; [apply lex_le_refl|].
    inversion Hs as [|? ? ? Hall]; subst. rewrite Forall_forall in Hall. apply Hall, Hr.
Qed.

Lemma order_by_head_None l : head (order_by key l) = None → l = [].
Proof.
  intros Hx. destruct (order_by key l) as [|x' r] eqn:E; [|discriminate].
  symmetry. apply Permutation_nil_l. rewrite <- (order_by_perm l), E. reflexivity.
Qed.
End order.

(** ** Rules for the monad *)

Section rules.
Context {S : Type}.

Lemma wlp_mono {A} (m : M S A) s Q Q' :
  wlp m s Q → (∀ a s', Q a s' → Q' a s') → wlp m s Q'.
Proof. unfold wlp. destruct (m s) as [[a|e] s']; auto. Qed.

Lemma wlp_bind {A B} (m : M S A) (k : A → M S B) s Q :
  wlp m s (λ a s', wlp (k a) s' Q) → wlp (bind m k) s Q.
Proof. unfold wlp, bind. destruct (m s) as [[a|e] s']; auto. Qed.

Lemma wlp_ret {A} (a : A) (s : S) (Q : A → S → Prop) : Q a s → wlp (ret a) s Q.
Proof. auto. Qed.

Lemma wlp_atomic {A} (m : M S A) s Q : wlp m s Q → wlp (atomic m) s Q.
Proof. unfold wlp, atomic. destruct (m s) as [[a|e] s']; auto. Qed.

Lemma wlp_elim {A} (m : M S A) s Q a s' : wlp m s Q → m s = (Val a, s') → Q a s'.
Proof. unfold wlp. intros H E. rewrite E in H. exact H. Qed.

Lemma wp_wlp {A} (m : M S A) s Q : wp m s Q → wlp m s Q.
Proof. unfold wp, wlp. destruct (m s) as [[a|e] s']; tauto. Qed.

Lemma bind_Val {A B} (m : M S A) (k : A → M S B) s b s'' :
  bind m k s = (Val b, s'') → ∃ a s', m s = (Val a, s') ∧ k a s' = (Val b, s'').
Proof. unfold bind. destruct (m s) as [[a|e] s']; [eauto|discriminate]. Qed.

Lemma bind_run {A B} (m : M S A) (k : A → M S B) s a s' :
  m s = (Val a, s') → bind m k s = k a s'.
Proof. unfold bind. intros ->. reflexivity. Qed.

Lemma bind_exc {A B} (m : M S A) (k : A → M S B) s e s' :
  m s = (Exc e, s') → bind m k s = (Exc e, s').
Proof. unfold bind. intros ->. reflexivity. Qed.

Lemma atomic_Val {A} (m : M S A) s a s' : atomic m s = (Val a, s') → m s = (Val a, s').
Proof. unfold atomic. destruct (m s) as [[?|?] ?]; congruence. Qed.

(** An exception out of a transaction leaves the store untouched. *)
Lemma atomic_Exc {A} (m : M S A) s e s' : atomic m s = (Exc e, s') → s' = s.
Proof. unfold atomic. destruct (m s) as [[?|?] ?]; congruence. Qed.

Lemma guard_Val (c : bool) k msg (s : S) u s' :
  guard c k msg s = (Val u, s') → c = true ∧ s' = s.
Proof. unfold guard, ret, raise. destruct c; intros [=]; auto. Qed.
End rules.

(** ** Relations that a program keeps between its start and its end

    [preserves R m]: whatever the outcome of [m], [R] relates the store it starts
    in and the store it leaves.  For a preorder this is compositional, so the
    structure of a program proves it. *)
Definition preserves {S A} (R : relation S) (m : M S A) : Prop := ∀ s, R s (m s).2.

(** A check or a query: it leaves the store as it is. *)
Abbreviation readonly m := (preserves eq m).

Section preserves.
Context {S : Type} (R : relation S) `{!PreOrder R}.

Lemma preserves_readonly {A} (m : M S A) : readonly m → preserves R m.
Proof. intros H s. rewrite <- (H s). reflexivity. Qed.

Lemma preserves_ret {A} (a : A) : preserves R (ret a).
Proof. intros s. simpl. reflexivity. Qed.

Lemma preserves_raise {A} k msg : preserves R (raise k msg : M S A).
Proof. intros s. simpl. reflexivity. Qed.

Lemma preserves_reraise {A} e : preserves R (reraise e : M S A).
Proof. intros s. simpl. reflexivity. Qed.

Lemma preserves_gets {A} (f : S → A) : preserves R (gets f).
Proof. intros s. simpl. reflexivity. Qed.

Lemma preserves_modify f : (∀ s, R s (f s)) → preserves R (modify f).
Proof. intros H s. simpl. apply H. Qed.

Lemma preserves_bind {A B} (m : M S A) (k : A → M S B) :
  preserves R m → (∀ a, preserves R (k a)) → preserves R (bind m k).
Proof.
  intros Hm Hk s. specialize (Hm s). unfold bind. destruct (m s) as [[a|e] s']; [|exact Hm].
  simpl in Hm. etrans; [exact Hm|apply Hk].
Qed.

Lemma preserves_atomic {A} (m : M S A) : preserves R m → preserves R (atomic m).
Proof.
  intros Hm s. specialize (Hm s). unfold atomic.
  destruct (m s) as [[a|e] s']; [exact Hm|simpl; reflexivity].
Qed.

(** A transaction only has to keep the relation when it commits. *)
Lemma preserves_atomic_wlp {A} (m : M S A) :
  (∀ s, wlp m s (λ _ s', R s s')) → preserves R (atomic m).
Proof.
  intros Hm s. specialize (Hm s). unfold atomic, wlp in *.
  destruct (m s) as [[a|e] s']; [exact Hm|simpl; reflexivity].
Qed.

Lemma preserves_try_except {A} (m : M S A) h :
  preserves R m → (∀ e k, h e = Some k → preserves R k) → preserves R (try_except m h).
Proof.
  intros Hm Hh s. specialize (Hm s). unfold try_except.
  destruct (m s) as [[a|e] s']; [exact Hm|]. destruct (h e) as [k|] eqn:E; [|exact Hm].
  simpl in Hm. etrans; [exact Hm|exact (Hh _ _ E s')].
Qed.

Lemma preserves_try_finally {A} (m : M S A) f :
  preserves R m → preserves R f → preserves R (try_finally m f).
Proof.
  intros Hm Hf s. specialize (Hm s). unfold try_finally. destruct (m s) as [r s'].
  specialize (Hf s'). destruct (f s') as [[u|e] s'']; simpl in *; etrans; eassumption.
Qed.

Lemma preserves_for_each {A} (l : list A) f :
  (∀ x, preserves R (f x)) → preserves R (for_each l f).
Proof.
  intros Hf. induction l; simpl; [apply preserves_ret|]. apply preserves_bind; auto.
Qed.

Lemma preserves_map_m {A B} (f : A → M S B) (l : list A) :
  (∀ x, preserves R (f x)) → preserves R (map_m f l).
Proof.
  intros Hf. induction l as [|x l IH]; [apply preserves_ret|].
  apply preserves_bind; [apply Hf|]. intros y. apply preserves_bind; [apply IH|].
  intros ys. apply preserves_ret.
Qed.

Lemma preserves_fold_m {A B} (f : B → A → M S B) b l :
  (∀ b x, preserves R (f b x)) → preserves R (fold_m f b l).
Proof.
  intros Hf. revert b. induction l; intros b; simpl; [apply preserves_ret|].
  apply preserves_bind; auto.
Qed.

Lemma preserves_guard c k msg : preserves R (guard c k msg : M S unit).
Proof. unfold guard. destruct c; [apply preserves_ret|apply preserves_raise]. Qed.

Lemma preserves_when (c : bool) (m : M S unit) :
  (c = true → preserves R m) → preserves R (when c m).
Proof. unfold when. destruct c; [auto|intros; apply preserves_ret]. Qed.

Lemma preserves_get_or_raise {A} (o : option A) k msg :
  preserves R (get_or_raise o k msg : M S A).
Proof. destruct o; [apply preserves_ret|apply preserves_raise]. Qed.

Lemma preserves_wlp {A} (m : M S A) s : preserves R m → wlp m s (λ _ s', R s s').
Proof. intros H. specialize (H s). unfold wlp. destruct (m s) as [[a|e] s']; auto. Qed.
End preserves.

Lemma readonly_wlp {S A} (m : M S A) s (Q : A → S → Prop) :
  readonly m → (∀ a, m s = (Val a, s) → Q a s) → wlp m s Q.
Proof.
  intros H HQ. specialize (H s). unfold wlp. destruct (m s) as [[a|e] s'] eqn:E; [|exact I].
  simpl in H. subst s'. auto.
Qed.

Create HintDb preserves.
#[export] Hint Extern 0 (PreOrder _) => exact _ : preserves.
#[export] Hint Resolve preserves_ret preserves_raise preserves_reraise preserves_gets
  preserves_guard preserves_get_or_raise : preserves.
(* a query keeps every preorder *)
#[export] Hint Extern 8 (preserves ?R _) =>
  lazymatch R with eq => fail | _ => apply preserves_readonly end : preserves.

(** [preserve] follows the structure of a program; what it cannot decide is
    left to the caller. *)
Ltac preserve_step :=
  lazymatch goal with
  | |- ∀ _, _ => intro
  | |- preserves _ (bind _ _) => apply preserves_bind; [exact _| |]
  | |- preserves _ (atomic _) => apply preserves_atomic; [exact _|]
  | |- preserves _ (when _ _) => apply preserves_when; [exact _|]
  | |- preserves _ (for_each _ _) => apply preserves_for_each; [exact _|]
  | |- preserves _ (fold_m _ _ _) => apply preserves_fold_m; [exact _|]
  | |- preserves _ (map_m _ _) => apply preserves_map_m; [exact _|]
  | |- preserves _ (try_finally _ _) => apply preserves_try_finally; [exact _| |]
  | |- preserves _ (try_except _ _) =>
      apply preserves_try_except;
        [exact _| |let e := fresh "e" in intros e ? ?; destruct (exn_kind e); simplify_eq]
  | |- preserves _ (match ?x with _ => _ end) => destruct x
  | |- preserves _ ((match ?x with _ => _ end) _) => destruct x
  end.

Ltac preserve := repeat first [ solve [eauto 3 with preserves] | preserve_step ].

(** A handler that the class of the exception selects. *)
Ltac handlers := try (cbn in *; simplify_eq; preserve).
