(* ===== verification/Text.v ===== *)
(** Text as Python treats it: [strip], [zfill], [split], decimal and hexadecimal
    integers, identifiers and instants, with the lemmas that relate printing a
    number to reading it. *)
From S2P Require Import Prelude.
From Stdlib Require Import Ascii.

(** ** Strings *)

(** The characters below U+0100 that [str.isspace] accepts. *)
Definition is_space (c : ascii) : bool :=
  let n := nat_of_ascii c in
  (Nat.leb 9 n && Nat.leb n 13) || (Nat.leb 28 n && Nat.leb n 32)
  || Nat.eqb n 133 || Nat.eqb n 160.

Fixpoint str_lstrip (s : string) : string :=
  match s with
  | String c s' => if is_space c then str_lstrip s' else s
  | EmptyString => EmptyString
  end.

Fixpoint str_rstrip (s : string) : string :=
  match s with
  | String c s' =>
      let r := str_rstrip s' in
      if is_space c && String.eqb r "" then EmptyString else String c r
  | EmptyString => EmptyString
  end.

(** [s.strip()] *)
Definition str_strip (s : string) : string := str_rstrip (str_lstrip s).

(** [s.upper()] on ASCII letters. *)
Definition upper_char (c : ascii) : ascii :=
  let n := nat_of_ascii c in
  if Nat.leb 97 n && Nat.leb n 122 then ascii_of_nat (n - 32) else c.

Fixpoint str_upper (s : string) : string :=
  match s with EmptyString => "" | String c s' => String (upper_char c) (str_upper s') end.

(** [s.lower()] on characters below U+0100 *)
Definition lower_char (c : ascii) : ascii :=
  let n := nat_of_ascii c in
  if (Nat.leb 65 n && Nat.leb n 90) || (Nat.leb 192 n && Nat.leb n 222 && negb (Nat.eqb n 215))
  then ascii_of_nat (n + 32) else c.

Fixpoint str_lower (s : string) : string :=
  match s with EmptyString => "" | String c s' => String (lower_char c) (str_lower s') end.

(** [s.casefold()] on characters below U+0100: the letters go to lower case and the
    sharp s is spelled out.  The micro sign, which folds to a letter outside this
    range, is kept. *)
Definition casefold_char (c : ascii) : string :=
  let n := nat_of_ascii c in
  if (Nat.leb 65 n && Nat.leb n 90) || (Nat.leb 192 n && Nat.leb n 222 && negb (Nat.eqb n 215))
  then String (ascii_of_nat (n + 32)) ""
  else if Nat.eqb n 223 then "ss" else String c "".

Fixpoint str_casefold (s : string) : string :=
  match s with EmptyString => "" | String c s' => casefold_char c +:+ str_casefold s' end.

(** [s.endswith(t)] *)
Definition str_endswith (t s : string) : bool :=
  Nat.leb (String.length t) (String.length s)
  && String.eqb (String.substring (String.length s - String.length t) (String.length t) s) t.

(** [c * n] for a character. *)
Fixpoint str_repeat (c : ascii) (n : nat) : string :=
  match n with O => "" | S n' => String c (str_repeat c n') end.

(** [s.zfill(width)]: zeros go after a leading sign. *)
Definition str_zfill (width : nat) (s : string) : string :=
  let zeros := str_repeat "0" (width - String.length s) in
  match s with
  | String c s' =>
      if (c =? "+")%char || (c =? "-")%char then String c (zeros +:+ s') else zeros +:+ s
  | EmptyString => zeros
  end.

(** [s.split(sep)] for a separator of one character. *)
Fixpoint str_split (sep : ascii) (s : string) : list string :=
  match s with
  | EmptyString => [""]
  | String c s' =>
      if (c =? sep)%char then "" :: str_split sep s'
      else match str_split sep s' with
           | x :: l => String c x :: l
           | [] => [String c ""]
           end
  end.

Fixpoint str_mem (c : ascii) (s : string) : bool :=
  match s with EmptyString => false | String c' s' => (c' =? c)%char || str_mem c s' end.

(** ** Integers *)

(** The value of a digit. *)
Definition digit_value (base : Z) (c : ascii) : option Z :=
  let n := Z.of_nat (nat_of_ascii c) in
  let v := if (48 <=? n) && (n <=? 57) then n - 48
           else if (97 <=? n) && (n <=? 122) then n - 87
           else if (65 <=? n) && (n <=? 90) then n - 55
           else base in
  if v <? base then Some v else None.

(** The digits of an integer literal; one underscore may separate two digits. *)
Fixpoint read_digits (base : Z) (after_digit : bool) (acc : Z) (s : string) : option Z :=
  match s with
  | EmptyString => if after_digit then Some acc else None
  | String c s' =>
      if (c =? "_")%char then
        if after_digit then read_digits base false acc s' else None
      else match digit_value base c with
           | Some d => read_digits base true (acc * base + d) s'
           | None => None
           end
  end.

Fixpoint count_digits (s : string) : Z :=
  match s with
  | EmptyString => 0
  | String c s' => (if (c =? "_")%char then 0 else 1) + count_digits s'
  end.

(** [sys.int_info.default_max_str_digits] *)
Definition MAX_STR_DIGITS : Z := 4300.

(** [int(s)]; [None] is a [ValueError]. *)
Definition read_int (s : string) : option Z :=
  let '(sign, digits) :=
    match str_strip s with
    | String c s' =>
        if (c =? "-")%char then (-1, s')
        else if (c =? "+")%char then (1, s') else (1, String c s')
    | EmptyString => (1, EmptyString)
    end in
  if MAX_STR_DIGITS <? count_digits digits then None
  else Z.mul sign <$> read_digits 10 false 0 digits.

Definition is_digit (c : ascii) : bool := opt_true (digit_value 10 c).

Fixpoint all_digits (s : string) : bool :=
  match s with EmptyString => true | String c s' => is_digit c && all_digits s' end.

(** The regular expression [0|[1-9][0-9]*]. *)
Definition canonical_number (s : string) : bool :=
  match s with
  | EmptyString => false
  | String c s' =>
      if (c =? "0")%char then String.eqb s' "" else is_digit c && all_digits s'
  end.

(** ** Hexadecimal *)

Definition hex_digit (n : nat) : string :=
  nth n ["0";"1";"2";"3";"4";"5";"6";"7";"8";"9";"a";"b";"c";"d";"e";"f"] "".

(** [digest.hex()] *)
Fixpoint hex_of_bytes (s : string) : string :=
  match s with
  | EmptyString => ""
  | String c s' =>
      let n := nat_of_ascii c in
      hex_digit (Nat.div n 16) +:+ hex_digit (Nat.modulo n 16) +:+ hex_of_bytes s'
  end.

(** The last [k] hexadecimal digits of a number, before [acc]. *)
Fixpoint hex_fixed (k : nat) (n : N) (acc : string) : string :=
  match k with
  | O => acc
  | S k' => hex_fixed k' (n / 16) (hex_digit (N.to_nat (n mod 16)) +:+ acc)
  end.

Fixpoint str_drop (n : nat) (x : string) : string :=
  match n, x with
  | S n', String _ x' => str_drop n' x'
  | _, _ => x
  end.

(** [str(uuid)] of the UUID with the number [n]: groups of 8, 4, 4, 4 and 12
    digits. *)
Definition str_uuid (n : N) : string :=
  let h := hex_fixed 32 n "" in
  str_take 8 h +:+ "-" +:+ str_take 4 (str_drop 8 h) +:+ "-" +:+ str_take 4 (str_drop 12 h)
  +:+ "-" +:+ str_take 4 (str_drop 16 h) +:+ "-" +:+ str_drop 20 h.

(** [base64.b64encode(data).decode("ascii")] *)
Definition b64_alphabet : string :=
  "ABCDEFGHIJKLMNOPQRSTUVWXYZabcdefghijklmnopqrstuvwxyz0123456789+/".

Definition b64_char (n : nat) : string := String.substring n 1 b64_alphabet.

Fixpoint b64encode (s : string) : string :=
  match s with
  | EmptyString => ""
  | String a EmptyString =>
      let n := nat_of_ascii a in
      b64_char (n / 4) +:+ b64_char (n mod 4 * 16) +:+ "=="
  | String a (String b EmptyString) =>
      let n := nat_of_ascii a in let m := nat_of_ascii b in
      b64_char (n / 4) +:+ b64_char (n mod 4 * 16 + m / 16) +:+ b64_char (m mod 16 * 4) +:+ "="
  | String a (String b (String c s')) =>
      let n := nat_of_ascii a in let m := nat_of_ascii b in let k := nat_of_ascii c in
      b64_char (n / 4) +:+ b64_char (n mod 4 * 16 + m / 16)
      +:+ b64_char (m mod 16 * 4 + k / 64) +:+ b64_char (k mod 64) +:+ b64encode s'
  end%nat.

Example b64_foobar : (b64encode "foobar", b64encode "fooba", b64encode "foob") =
  ("Zm9vYmFy", "Zm9vYmE=", "Zm9vYg==").
Proof. reflexivity. Qed.

(** ** Instants *)

(** Year, month and day of the proleptic Gregorian calendar, from the days since
    1970-01-01. *)
Definition civil_of_days (days : Z) : Z * Z * Z :=
  let z := days + 719468 in
  let era := z / 146097 in
  let doe := z mod 146097 in
  let yoe := (doe - doe / 1460 + doe / 36524 - doe / 146096) / 365 in
  let doy := doe - (365 * yoe + yoe / 4 - yoe / 100) in
  let mp := (5 * doy + 2) / 153 in
  let d := doy - (153 * mp + 2) / 5 + 1 in
  let m := if mp <? 10 then mp + 3 else mp - 9 in
  (yoe + era * 400 + (if m <=? 2 then 1 else 0), m, d).

Definition two_digits (n : Z) : string := str_zfill 2 (pretty n).

(** Date and time of an instant in UTC; the microseconds only when there are any. *)
Definition iso_utc (instant : Z) : string :=
  let '(y, m, d) := civil_of_days (instant / 86400000000) in
  let seconds := instant mod 86400000000 / 1000000 in
  let micros := instant mod 1000000 in
  str_zfill 4 (pretty y) +:+ "-" +:+ two_digits m +:+ "-" +:+ two_digits d +:+ "T"
  +:+ two_digits (seconds / 3600) +:+ ":" +:+ two_digits (seconds / 60 mod 60) +:+ ":"
  +:+ two_digits (seconds mod 60)
  +:+ (if micros =? 0 then "" else "." +:+ str_zfill 6 (pretty micros)).

(** [value.isoformat()] of an aware UTC datetime. *)
Definition isoformat (instant : Z) : string := iso_utc instant +:+ "+00:00".

Example iso_epoch : isoformat 0 = "1970-01-01T00:00:00+00:00".
Proof. vm_compute. reflexivity. Qed.

Example iso_leap_day : isoformat 1709251199000007 = "2024-02-29T23:59:59.000007+00:00".
Proof. vm_compute. reflexivity. Qed.

Example uuid_one : str_uuid 1 = "00000000-0000-0000-0000-000000000001".
Proof. vm_compute. reflexivity. Qed.

(** ** Lemmas on numbers *)

Lemma str_cons_app c (a b : string) : String c a +:+ b = String c (a +:+ b).
Proof. reflexivity. Qed.

Lemma str_app_nil (a : string) : a +:+ "" = a.
Proof. induction a as [|x a IH]; [reflexivity|]. rewrite str_cons_app, IH. reflexivity. Qed.

Lemma str_app_assoc (a b c : string) : (a +:+ b) +:+ c = a +:+ (b +:+ c).
Proof. induction a as [|x a IH]; [reflexivity|]. rewrite !str_cons_app, IH. reflexivity. Qed.

Lemma str_length_app (a b : string) :
  String.length (a +:+ b) = (String.length a + String.length b)%nat.
Proof. induction a as [|x a IH]; [reflexivity|]. rewrite str_cons_app. simpl. congruence. Qed.

Lemma pretty_N_go_app (x : N) (s : string) : pretty_N_go x s = pretty_N_go x "" +:+ s.
Proof.
  revert s. induction (N.lt_wf_0 x) as [x _ IH]. intros s.
  destruct (decide (0 < x)%N) as [Hx|Hx].
  - rewrite (pretty_N_go_step x s), (pretty_N_go_step x "") by exact Hx.
    assert (Hd : (x `div` 10 < x)%N) by (apply N.div_lt; lia).
    rewrite (IH _ Hd (String _ s)), (IH _ Hd (String _ "")).
    rewrite str_app_assoc. reflexivity.
  - assert (x = 0)%N as -> by lia. reflexivity.
Qed.

(** A number with one more digit. *)
Lemma pretty_N_snoc (x d : N) : (0 < x)%N → (d < 10)%N →
  pretty (x * 10 + d)%N = pretty x +:+ String (pretty_N_char d) "".
Proof.
  intros Hx Hd. unfold pretty, pretty_N.
  rewrite !decide_False by lia.
  rewrite pretty_N_go_step by lia.
  rewrite N.div_add_l, N.div_small, N.add_0_r by lia.
  rewrite N.add_comm, N.Div0.mod_add, N.mod_small by lia. apply pretty_N_go_app.
Qed.

Lemma pretty_N_small (d : N) : (d < 10)%N → pretty d = String (pretty_N_char d) "".
Proof.
  intros Hd. assert (d ∈ [0;1;2;3;4;5;6;7;8;9]%N) as H
    by (rewrite !elem_of_cons; lia).
  repeat (apply elem_of_cons in H as [->|H]; [reflexivity|]). inversion H.
Qed.

Lemma pretty_Z_N (n : N) : pretty (Z.of_N n) = pretty n.
Proof. destruct n; reflexivity. Qed.

(** Numbers by their last digit. *)
Lemma N_digits_ind (P : N → Prop) :
  (∀ d, (d < 10)%N → P d) →
  (∀ x d, (0 < x)%N → (d < 10)%N → P x → P (x * 10 + d)%N) → ∀ n, P n.
Proof.
  intros H0 HS n. induction (N.lt_wf_0 n) as [n _ IH].
  destruct (decide (n < 10)%N) as [Hn|Hn]; [auto|].
  rewrite (N.div_mod n 10) by lia. rewrite N.mul_comm. apply HS.
  - apply N.div_str_pos. lia.
  - apply N.mod_lt. lia.
  - apply IH, N.div_lt; lia.
Qed.

Lemma digit_value_char (d : N) : (d < 10)%N →
  digit_value 10 (pretty_N_char d) = Some (Z.of_N d) ∧ (pretty_N_char d =? "_")%char = false.
Proof.
  intros Hd. assert (d ∈ [0;1;2;3;4;5;6;7;8;9]%N) as H
    by (rewrite !elem_of_cons; lia).
  repeat (apply elem_of_cons in H as [->|H]; [split; reflexivity|]). inversion H.
Qed.

Lemma digit_char (c : ascii) : is_digit c = true →
  ∃ d, (d < 10)%N ∧ c = pretty_N_char d.
Proof.
  intros H. exists (Z.to_N (default 0 (digit_value 10 c))).
  destruct c as [[] [] [] [] [] [] [] []]; vm_compute in H; try discriminate H.
  all: split; vm_compute; reflexivity.
Qed.

Lemma all_digits_app a b : all_digits (a +:+ b) = all_digits a && all_digits b.
Proof.
  induction a as [|c a IH]; [reflexivity|]. rewrite str_cons_app. simpl. rewrite IH.
  apply andb_assoc.
Qed.

(** Reading a printed number. *)
Lemma read_digits_pretty (n : N) (s : string) :
  read_digits 10 false 0 (pretty n +:+ s) = read_digits 10 true (Z.of_N n) s.
Proof.
  revert s. apply (N_digits_ind (λ n, ∀ s,
    read_digits 10 false 0 (pretty n +:+ s) = read_digits 10 true (Z.of_N n) s)).
  - intros d Hd s. rewrite pretty_N_small, str_cons_app by exact Hd. simpl.
    destruct (digit_value_char d Hd) as [-> ->]. reflexivity.
  - intros x d Hx Hd IH s. rewrite pretty_N_snoc, str_app_assoc by assumption. rewrite IH, str_cons_app. simpl.
    destruct (digit_value_char d Hd) as [-> ->]. f_equal. lia.
Qed.

Lemma canonical_number_pretty (n : N) : canonical_number (pretty n) = true.
Proof.
  enough (H : (n < 10)%N ∨ ∃ c s, pretty n = String c s ∧ (c =? "0")%char = false
      ∧ is_digit c = true ∧ all_digits s = true).
  { destruct H as [H|(c & s & -> & E & D & A)]; [|simpl; rewrite E, D; exact A].
    rewrite pretty_N_small by exact H. destruct (digit_value_char n H) as [E _].
    simpl. unfold is_digit. rewrite E. destruct (_ =? _)%char; reflexivity. }
  revert n. apply N_digits_ind; [auto|]. intros x d Hx Hd IH. right.
  rewrite pretty_N_snoc by assumption.
  assert (A : all_digits (String (pretty_N_char d) "") = true).
  { simpl. unfold is_digit. destruct (digit_value_char d Hd) as [-> _]. reflexivity. }
  destruct IH as [Hs|(c & s & -> & E & D & A')].
  - rewrite pretty_N_small by exact Hs. exists (pretty_N_char x), (String (pretty_N_char d) "").
    split_and!; [reflexivity| | |exact A].
    + assert (x ∈ [1;2;3;4;5;6;7;8;9]%N) as H by (rewrite !elem_of_cons; lia).
      repeat (apply elem_of_cons in H as [->|H]; [reflexivity|]). inversion H.
    + unfold is_digit. destruct (digit_value_char x Hs) as [-> _]. reflexivity.
  - exists c, (s +:+ String (pretty_N_char d) ""). split_and!; [reflexivity|exact E|exact D|].
    rewrite all_digits_app, A', A. reflexivity.
Qed.

Lemma read_more_digits s (x : N) : all_digits s = true → (0 < x)%N →
  ∃ v, read_digits 10 true (Z.of_N x) s = Some (Z.of_N v) ∧ pretty v = pretty x +:+ s.
Proof.
  revert x. induction s as [|c s IH]; intros x Ha Hx.
  - exists x. split; [reflexivity|]. rewrite str_app_nil. reflexivity.
  - simpl in Ha. apply andb_true_iff in Ha as [Hc Ha].
    destruct (digit_char c Hc) as (d & Hd & ->). simpl.
    destruct (digit_value_char d Hd) as [-> ->].
    destruct (IH (x * 10 + d)%N Ha) as (v & E & Ev); [lia|]. exists v. split.
    + rewrite <- E. f_equal. lia.
    + rewrite Ev, pretty_N_snoc, str_app_assoc by assumption. reflexivity.
Qed.

(** A canonical decimal is the printed form of the number it denotes. *)
Lemma read_canonical s : canonical_number s = true →
  ∃ v, read_digits 10 false 0 s = Some (Z.of_N v) ∧ s = pretty v.
Proof.
  destruct s as [|c s]; simpl; [discriminate|]. destruct (Ascii.eqb_spec c "0") as [->|Hc].
  - intros E%String.eqb_eq. subst s. exists 0%N. split; reflexivity.
  - intros [Hd Ha]%andb_true_iff. destruct (digit_char c Hd) as (d & Hd' & ->). simpl.
    destruct (digit_value_char d Hd') as [-> ->].
    destruct (read_more_digits s d Ha) as (v & E & Ev).
    + destruct d; [|lia]. exfalso. apply Hc. reflexivity.
    + exists v. split; [exact E|]. rewrite Ev, pretty_N_small by exact Hd'. reflexivity.
Qed.

(** ** [int] on printed numbers *)

Lemma digit_not_space c : is_digit c = true → is_space c = false.
Proof.
  intros (d & Hd & ->)%digit_char.
  assert (d ∈ [0;1;2;3;4;5;6;7;8;9]%N) as H by (rewrite !elem_of_cons; lia).
  repeat (apply elem_of_cons in H as [->|H]; [reflexivity|]). inversion H.
Qed.

Lemma str_strip_digits s : all_digits s = true → str_strip s = s.
Proof.
  intros Ha. unfold str_strip.
  assert (Hl : str_lstrip s = s).
  { destruct s as [|c s]; [reflexivity|]. simpl in Ha. apply andb_true_iff in Ha as [Hc _].
    simpl. rewrite (digit_not_space c Hc). reflexivity. }
  rewrite Hl. clear Hl. induction s as [|c s IH]; [reflexivity|].
  simpl in Ha. apply andb_true_iff in Ha as [Hc Ha]. simpl.
  rewrite (IH Ha), (digit_not_space c Hc). reflexivity.
Qed.

Lemma canonical_digits s : canonical_number s = true → all_digits s = true.
Proof.
  destruct s as [|c s]; simpl; [discriminate|]. destruct (Ascii.eqb_spec c "0") as [->|_]; [|auto].
  intros E%String.eqb_eq. subst s. reflexivity.
Qed.

Lemma count_digits_app a b : count_digits (a +:+ b) = count_digits a + count_digits b.
Proof.
  induction a as [|c a IH]; [reflexivity|]. rewrite str_cons_app. simpl. lia.
Qed.

(** A number below [10 ^ k] has at most [k] digits. *)
Lemma count_digits_pretty (k : nat) (n : N) :
  (0 < k)%nat → (n < 10 ^ N.of_nat k)%N → count_digits (pretty n) ≤ Z.of_nat k.
Proof.
  revert k. apply (N_digits_ind (λ n, ∀ k, (0 < k)%nat → (n < 10 ^ N.of_nat k)%N →
    count_digits (pretty n) ≤ Z.of_nat k)).
  - intros d Hd k Hk _. rewrite pretty_N_small by exact Hd. simpl. case_match; lia.
  - intros x d Hx Hd IH k Hk Hn. rewrite pretty_N_snoc, count_digits_app by assumption.
    simpl. destruct k as [|[|k]]; [lia|simpl in Hn; lia|].
    specialize (IH (S k)). rewrite (Nat2N.inj_succ (S k)), N.pow_succ_r' in Hn.
    case_match; lia.
Qed.

(** Digits are read without a sign, up to the limit of [int]. *)
Lemma read_int_digits s : all_digits s = true →
  read_int s = if MAX_STR_DIGITS <? count_digits s then None else read_digits 10 false 0 s.
Proof.
  intros Hs. unfold read_int. rewrite str_strip_digits by exact Hs.
  assert (E : ∀ o : option Z, Z.mul 1 <$> o = o) by (intros [z|]; simpl; f_equal; lia).
  destruct s as [|c s]; [reflexivity|]. simpl in Hs. apply andb_true_iff in Hs as [Hc _].
  assert ((c =? "-")%char = false ∧ (c =? "+")%char = false) as [-> ->].
  { destruct (Ascii.eqb_spec c "-"), (Ascii.eqb_spec c "+"); subst; done. }
  rewrite E. reflexivity.
Qed.

Lemma read_int_canonical s v : canonical_number s = true → read_int s = Some v →
  s = pretty v ∧ 0 ≤ v.
Proof.
  intros Hs. rewrite read_int_digits by (apply canonical_digits, Hs).
  destruct (read_canonical s Hs) as (n & E & En). rewrite E. case_match; [discriminate|].
  intros [= <-]. rewrite pretty_Z_N. split; [exact En|lia].
Qed.

Lemma read_int_pretty (z : Z) : 0 ≤ z → count_digits (pretty z) ≤ MAX_STR_DIGITS →
  read_int (pretty z) = Some z.
Proof.
  intros Hz Hc. assert (E : pretty z = pretty (Z.to_N z)).
  { rewrite <- pretty_Z_N. f_equal. lia. }
  rewrite E in Hc |- *.
  rewrite read_int_digits by (apply canonical_digits, canonical_number_pretty).
  destruct (Z.ltb_spec MAX_STR_DIGITS (count_digits (pretty (Z.to_N z)))); [lia|].
  rewrite <- (str_app_nil (pretty _)), read_digits_pretty. simpl. f_equal. lia.
Qed.

(** ** [split] *)

Lemma str_split_nomem sep s : str_mem sep s = false → str_split sep s = [s].
Proof.
  induction s as [|c s IH]; simpl; [reflexivity|]. intros [-> H]%orb_false_iff.
  rewrite (IH H). reflexivity.
Qed.

Lemma str_split_app sep s t : str_mem sep s = false →
  str_split sep (s +:+ String sep t) = s :: str_split sep t.
Proof.
  induction s as [|c s IH]; intros H.
  - simpl. rewrite Ascii.eqb_refl. reflexivity.
  - simpl in H. apply orb_false_iff in H as [E H]. rewrite str_cons_app. simpl.
    rewrite E, (IH H). reflexivity.
Qed.

(** The pieces, joined again, are the string. *)
Lemma str_split_cons sep s x l : str_split sep s = x :: l →
  match l with [] => s = x | y :: _ => ∃ t, s = x +:+ String sep t ∧ str_split sep t = l end.
Proof.
  revert x l. induction s as [|c s IH]; simpl; intros x l H.
  - injection H as <- <-. reflexivity.
  - destruct (Ascii.eqb_spec c sep) as [->|Hc].
    + injection H as <- <-. destruct (str_split sep s) as [|y l] eqn:E.
      * destruct s as [|c s]; simpl in E; [discriminate|].
        destruct (_ =? _)%char; [discriminate|]. destruct (str_split sep s); discriminate.
      * exists s. split; [reflexivity|exact E].
    + destruct (str_split sep s) as [|y l'] eqn:E.
      * destruct s as [|c' s]; simpl in E; [discriminate|].
        destruct (_ =? _)%char; [discriminate|]. destruct (str_split sep s); discriminate.
      * injection H as <- <-. specialize (IH y l' eq_refl). destruct l' as [|z l'].
        -- subst y. reflexivity.
        -- destruct IH as (t & -> & Et). exists t. split; [reflexivity|exact Et].
Qed.

Lemma digits_nomem s : all_digits s = true → str_mem "." s = false.
Proof.
  induction s as [|c s IH]; simpl; [reflexivity|]. intros [Hc Ha]%andb_true_iff.
  rewrite (IH Ha). destruct (Ascii.eqb_spec c "."); [subst c; discriminate Hc|reflexivity].
Qed.
