(* ===== verification/Encoding.v ===== *)
(** Texts as bytes: UTF-8 on the characters below U+0100, and base64 in its standard and
    its URL-safe form, with the round trips that envelopes, keys and tokens rely on. *)
From S2P Require Import Prelude Text.
From Stdlib Require Import Ascii ZifyNat.

(** ** UTF-8 *)

(** [value.encode("utf-8")] *)
Fixpoint utf8_encode (s : string) : string :=
  match s with
  | EmptyString => ""
  | String c s' =>
      let n := nat_of_ascii c in
      if Nat.ltb n 128 then String c (utf8_encode s')
      else String (ascii_of_nat (192 + n / 64)) (String (ascii_of_nat (128 + n mod 64)) (utf8_encode s'))
  end.

(** [raw.decode("utf-8")]; [None] is a [UnicodeDecodeError], or a character from U+0100
    on, which the model does not have. *)
Fixpoint utf8_decode (s : string) : option string :=
  match s with
  | EmptyString => Some ""
  | String c s' =>
      let n := nat_of_ascii c in
      if Nat.ltb n 128 then String c <$> utf8_decode s'
      else match s' with
           | String d s'' =>
               let m := nat_of_ascii d in
               if (Nat.eqb n 194 || Nat.eqb n 195) && Nat.leb 128 m && Nat.ltb m 192
               then String (ascii_of_nat ((n - 192) * 64 + (m - 128))) <$> utf8_decode s''
               else None
           | EmptyString => None
           end
  end.

(** ** Base64 *)

(** The four characters of three bytes, with the endings for one and two bytes. *)
Fixpoint encode_with (char : nat → string) (pad1 pad2 : string) (s : string) : string :=
  match s with
  | EmptyString => ""
  | String a EmptyString =>
      let n := nat_of_ascii a in char (n / 4) +:+ char (n mod 4 * 16) +:+ pad2
  | String a (String b EmptyString) =>
      let n := nat_of_ascii a in let m := nat_of_ascii b in
      char (n / 4) +:+ char (n mod 4 * 16 + m / 16) +:+ char (m mod 16 * 4) +:+ pad1
  | String a (String b (String c s')) =>
      let n := nat_of_ascii a in let m := nat_of_ascii b in let k := nat_of_ascii c in
      char (n / 4) +:+ char (n mod 4 * 16 + m / 16)
      +:+ char (m mod 16 * 4 + k / 64) +:+ char (k mod 64) +:+ encode_with char pad1 pad2 s'
  end%nat.

(** The bytes of groups of four characters; a last group of two or three gives one or
    two bytes, its spare bits are dropped. *)
Fixpoint decode_with (val : ascii → option nat) (s : string) : option string :=
  match s with
  | EmptyString => Some ""
  | String _ EmptyString => None
  | String c1 (String c2 EmptyString) =>
      match val c1, val c2 with
      | Some v1, Some v2 => Some (String (ascii_of_nat (v1 * 4 + v2 / 16)) "")
      | _, _ => None
      end
  | String c1 (String c2 (String c3 EmptyString)) =>
      match val c1, val c2, val c3 with
      | Some v1, Some v2, Some v3 =>
          Some (String (ascii_of_nat (v1 * 4 + v2 / 16))
                 (String (ascii_of_nat (v2 mod 16 * 16 + v3 / 4)) ""))
      | _, _, _ => None
      end
  | String c1 (String c2 (String c3 (String c4 s'))) =>
      match val c1, val c2, val c3, val c4, decode_with val s' with
      | Some v1, Some v2, Some v3, Some v4, Some r =>
          Some (String (ascii_of_nat (v1 * 4 + v2 / 16))
                 (String (ascii_of_nat (v2 mod 16 * 16 + v3 / 4))
                    (String (ascii_of_nat (v3 mod 4 * 64 + v4)) r)))
      | _, _, _, _, _ => None
      end
  end%nat.

(** The value of a character, with the two that the alphabets disagree on. *)
Definition b64_value (c62 c63 : ascii) (c : ascii) : option nat :=
  let n := nat_of_ascii c in
  if Nat.leb 65 n && Nat.leb n 90 then Some (n - 65)%nat
  else if Nat.leb 97 n && Nat.leb n 122 then Some (n - 71)%nat
  else if Nat.leb 48 n && Nat.leb n 57 then Some (n + 4)%nat
  else if Ascii.eqb c c62 then Some 62%nat
  else if Ascii.eqb c c63 then Some 63%nat
  else None.

(** Groups of four characters, the last one padded with one or two [=]. *)
Fixpoint decode_padded (val : ascii → option nat) (s : string) : option string :=
  match s with
  | EmptyString => Some ""
  | String c1 (String c2 (String c3 (String c4 s'))) =>
      if Ascii.eqb c4 "=" && String.eqb s' "" then
        decode_with val (String c1 (String c2 (if Ascii.eqb c3 "=" then "" else String c3 "")))
      else
        match decode_with val (String c1 (String c2 (String c3 (String c4 "")))),
              decode_padded val s' with
        | Some g, Some r => Some (g +:+ r)
        | _, _ => None
        end
  | _ => None
  end.

(** [base64.b64decode(s, validate=True)] *)
Definition b64decode (s : string) : option string := decode_padded (b64_value "+" "/") s.

Definition b64url_alphabet : string :=
  "ABCDEFGHIJKLMNOPQRSTUVWXYZabcdefghijklmnopqrstuvwxyz0123456789-_".

Definition b64url_char (n : nat) : string := String.substring n 1 b64url_alphabet.

(** [base64.urlsafe_b64encode(s).rstrip(b"=").decode("ascii")] *)
Definition b64url_encode (s : string) : string := encode_with b64url_char "" "" s.

(** [base64.b64decode(s + "=" * (-len(s) % 4), altchars=b"-_", validate=True)] of a text
    without padding. *)
Definition b64url_decode (s : string) : option string := decode_with (b64_value "-" "_") s.

(** An alphabet that its reader reads back, checked on its 64 characters. *)
Definition reads_back (char : nat → string) (val : ascii → option nat) (n : nat) : bool :=
  match char n with
  | String c EmptyString => match val c with Some v => Nat.eqb v n | None => false end
  | _ => false
  end.

(** ** Round trips *)

#[local] Ltac Zify.zify_post_hook ::= Z.to_euclidean_division_equations.

Lemma ascii_is n c : n = nat_of_ascii c → ascii_of_nat n = c.
Proof. intros ->. apply ascii_nat_embedding. Qed.

Lemma utf8_decode_encode s : utf8_decode (utf8_encode s) = Some s.
Proof.
  induction s as [|c s IH]; [reflexivity|].
  pose proof (nat_ascii_bounded c) as Hc. cbn [utf8_encode].
  destruct (Nat.ltb_spec (nat_of_ascii c) 128) as [Hlt|Hge]; cbn [utf8_decode].
  - rewrite (proj2 (Nat.ltb_lt _ _) Hlt), IH. reflexivity.
  - rewrite !nat_ascii_embedding by lia.
    rewrite (proj2 (Nat.ltb_ge (192 + nat_of_ascii c / 64) 128)) by lia.
    replace (_ && _ && _) with true.
    + rewrite IH. cbn [fmap option_fmap option_map]. do 2 f_equal. apply ascii_is. lia.
    + symmetry. rewrite !andb_true_iff, orb_true_iff, !Nat.eqb_eq, Nat.leb_le, Nat.ltb_lt. lia.
Qed.

(** Induction by three characters. *)
Lemma str_ind_three (P : string → Prop) :
  P "" → (∀ a, P (String a "")) → (∀ a b, P (String a (String b ""))) →
  (∀ a b c s, P s → P (String a (String b (String c s)))) → ∀ s, P s.
Proof.
  intros H0 H1 H2 H3. fix go 1. intros [|a [|b [|c s]]]; [assumption|apply H1|apply H2|].
  apply H3, go.
Qed.

Lemma str_nil_app (a : string) : "" +:+ a = a.
Proof. reflexivity. Qed.

Section base64.
Context (char : nat → string) (val : ascii → option nat).
Context (Hval : ∀ n, (n < 64)%nat → ∃ c, char n = String c "" ∧ val c = Some n).

(** Each kind of group reads back. *)
Lemma read_group_one a : ∃ c1 c2,
  char (nat_of_ascii a / 4) = String c1 "" ∧ char (nat_of_ascii a mod 4 * 16) = String c2 ""
  ∧ decode_with val (String c1 (String c2 "")) = Some (String a "").
Proof.
  pose proof (nat_ascii_bounded a) as Ha.
  destruct (Hval (nat_of_ascii a / 4)) as (c1 & E1 & V1); [lia|].
  destruct (Hval (nat_of_ascii a mod 4 * 16)) as (c2 & E2 & V2); [lia|].
  exists c1, c2. cbn [decode_with]. rewrite V1, V2, (ascii_is _ a) by lia. auto.
Qed.

Lemma read_group_two a b : ∃ c1 c2 c3,
  char (nat_of_ascii a / 4) = String c1 ""
  ∧ char (nat_of_ascii a mod 4 * 16 + nat_of_ascii b / 16) = String c2 ""
  ∧ char (nat_of_ascii b mod 16 * 4) = String c3 "" ∧ val c3 ≠ None
  ∧ decode_with val (String c1 (String c2 (String c3 ""))) = Some (String a (String b "")).
Proof.
  pose proof (nat_ascii_bounded a) as Ha. pose proof (nat_ascii_bounded b) as Hb.
  destruct (Hval (nat_of_ascii a / 4)) as (c1 & E1 & V1); [lia|].
  destruct (Hval (nat_of_ascii a mod 4 * 16 + nat_of_ascii b / 16)) as (c2 & E2 & V2); [lia|].
  destruct (Hval (nat_of_ascii b mod 16 * 4)) as (c3 & E3 & V3); [lia|].
  exists c1, c2, c3. cbn [decode_with].
  rewrite V1, V2, V3, (ascii_is _ a), (ascii_is _ b) by lia. auto.
Qed.

Lemma read_group_three a b c : ∃ c1 c2 c3 c4,
  char (nat_of_ascii a / 4) = String c1 ""
  ∧ char (nat_of_ascii a mod 4 * 16 + nat_of_ascii b / 16) = String c2 ""
  ∧ char (nat_of_ascii b mod 16 * 4 + nat_of_ascii c / 64) = String c3 ""
  ∧ char (nat_of_ascii c mod 64) = String c4 "" ∧ val c4 ≠ None
  ∧ ∀ s r, decode_with val s = Some r →
      decode_with val (String c1 (String c2 (String c3 (String c4 s))))
      = Some (String a (String b (String c r))).
Proof.
  pose proof (nat_ascii_bounded a) as Ha. pose proof (nat_ascii_bounded b) as Hb.
  pose proof (nat_ascii_bounded c) as Hc.
  destruct (Hval (nat_of_ascii a / 4)) as (c1 & E1 & V1); [lia|].
  destruct (Hval (nat_of_ascii a mod 4 * 16 + nat_of_ascii b / 16)) as (c2 & E2 & V2); [lia|].
  destruct (Hval (nat_of_ascii b mod 16 * 4 + nat_of_ascii c / 64)) as (c3 & E3 & V3); [lia|].
  destruct (Hval (nat_of_ascii c mod 64)) as (c4 & E4 & V4); [lia|].
  exists c1, c2, c3, c4. repeat (split; [first [assumption|congruence]|]).
  intros s r Hr. cbn [decode_with].
  rewrite V1, V2, V3, V4, Hr, (ascii_is _ a), (ascii_is _ b), (ascii_is _ c) by lia.
  reflexivity.
Qed.

Lemma decode_encode_with s : decode_with val (encode_with char "" "" s) = Some s.
Proof.
  induction s as [|a|a b|a b c s IH] using str_ind_three; [reflexivity|..]; cbn [encode_with].
  - destruct (read_group_one a) as (? & ? & -> & -> & Hr). exact Hr.
  - destruct (read_group_two a b) as (? & ? & ? & -> & -> & -> & _ & Hr). exact Hr.
  - destruct (read_group_three a b c) as (? & ? & ? & ? & -> & -> & -> & -> & _ & Hr).
    apply (Hr _ _ IH).
Qed.

Context (Hpad : val "="%char = None).

Lemma not_padding c : val c ≠ None → Ascii.eqb c "=" = false.
Proof. intros Hc. apply Ascii.eqb_neq. congruence. Qed.

Lemma decode_encode_padded s : decode_padded val (encode_with char "=" "==" s) = Some s.
Proof.
  induction s as [|a|a b|a b c s IH] using str_ind_three; [reflexivity|..]; cbn [encode_with].
  - destruct (read_group_one a) as (? & ? & -> & -> & Hr). exact Hr.
  - destruct (read_group_two a b) as (? & ? & ? & -> & -> & -> & V & Hr).
    rewrite !str_cons_app, !str_nil_app. cbn [decode_padded]. rewrite (not_padding _ V). exact Hr.
  - destruct (read_group_three a b c) as (? & ? & ? & ? & -> & -> & -> & -> & V & Hr).
    rewrite !str_cons_app, !str_nil_app. cbn [decode_padded].
    rewrite (not_padding _ V), (Hr "" "" eq_refl), IH. reflexivity.
Qed.
End base64.

Lemma alphabet_read char val n : forallb (reads_back char val) (seq 0 64) = true →
  (n < 64)%nat → ∃ c, char n = String c "" ∧ val c = Some n.
Proof.
  intros Hall Hn. rewrite forallb_forall in Hall.
  specialize (Hall n (proj2 (in_seq 64 0 n) ltac:(lia))). unfold reads_back in Hall.
  destruct (char n) as [|c [|? ?]]; try discriminate. destruct (val c) as [v|] eqn:E; [|discriminate].
  apply Nat.eqb_eq in Hall. subst v. eauto.
Qed.

Lemma b64url_decode_encode s : b64url_decode (b64url_encode s) = Some s.
Proof. apply decode_encode_with. intros n. apply (alphabet_read b64url_char _ n). vm_compute. reflexivity. Qed.

Lemma b64encode_with s : b64encode s = encode_with b64_char "=" "==" s.
Proof.
  induction s as [|a|a b|a b c s IH] using str_ind_three; [reflexivity..|].
  cbn [b64encode encode_with]. rewrite IH. reflexivity.
Qed.

Lemma b64decode_encode s : b64decode (b64encode s) = Some s.
Proof.
  rewrite b64encode_with. apply decode_encode_padded; [|reflexivity].
  intros n. apply (alphabet_read b64_char _ n). vm_compute. reflexivity.
Qed.
