(* ===== verification/Models.v ===== *)
(** The tables of the program, the fields of the Django models the modelled code
    reads or writes, and the store that holds them.  Primary keys (UUIDs in the
    program) are numbers; a foreign key is the key of the row it points to;
    instants are microseconds since the epoch. *)
From S2P Require Import Prelude.

(** JSON values, as [json.loads] gives them.  A number that is not an integer
    keeps its text. *)
Inductive json :=
| JNull
| JBool (b : bool)
| JInt (z : Z)
| JFloat (text : string)
| JStr (s : string)
| JList (l : list json)
| JObj (fields : list (string * json)).

(** [DatasetPublication.Status] *)
Inductive PubStatus :=
| STAGED | BUILDING | READY_FOR_REVIEW | PUBLISHED | PUB_FAILED | SUPERSEDED
| REJECTED | PUB_OBSOLETE | PUB_CANCELLED.

(** [DatasetPublication.ArtifactStatus] *)
Inductive ArtifactStatus := ARTIFACT_PENDING | ARTIFACT_READY | ARTIFACT_FAILED.

(** [PublicationJob.Status] *)
Inductive JobStatus :=
| JOB_PENDING | JOB_RUNNING | JOB_SUCCEEDED | JOB_FAILED | JOB_OBSOLETE | JOB_CANCELLED.

(** [PublicationJob.TriggerType] *)
Inductive TriggerType := USER_REQUEST | BULK_REQUEST | DATA_CHANGE.

(** [DatasetKeyGrant.Status] and [DocumentGenerationKeyGrant.Status] *)
Inductive GrantStatus :=
| GRANT_PENDING | GRANT_RUNNING | GRANT_READY | GRANT_FAILED | GRANT_REVOKED.

(** [SignedManifest.Status] *)
Inductive ManifestStatus :=
| MANIFEST_PENDING | MANIFEST_RUNNING | MANIFEST_READY | MANIFEST_FAILED
| MANIFEST_OBSOLETE.

(** [Tablet.Status] *)
Inductive TabletStatus := TABLET_INACTIVE | TABLET_ACTIVE | TABLET_LOST | TABLET_RETIRED.

(** [AppInstallation.Status] *)
Inductive InstallationStatus :=
| INSTALLATION_ACTIVE | INSTALLATION_STALE | INSTALLATION_REVOKED
| INSTALLATION_REPLACED.

(** [Department.Status] *)
Inductive DepartmentStatus := DEPARTMENT_ACTIVE | DEPARTMENT_SUSPENDED | DEPARTMENT_DEACTIVATED.

(** [DepartmentMembership.Status] and [StationAdminAssignment.Status] *)
Inductive AuthorityStatus := AUTHORITY_ACTIVE | AUTHORITY_SUSPENDED | AUTHORITY_REVOKED.

(** [Person.LifecycleStatus] *)
Inductive PersonStatus := PERSON_ACTIVE | PERSON_DEPARTED | PERSON_ANONYMIZED.

(** [TabletReportDeliveryRequest.State] *)
Inductive DeliveryState :=
| DELIVERY_PROCESSING | DELIVERY_SUCCESS | DELIVERY_FAILED | DELIVERY_UNKNOWN.

(** [ReportSubmission.state] *)
Inductive SubmissionState := SUBMISSION_READY | SUBMISSION_EXPIRED.

(** [ReportTransfer.mail_state] *)
Inductive MailState := MAIL_PROCESSING | MAIL_SENT | MAIL_FAILED | MAIL_UNKNOWN.

#[export] Instance PubStatus_eq : EqDecision PubStatus.
Proof. solve_decision. Defined.
#[export] Instance ArtifactStatus_eq : EqDecision ArtifactStatus.
Proof. solve_decision. Defined.
#[export] Instance JobStatus_eq : EqDecision JobStatus.
Proof. solve_decision. Defined.
#[export] Instance TriggerType_eq : EqDecision TriggerType.
Proof. solve_decision. Defined.
#[export] Instance GrantStatus_eq : EqDecision GrantStatus.
Proof. solve_decision. Defined.
#[export] Instance ManifestStatus_eq : EqDecision ManifestStatus.
Proof. solve_decision. Defined.
#[export] Instance TabletStatus_eq : EqDecision TabletStatus.
Proof. solve_decision. Defined.
#[export] Instance InstallationStatus_eq : EqDecision InstallationStatus.
Proof. solve_decision. Defined.

#[export] Instance DepartmentStatus_eq : EqDecision DepartmentStatus.
Proof. solve_decision. Defined.
#[export] Instance AuthorityStatus_eq : EqDecision AuthorityStatus.
Proof. solve_decision. Defined.
#[export] Instance PersonStatus_eq : EqDecision PersonStatus.
Proof. solve_decision. Defined.

#[export] Instance DeliveryState_eq : EqDecision DeliveryState.
Proof. solve_decision. Defined.
#[export] Instance SubmissionState_eq : EqDecision SubmissionState.
Proof. solve_decision. Defined.
#[export] Instance MailState_eq : EqDecision MailState.
Proof. solve_decision. Defined.

(** [accounts.User]; an unusable password is [None]. *)
Record User := mkUser {
  us_is_authenticated : bool;
  us_is_active : bool;
  us_email : string;
  us_display_name : string;
  us_password : option string;
  us_mfa_enabled : bool
}.

(** [SystemRole] *)
Record SystemRole := mkSystemRole {
  sr_user : N;
  sr_active : bool
}.

(** [DepartmentMembership]; its role is the only one. *)
Record DepartmentMembership := mkDepartmentMembership {
  dm_user : N;
  dm_department : N;
  dm_status : AuthorityStatus;
  dm_created_by : N;
  dm_revoked_at : option Z;
  dm_revoked_by : option N;
  dm_suspended_at : option Z;
  dm_suspended_by : option N
}.

(** [StationAdminAssignment] *)
Record StationAdminAssignment := mkStationAdminAssignment {
  sa_user : N;
  sa_station : N;
  sa_status : AuthorityStatus;
  sa_created_by : N;
  sa_revoked_at : option Z;
  sa_revoked_by : option N;
  sa_suspended_at : option Z;
  sa_suspended_by : option N
}.

(** [Department] *)
Record Department := mkDepartment {
  dept_name : string;
  dept_short_code : string;
  dept_status : DepartmentStatus;
  dept_tablet_lease_days : Z;
  dept_asset_number_auto_enabled : bool;
  dept_asset_number_prefix : string;
  dept_asset_number_width : nat;
  dept_asset_number_sequence : Z;
  dept_locale : string;
  dept_timezone : string;
  dept_created_by : N
}.

(** [Station] *)
Record Station := mkStation {
  st_name : string;
  st_short_code : string;
  st_street : string;
  st_house_number : string;
  st_postal_code : string;
  st_city : string;
  st_department : N;
  st_active : bool
}.

(** [Vehicle] *)
Record Vehicle := mkVehicle {
  ve_department : N;
  ve_station : N;
  ve_display_name : string;
  ve_call_sign : string;
  ve_asset_identifier : string;
  ve_active : bool
}.

(** [TemporaryStationAccess] *)
Record TemporaryStationAccess := mkTemporaryStationAccess {
  ta_user : N;
  ta_department : N;
  ta_station : N;
  ta_activated_at : Z;
  ta_expires_at : Z;
  ta_revoked_at : option Z;
  ta_revocation_reason : string
}.

(** [status == ACTIVE] *)
Definition dept_active (d : Department) : bool := bool_decide (dept_status d = DEPARTMENT_ACTIVE).

Definition dm_active (m : DepartmentMembership) : bool :=
  bool_decide (dm_status m = AUTHORITY_ACTIVE).

Definition sa_active (a : StationAdminAssignment) : bool :=
  bool_decide (sa_status a = AUTHORITY_ACTIVE).

Arguments dept_active : simpl never.
Arguments dm_active : simpl never.
Arguments sa_active : simpl never.

(** [DatasetScopeState] *)
Record DatasetScopeState := mkDatasetScopeState {
  sc_scope_type : string;
  sc_department : option N;
  sc_station : option N;
  sc_dataset_type_code : string;
  sc_source_revision : Z;
  sc_current_source_fingerprint : string;
  sc_dirty_since : option Z;
  sc_latest_built_publication : option N;
  sc_current_published_publication : option N;
  sc_updated_at : Z
}.

(** The artifact fields of a publication that [build_encrypted_artifact] returns. *)
Record ArtifactEnvelope := mkArtifactEnvelope {
  artifact_path : string;
  artifact_size : option Z;
  artifact_sha256 : string;
  artifact_nonce : option string;
  artifact_wrapped_cek : option string;
  artifact_encryption_algorithm : string;
  artifact_wrapping_algorithm : string;
  artifact_kek_version : string;
  artifact_signature : option string;
  artifact_signature_algorithm : string;
  artifact_signing_key_version : string
}.

(** [DatasetPublication] *)
Record DatasetPublication := mkDatasetPublication {
  pub_scope_type : string;
  pub_department : option N;
  pub_station : option N;
  pub_dataset_type_code : string;
  pub_scope_state : N;
  pub_version_number : Z;
  pub_schema_version : Z;
  pub_source_revision : Z;
  pub_source_fingerprint : string;
  pub_source_snapshot : option json;
  pub_status : PubStatus;
  pub_build_summary : json;
  pub_change_summary : list (string * Z);
  pub_artifact_ready : bool;
  pub_artifact_status : ArtifactStatus;
  pub_artifact : ArtifactEnvelope;
  pub_created_at : Z;
  pub_created_by : option N;
  pub_published_at : option Z;
  pub_published_by : option N;
  pub_supersedes : option N;
  pub_build_error : string
}.

(** [PublicationJob] *)
Record PublicationJob := mkPublicationJob {
  job_dataset_type_code : string;
  job_scope_state : N;
  job_scope_type : string;
  job_department : option N;
  job_station : option N;
  job_source_revision : Z;
  job_attempt_count : Z;
  job_status : JobStatus;
  job_requested_by : option N;
  job_trigger_type : TriggerType;
  job_allow_clean_rebuild : bool;
  job_not_before : option Z;
  job_debounce_started_at : option Z;
  job_created_at : Z;
  job_started_at : option Z;
  job_heartbeat_at : option Z;
  job_completed_at : option Z;
  job_error_message : string;
  job_error_category : string;
  job_build_publication : option N
}.

(** [PublicationActivation] *)
Record PublicationActivation := mkPublicationActivation {
  pa_publication : N;
  pa_scope_state : N;
  pa_previous_publication : option N;
  pa_action : string;
  pa_activated_by : option N
}.

(** [DatasetKeyGrant] and [DocumentGenerationKeyGrant], which have the same columns. *)
Record KeyGrant := mkKeyGrant {
  kg_publication : N;
  kg_app_installation : N;
  kg_status : GrantStatus;
  kg_hpke_ciphersuite : string;
  kg_hpke_encapsulated_key : option string;
  kg_hpke_wrapped_key : option string;
  kg_created_at : Z;
  kg_completed_at : option Z;
  kg_revoked_at : option Z;
  kg_error_message : string
}.

(** [SignedManifest] *)
Record SignedManifest := mkSignedManifest {
  sm_app_installation : N;
  sm_state_hash : string;
  sm_generation : Z;
  sm_status : ManifestStatus;
  sm_payload : json;
  sm_signature : option string;
  sm_signature_algorithm : string;
  sm_signing_key_version : string;
  sm_created_at : Z;
  sm_completed_at : option Z;
  sm_error_message : string
}.

(** [DocumentArtifact], without its envelope. *)
Record DocumentArtifact := mkDocumentArtifact {
  da_dataset_type_code : string;
  da_canonical_document_id : N;
  da_sanitized_pdf_sha256 : string;
  da_artifact_path : string
}.

(** [PublicationDocumentArtifactReference] *)
Record DocumentArtifactReference := mkDocumentArtifactReference {
  dr_publication : N;
  dr_canonical_document_id : N;
  dr_document_artifact : N
}.

(** [DocumentArtifactCleanup] *)
Record DocumentArtifactCleanup := mkDocumentArtifactCleanup {
  dc_artifact_id : N;
  dc_artifact_path : string
}.

(** [PublicationContent] *)
Record PublicationContent := mkPublicationContent {
  pc_publication : N;
  pc_content : string;
  pc_document_id : string
}.

(** [Tablet] *)
Record Tablet := mkTablet {
  tb_department : N;
  tb_asset_number : string;
  tb_display_name : string;
  tb_status : TabletStatus;
  tb_active : bool;
  tb_created_by : option N
}.

(** [AppInstallation]; [in_compatibility_blocked] is the service-only marker. *)
Record AppInstallation := mkAppInstallation {
  in_tablet : N;
  in_installation_uuid : N;
  in_credential_hash : string;
  in_status : InstallationStatus;
  in_app_version : string;
  in_adopted_app_version : string;
  in_app_build : option Z;
  in_app_version_seen_at : Z;
  in_hpke_public_key : string;
  in_hpke_ciphersuite : string;
  in_hpke_key_fingerprint : string;
  in_hpke_key_verified_at : Z;
  in_adopted_at : Z;
  in_adopted_by : option N;
  in_last_successful_check_in_at : option Z;
  in_authorization_valid_until : Z;
  in_stale_at : option Z;
  in_revoked_at : option Z;
  in_revocation_reason : string;
  in_compatibility_blocked : bool
}.

(** [AdoptionInvitation] *)
Record AdoptionInvitation := mkAdoptionInvitation {
  iv_tablet : N;
  iv_token_hash : string;
  iv_expires_at : Z;
  iv_created_by : N;
  iv_used_at : option Z;
  iv_revoked_at : option Z;
  iv_failed_attempt_count : Z
}.

(** [AdoptionRequest]; the invitation may be absent in old rows. *)
Record AdoptionRequest := mkAdoptionRequest {
  ar_invitation : option N;
  ar_installation_uuid : N;
  ar_app_version : string;
  ar_app_build : option Z;
  ar_hpke_public_key : string;
  ar_hpke_public_key_fingerprint : string;
  ar_hpke_ciphersuite : string;
  ar_expected_hmac_digest : string;
  ar_canonical_context_hash : string;
  ar_encrypted_challenge : string;
  ar_expires_at : Z;
  ar_completed_at : option Z;
  ar_completion_replay_valid_until : option Z;
  ar_completion_replay_invalidated_at : option Z;
  ar_failed_attempt_count : Z
}.

(** [TabletVehicleAssignment] *)
Record TabletVehicleAssignment := mkTabletVehicleAssignment {
  va_tablet : N;
  va_vehicle : N;
  va_valid_from : Z;
  va_valid_until : option Z;
  va_created_by : option N;
  va_ended_by : option N;
  va_ended_at : option Z;
  va_end_reason : string
}.

(** [TabletApiActivity] *)
Record TabletApiActivity := mkTabletApiActivity {
  ac_app_installation : N;
  ac_occurred_at : Z;
  ac_method : string;
  ac_path : string;
  ac_status_code : Z;
  ac_duration_ms : option Z
}.

(** [Person] *)
Record Person := mkPerson {
  pe_department : N;
  pe_personnel_number : option string;
  pe_first_name : option string;
  pe_last_name : option string;
  pe_display_name : string;
  pe_lifecycle_status : PersonStatus;
  pe_active : bool;
  pe_incident_commander_eligible : bool;
  pe_incident_commander_email : option string;
  pe_email_verified_at : option Z;
  pe_email_verified_by : option N;
  pe_departed_at : option Z;
  pe_retention_until : option Z;
  pe_anonymized_at : option Z;
  pe_anonymized_by : option N
}.

(** A [Person] with the defaults of its columns. *)
Definition new_person (department : N) : Person :=
  mkPerson department None None None "" PERSON_ACTIVE true false None None None None None None
    None.

(** [PersonnelStationAssignment]; [ps_home] is [assignment_type == HOME]. *)
Record PersonnelStationAssignment := mkPersonnelStationAssignment {
  ps_person : N;
  ps_station : N;
  ps_home : bool;
  ps_valid_from : Z;
  ps_valid_until : option Z;
  ps_reason : string;
  ps_created_by : N;
  ps_ended_by : option N;
  ps_ended_at : option Z
}.

(** [DepartmentFeature] *)
Record DepartmentFeature := mkDepartmentFeature {
  df_department : N;
  df_feature_code : string;
  df_enabled : bool
}.

(** [VehicleRescueGuidesConfiguration] *)
Record VehicleRescueGuidesConfiguration := mkVehicleRescueGuidesConfiguration {
  vg_provider : string;
  vg_mode : string;
  vg_web_url : string;
  vg_updated_by : option N
}.

(** [DocumentGenerationKey]; its primary key is the publication. *)
Record DocumentGenerationKey := mkDocumentGenerationKey {
  gk_wrapped_key : string;
  gk_wrapping_algorithm : string;
  gk_kek_version : string
}.

(** [ApiVersionCompatibilityPolicy] *)
Record ApiVersionCompatibilityPolicy := mkApiVersionCompatibilityPolicy {
  vp_api_major : Z;
  vp_minimum_app_version : option string;
  vp_updated_by : N
}.

(** [PersonnelRetentionPolicy]; the period is in microseconds. *)
Record PersonnelRetentionPolicy := mkPersonnelRetentionPolicy {
  rp_department : N;
  rp_retention_period : Z;
  rp_updated_by : N
}.

(** [AccountSetupToken] *)
Record AccountSetupToken := mkAccountSetupToken {
  tk_user : N;
  tk_token_hash : string;
  tk_expires_at : Z;
  tk_created_by : N;
  tk_used_at : option Z
}.

(** [AuthenticationThrottle] *)
Record AuthenticationThrottle := mkAuthenticationThrottle {
  th_scope : string;
  th_subject : string;
  th_subject_hash : string;
  th_failure_count : Z;
  th_window_started_at : Z;
  th_locked_until : option Z
}.

(** [DepartmentManagedMailEligibility] *)
Record DepartmentManagedMailEligibility := mkDepartmentManagedMailEligibility {
  me_department : N;
  me_allowed : bool;
  me_updated_by : option N
}.

(** The SMTP columns, which the system and the departments have alike. *)
Record SmtpSettings := mkSmtpSettings {
  smtp_host : string;
  smtp_port : option Z;
  smtp_tls_mode : string;
  smtp_sender_name : string;
  smtp_sender_email : string;
  smtp_username : string;
  smtp_password_encrypted : string
}.

(** [SystemMailConfiguration]; [singleton] is always true. *)
Record SystemMailConfiguration := mkSystemMailConfiguration {
  mc_delivery_mode : string;
  mc_api_provider : string;
  mc_brevo_sender_name : string;
  mc_brevo_sender_email : string;
  mc_brevo_api_key_encrypted : string;
  mc_smtp : SmtpSettings;
  mc_outbound_mail_https_proxy : option string;
  mc_verification_provider : string;
  mc_last_verification_outcome : string;
  mc_last_verified_at : option Z;
  mc_last_verification_code : string;
  mc_updated_by : option N
}.

(** [DepartmentMailConfiguration] *)
Record DepartmentMailConfiguration := mkDepartmentMailConfiguration {
  md_department : N;
  md_delivery_mode : string;
  md_smtp : SmtpSettings;
  md_last_smtp_verification_outcome : string;
  md_last_smtp_verified_at : option Z;
  md_last_smtp_verification_code : string;
  md_updated_by : option N
}.

(** [DepartmentRecipientPolicy] *)
Record DepartmentRecipientPolicy := mkDepartmentRecipientPolicy {
  rcp_department : N;
  rcp_restriction_enabled : bool;
  rcp_updated_by : option N
}.

(** [DepartmentRecipientDomain] *)
Record DepartmentRecipientDomain := mkDepartmentRecipientDomain {
  rcd_policy : N;
  rcd_domain : string
}.

(** [TabletReportDeliveryRequest] *)
Record TabletReportDeliveryRequest := mkTabletReportDeliveryRequest {
  dq_installation : N;
  dq_department : N;
  dq_delivery_request_id : N;
  dq_recipient_personnel_id : N;
  dq_state : DeliveryState;
  dq_result_code : string;
  dq_created_at : Z;
  dq_completed_at : option Z
}.

(** [ReportSubmission] *)
Record ReportSubmission := mkReportSubmission {
  rs_installation : N;
  rs_submission_id : N;
  rs_report_id : N;
  rs_recipient : N;
  rs_department : N;
  rs_station : N;
  rs_payload_digest : string;
  rs_document_digest : string;
  rs_document_schema_version : option Z;
  rs_first_download_at : option Z;
  rs_payload_key : string;
  rs_key_version : string;
  rs_state : SubmissionState;
  rs_created_at : Z;
  rs_expires_at : Z
}.

(** [ReportTransfer]; [rt_submissions] is its many-to-many table. *)
Record ReportTransfer := mkReportTransfer {
  rt_installation : N;
  rt_recipient : N;
  rt_transfer_request_id : N;
  rt_request_digest : string;
  rt_recipient_email_digest : string;
  rt_submissions : list N;
  rt_token_digest : string;
  rt_issued_at : Z;
  rt_token_expires_at : Z;
  rt_consumed_at : option Z;
  rt_revoked_at : option Z;
  rt_mail_state : MailState;
  rt_mail_code : string
}.

(** [ReportPortalSession] *)
Record ReportPortalSession := mkReportPortalSession {
  po_transfer : N;
  po_session_digest : string;
  po_last_seen_at : Z;
  po_logged_out_at : option Z
}.

(** A file [*.receipt] of the report spool: the submission, the instant and the audit data. *)
Record DownloadReceipt := mkDownloadReceipt {
  rec_submission : N;
  rec_completed_at : Z;
  rec_audit : option (N * N * string)
}.

(** [MailAddress] of [outbound_mail/runtime.py] *)
Record MailAddress := mkMailAddress {
  ma_display_name : string;
  ma_email : string
}.

(** [MailAttachment] *)
Record MailAttachment := mkMailAttachment {
  mat_filename : string;
  mat_mime_type : string;
  mat_content : string
}.

(** [OutboundMessage] *)
Record OutboundMessage := mkOutboundMessage {
  om_sender : MailAddress;
  om_recipient : MailAddress;
  om_subject : string;
  om_body : string;
  om_attachments : list MailAttachment
}.

(** [Library] of [file_library/models.py] *)
Record Library := mkLibrary {
  lib_department : option N;
  lib_station : option N;
  lib_name : string;
  lib_source_revision : Z;
  lib_usage_bytes : Z
}.

(** [Content] *)
Record Content := mkContent {
  co_library : N;
  co_storage_key : string;
  co_size_bytes : Z;
  co_sha256 : string
}.

(** [Entry] *)
Record Entry := mkEntry {
  en_library : N;
  en_parent : option N;
  en_name : string;
  en_is_folder : bool;
  en_content : option N;
  en_modified_by : N
}.

(** [DepartmentQuotaPolicy] *)
Record DepartmentQuotaPolicy := mkDepartmentQuotaPolicy {
  qp_department : N;
  qp_department_files_bytes : Z;
  qp_station_files_bytes : Z
}.

(** [AuditEvent] *)
Record AuditEvent := mkAuditEvent {
  ev_action : string;
  ev_actor_user : option N;
  ev_actor_installation : option N;
  ev_department : option N;
  ev_station : option N;
  ev_target_type : string;
  ev_target_uuid : option N;
  ev_metadata : list (string * json);
  ev_timestamp : Z
}.

(** The callbacks [transaction.on_commit] registers. *)
Inductive OnCommit :=
| OcWakeBuildWorker
| OcRemoveArtifact (path : string)
| OcRemoveDocumentArtifact (cleanup : N)
| OcRemoveContent (storage_key : string)
| OcEnqueue (department station : option N) (dataset_type_code : string)
    (debounce_started_at : option Z).

(** Effects outside the database: a wake-up of the build worker, the removal
    of a ciphertext file, and a message handed to a mail provider. *)
Inductive Effect :=
| EffWakeBuildWorker
| EffRemoveArtifact (path : string)
| EffSendMail (provider_id : string) (message : OutboundMessage).

(** The store: the tables, the clock that [timezone.now()] reads, the canonical
    source payloads (those of file libraries are computed from their tables), the payload
    of each publication's [DocumentGenerationManifest], the
    [LegacyArtifactScopeSignatureUpgrade] markers of publications, the files of the report
    spool and of file libraries (accepted ones by their key, with the instant of their
    last change, those in quarantine and the
    sanitized by the job), the callbacks waiting for the commit and the effects outside
    the database that have happened. *)
Record Db := mkDb {
  db_clock : Z;
  db_users : gmap N User;
  db_system_roles : gmap N SystemRole;
  db_memberships : gmap N DepartmentMembership;
  db_station_admins : gmap N StationAdminAssignment;
  db_departments : gmap N Department;
  db_stations : gmap N Station;
  db_vehicles : gmap N Vehicle;
  db_temporary_accesses : gmap N TemporaryStationAccess;
  db_sources : gmap (string * option N * option N) json;
  db_scopes : gmap N DatasetScopeState;
  db_publications : gmap N DatasetPublication;
  db_jobs : gmap N PublicationJob;
  db_activations : list PublicationActivation;
  db_key_grants : gmap N KeyGrant;
  db_generation_key_grants : gmap N KeyGrant;
  db_signed_manifests : gmap N SignedManifest;
  db_document_artifacts : gmap N DocumentArtifact;
  db_document_references : gmap N DocumentArtifactReference;
  db_document_cleanups : gmap N DocumentArtifactCleanup;
  db_publication_contents : gmap N PublicationContent;
  db_libraries : gmap N Library;
  db_contents : gmap N Content;
  db_entries : gmap N Entry;
  db_quota_policies : gmap N DepartmentQuotaPolicy;
  db_accepted : gmap string (string * Z);
  db_quarantine : gmap N string;
  db_sanitized : gmap N string;
  db_tablets : gmap N Tablet;
  db_installations : gmap N AppInstallation;
  db_invitations : gmap N AdoptionInvitation;
  db_adoption_requests : gmap N AdoptionRequest;
  db_vehicle_assignments : gmap N TabletVehicleAssignment;
  db_api_activity : gmap N TabletApiActivity;
  db_people : gmap N Person;
  db_personnel_assignments : gmap N PersonnelStationAssignment;
  db_features : gmap N DepartmentFeature;
  db_rescue_guides : gmap N VehicleRescueGuidesConfiguration;
  db_generation_manifests : gmap N json;
  db_generation_keys : gmap N DocumentGenerationKey;
  db_version_policies : gmap N ApiVersionCompatibilityPolicy;
  db_retention_policies : gmap N PersonnelRetentionPolicy;
  db_setup_tokens : gmap N AccountSetupToken;
  db_throttles : gmap N AuthenticationThrottle;
  db_mail_eligibilities : gmap N DepartmentManagedMailEligibility;
  db_system_mail : gmap N SystemMailConfiguration;
  db_department_mail : gmap N DepartmentMailConfiguration;
  db_recipient_policies : gmap N DepartmentRecipientPolicy;
  db_recipient_domains : gmap N DepartmentRecipientDomain;
  db_delivery_requests : gmap N TabletReportDeliveryRequest;
  db_report_submissions : gmap N ReportSubmission;
  db_report_transfers : gmap N ReportTransfer;
  db_portal_sessions : gmap N ReportPortalSession;
  db_spool : gmap string string;
  db_receipts : gmap N DownloadReceipt;
  db_legacy_signatures : gmap N unit;
  db_audit : list AuditEvent;
  db_on_commit : list OnCommit;
  db_effects : list Effect
}.

(** ** Field updates

    One [Setter] per field.  [make_setter mk] builds it from the constructor: the
    record is rebuilt from its projections, with the named one replaced. *)
Ltac apply_fields c r ps :=
  lazymatch ps with
  | tt => c
  | (?ps', ?p) => let c' := apply_fields c r ps' in constr:(c' (p r))
  end.

Ltac make_setter ps c proj :=
  lazymatch type of proj with
  | ?R → ?T =>
      exact (λ (f : T → T) (r : R), ltac:(
        let body := apply_fields c r ps in
        let g := eval pattern (proj r) in body in
        lazymatch g with
        | ?h _ => let res := eval cbv beta in (h (f (proj r))) in exact res
        end))
  end.

Abbreviation User_fields := (tt, us_is_authenticated, us_is_active, us_email,
  us_display_name, us_password, us_mfa_enabled).
#[export] Instance set_us_is_authenticated : Setter us_is_authenticated :=
  ltac:(make_setter constr:(User_fields) mkUser us_is_authenticated).
#[export] Instance set_us_is_active : Setter us_is_active :=
  ltac:(make_setter constr:(User_fields) mkUser us_is_active).
#[export] Instance set_us_email : Setter us_email :=
  ltac:(make_setter constr:(User_fields) mkUser us_email).
#[export] Instance set_us_display_name : Setter us_display_name :=
  ltac:(make_setter constr:(User_fields) mkUser us_display_name).
#[export] Instance set_us_password : Setter us_password :=
  ltac:(make_setter constr:(User_fields) mkUser us_password).
#[export] Instance set_us_mfa_enabled : Setter us_mfa_enabled :=
  ltac:(make_setter constr:(User_fields) mkUser us_mfa_enabled).

Abbreviation SystemRole_fields := (tt, sr_user, sr_active).
#[export] Instance set_sr_user : Setter sr_user :=
  ltac:(make_setter constr:(SystemRole_fields) mkSystemRole sr_user).
#[export] Instance set_sr_active : Setter sr_active :=
  ltac:(make_setter constr:(SystemRole_fields) mkSystemRole sr_active).

Abbreviation DepartmentMembership_fields := (tt, dm_user, dm_department, dm_status,
  dm_created_by, dm_revoked_at, dm_revoked_by, dm_suspended_at, dm_suspended_by).
#[export] Instance set_dm_user : Setter dm_user :=
  ltac:(make_setter constr:(DepartmentMembership_fields) mkDepartmentMembership dm_user).
#[export] Instance set_dm_department : Setter dm_department :=
  ltac:(make_setter constr:(DepartmentMembership_fields) mkDepartmentMembership dm_department).
#[export] Instance set_dm_status : Setter dm_status :=
  ltac:(make_setter constr:(DepartmentMembership_fields) mkDepartmentMembership dm_status).
#[export] Instance set_dm_created_by : Setter dm_created_by :=
  ltac:(make_setter constr:(DepartmentMembership_fields) mkDepartmentMembership dm_created_by).
#[export] Instance set_dm_revoked_at : Setter dm_revoked_at :=
  ltac:(make_setter constr:(DepartmentMembership_fields) mkDepartmentMembership dm_revoked_at).
#[export] Instance set_dm_revoked_by : Setter dm_revoked_by :=
  ltac:(make_setter constr:(DepartmentMembership_fields) mkDepartmentMembership dm_revoked_by).
#[export] Instance set_dm_suspended_at : Setter dm_suspended_at :=
  ltac:(make_setter constr:(DepartmentMembership_fields) mkDepartmentMembership dm_suspended_at).
#[export] Instance set_dm_suspended_by : Setter dm_suspended_by :=
  ltac:(make_setter constr:(DepartmentMembership_fields) mkDepartmentMembership dm_suspended_by).

Abbreviation StationAdminAssignment_fields := (tt, sa_user, sa_station, sa_status,
  sa_created_by, sa_revoked_at, sa_revoked_by, sa_suspended_at, sa_suspended_by).
#[export] Instance set_sa_user : Setter sa_user :=
  ltac:(make_setter constr:(StationAdminAssignment_fields) mkStationAdminAssignment sa_user).
#[export] Instance set_sa_station : Setter sa_station :=
  ltac:(make_setter constr:(StationAdminAssignment_fields) mkStationAdminAssignment sa_station).
#[export] Instance set_sa_status : Setter sa_status :=
  ltac:(make_setter constr:(StationAdminAssignment_fields) mkStationAdminAssignment sa_status).
#[export] Instance set_sa_created_by : Setter sa_created_by :=
  ltac:(make_setter constr:(StationAdminAssignment_fields) mkStationAdminAssignment sa_created_by).
#[export] Instance set_sa_revoked_at : Setter sa_revoked_at :=
  ltac:(make_setter constr:(StationAdminAssignment_fields) mkStationAdminAssignment sa_revoked_at).
#[export] Instance set_sa_revoked_by : Setter sa_revoked_by :=
  ltac:(make_setter constr:(StationAdminAssignment_fields) mkStationAdminAssignment sa_revoked_by).
#[export] Instance set_sa_suspended_at : Setter sa_suspended_at :=
  ltac:(make_setter constr:(StationAdminAssignment_fields) mkStationAdminAssignment sa_suspended_at).
#[export] Instance set_sa_suspended_by : Setter sa_suspended_by :=
  ltac:(make_setter constr:(StationAdminAssignment_fields) mkStationAdminAssignment sa_suspended_by).

Abbreviation Department_fields := (tt, dept_name, dept_short_code, dept_status,
  dept_tablet_lease_days, dept_asset_number_auto_enabled, dept_asset_number_prefix,
  dept_asset_number_width, dept_asset_number_sequence, dept_locale, dept_timezone,
  dept_created_by).
#[export] Instance set_dept_name : Setter dept_name :=
  ltac:(make_setter constr:(Department_fields) mkDepartment dept_name).
#[export] Instance set_dept_short_code : Setter dept_short_code :=
  ltac:(make_setter constr:(Department_fields) mkDepartment dept_short_code).
#[export] Instance set_dept_status : Setter dept_status :=
  ltac:(make_setter constr:(Department_fields) mkDepartment dept_status).
#[export] Instance set_dept_tablet_lease_days : Setter dept_tablet_lease_days :=
  ltac:(make_setter constr:(Department_fields) mkDepartment dept_tablet_lease_days).
#[export] Instance set_dept_asset_number_auto_enabled : Setter dept_asset_number_auto_enabled :=
  ltac:(make_setter constr:(Department_fields) mkDepartment dept_asset_number_auto_enabled).
#[export] Instance set_dept_asset_number_prefix : Setter dept_asset_number_prefix :=
  ltac:(make_setter constr:(Department_fields) mkDepartment dept_asset_number_prefix).
#[export] Instance set_dept_asset_number_width : Setter dept_asset_number_width :=
  ltac:(make_setter constr:(Department_fields) mkDepartment dept_asset_number_width).
#[export] Instance set_dept_asset_number_sequence : Setter dept_asset_number_sequence :=
  ltac:(make_setter constr:(Department_fields) mkDepartment dept_asset_number_sequence).
#[export] Instance set_dept_locale : Setter dept_locale :=
  ltac:(make_setter constr:(Department_fields) mkDepartment dept_locale).
#[export] Instance set_dept_timezone : Setter dept_timezone :=
  ltac:(make_setter constr:(Department_fields) mkDepartment dept_timezone).
#[export] Instance set_dept_created_by : Setter dept_created_by :=
  ltac:(make_setter constr:(Department_fields) mkDepartment dept_created_by).

Abbreviation Station_fields := (tt, st_name, st_short_code, st_street, st_house_number,
  st_postal_code, st_city, st_department, st_active).
#[export] Instance set_st_name : Setter st_name :=
  ltac:(make_setter constr:(Station_fields) mkStation st_name).
#[export] Instance set_st_short_code : Setter st_short_code :=
  ltac:(make_setter constr:(Station_fields) mkStation st_short_code).
#[export] Instance set_st_street : Setter st_street :=
  ltac:(make_setter constr:(Station_fields) mkStation st_street).
#[export] Instance set_st_house_number : Setter st_house_number :=
  ltac:(make_setter constr:(Station_fields) mkStation st_house_number).
#[export] Instance set_st_postal_code : Setter st_postal_code :=
  ltac:(make_setter constr:(Station_fields) mkStation st_postal_code).
#[export] Instance set_st_city : Setter st_city :=
  ltac:(make_setter constr:(Station_fields) mkStation st_city).
#[export] Instance set_st_department : Setter st_department :=
  ltac:(make_setter constr:(Station_fields) mkStation st_department).
#[export] Instance set_st_active : Setter st_active :=
  ltac:(make_setter constr:(Station_fields) mkStation st_active).

Abbreviation Vehicle_fields := (tt, ve_department, ve_station, ve_display_name,
  ve_call_sign, ve_asset_identifier, ve_active).
#[export] Instance set_ve_department : Setter ve_department :=
  ltac:(make_setter constr:(Vehicle_fields) mkVehicle ve_department).
#[export] Instance set_ve_station : Setter ve_station :=
  ltac:(make_setter constr:(Vehicle_fields) mkVehicle ve_station).
#[export] Instance set_ve_display_name : Setter ve_display_name :=
  ltac:(make_setter constr:(Vehicle_fields) mkVehicle ve_display_name).
#[export] Instance set_ve_call_sign : Setter ve_call_sign :=
  ltac:(make_setter constr:(Vehicle_fields) mkVehicle ve_call_sign).
#[export] Instance set_ve_asset_identifier : Setter ve_asset_identifier :=
  ltac:(make_setter constr:(Vehicle_fields) mkVehicle ve_asset_identifier).
#[export] Instance set_ve_active : Setter ve_active :=
  ltac:(make_setter constr:(Vehicle_fields) mkVehicle ve_active).

Abbreviation TemporaryStationAccess_fields := (tt, ta_user, ta_department, ta_station,
  ta_activated_at, ta_expires_at, ta_revoked_at, ta_revocation_reason).
#[export] Instance set_ta_user : Setter ta_user :=
  ltac:(make_setter constr:(TemporaryStationAccess_fields) mkTemporaryStationAccess ta_user).
#[export] Instance set_ta_department : Setter ta_department :=
  ltac:(make_setter constr:(TemporaryStationAccess_fields) mkTemporaryStationAccess ta_department).
#[export] Instance set_ta_station : Setter ta_station :=
  ltac:(make_setter constr:(TemporaryStationAccess_fields) mkTemporaryStationAccess ta_station).
#[export] Instance set_ta_activated_at : Setter ta_activated_at :=
  ltac:(make_setter constr:(TemporaryStationAccess_fields) mkTemporaryStationAccess ta_activated_at).
#[export] Instance set_ta_expires_at : Setter ta_expires_at :=
  ltac:(make_setter constr:(TemporaryStationAccess_fields) mkTemporaryStationAccess ta_expires_at).
#[export] Instance set_ta_revoked_at : Setter ta_revoked_at :=
  ltac:(make_setter constr:(TemporaryStationAccess_fields) mkTemporaryStationAccess ta_revoked_at).
#[export] Instance set_ta_revocation_reason : Setter ta_revocation_reason :=
  ltac:(make_setter constr:(TemporaryStationAccess_fields) mkTemporaryStationAccess ta_revocation_reason).

Abbreviation DatasetScopeState_fields := (tt, sc_scope_type, sc_department, sc_station,
  sc_dataset_type_code, sc_source_revision, sc_current_source_fingerprint,
  sc_dirty_since, sc_latest_built_publication, sc_current_published_publication,
  sc_updated_at).
#[export] Instance set_sc_scope_type : Setter sc_scope_type :=
  ltac:(make_setter constr:(DatasetScopeState_fields) mkDatasetScopeState sc_scope_type).
#[export] Instance set_sc_department : Setter sc_department :=
  ltac:(make_setter constr:(DatasetScopeState_fields) mkDatasetScopeState sc_department).
#[export] Instance set_sc_station : Setter sc_station :=
  ltac:(make_setter constr:(DatasetScopeState_fields) mkDatasetScopeState sc_station).
#[export] Instance set_sc_dataset_type_code : Setter sc_dataset_type_code :=
  ltac:(make_setter constr:(DatasetScopeState_fields) mkDatasetScopeState sc_dataset_type_code).
#[export] Instance set_sc_source_revision : Setter sc_source_revision :=
  ltac:(make_setter constr:(DatasetScopeState_fields) mkDatasetScopeState sc_source_revision).
#[export] Instance set_sc_current_source_fingerprint : Setter sc_current_source_fingerprint :=
  ltac:(make_setter constr:(DatasetScopeState_fields) mkDatasetScopeState sc_current_source_fingerprint).
#[export] Instance set_sc_dirty_since : Setter sc_dirty_since :=
  ltac:(make_setter constr:(DatasetScopeState_fields) mkDatasetScopeState sc_dirty_since).
#[export] Instance set_sc_latest_built_publication : Setter sc_latest_built_publication :=
  ltac:(make_setter constr:(DatasetScopeState_fields) mkDatasetScopeState sc_latest_built_publication).
#[export] Instance set_sc_current_published_publication : Setter sc_current_published_publication :=
  ltac:(make_setter constr:(DatasetScopeState_fields) mkDatasetScopeState sc_current_published_publication).
#[export] Instance set_sc_updated_at : Setter sc_updated_at :=
  ltac:(make_setter constr:(DatasetScopeState_fields) mkDatasetScopeState sc_updated_at).

Abbreviation ArtifactEnvelope_fields := (tt, artifact_path, artifact_size,
  artifact_sha256, artifact_nonce, artifact_wrapped_cek, artifact_encryption_algorithm,
  artifact_wrapping_algorithm, artifact_kek_version, artifact_signature,
  artifact_signature_algorithm, artifact_signing_key_version).
#[export] Instance set_artifact_path : Setter artifact_path :=
  ltac:(make_setter constr:(ArtifactEnvelope_fields) mkArtifactEnvelope artifact_path).
#[export] Instance set_artifact_size : Setter artifact_size :=
  ltac:(make_setter constr:(ArtifactEnvelope_fields) mkArtifactEnvelope artifact_size).
#[export] Instance set_artifact_sha256 : Setter artifact_sha256 :=
  ltac:(make_setter constr:(ArtifactEnvelope_fields) mkArtifactEnvelope artifact_sha256).
#[export] Instance set_artifact_nonce : Setter artifact_nonce :=
  ltac:(make_setter constr:(ArtifactEnvelope_fields) mkArtifactEnvelope artifact_nonce).
#[export] Instance set_artifact_wrapped_cek : Setter artifact_wrapped_cek :=
  ltac:(make_setter constr:(ArtifactEnvelope_fields) mkArtifactEnvelope artifact_wrapped_cek).
#[export] Instance set_artifact_encryption_algorithm : Setter artifact_encryption_algorithm :=
  ltac:(make_setter constr:(ArtifactEnvelope_fields) mkArtifactEnvelope artifact_encryption_algorithm).
#[export] Instance set_artifact_wrapping_algorithm : Setter artifact_wrapping_algorithm :=
  ltac:(make_setter constr:(ArtifactEnvelope_fields) mkArtifactEnvelope artifact_wrapping_algorithm).
#[export] Instance set_artifact_kek_version : Setter artifact_kek_version :=
  ltac:(make_setter constr:(ArtifactEnvelope_fields) mkArtifactEnvelope artifact_kek_version).
#[export] Instance set_artifact_signature : Setter artifact_signature :=
  ltac:(make_setter constr:(ArtifactEnvelope_fields) mkArtifactEnvelope artifact_signature).
#[export] Instance set_artifact_signature_algorithm : Setter artifact_signature_algorithm :=
  ltac:(make_setter constr:(ArtifactEnvelope_fields) mkArtifactEnvelope artifact_signature_algorithm).
#[export] Instance set_artifact_signing_key_version : Setter artifact_signing_key_version :=
  ltac:(make_setter constr:(ArtifactEnvelope_fields) mkArtifactEnvelope artifact_signing_key_version).

Abbreviation DatasetPublication_fields := (tt, pub_scope_type, pub_department,
  pub_station, pub_dataset_type_code, pub_scope_state, pub_version_number,
  pub_schema_version, pub_source_revision, pub_source_fingerprint, pub_source_snapshot,
  pub_status, pub_build_summary, pub_change_summary, pub_artifact_ready,
  pub_artifact_status, pub_artifact, pub_created_at, pub_created_by, pub_published_at,
  pub_published_by, pub_supersedes, pub_build_error).
#[export] Instance set_pub_scope_type : Setter pub_scope_type :=
  ltac:(make_setter constr:(DatasetPublication_fields) mkDatasetPublication pub_scope_type).
#[export] Instance set_pub_department : Setter pub_department :=
  ltac:(make_setter constr:(DatasetPublication_fields) mkDatasetPublication pub_department).
#[export] Instance set_pub_station : Setter pub_station :=
  ltac:(make_setter constr:(DatasetPublication_fields) mkDatasetPublication pub_station).
#[export] Instance set_pub_dataset_type_code : Setter pub_dataset_type_code :=
  ltac:(make_setter constr:(DatasetPublication_fields) mkDatasetPublication pub_dataset_type_code).
#[export] Instance set_pub_scope_state : Setter pub_scope_state :=
  ltac:(make_setter constr:(DatasetPublication_fields) mkDatasetPublication pub_scope_state).
#[export] Instance set_pub_version_number : Setter pub_version_number :=
  ltac:(make_setter constr:(DatasetPublication_fields) mkDatasetPublication pub_version_number).
#[export] Instance set_pub_schema_version : Setter pub_schema_version :=
  ltac:(make_setter constr:(DatasetPublication_fields) mkDatasetPublication pub_schema_version).
#[export] Instance set_pub_source_revision : Setter pub_source_revision :=
  ltac:(make_setter constr:(DatasetPublication_fields) mkDatasetPublication pub_source_revision).
#[export] Instance set_pub_source_fingerprint : Setter pub_source_fingerprint :=
  ltac:(make_setter constr:(DatasetPublication_fields) mkDatasetPublication pub_source_fingerprint).
#[export] Instance set_pub_source_snapshot : Setter pub_source_snapshot :=
  ltac:(make_setter constr:(DatasetPublication_fields) mkDatasetPublication pub_source_snapshot).
#[export] Instance set_pub_status : Setter pub_status :=
  ltac:(make_setter constr:(DatasetPublication_fields) mkDatasetPublication pub_status).
#[export] Instance set_pub_build_summary : Setter pub_build_summary :=
  ltac:(make_setter constr:(DatasetPublication_fields) mkDatasetPublication pub_build_summary).
#[export] Instance set_pub_change_summary : Setter pub_change_summary :=
  ltac:(make_setter constr:(DatasetPublication_fields) mkDatasetPublication pub_change_summary).
#[export] Instance set_pub_artifact_ready : Setter pub_artifact_ready :=
  ltac:(make_setter constr:(DatasetPublication_fields) mkDatasetPublication pub_artifact_ready).
#[export] Instance set_pub_artifact_status : Setter pub_artifact_status :=
  ltac:(make_setter constr:(DatasetPublication_fields) mkDatasetPublication pub_artifact_status).
#[export] Instance set_pub_artifact : Setter pub_artifact :=
  ltac:(make_setter constr:(DatasetPublication_fields) mkDatasetPublication pub_artifact).
#[export] Instance set_pub_created_at : Setter pub_created_at :=
  ltac:(make_setter constr:(DatasetPublication_fields) mkDatasetPublication pub_created_at).
#[export] Instance set_pub_created_by : Setter pub_created_by :=
  ltac:(make_setter constr:(DatasetPublication_fields) mkDatasetPublication pub_created_by).
#[export] Instance set_pub_published_at : Setter pub_published_at :=
  ltac:(make_setter constr:(DatasetPublication_fields) mkDatasetPublication pub_published_at).
#[export] Instance set_pub_published_by : Setter pub_published_by :=
  ltac:(make_setter constr:(DatasetPublication_fields) mkDatasetPublication pub_published_by).
#[export] Instance set_pub_supersedes : Setter pub_supersedes :=
  ltac:(make_setter constr:(DatasetPublication_fields) mkDatasetPublication pub_supersedes).
#[export] Instance set_pub_build_error : Setter pub_build_error :=
  ltac:(make_setter constr:(DatasetPublication_fields) mkDatasetPublication pub_build_error).

Abbreviation PublicationJob_fields := (tt, job_dataset_type_code, job_scope_state,
  job_scope_type, job_department, job_station, job_source_revision, job_attempt_count,
  job_status, job_requested_by, job_trigger_type, job_allow_clean_rebuild,
  job_not_before, job_debounce_started_at, job_created_at, job_started_at,
  job_heartbeat_at, job_completed_at, job_error_message, job_error_category,
  job_build_publication).
#[export] Instance set_job_dataset_type_code : Setter job_dataset_type_code :=
  ltac:(make_setter constr:(PublicationJob_fields) mkPublicationJob job_dataset_type_code).
#[export] Instance set_job_scope_state : Setter job_scope_state :=
  ltac:(make_setter constr:(PublicationJob_fields) mkPublicationJob job_scope_state).
#[export] Instance set_job_scope_type : Setter job_scope_type :=
  ltac:(make_setter constr:(PublicationJob_fields) mkPublicationJob job_scope_type).
#[export] Instance set_job_department : Setter job_department :=
  ltac:(make_setter constr:(PublicationJob_fields) mkPublicationJob job_department).
#[export] Instance set_job_station : Setter job_station :=
  ltac:(make_setter constr:(PublicationJob_fields) mkPublicationJob job_station).
#[export] Instance set_job_source_revision : Setter job_source_revision :=
  ltac:(make_setter constr:(PublicationJob_fields) mkPublicationJob job_source_revision).
#[export] Instance set_job_attempt_count : Setter job_attempt_count :=
  ltac:(make_setter constr:(PublicationJob_fields) mkPublicationJob job_attempt_count).
#[export] Instance set_job_status : Setter job_status :=
  ltac:(make_setter constr:(PublicationJob_fields) mkPublicationJob job_status).
#[export] Instance set_job_requested_by : Setter job_requested_by :=
  ltac:(make_setter constr:(PublicationJob_fields) mkPublicationJob job_requested_by).
#[export] Instance set_job_trigger_type : Setter job_trigger_type :=
  ltac:(make_setter constr:(PublicationJob_fields) mkPublicationJob job_trigger_type).
#[export] Instance set_job_allow_clean_rebuild : Setter job_allow_clean_rebuild :=
  ltac:(make_setter constr:(PublicationJob_fields) mkPublicationJob job_allow_clean_rebuild).
#[export] Instance set_job_not_before : Setter job_not_before :=
  ltac:(make_setter constr:(PublicationJob_fields) mkPublicationJob job_not_before).
#[export] Instance set_job_debounce_started_at : Setter job_debounce_started_at :=
  ltac:(make_setter constr:(PublicationJob_fields) mkPublicationJob job_debounce_started_at).
#[export] Instance set_job_created_at : Setter job_created_at :=
  ltac:(make_setter constr:(PublicationJob_fields) mkPublicationJob job_created_at).
#[export] Instance set_job_started_at : Setter job_started_at :=
  ltac:(make_setter constr:(PublicationJob_fields) mkPublicationJob job_started_at).
#[export] Instance set_job_heartbeat_at : Setter job_heartbeat_at :=
  ltac:(make_setter constr:(PublicationJob_fields) mkPublicationJob job_heartbeat_at).
#[export] Instance set_job_completed_at : Setter job_completed_at :=
  ltac:(make_setter constr:(PublicationJob_fields) mkPublicationJob job_completed_at).
#[export] Instance set_job_error_message : Setter job_error_message :=
  ltac:(make_setter constr:(PublicationJob_fields) mkPublicationJob job_error_message).
#[export] Instance set_job_error_category : Setter job_error_category :=
  ltac:(make_setter constr:(PublicationJob_fields) mkPublicationJob job_error_category).
#[export] Instance set_job_build_publication : Setter job_build_publication :=
  ltac:(make_setter constr:(PublicationJob_fields) mkPublicationJob job_build_publication).

Abbreviation PublicationActivation_fields := (tt, pa_publication, pa_scope_state,
  pa_previous_publication, pa_action, pa_activated_by).
#[export] Instance set_pa_publication : Setter pa_publication :=
  ltac:(make_setter constr:(PublicationActivation_fields) mkPublicationActivation pa_publication).
#[export] Instance set_pa_scope_state : Setter pa_scope_state :=
  ltac:(make_setter constr:(PublicationActivation_fields) mkPublicationActivation pa_scope_state).
#[export] Instance set_pa_previous_publication : Setter pa_previous_publication :=
  ltac:(make_setter constr:(PublicationActivation_fields) mkPublicationActivation pa_previous_publication).
#[export] Instance set_pa_action : Setter pa_action :=
  ltac:(make_setter constr:(PublicationActivation_fields) mkPublicationActivation pa_action).
#[export] Instance set_pa_activated_by : Setter pa_activated_by :=
  ltac:(make_setter constr:(PublicationActivation_fields) mkPublicationActivation pa_activated_by).

Abbreviation KeyGrant_fields := (tt, kg_publication, kg_app_installation, kg_status,
  kg_hpke_ciphersuite, kg_hpke_encapsulated_key, kg_hpke_wrapped_key, kg_created_at,
  kg_completed_at, kg_revoked_at, kg_error_message).
#[export] Instance set_kg_publication : Setter kg_publication :=
  ltac:(make_setter constr:(KeyGrant_fields) mkKeyGrant kg_publication).
#[export] Instance set_kg_app_installation : Setter kg_app_installation :=
  ltac:(make_setter constr:(KeyGrant_fields) mkKeyGrant kg_app_installation).
#[export] Instance set_kg_status : Setter kg_status :=
  ltac:(make_setter constr:(KeyGrant_fields) mkKeyGrant kg_status).
#[export] Instance set_kg_hpke_ciphersuite : Setter kg_hpke_ciphersuite :=
  ltac:(make_setter constr:(KeyGrant_fields) mkKeyGrant kg_hpke_ciphersuite).
#[export] Instance set_kg_hpke_encapsulated_key : Setter kg_hpke_encapsulated_key :=
  ltac:(make_setter constr:(KeyGrant_fields) mkKeyGrant kg_hpke_encapsulated_key).
#[export] Instance set_kg_hpke_wrapped_key : Setter kg_hpke_wrapped_key :=
  ltac:(make_setter constr:(KeyGrant_fields) mkKeyGrant kg_hpke_wrapped_key).
#[export] Instance set_kg_created_at : Setter kg_created_at :=
  ltac:(make_setter constr:(KeyGrant_fields) mkKeyGrant kg_created_at).
#[export] Instance set_kg_completed_at : Setter kg_completed_at :=
  ltac:(make_setter constr:(KeyGrant_fields) mkKeyGrant kg_completed_at).
#[export] Instance set_kg_revoked_at : Setter kg_revoked_at :=
  ltac:(make_setter constr:(KeyGrant_fields) mkKeyGrant kg_revoked_at).
#[export] Instance set_kg_error_message : Setter kg_error_message :=
  ltac:(make_setter constr:(KeyGrant_fields) mkKeyGrant kg_error_message).

Abbreviation SignedManifest_fields := (tt, sm_app_installation, sm_state_hash,
  sm_generation, sm_status, sm_payload, sm_signature, sm_signature_algorithm,
  sm_signing_key_version, sm_created_at, sm_completed_at, sm_error_message).
#[export] Instance set_sm_app_installation : Setter sm_app_installation :=
  ltac:(make_setter constr:(SignedManifest_fields) mkSignedManifest sm_app_installation).
#[export] Instance set_sm_state_hash : Setter sm_state_hash :=
  ltac:(make_setter constr:(SignedManifest_fields) mkSignedManifest sm_state_hash).
#[export] Instance set_sm_generation : Setter sm_generation :=
  ltac:(make_setter constr:(SignedManifest_fields) mkSignedManifest sm_generation).
#[export] Instance set_sm_status : Setter sm_status :=
  ltac:(make_setter constr:(SignedManifest_fields) mkSignedManifest sm_status).
#[export] Instance set_sm_payload : Setter sm_payload :=
  ltac:(make_setter constr:(SignedManifest_fields) mkSignedManifest sm_payload).
#[export] Instance set_sm_signature : Setter sm_signature :=
  ltac:(make_setter constr:(SignedManifest_fields) mkSignedManifest sm_signature).
#[export] Instance set_sm_signature_algorithm : Setter sm_signature_algorithm :=
  ltac:(make_setter constr:(SignedManifest_fields) mkSignedManifest sm_signature_algorithm).
#[export] Instance set_sm_signing_key_version : Setter sm_signing_key_version :=
  ltac:(make_setter constr:(SignedManifest_fields) mkSignedManifest sm_signing_key_version).
#[export] Instance set_sm_created_at : Setter sm_created_at :=
  ltac:(make_setter constr:(SignedManifest_fields) mkSignedManifest sm_created_at).
#[export] Instance set_sm_completed_at : Setter sm_completed_at :=
  ltac:(make_setter constr:(SignedManifest_fields) mkSignedManifest sm_completed_at).
#[export] Instance set_sm_error_message : Setter sm_error_message :=
  ltac:(make_setter constr:(SignedManifest_fields) mkSignedManifest sm_error_message).

Abbreviation DocumentArtifact_fields := (tt, da_dataset_type_code,
  da_canonical_document_id, da_sanitized_pdf_sha256, da_artifact_path).
#[export] Instance set_da_dataset_type_code : Setter da_dataset_type_code :=
  ltac:(make_setter constr:(DocumentArtifact_fields) mkDocumentArtifact da_dataset_type_code).
#[export] Instance set_da_canonical_document_id : Setter da_canonical_document_id :=
  ltac:(make_setter constr:(DocumentArtifact_fields) mkDocumentArtifact da_canonical_document_id).
#[export] Instance set_da_sanitized_pdf_sha256 : Setter da_sanitized_pdf_sha256 :=
  ltac:(make_setter constr:(DocumentArtifact_fields) mkDocumentArtifact da_sanitized_pdf_sha256).
#[export] Instance set_da_artifact_path : Setter da_artifact_path :=
  ltac:(make_setter constr:(DocumentArtifact_fields) mkDocumentArtifact da_artifact_path).

Abbreviation DocumentArtifactReference_fields := (tt, dr_publication,
  dr_canonical_document_id, dr_document_artifact).
#[export] Instance set_dr_publication : Setter dr_publication :=
  ltac:(make_setter constr:(DocumentArtifactReference_fields) mkDocumentArtifactReference dr_publication).
#[export] Instance set_dr_canonical_document_id : Setter dr_canonical_document_id :=
  ltac:(make_setter constr:(DocumentArtifactReference_fields) mkDocumentArtifactReference dr_canonical_document_id).
#[export] Instance set_dr_document_artifact : Setter dr_document_artifact :=
  ltac:(make_setter constr:(DocumentArtifactReference_fields) mkDocumentArtifactReference dr_document_artifact).

Abbreviation DocumentArtifactCleanup_fields := (tt, dc_artifact_id, dc_artifact_path).
#[export] Instance set_dc_artifact_id : Setter dc_artifact_id :=
  ltac:(make_setter constr:(DocumentArtifactCleanup_fields) mkDocumentArtifactCleanup dc_artifact_id).
#[export] Instance set_dc_artifact_path : Setter dc_artifact_path :=
  ltac:(make_setter constr:(DocumentArtifactCleanup_fields) mkDocumentArtifactCleanup dc_artifact_path).

Abbreviation PublicationContent_fields := (tt, pc_publication, pc_content,
  pc_document_id).
#[export] Instance set_pc_publication : Setter pc_publication :=
  ltac:(make_setter constr:(PublicationContent_fields) mkPublicationContent pc_publication).
#[export] Instance set_pc_content : Setter pc_content :=
  ltac:(make_setter constr:(PublicationContent_fields) mkPublicationContent pc_content).
#[export] Instance set_pc_document_id : Setter pc_document_id :=
  ltac:(make_setter constr:(PublicationContent_fields) mkPublicationContent pc_document_id).

Abbreviation Tablet_fields := (tt, tb_department, tb_asset_number, tb_display_name,
  tb_status, tb_active, tb_created_by).
#[export] Instance set_tb_department : Setter tb_department :=
  ltac:(make_setter constr:(Tablet_fields) mkTablet tb_department).
#[export] Instance set_tb_asset_number : Setter tb_asset_number :=
  ltac:(make_setter constr:(Tablet_fields) mkTablet tb_asset_number).
#[export] Instance set_tb_display_name : Setter tb_display_name :=
  ltac:(make_setter constr:(Tablet_fields) mkTablet tb_display_name).
#[export] Instance set_tb_status : Setter tb_status :=
  ltac:(make_setter constr:(Tablet_fields) mkTablet tb_status).
#[export] Instance set_tb_active : Setter tb_active :=
  ltac:(make_setter constr:(Tablet_fields) mkTablet tb_active).
#[export] Instance set_tb_created_by : Setter tb_created_by :=
  ltac:(make_setter constr:(Tablet_fields) mkTablet tb_created_by).

Abbreviation AppInstallation_fields := (tt, in_tablet, in_installation_uuid,
  in_credential_hash, in_status, in_app_version, in_adopted_app_version, in_app_build,
  in_app_version_seen_at, in_hpke_public_key, in_hpke_ciphersuite,
  in_hpke_key_fingerprint, in_hpke_key_verified_at, in_adopted_at, in_adopted_by,
  in_last_successful_check_in_at, in_authorization_valid_until, in_stale_at,
  in_revoked_at, in_revocation_reason, in_compatibility_blocked).
#[export] Instance set_in_tablet : Setter in_tablet :=
  ltac:(make_setter constr:(AppInstallation_fields) mkAppInstallation in_tablet).
#[export] Instance set_in_installation_uuid : Setter in_installation_uuid :=
  ltac:(make_setter constr:(AppInstallation_fields) mkAppInstallation in_installation_uuid).
#[export] Instance set_in_credential_hash : Setter in_credential_hash :=
  ltac:(make_setter constr:(AppInstallation_fields) mkAppInstallation in_credential_hash).
#[export] Instance set_in_status : Setter in_status :=
  ltac:(make_setter constr:(AppInstallation_fields) mkAppInstallation in_status).
#[export] Instance set_in_app_version : Setter in_app_version :=
  ltac:(make_setter constr:(AppInstallation_fields) mkAppInstallation in_app_version).
#[export] Instance set_in_adopted_app_version : Setter in_adopted_app_version :=
  ltac:(make_setter constr:(AppInstallation_fields) mkAppInstallation in_adopted_app_version).
#[export] Instance set_in_app_build : Setter in_app_build :=
  ltac:(make_setter constr:(AppInstallation_fields) mkAppInstallation in_app_build).
#[export] Instance set_in_app_version_seen_at : Setter in_app_version_seen_at :=
  ltac:(make_setter constr:(AppInstallation_fields) mkAppInstallation in_app_version_seen_at).
#[export] Instance set_in_hpke_public_key : Setter in_hpke_public_key :=
  ltac:(make_setter constr:(AppInstallation_fields) mkAppInstallation in_hpke_public_key).
#[export] Instance set_in_hpke_ciphersuite : Setter in_hpke_ciphersuite :=
  ltac:(make_setter constr:(AppInstallation_fields) mkAppInstallation in_hpke_ciphersuite).
#[export] Instance set_in_hpke_key_fingerprint : Setter in_hpke_key_fingerprint :=
  ltac:(make_setter constr:(AppInstallation_fields) mkAppInstallation in_hpke_key_fingerprint).
#[export] Instance set_in_hpke_key_verified_at : Setter in_hpke_key_verified_at :=
  ltac:(make_setter constr:(AppInstallation_fields) mkAppInstallation in_hpke_key_verified_at).
#[export] Instance set_in_adopted_at : Setter in_adopted_at :=
  ltac:(make_setter constr:(AppInstallation_fields) mkAppInstallation in_adopted_at).
#[export] Instance set_in_adopted_by : Setter in_adopted_by :=
  ltac:(make_setter constr:(AppInstallation_fields) mkAppInstallation in_adopted_by).
#[export] Instance set_in_last_successful_check_in_at : Setter in_last_successful_check_in_at :=
  ltac:(make_setter constr:(AppInstallation_fields) mkAppInstallation in_last_successful_check_in_at).
#[export] Instance set_in_authorization_valid_until : Setter in_authorization_valid_until :=
  ltac:(make_setter constr:(AppInstallation_fields) mkAppInstallation in_authorization_valid_until).
#[export] Instance set_in_stale_at : Setter in_stale_at :=
  ltac:(make_setter constr:(AppInstallation_fields) mkAppInstallation in_stale_at).
#[export] Instance set_in_revoked_at : Setter in_revoked_at :=
  ltac:(make_setter constr:(AppInstallation_fields) mkAppInstallation in_revoked_at).
#[export] Instance set_in_revocation_reason : Setter in_revocation_reason :=
  ltac:(make_setter constr:(AppInstallation_fields) mkAppInstallation in_revocation_reason).
#[export] Instance set_in_compatibility_blocked : Setter in_compatibility_blocked :=
  ltac:(make_setter constr:(AppInstallation_fields) mkAppInstallation in_compatibility_blocked).

Abbreviation AdoptionInvitation_fields := (tt, iv_tablet, iv_token_hash, iv_expires_at,
  iv_created_by, iv_used_at, iv_revoked_at, iv_failed_attempt_count).
#[export] Instance set_iv_tablet : Setter iv_tablet :=
  ltac:(make_setter constr:(AdoptionInvitation_fields) mkAdoptionInvitation iv_tablet).
#[export] Instance set_iv_token_hash : Setter iv_token_hash :=
  ltac:(make_setter constr:(AdoptionInvitation_fields) mkAdoptionInvitation iv_token_hash).
#[export] Instance set_iv_expires_at : Setter iv_expires_at :=
  ltac:(make_setter constr:(AdoptionInvitation_fields) mkAdoptionInvitation iv_expires_at).
#[export] Instance set_iv_created_by : Setter iv_created_by :=
  ltac:(make_setter constr:(AdoptionInvitation_fields) mkAdoptionInvitation iv_created_by).
#[export] Instance set_iv_used_at : Setter iv_used_at :=
  ltac:(make_setter constr:(AdoptionInvitation_fields) mkAdoptionInvitation iv_used_at).
#[export] Instance set_iv_revoked_at : Setter iv_revoked_at :=
  ltac:(make_setter constr:(AdoptionInvitation_fields) mkAdoptionInvitation iv_revoked_at).
#[export] Instance set_iv_failed_attempt_count : Setter iv_failed_attempt_count :=
  ltac:(make_setter constr:(AdoptionInvitation_fields) mkAdoptionInvitation iv_failed_attempt_count).

Abbreviation AdoptionRequest_fields := (tt, ar_invitation, ar_installation_uuid,
  ar_app_version, ar_app_build, ar_hpke_public_key, ar_hpke_public_key_fingerprint,
  ar_hpke_ciphersuite, ar_expected_hmac_digest, ar_canonical_context_hash,
  ar_encrypted_challenge, ar_expires_at, ar_completed_at,
  ar_completion_replay_valid_until, ar_completion_replay_invalidated_at,
  ar_failed_attempt_count).
#[export] Instance set_ar_invitation : Setter ar_invitation :=
  ltac:(make_setter constr:(AdoptionRequest_fields) mkAdoptionRequest ar_invitation).
#[export] Instance set_ar_installation_uuid : Setter ar_installation_uuid :=
  ltac:(make_setter constr:(AdoptionRequest_fields) mkAdoptionRequest ar_installation_uuid).
#[export] Instance set_ar_app_version : Setter ar_app_version :=
  ltac:(make_setter constr:(AdoptionRequest_fields) mkAdoptionRequest ar_app_version).
#[export] Instance set_ar_app_build : Setter ar_app_build :=
  ltac:(make_setter constr:(AdoptionRequest_fields) mkAdoptionRequest ar_app_build).
#[export] Instance set_ar_hpke_public_key : Setter ar_hpke_public_key :=
  ltac:(make_setter constr:(AdoptionRequest_fields) mkAdoptionRequest ar_hpke_public_key).
#[export] Instance set_ar_hpke_public_key_fingerprint : Setter ar_hpke_public_key_fingerprint :=
  ltac:(make_setter constr:(AdoptionRequest_fields) mkAdoptionRequest ar_hpke_public_key_fingerprint).
#[export] Instance set_ar_hpke_ciphersuite : Setter ar_hpke_ciphersuite :=
  ltac:(make_setter constr:(AdoptionRequest_fields) mkAdoptionRequest ar_hpke_ciphersuite).
#[export] Instance set_ar_expected_hmac_digest : Setter ar_expected_hmac_digest :=
  ltac:(make_setter constr:(AdoptionRequest_fields) mkAdoptionRequest ar_expected_hmac_digest).
#[export] Instance set_ar_canonical_context_hash : Setter ar_canonical_context_hash :=
  ltac:(make_setter constr:(AdoptionRequest_fields) mkAdoptionRequest ar_canonical_context_hash).
#[export] Instance set_ar_encrypted_challenge : Setter ar_encrypted_challenge :=
  ltac:(make_setter constr:(AdoptionRequest_fields) mkAdoptionRequest ar_encrypted_challenge).
#[export] Instance set_ar_expires_at : Setter ar_expires_at :=
  ltac:(make_setter constr:(AdoptionRequest_fields) mkAdoptionRequest ar_expires_at).
#[export] Instance set_ar_completed_at : Setter ar_completed_at :=
  ltac:(make_setter constr:(AdoptionRequest_fields) mkAdoptionRequest ar_completed_at).
#[export] Instance set_ar_completion_replay_valid_until : Setter ar_completion_replay_valid_until :=
  ltac:(make_setter constr:(AdoptionRequest_fields) mkAdoptionRequest ar_completion_replay_valid_until).
#[export] Instance set_ar_completion_replay_invalidated_at : Setter ar_completion_replay_invalidated_at :=
  ltac:(make_setter constr:(AdoptionRequest_fields) mkAdoptionRequest ar_completion_replay_invalidated_at).
#[export] Instance set_ar_failed_attempt_count : Setter ar_failed_attempt_count :=
  ltac:(make_setter constr:(AdoptionRequest_fields) mkAdoptionRequest ar_failed_attempt_count).

Abbreviation TabletVehicleAssignment_fields := (tt, va_tablet, va_vehicle,
  va_valid_from, va_valid_until, va_created_by, va_ended_by, va_ended_at,
  va_end_reason).
#[export] Instance set_va_tablet : Setter va_tablet :=
  ltac:(make_setter constr:(TabletVehicleAssignment_fields) mkTabletVehicleAssignment va_tablet).
#[export] Instance set_va_vehicle : Setter va_vehicle :=
  ltac:(make_setter constr:(TabletVehicleAssignment_fields) mkTabletVehicleAssignment va_vehicle).
#[export] Instance set_va_valid_from : Setter va_valid_from :=
  ltac:(make_setter constr:(TabletVehicleAssignment_fields) mkTabletVehicleAssignment va_valid_from).
#[export] Instance set_va_valid_until : Setter va_valid_until :=
  ltac:(make_setter constr:(TabletVehicleAssignment_fields) mkTabletVehicleAssignment va_valid_until).
#[export] Instance set_va_created_by : Setter va_created_by :=
  ltac:(make_setter constr:(TabletVehicleAssignment_fields) mkTabletVehicleAssignment va_created_by).
#[export] Instance set_va_ended_by : Setter va_ended_by :=
  ltac:(make_setter constr:(TabletVehicleAssignment_fields) mkTabletVehicleAssignment va_ended_by).
#[export] Instance set_va_ended_at : Setter va_ended_at :=
  ltac:(make_setter constr:(TabletVehicleAssignment_fields) mkTabletVehicleAssignment va_ended_at).
#[export] Instance set_va_end_reason : Setter va_end_reason :=
  ltac:(make_setter constr:(TabletVehicleAssignment_fields) mkTabletVehicleAssignment va_end_reason).

Abbreviation TabletApiActivity_fields := (tt, ac_app_installation, ac_occurred_at,
  ac_method, ac_path, ac_status_code, ac_duration_ms).
#[export] Instance set_ac_app_installation : Setter ac_app_installation :=
  ltac:(make_setter constr:(TabletApiActivity_fields) mkTabletApiActivity ac_app_installation).
#[export] Instance set_ac_occurred_at : Setter ac_occurred_at :=
  ltac:(make_setter constr:(TabletApiActivity_fields) mkTabletApiActivity ac_occurred_at).
#[export] Instance set_ac_method : Setter ac_method :=
  ltac:(make_setter constr:(TabletApiActivity_fields) mkTabletApiActivity ac_method).
#[export] Instance set_ac_path : Setter ac_path :=
  ltac:(make_setter constr:(TabletApiActivity_fields) mkTabletApiActivity ac_path).
#[export] Instance set_ac_status_code : Setter ac_status_code :=
  ltac:(make_setter constr:(TabletApiActivity_fields) mkTabletApiActivity ac_status_code).
#[export] Instance set_ac_duration_ms : Setter ac_duration_ms :=
  ltac:(make_setter constr:(TabletApiActivity_fields) mkTabletApiActivity ac_duration_ms).

Abbreviation Person_fields := (tt, pe_department, pe_personnel_number, pe_first_name,
  pe_last_name, pe_display_name, pe_lifecycle_status, pe_active,
  pe_incident_commander_eligible, pe_incident_commander_email, pe_email_verified_at,
  pe_email_verified_by, pe_departed_at, pe_retention_until, pe_anonymized_at,
  pe_anonymized_by).
#[export] Instance set_pe_department : Setter pe_department :=
  ltac:(make_setter constr:(Person_fields) mkPerson pe_department).
#[export] Instance set_pe_personnel_number : Setter pe_personnel_number :=
  ltac:(make_setter constr:(Person_fields) mkPerson pe_personnel_number).
#[export] Instance set_pe_first_name : Setter pe_first_name :=
  ltac:(make_setter constr:(Person_fields) mkPerson pe_first_name).
#[export] Instance set_pe_last_name : Setter pe_last_name :=
  ltac:(make_setter constr:(Person_fields) mkPerson pe_last_name).
#[export] Instance set_pe_display_name : Setter pe_display_name :=
  ltac:(make_setter constr:(Person_fields) mkPerson pe_display_name).
#[export] Instance set_pe_lifecycle_status : Setter pe_lifecycle_status :=
  ltac:(make_setter constr:(Person_fields) mkPerson pe_lifecycle_status).
#[export] Instance set_pe_active : Setter pe_active :=
  ltac:(make_setter constr:(Person_fields) mkPerson pe_active).
#[export] Instance set_pe_incident_commander_eligible : Setter pe_incident_commander_eligible :=
  ltac:(make_setter constr:(Person_fields) mkPerson pe_incident_commander_eligible).
#[export] Instance set_pe_incident_commander_email : Setter pe_incident_commander_email :=
  ltac:(make_setter constr:(Person_fields) mkPerson pe_incident_commander_email).
#[export] Instance set_pe_email_verified_at : Setter pe_email_verified_at :=
  ltac:(make_setter constr:(Person_fields) mkPerson pe_email_verified_at).
#[export] Instance set_pe_email_verified_by : Setter pe_email_verified_by :=
  ltac:(make_setter constr:(Person_fields) mkPerson pe_email_verified_by).
#[export] Instance set_pe_departed_at : Setter pe_departed_at :=
  ltac:(make_setter constr:(Person_fields) mkPerson pe_departed_at).
#[export] Instance set_pe_retention_until : Setter pe_retention_until :=
  ltac:(make_setter constr:(Person_fields) mkPerson pe_retention_until).
#[export] Instance set_pe_anonymized_at : Setter pe_anonymized_at :=
  ltac:(make_setter constr:(Person_fields) mkPerson pe_anonymized_at).
#[export] Instance set_pe_anonymized_by : Setter pe_anonymized_by :=
  ltac:(make_setter constr:(Person_fields) mkPerson pe_anonymized_by).

Abbreviation PersonnelStationAssignment_fields := (tt, ps_person, ps_station, ps_home,
  ps_valid_from, ps_valid_until, ps_reason, ps_created_by, ps_ended_by, ps_ended_at).
#[export] Instance set_ps_person : Setter ps_person :=
  ltac:(make_setter constr:(PersonnelStationAssignment_fields) mkPersonnelStationAssignment ps_person).
#[export] Instance set_ps_station : Setter ps_station :=
  ltac:(make_setter constr:(PersonnelStationAssignment_fields) mkPersonnelStationAssignment ps_station).
#[export] Instance set_ps_home : Setter ps_home :=
  ltac:(make_setter constr:(PersonnelStationAssignment_fields) mkPersonnelStationAssignment ps_home).
#[export] Instance set_ps_valid_from : Setter ps_valid_from :=
  ltac:(make_setter constr:(PersonnelStationAssignment_fields) mkPersonnelStationAssignment ps_valid_from).
#[export] Instance set_ps_valid_until : Setter ps_valid_until :=
  ltac:(make_setter constr:(PersonnelStationAssignment_fields) mkPersonnelStationAssignment ps_valid_until).
#[export] Instance set_ps_reason : Setter ps_reason :=
  ltac:(make_setter constr:(PersonnelStationAssignment_fields) mkPersonnelStationAssignment ps_reason).
#[export] Instance set_ps_created_by : Setter ps_created_by :=
  ltac:(make_setter constr:(PersonnelStationAssignment_fields) mkPersonnelStationAssignment ps_created_by).
#[export] Instance set_ps_ended_by : Setter ps_ended_by :=
  ltac:(make_setter constr:(PersonnelStationAssignment_fields) mkPersonnelStationAssignment ps_ended_by).
#[export] Instance set_ps_ended_at : Setter ps_ended_at :=
  ltac:(make_setter constr:(PersonnelStationAssignment_fields) mkPersonnelStationAssignment ps_ended_at).

Abbreviation DepartmentFeature_fields := (tt, df_department, df_feature_code,
  df_enabled).
#[export] Instance set_df_department : Setter df_department :=
  ltac:(make_setter constr:(DepartmentFeature_fields) mkDepartmentFeature df_department).
#[export] Instance set_df_feature_code : Setter df_feature_code :=
  ltac:(make_setter constr:(DepartmentFeature_fields) mkDepartmentFeature df_feature_code).
#[export] Instance set_df_enabled : Setter df_enabled :=
  ltac:(make_setter constr:(DepartmentFeature_fields) mkDepartmentFeature df_enabled).

Abbreviation VehicleRescueGuidesConfiguration_fields := (tt, vg_provider, vg_mode,
  vg_web_url, vg_updated_by).
#[export] Instance set_vg_provider : Setter vg_provider :=
  ltac:(make_setter constr:(VehicleRescueGuidesConfiguration_fields) mkVehicleRescueGuidesConfiguration vg_provider).
#[export] Instance set_vg_mode : Setter vg_mode :=
  ltac:(make_setter constr:(VehicleRescueGuidesConfiguration_fields) mkVehicleRescueGuidesConfiguration vg_mode).
#[export] Instance set_vg_web_url : Setter vg_web_url :=
  ltac:(make_setter constr:(VehicleRescueGuidesConfiguration_fields) mkVehicleRescueGuidesConfiguration vg_web_url).
#[export] Instance set_vg_updated_by : Setter vg_updated_by :=
  ltac:(make_setter constr:(VehicleRescueGuidesConfiguration_fields) mkVehicleRescueGuidesConfiguration vg_updated_by).

Abbreviation DocumentGenerationKey_fields := (tt, gk_wrapped_key, gk_wrapping_algorithm,
  gk_kek_version).
#[export] Instance set_gk_wrapped_key : Setter gk_wrapped_key :=
  ltac:(make_setter constr:(DocumentGenerationKey_fields) mkDocumentGenerationKey gk_wrapped_key).
#[export] Instance set_gk_wrapping_algorithm : Setter gk_wrapping_algorithm :=
  ltac:(make_setter constr:(DocumentGenerationKey_fields) mkDocumentGenerationKey gk_wrapping_algorithm).
#[export] Instance set_gk_kek_version : Setter gk_kek_version :=
  ltac:(make_setter constr:(DocumentGenerationKey_fields) mkDocumentGenerationKey gk_kek_version).

Abbreviation ApiVersionCompatibilityPolicy_fields := (tt, vp_api_major,
  vp_minimum_app_version, vp_updated_by).
#[export] Instance set_vp_api_major : Setter vp_api_major :=
  ltac:(make_setter constr:(ApiVersionCompatibilityPolicy_fields) mkApiVersionCompatibilityPolicy vp_api_major).
#[export] Instance set_vp_minimum_app_version : Setter vp_minimum_app_version :=
  ltac:(make_setter constr:(ApiVersionCompatibilityPolicy_fields) mkApiVersionCompatibilityPolicy vp_minimum_app_version).
#[export] Instance set_vp_updated_by : Setter vp_updated_by :=
  ltac:(make_setter constr:(ApiVersionCompatibilityPolicy_fields) mkApiVersionCompatibilityPolicy vp_updated_by).

Abbreviation PersonnelRetentionPolicy_fields := (tt, rp_department, rp_retention_period,
  rp_updated_by).
#[export] Instance set_rp_department : Setter rp_department :=
  ltac:(make_setter constr:(PersonnelRetentionPolicy_fields) mkPersonnelRetentionPolicy rp_department).
#[export] Instance set_rp_retention_period : Setter rp_retention_period :=
  ltac:(make_setter constr:(PersonnelRetentionPolicy_fields) mkPersonnelRetentionPolicy rp_retention_period).
#[export] Instance set_rp_updated_by : Setter rp_updated_by :=
  ltac:(make_setter constr:(PersonnelRetentionPolicy_fields) mkPersonnelRetentionPolicy rp_updated_by).

Abbreviation AccountSetupToken_fields := (tt, tk_user, tk_token_hash, tk_expires_at,
  tk_created_by, tk_used_at).
#[export] Instance set_tk_user : Setter tk_user :=
  ltac:(make_setter constr:(AccountSetupToken_fields) mkAccountSetupToken tk_user).
#[export] Instance set_tk_token_hash : Setter tk_token_hash :=
  ltac:(make_setter constr:(AccountSetupToken_fields) mkAccountSetupToken tk_token_hash).
#[export] Instance set_tk_expires_at : Setter tk_expires_at :=
  ltac:(make_setter constr:(AccountSetupToken_fields) mkAccountSetupToken tk_expires_at).
#[export] Instance set_tk_created_by : Setter tk_created_by :=
  ltac:(make_setter constr:(AccountSetupToken_fields) mkAccountSetupToken tk_created_by).
#[export] Instance set_tk_used_at : Setter tk_used_at :=
  ltac:(make_setter constr:(AccountSetupToken_fields) mkAccountSetupToken tk_used_at).

Abbreviation AuthenticationThrottle_fields := (tt, th_scope, th_subject,
  th_subject_hash, th_failure_count, th_window_started_at, th_locked_until).
#[export] Instance set_th_scope : Setter th_scope :=
  ltac:(make_setter constr:(AuthenticationThrottle_fields) mkAuthenticationThrottle th_scope).
#[export] Instance set_th_subject : Setter th_subject :=
  ltac:(make_setter constr:(AuthenticationThrottle_fields) mkAuthenticationThrottle th_subject).
#[export] Instance set_th_subject_hash : Setter th_subject_hash :=
  ltac:(make_setter constr:(AuthenticationThrottle_fields) mkAuthenticationThrottle th_subject_hash).
#[export] Instance set_th_failure_count : Setter th_failure_count :=
  ltac:(make_setter constr:(AuthenticationThrottle_fields) mkAuthenticationThrottle th_failure_count).
#[export] Instance set_th_window_started_at : Setter th_window_started_at :=
  ltac:(make_setter constr:(AuthenticationThrottle_fields) mkAuthenticationThrottle th_window_started_at).
#[export] Instance set_th_locked_until : Setter th_locked_until :=
  ltac:(make_setter constr:(AuthenticationThrottle_fields) mkAuthenticationThrottle th_locked_until).

Abbreviation DepartmentManagedMailEligibility_fields := (tt, me_department, me_allowed,
  me_updated_by).
#[export] Instance set_me_department : Setter me_department :=
  ltac:(make_setter constr:(DepartmentManagedMailEligibility_fields) mkDepartmentManagedMailEligibility me_department).
#[export] Instance set_me_allowed : Setter me_allowed :=
  ltac:(make_setter constr:(DepartmentManagedMailEligibility_fields) mkDepartmentManagedMailEligibility me_allowed).
#[export] Instance set_me_updated_by : Setter me_updated_by :=
  ltac:(make_setter constr:(DepartmentManagedMailEligibility_fields) mkDepartmentManagedMailEligibility me_updated_by).

Abbreviation SmtpSettings_fields := (tt, smtp_host, smtp_port, smtp_tls_mode,
  smtp_sender_name, smtp_sender_email, smtp_username, smtp_password_encrypted).
#[export] Instance set_smtp_host : Setter smtp_host :=
  ltac:(make_setter constr:(SmtpSettings_fields) mkSmtpSettings smtp_host).
#[export] Instance set_smtp_port : Setter smtp_port :=
  ltac:(make_setter constr:(SmtpSettings_fields) mkSmtpSettings smtp_port).
#[export] Instance set_smtp_tls_mode : Setter smtp_tls_mode :=
  ltac:(make_setter constr:(SmtpSettings_fields) mkSmtpSettings smtp_tls_mode).
#[export] Instance set_smtp_sender_name : Setter smtp_sender_name :=
  ltac:(make_setter constr:(SmtpSettings_fields) mkSmtpSettings smtp_sender_name).
#[export] Instance set_smtp_sender_email : Setter smtp_sender_email :=
  ltac:(make_setter constr:(SmtpSettings_fields) mkSmtpSettings smtp_sender_email).
#[export] Instance set_smtp_username : Setter smtp_username :=
  ltac:(make_setter constr:(SmtpSettings_fields) mkSmtpSettings smtp_username).
#[export] Instance set_smtp_password_encrypted : Setter smtp_password_encrypted :=
  ltac:(make_setter constr:(SmtpSettings_fields) mkSmtpSettings smtp_password_encrypted).

Abbreviation SystemMailConfiguration_fields := (tt, mc_delivery_mode, mc_api_provider,
  mc_brevo_sender_name, mc_brevo_sender_email, mc_brevo_api_key_encrypted, mc_smtp,
  mc_outbound_mail_https_proxy, mc_verification_provider, mc_last_verification_outcome,
  mc_last_verified_at, mc_last_verification_code, mc_updated_by).
#[export] Instance set_mc_delivery_mode : Setter mc_delivery_mode :=
  ltac:(make_setter constr:(SystemMailConfiguration_fields) mkSystemMailConfiguration mc_delivery_mode).
#[export] Instance set_mc_api_provider : Setter mc_api_provider :=
  ltac:(make_setter constr:(SystemMailConfiguration_fields) mkSystemMailConfiguration mc_api_provider).
#[export] Instance set_mc_brevo_sender_name : Setter mc_brevo_sender_name :=
  ltac:(make_setter constr:(SystemMailConfiguration_fields) mkSystemMailConfiguration mc_brevo_sender_name).
#[export] Instance set_mc_brevo_sender_email : Setter mc_brevo_sender_email :=
  ltac:(make_setter constr:(SystemMailConfiguration_fields) mkSystemMailConfiguration mc_brevo_sender_email).
#[export] Instance set_mc_brevo_api_key_encrypted : Setter mc_brevo_api_key_encrypted :=
  ltac:(make_setter constr:(SystemMailConfiguration_fields) mkSystemMailConfiguration mc_brevo_api_key_encrypted).
#[export] Instance set_mc_smtp : Setter mc_smtp :=
  ltac:(make_setter constr:(SystemMailConfiguration_fields) mkSystemMailConfiguration mc_smtp).
#[export] Instance set_mc_outbound_mail_https_proxy : Setter mc_outbound_mail_https_proxy :=
  ltac:(make_setter constr:(SystemMailConfiguration_fields) mkSystemMailConfiguration mc_outbound_mail_https_proxy).
#[export] Instance set_mc_verification_provider : Setter mc_verification_provider :=
  ltac:(make_setter constr:(SystemMailConfiguration_fields) mkSystemMailConfiguration mc_verification_provider).
#[export] Instance set_mc_last_verification_outcome : Setter mc_last_verification_outcome :=
  ltac:(make_setter constr:(SystemMailConfiguration_fields) mkSystemMailConfiguration mc_last_verification_outcome).
#[export] Instance set_mc_last_verified_at : Setter mc_last_verified_at :=
  ltac:(make_setter constr:(SystemMailConfiguration_fields) mkSystemMailConfiguration mc_last_verified_at).
#[export] Instance set_mc_last_verification_code : Setter mc_last_verification_code :=
  ltac:(make_setter constr:(SystemMailConfiguration_fields) mkSystemMailConfiguration mc_last_verification_code).
#[export] Instance set_mc_updated_by : Setter mc_updated_by :=
  ltac:(make_setter constr:(SystemMailConfiguration_fields) mkSystemMailConfiguration mc_updated_by).

Abbreviation DepartmentMailConfiguration_fields := (tt, md_department, md_delivery_mode,
  md_smtp, md_last_smtp_verification_outcome, md_last_smtp_verified_at,
  md_last_smtp_verification_code, md_updated_by).
#[export] Instance set_md_department : Setter md_department :=
  ltac:(make_setter constr:(DepartmentMailConfiguration_fields) mkDepartmentMailConfiguration md_department).
#[export] Instance set_md_delivery_mode : Setter md_delivery_mode :=
  ltac:(make_setter constr:(DepartmentMailConfiguration_fields) mkDepartmentMailConfiguration md_delivery_mode).
#[export] Instance set_md_smtp : Setter md_smtp :=
  ltac:(make_setter constr:(DepartmentMailConfiguration_fields) mkDepartmentMailConfiguration md_smtp).
#[export] Instance set_md_last_smtp_verification_outcome : Setter md_last_smtp_verification_outcome :=
  ltac:(make_setter constr:(DepartmentMailConfiguration_fields) mkDepartmentMailConfiguration md_last_smtp_verification_outcome).
#[export] Instance set_md_last_smtp_verified_at : Setter md_last_smtp_verified_at :=
  ltac:(make_setter constr:(DepartmentMailConfiguration_fields) mkDepartmentMailConfiguration md_last_smtp_verified_at).
#[export] Instance set_md_last_smtp_verification_code : Setter md_last_smtp_verification_code :=
  ltac:(make_setter constr:(DepartmentMailConfiguration_fields) mkDepartmentMailConfiguration md_last_smtp_verification_code).
#[export] Instance set_md_updated_by : Setter md_updated_by :=
  ltac:(make_setter constr:(DepartmentMailConfiguration_fields) mkDepartmentMailConfiguration md_updated_by).

Abbreviation DepartmentRecipientPolicy_fields := (tt, rcp_department,
  rcp_restriction_enabled, rcp_updated_by).
#[export] Instance set_rcp_department : Setter rcp_department :=
  ltac:(make_setter constr:(DepartmentRecipientPolicy_fields) mkDepartmentRecipientPolicy rcp_department).
#[export] Instance set_rcp_restriction_enabled : Setter rcp_restriction_enabled :=
  ltac:(make_setter constr:(DepartmentRecipientPolicy_fields) mkDepartmentRecipientPolicy rcp_restriction_enabled).
#[export] Instance set_rcp_updated_by : Setter rcp_updated_by :=
  ltac:(make_setter constr:(DepartmentRecipientPolicy_fields) mkDepartmentRecipientPolicy rcp_updated_by).

Abbreviation DepartmentRecipientDomain_fields := (tt, rcd_policy, rcd_domain).
#[export] Instance set_rcd_policy : Setter rcd_policy :=
  ltac:(make_setter constr:(DepartmentRecipientDomain_fields) mkDepartmentRecipientDomain rcd_policy).
#[export] Instance set_rcd_domain : Setter rcd_domain :=
  ltac:(make_setter constr:(DepartmentRecipientDomain_fields) mkDepartmentRecipientDomain rcd_domain).

Abbreviation TabletReportDeliveryRequest_fields := (tt, dq_installation, dq_department,
  dq_delivery_request_id, dq_recipient_personnel_id, dq_state, dq_result_code,
  dq_created_at, dq_completed_at).
#[export] Instance set_dq_installation : Setter dq_installation :=
  ltac:(make_setter constr:(TabletReportDeliveryRequest_fields) mkTabletReportDeliveryRequest dq_installation).
#[export] Instance set_dq_department : Setter dq_department :=
  ltac:(make_setter constr:(TabletReportDeliveryRequest_fields) mkTabletReportDeliveryRequest dq_department).
#[export] Instance set_dq_delivery_request_id : Setter dq_delivery_request_id :=
  ltac:(make_setter constr:(TabletReportDeliveryRequest_fields) mkTabletReportDeliveryRequest dq_delivery_request_id).
#[export] Instance set_dq_recipient_personnel_id : Setter dq_recipient_personnel_id :=
  ltac:(make_setter constr:(TabletReportDeliveryRequest_fields) mkTabletReportDeliveryRequest dq_recipient_personnel_id).
#[export] Instance set_dq_state : Setter dq_state :=
  ltac:(make_setter constr:(TabletReportDeliveryRequest_fields) mkTabletReportDeliveryRequest dq_state).
#[export] Instance set_dq_result_code : Setter dq_result_code :=
  ltac:(make_setter constr:(TabletReportDeliveryRequest_fields) mkTabletReportDeliveryRequest dq_result_code).
#[export] Instance set_dq_created_at : Setter dq_created_at :=
  ltac:(make_setter constr:(TabletReportDeliveryRequest_fields) mkTabletReportDeliveryRequest dq_created_at).
#[export] Instance set_dq_completed_at : Setter dq_completed_at :=
  ltac:(make_setter constr:(TabletReportDeliveryRequest_fields) mkTabletReportDeliveryRequest dq_completed_at).

Abbreviation ReportSubmission_fields := (tt, rs_installation, rs_submission_id,
  rs_report_id, rs_recipient, rs_department, rs_station, rs_payload_digest,
  rs_document_digest, rs_document_schema_version, rs_first_download_at, rs_payload_key,
  rs_key_version, rs_state, rs_created_at, rs_expires_at).
#[export] Instance set_rs_installation : Setter rs_installation :=
  ltac:(make_setter constr:(ReportSubmission_fields) mkReportSubmission rs_installation).
#[export] Instance set_rs_submission_id : Setter rs_submission_id :=
  ltac:(make_setter constr:(ReportSubmission_fields) mkReportSubmission rs_submission_id).
#[export] Instance set_rs_report_id : Setter rs_report_id :=
  ltac:(make_setter constr:(ReportSubmission_fields) mkReportSubmission rs_report_id).
#[export] Instance set_rs_recipient : Setter rs_recipient :=
  ltac:(make_setter constr:(ReportSubmission_fields) mkReportSubmission rs_recipient).
#[export] Instance set_rs_department : Setter rs_department :=
  ltac:(make_setter constr:(ReportSubmission_fields) mkReportSubmission rs_department).
#[export] Instance set_rs_station : Setter rs_station :=
  ltac:(make_setter constr:(ReportSubmission_fields) mkReportSubmission rs_station).
#[export] Instance set_rs_payload_digest : Setter rs_payload_digest :=
  ltac:(make_setter constr:(ReportSubmission_fields) mkReportSubmission rs_payload_digest).
#[export] Instance set_rs_document_digest : Setter rs_document_digest :=
  ltac:(make_setter constr:(ReportSubmission_fields) mkReportSubmission rs_document_digest).
#[export] Instance set_rs_document_schema_version : Setter rs_document_schema_version :=
  ltac:(make_setter constr:(ReportSubmission_fields) mkReportSubmission rs_document_schema_version).
#[export] Instance set_rs_first_download_at : Setter rs_first_download_at :=
  ltac:(make_setter constr:(ReportSubmission_fields) mkReportSubmission rs_first_download_at).
#[export] Instance set_rs_payload_key : Setter rs_payload_key :=
  ltac:(make_setter constr:(ReportSubmission_fields) mkReportSubmission rs_payload_key).
#[export] Instance set_rs_key_version : Setter rs_key_version :=
  ltac:(make_setter constr:(ReportSubmission_fields) mkReportSubmission rs_key_version).
#[export] Instance set_rs_state : Setter rs_state :=
  ltac:(make_setter constr:(ReportSubmission_fields) mkReportSubmission rs_state).
#[export] Instance set_rs_created_at : Setter rs_created_at :=
  ltac:(make_setter constr:(ReportSubmission_fields) mkReportSubmission rs_created_at).
#[export] Instance set_rs_expires_at : Setter rs_expires_at :=
  ltac:(make_setter constr:(ReportSubmission_fields) mkReportSubmission rs_expires_at).

Abbreviation ReportTransfer_fields := (tt, rt_installation, rt_recipient,
  rt_transfer_request_id, rt_request_digest, rt_recipient_email_digest, rt_submissions,
  rt_token_digest, rt_issued_at, rt_token_expires_at, rt_consumed_at, rt_revoked_at,
  rt_mail_state, rt_mail_code).
#[export] Instance set_rt_installation : Setter rt_installation :=
  ltac:(make_setter constr:(ReportTransfer_fields) mkReportTransfer rt_installation).
#[export] Instance set_rt_recipient : Setter rt_recipient :=
  ltac:(make_setter constr:(ReportTransfer_fields) mkReportTransfer rt_recipient).
#[export] Instance set_rt_transfer_request_id : Setter rt_transfer_request_id :=
  ltac:(make_setter constr:(ReportTransfer_fields) mkReportTransfer rt_transfer_request_id).
#[export] Instance set_rt_request_digest : Setter rt_request_digest :=
  ltac:(make_setter constr:(ReportTransfer_fields) mkReportTransfer rt_request_digest).
#[export] Instance set_rt_recipient_email_digest : Setter rt_recipient_email_digest :=
  ltac:(make_setter constr:(ReportTransfer_fields) mkReportTransfer rt_recipient_email_digest).
#[export] Instance set_rt_submissions : Setter rt_submissions :=
  ltac:(make_setter constr:(ReportTransfer_fields) mkReportTransfer rt_submissions).
#[export] Instance set_rt_token_digest : Setter rt_token_digest :=
  ltac:(make_setter constr:(ReportTransfer_fields) mkReportTransfer rt_token_digest).
#[export] Instance set_rt_issued_at : Setter rt_issued_at :=
  ltac:(make_setter constr:(ReportTransfer_fields) mkReportTransfer rt_issued_at).
#[export] Instance set_rt_token_expires_at : Setter rt_token_expires_at :=
  ltac:(make_setter constr:(ReportTransfer_fields) mkReportTransfer rt_token_expires_at).
#[export] Instance set_rt_consumed_at : Setter rt_consumed_at :=
  ltac:(make_setter constr:(ReportTransfer_fields) mkReportTransfer rt_consumed_at).
#[export] Instance set_rt_revoked_at : Setter rt_revoked_at :=
  ltac:(make_setter constr:(ReportTransfer_fields) mkReportTransfer rt_revoked_at).
#[export] Instance set_rt_mail_state : Setter rt_mail_state :=
  ltac:(make_setter constr:(ReportTransfer_fields) mkReportTransfer rt_mail_state).
#[export] Instance set_rt_mail_code : Setter rt_mail_code :=
  ltac:(make_setter constr:(ReportTransfer_fields) mkReportTransfer rt_mail_code).

Abbreviation ReportPortalSession_fields := (tt, po_transfer, po_session_digest,
  po_last_seen_at, po_logged_out_at).
#[export] Instance set_po_transfer : Setter po_transfer :=
  ltac:(make_setter constr:(ReportPortalSession_fields) mkReportPortalSession po_transfer).
#[export] Instance set_po_session_digest : Setter po_session_digest :=
  ltac:(make_setter constr:(ReportPortalSession_fields) mkReportPortalSession po_session_digest).
#[export] Instance set_po_last_seen_at : Setter po_last_seen_at :=
  ltac:(make_setter constr:(ReportPortalSession_fields) mkReportPortalSession po_last_seen_at).
#[export] Instance set_po_logged_out_at : Setter po_logged_out_at :=
  ltac:(make_setter constr:(ReportPortalSession_fields) mkReportPortalSession po_logged_out_at).

Abbreviation DownloadReceipt_fields := (tt, rec_submission, rec_completed_at,
  rec_audit).
#[export] Instance set_rec_submission : Setter rec_submission :=
  ltac:(make_setter constr:(DownloadReceipt_fields) mkDownloadReceipt rec_submission).
#[export] Instance set_rec_completed_at : Setter rec_completed_at :=
  ltac:(make_setter constr:(DownloadReceipt_fields) mkDownloadReceipt rec_completed_at).
#[export] Instance set_rec_audit : Setter rec_audit :=
  ltac:(make_setter constr:(DownloadReceipt_fields) mkDownloadReceipt rec_audit).

Abbreviation MailAddress_fields := (tt, ma_display_name, ma_email).
#[export] Instance set_ma_display_name : Setter ma_display_name :=
  ltac:(make_setter constr:(MailAddress_fields) mkMailAddress ma_display_name).
#[export] Instance set_ma_email : Setter ma_email :=
  ltac:(make_setter constr:(MailAddress_fields) mkMailAddress ma_email).

Abbreviation MailAttachment_fields := (tt, mat_filename, mat_mime_type, mat_content).
#[export] Instance set_mat_filename : Setter mat_filename :=
  ltac:(make_setter constr:(MailAttachment_fields) mkMailAttachment mat_filename).
#[export] Instance set_mat_mime_type : Setter mat_mime_type :=
  ltac:(make_setter constr:(MailAttachment_fields) mkMailAttachment mat_mime_type).
#[export] Instance set_mat_content : Setter mat_content :=
  ltac:(make_setter constr:(MailAttachment_fields) mkMailAttachment mat_content).

Abbreviation OutboundMessage_fields := (tt, om_sender, om_recipient, om_subject,
  om_body, om_attachments).
#[export] Instance set_om_sender : Setter om_sender :=
  ltac:(make_setter constr:(OutboundMessage_fields) mkOutboundMessage om_sender).
#[export] Instance set_om_recipient : Setter om_recipient :=
  ltac:(make_setter constr:(OutboundMessage_fields) mkOutboundMessage om_recipient).
#[export] Instance set_om_subject : Setter om_subject :=
  ltac:(make_setter constr:(OutboundMessage_fields) mkOutboundMessage om_subject).
#[export] Instance set_om_body : Setter om_body :=
  ltac:(make_setter constr:(OutboundMessage_fields) mkOutboundMessage om_body).
#[export] Instance set_om_attachments : Setter om_attachments :=
  ltac:(make_setter constr:(OutboundMessage_fields) mkOutboundMessage om_attachments).

Abbreviation Library_fields := (tt, lib_department, lib_station, lib_name,
  lib_source_revision, lib_usage_bytes).
#[export] Instance set_lib_department : Setter lib_department :=
  ltac:(make_setter constr:(Library_fields) mkLibrary lib_department).
#[export] Instance set_lib_station : Setter lib_station :=
  ltac:(make_setter constr:(Library_fields) mkLibrary lib_station).
#[export] Instance set_lib_name : Setter lib_name :=
  ltac:(make_setter constr:(Library_fields) mkLibrary lib_name).
#[export] Instance set_lib_source_revision : Setter lib_source_revision :=
  ltac:(make_setter constr:(Library_fields) mkLibrary lib_source_revision).
#[export] Instance set_lib_usage_bytes : Setter lib_usage_bytes :=
  ltac:(make_setter constr:(Library_fields) mkLibrary lib_usage_bytes).

Abbreviation Content_fields := (tt, co_library, co_storage_key, co_size_bytes,
  co_sha256).
#[export] Instance set_co_library : Setter co_library :=
  ltac:(make_setter constr:(Content_fields) mkContent co_library).
#[export] Instance set_co_storage_key : Setter co_storage_key :=
  ltac:(make_setter constr:(Content_fields) mkContent co_storage_key).
#[export] Instance set_co_size_bytes : Setter co_size_bytes :=
  ltac:(make_setter constr:(Content_fields) mkContent co_size_bytes).
#[export] Instance set_co_sha256 : Setter co_sha256 :=
  ltac:(make_setter constr:(Content_fields) mkContent co_sha256).

Abbreviation Entry_fields := (tt, en_library, en_parent, en_name, en_is_folder,
  en_content, en_modified_by).
#[export] Instance set_en_library : Setter en_library :=
  ltac:(make_setter constr:(Entry_fields) mkEntry en_library).
#[export] Instance set_en_parent : Setter en_parent :=
  ltac:(make_setter constr:(Entry_fields) mkEntry en_parent).
#[export] Instance set_en_name : Setter en_name :=
  ltac:(make_setter constr:(Entry_fields) mkEntry en_name).
#[export] Instance set_en_is_folder : Setter en_is_folder :=
  ltac:(make_setter constr:(Entry_fields) mkEntry en_is_folder).
#[export] Instance set_en_content : Setter en_content :=
  ltac:(make_setter constr:(Entry_fields) mkEntry en_content).
#[export] Instance set_en_modified_by : Setter en_modified_by :=
  ltac:(make_setter constr:(Entry_fields) mkEntry en_modified_by).

Abbreviation DepartmentQuotaPolicy_fields := (tt, qp_department,
  qp_department_files_bytes, qp_station_files_bytes).
#[export] Instance set_qp_department : Setter qp_department :=
  ltac:(make_setter constr:(DepartmentQuotaPolicy_fields) mkDepartmentQuotaPolicy qp_department).
#[export] Instance set_qp_department_files_bytes : Setter qp_department_files_bytes :=
  ltac:(make_setter constr:(DepartmentQuotaPolicy_fields) mkDepartmentQuotaPolicy qp_department_files_bytes).
#[export] Instance set_qp_station_files_bytes : Setter qp_station_files_bytes :=
  ltac:(make_setter constr:(DepartmentQuotaPolicy_fields) mkDepartmentQuotaPolicy qp_station_files_bytes).

Abbreviation AuditEvent_fields := (tt, ev_action, ev_actor_user, ev_actor_installation,
  ev_department, ev_station, ev_target_type, ev_target_uuid, ev_metadata, ev_timestamp).
#[export] Instance set_ev_action : Setter ev_action :=
  ltac:(make_setter constr:(AuditEvent_fields) mkAuditEvent ev_action).
#[export] Instance set_ev_actor_user : Setter ev_actor_user :=
  ltac:(make_setter constr:(AuditEvent_fields) mkAuditEvent ev_actor_user).
#[export] Instance set_ev_actor_installation : Setter ev_actor_installation :=
  ltac:(make_setter constr:(AuditEvent_fields) mkAuditEvent ev_actor_installation).
#[export] Instance set_ev_department : Setter ev_department :=
  ltac:(make_setter constr:(AuditEvent_fields) mkAuditEvent ev_department).
#[export] Instance set_ev_station : Setter ev_station :=
  ltac:(make_setter constr:(AuditEvent_fields) mkAuditEvent ev_station).
#[export] Instance set_ev_target_type : Setter ev_target_type :=
  ltac:(make_setter constr:(AuditEvent_fields) mkAuditEvent ev_target_type).
#[export] Instance set_ev_target_uuid : Setter ev_target_uuid :=
  ltac:(make_setter constr:(AuditEvent_fields) mkAuditEvent ev_target_uuid).
#[export] Instance set_ev_metadata : Setter ev_metadata :=
  ltac:(make_setter constr:(AuditEvent_fields) mkAuditEvent ev_metadata).
#[export] Instance set_ev_timestamp : Setter ev_timestamp :=
  ltac:(make_setter constr:(AuditEvent_fields) mkAuditEvent ev_timestamp).

Abbreviation Db_fields := (tt, db_clock, db_users, db_system_roles, db_memberships,
  db_station_admins, db_departments, db_stations, db_vehicles, db_temporary_accesses,
  db_sources, db_scopes, db_publications, db_jobs, db_activations, db_key_grants,
  db_generation_key_grants, db_signed_manifests, db_document_artifacts,
  db_document_references, db_document_cleanups, db_publication_contents, db_libraries,
  db_contents, db_entries, db_quota_policies, db_accepted, db_quarantine, db_sanitized,
  db_tablets, db_installations, db_invitations, db_adoption_requests,
  db_vehicle_assignments, db_api_activity, db_people, db_personnel_assignments,
  db_features, db_rescue_guides, db_generation_manifests, db_generation_keys,
  db_version_policies, db_retention_policies, db_setup_tokens, db_throttles,
  db_mail_eligibilities, db_system_mail, db_department_mail, db_recipient_policies,
  db_recipient_domains, db_delivery_requests, db_report_submissions,
  db_report_transfers, db_portal_sessions, db_spool, db_receipts, db_legacy_signatures,
  db_audit, db_on_commit, db_effects).
#[export] Instance set_db_clock : Setter db_clock :=
  ltac:(make_setter constr:(Db_fields) mkDb db_clock).
#[export] Instance set_db_users : Setter db_users :=
  ltac:(make_setter constr:(Db_fields) mkDb db_users).
#[export] Instance set_db_system_roles : Setter db_system_roles :=
  ltac:(make_setter constr:(Db_fields) mkDb db_system_roles).
#[export] Instance set_db_memberships : Setter db_memberships :=
  ltac:(make_setter constr:(Db_fields) mkDb db_memberships).
#[export] Instance set_db_station_admins : Setter db_station_admins :=
  ltac:(make_setter constr:(Db_fields) mkDb db_station_admins).
#[export] Instance set_db_departments : Setter db_departments :=
  ltac:(make_setter constr:(Db_fields) mkDb db_departments).
#[export] Instance set_db_stations : Setter db_stations :=
  ltac:(make_setter constr:(Db_fields) mkDb db_stations).
#[export] Instance set_db_vehicles : Setter db_vehicles :=
  ltac:(make_setter constr:(Db_fields) mkDb db_vehicles).
#[export] Instance set_db_temporary_accesses : Setter db_temporary_accesses :=
  ltac:(make_setter constr:(Db_fields) mkDb db_temporary_accesses).
#[export] Instance set_db_sources : Setter db_sources :=
  ltac:(make_setter constr:(Db_fields) mkDb db_sources).
#[export] Instance set_db_scopes : Setter db_scopes :=
  ltac:(make_setter constr:(Db_fields) mkDb db_scopes).
#[export] Instance set_db_publications : Setter db_publications :=
  ltac:(make_setter constr:(Db_fields) mkDb db_publications).
#[export] Instance set_db_jobs : Setter db_jobs :=
  ltac:(make_setter constr:(Db_fields) mkDb db_jobs).
#[export] Instance set_db_activations : Setter db_activations :=
  ltac:(make_setter constr:(Db_fields) mkDb db_activations).
#[export] Instance set_db_key_grants : Setter db_key_grants :=
  ltac:(make_setter constr:(Db_fields) mkDb db_key_grants).
#[export] Instance set_db_generation_key_grants : Setter db_generation_key_grants :=
  ltac:(make_setter constr:(Db_fields) mkDb db_generation_key_grants).
#[export] Instance set_db_signed_manifests : Setter db_signed_manifests :=
  ltac:(make_setter constr:(Db_fields) mkDb db_signed_manifests).
#[export] Instance set_db_document_artifacts : Setter db_document_artifacts :=
  ltac:(make_setter constr:(Db_fields) mkDb db_document_artifacts).
#[export] Instance set_db_document_references : Setter db_document_references :=
  ltac:(make_setter constr:(Db_fields) mkDb db_document_references).
#[export] Instance set_db_document_cleanups : Setter db_document_cleanups :=
  ltac:(make_setter constr:(Db_fields) mkDb db_document_cleanups).
#[export] Instance set_db_publication_contents : Setter db_publication_contents :=
  ltac:(make_setter constr:(Db_fields) mkDb db_publication_contents).
#[export] Instance set_db_libraries : Setter db_libraries :=
  ltac:(make_setter constr:(Db_fields) mkDb db_libraries).
#[export] Instance set_db_contents : Setter db_contents :=
  ltac:(make_setter constr:(Db_fields) mkDb db_contents).
#[export] Instance set_db_entries : Setter db_entries :=
  ltac:(make_setter constr:(Db_fields) mkDb db_entries).
#[export] Instance set_db_quota_policies : Setter db_quota_policies :=
  ltac:(make_setter constr:(Db_fields) mkDb db_quota_policies).
#[export] Instance set_db_accepted : Setter db_accepted :=
  ltac:(make_setter constr:(Db_fields) mkDb db_accepted).
#[export] Instance set_db_quarantine : Setter db_quarantine :=
  ltac:(make_setter constr:(Db_fields) mkDb db_quarantine).
#[export] Instance set_db_sanitized : Setter db_sanitized :=
  ltac:(make_setter constr:(Db_fields) mkDb db_sanitized).
#[export] Instance set_db_tablets : Setter db_tablets :=
  ltac:(make_setter constr:(Db_fields) mkDb db_tablets).
#[export] Instance set_db_installations : Setter db_installations :=
  ltac:(make_setter constr:(Db_fields) mkDb db_installations).
#[export] Instance set_db_invitations : Setter db_invitations :=
  ltac:(make_setter constr:(Db_fields) mkDb db_invitations).
#[export] Instance set_db_adoption_requests : Setter db_adoption_requests :=
  ltac:(make_setter constr:(Db_fields) mkDb db_adoption_requests).
#[export] Instance set_db_vehicle_assignments : Setter db_vehicle_assignments :=
  ltac:(make_setter constr:(Db_fields) mkDb db_vehicle_assignments).
#[export] Instance set_db_api_activity : Setter db_api_activity :=
  ltac:(make_setter constr:(Db_fields) mkDb db_api_activity).
#[export] Instance set_db_people : Setter db_people :=
  ltac:(make_setter constr:(Db_fields) mkDb db_people).
#[export] Instance set_db_personnel_assignments : Setter db_personnel_assignments :=
  ltac:(make_setter constr:(Db_fields) mkDb db_personnel_assignments).
#[export] Instance set_db_features : Setter db_features :=
  ltac:(make_setter constr:(Db_fields) mkDb db_features).
#[export] Instance set_db_rescue_guides : Setter db_rescue_guides :=
  ltac:(make_setter constr:(Db_fields) mkDb db_rescue_guides).
#[export] Instance set_db_generation_manifests : Setter db_generation_manifests :=
  ltac:(make_setter constr:(Db_fields) mkDb db_generation_manifests).
#[export] Instance set_db_generation_keys : Setter db_generation_keys :=
  ltac:(make_setter constr:(Db_fields) mkDb db_generation_keys).
#[export] Instance set_db_version_policies : Setter db_version_policies :=
  ltac:(make_setter constr:(Db_fields) mkDb db_version_policies).
#[export] Instance set_db_retention_policies : Setter db_retention_policies :=
  ltac:(make_setter constr:(Db_fields) mkDb db_retention_policies).
#[export] Instance set_db_setup_tokens : Setter db_setup_tokens :=
  ltac:(make_setter constr:(Db_fields) mkDb db_setup_tokens).
#[export] Instance set_db_throttles : Setter db_throttles :=
  ltac:(make_setter constr:(Db_fields) mkDb db_throttles).
#[export] Instance set_db_mail_eligibilities : Setter db_mail_eligibilities :=
  ltac:(make_setter constr:(Db_fields) mkDb db_mail_eligibilities).
#[export] Instance set_db_system_mail : Setter db_system_mail :=
  ltac:(make_setter constr:(Db_fields) mkDb db_system_mail).
#[export] Instance set_db_department_mail : Setter db_department_mail :=
  ltac:(make_setter constr:(Db_fields) mkDb db_department_mail).
#[export] Instance set_db_recipient_policies : Setter db_recipient_policies :=
  ltac:(make_setter constr:(Db_fields) mkDb db_recipient_policies).
#[export] Instance set_db_recipient_domains : Setter db_recipient_domains :=
  ltac:(make_setter constr:(Db_fields) mkDb db_recipient_domains).
#[export] Instance set_db_delivery_requests : Setter db_delivery_requests :=
  ltac:(make_setter constr:(Db_fields) mkDb db_delivery_requests).
#[export] Instance set_db_report_submissions : Setter db_report_submissions :=
  ltac:(make_setter constr:(Db_fields) mkDb db_report_submissions).
#[export] Instance set_db_report_transfers : Setter db_report_transfers :=
  ltac:(make_setter constr:(Db_fields) mkDb db_report_transfers).
#[export] Instance set_db_portal_sessions : Setter db_portal_sessions :=
  ltac:(make_setter constr:(Db_fields) mkDb db_portal_sessions).
#[export] Instance set_db_spool : Setter db_spool :=
  ltac:(make_setter constr:(Db_fields) mkDb db_spool).
#[export] Instance set_db_receipts : Setter db_receipts :=
  ltac:(make_setter constr:(Db_fields) mkDb db_receipts).
#[export] Instance set_db_legacy_signatures : Setter db_legacy_signatures :=
  ltac:(make_setter constr:(Db_fields) mkDb db_legacy_signatures).
#[export] Instance set_db_audit : Setter db_audit :=
  ltac:(make_setter constr:(Db_fields) mkDb db_audit).
#[export] Instance set_db_on_commit : Setter db_on_commit :=
  ltac:(make_setter constr:(Db_fields) mkDb db_on_commit).
#[export] Instance set_db_effects : Setter db_effects :=
  ltac:(make_setter constr:(Db_fields) mkDb db_effects).
