(* ===== verification/Registry.v ===== *)
(** The dataset registry, [apps/publications/registry.py]: the table of dataset
    types, the lookup that every service goes through and the check that a
    scope's owner fields fit its dataset type. *)
From S2P Require Import Prelude.

(** [DatasetTypeDefinition] *)
Record DatasetTypeDefinition := mkDatasetTypeDefinition {
  dt_code : string;
  dt_display_name : string;
  dt_scope : string;
  dt_artifact_format : string;
  dt_current_schema_version : Z;
  dt_encryption_required : bool;
  dt_minimum_app_version : option string;
  dt_builder_service : string;
  dt_validator_service : string;
  dt_summary_schema : list (string * string);
  dt_required : bool;
  dt_supported_schema_versions : list Z;
  dt_minimum_supported_schema_version : Z;
  dt_maximum_supported_schema_version : Z;
  dt_feature_code : string;
  dt_internal_only : bool;
  dt_system_exposure : bool
}.

(** The keyword arguments the entries of [_DEFINITIONS] share: a schema with one
    supported version, encryption required, no minimum application version, the
    summary validator and a builder service named like the dataset. *)
Definition simple_definition (code label scope format : string) (schema : Z)
    (summary : list (string * string)) (required : bool) (feature : string)
    (internal_only system_exposure : bool) : DatasetTypeDefinition := {|
  dt_code := code; dt_display_name := label; dt_scope := scope;
  dt_artifact_format := format; dt_current_schema_version := schema;
  dt_encryption_required := true; dt_minimum_app_version := None;
  dt_builder_service := code; dt_validator_service := "summary";
  dt_summary_schema := summary; dt_required := required;
  dt_supported_schema_versions := [schema];
  dt_minimum_supported_schema_version := schema;
  dt_maximum_supported_schema_version := schema;
  dt_feature_code := feature; dt_internal_only := internal_only;
  dt_system_exposure := system_exposure |}.

(** The two file-library entries, built by the generator expression. *)
Definition _FILE_DEFINITIONS : list DatasetTypeDefinition :=
  (λ '(code, label, scope),
     simple_definition code label scope "document-manifest-v2" 2
       [("document_count", "item_count");
        ("total_accepted_bytes", "non_negative_integer");
        ("source_revision", "non_negative_integer")]
       true "publications" false false)
  <$> [("department_files", "Department files", "department");
       ("station_files", "Station files", "station")].

(** The literal entries of the table, in their order. *)
Definition _DATASET_DEFINITIONS : list DatasetTypeDefinition := [
  simple_definition "dangerous_goods" "Dangerous goods" "system" "json" 1
    [("goods_count", "item_count"); ("eri_card_count", "item_count");
     ("source_revision", "non_negative_integer")]
    true "publications" false true;
  simple_definition "department_hydrants" "Department hydrants" "department" "geojson" 1
    [("active_count", "item_count"); ("source_revision", "non_negative_integer");
     ("status_counts", "bounded_string_integer_map")]
    true "publications" false false;
  simple_definition "department_fire_plans" "Department fire plans" "department"
    "document-manifest-v2" 2
    [("active_document_count", "item_count");
     ("total_accepted_bytes", "non_negative_integer");
     ("total_pages", "non_negative_integer");
     ("source_revision", "non_negative_integer")]
    true "publications" false false;
  simple_definition "station_personnel" "Station personnel" "station" "json" 1
    [("person_count", "item_count"); ("station_id", "uuid");
     ("commander_eligible_count", "item_count");
     ("verified_commander_email_count", "item_count");
     ("source_revision", "non_negative_integer")]
    true "publications" false false;
  simple_definition "department_phonebook" "Department phonebook" "department" "json" 1
    [("entry_count", "item_count"); ("source_revision", "non_negative_integer")]
    false "publications" false false;
  simple_definition "station_phonebook" "Station phonebook" "station" "json" 1
    [("entry_count", "item_count"); ("source_revision", "non_negative_integer")]
    false "publications" false false;
  simple_definition "department_klgv_plans" "Department KLGV plans" "department"
    "document-manifest-v2" 2
    [("document_count", "item_count");
     ("total_accepted_bytes", "non_negative_integer");
     ("total_pages", "non_negative_integer");
     ("source_revision", "non_negative_integer")]
    true "klgv_plans" false false;
  simple_definition "test_department_incidents" "Test department incidents" "department"
    "json" 1
    [("incident_count", "item_count"); ("source_revision", "non_negative_integer")]
    false "publications" true false;
  simple_definition "test_system_dataset" "Test system dataset" "system" "json" 1
    [("item_count", "item_count"); ("source_revision", "non_negative_integer")]
    false "publications" true false ].

Definition _DEFINITIONS : list DatasetTypeDefinition :=
  _FILE_DEFINITIONS ++ _DATASET_DEFINITIONS.

(** [DATASET_REGISTRY]: a dict comprehension keeps the last entry of a code. *)
Definition DATASET_REGISTRY (c : string) : option DatasetTypeDefinition :=
  fold_left (λ acc d, if String.eqb (dt_code d) c then Some d else acc) _DEFINITIONS None.

Definition production_dataset_definitions : list DatasetTypeDefinition :=
  List.filter (λ d, negb (dt_internal_only d)) _DEFINITIONS.

Definition get_dataset_definition {S} (c : string) : M S DatasetTypeDefinition :=
  get_or_raise (DATASET_REGISTRY c) EDatasetRegistry "Unknown dataset type code.".

(** [str.upper()] on the three scope names of the registry. *)
Definition scope_upper (s : string) : string :=
  if String.eqb s "system" then "SYSTEM"
  else if String.eqb s "department" then "DEPARTMENT"
  else if String.eqb s "station" then "STATION"
  else s.

(** [validate_dataset_scope]; only the presence of the owner matters here. *)
Definition validate_dataset_scope {S} (dataset_type_code : string)
    (scope_type : option string) (department station : option N) :
    M S DatasetTypeDefinition :=
  let! definition := get_dataset_definition dataset_type_code in
  let expected_scope := scope_upper (dt_scope definition) in
  match scope_type with
  | None =>
      if String.eqb expected_scope "DEPARTMENT" && opt_true station then
        raise EDatasetRegistry "Department-scoped datasets cannot have a station."
      else if String.eqb expected_scope "STATION" && negb (opt_true station) then
        raise EDatasetRegistry "Station-scoped datasets require a station."
      else ret definition
  | Some scope_type =>
      if negb (String.eqb scope_type expected_scope) then
        raise EDatasetRegistry "Dataset type is not registered for this publication scope."
      else if String.eqb scope_type "SYSTEM" then
        if opt_true department || opt_true station then
          raise EDatasetRegistry "System-scoped datasets cannot have a department or station."
        else ret definition
      else if String.eqb scope_type "DEPARTMENT" then
        if negb (opt_true department) || opt_true station then
          raise EDatasetRegistry
            "Department-scoped datasets cannot have a station and require a department."
        else ret definition
      else if String.eqb scope_type "STATION" then
        if negb (opt_true department) || negb (opt_true station) then
          raise EDatasetRegistry "Station scope requires a department and station."
        else ret definition
      else raise EDatasetRegistry "Unknown publication scope type."
  end.

(** [code in {"department_files", "station_files"}] *)
Definition is_file_dataset (c : string) : bool :=
  String.eqb c "department_files" || String.eqb c "station_files".

(** [definition.artifact_format == "document-manifest-v2"] *)
Definition is_document_definition (d : DatasetTypeDefinition) : bool :=
  String.eqb (dt_artifact_format d) "document-manifest-v2".

(** ** Queries *)

Lemma readonly_get_dataset_definition {S} c : readonly (get_dataset_definition (S := S) c).
Proof. unfold get_dataset_definition. preserve. Qed.

#[export] Hint Resolve readonly_get_dataset_definition : preserves.

Lemma readonly_validate_dataset_scope {S} c t d x :
  readonly (validate_dataset_scope (S := S) c t d x).
Proof. unfold validate_dataset_scope. preserve. Qed.

#[export] Hint Resolve readonly_validate_dataset_scope : preserves.
