(* ===== verification/Store.v ===== *)
(** Access to the store: what the services use of Django's query API, the clock,
    the audit trail ([apps/audit/services.py]) and [transaction.on_commit]. *)
From S2P Require Import Prelude Models.

(** [timezone.now()]: the clock does not move inside a transaction; the
    environment advances it between two of them. *)
Definition timezone_now : M Db Z := gets db_clock.

(** [timedelta(days=1)] *)
Definition MICROSECONDS_PER_DAY : Z := 24 * 60 * 60 * 1000000.

(** [Model.objects.get(pk=k)], with or without [select_for_update()]. *)
Definition get_obj {A} (tbl : Db → gmap N A) (k : N) : M Db A := λ s,
  match tbl s !! k with
  | Some a => (Val a, s)
  | None => (Exc (mkExn EDoesNotExist "matching query does not exist."), s)
  end.

(** [Model.objects.filter(pk=k).first()] *)
Definition find_obj {A} (tbl : Db → gmap N A) (k : N) : M Db (option A) :=
  gets (λ s, tbl s !! k).

(** [obj.save(update_fields=...)]: only the named fields of the row change. *)
Definition save {A} (tbl : Db → gmap N A) `{!Setter tbl} (k : N) (f : A → A) : M Db unit := λ s,
  match tbl s !! k with
  | Some a => (Val tt, s <| tbl ::= <[k := f a]> |>)
  | None => (Exc (mkExn EDatabase "Save with update_fields did not affect any rows."), s)
  end.

(** [Model.objects.create(...)] *)
Definition create {A} (tbl : Db → gmap N A) `{!Setter tbl} (a : A) : M Db N := λ s,
  let k := fresh_id (tbl s) in (Val k, s <| tbl ::= <[k := a]> |>).

(** [obj.delete()] *)
Definition delete_obj {A} (tbl : Db → gmap N A) `{!Setter tbl} (k : N) : M Db unit :=
  modify (λ s, s <| tbl ::= delete k |>).

(** [Model.objects.filter(P).update(...)]; the number of rows it matched. *)
Definition update_where {A} (tbl : Db → gmap N A) `{!Setter tbl} (P : A → bool)
    (f : A → A) : M Db Z := λ s,
  (Val (Z.of_nat (length (rows (tbl s) (λ _ a, P a)))),
   s <| tbl ::= fmap (λ a, if P a then f a else a) |>).

(** [Model.objects.filter(pk=k).update(...)] *)
Definition update_where_pk {A} (tbl : Db → gmap N A) `{!Setter tbl} (k : N) (f : A → A) :
    M Db unit :=
  modify (λ s, s <| tbl ::= alter f k |>).

(** [Model.objects.filter(P).delete()] *)
Definition delete_where {A} (tbl : Db → gmap N A) `{!Setter tbl} (P : A → bool) : M Db unit :=
  modify (λ s, s <| tbl ::= filter (λ r, P r.2 = false) |>).

(** [.filter(P).exists()] *)
Definition exists_where {A} (tbl : Db → gmap N A) (P : N → A → bool) : M Db bool :=
  gets (λ s, exists_row (tbl s) P).

(** [.filter(P).order_by(key)] *)
Definition select_ordered {A} (tbl : Db → gmap N A) (P : N → A → bool)
    (key : N * A → list Z) : M Db (list (N * A)) :=
  gets (λ s, order_by key (rows (tbl s) P)).

(** [.filter(P).order_by(key).first()]; without [order_by] Django orders by the
    primary key. *)
Definition first_where {A} (tbl : Db → gmap N A) (P : N → A → bool)
    (key : N * A → list Z) : M Db (option (N * A)) :=
  gets (λ s, head (order_by key (rows (tbl s) P))).

Definition by_pk {A} (r : N * A) : list Z := [Z.of_N r.1].

(** [record_event] of [apps/audit/services.py]: the audit trail only grows. *)
Definition record_event (action : string) (actor_user department station : option N)
    (target_type : string) (target_uuid : option N) (metadata : list (string * json)) :
    M Db unit :=
  modify (λ s, s <| db_audit ::= λ l, l ++
    [mkAuditEvent action actor_user None department station target_type target_uuid metadata
       (db_clock s)] |>).

(** The same for an event of an installation, without a user. *)
Definition record_installation_event (action : string) (actor_installation department station : option N)
    (target_type : string) (target_uuid : option N) (metadata : list (string * json)) :
    M Db unit :=
  modify (λ s, s <| db_audit ::= λ l, l ++
    [mkAuditEvent action None actor_installation department station target_type target_uuid metadata
       (db_clock s)] |>).

(** [transaction.on_commit(callback)] *)
Definition on_commit (c : OnCommit) : M Db unit :=
  modify (λ s, s <| db_on_commit ::= λ l, l ++ [c] |>).

(** An effect outside the database. *)
Definition emit (e : Effect) : M Db unit :=
  modify (λ s, s <| db_effects ::= λ l, l ++ [e] |>).

(** The steps of other sessions: whatever they do, this one goes on. *)
Definition meanwhile (others : M Db unit) : M Db unit := λ s, (Val tt, (others s).2).

(** ** What the primitives keep *)

Lemma readonly_timezone_now : readonly timezone_now.
Proof. unfold timezone_now. preserve. Qed.

Section primitives.
Context {A : Type} (tbl : Db → gmap N A).

Lemma readonly_get_obj k : readonly (get_obj tbl k).
Proof. intros s. unfold get_obj. destruct (tbl s !! k); reflexivity. Qed.

Lemma readonly_find_obj k : readonly (find_obj tbl k).
Proof. unfold find_obj. preserve. Qed.

Lemma readonly_exists_where P : readonly (exists_where tbl P).
Proof. unfold exists_where. preserve. Qed.

Lemma readonly_select_ordered P key : readonly (select_ordered tbl P key).
Proof. unfold select_ordered. preserve. Qed.

Lemma readonly_first_where P key : readonly (first_where tbl P key).
Proof. unfold first_where. preserve. Qed.

Lemma get_obj_Val k s a s' : get_obj tbl k s = (Val a, s') → tbl s !! k = Some a ∧ s' = s.
Proof. unfold get_obj. destruct (tbl s !! k); intros [=]; subst; auto. Qed.

(** A relation that the update of one table keeps. *)
Context `{!Setter tbl} (R : relation Db) `{!PreOrder R} (HR : ∀ f s, R s (s <| tbl ::= f |>)).

Lemma preserves_save k f : preserves R (save tbl k f).
Proof. intros s. unfold save. destruct (tbl s !! k); [apply HR|simpl; reflexivity]. Qed.

Lemma preserves_create a : preserves R (create tbl a).
Proof. intros s. apply HR. Qed.

Lemma preserves_delete_obj k : preserves R (delete_obj tbl k).
Proof. intros s. apply HR. Qed.

Lemma preserves_update_where P f : preserves R (update_where tbl P f).
Proof. intros s. apply HR. Qed.

Lemma preserves_update_where_pk k f : preserves R (update_where_pk tbl k f).
Proof. intros s. apply HR. Qed.

Lemma preserves_delete_where P : preserves R (delete_where tbl P).
Proof. intros s. apply HR. Qed.
End primitives.

#[export] Hint Resolve readonly_timezone_now readonly_get_obj readonly_find_obj
  readonly_exists_where readonly_select_ordered readonly_first_where : preserves.
