(* ===== verification/Fingerprint.v ===== *)
(** Source payloads, their logical fingerprints and the summaries of a build:
    the part of [apps/publications/builders.py] the publication lifecycle
    depends on.

    [sha256_hex] is the hash function of the standard library, a parameter;
    [json_dumps] is [json.dumps(..., sort_keys=True, separators=(",", ":"),
    ensure_ascii=True)] on strings whose characters are below U+0100. *)
From S2P Require Import Prelude Text Models Store Registry.

(** The configuration the publication code reads from [django.conf.settings]. *)
Class Settings := {
  PUBLICATION_BUILD_SUMMARY_MAX_ITEMS : Z;
  PUBLICATION_RETAINED_ROLLBACK_PREDECESSORS : Z;
  PUBLICATION_RETENTION_RESTORE_AWARE_ENABLED : bool;
  PUBLICATION_TERMINAL_SNAPSHOT_RETENTION_DAYS : Z;
  PUBLICATION_RETENTION_BATCH_SIZE : Z;
  PUBLICATION_WORKER_BATCH_SIZE : Z;
  PUBLICATION_JOB_HEARTBEAT_TIMEOUT_SECONDS : Z;
  PUBLICATION_JOB_MAX_ATTEMPTS : Z;
  PUBLICATION_SIGNING_KEY_VERSION : string
}.

Class Hash := { sha256_hex : string → string }.

(** ** JSON values as Python objects *)

Fixpoint assoc {A} (k : string) (l : list (string * A)) : option A :=
  match l with
  | [] => None
  | (k', a) :: l' => if String.eqb k' k then Some a else assoc k l'
  end.

(** [payload.get(k)] on a dictionary. *)
Definition jget (k : string) (j : json) : option json :=
  match j with JObj l => assoc k l | _ => None end.

Definition jkeys (j : json) : list string :=
  match j with JObj l => l.*1 | _ => [] end.

Definition mem_str (x : string) (l : list string) : bool := existsb (String.eqb x) l.

(** [{...} <= payload.keys()] and [set(payload) == {...}] for a dictionary. *)
Definition has_keys (ks : list string) (j : json) : bool :=
  match j with JObj _ => forallb (λ k, mem_str k (jkeys j)) ks | _ => false end.

Definition keys_are (ks : list string) (j : json) : bool :=
  has_keys ks j && forallb (λ k, mem_str k ks) (jkeys j).

Definition is_dict (j : json) : bool := match j with JObj _ => true | _ => false end.

(** [isinstance(value, int)]; a bool is an int. *)
Definition as_int (j : json) : option Z :=
  match j with JInt z => Some z | JBool b => Some (if b then 1 else 0) | _ => None end.

Definition without_key (k : string) (j : json) : json :=
  match j with
  | JObj l => JObj (List.filter (λ f, negb (String.eqb f.1 k)) l)
  | _ => j
  end.

(** [{**d, k: v}] *)
Definition with_key (k : string) (v : json) (j : json) : json :=
  match without_key k j with JObj l => JObj (l ++ [(k, v)]) | j' => j' end.

(** A sort key that is a string; the identifiers of a snapshot are strings. *)
Definition str_key (k : string) (j : json) : string :=
  match jget k j with Some (JStr s) => s | _ => "" end.

Definition str_key_le {A} (key : A → string) (x y : A) : Prop :=
  String.leb (key x) (key y) = true.

#[export] Instance str_key_le_dec {A} (key : A → string) : RelDecision (str_key_le key).
Proof. intros x y. unfold str_key_le. apply bool_eq_dec. Defined.

Definition sort_by {A} (key : A → string) (l : list A) : list A :=
  merge_sort (str_key_le key) l.

(** ** [json.dumps] *)

Definition escape_char (c : Ascii.ascii) : string :=
  let n := Ascii.nat_of_ascii c in
  if Nat.eqb n 34 then "\" +:+ String c ""
  else if Nat.eqb n 92 then "\\"
  else if Nat.eqb n 8 then "\b"
  else if Nat.eqb n 9 then "\t"
  else if Nat.eqb n 10 then "\n"
  else if Nat.eqb n 12 then "\f"
  else if Nat.eqb n 13 then "\r"
  else if Nat.ltb n 32 || Nat.ltb 126 n then
    "\u00" +:+ hex_digit (Nat.div n 16) +:+ hex_digit (Nat.modulo n 16)
  else String c "".

Fixpoint escape (s : string) : string :=
  match s with
  | EmptyString => ""
  | String c s' => escape_char c +:+ escape s'
  end.

Definition quote_char : string := String (Ascii.ascii_of_nat 34) "".

Definition quoted (s : string) : string := quote_char +:+ escape s +:+ quote_char.

Fixpoint join (sep : string) (l : list string) : string :=
  match l with
  | [] => ""
  | [x] => x
  | x :: l' => x +:+ sep +:+ join sep l'
  end.

Fixpoint json_dumps (j : json) : string :=
  match j with
  | JNull => "null"
  | JBool b => if b then "true" else "false"
  | JInt z => pretty z
  | JFloat t => t
  | JStr s => quoted s
  | JList l => "[" +:+ join "," (map json_dumps l) +:+ "]"
  | JObj fields =>
      "{" +:+ join "," (map (λ kv, quoted kv.1 +:+ ":" +:+ kv.2)
                 (sort_by fst (map (λ kv, (kv.1, json_dumps kv.2)) fields))) +:+ "}"
  end.

(** ** Fingerprints *)

Definition is_file_library_snapshot (payload : json) : bool :=
  keys_are ["library"; "source_revision"; "folders"; "documents"] payload
  && match jget "library" payload with
     | Some library => has_keys ["id"; "name"; "scope"] library
     | None => false
     end
  && match jget "folders" payload, jget "documents" payload with
     | Some (JList folders), Some (JList documents) =>
         forallb (has_keys ["id"; "name"; "parent_id"]) folders
         && forallb (has_keys ["id"; "name"; "folder_id"; "sha256"; "size_bytes";
                               "content_id"]) documents
     | _, _ => false
     end.

(** The payload a comparison looks at: no bookkeeping, rows in identifier order. *)
Definition logical_library_payload (payload : json) : json :=
  let items k := match jget k payload with Some (JList l) => l | _ => [] end in
  with_key "documents"
    (JList (sort_by (str_key "id") (map (without_key "content_id") (items "documents"))))
    (with_key "folders" (JList (sort_by (str_key "id") (items "folders")))
       (without_key "source_revision" payload)).

Section fingerprints.
Context `{Hash}.

Definition _json_bytes (j : json) : string := json_dumps j.

Definition source_fingerprint_for_payload (payload : json) : string :=
  match keys_are ["_exact_source_sha256"] payload, jget "_exact_source_sha256" payload with
  | true, Some (JStr digest) => digest
  | _, _ =>
      sha256_hex (_json_bytes (if is_file_library_snapshot payload
                               then logical_library_payload payload else payload))
  end.

Definition publication_source_fingerprint (p : DatasetPublication) : string :=
  match pub_source_snapshot p with
  | Some snapshot =>
      if is_file_dataset (pub_dataset_type_code p) && is_file_library_snapshot snapshot
      then source_fingerprint_for_payload snapshot
      else pub_source_fingerprint p
  | None => pub_source_fingerprint p
  end.
End fingerprints.

(** ** Source payloads *)

(** The keys of [SOURCE_BUILDERS]. *)
Definition SOURCE_BUILDERS : list string :=
  ["department_files"; "station_files"; "department_hydrants"; "department_fire_plans";
   "station_personnel"; "department_klgv_plans"; "department_phonebook";
   "station_phonebook"; "test_department_incidents"; "test_system_dataset";
   "dangerous_goods"].

(** *** File libraries, [apps/file_library/publication.py] *)

(** [Library.objects.get_or_create(station=station)], or of the department. *)
Definition is_library_of (department station : option N) (l : Library) : bool :=
  match station with
  | Some _ => bool_decide (lib_station l = station)
  | None => bool_decide (lib_department l = department)
  end.

Definition get_or_create_library (department station : option N) : M Db (N * Library) :=
  let! found := first_where db_libraries (λ _ l, is_library_of department station l) by_pk in
  match found with
  | Some r => ret r
  | None =>
      let l := mkLibrary (match station with Some _ => None | None => department end)
                 station "Documents" 0 0 in
      let! k := create db_libraries l in ret (k, l)
  end.

(** [department_for] of [locking.py] *)
Definition department_for (l : Library) : M Db N :=
  match lib_department l, lib_station l with
  | Some d, _ => ret d
  | None, Some st => let! row := get_obj db_stations st in ret (st_department row)
  | None, None => raise EAttribute "'NoneType' object has no attribute 'department'"
  end.

Definition json_id (k : N) : json := JStr (str_uuid k).
Definition json_opt_id (k : option N) : json := match k with Some k => json_id k | None => JNull end.

Definition folder_json (r : N * Entry) : json :=
  JObj [("id", json_id r.1); ("name", JStr (en_name r.2)); ("parent_id", json_opt_id (en_parent r.2))].

Definition document_json (r : N * Entry) : M Db json :=
  match en_content r.2 with
  | None => raise EAttribute "'NoneType' object has no attribute 'size_bytes'"
  | Some c =>
      let! content := get_obj db_contents c in
      ret (JObj [("id", json_id r.1); ("name", JStr (en_name r.2));
                 ("folder_id", json_opt_id (en_parent r.2));
                 ("size_bytes", JInt (co_size_bytes content));
                 ("sha256", JStr (co_sha256 content)); ("content_id", json_id c)])
  end.

Definition snapshot_for_library (k : N) (l : Library) : M Db json :=
  let! department := department_for l in
  let! entries := select_ordered db_entries (λ _ e, N.eqb (en_library e) k) by_pk in
  let! documents := map_m document_json (filter (λ r, en_is_folder r.2 = false) entries) in
  ret (JObj
    [("library", JObj
       [("id", json_id k); ("name", JStr (lib_name l));
        ("scope", JObj (("type", JStr (match lib_station l with
                                       | Some _ => "STATION" | None => "DEPARTMENT" end))
           :: ("department_id", json_id department)
           :: match lib_station l with
              | Some st => [("station_id", json_id st)] | None => [] end))]);
     ("source_revision", JInt (lib_source_revision l));
     ("folders", JList (map folder_json (filter (λ r, en_is_folder r.2 = true) entries)));
     ("documents", JList documents)]).

(** [source_payload]; [lock_scope] finds the scope its callers hold. *)
Definition source_payload (department station : option N) : M Db json :=
  atomic (
    match department with
    | None => raise EAttribute "'NoneType' object has no attribute 'id'"
    | Some _ =>
        let! ' (k, l) := get_or_create_library department station in
        snapshot_for_library k l
    end).

(** [build_source_payload].  The projection of the canonical tables that the builders of
    the other datasets compute is [db_sources]: it has no entry where the builder raises
    [PublicationBuildError]. *)
Definition build_source_payload (definition : DatasetTypeDefinition)
    (department station : option N) : M Db json :=
  if is_file_dataset (dt_builder_service definition) then source_payload department station
  else if mem_str (dt_builder_service definition) SOURCE_BUILDERS then
    let! sources := gets db_sources in
    get_or_raise (sources !! (dt_code definition, department, station))
      EPublicationBuild "Source is unavailable."
  else raise EPublicationBuild "No source fingerprint builder is available.".

(** ** Build summaries *)

Definition MAX_HYDRANT_STATUS_BUCKETS : Z := 50.

Section summaries.
Context `{Settings}.

(** The checks of one field of [validate_summary], in their order. *)
Definition validate_summary_field (kind : string) (value : json) : M Db unit :=
  let number := match value with JInt z => Some z | _ => None end in
  guard (negb (mem_str kind ["item_count"; "non_negative_integer"])
         || match number with Some z => 0 <=? z | None => false end)
    EPublicationBuild "Builder returned an invalid summary value." ;;;
  guard (negb (String.eqb kind "item_count")
         || match number with
            | Some z => z <=? PUBLICATION_BUILD_SUMMARY_MAX_ITEMS | None => true end)
    EPublicationBuild "Builder summary exceeds the configured item limit." ;;;
  guard (negb (String.eqb kind "uuid")
         || match value with JStr x => Nat.eqb (String.length x) 36 | _ => false end)
    EPublicationBuild "Builder returned an invalid summary value." ;;;
  if negb (String.eqb kind "bounded_string_integer_map") then ret tt else
  guard (match value with
         | JObj l => Z.of_nat (length l) <=? MAX_HYDRANT_STATUS_BUCKETS | _ => false end)
    EPublicationBuild "Builder summary exceeds the configured category limit." ;;;
  guard (match value with
         | JObj l => forallb (λ kv, (Z.of_nat (String.length kv.1) <=? 128)
             && match kv.2 with JInt z => 0 <=? z | _ => false end) l
         | _ => false end)
    EPublicationBuild "Builder returned an invalid summary value." ;;;
  guard (match value with
         | JObj l => forallb (λ kv, match kv.2 with
             | JInt z => z <=? PUBLICATION_BUILD_SUMMARY_MAX_ITEMS | _ => true end) l
         | _ => true end)
    EPublicationBuild "Builder summary exceeds the configured item limit.".

Definition validate_summary (definition : DatasetTypeDefinition) (summary : json) :
    M Db unit :=
  guard (is_dict summary && keys_are (dt_summary_schema definition).*1 summary)
    EPublicationBuild "Builder returned an invalid summary schema." ;;;
  for_each (dt_summary_schema definition) (λ '(field, kind),
    let! value := get_or_raise (jget field summary) EKey field in
    validate_summary_field kind value).

(** [VALIDATORS] has the one key ["summary"]. *)
Definition validate_built_summary (definition : DatasetTypeDefinition) (summary : json) :
    M Db unit :=
  if String.eqb (dt_validator_service definition) "summary"
  then validate_summary definition summary
  else raise EPublicationBuild "No registered validator is available.".
End summaries.

(** The counters whose change a dataset reports. *)
Definition change_fields (c : string) : list string :=
  if String.eqb c "department_hydrants" then ["active_count"; "diameter_mm_summary"]
  else if String.eqb c "department_fire_plans" then
    ["active_document_count"; "total_accepted_bytes"; "total_pages"]
  else if String.eqb c "station_personnel" then
    ["person_count"; "commander_eligible_count"; "verified_commander_email_count"]
  else if String.eqb c "department_klgv_plans" then
    ["document_count"; "total_accepted_bytes"; "total_pages"]
  else if String.eqb c "department_phonebook" then ["entry_count"]
  else if String.eqb c "station_phonebook" then ["entry_count"]
  else if String.eqb c "dangerous_goods" then ["goods_count"; "eri_card_count"]
  else ["item_count"].

Definition build_change_summary (definition : DatasetTypeDefinition) (previous current : json) :
    M Db (list (string * Z)) :=
  match jget "source_revision" current with
  | Some v =>
      match as_int v with
      | Some source_revision =>
          ret (("source_revision", source_revision) ::
            omap (λ field,
              let before := default (JInt 0) (jget field previous) in
              let after := default (JInt 0) (jget field current) in
              match as_int before, as_int after with
              | Some b, Some a => Some (field +:+ "_delta", a - b)
              | _, _ => None
              end) (change_fields (dt_code definition)))
      | None => raise EPublicationBuild "Builder returned an invalid source revision."
      end
  | None => raise EPublicationBuild "Builder returned an invalid source revision."
  end.

(** ** Queries *)

Section queries.
Context `{Settings}.

Lemma readonly_department_for l : readonly (department_for l).
Proof. unfold department_for. preserve. Qed.

Lemma readonly_snapshot_for_library k l : readonly (snapshot_for_library k l).
Proof. unfold snapshot_for_library, department_for, document_json. preserve. Qed.

(** Reading a source creates a library at most. *)
Lemma preserves_build_source_payload (R : relation Db) `{!PreOrder R} d x y :
  (∀ f s, R s (s <| db_libraries ::= f |>)) → preserves R (build_source_payload d x y).
Proof.
  intros HR. unfold build_source_payload, source_payload, get_or_create_library.
  assert (∀ l, preserves R (create db_libraries l)) by (intros; apply preserves_create; exact HR).
  assert (∀ k l, preserves R (snapshot_for_library k l))
    by (intros; apply preserves_readonly, readonly_snapshot_for_library; exact _).
  preserve.
Qed.

Lemma readonly_validate_summary_field k v : readonly (validate_summary_field k v).
Proof. unfold validate_summary_field. preserve. Qed.

Lemma readonly_build_change_summary d x y : readonly (build_change_summary d x y).
Proof. unfold build_change_summary. preserve. Qed.

End queries.

#[export] Hint Extern 3 (preserves _ (build_source_payload _ _ _)) =>
  apply preserves_build_source_payload; [exact _|intros ? ?; reflexivity] : preserves.

#[export] Hint Resolve readonly_department_for readonly_snapshot_for_library
  readonly_validate_summary_field
  readonly_build_change_summary : preserves.

Lemma readonly_validate_built_summary `{Settings} d x : readonly (validate_built_summary d x).
Proof. unfold validate_built_summary, validate_summary. preserve. Qed.

#[export] Hint Resolve readonly_validate_built_summary : preserves.

(** ** Sorting by a string key *)

Lemma string_leb_trans x y z :
  String.leb x y = true → String.leb y z = true → String.leb x z = true.
Proof.
  unfold String.leb. revert y z.
  induction x as [|a x IH]; intros [|b y] [|c z]; simpl; try easy.
  specialize (IH y z). unfold Ascii.compare.
  destruct (N.compare_spec (Ascii.N_of_ascii a) (Ascii.N_of_ascii b)),
    (N.compare_spec (Ascii.N_of_ascii b) (Ascii.N_of_ascii c)); try easy.
  all: destruct (N.compare_spec (Ascii.N_of_ascii a) (Ascii.N_of_ascii c)); try easy; lia.
Qed.

Section sort_by.
Context {A : Type} (key : A → string).

#[export] Instance str_key_le_trans : Transitive (str_key_le key).
Proof. intros x y z. unfold str_key_le. apply string_leb_trans. Qed.

#[export] Instance str_key_le_total : Total (str_key_le key).
Proof. intros x y. unfold str_key_le. apply String.leb_total. Qed.

(** Lists with the same rows under distinct keys sort to the same list. *)
Lemma sort_by_canonical l l' : l ≡ₚ l' → NoDup (key <$> l) → sort_by key l = sort_by key l'.
Proof.
  intros P N. unfold sort_by. apply (StronglySorted_unique_strong (str_key_le key)).
  - intros x y Hx Hy Hxy Hyx. rewrite merge_sort_Permutation in Hx, Hy. rewrite <- P in Hy.
    assert (E : key x = key y) by (apply String.leb_antisym; assumption).
    apply list_elem_of_lookup in Hx as [i Hi], Hy as [j Hj].
    enough (i = j) by congruence. eapply NoDup_lookup; [exact N| |].
    + rewrite list_lookup_fmap, Hi. reflexivity.
    + rewrite list_lookup_fmap, Hj, E. reflexivity.
  - apply (StronglySorted_merge_sort _).
  - apply (StronglySorted_merge_sort _).
  - rewrite !merge_sort_Permutation. exact P.
Qed.
End sort_by.
