(* ===== verification/ApplicationSecrets.v ===== *)
(** Application secrets and the HPKE envelope: the key ring and secret boxes of
    `apps/core/application_secrets.py`, and the sealed envelopes of
    `apps/tablets/hpke.py`. *)
From Stdlib Require Import Ascii.
From S2P Require Import Prelude Text Encoding Models Registry Store Fingerprint.

Definition HPKE_CIPHERSUITE : string := "DHKEM(P-256,HKDF-SHA256)/HKDF-SHA256/AES-128-GCM".
Definition HPKE_PROTOCOL : string := "firedash-hpke-v1".
Definition DOCUMENT_GENERATION_HPKE_PROTOCOL : string :=
  "firedash-document-generation-hpke-v2".
Definition _P256_PUBLIC_KEY_LENGTH : nat := 65.

(** [Suite] and [EllipticCurvePublicKey] of the [cryptography] package.  A point
    is accepted ([from_encoded_point]) or not; encryption draws an ephemeral key,
    so it may depend on more than its arguments. *)
Class HpkeSuite := {
  PublicKey : Type;
  from_encoded_point : string → option PublicKey;
  uncompressed_point : PublicKey → string;
  enc_length : nat;
  suite_encrypt : Db → string → PublicKey → string → string
}.

(** [_DATASET_TYPE_CODE.fullmatch]: a lower-case letter, then at most 99 lower-case
    letters, digits or underscores. *)
Definition is_lower (c : ascii) : bool :=
  let n := nat_of_ascii c in Nat.leb 97 n && Nat.leb n 122.

Fixpoint all_chars (P : ascii → bool) (s : string) : bool :=
  match s with EmptyString => true | String c s' => P c && all_chars P s' end.

Definition dataset_code_canonical (code : string) : bool :=
  match code with
  | String c s =>
      is_lower c && Nat.leb (String.length s) 99
      && all_chars (λ c, is_lower c || is_digit c || (c =? "_")%char) s
  | EmptyString => false
  end.

(** [re.fullmatch(r"[0-9a-f]{64}", value)] *)
Definition sha256_canonical (value : string) : bool :=
  Nat.eqb (String.length value) 64
  && all_chars (λ c, is_digit c || (is_lower c && Nat.leb (nat_of_ascii c) 102)) value.

Definition json_uuid (k : N) : json := JStr (str_uuid k).
Definition json_uuid_opt (k : option N) : json :=
  match k with Some k => json_uuid k | None => JNull end.

(** [HPKEContext] *)
Record HPKEContext := mkHPKEContext {
  hc_publication_id : N;
  hc_installation_id : N;
  hc_tablet_id : N;
  hc_department_id : option N;
  hc_station_id : option N;
  hc_dataset_type_code : string;
  hc_version_number : Z;
  hc_schema_version : Z;
  hc_ciphertext_sha256 : string
}.

(** [HPKEContext.info] *)
Definition hpke_info {S} (c : HPKEContext) : M S string :=
  guard (dataset_code_canonical (hc_dataset_type_code c)) EHPKE
    "Dataset type code is not canonical." ;;;
  guard ((1 <=? hc_version_number c) && (1 <=? hc_schema_version c)) EHPKE
    "Publication versions must be positive." ;;;
  guard (sha256_canonical (hc_ciphertext_sha256 c)) EHPKE
    "Ciphertext SHA-256 is not canonical." ;;;
  ret (json_dumps (JObj [
    ("ciphertext_sha256", JStr (hc_ciphertext_sha256 c));
    ("installation_id", json_uuid (hc_installation_id c));
    ("protocol", JStr HPKE_PROTOCOL);
    ("publication_id", json_uuid (hc_publication_id c));
    ("schema_version", JInt (hc_schema_version c));
    ("scope", JObj [
      ("dataset_type_code", JStr (hc_dataset_type_code c));
      ("department_id", json_uuid_opt (hc_department_id c));
      ("station_id", json_uuid_opt (hc_station_id c))]);
    ("tablet_id", json_uuid (hc_tablet_id c));
    ("version_number", JInt (hc_version_number c))])).

Section suite.
Context `{HpkeSuite} `{Hash}.

Definition parse_p256_public_key (encoded : string) : M Db PublicKey :=
  guard (Nat.eqb (String.length encoded) _P256_PUBLIC_KEY_LENGTH
         && match encoded with
            | String c _ => Nat.eqb (nat_of_ascii c) 4 | EmptyString => false end)
    EHPKE "P-256 public key must be a 65-byte uncompressed point." ;;;
  get_or_raise (from_encoded_point encoded) EHPKE "P-256 public key is invalid.".

Definition public_key_fingerprint (public_key : PublicKey) : string :=
  sha256_hex (uncompressed_point public_key).

(** [hpke_seal]; [info] is [context.info()]. *)
Definition hpke_seal (plaintext : string) (recipient_public_key : PublicKey)
    (info : M Db string) : M Db (string * string) :=
  let! info := info in
  let! encoded := gets (λ s, suite_encrypt s plaintext recipient_public_key info) in
  ret (str_take enc_length encoded, str_drop enc_length encoded).
End suite.

(** [AESGCM] of the [cryptography] package, [None] being [InvalidTag], and [os.urandom]. *)
Class Aesgcm := {
  aesgcm_encrypt (key nonce data associated : string) : string;
  aesgcm_decrypt (key nonce data associated : string) : option string;
  urandom : nat → Db → string
}.

(** What the code relies on: decryption undoes encryption under the same key, nonce and
    associated data and refuses other associated data; a ciphertext carries a tag. *)
Class AesgcmLaws `{Aesgcm} : Prop := {
  aesgcm_undo key nonce data a :
    aesgcm_decrypt key nonce (aesgcm_encrypt key nonce data a) a = Some data;
  aesgcm_bound key nonce data a a' : a ≠ a' →
    aesgcm_decrypt key nonce (aesgcm_encrypt key nonce data a) a' = None;
  aesgcm_tag key nonce data a : (16 ≤ String.length (aesgcm_encrypt key nonce data a))%nat;
  urandom_length n s : String.length (urandom n s) = n
}.

(** The key ring credential, as [json.loads] reads the file ([None]: it cannot be read or
    is not JSON), and the version to write. *)
Class SecretSettings := {
  application_secret_keyring : option json;
  APPLICATION_SECRET_KEK_VERSION : string
}.

Definition _FORMAT : string := "app-secret".
Definition _FORMAT_VERSION : string := "v1".
Definition _NONCE_BYTES : nat := 12.
Definition _KEY_BYTES : nat := 32.

(** ** Alphabets *)

Definition is_alnum (c : ascii) : bool :=
  let n := nat_of_ascii c in
  is_digit c || is_lower c || (Nat.leb 65 n && Nat.leb n 90).

(** [_VERSION_RE]: a letter or digit, then at most 63 of those, dots, underscores and
    hyphens. *)
Definition is_version_char (c : ascii) : bool :=
  is_alnum c || (c =? ".")%char || (c =? "_")%char || (c =? "-")%char.

Definition version_valid (v : string) : bool :=
  match v with
  | String c s => is_alnum c && Nat.leb (String.length s) 63 && all_chars is_version_char s
  | EmptyString => false
  end.

(** [[A-Za-z0-9_-]+] *)
Definition is_b64url_char (c : ascii) : bool := is_alnum c || (c =? "_")%char || (c =? "-")%char.

(** ** The envelope *)

(** Errors are the codes of [ApplicationSecretError]. *)
Definition secret_error {A} (code : string) : M Db A :=
  raise (ESecret code) ("Application secret operation failed (" +:+ code +:+ ").").

Definition _b64decode (value : string) : option string :=
  if str_true value && all_chars is_b64url_char value then b64url_decode value else None.

Definition serialize_envelope (version nonce ciphertext : string) : string :=
  _FORMAT +:+ ":" +:+ _FORMAT_VERSION +:+ ":" +:+ version +:+ ":" +:+ b64url_encode nonce
  +:+ ":" +:+ b64url_encode ciphertext.

Definition _parse_envelope (serialized : string) : option (string * string * string) :=
  match str_split ":" serialized with
  | [format; format_version; version; nonce_text; ciphertext_text] =>
      if String.eqb format _FORMAT && String.eqb format_version _FORMAT_VERSION
         && version_valid version
      then
        match _b64decode nonce_text, _b64decode ciphertext_text with
        | Some nonce, Some ciphertext =>
            if Nat.eqb (String.length nonce) _NONCE_BYTES
               && Nat.leb 16 (String.length ciphertext)
            then Some (version, nonce, ciphertext) else None
        | _, _ => None
        end
      else None
  | _ => None
  end.

Definition application_secret_key_version (encrypted : string) : M Db string :=
  match _parse_envelope encrypted with
  | Some (version, _, _) => ret version
  | None => secret_error "malformed_envelope"
  end.

(** ** The cipher *)

(** [ApplicationSecretCipher] *)
Record Cipher := mkCipher { ci_keys : gmap string string; ci_active_version : string }.

Definition key_valid (version key : string) : bool :=
  version_valid version && Nat.eqb (String.length key) _KEY_BYTES.

(** [ApplicationSecretCipher.__init__] *)
Definition make_cipher (keys : gmap string string) (active_version : string) : M Db Cipher :=
  if version_valid active_version && opt_true (keys !! active_version)
     && forallb (λ r, key_valid r.1 r.2) (map_to_list keys)
  then ret (mkCipher keys active_version)
  else secret_error "invalid_key_configuration".

(** [Cipher.encrypt] and [Cipher.decrypt]: the plaintext is bytes, the context a text. *)
Definition cipher_encrypt `{Aesgcm} (c : Cipher) (plaintext context : string) : M Db string :=
  let! nonce := gets (urandom _NONCE_BYTES) in
  let! key := get_or_raise (ci_keys c !! ci_active_version c) EKey (ci_active_version c) in
  ret (serialize_envelope (ci_active_version c) nonce
         (aesgcm_encrypt key nonce plaintext (utf8_encode context))).

Definition cipher_decrypt `{Aesgcm} (c : Cipher) (encrypted context : string) : M Db string :=
  match _parse_envelope encrypted with
  | None => secret_error "malformed_envelope"
  | Some (version, nonce, ciphertext) =>
      match ci_keys c !! version with
      | None => secret_error "unknown_key_version"
      | Some key =>
          match aesgcm_decrypt key nonce ciphertext (utf8_encode context) with
          | Some plaintext => ret plaintext
          | None => secret_error "decryption_failed"
          end
      end
  end.

(** ** The key ring *)

(** [_reject_duplicate_json_keys], which [json.loads] calls for every object. *)
Fixpoint unique_keys (document : json) : bool :=
  match document with
  | JObj fields =>
      bool_decide (NoDup fields.*1)
      && (fix go (l : list (string * json)) : bool :=
            match l with (_, v) :: l' => unique_keys v && go l' | [] => true end) fields
  | JList l =>
      (fix go (l : list json) : bool :=
         match l with v :: l' => unique_keys v && go l' | [] => true end) l
  | _ => true
  end.

(** The loop over the entries; the first offence gives the code. *)
Fixpoint parse_keys (entries : list (string * json)) (keys : gmap string string) :
    string + gmap string string :=
  match entries with
  | [] => inr keys
  | (version, encoded) :: entries' =>
      if negb (version_valid version) then inl "invalid_key_version"
      else
        match encoded with
        | JStr text =>
            match b64decode text with
            | None => inl "invalid_key_encoding"
            | Some key =>
                if Nat.eqb (String.length key) _KEY_BYTES
                then parse_keys entries' (<[version := key]> keys)
                else inl "invalid_key_length"
            end
        | _ => inl "invalid_key_encoding"
        end
  end.

Definition parse_application_secret_keyring (document : option json) :
    string + gmap string string :=
  match document with
  | None => inl "invalid_json"
  | Some document =>
      if negb (unique_keys document) then inl "duplicate_key"
      else
        match document with
        | JObj [(field, encoded_keys)] =>
            if String.eqb field "keys" then
              match encoded_keys with
              | JObj (entry :: entries) => parse_keys (entry :: entries) ∅
              | _ => inl "empty_or_invalid_keys"
              end
            else inl "invalid_schema"
        | _ => inl "invalid_schema"
        end
  end.

(** [generate_application_secret_keyring], up to the layout of the JSON text; [None] is its
    [ValueError].  The parse that ends it is what [generated_keyring_parses] is about. *)
Definition generate_application_secret_keyring `{Aesgcm} (initial_version : string) (s : Db) :
    option json :=
  if version_valid initial_version then
    Some (JObj [("keys", JObj [(initial_version, JStr (b64encode (urandom _KEY_BYTES s)))])])
  else None.

Section secrets.
Context `{Aesgcm, SecretSettings}.

(** [load_application_secret_keyring] on the configured credential: only the parse is
    under its [except]. *)
Definition configured_application_secret_cipher : M Db Cipher :=
  match parse_application_secret_keyring application_secret_keyring with
  | inl _ => secret_error "key_unavailable"
  | inr keys => make_cipher keys APPLICATION_SECRET_KEK_VERSION
  end.

Definition encrypt_application_secret (plaintext context : string) : M Db string :=
  let! cipher := configured_application_secret_cipher in
  cipher_encrypt cipher (utf8_encode plaintext) context.

Definition decrypt_application_secret (encrypted context : string) : M Db string :=
  let! cipher := configured_application_secret_cipher in
  cipher_decrypt cipher encrypted context.
End secrets.
