(* ===== verification/JsonText.v ===== *)
(** JSON as text: the parser of [report_transfer/contract.py] ([parse_json], with its hooks
    on [json.loads]) and the canonical form ([canonical], which is [json_dumps] of
    [Fingerprint]), with the round trip between them. *)
From Stdlib Require Import Ascii.
From S2P Require Import Prelude Text Encoding Models Registry Store Fingerprint.
From S2P Require Import ApplicationSecrets.

(** Whether [float] of the text of a number is finite; the model keeps floats as texts. *)
Class Floats := { float_is_finite : string → bool }.

(** ** The lexical forms *)

Definition is_json_space (c : ascii) : bool :=
  let n := nat_of_ascii c in Nat.eqb n 32 || Nat.eqb n 9 || Nat.eqb n 10 || Nat.eqb n 13.

Fixpoint skip_space (s : string) : string :=
  match s with
  | String c s' => if is_json_space c then skip_space s' else s
  | EmptyString => EmptyString
  end.

Definition is_quote (c : ascii) : bool := Nat.eqb (nat_of_ascii c) 34.

(** The value of [\uXXXX]; a character from U+0100 on is not one of the model. *)
Definition unicode_escape (a b c d : ascii) : option ascii :=
  match digit_value 16 a, digit_value 16 b, digit_value 16 c, digit_value 16 d with
  | Some 0, Some 0, Some v, Some w => Some (ascii_of_nat (Z.to_nat (v * 16 + w)))
  | _, _, _, _ => None
  end.

Definition simple_escape (c : ascii) : option ascii :=
  let n := nat_of_ascii c in
  if Nat.eqb n 34 || Nat.eqb n 92 || Nat.eqb n 47 then Some c
  else if Nat.eqb n 98 then Some (ascii_of_nat 8)
  else if Nat.eqb n 102 then Some (ascii_of_nat 12)
  else if Nat.eqb n 110 then Some (ascii_of_nat 10)
  else if Nat.eqb n 114 then Some (ascii_of_nat 13)
  else if Nat.eqb n 116 then Some (ascii_of_nat 9)
  else None.

(** The string after its opening quote, and what follows its closing one.  Control
    characters must be escaped. *)
Fixpoint scan_string (s : string) : option (string * string) :=
  match s with
  | EmptyString => None
  | String c s' =>
      if is_quote c then Some ("", s')
      else if Nat.eqb (nat_of_ascii c) 92 then
        match s' with
        | String e t =>
            if Nat.eqb (nat_of_ascii e) 117 then
              match t with
              | String a (String b (String d (String f t'))) =>
                  match unicode_escape a b d f, scan_string t' with
                  | Some x, Some (v, r) => Some (String x v, r)
                  | _, _ => None
                  end
              | _ => None
              end
            else match simple_escape e, scan_string t with
                 | Some x, Some (v, r) => Some (String x v, r)
                 | _, _ => None
                 end
        | EmptyString => None
        end
      else if Nat.ltb (nat_of_ascii c) 32 then None
      else match scan_string s' with
           | Some (v, r) => Some (String c v, r)
           | None => None
           end
  end.

(** The longest prefix of digits, and the rest. *)
Fixpoint span_digits (s : string) : string * string :=
  match s with
  | String c s' =>
      if is_digit c then let '(d, r) := span_digits s' in (String c d, r) else ("", s)
  | EmptyString => ("", "")
  end.

(** [0|[1-9][0-9]*] *)
Definition scan_integer (s : string) : option (string * string) :=
  match s with
  | String c s' =>
      if (c =? "0")%char then Some ("0", s')
      else if is_digit c then Some (span_digits s)
      else None
  | EmptyString => None
  end.

(** [(\.[0-9]+)?] *)
Definition scan_fraction (s : string) : string * string :=
  match s with
  | String c s' =>
      let '(d, r) := span_digits s' in
      if (c =? ".")%char && str_true d then (String c d, r) else ("", s)
  | EmptyString => ("", s)
  end.

(** [([eE][-+]?[0-9]+)?] *)
Definition scan_exponent (s : string) : string * string :=
  match s with
  | String c s' =>
      let '(sign, t) := match s' with
                        | String x t => if (x =? "-")%char || (x =? "+")%char
                                        then (String x "", t) else ("", s')
                        | EmptyString => ("", s')
                        end in
      let '(d, r) := span_digits t in
      if ((c =? "e")%char || (c =? "E")%char) && str_true d then (String c (sign +:+ d), r)
      else ("", s)
  | EmptyString => ("", s)
  end.

Definition scan_minus (s : string) : string * string :=
  match s with
  | String c s' => if (c =? "-")%char then ("-", s') else ("", s)
  | EmptyString => ("", s)
  end.

(** A number: an integer when it has neither a fraction nor an exponent; the hook
    [parse_float] refuses floats that are not finite. *)
Definition scan_number `{Floats} (s : string) : option (json * string) :=
  let '(sign, s1) := scan_minus s in
  match scan_integer s1 with
  | None => None
  | Some (int, s2) =>
      let '(frac, s3) := scan_fraction s2 in
      let '(exp, s4) := scan_exponent s3 in
      if str_true frac || str_true exp then
        let text := sign +:+ int +:+ frac +:+ exp in
        if float_is_finite text then Some (JFloat text, s4) else None
      else match read_int (sign +:+ int) with
           | Some z => Some (JInt z, s4)
           | None => None
           end
  end.

(** The rest of [s] after the prefix [p]. *)
Fixpoint strip_prefix (p s : string) : option string :=
  match p, s with
  | EmptyString, _ => Some s
  | String a p', String b s' => if (a =? b)%char then strip_prefix p' s' else None
  | String _ _, EmptyString => None
  end.

(** [null], [true], [false]; the hook [parse_constant] refuses [NaN] and the infinities. *)
Definition scan_word (s : string) : option (json * string) :=
  match strip_prefix "null" s, strip_prefix "true" s, strip_prefix "false" s with
  | Some r, _, _ => Some (JNull, r)
  | _, Some r, _ => Some (JBool true, r)
  | _, _, Some r => Some (JBool false, r)
  | _, _, _ => None
  end.

(** ** Values

    [fuel] bounds the number of calls; twice the length of the text is enough, since every value
    takes a character.  The hook [_pairs] refuses an object that repeats a key. *)
Section values.
Context `{Floats}.

Fixpoint scan_value (fuel : nat) (s : string) : option (json * string) :=
  match fuel with
  | O => None
  | S fuel' =>
      match s with
      | EmptyString => None
      | String c s' =>
          if is_quote c then
            match scan_string s' with Some (v, r) => Some (JStr v, r) | None => None end
          else if (c =? "{")%char then
            match skip_space s' with
            | String d r => if (d =? "}")%char then Some (JObj [], r)
                            else scan_members fuel' [] (String d r)
            | EmptyString => None
            end
          else if (c =? "[")%char then
            match skip_space s' with
            | String d r => if (d =? "]")%char then Some (JList [], r)
                            else scan_elements fuel' [] (String d r)
            | EmptyString => None
            end
          else match scan_word s with Some r => Some r | None => scan_number s end
      end
  end
with scan_elements (fuel : nat) (done : list json) (s : string) : option (json * string) :=
  match fuel with
  | O => None
  | S fuel' =>
      match scan_value fuel' s with
      | Some (v, r) =>
          match skip_space r with
          | String c t =>
              if (c =? "]")%char then Some (JList (done ++ [v]), t)
              else if (c =? ",")%char then scan_elements fuel' (done ++ [v]) (skip_space t)
              else None
          | EmptyString => None
          end
      | None => None
      end
  end
with scan_members (fuel : nat) (done : list (string * json)) (s : string) :
    option (json * string) :=
  match fuel with
  | O => None
  | S fuel' =>
      match s with
      | String q s1 =>
          if negb (is_quote q) then None else
          match scan_string s1 with
          | Some (k, s2) =>
              match skip_space s2 with
              | String colon s3 =>
                  if negb (colon =? ":")%char then None else
                  match scan_value fuel' (skip_space s3) with
                  | Some (v, r) =>
                      if mem_str k (done.*1) then None else
                      match skip_space r with
                      | String c t =>
                          if (c =? "}")%char then Some (JObj (done ++ [(k, v)]), t)
                          else if (c =? ",")%char
                               then scan_members fuel' (done ++ [(k, v)]) (skip_space t)
                          else None
                      | EmptyString => None
                      end
                  | None => None
                  end
              | EmptyString => None
              end
          | None => None
          end
      | EmptyString => None
      end
  end.

(** [json.loads] with the hooks. *)
Definition loads (s : string) : option json :=
  match scan_value (2 * String.length s + 1) (skip_space s) with
  | Some (v, r) => if String.eqb (skip_space r) "" then Some v else None
  | None => None
  end.

(** [parse_json] of bytes; the exceptions are all answered with the same error. *)
Definition parse_bytes (raw : string) : option json :=
  match utf8_decode raw with Some s => loads s | None => None end.
End values.

(** The order of the keys in the canonical form. *)
Fixpoint sort_keys (j : json) : json :=
  match j with
  | JList l => JList (map sort_keys l)
  | JObj fields => JObj (sort_by fst (map (λ kv, (kv.1, sort_keys kv.2)) fields))
  | _ => j
  end.

(** What [canonical] can print and [parse_json] read again: every key once, no floats, and
    integers within the limit of [int]. *)
Fixpoint printable (j : json) : bool :=
  match j with
  | JFloat _ => false
  | JInt z => count_digits (pretty (Z.abs z)) <=? MAX_STR_DIGITS
  | JList l => forallb printable l
  | JObj fields => bool_decide (NoDup fields.*1) && forallb (λ kv, printable kv.2) fields
  | _ => true
  end.

(** ** Reading what was printed: the notions *)

(** The canonical form is ASCII, so its bytes are its characters. *)
Definition below_128 (s : string) : bool := all_chars (λ c, Nat.ltb (nat_of_ascii c) 128) s.

(** What may follow a number without being read as a part of it. *)
Definition ends_number (r : string) : bool :=
  match r with
  | String c _ => negb (is_digit c || (c =? ".")%char || (c =? "e")%char || (c =? "E")%char)
  | EmptyString => true
  end.

(** The value is read back, in the order of its keys, whatever follows. *)
Definition json_reads_back `{Floats} (j : json) : Prop :=
  ∀ fuel r, ends_number r = true → (2 * String.length (json_dumps j) ≤ fuel)%nat →
    scan_value fuel (json_dumps j +:+ r) = Some (sort_keys j, r).

(** The text of an object whose members are printed in the given order. *)
Definition print_member (kv : string * string) : string := quoted kv.1 +:+ ":" +:+ kv.2.

(** ** Induction on JSON values *)

Lemma json_rule (P : json → Prop) :
  P JNull → (∀ b, P (JBool b)) → (∀ z, P (JInt z)) → (∀ t, P (JFloat t)) → (∀ s, P (JStr s)) →
  (∀ l, Forall P l → P (JList l)) →
  (∀ fields, Forall (λ kv, P kv.2) fields → P (JObj fields)) → ∀ j, P j.
Proof.
  intros Hn Hb Hz Hf Hs Hl Ho. fix IH 1. intros [| b | z | t | s | l | fields].
  1-5: clear IH; auto.
  - apply Hl. induction l as [|v l IHl]; constructor; [exact (IH v)|exact IHl].
  - apply Ho. induction fields as [|[k v] fields IHf]; constructor; [exact (IH v)|exact IHf].
Qed.

(** ** Sorting commutes with maps that keep the key *)

Section sort_map.
Context {A B} (keyA : A → string) (keyB : B → string) (f : A → B).
Context (Hkey : ∀ a, keyB (f a) = keyA a).

Lemma merge_map l1 l2 :
  list_merge (str_key_le keyB) (map f l1) (map f l2) = map f (list_merge (str_key_le keyA) l1 l2).
Proof.
  revert l2. induction l1 as [|a l1 IH1]; intros l2; [destruct l2; reflexivity|].
  induction l2 as [|b l2 IH2]; [reflexivity|].
  assert (E : str_key_le keyB (f a) (f b) ↔ str_key_le keyA a b)
    by (unfold str_key_le; rewrite !Hkey; reflexivity).
  change (map f (a :: l1)) with (f a :: map f l1) in *.
  change (map f (b :: l2)) with (f b :: map f l2). cbn [list_merge].
  destruct (decide (str_key_le keyB (f a) (f b))) as [H1|H1],
    (decide (str_key_le keyA a b)) as [H2|H2]; try (exfalso; tauto).
  - cbn [map]. f_equal. apply (IH1 (b :: l2)).
  - cbn [map]. f_equal. exact IH2.
Qed.

Lemma merge_stack_map st :
  merge_stack (str_key_le keyB) (map (option_map (map f)) st)
  = map f (merge_stack (str_key_le keyA) st).
Proof.
  induction st as [|[l|] st IH]; simpl; [reflexivity| |exact IH].
  rewrite IH. apply merge_map.
Qed.

Lemma merge_to_stack_map st l :
  merge_list_to_stack (str_key_le keyB) (map (option_map (map f)) st) (map f l)
  = map (option_map (map f)) (merge_list_to_stack (str_key_le keyA) st l).
Proof.
  revert l. induction st as [|[l'|] st IH]; intros l; simpl; [reflexivity| |reflexivity].
  rewrite merge_map, IH. reflexivity.
Qed.

Lemma sort_by_map l : sort_by keyB (map f l) = map f (sort_by keyA l).
Proof.
  unfold sort_by, merge_sort. change (@nil (option (list B))) with (map (option_map (map f)) []).
  generalize (@nil (option (list A))) as st.
  induction l as [|a l IH]; intros st; simpl; [apply merge_stack_map|].
  change [f a] with (map f [a]). rewrite merge_to_stack_map. apply IH.
Qed.
End sort_map.

(** ** Reading what was printed: the lemmas *)

Lemma scan_escaped_char c t :
  scan_string (escape_char c +:+ t)
  = match scan_string t with Some (v, r) => Some (String c v, r) | None => None end.
Proof. destruct c as [[] [] [] [] [] [] [] []]; reflexivity. Qed.

Lemma scan_quoted s r : scan_string (escape s +:+ quote_char +:+ r) = Some (s, r).
Proof.
  induction s as [|c s IH]; [reflexivity|].
  cbn [escape]. rewrite str_app_assoc, scan_escaped_char, IH. reflexivity.
Qed.

Lemma span_digits_app d r : all_digits d = true → ends_number r = true →
  span_digits (d +:+ r) = (d, r).
Proof.
  intros Hd Hr. induction d as [|c d IH].
  - destruct r as [|c r]; [reflexivity|]. cbn in Hr. change ("" +:+ String c r) with (String c r).
    cbn [span_digits]. destruct (is_digit c); [discriminate Hr|reflexivity].
  - cbn in Hd. apply andb_prop in Hd as [Hc Hd]. rewrite str_cons_app. cbn [span_digits].
    rewrite Hc, (IH Hd). reflexivity.
Qed.

Lemma scan_integer_pretty (n : N) r : ends_number r = true →
  scan_integer (pretty n +:+ r) = Some (pretty n, r).
Proof.
  intros Hr. pose proof (canonical_number_pretty n) as Hn.
  pose proof (canonical_digits _ Hn) as Hd.
  destruct (pretty n) as [|c s]; [discriminate Hn|]. rewrite str_cons_app. cbn in Hn |- *.
  destruct (c =? "0")%char eqn:E.
  - apply String.eqb_eq in Hn as ->. apply Ascii.eqb_eq in E as ->. reflexivity.
  - cbn in Hd. apply andb_prop in Hd as [Hc Hd]. rewrite Hc, (span_digits_app s r Hd Hr). reflexivity.
Qed.

Lemma no_fraction r : ends_number r = true → scan_fraction r = ("", r).
Proof.
  destruct r as [|c r]; [reflexivity|]. cbn. destruct (c =? ".")%char, (span_digits r); cbn; [|reflexivity].
  rewrite orb_true_r. discriminate.
Qed.

Lemma no_exponent r : ends_number r = true → scan_exponent r = ("", r).
Proof.
  destruct r as [|c r]; [reflexivity|]. cbn [ends_number scan_exponent].
  destruct (c =? "e")%char, (c =? "E")%char; cbn; rewrite ?orb_true_r; try discriminate.
  intros _. destruct (match r with EmptyString => _ | String _ _ => _ end) as [sign t].
  destruct (span_digits t). reflexivity.
Qed.

Lemma pretty_abs (z : Z) :
  pretty z = (if z <? 0 then "-" else "") +:+ pretty (Z.to_N (Z.abs z)) ∧ pretty (Z.abs z) = pretty (Z.to_N (Z.abs z)).
Proof. destruct z; split; reflexivity. Qed.

Lemma read_signed (z : Z) : count_digits (pretty (Z.abs z)) ≤ MAX_STR_DIGITS →
  read_int ((if z <? 0 then "-" else "") +:+ pretty (Z.to_N (Z.abs z))) = Some z.
Proof.
  intros Hz. destruct (pretty_abs z) as [_ E].
  pose proof (read_int_pretty (Z.abs z) ltac:(lia) Hz) as R. rewrite E in R.
  destruct (Z.ltb_spec z 0) as [Hn|Hn].
  - set (d := pretty (Z.to_N (Z.abs z))) in *.
    assert (Hd : all_digits d = true) by apply canonical_digits, canonical_number_pretty.
    rewrite read_int_digits in R by exact Hd. rewrite E in Hz.
    assert (S : str_strip (String "-" d) = String "-" d).
    { unfold str_strip. cbn [str_lstrip]. change (is_space "-") with false. cbn iota.
      cbn [str_rstrip]. pose proof (str_strip_digits d Hd) as Sd. unfold str_strip in Sd.
      assert (L : str_lstrip d = d).
      { destruct d as [|c d']; [reflexivity|]. cbn in Hd |- *. apply andb_prop in Hd as [Hc _].
        rewrite (digit_not_space _ Hc). reflexivity. }
      rewrite L in Sd. rewrite Sd. reflexivity. }
    change ("-" +:+ d) with (String "-" d). unfold read_int. rewrite S. cbn -[count_digits MAX_STR_DIGITS read_digits].
    destruct (MAX_STR_DIGITS <? count_digits d); [discriminate R|]. rewrite R. cbn. f_equal. lia.
  - change ("" +:+ ?x) with x. rewrite R. f_equal. lia.
Qed.

(** The first character of a printed number. *)
Lemma pretty_head (n : N) : ∃ d s, (d < 10)%N ∧ pretty n = String (pretty_N_char d) s.
Proof.
  pose proof (canonical_digits _ (canonical_number_pretty n)) as Hd.
  pose proof (canonical_number_pretty n) as Hn.
  destruct (pretty n) as [|c s]; [discriminate Hn|]. cbn in Hd. apply andb_prop in Hd as [Hc _].
  destruct (digit_char c Hc) as (d & Hd & ->). eauto.
Qed.

Lemma scan_number_pretty `{Floats} z r : count_digits (pretty (Z.abs z)) ≤ MAX_STR_DIGITS →
  ends_number r = true → scan_number (pretty z +:+ r) = Some (JInt z, r).
Proof.
  intros Hz Hr. destruct (pretty_abs z) as [-> _]. unfold scan_number.
  destruct (pretty_head (Z.to_N (Z.abs z))) as (d & s & Hd & E).
  assert (Es : scan_minus (((if z <? 0 then "-" else "") +:+ pretty (Z.to_N (Z.abs z))) +:+ r)
               = (if z <? 0 then "-" else "", pretty (Z.to_N (Z.abs z)) +:+ r)).
  { destruct (z <? 0); [reflexivity|]. change ("" +:+ ?x) with x. rewrite E, str_cons_app. cbn.
    assert (X : (pretty_N_char d =? "-")%char = false).
    { unfold pretty_N_char. repeat case_match; reflexivity. }
    rewrite X. reflexivity. }
  rewrite Es. rewrite (scan_integer_pretty _ _ Hr), (no_fraction _ Hr). rewrite (no_exponent _ Hr).
  cbn [str_true orb String.eqb negb]. rewrite (read_signed z Hz). reflexivity.
Qed.

(** The first character of a printed value is not a space and closes nothing. *)
Lemma dumps_head j : printable j = true → ∃ c t, json_dumps j = String c t
  ∧ is_json_space c = false ∧ (c =? "]")%char = false ∧ (c =? "}")%char = false.
Proof.
  destruct j as [|b|z|t|s|l|fields]; intros Hj; cbn [json_dumps].
  - exists "n"%char, "ull". auto.
  - destruct b; [exists "t"%char, "rue"|exists "f"%char, "alse"]; auto.
  - destruct (pretty_abs z) as [-> _]. destruct (z <? 0); [exists "-"%char; eexists; split; [reflexivity|auto]|].
    destruct (pretty_head (Z.to_N (Z.abs z))) as (d & s & Hd & ->).
    eexists _, _. split; [reflexivity|]. unfold pretty_N_char. repeat case_match; auto.
  - discriminate Hj.
  - eexists (Ascii.ascii_of_nat 34), _. split; [reflexivity|auto].
  - exists "["%char; eexists; split; [reflexivity|auto].
  - exists "{"%char; eexists; split; [reflexivity|auto].
Qed.

Section round_trip.
Context `{Floats}.

Lemma join_cons x y l : join "," (x :: y :: l) = x +:+ String "," (join "," (y :: l)).
Proof. reflexivity. Qed.

Lemma skip_head c t r : is_json_space c = false → skip_space (String c t +:+ r) = String c t +:+ r.
Proof. intros Hc. rewrite str_cons_app. cbn [skip_space]. rewrite Hc. reflexivity. Qed.

Lemma scan_elements_printed l r : ∀ v done fuel,
  Forall json_reads_back (v :: l) → forallb printable (v :: l) = true →
  (2 * String.length (join "," (map json_dumps (v :: l))) < fuel)%nat →
  scan_elements fuel done (join "," (map json_dumps (v :: l)) +:+ String "]" r)
  = Some (JList (done ++ map sort_keys (v :: l)), r).
Proof.
  induction l as [|w l IH]; intros v done [|fuel] Hl Hp Hf; try (exfalso; lia).
  - apply Forall_cons in Hl as [Hv _]. cbn [map join scan_elements] in *.
    rewrite Hv by (reflexivity || lia). cbn. reflexivity.
  - apply Forall_cons in Hl as [Hv Hl]. cbn [forallb] in Hp. apply andb_prop in Hp as [_ Hp].
    cbn [map] in *. rewrite join_cons in *. rewrite str_length_app in Hf. cbn [String.length] in Hf.
    rewrite str_app_assoc, str_cons_app. cbn [scan_elements].
    rewrite Hv by (reflexivity || lia). cbn [skip_space is_json_space].
    change (is_json_space ",") with false. cbn iota. change ("," =? "]")%char with false.
    change ("," =? ",")%char with true. cbn iota.
    assert (Hw : printable w = true) by (cbn [forallb] in Hp; apply andb_prop in Hp; tauto).
    destruct (dumps_head w Hw) as (c & t & Ew & Hc & _).
    assert (Es : ∃ t', join "," (json_dumps w :: map json_dumps l) = String c t').
    { rewrite Ew. destruct l; eexists; reflexivity. }
    destruct Es as [t' Es]. rewrite Es, (skip_head c t' _ Hc), <- Es.
    rewrite (IH w (done ++ [sort_keys v]) fuel Hl Hp) by (cbn [map]; lia).
    rewrite <- app_assoc. reflexivity.
Qed.

Lemma mem_str_In x l : mem_str x l = true ↔ x ∈ l.
Proof.
  unfold mem_str. rewrite existsb_exists. split.
  - intros (y & Hy & E%String.eqb_eq). subst y. apply list_elem_of_In, Hy.
  - intros Hx. exists x. split; [apply list_elem_of_In, Hx|apply String.eqb_refl].
Qed.

Lemma scan_member k v done fuel c t :
  json_reads_back v → printable v = true → mem_str k done.*1 = false →
  ends_number (String c t) = true → is_json_space c = false →
  (2 * String.length (json_dumps v) ≤ fuel)%nat →
  scan_members (S fuel) done (print_member (k, json_dumps v) +:+ String c t)
  = if (c =? "}")%char then Some (JObj (done ++ [(k, sort_keys v)]), t)
    else if (c =? ",")%char then scan_members fuel (done ++ [(k, sort_keys v)]) (skip_space t)
    else None.
Proof.
  intros Hv Hpv Hk Hc Hs Hf. destruct (dumps_head v Hpv) as (d & u & Ev & Hd & _).
  unfold print_member, quoted. cbn [fst snd]. rewrite !str_app_assoc. cbn [scan_members].
  change (quote_char +:+ ?x) with (String (Ascii.ascii_of_nat 34) x) at 1. cbn iota beta.
  change (is_quote (Ascii.ascii_of_nat 34)) with true. cbn [negb].
  rewrite scan_quoted. change (":" +:+ ?x) with (String ":" x).
  cbn [skip_space]. change (is_json_space ":") with false. cbn iota.
  change (":" =? ":")%char with true. cbn [negb].
  rewrite Ev, (skip_head d u _ Hd), <- Ev, Hv by assumption.
  rewrite Hk. cbn [skip_space]. rewrite Hs. reflexivity.
Qed.

Lemma member_length k v t : (String.length (json_dumps v) + 3 + String.length t
  ≤ String.length (print_member (k, json_dumps v) +:+ t))%nat.
Proof.
  unfold print_member, quoted, quote_char. cbn [fst snd]. rewrite !str_length_app.
  cbn [String.length]. lia.
Qed.

Lemma scan_members_printed l r : ∀ kv done fuel,
  Forall (λ kv, json_reads_back kv.2) (kv :: l) → forallb (λ kv, printable kv.2) (kv :: l) = true →
  NoDup (done.*1 ++ (kv :: l).*1) →
  let text := join "," (map (λ kv, print_member (kv.1, json_dumps kv.2)) (kv :: l)) in
  (2 * String.length text < fuel)%nat →
  scan_members fuel done (text +:+ String "}" r)
  = Some (JObj (done ++ map (λ kv, (kv.1, sort_keys kv.2)) (kv :: l)), r).
Proof.
  induction l as [|kw l IH]; intros [k v] done [|fuel] Hl Hp Hn; cbv zeta; intros Hf;
    try (exfalso; lia).
  all: apply Forall_cons in Hl as [Hv Hl]; cbn [fst snd] in Hv.
  all: cbn [forallb snd] in Hp; apply andb_prop in Hp as [Hpv Hp].
  all: assert (Hk : mem_str k done.*1 = false)
    by (apply not_true_iff_false; rewrite mem_str_In; cbn in Hn;
        apply NoDup_app in Hn as (_ & Hn & _); intros Hin; apply (Hn k Hin); left).
  - cbn [map join fst snd] in *. pose proof (member_length k v "") as L.
    rewrite str_app_nil in L.
    rewrite scan_member; [reflexivity|assumption|assumption|assumption|reflexivity|reflexivity|lia].
  - specialize (IH kw (done ++ [(k, sort_keys v)]) fuel Hl Hp). cbv zeta in IH.
    rewrite fmap_app, <- !app_assoc in IH. specialize (IH Hn).
    set (rest := join "," (map _ (kw :: l))) in IH.
    replace (join "," (map _ _)) with (print_member (k, json_dumps v) +:+ String "," rest) in *
      by reflexivity.
    pose proof (member_length k v (String "," rest)) as L. cbn [String.length] in L.
    assert (Es : skip_space (rest +:+ String "}" r) = rest +:+ String "}" r)
      by (subst rest; destruct l; reflexivity).
    rewrite str_app_assoc, str_cons_app, scan_member;
      [|assumption|assumption|assumption|reflexivity|reflexivity|lia].
    change ("," =? "}")%char with false. change ("," =? ",")%char with true. cbn iota.
    rewrite Es, IH by lia. reflexivity.
Qed.

Lemma scan_object fields r fuel :
  Forall (λ kv, json_reads_back kv.2) fields → forallb (λ kv, printable kv.2) fields = true →
  NoDup fields.*1 →
  let text := "{" +:+ join "," (map (λ kv, print_member (kv.1, json_dumps kv.2)) fields) +:+ "}" in
  (2 * String.length text ≤ fuel)%nat →
  scan_value fuel (text +:+ r) = Some (JObj (map (λ kv, (kv.1, sort_keys kv.2)) fields), r).
Proof.
  intros Hl Hp Hn. cbv zeta. rewrite !str_length_app. cbn [String.length]. intros Hf.
  destruct fuel as [|fuel]; [exfalso; lia|]. rewrite !str_app_assoc.
  destruct fields as [|kv fields]; [reflexivity|].
  change ("{" +:+ ?x) with (String "{" x). change ("}" +:+ r) with (String "}" r).
  cbn [scan_value]. change (is_quote "{") with false. change ("{" =? "{")%char with true. cbn iota.
  pose proof (scan_members_printed fields r kv [] fuel Hl Hp Hn) as E. cbv zeta in E.
  set (text := join "," _) in *. specialize (E ltac:(lia)).
  assert (Es : ∃ t, text +:+ String "}" r = String (Ascii.ascii_of_nat 34) t)
    by (subst text; destruct fields; eexists; reflexivity).
  destruct Es as [t Es]. rewrite Es in E |- *. cbn [skip_space].
  change (is_json_space (Ascii.ascii_of_nat 34)) with false. cbn iota.
  change (Ascii.ascii_of_nat 34 =? "}")%char with false. cbn iota. exact E.
Qed.

Lemma scan_list l r fuel :
  Forall json_reads_back l → forallb printable l = true →
  (2 * String.length (json_dumps (JList l)) ≤ fuel)%nat →
  scan_value fuel (json_dumps (JList l) +:+ r) = Some (JList (map sort_keys l), r).
Proof.
  intros Hl Hp. cbn [json_dumps]. rewrite !str_length_app. cbn [String.length]. intros Hf.
  destruct fuel as [|fuel]; [exfalso; lia|]. rewrite !str_app_assoc.
  destruct l as [|v l]; [reflexivity|].
  change ("[" +:+ ?x) with (String "[" x). change ("]" +:+ r) with (String "]" r).
  cbn [scan_value]. change (is_quote "[") with false. change ("[" =? "{")%char with false.
  change ("[" =? "[")%char with true. cbn iota.
  pose proof (scan_elements_printed l r v [] fuel Hl Hp ltac:(lia)) as E.
  cbn [forallb] in Hp. apply andb_prop in Hp as [Hpv _].
  destruct (dumps_head v Hpv) as (c & t & Ev & Hc & Hcl & _).
  assert (Es : ∃ t', join "," (map json_dumps (v :: l)) +:+ String "]" r = String c t').
  { cbn [map]. rewrite Ev. destruct l; eexists; reflexivity. }
  destruct Es as [t' Es]. rewrite Es in E |- *. cbn [skip_space]. rewrite Hc, Hcl. exact E.
Qed.

Lemma sort_by_Permutation {A} (key : A → string) l : Permutation (sort_by key l) l.
Proof. apply merge_sort_Permutation. Qed.

Lemma printable_reads_back j : printable j = true → json_reads_back j.
Proof.
  induction j as [|b|z|t|s|l IH|fields IH] using json_rule; intros Hp fuel r Hr Hf.
  all: destruct fuel as [|fuel]; [exfalso; destruct (dumps_head _ Hp) as (c & u & E & _);
    rewrite E in Hf; cbn [String.length] in Hf; lia|].
  - reflexivity.
  - destruct b; reflexivity.
  - cbn [json_dumps sort_keys] in *. cbn [printable] in Hp. apply Z.leb_le in Hp.
    pose proof (scan_number_pretty z r Hp Hr) as E.
    assert (L : ∃ c s, pretty z = String c s ∧ is_quote c = false ∧ (c =? "{")%char = false
       ∧ (c =? "[")%char = false ∧ ∀ u, scan_word (String c u) = None).
    { destruct (pretty_abs z) as [-> _]. destruct (z <? 0); [exists "-"%char; eexists; split; [reflexivity|auto]|].
      destruct (pretty_head (Z.to_N (Z.abs z))) as (d & s & Hd & ->).
      eexists _, _. split; [reflexivity|]. unfold pretty_N_char. repeat case_match; auto. }
    destruct L as (c & s & Ez & H1 & H2 & H3 & H4).
    rewrite Ez, str_cons_app in E |- *. cbn [scan_value]. rewrite H1, H2, H3, H4. exact E.
  - discriminate Hp.
  - cbn [json_dumps sort_keys]. unfold quoted.
    rewrite !str_app_assoc. change (quote_char +:+ ?x) with (String (Ascii.ascii_of_nat 34) x) at 1.
    cbn [scan_value]. change (is_quote (Ascii.ascii_of_nat 34)) with true. cbn iota.
    rewrite scan_quoted. reflexivity.
  - cbn [sort_keys]. cbn [printable] in Hp. apply scan_list; [|exact Hp|exact Hf].
    apply Forall_forall. intros v Hv. eapply Forall_forall in IH; [|exact Hv]. apply IH.
    rewrite forallb_forall in Hp. apply Hp, list_elem_of_In, Hv.
  - cbn [printable] in Hp. apply andb_prop in Hp as [Hn Hp]. apply bool_decide_eq_true in Hn.
    pose proof (sort_by_Permutation fst fields) as P.
    assert (E : json_dumps (JObj fields) = "{" +:+ join "," (map (λ kv, print_member
                  (kv.1, json_dumps kv.2)) (sort_by fst fields)) +:+ "}").
    { cbn [json_dumps]. rewrite (sort_by_map fst fst) by reflexivity. rewrite map_map. reflexivity. }
    rewrite E in Hf |- *. cbn [sort_keys]. rewrite (sort_by_map fst fst) by reflexivity.
    apply scan_object; [|rewrite forallb_forall in *|rewrite P; exact Hn|exact Hf].
    + rewrite P. apply Forall_forall. intros kv Hkv. eapply Forall_forall in IH; [|exact Hkv].
      apply IH. rewrite forallb_forall in Hp. apply Hp, list_elem_of_In, Hkv.
    + intros kv Hkv. apply Hp. apply list_elem_of_In. rewrite <- P. apply list_elem_of_In, Hkv.
Qed.

Lemma loads_canonical j : printable j = true → loads (json_dumps j) = Some (sort_keys j).
Proof.
  intros Hp. unfold loads. destruct (dumps_head j Hp) as (c & t & E & Hc & _).
  assert (Es : skip_space (json_dumps j) = json_dumps j) by (rewrite E; cbn; rewrite Hc; reflexivity).
  rewrite Es. pose proof (printable_reads_back j Hp (2 * String.length (json_dumps j) + 1)%nat "" eq_refl
    ltac:(lia)) as R. rewrite str_app_nil in R. rewrite R. reflexivity.
Qed.

Lemma below_128_app a b : below_128 (a +:+ b) = below_128 a && below_128 b.
Proof.
  unfold below_128. induction a as [|c a IH]; [reflexivity|]. rewrite str_cons_app.
  cbn [all_chars]. rewrite IH. apply andb_assoc.
Qed.

Lemma below_128_join l : Forall (λ s, below_128 s = true) l → below_128 (join "," l) = true.
Proof.
  induction 1 as [|x l Hx Hl IH]; [reflexivity|]. destruct l as [|y l]; [exact Hx|].
  rewrite join_cons, below_128_app, Hx. exact IH.
Qed.

Lemma below_128_quoted s : below_128 (quoted s) = true.
Proof.
  assert (E : below_128 (escape s) = true).
  { induction s as [|c s IH]; [reflexivity|]. cbn [escape]. rewrite below_128_app, IH, andb_true_r.
    destruct c as [[] [] [] [] [] [] [] []]; reflexivity. }
  unfold quoted. rewrite !below_128_app, E. reflexivity.
Qed.

Lemma below_128_digits s : all_digits s = true → below_128 s = true.
Proof.
  induction s as [|c s IH]; [reflexivity|]. cbn [all_digits]. intros [Hc Hs]%andb_prop.
  destruct (digit_char c Hc) as (d & Hd & ->). apply andb_true_intro. split; [|exact (IH Hs)].
  unfold pretty_N_char. repeat case_match; reflexivity.
Qed.

Lemma below_128_dumps j : printable j = true → below_128 (json_dumps j) = true.
Proof.
  induction j as [|b|z|t|s|l IH|fields IH] using json_rule; intros Hp.
  - reflexivity.
  - destruct b; reflexivity.
  - cbn [json_dumps]. destruct (pretty_abs z) as [-> _]. rewrite below_128_app.
    apply andb_true_intro. split.
    + destruct (z <? 0); reflexivity.
    + apply below_128_digits, canonical_digits, canonical_number_pretty.
  - discriminate Hp.
  - apply below_128_quoted.
  - cbn [json_dumps]. rewrite !below_128_app, below_128_join; [reflexivity|].
    cbn [printable] in Hp. rewrite forallb_forall in Hp. apply Forall_forall.
    intros x (v & -> & Hv)%list_elem_of_fmap. eapply Forall_forall in IH; [|exact Hv].
    apply IH, Hp, list_elem_of_In, Hv.
  - cbn [json_dumps]. rewrite !below_128_app, below_128_join; [reflexivity|].
    cbn [printable] in Hp. apply andb_prop in Hp as [_ Hp]. rewrite forallb_forall in Hp.
    apply Forall_forall. intros x (kv & -> & Hv)%list_elem_of_fmap.
    rewrite sort_by_Permutation in Hv. apply list_elem_of_fmap in Hv as (f & -> & Hf). cbn [fst snd].
    rewrite !below_128_app, below_128_quoted. eapply Forall_forall in IH; [|exact Hf].
    apply IH, Hp, list_elem_of_In, Hf.
Qed.

Lemma decode_ascii s : below_128 s = true → utf8_decode s = Some s.
Proof.
  induction s as [|c s IH]; [reflexivity|]. intros [Hc Hs]%andb_prop. cbn [utf8_decode].
  cbv zeta. rewrite Hc, (IH Hs). reflexivity.
Qed.

Lemma parse_canonical j : printable j = true → parse_bytes (json_dumps j) = Some (sort_keys j).
Proof.
  intros Hp. unfold parse_bytes. rewrite decode_ascii by (apply below_128_dumps, Hp).
  apply loads_canonical, Hp.
Qed.
End round_trip.
