(* ===== verification/Authorization.v ===== *)
(** Who may do what: the scope queries of [apps/authorization/scopes.py], the
    [require_*] checks of [apps/authorization/services.py] and of
    [apps/file_library/services.py], and temporary station access, whose expiry
    every department mutation settles. *)
From S2P Require Import Prelude Models Store Registry.

(** The user exists, is authenticated and is active. *)
Definition user_effective (s : Db) (user : N) : bool :=
  match db_users s !! user with
  | Some u => us_is_authenticated u && us_is_active u
  | None => false
  end.

(** ** [apps/authorization/scopes.py] *)
Definition is_system_admin (s : Db) (user : N) : bool :=
  user_effective s user &&
  exists_row (db_system_roles s) (λ _ r, N.eqb (sr_user r) user && sr_active r).

Definition has_active_membership (s : Db) (user department : N) : bool :=
  exists_row (db_memberships s)
    (λ _ m, N.eqb (dm_user m) user && N.eqb (dm_department m) department && dm_active m).

Definition active_department_ids (s : Db) (user : N) : list N :=
  if user_effective s user then
    (rows (db_departments s) (λ d dep, dept_active dep && has_active_membership s user d)).*1
  else [].

Definition managed_department_ids (s : Db) (user : N) : list N :=
  if user_effective s user then
    (rows (db_departments s) (λ d _, has_active_membership s user d)).*1
  else [].

Definition active_station_ids (s : Db) (user : N) : list N :=
  if user_effective s user then
    (rows (db_stations s) (λ st x,
       exists_row (db_station_admins s)
         (λ _ a, N.eqb (sa_user a) user && N.eqb (sa_station a) st && sa_active a)
       && st_active x
       && match db_departments s !! st_department x with
          | Some dep => dept_active dep | None => false end)).*1
  else [].

Definition user_is_active (s : Db) (user : N) : bool :=
  match db_users s !! user with Some u => us_is_active u | None => false end.

Definition department_is_active (s : Db) (department : N) : bool :=
  match db_departments s !! department with Some d => dept_active d | None => false end.

Definition effective_membership (s : Db) (m : DepartmentMembership) : bool :=
  dm_active m && user_is_active s (dm_user m) && department_is_active s (dm_department m).

Definition effective_department_admin_memberships (s : Db) (department : option N) :
    list (N * DepartmentMembership) :=
  rows (db_memberships s) (λ _ m, effective_membership s m
    && match department with Some d => N.eqb (dm_department m) d | None => true end).

Definition orphaned_departments (s : Db) : list (N * Department) :=
  rows (db_departments s) (λ d dep, dept_active dep
    && negb (existsb (λ r, N.eqb (dm_department r.2) d)
              (effective_department_admin_memberships s None))).

Definition mem_N (x : N) (l : list N) : bool := existsb (N.eqb x) l.

Definition can_manage_department (s : Db) (user department : N) : bool :=
  mem_N department (managed_department_ids s user).

Definition can_manage_station (s : Db) (user station : N) : bool :=
  match db_stations s !! station with
  | Some x => st_active x && mem_N station (active_station_ids s user)
  | None => false
  end.

(** [station_admin_station] *)
Definition station_admin_station (user : N) : M Db (option N) :=
  let! station_ids := gets (λ s, active_station_ids s user) in
  match station_ids with
  | [] => ret None
  | [st] => let! _ := get_obj db_stations st in ret (Some st)
  | _ => raise EValue "Station administrator has multiple active station assignments."
  end.

(** ** The [require_*] checks *)
Definition require_system_admin (actor : N) : M Db unit :=
  let! ok := gets (λ s, is_system_admin s actor) in
  guard ok EPermissionDenied "System administrator role is required.".

Definition require_department_admin (actor : N) (department : option N) : M Db unit :=
  let! ok := gets (λ s,
    match department with
    | None => false
    | Some d =>
        match db_departments s !! d with
        | Some dep => dept_active dep && mem_N d (active_department_ids s actor)
        | None => false
        end
    end) in
  guard ok EPermissionDenied "Department administrator scope is required.".

(** [require_scope] of [apps/file_library/services.py] *)
Definition require_scope (actor : N) (department_id station_id : option N) : M Db unit :=
  let! admin := gets (λ s, is_system_admin s actor) in
  if admin then raise EPermissionDenied "" else
  let! departments := gets (λ s, active_department_ids s actor) in
  let! stations := gets (λ s, active_station_ids s actor) in
  if match department_id, station_id with
     | Some d, None => mem_N d departments
     | None, Some st => match departments with [] => mem_N st stations | _ => false end
     | _, _ => false
     end
  then ret tt else raise EPermissionDenied "".

Definition require_publication_scope (actor : N) (department station : option N)
    (dataset_type_code : string) : M Db unit :=
  let! definition := get_dataset_definition dataset_type_code in
  if String.eqb (dt_scope definition) "system" then
    if opt_true department || opt_true station then
      raise EPermissionDenied "Invalid system publication scope."
    else require_system_admin actor
  else
    let! admin := gets (λ s, is_system_admin s actor) in
    let! departments := gets (λ s, active_department_ids s actor) in
    let station_files := String.eqb dataset_type_code "station_files" in
    match department with
    | None =>
        if station_files && negb admin then raise EAttribute "department"
        else if String.eqb dataset_type_code "department_files" then
          raise EAttribute "department"
        else if station_files then require_scope actor None station
        else require_department_admin actor None
    | Some d =>
        if station_files && negb admin && mem_N d departments then
          let! stations := gets db_stations in
          if match station with
             | Some st => match stations !! st with
                          | Some x => N.eqb (st_department x) d | None => false end
             | None => false
             end
          then require_department_admin actor department
          else raise EPermissionDenied "Station does not belong to this department."
        else if is_file_dataset dataset_type_code then
          require_scope actor
            (if String.eqb dataset_type_code "department_files" then Some d else None)
            (if station_files then station else None)
        else require_department_admin actor department
    end.

(** ** Temporary station access, [apps/file_library/services.py] *)
Definition _revoke_access (access_id : N) (access : TemporaryStationAccess) (reason : string)
    (actor target_uuid : option N) (target_type : string) (audit : bool) : M Db unit :=
  if opt_true (ta_revoked_at access) then ret tt else
  let! now := timezone_now in
  save db_temporary_accesses access_id (λ a,
    a <| ta_revoked_at := Some now |> <| ta_revocation_reason := reason |>) ;;;
  if negb audit then ret tt else
  record_event ("file_library.temporary_access_" +:+ reason)
    (opt_or actor (Some (ta_user access))) (Some (ta_department access))
    (Some (ta_station access)) target_type (opt_or target_uuid (Some access_id))
    [("access_id", JInt (Z.of_N access_id));
     ("access_user_id", JInt (Z.of_N (ta_user access)));
     ("activated_at", JInt (ta_activated_at access));
     ("expires_at", JInt (ta_expires_at access));
     ("revoked_at", JInt now)].

Definition active_temporary_access (actor : N) :
    M Db (option (N * TemporaryStationAccess)) :=
  let! found := first_where db_temporary_accesses
    (λ _ a, N.eqb (ta_user a) actor && negb (opt_true (ta_revoked_at a))) by_pk in
  match found with
  | None => ret None
  | Some (access_id, access) =>
      let! now := timezone_now in
      if ta_expires_at access <=? now then
        _revoke_access access_id access "expired" None None "temporary_station_access" true ;;;
        ret None
      else
        let! departments := gets (λ s, active_department_ids s actor) in
        let! station := get_obj db_stations (ta_station access) in
        if negb (mem_N (ta_department access) departments)
           || negb (st_active station)
           || negb (N.eqb (st_department station) (ta_department access))
        then
          _revoke_access access_id access "authority_revoked" None None
            "temporary_station_access" true ;;;
          ret None
        else ret (Some (access_id, access))
  end.

Definition revoke_temporary_access (actor : N) (reason : string) :
    M Db (option (N * TemporaryStationAccess)) :=
  atomic (
    let! access := active_temporary_access actor in
    match access with
    | Some (access_id, row) =>
        _revoke_access access_id row reason (Some actor) None "temporary_station_access" true ;;;
        ret access
    | None => ret None
    end).

Definition revoke_temporary_access_for_user (user actor : N) :
    M Db (option (N * TemporaryStationAccess)) :=
  atomic (
    let! access := first_where db_temporary_accesses
      (λ _ a, N.eqb (ta_user a) user && negb (opt_true (ta_revoked_at a))) by_pk in
    match access with
    | Some (access_id, row) =>
        _revoke_access access_id row "authority_revoked" (Some actor) None
          "temporary_station_access" true ;;;
        ret access
    | None => ret None
    end).

Definition revoke_department_temporary_accesses (department actor : N) : M Db Z :=
  atomic (
    let! accesses := select_ordered db_temporary_accesses
      (λ _ a, N.eqb (ta_department a) department && negb (opt_true (ta_revoked_at a))) by_pk in
    for_each accesses (λ ' (access_id, row),
      _revoke_access access_id row "authority_revoked" (Some actor) None
        "temporary_station_access" true) ;;;
    ret (Z.of_nat (length accesses))).

Lemma mem_N_spec x l : mem_N x l = true ↔ x ∈ l.
Proof.
  unfold mem_N. rewrite existsb_exists. setoid_rewrite N.eqb_eq.
  setoid_rewrite <- list_elem_of_In. naive_solver.
Qed.

(** ** Queries *)

Lemma readonly_require_system_admin actor : readonly (require_system_admin actor).
Proof. unfold require_system_admin. preserve. Qed.

Lemma readonly_require_department_admin actor d : readonly (require_department_admin actor d).
Proof. unfold require_department_admin. preserve. Qed.

Lemma readonly_require_scope actor d x : readonly (require_scope actor d x).
Proof. unfold require_scope. preserve. Qed.

Lemma readonly_station_admin_station u : readonly (station_admin_station u).
Proof. unfold station_admin_station. preserve. Qed.

#[export] Hint Resolve readonly_require_system_admin
  readonly_require_department_admin
  readonly_require_scope
  readonly_station_admin_station : preserves.

Lemma readonly_require_publication_scope actor d x c :
  readonly (require_publication_scope actor d x c).
Proof. unfold require_publication_scope. preserve. Qed.

#[export] Hint Resolve readonly_require_publication_scope : preserves.
