(* ===== verification/ReportDocuments.v ===== *)
(** The report package of [report_transfer/]: the encrypted envelope and its contents
    ([contract.py]) and the document inside, with its digest ([documents.py]). *)
From Stdlib Require Import Ascii.
From S2P Require Import Prelude Text Encoding Models Registry Store Fingerprint.
From S2P Require Import Authorization ApplicationSecrets JsonText.

(** The libraries [cryptography] and [PIL], and the key ring file ([None]: it cannot be
    read).  [load_pem_private_key] is [None] when it raises or the key is not one of RSA;
    [image_open] gives the format and the size, [None] when it raises or warns. *)
Class ReportCrypto := {
  RsaPrivateKey : Type;
  load_pem_private_key : string → option RsaPrivateKey;
  key_size : RsaPrivateKey → Z;
  oaep_decrypt : RsaPrivateKey → string → option string;
  public_key_pem : RsaPrivateKey → string;
  report_keyring : option string;
  image_open : string → option (string * Z * Z);
  image_verify : string → bool;
  image_load : string → bool
}.

(** The settings [REPORT_TRANSFER_...] of [config/settings/base.py]. *)
Class ReportSettings := {
  REPORT_TRANSFER_ACTIVE_KEY : string;
  REPORT_TRANSFER_MAX_REQUEST_BYTES : Z;
  REPORT_TRANSFER_MAX_JSON_BYTES : Z;
  REPORT_TRANSFER_MAX_JPEG_BYTES : Z;
  REPORT_TRANSFER_MAX_ATTACHMENTS : Z;
  REPORT_TRANSFER_MAX_IMAGE_PIXELS : Z;
  REPORT_TRANSFER_RETENTION_HOURS : Z;
  REPORT_TRANSFER_MAILS_PER_MINUTE : Z;
  REPORT_TRANSFER_MAILS_PER_HOUR : Z;
  REPORT_TRANSFER_MAX_REPORTS : Z
}.

Definition transfer_error {A} (code : string) (status : Z) : M Db A :=
  raise (ETransfer code status) code.

(** [require]: the default [TransferError]. *)
Definition require (condition : bool) : M Db unit :=
  if condition then ret tt else transfer_error "invalid_package" 400.

(** A failure that [except ...: raise TransferError() from None] answers. *)
Definition or_invalid {A} (o : option A) : M Db A :=
  match o with Some a => ret a | None => transfer_error "invalid_package" 400 end.

(** ** Identifiers *)

(** [s.replace(p, "")]; [fuel] bounds the characters. *)
Fixpoint str_remove (fuel : nat) (p s : string) : string :=
  match fuel with
  | O => s
  | S fuel' =>
      match strip_prefix p s, s with
      | Some r, String _ _ => str_remove fuel' p r
      | _, String c s' => String c (str_remove fuel' p s')
      | _, EmptyString => ""
      end
  end.

Definition replace_all (p s : string) : string := str_remove (String.length s) p s.

Definition is_brace (c : ascii) : bool := (c =? "{")%char || (c =? "}")%char.

Fixpoint lstrip_braces (s : string) : string :=
  match s with
  | String c s' => if is_brace c then lstrip_braces s' else s
  | EmptyString => ""
  end.

Fixpoint rstrip_braces (s : string) : string :=
  match s with
  | String c s' =>
      let r := rstrip_braces s' in
      if is_brace c && String.eqb r "" then "" else String c r
  | EmptyString => ""
  end.

(** [int(s, 16)] *)
Definition read_hex (s : string) : option Z :=
  let s := str_strip s in
  let '(sign, digits) := match s with
                         | String c s' => if (c =? "-")%char then (-1, s')
                                          else if (c =? "+")%char then (1, s') else (1, s)
                         | EmptyString => (1, s)
                         end in
  let digits := match digits with
                | String z (String x t) =>
                    if (z =? "0")%char && ((x =? "x")%char || (x =? "X")%char) then
                      match t with
                      | String u t' => if (u =? "_")%char then t' else t
                      | EmptyString => t
                      end
                    else digits
                | _ => digits
                end in
  Z.mul sign <$> read_digits 16 false 0 digits.

(** [UUID(value)]; [None] is a [ValueError]. *)
Definition parse_uuid (value : string) : option N :=
  let hex := replace_all "-" (rstrip_braces (lstrip_braces
               (replace_all "uuid:" (replace_all "urn:" value)))) in
  if negb (Nat.eqb (String.length hex) 32) then None else
  match read_hex hex with
  | Some n => if (0 <=? n) && (n <? 2 ^ 128) then Some (Z.to_N n) else None
  | None => None
  end.

(** [identifier]: a UUID in its canonical form. *)
Definition identifier (value : json) : option N :=
  match value with
  | JStr v => match parse_uuid v with
              | Some n => if String.eqb (str_uuid n) v then Some n else None
              | None => None
              end
  | _ => None
  end.

Definition is_identifier (value : json) : bool := opt_true (identifier value).

(** ** The document *)

(** [shape] *)
Definition shape (value : json) (required optional : list string) : bool :=
  has_keys required value && forallb (λ k, mem_str k (required ++ optional)) (jkeys value).

(** The value of a key that [shape] has established. *)
Definition item (k : string) (value : json) : json := default JNull (jget k value).

(** The characters that [text] refuses: markup, and Unicode category C below U+0100. *)
Definition plain_char (c : ascii) : bool :=
  let n := nat_of_ascii c in
  negb ((c =? "<")%char || (c =? ">")%char)
  && (Nat.eqb n 10 || Nat.eqb n 9
      || negb (Nat.ltb n 32 || (Nat.leb 127 n && Nat.leb n 159) || Nat.eqb n 173)).

Definition text (maximum : Z) (empty : bool) (value : json) : bool :=
  match value with
  | JStr v => ((if empty then 0 else 1) <=? Z.of_nat (String.length v))
              && (Z.of_nat (String.length v) <=? maximum) && all_chars plain_char v
  | _ => false
  end.

(** [key]: one to 64 letters, digits, dots, underscores and hyphens. *)
Definition key_string (v : string) : bool :=
  str_true v && Nat.leb (String.length v) 64 && all_chars is_version_char v.

Definition key (value : json) : bool :=
  match value with JStr v => key_string v | _ => false end.

Definition sequence (value : json) (minimum maximum : Z) : bool :=
  match value with
  | JList l => (minimum <=? Z.of_nat (length l)) && (Z.of_nat (length l) <=? maximum)
  | _ => false
  end.

Definition elements (value : json) : list json := match value with JList l => l | _ => [] end.

Definition str_of (value : json) : string := match value with JStr s => s | _ => "" end.

(** [unique], on fields that are strings. *)
Definition unique (items : list json) (field : string) : bool :=
  bool_decide (NoDup (map (λ i, str_of (item field i)) items)).

(** *** Instants *)

Definition leap_year (y : Z) : bool :=
  (y mod 4 =? 0) && (negb (y mod 100 =? 0) || (y mod 400 =? 0)).

Definition days_in_month (y m : Z) : Z :=
  if m =? 2 then (if leap_year y then 29 else 28)
  else if (m =? 4) || (m =? 6) || (m =? 9) || (m =? 11) then 30 else 31.

Definition valid_date (y m d : Z) : bool :=
  (1 <=? y) && (1 <=? m) && (m <=? 12) && (1 <=? d) && (d <=? days_in_month y m).

(** [n] digits, their value and the rest. *)
Fixpoint take_digits (n : nat) (acc : Z) (s : string) : option (Z * string) :=
  match n, s with
  | O, _ => Some (acc, s)
  | S n', String c s' =>
      match digit_value 10 c with Some d => take_digits n' (acc * 10 + d) s' | None => None end
  | S _, EmptyString => None
  end.

(** A character, then [n] digits. *)
Definition after (c : ascii) (n : nat) (s : string) : option (Z * string) :=
  match s with
  | String c' s' => if (c' =? c)%char then take_digits n 0 s' else None
  | EmptyString => None
  end.

(** [\d{4}-\d{2}-\d{2}] *)
Definition scan_date (s : string) : option (Z * Z * Z * string) :=
  match take_digits 4 0 s with
  | Some (y, r1) =>
      match after "-" 2 r1 with
      | Some (m, r2) => match after "-" 2 r2 with Some (d, r3) => Some (y, m, d, r3) | None => None end
      | None => None
      end
  | None => None
  end.

(** [(\.\d{1,6})?], followed by a zone. *)
Definition skip_micros (s : string) : option string :=
  match s with
  | String c s' =>
      if (c =? ".")%char then
        let '(d, r) := span_digits s' in
        if str_true d && Nat.leb (String.length d) 6 then Some r else None
      else Some s
  | EmptyString => Some s
  end.

(** [(Z|[+-]\d{2}:\d{2})], an offset of less than a day. *)
Definition valid_zone (s : string) : bool :=
  String.eqb s "Z"
  || match s with
     | String c r =>
         ((c =? "+")%char || (c =? "-")%char)
         && match take_digits 2 0 r with
            | Some (h, r1) => match after ":" 2 r1 with
                              | Some (m, r2) => String.eqb r2 "" && (h * 3600 + m * 60 <? 86400)
                              | None => false
                              end
            | None => false
            end
     | EmptyString => false
     end.

(** [timestamp]: the regular expression and [datetime.fromisoformat]. *)
Definition timestamp_string (v : string) : bool :=
  match scan_date v with
  | Some (y, mo, d, r) =>
      match after "T" 2 r with
      | Some (h, r1) =>
          match after ":" 2 r1 with
          | Some (mi, r2) =>
              match after ":" 2 r2 with
              | Some (sec, r3) =>
                  match skip_micros r3 with
                  | Some zone => valid_date y mo d && (h <? 24) && (mi <? 60) && (sec <? 60)
                                 && valid_zone zone
                  | None => false
                  end
              | None => false
              end
          | None => false
          end
      | None => false
      end
  | None => false
  end.

Definition timestamp (value : json) : bool :=
  text 35 false value && timestamp_string (str_of value).

(** [date.fromisoformat(value).isoformat() == value] *)
Definition canonical_date (v : string) : bool :=
  match scan_date v with
  | Some (y, m, d, r) => String.eqb r "" && valid_date y m d
  | None => false
  end.

(** A sign, an integer without leading zeros and a fraction, all but the integer optional. *)
Definition canonical_decimal (v : string) : bool :=
  match scan_integer (scan_minus v).2 with
  | Some (_, r) => String.eqb (scan_fraction r).2 ""
  | None => false
  end.

(** [typed_value] *)
Definition typed_value (i : json) : bool :=
  shape i ["type"; "value"] []
  && let value := item "value" i in
     match item "type" i with
     | JStr kind =>
         if String.eqb kind "text" then text 4000 true value
         else if String.eqb kind "integer" then
           match value with JInt z => Z.abs z <=? 9007199254740991 | _ => false end
         else if String.eqb kind "decimal" then
           match value with
           | JStr v => Nat.leb (String.length v) 32 && canonical_decimal v | _ => false end
         else if String.eqb kind "boolean" then
           match value with JBool _ => true | _ => false end
         else if String.eqb kind "date" then text 10 false value && canonical_date (str_of value)
         else if String.eqb kind "datetime" then timestamp value
         else false
     | _ => false
     end.

(** [fields] *)
Definition fields (items : json) : bool :=
  sequence items 0 100
  && forallb (λ i, shape i ["key"; "label"; "value"] [] && key (item "key" i)
                   && text 200 false (item "label" i) && typed_value (item "value" i))
       (elements items)
  && unique (elements items) "key".

(** *** [validate_document] *)

(** The loop over the attachments; [None] when one is refused. *)
Fixpoint attachment_ids (l : list json) (ids : list string) : option (list string) :=
  match l with
  | [] => Some ids
  | a :: l' =>
      let id := str_of (item "id" a) in
      if shape a ["id"; "title"; "caption"] [] && is_identifier (item "id" a)
         && negb (mem_str id ids) && text 200 false (item "title" a)
         && text 2000 true (item "caption" a)
      then attachment_ids l' (ids ++ [id]) else None
  end.

Definition same_strings (l1 l2 : list string) : bool :=
  forallb (λ x, mem_str x l2) l1 && forallb (λ x, mem_str x l1) l2.

(** The rows of a table of [width] columns; [cells] counts those of the whole document. *)
Fixpoint table_rows (width : Z) (rows : list json) (cells : Z) : option Z :=
  match rows with
  | [] => Some cells
  | row :: rows' =>
      let cells := cells + Z.of_nat (length (elements row)) in
      if sequence row width width && (cells <=? 4000) && forallb typed_value (elements row)
      then table_rows width rows' cells else None
  end.

(** One block: what it adds to the cells, [None] when it is refused. *)
Definition block_cells (ids : list string) (block : json) (cells : Z) : option Z :=
  match item "kind" block with
  | JStr kind =>
      if String.eqb kind "text" then
        if shape block ["key"; "kind"; "text"] [] && text 20000 true (item "text" block)
        then Some cells else None
      else if String.eqb kind "fields" then
        if shape block ["key"; "kind"; "fields"] [] && fields (item "fields" block)
        then Some cells else None
      else if String.eqb kind "table" then
        let columns := item "columns" block in
        if shape block ["key"; "kind"; "columns"; "rows"] [] && sequence columns 1 8
           && forallb (λ c, shape c ["key"; "label"] [] && key (item "key" c)
                            && text 80 false (item "label" c)) (elements columns)
           && unique (elements columns) "key" && sequence (item "rows" block) 0 500
        then table_rows (Z.of_nat (length (elements columns))) (elements (item "rows" block)) cells
        else None
      else if String.eqb kind "attachment_refs" then
        let refs := item "attachment_ids" block in
        if shape block ["key"; "kind"; "attachment_ids"] [] && sequence refs 0 32
           && forallb (λ i, is_identifier i && mem_str (str_of i) ids) (elements refs)
           && bool_decide (NoDup (map str_of (elements refs)))
        then Some cells else None
      else None
  | _ => None
  end.

(** The blocks of a section, with the keys taken so far. *)
Fixpoint section_blocks (ids : list string) (blocks : list json) (keys : list string) (cells : Z) :
    option (list string * Z) :=
  match blocks with
  | [] => Some (keys, cells)
  | block :: blocks' =>
      let k := str_of (item "key" block) in
      if is_dict block && key (item "key" block) && negb (mem_str k keys) then
        match block_cells ids block cells with
        | Some cells => section_blocks ids blocks' (keys ++ [k]) cells
        | None => None
        end
      else None
  end.

(** The sections; [total] counts the blocks. *)
Fixpoint sections_valid (ids : list string) (sections : list json) (keys : list string)
    (total cells : Z) : bool :=
  match sections with
  | [] => true
  | sect :: sections' =>
      let k := str_of (item "key" sect) in
      let blocks := item "blocks" sect in
      let total := total + Z.of_nat (length (elements blocks)) in
      shape sect ["key"; "title"; "blocks"] [] && key (item "key" sect)
      && text 200 false (item "title" sect) && negb (mem_str k keys) && sequence blocks 0 50
      && (total <=? 200)
      && match section_blocks ids (elements blocks) (keys ++ [k]) cells with
         | Some (keys, cells) => sections_valid ids sections' keys total cells
         | None => false
         end
  end.

Definition finalization_valid (ids : list string) (f : json) : bool :=
  let author := item "author" f in
  shape f ["author"; "finalized_at"] ["signature_attachment_id"]
  && shape author ["id"; "display_name"] []
  && text 128 false (item "id" author) && text 160 false (item "display_name" author)
  && timestamp (item "finalized_at" f)
  && match jget "signature_attachment_id" f with
     | Some i => is_identifier i && mem_str (str_of i) ids
     | None => true
     end.

(** [attachment_hashes] pairs the identifiers with their digests. *)
Definition validate_document (document report_id : json) (attachment_hashes : list (string * json)) :
    bool :=
  shape document ["report_id"; "schema_version"; "report_type"; "title"; "header"; "sections";
    "attachments"; "finalization"] []
  && match identifier report_id, item "report_id" document with
     | Some n, JStr v => String.eqb v (str_uuid n)
     | _, _ => false
     end
  && match item "schema_version" document with JInt z => z =? 1 | _ => false end
  && text 80 false (item "report_type" document) && text 200 false (item "title" document)
  && fields (item "header" document) && sequence (item "attachments" document) 0 32
  && match attachment_ids (elements (item "attachments" document)) [] with
     | Some ids =>
         same_strings ids attachment_hashes.*1
         && forallb (λ h, match h.2 with JStr d => sha256_canonical d | _ => false end)
              attachment_hashes
         && sequence (item "sections" document) 0 50
         && sections_valid ids (elements (item "sections" document)) [] 0 0
         && finalization_valid ids (item "finalization" document)
         && (Z.of_nat (String.length (json_dumps document)) <=? 1024 * 1024)
     | None => false
     end.

Section contract.
Context `{Hash, Floats, Aesgcm, ReportCrypto, ReportSettings}.

Definition document_digest (document : json) (attachment_hashes : list (string * json)) :
    M Db string :=
  require (is_dict document) ;;;
  require (validate_document document (item "report_id" document) attachment_hashes) ;;;
  ret (sha256_hex (json_dumps (JObj [
    ("profile", JStr "firedash-report-document-sha256-v1");
    ("document", document);
    ("attachments", JList (map (λ h, JObj [("id", JStr h.1); ("sha256", h.2)])
       (sort_by fst attachment_hashes)))]))).

(** ** The envelope *)

Definition parse_json (raw : string) : M Db json := or_invalid (parse_bytes raw).

(** [decode] *)
Definition decode (value : json) : M Db string :=
  match value with
  | JStr v =>
      require (str_true v && all_chars is_b64url_char v) ;;;
      let! raw := or_invalid (b64url_decode v) in
      require (String.eqb (b64url_encode raw) v) ;;;
      ret raw
  | _ => transfer_error "invalid_package" 400
  end.

(** The keys of the ring; every failure is [report_keys_unavailable]. *)
Definition keyring_entry (e : string * json) : option (string * RsaPrivateKey) :=
  if negb (key_string e.1) then None else
  match e.2 with
  | JStr pem =>
      if negb (below_128 pem) then None else
      match load_pem_private_key pem with
      | Some k => if 3072 <=? key_size k then Some (e.1, k) else None
      | None => None
      end
  | _ => None
  end.

Definition loaded_keys : option (list (string * RsaPrivateKey)) :=
  match report_keyring ≫= parse_bytes with
  | Some document =>
      if keys_are ["keys"] document then
        match item "keys" document with
        | JObj entries =>
            match mapM keyring_entry entries with
            | Some keys => if mem_str REPORT_TRANSFER_ACTIVE_KEY keys.*1 then Some keys else None
            | None => None
            end
        | _ => None
        end
      else None
  | None => None
  end.

Definition private_keys : M Db (list (string * RsaPrivateKey)) :=
  match loaded_keys with
  | Some keys => ret keys
  | None => transfer_error "report_keys_unavailable" 503
  end.

Definition configuration : json :=
  match loaded_keys with
  | Some keys =>
      match assoc REPORT_TRANSFER_ACTIVE_KEY keys with
      | Some k => JObj [
          ("version", JInt 1); ("enabled", JBool true); ("kid", JStr REPORT_TRANSFER_ACTIVE_KEY);
          ("alg", JStr "RSA-OAEP-256"); ("enc", JStr "A256GCM");
          ("public_key_pem", JStr (public_key_pem k));
          ("max_request_bytes", JInt REPORT_TRANSFER_MAX_REQUEST_BYTES);
          ("max_json_bytes", JInt REPORT_TRANSFER_MAX_JSON_BYTES);
          ("max_jpeg_bytes", JInt REPORT_TRANSFER_MAX_JPEG_BYTES);
          ("max_attachments", JInt REPORT_TRANSFER_MAX_ATTACHMENTS);
          ("max_image_pixels", JInt REPORT_TRANSFER_MAX_IMAGE_PIXELS);
          ("document_schema_versions", JList [JInt 1]);
          ("retention_max_hours", JInt (Z.min REPORT_TRANSFER_RETENTION_HOURS 168));
          ("retention_after_download_hours", JInt 48)]
      | None => JObj [("version", JInt 1); ("enabled", JBool false)]
      end
  | None => JObj [("version", JInt 1); ("enabled", JBool false)]
  end.

Definition HEADER_FIELDS : list string :=
  ["typ"; "alg"; "enc"; "kid"; "package_version"; "schema_version"; "submission_id"; "report_id";
   "recipient_personnel_id"; "installation_id"; "department_id"; "station_id"].

Definition JWE_FIELDS : list string := ["protected"; "encrypted_key"; "iv"; "ciphertext"; "tag"].

Definition is_str (value : json) : bool := match value with JStr _ => true | _ => false end.

Definition str_is (k expected : string) (value : json) : bool :=
  match item k value with JStr s => String.eqb s expected | _ => false end.

Definition header_valid (header : json) : bool :=
  keys_are HEADER_FIELDS header
  && str_is "typ" "firedash-report+jwe" header && str_is "alg" "RSA-OAEP-256" header
  && str_is "enc" "A256GCM" header
  && match item "package_version" header with JInt z => z =? 1 | _ => false end
  && str_is "schema_version" "transport-json-v1" header
  && key (item "kid" header)
  && forallb (λ f, is_identifier (item f header))
       ["submission_id"; "report_id"; "recipient_personnel_id"; "installation_id";
        "department_id"; "station_id"].

Definition inspect_envelope (envelope : json) : M Db json :=
  require (keys_are JWE_FIELDS envelope) ;;;
  require (forallb (λ f, is_str (item f envelope)) JWE_FIELDS) ;;;
  require (Nat.leb (String.length (str_of (item "protected" envelope))) 4096) ;;;
  let! raw := decode (item "protected" envelope) in
  let! header := parse_json raw in
  require (header_valid header) ;;;
  ret header.

(** ** The package *)

Definition _content (i : json) (limit : Z) (names : list string) : M Db string :=
  require (keys_are names i) ;;;
  match item "size" i with
  | JInt size =>
      require ((0 <? size) && (size <=? limit)) ;;;
      require (is_str (item "data" i)
               && (Z.of_nat (String.length (str_of (item "data" i))) <=? (limit + 2) / 3 * 4)) ;;;
      let! raw := decode (item "data" i) in
      require ((Z.of_nat (String.length raw) =? size) && str_is "sha256" (sha256_hex raw) i) ;;;
      ret raw
  | _ => transfer_error "invalid_package" 400
  end.

Fixpoint ends_with (suffix s : string) : bool :=
  String.eqb s suffix || match s with String _ s' => ends_with suffix s' | EmptyString => false end.

Definition JPEG_START : string := String (ascii_of_nat 255) (String (ascii_of_nat 216) "").
Definition JPEG_END : string := String (ascii_of_nat 255) (String (ascii_of_nat 217) "").

Definition _jpeg (raw : string) : M Db unit :=
  match image_open raw with
  | Some (format, width, height) =>
      require (String.eqb format "JPEG"
               && (width * height <=? REPORT_TRANSFER_MAX_IMAGE_PIXELS)) ;;;
      require (image_verify raw) ;;;
      require (image_load raw) ;;;
      require (opt_true (strip_prefix JPEG_START raw) && ends_with JPEG_END raw)
  | None => transfer_error "invalid_package" 400
  end.

(** The loop over the attachments, with the identities seen. *)
Definition check_attachment (header : json) (seen : list N) (i : json) : M Db (list N) :=
  let! raw := _content i REPORT_TRANSFER_MAX_JPEG_BYTES
    ["id"; "report_id"; "media_type"; "size"; "sha256"; "data"] in
  let! identity := or_invalid (identifier (item "id" i)) in
  require (negb (mem_N identity seen)
           && str_is "report_id" (str_of (item "report_id" header)) i
           && str_is "media_type" "image/jpeg" i) ;;;
  _jpeg raw ;;;
  ret (seen ++ [identity]).

Definition unwrap_package (k : RsaPrivateKey) (envelope : json) : M Db string :=
  let! wrapped := decode (item "encrypted_key" envelope) in
  let! iv := decode (item "iv" envelope) in
  let! ciphertext := decode (item "ciphertext" envelope) in
  let! tag := decode (item "tag" envelope) in
  require ((Z.of_nat (String.length wrapped) =? key_size k / 8) && Nat.eqb (String.length iv) 12
           && Nat.eqb (String.length tag) 16) ;;;
  let! cek := or_invalid (oaep_decrypt k wrapped) in
  require (Nat.eqb (String.length cek) 32) ;;;
  or_invalid (aesgcm_decrypt cek iv (ciphertext +:+ tag) (str_of (item "protected" envelope))).

(** The document, the attachments and the digest. *)
Definition decrypt_and_validate (envelope header : json) : M Db (json * list json * string) :=
  let! keys := private_keys in
  match assoc (str_of (item "kid" header)) keys with
  | None => transfer_error "unknown_report_key" 400
  | Some k =>
      let! plaintext := unwrap_package k envelope in
      let! package := parse_json plaintext in
      require (keys_are ["report"; "attachments"] package) ;;;
      let! report := _content (item "report" package) REPORT_TRANSFER_MAX_JSON_BYTES
        ["data"; "size"; "sha256"; "attachment_ids"] in
      let! document := parse_json report in
      require (is_dict document) ;;;
      match item "attachments" package, item "attachment_ids" (item "report" package) with
      | JList attachments, JList references =>
          require (Z.of_nat (length attachments) <=? REPORT_TRANSFER_MAX_ATTACHMENTS) ;;;
          require (Nat.eqb (length references) (length attachments)) ;;;
          let! seen := fold_m (check_attachment header) [] attachments in
          let! ids := or_invalid (mapM identifier references) in
          require (bool_decide (NoDup ids)) ;;;
          require (forallb (λ i, mem_N i seen) ids && forallb (λ i, mem_N i ids) seen) ;;;
          let! digest := document_digest document
            (map (λ i, (str_of (item "id" i), item "sha256" i)) attachments) in
          require (str_is "report_id" (str_of (item "report_id" header)) document) ;;;
          ret (document, attachments, digest)
      | _, _ => transfer_error "invalid_package" 400
      end
  end.
End contract.
