(* ===== verification/Versions.v ===== *)
(** Application versions, [apps/tablets/versions.py]: parsing, printing and
    comparing the version and the build number a tablet reports. *)
From Stdlib Require Import Ascii.
From S2P Require Import Prelude Text.

Definition _MAX_COMPONENT : Z := 2147483647.
Definition _MAX_BUILD : Z := 9223372036854775807.

(** [AppVersion] *)
Record AppVersion := mkAppVersion { av_major : Z; av_minor : Z; av_patch : Z }.

(** [AppVersion.__str__] *)
Definition str_app_version (v : AppVersion) : string :=
  pretty (av_major v) +:+ "." +:+ pretty (av_minor v) +:+ "." +:+ pretty (av_patch v).

(** [<] of the ordered dataclass: its fields compared as a tuple. *)
Definition app_version_lt (v w : AppVersion) : bool :=
  (av_major v <? av_major w) ||
  (av_major v =? av_major w) && (
    (av_minor v <? av_minor w) ||
    (av_minor v =? av_minor w) && (av_patch v <? av_patch w)).

(** [_VERSION_RE.fullmatch]: three canonical numbers separated by dots. *)
Definition match_version (value : string) : option (string * string * string) :=
  match str_split "." value with
  | [a; b; c] =>
      if canonical_number a && canonical_number b && canonical_number c
      then Some (a, b, c) else None
  | _ => None
  end.

(** [int(part)] *)
Definition int_of_str {S} (s : string) : M S Z :=
  get_or_raise (read_int s) EValue "invalid literal for int()".

Definition parse_app_version {S} (value : string) : M S AppVersion :=
  match match_version value with
  | None => raise EAppVersion "App version must be MAJOR.MINOR.PATCH."
  | Some (a, b, c) =>
      let! major := int_of_str a in
      let! minor := int_of_str b in
      let! patch := int_of_str c in
      guard (negb (existsb (Z.ltb _MAX_COMPONENT) [major; minor; patch])) EAppVersion
        "App version component is too large." ;;;
      ret (mkAppVersion major minor patch)
  end.

(** What [parse_app_build] accepts: [str | int]. *)
Inductive BuildValue := BuildInt (z : Z) | BuildStr (s : string).

(** [str(value)] and [int(value)]; [int] fails with a [ValueError]. *)
Definition str_build (value : BuildValue) : string :=
  match value with BuildInt z => pretty z | BuildStr s => s end.

Definition int_build (value : BuildValue) : option Z :=
  match value with BuildInt z => Some z | BuildStr s => read_int s end.

Definition parse_app_build {S} (value : BuildValue) : M S Z :=
  let! build := get_or_raise (int_build value) EAppVersion
    "App build must be a positive integer." in
  guard (String.eqb (str_build value) (pretty build) && (1 <=? build) && (build <=? _MAX_BUILD))
    EAppVersion "App build must be a positive integer." ;;;
  ret build.

(** ** Parsing inverts printing *)

Definition component_ok (z : Z) : Prop := 0 ≤ z ≤ _MAX_COMPONENT.

Definition version_ok (v : AppVersion) : Prop :=
  component_ok (av_major v) ∧ component_ok (av_minor v) ∧ component_ok (av_patch v).

Lemma read_int_bounded (z : Z) : 0 ≤ z ≤ _MAX_BUILD → read_int (pretty z) = Some z.
Proof.
  unfold _MAX_BUILD. intros Hz. apply read_int_pretty; [lia|].
  trans 19; [|unfold MAX_STR_DIGITS; lia].
  rewrite <- (Z2N.id z), pretty_Z_N by lia. apply (count_digits_pretty 19); [lia|].
  change (10 ^ N.of_nat 19)%N with 10000000000000000000%N. lia.
Qed.

Lemma canonical_pretty (z : Z) : 0 ≤ z → canonical_number (pretty z) = true.
Proof.
  intros Hz. rewrite <- (Z2N.id z), pretty_Z_N by exact Hz. apply canonical_number_pretty.
Qed.

Lemma match_version_Some value a b c :
  match_version value = Some (a, b, c) ↔
  value = a +:+ "." +:+ b +:+ "." +:+ c
    ∧ canonical_number a = true ∧ canonical_number b = true ∧ canonical_number c = true.
Proof.
  unfold match_version. split.
  - destruct (str_split "." value) as [|x [|y [|z [|? ?]]]] eqn:E; try discriminate.
    destruct (canonical_number x) eqn:Hx, (canonical_number y) eqn:Hy,
      (canonical_number z) eqn:Hz; try discriminate.
    intros [= <- <- <-]. apply str_split_cons in E as (t & -> & E).
    apply str_split_cons in E as (u & -> & E). apply str_split_cons in E. subst u. auto.
  - intros (-> & Ha & Hb & Hc). pose proof (λ s H, digits_nomem s (canonical_digits s H)) as HN.
    assert (E : str_split "." (a +:+ "." +:+ b +:+ "." +:+ c) = [a; b; c]).
    { etrans; [exact (str_split_app "." a _ (HN a Ha))|]. f_equal.
      etrans; [exact (str_split_app "." b _ (HN b Hb))|]. f_equal.
      apply str_split_nomem, HN, Hc. }
    rewrite E, Ha, Hb, Hc. done.
Qed.

(** A text is accepted as an app version exactly when it is what the version prints,
    three numbers without leading zeros that fit in 31 bits; reading and printing are
    inverse, and reading leaves the store alone. *)
Theorem app_version_roundtrip {S} (value : string) (v : AppVersion) (s s' : S) :
  parse_app_version value s = (Val v, s') ↔
  s' = s ∧ value = str_app_version v ∧ version_ok v.
Proof.
  unfold parse_app_version, version_ok, component_ok. split.
  - destruct (match_version value) as [[[a b] c]|] eqn:E; [|discriminate].
    apply match_version_Some in E as (-> & Ha & Hb & Hc). unfold int_of_str.
    destruct (read_int a) as [x|] eqn:Ea; [|discriminate].
    destruct (read_int b) as [y|] eqn:Eb; [|discriminate].
    destruct (read_int c) as [z|] eqn:Ec; [|discriminate].
    apply read_int_canonical in Ea as [-> ?], Eb as [-> ?], Ec as [-> ?]; try assumption.
    unfold get_or_raise, bind, ret, guard.
    destruct (negb (existsb _ _)) eqn:E; [|discriminate]. apply negb_true_iff in E.
    intros [= <- <-]. simpl in *. rewrite !orb_false_iff in E. split_and!; try done; lia.
  - intros (-> & -> & Hx & Hy & Hz). destruct v as [x y z]. simpl in *.
    assert (E : match_version (str_app_version (mkAppVersion x y z)) =
        Some (pretty x, pretty y, pretty z)).
    { apply match_version_Some. split_and!; first [reflexivity|apply canonical_pretty; lia]. }
    rewrite E. unfold int_of_str. unfold _MAX_COMPONENT in *.
    rewrite !read_int_bounded by (unfold _MAX_BUILD; lia).
    unfold get_or_raise, bind, ret, guard, existsb, _MAX_COMPONENT.
    destruct (Z.ltb_spec 2147483647 x), (Z.ltb_spec 2147483647 y), (Z.ltb_spec 2147483647 z);
      first [reflexivity|lia].
Qed.

(** A build number is accepted when it is written the way it prints. *)
Theorem app_build_roundtrip {S} (value : BuildValue) (b : Z) (s s' : S) :
  parse_app_build value s = (Val b, s') ↔
  s' = s ∧ str_build value = pretty b ∧ 1 ≤ b ≤ _MAX_BUILD.
Proof.
  unfold parse_app_build. split.
  - destruct (int_build value) as [z|]; [|discriminate].
    unfold get_or_raise, bind, ret, guard.
    destruct (_ && _ && _) eqn:E; [|discriminate].
    intros [= <- <-]. rewrite !andb_true_iff, String.eqb_eq in E. split_and!; try tauto; lia.
  - intros (-> & E & Hb). assert (Ev : int_build value = Some b).
    { destruct value as [z|x]; simpl in *.
      - apply (inj pretty) in E. congruence.
      - subst x. apply read_int_bounded. lia. }
    rewrite Ev, E. unfold get_or_raise, bind, ret, guard. rewrite String.eqb_refl.
    destruct (Z.leb_spec 1 b), (Z.leb_spec b _MAX_BUILD); first [reflexivity|lia].
Qed.
