(* ===== verification/Lifecycle.v ===== *)
(** The publication lifecycle as an abstract machine: what the scopes, the
    attempts and the build jobs promise to each other, without payloads,
    timestamps, grants or artifacts.

    A [View] keeps the columns the promise is about.  [lstep] is the complete
    list of the moves the services may make, [Inv] the invariant, and
    [Inv_step] the rule induction step.  The files [QueueSim] and [AdminSim]
    show that every service of the program moves by [lstep]s only. *)
From S2P Require Import Prelude Models Registry.

(** The identity of a scope: its type, its department, its station and its
    dataset. *)
Definition Owner : Type := string * option N * option N * string.

(** The registry accepts the owner. *)
Definition owner_ok (o : Owner) : bool :=
  let '(scope_type, department, station, dataset_type_code) := o in
  match validate_dataset_scope dataset_type_code (Some scope_type) department station tt with
  | (Val _, _) => true
  | (Exc _, _) => false
  end.

Record ScopeView := mkSV {
  sv_owner : Owner;
  sv_current : option N;
  sv_latest : option N
}.

Record PubView := mkPV {
  pv_owner : Owner;
  pv_scope : N;
  pv_version : Z;
  pv_status : PubStatus;
  pv_ready : bool
}.

Record JobView := mkJV {
  jv_owner : Owner;
  jv_scope : N;
  jv_status : JobStatus;
  jv_build : option N
}.

Record View := mkView {
  v_scopes : gmap N ScopeView;
  v_pubs : gmap N PubView;
  v_jobs : gmap N JobView
}.

(** ** The view of a store *)

Definition scope_view (sc : DatasetScopeState) : ScopeView :=
  mkSV (sc_scope_type sc, sc_department sc, sc_station sc, sc_dataset_type_code sc)
    (sc_current_published_publication sc) (sc_latest_built_publication sc).

Definition pub_view (p : DatasetPublication) : PubView :=
  mkPV (pub_scope_type p, pub_department p, pub_station p, pub_dataset_type_code p)
    (pub_scope_state p) (pub_version_number p) (pub_status p)
    (bool_decide (pub_artifact_status p = ARTIFACT_READY) && pub_artifact_ready p).

Definition job_view (j : PublicationJob) : JobView :=
  mkJV (job_scope_type j, job_department j, job_station j, job_dataset_type_code j)
    (job_scope_state j) (job_status j) (job_build_publication j).

Definition view (s : Db) : View :=
  mkView (scope_view <$> db_scopes s) (pub_view <$> db_publications s)
    (job_view <$> db_jobs s).

(** ** Classes of statuses *)

Definition active_status (st : JobStatus) : bool :=
  match st with JOB_PENDING | JOB_RUNNING => true | _ => false end.

(** A job that will never run again, without having published. *)
Definition dead_job_status (st : JobStatus) : bool :=
  match st with JOB_FAILED | JOB_OBSOLETE | JOB_CANCELLED => true | _ => false end.

(** An attempt that was built and never became current. *)
Definition dead_pub_status (st : PubStatus) : bool :=
  match st with PUB_FAILED | PUB_OBSOLETE | PUB_CANCELLED => true | _ => false end.

(** A finished attempt whose signed artifact is still kept. *)
Definition retained_status (st : PubStatus) : bool :=
  match st with PUBLISHED | SUPERSEDED | READY_FOR_REVIEW | REJECTED => true | _ => false end.

Definition ready_status (st : PubStatus) : bool :=
  match st with PUBLISHED | SUPERSEDED | READY_FOR_REVIEW => true | _ => false end.

Definition no_active_job (V : View) (c : N) : Prop :=
  ∀ j jv, v_jobs V !! j = Some jv → jv_scope jv = c → active_status (jv_status jv) = false.

Definition fresh_version (V : View) (c : N) (ver : Z) : Prop :=
  1 ≤ ver ∧ ∀ p pv, v_pubs V !! p = Some pv → pv_scope pv = c → pv_version pv < ver.

(** A row after its status has changed. *)
Definition pub_to (st : PubStatus) (pv : PubView) : PubView :=
  mkPV (pv_owner pv) (pv_scope pv) (pv_version pv) st (pv_ready pv).

Definition job_to (st : JobStatus) (jv : JobView) : JobView :=
  mkJV (jv_owner jv) (jv_scope jv) st (jv_build jv).

Definition job_claimed (p : N) (jv : JobView) : JobView :=
  mkJV (jv_owner jv) (jv_scope jv) JOB_RUNNING (Some p).

Definition job_requeued (jv : JobView) : JobView :=
  mkJV (jv_owner jv) (jv_scope jv) JOB_PENDING None.

Definition pub_done (st : PubStatus) (ready : bool) (pv : PubView) : PubView :=
  mkPV (pv_owner pv) (pv_scope pv) (pv_version pv) st ready.

(** The publications after the current one of a scope has given way. *)
Definition superseded (current : option N) (pubs : gmap N PubView) : gmap N PubView :=
  match current with
  | Some c =>
      match pubs !! c with
      | Some pv => <[c := pub_to SUPERSEDED pv]> pubs
      | None => pubs
      end
  | None => pubs
  end.

(** ** The moves *)
Inductive lstep (V : View) : View → Prop :=
(** A scope is initialized. *)
| ls_scope c owner :
    v_scopes V !! c = None → owner_ok owner = true →
    (∀ c' sv, v_scopes V !! c' = Some sv → sv_owner sv ≠ owner) →
    lstep V (mkView (<[c := mkSV owner None None]> (v_scopes V)) (v_pubs V) (v_jobs V))
(** A job is queued together with its staged attempt. *)
| ls_enqueue c sv j p ver ready :
    v_scopes V !! c = Some sv → no_active_job V c →
    v_jobs V !! j = None → v_pubs V !! p = None → fresh_version V c ver →
    lstep V (mkView (v_scopes V)
      (<[p := mkPV (sv_owner sv) c ver STAGED ready]> (v_pubs V))
      (<[j := mkJV (sv_owner sv) c JOB_PENDING (Some p)]> (v_jobs V)))
(** A pending job is cancelled with its staged attempt. *)
| ls_cancel_staged j jv p pv :
    v_jobs V !! j = Some jv → jv_status jv = JOB_PENDING → jv_build jv = Some p →
    v_pubs V !! p = Some pv →
    lstep V (mkView (v_scopes V)
      (<[p := pub_to PUB_CANCELLED pv]> (v_pubs V))
      (<[j := job_to JOB_CANCELLED jv]> (v_jobs V)))
(** A pending job that owns no attempt is cancelled. *)
| ls_cancel_pending j jv :
    v_jobs V !! j = Some jv → jv_status jv = JOB_PENDING → jv_build jv = None →
    lstep V (mkView (v_scopes V) (v_pubs V)
      (<[j := job_to JOB_CANCELLED jv]> (v_jobs V)))
(** A worker claims a job: its staged attempt freezes. *)
| ls_claim j jv p pv :
    v_jobs V !! j = Some jv → jv_status jv = JOB_PENDING → jv_build jv = Some p →
    v_pubs V !! p = Some pv →
    lstep V (mkView (v_scopes V)
      (<[p := pub_to BUILDING pv]> (v_pubs V))
      (<[j := job_claimed p jv]> (v_jobs V)))
(** A worker claims a job without an attempt and allocates one. *)
| ls_claim_new j jv p ver ready :
    v_jobs V !! j = Some jv → jv_status jv = JOB_PENDING → jv_build jv = None →
    v_pubs V !! p = None → fresh_version V (jv_scope jv) ver →
    lstep V (mkView (v_scopes V)
      (<[p := mkPV (jv_owner jv) (jv_scope jv) ver BUILDING ready]> (v_pubs V))
      (<[j := job_claimed p jv]> (v_jobs V)))
(** A running build ends without publishing. *)
| ls_end j jv p pv stj stp ready :
    v_jobs V !! j = Some jv → jv_status jv = JOB_RUNNING → jv_build jv = Some p →
    v_pubs V !! p = Some pv → dead_job_status stj = true → dead_pub_status stp = true →
    lstep V (mkView (v_scopes V)
      (<[p := pub_done stp ready pv]> (v_pubs V))
      (<[j := job_to stj jv]> (v_jobs V)))
(** A lost build goes back to the queue; its attempt has failed. *)
| ls_retry j jv p pv :
    v_jobs V !! j = Some jv → jv_status jv = JOB_RUNNING → jv_build jv = Some p →
    v_pubs V !! p = Some pv →
    lstep V (mkView (v_scopes V)
      (<[p := pub_to PUB_FAILED pv]> (v_pubs V))
      (<[j := job_requeued jv]> (v_jobs V)))
(** A running build publishes its attempt. *)
| ls_publish j jv p pv sv :
    v_jobs V !! j = Some jv → jv_status jv = JOB_RUNNING → jv_build jv = Some p →
    v_pubs V !! p = Some pv → v_scopes V !! pv_scope pv = Some sv →
    lstep V (mkView
      (<[pv_scope pv := mkSV (sv_owner sv) (Some p) (Some p)]> (v_scopes V))
      (<[p := pub_done PUBLISHED true pv]>
         (superseded (sv_current sv) (v_pubs V)))
      (<[j := job_to JOB_SUCCEEDED jv]> (v_jobs V)))
(** An administrator makes a finished attempt current. *)
| ls_activate p pv sv :
    v_pubs V !! p = Some pv →
    pv_status pv = SUPERSEDED ∨ pv_status pv = READY_FOR_REVIEW →
    v_scopes V !! pv_scope pv = Some sv →
    lstep V (mkView
      (<[pv_scope pv := mkSV (sv_owner sv) (Some p) (sv_latest sv)]> (v_scopes V))
      (<[p := pub_to PUBLISHED pv]>
         (superseded (sv_current sv) (v_pubs V)))
      (v_jobs V))
(** A superseded publication is retired for good. *)
| ls_retire p pv sv :
    v_pubs V !! p = Some pv → pv_status pv = SUPERSEDED →
    v_scopes V !! pv_scope pv = Some sv →
    lstep V (mkView
      (<[pv_scope pv := mkSV (sv_owner sv) (sv_current sv)
           (if bool_decide (sv_latest sv = Some p) then sv_current sv else sv_latest sv)]>
         (v_scopes V))
      (<[p := pub_to PUB_OBSOLETE pv]> (v_pubs V))
      (v_jobs V))
(** A publication under review is rejected. *)
| ls_reject p pv :
    v_pubs V !! p = Some pv → pv_status pv = READY_FOR_REVIEW →
    lstep V (mkView (v_scopes V)
      (<[p := pub_to REJECTED pv]> (v_pubs V))
      (v_jobs V)).

(** ** The invariant *)
Record Inv (V : View) : Prop := {
  inv_owner_ok : ∀ c sv, v_scopes V !! c = Some sv → owner_ok (sv_owner sv) = true;
  inv_owner : ∀ c1 c2 x y, v_scopes V !! c1 = Some x → v_scopes V !! c2 = Some y →
    sv_owner x = sv_owner y → c1 = c2;
  inv_pub_scope : ∀ p pv, v_pubs V !! p = Some pv →
    ∃ sv, v_scopes V !! pv_scope pv = Some sv ∧ sv_owner sv = pv_owner pv;
  inv_job_scope : ∀ j jv, v_jobs V !! j = Some jv →
    ∃ sv, v_scopes V !! jv_scope jv = Some sv ∧ sv_owner sv = jv_owner jv;
  inv_current : ∀ c sv p, v_scopes V !! c = Some sv → sv_current sv = Some p →
    ∃ pv, v_pubs V !! p = Some pv ∧ pv_scope pv = c ∧ pv_status pv = PUBLISHED;
  inv_published : ∀ p pv sv, v_pubs V !! p = Some pv → pv_status pv = PUBLISHED →
    v_scopes V !! pv_scope pv = Some sv → sv_current sv = Some p;
  inv_latest : ∀ c sv p, v_scopes V !! c = Some sv → sv_latest sv = Some p →
    ∃ pv, v_pubs V !! p = Some pv ∧ pv_scope pv = c ∧ retained_status (pv_status pv) = true;
  inv_active : ∀ j1 j2 x y, v_jobs V !! j1 = Some x → v_jobs V !! j2 = Some y →
    active_status (jv_status x) = true → active_status (jv_status y) = true →
    jv_scope x = jv_scope y → j1 = j2;
  inv_link : ∀ j1 j2 x y p, v_jobs V !! j1 = Some x → v_jobs V !! j2 = Some y →
    jv_build x = Some p → jv_build y = Some p → j1 = j2;
  inv_build : ∀ j jv p, v_jobs V !! j = Some jv → jv_build jv = Some p →
    ∃ pv, v_pubs V !! p = Some pv ∧ pv_scope pv = jv_scope jv;
  inv_running : ∀ j jv, v_jobs V !! j = Some jv → jv_status jv = JOB_RUNNING →
    ∃ p pv, jv_build jv = Some p ∧ v_pubs V !! p = Some pv ∧ pv_status pv = BUILDING;
  inv_pending : ∀ j jv p pv, v_jobs V !! j = Some jv → jv_status jv = JOB_PENDING →
    jv_build jv = Some p → v_pubs V !! p = Some pv → pv_status pv = STAGED;
  inv_building : ∀ p pv, v_pubs V !! p = Some pv → pv_status pv = BUILDING →
    ∃ j jv, v_jobs V !! j = Some jv ∧ jv_status jv = JOB_RUNNING ∧ jv_build jv = Some p;
  inv_staged : ∀ p pv, v_pubs V !! p = Some pv → pv_status pv = STAGED →
    ∃ j jv, v_jobs V !! j = Some jv ∧ jv_status jv = JOB_PENDING ∧ jv_build jv = Some p;
  inv_version : ∀ p1 p2 x y, v_pubs V !! p1 = Some x → v_pubs V !! p2 = Some y →
    pv_scope x = pv_scope y → pv_version x = pv_version y → p1 = p2;
  inv_version_pos : ∀ p pv, v_pubs V !! p = Some pv → 1 ≤ pv_version pv;
  inv_ready : ∀ p pv, v_pubs V !! p = Some pv → ready_status (pv_status pv) = true →
    pv_ready pv = true
}.

(** An attempt may only change its status along these edges. *)
Definition status_edge (a b : PubStatus) : bool :=
  bool_decide (a = b) ||
  match a, b with
  | STAGED, (BUILDING | PUB_CANCELLED) => true
  | BUILDING, (PUBLISHED | PUB_FAILED | PUB_OBSOLETE | PUB_CANCELLED) => true
  | READY_FOR_REVIEW, (PUBLISHED | REJECTED) => true
  | PUBLISHED, SUPERSEDED => true
  | SUPERSEDED, (PUBLISHED | PUB_OBSOLETE) => true
  | _, _ => false
  end.

(** An attempt that has reached one of these statuses keeps it for ever. *)
Definition final_status (st : PubStatus) : bool :=
  match st with PUB_FAILED | REJECTED | PUB_OBSOLETE | PUB_CANCELLED => true | _ => false end.

(** An attempt whose build is over. *)
Definition past_status (st : PubStatus) : bool :=
  match st with STAGED | BUILDING => false | _ => true end.

(** The attempt that a running job was building is over. *)
Definition job_quit (j : N) (V V' : View) : Prop :=
  ∀ jv p, v_jobs V !! j = Some jv → jv_status jv = JOB_RUNNING → jv_build jv = Some p →
    ∃ pv, v_pubs V' !! p = Some pv ∧ past_status (pv_status pv) = true.

(** What every later view says of an attempt. *)
Definition continues (pv pv' : PubView) : Prop :=
  pv_owner pv' = pv_owner pv ∧ pv_scope pv' = pv_scope pv ∧ pv_version pv' = pv_version pv
  ∧ rtc (λ a b, status_edge a b = true) (pv_status pv) (pv_status pv').

(** ** Lookups after a move *)

Lemma superseded_Some current m p pv :
  superseded current m !! p = Some pv →
  (current = Some p ∧ ∃ pv0, m !! p = Some pv0 ∧
     pv = pub_to SUPERSEDED pv0)
  ∨ (current ≠ Some p ∧ m !! p = Some pv).
Proof.
  unfold superseded. destruct current as [c|]; [|by right].
  destruct (m !! c) as [pv0|] eqn:E.
  - intros H. apply lookup_insert_Some in H as [[<- <-]|[Hne H]]; [left; eauto|].
    right. split; congruence.
  - intros H. right. split; congruence.
Qed.

Lemma superseded_same m p pv :
  m !! p = Some pv → superseded (Some p) m !! p =
    Some (pub_to SUPERSEDED pv).
Proof. intros H. unfold superseded. rewrite H. apply lookup_insert_eq. Qed.

Lemma superseded_other current m p : current ≠ Some p → superseded current m !! p = m !! p.
Proof.
  intros H. unfold superseded. destruct current as [c|]; [|reflexivity].
  destruct (m !! c); [|reflexivity]. apply lookup_insert_ne. congruence.
Qed.

Lemma superseded_dom current m p pv : m !! p = Some pv →
  ∃ pv', superseded current m !! p = Some pv' ∧ pv_owner pv' = pv_owner pv
    ∧ pv_scope pv' = pv_scope pv ∧ pv_version pv' = pv_version pv
    ∧ (pv_status pv' = pv_status pv ∨ pv_status pv' = SUPERSEDED ∧ current = Some p).
Proof.
  intros H. destruct (decide (current = Some p)) as [->|Hne].
  - rewrite (superseded_same _ _ _ H). eexists. split; [reflexivity|]. simpl. tauto.
  - rewrite superseded_other by exact Hne. eauto 10.
Qed.

Lemma lookup_insert_at {A} (m : gmap N A) i j x : i = j → <[i:=x]> m !! j = Some x.
Proof. intros <-. apply lookup_insert_eq. Qed.

Ltac lookups :=
  repeat match goal with
  | H : <[_:=_]> _ !! _ = Some _ |- _ =>
      apply lookup_insert_Some in H as [[? ?]|[? H]]; simplify_eq/=
  | H : superseded _ _ !! _ = Some _ |- _ =>
      apply superseded_Some in H as [[? (? & ? & ?)]|[? H]]; simplify_eq/=
  end.

(** The witness of an existential that looks a key up after an update. *)
Ltac look :=
  repeat match goal with
  | |- context [<[?i:=_]> _ !! ?j] =>
      first [ rewrite lookup_insert_ne by congruence
            | rewrite lookup_insert_eq
            | rewrite lookup_insert_at by congruence
            | destruct (decide (i = j)); [try subst j|] ]
  end.

(** ** What no move undoes *)

Lemma lstep_scope V V' c sv : lstep V V' → v_scopes V !! c = Some sv →
  ∃ sv', v_scopes V' !! c = Some sv' ∧ sv_owner sv' = sv_owner sv.
Proof. intros Hs H. destruct Hs; simpl; look; simplify_eq/=; eauto. Qed.

Lemma lstep_pub V V' p pv : lstep V V' → v_pubs V !! p = Some pv →
  ∃ pv', v_pubs V' !! p = Some pv' ∧ pv_owner pv' = pv_owner pv
    ∧ pv_scope pv' = pv_scope pv ∧ pv_version pv' = pv_version pv.
Proof.
  intros Hs H. destruct Hs; simpl; look; simplify_eq/=; eauto 10.
  all: destruct (superseded_dom (sv_current sv) _ _ _ H) as (? & ? & ? & ? & ? & _); eauto.
Qed.

Lemma lstep_job V V' j jv : lstep V V' → v_jobs V !! j = Some jv →
  ∃ jv', v_jobs V' !! j = Some jv' ∧ jv_owner jv' = jv_owner jv ∧ jv_scope jv' = jv_scope jv.
Proof. intros Hs H. destruct Hs; simpl; look; simplify_eq/=; eauto 10. Qed.

Lemma scope_kept V V' o c : lstep V V' →
  (∃ sv, v_scopes V !! c = Some sv ∧ sv_owner sv = o) →
  (∃ sv, v_scopes V' !! c = Some sv ∧ sv_owner sv = o).
Proof.
  intros Hs (sv & H & <-). destruct (lstep_scope _ _ _ _ Hs H) as (sv' & ? & ?). eauto.
Qed.

(** Where a row comes from. *)
Lemma lstep_pub_origin V V' p pv' : Inv V → lstep V V' → v_pubs V' !! p = Some pv' →
  (∃ pv, v_pubs V !! p = Some pv ∧ pv_owner pv' = pv_owner pv ∧ pv_scope pv' = pv_scope pv
     ∧ pv_version pv' = pv_version pv)
  ∨ v_pubs V !! p = None ∧ fresh_version V (pv_scope pv') (pv_version pv')
    ∧ (∃ sv, v_scopes V !! pv_scope pv' = Some sv ∧ sv_owner sv = pv_owner pv')
    ∧ (∀ q pv, v_pubs V' !! q = Some pv → q ≠ p → v_pubs V !! q = Some pv).
Proof.
  intros I Hs H. destruct Hs; simpl in *; lookups; eauto 10; right; simpl.
  all: split_and!; eauto using inv_job_scope; intros; lookups; congruence.
Qed.

Lemma lstep_job_origin V V' j jv' : lstep V V' → v_jobs V' !! j = Some jv' →
  (∃ jv, v_jobs V !! j = Some jv ∧ jv_owner jv' = jv_owner jv ∧ jv_scope jv' = jv_scope jv)
  ∨ (∃ sv, v_scopes V !! jv_scope jv' = Some sv ∧ sv_owner sv = jv_owner jv').
Proof. intros Hs H. destruct Hs; simpl in *; lookups; eauto 10. Qed.

(** ** Every move preserves the invariant *)

Section preservation.
Variables (V V' : View).
Hypotheses (I : Inv V) (Hs : lstep V V').

Lemma step_owner_ok c sv : v_scopes V' !! c = Some sv → owner_ok (sv_owner sv) = true.
Proof. intros H. destruct Hs; simpl in *; lookups; eauto using inv_owner_ok. Qed.

Lemma step_owner c1 c2 x y : v_scopes V' !! c1 = Some x → v_scopes V' !! c2 = Some y →
  sv_owner x = sv_owner y → c1 = c2.
Proof.
  intros H1 H2 E. destruct Hs; simpl in *; lookups; try solve [eapply inv_owner; eauto].
  all: naive_solver.
Qed.

Lemma step_pub_scope p pv : v_pubs V' !! p = Some pv →
  ∃ sv, v_scopes V' !! pv_scope pv = Some sv ∧ sv_owner sv = pv_owner pv.
Proof.
  intros H. apply (scope_kept V); [exact Hs|].
  destruct (lstep_pub_origin _ _ _ _ I Hs H) as [(pv0 & H0 & -> & -> & _)|(_ & _ & ? & _)].
  - eapply inv_pub_scope; eauto.
  - assumption.
Qed.

Lemma step_job_scope j jv : v_jobs V' !! j = Some jv →
  ∃ sv, v_scopes V' !! jv_scope jv = Some sv ∧ sv_owner sv = jv_owner jv.
Proof.
  intros H. apply (scope_kept V); [exact Hs|].
  destruct (lstep_job_origin _ _ _ _ Hs H) as [(jv0 & H0 & -> & ->)|?].
  - eapply inv_job_scope; eauto.
  - assumption.
Qed.

Lemma step_version p1 p2 x y : v_pubs V' !! p1 = Some x → v_pubs V' !! p2 = Some y →
  pv_scope x = pv_scope y → pv_version x = pv_version y → p1 = p2.
Proof.
  intros H1 H2 Ec Ev. destruct (decide (p1 = p2)) as [|Hne]; [assumption|exfalso].
  destruct (lstep_pub_origin _ _ _ _ I Hs H1) as [(x0 & G1 & _ & Sx & Vx)|(N1 & F1 & _ & O1)].
  - destruct (lstep_pub_origin _ _ _ _ I Hs H2) as [(y0 & G2 & _ & Sy & Vy)|(N2 & F2 & _ & O2)].
    + apply Hne. eapply inv_version; eauto; congruence.
    + specialize (O2 _ _ H1 Hne). destruct F2 as [_ F2]. specialize (F2 _ _ O2 Ec). lia.
  - specialize (O1 _ _ H2 (not_eq_sym Hne)). destruct F1 as [_ F1].
    specialize (F1 _ _ O1 (eq_sym Ec)). lia.
Qed.

Lemma step_version_pos p pv : v_pubs V' !! p = Some pv → 1 ≤ pv_version pv.
Proof.
  intros H. destruct (lstep_pub_origin _ _ _ _ I Hs H) as [(x0 & G1 & _ & _ & ->)|(_ & [F _] & _)].
  - eapply inv_version_pos; eauto.
  - exact F.
Qed.

Lemma pending_active jv : jv_status jv = JOB_PENDING → active_status (jv_status jv) = true.
Proof. intros ->. reflexivity. Qed.

Lemma running_active jv : jv_status jv = JOB_RUNNING → active_status (jv_status jv) = true.
Proof. intros ->. reflexivity. Qed.

Lemma dead_inactive st : dead_job_status st = true → active_status st = false.
Proof. destruct st; easy. Qed.

Lemma step_active j1 j2 x y : v_jobs V' !! j1 = Some x → v_jobs V' !! j2 = Some y →
  active_status (jv_status x) = true → active_status (jv_status y) = true →
  jv_scope x = jv_scope y → j1 = j2.
Proof.
  pose proof (inv_active V I) as IA. intros H1 H2 A1 A2 E.
  destruct Hs; simpl in *; lookups; subst; simpl in *;
    try match goal with D : dead_job_status _ = true |- _ => apply dead_inactive in D end;
    try congruence; try solve [eapply IA; eauto using pending_active, running_active].
  all: match goal with
       | N : no_active_job V _, G : v_jobs V !! _ = Some _ |- _ =>
           specialize (N _ _ G); rewrite N in *; [discriminate|congruence]
       end.
Qed.

Lemma step_link j1 j2 x y p : v_jobs V' !! j1 = Some x → v_jobs V' !! j2 = Some y →
  jv_build x = Some p → jv_build y = Some p → j1 = j2.
Proof.
  pose proof (inv_link V I) as IL. intros H1 H2 B1 B2.
  destruct Hs; simpl in *; lookups; subst; simpl in *; try congruence;
    try solve [eapply IL; eauto; congruence].
  all: simplify_eq; match goal with
       | G : v_jobs V !! _ = Some ?z, B : jv_build ?z = Some _ |- _ =>
           destruct (inv_build V I _ _ _ G B) as (? & ? & _); congruence
       end.
Qed.

Lemma pub_kept p c :
  (∃ pv, v_pubs V !! p = Some pv ∧ pv_scope pv = c) →
  ∃ pv, v_pubs V' !! p = Some pv ∧ pv_scope pv = c.
Proof.
  intros (pv & H & <-). destruct (lstep_pub _ _ _ _ Hs H) as (pv' & ? & _ & ? & _). eauto.
Qed.

Lemma step_build j jv p : v_jobs V' !! j = Some jv → jv_build jv = Some p →
  ∃ pv, v_pubs V' !! p = Some pv ∧ pv_scope pv = jv_scope jv.
Proof.
  intros H B. pose proof (inv_build V I) as IB. pose proof (pub_kept p (jv_scope jv)) as K.
  destruct Hs; simpl in *; lookups; subst; simpl in *; simplify_eq; eauto.
  all: rewrite lookup_insert_eq; eauto.
Qed.

Lemma superseded_unpublished c sv q qv :
  v_scopes V !! c = Some sv → v_pubs V !! q = Some qv → pv_status qv ≠ PUBLISHED →
  superseded (sv_current sv) (v_pubs V) !! q = Some qv.
Proof.
  intros Hc Hq Hne. rewrite superseded_other; [exact Hq|]. intros E.
  destruct (inv_current V I _ _ _ Hc E) as (pv & ? & _ & ?). congruence.
Qed.

Lemma other_job j j' jv jv' p : j' ≠ j → v_jobs V !! j = Some jv → v_jobs V !! j' = Some jv' →
  jv_build jv = Some p → jv_build jv' = Some p → False.
Proof. intros Hne H H' B B'. exact (Hne (inv_link V I _ _ _ _ _ H' H B' B)). Qed.

Lemma step_running j jv : v_jobs V' !! j = Some jv → jv_status jv = JOB_RUNNING →
  ∃ p pv, jv_build jv = Some p ∧ v_pubs V' !! p = Some pv ∧ pv_status pv = BUILDING.
Proof.
  intros H R. pose proof (inv_running V I) as IR. pose proof other_job as OJ.
  destruct Hs; simpl in *; lookups; subst; simpl in *; simplify_eq; eauto.
  all: try (eexists _, _; split_and!; [reflexivity|look; reflexivity|reflexivity]).
  all: try match goal with D : dead_job_status _ = true |- _ => discriminate D end.
  all: destruct (IR _ _ H R) as (q & qv & B & G & S); exists q.
  all: eexists; split_and!; [exact B| |exact S]; look; try solve [exfalso; eauto | congruence].
  all: try (eapply superseded_unpublished; eauto; congruence).
  all: intuition congruence.
Qed.

Lemma step_pending j jv p pv : v_jobs V' !! j = Some jv → jv_status jv = JOB_PENDING →
  jv_build jv = Some p → v_pubs V' !! p = Some pv → pv_status pv = STAGED.
Proof.
  intros H R B G. pose proof (inv_pending V I) as IP. pose proof other_job as OJ.
  pose proof (inv_build V I) as IB. pose proof (inv_current V I) as IC.
  destruct Hs; simpl in *; lookups; subst; simpl in *; simplify_eq; eauto.
  all: try solve [exfalso; eauto | congruence].
  all: try match goal with D : dead_job_status _ = true |- _ => discriminate D end.
  1: destruct (IB _ _ _ H B) as (? & ? & _); congruence.
  all: assert (E := IP _ _ _ _ H R B ltac:(eassumption)); try (intuition congruence).
  all: edestruct IC as (? & ? & _ & ?); [eassumption..|]; congruence.
Qed.

Lemma step_building p pv : v_pubs V' !! p = Some pv → pv_status pv = BUILDING →
  ∃ j jv, v_jobs V' !! j = Some jv ∧ jv_status jv = JOB_RUNNING ∧ jv_build jv = Some p.
Proof.
  intros G S. pose proof (inv_building V I) as IB.
  destruct Hs; simpl in *; lookups; subst; simpl in *; simplify_eq; eauto.
  all: try match goal with D : dead_pub_status _ = true |- _ => discriminate D end.
  all: try solve [eexists _, _; split_and!; [look; reflexivity|reflexivity|reflexivity]].
  all: destruct (IB _ _ G S) as (k & kv & ? & ? & ?); exists k, kv; split_and!; try assumption.
  all: look; congruence.
Qed.

Lemma step_staged p pv : v_pubs V' !! p = Some pv → pv_status pv = STAGED →
  ∃ j jv, v_jobs V' !! j = Some jv ∧ jv_status jv = JOB_PENDING ∧ jv_build jv = Some p.
Proof.
  intros G S. pose proof (inv_staged V I) as IB.
  destruct Hs; simpl in *; lookups; subst; simpl in *; simplify_eq; eauto.
  all: try match goal with D : dead_pub_status _ = true |- _ => discriminate D end.
  all: try solve [eexists _, _; split_and!; [look; reflexivity|reflexivity|reflexivity]].
  all: destruct (IB _ _ G S) as (k & kv & ? & ? & ?); exists k, kv; split_and!; try assumption.
  all: look; congruence.
Qed.

Lemma step_ready p pv : v_pubs V' !! p = Some pv → ready_status (pv_status pv) = true →
  pv_ready pv = true.
Proof.
  intros G R. pose proof (inv_ready V I) as IR. pose proof (inv_current V I) as IC.
  destruct Hs; simpl in *; lookups; subst; simpl in *; simplify_eq; eauto.
  all: try match goal with D : dead_pub_status ?st = true |- _ => destruct st; discriminate end.
  all: try (edestruct IC as (? & ? & _ & E); [eassumption..|]; simplify_eq; eapply IR;
            [eassumption|]; rewrite E; reflexivity).
  all: eapply IR; [eassumption|].
  all: match goal with O : _ ∨ _ |- _ => destruct O as [->| ->]; reflexivity end.
Qed.

Lemma step_current c sv p : v_scopes V' !! c = Some sv → sv_current sv = Some p →
  ∃ pv, v_pubs V' !! p = Some pv ∧ pv_scope pv = c ∧ pv_status pv = PUBLISHED.
Proof.
  intros H E. pose proof (inv_current V I) as IC. pose proof (inv_running V I) as IR.
  pose proof (inv_pending V I) as IP.
  destruct Hs; simpl in *; lookups; subst; simpl in *; simplify_eq.
  all: try solve [eexists; split_and!; [look; reflexivity|reflexivity|reflexivity]].
  all: edestruct IC as (qv & G & Sq & Pq); [|exact E|]; [eassumption|]; exists qv; split_and!; try assumption.
  all: look; try congruence.
  all: try (exfalso; edestruct IR as (? & ? & ? & ? & ?); [|eassumption|]; [eassumption|];
            simplify_eq; congruence).
  all: try (exfalso; assert (pv_status pv = STAGED) by eauto; congruence).
  all: try (match goal with O : _ ∨ _ |- _ => destruct O; congruence end).
  all: rewrite superseded_other; [exact G|]; intros E'.
  all: edestruct IC as (? & ? & ? & _); [|exact E'|]; [eassumption|]; congruence.
Qed.

(** An attempt that is kept for a rollback stays, or it is retired and its scope
    forgets it. *)
Lemma retained_kept p pv : v_pubs V !! p = Some pv → retained_status (pv_status pv) = true →
  (∃ pv', v_pubs V' !! p = Some pv' ∧ pv_scope pv' = pv_scope pv
     ∧ retained_status (pv_status pv') = true)
  ∨ ∃ sv, v_scopes V' !! pv_scope pv = Some sv ∧ sv_latest sv ≠ Some p.
Proof.
  intros G R. pose proof (inv_running V I) as IR. pose proof (inv_pending V I) as IP.
  pose proof (inv_current V I) as IC.
  destruct Hs; simpl in *; look; eauto; simplify_eq/=; try congruence.
  all: try (exfalso; edestruct IR as (? & ? & ? & ? & E); [|eassumption|]; [eassumption|];
            simplify_eq; rewrite E in R; discriminate R).
  all: try (exfalso; erewrite IP in R by eassumption; discriminate R).
  all: try solve [left; eexists; split_and!; [reflexivity|reflexivity|reflexivity]].
  all: try (left; destruct (superseded_dom (sv_current sv) _ _ _ G)
              as (x & ? & _ & ? & _ & [E|[E _]]); exists x; rewrite E; solve [auto]).
  right. eexists. split; [reflexivity|]. simpl. case_bool_decide; [|assumption].
  intros E. edestruct IC as (? & ? & _ & ?); [|exact E|]; [eassumption|]. congruence.
Qed.

Lemma latest_origin c sv p : v_scopes V' !! c = Some sv → sv_latest sv = Some p →
  sv_current sv = Some p ∨ ∃ sv0, v_scopes V !! c = Some sv0 ∧ sv_latest sv0 = Some p.
Proof.
  intros H E. destruct Hs; simpl in *; lookups; subst; simpl in *; simplify_eq; eauto.
  case_bool_decide; eauto.
Qed.

Lemma step_latest c sv p : v_scopes V' !! c = Some sv → sv_latest sv = Some p →
  ∃ pv, v_pubs V' !! p = Some pv ∧ pv_scope pv = c ∧ retained_status (pv_status pv) = true.
Proof.
  intros H E. destruct (latest_origin _ _ _ H E) as [Hc|(sv0 & H0 & E0)].
  - destruct (step_current _ _ _ H Hc) as (pv & ? & ? & S). exists pv. rewrite S. auto.
  - destruct (inv_latest V I _ _ _ H0 E0) as (pv & G & <- & R).
    destruct (retained_kept _ _ G R) as [?|(? & ? & ?)]; [assumption|congruence].
Qed.

Lemma step_published p pv sv : v_pubs V' !! p = Some pv → pv_status pv = PUBLISHED →
  v_scopes V' !! pv_scope pv = Some sv → sv_current sv = Some p.
Proof.
  intros G S H. pose proof (inv_published V I) as IP.
  destruct Hs; simpl in *; lookups; subst; simpl in *; simplify_eq; eauto.
  all: try match goal with D : dead_pub_status ?st = true |- _ => destruct st; discriminate end.
  - destruct (inv_pub_scope V I _ _ G) as (? & ? & _); congruence.
  - exfalso. assert (sv_current sv0 = Some p) by (eapply IP; eauto; congruence). congruence.
  - exfalso. assert (sv_current sv0 = Some p) by (eapply IP; eauto; congruence). congruence.
  - eapply IP; eauto; congruence.
Qed.
End preservation.

(** Every move preserves the invariant. *)
Lemma Inv_step V V' : Inv V → lstep V V' → Inv V'.
Proof.
  intros I Hs. split; intros *.
  - apply (step_owner_ok V V' I Hs).
  - apply (step_owner V V' I Hs).
  - apply (step_pub_scope V V' I Hs).
  - apply (step_job_scope V V' I Hs).
  - apply (step_current V V' I Hs).
  - apply (step_published V V' I Hs).
  - apply (step_latest V V' I Hs).
  - apply (step_active V V' I Hs).
  - apply (step_link V V' I Hs).
  - apply (step_build V V' I Hs).
  - apply (step_running V V' I Hs).
  - apply (step_pending V V' I Hs).
  - apply (step_building V V' I Hs).
  - apply (step_staged V V' I Hs).
  - apply (step_version V V' I Hs).
  - apply (step_version_pos V V' I Hs).
  - apply (step_ready V V' I Hs).
Qed.

Lemma Inv_steps V V' : Inv V → rtc lstep V V' → Inv V'.
Proof. intros I Hs. induction Hs; eauto using Inv_step. Qed.

(** ** The history of an attempt *)

Lemma status_edge_refl a : status_edge a a = true.
Proof. unfold status_edge. rewrite bool_decide_true by reflexivity. reflexivity. Qed.

Lemma step_status V V' p pv pv' : Inv V → lstep V V' →
  v_pubs V !! p = Some pv → v_pubs V' !! p = Some pv' →
  status_edge (pv_status pv) (pv_status pv') = true.
Proof.
  intros I Hs G G'. pose proof (inv_running V I) as IR. pose proof (inv_pending V I) as IP.
  pose proof (inv_current V I) as IC.
  destruct Hs; simpl in *; lookups; simplify_eq; try apply status_edge_refl.
  all: try (edestruct IR as (? & ? & ? & ? & E); [|eassumption|]; [eassumption|];
            simplify_eq; rewrite E; reflexivity).
  all: try (erewrite IP by eassumption; reflexivity).
  all: try match goal with S : pv_status ?x = _ |- status_edge (pv_status ?x) _ = true =>
         rewrite S; reflexivity end.
  - edestruct IR as (? & ? & ? & ? & E); [|eassumption|]; [eassumption|]. simplify_eq.
    rewrite E. destruct stp; done.
  - edestruct IC as (? & ? & _ & E); [|eassumption|]; [eassumption|]. simplify_eq.
    rewrite E. reflexivity.
  - match goal with O : _ ∨ _ |- _ => destruct O as [E|E]; rewrite E; reflexivity end.
  - edestruct IC as (? & ? & _ & E); [|eassumption|]; [eassumption|]. simplify_eq.
    rewrite E. reflexivity.
Qed.

Lemma final_edge a b : final_status a = true → status_edge a b = true → b = a.
Proof. destruct a, b; easy. Qed.

Lemma continues_refl pv : continues pv pv.
Proof. unfold continues. eauto using rtc_refl. Qed.

Lemma continues_trans a b c : continues a b → continues b c → continues a c.
Proof.
  intros (? & ? & ? & ?) (? & ? & ? & ?). unfold continues.
  split_and!; try congruence. etrans; eassumption.
Qed.

Lemma steps_pub V V' p pv : Inv V → rtc lstep V V' → v_pubs V !! p = Some pv →
  ∃ pv', v_pubs V' !! p = Some pv' ∧ continues pv pv'.
Proof.
  intros I Hs. revert pv I. induction Hs as [V|V W V' H Hs IH]; intros pv I G.
  - eauto using continues_refl.
  - destruct (lstep_pub _ _ _ _ H G) as (pw & Gw & ? & ? & ?).
    destruct (IH pw (Inv_step _ _ I H) Gw) as (pv' & G' & C). exists pv'. split; [assumption|].
    eapply continues_trans; [|exact C]. unfold continues. split_and!; try assumption.
    apply rtc_once. eapply step_status; eassumption.
Qed.

Lemma final_edges a b : rtc (λ a b, status_edge a b = true) a b → final_status a = true → b = a.
Proof.
  induction 1 as [a|a b c H _ IH]; [reflexivity|]. intros F.
  rewrite (final_edge _ _ F H) in IH. auto.
Qed.

Lemma past_edges a b :
  rtc (λ a b, status_edge a b = true) a b → past_status a = true → past_status b = true.
Proof.
  induction 1 as [a|a b c H _ IH]; [auto|]. intros P. apply IH. destruct a, b; easy.
Qed.

Lemma steps_past V V' p pv : Inv V → rtc lstep V V' → v_pubs V !! p = Some pv →
  past_status (pv_status pv) = true →
  ∃ pv', v_pubs V' !! p = Some pv' ∧ past_status (pv_status pv') = true.
Proof.
  intros I Hs G P. destruct (steps_pub _ _ _ _ I Hs G) as (pv' & G' & _ & _ & _ & E).
  eauto using past_edges.
Qed.

(** A build keeps its job: whoever builds an attempt after a move built it before. *)
Lemma step_builder V V' j jv p pv : Inv V → lstep V V' →
  v_pubs V !! p = Some pv → pv_status pv = BUILDING →
  v_jobs V' !! j = Some jv → jv_status jv = JOB_RUNNING → jv_build jv = Some p →
  v_jobs V !! j = Some jv.
Proof.
  intros I Hs G S G' R B. pose proof (inv_pending V I) as IP.
  destruct Hs; simpl in *; lookups; try assumption; try discriminate.
  all: exfalso; try congruence.
  match goal with Hj : v_jobs V !! j = Some _, P : _ = JOB_PENDING, B : _ = Some p,
    Hp : v_pubs V !! p = Some _ |- _ => pose proof (IP _ _ _ _ Hj P B Hp) end. congruence.
Qed.

(** An attempt under construction is over or still in the hands of the same job. *)
Definition in_hands (j p : N) (V : View) : Prop :=
  ∃ pv, v_pubs V !! p = Some pv ∧
    (past_status (pv_status pv) = true ∨ pv_status pv = BUILDING ∧
     ∃ jv, v_jobs V !! j = Some jv ∧ jv_status jv = JOB_RUNNING ∧ jv_build jv = Some p).

Lemma step_in_hands V V' j p : Inv V → lstep V V' → in_hands j p V → in_hands j p V'.
Proof.
  intros I Hs (pv & G & Hp). destruct (lstep_pub _ _ _ _ Hs G) as (pv' & G' & _).
  pose proof (step_status _ _ _ _ _ I Hs G G') as E. exists pv'. split; [exact G'|].
  destruct Hp as [P|(S & jv & Gj & R & B)].
  - left. eapply past_edges; [apply rtc_once, E|exact P].
  - rewrite S in E. destruct (past_status (pv_status pv')) eqn:P; [left; reflexivity|right].
    assert (S' : pv_status pv' = BUILDING) by (destruct (pv_status pv'); easy).
    split; [exact S'|].
    destruct (inv_building _ (Inv_step _ _ I Hs) _ _ G' S') as (j' & jv' & Gj' & R' & B').
    pose proof (step_builder _ _ _ _ _ _ I Hs G S Gj' R' B') as Gj0.
    assert (j' = j) as -> by (eapply (inv_link V I); eassumption). eauto.
Qed.

Lemma steps_in_hands V V' j p : Inv V → rtc lstep V V' → in_hands j p V → in_hands j p V'.
Proof.
  intros I Hs. induction Hs as [|V W V' H Hs IH]; [auto|]. intros K.
  apply IH; [eapply Inv_step|eapply step_in_hands]; eassumption.
Qed.

Lemma steps_scope V V' c sv : rtc lstep V V' → v_scopes V !! c = Some sv →
  ∃ sv', v_scopes V' !! c = Some sv' ∧ sv_owner sv' = sv_owner sv.
Proof.
  intros Hs. revert sv. induction Hs as [V|V W V' H Hs IH]; intros sv G; [eauto|].
  destruct (lstep_scope _ _ _ _ H G) as (sw & Gw & E).
  destruct (IH _ Gw) as (sv' & ? & ?). exists sv'. split; congruence.
Qed.

Lemma steps_job V V' j jv : rtc lstep V V' → v_jobs V !! j = Some jv →
  ∃ jv', v_jobs V' !! j = Some jv' ∧ jv_owner jv' = jv_owner jv ∧ jv_scope jv' = jv_scope jv.
Proof.
  intros Hs. revert jv. induction Hs as [V|V W V' H Hs IH]; intros jv G; [eauto|].
  destruct (lstep_job _ _ _ _ H G) as (jw & Gw & E1 & E2).
  destruct (IH _ Gw) as (jv' & ? & ? & ?). exists jv'. split_and!; congruence.
Qed.

(** A job that has ended never runs again. *)
Lemma step_job_over V V' j jv : Inv V → lstep V V' → v_jobs V !! j = Some jv →
  active_status (jv_status jv) = false → v_jobs V' !! j = Some jv.
Proof.
  intros I Hs G A. destruct Hs; simpl in *; look; try assumption; simplify_eq; exfalso.
  all: match goal with S : jv_status _ = _ |- _ => rewrite S in A; discriminate A end.
Qed.

Lemma steps_job_over V V' j jv : Inv V → rtc lstep V V' → v_jobs V !! j = Some jv →
  active_status (jv_status jv) = false → v_jobs V' !! j = Some jv.
Proof.
  intros I Hs G A. induction Hs as [|V W V' H Hs IH]; [assumption|].
  apply IH; [eapply Inv_step|eapply step_job_over]; eassumption.
Qed.

(** The newest version of a scope only grows. *)
Lemma steps_versions V V' p pv' : Inv V → rtc lstep V V' → v_pubs V' !! p = Some pv' →
  v_pubs V !! p = None → fresh_version V (pv_scope pv') (pv_version pv').
Proof.
  intros I Hs G' N. induction Hs as [|V W V' H Hs IH]; [congruence|].
  destruct (v_pubs W !! p) as [pw|] eqn:E.
  - destruct (steps_pub _ _ _ _ (Inv_step _ _ I H) Hs E) as (x & Gx & _ & Ec & Ev & _).
    simplify_eq. rewrite Ec, Ev.
    destruct (lstep_pub_origin _ _ _ _ I H E) as [(? & ? & _)|(_ & F & _)]; [congruence|exact F].
  - destruct (IH (Inv_step _ _ I H) G' eq_refl) as [Hp F]. split; [exact Hp|].
    intros q qv Gq Ec. destruct (lstep_pub _ _ _ _ H Gq) as (qw & Gw & _ & Ecw & Evw).
    rewrite <- Evw. eapply F; [exact Gw|]. congruence.
Qed.

Lemma Inv_empty : Inv (mkView ∅ ∅ ∅).
Proof. split; simpl; intros *; rewrite lookup_empty; discriminate. Qed.
