(* ===== verification/Artifacts.v ===== *)
(** What a publication leaves behind when it stops being deliverable: the key
    grants of its readers ([apps/publications/manifests.py]), its ciphertext
    ([apps/publications/services.py]) and its references to shared document
    artifacts ([apps/publications/document_artifacts.py]). *)
From S2P Require Import Prelude Models Store Registry.

(** The artifact directory: [removal_fails path] when [remove_artifact_path]
    raises for this path. *)
Class ArtifactStore := { removal_fails : string → bool }.

(** ** Key grants *)

Definition grant_not_revoked (g : KeyGrant) : bool :=
  bool_decide (kg_status g ≠ GRANT_REVOKED).

(** [status__in=(PENDING, RUNNING, READY, FAILED)] *)
Definition grant_revocable (g : KeyGrant) : bool :=
  match kg_status g with
  | GRANT_PENDING | GRANT_RUNNING | GRANT_READY | GRANT_FAILED => true
  | GRANT_REVOKED => false
  end.

Definition revoke_grant (now : Z) (g : KeyGrant) : KeyGrant :=
  g <| kg_status := GRANT_REVOKED |> <| kg_revoked_at := Some now |>.

Definition revoke_dataset_key_grants (installation : N) : M Db Z :=
  let! now := timezone_now in
  let! generic_count := update_where db_generation_key_grants
    (λ g, N.eqb (kg_app_installation g) installation && grant_not_revoked g)
    (revoke_grant now) in
  let! dataset_count := update_where db_key_grants
    (λ g, N.eqb (kg_app_installation g) installation && grant_revocable g)
    (revoke_grant now) in
  ret (generic_count + dataset_count).

Definition revoke_publication_dataset_key_grants (pid : N) (publication : DatasetPublication) :
    M Db Z :=
  let! now := timezone_now in
  let! generic_count :=
    if is_file_dataset (pub_dataset_type_code publication) then ret 0
    else update_where db_generation_key_grants
           (λ g, N.eqb (kg_publication g) pid && grant_not_revoked g) (revoke_grant now) in
  let! dataset_count := update_where db_key_grants
    (λ g, N.eqb (kg_publication g) pid && grant_revocable g) (revoke_grant now) in
  ret (generic_count + dataset_count).

(** ** Ciphertext removal *)

Definition _schedule_artifact_removal (relative_path : string) : M Db unit :=
  if String.eqb relative_path "" then ret tt
  else on_commit (OcRemoveArtifact relative_path).

Definition document_artifact_relative_path (artifact_id : N) : string :=
  "documents/" +:+ pretty artifact_id +:+ "/artifact.bin".

(** [get_or_create] on the unique artifact of a cleanup row. *)
Definition _schedule_document_artifact_removal (artifact_id : N) (artifact_path : string) :
    M Db unit :=
  let! existing := first_where db_document_cleanups
    (λ _ c, N.eqb (dc_artifact_id c) artifact_id) by_pk in
  let! cleanup :=
    match existing with
    | Some (k, _) => ret k
    | None => create db_document_cleanups (mkDocumentArtifactCleanup artifact_id artifact_path)
    end in
  on_commit (OcRemoveDocumentArtifact cleanup).

Definition is_terminal_status (st : PubStatus) : bool :=
  match st with
  | PUB_FAILED | PUB_CANCELLED | REJECTED | PUB_OBSOLETE => true
  | _ => false
  end.

(** One artifact of [release_terminal_document_artifact_references]. *)
Definition release_artifact (queued : Z) (row : N * DocumentArtifact) : M Db Z :=
  let '(artifact_id, artifact) := row in
  let! referenced := exists_where db_document_references
    (λ _ r, N.eqb (dr_document_artifact r) artifact_id) in
  if referenced then ret queued else
  delete_obj db_document_artifacts artifact_id ;;;
  _schedule_document_artifact_removal artifact_id (da_artifact_path artifact) ;;;
  ret (queued + 1).

(** [pid] is the publication's key and [publication] the object the caller has
    just saved. *)
Definition release_terminal_document_artifact_references (pid : N)
    (publication : DatasetPublication) : M Db Z :=
  guard (is_terminal_status (pub_status publication)) EValue
    "Only terminal publications can release document artifacts." ;;;
  when (is_file_dataset (pub_dataset_type_code publication))
    (delete_where db_publication_contents (λ c, N.eqb (pc_publication c) pid)) ;;;
  let! refs := gets (λ s,
    rows (db_document_references s) (λ _ r, N.eqb (dr_publication r) pid)) in
  let ids := (λ r, dr_document_artifact r.2) <$> refs in
  match ids with
  | [] => ret 0
  | _ =>
      let! artifacts := select_ordered db_document_artifacts
        (λ k _, existsb (N.eqb k) ids) by_pk in
      delete_where db_document_references (λ r, N.eqb (dr_publication r) pid) ;;;
      fold_m release_artifact 0 artifacts
  end.

Section cleanup.
Context `{ArtifactStore}.

(** [remove_after_commit] of [_schedule_artifact_removal]: best effort. *)
Definition remove_after_commit (path : string) : M Db unit :=
  if removal_fails path then ret tt else emit (EffRemoveArtifact path).

(** [_process_cleanup_record]; [_remove_queued_ciphertext] is its guard. *)
Definition _process_cleanup_record (cleanup_id : N) : M Db unit :=
  let! cleanup := find_obj db_document_cleanups cleanup_id in
  match cleanup with
  | None => ret tt
  | Some cleanup =>
      let! stored := gets (λ s,
        opt_true (db_document_artifacts s !! dc_artifact_id cleanup)
        || exists_row (db_document_artifacts s)
             (λ _ a, String.eqb (da_artifact_path a) (dc_artifact_path cleanup))) in
      if negb (String.eqb (dc_artifact_path cleanup)
                 (document_artifact_relative_path (dc_artifact_id cleanup)))
         || stored || removal_fails (dc_artifact_path cleanup)
      then ret tt
      else
        emit (EffRemoveArtifact (dc_artifact_path cleanup)) ;;;
        delete_obj db_document_cleanups cleanup_id
  end.
End cleanup.
