(* ===== verification/Tablets.v ===== *)
(** Tablets, [apps/tablets/services.py]: provisioning, the adoption protocol, the
    authorization lease of an installation and the lifecycle of the physical asset.

    A service reads a row into an object, changes the object and saves some of its
    fields; an installation that a service returns is that object.  Every service is
    one transaction, so the row locks of the code have no counterpart. *)
From S2P Require Import Prelude Text Versions Models Store Registry Authorization Fingerprint.
From S2P Require Import Artifacts ApplicationSecrets.

(** [settings.SECRET_KEY] and what the code uses of [hmac] and [secrets]; a random
    value is a function of the store. *)
Class Secrets := {
  SECRET_KEY : string;
  hmac_sha256 : string → string → string;
  token_urlsafe : Db → string;
  token_bytes : Db → string
}.

Definition MICROSECONDS_PER_MINUTE : Z := 60 * 1000000.
Definition AUTO_RENEW_THRESHOLD : Z := 48 * 60 * MICROSECONDS_PER_MINUTE.
Definition INVITATION_DURATION : Z := 15 * MICROSECONDS_PER_MINUTE.
Definition CHALLENGE_DURATION : Z := 5 * MICROSECONDS_PER_MINUTE.
Definition MAX_FAILED_ATTEMPTS : Z := 5.
Definition ADOPTION_PROTOCOL : string := "tablet-adoption-v1".
Definition COMPLETION_REPLAY_DURATION : Z := 10 * MICROSECONDS_PER_MINUTE.
Definition MAX_ASSET_NUMBER_ALLOCATION_ATTEMPTS : nat := 1000.
Definition ASSET_NUMBER_MAX_LENGTH : nat := 128.
Definition DISPLAY_NAME_MAX_LENGTH : nat := 255.

(** [raise TabletError(message, code=code)]; the code is [invalid_request] when the
    source gives none. *)
Abbreviation invalid_request := (ETablet "invalid_request").
Abbreviation installation_inactive := (ETablet "installation_inactive").

Definition ASSET_TRANSITIONS (st : TabletStatus) : list TabletStatus :=
  match st with
  | TABLET_INACTIVE => [TABLET_ACTIVE; TABLET_LOST; TABLET_RETIRED]
  | TABLET_ACTIVE => [TABLET_INACTIVE; TABLET_LOST; TABLET_RETIRED]
  | TABLET_LOST => [TABLET_INACTIVE]
  | TABLET_RETIRED => []
  end.

(** [status__in=(ACTIVE, STALE)] *)
Definition current_status (st : InstallationStatus) : bool :=
  match st with INSTALLATION_ACTIVE | INSTALLATION_STALE => true | _ => false end.

Definition canonical_protocol_datetime (value : Z) : string := iso_utc value +:+ "Z".

(** [AdoptionChallengeContext] *)
Record AdoptionChallengeContext := mkAdoptionChallengeContext {
  cc_adoption_request_id : N;
  cc_installation_uuid : N;
  cc_tablet_id : N;
  cc_public_key_fingerprint : string;
  cc_expires_at : Z;
  cc_mode : string
}.

Definition _canonical_context (c : AdoptionChallengeContext) : string :=
  json_dumps (JObj [
    ("adoption_request_id", json_uuid (cc_adoption_request_id c));
    ("expires_at", JStr (canonical_protocol_datetime (cc_expires_at c)));
    ("hpke_ciphersuite", JStr HPKE_CIPHERSUITE);
    ("hpke_public_key_fingerprint", JStr (cc_public_key_fingerprint c));
    ("installation_uuid", json_uuid (cc_installation_uuid c));
    ("mode", JStr (cc_mode c));
    ("protocol", JStr ADOPTION_PROTOCOL);
    ("tablet_id", json_uuid (cc_tablet_id c))]).

(** ** The prerequisites of service *)

(** The vehicle, when it is active in an active station. *)
Definition vehicle_in_service (s : Db) (vehicle : N) : option Vehicle :=
  match db_vehicles s !! vehicle with
  | Some v =>
      if ve_active v
         && match db_stations s !! ve_station v with Some st => st_active st | None => false end
      then Some v else None
  | None => None
  end.

(** Such a vehicle of the department. *)
Definition operational_vehicle (s : Db) (department vehicle : N) : bool :=
  match vehicle_in_service s vehicle with
  | Some v => N.eqb (ve_department v) department
  | None => false
  end.

Definition _has_current_operational_assignment (s : Db) (tid : N) (tablet : Tablet) (now : Z) :
    bool :=
  exists_row (db_vehicle_assignments s) (λ _ a,
    N.eqb (va_tablet a) tid && (va_valid_from a <=? now) && negb (opt_true (va_ended_at a))
    && match va_valid_until a with None => true | Some u => now <? u end
    && operational_vehicle s (tb_department tablet) (va_vehicle a)).

Definition _require_operational_tablet (tid : N) (tablet : Tablet) : M Db unit :=
  let! now := timezone_now in
  let! department := get_obj db_departments (tb_department tablet) in
  guard (dept_active department && tb_active tablet) installation_inactive
    "Tablet department must be active." ;;;
  guard (match tb_status tablet with TABLET_INACTIVE | TABLET_ACTIVE => true | _ => false end)
    installation_inactive "Tablet cannot be adopted." ;;;
  let! assigned := gets (λ s, _has_current_operational_assignment s tid tablet now) in
  guard assigned installation_inactive "Tablet requires a current active vehicle assignment.".

Definition _require_active_operational_tablet (tid : N) (tablet : Tablet) (now : Z) : M Db unit :=
  let! department := get_obj db_departments (tb_department tablet) in
  guard (dept_active department && tb_active tablet) installation_inactive
    "Tablet department must be active." ;;;
  guard (bool_decide (tb_status tablet = TABLET_ACTIVE)) installation_inactive
    "Tablet is not active for operational service." ;;;
  let! assigned := gets (λ s, _has_current_operational_assignment s tid tablet now) in
  guard assigned installation_inactive "Tablet requires a current active vehicle assignment.".

Definition _require_inactive_control_tablet (tablet : Tablet) : M Db unit :=
  let! department := get_obj db_departments (tb_department tablet) in
  guard (dept_active department && tb_active tablet) installation_inactive
    "Tablet department must be active." ;;;
  guard (bool_decide (tb_status tablet = TABLET_INACTIVE)) installation_inactive
    "Tablet is not available for control-plane synchronization.".

(** ** Telemetry and the lease *)

(** The object after the call and whether a version was supplied. *)
Definition update_app_telemetry (installation : AppInstallation) (app_version : option string)
    (app_build : option Z) (build_supplied : bool) (now : Z) : AppInstallation * bool :=
  match app_version with
  | None => (installation, false)
  | Some v =>
      if String.eqb v (in_app_version installation) then
        let seen := installation <| in_app_version_seen_at := now |> in
        (if build_supplied then seen <| in_app_build := app_build |> else seen, true)
      else
        (installation <| in_app_version := v |>
           <| in_app_build := if build_supplied then app_build else None |>
           <| in_app_version_seen_at := now |>, true)
  end.

Definition lease_target (department : Department) (now : Z) : Z :=
  now + dept_tablet_lease_days department * MICROSECONDS_PER_DAY.

Definition _eligible_for_lease_renewal (installation : AppInstallation) (tablet : Tablet)
    (department : Department) (now : Z) : bool :=
  bool_decide (in_status installation = INSTALLATION_ACTIVE)
  && (now <? in_authorization_valid_until installation)
  && tb_active tablet && bool_decide (tb_status tablet = TABLET_ACTIVE)
  && dept_active department.

Definition _renew_lease_if_due (installation : AppInstallation) (tablet : Tablet)
    (department : Department) (now : Z) : AppInstallation * bool :=
  if negb (_eligible_for_lease_renewal installation tablet department now) then
    (installation, false)
  else if AUTO_RENEW_THRESHOLD <? in_authorization_valid_until installation - now then
    (installation, false)
  else
    (installation <| in_authorization_valid_until := lease_target department now |>, true).

Definition _is_current_installation (iid : N) (installation : AppInstallation) : M Db bool :=
  let! other := exists_where db_installations (λ k i,
    N.eqb (in_tablet i) (in_tablet installation) && current_status (in_status i)
    && negb (N.eqb k iid)) in
  ret (negb other).

Definition _recover_stale_installation (iid : N) (installation : AppInstallation)
    (tablet : Tablet) (department : Department) (now : Z) : M Db AppInstallation :=
  let! current := _is_current_installation iid installation in
  guard (bool_decide (in_status installation = INSTALLATION_STALE) && current)
    installation_inactive "Installation is not active." ;;;
  _require_active_operational_tablet (in_tablet installation) tablet now ;;;
  let recovered := installation <| in_status := INSTALLATION_ACTIVE |>
    <| in_authorization_valid_until := lease_target department now |>
    <| in_last_successful_check_in_at := Some now |> in
  save db_installations iid (λ r, r <| in_status := in_status recovered |>
    <| in_authorization_valid_until := in_authorization_valid_until recovered |>
    <| in_last_successful_check_in_at := in_last_successful_check_in_at recovered |>) ;;;
  record_event "tablet.stale_auto_recovered" None (Some (tb_department tablet)) None
    "app_installation" (Some iid) [] ;;;
  ret recovered.

Definition _mark_stale (iid : N) (installation : AppInstallation) (department : N) (now : Z) :
    M Db AppInstallation :=
  save db_installations iid (λ r,
    r <| in_status := INSTALLATION_STALE |> <| in_stale_at := Some now |>) ;;;
  record_event "tablet.became_stale" None (Some department) None "app_installation"
    (Some iid) [] ;;;
  ret (installation <| in_status := INSTALLATION_STALE |> <| in_stale_at := Some now |>).

(** ** Registration *)

Definition asset_number_taken (department : N) (asset_number : string) : M Db bool :=
  exists_where db_tablets (λ _ t,
    N.eqb (tb_department t) department && String.eqb (tb_asset_number t) asset_number).

Definition display_name_taken (department : N) (display_name : string) : M Db bool :=
  exists_where db_tablets (λ _ t,
    N.eqb (tb_department t) department && String.eqb (tb_display_name t) display_name).

(** [Tablet.objects.create] under the unique constraints and the column widths of
    the table. *)
Definition create_tablet_row (actor department : N) (display_name asset_number : string) :
    M Db N :=
  guard (Nat.leb (String.length display_name) DISPLAY_NAME_MAX_LENGTH
         && Nat.leb (String.length asset_number) ASSET_NUMBER_MAX_LENGTH)
    EDatabase "value too long for type character varying" ;;;
  let! name_taken := display_name_taken department display_name in
  let! number_taken := asset_number_taken department asset_number in
  guard (negb (name_taken || str_true asset_number && number_taken)) EIntegrity
    "duplicate key value violates unique constraint" ;;;
  create db_tablets
    (mkTablet department asset_number display_name TABLET_INACTIVE true (Some actor)).

Definition _formatted_asset_number (department : Department) (sequence : Z) : M Db string :=
  let numeric_part := str_zfill (dept_asset_number_width department) (pretty sequence) in
  let asset_number := dept_asset_number_prefix department +:+ numeric_part in
  guard (Nat.leb (String.length asset_number) ASSET_NUMBER_MAX_LENGTH)
    (ETablet "asset_number_exhausted")
    "The next generated asset number does not fit the Tablet asset-number length." ;;;
  ret asset_number.

Definition tablet_asset_number_preview (department : Department) : M Db string :=
  _formatted_asset_number department (dept_asset_number_sequence department + 1).

(** The asset number and the department object with its advanced sequence. *)
Definition _next_generated_asset_number (did : N) (department : Department) :
    M Db (string * Department) :=
  let sequence := dept_asset_number_sequence department + 1 in
  let! asset_number := _formatted_asset_number department sequence in
  save db_departments did (λ d, d <| dept_asset_number_sequence := sequence |>) ;;;
  ret (asset_number, department <| dept_asset_number_sequence := sequence |>).

(** One attempt of [_create_generated_tablet]: the new row, or [None] when the
    number is taken. *)
Definition allocation_attempt (actor did : N) (display_name asset_number : string) :
    M Db (option N) :=
  let! taken := asset_number_taken did asset_number in
  if taken then ret None else
  try_except
    (atomic (let! tid := create_tablet_row actor did display_name asset_number in
             ret (Some tid)))
    (λ e, match exn_kind e with
          | EIntegrity =>
              Some (let! taken := asset_number_taken did asset_number in
                    if taken then ret None else
                    raise invalid_request
                      "A tablet with this display name already exists in the department.")
          | _ => None
          end).

(** The loop, with the attempts that are left. *)
Fixpoint allocation_loop (attempts : nat) (actor did : N) (department : Department)
    (display_name : string) : M Db N :=
  match attempts with
  | O => raise (ETablet "asset_number_allocation_exhausted")
           "Unable to allocate a unique Tablet asset number after 1000 attempts."
  | S attempts' =>
      let! ' (asset_number, department) := _next_generated_asset_number did department in
      let! created := allocation_attempt actor did display_name asset_number in
      match created with
      | Some tid => ret tid
      | None => allocation_loop attempts' actor did department display_name
      end
  end.

Definition _create_generated_tablet (actor did : N) (department : Department)
    (display_name : string) : M Db N :=
  allocation_loop MAX_ASSET_NUMBER_ALLOCATION_ATTEMPTS actor did department display_name.

(** The branch without automatic numbers. *)
Definition create_manual_tablet (actor did : N) (display_name asset_number : string) : M Db N :=
  let! taken := asset_number_taken did asset_number in
  guard (negb (str_true asset_number && taken)) invalid_request
    "A tablet with this asset number already exists in the department." ;;;
  try_except (create_tablet_row actor did display_name asset_number)
    (λ e, match exn_kind e with
          | EIntegrity => Some (raise invalid_request
              "A tablet with this display name or asset number already exists in the department.")
          | _ => None
          end).

Definition create_tablet (actor did : N) (display_name asset_number : string) : M Db N :=
  atomic (
    let! department := get_obj db_departments did in
    require_department_admin actor (Some did) ;;;
    guard (str_true (str_strip display_name)) invalid_request
      "Tablet display name is required." ;;;
    let display_name := str_strip display_name in
    let asset_number := str_strip asset_number in
    let! taken := display_name_taken did display_name in
    guard (negb taken) invalid_request
      "A tablet with this display name already exists in the department." ;;;
    let! tid :=
      if dept_asset_number_auto_enabled department
      then _create_generated_tablet actor did department display_name
      else create_manual_tablet actor did display_name asset_number in
    record_event "tablet.created" (Some actor) (Some did) None "tablet" (Some tid) [] ;;;
    revoke_temporary_access actor "department_mutation" ;;;
    ret tid).

(** ** The lifecycle of the asset *)

Definition _require_asset_transition (tablet : Tablet) (new_status : TabletStatus) : M Db unit :=
  guard (bool_decide (new_status ∈ ASSET_TRANSITIONS (tb_status tablet))) invalid_request
    "This lifecycle transition is not available for the tablet.".

(** The rows of a tablet's installations in some state. *)
Definition installations_of (tid : N) (P : InstallationStatus → bool) :
    M Db (list (N * AppInstallation)) :=
  gets (λ s, rows (db_installations s)
    (λ _ i, N.eqb (in_tablet i) tid && P (in_status i))).

Definition has_status (st st' : InstallationStatus) : bool := bool_decide (st' = st).

Definition revoke_installation_grants (row : N * AppInstallation) : M Db unit :=
  revoke_dataset_key_grants row.1 ;;; ret tt.

(** The completed requests whose replay is still possible. *)
Definition replayable (s : Db) (tid : N) (now : Z) (r : AdoptionRequest) : bool :=
  match ar_invitation r ≫= λ k, db_invitations s !! k with
  | Some i => N.eqb (iv_tablet i) tid
  | None => false
  end
  && opt_true (ar_completed_at r)
  && match ar_completion_replay_valid_until r with Some u => now <? u | None => false end
  && negb (opt_true (ar_completion_replay_invalidated_at r)).

Definition _revoke_tablet_installations (tid : N) (reason : string) (now : Z) : M Db unit :=
  update_where db_installations
    (λ i, N.eqb (in_tablet i) tid && current_status (in_status i))
    (λ i, i <| in_status := INSTALLATION_REVOKED |> <| in_revoked_at := Some now |>
            <| in_revocation_reason := str_take 512 reason |>) ;;;
  let! invited := gets (λ s, replayable s tid now) in
  update_where db_adoption_requests invited
    (λ r, r <| ar_completion_replay_invalidated_at := Some now |>) ;;;
  let! revoked := installations_of tid (has_status INSTALLATION_REVOKED) in
  for_each revoked revoke_installation_grants ;;;
  update_where db_invitations
    (λ i, N.eqb (iv_tablet i) tid && negb (opt_true (iv_used_at i))
            && negb (opt_true (iv_revoked_at i)))
    (λ i, i <| iv_revoked_at := Some now |>) ;;;
  ret tt.

(** [tablet.save(update_fields=("status", "active"))] and what follows it in every
    transition; the object that is returned. *)
Definition save_tablet_status (actor tid : N) (tablet : Tablet) (status : TabletStatus)
    (active : bool) (action : string) : M Db Tablet :=
  save db_tablets tid (λ t, t <| tb_status := status |> <| tb_active := active |>) ;;;
  record_event action (Some actor) (Some (tb_department tablet)) None "tablet" (Some tid) [] ;;;
  revoke_temporary_access actor "department_mutation" ;;;
  ret (tablet <| tb_status := status |> <| tb_active := active |>).

Definition activate_tablet (actor tid : N) : M Db Tablet :=
  atomic (
    let! tablet := get_obj db_tablets tid in
    require_department_admin actor (Some (tb_department tablet)) ;;;
    _require_asset_transition tablet TABLET_ACTIVE ;;;
    let! now := timezone_now in
    let! department := get_obj db_departments (tb_department tablet) in
    guard (dept_active department && tb_active tablet) invalid_request
      "Tablet department must be active before activation." ;;;
    let! installation := first_where db_installations
      (λ _ i, N.eqb (in_tablet i) tid && current_status (in_status i)) by_pk in
    guard (opt_true installation) invalid_request
      "Tablet requires a current installation before it can be activated." ;;;
    let! assigned := gets (λ s, _has_current_operational_assignment s tid tablet now) in
    guard assigned invalid_request
      "Tablet requires a current active vehicle assignment before activation." ;;;
    save_tablet_status actor tid tablet TABLET_ACTIVE true "tablet.activated").

(** The body of the loop of [deactivate_tablet]. *)
Definition withdraw_installation (row : N * AppInstallation) : M Db unit :=
  revoke_dataset_key_grants row.1 ;;;
  let! now := timezone_now in
  update_where db_signed_manifests (λ m, N.eqb (sm_app_installation m) row.1)
    (λ m, m <| sm_status := MANIFEST_OBSOLETE |> <| sm_completed_at := Some now |>
            <| sm_error_message := "Tablet asset was deactivated." |>) ;;;
  ret tt.

Definition deactivate_tablet (actor tid : N) : M Db Tablet :=
  atomic (
    let! tablet := get_obj db_tablets tid in
    require_department_admin actor (Some (tb_department tablet)) ;;;
    _require_asset_transition tablet TABLET_INACTIVE ;;;
    let! current := installations_of tid current_status in
    for_each current withdraw_installation ;;;
    save_tablet_status actor tid tablet TABLET_INACTIVE true "tablet.deactivated").

Definition mark_tablet_lost (actor tid : N) (reason : string) : M Db Tablet :=
  atomic (
    let! tablet := get_obj db_tablets tid in
    require_department_admin actor (Some (tb_department tablet)) ;;;
    _require_asset_transition tablet TABLET_LOST ;;;
    let! now := timezone_now in
    _revoke_tablet_installations tid reason now ;;;
    save_tablet_status actor tid tablet TABLET_LOST false "tablet.lost").

Definition recover_tablet (actor tid : N) : M Db Tablet :=
  atomic (
    let! tablet := get_obj db_tablets tid in
    require_department_admin actor (Some (tb_department tablet)) ;;;
    _require_asset_transition tablet TABLET_INACTIVE ;;;
    save_tablet_status actor tid tablet TABLET_INACTIVE true "tablet.recovered").

Definition retire_tablet (actor tid : N) (reason : string) : M Db Tablet :=
  atomic (
    let! tablet := get_obj db_tablets tid in
    require_department_admin actor (Some (tb_department tablet)) ;;;
    _require_asset_transition tablet TABLET_RETIRED ;;;
    let! now := timezone_now in
    _revoke_tablet_installations tid reason now ;;;
    save_tablet_status actor tid tablet TABLET_RETIRED false "tablet.retired").

Definition revoke_installation (actor iid : N) (reason : string) : M Db AppInstallation :=
  atomic (
    let! installation := get_obj db_installations iid in
    let! tablet := get_obj db_tablets (in_tablet installation) in
    require_department_admin actor (Some (tb_department tablet)) ;;;
    guard (current_status (in_status installation)) invalid_request
      "Only a current installation can be revoked." ;;;
    let! now := timezone_now in
    let revoked := λ i, i <| in_status := INSTALLATION_REVOKED |> <| in_revoked_at := Some now |>
      <| in_revocation_reason := str_take 512 reason |> in
    save db_installations iid revoked ;;;
    revoke_dataset_key_grants iid ;;;
    record_event "tablet.installation_revoked" (Some actor) (Some (tb_department tablet)) None
      "app_installation" (Some iid) [] ;;;
    revoke_temporary_access actor "department_mutation" ;;;
    ret (revoked installation)).

(** ** Check-in and lease refresh *)

(** The telemetry fields of a [save(update_fields=...)]. *)
Definition telemetry_fields (supplied : bool) (installation r : AppInstallation) :
    AppInstallation :=
  if supplied then
    r <| in_app_version := in_app_version installation |>
      <| in_app_build := in_app_build installation |>
      <| in_app_version_seen_at := in_app_version_seen_at installation |>
  else r.

(** [parse_app_version(installation.app_version) < minimum_app_version] *)
Definition below_minimum (installation : AppInstallation)
    (minimum_app_version : option AppVersion) : M Db bool :=
  match minimum_app_version with
  | None => ret false
  | Some minimum =>
      let! version := parse_app_version (in_app_version installation) in
      ret (app_version_lt version minimum)
  end.

(** What a tablet sends with a request. *)
Record Telemetry := mkTelemetry {
  te_app_version : option string;
  te_app_build : option Z;
  te_build_supplied : bool
}.

Definition apply_telemetry (installation : AppInstallation) (t : Telemetry) (now : Z) :
    AppInstallation * bool :=
  update_app_telemetry installation (te_app_version t) (te_app_build t)
    (te_build_supplied t) now.

Section secrets.
Context `{HpkeSuite} `{Hash} `{Secrets}.

Definition _secret_digest (value : string) : string :=
  hex_of_bytes (hmac_sha256 SECRET_KEY value).

Definition verify_credential (installation : AppInstallation) (credential : string) : bool :=
  String.eqb (in_credential_hash installation) (_secret_digest credential).

(** The branch of [check_in] for an inactive asset. *)
Definition check_in_inactive (iid : N) (installation : AppInstallation) (tablet : Tablet)
    (telemetry : Telemetry) (minimum_app_version : option AppVersion) (now : Z) :
    M Db AppInstallation :=
  _require_inactive_control_tablet tablet ;;;
  let '(installation, telemetry_updated) := apply_telemetry installation telemetry now in
  let installation := installation <| in_last_successful_check_in_at := Some now |> in
  save db_installations iid (λ r, telemetry_fields telemetry_updated installation
    (r <| in_last_successful_check_in_at := Some now |>)) ;;;
  let! below := below_minimum installation minimum_app_version in
  ret (if below then installation <| in_compatibility_blocked := true |> else installation).

(** The end of a successful check-in: the lease is renewed if that is due, and the
    changed fields are saved. *)
Definition finish_check_in (iid : N) (installation : AppInstallation) (tablet : Tablet)
    (department : Department) (telemetry_updated : bool) (now : Z) : M Db AppInstallation :=
  let '(installation, renewed) := _renew_lease_if_due installation tablet department now in
  save db_installations iid (λ r, telemetry_fields telemetry_updated installation
    (let r := r <| in_last_successful_check_in_at :=
                     in_last_successful_check_in_at installation |> in
     if renewed then r <| in_authorization_valid_until :=
                          in_authorization_valid_until installation |> else r)) ;;;
  ret installation.

(** [check_in] once an expired lease has been ended. *)
Definition check_in_current (iid : N) (installation : AppInstallation) (tablet : Tablet)
    (department : Department) (telemetry : Telemetry)
    (minimum_app_version : option AppVersion) (now : Z) : M Db AppInstallation :=
  let '(installation, telemetry_updated) := apply_telemetry installation telemetry now in
  let! below := below_minimum installation minimum_app_version in
  if below then
    when telemetry_updated
      (save db_installations iid (telemetry_fields true installation)) ;;;
    ret (installation <| in_compatibility_blocked := true |>)
  else
    let! installation :=
      if bool_decide (in_status installation = INSTALLATION_STALE) then
        _recover_stale_installation iid installation tablet department now
      else
        _require_active_operational_tablet (in_tablet installation) tablet now ;;;
        ret (installation <| in_last_successful_check_in_at := Some now |>) in
    finish_check_in iid installation tablet department telemetry_updated now.

(** The branch of [check_in] for the other states of the asset. *)
Definition check_in_operational (iid : N) (installation : AppInstallation) (tablet : Tablet)
    (department : Department) (telemetry : Telemetry)
    (minimum_app_version : option AppVersion) (now : Z) : M Db AppInstallation :=
  let! installation :=
    if bool_decide (in_status installation = INSTALLATION_ACTIVE)
       && (in_authorization_valid_until installation <=? now)
    then _mark_stale iid installation (tb_department tablet) now
    else ret installation in
  check_in_current iid installation tablet department telemetry minimum_app_version now.

Definition check_in (iid : N) (credential : string) (telemetry : Telemetry)
    (minimum_app_version : option AppVersion) : M Db AppInstallation :=
  atomic (
    let! installation := get_obj db_installations iid in
    let! tablet := get_obj db_tablets (in_tablet installation) in
    let! department := get_obj db_departments (tb_department tablet) in
    let! now := timezone_now in
    guard (verify_credential installation credential) EPermissionDenied
      "Installation credential is invalid." ;;;
    guard (current_status (in_status installation)) installation_inactive
      "Installation is not active." ;;;
    if bool_decide (tb_status tablet = TABLET_INACTIVE) then
      check_in_inactive iid installation tablet telemetry minimum_app_version now
    else
      check_in_operational iid installation tablet department telemetry
        minimum_app_version now).

Definition refresh_installation_lease (iid : N) (credential : string) (telemetry : Telemetry)
    (minimum_app_version : option AppVersion) : M Db AppInstallation :=
  atomic (
    let! installation := get_obj db_installations iid in
    let! tablet := get_obj db_tablets (in_tablet installation) in
    let! department := get_obj db_departments (tb_department tablet) in
    let! now := timezone_now in
    guard (verify_credential installation credential) EPermissionDenied
      "Installation credential is invalid." ;;;
    guard (bool_decide (in_status installation = INSTALLATION_ACTIVE)
           && (now <? in_authorization_valid_until installation))
      installation_inactive "Installation is not active." ;;;
    _require_operational_tablet (in_tablet installation) tablet ;;;
    guard (_eligible_for_lease_renewal installation tablet department now)
      installation_inactive "Only an active, authorized installation can be renewed." ;;;
    let old_expiry := in_authorization_valid_until installation in
    let target := lease_target department now in
    let installation := installation <| in_authorization_valid_until := Z.max old_expiry target |>
      <| in_last_successful_check_in_at := Some now |> in
    let '(installation, telemetry_updated) := apply_telemetry installation telemetry now in
    let! below := below_minimum installation minimum_app_version in
    if below then
      when telemetry_updated
        (save db_installations iid (telemetry_fields true installation)) ;;;
      ret (installation <| in_compatibility_blocked := true |>)
    else
      save db_installations iid (λ r, telemetry_fields telemetry_updated installation
        (r <| in_authorization_valid_until := in_authorization_valid_until installation |>
           <| in_last_successful_check_in_at := Some now |>)) ;;;
      record_event "tablet.self_refreshed" None (Some (tb_department tablet)) None
        "app_installation" (Some iid)
        [("old_expiry", JStr (isoformat old_expiry));
         ("new_expiry", JStr (isoformat (in_authorization_valid_until installation)))] ;;;
      ret installation).

(** One row of [mark_stale_installations]. *)
Definition mark_stale_row (now : Z) (row : N * AppInstallation) : M Db unit :=
  let! tablet := get_obj db_tablets (in_tablet row.2) in
  _mark_stale row.1 row.2 (tb_department tablet) now ;;;
  ret tt.

Definition mark_stale_installations (now : option Z) : M Db Z :=
  atomic (
    let! clock := timezone_now in
    let now := default clock now in
    let! installations := gets (λ s, rows (db_installations s) (λ _ i,
      bool_decide (in_status i = INSTALLATION_ACTIVE)
      && (in_authorization_valid_until i <=? now))) in
    for_each installations (mark_stale_row now) ;;;
    ret (Z.of_nat (length installations))).

(** ** Adoption *)

(** [AdoptionInvitation.objects.create]: the token digest is unique. *)
Definition create_invitation_row (row : AdoptionInvitation) : M Db N :=
  let! taken := exists_where db_invitations
    (λ _ i, String.eqb (iv_token_hash i) (iv_token_hash row)) in
  guard (negb taken) EIntegrity "duplicate key value violates unique constraint" ;;;
  create db_invitations row.

(** The new invitation and its token. *)
Definition create_adoption_invitation (actor tid : N) (expires_at : option Z) :
    M Db (N * string) :=
  atomic (
    let! tablet := get_obj db_tablets tid in
    require_department_admin actor (Some (tb_department tablet)) ;;;
    _require_operational_tablet tid tablet ;;;
    let! token := gets token_urlsafe in
    let! now := timezone_now in
    let! invitation := create_invitation_row
      (mkAdoptionInvitation tid (_secret_digest token)
         (default (now + INVITATION_DURATION) expires_at) actor None None 0) in
    record_event "tablet.adoption_invitation_created" (Some actor)
      (Some (tb_department tablet)) None "adoption_invitation" (Some invitation) [] ;;;
    revoke_temporary_access actor "department_mutation" ;;;
    ret (invitation, token)).

Definition initiate_installation_replacement (actor tid : N) (expires_at : option Z) :
    M Db (N * string) :=
  atomic (
    let! ' (invitation, token) := create_adoption_invitation actor tid expires_at in
    let! tablet := get_obj db_tablets tid in
    record_event "tablet.installation_replacement_initiated" (Some actor)
      (Some (tb_department tablet)) None "tablet" (Some tid)
      [("adoption_invitation_id", json_uuid invitation)] ;;;
    ret (invitation, token)).

Definition _invitation_for_token (token : string) : M Db (N * AdoptionInvitation) :=
  let! found := first_where db_invitations
    (λ _ i, String.eqb (iv_token_hash i) (_secret_digest token)) by_pk in
  let! now := timezone_now in
  match found with
  | None => raise invalid_request "Invitation is invalid or expired."
  | Some (k, invitation) =>
      guard (negb (opt_true (iv_used_at invitation) || opt_true (iv_revoked_at invitation)
                   || (iv_expires_at invitation <=? now)))
        invalid_request "Invitation is invalid or expired." ;;;
      ret (k, invitation)
  end.

(** [except HPKEError as error: raise TabletError(str(error))] *)
Definition hpke_as_tablet_error {A} (m : M Db A) : M Db A :=
  try_except m (λ e, match exn_kind e with
                     | EHPKE => Some (raise invalid_request (exn_message e))
                     | _ => None
                     end).

(** The version and build of the request, in canonical form. *)
Definition parse_request_version (app_version : string) (app_build : option Z) :
    M Db (string * option Z) :=
  try_except
    (let! version := parse_app_version app_version in
     let! build := match app_build with
                   | None => ret None
                   | Some b => let! b := parse_app_build (BuildInt b) in ret (Some b)
                   end in
     ret (str_app_version version, build))
    (λ e, match exn_kind e with
          | EAppVersion => Some (raise invalid_request (exn_message e))
          | _ => None
          end).

(** The new request and its encrypted challenge. *)
Definition create_adoption_request (token : string) (installation_uuid : N)
    (app_version : string) (app_build : option Z) (hpke_public_key hpke_ciphersuite : string) :
    M Db (N * string) :=
  atomic (
    let! ' (app_version, app_build) := parse_request_version app_version app_build in
    guard (String.eqb hpke_ciphersuite HPKE_CIPHERSUITE) invalid_request
      "Unsupported HPKE cipher suite." ;;;
    let! ' (iv, invitation) := _invitation_for_token token in
    let! tablet := get_obj db_tablets (iv_tablet invitation) in
    _require_operational_tablet (iv_tablet invitation) tablet ;;;
    let! public_key := hpke_as_tablet_error (parse_p256_public_key hpke_public_key) in
    let fingerprint := public_key_fingerprint public_key in
    let! now := timezone_now in
    let expires_at := now + CHALLENGE_DURATION in
    let! request := create db_adoption_requests
      (mkAdoptionRequest (Some iv) installation_uuid (str_take 64 app_version) app_build
         hpke_public_key fingerprint hpke_ciphersuite "" "" "" expires_at None None None 0) in
    let context := _canonical_context (mkAdoptionChallengeContext request installation_uuid
      (iv_tablet invitation) fingerprint expires_at "adoption") in
    let! nonce := gets token_bytes in
    let expected := hmac_sha256 nonce context in
    let! ' (encapsulated_key, ciphertext) :=
      hpke_as_tablet_error (hpke_seal nonce public_key (ret context)) in
    let challenge := encapsulated_key +:+ ciphertext in
    save db_adoption_requests request (λ r, r <| ar_expected_hmac_digest := expected |>
      <| ar_canonical_context_hash := sha256_hex context |>
      <| ar_encrypted_challenge := challenge |>) ;;;
    ret (request, challenge)).

(** The invitation part of [_record_failed_attempt]. *)
Definition count_invitation_failure (iv : N) (now : Z) : M Db unit :=
  update_where_pk db_invitations iv
    (λ i, i <| iv_failed_attempt_count ::= λ n, n + 1 |>) ;;;
  let! invitation := get_obj db_invitations iv in
  when (MAX_FAILED_ATTEMPTS <=? iv_failed_attempt_count invitation)
    (update_where_pk db_invitations iv (λ i, i <| iv_revoked_at := Some now |>)).

Definition _record_failed_attempt (rid : N) : M Db unit :=
  atomic (
    let! now := timezone_now in
    let! request := get_obj db_adoption_requests rid in
    if opt_true (ar_completed_at request) then ret tt
    else if ar_expires_at request <=? now then ret tt
    else
      update_where_pk db_adoption_requests rid
        (λ r, r <| ar_failed_attempt_count ::= λ n, n + 1 |>) ;;;
      let! request := get_obj db_adoption_requests rid in
      match ar_invitation request with
      | Some iv => count_invitation_failure iv now
      | None => ret tt
      end ;;;
      record_event "tablet.adoption_proof_failed" None None None "adoption_request" (Some rid)
        [("failed_attempt_count", JInt (ar_failed_attempt_count request));
         ("request_id", json_uuid rid)]).

(** [AppInstallation.objects.create] under the unique constraints of the table. *)
Definition create_installation_row (row : AppInstallation) : M Db N :=
  let! taken := exists_where db_installations (λ _ i,
    N.eqb (in_installation_uuid i) (in_installation_uuid row)
    || N.eqb (in_tablet i) (in_tablet row) && current_status (in_status i)
       && current_status (in_status row)) in
  guard (negb taken) EIntegrity "duplicate key value violates unique constraint" ;;;
  create db_installations row.

Definition installation_uuid_taken (uuid : N) : M Db bool :=
  exists_where db_installations (λ _ i, N.eqb (in_installation_uuid i) uuid).

Definition already_provisioned : string :=
  "Installation UUID is already provisioned; replay the original completion request.".

(** The new installation, inside its savepoint. *)
Definition provision_installation (tid : N) (tablet : Tablet) (request : AdoptionRequest)
    (invitation : AdoptionInvitation) (credential : string) (now : Z) : M Db N :=
  let! department := get_obj db_departments (tb_department tablet) in
  try_except
    (atomic (create_installation_row
       (mkAppInstallation tid (ar_installation_uuid request) (_secret_digest credential)
          INSTALLATION_ACTIVE (ar_app_version request) (ar_app_version request)
          (ar_app_build request) now (ar_hpke_public_key request)
          (ar_hpke_ciphersuite request) (ar_hpke_public_key_fingerprint request) now now
          (Some (iv_created_by invitation)) None (lease_target department now)
          None None "" false)))
    (λ e, match exn_kind e with
          | EIntegrity => Some (
              let! taken := installation_uuid_taken (ar_installation_uuid request) in
              if taken then raise invalid_request already_provisioned else reraise e)
          | _ => None
          end).

(** The conditions under which a request may be completed. *)
Definition require_completable (request : AdoptionRequest)
    (invitation : option AdoptionInvitation) (now : Z) : M Db AdoptionInvitation :=
  guard (negb (opt_true (ar_completed_at request))) (ETablet "adoption_request_completed")
    "Adoption request has already been completed." ;;;
  guard (now <? ar_expires_at request) (ETablet "adoption_request_expired")
    "Adoption request is expired." ;;;
  guard (ar_failed_attempt_count request <? MAX_FAILED_ATTEMPTS)
    (ETablet "adoption_attempt_limit_reached")
    "Adoption request has reached the maximum failed attempts." ;;;
  match invitation with
  | None => raise invalid_request "Adoption request has no invitation."
  | Some invitation =>
      guard (negb (opt_true (iv_used_at invitation))) (ETablet "invitation_invalid")
        "Invitation has already been used." ;;;
      guard (negb (opt_true (iv_revoked_at invitation))) (ETablet "invitation_invalid")
        "Invitation has been revoked." ;;;
      ret invitation
  end.

(** The invitation a request points to. *)
Definition invitation_of (request : AdoptionRequest) : M Db (option AdoptionInvitation) :=
  match ar_invitation request with
  | None => ret None
  | Some iv => let! invitation := get_obj db_invitations iv in ret (Some invitation)
  end.

(** The new installation and its credential. *)
Definition _complete_successful_adoption (rid : N) : M Db (N * string) :=
  atomic (
    let! request := get_obj db_adoption_requests rid in
    let! invitation := invitation_of request in
    let! now := timezone_now in
    let! invitation := require_completable request invitation now in
    let tid := iv_tablet invitation in
    let! tablet := get_obj db_tablets tid in
    _require_operational_tablet tid tablet ;;;
    let! taken := installation_uuid_taken (ar_installation_uuid request) in
    guard (negb taken) invalid_request already_provisioned ;;;
    let! credential := gets token_urlsafe in
    update_where db_installations
      (λ i, N.eqb (in_tablet i) tid && current_status (in_status i))
      (λ i, i <| in_status := INSTALLATION_REPLACED |>) ;;;
    let! installation := provision_installation tid tablet request invitation credential now in
    let! replaced := installations_of tid (has_status INSTALLATION_REPLACED) in
    for_each replaced revoke_installation_grants ;;;
    save db_adoption_requests rid (λ r, r <| ar_completed_at := Some now |>
      <| ar_completion_replay_valid_until := Some (now + COMPLETION_REPLAY_DURATION) |>) ;;;
    save db_invitations (default 0%N (ar_invitation request))
      (λ i, i <| iv_used_at := Some now |>) ;;;
    record_event "tablet.adopted" (Some (iv_created_by invitation))
      (Some (tb_department tablet)) None "app_installation" (Some installation)
      [("hpke_key_fingerprint", JStr (ar_hpke_public_key_fingerprint request))] ;;;
    ret (installation, credential)).

Definition _replay_successful_completion (rid : N) (challenge_response : string) :
    M Db (N * string) :=
  atomic (
    let! request := get_obj db_adoption_requests rid in
    let! now := timezone_now in
    let! invitation := invitation_of request in
    let! invitation := get_or_raise invitation EDoesNotExist
      "AdoptionInvitation matching query does not exist." in
    let! found := first_where db_installations
      (λ _ i, N.eqb (in_installation_uuid i) (ar_installation_uuid request)) by_pk in
    let! ' (iid, installation) := get_or_raise found EDoesNotExist
      "AppInstallation matching query does not exist." in
    let! tablet := get_obj db_tablets (in_tablet installation) in
    guard (opt_true (ar_completed_at request)
           && match ar_completion_replay_valid_until request with
              | Some u => now <? u | None => false end
           && negb (opt_true (ar_completion_replay_invalidated_at request))
           && negb (opt_true (iv_revoked_at invitation))
           && String.eqb (ar_expected_hmac_digest request) challenge_response)
      (ETablet "adoption_request_completed") "Completion recovery is not available." ;;;
    guard (match in_status installation with
           | INSTALLATION_REVOKED | INSTALLATION_REPLACED => false | _ => true end)
      installation_inactive "Completion recovery is not available." ;;;
    let! credential := gets token_urlsafe in
    save db_installations iid (λ i, i <| in_credential_hash := _secret_digest credential |>) ;;;
    record_event "tablet.completion_recovered" (Some (iv_created_by invitation))
      (Some (tb_department tablet)) None "app_installation" (Some iid)
      [("mode", JStr "adoption")] ;;;
    ret (iid, credential)).

(** [complete_adoption] is not a transaction: it reads the request, and other
    sessions may act ([others]) before the transaction it then starts. *)
Definition complete_adoption (others : M Db unit) (rid : N) (challenge_response : string)
    (confirmed : bool) : M Db (N * string) :=
  guard confirmed invalid_request "Adoption was not confirmed." ;;;
  let! request := get_obj db_adoption_requests rid in
  let! invitation := invitation_of request in
  let! now := timezone_now in
  if opt_true (ar_completed_at request) then
    others ;;; _replay_successful_completion rid challenge_response
  else
    require_completable request invitation now ;;;
    if String.eqb (ar_expected_hmac_digest request) challenge_response then
      others ;;; _complete_successful_adoption rid
    else
      others ;;; _record_failed_attempt rid ;;;
      raise (ETablet "adoption_proof_invalid") "Adoption proof is invalid.".
End secrets.
