(* ===== verification/Accounts.v ===== *)
(** Accounts, [apps/accounts/services.py] and [apps/accounts/managers.py]: new
    accounts and their setup tokens, the end of an account, and the throttling of
    failed sign-ins; and what the management commands do for the first system
    administrator.  Columns that Django fills by itself and no modelled code reads
    ([created_at], [updated_at]) are left out. *)
From S2P Require Import Prelude Text Models Store Tablets.

(** What the package takes from Django and [secrets]: [salted_hmac(salt, value)] as a
    hexadecimal digest, the salted hash of a password, [normalize_email] and
    [secrets.token_hex(16)]; random values are functions of the store. *)
Class Accounts := {
  salted_hmac : string → string → string;
  make_password : Db → string → string;
  normalize_email : string → string;
  token_hex : Db → string;
  AUTH_THROTTLE_WINDOW_SECONDS : Z;
  AUTH_THROTTLE_MAX_FAILURES : Z;
  AUTH_THROTTLE_LOCKOUT_SECONDS : Z
}.

Definition MICROSECONDS_PER_SECOND : Z := 1000000.
Definition SETUP_TOKEN_DURATION : Z := 24 * 60 * MICROSECONDS_PER_MINUTE.

(** The unique constraints of the accounts. *)
Definition accounts_user_email_key : string := "accounts_user_email_key".
Definition setup_token_hash_key : string := "accounts_accountsetuptoken_token_hash_key".

(** [AccountSetupToken.is_usable] *)
Definition is_usable (token : AccountSetupToken) (now : Z) : bool :=
  negb (opt_true (tk_used_at token)) && (now <? tk_expires_at token).

Section accounts.
Context `{Secrets} `{Accounts}.

Definition _hash (value : string) : string := salted_hmac "fire-backend-auth" value.

Definition email_taken (email : string) : M Db bool :=
  exists_where db_users (λ _ u, String.eqb (us_email u) email).

Definition duplicate_email {A} : M Db A :=
  raise EDuplicateEmail "An account with this email address already exists.".

Definition validate_new_account_email (email : string) : M Db string :=
  let email := str_casefold (normalize_email email) in
  let! taken := email_taken email in
  if taken then duplicate_email else ret email.

(** [user.set_password(raw)]; without a password it becomes unusable. *)
Definition set_password (uid : N) (raw_password : string) : M Db unit :=
  let! hashed := gets (λ s, make_password s raw_password) in
  save db_users uid (λ u, u <| us_password := Some hashed |>).

(** [User.objects.create_user] without a password, which leaves it unusable. *)
Definition create_user (email display_name : string) : M Db N :=
  guard (str_true email) EValue "Users must have an email address." ;;;
  guard (str_true display_name) EValue "Users must have a display name." ;;;
  let email := str_casefold (normalize_email email) in
  let! taken := email_taken email in
  guard (negb taken) EIntegrity accounts_user_email_key ;;;
  create db_users (mkUser true true email display_name None false).

Definition anonymous_email (token : string) : string :=
  "deleted-" +:+ token +:+ "@anonymized.invalid".

Definition permanently_deactivate_and_anonymize_user (uid : N) : M Db unit :=
  let! now := timezone_now in
  let! token := gets token_hex in
  let! taken := exists_where db_users
    (λ k u, negb (N.eqb k uid) && String.eqb (us_email u) (anonymous_email token)) in
  guard (negb taken) EIntegrity accounts_user_email_key ;;;
  save db_users uid (λ u, u <| us_email := anonymous_email token |>
    <| us_display_name := "Deleted administrator" |> <| us_is_active := false |>
    <| us_mfa_enabled := false |> <| us_password := None |>) ;;;
  update_where db_setup_tokens
    (λ t, N.eqb (tk_user t) uid && negb (opt_true (tk_used_at t)))
    (λ t, t <| tk_used_at := Some now |>) ;;;
  ret tt.

(** ** Setup tokens *)

Definition create_setup_token_for_user (user actor : N) : M Db (N * string) :=
  let! raw_token := gets token_urlsafe in
  let! now := timezone_now in
  let! taken := exists_where db_setup_tokens (λ _ t, String.eqb (tk_token_hash t) (_hash raw_token)) in
  guard (negb taken) EIntegrity setup_token_hash_key ;;;
  let! token := create db_setup_tokens
    (mkAccountSetupToken user (_hash raw_token) (now + SETUP_TOKEN_DURATION) actor None) in
  ret (token, raw_token).

(** A new account, which its owner activates with the token; the user, the token and
    the secret. *)
Definition create_setup_token (actor : N) (email display_name : string) : M Db (N * N * string) :=
  let! email := validate_new_account_email email in
  try_except
    (atomic (
      let! user := create_user email display_name in
      save db_users user (λ u, u <| us_password := None |> <| us_is_active := false |>) ;;;
      let! ' (token, raw_token) := create_setup_token_for_user user actor in
      ret (user, token, raw_token)))
    (λ e, if bool_decide (exn_kind e = EIntegrity) then
            Some (if String.eqb (exn_message e) accounts_user_email_key then duplicate_email
                  else reraise e)
          else None).

(** The user whose account the token activates, or [None]. *)
Definition consume_setup_token (raw_token password : string) : M Db (option N) :=
  let token_hash := _hash raw_token in
  atomic (
    let! found := first_where db_setup_tokens
      (λ _ t, String.eqb (tk_token_hash t) token_hash) by_pk in
    let! now := timezone_now in
    match found with
    | Some (k, token) =>
        if negb (String.eqb (tk_token_hash token) token_hash) || negb (is_usable token now)
        then ret None
        else
          set_password (tk_user token) password ;;;
          save db_users (tk_user token) (λ u, u <| us_is_active := true |>) ;;;
          save db_setup_tokens k (λ t, t <| tk_used_at := Some now |>) ;;;
          ret (Some (tk_user token))
    | None => ret None
    end).

(** ** Throttling *)

(** The hashed account name and, when it is known, the hashed address. *)
Definition throttle_subjects (account : string) (source_ip : option string) :
    list (string * string) :=
  ("ACCOUNT", str_casefold account) ::
  match source_ip with
  | Some ip => if str_true ip then [("IP", ip)] else []
  | None => []
  end.

Definition is_throttled (scope account : string) (source_ip : option string) : M Db bool :=
  let! now := timezone_now in
  let hashes := (λ x, _hash x.2) <$> throttle_subjects account source_ip in
  exists_where db_throttles (λ _ t,
    String.eqb (th_scope t) scope && existsb (String.eqb (th_subject_hash t)) hashes
    && match th_locked_until t with Some u => now <? u | None => false end).

(** One more failure; a window that is over starts again. *)
Definition count_failure (now : Z) (t : AuthenticationThrottle) : AuthenticationThrottle :=
  let t :=
    if th_window_started_at t + AUTH_THROTTLE_WINDOW_SECONDS * MICROSECONDS_PER_SECOND <=? now
    then t <| th_failure_count := 0 |> <| th_window_started_at := now |>
           <| th_locked_until := None |>
    else t in
  let t := t <| th_failure_count ::= λ n, n + 1 |> in
  if AUTH_THROTTLE_MAX_FAILURES <=? th_failure_count t
  then t <| th_locked_until :=
             Some (now + AUTH_THROTTLE_LOCKOUT_SECONDS * MICROSECONDS_PER_SECOND) |>
  else t.

Definition throttle_of (scope subject hash : string) (t : AuthenticationThrottle) : bool :=
  String.eqb (th_scope t) scope && String.eqb (th_subject t) subject
  && String.eqb (th_subject_hash t) hash.

Definition record_failure (scope : string) (now : Z) (x : string * string) : M Db unit :=
  let hash := _hash x.2 in
  atomic (
    let! found := first_where db_throttles (λ _ t, throttle_of scope x.1 hash t) by_pk in
    let! k :=
      match found with
      | Some (k, _) => ret k
      | None => create db_throttles (mkAuthenticationThrottle scope x.1 hash 0 now None)
      end in
    save db_throttles k (count_failure now)).

Definition record_auth_failure (scope account : string) (source_ip : option string) : M Db unit :=
  let! now := timezone_now in
  for_each (throttle_subjects account source_ip) (record_failure scope now).

(** ** The first system administrator *)

(** The transaction of [bootstrap_system_admin]. *)
Definition bootstrap_system_admin (email display_name : string) : M Db string :=
  let email := str_casefold email in
  atomic (
    let! exists_admin := exists_where db_system_roles (λ _ r, sr_active r) in
    guard (negb exists_admin) ECommand "An active system administrator already exists." ;;;
    let! taken := email_taken email in
    guard (negb taken) ECommand "A user with this email already exists." ;;;
    let! user := create_user email display_name in
    save db_users user (λ u, u <| us_password := None |> <| us_is_active := false |>) ;;;
    let! ' (_, token) := create_setup_token_for_user user user in
    create db_system_roles (mkSystemRole user true) ;;;
    ret token).

(** The transaction of [reissue_system_admin_setup]. *)
Definition reissue_setup (k : N) : M Db string :=
  atomic (
    let! role := get_obj db_system_roles k in
    let! user := get_obj db_users (sr_user role) in
    guard (negb (us_is_active user)) ECommand
      "The system administrator is already active; refusing to reissue." ;;;
    let! now := timezone_now in
    update_where db_setup_tokens
      (λ t, N.eqb (tk_user t) (sr_user role) && negb (opt_true (tk_used_at t)))
      (λ t, t <| tk_expires_at := now |>) ;;;
    let! ' (_, raw_token) := create_setup_token_for_user (sr_user role) (sr_user role) in
    ret raw_token).

(** [reissue_system_admin_setup], once the URL is checked. *)
Definition reissue_system_admin_setup : M Db string :=
  let! active_roles := select_ordered db_system_roles (λ _ r, sr_active r) by_pk in
  match active_roles with
  | [] => raise ECommand "No system administrator exists."
  | [(k, _)] => reissue_setup k
  | _ => raise ECommand "Multiple system administrators exist; refusing to reissue."
  end.
End accounts.
