(* ===== verification/Roles.v ===== *)
(** The administration of departments and of roles, [apps/authorization/services.py]:
    the settings of a department, the authority to use the managed mail service, the
    version policy, and the life of department and station administrators.  A row
    that the caller hands over is named by its primary key; the services lock and read
    it again.  The rescue guides configuration is in [Manifests.v]. *)
From S2P Require Import Prelude Text Versions Models Store Authorization ApplicationSecrets.
From S2P Require Import Tablets.
From S2P Require Import Accounts.

(** [DEPARTMENT_LOCALE_CHOICES] and [DEPARTMENT_TIMEZONE_CHOICES], the values. *)
Definition DEPARTMENT_LOCALE_CHOICES : list string :=
  ["de-DE"; "de-AT"; "de-CH"; "en-GB"; "fr-FR"; "it-IT"; "nl-NL"; "pl-PL"; "cs-CZ"; "sk-SK";
   "hu-HU"; "da-DK"; "sv-SE"; "nb-NO"; "fi-FI"; "es-ES"; "pt-PT"].

Definition DEPARTMENT_TIMEZONE_CHOICES : list string :=
  ["Europe/Berlin"; "Europe/Vienna"; "Europe/Zurich"; "Europe/Paris"; "Europe/Amsterdam";
   "Europe/Brussels"; "Europe/Luxembourg"; "Europe/Rome"; "Europe/Madrid"; "Europe/Lisbon";
   "Europe/London"; "Europe/Dublin"; "Europe/Copenhagen"; "Europe/Stockholm"; "Europe/Oslo";
   "Europe/Helsinki"; "Europe/Warsaw"; "Europe/Prague"; "Europe/Bratislava";
   "Europe/Budapest"; "Europe/Ljubljana"; "Europe/Zagreb"; "Europe/Sarajevo";
   "Europe/Belgrade"; "Europe/Sofia"; "Europe/Bucharest"; "Europe/Athens"; "Europe/Tallinn";
   "Europe/Riga"; "Europe/Vilnius"].

Definition DEFAULT_DEPARTMENT_TIMEZONE : string := "Europe/Berlin".
Definition DEFAULT_DEPARTMENT_LOCALE : string := "de-DE".

Definition mem_string (x : string) (l : list string) : bool := existsb (String.eqb x) l.

(** What every mutation of a department ends with. *)
Definition department_mutation (actor : N) : M Db unit :=
  revoke_temporary_access actor "department_mutation" ;;; ret tt.

(** ** Managed mail *)

Definition is_system_managed_mail_allowed (s : Db) (department : N) : bool :=
  exists_row (db_mail_eligibilities s)
    (λ _ e, N.eqb (me_department e) department && me_allowed e).

Definition set_system_managed_mail_eligibility (actor department : N) (allowed : bool) : M Db N :=
  atomic (
    require_system_admin actor ;;;
    let! found := first_where db_mail_eligibilities
      (λ _ e, N.eqb (me_department e) department) by_pk in
    let changed k :=
      record_event
        (if allowed then "authorization.department_managed_mail_eligibility_granted"
         else "authorization.department_managed_mail_eligibility_revoked")
        (Some actor) (Some department) None "department_managed_mail_eligibility" (Some k)
        [("allowed", JBool allowed)] ;;;
      ret k in
    match found with
    | Some (k, e) =>
        if Bool.eqb (me_allowed e) allowed then ret k else
        save db_mail_eligibilities k (λ e, e <| me_allowed := allowed |>
          <| me_updated_by := Some actor |>) ;;;
        changed k
    | None =>
        let! k := create db_mail_eligibilities
          (mkDepartmentManagedMailEligibility department allowed (Some actor)) in
        changed k
    end).

Definition grant_system_managed_mail_eligibility (actor department : N) : M Db N :=
  set_system_managed_mail_eligibility actor department true.

Definition revoke_system_managed_mail_eligibility (actor department : N) : M Db N :=
  set_system_managed_mail_eligibility actor department false.

(** ** The version policy *)

Definition json_opt_str (o : option string) : json :=
  match o with Some x => JStr x | None => JNull end.

(** The version in its normal form, or the [ValueError] of a bad one. *)
Definition normalized_version (minimum_app_version : option string) : M Db (option string) :=
  match minimum_app_version with
  | Some v =>
      if str_true v then
        try_except (let! version := parse_app_version v in ret (Some (str_app_version version)))
          (λ e, if bool_decide (exn_kind e = EAppVersion)
                then Some (raise EValue (exn_message e)) else None)
      else ret None
  | None => ret None
  end.

Definition set_api_version_compatibility_policy (actor : N) (api_major : Z)
    (minimum_app_version : option string) : M Db N :=
  atomic (
    require_system_admin actor ;;;
    guard (1 <=? api_major) EValue "API major must be positive." ;;;
    let! normalized := normalized_version minimum_app_version in
    let! found := first_where db_version_policies (λ _ p, vp_api_major p =? api_major) by_pk in
    let! ' (k, old_value, created) :=
      match found with
      | Some (k, p) => ret (k, vp_minimum_app_version p, false)
      | None =>
          let! k := create db_version_policies
            (mkApiVersionCompatibilityPolicy api_major normalized actor) in
          ret (k, normalized, true)
      end in
    save db_version_policies k (λ p, p <| vp_minimum_app_version := normalized |>
      <| vp_updated_by := actor |>) ;;;
    when (created || negb (bool_decide (old_value = normalized)))
      (record_event "api_compatibility_policy.updated" (Some actor) None None
         "api_version_compatibility_policy" None
         [("api_major", JInt api_major); ("old_minimum", json_opt_str old_value);
          ("new_minimum", json_opt_str normalized)]) ;;;
    ret k).

(** [classify_system_admin_state] *)
Definition classify_system_admin_state (s : Db) (roles : list SystemRole) : string :=
  match roles with
  | [] => "none"
  | [r] => if user_is_active s (sr_user r) then "active" else "inactive"
  | _ => "multiple"
  end.

(** ** The settings of a department *)

Definition lease_days_ok (days : Z) : bool := (3 <=? days) && (days <=? 365).

Definition lease_days_error : string :=
  "Tablet lease duration must be between 3 and 365 days.".

(** Whether the lease of the locked department changed; the change is recorded. *)
Definition change_tablet_lease (actor did : N) (tablet_lease_days : Z) : M Db bool :=
  let! department := get_obj db_departments did in
  let old_value := dept_tablet_lease_days department in
  if old_value =? tablet_lease_days then ret false else
  save db_departments did (λ d, d <| dept_tablet_lease_days := tablet_lease_days |>) ;;;
  record_event "authorization.department_tablet_lease_changed" (Some actor) (Some did) None
    "department" (Some did)
    [("old_days", JInt old_value); ("new_days", JInt tablet_lease_days)] ;;;
  ret true.

Definition set_department_tablet_lease (actor did : N) (tablet_lease_days : Z) : M Db unit :=
  atomic (
    require_department_admin actor (Some did) ;;;
    guard (lease_days_ok tablet_lease_days) EValue lease_days_error ;;;
    let! changed := change_tablet_lease actor did tablet_lease_days in
    when changed (department_mutation actor)).

Definition set_system_department_tablet_lease (actor did : N) (tablet_lease_days : Z) :
    M Db unit :=
  atomic (
    require_system_admin actor ;;;
    guard (lease_days_ok tablet_lease_days) EValue lease_days_error ;;;
    change_tablet_lease actor did tablet_lease_days ;;;
    ret tt).

Definition set_department_tablet_asset_number_policy (actor did : N) (auto_enabled : bool)
    (prefix : string) (width : Z) : M Db unit :=
  atomic (
    require_department_admin actor (Some did) ;;;
    let prefix := str_strip prefix in
    guard ((1 <=? width) && (width <=? 20)) EValue
      "Tablet asset-number width must be between 1 and 20 digits." ;;;
    guard (Z.of_nat (String.length prefix) + width <=? Z.of_nat ASSET_NUMBER_MAX_LENGTH) EValue
      "The prefix and number width must fit within the Tablet asset-number length." ;;;
    let! department := get_obj db_departments did in
    let old_auto_enabled := dept_asset_number_auto_enabled department in
    let old_prefix := dept_asset_number_prefix department in
    let old_width := Z.of_nat (dept_asset_number_width department) in
    if Bool.eqb old_auto_enabled auto_enabled && String.eqb old_prefix prefix
       && (old_width =? width)
    then ret tt else
    save db_departments did (λ d, d <| dept_asset_number_auto_enabled := auto_enabled |>
      <| dept_asset_number_prefix := prefix |>
      <| dept_asset_number_width := Z.to_nat width |>) ;;;
    record_event "authorization.department_tablet_asset_number_policy_changed" (Some actor)
      (Some did) None "department" (Some did)
      [("old_auto_enabled", JBool old_auto_enabled); ("new_auto_enabled", JBool auto_enabled);
       ("old_prefix", JStr old_prefix); ("new_prefix", JStr prefix);
       ("old_width", JInt old_width); ("new_width", JInt width)] ;;;
    department_mutation actor).

Definition set_department_locale_time_policy (actor did : N) (locale timezone_name : string) :
    M Db unit :=
  atomic (
    require_department_admin actor (Some did) ;;;
    guard (mem_string locale DEPARTMENT_LOCALE_CHOICES) EValue
      "Unsupported Department locale." ;;;
    guard (mem_string timezone_name DEPARTMENT_TIMEZONE_CHOICES) EValue
      "Unsupported Department timezone." ;;;
    let! department := get_obj db_departments did in
    if String.eqb (dept_locale department) locale
       && String.eqb (dept_timezone department) timezone_name
    then ret tt else
    save db_departments did (λ d, d <| dept_locale := locale |>
      <| dept_timezone := timezone_name |>) ;;;
    record_event "authorization.department_locale_time_policy_changed" (Some actor) (Some did)
      None "department" (Some did)
      [("old_locale", JStr (dept_locale department)); ("new_locale", JStr locale);
       ("old_timezone", JStr (dept_timezone department));
       ("new_timezone", JStr timezone_name)] ;;;
    department_mutation actor).

(** A [Department] with the defaults of its columns. *)
Definition new_department (actor : N) (name short_code : string) : Department :=
  mkDepartment name short_code DEPARTMENT_ACTIVE 7 false "" 1 0 DEFAULT_DEPARTMENT_LOCALE
    DEFAULT_DEPARTMENT_TIMEZONE actor.

Definition create_department (actor : N) (name short_code : string) : M Db N :=
  atomic (
    require_system_admin actor ;;;
    let! did := create db_departments
      (new_department actor (str_strip name) (str_strip short_code)) in
    record_event "organization.department_created" (Some actor) (Some did) None "department"
      (Some did) [] ;;;
    ret did).

(** [Department.Status(status)], for the values of the enumeration. *)
Definition department_status (status : string) : option DepartmentStatus :=
  if String.eqb status "ACTIVE" then Some DEPARTMENT_ACTIVE
  else if String.eqb status "SUSPENDED" then Some DEPARTMENT_SUSPENDED
  else if String.eqb status "DEACTIVATED" then Some DEPARTMENT_DEACTIVATED
  else None.

Definition change_department_status (actor did : N) (status : string) : M Db unit :=
  atomic (
    require_system_admin actor ;;;
    let! status := get_or_raise (department_status status) EValue "Invalid department status." in
    save db_departments did (λ d, d <| dept_status := status |>) ;;;
    when (negb (bool_decide (status = DEPARTMENT_ACTIVE)))
      (revoke_department_temporary_accesses did actor ;;; ret tt) ;;;
    record_event "organization.department_status_changed" (Some actor) (Some did) None
      "department" (Some did) []).

(** ** Administrators *)

Definition one_active_department_admin : string := "one_active_department_admin".
Definition one_active_station_admin_assignment : string := "one_active_station_admin_assignment".

(** [DepartmentMembership.objects.create], under the constraint that a user has one
    active membership. *)
Definition create_membership (user department actor : N) : M Db N :=
  let! taken := exists_where db_memberships (λ _ m, N.eqb (dm_user m) user && dm_active m) in
  guard (negb taken) EIntegrity one_active_department_admin ;;;
  create db_memberships
    (mkDepartmentMembership user department AUTHORITY_ACTIVE actor None None None None).

(** [StationAdminAssignment.objects.create], under the constraint that a user has one
    active assignment to a station. *)
Definition create_station_assignment (user station actor : N) : M Db N :=
  let! taken := exists_where db_station_admins
    (λ _ a, N.eqb (sa_user a) user && N.eqb (sa_station a) station && sa_active a) in
  guard (negb taken) EIntegrity one_active_station_admin_assignment ;;;
  create db_station_admins
    (mkStationAdminAssignment user station AUTHORITY_ACTIVE actor None None None None).

Definition suspend_membership (mid actor : N) : M Db unit :=
  let! now := timezone_now in
  save db_memberships mid (λ m, m <| dm_status := AUTHORITY_SUSPENDED |>
    <| dm_suspended_at := Some now |> <| dm_suspended_by := Some actor |>).

Definition revoke_membership (mid actor : N) : M Db unit :=
  let! now := timezone_now in
  save db_memberships mid (λ m, m <| dm_status := AUTHORITY_REVOKED |>
    <| dm_revoked_at := Some now |> <| dm_revoked_by := Some actor |>).

Definition suspend_assignment (aid actor : N) : M Db unit :=
  let! now := timezone_now in
  save db_station_admins aid (λ a, a <| sa_status := AUTHORITY_SUSPENDED |>
    <| sa_suspended_at := Some now |> <| sa_suspended_by := Some actor |>).

Definition revoke_assignment (aid actor : N) : M Db unit :=
  let! now := timezone_now in
  save db_station_admins aid (λ a, a <| sa_status := AUTHORITY_REVOKED |>
    <| sa_revoked_at := Some now |> <| sa_revoked_by := Some actor |>).

Definition _require_tenant_lifecycle_actor (actor did : N) : M Db unit :=
  let! admin := gets (λ s, is_system_admin s actor) in
  guard (negb admin) EPermissionDenied
    "System administrators may not manage tenant administrator lifecycle." ;;;
  require_department_admin actor (Some did).

Definition last_admin_error : string :=
  "An operational department must retain one effective Department Administrator.".

Definition _prevent_last_effective_admin_removal (did mid : N) (membership : DepartmentMembership) :
    M Db unit :=
  if negb (dm_active membership) then ret tt else
  let! effective := gets (λ s, effective_department_admin_memberships s (Some did)) in
  if negb (mem_N mid effective.*1) then ret tt else
  guard (Nat.ltb 1 (length effective)) EValue last_admin_error.

(** The event of a change to a membership of the department. *)
Definition membership_event (action : string) (actor did mid : N) : M Db unit :=
  record_event action (Some actor) (Some did) None "department_membership" (Some mid) [].

Definition assignment_event (action : string) (actor did station aid : N) : M Db unit :=
  record_event action (Some actor) (Some did) (Some station) "station_admin_assignment"
    (Some aid) [].

Definition suspend_department_admin (actor mid : N) : M Db unit :=
  atomic (
    let! membership := get_obj db_memberships mid in
    let did := dm_department membership in
    _require_tenant_lifecycle_actor actor did ;;;
    guard (dm_active membership) EValue
      "Only an active Department Administrator can be suspended." ;;;
    _prevent_last_effective_admin_removal did mid membership ;;;
    suspend_membership mid actor ;;;
    revoke_temporary_access_for_user (dm_user membership) actor ;;;
    membership_event "authorization.department_admin_suspended" actor did mid ;;;
    department_mutation actor).

Definition reinstate_department_admin (actor mid : N) : M Db unit :=
  atomic (
    let! membership := get_obj db_memberships mid in
    let did := dm_department membership in
    _require_tenant_lifecycle_actor actor did ;;;
    guard (bool_decide (dm_status membership = AUTHORITY_SUSPENDED)) EValue
      "Only a suspended Department Administrator can be reinstated." ;;;
    let! elsewhere := exists_where db_memberships (λ k m,
      N.eqb (dm_user m) (dm_user membership) && dm_active m && negb (N.eqb k mid)) in
    guard (negb elsewhere) EValue "This account already actively administers a department." ;;;
    save db_memberships mid (λ m, m <| dm_status := AUTHORITY_ACTIVE |>) ;;;
    membership_event "authorization.department_admin_reinstated" actor did mid ;;;
    department_mutation actor).

Definition revoke_department_admin (actor mid : N) : M Db unit :=
  atomic (
    let! membership := get_obj db_memberships mid in
    let did := dm_department membership in
    _require_tenant_lifecycle_actor actor did ;;;
    guard (negb (bool_decide (dm_status membership = AUTHORITY_REVOKED))) EValue
      "Only active or suspended Department Administrator authority can be revoked." ;;;
    _prevent_last_effective_admin_removal did mid membership ;;;
    revoke_membership mid actor ;;;
    revoke_temporary_access_for_user (dm_user membership) actor ;;;
    membership_event "authorization.department_admin_revoked" actor did mid ;;;
    department_mutation actor).

Definition revoke_station_admin (actor aid : N) : M Db unit :=
  atomic (
    let! assignment := get_obj db_station_admins aid in
    let! station := get_obj db_stations (sa_station assignment) in
    let did := st_department station in
    _require_tenant_lifecycle_actor actor did ;;;
    guard (negb (bool_decide (sa_status assignment = AUTHORITY_REVOKED))) EValue
      "Only active or suspended Station Administrator authority can be revoked." ;;;
    revoke_assignment aid actor ;;;
    assignment_event "authorization.station_admin_revoked" actor did (sa_station assignment) aid ;;;
    department_mutation actor).

Definition suspend_station_admin (actor aid : N) : M Db unit :=
  atomic (
    let! assignment := get_obj db_station_admins aid in
    let! station := get_obj db_stations (sa_station assignment) in
    let did := st_department station in
    _require_tenant_lifecycle_actor actor did ;;;
    guard (sa_active assignment) EValue
      "Only an active Station Administrator can be suspended." ;;;
    suspend_assignment aid actor ;;;
    assignment_event "authorization.station_admin_suspended" actor did (sa_station assignment)
      aid ;;;
    department_mutation actor).

Definition reinstate_station_admin (actor aid : N) : M Db unit :=
  atomic (
    let! assignment := get_obj db_station_admins aid in
    let! station := get_obj db_stations (sa_station assignment) in
    let did := st_department station in
    _require_tenant_lifecycle_actor actor did ;;;
    guard (bool_decide (sa_status assignment = AUTHORITY_SUSPENDED)) EValue
      "Only a suspended Station Administrator can be reinstated." ;;;
    let! elsewhere := exists_where db_station_admins (λ k a,
      N.eqb (sa_user a) (sa_user assignment) && N.eqb (sa_station a) (sa_station assignment)
      && sa_active a && negb (N.eqb k aid)) in
    guard (negb elsewhere) EValue "This account already has active authority for this station." ;;;
    save db_station_admins aid (λ a, a <| sa_status := AUTHORITY_ACTIVE |>) ;;;
    assignment_event "authorization.station_admin_reinstated" actor did (sa_station assignment)
      aid ;;;
    department_mutation actor).

Definition grant_station_admin (actor user sid : N) : M Db N :=
  atomic (
    let! station := get_obj db_stations sid in
    let did := st_department station in
    require_department_admin actor (Some did) ;;;
    let! found := first_where db_station_admins
      (λ _ a, N.eqb (sa_user a) user && N.eqb (sa_station a) sid && sa_active a) by_pk in
    match found with
    | Some (aid, _) => ret aid
    | None =>
        let! aid := create_station_assignment user sid actor in
        assignment_event "authorization.station_admin_granted" actor did sid aid ;;;
        department_mutation actor ;;;
        ret aid
    end).

Section provisioning.
Context `{Secrets} `{Accounts}.

Definition provision_department_admin (actor did : N) (email display_name : string) :
    M Db string :=
  atomic (
    let! department := get_obj db_departments did in
    let! system_actor := gets (λ s, is_system_admin s actor) in
    (if system_actor then
      guard (dept_active department) EPermissionDenied
        "Department must be operational before administrator bootstrap." ;;;
      let! effective := gets (λ s, effective_department_admin_memberships s (Some did)) in
      guard (match effective with [] => true | _ => false end) EPermissionDenied
        "System administrators may only bootstrap orphaned departments."
    else
      let! departments := gets (λ s, active_department_ids s actor) in
      guard (mem_N did departments) EPermissionDenied
        "Department administrator scope is required.") ;;;
    let! had_prior_authority := exists_where db_memberships (λ _ m, N.eqb (dm_department m) did) in
    let! ' (user, _, raw_token) := create_setup_token actor email display_name in
    create_membership user did actor ;;;
    record_event
      (if system_actor && had_prior_authority then "authorization.department_admin_orphan_recovered"
       else if system_actor then "authorization.department_admin_bootstrapped"
       else "authorization.department_admin_provisioned")
      (Some actor) (Some did) None "user" (Some user) [] ;;;
    department_mutation actor ;;;
    ret raw_token).

Definition provision_station_admin (actor sid : N) (email display_name : string) : M Db string :=
  atomic (
    let! station := get_obj db_stations sid in
    let did := st_department station in
    require_department_admin actor (Some did) ;;;
    let! ' (user, _, raw_token) := create_setup_token actor email display_name in
    create_station_assignment user sid actor ;;;
    record_event "authorization.station_admin_provisioned" (Some actor) (Some did) (Some sid)
      "user" (Some user) [] ;;;
    department_mutation actor ;;;
    ret raw_token).

(** The station of an assignment belongs to the department. *)
Definition assignment_in (s : Db) (did : N) (a : StationAdminAssignment) : bool :=
  match db_stations s !! sa_station a with
  | Some x => N.eqb (st_department x) did
  | None => false
  end.

(** The two loops of the permanent removal. *)
Definition remove_membership (actor did : N) (row : N * DepartmentMembership) : M Db unit :=
  _prevent_last_effective_admin_removal did row.1 row.2 ;;;
  when (negb (bool_decide (dm_status row.2 = AUTHORITY_REVOKED))) (revoke_membership row.1 actor).

Definition remove_assignment (actor : N) (row : N * StationAdminAssignment) : M Db unit :=
  when (negb (bool_decide (sa_status row.2 = AUTHORITY_REVOKED))) (revoke_assignment row.1 actor).

Definition permanently_remove_administrator (actor user did : N) : M Db unit :=
  atomic (
    let! _ := get_obj db_departments did in
    _require_tenant_lifecycle_actor actor did ;;;
    let! user_admin := gets (λ s, is_system_admin s user) in
    guard (negb user_admin) EValue
      "A System Administrator cannot be permanently removed from tenant administration." ;;;
    let! memberships := select_ordered db_memberships
      (λ _ m, N.eqb (dm_user m) user && N.eqb (dm_department m) did) by_pk in
    let! assignments := gets (λ s, order_by by_pk (rows (db_station_admins s)
      (λ _ a, N.eqb (sa_user a) user && assignment_in s did a))) in
    guard (match memberships, assignments with [], [] => false | _, _ => true end) EValue
      "User has no administrator authority in this department." ;;;
    let! elsewhere := gets (λ s,
      exists_row (db_memberships s)
        (λ _ m, N.eqb (dm_user m) user && dm_active m && negb (N.eqb (dm_department m) did))
      || exists_row (db_station_admins s)
        (λ _ a, N.eqb (sa_user a) user && sa_active a && negb (assignment_in s did a))) in
    guard (negb elsewhere) EValue
      "Administrator has authority outside this department and cannot be permanently removed here." ;;;
    for_each memberships (remove_membership actor did) ;;;
    for_each assignments (remove_assignment actor) ;;;
    revoke_temporary_access_for_user user actor ;;;
    permanently_deactivate_and_anonymize_user user ;;;
    record_event "authorization.administrator_permanently_removed" (Some actor) (Some did) None
      "user" (Some user)
      [("department_authority_count", JInt (Z.of_nat (length memberships)));
       ("station_authority_count", JInt (Z.of_nat (length assignments)));
       ("station_id", match assignments with
                      | [(_, a)] => json_uuid (sa_station a) | _ => JNull end)] ;;;
    department_mutation actor).
End provisioning.
