(* ===== verification/TabletQueries.v ===== *)
(** Reading the tablets: the queries of the management pages
    ([apps/tablets/queries.py]) and the bounded request diagnostics
    ([apps/tablets/activity.py]). *)
From S2P Require Import Prelude Text Versions Models Store Registry Authorization Fingerprint.
From S2P Require Import Artifacts ApplicationSecrets Tablets.

(** ** Queries *)

Record StatusCounts := mkStatusCounts {
  cnt_total : Z; cnt_operational : Z; cnt_active : Z; cnt_inactive : Z; cnt_lost : Z;
  cnt_retired : Z
}.

Definition count_status (s : Db) (department : N) (st : TabletStatus) : Z :=
  Z.of_nat (length (rows (db_tablets s) (λ _ t,
    N.eqb (tb_department t) department && bool_decide (tb_status t = st)))).

Definition tablet_status_counts (s : Db) (department : N) : StatusCounts :=
  let active := count_status s department TABLET_ACTIVE in
  let inactive := count_status s department TABLET_INACTIVE in
  let lost := count_status s department TABLET_LOST in
  let retired := count_status s department TABLET_RETIRED in
  mkStatusCounts (active + inactive + lost + retired) (active + inactive + lost)
    active inactive lost retired.

Definition assigned_vehicle (s : Db) (a : TabletVehicleAssignment) : option Vehicle :=
  vehicle_in_service s (va_vehicle a).

Definition open_in_service (s : Db) (tid : N) (a : TabletVehicleAssignment) : bool :=
  N.eqb (va_tablet a) tid && negb (opt_true (va_valid_until a))
  && negb (opt_true (va_ended_at a)) && opt_true (assigned_vehicle s a).

Definition current_vehicle (s : Db) (tid : N) : option Vehicle :=
  head (order_by by_pk (rows (db_vehicle_assignments s) (λ _ a, open_in_service s tid a)))
  ≫= λ r, assigned_vehicle s r.2.

(** An open assignment to a vehicle of the department. *)
Definition has_operational_assignment (s : Db) (tid department : N) : bool :=
  exists_row (db_vehicle_assignments s) (λ _ a,
    open_in_service s tid a
    && match assigned_vehicle s a with Some v => N.eqb (ve_department v) department
       | None => false end).

Definition operationally_unassigned_tablets (s : Db) (department : N) : list (N * Tablet) :=
  rows (db_tablets s) (λ tid t,
    N.eqb (tb_department t) department
    && match tb_status t with TABLET_ACTIVE | TABLET_INACTIVE => true | _ => false end
    && negb (has_operational_assignment s tid department)).

Definition tablet_adoption_ready (s : Db) (tid : N) (tablet : Tablet) : bool :=
  match db_departments s !! tb_department tablet with
  | Some department => dept_active department
  | None => false
  end
  && tb_active tablet
  && match tb_status tablet with TABLET_INACTIVE | TABLET_ACTIVE => true | _ => false end
  && has_operational_assignment s tid (tb_department tablet).

(** ** Request diagnostics *)

Definition MAX_ACTIVITY_RECORDS_PER_INSTALLATION : nat := 200.
Definition ACTIVITY_RETENTION_DAYS : Z := 90.
Definition _MAX_PATH_LENGTH : nat := 256.
Definition _MAX_METHOD_LENGTH : nat := 8.

(** [duration_ms] and [status_code] are the numbers the code takes from the timer
    and the response.  An insert that fails (here: the installation is gone) is
    swallowed. *)
Definition record_tablet_api_activity (installation : option N) (method path : string)
    (status_code : Z) (duration_ms : option Z) : M Db unit :=
  match installation with
  | None => ret tt
  | Some iid =>
      let! now := timezone_now in
      let! row := find_obj db_installations iid in
      if negb (opt_true row) then ret tt else
      create db_api_activity (mkTabletApiActivity iid now
        (str_take _MAX_METHOD_LENGTH (str_upper method)) (str_take _MAX_PATH_LENGTH path)
        status_code ((λ d, Z.max 0 d) <$> duration_ms)) ;;;
      ret tt
  end.

(** The records of an installation, newest first. *)
Definition activity_of (s : Db) (iid : N) : list (N * TabletApiActivity) :=
  order_by (λ r, [- ac_occurred_at r.2])
    (rows (db_api_activity s) (λ _ a, N.eqb (ac_app_installation a) iid)).

(** [filter(...).delete()[0]]: the number of rows that are deleted. *)
Definition delete_activity (P : N → TabletApiActivity → bool) : M Db Z := λ s,
  (Val (Z.of_nat (length (rows (db_api_activity s) P))),
   s <| db_api_activity ::= filter (λ r, P r.1 r.2 = false) |>).

(** The loop body of [prune_tablet_api_activity]. *)
Definition prune_installation (deleted : Z) (iid : N) : M Db Z :=
  let! keep := gets (λ s,
    (take MAX_ACTIVITY_RECORDS_PER_INSTALLATION (activity_of s iid)).*1) in
  let! n := delete_activity (λ k a, N.eqb (ac_app_installation a) iid && negb (mem_N k keep)) in
  ret (deleted + n).

Definition prune_tablet_api_activity (now : option Z) : M Db Z :=
  let! clock := timezone_now in
  let now := default clock now in
  let! expired := delete_activity
    (λ _ a, ac_occurred_at a <? now - ACTIVITY_RETENTION_DAYS * MICROSECONDS_PER_DAY) in
  let! installation_ids := gets (λ s, remove_dups
    ((λ r, ac_app_installation r.2) <$> map_to_list (db_api_activity s))) in
  fold_m prune_installation expired installation_ids.
