(* ===== verification/Manifests.v ===== *)
(** What a tablet may receive: [apps/publications/manifests.py] with the feature
    gate ([features.py], [feature_services.py]), the rescue guides capability and
    the version policy of [apps/authorization/services.py], and the document
    authorization of [document_authorization.py]. *)
From Stdlib Require Import Ascii.
From S2P Require Import Prelude Text Versions Models Store Registry Authorization Fingerprint.
From S2P Require Import Artifacts ApplicationSecrets Tablets.

(** What [tablet_configuration] reads from the settings and from the report
    transfer keys on disk, and [urlsplit] of the standard library: scheme, host,
    user and password, [None] for a [ValueError]. *)
Class DeliverySettings := {
  OUTBOUND_MAIL_REPORT_ATTACHMENT_MAX_BYTES : Z;
  report_transfer_configuration : json;
  urlsplit : string → option (string * option string * option string * option string)
}.

(** ** Features *)

Definition FEATURE_REGISTRY : list string := ["publications"; "klgv_plans"].

Definition get_feature_definition (code : string) : M Db unit :=
  guard (mem_str code FEATURE_REGISTRY) EFeature "Unknown feature code.".

Definition feature_of (department : N) (feature_code : string) :
    M Db (option (N * DepartmentFeature)) :=
  first_where db_features (λ _ f,
    N.eqb (df_department f) department && String.eqb (df_feature_code f) feature_code) by_pk.

Definition is_feature_enabled (department : N) (feature_code : string) : M Db bool :=
  get_feature_definition feature_code ;;;
  let! feature := feature_of department feature_code in
  ret (match feature with None => true | Some (_, f) => df_enabled f end).

Definition require_feature (department : N) (feature_code : string) : M Db unit :=
  let! enabled := is_feature_enabled department feature_code in
  guard enabled EFeature "This department has not enabled the required feature.".

Definition set_department_feature (actor department : N) (feature_code : string)
    (enabled : bool) : M Db N :=
  atomic (
    get_feature_definition feature_code ;;;
    let! found := feature_of department feature_code in
    let! ' (fid, feature) :=
      match found with
      | Some r => ret r
      | None =>
          let row := mkDepartmentFeature department feature_code enabled in
          let! fid := create db_features row in ret (fid, row)
      end in
    when (negb (Bool.eqb (df_enabled feature) enabled))
      (save db_features fid (λ f, f <| df_enabled := enabled |>)) ;;;
    record_event "publication.feature_updated" (Some actor) (Some department) None
      "department_feature" None
      [("feature_code", JStr feature_code); ("enabled", JBool enabled)] ;;;
    ret fid).

(** ** The version policy *)

Definition minimum_supported_app_version (api_major : Z) : M Db (option AppVersion) :=
  let! policy := first_where db_version_policies
    (λ _ p, vp_api_major p =? api_major) by_pk in
  match policy ≫= λ r, vp_minimum_app_version r.2 with
  | None => ret None
  | Some v => let! v := parse_app_version v in ret (Some v)
  end.

(** ** Canonical payloads *)

(** [json.dumps(...).encode("ascii")] *)
Definition canonical_manifest_payload (payload : json) : M Db string :=
  guard (negb (opt_true (jget "signature" payload))) EManifest
    "Manifest signature is not part of the signed payload." ;;;
  ret (json_dumps payload).

Definition attach_manifest_signature (payload : json) (signature : string) : json :=
  with_key "signature" (JStr (b64encode signature)) payload.

Section manifests.
Context `{Settings} `{Hash} `{DeliverySettings}.

Definition manifest_response_etag (payload : json) : string :=
  quote_char +:+ sha256_hex (json_dumps (without_key "generated_at" payload)) +:+ quote_char.

(** ** The rescue guides capability *)

Definition VEHICLE_RESCUE_GUIDES_DEFAULT_WEB_URL : string := "https://rescue.euroncap.com/".

Definition is_ascii (s : string) : bool := all_chars (λ c, Nat.ltb (nat_of_ascii c) 128) s.

Definition validate_vehicle_rescue_guides_web_url (value : string) : M Db unit :=
  guard (str_true value && String.eqb value (str_strip value) && is_ascii value) EValidation
    "Vehicle Rescue Guides URL must be a non-empty ASCII HTTPS URL." ;;;
  match urlsplit value with
  | None => raise EValidation "Vehicle Rescue Guides URL is invalid."
  | Some (scheme, hostname, username, password) =>
      guard (String.eqb scheme "https"
             && match hostname with Some h => str_true h | None => false end
             && negb (opt_true username) && negb (opt_true password)) EValidation
        "Vehicle Rescue Guides URL must be absolute HTTPS without credentials."
  end.

(** [configuration.full_clean()]: the choices, the width and the validator. *)
Definition full_clean (c : VehicleRescueGuidesConfiguration) : M Db unit :=
  guard (String.eqb (vg_provider c) "euro_rescue" && String.eqb (vg_mode c) "web"
         && Nat.leb (String.length (vg_web_url c)) 2048)
    EValidation "Value is not a valid choice." ;;;
  validate_vehicle_rescue_guides_web_url (vg_web_url c).

(** [get_or_create(singleton=True)] *)
Definition rescue_guides_configuration : M Db (N * VehicleRescueGuidesConfiguration) :=
  let! found := first_where db_rescue_guides (λ _ _, true) by_pk in
  match found with
  | Some r => ret r
  | None =>
      let row := mkVehicleRescueGuidesConfiguration "euro_rescue" "web"
        VEHICLE_RESCUE_GUIDES_DEFAULT_WEB_URL None in
      let! k := create db_rescue_guides row in ret (k, row)
  end.

Definition vehicle_rescue_guides_capability : M Db json :=
  let! ' (_, configuration) := rescue_guides_configuration in
  full_clean configuration ;;;
  ret (JObj [("provider", JStr (vg_provider configuration));
             ("mode", JStr (vg_mode configuration));
             ("web_url", JStr (vg_web_url configuration))]).

Definition manifest_capabilities : M Db json :=
  let! capability := vehicle_rescue_guides_capability in
  ret (JObj [("vehicle_rescue_guides", capability)]).

(** The number of manifests that were invalidated. *)
Definition invalidate_signed_manifests (reason : string) : M Db Z :=
  let! now := timezone_now in
  update_where db_signed_manifests
    (λ m, match sm_status m with MANIFEST_PENDING | MANIFEST_READY => true | _ => false end)
    (λ m, m <| sm_status := MANIFEST_OBSOLETE |> <| sm_completed_at := Some now |>
            <| sm_error_message := str_take 512 reason |>).

Definition set_vehicle_rescue_guides_web_url (actor : N) (web_url : string) : M Db N :=
  atomic (
    require_system_admin actor ;;;
    let! ' (k, configuration) := rescue_guides_configuration in
    full_clean configuration ;;;
    let old_url := vg_web_url configuration in
    if String.eqb old_url web_url then ret k else
    let configuration := configuration <| vg_web_url := web_url |>
      <| vg_updated_by := Some actor |> in
    full_clean configuration ;;;
    save db_rescue_guides k (λ c,
      c <| vg_web_url := web_url |> <| vg_updated_by := Some actor |>) ;;;
    invalidate_signed_manifests "Vehicle Rescue Guides configuration changed." ;;;
    record_event "vehicle_rescue_guides_configuration.updated" (Some actor) None None
      "vehicle_rescue_guides_configuration" (Some k)
      [("old_web_url", JStr old_url); ("new_web_url", JStr web_url)] ;;;
    ret k).

(** ** The scope of an installation *)

(** The installation, its tablet and its vehicle. *)
Definition control_plane_context (iid : N) (now : Z) :
    M Db (AppInstallation * Tablet * option (N * Vehicle)) :=
  let! installation := get_obj db_installations iid in
  let! tablet := get_obj db_tablets (in_tablet installation) in
  let! department := get_obj db_departments (tb_department tablet) in
  guard (bool_decide (in_status installation = INSTALLATION_ACTIVE)
         && (now <? in_authorization_valid_until installation)
         && tb_active tablet && dept_active department)
    EManifest "Installation is not authorized for control-plane synchronization." ;;;
  if bool_decide (tb_status tablet = TABLET_INACTIVE) then ret (installation, tablet, None) else
  let! s := gets id in
  let! assignment := first_where db_vehicle_assignments (λ _ a,
    N.eqb (va_tablet a) (in_tablet installation) && (va_valid_from a <=? now)
    && negb (opt_true (va_ended_at a))
    && match va_valid_until a with None => true | Some u => now <? u end
    && opt_true (vehicle_in_service s (va_vehicle a))) by_pk in
  match assignment with
  | None => ret (installation, tablet, None)
  | Some (_, a) =>
      let! vehicle := get_obj db_vehicles (va_vehicle a) in
      ret (installation, tablet,
           if N.eqb (ve_department vehicle) (tb_department tablet)
           then Some (va_vehicle a, vehicle) else None)
  end.

Definition _authorization_context (iid : N) (now : Z) :
    M Db (AppInstallation * Tablet * (N * Vehicle)) :=
  let! ' (installation, tablet, vehicle) := control_plane_context iid now in
  guard (bool_decide (tb_status tablet = TABLET_ACTIVE)) EManifest
    "Installation is not authorized for operational datasets." ;;;
  let! vehicle := get_or_raise vehicle EManifest
    "Installation has no current authorized vehicle assignment." in
  ret (installation, tablet, vehicle).

Definition _publication_is_exposed_to_installation (publication : DatasetPublication)
    (tablet : Tablet) : bool :=
  match DATASET_REGISTRY (pub_dataset_type_code publication) with
  | None => false
  | Some definition =>
      if negb (String.eqb (pub_scope_type publication) (scope_upper (dt_scope definition)))
      then false
      else if String.eqb (pub_scope_type publication) "SYSTEM" then
        dt_system_exposure definition && negb (opt_true (pub_department publication))
        && negb (opt_true (pub_station publication))
      else if String.eqb (pub_scope_type publication) "DEPARTMENT" then
        negb (opt_true (pub_station publication))
        && bool_decide (pub_department publication = Some (tb_department tablet))
      else if String.eqb (pub_scope_type publication) "STATION" then
        opt_true (pub_station publication)
        && bool_decide (pub_department publication = Some (tb_department tablet))
      else false
  end.

(** The rows of the delivery query for a tablet of [department] at [station]. *)
Definition deliverable (department station : N) (p : DatasetPublication) : bool :=
  (bool_decide (pub_department p = Some department)
     && (String.eqb (pub_scope_type p) "DEPARTMENT" || String.eqb (pub_scope_type p) "STATION")
   || String.eqb (pub_scope_type p) "SYSTEM")
  && bool_decide (pub_status p = PUBLISHED)
  && bool_decide (pub_artifact_status p = ARTIFACT_READY)
  && match pub_station p with None => true | Some st => N.eqb st station end.

(** One step of the list comprehension that filters the query. *)
Definition expose_publication (tablet : Tablet) (exposed : list (N * DatasetPublication))
    (row : N * DatasetPublication) : M Db (list (N * DatasetPublication)) :=
  if negb (_publication_is_exposed_to_installation row.2 tablet) then ret exposed else
  let! definition := get_dataset_definition (pub_dataset_type_code row.2) in
  let! enabled := is_feature_enabled (tb_department tablet) (dt_feature_code definition) in
  ret (if enabled then exposed ++ [row] else exposed).

Definition exposed_publications (tablet : Tablet) (station : N) :
    M Db (list (N * DatasetPublication)) :=
  let! found := gets (λ s, sort_by (λ r, pub_dataset_type_code r.2)
    (rows (db_publications s) (λ _ p, deliverable (tb_department tablet) station p))) in
  fold_m (expose_publication tablet) [] found.

Definition authorized_publications (iid : N) (now : Z) :
    M Db (AppInstallation * Tablet * (N * Vehicle) * list (N * DatasetPublication)) :=
  let! ' (installation, tablet, vehicle) := _authorization_context iid now in
  let! publications := exposed_publications tablet (ve_station vehicle.2) in
  ret (installation, tablet, vehicle, publications).

Definition manifest_publications (iid : N) (now : Z) :
    M Db (AppInstallation * Tablet * option (N * Vehicle) * list (N * DatasetPublication)) :=
  let! ' (installation, tablet, vehicle) := control_plane_context iid now in
  if bool_decide (tb_status tablet = TABLET_INACTIVE) then
    ret (installation, tablet, vehicle, [])
  else
    guard (bool_decide (tb_status tablet = TABLET_ACTIVE)) EManifest
      "Installation is not authorized for a manifest." ;;;
    match vehicle with
    | None => ret (installation, tablet, None, [])
    | Some v =>
        let! publications := exposed_publications tablet (ve_station v.2) in
        ret (installation, tablet, Some v, publications)
    end.

(** ** Manifest entries *)

Definition _publication_scope_payload (publication : DatasetPublication) : M Db json :=
  let scope_type := pub_scope_type publication in
  let station_scope := String.eqb scope_type "STATION" in
  let tenant := String.eqb scope_type "DEPARTMENT" || station_scope in
  guard (negb (tenant && negb (opt_true (pub_department publication)))) EManifest
    "Publication scope is invalid." ;;;
  guard (negb (station_scope && negb (opt_true (pub_station publication)))) EManifest
    "Publication scope is invalid." ;;;
  guard (tenant || String.eqb scope_type "SYSTEM") EManifest "Publication scope is invalid." ;;;
  ret (JObj ([("type", JStr scope_type)]
    ++ (if tenant then [("department_id", json_uuid_opt (pub_department publication))] else [])
    ++ (if station_scope then [("station_id", json_uuid_opt (pub_station publication))] else []))).

Definition _is_document_manifest_delivery (publication : DatasetPublication) : M Db bool :=
  let! definition := get_dataset_definition (pub_dataset_type_code publication) in
  ret (String.eqb (dt_artifact_format definition) "document-manifest-v2").

Definition json_str_opt (o : option string) : json :=
  match o with Some x => JStr x | None => JNull end.

Definition json_int_opt (o : option Z) : json :=
  match o with Some x => JInt x | None => JNull end.

Definition manifest_url (pid : N) : string :=
  "/api/v1/tablet/document-generations/" +:+ str_uuid pid +:+ "/manifest".

Definition _publication_manifest_entry (pid : N) (publication : DatasetPublication) : M Db json :=
  let! definition := get_dataset_definition (pub_dataset_type_code publication) in
  let! document := _is_document_manifest_delivery publication in
  if document then
    let! exists_ := gets (λ s, opt_true (db_generation_manifests s !! pid)) in
    guard ((pub_schema_version publication =? 2) && exists_) EManifest
      "Document publication requires a complete generic generation." ;;;
    let! scope := _publication_scope_payload publication in
    ret (JObj [
      ("publication_id", json_uuid pid);
      ("type", JStr (pub_dataset_type_code publication));
      ("scope", scope);
      ("version", JInt (pub_version_number publication));
      ("schema_version", JInt 2);
      ("required", JBool (dt_required definition));
      ("minimum_app_version", json_str_opt (dt_minimum_app_version definition));
      ("artifact_format", JStr "document-manifest-v2");
      ("manifest_url", JStr (manifest_url pid))])
  else
    let artifact := pub_artifact publication in
    match artifact_nonce artifact, artifact_wrapped_cek artifact, artifact_signature artifact with
    | Some nonce, Some wrapped_cek, Some signature =>
        let! scope := _publication_scope_payload publication in
        ret (JObj [
          ("publication_id", json_uuid pid);
          ("type", JStr (pub_dataset_type_code publication));
          ("scope", scope);
          ("version", JInt (pub_version_number publication));
          ("schema_version", JInt (pub_schema_version publication));
          ("artifact_size", json_int_opt (artifact_size artifact));
          ("ciphertext_sha256", JStr (artifact_sha256 artifact));
          ("content_encryption_algorithm", JStr (artifact_encryption_algorithm artifact));
          ("content_encryption_nonce", JStr (b64encode nonce));
          ("content_key_wrapped_for_kek", JStr (b64encode wrapped_cek));
          ("content_key_wrapping_algorithm", JStr (artifact_wrapping_algorithm artifact));
          ("content_key_kek_version", JStr (artifact_kek_version artifact));
          ("artifact_signature", JStr (b64encode signature));
          ("artifact_signature_algorithm", JStr (artifact_signature_algorithm artifact));
          ("artifact_signing_key_version", JStr (artifact_signing_key_version artifact))])
    | _, _, _ => raise EManifest "Ready publication is missing cryptographic metadata."
    end.

(** [tablet_configuration] of [apps/tablets/configuration.py] *)
Definition tablet_configuration (iid : N) (installation : AppInstallation) (tablet : Tablet)
    (vehicle : option (N * Vehicle)) : json :=
  JObj [
    ("installation_id", json_uuid iid);
    ("tablet_id", json_uuid (in_tablet installation));
    ("department_id", json_uuid (tb_department tablet));
    ("station_id", json_uuid_opt ((λ v, ve_station v.2) <$> vehicle));
    ("vehicle_id", json_uuid_opt (fst <$> vehicle));
    ("report_delivery_max_attachment_bytes", JInt OUTBOUND_MAIL_REPORT_ATTACHMENT_MAX_BYTES);
    ("report_transfer", report_transfer_configuration)].

Definition tablet_status_value (st : TabletStatus) : string :=
  match st with
  | TABLET_INACTIVE => "INACTIVE" | TABLET_ACTIVE => "ACTIVE"
  | TABLET_LOST => "LOST" | TABLET_RETIRED => "RETIRED"
  end.

(** [[f(x) for x in l]] *)
Definition map_m {A B} (f : A → M Db B) (l : list A) : M Db (list B) :=
  fold_m (λ acc x, let! y := f x in ret (acc ++ [y])) [] l.

Definition manifest_state_hash (iid : N) (installation : AppInstallation) (tablet : Tablet)
    (vehicle : option (N * Vehicle)) (publications : list (N * DatasetPublication))
    (generation : Z) (capabilities : json) : M Db string :=
  let! datasets := map_m (λ r, _publication_manifest_entry r.1 r.2) publications in
  let! payload := canonical_manifest_payload (JObj [
    ("generation", JInt generation);
    ("tablet_asset_state", JStr (tablet_status_value (tb_status tablet)));
    ("signing_key_version", JStr PUBLICATION_SIGNING_KEY_VERSION);
    ("authorization_valid_until", JStr (isoformat (in_authorization_valid_until installation)));
    ("configuration", tablet_configuration iid installation tablet vehicle);
    ("datasets", JList datasets);
    ("capabilities", capabilities)]) in
  ret (sha256_hex payload).

(** ** Key grant requests *)

Definition reset_grant (g : KeyGrant) : KeyGrant :=
  g <| kg_status := GRANT_PENDING |> <| kg_hpke_ciphersuite := "" |>
    <| kg_hpke_encapsulated_key := None |> <| kg_hpke_wrapped_key := None |>
    <| kg_completed_at := None |> <| kg_error_message := "" |> <| kg_revoked_at := None |>.

Definition retry_grant (g : KeyGrant) : KeyGrant :=
  g <| kg_status := GRANT_PENDING |> <| kg_completed_at := None |> <| kg_error_message := "" |>.

Definition grant_of (pid iid : N) (g : KeyGrant) : bool :=
  N.eqb (kg_publication g) pid && N.eqb (kg_app_installation g) iid.

Definition new_grant (pid iid : N) (now : Z) : KeyGrant :=
  mkKeyGrant pid iid GRANT_PENDING "" None None now None None "".

Definition mem_pk (pid : N) (l : list (N * DatasetPublication)) : bool := mem_N pid l.*1.

Definition request_dataset_key_grant (pid iid : N) (retry_failed : bool) : M Db (N * KeyGrant) :=
  atomic (
    let! now := timezone_now in
    let! ' (_, _, _, publications) := authorized_publications iid now in
    guard (mem_pk pid publications) EManifest
      "Installation is not authorized for this publication." ;;;
    let! found := first_where db_key_grants (λ _ g, grant_of pid iid g) by_pk in
    match found with
    | Some (k, grant) =>
        if bool_decide (kg_status grant = GRANT_REVOKED) then
          save db_key_grants k reset_grant ;;; ret (k, reset_grant grant)
        else if retry_failed && bool_decide (kg_status grant = GRANT_FAILED) then
          save db_key_grants k retry_grant ;;; ret (k, retry_grant grant)
        else ret (k, grant)
    | None =>
        let! k := create db_key_grants (new_grant pid iid now) in
        ret (k, new_grant pid iid now)
    end).

(** ** Manifest requests *)

(** [ManifestRequest] *)
Record ManifestRequest := mkManifestRequest {
  mr_payload : option json;
  mr_unavailable : bool;
  mr_request_id : option N
}.

(** [SignedManifest.objects.get_or_create] *)
Definition manifest_for_state (iid : N) (state_hash : string) (generation : Z) :
    M Db (N * SignedManifest) :=
  let! found := first_where db_signed_manifests (λ _ m,
    N.eqb (sm_app_installation m) iid && String.eqb (sm_state_hash m) state_hash) by_pk in
  match found with
  | Some r => ret r
  | None =>
      let! now := timezone_now in
      let row := mkSignedManifest iid state_hash generation MANIFEST_PENDING (JObj []) None
        "" "" now None "" in
      let! k := create db_signed_manifests row in ret (k, row)
  end.

Definition request_publication_grant (iid : N) (row : N * DatasetPublication) : M Db unit :=
  let! document := _is_document_manifest_delivery row.2 in
  if document then ret tt
  else request_dataset_key_grant row.1 iid true ;;; ret tt.

Definition retry_manifest (m : SignedManifest) : SignedManifest :=
  m <| sm_status := MANIFEST_PENDING |> <| sm_completed_at := None |>
    <| sm_error_message := "" |>.

Definition signed_payload (manifest : SignedManifest) (signature : string) : json :=
  with_key "signing_key_version" (JStr (sm_signing_key_version manifest))
    (with_key "signature_algorithm" (JStr (sm_signature_algorithm manifest))
       (with_key "signature" (JStr (b64encode signature)) (sm_payload manifest))).

Definition request_manifest (iid : N) (generation : Z) (now : option Z) : M Db ManifestRequest :=
  let! clock := timezone_now in
  let now := default clock now in
  atomic (
    let! ' (installation, tablet, vehicle, publications) := manifest_publications iid now in
    for_each publications (request_publication_grant iid) ;;;
    let! capabilities := manifest_capabilities in
    let! state_hash := manifest_state_hash iid installation tablet vehicle publications
      generation capabilities in
    let! ' (k, manifest) := manifest_for_state iid state_hash generation in
    let! manifest :=
      match sm_status manifest with
      | MANIFEST_FAILED | MANIFEST_OBSOLETE =>
          save db_signed_manifests k retry_manifest ;;; ret (retry_manifest manifest)
      | _ => ret manifest
      end in
    if bool_decide (sm_status manifest = MANIFEST_READY) then
      match sm_signature manifest with
      | None => raise EManifest "Ready manifest has no signature."
      | Some signature =>
          ret (mkManifestRequest (Some (signed_payload manifest signature)) false (Some k))
      end
    else ret (mkManifestRequest None true (Some k))).

(** ** Manifest retention *)

(** The READY manifest of an installation that [distinct] keeps: the newest. *)
Definition latest_ready (s : Db) (iid : N) : option N :=
  fst <$> head (order_by (λ r, [- sm_created_at r.2; Z.of_N r.1])
    (rows (db_signed_manifests s) (λ _ m,
       bool_decide (sm_status m = MANIFEST_READY) && N.eqb (sm_app_installation m) iid))).

Definition is_latest_active_ready (s : Db) (k : N) (m : SignedManifest) : bool :=
  match db_installations s !! sm_app_installation m with
  | Some i => bool_decide (in_status i = INSTALLATION_ACTIVE)
              && bool_decide (latest_ready s (sm_app_installation m) = Some k)
  | None => false
  end.

Definition manifest_expired (s : Db) (cutoff : Z) (k : N) (m : SignedManifest) : bool :=
  match sm_status m with MANIFEST_READY | MANIFEST_FAILED | MANIFEST_OBSOLETE => true | _ => false end
  && match sm_completed_at m with Some t => t <? cutoff | None => false end
  && negb (is_latest_active_ready s k m).

Definition cleanup_signed_manifests (retention_days batch_size : Z) (dry_run : bool) : M Db Z :=
  guard ((1 <=? retention_days) && (1 <=? batch_size)) EValue
    "Manifest retention and batch size must be positive." ;;;
  let! now := timezone_now in
  let cutoff := now - retention_days * MICROSECONDS_PER_DAY in
  let! ids := gets (λ s, (take (Z.to_nat batch_size)
    (order_by (λ r, [default 0 (sm_completed_at r.2)])
       (rows (db_signed_manifests s) (manifest_expired s cutoff)))).*1) in
  if dry_run then ret (Z.of_nat (length ids)) else
  modify (λ s, s <| db_signed_manifests ::= filter (λ r, mem_N r.1 ids = false) |>) ;;;
  ret (Z.of_nat (length ids)).

(** ** Document generations *)

Definition is_document_dataset (code : string) : bool :=
  mem_str code ["department_fire_plans"; "department_klgv_plans"; "department_files";
                "station_files"].

(** The last READY generation of a library may still be read when the current one
    is deliverable. *)
Definition retained_library (publication : DatasetPublication) (scope : DatasetScopeState)
    (publications : list (N * DatasetPublication)) : bool :=
  is_file_dataset (pub_dataset_type_code publication)
  && bool_decide (pub_status publication = SUPERSEDED)
  && pub_artifact_ready publication
  && existsb (λ c, N.eqb (pub_scope_state c.2) (pub_scope_state publication)
                   && bool_decide (sc_current_published_publication scope = Some c.1))
       publications.

(** [except AppVersionError: raise ManifestError] *)
Definition require_supported_version (installation : AppInstallation) : M Db unit :=
  try_except
    (let! minimum := minimum_supported_app_version 1 in
     let! version := parse_app_version (in_app_version installation) in
     guard (match minimum with None => true | Some m => negb (app_version_lt version m) end)
       EManifest "Installation app version is no longer supported.")
    (λ e, match exn_kind e with
          | EAppVersion => Some (raise EManifest "Installation app version is invalid.")
          | _ => None
          end).

Definition _authorized_generation (pid iid : N) : M Db AppInstallation :=
  let! publication := get_obj db_publications pid in
  let! scope := get_obj db_scopes (pub_scope_state publication) in
  let! now := timezone_now in
  let! ' (active_installation, tablet, vehicle, publications) := authorized_publications iid now in
  require_supported_version active_installation ;;;
  guard ((pub_schema_version publication =? 2)
         && is_document_dataset (pub_dataset_type_code publication)) EManifest
    "Publication is not an eligible document generation." ;;;
  guard (bool_decide (pub_department publication = Some (tb_department tablet))) EManifest
    "Installation is not authorized for this publication." ;;;
  guard (match pub_station publication with
         | Some st => N.eqb st (ve_station vehicle.2) | None => true end) EManifest
    "Installation is not authorized for this station." ;;;
  guard (mem_pk pid publications
           && bool_decide (sc_current_published_publication scope = Some pid)
         || retained_library publication scope publications) EManifest
    "Installation is not authorized for this publication." ;;;
  ret active_installation.

Definition request_generation_key_grant (pid iid : N) : M Db (N * KeyGrant) :=
  atomic (
    _authorized_generation pid iid ;;;
    let! now := timezone_now in
    let! found := first_where db_generation_key_grants (λ _ g, grant_of pid iid g) by_pk in
    let! ' (k, grant) :=
      match found with
      | Some r => ret r
      | None =>
          let! k := create db_generation_key_grants (new_grant pid iid now) in
          ret (k, new_grant pid iid now)
      end in
    match kg_status grant with
    | GRANT_FAILED | GRANT_REVOKED =>
        save db_generation_key_grants k reset_grant ;;; ret (k, reset_grant grant)
    | _ => ret (k, grant)
    end).
End manifests.
