(* ===== verification/Grants.v ===== *)
(** Delivery work: wrapping content keys for installations and signing manifests
    ([apps/publications/worker_grants.py]), the key grants of document generations
    ([document_v2.py]), the envelope upgrade of migrated artifacts
    ([artifacts.py]) and the delivery lane of [work_cycle.py]. *)
From S2P Require Import Prelude Text Versions Models Store Registry Authorization Fingerprint.
From S2P Require Import Artifacts ApplicationSecrets Tablets Manifests.

(** The credentials on disk, the key ring of [signing_keys.py], the artifact files
    and what the code uses of the [cryptography] package.  [None] of
    [aes_key_unwrap] is its [InvalidUnwrap]. *)
Class Credentials := {
  publication_kek : outcome string;
  publication_signing_key : outcome string;
  active_publication_signing_key : option string;
  aes_key_unwrap : string → string → option string;
  ed25519_public_key : string → string;
  ed25519_sign : string → string → string;
  read_artifact : string → option string;
  artifact_signature_payload : N → DatasetPublication → string → string
}.

(** [except ValueError]: the classes of the code that derive from it. *)
Definition is_value_error (c : exn_class) : bool :=
  match c with
  | EPublication | EPublicationBuild | EDatasetRegistry | EValue | EArtifact | EManifest
  | EKeyGrant | EHPKE | EAppVersion | EAssignment | EFeature | EDocumentV2 | ETablet _ => true
  | _ => false
  end.

Definition raise_outcome {A} (o : outcome A) : M Db A :=
  match o with Val a => ret a | Exc e => reraise e end.

Definition pending_grant (_ : N) (g : KeyGrant) : bool :=
  bool_decide (kg_status g = GRANT_PENDING).

Section grants.
Context `{Settings} `{Hash} `{DeliverySettings} `{HpkeSuite} `{Credentials}.

(** ** Signing *)

Definition sign_manifest_payload (payload : json) : M Db string :=
  let! signing_key := raise_outcome publication_signing_key in
  guard (Nat.eqb (String.length signing_key) 32) EKeyGrant
    "Publication Ed25519 private key must be exactly 32 bytes." ;;;
  let! expected := get_or_raise active_publication_signing_key EKeyGrant
    "Publication public signing-key ring is unavailable." in
  guard (String.eqb (ed25519_public_key signing_key) expected) EKeyGrant
    "Publication Ed25519 private key does not match the active public key." ;;;
  let! message := canonical_manifest_payload payload in
  ret (ed25519_sign signing_key message).

(** ** Dataset key grants *)

Definition claim_next_dataset_key_grant : M Db (option (N * KeyGrant)) :=
  atomic (
    let! found := first_where db_key_grants pending_grant (λ r, [kg_created_at r.2]) in
    match found with
    | None => ret None
    | Some (k, grant) =>
        let claim := λ g, g <| kg_status := GRANT_RUNNING |> <| kg_error_message := "" |> in
        save db_key_grants k claim ;;; ret (Some (k, claim grant))
    end).

(** [keywrap.aes_key_unwrap] raises [InvalidUnwrap]. *)
Definition unwrap_key (kek wrapped : string) : M Db string :=
  get_or_raise (aes_key_unwrap kek wrapped) EInvalidUnwrap "".

Definition require_kek : M Db string :=
  let! kek := raise_outcome publication_kek in
  guard (Nat.eqb (String.length kek) 32) EKeyGrant "Publication KEK must be exactly 32 bytes." ;;;
  ret kek.

(** The [try] block of [build_claimed_dataset_key_grant]: the encapsulated key and
    the wrapped content key. *)
Definition wrap_content_key (grant : KeyGrant) (now : Z) : M Db (string * string) :=
  let pid := kg_publication grant in
  let! ' (installation, tablet, _, publications) :=
    authorized_publications (kg_app_installation grant) now in
  let! publication := get_obj db_publications pid in
  guard (mem_pk pid publications) EManifest
    "Installation is not authorized for this publication." ;;;
  let! kek := require_kek in
  let! wrapped_cek := get_or_raise (artifact_wrapped_cek (pub_artifact publication)) EKeyGrant
    "Ready publication has no wrapped content-encryption key." in
  let! cek := unwrap_key kek wrapped_cek in
  let context := mkHPKEContext pid (kg_app_installation grant) (in_tablet installation)
    (pub_department publication) (pub_station publication) (pub_dataset_type_code publication)
    (pub_version_number publication) (pub_schema_version publication)
    (artifact_sha256 (pub_artifact publication)) in
  let! public_key := parse_p256_public_key (in_hpke_public_key installation) in
  hpke_seal cek public_key (hpke_info context).

Definition ready_grant (enc wrapped : string) (now : Z) (g : KeyGrant) : KeyGrant :=
  g <| kg_status := GRANT_READY |> <| kg_hpke_ciphersuite := HPKE_CIPHERSUITE |>
    <| kg_hpke_encapsulated_key := Some enc |> <| kg_hpke_wrapped_key := Some wrapped |>
    <| kg_completed_at := Some now |>.

Definition refused_grant (message : string) (now : Z) (g : KeyGrant) : KeyGrant :=
  g <| kg_status := GRANT_REVOKED |> <| kg_completed_at := Some now |>
    <| kg_revoked_at := Some now |> <| kg_error_message := str_take 512 message |>.

Definition failed_grant (message : string) (now : Z) (g : KeyGrant) : KeyGrant :=
  g <| kg_status := GRANT_FAILED |> <| kg_completed_at := Some now |>
    <| kg_error_message := str_take 512 message |>.

(** The update of the row that an attempt ends with; other exceptions propagate. *)
Definition grant_result (attempt : M Db (string * string)) (now : Z) :
    M Db (KeyGrant → KeyGrant) :=
  try_except (let! ' (enc, wrapped) := attempt in ret (ready_grant enc wrapped now))
    (λ e, match exn_kind e with
          | EManifest => Some (ret (refused_grant (exn_message e) now))
          | c => if is_value_error c then Some (ret (failed_grant (exn_message e) now)) else None
          end).

Definition build_claimed_dataset_key_grant (gid : N) : M Db (N * KeyGrant) :=
  atomic (
    let! grant := get_obj db_key_grants gid in
    if negb (bool_decide (kg_status grant = GRANT_RUNNING)) then ret (gid, grant) else
    let! now := timezone_now in
    let! update := grant_result (wrap_content_key grant now) now in
    save db_key_grants gid update ;;;
    ret (gid, update grant)).

(** The claim and the work are two transactions; [others] is what other sessions
    do between them. *)
Definition process_next_dataset_key_grant (others : M Db unit) :
    M Db (option (N * KeyGrant)) :=
  let! grant := claim_next_dataset_key_grant in
  match grant with
  | None => ret None
  | Some (gid, _) =>
      others ;;;
      let! r := build_claimed_dataset_key_grant gid in ret (Some r)
  end.

(** ** Generation key grants *)

Definition _kek : M Db string :=
  let! kek := raise_outcome publication_kek in
  guard (Nat.eqb (String.length kek) 32) EDocumentV2
    "Publication KEK must be exactly 32 bytes." ;;;
  ret kek.

(** [ensure_generation_key] for a publication that is not being built. *)
Definition existing_generation_key (pid : N) : M Db DocumentGenerationKey :=
  let! key := find_obj db_generation_keys pid in
  get_or_raise key EDocumentV2 "A generation key must be built before publication.".

(** [DocumentGenerationHPKEContext] *)
Definition generation_info (pid iid : N) (installation : AppInstallation)
    (publication : DatasetPublication) : M Db string :=
  guard (dataset_code_canonical (pub_dataset_type_code publication)) EHPKE
    "Dataset type code is not canonical." ;;;
  guard (1 <=? pub_version_number publication) EHPKE
    "Publication versions must be positive." ;;;
  ret (json_dumps (JObj [
    ("protocol", JStr DOCUMENT_GENERATION_HPKE_PROTOCOL);
    ("publication_id", json_uuid pid);
    ("installation_id", json_uuid iid);
    ("tablet_id", json_uuid (in_tablet installation));
    ("scope", JObj [
      ("dataset_type_code", JStr (pub_dataset_type_code publication));
      ("department_id", json_uuid_opt (pub_department publication));
      ("station_id", json_uuid_opt (pub_station publication))]);
    ("version_number", JInt (pub_version_number publication));
    ("schema_version", JInt 2)])).

Definition wrap_generation_key (grant : KeyGrant) : M Db (string * string) :=
  let pid := kg_publication grant in
  let iid := kg_app_installation grant in
  let! installation := _authorized_generation pid iid in
  let! publication := get_obj db_publications pid in
  let! key := existing_generation_key pid in
  let! kek := _kek in
  let! plaintext := unwrap_key kek (gk_wrapped_key key) in
  let! public_key := parse_p256_public_key (in_hpke_public_key installation) in
  let! sealed := hpke_seal plaintext public_key
    (generation_info pid iid installation publication) in
  _authorized_generation pid iid ;;;
  ret sealed.

(** As [grant_result], where a key that cannot be unwrapped is a failure too. *)
Definition generation_grant_result (attempt : M Db (string * string)) (now : Z) :
    M Db (KeyGrant → KeyGrant) :=
  try_except (grant_result attempt now)
    (λ e, match exn_kind e with
          | EInvalidUnwrap => Some (ret (failed_grant (exn_message e) now))
          | _ => None
          end).

Definition claimable_generation_grant (_ : N) (g : KeyGrant) : bool :=
  match kg_status g with GRANT_PENDING | GRANT_RUNNING => true | _ => false end.

Definition process_next_generation_key_grant : M Db (option (N * KeyGrant)) :=
  atomic (
    let! found := first_where db_generation_key_grants claimable_generation_grant
      (λ r, [kg_created_at r.2]) in
    match found with
    | None => ret None
    | Some (k, grant) =>
        save db_generation_key_grants k (λ g, g <| kg_status := GRANT_RUNNING |>) ;;;
        let! now := timezone_now in
        let! update := generation_grant_result (wrap_generation_key grant) now in
        save db_generation_key_grants k update ;;;
        ret (Some (k, update (grant <| kg_status := GRANT_RUNNING |>)))
    end).

(** ** Signed manifests *)

Definition claim_next_signed_manifest (exclude_ids : list N) : M Db (option (N * SignedManifest)) :=
  atomic (
    let! found := first_where db_signed_manifests (λ k m,
      bool_decide (sm_status m = MANIFEST_PENDING) && negb (mem_N k exclude_ids))
      (λ r, [sm_created_at r.2]) in
    match found with
    | None => ret None
    | Some (k, manifest) =>
        let claim := λ m, m <| sm_status := MANIFEST_RUNNING |> <| sm_error_message := "" |> in
        save db_signed_manifests k claim ;;; ret (Some (k, claim manifest))
    end).

(** [upgrade_legacy_scope_signature]: the publication object with its new
    signature. *)
Definition upgrade_legacy_scope_signature (row : N * DatasetPublication) :
    M Db (N * DatasetPublication) :=
  atomic (
    let '(pid, publication) := row in
    let! marker := find_obj db_legacy_signatures pid in
    if negb (opt_true marker) then ret row else
    let artifact := pub_artifact publication in
    let! ciphertext := get_or_raise (read_artifact (artifact_path artifact)) EArtifact
      "Migrated publication artifact is unavailable for signature upgrade." in
    guard (String.eqb (sha256_hex ciphertext) (artifact_sha256 artifact)) EArtifact
      "Migrated publication artifact integrity check failed." ;;;
    let! signing_key := raise_outcome publication_signing_key in
    guard (Nat.eqb (String.length signing_key) 32
           && opt_true (artifact_wrapped_cek artifact) && opt_true (artifact_nonce artifact))
      EArtifact "Migrated publication cryptographic metadata is unavailable." ;;;
    let signature :=
      ed25519_sign signing_key (artifact_signature_payload pid publication ciphertext) in
    let resign := λ p, p <| pub_artifact := mkArtifactEnvelope (artifact_path (pub_artifact p))
      (artifact_size (pub_artifact p)) (artifact_sha256 (pub_artifact p))
      (artifact_nonce (pub_artifact p)) (artifact_wrapped_cek (pub_artifact p))
      (artifact_encryption_algorithm (pub_artifact p))
      (artifact_wrapping_algorithm (pub_artifact p)) (artifact_kek_version (pub_artifact p))
      (Some signature) (artifact_signature_algorithm (pub_artifact p))
      PUBLICATION_SIGNING_KEY_VERSION |> in
    save db_publications pid resign ;;;
    delete_obj db_legacy_signatures pid ;;;
    ret (pid, resign publication)).

Definition upgrade_if_encrypted (row : N * DatasetPublication) : M Db (N * DatasetPublication) :=
  let! document := _is_document_manifest_delivery row.2 in
  if document then ret row else upgrade_legacy_scope_signature row.

(** [base64.b64encode(bytes(value))]: [bytes(None)] is a [TypeError]. *)
Definition encode_bytes (value : option string) : M Db json :=
  let! value := get_or_raise value EType "cannot convert 'NoneType' object to bytes" in
  ret (JStr (b64encode value)).

(** One dataset of [_manifest_payload]; [grants] maps a publication to its grant. *)
Definition manifest_dataset (grants : list (N * KeyGrant)) (row : N * DatasetPublication) :
    M Db json :=
  let '(pid, publication) := row in
  let! document := _is_document_manifest_delivery publication in
  if document then _publication_manifest_entry pid publication else
  let! grant := get_or_raise
    (head (filter (λ g, kg_publication g.2 = pid) (rev grants))) EKey "publication" in
  let! definition := get_dataset_definition (pub_dataset_type_code publication) in
  let artifact := pub_artifact publication in
  let! scope := _publication_scope_payload publication in
  let! nonce := encode_bytes (artifact_nonce artifact) in
  let! wrapped_cek := encode_bytes (artifact_wrapped_cek artifact) in
  let! signature := encode_bytes (artifact_signature artifact) in
  let! encapsulated := encode_bytes (kg_hpke_encapsulated_key grant.2) in
  let! wrapped := encode_bytes (kg_hpke_wrapped_key grant.2) in
  ret (JObj [
    ("publication_id", json_uuid pid);
    ("type", JStr (pub_dataset_type_code publication));
    ("scope", scope);
    ("version", JInt (pub_version_number publication));
    ("schema_version", JInt (pub_schema_version publication));
    ("required", JBool (dt_required definition));
    ("minimum_app_version", json_str_opt (dt_minimum_app_version definition));
    ("artifact_format", JStr (dt_artifact_format definition));
    ("encrypted_size", json_int_opt (artifact_size artifact));
    ("ciphertext_sha256", JStr (artifact_sha256 artifact));
    ("content_encryption_algorithm", JStr (artifact_encryption_algorithm artifact));
    ("content_encryption_nonce", nonce);
    ("content_key_wrapped_for_kek", wrapped_cek);
    ("content_key_wrapping_algorithm", JStr (artifact_wrapping_algorithm artifact));
    ("content_key_kek_version", JStr (artifact_kek_version artifact));
    ("artifact_signature", signature);
    ("artifact_signature_algorithm", JStr (artifact_signature_algorithm artifact));
    ("artifact_signing_key_version", JStr (artifact_signing_key_version artifact));
    ("download_url", JStr ("/api/v1/tablet/datasets/" +:+ str_uuid pid +:+ "/download"));
    ("key_grant", JObj [
      ("scheme", JStr "HPKE");
      ("ciphersuite", JStr (kg_hpke_ciphersuite grant.2));
      ("encapsulated_key", encapsulated);
      ("wrapped_content_key", wrapped)])]).

Definition _manifest_payload (iid : N) (installation : AppInstallation) (tablet : Tablet)
    (vehicle : option (N * Vehicle)) (publications : list (N * DatasetPublication))
    (grants : list (N * KeyGrant)) (generation now : Z) (capabilities : json) : M Db json :=
  let! datasets := map_m (manifest_dataset grants) publications in
  ret (JObj [
    ("manifest_generation", JInt generation);
    ("signature_algorithm", JStr "Ed25519");
    ("signing_key_version", JStr PUBLICATION_SIGNING_KEY_VERSION);
    ("generated_at", JStr (isoformat now));
    ("authorization_valid_until", JStr (isoformat (in_authorization_valid_until installation)));
    ("configuration", tablet_configuration iid installation tablet vehicle);
    ("datasets", JList datasets);
    ("capabilities", capabilities)]).

(** The grants of the publications that need one. *)
Definition manifest_grant (iid : N) (grants : list (N * KeyGrant))
    (row : N * DatasetPublication) : M Db (list (N * KeyGrant)) :=
  let! document := _is_document_manifest_delivery row.2 in
  if document then ret grants
  else let! grant := request_dataset_key_grant row.1 iid false in ret (grants ++ [grant]).

Definition grant_has (st : GrantStatus) (g : N * KeyGrant) : bool :=
  bool_decide (kg_status g.2 = st).

Definition end_manifest (st : ManifestStatus) (message : string) (now : Z)
    (m : SignedManifest) : SignedManifest :=
  m <| sm_status := st |> <| sm_completed_at := Some now |>
    <| sm_error_message := str_take 512 message |>.

Definition ready_manifest (payload : json) (signature : string) (now : Z)
    (m : SignedManifest) : SignedManifest :=
  m <| sm_status := MANIFEST_READY |> <| sm_payload := payload |>
    <| sm_signature := Some signature |> <| sm_signature_algorithm := "Ed25519" |>
    <| sm_signing_key_version := PUBLICATION_SIGNING_KEY_VERSION |>
    <| sm_completed_at := Some now |>.

(** The [try] block of [build_claimed_signed_manifest]: the update of the row. *)
Definition sign_manifest (manifest : SignedManifest) (now : Z) :
    M Db (SignedManifest → SignedManifest) :=
  let iid := sm_app_installation manifest in
  let! ' (installation, tablet, vehicle, publications) := manifest_publications iid now in
  let! grants := fold_m (manifest_grant iid) [] publications in
  let! capabilities := manifest_capabilities in
  let! state_hash := manifest_state_hash iid installation tablet vehicle publications
    (sm_generation manifest) capabilities in
  if negb (String.eqb state_hash (sm_state_hash manifest)) then
    ret (end_manifest MANIFEST_OBSOLETE
           "Manifest authorization or publication state changed." now)
  else if existsb (grant_has GRANT_FAILED) grants then
    ret (end_manifest MANIFEST_FAILED "A required dataset key grant failed." now)
  else if existsb (grant_has GRANT_PENDING) grants || existsb (grant_has GRANT_RUNNING) grants
  then ret (λ m, m <| sm_status := MANIFEST_PENDING |>)
  else if existsb (λ g, negb (grant_has GRANT_READY g)) grants then
    ret (end_manifest MANIFEST_OBSOLETE "A required dataset key grant is no longer usable." now)
  else
    let! publications := map_m upgrade_if_encrypted publications in
    let! payload := _manifest_payload iid installation tablet vehicle publications grants
      (sm_generation manifest) now capabilities in
    let! signature := sign_manifest_payload payload in
    ret (ready_manifest payload signature now).

Definition build_claimed_signed_manifest (mid : N) : M Db (N * SignedManifest) :=
  atomic (
    let! manifest := get_obj db_signed_manifests mid in
    if negb (bool_decide (sm_status manifest = MANIFEST_RUNNING)) then ret (mid, manifest) else
    let! now := timezone_now in
    let! update := try_except (sign_manifest manifest now)
      (λ e, match exn_kind e with
            | EManifest => Some (ret (end_manifest MANIFEST_OBSOLETE (exn_message e) now))
            | c => if is_value_error c
                   then Some (ret (end_manifest MANIFEST_FAILED (exn_message e) now)) else None
            end) in
    save db_signed_manifests mid update ;;;
    ret (mid, update manifest)).

Definition process_next_signed_manifest (others : M Db unit) (exclude_ids : list N) :
    M Db (option (N * SignedManifest)) :=
  let! manifest := claim_next_signed_manifest exclude_ids in
  match manifest with
  | None => ret None
  | Some (mid, _) =>
      others ;;;
      let! r := build_claimed_signed_manifest mid in ret (Some r)
  end.

(** ** The delivery lane *)

(** [DeliveryCycleResult] without the elapsed time. *)
Record DeliveryCycleResult := mkDeliveryCycleResult {
  dl_key_grants : Z;
  dl_manifests : Z;
  dl_deferred_manifests : Z
}.

Definition dl_processed (r : DeliveryCycleResult) : Z := dl_key_grants r + dl_manifests r.
Definition dl_forward_progress (r : DeliveryCycleResult) : Z :=
  dl_key_grants r + dl_manifests r - dl_deferred_manifests r.

Definition int_some {A} (o : option A) : Z := if opt_true o then 1 else 0.

(** The loop of [process_delivery_cycle] with the slots that are left. *)
Fixpoint delivery_loop (others : M Db unit) (slots : nat) (r : DeliveryCycleResult) (deferred : list N) :
    M Db DeliveryCycleResult :=
  match slots with
  | O => ret r
  | S slots' =>
      let! grant := process_next_dataset_key_grant others in
      let! document_grant := process_next_generation_key_grant in
      let! manifest := process_next_signed_manifest others deferred in
      let is_deferred := match manifest with
        | Some (_, m) => bool_decide (sm_status m = MANIFEST_PENDING) | None => false end in
      let deferred := match manifest with
        | Some (k, _) => if is_deferred then k :: deferred else deferred
        | None => deferred end in
      let r := mkDeliveryCycleResult
        (dl_key_grants r + int_some grant + int_some document_grant)
        (dl_manifests r + int_some manifest)
        (dl_deferred_manifests r + if is_deferred then 1 else 0) in
      match grant, document_grant, manifest with
      | None, None, None => ret r
      | _, _, _ => delivery_loop others slots' r deferred
      end
  end.

(** [batch_size or settings.PUBLICATION_WORKER_BATCH_SIZE] *)
Definition process_delivery_cycle (others : M Db unit) (batch_size : option Z) :
    M Db DeliveryCycleResult :=
  let limit := match batch_size with
    | Some n => if n =? 0 then PUBLICATION_WORKER_BATCH_SIZE else n
    | None => PUBLICATION_WORKER_BATCH_SIZE end in
  delivery_loop others (Z.to_nat limit) (mkDeliveryCycleResult 0 0 0) [].
End grants.
