(* ===== verification/Restore.v ===== *)
(** When a superseded publication may become current again:
    [apps/publications/restore.py], as the lifecycle services use it. *)
From S2P Require Import Prelude Models Store Registry.

(** [validate_ready_document_generation] of [apps/publications/document_v2.py]
    reads the signed generation of a publication; [Some error] when it raises. *)
Class DocumentGenerations := {
  validate_ready_document_generation : Db → N → DatasetPublication → bool → option string
}.

(** [Model.objects.get] results are a key and a row. *)
Definition publication_restore_metadata_blocked_reason (publication : DatasetPublication)
    (scope_id : N) (scope : DatasetScopeState) (historical : bool) : M Db string :=
  if negb (N.eqb (pub_scope_state publication) scope_id)
     || negb (String.eqb (pub_dataset_type_code publication) (sc_dataset_type_code scope))
     || negb (String.eqb (pub_scope_type publication) (sc_scope_type scope))
     || negb (bool_decide (pub_department publication = sc_department scope))
     || negb (bool_decide (pub_station publication = sc_station scope))
     || (historical && negb (bool_decide (pub_status publication = SUPERSEDED)))
  then ret "Only a superseded publication in this scope can be restored."
  else
    let! definition := get_dataset_definition (pub_dataset_type_code publication) in
    let document := is_document_definition definition in
    if negb (existsb (Z.eqb (pub_schema_version publication))
               (dt_supported_schema_versions definition))
       || (document && negb (Z.eqb (pub_schema_version publication)
                               (dt_current_schema_version definition)))
    then ret (if document then "Rollback unavailable: legacy document format"
              else "Unsupported dataset schema")
    else if negb (pub_artifact_ready publication)
            || negb (bool_decide (pub_artifact_status publication = ARTIFACT_READY))
    then ret "Publication artifact is not ready."
    else if negb document then
      ret (if str_true (artifact_path (pub_artifact publication)) then ""
           else "Publication has no usable artifact.")
    else if str_true (artifact_path (pub_artifact publication)) then
      ret "Incomplete document generation"
    else ret "".

Section restore.
Context `{DocumentGenerations}.

(** [publication_restore_blocked_reason(..., strict=True)]: the activation
    policy.  The presentation policy ([strict=False]) is not modelled. *)
Definition publication_restore_blocked_reason (pid : N) (publication : DatasetPublication)
    (scope_id : N) (scope : DatasetScopeState) (historical : bool) : M Db string :=
  let! reason := publication_restore_metadata_blocked_reason publication scope_id scope
                   historical in
  let! definition := get_dataset_definition (pub_dataset_type_code publication) in
  if str_true reason || negb (is_document_definition definition) then ret reason else
  let! invalid := gets (λ s, validate_ready_document_generation s pid publication true) in
  match invalid with
  | Some error => ret ("Incomplete document generation: " +:+ error)
  | None => ret ""
  end.

(** [iter_predecessor_assessments]: the superseded publications of a scope,
    newest first, each with the reason that blocks it.  The program reads them
    in batches of eight; the sequence is the same. *)
Definition iter_predecessor_assessments (scope_id : N) (scope : DatasetScopeState) :
    M Db (list (N * DatasetPublication * string)) :=
  let! history := select_ordered db_publications
    (λ _ p, N.eqb (pub_scope_state p) scope_id && bool_decide (pub_status p = SUPERSEDED))
    (λ r, [- pub_version_number r.2]) in
  fold_m (λ acc '(pid, p),
    let! reason := publication_restore_blocked_reason pid p scope_id scope true in
    ret (acc ++ [(pid, p, reason)])) [] history.

Definition select_restorable_predecessors (scope_id : N) (scope : DatasetScopeState)
    (limit : Z) : M Db (list (N * DatasetPublication)) :=
  if limit <? 0 then raise EValue "Predecessor limit must not be negative." else
  if limit =? 0 then ret [] else
  let! assessed := iter_predecessor_assessments scope_id scope in
  ret (take (Z.to_nat limit)
         (fst <$> List.filter (λ a, negb (str_true a.2)) assessed)).
End restore.

(** ** Queries *)

Section queries.
Context `{DocumentGenerations}.

Lemma readonly_publication_restore_metadata_blocked_reason p c sc h : readonly (publication_restore_metadata_blocked_reason p c sc h).
Proof. unfold publication_restore_metadata_blocked_reason. preserve. Qed.

End queries.

#[export] Hint Resolve readonly_publication_restore_metadata_blocked_reason : preserves.

Section restore_queries.
Context `{DocumentGenerations}.

Lemma readonly_publication_restore_blocked_reason pid p c sc h :
  readonly (publication_restore_blocked_reason pid p c sc h).
Proof. unfold publication_restore_blocked_reason. preserve. Qed.

Hint Resolve readonly_publication_restore_blocked_reason : preserves.

Lemma readonly_iter_predecessor_assessments c sc :
  readonly (iter_predecessor_assessments c sc).
Proof. unfold iter_predecessor_assessments. preserve. Qed.

Hint Resolve readonly_iter_predecessor_assessments : preserves.

Lemma readonly_select_restorable_predecessors c sc n :
  readonly (select_restorable_predecessors c sc n).
Proof. unfold select_restorable_predecessors. preserve. Qed.
End restore_queries.

#[export] Hint Resolve readonly_publication_restore_blocked_reason
  readonly_iter_predecessor_assessments readonly_select_restorable_predecessors : preserves.
