(* ===== verification/Queue.v ===== *)
(** The queue half of [apps/publications/services.py]: scopes and their locks,
    the comparison of the canonical source with the active publication, marking
    a scope dirty, coalescing build jobs, and claiming one. *)
From S2P Require Import Prelude Text Models Store Registry Authorization Fingerprint Artifacts.
From S2P Require Import Restore.

(** ** Scope helpers *)

Definition _registered_scope_type {S} (dataset_type_code : string) : M S string :=
  let! definition := get_dataset_definition dataset_type_code in
  ret (scope_upper (dt_scope definition)).

(** [_scope_filter] as a predicate on the four identifying columns. *)
Definition _scope_filter (scope_type : string) (department station : option N)
    (dataset_type_code : string) (st : string) (d x : option N) (c : string) : bool :=
  String.eqb st scope_type && bool_decide (d = department) && bool_decide (x = station)
  && String.eqb c dataset_type_code.

Definition scope_filter (scope_type : string) (department station : option N)
    (dataset_type_code : string) (_ : N) (sc : DatasetScopeState) : bool :=
  _scope_filter scope_type department station dataset_type_code
    (sc_scope_type sc) (sc_department sc) (sc_station sc) (sc_dataset_type_code sc).

Definition is_active_job (j : PublicationJob) : bool :=
  match job_status j with JOB_PENDING | JOB_RUNNING => true | _ => false end.

(** The check that the models' [clean] methods and [_validate_scope] share. *)
Definition station_in_department (station department : option N) : M Db bool :=
  match station with
  | None => ret true
  | Some st =>
      let! x := get_obj db_stations st in
      ret (bool_decide (department = Some (st_department x)))
  end.

Definition _validate_scope (department station : option N) (dataset_type_code : string) :
    M Db unit :=
  let! scope_type := _registered_scope_type dataset_type_code in
  try_except (validate_dataset_scope dataset_type_code (Some scope_type) department station
              ;;; ret tt)
    (λ e, match exn_kind e with
          | EDatasetRegistry => Some (raise EPublication (exn_message e)) | _ => None end) ;;;
  let! ok := station_in_department station department in
  guard ok EPublication "Station must belong to the scope department.".

(** [DatasetScopeState.clean] and [PublicationJob.clean], through [full_clean]. *)
Definition owner_clean (dataset_type_code scope_type : string) (department station : option N) :
    M Db unit :=
  try_except (validate_dataset_scope dataset_type_code (Some scope_type) department station
              ;;; ret tt)
    (λ e, match exn_kind e with
          | EDatasetRegistry => Some (raise EValidation (exn_message e)) | _ => None end) ;;;
  let! ok := station_in_department station department in
  guard ok EValidation "Station must belong to the scope department.".

(** [lock_file_scope]: the advisory lock needs the department's key. *)
Definition lock_file_scope (department : option N) (dataset_type_code : string) : M Db unit :=
  if is_file_dataset dataset_type_code && negb (opt_true department)
  then raise EAttribute "'NoneType' object has no attribute 'id'" else ret tt.

Definition find_scope (scope_type : string) (department station : option N)
    (dataset_type_code : string) : M Db (option (N * DatasetScopeState)) :=
  first_where db_scopes (scope_filter scope_type department station dataset_type_code) by_pk.

Definition _locked_scope (department station : option N) (dataset_type_code : string) :
    M Db (N * DatasetScopeState) :=
  lock_file_scope department dataset_type_code ;;;
  let! scope_type := _registered_scope_type dataset_type_code in
  let! scope := find_scope scope_type department station dataset_type_code in
  get_or_raise scope EPublication "Dataset scope has not been initialized.".

(** [aggregate(Max("version_number"))["maximum"] or 0] *)
Definition max_version (s : Db) (scope_id : N) : Z :=
  foldr Z.max 0 ((λ r, pub_version_number r.2) <$>
    rows (db_publications s) (λ _ p, N.eqb (pub_scope_state p) scope_id)).

Definition empty_artifact : ArtifactEnvelope :=
  mkArtifactEnvelope "" None "" None None "" "" "" None "" "".

Definition _allocate_staged_publication (scope_id : N) (job : PublicationJob)
    (source_fingerprint_value : string) (source_snapshot : json) : M Db N :=
  let! definition := get_dataset_definition (job_dataset_type_code job) in
  let! maximum := gets (λ s, max_version s scope_id) in
  let! now := timezone_now in
  create db_publications {|
    pub_scope_type := job_scope_type job; pub_department := job_department job;
    pub_station := job_station job; pub_dataset_type_code := job_dataset_type_code job;
    pub_scope_state := scope_id; pub_version_number := maximum + 1;
    pub_schema_version := dt_current_schema_version definition;
    pub_source_revision := job_source_revision job;
    pub_source_fingerprint := source_fingerprint_value;
    pub_source_snapshot := Some source_snapshot; pub_status := STAGED;
    pub_build_summary := JObj []; pub_change_summary := [];
    pub_artifact_ready := false; pub_artifact_status := ARTIFACT_PENDING;
    pub_artifact := empty_artifact; pub_created_at := now;
    pub_created_by := job_requested_by job; pub_published_at := None;
    pub_published_by := None; pub_supersedes := None; pub_build_error := "" |}.

Definition _current_source_snapshot (scope : DatasetScopeState) : M Db json :=
  let! definition := get_dataset_definition (sc_dataset_type_code scope) in
  build_source_payload definition (sc_department scope) (sc_station scope).

(** [snapshot["source_revision"]] *)
Definition snapshot_revision (snapshot : json) : M Db Z :=
  match jget "source_revision" snapshot with
  | Some (JInt z) => ret z
  | _ => raise EKey "source_revision"
  end.

(** [scope.current_published_publication] *)
Definition publication_of (fk : option N) : M Db (option (N * DatasetPublication)) :=
  match fk with
  | None => ret None
  | Some pid => let! p := get_obj db_publications pid in ret (Some (pid, p))
  end.

Section queue.
Context `{Settings} `{Hash}.

(** ** Dirty or clean *)

(** The scope object may hold changes that are not saved yet, so it is passed
    and returned by value. *)
Definition _current_source_state (scope_id : N) (scope : DatasetScopeState) :
    M Db (DatasetScopeState * json * string) :=
  let! snapshot := _current_source_snapshot scope in
  if is_file_dataset (sc_dataset_type_code scope) then
    let! revision := snapshot_revision snapshot in
    if Z.eqb (sc_source_revision scope) revision then
      ret (scope, snapshot, source_fingerprint_for_payload snapshot)
    else
      let! now := timezone_now in
      save db_scopes scope_id (λ r,
        r <| sc_source_revision := revision |> <| sc_updated_at := now |>) ;;;
      ret (scope <| sc_source_revision := revision |>, snapshot,
           source_fingerprint_for_payload snapshot)
  else ret (scope, snapshot, source_fingerprint_for_payload snapshot).

Definition _scope_is_dirty (scope : DatasetScopeState) (fingerprint : option string) :
    M Db bool :=
  let! current := publication_of (sc_current_published_publication scope) in
  match current with
  | None => ret true
  | Some (_, current) =>
      let current_fingerprint :=
        str_or (default "" fingerprint) (sc_current_source_fingerprint scope) in
      if negb (str_true current_fingerprint) || negb (str_true (pub_source_fingerprint current))
      then ret true
      else ret (negb (String.eqb current_fingerprint (pub_source_fingerprint current)
                || String.eqb current_fingerprint (publication_source_fingerprint current)))
  end.

Definition _stored_source_fingerprint (scope : DatasetScopeState) (fingerprint : string) :
    M Db string :=
  let! current := publication_of (sc_current_published_publication scope) in
  match current with
  | Some (_, current) =>
      if String.eqb fingerprint (publication_source_fingerprint current)
      then ret (str_or (pub_source_fingerprint current) fingerprint)
      else ret fingerprint
  | None => ret fingerprint
  end.

(** One iteration of the first loop of [_cancel_redundant_pending]. *)
Definition cancel_pending (now : Z) (row : N * PublicationJob) : M Db unit :=
  let '(jid, pending) := row in
  match job_build_publication pending with
  | Some pid =>
      let! staged := get_obj db_publications pid in
      when (bool_decide (pub_status staged = STAGED))
        (save db_publications pid (λ p,
           p <| pub_status := PUB_CANCELLED |>
             <| pub_build_error := "Source matches the active publication." |>))
  | None => ret tt
  end ;;;
  save db_jobs jid (λ j,
    j <| job_status := JOB_CANCELLED |> <| job_completed_at := Some now |>
      <| job_error_category := "source_reverted" |>
      <| job_error_message := "Source matches the active publication." |>).

(** [.exclude(build_jobs__status__in=(PENDING, RUNNING))] *)
Definition has_active_build_job (s : Db) (pid : N) : bool :=
  exists_row (db_jobs s)
    (λ _ j, bool_decide (job_build_publication j = Some pid) && is_active_job j).

Definition _cancel_redundant_pending (scope_id : N) : M Db unit :=
  let! now := timezone_now in
  let! pending := gets (λ s, rows (db_jobs s) (λ _ j,
    N.eqb (job_scope_state j) scope_id && bool_decide (job_status j = JOB_PENDING)
    && negb (job_allow_clean_rebuild j))) in
  for_each pending (cancel_pending now) ;;;
  let! unlinked := gets (λ s, rows (db_publications s) (λ pid p,
    N.eqb (pub_scope_state p) scope_id && bool_decide (pub_status p = STAGED)
    && negb (has_active_build_job s pid))) in
  for_each unlinked (λ r,
    save db_publications r.1 (λ p, p <| pub_status := PUB_CANCELLED |>)).

Definition _reconcile_clean_source (scope_id : N) (scope : DatasetScopeState)
    (fingerprint : string) : M Db (bool * DatasetScopeState) :=
  let! dirty := _scope_is_dirty scope (Some fingerprint) in
  if dirty then ret (false, scope) else
  let! stored := _stored_source_fingerprint scope fingerprint in
  let! scope :=
    if negb (String.eqb (sc_current_source_fingerprint scope) stored)
       || opt_true (sc_dirty_since scope)
    then
      let! now := timezone_now in
      save db_scopes scope_id (λ r,
        r <| sc_current_source_fingerprint := stored |> <| sc_dirty_since := None |>
          <| sc_updated_at := now |>) ;;;
      ret (scope <| sc_current_source_fingerprint := stored |> <| sc_dirty_since := None |>)
    else ret scope in
  _cancel_redundant_pending scope_id ;;;
  ret (true, scope).

Definition _newer_live_attempt_exists (scope_id : N) (version_number : Z) : M Db bool :=
  exists_where db_publications (λ _ p,
    N.eqb (pub_scope_state p) scope_id && (version_number <? pub_version_number p)
    && match pub_status p with STAGED | BUILDING => true | _ => false end).

(** ** Enqueueing *)

Definition NIGHTLY_OFFSET : Z := 5 * 60 * 1000000.

(** [debounce_started_at] is a parameter the code does not use. *)
Definition _data_change_not_before (now : Z) (debounce_started_at : option Z) : Z :=
  let nightly := now - now mod MICROSECONDS_PER_DAY + NIGHTLY_OFFSET in
  if NIGHTLY_OFFSET <=? now mod MICROSECONDS_PER_DAY
  then nightly + MICROSECONDS_PER_DAY else nightly.

(** Coalescing newer source data into the pending job. *)
Definition coalesce_job (now source_revision : Z) (allow_clean_rebuild : bool)
    (trigger_type : TriggerType) (requested_by : option N) (j : PublicationJob) :
    PublicationJob :=
  let j := j <| job_source_revision := source_revision |>
             <| job_allow_clean_rebuild ::= λ b, b || allow_clean_rebuild |> in
  match trigger_type with
  | USER_REQUEST | BULK_REQUEST =>
      j <| job_trigger_type := trigger_type |> <| job_requested_by := requested_by |>
        <| job_not_before := Some now |>
  | DATA_CHANGE =>
      if bool_decide (job_trigger_type j = DATA_CHANGE) then
        j <| job_not_before :=
               Some (_data_change_not_before now (job_debounce_started_at j)) |>
      else j
  end.

(** [job.save()] of a new job, under the constraint
    [one_active_publication_job_per_scope]. *)
Definition save_new_job (job : PublicationJob) : M Db N :=
  let! taken := exists_where db_jobs (λ _ j,
    is_active_job j && is_active_job job &&
    _scope_filter (job_scope_type job) (job_department job) (job_station job)
      (job_dataset_type_code job) (job_scope_type j) (job_department j) (job_station j)
      (job_dataset_type_code j)) in
  if taken then raise EIntegrity "one_active_publication_job_per_scope"
  else create db_jobs job.

(** The branch for an existing PENDING job. *)
Definition coalesce_pending (jid : N) (active : PublicationJob) (scope : DatasetScopeState)
    (requested_by : option N) (trigger_type : TriggerType) (allow_clean_rebuild : bool)
    (snapshot : json) (fingerprint : string) : M Db N :=
  let! now := timezone_now in
  let update := coalesce_job now (sc_source_revision scope) allow_clean_rebuild trigger_type
                  requested_by in
  save db_jobs jid update ;;;
  match job_build_publication active with
  | None => ret jid
  | Some pid =>
      let! staged := find_obj db_publications pid in
      match staged with
      | Some p =>
          when (bool_decide (pub_status p = STAGED))
            (save db_publications pid (λ p,
               p <| pub_source_revision := sc_source_revision scope |>
                 <| pub_source_fingerprint := fingerprint |>
                 <| pub_source_snapshot := Some snapshot |>)) ;;;
          ret jid
      | None => ret jid
      end
  end.

Definition new_job (now : Z) (scope_type : string) (department station : option N)
    (dataset_type_code : string) (scope_id : N) (scope : DatasetScopeState)
    (requested_by : option N) (trigger_type : TriggerType)
    (debounce_started_at : option Z) (allow_clean_rebuild : bool) : PublicationJob :=
  let debounce := match trigger_type with
                  | DATA_CHANGE => Some (default now debounce_started_at)
                  | _ => None end in
  {| job_dataset_type_code := dataset_type_code; job_scope_state := scope_id;
     job_scope_type := scope_type; job_department := department; job_station := station;
     job_source_revision := sc_source_revision scope; job_attempt_count := 0;
     job_status := JOB_PENDING; job_requested_by := requested_by;
     job_trigger_type := trigger_type; job_allow_clean_rebuild := allow_clean_rebuild;
     job_not_before := Some (match trigger_type with
                             | DATA_CHANGE => _data_change_not_before now debounce
                             | _ => now end);
     job_debounce_started_at := debounce; job_created_at := now; job_started_at := None;
     job_heartbeat_at := None; job_completed_at := None; job_error_message := "";
     job_error_category := ""; job_build_publication := None |}.

(** The branch without an active job: the job, then its staged attempt. *)
Definition enqueue_new_job (department station : option N) (dataset_type_code : string)
    (scope_id : N) (scope : DatasetScopeState) (requested_by : option N)
    (trigger_type : TriggerType) (debounce_started_at : option Z)
    (allow_clean_rebuild : bool) (snapshot : json) (fingerprint : string) :
    M Db (option N) :=
  let! now := timezone_now in
  let! scope_type := _registered_scope_type dataset_type_code in
  let job := new_job now scope_type department station dataset_type_code scope_id scope
               requested_by trigger_type debounce_started_at allow_clean_rebuild in
  owner_clean dataset_type_code scope_type department station ;;;
  let! saved := try_except (let! jid := save_new_job job in ret (Some jid))
    (λ e, match exn_kind e with EIntegrity => Some (ret None) | _ => None end) in
  match saved with
  | None => ret None
  | Some jid =>
      let! pid := _allocate_staged_publication scope_id job fingerprint snapshot in
      save db_jobs jid (λ j, j <| job_build_publication := Some pid |>) ;;;
      let! publication := get_obj db_publications pid in
      record_event "publication.job_queued" requested_by department station
        "publication_job" (Some jid)
        [("dataset_type_code", JStr dataset_type_code);
         ("source_revision", JInt (job_source_revision job));
         ("version_number", JInt (pub_version_number publication))] ;;;
      ret (Some jid)
  end.

(** [source]: the snapshot and the fingerprint, when the caller has computed
    both. *)
Definition enqueue_publication_job (department station : option N)
    (dataset_type_code : string) (requested_by : option N) (trigger_type : TriggerType)
    (debounce_started_at : option Z) (allow_clean_rebuild : bool)
    (source : option (json * string)) : M Db (option N) :=
  atomic (
    _validate_scope department station dataset_type_code ;;;
    let! ' (scope_id, scope) := _locked_scope department station dataset_type_code in
    let! ' (scope, snapshot, fingerprint) :=
      match source with
      | Some (snapshot, fingerprint) => ret (scope, snapshot, fingerprint)
      | None =>
          let! ' (scope, snapshot, fingerprint) := _current_source_state scope_id scope in
          let! stored := _stored_source_fingerprint scope fingerprint in
          if String.eqb (sc_current_source_fingerprint scope) stored
          then ret (scope, snapshot, fingerprint)
          else
            let! now := timezone_now in
            save db_scopes scope_id (λ r,
              r <| sc_current_source_fingerprint := stored |> <| sc_updated_at := now |>) ;;;
            ret (scope <| sc_current_source_fingerprint := stored |>, snapshot, fingerprint)
      end in
    let! dirty := _scope_is_dirty scope (Some fingerprint) in
    if negb allow_clean_rebuild && negb dirty then
      _reconcile_clean_source scope_id scope fingerprint ;;; ret None
    else
      let! scope_type := _registered_scope_type dataset_type_code in
      let! active := first_where db_jobs (λ _ j,
        is_active_job j &&
        _scope_filter scope_type department station dataset_type_code (job_scope_type j)
          (job_department j) (job_station j) (job_dataset_type_code j)) by_pk in
      match active with
      | Some (jid, active) =>
          if bool_decide (job_status active = JOB_RUNNING) then ret None
          else
            let! jid := coalesce_pending jid active scope requested_by trigger_type
                          allow_clean_rebuild snapshot fingerprint in
            ret (Some jid)
      | None =>
          enqueue_new_job department station dataset_type_code scope_id scope requested_by
            trigger_type debounce_started_at allow_clean_rebuild snapshot fingerprint
      end).

(** ** Marking a scope dirty *)

Definition new_scope (now : Z) (scope_type : string) (department station : option N)
    (dataset_type_code : string) : DatasetScopeState :=
  mkDatasetScopeState scope_type department station dataset_type_code 0 "" None None None
    now.

(** [filter(...).first()], and a new row when there is none.  The transactions
    of the model are serial, so the insertion never meets a concurrent one. *)
Definition get_or_create_scope (department station : option N) (dataset_type_code : string) :
    M Db (N * DatasetScopeState) :=
  let! scope_type := _registered_scope_type dataset_type_code in
  let! found := find_scope scope_type department station dataset_type_code in
  match found with
  | Some scope => ret scope
  | None =>
      owner_clean dataset_type_code scope_type department station ;;;
      let! now := timezone_now in
      let scope := new_scope now scope_type department station dataset_type_code in
      let! scope_id := create db_scopes scope in
      ret (scope_id, scope)
  end.

Definition mark_dirty (department station : option N) (dataset_type_code : string)
    (actor : option N) : M Db N :=
  atomic (
    _validate_scope department station dataset_type_code ;;;
    lock_file_scope department dataset_type_code ;;;
    let! now := timezone_now in
    let! ' (scope_id, scope) := get_or_create_scope department station dataset_type_code in
    let scope := scope <| sc_source_revision ::= λ r, r + 1 |> in
    let! ' (scope, snapshot, fingerprint) := _current_source_state scope_id scope in
    let! scope :=
      if is_file_dataset dataset_type_code then
        let! revision := snapshot_revision snapshot in
        ret (scope <| sc_source_revision := revision |>)
      else ret scope in
    let! stored := _stored_source_fingerprint scope fingerprint in
    let scope := scope <| sc_current_source_fingerprint := stored |> in
    let! dirty := _scope_is_dirty scope (Some fingerprint) in
    let scope := if dirty && negb (opt_true (sc_dirty_since scope))
                 then scope <| sc_dirty_since := Some now |> else scope in
    let! scope :=
      if dirty then ret scope
      else
        let! ' (_, scope) := _reconcile_clean_source scope_id scope fingerprint in
        ret scope in
    save db_scopes scope_id (λ r,
      r <| sc_source_revision := sc_source_revision scope |>
        <| sc_current_source_fingerprint := sc_current_source_fingerprint scope |>
        <| sc_dirty_since := sc_dirty_since scope |> <| sc_updated_at := now |>) ;;;
    record_event "publication.scope_marked_dirty" actor department station
      "dataset_scope_state" (Some scope_id)
      [("dataset_type_code", JStr dataset_type_code);
       ("source_revision", JInt (sc_source_revision scope))] ;;;
    (if dirty then
       enqueue_publication_job department station dataset_type_code actor DATA_CHANGE None
         false (Some (snapshot, fingerprint)) ;;; ret tt
     else ret tt) ;;;
    ret scope_id).

(** ** Claiming *)

(** [pin_source] of [apps/file_library/publication.py]: the contents the frozen
    snapshot names are referenced while the publication needs them. *)
Definition pin_source (pid : N) (snapshot : json) : M Db unit :=
  let! library :=
    get_or_raise (jget "library" snapshot ≫= jget "id") EKey "library" in
  match jget "documents" snapshot with
  | Some (JList documents) =>
      for_each documents (λ entry,
        match jget "content_id" entry, jget "id" entry, library with
        | Some (JStr content_id), Some (JStr document_id), JStr library_id =>
            let! found := exists_where db_contents (λ k c,
              String.eqb (str_uuid k) content_id && String.eqb (str_uuid (co_library c)) library_id) in
            if found : bool
            then
              create db_publication_contents
                (mkPublicationContent pid content_id document_id) ;;; ret tt
            else raise EDoesNotExist "Content matching query does not exist."
        | _, _, _ => raise EKey "content_id"
        end)
  | _ => raise EKey "documents"
  end.

(** The STAGED -> BUILDING freeze and the PENDING -> RUNNING claim. *)
Definition freeze_claim (now : Z) (jid : N) (pid : N) (scope : DatasetScopeState)
    (publication : DatasetPublication) (snapshot : json) (fingerprint : string) :
    M Db unit :=
  save db_publications pid (λ p,
    p <| pub_source_revision := sc_source_revision scope |>
      <| pub_source_snapshot := Some snapshot |>
      <| pub_source_fingerprint := fingerprint |> <| pub_status := BUILDING |>) ;;;
  when (is_file_dataset (pub_dataset_type_code publication)) (pin_source pid snapshot) ;;;
  save db_jobs jid (λ j,
    j <| job_status := JOB_RUNNING |> <| job_started_at := Some now |>
      <| job_heartbeat_at := Some now |>
      <| job_source_revision := sc_source_revision scope |>
      <| job_attempt_count ::= λ n, n + 1 |>
      <| job_build_publication := Some pid |>
      <| job_error_category := "" |> <| job_error_message := "" |>).

(** The attempt the job owns, or a new one for a job that has none. *)
Definition claim_publication (scope_id : N) (job : PublicationJob) (fingerprint : string)
    (snapshot : json) : M Db (option (N * DatasetPublication)) :=
  match job_build_publication job with
  | Some pid =>
      let! p := find_obj db_publications pid in
      ret ((λ p, (pid, p)) <$> p)
  | None =>
      let! pid := _allocate_staged_publication scope_id job fingerprint snapshot in
      let! p := get_obj db_publications pid in
      ret (Some (pid, p))
  end.

Definition _claim_job (candidate : N * PublicationJob) : M Db (option N) :=
  atomic (
    let '(jid, preview) := candidate in
    let! ' (scope_id, scope) :=
      _locked_scope (job_department preview) (job_station preview)
        (job_dataset_type_code preview) in
    let! found := find_obj db_jobs jid in
    match found with
    | Some job =>
        if negb (bool_decide (job_status job = JOB_PENDING)) then ret None else
        match DATASET_REGISTRY (job_dataset_type_code job) with
        | None =>
            let! now := timezone_now in
            save db_jobs jid (λ j,
              j <| job_status := JOB_FAILED |> <| job_completed_at := Some now |>
                <| job_error_category := "registry" |>
                <| job_error_message := "Unknown dataset type code." |>) ;;;
            ret (Some jid)
        | Some _ =>
            let! now := timezone_now in
            let! ' (scope, snapshot, fingerprint) := _current_source_state scope_id scope in
            let job := job <| job_source_revision := sc_source_revision scope |> in
            let! stored := _stored_source_fingerprint scope fingerprint in
            let! scope :=
              if String.eqb (sc_current_source_fingerprint scope) stored then ret scope
              else
                save db_scopes scope_id (λ r,
                  r <| sc_current_source_fingerprint := stored |>
                    <| sc_updated_at := now |>) ;;;
                ret (scope <| sc_current_source_fingerprint := stored |>) in
            let! ' (clean, scope) :=
              if is_file_dataset (sc_dataset_type_code scope)
                 && negb (job_allow_clean_rebuild job)
              then _reconcile_clean_source scope_id scope fingerprint
              else ret (false, scope) in
            if (clean : bool) then ret None else
            let! publication := claim_publication scope_id job fingerprint snapshot in
            match publication with
            | Some (pid, p) =>
                if bool_decide (pub_status p = STAGED) then
                  freeze_claim now jid pid scope p snapshot fingerprint ;;; ret (Some jid)
                else
                  save db_jobs jid (λ j,
                    j <| job_status := JOB_OBSOLETE |> <| job_completed_at := Some now |>) ;;;
                  ret (Some jid)
            | None =>
                save db_jobs jid (λ j,
                  j <| job_status := JOB_OBSOLETE |> <| job_completed_at := Some now |>) ;;;
                ret (Some jid)
            end
        end
    | None => ret None
    end).

(** The candidates of [claim_next_job], oldest first. *)
Definition claim_candidates (s : Db) : list (N * PublicationJob) :=
  order_by (λ r, [job_created_at r.2; Z.of_N r.1])
    (rows (db_jobs s) (λ _ j,
       bool_decide (job_status j = JOB_PENDING)
       && match job_not_before j with None => true | Some t => t <=? db_clock s end)).

Definition heartbeat_job (jid : N) : M Db bool :=
  atomic (
    let! job := find_obj db_jobs jid in
    match job with
    | Some j =>
        if bool_decide (job_status j = JOB_RUNNING) then
          let! now := timezone_now in
          save db_jobs jid (λ j, j <| job_heartbeat_at := Some now |>) ;;;
          ret true
        else ret false
    | None => ret false
    end).
(** ** Scopes of file libraries, [apps/file_library/publication.py] *)

(** [scope_kwargs], without the owners *)
Definition library_scope_type (l : Library) : string :=
  match lib_department l with Some _ => "DEPARTMENT" | None => "STATION" end.

Definition library_code (l : Library) : string :=
  match lib_department l with Some _ => "department_files" | None => "station_files" end.

(** [get_or_create]: the new row has the revision of the library, and the owner that the
    constraint [dataset_scope_owner_shape] wants. *)
Definition lock_scope (l : Library) : M Db (N * DatasetScopeState) :=
  let! department := department_for l in
  let! found :=
    find_scope (library_scope_type l) (Some department) (lib_station l) (library_code l) in
  match found with
  | Some scope => ret scope
  | None =>
      guard (bool_decide (opt_true (lib_station l) = String.eqb (library_scope_type l) "STATION"))
        EIntegrity "dataset_scope_owner_shape" ;;;
      let! now := timezone_now in
      let scope := (new_scope now (library_scope_type l) (Some department) (lib_station l)
                      (library_code l)) <| sc_source_revision := lib_source_revision l |> in
      let! scope_id := create db_scopes scope in
      ret (scope_id, scope)
  end.

Definition initialize_library (l : Library) : M Db N :=
  atomic (
    let! department := department_for l in
    let! ' (scope_id, scope) := lock_scope l in
    let! queued := exists_where db_jobs (λ _ j, N.eqb (job_scope_state j) scope_id) in
    when (negb (opt_true (sc_current_published_publication scope)) && negb queued)
      (enqueue_publication_job (Some department) (lib_station l) (library_code l) None
         DATA_CHANGE None false None ;;; ret tt) ;;;
    ret scope_id).
End queue.

(** ** Queries *)

Lemma readonly_registered_scope_type {S} c : readonly (_registered_scope_type (S := S) c).
Proof. unfold _registered_scope_type. preserve. Qed.

Lemma readonly_publication_of fk : readonly (publication_of fk).
Proof. unfold publication_of. preserve. Qed.

#[export] Hint Resolve readonly_registered_scope_type readonly_publication_of : preserves.

Section queries.
Context `{Hash}.

Lemma readonly_station_in_department st d : readonly (station_in_department st d).
Proof. unfold station_in_department. preserve. Qed.

Lemma readonly_lock_file_scope d c : readonly (lock_file_scope d c).
Proof. unfold lock_file_scope. preserve. Qed.

Lemma readonly_find_scope t d x c : readonly (find_scope t d x c).
Proof. unfold find_scope. preserve. Qed.

Lemma readonly_snapshot_revision j : readonly (snapshot_revision j).
Proof. unfold snapshot_revision. preserve. Qed.

Lemma readonly_scope_is_dirty sc f : readonly (_scope_is_dirty sc f).
Proof. unfold _scope_is_dirty. preserve. Qed.

Lemma readonly_stored_source_fingerprint sc f : readonly (_stored_source_fingerprint sc f).
Proof. unfold _stored_source_fingerprint. preserve. Qed.

Lemma readonly_newer_live_attempt_exists c n : readonly (_newer_live_attempt_exists c n).
Proof. unfold _newer_live_attempt_exists. preserve. Qed.

End queries.

#[export] Hint Resolve readonly_station_in_department
  readonly_lock_file_scope
  readonly_find_scope
  readonly_snapshot_revision
  readonly_scope_is_dirty
  readonly_stored_source_fingerprint
  readonly_newer_live_attempt_exists : preserves.

Lemma readonly_validate_scope d x c : readonly (_validate_scope d x c).
Proof. unfold _validate_scope. preserve. Qed.

Lemma readonly_owner_clean c t d x : readonly (owner_clean c t d x).
Proof. unfold owner_clean. preserve. Qed.

Lemma readonly_locked_scope d x c : readonly (_locked_scope d x c).
Proof. unfold _locked_scope. preserve. Qed.

Lemma preserves_current_source_snapshot (R : relation Db) `{!PreOrder R} sc :
  (∀ f s, R s (s <| db_libraries ::= f |>)) → preserves R (_current_source_snapshot sc).
Proof.
  intros HR. unfold _current_source_snapshot. preserve.
  apply preserves_build_source_payload; [exact _|exact HR].
Qed.

#[export] Hint Extern 3 (preserves _ (_current_source_snapshot _)) =>
  apply preserves_current_source_snapshot; [exact _|intros ? ?; reflexivity] : preserves.

#[export] Hint Resolve readonly_validate_scope readonly_owner_clean readonly_locked_scope
  : preserves.
