(* ===== verification/Assignments.v ===== *)
(** Assignments of people to stations and of tablets to vehicles,
    [apps/assignments/services.py].  The rows a foreign key names exist; an
    assignment is checked against the constraints of its table
    ([apps/assignments/models.py]) when it is written. *)
From S2P Require Import Prelude Text Models Store Registry Authorization Fingerprint Artifacts.
From S2P Require Import ApplicationSecrets Queue.

Definition valid_window (valid_from : Z) (valid_until : option Z) : bool :=
  match valid_until with None => true | Some u => valid_from <? u end.

Definition constraint_failed : string := "new row violates a constraint".

Section assignments.
Context `{Settings} `{Hash}.

Definition _now (value : option Z) : M Db Z :=
  let! now := timezone_now in ret (default now value).

Definition _validate_operational_department (department : Department) : M Db unit :=
  guard (dept_active department) EAssignment "Department is not operationally active.".

Definition _validate_person_station (person : Person) (station : Station) : M Db unit :=
  let! department := get_obj db_departments (pe_department person) in
  _validate_operational_department department ;;;
  guard (pe_active person && st_active station
         && N.eqb (pe_department person) (st_department station)) EAssignment
    "Person and station must be active and belong to the same department.".

Definition _validate_tablet_vehicle (tablet : Tablet) (vehicle : Vehicle) : M Db unit :=
  let! department := get_obj db_departments (tb_department tablet) in
  _validate_operational_department department ;;;
  guard (tb_active tablet && ve_active vehicle
         && N.eqb (tb_department tablet) (ve_department vehicle)) EAssignment
    "Tablet and vehicle must be active and belong to the same department." ;;;
  let! station := get_obj db_stations (ve_station vehicle) in
  guard (st_active station) EAssignment "Vehicle station is not operationally active.".

(** ** People *)

Definition current_home_row (person : N) (now : Z) (a : PersonnelStationAssignment) : bool :=
  N.eqb (ps_person a) person && ps_home a && (ps_valid_from a <=? now)
  && negb (opt_true (ps_ended_at a))
  && match ps_valid_until a with None => true | Some u => now <? u end.

Definition _current_home (person : N) : M Db (option (N * PersonnelStationAssignment)) :=
  let! now := timezone_now in
  first_where db_personnel_assignments (λ _ a, current_home_row person now a) by_pk.

Definition ensure_current_home (pid : N) (person : Person) : M Db unit :=
  let! home := _current_home pid in
  guard (negb (pe_active person) || opt_true home) EAssignment
    "Every active person must have exactly one current HOME assignment.".

Definition open_home (person : N) (a : PersonnelStationAssignment) : bool :=
  N.eqb (ps_person a) person && ps_home a && negb (opt_true (ps_valid_until a))
  && negb (opt_true (ps_ended_at a)).

(** [PersonnelStationAssignment.objects.create] *)
Definition create_personnel_assignment (row : PersonnelStationAssignment) : M Db N :=
  let! taken := exists_where db_personnel_assignments (λ _ a,
    open_home (ps_person row) a && open_home (ps_person row) row) in
  guard (negb taken && valid_window (ps_valid_from row) (ps_valid_until row)) EIntegrity
    constraint_failed ;;;
  create db_personnel_assignments row.

Definition create_person_with_home (did sid : N) (actor : N) (effective_at : option Z) :
    M Db N :=
  atomic (
    let! department := get_obj db_departments did in
    let! station := get_obj db_stations sid in
    guard (N.eqb did (st_department station)) EAssignment
      "Person and home station must belong to the same department." ;;;
    _validate_operational_department department ;;;
    guard (st_active station) EAssignment "Home station is not operationally active." ;;;
    let person := new_person did in
    let! pid := create db_people person in
    let! valid_from := _now effective_at in
    create_personnel_assignment
      (mkPersonnelStationAssignment pid sid true valid_from None "" actor None None) ;;;
    ensure_current_home pid person ;;;
    ret pid).

(** The end of a home assignment, under the check of its validity window. *)
Definition end_home (aid : N) (a : PersonnelStationAssignment) (actor : N) (effective now : Z) :
    M Db unit :=
  guard (valid_window (ps_valid_from a) (Some effective)) EIntegrity constraint_failed ;;;
  save db_personnel_assignments aid (λ a, a <| ps_valid_until := Some effective |>
    <| ps_ended_at := Some now |> <| ps_ended_by := Some actor |>).

Definition transfer_home (pid sid actor : N) (effective_at : option Z) : M Db N :=
  atomic (
    let! person := get_obj db_people pid in
    let! station := get_obj db_stations sid in
    let department := Some (pe_department person) in
    require_department_admin actor department ;;;
    _validate_person_station person station ;;;
    let! effective := _now effective_at in
    let! current := _current_home pid in
    let! ' (aid, home) := get_or_raise current EAssignment
      "Active people require one current HOME assignment before transfer." in
    guard (negb (N.eqb (ps_station home) sid)) EAssignment
      "Person already has this home station." ;;;
    let! now := timezone_now in
    end_home aid home actor effective now ;;;
    let! assignment := create_personnel_assignment
      (mkPersonnelStationAssignment pid sid true effective None "" actor None None) in
    ensure_current_home pid person ;;;
    mark_dirty department (Some (ps_station home)) "station_personnel" (Some actor) ;;;
    mark_dirty department (Some sid) "station_personnel" (Some actor) ;;;
    record_event "personnel.home_station_transferred" (Some actor) department (Some sid)
      "person" (Some pid) [] ;;;
    ret assignment).

Definition create_temporary_assignment (pid sid actor : N) (valid_until : option Z)
    (reason : string) : M Db N :=
  atomic (
    let! person := get_obj db_people pid in
    let! station := get_obj db_stations sid in
    let department := Some (pe_department person) in
    require_department_admin actor department ;;;
    _validate_person_station person station ;;;
    let! now := timezone_now in
    guard (match valid_until with Some u => now <? u | None => false end) EAssignment
      "Temporary assignments require a future expiry." ;;;
    let! assignment := create_personnel_assignment
      (mkPersonnelStationAssignment pid sid false now valid_until (str_strip reason) actor
         None None) in
    mark_dirty department (Some sid) "station_personnel" (Some actor) ;;;
    record_event "personnel.temporary_assignment_created" (Some actor) department (Some sid)
      "personnel_station_assignment" (Some assignment) [] ;;;
    ret assignment).

Definition end_temporary_assignment (aid : N) (actor : option N) : M Db unit :=
  atomic (
    let! assignment := get_obj db_personnel_assignments aid in
    guard (negb (ps_home assignment)) EAssignment
      "Only temporary assignments can be ended through this service." ;;;
    if opt_true (ps_ended_at assignment) then ret tt else
    let! person := get_obj db_people (ps_person assignment) in
    let department := Some (pe_department person) in
    match actor with
    | Some a => require_department_admin a department
    | None => ret tt
    end ;;;
    let! now := timezone_now in
    save db_personnel_assignments aid (λ a, a <| ps_ended_at := Some now |>
      <| ps_ended_by := actor |>) ;;;
    mark_dirty department (Some (ps_station assignment)) "station_personnel" actor ;;;
    record_event (if opt_true actor then "personnel.temporary_assignment_ended"
                  else "personnel.temporary_assignment_expired") actor department
      (Some (ps_station assignment)) "personnel_station_assignment" (Some aid) []).

(** ** Tablets and vehicles *)

Definition open_assignment (tid : N) (a : TabletVehicleAssignment) : bool :=
  N.eqb (va_tablet a) tid && negb (opt_true (va_valid_until a))
  && negb (opt_true (va_ended_at a)).

Definition _authorize_tablet_vehicle_assignment (actor tid : N) (tablet : Tablet)
    (vehicle : Vehicle) : M Db unit :=
  let! departments := gets (λ s, active_department_ids s actor) in
  if mem_N (tb_department tablet) departments then
    require_department_admin actor (Some (tb_department tablet))
  else
    let! station_ids := gets (λ s, active_station_ids s actor) in
    guard (match station_ids with [] => false | _ => true end) EPermissionDenied
      "Department administrator scope is required." ;;;
    guard (mem_N (ve_station vehicle) station_ids) EPermissionDenied
      "Station administrator scope is required." ;;;
    let! current := first_where db_vehicle_assignments (λ _ a, open_assignment tid a) by_pk in
    match current with
    | None => ret tt
    | Some (_, a) =>
        let! held := get_obj db_vehicles (va_vehicle a) in
        guard (mem_N (ve_station held) station_ids) EPermissionDenied
          "Station administrator scope is required."
    end.

(** [TabletVehicleAssignment.objects.create] *)
Definition create_vehicle_assignment (row : TabletVehicleAssignment) : M Db N :=
  let! taken := exists_where db_vehicle_assignments (λ _ a,
    open_assignment (va_tablet row) a && open_assignment (va_tablet row) row) in
  guard (negb taken && valid_window (va_valid_from row) (va_valid_until row)) EIntegrity
    constraint_failed ;;;
  create db_vehicle_assignments row.

(** The end of the assignment a new one takes over. *)
Definition end_vehicle_assignment (aid : N) (a : TabletVehicleAssignment) (actor : N)
    (effective now : Z) : M Db unit :=
  guard (valid_window (va_valid_from a) (Some effective)) EIntegrity constraint_failed ;;;
  save db_vehicle_assignments aid (λ a, a <| va_valid_until := Some effective |>
    <| va_ended_at := Some now |> <| va_ended_by := Some actor |>
    <| va_end_reason := "REASSIGNED" |>).

Definition assign_tablet_vehicle (tid vid actor : N) (effective_at : option Z) : M Db N :=
  atomic (
    let! vehicle := get_obj db_vehicles vid in
    let! tablet := get_obj db_tablets tid in
    _authorize_tablet_vehicle_assignment actor tid tablet vehicle ;;;
    _validate_tablet_vehicle tablet vehicle ;;;
    let! current := first_where db_vehicle_assignments (λ _ a, open_assignment tid a) by_pk in
    let! effective := _now effective_at in
    let! now := timezone_now in
    match current with
    | Some (aid, a) => end_vehicle_assignment aid a actor effective now
    | None => ret tt
    end ;;;
    let! assignment := create_vehicle_assignment
      (mkTabletVehicleAssignment tid vid effective None (Some actor) None None "") in
    record_event "tablet.vehicle_assigned" (Some actor) (Some (tb_department tablet))
      (Some (ve_station vehicle)) "tablet_vehicle_assignment" (Some assignment)
      [("tablet_id", json_uuid tid); ("vehicle_id", json_uuid vid)] ;;;
    revoke_temporary_access actor "department_mutation" ;;;
    ret assignment).
End assignments.
