(* ===== verification/Organizations.v ===== *)
(** Stations and vehicles, [apps/organizations/services.py].  A row that the caller
    hands over is named by its primary key; the advisory lock of a department has no
    counterpart. *)
From S2P Require Import Prelude Text Models Store Authorization Fingerprint Artifacts.
From S2P Require Import ApplicationSecrets.
From S2P Require Import Tablets Roles Queue Assignments.

(** The rows of the tables that the model leaves out (file libraries, reports, imports
    and contacts) and whose foreign keys protect a station or a person. *)
Class ProtectedRows := {
  station_protected_elsewhere : Db → N → bool;
  person_protected_elsewhere : Db → N → bool
}.

Definition is_key (k : N) (fk : option N) : bool := bool_decide (fk = Some k).

(** What a form says of a station and of a vehicle, without surrounding spaces. *)
Record StationForm := mkStationForm {
  fo_name : string;
  fo_short_code : string;
  fo_street : string;
  fo_house_number : string;
  fo_postal_code : string;
  fo_city : string
}.

Definition strip_station (f : StationForm) : StationForm :=
  mkStationForm (str_strip (fo_name f)) (str_strip (fo_short_code f)) (str_strip (fo_street f))
    (str_strip (fo_house_number f)) (str_strip (fo_postal_code f)) (str_strip (fo_city f)).

Record VehicleForm := mkVehicleForm {
  fo_display_name : string;
  fo_call_sign : string;
  fo_asset_identifier : string
}.

Definition strip_vehicle (f : VehicleForm) : VehicleForm :=
  mkVehicleForm (str_strip (fo_display_name f)) (str_strip (fo_call_sign f))
    (str_strip (fo_asset_identifier f)).

(** The event of a change to the organization. *)
Definition organization_event (action : string) (actor did : N) (station : option N)
    (target_type : string) (target : N) : M Db unit :=
  record_event action (Some actor) (Some did) station target_type (Some target) [].

(** ** Stations *)

Definition create_station (actor did : N) (form : StationForm) (active : bool) : M Db N :=
  atomic (
    require_department_admin actor (Some did) ;;;
    let f := strip_station form in
    let! sid := create db_stations (mkStation (fo_name f) (fo_short_code f) (fo_street f)
      (fo_house_number f) (fo_postal_code f) (fo_city f) did active) in
    organization_event "organization.station_created" actor did (Some sid) "station" sid ;;;
    department_mutation actor ;;;
    ret sid).

Definition deactivate_station (sid : N) : M Db unit :=
  atomic (
    let! station := get_obj db_stations sid in
    let! vehicles := exists_where db_vehicles (λ _ v, N.eqb (ve_station v) sid && ve_active v) in
    guard (negb vehicles) EAssignment
      "Deactivate or move active vehicles before deactivating a station." ;;;
    let! people := exists_where db_personnel_assignments (λ _ a,
      N.eqb (ps_station a) sid && negb (opt_true (ps_valid_until a))
      && negb (opt_true (ps_ended_at a))) in
    guard (negb people) EAssignment
      "End or transfer current personnel assignments before deactivating a station." ;;;
    save db_stations sid (λ x, x <| st_active := false |>)).

(** The station already says what the form says. *)
Definition station_says (station : Station) (f : StationForm) (active : bool) : bool :=
  String.eqb (st_name station) (fo_name f) && String.eqb (st_short_code station) (fo_short_code f)
  && String.eqb (st_street station) (fo_street f)
  && String.eqb (st_house_number station) (fo_house_number f)
  && String.eqb (st_postal_code station) (fo_postal_code f)
  && String.eqb (st_city station) (fo_city f) && Bool.eqb (st_active station) active.

Definition update_station (actor sid : N) (form : StationForm) (active : bool) : M Db unit :=
  atomic (
    let! station := get_obj db_stations sid in
    let did := st_department station in
    require_department_admin actor (Some did) ;;;
    let f := strip_station form in
    if station_says station f active then ret tt else
    (if negb active && st_active station then deactivate_station sid
     else save db_stations sid (λ x, x <| st_name := fo_name f |>
       <| st_short_code := fo_short_code f |> <| st_street := fo_street f |>
       <| st_house_number := fo_house_number f |> <| st_postal_code := fo_postal_code f |>
       <| st_city := fo_city f |> <| st_active := active |>)) ;;;
    organization_event "organization.station_updated" actor did (Some sid) "station" sid ;;;
    department_mutation actor).

Section organizations.
Context `{ProtectedRows}.

(** A row with a protected foreign key to the station. *)
Definition station_protected (s : Db) (sid : N) : bool :=
  exists_row (db_vehicles s) (λ _ v, N.eqb (ve_station v) sid)
  || exists_row (db_station_admins s) (λ _ a, N.eqb (sa_station a) sid)
  || exists_row (db_personnel_assignments s) (λ _ a, N.eqb (ps_station a) sid)
  || exists_row (db_temporary_accesses s) (λ _ a, N.eqb (ta_station a) sid)
  || exists_row (db_scopes s) (λ _ x, is_key sid (sc_station x))
  || exists_row (db_publications s) (λ _ p, is_key sid (pub_station p))
  || exists_row (db_jobs s) (λ _ j, is_key sid (job_station j))
  || existsb (λ e, is_key sid (ev_station e)) (db_audit s)
  || station_protected_elsewhere s sid.

Definition delete_station (actor sid : N) : M Db unit :=
  atomic (
    let! station := get_obj db_stations sid in
    let did := st_department station in
    require_department_admin actor (Some did) ;;;
    let! protected := gets (λ s, station_protected s sid) in
    guard (negb protected) EAssignment
      "Station cannot be deleted while protected resources or history exist." ;;;
    delete_obj db_stations sid ;;;
    record_event "organization.station_deleted" (Some actor) (Some did) None "station" (Some sid)
      [("name", JStr (st_name station)); ("short_code", JStr (st_short_code station))] ;;;
    department_mutation actor).

(** ** Vehicles *)

Definition create_vehicle (actor did sid : N) (form : VehicleForm) (active : bool) : M Db N :=
  atomic (
    require_department_admin actor (Some did) ;;;
    let! station := get_obj db_stations sid in
    guard (N.eqb (st_department station) did && st_active station) EAssignment
      "Vehicle station must be active and in the selected department." ;;;
    let f := strip_vehicle form in
    let! vid := create db_vehicles (mkVehicle did sid (fo_display_name f) (fo_call_sign f)
      (fo_asset_identifier f) active) in
    organization_event "organization.vehicle_created" actor did (Some sid) "vehicle" vid ;;;
    department_mutation actor ;;;
    ret vid).

(** The tablet's assignment to the vehicle is still open. *)
Definition open_on_vehicle (vid tid : N) (a : TabletVehicleAssignment) : bool :=
  open_assignment tid a && N.eqb (va_vehicle a) vid.

(** The tablet [tid] leaves the vehicle that retires. *)
Definition leave_retired_vehicle (actor vid : N) (vehicle : Vehicle) (now : Z) (tid : N) :
    M Db unit :=
  let! _ := get_obj db_tablets tid in
  let! assignment := first_where db_vehicle_assignments (λ _ a, open_on_vehicle vid tid a) by_pk in
  match assignment with
  | None => ret tt
  | Some (aid, a) =>
      guard (valid_window (va_valid_from a) (Some now)) EIntegrity constraint_failed ;;;
      save db_vehicle_assignments aid (λ a, a <| va_valid_until := Some now |>
        <| va_ended_at := Some now |> <| va_ended_by := Some actor |>
        <| va_end_reason := "VEHICLE_RETIRED" |>) ;;;
      let! installations := installations_of tid current_status in
      for_each installations revoke_installation_grants ;;;
      record_event "tablet.vehicle_assignment_ended_vehicle_retired" (Some actor)
        (Some (ve_department vehicle)) (Some (ve_station vehicle)) "tablet_vehicle_assignment"
        (Some aid) [("tablet_id", json_uuid tid); ("vehicle_id", json_uuid vid)]
  end.

Definition on_vehicle (vid : N) (a : TabletVehicleAssignment) : bool :=
  N.eqb (va_vehicle a) vid && negb (opt_true (va_valid_until a))
  && negb (opt_true (va_ended_at a)).

Definition retire_vehicle (actor vid : N) : M Db unit :=
  atomic (
    let! vehicle := get_obj db_vehicles vid in
    let did := ve_department vehicle in
    require_department_admin actor (Some did) ;;;
    guard (ve_active vehicle) EAssignment "Vehicle is already retired." ;;;
    let! now := timezone_now in
    let! assignments := select_ordered db_vehicle_assignments (λ _ a, on_vehicle vid a)
      (λ r, [Z.of_N (va_tablet r.2)]) in
    let tablet_ids := (λ r, va_tablet r.2) <$> assignments in
    for_each tablet_ids (leave_retired_vehicle actor vid vehicle now) ;;;
    save db_vehicles vid (λ v, v <| ve_active := false |>) ;;;
    organization_event "organization.vehicle_retired" actor did (Some (ve_station vehicle))
      "vehicle" vid ;;;
    department_mutation actor).

Definition vehicle_says (vehicle : Vehicle) (f : VehicleForm) (active : bool) : bool :=
  String.eqb (ve_display_name vehicle) (fo_display_name f)
  && String.eqb (ve_call_sign vehicle) (fo_call_sign f)
  && String.eqb (ve_asset_identifier vehicle) (fo_asset_identifier f)
  && Bool.eqb (ve_active vehicle) active.

Definition update_vehicle (actor vid : N) (form : VehicleForm) (active : bool) : M Db unit :=
  atomic (
    let! vehicle := get_obj db_vehicles vid in
    let did := ve_department vehicle in
    require_department_admin actor (Some did) ;;;
    let f := strip_vehicle form in
    if vehicle_says vehicle f active then ret tt else
    (if negb active && ve_active vehicle then retire_vehicle actor vid
     else save db_vehicles vid (λ v, v <| ve_display_name := fo_display_name f |>
       <| ve_call_sign := fo_call_sign f |> <| ve_asset_identifier := fo_asset_identifier f |>
       <| ve_active := active |>)) ;;;
    organization_event "organization.vehicle_updated" actor did (Some (ve_station vehicle))
      "vehicle" vid ;;;
    department_mutation actor).
End organizations.
