(* ===== verification/Personnel.v ===== *)
(** People, [apps/personnel/services.py]: their personal data, the eligibility and the
    address of incident commanders, retention, offboarding and anonymization. *)
From S2P Require Import Prelude Text Models Store Authorization Fingerprint Artifacts.
From S2P Require Import ApplicationSecrets.
From S2P Require Import Tablets Accounts Roles Queue Assignments Organizations.

Definition DEPARTMENT_SCOPE_REQUIRED : string := "Department administrator scope is required.".

(** [valid_until IS NULL OR valid_until > now] *)
Definition not_over (now : Z) (a : PersonnelStationAssignment) : bool :=
  match ps_valid_until a with None => true | Some u => now <? u end.

(** The assignment has begun and was not ended. *)
Definition begun (now : Z) (a : PersonnelStationAssignment) : bool :=
  (ps_valid_from a <=? now) && negb (opt_true (ps_ended_at a)).

(** [visible_to_user]: the two calls of [filter] on the assignments of a person may be
    met by different assignments. *)
Definition visible_to_user (s : Db) (user department : N) : list (N * Person) :=
  let in_department p := N.eqb (pe_department p) department in
  if mem_N department (active_department_ids s user) then
    rows (db_people s) (λ _ p, in_department p)
  else
    let station_ids := active_station_ids s user in
    if negb (exists_row (db_stations s)
         (λ k x, mem_N k station_ids && N.eqb (st_department x) department)) then []
    else
      let now := db_clock s in
      rows (db_people s) (λ k p, in_department p
        && exists_row (db_personnel_assignments s)
             (λ _ a, N.eqb (ps_person a) k && mem_N (ps_station a) station_ids && begun now a)
        && exists_row (db_personnel_assignments s)
             (λ _ a, N.eqb (ps_person a) k && not_over now a)).

Definition _is_department_admin (s : Db) (user department : N) : bool :=
  mem_N department (active_department_ids s user).

Definition _has_home_station_scope (s : Db) (user person : N) : bool :=
  exists_row (db_personnel_assignments s) (λ _ a, N.eqb (ps_person a) person && ps_home a
    && mem_N (ps_station a) (active_station_ids s user)
    && begun (db_clock s) a && not_over (db_clock s) a).

Definition station_is_active (s : Db) (sid : N) : bool :=
  match db_stations s !! sid with Some x => st_active x | None => false end.

(** [_visible_station_ids]; the order of [distinct()] is the database's. *)
Definition _visible_station_ids (s : Db) (person : N) : list N :=
  remove_dups ((λ r, ps_station r.2) <$> rows (db_personnel_assignments s)
    (λ _ a, N.eqb (ps_person a) person && station_is_active s (ps_station a)
            && begun (db_clock s) a && not_over (db_clock s) a)).

Definition _require_department_person_admin (user : N) (person : Person) : M Db unit :=
  let! ok := gets (λ s, _is_department_admin s user (pe_department person)) in
  guard ok EPermissionDenied DEPARTMENT_SCOPE_REQUIRED.

Definition _station_can_manage_visible_person (s : Db) (user person station : N) : bool :=
  mem_N station (active_station_ids s user)
  && exists_row (db_personnel_assignments s)
       (λ _ a, N.eqb (ps_person a) person && N.eqb (ps_station a) station
               && begun (db_clock s) a && not_over (db_clock s) a).

Definition _normalize_email (value : string) : string := str_casefold (str_strip value).

(** [value or None] on a text. *)
Definition or_none (value : option string) : option string :=
  match value with Some v => if str_true v then Some v else None | None => None end.

(** [f"{first_name.strip()} {last_name.strip()}".strip()] *)
Definition person_display_name (first_name last_name : string) : string :=
  str_strip (str_strip first_name +:+ " " +:+ str_strip last_name).

(** The constraints of the table: a number is used once among the active people of a
    department, and the state agrees with the columns that go with it. *)
Definition number_taken (s : Db) (pid : option N) (p : Person) : bool :=
  exists_row (db_people s) (λ k q, negb (is_key k pid) && N.eqb (pe_department q) (pe_department p)
    && bool_decide (pe_lifecycle_status q = PERSON_ACTIVE)
    && bool_decide (pe_personnel_number q = pe_personnel_number p)
    && opt_true (pe_personnel_number q)).

Definition lifecycle_consistent (p : Person) : bool :=
  match pe_lifecycle_status p with
  | PERSON_ACTIVE => pe_active p && negb (opt_true (pe_departed_at p))
  | PERSON_DEPARTED => negb (pe_active p) && opt_true (pe_departed_at p)
  | PERSON_ANONYMIZED => negb (pe_active p) && opt_true (pe_anonymized_at p)
  end.

Definition person_allowed (s : Db) (pid : option N) (p : Person) : bool :=
  lifecycle_consistent p
  && negb (bool_decide (pe_lifecycle_status p = PERSON_ACTIVE) && number_taken s pid p).

Definition create_person_row (p : Person) : M Db N :=
  let! ok := gets (λ s, person_allowed s None p) in
  guard ok EIntegrity constraint_failed ;;;
  create db_people p.

(** [person.save()] on the locked row, under the constraints of the table. *)
Definition save_person (pid : N) (p : Person) : M Db unit :=
  let! ok := gets (λ s, person_allowed s (Some pid) p) in
  guard ok EIntegrity constraint_failed ;;;
  save db_people pid (λ _, p).

Definition clear_verification (p : Person) : Person :=
  p <| pe_email_verified_at := None |> <| pe_email_verified_by := None |>.

Definition personnel_event (action : string) (actor pid : N) (p : Person) : M Db unit :=
  record_event action (Some actor) (Some (pe_department p)) None "person" (Some pid) [].

Section personnel.
Context `{Settings} `{Hash}.

Definition mark_station_personnel (actor did sid : N) : M Db unit :=
  let! _ := get_obj db_stations sid in
  mark_dirty (Some did) (Some sid) "station_personnel" (Some actor) ;;;
  ret tt.

Definition mark_stations (actor did : N) (station_ids : list N) : M Db unit :=
  for_each station_ids (mark_station_personnel actor did).

Definition _mark_visible_station_scopes (pid : N) (p : Person) (actor : N) : M Db unit :=
  let! station_ids := gets (λ s, _visible_station_ids s pid) in
  mark_stations actor (pe_department p) station_ids.

Definition create_person (actor did sid : N) (personnel_number : option string)
    (first_name last_name : string) (eligible : bool) (email : string) : M Db N :=
  atomic (
    let! admin := gets (λ s, _is_department_admin s actor did) in
    guard admin EPermissionDenied "Only department administrators can create personnel." ;;;
    let! station := get_obj db_stations sid in
    guard (N.eqb did (st_department station) && st_active station) EPersonnel
      "Home station must be active and in the personnel department." ;;;
    let display_name := person_display_name first_name last_name in
    guard (str_true display_name) EPersonnel "Personnel display name is required." ;;;
    let email := if str_true email then Some (_normalize_email email) else None in
    guard (negb (match email with Some e => str_true e | None => false end) || eligible) EPersonnel
      "Commander eligibility is required before setting commander email." ;;;
    let person := (new_person did) <| pe_personnel_number := or_none personnel_number |>
      <| pe_first_name := Some (str_strip first_name) |>
      <| pe_last_name := Some (str_strip last_name) |> <| pe_display_name := display_name |>
      <| pe_incident_commander_eligible := eligible |>
      <| pe_incident_commander_email := email |> in
    let! pid := create_person_row person in
    let! now := timezone_now in
    create_personnel_assignment
      (mkPersonnelStationAssignment pid sid true now None "" actor None None) ;;;
    ensure_current_home pid person ;;;
    record_event "personnel.created" (Some actor) (Some did) (Some sid) "person" (Some pid) [] ;;;
    mark_dirty (Some did) (Some sid) "station_personnel" (Some actor) ;;;
    ret pid).

Definition update_person (actor pid : N) (personnel_number : option string)
    (first_name last_name : string) : M Db unit :=
  atomic (
    let! person := get_obj db_people pid in
    _require_department_person_admin actor person ;;;
    guard (bool_decide (pe_lifecycle_status person = PERSON_ACTIVE)) EPersonnel
      "Only active personnel can be edited." ;;;
    let updated := person <| pe_personnel_number := or_none personnel_number |>
      <| pe_first_name := Some (str_strip first_name) |>
      <| pe_last_name := Some (str_strip last_name) |>
      <| pe_display_name := person_display_name first_name last_name |> in
    guard (str_true (pe_display_name updated)) EPersonnel "Personnel display name is required." ;;;
    if bool_decide (pe_personnel_number updated = pe_personnel_number person
                    ∧ pe_first_name updated = pe_first_name person
                    ∧ pe_last_name updated = pe_last_name person
                    ∧ pe_display_name updated = pe_display_name person)
    then ret tt else
    save_person pid updated ;;;
    personnel_event "personnel.updated" actor pid updated ;;;
    _mark_visible_station_scopes pid updated actor).

Definition set_commander_eligibility (actor pid : N) (eligible : bool) (station : option N) :
    M Db unit :=
  atomic (
    let! person := get_obj db_people pid in
    let! allowed := gets (λ s, _is_department_admin s actor (pe_department person)
      || match station with
         | Some sid =>
             match db_stations s !! sid with
             | Some x => N.eqb (st_department x) (pe_department person)
                         && _station_can_manage_visible_person s actor pid sid
             | None => false
             end
         | None => false
         end) in
    guard allowed EPermissionDenied "Personnel is outside the administrator's scope." ;;;
    guard (bool_decide (pe_lifecycle_status person = PERSON_ACTIVE)) EPersonnel
      "Only active personnel can be commander eligible." ;;;
    if Bool.eqb (pe_incident_commander_eligible person) eligible then ret tt else
    let updated := person <| pe_incident_commander_eligible := eligible |> in
    let updated := if eligible then updated else clear_verification updated in
    save_person pid updated ;;;
    personnel_event "personnel.commander_eligibility_changed" actor pid updated ;;;
    _mark_visible_station_scopes pid updated actor).

Definition set_commander_email (actor pid : N) (email : string) : M Db unit :=
  atomic (
    let! person := get_obj db_people pid in
    _require_department_person_admin actor person ;;;
    guard (pe_incident_commander_eligible person) EPersonnel
      "Commander eligibility is required before setting commander email." ;;;
    let email := _normalize_email email in
    if bool_decide (pe_incident_commander_email person = Some email)
       && negb (opt_true (pe_email_verified_at person))
    then ret tt else
    let updated := clear_verification (person <| pe_incident_commander_email := Some email |>) in
    save_person pid updated ;;;
    personnel_event "personnel.commander_email_changed" actor pid updated ;;;
    _mark_visible_station_scopes pid updated actor).

Definition verify_commander_email (actor pid : N) : M Db unit :=
  atomic (
    let! person := get_obj db_people pid in
    _require_department_person_admin actor person ;;;
    guard (pe_incident_commander_eligible person
           && match pe_incident_commander_email person with
              | Some e => str_true e | None => false end) EPersonnel
      "Eligible personnel with an email address are required for verification." ;;;
    if opt_true (pe_email_verified_at person) then ret tt else
    let! now := timezone_now in
    let updated := person <| pe_email_verified_at := Some now |>
      <| pe_email_verified_by := Some actor |> in
    save_person pid updated ;;;
    personnel_event "personnel.commander_email_verified" actor pid updated ;;;
    _mark_visible_station_scopes pid updated actor).

Definition policy_of (did : N) : M Db (option (N * PersonnelRetentionPolicy)) :=
  first_where db_retention_policies (λ _ r, N.eqb (rp_department r) did) by_pk.

Definition set_retention_policy (actor did : N) (retention_period : Z) : M Db N :=
  atomic (
    let! admin := gets (λ s, _is_department_admin s actor did) in
    guard (admin && (0 <? retention_period)) EPermissionDenied
      "A positive retention period and department scope are required." ;;;
    let! _ := get_obj db_departments did in
    let! policy := policy_of did in
    let changed k :=
      record_event "personnel.retention_policy_changed" (Some actor) (Some did) None
        "personnel_retention_policy" (Some did) [] ;;;
      department_mutation actor ;;;
      ret k in
    match policy with
    | Some (k, r) =>
        if rp_retention_period r =? retention_period then ret k else
        save db_retention_policies k (λ r, r <| rp_retention_period := retention_period |>
          <| rp_updated_by := actor |>) ;;;
        changed k
    | None =>
        let! k := create db_retention_policies
          (mkPersonnelRetentionPolicy did retention_period actor) in
        changed k
    end).

(** The open assignments of a person end now, under the check of their windows. *)
Definition open_for (pid : N) (a : PersonnelStationAssignment) : bool :=
  N.eqb (ps_person a) pid && negb (opt_true (ps_ended_at a)) && negb (opt_true (ps_valid_until a)).

Definition end_open_assignments (pid actor : N) (now : Z) : M Db unit :=
  let! bad := exists_where db_personnel_assignments
    (λ _ a, open_for pid a && negb (valid_window (ps_valid_from a) (Some now))) in
  guard (negb bad) EIntegrity constraint_failed ;;;
  update_where db_personnel_assignments (open_for pid)
    (λ a, a <| ps_valid_until := Some now |> <| ps_ended_at := Some now |>
            <| ps_ended_by := Some actor |>) ;;;
  ret tt.

Definition departed (p : Person) (now retention_period : Z) : Person :=
  clear_verification (p <| pe_lifecycle_status := PERSON_DEPARTED |> <| pe_active := false |>
    <| pe_departed_at := Some now |> <| pe_retention_until := Some (now + retention_period) |>
    <| pe_incident_commander_eligible := false |> <| pe_incident_commander_email := None |>).

Definition offboard_person (actor pid : N) : M Db unit :=
  atomic (
    let! person := get_obj db_people pid in
    let did := pe_department person in
    let! admin := gets (λ s, _is_department_admin s actor did) in
    guard admin EPermissionDenied "Only department administrators can offboard personnel." ;;;
    let! policy := policy_of did in
    let! ' (_, policy) := get_or_raise policy EPersonnel
      "A department retention policy is required before offboarding." in
    let! now := timezone_now in
    let! station_ids := gets (λ s, _visible_station_ids s pid) in
    end_open_assignments pid actor now ;;;
    save_person pid (departed person now (rp_retention_period policy)) ;;;
    personnel_event "personnel.offboarded" actor pid person ;;;
    mark_stations actor did station_ids).

Definition anonymized (p : Person) (now : Z) (actor : N) : Person :=
  clear_verification (p <| pe_personnel_number := None |> <| pe_first_name := None |>
    <| pe_last_name := None |> <| pe_display_name := "Former member" |>
    <| pe_incident_commander_eligible := false |> <| pe_incident_commander_email := None |>
    <| pe_lifecycle_status := PERSON_ANONYMIZED |> <| pe_active := false |>
    <| pe_anonymized_at := Some now |> <| pe_anonymized_by := Some actor |>).

Definition anonymize_person (actor pid : N) : M Db unit :=
  atomic (
    let! person := get_obj db_people pid in
    let! admin := gets (λ s, _is_department_admin s actor (pe_department person)) in
    guard admin EPermissionDenied "Only department administrators can anonymize personnel." ;;;
    let! now := timezone_now in
    guard (bool_decide (pe_lifecycle_status person = PERSON_DEPARTED)
           && match pe_retention_until person with Some u => u <=? now | None => false end)
      EPersonnel "Personnel retention period has not expired." ;;;
    let updated := anonymized person now actor in
    save_person pid updated ;;;
    personnel_event "personnel.anonymized" actor pid updated ;;;
    _mark_visible_station_scopes pid updated actor).

Context `{ProtectedRows}.

(** A row with a protected foreign key to the person. *)
Definition person_protected (s : Db) (pid : N) : bool :=
  exists_row (db_personnel_assignments s) (λ _ a, N.eqb (ps_person a) pid)
  || person_protected_elsewhere s pid.

Definition delete_person (actor pid : N) : M Db unit :=
  atomic (
    let! person := get_obj db_people pid in
    _require_department_person_admin actor person ;;;
    let! station_ids := gets (λ s, _visible_station_ids s pid) in
    let! protected := gets (λ s, person_protected s pid) in
    guard (negb protected) EPersonnel
      "Personnel cannot be deleted while protected assignment or history records exist." ;;;
    delete_obj db_people pid ;;;
    record_event "personnel.deleted" (Some actor) (Some (pe_department person)) None "person"
      (Some pid) [("personnel_number", json_opt_str (pe_personnel_number person));
                  ("display_name", JStr (pe_display_name person))] ;;;
    mark_stations actor (pe_department person) station_ids).
End personnel.
