(* ===== verification/MailProviders.v ===== *)
(** The mail providers: messages, errors and the rows of the settings ([outbound_mail/runtime.py], [models.py]), where a connection may go ([network_policy.py]), the HTTPS
    transport ([http_transport.py]), the SMTP and Brevo adapters ([smtp.py], [brevo.py]) and
    the registry ([providers.py]). *)
From Stdlib Require Import Ascii.
From S2P Require Import Prelude Text Encoding Models Store Authorization Fingerprint Artifacts.
From S2P Require Import ApplicationSecrets Tablets Manifests Queue Assignments.

(** An exception of [smtplib], [ssl] or [socket] as far as the code tells them apart. *)
Inductive SmtpFailure :=
| SMTPAuthenticationError (code : Z) | SMTPNotSupportedError | SSLError
| SMTPRecipientsRefused | SMTPResponseException (code : Z) | SMTPServerDisconnected
| SMTPException | TimeoutError | OSError | OtherException.

(** What [PinnedSmtpEmailBackend] is built with. *)
Record SmtpConnection := mkSmtpConnection {
  cn_host : string;
  cn_port : Z;
  cn_username : string;
  cn_password : string;
  cn_use_tls : bool;
  cn_use_ssl : bool;
  cn_timeout : Z;
  cn_pinned_addresses : list string
}.

(** [HttpResponse] *)
Record HttpResponse := mkHttpResponse { hr_status_code : Z; hr_body : string }.

(** The libraries below the providers: Django's address validation, [ipaddress], the IDNA
    codec, name resolution (the kind of address and its text), the connections, which may
    answer differently at every time, and [json.loads].  [smtp_open] and [smtp_send] give
    the exception, [smtp_send] otherwise the number of messages sent; [http_request] gives
    [None] for a [RequestException]. *)
Class MailEnvironment := {
  validate_email : string → bool;
  IpAddress : Type;
  ip_address : string → option IpAddress;
  ip_str : IpAddress → string;
  ip_is_global : IpAddress → bool;
  ip_in_network : IpAddress → string → bool;
  ip_network_valid : string → bool;
  idna_encode : string → option string;
  getaddrinfo : Db → string → Z → option (list (bool * option string));
  smtp_open : Db → SmtpConnection → option SmtpFailure;
  smtp_send : Db → SmtpConnection → string → OutboundMessage → SmtpFailure + Z;
  http_request : Db → string → string → list (string * string) → option json → option string →
    option HttpResponse;
  json_loads : string → option json
}.

(** Settings; the timeouts are compared with zero only. *)
Class MailSettings := {
  OUTBOUND_MAIL_HTTPS_PROXY : string;
  OUTBOUND_MAIL_HTTP_CONNECT_TIMEOUT_SECONDS : Z;
  OUTBOUND_MAIL_HTTP_READ_TIMEOUT_SECONDS : Z;
  OUTBOUND_MAIL_SMTP_TIMEOUT_SECONDS : Z;
  OUTBOUND_MAIL_SMTP_ALLOWED_HOSTS : list string;
  OUTBOUND_MAIL_SMTP_ALLOWED_NETWORKS : list string
}.

(** ** Errors *)

(** [ProviderUnavailableError], [MessageRejectedError], [ProviderConfigurationError] *)
Definition PROVIDER_UNAVAILABLE : string := "provider_unavailable".
Definition MESSAGE_REJECTED : string := "message_rejected".
Definition PROVIDER_CONFIGURATION : string := "provider_configuration".

Definition provider_error {A S} (code : string) : M S A := raise (EMailProvider code) "".

Definition VERIFIED_SUCCESS : string := "SUCCESS".
Definition VERIFIED_FAILED : string := "FAILED".

(** ** Messages *)

(** [_required_text] *)
Definition required_text (value : string) : M Db unit :=
  guard (str_true (str_strip value)) EValidation "This field is required." ;;;
  guard (String.eqb value (str_strip value)) EValidation
    "Leading or trailing whitespace is not permitted.".

(** The constructors, with their [__post_init__]. *)
Definition is_mime_char (c : ascii) : bool :=
  is_alnum c || existsb (Ascii.eqb c) ["!"; "#"; "$"; "&"; "^"; "_"; "."; "+"; "-"]%char.

Definition mime_part (s : string) : bool :=
  match s with String c s' => is_alnum c && all_chars is_mime_char s' | EmptyString => false end.

Definition mime_type_valid (s : string) : bool :=
  match str_split "/" s with [a; b] => mime_part a && mime_part b | _ => false end.

Definition mail_attachment (filename mime_type content : string) : M Db MailAttachment :=
  required_text filename ;;;
  guard (negb (str_mem "/" filename || str_mem "092" filename
               || String.eqb filename "." || String.eqb filename "..")) EValidation
    "Attachment filename must not be a path." ;;;
  guard (mime_type_valid mime_type) EValidation "A valid MIME type is required." ;;;
  ret (mkMailAttachment filename mime_type content).

Definition outbound_message (sender recipient : MailAddress) (subject body : string)
    (attachments : list MailAttachment) : M Db OutboundMessage :=
  required_text subject ;;;
  required_text body ;;;
  ret (mkOutboundMessage sender recipient subject body attachments).

(** ** Configuration rows *)

(** [SystemMailConfiguration.objects.filter(singleton=True).first()] *)
Definition find_system_mail (s : Db) : option (N * SystemMailConfiguration) :=
  head (order_by by_pk (rows (db_system_mail s) (λ _ _, true))).

Definition new_smtp_settings : SmtpSettings := mkSmtpSettings "" None "" "" "" "" "".

Definition new_system_mail : SystemMailConfiguration :=
  mkSystemMailConfiguration "DISABLED" "" "" "" "" new_smtp_settings None "" "" None "" None.

Definition new_department_mail (department : N) : DepartmentMailConfiguration :=
  mkDepartmentMailConfiguration department "DISABLED" new_smtp_settings "" None "" None.

(** The check constraints [..._smtp_auth_pair]. *)
Definition auth_pair (c : SmtpSettings) : bool :=
  Bool.eqb (str_true (smtp_username c)) (str_true (smtp_password_encrypted c)).

Definition smtp_complete (c : SmtpSettings) : bool :=
  str_true (smtp_host c) && match smtp_port c with Some p => negb (p =? 0) | None => false end
  && str_true (smtp_tls_mode c) && str_true (smtp_sender_name c) && str_true (smtp_sender_email c).

Definition validate_smtp_configuration (c : SmtpSettings) : M Db unit :=
  guard (smtp_complete c) EValidation "SMTP delivery configuration is incomplete.".

Definition validate_brevo_sender_configuration (c : SystemMailConfiguration) : M Db unit :=
  guard (str_true (mc_brevo_sender_name c) && str_true (mc_brevo_sender_email c)) EValidation
    "Brevo sender name and email are required.".

Definition BREVO : string := "BREVO".
Definition SMTP : string := "SMTP".

(** [API_PROVIDER_REGISTRY] of [providers.py]: its only entry is [_validate_brevo]. *)
Definition _validate_brevo (c : SystemMailConfiguration) : M Db unit :=
  guard (str_true (mc_brevo_sender_name c) && str_true (mc_brevo_sender_email c)
         && str_true (mc_brevo_api_key_encrypted c)) EValidation
    "Brevo API delivery configuration is incomplete.".

Definition API_PROVIDER_REGISTRY : list (string * (SystemMailConfiguration → M Db unit)) :=
  [(BREVO, _validate_brevo)].

Definition api_validator (provider : string) : option (SystemMailConfiguration → M Db unit) :=
  snd <$> List.find (λ r, String.eqb r.1 provider) API_PROVIDER_REGISTRY.

Definition validate_api_provider_configuration (provider : string) (c : SystemMailConfiguration) :
    M Db unit :=
  let! validator := get_or_raise (api_validator provider) EValidation
    "Unsupported API mail provider." in
  validator c.

Definition validate_activation (c : SystemMailConfiguration) : M Db unit :=
  if String.eqb (mc_delivery_mode c) "DISABLED" then ret tt else
  if String.eqb (mc_delivery_mode c) "API" then
    guard (str_true (mc_api_provider c)) EValidation
      "An API provider is required for API mail delivery." ;;;
    validate_api_provider_configuration (mc_api_provider c) c
  else if String.eqb (mc_delivery_mode c) "SMTP" then
    validate_smtp_configuration (mc_smtp c) ;;;
    guard (auth_pair (mc_smtp c)) EValidation
      "SMTP username and password must be configured together."
  else raise EValidation "Unsupported mail delivery mode.".

Section environment.
Context `{MailEnvironment, MailSettings}.

Definition mail_address (display_name email : string) : M Db MailAddress :=
  required_text display_name ;;;
  guard (validate_email email) EValidation "A valid email address is required." ;;;
  ret (mkMailAddress display_name email).

(** ** [full_clean]: the validators of the columns *)

Definition at_most (n : nat) (s : string) : bool := Nat.leb (String.length s) n.

Definition choice (choices : list string) (s : string) : bool :=
  negb (str_true s) || existsb (String.eqb s) choices.

Definition email_column (s : string) : bool :=
  negb (str_true s) || (validate_email s && at_most 254 s).

Definition clean_smtp (c : SmtpSettings) : bool :=
  at_most 255 (smtp_host c)
  && match smtp_port c with Some p => (1 <=? p) && (p <=? 65535) | None => true end
  && choice ["STARTTLS"; "IMPLICIT_TLS"] (smtp_tls_mode c)
  && at_most 255 (smtp_sender_name c) && email_column (smtp_sender_email c)
  && at_most 255 (smtp_username c).

Definition user_reference (s : Db) (user : option N) : bool :=
  match user with Some u => opt_true (db_users s !! u) | None => true end.

Definition clean_system_mail (s : Db) (c : SystemMailConfiguration) : bool :=
  existsb (String.eqb (mc_delivery_mode c)) ["DISABLED"; "API"; "SMTP"]
  && choice [BREVO] (mc_api_provider c)
  && at_most 255 (mc_brevo_sender_name c) && email_column (mc_brevo_sender_email c)
  && clean_smtp (mc_smtp c)
  && match mc_outbound_mail_https_proxy c with Some p => at_most 2048 p | None => true end
  && at_most 32 (mc_verification_provider c) && at_most 16 (mc_last_verification_outcome c)
  && at_most 64 (mc_last_verification_code c) && user_reference s (mc_updated_by c).

Definition clean_department_mail (s : Db) (c : DepartmentMailConfiguration) : bool :=
  existsb (String.eqb (md_delivery_mode c)) ["DISABLED"; "SYSTEM"; "CUSTOM_SMTP"]
  && clean_smtp (md_smtp c)
  && at_most 16 (md_last_smtp_verification_outcome c)
  && at_most 64 (md_last_smtp_verification_code c) && user_reference s (md_updated_by c).

Definition full_clean {A} (clean : Db → A → bool) (c : A) : M Db unit :=
  let! ok := gets (λ s, clean s c) in
  guard ok EValidation "The configuration is not valid.".

(** ** [network_policy.py] *)

Definition policy_error {A} : M Db A :=
  raise ENetworkPolicy "Outbound mail destination is not permitted.".

(** [_HOST_LABEL] and [_DOMAIN_LABEL]: 1 to 63 lower-case letters, digits and inner
    hyphens. *)
Definition is_label_char (c : ascii) : bool := is_digit c || is_lower c.

Fixpoint last_char (c : ascii) (s : string) : ascii :=
  match s with EmptyString => c | String d s' => last_char d s' end.

Definition label_valid (s : string) : bool :=
  match s with
  | String c s' =>
      is_label_char c && is_label_char (last_char c s')
      && all_chars (λ c, is_label_char c || (c =? "-")%char) s' && Nat.leb (String.length s) 63
  | EmptyString => false
  end.

(** [hostname.rstrip(".")] *)
Fixpoint rstrip_dots (s : string) : string :=
  match s with
  | EmptyString => ""
  | String c s' =>
      let r := rstrip_dots s' in
      if (c =? ".")%char && String.eqb r "" then "" else String c r
  end.

(** [s.lower()] *)
Definition lower_char (c : ascii) : ascii :=
  let n := nat_of_ascii c in
  if (Nat.leb 65 n && Nat.leb n 90) || (Nat.leb 192 n && Nat.leb n 222 && negb (Nat.eqb n 215))
  then ascii_of_nat (n + 32) else c.

Fixpoint str_lower (s : string) : string :=
  match s with EmptyString => "" | String c s' => String (lower_char c) (str_lower s') end.

Definition _normalize_hostname (hostname : string) : M Db string :=
  if negb (str_true hostname) || negb (String.eqb hostname (str_strip hostname))
     || opt_true (ip_address hostname)
  then policy_error
  else
    let! normalized := get_or_raise (idna_encode (rstrip_dots hostname)) ENetworkPolicy
      "Outbound mail destination is not permitted." in
    let normalized := str_lower normalized in
    if str_true normalized && at_most 253 normalized
       && forallb label_valid (str_split "." normalized)
    then ret normalized else policy_error.

Definition _deployment_exceptions : M Db (list string * list string) :=
  let! hosts := fold_m (λ hosts host,
    let! h := _normalize_hostname host in ret (hosts ++ [h])) [] OUTBOUND_MAIL_SMTP_ALLOWED_HOSTS in
  if forallb ip_network_valid OUTBOUND_MAIL_SMTP_ALLOWED_NETWORKS
  then ret (hosts, OUTBOUND_MAIL_SMTP_ALLOWED_NETWORKS) else policy_error.

(** The loop over the answers: one that may not be reached rejects all of them. *)
Definition check_record (host_allowed : bool) (networks : list string) (addresses : list string)
    (r : bool * option string) : M Db (list string) :=
  if negb r.1 then ret addresses else
  let! address := get_or_raise (match r.2 with Some text => ip_address text | None => None end)
    ENetworkPolicy "Outbound mail destination is not permitted." in
  if host_allowed || ip_is_global address || existsb (ip_in_network address) networks then
    ret (if mem_str (ip_str address) addresses then addresses
         else addresses ++ [ip_str address])
  else policy_error.

Definition resolve_smtp_destination (hostname : string) (port : Z) : M Db (list string) :=
  let! normalized_host := _normalize_hostname hostname in
  if negb ((1 <=? port) && (port <=? 65535)) then policy_error else
  let! ' (allowed_hosts, allowed_networks) := _deployment_exceptions in
  let! records := gets (λ s, getaddrinfo s normalized_host port) in
  let! records := get_or_raise records ENetworkPolicy
    "Outbound mail destination is not permitted." in
  let! addresses := fold_m (check_record (mem_str normalized_host allowed_hosts) allowed_networks)
    [] records in
  match addresses with [] => policy_error | _ => ret addresses end.

(** ** [http_transport.py] *)

Context `{DeliverySettings}.

Definition transport_error {A} : M Db A := raise ETransport "Outbound mail transport failed.".

Definition _proxy_configuration (proxy_url : string) : M Db (option string) :=
  if negb (str_true proxy_url) then ret None else
  match urlsplit proxy_url with
  | None => raise EValue "Invalid URL"
  | Some (scheme, hostname, _, _) =>
      if mem_str scheme ["http"; "https"] && match hostname with Some h => str_true h | None => false end
      then ret (Some proxy_url) else transport_error
  end.

Definition validate_outbound_mail_https_proxy (proxy_url : string) : M Db unit :=
  let! _ := _proxy_configuration proxy_url in ret tt.

Definition _effective_proxy_url (s : Db) : string :=
  match find_system_mail s with
  | Some (_, c) => default OUTBOUND_MAIL_HTTPS_PROXY (mc_outbound_mail_https_proxy c)
  | None => OUTBOUND_MAIL_HTTPS_PROXY
  end.

(** [OutboundMailHttpTransport()]: the proxies it will use. *)
Definition http_transport : M Db (option string) :=
  let! configured_proxy := gets _effective_proxy_url in
  let! proxies := _proxy_configuration configured_proxy in
  if (OUTBOUND_MAIL_HTTP_CONNECT_TIMEOUT_SECONDS <=? 0)
     || (OUTBOUND_MAIL_HTTP_READ_TIMEOUT_SECONDS <=? 0)
  then transport_error else ret proxies.

(** [request_json] *)
Definition request_json (proxies : option string) (method url : string)
    (headers : list (string * string)) (payload : option json) : M Db HttpResponse :=
  let! response := gets (λ s, http_request s method url headers payload proxies) in
  match response with Some r => ret r | None => transport_error end.
End environment.

Definition BREVO_API_KEY_CONTEXT : string := "outbound-mail:api:brevo".
Definition SMTP_PASSWORD_CONTEXT : string := "outbound-mail:smtp:password".

(** [SmtpEffectiveConfiguration]; its timeout is the setting. *)
Record SmtpEffectiveConfiguration := mkSmtpEffectiveConfiguration {
  eff_host : string;
  eff_port : Z;
  eff_tls_mode : string;
  eff_sender_name : string;
  eff_sender_email : string;
  eff_username : string;
  eff_password : string
}.

(** A [SmtpProvider] or a [BrevoProvider] with the proxies of its transport. *)
Inductive Provider :=
| SmtpProvider (configuration : SmtpEffectiveConfiguration)
| BrevoProvider (sender_name sender_email api_key : string) (proxies : option string).

Definition provider_id (p : Provider) : string :=
  match p with SmtpProvider _ => SMTP | BrevoProvider _ _ _ _ => BREVO end.

(** ** [_map_smtp_failure] *)

(** The classes an exception is an instance of: every [smtplib] exception and [SSLError]
    derive from [OSError], [SMTPAuthenticationError] from [SMTPResponseException]. *)
Definition is_response_exception (f : SmtpFailure) : option Z :=
  match f with
  | SMTPAuthenticationError code | SMTPResponseException code => Some code
  | _ => None
  end.

Definition is_os_error (f : SmtpFailure) : bool :=
  match f with OtherException => false | _ => true end.

Definition is_smtp_exception (f : SmtpFailure) : bool :=
  match f with
  | SMTPAuthenticationError _ | SMTPNotSupportedError | SMTPRecipientsRefused
  | SMTPResponseException _ | SMTPServerDisconnected | SMTPException => true
  | SSLError | TimeoutError | OSError | OtherException => false
  end.

Definition _map_smtp_failure (f : SmtpFailure) : string :=
  if match f with SMTPAuthenticationError _ | SMTPNotSupportedError | SSLError => true
     | _ => false end
  then PROVIDER_CONFIGURATION
  else if match f with SMTPRecipientsRefused => true | _ => false end then MESSAGE_REJECTED
  else match is_response_exception f with
       | Some code =>
           if (400 <=? code) && (code <? 500) then PROVIDER_UNAVAILABLE else MESSAGE_REJECTED
       | None =>
           if is_os_error f then PROVIDER_UNAVAILABLE
           else if is_smtp_exception f then PROVIDER_CONFIGURATION
           else PROVIDER_UNAVAILABLE
       end.

(** ** The answer of Brevo *)

Definition _BREVO_SEND_URL : string := "https://api.brevo.com/v3/smtp/email".
Definition _BREVO_ACCOUNT_URL : string := "https://api.brevo.com/v3/account".

(** A status that is not success. *)
Definition brevo_status_error (status : Z) : string :=
  if (status =? 429) || (500 <=? status) then PROVIDER_UNAVAILABLE
  else if (status =? 401) || (status =? 402) || (status =? 403) then PROVIDER_CONFIGURATION
  else if (status =? 400) || (status =? 422) then MESSAGE_REJECTED
  else PROVIDER_UNAVAILABLE.

Definition brevo_payload (sender_name sender_email : string) (m : OutboundMessage) : json :=
  JObj ([("sender", JObj [("name", JStr sender_name); ("email", JStr sender_email)]);
         ("to", JList [JObj [("name", JStr (ma_display_name (om_recipient m)));
                             ("email", JStr (ma_email (om_recipient m)))]]);
         ("subject", JStr (om_subject m)); ("textContent", JStr (om_body m))]
        ++ match om_attachments m with
           | [] => []
           | l => [("attachment", JList ((λ a, JObj [("name", JStr (mat_filename a));
                     ("content", JStr (b64encode (mat_content a)))]) <$> l))]
           end).

(** [except OutboundMailTransportError: raise ProviderUnavailableError()] *)
Definition transport_unavailable {A} (m : M Db A) : M Db A :=
  try_except m (λ e, match exn_kind e with
                     | ETransport => Some (provider_error PROVIDER_UNAVAILABLE)
                     | _ => None
                     end).

(** [except (...): raise ProviderConfigurationError()] *)
Definition configuration_error {A} (caught : exn_class → bool) (m : M Db A) : M Db A :=
  try_except m (λ e, if caught (exn_kind e) then Some (provider_error PROVIDER_CONFIGURATION)
                     else None).

(** [.decode("utf-8")]: a [UnicodeDecodeError] is a [ValueError]. *)
Definition decode_utf8 (raw : string) : M Db string :=
  get_or_raise (utf8_decode raw) EValue "invalid start byte".

(** [MailSendResult] *)
Record MailSendResult := mkMailSendResult {
  sr_provider : string;
  sr_provider_message_id : option string
}.

Section providers.
Context `{MailEnvironment, MailSettings, DeliverySettings, Aesgcm, SecretSettings}.

Definition sender_identity (p : Provider) : M Db MailAddress :=
  match p with
  | SmtpProvider c => mail_address (eff_sender_name c) (eff_sender_email c)
  | BrevoProvider name email _ _ => mail_address name email
  end.

(** ** SMTP *)

(** The credentials of a row, decrypted: no username means no authentication. *)
Definition smtp_password (c : SmtpSettings) (context : string) : M Db string :=
  if str_true (smtp_username c) then
    let! raw := decrypt_application_secret (smtp_password_encrypted c) context in
    decode_utf8 raw
  else ret "".

Definition effective_smtp (c : SmtpSettings) (password : string) : SmtpEffectiveConfiguration :=
  mkSmtpEffectiveConfiguration (smtp_host c) (default 0 (smtp_port c)) (smtp_tls_mode c)
    (smtp_sender_name c) (smtp_sender_email c) (smtp_username c) password.

(** [ValueError], [UnicodeDecodeError], [DoesNotExist] and [ApplicationSecretError]; a
    [ValidationError] is none of them. *)
Definition smtp_row_error (k : exn_class) : bool :=
  match k with EDoesNotExist | EValue | ESecret _ => true | _ => false end.

(** [SmtpProvider.from_system_configuration] *)
Definition smtp_from_system_configuration : M Db Provider :=
  configuration_error smtp_row_error (
    let! row := gets find_system_mail in
    let! ' (_, c) := get_or_raise row EDoesNotExist "matching query does not exist." in
    validate_smtp_configuration (mc_smtp c) ;;;
    guard (auth_pair (mc_smtp c)) EValue "" ;;;
    let! password := smtp_password (mc_smtp c) SMTP_PASSWORD_CONTEXT in
    ret (SmtpProvider (effective_smtp (mc_smtp c) password))).

Definition _connection (c : SmtpEffectiveConfiguration) : M Db SmtpConnection :=
  if OUTBOUND_MAIL_SMTP_TIMEOUT_SECONDS <=? 0 then provider_error PROVIDER_CONFIGURATION else
  let use_tls := String.eqb (eff_tls_mode c) "STARTTLS" in
  let use_ssl := String.eqb (eff_tls_mode c) "IMPLICIT_TLS" in
  if negb (use_tls || use_ssl) then provider_error PROVIDER_CONFIGURATION else
  let! addresses := configuration_error
    (λ k, match k with ENetworkPolicy => true | _ => false end)
    (resolve_smtp_destination (eff_host c) (eff_port c)) in
  ret (mkSmtpConnection (eff_host c) (eff_port c) (eff_username c) (eff_password c)
         use_tls use_ssl OUTBOUND_MAIL_SMTP_TIMEOUT_SECONDS addresses).

Definition smtp_raise {A} (f : SmtpFailure) : M Db A := provider_error (_map_smtp_failure f).

(** The message leaves the program in [send_messages]. *)
Definition smtp_deliver (c : SmtpEffectiveConfiguration) (m : OutboundMessage) :
    M Db MailSendResult :=
  let! connection := _connection c in
  let! answer := gets (λ s, smtp_send s connection
    (eff_sender_name c +:+ " <" +:+ eff_sender_email c +:+ ">") m) in
  emit (EffSendMail SMTP m) ;;;
  match answer with
  | inl f => smtp_raise f
  | inr sent =>
      if sent =? 1 then ret (mkMailSendResult SMTP None) else smtp_raise SMTPServerDisconnected
  end.

Definition smtp_verify (c : SmtpEffectiveConfiguration) : M Db unit :=
  let! connection := _connection c in
  let! answer := gets (λ s, smtp_open s connection) in
  match answer with Some f => smtp_raise f | None => ret tt end.

(** ** Brevo *)

Definition brevo_row_error (k : exn_class) : bool :=
  match k with EDoesNotExist | EValidation | EValue | ESecret _ => true | _ => false end.

(** [BrevoProvider.from_system_configuration]: the transport is built outside the [try]. *)
Definition brevo_from_system_configuration : M Db Provider :=
  let! ' (name, email, api_key) := configuration_error brevo_row_error (
    let! row := gets find_system_mail in
    let! ' (_, c) := get_or_raise row EDoesNotExist "matching query does not exist." in
    validate_brevo_sender_configuration c ;;;
    guard (str_true (mc_brevo_api_key_encrypted c)) EValidation "Brevo API key is missing." ;;;
    let! raw := decrypt_application_secret (mc_brevo_api_key_encrypted c) BREVO_API_KEY_CONTEXT in
    let! api_key := decode_utf8 raw in
    ret (mc_brevo_sender_name c, mc_brevo_sender_email c, api_key)) in
  let! proxies := http_transport in
  ret (BrevoProvider name email api_key proxies).

Definition brevo_headers (api_key : string) : list (string * string) :=
  [("api-key", api_key); ("accept", "application/json")].

(** [json.loads(response.body).get("messageId")] *)
Definition message_id (body : string) : M Db json :=
  match json_loads body with
  | None => provider_error PROVIDER_UNAVAILABLE
  | Some (JObj fields) =>
      ret (default JNull (snd <$> List.find (λ f, String.eqb f.1 "messageId") fields))
  | Some _ => raise EAttribute "object has no attribute 'get'"
  end.

Definition brevo_deliver (name email api_key : string) (proxies : option string)
    (m : OutboundMessage) : M Db MailSendResult :=
  emit (EffSendMail BREVO m) ;;;
  let! response := transport_unavailable (request_json proxies "POST" _BREVO_SEND_URL
    (brevo_headers api_key) (Some (brevo_payload name email m))) in
  if hr_status_code response =? 201 then
    let! id := message_id (hr_body response) in
    match id with
    | JStr id =>
        if str_true id then ret (mkMailSendResult BREVO (Some id))
        else provider_error PROVIDER_UNAVAILABLE
    | _ => provider_error PROVIDER_UNAVAILABLE
    end
  else provider_error (brevo_status_error (hr_status_code response)).

Definition brevo_verify (api_key : string) (proxies : option string) : M Db unit :=
  let! response := transport_unavailable (request_json proxies "GET" _BREVO_ACCOUNT_URL
    (brevo_headers api_key) None) in
  if hr_status_code response =? 200 then ret tt
  else provider_error (brevo_status_error (hr_status_code response)).

(** [provider.send] and [provider.verify] *)
Definition provider_send (p : Provider) (m : OutboundMessage) : M Db MailSendResult :=
  match p with
  | SmtpProvider c => smtp_deliver c m
  | BrevoProvider name email api_key proxies => brevo_deliver name email api_key proxies m
  end.

Definition provider_verify (p : Provider) : M Db unit :=
  match p with
  | SmtpProvider c => smtp_verify c
  | BrevoProvider _ _ api_key proxies => brevo_verify api_key proxies
  end.

(** ** The registry *)

(** [RUNTIME_PROVIDER_REGISTRY] and [RUNTIME_PROVIDER_FACTORY_REGISTRY] *)
Record Registry := mkRegistry {
  rg_providers : gmap string Provider;
  rg_factories : gmap string (M Db Provider)
}.

Definition _runtime_provider_is_supported (provider : string) : bool :=
  String.eqb provider SMTP || opt_true (api_validator provider).

Definition register_runtime_provider (provider : string) (implementation : Provider) :
    M Registry unit :=
  if negb (_runtime_provider_is_supported provider) then provider_error PROVIDER_CONFIGURATION else
  if negb (String.eqb (provider_id implementation) provider) then
    provider_error PROVIDER_CONFIGURATION else
  let! known := gets (λ r, opt_true (rg_providers r !! provider)) in
  if known then provider_error PROVIDER_CONFIGURATION else
  modify (λ r, mkRegistry (<[provider := implementation]> (rg_providers r)) (rg_factories r)).

Definition register_runtime_provider_factory (provider : string) (factory : M Db Provider) :
    M Registry unit :=
  if negb (_runtime_provider_is_supported provider) then provider_error PROVIDER_CONFIGURATION else
  let! known := gets (λ r, opt_true (rg_factories r !! provider)) in
  if known then provider_error PROVIDER_CONFIGURATION else
  modify (λ r, mkRegistry (rg_providers r) (<[provider := factory]> (rg_factories r))).

(** [OutboundMailConfig.ready] imports [brevo] and [smtp], which register themselves. *)
Definition ready : M Registry unit :=
  register_runtime_provider_factory BREVO brevo_from_system_configuration ;;;
  register_runtime_provider_factory SMTP smtp_from_system_configuration.

Definition runtime_registry : Registry := (ready (mkRegistry ∅ ∅)).2.

Definition resolve_runtime_provider (r : Registry) (provider : string) : M Db Provider :=
  if negb (_runtime_provider_is_supported provider) then provider_error PROVIDER_CONFIGURATION else
  match rg_providers r !! provider with
  | Some implementation => ret implementation
  | None =>
      match rg_factories r !! provider with
      | Some factory => factory
      | None => provider_error PROVIDER_CONFIGURATION
      end
  end.

Definition resolve_effective_provider (delivery_mode api_provider : string) : M Db Provider :=
  if String.eqb delivery_mode "API" then resolve_runtime_provider runtime_registry api_provider
  else if String.eqb delivery_mode "SMTP" then resolve_runtime_provider runtime_registry SMTP
  else provider_error PROVIDER_CONFIGURATION.
End providers.
