(* ===== verification/MailServices.v ===== *)
(** Mail settings of the system and of departments, who may receive a report
    ([outbound_mail/services.py]: every change is authorized, audited and withdraws the
    verification it invalidates) and the rotation of secrets ([secret_rotation.py]). *)
From Stdlib Require Import Ascii.
From S2P Require Import Prelude Text Encoding Models Store Authorization Fingerprint Artifacts.
From S2P Require Import ApplicationSecrets Tablets Roles Manifests Queue Assignments.
From S2P Require Import Organizations MailProviders.

(** ** The system's configuration *)

(** [_configuration], [_locked_configuration]: the one row, made when there is none. *)
Definition _configuration : M Db (N * SystemMailConfiguration) :=
  let! row := gets find_system_mail in
  match row with
  | Some r => ret r
  | None =>
      let! k := create db_system_mail new_system_mail in
      ret (k, new_system_mail)
  end.

(** [configuration.save(...)] under the check constraint of the table. *)
Definition save_system_mail (k : N) (c : SystemMailConfiguration) : M Db unit :=
  guard (auth_pair (mc_smtp c)) EIntegrity constraint_failed ;;;
  save db_system_mail k (λ _, c).

Definition _audit (actor : N) (action : string) (k : N) (metadata : list (string * json)) :
    M Db unit :=
  record_event action (Some actor) None None "system_mail_configuration" (Some k) metadata.

Definition _invalidate_verification (c : SystemMailConfiguration) : SystemMailConfiguration :=
  c <| mc_verification_provider := "" |> <| mc_last_verification_outcome := "" |>
    <| mc_last_verified_at := None |> <| mc_last_verification_code := "" |>.

(** [SystemMailConfigurationState], what the settings page shows. *)
Record SystemMailConfigurationState := mkSystemMailConfigurationState {
  ms_delivery_mode : string;
  ms_api_provider : string;
  ms_brevo_sender_name : string;
  ms_brevo_sender_email : string;
  ms_brevo_api_key_configured : bool;
  ms_smtp_host : string;
  ms_smtp_port : option Z;
  ms_smtp_tls_mode : string;
  ms_smtp_sender_name : string;
  ms_smtp_sender_email : string;
  ms_smtp_username_configured : bool;
  ms_smtp_password_configured : bool;
  ms_verification_provider : string;
  ms_last_verification_outcome : string;
  ms_last_verified_at : option Z;
  ms_last_verification_code : string;
  ms_outbound_mail_https_proxy : string;
  ms_outbound_mail_https_proxy_uses_deployment_default : bool
}.

Definition brevo_configuration_complete (c : SystemMailConfigurationState) : bool :=
  str_true (ms_brevo_sender_name c) && str_true (ms_brevo_sender_email c)
  && ms_brevo_api_key_configured c.

Definition smtp_configuration_complete (c : SystemMailConfigurationState) : bool :=
  str_true (ms_smtp_host c) && match ms_smtp_port c with Some p => negb (p =? 0) | None => false end
  && str_true (ms_smtp_tls_mode c) && str_true (ms_smtp_sender_name c)
  && str_true (ms_smtp_sender_email c)
  && Bool.eqb (ms_smtp_username_configured c) (ms_smtp_password_configured c).

(** The result of a verification: provider, outcome, instant and code. *)
Record ProviderVerificationResult := mkProviderVerificationResult {
  vr_provider : string;
  vr_outcome : string;
  vr_verified_at : Z;
  vr_diagnostic_code : string
}.

(** [try: ... except MailProviderError as error:]: the code of the error, or what the
    program gives. *)
Definition provider_outcome {A} (m : M Db A) : M Db (string + A) :=
  try_except (let! a := m in ret (inr a)) (λ e,
    match exn_kind e with EMailProvider code => Some (ret (inl code)) | _ => None end).

Section system.
Context `{MailEnvironment, MailSettings, DeliverySettings, Aesgcm, SecretSettings}.

Definition get_system_mail_configuration : M Db SystemMailConfigurationState :=
  let! ' (_, c) := _configuration in
  let uses_default := negb (opt_true (mc_outbound_mail_https_proxy c)) in
  ret (mkSystemMailConfigurationState (mc_delivery_mode c) (mc_api_provider c)
    (mc_brevo_sender_name c) (mc_brevo_sender_email c) (str_true (mc_brevo_api_key_encrypted c))
    (smtp_host (mc_smtp c)) (smtp_port (mc_smtp c)) (smtp_tls_mode (mc_smtp c))
    (smtp_sender_name (mc_smtp c)) (smtp_sender_email (mc_smtp c))
    (str_true (smtp_username (mc_smtp c))) (str_true (smtp_password_encrypted (mc_smtp c)))
    (mc_verification_provider c) (mc_last_verification_outcome c) (mc_last_verified_at c)
    (mc_last_verification_code c)
    (default OUTBOUND_MAIL_HTTPS_PROXY (mc_outbound_mail_https_proxy c)) uses_default).

Definition configure_outbound_mail_https_proxy (actor : N) (proxy_url : string) : M Db unit :=
  atomic (
    require_system_admin actor ;;;
    let proxy_url := str_strip proxy_url in
    validate_outbound_mail_https_proxy proxy_url ;;;
    let! ' (k, c) := _configuration in
    if bool_decide (mc_outbound_mail_https_proxy c = Some proxy_url) then ret tt else
    save_system_mail k (_invalidate_verification (c <| mc_outbound_mail_https_proxy := Some proxy_url |>
      <| mc_updated_by := Some actor |>)) ;;;
    _audit actor "outbound_mail.https_proxy_changed" k [("configured", JBool (str_true proxy_url))]).

(** The provider a delivery mode stands for. *)
Definition provider_identity (c : SystemMailConfiguration) : string :=
  if String.eqb (mc_delivery_mode c) "API" then mc_api_provider c
  else if String.eqb (mc_delivery_mode c) "SMTP" then SMTP else "".

Definition verify_system_mail_configuration (actor : N) : M Db ProviderVerificationResult :=
  atomic (
    require_system_admin actor ;;;
    let! ' (k, c) := _configuration in
    let! verified_at := timezone_now in
    let! answer := provider_outcome (
      let! provider := resolve_effective_provider (mc_delivery_mode c) (mc_api_provider c) in
      provider_verify provider ;;;
      ret (provider_id provider)) in
    let '(identity, outcome, code) :=
      match answer with
      | inl code => (provider_identity c, VERIFIED_FAILED, code)
      | inr identity => (identity, VERIFIED_SUCCESS, "verified")
      end in
    save_system_mail k (c <| mc_verification_provider := identity |>
      <| mc_last_verification_outcome := outcome |> <| mc_last_verified_at := Some verified_at |>
      <| mc_last_verification_code := code |>) ;;;
    _audit actor "outbound_mail.provider_verification_completed" k
      [("provider", JStr identity); ("outcome", JStr outcome); ("code", JStr code)] ;;;
    ret (mkProviderVerificationResult identity outcome verified_at code)).

Definition configure_brevo (actor : N) (sender_name sender_email : string) : M Db unit :=
  atomic (
    require_system_admin actor ;;;
    let! ' (k, c) := _configuration in
    let c := c <| mc_brevo_sender_name := str_strip sender_name |>
      <| mc_brevo_sender_email := str_strip sender_email |> <| mc_updated_by := Some actor |> in
    full_clean clean_system_mail c ;;;
    validate_brevo_sender_configuration c ;;;
    save_system_mail k (_invalidate_verification c) ;;;
    _audit actor "outbound_mail.brevo_configuration_changed" k [("provider", JStr BREVO)]).

Definition replace_brevo_api_key (actor : N) (api_key : string) : M Db unit :=
  atomic (
    require_system_admin actor ;;;
    guard (str_true api_key) EValidation "An API key is required for replacement." ;;;
    let! ' (k, c) := _configuration in
    let! encrypted := encrypt_application_secret api_key BREVO_API_KEY_CONTEXT in
    save_system_mail k (_invalidate_verification (c <| mc_brevo_api_key_encrypted := encrypted |>
      <| mc_updated_by := Some actor |>)) ;;;
    _audit actor "outbound_mail.brevo_api_key_replaced" k
      [("provider", JStr BREVO); ("configured", JBool true)]).

Definition clear_brevo_api_key (actor : N) : M Db unit :=
  atomic (
    require_system_admin actor ;;;
    let! ' (k, c) := _configuration in
    save_system_mail k (_invalidate_verification (c <| mc_brevo_api_key_encrypted := "" |>
      <| mc_updated_by := Some actor |>)) ;;;
    _audit actor "outbound_mail.brevo_api_key_cleared" k
      [("provider", JStr BREVO); ("configured", JBool false)]).

(** The SMTP columns a form sets. *)
Definition with_smtp_form (c : SmtpSettings) (host : string) (port : Z)
    (tls_mode sender_name sender_email : string) : SmtpSettings :=
  c <| smtp_host := str_strip host |> <| smtp_port := Some port |> <| smtp_tls_mode := tls_mode |>
    <| smtp_sender_name := str_strip sender_name |> <| smtp_sender_email := str_strip sender_email |>.

Definition with_credentials (c : SmtpSettings) (username encrypted : string) : SmtpSettings :=
  c <| smtp_username := username |> <| smtp_password_encrypted := encrypted |>.

Definition configure_smtp (actor : N) (host : string) (port : Z)
    (tls_mode sender_name sender_email : string) : M Db unit :=
  atomic (
    require_system_admin actor ;;;
    let! ' (k, c) := _configuration in
    let c := c <| mc_smtp := with_smtp_form (mc_smtp c) host port tls_mode sender_name sender_email |>
      <| mc_updated_by := Some actor |> in
    full_clean clean_system_mail c ;;;
    validate_smtp_configuration (mc_smtp c) ;;;
    save_system_mail k (_invalidate_verification c) ;;;
    _audit actor "outbound_mail.smtp_configuration_changed" k [("tls_mode", JStr tls_mode)]).

Definition replace_smtp_credentials (actor : N) (username password : string) : M Db unit :=
  atomic (
    require_system_admin actor ;;;
    guard (str_true username && str_true password) EValidation
      "SMTP username and password are both required for replacement." ;;;
    let! ' (k, c) := _configuration in
    let! encrypted := encrypt_application_secret password SMTP_PASSWORD_CONTEXT in
    save_system_mail k (_invalidate_verification (c
      <| mc_smtp := with_credentials (mc_smtp c) username encrypted |>
      <| mc_updated_by := Some actor |>)) ;;;
    _audit actor "outbound_mail.smtp_credentials_replaced" k [("configured", JBool true)]).

Definition clear_smtp_credentials (actor : N) : M Db unit :=
  atomic (
    require_system_admin actor ;;;
    let! ' (k, c) := _configuration in
    save_system_mail k (_invalidate_verification (c
      <| mc_smtp := with_credentials (mc_smtp c) "" "" |> <| mc_updated_by := Some actor |>)) ;;;
    _audit actor "outbound_mail.smtp_credentials_cleared" k [("configured", JBool false)]).

Definition set_delivery_mode (actor : N) (delivery_mode api_provider : string) : M Db unit :=
  atomic (
    require_system_admin actor ;;;
    let! ' (k, old) := _configuration in
    let c := old <| mc_delivery_mode := delivery_mode |> in
    let c := if String.eqb delivery_mode "API" then c <| mc_api_provider := api_provider |> else c in
    full_clean clean_system_mail c ;;;
    validate_activation c ;;;
    save_system_mail k (c <| mc_updated_by := Some actor |>) ;;;
    _audit actor "outbound_mail.delivery_mode_changed" k
      [("old_mode", JStr (mc_delivery_mode old)); ("new_mode", JStr delivery_mode);
       ("old_provider", JStr (mc_api_provider old)); ("new_provider", JStr (mc_api_provider c))]).
End system.

(** ** The configuration of a department *)

Definition department_smtp_password_context (department : N) : string :=
  "outbound-mail:department:" +:+ str_uuid department +:+ ":smtp:password".

Definition _require_department_mail_manager (actor department : N) : M Db unit :=
  let! admin := gets (λ s, is_system_admin s actor) in
  if admin then ret tt else require_department_admin actor (Some department).

(** [DepartmentMailConfiguration.objects.filter(department=department).first()] *)
Definition find_department_mail (s : Db) (department : N) :
    option (N * DepartmentMailConfiguration) :=
  head (order_by by_pk (rows (db_department_mail s) (λ _ c, N.eqb (md_department c) department))).

Definition _locked_department_configuration (department : N) :
    M Db (N * DepartmentMailConfiguration) :=
  let! row := gets (λ s, find_department_mail s department) in
  match row with
  | Some r => ret r
  | None =>
      let! _ := get_obj db_departments department in
      let! k := create db_department_mail (new_department_mail department) in
      ret (k, new_department_mail department)
  end.

Definition save_department_mail (k : N) (c : DepartmentMailConfiguration) : M Db unit :=
  guard (auth_pair (md_smtp c)) EIntegrity constraint_failed ;;;
  save db_department_mail k (λ _, c).

Definition _audit_department_configuration (actor : N) (action : string) (k : N)
    (c : DepartmentMailConfiguration) (metadata : list (string * json)) (revoke_access : bool) :
    M Db unit :=
  record_event action (Some actor) (Some (md_department c)) None "department_mail_configuration"
    (Some k) metadata ;;;
  when revoke_access (department_mutation actor).

Definition _invalidate_department_smtp_verification (c : DepartmentMailConfiguration) :
    DepartmentMailConfiguration :=
  c <| md_last_smtp_verification_outcome := "" |> <| md_last_smtp_verified_at := None |>
    <| md_last_smtp_verification_code := "" |>.

(** [DepartmentMailConfigurationState]: no envelope leaves the model. *)
Record DepartmentMailConfigurationState := mkDepartmentMailConfigurationState {
  dms_delivery_mode : string;
  dms_smtp_host : string;
  dms_smtp_port : option Z;
  dms_smtp_tls_mode : string;
  dms_smtp_sender_name : string;
  dms_smtp_sender_email : string;
  dms_smtp_username : string;
  dms_smtp_username_configured : bool;
  dms_smtp_password_configured : bool;
  dms_last_smtp_verification_outcome : string;
  dms_last_smtp_verified_at : option Z;
  dms_last_smtp_verification_code : string
}.

(** A department without a row is disabled. *)
Definition get_department_mail_configuration (s : Db) (department : N) :
    DepartmentMailConfigurationState :=
  match find_department_mail s department with
  | None =>
      mkDepartmentMailConfigurationState "DISABLED" "" None "" "" "" "" false false "" None ""
  | Some (_, c) =>
      mkDepartmentMailConfigurationState (md_delivery_mode c) (smtp_host (md_smtp c))
        (smtp_port (md_smtp c)) (smtp_tls_mode (md_smtp c)) (smtp_sender_name (md_smtp c))
        (smtp_sender_email (md_smtp c)) (smtp_username (md_smtp c))
        (str_true (smtp_username (md_smtp c))) (str_true (smtp_password_encrypted (md_smtp c)))
        (md_last_smtp_verification_outcome c) (md_last_smtp_verified_at c)
        (md_last_smtp_verification_code c)
  end.

(** The columns [configure_department_smtp] compares. *)
Definition same_smtp_form (c c' : SmtpSettings) : bool :=
  bool_decide (smtp_host c = smtp_host c' ∧ smtp_port c = smtp_port c'
    ∧ smtp_tls_mode c = smtp_tls_mode c' ∧ smtp_sender_name c = smtp_sender_name c'
    ∧ smtp_sender_email c = smtp_sender_email c').

Section department.
Context `{MailEnvironment, MailSettings, DeliverySettings, Aesgcm, SecretSettings}.

Definition configure_department_smtp (actor department : N) (host : string) (port : Z)
    (tls_mode sender_name sender_email : string) : M Db unit :=
  atomic (
    _require_department_mail_manager actor department ;;;
    let! ' (k, old) := _locked_department_configuration department in
    let c := old <| md_smtp := with_smtp_form (md_smtp old) host port tls_mode sender_name sender_email |> in
    full_clean clean_department_mail c ;;;
    validate_smtp_configuration (md_smtp c) ;;;
    if same_smtp_form (md_smtp old) (md_smtp c) then ret tt else
    save_department_mail k (_invalidate_department_smtp_verification
      (c <| md_updated_by := Some actor |>)) ;;;
    _audit_department_configuration actor "outbound_mail.department_smtp_configuration_changed" k c
      [("tls_mode", JStr tls_mode)] true).

Definition replace_department_smtp_credentials (actor department : N) (username password : string) :
    M Db unit :=
  atomic (
    _require_department_mail_manager actor department ;;;
    guard (str_true username && str_true password) EValidation
      "SMTP username and password are both required for replacement." ;;;
    let! ' (k, c) := _locked_department_configuration department in
    let! encrypted := encrypt_application_secret password
      (department_smtp_password_context department) in
    save_department_mail k (_invalidate_department_smtp_verification (c
      <| md_smtp := with_credentials (md_smtp c) username encrypted |>
      <| md_updated_by := Some actor |>)) ;;;
    _audit_department_configuration actor "outbound_mail.department_smtp_credentials_replaced" k c
      [("configured", JBool true)] true).

Definition clear_department_smtp_credentials (actor department : N) : M Db unit :=
  atomic (
    _require_department_mail_manager actor department ;;;
    let! ' (k, c) := _locked_department_configuration department in
    if negb (str_true (smtp_username (md_smtp c)))
       && negb (str_true (smtp_password_encrypted (md_smtp c)))
    then ret tt else
    save_department_mail k (_invalidate_department_smtp_verification (c
      <| md_smtp := with_credentials (md_smtp c) "" "" |> <| md_updated_by := Some actor |>)) ;;;
    _audit_department_configuration actor "outbound_mail.department_smtp_credentials_cleared" k c
      [("configured", JBool false)] true).

(** The adapter for a department's own server, with its password decrypted. *)
Definition department_smtp_provider (c : DepartmentMailConfiguration) (department : N) :
    M Db SmtpEffectiveConfiguration :=
  let! password := smtp_password (md_smtp c) (department_smtp_password_context department) in
  ret (effective_smtp (md_smtp c) password).

(** The two [except] clauses of the verification: the outcome and its code. *)
Definition department_verification (m : M Db unit) : M Db (string * string) :=
  try_except (m ;;; ret (VERIFIED_SUCCESS, "verified")) (λ e,
    match exn_kind e with
    | ESecret _ | EValue => Some (ret (VERIFIED_FAILED, PROVIDER_CONFIGURATION))
    | EMailProvider code => Some (ret (VERIFIED_FAILED, code))
    | _ => None
    end).

Definition verify_department_smtp_configuration (actor department : N) :
    M Db ProviderVerificationResult :=
  atomic (
    _require_department_mail_manager actor department ;;;
    let! row := gets (λ s, find_department_mail s department) in
    let! ' (k, c) := get_or_raise row EValidation "SMTP delivery configuration is incomplete." in
    let! ' (outcome, code) := department_verification (
      validate_smtp_configuration (md_smtp c) ;;;
      guard (auth_pair (md_smtp c)) EValue "" ;;;
      let! configuration := department_smtp_provider c department in
      smtp_verify configuration) in
    let! verified_at := timezone_now in
    save_department_mail k (c <| md_last_smtp_verification_outcome := outcome |>
      <| md_last_smtp_verified_at := Some verified_at |>
      <| md_last_smtp_verification_code := code |>) ;;;
    _audit_department_configuration actor "outbound_mail.department_smtp_verification_completed" k c
      [("outcome", JStr outcome); ("code", JStr code)] false ;;;
    ret (mkProviderVerificationResult SMTP outcome verified_at code)).

Definition set_department_delivery_mode (actor department : N) (delivery_mode : string) : M Db unit :=
  atomic (
    _require_department_mail_manager actor department ;;;
    let! ' (k, c) := _locked_department_configuration department in
    (if String.eqb delivery_mode "SYSTEM" then
       let! allowed := gets (λ s, is_system_managed_mail_allowed s department) in
       guard allowed EValidation "This department is not authorized for system-managed mail."
     else if String.eqb delivery_mode "CUSTOM_SMTP" then
       validate_smtp_configuration (md_smtp c) ;;;
       guard (auth_pair (md_smtp c)) EValidation
         "SMTP username and password must be configured together."
     else guard (String.eqb delivery_mode "DISABLED") EValidation
       "Unsupported department mail delivery mode.") ;;;
    if String.eqb (md_delivery_mode c) delivery_mode then ret tt else
    save_department_mail k (c <| md_delivery_mode := delivery_mode |>
      <| md_updated_by := Some actor |>) ;;;
    _audit_department_configuration actor "outbound_mail.department_delivery_mode_changed" k c
      [("old_mode", JStr (md_delivery_mode c)); ("new_mode", JStr delivery_mode)] true).
End department.

Definition DOMAIN_INVALID : string := "Approved recipient domains must be valid exact domain names.".

(** [s.endswith(".")] and [s.startswith((".", "@"))]. *)
Definition ends_with_dot (s : string) : bool :=
  match s with String c s' => (last_char c s' =? ".")%char | EmptyString => false end.

Definition starts_dot_or_at (s : string) : bool :=
  match s with String c _ => (c =? ".")%char || (c =? "@")%char | EmptyString => false end.

(** [tuple(sorted(set(...)))] on texts. *)
Fixpoint str_lt (a b : string) : bool :=
  match a, b with
  | _, EmptyString => false
  | EmptyString, String _ _ => true
  | String c a', String d b' =>
      Nat.ltb (nat_of_ascii c) (nat_of_ascii d) || ((c =? d)%char && str_lt a' b')
  end.

Fixpoint insert_domain (d : string) (l : list string) : list string :=
  match l with
  | [] => [d]
  | x :: l' => if String.eqb d x then l else if str_lt d x then d :: l else x :: insert_domain d l'
  end.

Definition sorted_set (l : list string) : list string := foldr insert_domain [] l.

(** [policy.approved_domains.order_by("domain").values_list("domain", flat=True)] *)
Definition approved_domains (s : Db) (policy : N) : list string :=
  sorted_set ((λ r, rcd_domain r.2) <$>
    rows (db_recipient_domains s) (λ _ d, N.eqb (rcd_policy d) policy)).

Definition find_recipient_policy (s : Db) (department : N) :
    option (N * DepartmentRecipientPolicy) :=
  head (order_by by_pk (rows (db_recipient_policies s) (λ _ p, N.eqb (rcp_department p) department))).

(** [DepartmentRecipientPolicyState] *)
Definition get_department_recipient_policy (s : Db) (department : N) : bool * list string :=
  match find_recipient_policy s department with
  | None => (false, [])
  | Some (k, p) => (rcp_restriction_enabled p, approved_domains s k)
  end.

Definition _locked_recipient_policy (department : N) : M Db (N * DepartmentRecipientPolicy) :=
  let! row := gets (λ s, find_recipient_policy s department) in
  match row with
  | Some r => ret r
  | None =>
      let! _ := get_obj db_departments department in
      let! k := create db_recipient_policies (mkDepartmentRecipientPolicy department false None) in
      ret (k, mkDepartmentRecipientPolicy department false None)
  end.

(** The text after the only [@]. *)
Definition address_domain (recipient_email : string) : option string :=
  match str_split "@" recipient_email with [_; d] => Some d | _ => None end.

Section recipients.
Context `{MailEnvironment}.

Definition normalize_recipient_domain (domain : string) : M Db string :=
  guard (str_true domain && String.eqb domain (str_strip domain)) EValidation DOMAIN_INVALID ;;;
  let normalized := str_lower domain in
  guard (negb (starts_dot_or_at normalized || str_mem "*" normalized || ends_with_dot normalized))
    EValidation DOMAIN_INVALID ;;;
  guard (negb (opt_true (ip_address normalized))) EValidation
    "Approved recipient domains must be domain names, not IP addresses." ;;;
  let labels := str_split "." normalized in
  guard (Nat.leb (String.length normalized) 253 && Nat.leb 2 (length labels)
         && forallb label_valid labels) EValidation DOMAIN_INVALID ;;;
  ret normalized.

(** [{normalize_recipient_domain(domain) for domain in approved_domains}] *)
Definition normalize_domains (domains : list string) : M Db (list string) :=
  fold_m (λ l d, let! n := normalize_recipient_domain d in ret (l ++ [n])) [] domains.

Definition set_department_recipient_policy (actor department : N) (restriction_enabled : bool)
    (domains : list string) : M Db N :=
  atomic (
    _require_department_mail_manager actor department ;;;
    let! normalized := normalize_domains domains in
    let normalized_domains := sorted_set normalized in
    guard (Nat.eqb (length normalized_domains) (length domains)) EValidation
      "Approved recipient domains must not contain duplicates." ;;;
    guard (negb restriction_enabled || negb (Nat.eqb (length normalized_domains) 0)) EValidation
      "At least one approved recipient domain is required when restriction is enabled." ;;;
    let! ' (k, p) := _locked_recipient_policy department in
    let! existing_domains := gets (λ s, approved_domains s k) in
    if Bool.eqb (rcp_restriction_enabled p) restriction_enabled
       && bool_decide (existing_domains = normalized_domains)
    then ret k else
    save db_recipient_policies k (λ p, p <| rcp_restriction_enabled := restriction_enabled |>
      <| rcp_updated_by := Some actor |>) ;;;
    delete_where db_recipient_domains (λ d, N.eqb (rcd_policy d) k) ;;;
    for_each normalized_domains (λ d,
      let! _ := create db_recipient_domains (mkDepartmentRecipientDomain k d) in ret tt) ;;;
    record_event "outbound_mail.department_recipient_policy_changed" (Some actor) (Some department)
      None "department_recipient_policy" (Some k)
      [("restriction_enabled", JBool restriction_enabled);
       ("approved_domain_count", JInt (Z.of_nat (length normalized_domains)))] ;;;
    department_mutation actor ;;;
    ret k).

(** Malformed addresses are refused: a [ValidationError] of the domain is caught. *)
Definition is_department_recipient_allowed (department : N) (recipient_email : string) : M Db bool :=
  let! row := gets (λ s, find_recipient_policy s department) in
  match row with
  | Some (k, p) =>
      if negb (rcp_restriction_enabled p) then ret true else
      if negb (String.eqb recipient_email (str_strip recipient_email)) then ret false else
      match address_domain recipient_email with
      | None => ret false
      | Some domain =>
          let! normalized := try_except (let! d := normalize_recipient_domain domain in ret (Some d))
            (λ e, match exn_kind e with EValidation => Some (ret None) | _ => None end) in
          match normalized with
          | None => ret false
          | Some d =>
              gets (λ s, exists_row (db_recipient_domains s)
                           (λ _ r, N.eqb (rcd_policy r) k && String.eqb (rcd_domain r) d))
          end
      end
  | None => ret true
  end.
End recipients.

(** [_SecretReference]: where an envelope is kept, which determines its context. *)
Inductive SecretReference :=
| SystemApiKey (k : N)
| SystemSmtpPassword (k : N)
| DepartmentSmtpPassword (k department : N).

Definition reference_context (r : SecretReference) : string :=
  match r with
  | SystemApiKey _ => BREVO_API_KEY_CONTEXT
  | SystemSmtpPassword _ => SMTP_PASSWORD_CONTEXT
  | DepartmentSmtpPassword _ d => department_smtp_password_context d
  end.

Definition reference_label (r : SecretReference) : string :=
  match r with
  | SystemApiKey k => "system_api_key:" +:+ str_uuid k
  | SystemSmtpPassword k => "system_smtp_password:" +:+ str_uuid k
  | DepartmentSmtpPassword k _ => "department_smtp_password:" +:+ str_uuid k
  end.

Definition _live_secret_references (s : Db) : list SecretReference :=
  match find_system_mail s with
  | Some (k, _) => [SystemApiKey k; SystemSmtpPassword k]
  | None => []
  end
  ++ ((λ r, DepartmentSmtpPassword r.1 (md_department r.2))
        <$> order_by by_pk (rows (db_department_mail s) (λ _ _, true))).

(** [_secret_value]; [None] when the row is gone. *)
Definition secret_value (r : SecretReference) (s : Db) : option string :=
  match r with
  | SystemApiKey k => mc_brevo_api_key_encrypted <$> db_system_mail s !! k
  | SystemSmtpPassword k => (λ c, smtp_password_encrypted (mc_smtp c)) <$> db_system_mail s !! k
  | DepartmentSmtpPassword k _ =>
      (λ c, smtp_password_encrypted (md_smtp c)) <$> db_department_mail s !! k
  end.

(** [setattr(configuration, reference.field, replacement)] and the save of that field,
    under the check constraints. *)
Definition save_secret (r : SecretReference) (replacement : string) : M Db unit :=
  match r with
  | SystemApiKey k => save db_system_mail k (λ c, c <| mc_brevo_api_key_encrypted := replacement |>)
  | SystemSmtpPassword k =>
      let! c := get_obj db_system_mail k in
      let smtp := (mc_smtp c) <| smtp_password_encrypted := replacement |> in
      guard (auth_pair smtp) EIntegrity constraint_failed ;;;
      save db_system_mail k (λ c, c <| mc_smtp := smtp |>)
  | DepartmentSmtpPassword k _ =>
      let! c := get_obj db_department_mail k in
      let smtp := (md_smtp c) <| smtp_password_encrypted := replacement |> in
      guard (auth_pair smtp) EIntegrity constraint_failed ;;;
      save db_department_mail k (λ c, c <| md_smtp := smtp |>)
  end.

(** [OutboundMailSecretRotationResult] *)
Record RotationResult := mkRotationResult {
  rn_active_version : string;
  rn_rotated : Z;
  rn_skipped_active : Z;
  rn_skipped_empty : Z
}.

(** [OutboundMailSecretRotationStatus] *)
Record RotationStatus := mkRotationStatus {
  rx_active_version : string;
  rx_version_counts : gmap string Z
}.

Definition MALFORMED_VERSION : string := "malformed".

(** [counts[version] += 1] *)
Definition count_version (counts : gmap string Z) (version : string) : gmap string Z :=
  <[version := default 0 (counts !! version) + 1]> counts.

(** [Counter] over the stored envelopes. *)
Definition envelope_version (value : string) : string :=
  match _parse_envelope value with Some (v, _, _) => v | None => MALFORMED_VERSION end.

Definition stored_secrets (s : Db) : list string :=
  filter (λ v, str_true v = true)
    ((λ r, default "" (secret_value r s)) <$> _live_secret_references s).

Definition all_live_credentials_active (st : RotationStatus) : bool :=
  forallb (λ r, String.eqb r.1 (rx_active_version st) || (r.2 =? 0))
    (map_to_list (rx_version_counts st)).

Definition can_retire (st : RotationStatus) (version : string) : bool :=
  (default 0 (rx_version_counts st !! version) =? 0)
  && (default 0 (rx_version_counts st !! MALFORMED_VERSION) =? 0).

Section rotation.
Context `{Aesgcm, SecretSettings}.

Definition outbound_mail_secret_rotation_status : M Db RotationStatus :=
  let! cipher := configured_application_secret_cipher in
  let! values := gets stored_secrets in
  ret (mkRotationStatus (ci_active_version cipher)
         (foldl (λ counts v, count_version counts (envelope_version v)) ∅ values)).

(** The work on one reference, a transaction of its own. *)
Definition rotate_one (cipher : Cipher) (acc : RotationResult) (r : SecretReference) :
    M Db RotationResult :=
  atomic (
    let! value := gets (secret_value r) in
    match value with
    | None => ret (mkRotationResult (rn_active_version acc) (rn_rotated acc) (rn_skipped_active acc)
                     (rn_skipped_empty acc + 1))
    | Some value =>
        if negb (str_true value) then
          ret (mkRotationResult (rn_active_version acc) (rn_rotated acc) (rn_skipped_active acc)
                 (rn_skipped_empty acc + 1))
        else
          let! replacement := try_except (
            let! version := application_secret_key_version value in
            if String.eqb version (ci_active_version cipher) then ret None else
            let! plaintext := cipher_decrypt cipher value (reference_context r) in
            let! replacement := cipher_encrypt cipher plaintext (reference_context r) in
            ret (Some replacement))
            (λ e, match exn_kind e with
                  | ESecret code => Some (raise (ESecretRotation (reference_label r) code) "")
                  | _ => None
                  end) in
          match replacement with
          | None => ret (mkRotationResult (rn_active_version acc) (rn_rotated acc)
                           (rn_skipped_active acc + 1) (rn_skipped_empty acc))
          | Some replacement =>
              save_secret r replacement ;;;
              ret (mkRotationResult (rn_active_version acc) (rn_rotated acc + 1)
                     (rn_skipped_active acc) (rn_skipped_empty acc))
          end
    end).

Definition rotate_outbound_mail_secrets : M Db RotationResult :=
  let! cipher := configured_application_secret_cipher in
  let! references := gets _live_secret_references in
  fold_m (rotate_one cipher) (mkRotationResult (ci_active_version cipher) 0 0 0) references.
End rotation.
