(* ===== verification/ReportDelivery.v ===== *)
(** Sending a report by mail: which report is admitted ([outbound_mail/report_admission.py]),
    the provider of a department ([resolution.py]), the one attempt to send
    ([report_delivery.py]) and its idempotent request ([report_delivery_requests.py]). *)
From S2P Require Import Prelude Text Encoding Models Store Authorization Fingerprint Artifacts.
From S2P Require Import ApplicationSecrets Tablets Roles Queue Assignments Organizations.
From S2P Require Import Manifests MailProviders MailServices.

(** What [pypdf] gives of a document: the dictionary [/Encrypt] of the trailer, integral
    numbers as [JInt], and the effective encryption [V], [R], [Length], [StmF], [StrF], [EFF]
    ([None]: reading it raises an exception that the code catches). *)
Record PdfReader := mkPdfReader {
  pdf_is_encrypted : bool;
  pdf_trailer_encrypt : option json;
  pdf_encryption : option (Z * Z * Z * string * string * string)
}.

(** [PdfReader(..., strict=True)], [None] when it raises, and [reader.decrypt("")]: whether
    the empty password is [NOT_DECRYPTED]. *)
Class PdfLibrary := {
  pdf_reader : string → option PdfReader;
  pdf_decrypt_empty : string → option bool
}.

(** The report as the view passes it: bytes, or what the reads of a stream return. *)
Inductive PdfInput := PdfBytes (raw : string) | PdfStream (chunks : list string).

Definition admission_error {A} (code : string) : M Db A :=
  raise (EAdmission code) ("Outbound report admission failed (" +:+ code +:+ ").").

(** ** The attachment *)

Definition json_field (k : string) (d : json) : option json :=
  match d with
  | JObj fields => snd <$> List.find (λ f, String.eqb f.1 k) fields
  | _ => None
  end.

Definition field_int (k : string) (d : json) (v : Z) : bool :=
  match json_field k d with Some (JInt n) => n =? v | _ => false end.

Definition _is_password_required_aes256_revision6 (r : PdfReader) : bool :=
  match pdf_trailer_encrypt r with
  | Some encrypt =>
      match json_field "/CF" encrypt, json_field "/StmF" encrypt, json_field "/StrF" encrypt with
      | Some crypt_filters, Some (JStr stream_filter), Some (JStr string_filter) =>
          is_dict encrypt && is_dict crypt_filters && String.eqb stream_filter string_filter
          && match json_field stream_filter crypt_filters with
             | Some crypt_filter =>
                 is_dict crypt_filter
                 && field_int "/V" encrypt 5 && field_int "/R" encrypt 6
                 && field_int "/Length" encrypt 256
                 && match json_field "/CFM" crypt_filter with
                    | Some (JStr m) => String.eqb m "/AESV3" | _ => false end
                 && (field_int "/Length" crypt_filter 32 || field_int "/Length" crypt_filter 256)
                 && match pdf_encryption r with
                    | Some (v, rev, len, stm, str, eff) =>
                        (v =? 5) && (rev =? 6) && (len =? 256) && String.eqb stm "/AESV3"
                        && String.eqb str "/AESV3" && String.eqb eff "/AESV3"
                    | None => false
                    end
             | None => false
             end
      | _, _, _ => false
      end
  | None => false
  end.

(** [_normalized_valid_email] *)
Definition _normalized_valid_email `{MailEnvironment} (value : option string) : option string :=
  match value with
  | Some v =>
      if str_true v && String.eqb v (str_strip v) && validate_email (str_casefold v)
      then Some (str_casefold v) else None
  | None => None
  end.

(** The reads: an empty one ends the stream. *)
Fixpoint read_chunks (limit : Z) (size : Z) (raw : string) (chunks : list string) :
    M Db string :=
  match chunks with
  | [] => ret raw
  | chunk :: chunks' =>
      if negb (str_true chunk) then ret raw else
      let size := size + Z.of_nat (String.length chunk) in
      if limit <? size then admission_error "attachment_too_large"
      else read_chunks limit size (raw +:+ chunk) chunks'
  end.

(** [_validated_filename] *)
Definition _validated_filename (filename : string) : M Db string :=
  if str_true filename && Nat.leb (String.length filename) 255 then ret filename
  else admission_error "invalid_attachment".

(** ** Outcomes *)

Definition DELIVERED : string := "delivered".
Definition DELIVERY_UNAVAILABLE : string := "delivery_unavailable".

(** [ReportDeliveryOutcome] *)
Record ReportDeliveryOutcome := mkReportDeliveryOutcome { ro_code : string; ro_delivered : bool }.

Definition _admission_code (code : string) : string :=
  if mem_str code ["recipient_not_authorized"; "recipient_email_unavailable";
       "recipient_domain_not_allowed"; "invalid_attachment"; "attachment_too_large"; "invalid_pdf";
       "unsupported_pdf_encryption"; "pdf_inspection_unavailable"]
  then code else "invalid_attachment".

Definition _provider_code (code : string) : string :=
  if mem_str code [PROVIDER_UNAVAILABLE; MESSAGE_REJECTED; PROVIDER_CONFIGURATION] then code
  else PROVIDER_UNAVAILABLE.

Definition REPORT_SUBJECT : string := "FireDash report".
Definition REPORT_BODY : string := "A FireDash report is attached.".
Definition REPORT_ATTACHMENT_FILENAME : string := "firedash-report.pdf".

(** [AdmittedReport], its recipient being a person and an address. *)
Record AdmittedReport := mkAdmittedReport {
  ad_recipient : N * string;
  ad_filename : string;
  ad_pdf_bytes : string
}.

(** [except ReportAdmissionError as error]: the code, or what the program gives. *)
Definition admission_outcome {A} (m : M Db A) : M Db (string + A) :=
  try_except (let! a := m in ret (inr a)) (λ e,
    match exn_kind e with EAdmission code => Some (ret (inl code)) | _ => None end).

Section delivery.
Context `{MailEnvironment, MailSettings, DeliverySettings, Aesgcm, SecretSettings, PdfLibrary}.

(** ** Admission *)

Definition _resolve_recipient (department personnel_id : N) : M Db (N * string) :=
  let! person := find_obj db_people personnel_id in
  match person with
  | Some p =>
      if negb (N.eqb (pe_department p) department) then admission_error "recipient_not_authorized" else
      if negb (pe_active p) || negb (bool_decide (pe_lifecycle_status p = PERSON_ACTIVE))
         || negb (pe_incident_commander_eligible p) || negb (opt_true (pe_email_verified_at p))
      then admission_error "recipient_not_authorized" else
      match _normalized_valid_email (pe_incident_commander_email p) with
      | None => admission_error "recipient_email_unavailable"
      | Some email =>
          let! allowed := is_department_recipient_allowed department email in
          if allowed then ret (personnel_id, email)
          else admission_error "recipient_domain_not_allowed"
      end
  | None => admission_error "recipient_not_authorized"
  end.

Definition resolve_report_recipient (department recipient_personnel_id : N) : M Db (N * string) :=
  _resolve_recipient department recipient_personnel_id.

Definition _read_bounded_pdf (pdf : PdfInput) : M Db string :=
  let limit := OUTBOUND_MAIL_REPORT_ATTACHMENT_MAX_BYTES in
  if limit <=? 0 then admission_error "attachment_limit_unavailable" else
  match pdf with
  | PdfBytes raw =>
      if limit <? Z.of_nat (String.length raw) then admission_error "attachment_too_large"
      else ret raw
  | PdfStream chunks => read_chunks limit 0 "" chunks
  end.

Definition _inspect_aes256_password_pdf (pdf_bytes : string) : M Db unit :=
  if negb (String.eqb (str_take 5 pdf_bytes) "%PDF-") then admission_error "invalid_pdf" else
  match pdf_reader pdf_bytes with
  | None => admission_error "malformed_pdf"
  | Some reader =>
      if negb (pdf_is_encrypted reader) then admission_error "unsupported_pdf_encryption" else
      match pdf_decrypt_empty pdf_bytes with
      | Some true =>
          if _is_password_required_aes256_revision6 reader then ret tt
          else admission_error "unsupported_pdf_encryption"
      | _ => admission_error "unsupported_pdf_encryption"
      end
  end.

Definition admit_outbound_report (department recipient_personnel_id : N) (pdf : PdfInput)
    (filename : string) : M Db AdmittedReport :=
  let! recipient := _resolve_recipient department recipient_personnel_id in
  let! pdf_bytes := _read_bounded_pdf pdf in
  _inspect_aes256_password_pdf pdf_bytes ;;;
  let! filename := _validated_filename filename in
  ret (mkAdmittedReport recipient filename pdf_bytes).

(** ** The provider of a department: a reason why there is none, or the provider *)

Definition _is_current_system_verification (c : SystemMailConfiguration) (identity : string) : bool :=
  String.eqb (mc_verification_provider c) identity
  && String.eqb (mc_last_verification_outcome c) VERIFIED_SUCCESS
  && opt_true (mc_last_verified_at c).

Definition _is_current_department_smtp_verification (c : DepartmentMailConfiguration) : bool :=
  String.eqb (md_last_smtp_verification_outcome c) VERIFIED_SUCCESS
  && opt_true (md_last_smtp_verified_at c).

(** [try: ... except ...: return _unavailable(reason)] *)
Definition or_unavailable {A} (caught : exn_class → bool) (reason : string) (m : M Db A) :
    M Db (string + A) :=
  try_except (let! a := m in ret (inr a)) (λ e,
    if caught (exn_kind e) then Some (ret (inl reason)) else None).

Definition is_validation (k : exn_class) : bool := match k with EValidation => true | _ => false end.
Definition is_value_or_validation (k : exn_class) : bool :=
  match k with EValidation | EValue => true | _ => false end.
Definition is_secret_or_value (k : exn_class) : bool :=
  match k with ESecret _ | EValue => true | _ => false end.

Definition _resolve_system_provider : M Db (string + Provider) :=
  let! row := gets find_system_mail in
  match row with
  | None => ret (inl "system_mail_disabled")
  | Some (_, c) =>
      if String.eqb (mc_delivery_mode c) "DISABLED" then ret (inl "system_mail_disabled") else
      let! valid := or_unavailable is_validation "system_configuration_incomplete"
        (validate_activation c) in
      match valid with
      | inl reason => ret (inl reason)
      | inr _ =>
          if negb (_is_current_system_verification c (provider_identity c))
          then ret (inl "system_verification_required")
          else or_unavailable (λ _, true) "provider_configuration"
                 (resolve_effective_provider (mc_delivery_mode c) (mc_api_provider c))
      end
  end.

Definition _resolve_department_smtp_provider (c : DepartmentMailConfiguration) (department : N) :
    M Db (string + Provider) :=
  let! valid := or_unavailable is_value_or_validation "department_smtp_configuration_incomplete" (
    validate_smtp_configuration (md_smtp c) ;;;
    guard (auth_pair (md_smtp c)) EValue "") in
  match valid with
  | inl reason => ret (inl reason)
  | inr _ =>
      if negb (_is_current_department_smtp_verification c)
      then ret (inl "department_smtp_verification_required")
      else or_unavailable is_secret_or_value "provider_configuration" (
        let! configuration := department_smtp_provider c department in
        ret (SmtpProvider configuration))
  end.

Definition resolve_department_mail_provider (department : N) : M Db (string + Provider) :=
  let! row := gets (λ s, find_department_mail s department) in
  match row with
  | None => ret (inl "department_disabled")
  | Some (_, c) =>
      if String.eqb (md_delivery_mode c) "DISABLED" then ret (inl "department_disabled") else
      if String.eqb (md_delivery_mode c) "SYSTEM" then
        let! allowed := gets (λ s, is_system_managed_mail_allowed s department) in
        if allowed then _resolve_system_provider else ret (inl "managed_mail_not_allowed")
      else if String.eqb (md_delivery_mode c) "CUSTOM_SMTP" then
        _resolve_department_smtp_provider c department
      else ret (inl "department_disabled")
  end.

(** ** One attempt *)

Definition recipient_to_mail_address (email : string) : M Db MailAddress :=
  mail_address "FireDash recipient" email.

(** The [try] that builds the message and hands it to the provider. *)
Definition send_report (provider : Provider) (email pdf_bytes : string) : M Db MailSendResult :=
  let! sender := sender_identity provider in
  let! recipient := recipient_to_mail_address email in
  let! attachment := mail_attachment REPORT_ATTACHMENT_FILENAME "application/pdf" pdf_bytes in
  let! message := outbound_message sender recipient REPORT_SUBJECT REPORT_BODY [attachment] in
  provider_send provider message.

Definition attempt (provider : Provider) (email pdf_bytes : string) : M Db ReportDeliveryOutcome :=
  try_except (send_report provider email pdf_bytes ;;; ret (mkReportDeliveryOutcome DELIVERED true))
    (λ e, Some (ret (mkReportDeliveryOutcome
       match exn_kind e with EMailProvider code => _provider_code code | _ => PROVIDER_UNAVAILABLE end
       false))).

(** What precedes the attempt: the report is admitted, the provider resolved and the
    recipient resolved again; [others n] is what other sessions do in between. *)
Definition prepare_report (others : nat → M Db unit) (department recipient_personnel_id : N)
    (pdf : PdfInput) (filename : string) :
    M Db (ReportDeliveryOutcome + Provider * (N * string) * string) :=
  let! admitted := admission_outcome
    (admit_outbound_report department recipient_personnel_id pdf filename) in
  match admitted with
  | inl code => ret (inl (mkReportDeliveryOutcome (_admission_code code) false))
  | inr admitted =>
      meanwhile (others 0%nat) ;;;
      let! resolution := resolve_department_mail_provider department in
      match resolution with
      | inl _ => ret (inl (mkReportDeliveryOutcome DELIVERY_UNAVAILABLE false))
      | inr provider =>
          meanwhile (others 1%nat) ;;;
          let! recipient := admission_outcome
            (resolve_report_recipient department (fst (ad_recipient admitted))) in
          match recipient with
          | inl code => ret (inl (mkReportDeliveryOutcome (_admission_code code) false))
          | inr recipient => ret (inr (provider, recipient, ad_pdf_bytes admitted))
          end
      end
  end.

Definition deliver_outbound_report (others : nat → M Db unit) (iid recipient_personnel_id : N)
    (pdf : PdfInput) (filename : string) : M Db ReportDeliveryOutcome :=
  let! installation := get_obj db_installations iid in
  let! tablet := get_obj db_tablets (in_tablet installation) in
  let! prepared := prepare_report others (tb_department tablet) recipient_personnel_id pdf filename in
  match prepared with
  | inl outcome => ret outcome
  | inr (provider, (personnel_id, email), pdf_bytes) =>
      let! outcome := attempt provider email pdf_bytes in
      meanwhile (others 2%nat) ;;;
      record_installation_event "outbound_mail.report_delivery_attempted"
        (Some (in_installation_uuid installation)) (Some (tb_department tablet)) None
        "personnel_report_recipient" (Some personnel_id) [("outcome", JStr (ro_code outcome))] ;;;
      ret outcome
  end.

(** ** Idempotent requests *)

(** [TabletReportDeliveryResult]; its state also has the value [CONFLICT]. *)
Inductive ReportedState := REPORTED (st : DeliveryState) | REPORTED_CONFLICT.

Record TabletReportDeliveryResult := mkTabletReportDeliveryResult {
  rr_state : ReportedState;
  rr_code : string
}.

Definition is_request (iid request_id : N) (q : TabletReportDeliveryRequest) : bool :=
  N.eqb (dq_installation q) iid && N.eqb (dq_delivery_request_id q) request_id.

Definition find_request (s : Db) (iid request_id : N) : option (N * TabletReportDeliveryRequest) :=
  head (order_by by_pk (rows (db_delivery_requests s) (λ _ q, is_request iid request_id q))).

(** The unique constraint on installation and request. *)
Definition create_request (q : TabletReportDeliveryRequest) : M Db N :=
  let! taken := gets (λ s, exists_row (db_delivery_requests s)
    (λ _ r, is_request (dq_installation q) (dq_delivery_request_id q) r)) in
  guard (negb taken) EIntegrity constraint_failed ;;;
  create db_delivery_requests q.

(** [_claim_or_replay]: between the lookup and the insertion another session may claim the
    request; then the insertion fails and the row of the other session counts. *)
Definition _claim_or_replay (others : M Db unit) (iid request_id recipient_personnel_id : N) :
    M Db (N * TabletReportDeliveryRequest * bool) :=
  let! found := gets (λ s, find_request s iid request_id) in
  match found with
  | Some (k, q) => ret (k, q, false)
  | None =>
      let! installation := get_obj db_installations iid in
      let! tablet := get_obj db_tablets (in_tablet installation) in
      meanwhile others ;;;
      try_except (atomic (
        let! now := timezone_now in
        let q := mkTabletReportDeliveryRequest iid (tb_department tablet) request_id
          recipient_personnel_id DELIVERY_PROCESSING "" now None in
        let! k := create_request q in
        ret (k, q, true)))
      (λ e, match exn_kind e with
            | EIntegrity => Some (
                let! found := gets (λ s, find_request s iid request_id) in
                let! ' (k, q) := get_or_raise found EDoesNotExist "matching query does not exist." in
                ret (k, q, false))
            | _ => None
            end)
  end.

Definition _replay (q : TabletReportDeliveryRequest) (recipient_personnel_id : N) :
    TabletReportDeliveryResult :=
  if negb (N.eqb (dq_recipient_personnel_id q) recipient_personnel_id)
  then mkTabletReportDeliveryResult REPORTED_CONFLICT "idempotency_conflict"
  else if bool_decide (dq_state q = DELIVERY_PROCESSING)
  then mkTabletReportDeliveryResult (REPORTED DELIVERY_UNKNOWN) "delivery_indeterminate"
  else mkTabletReportDeliveryResult (REPORTED (dq_state q)) (dq_result_code q).

Definition _terminal_state (outcome : ReportDeliveryOutcome) : DeliveryState :=
  if ro_delivered outcome then DELIVERY_SUCCESS
  else if String.eqb (ro_code outcome) PROVIDER_UNAVAILABLE then DELIVERY_UNKNOWN
  else DELIVERY_FAILED.

(** [others n] runs between the steps: 0 before the claim, 1 after it, 2 to 4 during the
    delivery and 5 before the result is stored. *)
Definition submit_tablet_report_delivery (others : nat → M Db unit)
    (iid delivery_request_id recipient_personnel_id : N) (pdf : PdfInput) :
    M Db TabletReportDeliveryResult :=
  let! ' (k, q, created) := _claim_or_replay (others 0%nat) iid delivery_request_id
    recipient_personnel_id in
  if negb created then ret (_replay q recipient_personnel_id) else
  meanwhile (others 1%nat) ;;;
  let! outcome := deliver_outbound_report (λ n, others (n + 2)%nat) iid recipient_personnel_id pdf
    REPORT_ATTACHMENT_FILENAME in
  let state := _terminal_state outcome in
  meanwhile (others 5%nat) ;;;
  atomic (
    let! _ := get_obj db_delivery_requests k in
    let! now := timezone_now in
    save db_delivery_requests k (λ q, q <| dq_state := state |>
      <| dq_result_code := ro_code outcome |> <| dq_completed_at := Some now |>)) ;;;
  ret (mkTabletReportDeliveryResult (REPORTED state) (ro_code outcome)).
End delivery.
