(* ===== verification/ReportTransfer.v ===== *)
(** Acceptance, storage and expiry of reports: the spool of encrypted packages
    ([report_transfer/storage.py]), submission, status, downloads and clean-up ([services.py])
    and the loaders of what was submitted ([exports.py]). *)
From Stdlib Require Import Ascii.
From S2P Require Import Prelude Text Encoding Models Registry Store Authorization Fingerprint.
From S2P Require Import ApplicationSecrets Manifests MailProviders MailServices ReportDelivery.
From S2P Require Import JsonText ReportDocuments.

(** The directory of the spool: where it is and where the other stores are ([None]: not
    set), as the components of resolved paths; [uuid4]; and when the operating system
    refuses to write a file, to remove a payload or to remove a receipt. *)
Class ReportStorage := {
  REPORT_TRANSFER_ROOT : list string;
  other_roots : list (option (list string));
  uuid4 : Db → N;
  write_fails : Db → bool;
  unlink_fails : Db → string → bool;
  receipt_unlink_fails : Db → N → bool
}.

Definition MICROSECONDS_PER_HOUR : Z := 60 * 60 * 1000000.

(** [transaction.atomic()] around work with files: the spool is outside the database, so an
    exception leaves the files as they are. *)
Definition transaction_files {A} (m : M Db A) : M Db A := λ s,
  match m s with
  | (Val a, s') => (Val a, s')
  | (Exc e, s') => (Exc e, s <| db_spool := db_spool s' |> <| db_receipts := db_receipts s' |>)
  end.

(** [except (OSError, TransferError)] *)
Definition storage_failure (k : exn_class) : bool :=
  match k with EOSError | ETransfer _ _ => true | _ => false end.

(** [except TransferError] *)
Definition is_transfer_error (k : exn_class) : bool :=
  match k with ETransfer _ _ => true | _ => false end.

(** ** Storage *)

Section storage.
Context `{ReportStorage, MailEnvironment}.

(** [path.is_relative_to(other)] *)
Fixpoint is_relative_to (path other : list string) : bool :=
  match other, path with
  | [], _ => true
  | o :: other', p :: path' => String.eqb o p && is_relative_to path' other'
  | _ :: _, [] => false
  end.

Definition storage_unavailable {A} : M Db A := transfer_error "report_storage_unavailable" 503.

(** [root]: the spool shares no directory with the other stores. *)
Definition root : M Db unit :=
  if existsb (λ other, match other with
                       | Some o => is_relative_to REPORT_TRANSFER_ROOT o
                                   || is_relative_to o REPORT_TRANSFER_ROOT
                       | None => false
                       end) other_roots
  then storage_unavailable else ret tt.

(** [key.removesuffix(".jwe")] *)
Definition remove_jwe (k : string) : string :=
  if ends_with ".jwe" k then str_take (String.length k - 4) k else k.

Definition payload_path (k : string) : M Db unit :=
  match parse_uuid (remove_jwe k) with
  | Some n => if String.eqb k (str_uuid n +:+ ".jwe") then root else storage_unavailable
  | None => storage_unavailable
  end.

(** [write_payload]: the file must be a new one; a failure removes it again. *)
Definition write_payload (raw : string) : M Db string :=
  let! u := gets uuid4 in
  let k := str_uuid u +:+ ".jwe" in
  payload_path k ;;;
  let! fails := gets (λ s, write_fails s || opt_true (db_spool s !! k)) in
  if fails : bool then
    modify (λ s, s <| db_spool ::= delete k |>) ;;;
    raise EOSError ""
  else
    modify (λ s, s <| db_spool ::= <[k := raw]> |>) ;;;
    ret k.

Definition remove_payload (k : string) : M Db unit :=
  payload_path k ;;;
  let! fails := gets (λ s, unlink_fails s k) in
  if fails : bool then raise EOSError ""
  else modify (λ s, s <| db_spool ::= delete k |>).

(** The receipt of a completed download; its file name begins with the submission. *)
Definition write_download_receipt (submission_pk : N) (completed_at : Z)
    (download_audit : option (N * N * string)) : M Db N :=
  root ;;;
  let! fails := gets write_fails in
  if fails : bool then raise EOSError ""
  else create db_receipts (mkDownloadReceipt submission_pk completed_at download_audit).

Definition receipt_audit_valid (audit : option (N * N * string)) : bool :=
  match audit with
  | Some (_, file_type) => String.eqb file_type "pdf" || String.eqb file_type "jpeg"
  | None => true
  end.

Definition read_download_receipt (r : DownloadReceipt) : M Db (N * Z * option (N * N * string)) :=
  let! now := timezone_now in
  if N.eqb (rec_submission r) 0 || (now <? rec_completed_at r)
     || negb (receipt_audit_valid (rec_audit r))
  then storage_unavailable
  else ret (rec_submission r, rec_completed_at r, rec_audit r).

(** The instants of the receipts of a submission. *)
Definition pending_downloads (submission_pk : N) : M Db (list Z) :=
  let! receipts := gets (λ s, rows (db_receipts s) (λ _ r, N.eqb (rec_submission r) submission_pk)) in
  map_m (λ r, let! ' (_, completed_at, _) := read_download_receipt r.2 in ret completed_at) receipts.

Definition unlink_receipt (k : N) : M Db unit :=
  let! fails := gets (λ s, receipt_unlink_fails s k) in
  if fails : bool then raise EOSError "" else delete_obj db_receipts k.

(** ** Expiry *)

(** [effective_expiry]: seven days from acceptance, and two days from the first completed
    download, those with a pending receipt included. *)
Definition download_deadline (created_at : Z) (deadline : Z) (completed_at : Z) : Z :=
  if created_at <=? completed_at
  then Z.min deadline (completed_at + 48 * MICROSECONDS_PER_HOUR) else deadline.

Definition stored_deadline (row : ReportSubmission) : Z :=
  let deadline := Z.min (rs_expires_at row) (rs_created_at row + 7 * MICROSECONDS_PER_DAY) in
  match rs_first_download_at row with
  | Some first => Z.min deadline (first + 48 * MICROSECONDS_PER_HOUR)
  | None => deadline
  end.

Definition effective_expiry (pk : N) (row : ReportSubmission) : M Db Z :=
  let! pending := pending_downloads pk in
  ret (foldl (download_deadline (rs_created_at row)) (stored_deadline row) pending).

Definition submission_state_value (st : SubmissionState) : string :=
  match st with SUBMISSION_READY => "READY" | SUBMISSION_EXPIRED => "EXPIRED" end.

Definition result (pk : N) (row : ReportSubmission) : M Db json :=
  let! deadline := effective_expiry pk row in
  let! now := timezone_now in
  ret (JObj [("submission_id", json_uuid (rs_submission_id row));
    ("report_id", json_uuid (rs_report_id row));
    ("state", JStr (if deadline <=? now then "EXPIRED" else submission_state_value (rs_state row)));
    ("expires_at", JStr (isoformat deadline))]).

(** ** Authorization *)

(** The installation, its tablet and its vehicle. *)
Definition authorize (iid : N) : M Db (AppInstallation * Tablet * (N * Vehicle)) :=
  let! now := timezone_now in
  let! ' (installation, tablet, vehicle) := try_except (control_plane_context iid now) (λ e,
    match exn_kind e with
    | EManifest => Some (transfer_error "installation_not_authorized" 403)
    | _ => None
    end) in
  match vehicle with
  | Some (vid, v) =>
      if negb (bool_decide (tb_status tablet = TABLET_ACTIVE))
      then transfer_error "installation_not_authorized" 403 else
      let! station := get_obj db_stations (ve_station v) in
      if N.eqb (st_department station) (tb_department tablet)
      then ret (installation, tablet, (vid, v))
      else transfer_error "installation_not_authorized" 403
  | None => transfer_error "installation_not_authorized" 403
  end.

(** [except ReportAdmissionError: raise TransferError("recipient_not_authorized", 403)] *)
Definition recipient_for (department person : N) : M Db (N * string) :=
  try_except (resolve_report_recipient department person) (λ e,
    match exn_kind e with
    | EAdmission _ => Some (transfer_error "recipient_not_authorized" 403)
    | _ => None
    end).
End storage.

(** ** Submission *)

Section services.
Context `{Hash, Floats, Aesgcm, ReportCrypto, ReportSettings, ReportStorage, MailEnvironment}.

(** A field of a header that [inspect_envelope] accepted, as the key it stands for. *)
Definition header_uuid (k : string) (header : json) : N := default 0%N (identifier (item k header)).

(** The first scope check compares all three identities, the one under the lock two. *)
Definition scope_matches (header : json) (department station : N) : bool :=
  str_is "department_id" (str_uuid department) header
  && str_is "station_id" (str_uuid station) header.

(** The transaction of [submit]: the result of an earlier submission, or the new row.
    [payload_key] is set from [write_payload] on, so what fails after it removes the file. *)
Definition accept_submission (iid : N) (envelope header : json) (raw digest : string) :
    M Db (json + N * ReportSubmission) :=
  get_obj db_installations iid ;;;
  let! ' (installation, tablet, (_, vehicle)) := authorize iid in
  (if scope_matches header (tb_department tablet) (ve_station vehicle) then ret tt
   else transfer_error "scope_not_authorized" 403) ;;;
  recipient_for (tb_department tablet) (header_uuid "recipient_personnel_id" header) ;;;
  let! existing := first_where db_report_submissions (λ _ r,
    N.eqb (rs_installation r) iid
    && (N.eqb (rs_submission_id r) (header_uuid "submission_id" header)
        || N.eqb (rs_report_id r) (header_uuid "report_id" header))) by_pk in
  match existing with
  | Some (pk, row) =>
      if negb (N.eqb (rs_submission_id row) (header_uuid "submission_id" header))
         || negb (String.eqb (rs_payload_digest row) digest)
      then transfer_error "idempotency_conflict" 409 else
      let! r := result pk row in
      ret (inl r)
  | None =>
      let! ' (_, _, document_digest) := decrypt_and_validate envelope header in
      let! payload_key := write_payload raw in
      try_except (
        let! now := timezone_now in
        let row := mkReportSubmission iid (header_uuid "submission_id" header)
          (header_uuid "report_id" header) (header_uuid "recipient_personnel_id" header)
          (tb_department tablet) (ve_station vehicle) digest document_digest (Some 1) None payload_key
          (str_of (item "kid" header)) SUBMISSION_READY now
          (now + Z.min REPORT_TRANSFER_RETENTION_HOURS 168 * MICROSECONDS_PER_HOUR) in
        let! pk := create db_report_submissions row in
        record_installation_event "report_transfer.submission_accepted"
          (Some (in_installation_uuid installation)) (Some (rs_department row))
          (Some (rs_station row)) "report_submission" (Some (rs_submission_id row))
          [("report_id", json_uuid (rs_report_id row)); ("installation_id", json_uuid iid);
           ("accepted_at", JStr (isoformat now))] ;;;
        ret (inr (pk, row)))
        (λ e, Some (remove_payload payload_key ;;; reraise e))
  end.

(** [submit]; [others] is what other sessions do before the transaction begins. *)
Definition submit (others : M Db unit) (iid : N) (envelope : json) : M Db (json * bool) :=
  let! header := inspect_envelope envelope in
  let! ' (_, tablet, (_, vehicle)) := authorize iid in
  (if str_is "installation_id" (str_uuid iid) header
      && scope_matches header (tb_department tablet) (ve_station vehicle)
   then ret tt else transfer_error "scope_not_authorized" 403) ;;;
  let raw := json_dumps envelope in
  let digest := sha256_hex raw in
  (if REPORT_TRANSFER_MAX_REQUEST_BYTES <? Z.of_nat (String.length raw)
   then transfer_error "package_too_large" 413 else ret tt) ;;;
  meanwhile others ;;;
  let! accepted := transaction_files (accept_submission iid envelope header raw digest) in
  match accepted with
  | inl r => ret (r, false)
  | inr (pk, row) =>
      try_except (let! r := result pk row in ret (r, true))
        (λ e, Some (remove_payload (rs_payload_key row) ;;; reraise e))
  end.

Definition status (iid submission_id : N) : M Db json :=
  let! ' (_, tablet, _) := authorize iid in
  let! row := first_where db_report_submissions (λ _ r,
    N.eqb (rs_installation r) iid && N.eqb (rs_submission_id r) submission_id
    && N.eqb (rs_department r) (tb_department tablet)) by_pk in
  match row with
  | None => transfer_error "submission_not_found" 404
  | Some (pk, r) => result pk r
  end.

(** ** Downloads *)

Definition is_download_event (submission_id download_id : N) (e : AuditEvent) : bool :=
  String.eqb (ev_action e) "report_transfer.download_completed"
  && bool_decide (ev_target_uuid e = Some submission_id)
  && match assoc "download_id" (ev_metadata e) with
     | Some (JStr d) => String.eqb d (str_uuid download_id)
     | _ => false
     end.

(** The first completed download and the deadline it brings; [None] for the instant is now. *)
Definition record_successful_download (submission_pk : N) (completed_at : option Z)
    (download_audit : option (N * N * string)) : M Db Z :=
  transaction_files (
    let! row := get_obj db_report_submissions submission_pk in
    let! now := timezone_now in
    let completed_at := default now completed_at in
    require ((rs_created_at row <=? completed_at) && (completed_at <=? now)) ;;;
    let! deadline := effective_expiry submission_pk row in
    (if negb (bool_decide (rs_state row = SUBMISSION_READY)) || (deadline <=? completed_at)
     then transfer_error "submission_expired" 410 else ret tt) ;;;
    let first := match rs_first_download_at row with
                 | Some first => if completed_at <? first then completed_at else first
                 | None => completed_at
                 end in
    let row := row <| rs_first_download_at := Some first |> in
    let! expires_at := effective_expiry submission_pk row in
    save db_report_submissions submission_pk (λ r,
      r <| rs_first_download_at := Some first |> <| rs_expires_at := expires_at |>) ;;;
    match download_audit with
    | None => ret tt
    | Some (download_id, transfer_id, file_type) =>
        let! recorded := gets (λ s,
          existsb (is_download_event (rs_submission_id row) download_id) (db_audit s)) in
        when (negb recorded) (record_installation_event "report_transfer.download_completed" None
          (Some (rs_department row)) None "report_submission" (Some (rs_submission_id row))
          [("download_id", json_uuid download_id); ("transfer_id", json_uuid transfer_id);
           ("file_type", JStr file_type); ("installation_id", json_uuid (rs_installation row));
           ("completed_at", JStr (isoformat completed_at))])
    end ;;;
    ret expires_at).

(** ** Clean-up *)

Record CleanupCounts := mkCleanupCounts { cc_expired : Z; cc_orphans : Z; cc_failed : Z }.

Definition one_expired (c : CleanupCounts) : CleanupCounts :=
  mkCleanupCounts (cc_expired c + 1) (cc_orphans c) (cc_failed c).
Definition one_orphan (c : CleanupCounts) : CleanupCounts :=
  mkCleanupCounts (cc_expired c) (cc_orphans c + 1) (cc_failed c).
Definition one_failed (c : CleanupCounts) : CleanupCounts :=
  mkCleanupCounts (cc_expired c) (cc_orphans c) (cc_failed c + 1).

(** [except (OSError, TransferError): failed += 1] *)
Definition count_storage_failure (c : CleanupCounts) (m : M Db CleanupCounts) : M Db CleanupCounts :=
  try_except m (λ e, if storage_failure (exn_kind e) then Some (ret (one_failed c)) else None).

(** A receipt is reconciled and removed; one that another session removed is passed over. *)
Definition reconcile_receipt (c : CleanupCounts) (k : N) : M Db CleanupCounts :=
  count_storage_failure c (
    let! receipt := find_obj db_receipts k in
    match receipt with
    | None => ret c
    | Some r =>
        let! ' (pk, completed_at, download_audit) := read_download_receipt r in
        let! row := find_obj db_report_submissions pk in
        match row with
        | Some row =>
            when (bool_decide (rs_state row = SUBMISSION_READY))
              (let! _ := record_successful_download pk (Some completed_at) download_audit in ret tt)
        | None => ret tt
        end ;;;
        unlink_receipt k ;;;
        ret c
    end).

(** The query for expired rows. *)
Definition past_deadline (now : Z) (r : ReportSubmission) : bool :=
  bool_decide (rs_state r = SUBMISSION_READY)
  && ((rs_expires_at r <=? now) || (rs_created_at r <=? now - 7 * MICROSECONDS_PER_DAY)
      || match rs_first_download_at r with
         | Some first => first <=? now - 48 * MICROSECONDS_PER_HOUR
         | None => false
         end).

Definition purge_submission (now : Z) (c : CleanupCounts) (pk : N) : M Db CleanupCounts :=
  count_storage_failure c (transaction_files (
    let! row := get_obj db_report_submissions pk in
    let! deadline := effective_expiry pk row in
    if negb (bool_decide (rs_state row = SUBMISSION_READY)) || (now <? deadline) then ret c else
    remove_payload (rs_payload_key row) ;;;
    save db_report_submissions pk (λ r,
      r <| rs_payload_key := "" |> <| rs_state := SUBMISSION_EXPIRED |>) ;;;
    record_installation_event "report_transfer.content_purged" None (Some (rs_department row))
      (Some (rs_station row)) "report_submission" (Some (rs_submission_id row))
      [("result", JStr "expired"); ("installation_id", json_uuid (rs_installation row))] ;;;
    ret (one_expired c))).

(** The sweep of files that no row refers to. *)
Definition sweep_payload (referenced : list string) (c : CleanupCounts) (k : string) :
    M Db CleanupCounts :=
  if mem_str k referenced then ret c
  else count_storage_failure c (remove_payload k ;;; ret (one_orphan c)).

Definition sweep_orphans (c : CleanupCounts) : M Db CleanupCounts :=
  transaction_files (
    let! referenced := gets (λ s, filter (λ k, str_true k = true)
      (map (λ r, rs_payload_key r.2) (map_to_list (db_report_submissions s)))) in
    root ;;;
    let! files := gets (λ s, (map_to_list (db_spool s)).*1) in
    fold_m (sweep_payload referenced) c files).

(** [cleanup]; between its parts other sessions run.  Its last loop removes unfinished
    receipts that a crash left, which the model does not have. *)
Definition cleanup (others : nat → M Db unit) (now : option Z) : M Db CleanupCounts :=
  let! clock := timezone_now in
  let now := default clock now in
  root ;;;
  let! receipts := gets (λ s, (map_to_list (db_receipts s)).*1) in
  let! c := fold_m reconcile_receipt (mkCleanupCounts 0 0 0) receipts in
  meanwhile (others 0%nat) ;;;
  let! pks := gets (λ s, (rows (db_report_submissions s) (λ _ r, past_deadline now r)).*1) in
  let! c := fold_m (purge_submission now) c pks in
  meanwhile (others 1%nat) ;;;
  sweep_orphans c.

(** ** Loading what was submitted *)

Definition integrity_failure {A} : M Db A := transfer_error "report_integrity_failure" 409.

(** The identities of the header are those of the row. *)
Definition header_of_row (header : json) (row : ReportSubmission) : bool :=
  str_is "installation_id" (str_uuid (rs_installation row)) header
  && str_is "department_id" (str_uuid (rs_department row)) header
  && str_is "station_id" (str_uuid (rs_station row)) header
  && str_is "recipient_personnel_id" (str_uuid (rs_recipient row)) header
  && str_is "submission_id" (str_uuid (rs_submission_id row)) header
  && str_is "report_id" (str_uuid (rs_report_id row)) header.

Definition load_verified_payload (row : ReportSubmission) : M Db (ReportSubmission * json * list json) :=
  if negb (bool_decide (rs_document_schema_version row = Some 1))
  then transfer_error "legacy_report_document" 409 else
  payload_path (rs_payload_key row) ;;;
  let! file := gets (λ s, db_spool s !! rs_payload_key row) in
  match file with
  | None => raise EOSError "No such file or directory"
  | Some raw =>
      if negb (String.eqb (sha256_hex raw) (rs_payload_digest row)) then integrity_failure else
      let! envelope := parse_json raw in
      let! header := inspect_envelope envelope in
      if negb (header_of_row header row) then integrity_failure else
      let! ' (document, attachments, digest) := decrypt_and_validate envelope header in
      if String.eqb digest (rs_document_digest row)
         && str_is "report_id" (str_uuid (rs_report_id row)) document
      then ret (row, document, attachments) else integrity_failure
  end.

Definition load_submission (iid submission_id : N) : M Db (ReportSubmission * json * list json) :=
  transaction_files (
    let! ' (_, tablet, (_, vehicle)) := authorize iid in
    let! row := first_where db_report_submissions (λ _ r,
      N.eqb (rs_installation r) iid && N.eqb (rs_submission_id r) submission_id
      && N.eqb (rs_department r) (tb_department tablet)
      && N.eqb (rs_station r) (ve_station vehicle)) by_pk in
    match row with
    | None => transfer_error "submission_not_found" 404
    | Some (pk, r) =>
        let! deadline := effective_expiry pk r in
        let! now := timezone_now in
        if negb (bool_decide (rs_state r = SUBMISSION_READY)) || (deadline <=? now)
        then transfer_error "submission_expired" 410
        else load_verified_payload r
    end).

(** [render_submission_pdf], up to the drawing: what [render_pdf] gets. *)
Definition render_submission_pdf (iid submission_id : N) :
    M Db (json * list (string * json) * Z) :=
  let! ' (row, document, attachments) := load_submission iid submission_id in
  let! installation := get_obj db_installations iid in
  record_installation_event "report_transfer.pdf_generated"
    (Some (in_installation_uuid installation)) (Some (rs_department row)) None
    "report_submission" (Some (rs_submission_id row))
    [("file_type", JStr "pdf"); ("installation_id", json_uuid (rs_installation row))] ;;;
  ret (document, map (λ a, (str_of (item "id" a), item "sha256" a)) attachments, rs_created_at row).

Definition find_attachment (attachment_id : N) (attachments : list json) : option json :=
  List.find (str_is "id" (str_uuid attachment_id)) attachments.

Definition read_submission_jpeg (iid submission_id attachment_id : N) : M Db string :=
  let! ' (_, _, attachments) := load_submission iid submission_id in
  match find_attachment attachment_id attachments with
  | Some a => decode (item "data" a)
  | None => transfer_error "attachment_not_found" 404
  end.
End services.
