(* ===== verification/ReportPortal.v ===== *)
(** Access to reports: the grants a tablet requests, the one mail with their link, its
    redemption, the portal sessions ([report_transfer/transfers.py]) and the downloads of the
    portal ([portal.py]). *)
From Stdlib Require Import Ascii.
From S2P Require Import Prelude Text Encoding Models Registry Store Authorization Fingerprint.
From S2P Require Import ApplicationSecrets Tablets Manifests MailProviders MailServices.
From S2P Require Import ReportDelivery JsonText ReportDocuments ReportTransfer.

(** The public address of the portal, [urlsplit] of it (scheme, host part, path, query,
    fragment, user, password; [None] for a [ValueError]), and the key of a new session. *)
Class PortalSettings := {
  FIREDASH_PUBLIC_ORIGIN : string;
  split_origin : string →
    option (string * string * string * string * string * option string * option string);
  new_session_key : Db → string
}.

(** The session of a request: its key and the value under [report_portal]. *)
Record Session := mkSession { se_key : option string; se_portal : option string }.

Definition access_unavailable {A} : M Db A := transfer_error "access_unavailable" 403.

Definition text_true (o : option string) : bool :=
  match o with Some x => str_true x | None => false end.

(** [transfer_result] *)
Definition mail_state_value (st : MailState) : string :=
  match st with
  | MAIL_PROCESSING => "PROCESSING" | MAIL_SENT => "SENT" | MAIL_FAILED => "FAILED"
  | MAIL_UNKNOWN => "UNKNOWN"
  end.

Definition transfer_result (pk : N) (row : ReportTransfer) : json :=
  JObj [("transfer_id", json_uuid pk);
    ("status", JStr (if opt_true (rt_revoked_at row) then "REVOKED"
                     else mail_state_value (rt_mail_state row)))].

Section transfers.
Context `{Hash, Floats, Aesgcm, ReportCrypto, ReportSettings, ReportStorage, PortalSettings}.
Context `{Secrets, MailEnvironment, MailSettings, DeliverySettings, SecretSettings}.

Definition digest (value : string) : string := sha256_hex (utf8_encode value).

(** [email_digest]: a keyed fingerprint of the mailbox. *)
Definition email_digest (value : string) : string :=
  hex_of_bytes (hmac_sha256 SECRET_KEY ("report-recipient:" +:+ value)).

(** [config/settings/base.py]; the answer is whether it raises. *)
Definition validate_public_origin (origin : string) : bool :=
  match split_origin origin with
  | Some (scheme, netloc, path, query, fragment, username, password) =>
      String.eqb scheme "https" && str_true netloc && (String.eqb path "" || String.eqb path "/")
      && negb (str_true query) && negb (str_true fragment) && negb (text_true username)
      && negb (text_true password)
  | None => false
  end.

(** ** What a grant still gives *)

Definition installation_serves (i : AppInstallation) (t : Tablet) (d : Department) : bool :=
  (bool_decide (in_status i = INSTALLATION_ACTIVE) || bool_decide (in_status i = INSTALLATION_STALE))
  && negb (opt_true (in_revoked_at i)) && tb_active t && bool_decide (tb_status t = TABLET_ACTIVE)
  && bool_decide (dept_status d = DEPARTMENT_ACTIVE).

(** The installation of a grant that is sent, not revoked, and bound to the mailbox that
    its recipient has now. *)
Definition check_transfer (row : ReportTransfer) : M Db (AppInstallation * Tablet) :=
  if opt_true (rt_revoked_at row) || negb (bool_decide (rt_mail_state row = MAIL_SENT))
  then access_unavailable else
  let! installation := get_obj db_installations (rt_installation row) in
  let! tablet := get_obj db_tablets (in_tablet installation) in
  let! department := get_obj db_departments (tb_department tablet) in
  if negb (installation_serves installation tablet department) then access_unavailable else
  let! ' (_, email) := recipient_for (tb_department tablet) (rt_recipient row) in
  if String.eqb (email_digest email) (rt_recipient_email_digest row)
  then ret (installation, tablet) else access_unavailable.

(** [check_report] for the installation [iid] on a tablet of [department]. *)
Definition check_report (pk : N) (row : ReportSubmission) (recipient iid department : N) : M Db unit :=
  if negb (N.eqb (rs_installation row) iid) || negb (N.eqb (rs_recipient row) recipient)
     || negb (N.eqb (rs_department row) department)
     || negb (bool_decide (rs_document_schema_version row = Some 1))
     || negb (bool_decide (rs_state row = SUBMISSION_READY))
  then transfer_error "report_unavailable" 404 else
  let! deadline := effective_expiry pk row in
  let! now := timezone_now in
  if deadline <=? now then transfer_error "report_unavailable" 404 else ret tt.

(** [try: check_report(...) except TransferError: continue] *)
Definition report_available (pk : N) (row : ReportSubmission) (recipient iid department : N) :
    M Db bool :=
  try_except (check_report pk row recipient iid department ;;; ret true) (λ e,
    if is_transfer_error (exn_kind e) then Some (ret false) else None).

(** ** Requesting a grant *)

Definition max_reports : Z := Z.min (Z.max REPORT_TRANSFER_MAX_REPORTS 1) 100.

(** One row of the loop that collects what is eligible. *)
Definition collect_report (iid department : N) (found : list (N * ReportSubmission))
    (r : N * ReportSubmission) : M Db (list (N * ReportSubmission)) :=
  let! available := report_available r.1 r.2 (rs_recipient r.2) iid department in
  if negb available then ret found else
  if max_reports <? Z.of_nat (length found) + 1 then transfer_error "too_many_reports" 409
  else ret (found ++ [r]).

Definition candidate_report (iid person department : N) (now : Z) (_ : N) (r : ReportSubmission) :
    bool :=
  N.eqb (rs_installation r) iid && N.eqb (rs_recipient r) person
  && N.eqb (rs_department r) department && bool_decide (rs_state r = SUBMISSION_READY)
  && bool_decide (rs_document_schema_version r = Some 1) && (now <? rs_expires_at r).

(** The limits on issued links, of the installation by the hour and of a recipient by the
    minute. *)
Definition rate_limited (iid person : N) (now : Z) (s : Db) : bool :=
  let issued P := Z.of_nat (length (rows (db_report_transfers s) P)) in
  (REPORT_TRANSFER_MAILS_PER_HOUR <=? issued (λ _ t,
     N.eqb (rt_installation t) iid && (now - MICROSECONDS_PER_HOUR <? rt_issued_at t)))
  || (REPORT_TRANSFER_MAILS_PER_MINUTE <=? issued (λ _ t,
     N.eqb (rt_installation t) iid && N.eqb (rt_recipient t) person
     && (now - 60 * 1000000 <? rt_issued_at t))).

(** The grants that a new one replaces. *)
Definition current_transfer (iid person : N) (t : ReportTransfer) : bool :=
  N.eqb (rt_installation t) iid && N.eqb (rt_recipient t) person
  && negb (opt_true (rt_revoked_at t)).

Definition record_revocation (actor : option N) (department : option N) (pk : N) (source : string)
    (at_ : Z) : M Db unit :=
  record_installation_event "report_transfer.revoked" actor department None "report_transfer"
    (Some pk) [("source", JStr source); ("revoked_at", JStr (isoformat at_))].

(** [create] of a grant; the token is unique. *)
Definition create_transfer (t : ReportTransfer) : M Db N :=
  let! taken := exists_where db_report_transfers (λ _ u,
    String.eqb (rt_token_digest u) (rt_token_digest t)) in
  guard (negb taken) EIntegrity "duplicate key value violates unique constraint" ;;;
  create db_report_transfers t.

(** The transaction of [request_transfer]: the earlier grant of the same request, or the
    new one with its token. *)
Definition claim_transfer (iid request_id person : N) (fingerprint : string) :
    M Db (json + N * string) :=
  get_obj db_installations iid ;;;
  let! ' (installation, tablet, _) := authorize iid in
  let! prior := first_where db_report_transfers (λ _ t,
    N.eqb (rt_installation t) iid && N.eqb (rt_transfer_request_id t) request_id) by_pk in
  match prior with
  | Some (pk, row) =>
      if negb (String.eqb (rt_request_digest row) fingerprint)
      then transfer_error "idempotency_conflict" 409 else
      recipient_for (tb_department tablet) person ;;;
      ret (inl (transfer_result pk row))
  | None =>
      let! ' (personnel_id, email) := recipient_for (tb_department tablet) person in
      let! now := timezone_now in
      let! candidates := select_ordered db_report_submissions
        (candidate_report iid person (tb_department tablet) now) by_pk in
      let! found := fold_m (collect_report iid (tb_department tablet)) [] candidates in
      (if Nat.eqb (length found) 0 then transfer_error "no_reports_available" 409 else ret tt) ;;;
      for_each found (λ r, let! _ := load_verified_payload r.2 in ret tt) ;;;
      let! limited := gets (rate_limited iid personnel_id now) in
      (if limited : bool then transfer_error "transfer_rate_limited" 429 else ret tt) ;;;
      (if validate_public_origin FIREDASH_PUBLIC_ORIGIN then ret tt
       else transfer_error "portal_unavailable" 503) ;;;
      let! token := gets token_urlsafe in
      let! previous_ids := gets (λ s,
        (rows (db_report_transfers s) (λ _ t, current_transfer iid personnel_id t)).*1) in
      update_where db_report_transfers (current_transfer iid personnel_id)
        (λ t, t <| rt_revoked_at := Some now |>) ;;;
      for_each previous_ids (λ k,
        record_revocation (Some (in_installation_uuid installation)) (Some (tb_department tablet)) k
          "replacement" now) ;;;
      let! pk := create_transfer (mkReportTransfer iid personnel_id request_id fingerprint
        (email_digest email) found.*1 (digest token) now (now + 60 * 60 * 1000000) None None
        MAIL_PROCESSING "pending") in
      record_installation_event "report_transfer.created" (Some (in_installation_uuid installation))
        (Some (tb_department tablet)) None "report_transfer" (Some pk)
        [("issued_at", JStr (isoformat now))] ;;;
      ret (inr (pk, token))
  end.

(** The message; its literals are written in UTF-8. *)
Definition LINK_SUBJECT : string := "FireDash – Sicherer Zugang".

Fixpoint rstrip_slashes (s : string) : string :=
  match s with
  | String c s' =>
      let r := rstrip_slashes s' in if (c =? "/")%char && String.eqb r "" then "" else String c r
  | EmptyString => ""
  end.

Definition newline : string := String (ascii_of_nat 10) "".

Definition link_body (token : string) : string :=
  "Für Sie wurde ein temporärer Zugang bereitgestellt. "
  +:+ "Der Link ist 60 Minuten gültig und kann einmal zur Anmeldung verwendet werden."
  +:+ newline +:+ newline +:+ rstrip_slashes FIREDASH_PUBLIC_ORIGIN +:+ "/reports/access/"
  +:+ token +:+ "/".

(** The inner [try] around [provider.send]. *)
Definition send_message (provider : Provider) (message : OutboundMessage) : M Db (MailState * string) :=
  try_except (provider_send provider message ;;; ret (MAIL_SENT, "delivered")) (λ e,
    Some (ret match exn_kind e with
              | EMailProvider code =>
                  if String.eqb code MESSAGE_REJECTED then (MAIL_FAILED, "message_rejected")
                  else (MAIL_UNKNOWN, "delivery_indeterminate")
              | _ => (MAIL_UNKNOWN, "delivery_indeterminate")
              end)).

Definition send_link (pk : N) (token : string) : M Db (MailState * string) :=
  try_except (
    let! row := get_obj db_report_transfers pk in
    let! now := timezone_now in
    if opt_true (rt_revoked_at row) || (rt_token_expires_at row <=? now)
    then ret (MAIL_FAILED, "access_unavailable") else
    let! ' (_, tablet, _) := authorize (rt_installation row) in
    let! ' (_, email) := recipient_for (tb_department tablet) (rt_recipient row) in
    if negb (String.eqb (email_digest email) (rt_recipient_email_digest row))
    then ret (MAIL_FAILED, "recipient_changed") else
    let! resolution := resolve_department_mail_provider (tb_department tablet) in
    match resolution with
    | inl _ => ret (MAIL_FAILED, "provider_unavailable")
    | inr provider =>
        let! sender := sender_identity provider in
        let! recipient := recipient_to_mail_address email in
        let! message := outbound_message sender recipient LINK_SUBJECT (link_body token) [] in
        send_message provider message
    end)
    (λ _, Some (ret (MAIL_FAILED, "delivery_unavailable"))).

(** The transaction that records the outcome of the mail. *)
Definition finish_transfer (iid pk : N) (outcome : MailState * string) : M Db unit :=
  atomic (
    update_where_pk db_report_transfers pk (λ t,
      t <| rt_mail_state := outcome.1 |> <| rt_mail_code := outcome.2 |>) ;;;
    let! installation := get_obj db_installations iid in
    let! tablet := get_obj db_tablets (in_tablet installation) in
    record_installation_event "report_transfer.link_issued"
      (Some (in_installation_uuid installation)) (Some (tb_department tablet)) None
      "report_transfer" (Some pk)
      [("result", JStr (mail_state_value outcome.1)); ("code", JStr outcome.2)]).

(** The body of the request: a dictionary with two identifiers. *)
Definition uuid_field (k : string) (data : json) : option N :=
  match item k data with JStr v => parse_uuid v | _ => None end.

(** [request_transfer]; [others n] is what other sessions do before the claim, before the
    mail and before its outcome is recorded. *)
Definition request_transfer (others : nat → M Db unit) (iid : N) (data : json) : M Db (json * bool) :=
  require (keys_are ["transfer_request_id"; "recipient_personnel_id"] data) ;;;
  let! request_id := or_invalid (uuid_field "transfer_request_id" data) in
  let! person := or_invalid (uuid_field "recipient_personnel_id" data) in
  let fingerprint := sha256_hex (json_dumps (JObj [("recipient_personnel_id", json_uuid person)])) in
  authorize iid ;;;
  meanwhile (others 0%nat) ;;;
  let! claimed := atomic (claim_transfer iid request_id person fingerprint) in
  match claimed with
  | inl r => ret (r, false)
  | inr (pk, token) =>
      meanwhile (others 1%nat) ;;;
      let! outcome := send_link pk token in
      meanwhile (others 2%nat) ;;;
      finish_transfer iid pk outcome ;;;
      let! row := get_obj db_report_transfers pk in
      ret (transfer_result pk row, true)
  end.

(** ** Revocation by the tablet *)

Definition revoke_tablet (iid transfer_id : N) : M Db json :=
  authorize iid ;;;
  atomic (
    get_obj db_installations iid ;;;
    let! ' (installation, tablet, _) := authorize iid in
    let! row := first_where db_report_transfers (λ k t,
      N.eqb k transfer_id && N.eqb (rt_installation t) iid) by_pk in
    match row with
    | None => transfer_error "transfer_not_found" 404
    | Some (pk, row) =>
        let! now := timezone_now in
        when (negb (opt_true (rt_revoked_at row))) (
          save db_report_transfers pk (λ t, t <| rt_revoked_at := Some now |>) ;;;
          record_revocation (Some (in_installation_uuid installation)) (Some (tb_department tablet))
            pk "tablet" now) ;;;
        ret (transfer_result pk (if opt_true (rt_revoked_at row) then row
                                 else row <| rt_revoked_at := Some now |>))
    end).

(** ** Redeeming a link *)

Definition find_token (token : string) : M Db (option (N * ReportTransfer)) :=
  first_where db_report_transfers (λ _ t, String.eqb (rt_token_digest t) (digest token)) by_pk.

Definition token_transfer (token : string) : M Db (N * ReportTransfer) :=
  if negb (Nat.eqb (String.length token) 43) then access_unavailable else
  let! row := find_token token in
  let! now := timezone_now in
  match row with
  | None => access_unavailable
  | Some (pk, row) =>
      if (rt_token_expires_at row <=? now) || opt_true (rt_revoked_at row)
         || negb (bool_decide (rt_mail_state row = MAIL_SENT))
      then access_unavailable else
      (if opt_true (rt_consumed_at row) then ret tt else let! _ := check_transfer row in ret tt) ;;;
      ret (pk, row)
  end.

(** The submissions of a grant, with their keys. *)
Definition granted (s : Db) (row : ReportTransfer) : list (N * ReportSubmission) :=
  omap (λ k, (k,.) <$> db_report_submissions s !! k) (rt_submissions row).

(** The transaction of [_redeem]: the session becomes one of the portal. *)
Definition redeem_transfer (token : string) : M Db Session :=
  let! ' (pk, row) := token_transfer token in
  (if opt_true (rt_consumed_at row) then transfer_error "access_used" 409 else ret tt) ;;;
  let! ' (installation, tablet) := check_transfer row in
  let! reports := gets (λ s, granted s row) in
  let! available := fold_m (λ available r,
    let! ok := report_available r.1 r.2 (rt_recipient row) (rt_installation row)
                 (tb_department tablet) in
    ret (available || ok)) false reports in
  (if available : bool then ret tt else access_unavailable) ;;;
  let! session_key := gets new_session_key in
  let! now := timezone_now in
  let! portal := create db_portal_sessions (mkReportPortalSession pk (digest session_key) now None) in
  save db_report_transfers pk (λ t, t <| rt_consumed_at := Some now |>) ;;;
  record_installation_event "report_transfer.login_succeeded" None (Some (tb_department tablet)) None
    "report_transfer" (Some pk) [("consumed_at", JStr (isoformat now))] ;;;
  ret (mkSession (Some session_key) (Some (str_uuid portal))).

Definition _redeem (others : M Db unit) (token : string) : M Db Session :=
  let! ' (_, candidate) := token_transfer token in
  meanwhile others ;;;
  atomic (get_obj db_installations (rt_installation candidate) ;;; redeem_transfer token).

(** The audit of a failed sign-in: one for each grant, and one a minute for tokens that
    belong to none, when the lock is free. *)
Definition is_login_failure (e : AuditEvent) : bool :=
  String.eqb (ev_action e) "report_transfer.login_failed".

Definition audit_failed_login (acquired : bool) (token code : string) : M Db unit :=
  let! candidate := if Nat.eqb (String.length token) 43 then find_token token else ret None in
  match candidate with
  | Some (pk, row) =>
      atomic (
        get_obj db_installations (rt_installation row) ;;;
        let! known := gets (λ s, existsb (λ e,
          is_login_failure e && bool_decide (ev_target_uuid e = Some pk)) (db_audit s)) in
        when (negb known) (record_installation_event "report_transfer.login_failed" None None None
          "report_transfer" (Some pk) [("code", JStr code)]))
  | None =>
      atomic (
        let! now := timezone_now in
        let! known := gets (λ s, existsb (λ e,
          is_login_failure e && bool_decide (ev_target_uuid e = None)
          && (now - 60 * 1000000 <=? ev_timestamp e)) (db_audit s)) in
        when (acquired && negb known) (record_installation_event "report_transfer.login_failed" None
          None None "report_transfer" None [("code", JStr "unidentified_token")]))
  end.

(** [redeem]; [acquired]: the advisory lock of the audit window was free. *)
Definition redeem (others : M Db unit) (acquired : bool) (token : string) : M Db Session :=
  try_except (_redeem others token) (λ e,
    match exn_kind e with
    | ETransfer code _ => Some (audit_failed_login acquired token code ;;; reraise e)
    | _ => None
    end).

Definition revoke_token (others : M Db unit) (token : string) : M Db unit :=
  let! ' (_, candidate) := token_transfer token in
  meanwhile others ;;;
  atomic (
    get_obj db_installations (rt_installation candidate) ;;;
    let! ' (pk, row) := token_transfer token in
    if negb (opt_true (rt_consumed_at row)) then access_unavailable else
    let! now := timezone_now in
    save db_report_transfers pk (λ t, t <| rt_revoked_at := Some now |>) ;;;
    record_revocation None None pk "consumed_token" now).

(** ** The portal *)

Definition SESSION_IDLE : Z := 30 * 60 * 1000000.

(** One row of a listing, or of a single report, whose error propagates. *)
Definition collect_available (single : bool) (recipient iid department : N)
    (found : list (N * ReportSubmission)) (r : N * ReportSubmission) :
    M Db (list (N * ReportSubmission)) :=
  if single then check_report r.1 r.2 recipient iid department ;;; ret (found ++ [r])
  else let! ok := report_available r.1 r.2 recipient iid department in
       ret (if ok : bool then found ++ [r] else found).

Definition session_portal (session : Session) : option N := se_portal session ≫= parse_uuid.

Definition portal_context (session : Session) (report_id : option N) :
    M Db (N * ReportTransfer * list (N * ReportSubmission)) :=
  match session_portal session with
  | None => access_unavailable
  | Some pk =>
      let! candidate := find_obj db_portal_sessions pk in
      match candidate, se_key session with
      | Some candidate, Some session_key =>
          if negb (str_true session_key) then access_unavailable else
          atomic (
            let! transfer := get_obj db_report_transfers (po_transfer candidate) in
            get_obj db_installations (rt_installation transfer) ;;;
            let! portal := get_obj db_portal_sessions pk in
            let! transfer := get_obj db_report_transfers (po_transfer portal) in
            let! now := timezone_now in
            if opt_true (po_logged_out_at portal) || (po_last_seen_at portal + SESSION_IDLE <=? now)
               || negb (String.eqb (po_session_digest portal) (digest session_key))
            then access_unavailable else
            let! ' (installation, tablet) := check_transfer transfer in
            if negb (opt_true (rt_consumed_at transfer)) then access_unavailable else
            let! rows := gets (λ s, List.filter (λ r,
              match report_id with Some i => N.eqb (rs_report_id r.2) i | None => true end)
              (granted s transfer)) in
            let! available := fold_m (collect_available (opt_true report_id) (rt_recipient transfer)
              (rt_installation transfer) (tb_department tablet)) [] rows in
            (if opt_true report_id && Nat.eqb (length available) 0
             then transfer_error "report_unavailable" 404 else ret tt) ;;;
            save db_portal_sessions pk (λ p, p <| po_last_seen_at := now |>) ;;;
            ret (po_transfer portal, transfer, available))
      | _, _ => access_unavailable
      end
  end.

Definition revoke_portal (session : Session) : M Db unit :=
  let! ' (pk, transfer, _) := portal_context session None in
  atomic (
    get_obj db_installations (rt_installation transfer) ;;;
    let! now := timezone_now in
    let! row := find_obj db_report_transfers pk in
    match row with
    | Some t =>
        when (negb (opt_true (rt_revoked_at t))) (
          save db_report_transfers pk (λ t, t <| rt_revoked_at := Some now |>) ;;;
          record_revocation None None pk "portal" now)
    | None => ret tt
    end).

Definition logout (session : Session) : M Db Session :=
  let! now := timezone_now in
  match session_portal session with
  | Some pk => update_where_pk db_portal_sessions pk (λ p, p <| po_logged_out_at := Some now |>)
  | None => ret tt
  end ;;;
  ret (mkSession None None).

Definition load_portal_submission (session : Session) (report_id : N) :
    M Db (N * ReportSubmission * json * list json) :=
  transaction_files (
    let! ' (_, _, rows) := portal_context session (Some report_id) in
    match rows with
    | [] => raise EKey "list index out of range"
    | (pk, _) :: _ =>
        let! row := get_obj db_report_submissions pk in
        let! deadline := effective_expiry pk row in
        let! now := timezone_now in
        if negb (bool_decide (rs_state row = SUBMISSION_READY)) || (deadline <=? now)
        then transfer_error "submission_expired" 410 else
        let! ' (row, document, attachments) := load_verified_payload row in
        ret (pk, row, document, attachments)
    end).

(** ** Downloads *)

(** [complete_download], after the last chunk. *)
Definition complete_download (session : Session) (pk : N) (row : ReportSubmission)
    (file_type : string) (transfer_id : N) : M Db unit :=
  let! completed_at := timezone_now in
  let! download_id := gets uuid4 in
  let download_audit := (download_id, transfer_id, file_type) in
  let! receipt := try_except
    (let! k := write_download_receipt pk completed_at (Some download_audit) in ret (Some k))
    (λ e, if storage_failure (exn_kind e) then Some (ret None) else None) in
  try_except (
    transaction_files (
      portal_context session (Some (rs_report_id row)) ;;;
      record_successful_download pk (Some completed_at) (Some download_audit)) ;;;
    match receipt with Some k => unlink_receipt k | None => ret tt end)
    (λ _, Some (ret tt)).

(** [download_response]: before each of [n] chunks the grant is checked again; a stream that
    is interrupted does not complete the download. *)
Fixpoint stream_chunks (others : nat → M Db unit) (session : Session) (report_id : N) (n : nat) :
    M Db unit :=
  match n with
  | O => ret tt
  | S n' =>
      portal_context session (Some report_id) ;;;
      meanwhile (others n') ;;;
      stream_chunks others session report_id n'
  end.

Definition CHUNK : Z := 256 * 1024.

Definition chunk_count (payload : string) : nat :=
  Z.to_nat ((Z.of_nat (String.length payload) + CHUNK - 1) / CHUNK).

Definition download_response (others : nat → M Db unit) (session : Session) (prefetch : bool)
    (pk : N) (row : ReportSubmission) (payload file_type : string) : M Db unit :=
  if prefetch then transfer_error "download_requires_explicit_request" 400 else
  match session_portal session with
  | None => raise EDoesNotExist ""
  | Some portal_pk =>
      let! portal := get_obj db_portal_sessions portal_pk in
      stream_chunks others session (rs_report_id row) (chunk_count payload) ;;;
      complete_download session pk row file_type (po_transfer portal)
  end.

(** [jpeg]: the attachment is decoded and streamed; for a preview the grant is checked once
    more and a thumbnail shown. *)
Definition jpeg (others : nat → M Db unit) (session : Session) (prefetch preview : bool)
    (report_id attachment_id : N) : M Db unit :=
  let! ' (pk, row, _, attachments) := load_portal_submission session report_id in
  match find_attachment attachment_id attachments with
  | None => transfer_error "attachment_not_found" 404
  | Some a =>
      let! payload := decode (item "data" a) in
      if preview : bool then portal_context session (Some report_id) ;;; ret tt
      else download_response others session prefetch pk row payload "jpeg"
  end.

(** [pdf]; [render] is the drawing of [pdf.py]. *)
Definition pdf (render : json → list (string * json) → Z → string) (others : nat → M Db unit)
    (session : Session) (prefetch : bool) (report_id : N) : M Db unit :=
  let! ' (pk, row, document, attachments) := load_portal_submission session report_id in
  let payload := render document (map (λ a, (str_of (item "id" a), item "sha256" a)) attachments)
    (rs_created_at row) in
  let! ' (transfer_pk, _, _) := portal_context session (Some report_id) in
  record_installation_event "report_transfer.pdf_generated" None (Some (rs_department row)) None
    "report_submission" (Some (rs_submission_id row))
    [("file_type", JStr "pdf"); ("transfer_id", json_uuid transfer_pk);
     ("installation_id", json_uuid (rs_installation row))] ;;;
  download_response others session prefetch pk row payload "pdf".
End transfers.
