(* ===== verification/ScopeState.v ===== *)
(** The operational state of the dataset scopes, [apps/publications/state.py]: the one
    state the Publications pages show for a scope, the rows and the summaries built
    from it.  The queries read the scopes of a department; their order is the
    database's collation and is left to the caller. *)
From Stdlib Require Import Ascii.
From S2P Require Import Prelude Models Registry Store Authorization Queue.

Inductive OperationalState :=
| CURRENT | NOT_PUBLISHED | UPDATE_QUEUED | QUEUED | BUILDING_STATE | READY_TO_PUBLISH
| NEEDS_REBUILD | FAILED_STATE.

#[export] Instance OperationalState_eq : EqDecision OperationalState.
Proof. solve_decision. Defined.

Definition STAGED_POLL_GRACE_PERIOD : Z := 20 * 1000000.

(** [STATE_LABELS], in the order of its keys. *)
Definition OPERATIONAL_STATES : list OperationalState :=
  [CURRENT; NOT_PUBLISHED; UPDATE_QUEUED; QUEUED; BUILDING_STATE; READY_TO_PUBLISH;
   NEEDS_REBUILD; FAILED_STATE].

Definition STATE_LABELS (st : OperationalState) : string :=
  match st with
  | CURRENT => "Current" | NOT_PUBLISHED => "Not published" | UPDATE_QUEUED => "Update queued"
  | QUEUED => "Queued" | BUILDING_STATE => "Building" | READY_TO_PUBLISH => "Ready to publish"
  | NEEDS_REBUILD => "Update required" | FAILED_STATE => "Failed"
  end.

Definition STATE_BADGE (st : OperationalState) : string :=
  match st with
  | CURRENT => "success" | NOT_PUBLISHED => "secondary"
  | UPDATE_QUEUED | QUEUED | BUILDING_STATE => "info"
  | READY_TO_PUBLISH | NEEDS_REBUILD => "warning"
  | FAILED_STATE => "danger"
  end.

Definition CURRENT_UPDATE_LABELS (st : OperationalState) : option string :=
  match st with
  | UPDATE_QUEUED | QUEUED => Some "Update scheduled"
  | BUILDING_STATE => Some "Building update"
  | FAILED_STATE => Some "Update failed"
  | NEEDS_REBUILD => Some "Update required"
  | _ => None
  end.

(** What the state of one scope is computed from. *)
Record ScopeInputs := mkScopeInputs {
  si_dirty : bool;
  si_latest_status : option PubStatus;
  si_latest_source_fingerprint : option string;
  si_current_source_fingerprint : string;
  si_latest_built_status : option PubStatus;
  si_current_published : bool;
  si_active_job_status : option JobStatus;
  si_active_job_not_before : option Z
}.

Definition compute_scope_state (i : ScopeInputs) (now : Z) : OperationalState :=
  if bool_decide (si_active_job_status i = Some JOB_RUNNING) then BUILDING_STATE
  else if bool_decide (si_active_job_status i = Some JOB_PENDING) then
    match si_active_job_not_before i with
    | Some t => if now <? t then UPDATE_QUEUED else QUEUED
    | None => QUEUED
    end
  else if bool_decide (si_latest_status i = Some BUILDING) then BUILDING_STATE
  else if bool_decide (si_latest_status i = Some STAGED) then UPDATE_QUEUED
  else if bool_decide (si_latest_status i = Some PUB_FAILED) && si_dirty i
       && match si_latest_source_fingerprint i with
          | Some f => negb (str_true f) || String.eqb f (si_current_source_fingerprint i)
          | None => true
          end
  then FAILED_STATE
  else if bool_decide (si_latest_built_status i = Some READY_FOR_REVIEW) then READY_TO_PUBLISH
  else if si_dirty i then NEEDS_REBUILD
  else if si_current_published i then CURRENT
  else NOT_PUBLISHED.

(** ** The rows the state of a scope is read from *)

(** The attempt of the scope with the highest version. *)
Definition latest_publication (s : Db) (scope_id : N) : option (N * DatasetPublication) :=
  head (order_by (λ r, [- pub_version_number r.2])
    (rows (db_publications s) (λ _ p, N.eqb (pub_scope_state p) scope_id))).

Definition active_job (s : Db) (scope_id : N) : option (N * PublicationJob) :=
  head (order_by by_pk (rows (db_jobs s)
    (λ _ j, N.eqb (job_scope_state j) scope_id && is_active_job j))).

(** [linked_publications.get(fk)] *)
Definition linked_publication (s : Db) (fk : option N) : option (N * DatasetPublication) :=
  fk ≫= λ k, pair k <$> db_publications s !! k.

(** [_scope_state_inputs], with the row it reads. *)
Record ScopeRows := mkScopeRows {
  at_latest : option (N * DatasetPublication);
  at_job : option (N * PublicationJob);
  at_latest_built : option (N * DatasetPublication);
  at_current_published : option (N * DatasetPublication);
  at_dirty : bool
}.

(** The source differs from what is published, or nothing is known of it. *)
Definition scope_dirty (scope : DatasetScopeState) (current : option (N * DatasetPublication)) :
    bool :=
  match current with
  | None => true
  | Some (_, p) =>
      if str_true (sc_current_source_fingerprint scope) && str_true (pub_source_fingerprint p)
      then negb (String.eqb (sc_current_source_fingerprint scope) (pub_source_fingerprint p))
      else true
  end.

Definition _scope_state_inputs (s : Db) (scope_id : N) (scope : DatasetScopeState) : ScopeRows :=
  let current := linked_publication s (sc_current_published_publication scope) in
  mkScopeRows (latest_publication s scope_id) (active_job s scope_id)
    (linked_publication s (sc_latest_built_publication scope)) current
    (scope_dirty scope current).

Definition inputs_of (scope : DatasetScopeState) (r : ScopeRows) : ScopeInputs := {|
  si_dirty := at_dirty r;
  si_latest_status := pub_status ∘ snd <$> at_latest r;
  si_latest_source_fingerprint := pub_source_fingerprint ∘ snd <$> at_latest r;
  si_current_source_fingerprint := sc_current_source_fingerprint scope;
  si_latest_built_status := pub_status ∘ snd <$> at_latest_built r;
  si_current_published := opt_true (at_current_published r);
  si_active_job_status := job_status ∘ snd <$> at_job r;
  si_active_job_not_before := at_job r ≫= job_not_before ∘ snd |}.

(** The state of a scope. *)
Definition scope_state (s : Db) (now : Z) (scope_id : N) (scope : DatasetScopeState) :
    OperationalState :=
  compute_scope_state (inputs_of scope (_scope_state_inputs s scope_id scope)) now.

(** The scopes of a department. *)
Definition publication_scope_queryset (s : Db) (department : N) :
    list (N * DatasetScopeState) :=
  rows (db_scopes s) (λ _ x, bool_decide (sc_department x = Some department)).

(** ** The rows of the Publications page *)

Record ScopeRow := mkScopeRow {
  row_scope_id : N;
  row_dataset_type_code : string;
  row_dataset_name : string;
  row_scope_label : string;
  row_station_short_code : string;
  row_scope_display_name : string;
  row_state : OperationalState;
  row_state_label : string;
  row_state_badge : string;
  row_source_revision : Z;
  row_source_fingerprint : string;
  row_is_dirty : bool;
  row_distributed_version : option Z;
  row_current_published_at : option Z;
  row_latest_built_version : option Z;
  row_latest_built_status : option PubStatus;
  row_latest_built_publication_id : option N;
  row_latest_publication_id : option N;
  row_latest_publication_version : option Z;
  row_current_published_publication_id : option N;
  row_current_snapshot_retained : bool;
  row_latest_snapshot_retained : bool;
  row_current_update_label : option string;
  row_current_update_badge : option string;
  row_build_error : option string;
  row_last_activity : Z;
  row_active_job_status : option JobStatus;
  row_active_job_trigger_type : option TriggerType;
  row_active_job_not_before : option Z;
  row_active_job_publication_id : option N;
  row_active_job_publication_version : option Z;
  row_should_poll : bool
}.

Definition middle_dot : string := String (ascii_of_nat 183) "".

Definition scope_station (s : Db) (scope : DatasetScopeState) : option Station :=
  sc_station scope ≫= λ k, db_stations s !! k.

Definition scope_label (scope : DatasetScopeState) (station : option Station) : string :=
  if String.eqb (sc_scope_type scope) "SYSTEM" then "System"
  else match station with Some x => st_name x | None => "Department" end.

Definition snapshot_retained (p : option (N * DatasetPublication)) : bool :=
  match p with Some (_, p) => opt_true (pub_source_snapshot p) | None => false end.

Definition should_poll (state : OperationalState) (job : option (N * PublicationJob)) (now : Z) :
    bool :=
  match state with
  | BUILDING_STATE => true
  | UPDATE_QUEUED | QUEUED =>
      match job ≫= job_not_before ∘ snd with
      | Some t => (t <=? now) && (now - t <=? STAGED_POLL_GRACE_PERIOD)
      | None => false
      end
  | _ => false
  end.

Definition scope_operational_state (now : Z) (row : N * DatasetScopeState) : M Db ScopeRow :=
  let '(scope_id, scope) := row in
  let! definition := get_dataset_definition (sc_dataset_type_code scope) in
  let! s := gets id in
  let r := _scope_state_inputs s scope_id scope in
  let station := scope_station s scope in
  let state := scope_state s now scope_id scope in
  let current := at_current_published r in
  let build_of := at_job r ≫= job_build_publication ∘ snd in
  ret {|
    row_scope_id := scope_id;
    row_dataset_type_code := sc_dataset_type_code scope;
    row_dataset_name := dt_display_name definition;
    row_scope_label := scope_label scope station;
    row_station_short_code := match station with Some x => st_short_code x | None => "" end;
    row_scope_display_name :=
      match station with
      | Some x => dt_display_name definition +:+ " " +:+ middle_dot +:+ " " +:+ st_short_code x
      | None => dt_display_name definition
      end;
    row_state := state;
    row_state_label := STATE_LABELS state;
    row_state_badge := STATE_BADGE state;
    row_source_revision := sc_source_revision scope;
    row_source_fingerprint := sc_current_source_fingerprint scope;
    row_is_dirty := at_dirty r;
    row_distributed_version := pub_version_number ∘ snd <$> current;
    row_current_published_at := current ≫= pub_published_at ∘ snd;
    row_latest_built_version := pub_version_number ∘ snd <$> at_latest_built r;
    row_latest_built_status := pub_status ∘ snd <$> at_latest_built r;
    row_latest_built_publication_id := fst <$> at_latest_built r;
    row_latest_publication_id := fst <$> at_latest r;
    row_latest_publication_version := pub_version_number ∘ snd <$> at_latest r;
    row_current_published_publication_id := fst <$> current;
    row_current_snapshot_retained := snapshot_retained current;
    row_latest_snapshot_retained := snapshot_retained (at_latest r);
    row_current_update_label := if opt_true current then CURRENT_UPDATE_LABELS state else None;
    row_current_update_badge :=
      if opt_true current && negb (bool_decide (state = CURRENT)) then Some (STATE_BADGE state)
      else None;
    row_build_error :=
      if bool_decide (state = FAILED_STATE) then pub_build_error ∘ snd <$> at_latest r else None;
    row_last_activity :=
      match at_latest r with Some (_, p) => pub_created_at p | None => sc_updated_at scope end;
    row_active_job_status := job_status ∘ snd <$> at_job r;
    row_active_job_trigger_type := job_trigger_type ∘ snd <$> at_job r;
    row_active_job_not_before := at_job r ≫= job_not_before ∘ snd;
    row_active_job_publication_id := build_of;
    row_active_job_publication_version :=
      pub_version_number ∘ snd <$> linked_publication s build_of;
    row_should_poll := should_poll state (at_job r) now |}.

Fixpoint map_scopes (now : Z) (scopes : list (N * DatasetScopeState)) : M Db (list ScopeRow) :=
  match scopes with
  | [] => ret []
  | x :: l =>
      let! row := scope_operational_state now x in
      let! rest := map_scopes now l in
      ret (row :: rest)
  end.

Definition scope_operational_states_for_scopes (scopes : list (N * DatasetScopeState))
    (now : option Z) : M Db (list ScopeRow) :=
  let! clock := timezone_now in
  map_scopes (default clock now) scopes.

Definition scope_states_for_attention (s : Db) (scopes : list (N * DatasetScopeState))
    (now : option Z) : list (N * DatasetScopeState * OperationalState) :=
  (λ x, (x, scope_state s (default (db_clock s) now) x.1 x.2)) <$> scopes.

Definition scope_operational_states (department : N) (now : option Z)
    (scope_ids : option (list N)) : M Db (list ScopeRow) :=
  let! scopes := gets (λ s, publication_scope_queryset s department) in
  scope_operational_states_for_scopes
    (match scope_ids with
     | Some ids => filter (λ x, mem_N x.1 ids = true) scopes
     | None => scopes
     end) now.

(** ** Summaries *)

Record DatasetSummary := mkDatasetSummary {
  su_distributed_version : option Z;
  su_state : OperationalState;
  su_state_label : string;
  su_current_update_label : option string;
  su_scope_count : Z;
  su_published_scope_count : Z
}.

Definition state_priority (st : OperationalState) : Z :=
  match st with
  | BUILDING_STATE => 6 | UPDATE_QUEUED => 5 | QUEUED => 5 | FAILED_STATE => 4
  | NEEDS_REBUILD => 3 | READY_TO_PUBLISH => 2 | CURRENT => 1 | NOT_PUBLISHED => 0
  end.

Definition empty_summary : DatasetSummary :=
  mkDatasetSummary None NOT_PUBLISHED (STATE_LABELS NOT_PUBLISHED) None 0 0.

(** One scope more in the summary of its dataset. *)
Definition add_scope (current : option Z) (state : OperationalState) (u : DatasetSummary) :
    DatasetSummary :=
  mkDatasetSummary
    (match current with
     | Some v =>
         match su_distributed_version u with
         | Some w => if w <? v then Some v else Some w
         | None => Some v
         end
     | None => su_distributed_version u
     end)
    (if state_priority (su_state u) <? state_priority state then state else su_state u)
    (su_state_label u) (su_current_update_label u) (su_scope_count u + 1)
    (if opt_true current then su_published_scope_count u + 1 else su_published_scope_count u).

Definition current_version (s : Db) (scope : DatasetScopeState) : option Z :=
  pub_version_number ∘ snd <$> linked_publication s (sc_current_published_publication scope).

Definition summarize (s : Db) (now : Z) (summaries : gmap string DatasetSummary)
    (row : N * DatasetScopeState) : gmap string DatasetSummary :=
  let c := sc_dataset_type_code row.2 in
  <[c := add_scope (current_version s row.2) (scope_state s now row.1 row.2)
           (default empty_summary (summaries !! c))]> summaries.

Definition finish_summary (u : DatasetSummary) : DatasetSummary :=
  let published := opt_true (su_distributed_version u) in
  let state := if published then su_state u else NOT_PUBLISHED in
  mkDatasetSummary (su_distributed_version u) state (STATE_LABELS state)
    (if published then CURRENT_UPDATE_LABELS state else None)
    (su_scope_count u) (su_published_scope_count u).

Definition dataset_publication_summaries (s : Db) (department : N)
    (dataset_type_codes : option (list string)) (now : option Z) : gmap string DatasetSummary :=
  let scopes := filter (λ x, match dataset_type_codes with
      | Some l => existsb (String.eqb (sc_dataset_type_code x.2)) l
      | None => true end = true) (publication_scope_queryset s department) in
  finish_summary <$> foldl (summarize s (default (db_clock s) now)) ∅ scopes.

(** [operational_summary]: how many rows there are, in all and in each state. *)
Definition operational_summary (rows : list ScopeRow) : Z * (OperationalState → Z) :=
  (Z.of_nat (length rows),
   λ st, Z.of_nat (length (filter (λ r, row_state r = st) rows))).
