(* ===== verification/Build.v ===== *)
(** The worker half of [apps/publications/services.py]: finalizing, failing and
    recovering build jobs, the build of a claimed job as a sequence of
    transactions, and the build lane of [apps/publications/work_cycle.py]. *)
From S2P Require Import Prelude Models Store Registry Authorization Fingerprint Artifacts.
From S2P Require Import Restore Queue.

(** ** [DatasetPublication.clean], [apps/publications/models.py] *)

Definition MAX_CHANGE_SUMMARY_FIELDS : Z := 20.
Definition MAX_CHANGE_SUMMARY_VALUE_LENGTH : Z := 512.

(** [validate_change_summary] on a dictionary of integers. *)
Definition validate_change_summary (summary : list (string * Z)) : M Db unit :=
  guard (Z.of_nat (length summary) <=? MAX_CHANGE_SUMMARY_FIELDS) EValidation
    "Change summary exceeds the configured field limit." ;;;
  guard (forallb (λ kv, (Z.of_nat (String.length kv.1) <=? 128)
           && (Z.of_nat (String.length (pretty kv.2)) <=? MAX_CHANGE_SUMMARY_VALUE_LENGTH))
           summary)
    EValidation "Change summary contains an invalid value.".

(** [publication_artifact_relative_path] of [apps/publications/paths.py] *)
Definition publication_artifact_relative_path (scope_type : string) (department_id : option N)
    (publication_id : N) : M Db string :=
  if String.eqb scope_type "SYSTEM" then
    match department_id with
    | Some _ => raise EValue "SYSTEM publication artifacts cannot have a department owner."
    | None => ret ("system/" +:+ pretty publication_id +:+ "/artifact.bin")
    end
  else
    match department_id, mem_str scope_type ["DEPARTMENT"; "STATION"] with
    | Some d, true => ret (pretty d +:+ "/" +:+ pretty publication_id +:+ "/artifact.bin")
    | _, _ => raise EValue "Tenant publication artifacts require a valid owner scope."
    end.

Definition is_document_v2 (p : DatasetPublication) : bool :=
  Z.eqb (pub_schema_version p) 2 &&
  mem_str (pub_dataset_type_code p)
    ["department_fire_plans"; "department_klgv_plans"; "department_files"; "station_files"].

Definition metadata_complete (a : ArtifactEnvelope) : bool :=
  str_true (artifact_path a) && opt_true (artifact_size a)
  && Nat.eqb (String.length (artifact_sha256 a)) 64
  && str_true (default "" (artifact_nonce a))
  && str_true (default "" (artifact_wrapped_cek a))
  && String.eqb (artifact_encryption_algorithm a) "AES-256-GCM"
  && String.eqb (artifact_wrapping_algorithm a) "AES-KW-RFC3394"
  && str_true (artifact_kek_version a)
  && str_true (default "" (artifact_signature a))
  && String.eqb (artifact_signature_algorithm a) "Ed25519"
  && str_true (artifact_signing_key_version a).

Definition is_deliverable_status (st : PubStatus) : bool :=
  match st with READY_FOR_REVIEW | PUBLISHED => true | _ => false end.

Section clean.
Context `{DocumentGenerations}.

Definition publication_clean (pid : N) (p : DatasetPublication) : M Db unit :=
  let! definition := try_except
    (validate_dataset_scope (pub_dataset_type_code p) (Some (pub_scope_type p))
       (pub_department p) (pub_station p))
    (λ e, match exn_kind e with
          | EDatasetRegistry => Some (raise EValidation (exn_message e)) | _ => None end) in
  let! station_ok := station_in_department (pub_station p) (pub_department p) in
  guard station_ok EValidation "Station must belong to the publication department." ;;;
  guard (Z.eqb (pub_schema_version p) (dt_current_schema_version definition)
         && existsb (Z.eqb (pub_schema_version p)) (dt_supported_schema_versions definition))
    EValidation "Schema version is not supported for this dataset." ;;;
  validate_change_summary (pub_change_summary p) ;;;
  let! scope := get_obj db_scopes (pub_scope_state p) in
  guard (String.eqb (sc_scope_type scope) (pub_scope_type p)
         && bool_decide (sc_department scope = pub_department p)
         && bool_decide (sc_station scope = pub_station p)
         && String.eqb (sc_dataset_type_code scope) (pub_dataset_type_code p))
    EValidation "Scope state must match the publication scope." ;;;
  let path := artifact_path (pub_artifact p) in
  (if str_true path then
     let! canonical := publication_artifact_relative_path (pub_scope_type p)
                         (pub_department p) pid in
     guard (String.eqb path canonical) EValidation
       "Artifact path must be a generated publication path."
   else ret tt) ;;;
  let ready := bool_decide (pub_artifact_status p = ARTIFACT_READY) in
  let complete := metadata_complete (pub_artifact p) || is_document_v2 p in
  guard (negb ready || complete) EValidation
    "Ready artifacts require complete cryptographic metadata." ;;;
  guard (negb (is_deliverable_status (pub_status p)) || (ready && complete)) EValidation
    "Review-ready and published publications require a ready artifact." ;;;
  if is_document_v2 p && is_deliverable_status (pub_status p) then
    let! invalid := gets (λ s, validate_ready_document_generation s pid p false) in
    match invalid with
    | Some error => raise EValidation error
    | None => ret tt
    end
  else ret tt.
End clean.

(** [trigger_type.lower()] *)
Definition trigger_lower (t : TriggerType) : string :=
  match t with
  | USER_REQUEST => "user_request"
  | BULK_REQUEST => "bulk_request"
  | DATA_CHANGE => "data_change"
  end.

Section build.
Context `{Settings} `{Hash} `{DocumentGenerations} `{ArtifactStore}.

(** ** Ending a job *)

(** [_queue_follow_up_if_stale] *)
Definition _queue_follow_up_if_stale (job : PublicationJob) : M Db unit :=
  let! ' (_, scope) :=
    _locked_scope (job_department job) (job_station job) (job_dataset_type_code job) in
  let! dirty := _scope_is_dirty scope None in
  when dirty
    (on_commit (OcEnqueue (job_department job) (job_station job)
                  (job_dataset_type_code job) (sc_dirty_since scope))).

(** The publication of a failing job. *)
Definition fail_publication (pid : N) (error : string) : M Db unit :=
  let! publication := find_obj db_publications pid in
  match publication with
  | None => ret tt
  | Some p =>
      _schedule_artifact_removal (artifact_path (pub_artifact p)) ;;;
      when (bool_decide (pub_status p = BUILDING)) (
        save db_publications pid (λ p,
          p <| pub_status := PUB_FAILED |> <| pub_artifact_status := ARTIFACT_FAILED |>
            <| pub_build_error := error |>) ;;;
        release_terminal_document_artifact_references pid
          (p <| pub_status := PUB_FAILED |>) ;;; ret tt)
  end.

Definition fail_publication_job (jid : N) (error_message error_category : string) :
    M Db N :=
  atomic (
    let! preview := get_obj db_jobs jid in
    _locked_scope (job_department preview) (job_station preview)
      (job_dataset_type_code preview) ;;;
    let! job := get_obj db_jobs jid in
    if negb (bool_decide (job_status job = JOB_RUNNING)) then ret jid else
    let! now := timezone_now in
    save db_jobs jid (λ j,
      j <| job_status := JOB_FAILED |> <| job_completed_at := Some now |>
        <| job_error_message := str_take 2000 error_message |>
        <| job_error_category := str_take 32 error_category |>) ;;;
    match job_build_publication job with
    | Some pid => fail_publication pid (str_take 2000 error_message)
    | None => ret tt
    end ;;;
    record_event "publication.build_failed" None (job_department job) (job_station job)
      "publication_job" (Some jid)
      [("dataset_type_code", JStr (job_dataset_type_code job))] ;;;
    _queue_follow_up_if_stale job ;;;
    ret jid).

(** The two early exits of [finalize_publication_job] that retire the attempt. *)
Definition obsolete_attempt (now : Z) (jid : N) (pid : N) (publication : DatasetPublication)
    (artifact : option ArtifactEnvelope) (store : DatasetPublication → DatasetPublication) :
    M Db unit :=
  _schedule_artifact_removal (default "" (artifact_path <$> artifact)) ;;;
  save db_publications pid (λ p,
    store (p <| pub_status := PUB_OBSOLETE |> <| pub_source_snapshot := None |>)) ;;;
  release_terminal_document_artifact_references pid
    (publication <| pub_status := PUB_OBSOLETE |>) ;;;
  save db_jobs jid (λ j,
    j <| job_status := JOB_OBSOLETE |> <| job_completed_at := Some now |>).

Definition obsolete_event (jid : N) (job : PublicationJob) (reason : string)
    (extra : list (string * json)) : M Db unit :=
  record_event "publication.job_obsolete" None (job_department job) (job_station job)
    "publication_job" (Some jid)
    ([("dataset_type_code", JStr (job_dataset_type_code job))] ++ extra ++
     [("reason", JStr reason)]).

(** The current publication gives way: its grants are revoked and its status
    is SUPERSEDED. *)
Definition supersede_current (previous : option (N * DatasetPublication)) : M Db unit :=
  match previous with
  | Some (prev, row) =>
      revoke_publication_dataset_key_grants prev row ;;;
      save db_publications prev (λ p, p <| pub_status := SUPERSEDED |>)
  | None => ret tt
  end.

(** The publishing branch of [finalize_publication_job]; [publication] is the
    object with the build's results assigned. *)
Definition publish_attempt (now : Z) (jid : N) (job : PublicationJob) (scope_id : N)
    (scope : DatasetScopeState) (pid : N) (publication : DatasetPublication)
    (previous : option (N * DatasetPublication)) (fingerprint : string) : M Db unit :=
  supersede_current previous ;;;
  let publication :=
    publication <| pub_status := PUBLISHED |> <| pub_published_at := Some now |>
                <| pub_supersedes := fst <$> previous |> in
  publication_clean pid publication ;;;
  save db_publications pid (λ p,
    p <| pub_build_summary := pub_build_summary publication |>
      <| pub_source_fingerprint := pub_source_fingerprint publication |>
      <| pub_change_summary := pub_change_summary publication |>
      <| pub_artifact_status := ARTIFACT_READY |> <| pub_artifact_ready := true |>
      <| pub_artifact := pub_artifact publication |> <| pub_status := PUBLISHED |>
      <| pub_published_at := Some now |> <| pub_supersedes := fst <$> previous |>) ;;;
  let scope :=
    match previous with
    | Some (_, prev) =>
        if is_file_dataset (pub_dataset_type_code publication)
           && str_true (pub_source_fingerprint prev)
           && String.eqb (sc_current_source_fingerprint scope) (pub_source_fingerprint prev)
           && String.eqb (publication_source_fingerprint prev) fingerprint
        then scope <| sc_current_source_fingerprint := fingerprint |> else scope
    | None => scope
    end in
  let scope := scope <| sc_latest_built_publication := Some pid |>
                     <| sc_current_published_publication := Some pid |> in
  let! source_changed_during_build := _scope_is_dirty scope None in
  let scope := scope <| sc_dirty_since :=
    if source_changed_during_build then opt_or (sc_dirty_since scope) (Some now)
    else None |> in
  save db_scopes scope_id (λ r,
    r <| sc_latest_built_publication := Some pid |>
      <| sc_current_published_publication := Some pid |>
      <| sc_current_source_fingerprint := sc_current_source_fingerprint scope |>
      <| sc_dirty_since := sc_dirty_since scope |> <| sc_updated_at := now |>) ;;;
  save db_jobs jid (λ j,
    j <| job_status := JOB_SUCCEEDED |> <| job_completed_at := Some now |>
      <| job_heartbeat_at := Some now |>) ;;;
  record_event "publication.published" None (job_department job) (job_station job)
    "dataset_publication" (Some pid)
    [("dataset_type_code", JStr (job_dataset_type_code job));
     ("version_number", JInt (pub_version_number publication));
     ("origin", JStr (trigger_lower (job_trigger_type job)));
     ("source_revision", JInt (pub_source_revision publication))] ;;;
  when source_changed_during_build
    (on_commit (OcEnqueue (job_department job) (job_station job)
                  (job_dataset_type_code job) (sc_dirty_since scope))).

(** [artifact] is [None] for the empty dictionary of a document generation. *)
Definition finalize_publication_job (jid : N) (summary : json)
    (artifact : option ArtifactEnvelope) (source_fingerprint_value : string) : M Db N :=
  atomic (
    let! preview := get_obj db_jobs jid in
    let! ' (scope_id, scope) :=
      _locked_scope (job_department preview) (job_station preview)
        (job_dataset_type_code preview) in
    let! job := get_obj db_jobs jid in
    let drop := _schedule_artifact_removal (default "" (artifact_path <$> artifact)) in
    if negb (bool_decide (job_status job = JOB_RUNNING)) then drop ;;; ret jid else
    match job_build_publication job with
    | None =>
        fail_publication_job jid "Claim did not allocate a publication." "worker"
    | Some pid =>
        let! now := timezone_now in
        let! publication := get_obj db_publications pid in
        if negb (bool_decide (pub_status publication = BUILDING)) then drop ;;; ret jid else
        let fingerprint :=
          if is_file_dataset (pub_dataset_type_code publication)
          then publication_source_fingerprint publication
          else str_or source_fingerprint_value (pub_source_fingerprint publication) in
        let! definition := get_dataset_definition (job_dataset_type_code job) in
        validate_built_summary definition summary ;;;
        let! latest := publication_of (sc_latest_built_publication scope) in
        let previous_summary :=
          match latest with Some (_, p) => pub_build_summary p | None => JObj [] end in
        let! change_summary := build_change_summary definition previous_summary summary in
        let publication :=
          publication <| pub_build_summary := summary |>
                      <| pub_source_fingerprint := fingerprint |>
                      <| pub_change_summary := change_summary |>
                      <| pub_artifact ::= λ a, default a artifact |>
                      <| pub_artifact_status := ARTIFACT_READY |>
                      <| pub_artifact_ready := true |> in
        let! previous := publication_of (sc_current_published_publication scope) in
        if is_file_dataset (pub_dataset_type_code publication)
           && negb (Z.eqb (sc_source_revision scope) (pub_source_revision publication))
        then
          obsolete_attempt now jid pid publication artifact (λ p, p) ;;;
          obsolete_event jid job "source_revision_changed" [] ;;;
          enqueue_publication_job (job_department job) (job_station job)
            (job_dataset_type_code job) (job_requested_by job) (job_trigger_type job) None
            (job_allow_clean_rebuild job) None ;;;
          ret jid
        else if match previous with
                | Some (_, prev) =>
                    str_true (pub_source_fingerprint prev)
                    && String.eqb (publication_source_fingerprint prev) fingerprint
                    && negb (job_allow_clean_rebuild job)
                | None => false
                end
        then
          obsolete_attempt now jid pid publication artifact
            (λ p, p <| pub_source_fingerprint := fingerprint |>) ;;;
          save db_scopes scope_id (λ r,
            r <| sc_dirty_since := None |> <| sc_updated_at := now |>) ;;;
          obsolete_event jid job "source_matches_current_publication"
            [("source_revision", JInt (job_source_revision job))] ;;;
          ret jid
        else
          publish_attempt now jid job scope_id scope pid publication previous fingerprint ;;;
          ret jid
    end).

(** ** Recovering jobs whose worker is gone *)

Definition is_stale_job (cutoff : Z) (j : PublicationJob) : bool :=
  bool_decide (job_status j = JOB_RUNNING)
  && match job_heartbeat_at j with Some t => t <? cutoff | None => false end.

(** One iteration of [recover_stale_jobs]. *)
Definition recover_job (cutoff max_attempts recovered : Z) (jid : N) : M Db Z :=
  let! preview := find_obj db_jobs jid in
  match preview with
  | None => ret recovered
  | Some preview =>
      _locked_scope (job_department preview) (job_station preview)
        (job_dataset_type_code preview) ;;;
      let! found := find_obj db_jobs jid in
      match found with
      | None => ret recovered
      | Some job =>
          if negb (is_stale_job cutoff job) then ret recovered else
          (match job_build_publication job with
           | Some pid =>
               let! publication := find_obj db_publications pid in
               match publication with
               | Some p =>
                   when (bool_decide (pub_status p = BUILDING)) (
                     save db_publications pid (λ p,
                       p <| pub_status := PUB_FAILED |>
                         <| pub_build_error := "Worker heartbeat timed out." |>) ;;;
                     release_terminal_document_artifact_references pid
                       (p <| pub_status := PUB_FAILED |>) ;;; ret tt)
               | None => ret tt
               end
           | None => ret tt
           end) ;;;
          let! now := timezone_now in
          if max_attempts <=? job_attempt_count job then
            save db_jobs jid (λ j,
              j <| job_status := JOB_FAILED |> <| job_completed_at := Some now |>
                <| job_error_category := "retry_exhausted" |>
                <| job_error_message :=
                     "Publication build exceeded the maximum retry attempts." |>) ;;;
            _queue_follow_up_if_stale job ;;;
            ret (recovered + 1)
          else
            save db_jobs jid (λ j,
              j <| job_status := JOB_PENDING |> <| job_started_at := None |>
                <| job_heartbeat_at := None |> <| job_build_publication := None |>
                <| job_error_category := "retryable_timeout" |>
                <| job_error_message :=
                     "Worker heartbeat timed out; the build will be retried." |>) ;;;
            ret (recovered + 1)
      end
  end.

Definition recover_stale_jobs (timeout max_attempts : Z) : M Db Z :=
  atomic (
    guard (0 <? timeout) EPublication "Job recovery timeout must be positive." ;;;
    guard (1 <=? max_attempts) EPublication "Maximum job attempts must be positive." ;;;
    let! now := timezone_now in
    let cutoff := now - timeout in
    let! job_ids := select_ordered db_jobs (λ _ j, is_stale_job cutoff j)
      (λ r, [if opt_true (job_department r.2) then 0 else 1;
             Z.of_N (default 0%N (job_department r.2));
             Z.of_N (job_scope_state r.2); Z.of_N r.1]) in
    fold_m (recover_job cutoff max_attempts) 0 job_ids.*1).
End build.

(** ** Queries *)

Section queries.
Context `{DocumentGenerations}.

Lemma readonly_validate_change_summary l : readonly (validate_change_summary l).
Proof. unfold validate_change_summary. preserve. Qed.

Lemma readonly_publication_artifact_relative_path t d p : readonly (publication_artifact_relative_path t d p).
Proof. unfold publication_artifact_relative_path. preserve. Qed.

End queries.

#[export] Hint Resolve readonly_validate_change_summary
  readonly_publication_artifact_relative_path : preserves.

Lemma readonly_publication_clean `{DocumentGenerations} pid p :
  readonly (publication_clean pid p).
Proof. unfold publication_clean. preserve. Qed.

#[export] Hint Resolve readonly_publication_clean : preserves.
