(* ===== verification/Worker.v ===== *)
(** The worker: callbacks that run after a commit, the build of a claimed job
    as the sequence of transactions [build_claimed_job] is, and the build lane of
    [apps/publications/work_cycle.py].  Between two transactions of a build other
    sessions act: they are the parameter [interleave]. *)
From S2P Require Import Prelude Models Store Registry Authorization Fingerprint Artifacts.
From S2P Require Import Restore Queue Build.

(** What the build calls in code that is not modelled here: the summary and
    artifact builders of [builders.py], the encryption of [artifacts.py] and the
    document generation of [document_v2.py].  The document generation may write
    the document tables; it reports the artifacts it created, also when it fails. *)
Class Builders := {
  build_summary : Db → PublicationJob → DatasetPublication → outcome json;
  build_encrypted_artifact : Db → N → PublicationJob → DatasetPublication →
    outcome ArtifactEnvelope;
  build_document_v2 : N → Db → outcome unit * list (N * string) * Db
}.

Section worker.
Context `{Settings} `{Hash} `{DocumentGenerations} `{ArtifactStore}.

(** ** Commit *)

Definition run_callback (c : OnCommit) : M Db unit :=
  match c with
  | OcWakeBuildWorker => emit EffWakeBuildWorker
  | OcRemoveArtifact path => remove_after_commit path
  | OcRemoveDocumentArtifact cleanup => _process_cleanup_record cleanup
  | OcRemoveContent key => modify (λ s, s <| db_accepted ::= delete key |>)
  | OcEnqueue department station dataset_type_code debounce_started_at =>
      enqueue_publication_job department station dataset_type_code None DATA_CHANGE
        debounce_started_at false None ;;; ret tt
  end.

(** The outermost [transaction.atomic()]: roll back on an exception; otherwise
    commit and run the registered callbacks in order.  A callback that raises
    stops the others and the exception reaches the caller; the transaction
    stays committed. *)
Definition commit {A} (m : M Db A) : M Db A := λ s,
  match m s with
  | (Val a, s') =>
      bind (for_each (db_on_commit s') run_callback) (λ _, ret a)
        (s' <| db_on_commit := [] |>)
  | (Exc e, _) => (Exc e, s)
  end.

(** ** Claiming: each candidate in a transaction of its own *)

Fixpoint claim_first (candidates : list (N * PublicationJob)) : M Db (option N) :=
  match candidates with
  | [] => ret None
  | c :: cs =>
      let! job := commit (_claim_job c) in
      match job with
      | Some jid => ret (Some jid)
      | None => claim_first cs
      end
  end.

Definition claim_next_job : M Db (option N) :=
  let! candidates := gets claim_candidates in claim_first candidates.

(** ** Building a claimed job *)

Context `{Builders} (interleave : nat → M Db unit).

Definition _build_is_still_running (jid : N) : M Db bool :=
  gets (λ s,
    match db_jobs s !! jid with
    | Some j =>
        bool_decide (job_status j = JOB_RUNNING) &&
        match job_build_publication j ≫= λ pid, db_publications s !! pid with
        | Some p => bool_decide (pub_status p = BUILDING)
        | None => false
        end
    | None => false
    end).

Definition of_outcome {A} (o : outcome A) : M Db A :=
  match o with Val a => ret a | Exc e => reraise e end.

(** [_compensate_artifact]; an empty dictionary has no path to remove. *)
Definition _compensate_artifact (artifact : option (option ArtifactEnvelope)) : M Db unit :=
  match artifact with
  | Some (Some a) => remove_after_commit (artifact_path a)
  | _ => ret tt
  end.

(** The [except] clauses of [build_claimed_job]. *)
Definition build_failed (jid : N) (artifact : option (option ArtifactEnvelope)) (e : Exn) :
    option (M Db N) :=
  let fail message category :=
    Some (_compensate_artifact artifact ;;;
          commit (fail_publication_job jid message category)) in
  match exn_kind e with
  | EDatasetRegistry | EPublicationBuild | EPublication | EArtifact =>
      fail (exn_message e) "build"
  | EValidation => fail "Publication metadata is invalid." "validation"
  | EDatabaseGuard => fail "Publication could not be finalized." "finalization"
  | _ => None
  end.

(** Up to the plain artifact: the summary, the cancellation checkpoint and, for
    a dataset that is not a document collection, the encrypted artifact.
    [None] when the build was cancelled. *)
Definition build_inputs (jid : N) (job : PublicationJob) (pid : N) :
    M Db (option (json * option ArtifactEnvelope * DatasetPublication)) :=
  get_dataset_definition (job_dataset_type_code job) ;;;
  _validate_scope (job_department job) (job_station job) (job_dataset_type_code job) ;;;
  let! publication := get_obj db_publications pid in
  (if opt_true (pub_source_snapshot publication) then ret tt
   else raise EPublicationBuild "Frozen publication source is unavailable.") ;;;
  let! s := gets id in
  let! summary := of_outcome (build_summary s job publication) in
  interleave 0 ;;;
  let! running := _build_is_still_running jid in
  if negb running then ret None else
  if is_document_v2 publication then ret (Some (summary, None, publication))
  else
    let! s := gets id in
    let! artifact := of_outcome (build_encrypted_artifact s pid job publication) in
    ret (Some (summary, Some artifact, publication)).

(** The generation transaction of a document collection: [false] when the
    attempt is not BUILDING any more.  [ECredential] stands for
    [DocumentV2Error], [KeyGrantError] and [InvalidUnwrap].  The result comes
    with the artifacts the generation has created, also when it fails. *)
Definition build_generation (pid : N) : M Db (outcome bool * list (N * string)) := λ s,
  match db_publications s !! pid with
  | None => (Val (Exc (mkExn EDoesNotExist "matching query does not exist."), []), s)
  | Some p =>
      if negb (bool_decide (pub_status p = BUILDING)) then (Val (Val false, []), s) else
      match build_document_v2 pid s with
      | (Val _, created, s') => (Val (Val true, created), s')
      | (Exc e, created, _) =>
          match exn_kind e with
          | ECredential =>
              (Val (Exc (mkExn EPublicationBuild "Document encryption or signing failed."),
                    created), s)
          | _ => (Val (Exc e, created), s)
          end
      end
  end.

(** The cancelled generation gives its artifacts back. *)
Definition release_if_terminal (pid : N) : M Db unit :=
  let! p := get_obj db_publications pid in
  when (is_terminal_status (pub_status p))
    (commit (release_terminal_document_artifact_references pid p) ;;; ret tt).

(** The [finally] clause: ciphertext of a generation that was rolled back. *)
Definition discard_created (created : list (N * string)) : M Db unit :=
  for_each created (λ '(artifact_id, path),
    commit (
      let! row := find_obj db_document_artifacts artifact_id in
      if opt_true row then ret tt
      else _schedule_document_artifact_removal artifact_id path)).

(** After the artifact and the generation: the checkpoints and the final
    transaction. *)
Definition build_outputs (jid : N) (pid : N) (summary : json)
    (artifact : option ArtifactEnvelope) (publication : DatasetPublication)
    (generated : outcome bool) : M Db N :=
  let! proceed := of_outcome generated in
  if negb proceed then ret jid else
  when (is_document_v2 publication) (
    interleave 1 ;;;
    let! running := _build_is_still_running jid in
    when (negb running) (release_if_terminal pid)) ;;;
  interleave 2 ;;;
  let! running := _build_is_still_running jid in
  if negb running then _compensate_artifact (Some artifact) ;;; ret jid
  else
    interleave 3 ;;;
    commit (finalize_publication_job jid summary artifact
              (pub_source_fingerprint publication)).

Definition build_claimed_job (jid : N) : M Db N :=
  let! job := get_obj db_jobs jid in
  if negb (bool_decide (job_status job = JOB_RUNNING)) then ret jid else
  match job_build_publication job with
  | None => commit (fail_publication_job jid "Claim did not allocate a publication." "worker")
  | Some pid =>
      let! inputs :=
        try_except (let! i := build_inputs jid job pid in ret (inr i))
          (λ e, match build_failed jid None e with
                | Some m => Some (let! r := m in ret (inl r)) | None => None end) in
      match inputs with
      | inl r => ret r
      | inr None => ret jid
      | inr (Some (summary, artifact, publication)) =>
          let! ' (generated, created) :=
            if is_document_v2 publication then build_generation pid
            else ret (Val true, []) in
          try_finally
            (try_except (build_outputs jid pid summary artifact publication generated)
               (build_failed jid (Some artifact)))
            (discard_created created)
      end
  end.

Definition process_next_job : M Db (option N) :=
  let! claimed := claim_next_job in
  match claimed with
  | None => ret None
  | Some jid => let! r := build_claimed_job jid in ret (Some r)
  end.

(** [for _ in range(limit)]: the number of jobs processed. *)
Fixpoint build_loop (limit : nat) (builds : Z) : M Db Z :=
  match limit with
  | O => ret builds
  | S limit' =>
      let! job := process_next_job in
      match job with
      | None => ret builds
      | Some _ => build_loop limit' (builds + 1)
      end
  end.

(** [initialize_missing_libraries] of [apps/file_library/publication.py]: the owners in
    service that have no scope of file libraries. *)
Definition has_file_scope (s : Db) (code : string) (owner : DatasetScopeState → option N)
    (k : N) : bool :=
  exists_row (db_scopes s) (λ _ sc,
    String.eqb (sc_dataset_type_code sc) code && bool_decide (owner sc = Some k)).

Definition initialize_owner (department station : option N) : M Db unit :=
  let! ' (_, l) := commit (get_or_create_library department station) in
  commit (initialize_library l) ;;; ret tt.

Definition initialize_missing_libraries : M Db unit :=
  let! departments := gets (λ s, order_by by_pk (rows (db_departments s) (λ k d,
    dept_active d && negb (has_file_scope s "department_files" sc_department k)))) in
  for_each departments (λ r, initialize_owner (Some r.1) None) ;;;
  let! stations := gets (λ s, order_by by_pk (rows (db_stations s) (λ k st,
    st_active st && match db_departments s !! st_department st with
                    | Some d => dept_active d | None => false end
    && negb (has_file_scope s "station_files" sc_station k)))) in
  for_each stations (λ r, initialize_owner None (Some r.1)).

(** [process_build_cycle]: the builds and the recovered jobs. *)
Definition process_build_cycle (batch_size : option Z) : M Db (Z * Z) :=
  initialize_missing_libraries ;;;
  let limit := match batch_size with
               | Some b => if b =? 0 then PUBLICATION_WORKER_BATCH_SIZE else b
               | None => PUBLICATION_WORKER_BATCH_SIZE end in
  let! recovered := commit (recover_stale_jobs
    (PUBLICATION_JOB_HEARTBEAT_TIMEOUT_SECONDS * 1000000) PUBLICATION_JOB_MAX_ATTEMPTS) in
  let! builds := build_loop (Z.to_nat limit) 0 in
  ret (builds, recovered).
End worker.
