(* ===== verification/FileLibrary.v ===== *)
(** File libraries of [file_library/]: folders and PDFs of a department or a station
    ([services.py]), their publication ([publication.py], [publication_reconciliation.py]) and
    the clean-up of orphans ([reconciliation.py]), with the intake of PDFs of
    [reference_data/] ([pdf_validation.py], [pdf_sandbox.py], [storage.py]). *)
From Stdlib Require Import Ascii.
From S2P Require Import Prelude Text Models Registry Store Authorization Fingerprint.
From S2P Require Import Artifacts Restore Queue Build Worker ApplicationSecrets JsonText ReportDocuments.

(** The limits of the settings. *)
Class FileLibrarySettings := {
  FILE_LIBRARY_MAX_FILE_BYTES : Z;
  FILE_LIBRARY_MAX_QUOTA_BYTES : Z;
  FILE_LIBRARY_DEPARTMENT_QUOTA_BYTES : Z;
  FILE_LIBRARY_STATION_QUOTA_BYTES : Z;
  MAX_PDF_INPUT_BYTES : Z;
  MAX_PDF_OUTPUT_BYTES : Z;
  MAX_PDF_PAGES : Z
}.

(** ** The libraries and the operating system

    [pikepdf]'s view of a document: an object, with references to the indirect ones. *)
Inductive PdfObject :=
| PdfAtom
| PdfArray (l : list PdfObject)
| PdfDict (l : list (string * PdfObject))
| PdfRef (n : N).

Record PdfDocument := mkPdfDocument {
  pd_encrypted : bool;
  pd_pages : Z;
  pd_syntax_errors : bool;
  pd_root : PdfObject;
  pd_objects : gmap N PdfObject
}.

(** [pikepdf.open]: a document, a [PasswordError] or another exception. *)
Inductive PdfOpened := PdfOpen (d : PdfDocument) | PdfLocked | PdfBroken.

(** Where a promotion fails, if it does: before the file was moved or after. *)
Inductive Promotion := PROMOTED | PROMOTE_FAILS | PROMOTE_FAILS_LATE.

(** [magic] ([None]: it raises), [pikepdf.open] with [attempt_recovery], the depth at which
    Python gives up a recursion, the sanitizer behind the broker (what it writes, if
    anything, and whether it answers [OK]) and the promotion of a file under a key. *)
Class PdfTools := {
  magic_mime : string → option string;
  pikepdf_open : string → bool → PdfOpened;
  recursion_limit : nat;
  sanitizer_output : string → option string;
  sanitizer_ok : string → bool;
  promotion : string → Promotion
}.

(** ** Files *)

(** The files are outside the database: a transaction that fails leaves them as they are. *)
Definition with_files_of (s' s : Db) : Db :=
  s <| db_accepted := db_accepted s' |> <| db_quarantine := db_quarantine s' |>
    <| db_sanitized := db_sanitized s' |>.

(** An upload: its name, the size it declares and its chunks. *)
Record Upload := mkUpload {
  up_name : string;
  up_size : Z;
  up_chunks : list string
}.

Definition remove_quarantine (job : N) : M Db unit := modify (λ s, s <| db_quarantine ::= delete job |>).
Definition remove_sanitized (job : N) : M Db unit := modify (λ s, s <| db_sanitized ::= delete job |>).
Definition remove_accepted (key : string) : M Db unit := modify (λ s, s <| db_accepted ::= delete key |>).

(** The loop of [_write_limited] over the chunks; [size] is what was counted before. *)
Fixpoint _write_limited (job : N) (limit size : Z) (chunks : list string) : M Db unit :=
  match chunks with
  | [] => ret tt
  | chunk :: chunks' =>
      let size := size + Z.of_nat (String.length chunk) in
      if limit <? size then
        remove_quarantine job ;;;
        raise EStorage "PDF input exceeds the configured size limit."
      else
        modify (λ s, s <| db_quarantine ::= alter (λ raw, raw +:+ chunk) job |>) ;;;
        _write_limited job limit size chunks'
  end.

(** [path.read_bytes()] *)
Definition read_file {K} `{Countable K} (files : Db → gmap K string) (k : K) : M Db string :=
  let! file := gets (λ s, files s !! k) in
  get_or_raise file EOSError "No such file or directory".

Section pdf.
Context `{Hash, FileLibrarySettings, PdfTools}.

(** [write_quarantine]: the job whose directory has the file. *)
Definition write_quarantine (upload : Upload) (limit : Z) : M Db N :=
  let! job := gets (λ s, fresh_id (db_quarantine s)) in
  modify (λ s, s <| db_quarantine ::= <[job := ""]> |>) ;;;
  _write_limited job (Z.min limit MAX_PDF_INPUT_BYTES) 0 (up_chunks upload) ;;;
  ret job.

(** [sanitize] *)
Definition sanitize (job : N) (raw : string) : M Db unit :=
  (match sanitizer_output raw with
   | Some out => modify (λ s, s <| db_sanitized ::= <[job := out]> |>)
   | None => ret tt
   end) ;;;
  if negb (sanitizer_ok raw) then raise EPdfSanitizer "PDF sanitizer rejected the document." else
  let! file := gets (λ s, db_sanitized s !! job) in
  match file with
  | Some _ => ret tt
  | None => raise EPdfSanitizer "PDF sanitizer did not produce an output file."
  end.

(** A relative path to a PDF; [Path] leaves out empty parts and single dots. *)
Definition valid_key (key : string) : bool :=
  negb (String.prefix "/" key) && str_endswith ".pdf" (str_lower key)
  && forallb (λ part, negb (String.eqb part "..")) (str_split "/" key).

(** [promote_to_accepted]: the file moves, and keeps its time. *)
Definition promote_to_accepted (job : N) (key : string) : M Db unit :=
  if negb (valid_key key) then raise EStorage "Invalid generated document key." else
  let! taken := gets (λ s, opt_true (db_accepted s !! key)) in
  if taken : bool then raise EStorage "Generated document key already exists." else
  match promotion key with
  | PROMOTE_FAILS => raise EOSError ""
  | result =>
      let! raw := read_file db_sanitized job in
      let! now := timezone_now in
      modify (λ s, s <| db_accepted ::= <[key := (raw, now)]> |> <| db_sanitized ::= delete job |>) ;;;
      match result with
      | PROMOTED => ret tt
      | _ => raise EStorage "Accepted document reader group is unavailable."
      end
  end.

(** ** Validation of a PDF *)

Definition PROHIBITED_NAMES : list string :=
  ["/JS"; "/JavaScript"; "/Launch"; "/SubmitForm"; "/ImportData"; "/EmbeddedFiles"; "/AF";
   "/Collection"; "/RichMedia"; "/Movie"; "/Sound"; "/XFA"; "/GoToR"; "/URI"].

(** [None]: the recursion is given up, with the [RecursionError] of Python. *)
Fixpoint _contains_prohibited_content (objects : gmap N PdfObject) (fuel : nat) (seen : gset N)
    (value : PdfObject) : option (bool * gset N) :=
  match fuel with
  | O => None
  | S fuel' =>
      let any := fix any (seen : gset N) (l : list PdfObject) : option (bool * gset N) :=
        match l with
        | [] => Some (false, seen)
        | x :: l' =>
            match _contains_prohibited_content objects fuel' seen x with
            | Some (false, seen') => any seen' l'
            | r => r
            end
        end in
      match value with
      | PdfAtom => Some (false, seen)
      | PdfArray l => any seen l
      | PdfDict l =>
          (fix items (seen : gset N) (l : list (string * PdfObject)) : option (bool * gset N) :=
             match l with
             | [] => Some (false, seen)
             | (k, x) :: l' =>
                 if mem_str k PROHIBITED_NAMES then Some (true, seen) else
                 match _contains_prohibited_content objects fuel' seen x with
                 | Some (false, seen') => items seen' l'
                 | r => r
                 end
             end) seen l
      | PdfRef n =>
          if bool_decide (n ∈ seen) then Some (false, seen) else
          match objects !! n with
          | Some x => _contains_prohibited_content objects fuel' ({[n]} ∪ seen) x
          | None => Some (false, {[n]} ∪ seen)
          end
      end
  end.

Definition pdf_error {A} (code : string) : M Db A := raise (EPdfValidation code) code.

Definition _validate_mime (raw : string) : M Db unit :=
  match magic_mime raw with
  | Some mime => if String.eqb mime "application/pdf" then ret tt else pdf_error "invalid_pdf_mime"
  | None => pdf_error "invalid_pdf_mime"
  end.

Definition _inspect_pdf (raw : string) (strict : bool) : M Db (Z * Z * string) :=
  match pikepdf_open raw (negb strict) with
  | PdfLocked => pdf_error "encrypted_pdf"
  | PdfBroken => pdf_error "malformed_pdf"
  | PdfOpen d =>
      if pd_encrypted d then pdf_error "encrypted_pdf" else
      if strict && ((pd_pages d =? 0) || pd_syntax_errors d) then pdf_error "malformed_pdf" else
      if MAX_PDF_PAGES <? pd_pages d then pdf_error "page_limit_exceeded" else
      match _contains_prohibited_content (pd_objects d) recursion_limit ∅ (pd_root d) with
      | Some (true, _) => pdf_error "prohibited_pdf_content"
      | None => pdf_error "malformed_pdf"
      | Some (false, _) => ret (Z.of_nat (String.length raw), pd_pages d, sha256_hex raw)
      end
  end.

(** [validate_pdf] on the bytes of the file: size, pages and digest. *)
Definition validate_pdf (raw : string) (original_filename : option string) (strict : bool) :
    M Db (Z * Z * string) :=
  let size := Z.of_nat (String.length raw) in
  if match original_filename with
     | Some f => negb (str_endswith ".pdf" (str_casefold f)) | None => false end
  then pdf_error "unsupported_extension" else
  if (MAX_PDF_INPUT_BYTES <? size) && opt_true original_filename
  then pdf_error "input_too_large" else
  if (MAX_PDF_OUTPUT_BYTES <? size) && negb (opt_true original_filename)
  then pdf_error "output_too_large" else
  if negb (String.prefix "%PDF-" raw) then pdf_error "invalid_pdf_signature" else
  _validate_mime raw ;;;
  _inspect_pdf raw strict.
End pdf.

(** ** Access *)

Inductive Access := ACCESS_NORMAL | ACCESS_TEMPORARY.

#[export] Instance Access_eq : EqDecision Access.
Proof. solve_decision. Defined.

Definition MAX_FOLDER_DEPTH : nat := 5.
Definition TEMPORARY_ACCESS_DURATION : Z := 6 * 60 * 60 * 1000000.

Definition library_error {A} (message : string) : M Db A := raise ELibrary message.

Definition require_library (actor : N) (l : Library) : M Db unit :=
  require_scope actor (lib_department l) (lib_station l).

Definition require_library_access (actor : N) (l : Library) (permission : string) : M Db Access :=
  let! normal := try_except (require_library actor l ;;; ret true)
    (λ e, match exn_kind e with
          | EPermissionDenied =>
              if negb (mem_str permission ["read"; "delete"]) || negb (opt_true (lib_station l))
              then Some (reraise e) else Some (ret false)
          | _ => None
          end) in
  if normal : bool then ret ACCESS_NORMAL else
  let! access := active_temporary_access actor in
  match access with
  | Some (_, a) =>
      if bool_decide (lib_station l = Some (ta_station a)) then ret ACCESS_TEMPORARY
      else raise EPermissionDenied ""
  | None => raise EPermissionDenied ""
  end.

Section access.
Context `{Settings, Hash}.

Definition activate_temporary_access (actor station : N) : M Db N :=
  atomic (
    let! row := get_obj db_stations station in
    let! departments := gets (λ s, active_department_ids s actor) in
    guard (mem_N (st_department row) departments && st_active row) EPermissionDenied "" ;;;
    get_obj db_users actor ;;;
    let! previous := active_temporary_access actor in
    if match previous with Some (_, a) => N.eqb (ta_station a) station | None => false end
    then ret (default 0%N (fst <$> previous)) else
    (match previous with
     | Some (k, a) =>
         _revoke_access k a "switched" (Some actor) None "temporary_station_access" false
     | None => ret tt
     end) ;;;
    let! now := timezone_now in
    let expires := now + TEMPORARY_ACCESS_DURATION in
    let! access := create db_temporary_accesses
      (mkTemporaryStationAccess actor (st_department row) station now expires None "") in
    record_event (match previous with
                  | Some _ => "file_library.temporary_access_switched"
                  | None => "file_library.temporary_access_activated" end)
      (Some actor) (Some (st_department row)) (Some station) "temporary_station_access"
      (Some access)
      [("station_id", json_id station);
       ("previous_station_id", json_opt_id ((λ p, ta_station p.2) <$> previous));
       ("previous_access_id", json_opt_id (fst <$> previous));
       ("activated_at", JStr (isoformat now)); ("expires_at", JStr (isoformat expires))] ;;;
    let! ' (_, l) := get_or_create_library None (Some station) in
    initialize_library l ;;;
    ret access).

(** [get_library], and the libraries of everything the actor administers. *)
Definition get_library (actor : N) (department station : option N) : M Db N :=
  atomic (
    require_scope actor department station ;;;
    let! ' (k, l) := get_or_create_library department station in
    initialize_library l ;;;
    ret k).

Definition authorized_libraries (actor : N) : M Db (list N) :=
  let! admin := gets (λ s, is_system_admin s actor) in
  if admin : bool then ret [] else
  let! departments := gets (λ s, order_by by_pk
    (rows (db_departments s) (λ k _, mem_N k (active_department_ids s actor)))) in
  match departments with
  | _ :: _ => map_m (λ r : N * Department, get_library actor (Some r.1) None) departments
  | [] =>
      let! stations := gets (λ s, order_by by_pk
        (rows (db_stations s) (λ k _, mem_N k (active_station_ids s actor)))) in
      map_m (λ r : N * Station, get_library actor None (Some r.1)) stations
  end.

(** [locked_library]: the library and the access to it, checked before and after the lock. *)
Definition locked_library (actor library_id : N) (permission : string) : M Db (Library * Access) :=
  let! preview := get_obj db_libraries library_id in
  require_library_access actor preview permission ;;;
  lock_scope preview ;;;
  let! l := get_obj db_libraries library_id in
  let! access := require_library_access actor l permission in
  ret (l, access).
End access.

(** ** Names and places *)

(** Whether [any(ord(c) < 32 or c in "/\\" for c in value)]. *)
Fixpoint has_bad_char (s : string) : bool :=
  match s with
  | EmptyString => false
  | String c s' =>
      Nat.ltb (nat_of_ascii c) 32 || (c =? "/")%char || (c =? "\")%char || has_bad_char s'
  end.

Definition name_value (value : string) (pdf : bool) : M Db string :=
  let value := str_strip value in
  if negb (str_true value) || Nat.ltb 255 (String.length value) || mem_str value ["."; ".."]
     || has_bad_char value
  then library_error "Enter a name of 1-255 characters without path separators." else
  if pdf && negb (str_endswith ".pdf" (str_lower value))
  then library_error "Document names must end in .pdf."
  else ret value.

Definition scoped_entry (library_id entry_id : N) (folder : bool) : M Db Entry :=
  let! entry := find_obj db_entries entry_id in
  match entry with
  | Some e =>
      if negb (N.eqb (en_library e) library_id)
      then library_error "The selected item is unavailable in this library." else
      if folder && negb (en_is_folder e) then library_error "Select a folder." else ret e
  | None => library_error "The selected item is unavailable in this library."
  end.

Definition parent_entry (library_id : N) (parent_id : option N) : M Db (option N) :=
  match parent_id with
  | Some p => scoped_entry library_id p true ;;; ret (Some p)
  | None => ret None
  end.

(** [folder_ancestry]: at most [MAX_FOLDER_DEPTH] steps up, which is the bound of the loop. *)
Fixpoint ancestry (left : nat) (library_id : N) (seen : list N) (folder : option N) : M Db (list N) :=
  match folder with
  | None => ret seen
  | Some k =>
      let! found := find_obj db_entries k in
      match found with
      | Some e =>
          if negb (N.eqb (en_library e) library_id) || negb (en_is_folder e)
          then library_error "The selected folder is unavailable in this library." else
          if mem_N k seen
          then library_error "Folder cycles or excessive folder depth are not allowed." else
          match left with
          | O => library_error "Folder cycles or excessive folder depth are not allowed."
          | S left' => ancestry left' library_id (k :: seen) (en_parent e)
          end
      | None => library_error "The selected folder is unavailable in this library."
      end
  end.

Definition folder_ancestry (library_id : N) (folder : option N) : M Db (list N) :=
  ancestry MAX_FOLDER_DEPTH library_id [] folder.

(** The same place and the same name but for case, which [name__iexact] and the unique
    constraint on [Lower("name")] compare alike on characters below U+0100. *)
Definition same_name (library_id : N) (parent : option N) (name : string) (e : Entry) : bool :=
  N.eqb (en_library e) library_id && bool_decide (en_parent e = parent)
  && String.eqb (str_lower (en_name e)) (str_lower name).

(** The loop over [cursor]: how many folders are above; it stops after [left] of them. *)
Fixpoint parent_depth (left : nat) (entry : option N) (cursor : option N) : M Db nat :=
  match cursor with
  | None => ret O
  | Some c =>
      match left with
      | O => library_error "Folder cycles are not allowed."
      | S left' =>
          if bool_decide (entry = Some c) then library_error "Folder cycles are not allowed." else
          let! e := get_obj db_entries c in
          let! depth := parent_depth left' entry (en_parent e) in
          ret (S depth)
      end
  end.

(** [Entry.objects.filter(parent_id__in=frontier, ...)] *)
Definition children (P : Entry → bool) (m : gmap N Entry) (frontier : list N) : list N :=
  (rows m (λ _ e, match en_parent e with Some p => mem_N p frontier | None => false end && P e)).*1.

(** The loops over [frontier]: the levels below, the given one first.  Every level of a tree
    has a row of its own, so the size of the table is enough fuel; [None] is a loop without end. *)
Fixpoint levels (P : Entry → bool) (fuel : nat) (m : gmap N Entry) (frontier : list N) :
    option (list (list N)) :=
  match frontier, fuel with
  | [], _ => Some []
  | _, O => None
  | _, S fuel' => cons frontier <$> levels P fuel' m (children P m frontier)
  end.

Definition levels_below (P : Entry → bool) (k : N) : M Db (list (list N)) :=
  let! m := gets db_entries in
  match levels P (S (size m)) m [k] with
  | Some l => ret l
  | None => raise EDiverges "while frontier"
  end.

Definition validate_location (library_id : N) (name : string) (parent entry : option N) (folder : bool) :
    M Db unit :=
  let! taken := exists_where db_entries (λ k e,
    same_name library_id parent name e && negb (bool_decide (entry = Some k))) in
  if taken : bool then library_error "An item with this name already exists in the folder." else
  let! depth := parent_depth MAX_FOLDER_DEPTH entry parent in
  let! height :=
    match entry with
    | Some k => if folder then let! l := levels_below en_is_folder k in ret (length l) else ret O
    | None => ret (if folder then 1%nat else O)
    end in
  if Nat.ltb MAX_FOLDER_DEPTH (depth + height)
  then library_error "Folders may be nested at most five levels deep." else ret tt.

(** ** Changes *)

(** The constraints [file_entry_unique_name] and [file_entry_content_kind]. *)
Definition entry_constraints (k : option N) (e : Entry) : M Db unit :=
  guard (bool_decide (en_is_folder e = negb (opt_true (en_content e)))) EIntegrity
    "file_entry_content_kind" ;;;
  let! taken := exists_where db_entries (λ j e',
    same_name (en_library e) (en_parent e) (en_name e) e' && negb (bool_decide (k = Some j))) in
  guard (negb taken) EIntegrity "file_entry_unique_name".

Definition create_entry (e : Entry) : M Db N :=
  entry_constraints None e ;;; create db_entries e.

(** [entry.save()] *)
Definition save_entry (k : N) (e : Entry) : M Db unit :=
  entry_constraints (Some k) e ;;; save db_entries k (λ _, e).

Section mutations.
Context `{Settings, Hash}.

(** [changed]: [l] is the library object with its changes. *)
Definition changed (actor library_id : N) (l : Library) (target_type : string) (target : N)
    (operation : string) (metadata : list (string * json)) : M Db unit :=
  let l := l <| lib_source_revision ::= λ r, r + 1 |> in
  save db_libraries library_id (λ row, row <| lib_source_revision := lib_source_revision l |>
    <| lib_usage_bytes := lib_usage_bytes l |> <| lib_name := lib_name l |>) ;;;
  let! department := department_for l in
  record_event ("file_library." +:+ operation) (Some actor) (Some department) (lib_station l)
    target_type (Some target)
    (("library_id", json_id library_id) :: ("source_revision", JInt (lib_source_revision l))
     :: metadata) ;;;
  mark_dirty (Some department) (lib_station l) (library_code l) (Some actor) ;;;
  when (opt_true (lib_department l))
    (revoke_temporary_access actor "department_mutation" ;;; ret tt).

Definition rename_library_body (actor library_id : N) (name : string) : M Db unit :=
  let! ' (l, _) := locked_library actor library_id "manage" in
  let! name := name_value name false in
  if String.eqb (lib_name l) name then ret tt
  else changed actor library_id (l <| lib_name := name |>) "library" library_id "library_renamed" [].

Definition create_folder_body (actor library_id : N) (name : string) (parent_id : option N) : M Db N :=
  let! ' (l, _) := locked_library actor library_id "manage" in
  let! name := name_value name false in
  let! parent := parent_entry library_id parent_id in
  validate_location library_id name parent None true ;;;
  let! k := create_entry (mkEntry library_id parent name true None actor) in
  changed actor library_id l "library_entry" k "folder_created" [] ;;;
  ret k.

Definition edit_entry_body (actor library_id entry_id : N) (name : option string)
    (parent_id : option N) (move : bool) : M Db unit :=
  let! ' (l, _) := locked_library actor library_id "manage" in
  let! entry := scoped_entry library_id entry_id false in
  let! new_name := match name with
                   | Some n => name_value n (negb (en_is_folder entry))
                   | None => ret (en_name entry)
                   end in
  let! parent := if move then parent_entry library_id parent_id else ret (en_parent entry) in
  validate_location library_id new_name parent (Some entry_id) (en_is_folder entry) ;;;
  if String.eqb new_name (en_name entry) && bool_decide (parent = en_parent entry) then ret tt else
  save_entry entry_id (entry <| en_name := new_name |> <| en_parent := parent |>
    <| en_modified_by := actor |>) ;;;
  changed actor library_id l "library_entry" entry_id (if move then "moved" else "renamed")
    [("is_folder", JBool (en_is_folder entry)); ("parent_id", json_opt_id parent)].

(** [Entry.delete()]: the rows whose chain of parents reaches [root] go with it. *)
Fixpoint reaches (fuel : nat) (m : gmap N Entry) (root k : N) : bool :=
  N.eqb k root
  || match fuel, m !! k ≫= en_parent with
     | S fuel', Some p => reaches fuel' m root p
     | _, _ => false
     end.

Definition cascade (root : N) : M Db unit :=
  modify (λ s, s <| db_entries ::= λ m, filter (λ r, reaches (size m) m root r.1 = false) m |>).

(** The size of an item's content. *)
Definition entry_size (s : Db) (e : Entry) : Z :=
  match en_content e ≫= λ c, db_contents s !! c with Some c => co_size_bytes c | None => 0 end.

Definition sum_sizes (s : Db) (l : list (N * Entry)) : Z := foldr (λ r acc, entry_size s r.2 + acc) 0 l.

Definition delete_entry_body (actor library_id entry_id : N) : M Db Access :=
  let! ' (l, access) := locked_library actor library_id "delete" in
  let! entry := scoped_entry library_id entry_id false in
  let! below := levels_below (λ _, true) entry_id in
  let ids := concat below in
  let! items := gets (λ s, order_by by_pk (rows (db_entries s) (λ k _, mem_N k ids))) in
  let! removed := gets (λ s, sum_sizes s items) in
  let l := l <| lib_usage_bytes ::= λ u, u - removed |> in
  cascade entry_id ;;;
  changed actor library_id l "library_entry" entry_id "deleted"
    [("is_folder", JBool (en_is_folder entry)); ("item_count", JInt (Z.of_nat (length items)));
     ("removed_ids", JStr (join "," (map (λ r, str_uuid r.1) items)));
     ("elevated", JBool (bool_decide (access = ACCESS_TEMPORARY)))] ;;;
  match access with
  | ACCESS_TEMPORARY =>
      let! grant := active_temporary_access actor in
      match grant with
      | Some (k, a) =>
          _revoke_access k a "consumed_by_deletion" (Some actor) (Some entry_id) "library_entry" true
      | None => ret tt
      end
  | ACCESS_NORMAL => ret tt
  end ;;;
  ret access.
End mutations.

(** ** Services *)

Section services.
Context `{Settings, Hash, ArtifactStore, FileLibrarySettings, PdfTools}.
Context (others : nat → M Db unit).

(** [_library_mutation]: an expired access is revoked for good before the transaction of the
    mutation, and again when that is refused. *)
Definition library_mutation {A} (actor library_id : N) (permission : string) (body : M Db A) : M Db A :=
  commit (active_temporary_access actor) ;;;
  meanwhile (others 0%nat) ;;;
  try_except
    (commit (
       let! l := get_obj db_libraries library_id in
       department_for l ;;;
       require_library_access actor l permission ;;;
       body))
    (λ e, match exn_kind e with
          | EPermissionDenied =>
              Some (meanwhile (others 1%nat) ;;; commit (active_temporary_access actor) ;;; reraise e)
          | _ => None
          end).

Definition rename_library (actor library_id : N) (name : string) : M Db unit :=
  library_mutation actor library_id "manage" (rename_library_body actor library_id name).

Definition create_folder (actor library_id : N) (name : string) (parent_id : option N) : M Db N :=
  library_mutation actor library_id "manage" (create_folder_body actor library_id name parent_id).

Definition edit_entry (actor library_id entry_id : N) (name : option string) (parent_id : option N)
    (move : bool) : M Db unit :=
  library_mutation actor library_id "manage"
    (edit_entry_body actor library_id entry_id name parent_id move).

Definition delete_entry (actor library_id entry_id : N) : M Db Access :=
  library_mutation actor library_id "delete" (delete_entry_body actor library_id entry_id).

(** *** Quotas *)

Definition get_or_create_policy (department : N) : M Db (N * DepartmentQuotaPolicy) :=
  let! found := first_where db_quota_policies (λ _ p, N.eqb (qp_department p) department) by_pk in
  match found with
  | Some r => ret r
  | None =>
      let policy := mkDepartmentQuotaPolicy department FILE_LIBRARY_DEPARTMENT_QUOTA_BYTES
                      FILE_LIBRARY_STATION_QUOTA_BYTES in
      let! k := create db_quota_policies policy in ret (k, policy)
  end.

(** [Library.quota_bytes] *)
Definition quota_bytes (l : Library) : M Db Z :=
  let! department := department_for l in
  let! ' (_, policy) := get_or_create_policy department in
  ret (if opt_true (lib_department l) then qp_department_files_bytes policy
       else qp_station_files_bytes policy).

Definition _validate_quota (value : Z) : M Db unit :=
  if (value <? 0) || (FILE_LIBRARY_MAX_QUOTA_BYTES <? value)
  then library_error "Quota is out of bounds." else ret tt.

Definition quota_event (actor department : N) (field : string) (old new : Z) : M Db unit :=
  record_event "file_library.quota_changed" (Some actor) (Some department) None
    "department_quota_policy" (Some department)
    [("policy", JStr field); ("old_quota_bytes", JInt old); ("new_quota_bytes", JInt new)].

(** What changes of an old value: nothing when no value is given or it is the same. *)
Definition quota_change (given : option Z) (old : Z) : option Z :=
  match given with Some v => if v =? old then None else Some v | None => None end.

Definition set_department_quotas (actor department : N) (department_files station_files : option Z) :
    M Db N :=
  atomic (
    require_department_admin actor (Some department) ;;;
    for_each (option_list department_files ++ option_list station_files) _validate_quota ;;;
    let! ' (k, policy) := get_or_create_policy department in
    let new_department := quota_change department_files (qp_department_files_bytes policy) in
    let new_station := quota_change station_files (qp_station_files_bytes policy) in
    (match new_department with
     | Some v => quota_event actor department "department_files_bytes" (qp_department_files_bytes policy) v
     | None => ret tt end) ;;;
    (match new_station with
     | Some v => quota_event actor department "station_files_bytes" (qp_station_files_bytes policy) v
     | None => ret tt end) ;;;
    when (opt_true new_department || opt_true new_station)
      (save db_quota_policies k (λ p,
         p <| qp_department_files_bytes := default (qp_department_files_bytes policy) new_department |>
           <| qp_station_files_bytes := default (qp_station_files_bytes policy) new_station |>) ;;;
       revoke_temporary_access actor "department_mutation" ;;; ret tt) ;;;
    ret k).

Definition set_library_quota (actor library_id : N) (value : Z) : M Db unit :=
  _validate_quota value ;;;
  let! l := get_obj db_libraries library_id in
  let! department := department_for l in
  (if opt_true (lib_department l) then set_department_quotas actor department (Some value) None
   else set_department_quotas actor department None (Some value)) ;;;
  ret tt.

(** *** Uploads *)

Definition content_key (library_id content_id : N) : string :=
  "file-libraries/" +:+ str_uuid library_id +:+ "/" +:+ str_uuid content_id +:+ ".pdf".

(** What the transaction of an upload finds before it touches the files: the library, the
    entry that is replaced, the place of a new one, the new usage and the key. *)
Record Intake := mkIntake {
  ik_library : Library;
  ik_entry : option (N * Entry);
  ik_parent : option N;
  ik_usage : Z;
  ik_content_id : N;
  ik_key : string
}.

Definition admit_upload (actor library_id : N) (name : string) (parent_id replace_id : option N)
    (size : Z) : M Db Intake :=
  let! ' (l, _) := locked_library actor library_id "manage" in
  let! entry := match replace_id with
                | Some k => let! e := scoped_entry library_id k false in ret (Some (k, e))
                | None => ret None
                end in
  (if match entry with Some (_, e) => en_is_folder e | None => false end
   then library_error "Only PDFs can be replaced." else ret tt) ;;;
  let! parent := match entry with
                 | Some (_, e) => ret (en_parent e)
                 | None => parent_entry library_id parent_id
                 end in
  validate_location library_id (match entry with Some (_, e) => en_name e | None => name end) parent
    (fst <$> entry) false ;;;
  let! old_size := gets (λ s, match entry with Some (_, e) => entry_size s e | None => 0 end) in
  let usage := lib_usage_bytes l - old_size + size in
  let! quota := quota_bytes l in
  (if (quota <? usage) && (lib_usage_bytes l <? usage)
   then library_error "Library storage quota exceeded." else ret tt) ;;;
  let! content_id := gets (λ s, fresh_id (db_contents s)) in
  let key := content_key library_id content_id in
  let! taken := gets (λ s, opt_true (db_accepted s !! key)) in
  (if taken : bool then library_error "Content identity already exists; retry the upload." else ret tt) ;;;
  ret (mkIntake l entry parent usage content_id key).

Definition store_upload (actor library_id : N) (name : string) (job : N) (size : Z) (digest : string)
    (i : Intake) : M Db N :=
  promote_to_accepted job (ik_key i) ;;;
  let! taken := exists_where db_contents (λ _ c, String.eqb (co_storage_key c) (ik_key i)) in
  guard (negb taken) EIntegrity "storage_key" ;;;
  let! content := create db_contents (mkContent library_id (ik_key i) size digest) in
  let! k := match ik_entry i with
            | Some (k, e) =>
                save_entry k (e <| en_content := Some content |> <| en_modified_by := actor |>) ;;; ret k
            | None =>
                create_entry (mkEntry library_id (ik_parent i) name false (Some content) actor)
            end in
  changed actor library_id ((ik_library i) <| lib_usage_bytes := ik_usage i |>) "library_entry" k
    (match ik_entry i with Some _ => "replaced" | None => "uploaded" end)
    [("content_id", json_id content)] ;;;
  ret k.

(** [commit] around work with files. *)
Definition commit_files {A} (m : M Db A) : M Db A := λ s,
  match m s with
  | (Exc e, s') => (Exc e, with_files_of s' s)
  | (Val _, _) => commit m s
  end.

(** The transaction of an upload.  The variable [accepted] is set between [admit_upload] and
    [store_upload], so the file is removed when an exception comes later than that. *)
Definition upload_transaction (actor library_id : N) (name : string) (parent_id replace_id : option N)
    (job : N) (size : Z) (digest : string) : M Db N := λ s,
  match commit_files (let! i := admit_upload actor library_id name parent_id replace_id size in
                      store_upload actor library_id name job size digest i) s with
  | (Exc e, s') =>
      match admit_upload actor library_id name parent_id replace_id size s with
      | (Val i, _) => (remove_accepted (ik_key i) ;;; reraise e) s'
      | (Exc _, _) => (Exc e, s')
      end
  | r => r
  end.

Definition upload_steps (actor library_id : N) (name : string) (parent_id replace_id : option N)
    (job : N) : M Db N :=
  let! raw := read_file db_quarantine job in
  (if FILE_LIBRARY_MAX_FILE_BYTES <? Z.of_nat (String.length raw)
   then library_error "PDF exceeds the file size limit." else ret tt) ;;;
  validate_pdf raw (Some name) true ;;;
  sanitize job raw ;;;
  let! out := read_file db_sanitized job in
  let! ' (size, _, digest) := validate_pdf out None true in
  (if FILE_LIBRARY_MAX_FILE_BYTES <? size
   then library_error "Sanitized PDF exceeds the file size limit." else ret tt) ;;;
  meanwhile (others 1%nat) ;;;
  upload_transaction actor library_id name parent_id replace_id job size digest.

Definition upload_pdf (actor library_id : N) (upload : Upload) (parent_id replace_id : option N)
    (approved : bool) : M Db N :=
  commit (active_temporary_access actor) ;;;
  meanwhile (others 0%nat) ;;;
  let! l := get_obj db_libraries library_id in
  require_library actor l ;;;
  let! name := name_value (up_name upload) true in
  (if FILE_LIBRARY_MAX_FILE_BYTES <? up_size upload
   then library_error "PDF exceeds the file size limit." else ret tt) ;;;
  (if approved then library_error "Upload approvals are obsolete." else ret tt) ;;;
  let! job := write_quarantine upload FILE_LIBRARY_MAX_FILE_BYTES in
  try_finally (upload_steps actor library_id name parent_id replace_id job)
    (remove_quarantine job ;;; remove_sanitized job).
End services.

(** ** Publication *)

(** What [candidate_readiness] returns; [rd_current]: [publication_current] is set. *)
Record Readiness := mkReadiness {
  rd_can_publish : bool;
  rd_can_build : bool;
  rd_current : bool
}.

Section publication.
Context `{Settings, Hash, ArtifactStore}.
Context (others : nat → M Db unit).

Definition candidate_readiness (library_id : N) : M Db Readiness :=
  atomic (
    let! l := get_obj db_libraries library_id in
    let! department := department_for l in
    let! scope := find_scope (library_scope_type l) (Some department) (lib_station l) (library_code l) in
    match scope with
    | None => ret (mkReadiness false false false)
    | Some (scope_id, scope) =>
        let! snapshot := snapshot_for_library library_id l in
        let! job := first_where db_jobs (λ _ j, N.eqb (job_scope_state j) scope_id && is_active_job j)
          (λ r, [job_created_at r.2; Z.of_N r.1]) in
        let! dirty :=
          if match job with Some (_, j) => job_allow_clean_rebuild j | None => false end then ret true
          else _scope_is_dirty scope (Some (source_fingerprint_for_payload snapshot)) in
        if negb dirty then ret (mkReadiness false false true) else
        let! building := exists_where db_jobs (λ _ j,
          N.eqb (job_scope_state j) scope_id && bool_decide (job_status j = JOB_RUNNING)) in
        let! staged :=
          match job with
          | Some (_, j) =>
              if bool_decide (job_status j = JOB_PENDING) then
                let! p := match job_build_publication j with
                          | Some pid => find_obj db_publications pid | None => ret None end in
                ret match p with Some p => bool_decide (pub_status p = STAGED) | None => false end
              else ret false
          | None => ret false
          end in
        ret (mkReadiness (negb building) staged false)
    end).

Definition _publish_now (actor library_id : N) : M Db (option N) :=
  atomic (
    let! ' (l, _) := locked_library actor library_id "manage" in
    let! readiness := candidate_readiness library_id in
    (if negb (rd_can_publish readiness) && negb (rd_current readiness)
     then library_error "Publication is unavailable. Check the current build status." else ret tt) ;;;
    let! department := department_for l in
    let! job := enqueue_publication_job (Some department) (lib_station l) (library_code l) (Some actor)
                  USER_REQUEST None false None in
    on_commit OcWakeBuildWorker ;;;
    record_event "file_library.publish_requested" (Some actor) (Some department) (lib_station l)
      "library" (Some library_id) [] ;;;
    when (opt_true (lib_department l))
      (revoke_temporary_access actor "department_mutation" ;;; ret tt) ;;;
    ret job).

Definition publish_now (actor library_id : N) : M Db (option N) :=
  commit (active_temporary_access actor) ;;;
  meanwhile (others 0%nat) ;;;
  try_except (commit (_publish_now actor library_id))
    (λ e, match exn_kind e with
          | EPermissionDenied =>
              Some (meanwhile (others 1%nat) ;;; commit (active_temporary_access actor) ;;; reraise e)
          | _ => None
          end).

(** [publication_state]: the label, with the readiness and the newest job. *)
Definition publication_state (library_id : N) : M Db (string * option (Readiness * option N)) :=
  atomic (
    let! readiness := candidate_readiness library_id in
    let! l := get_obj db_libraries library_id in
    let! department := department_for l in
    let! scope := find_scope (library_scope_type l) (Some department) (lib_station l) (library_code l) in
    match scope with
    | None => ret ("Unpublished changes", None)
    | Some (scope_id, _) =>
        let! job := first_where db_jobs (λ _ j, N.eqb (job_scope_state j) scope_id)
          (λ r, [- job_created_at r.2]) in
        let label := if rd_current readiness then "Current" else "Unpublished changes" in
        ret (match job with
             | Some (_, j) =>
                 match job_status j with
                 | JOB_PENDING => if rd_current readiness then label else "Queued"
                 | JOB_RUNNING => "Building"
                 | JOB_FAILED => if rd_current readiness then label else "Failed"
                 | _ => label
                 end
             | None => label
             end, Some (readiness, fst <$> job))
    end).

(** [reconcile_file_scope] *)
Definition reconcile_file_scope (scope_id department : N) (apply_ : bool) : M Db string :=
  atomic (
    let! preview := get_obj db_scopes scope_id in
    guard (bool_decide (sc_department preview = Some department)
           && is_file_dataset (sc_dataset_type_code preview)) EDoesNotExist "" ;;;
    let! ' (scope_id, scope) :=
      _locked_scope (sc_department preview) (sc_station preview) (sc_dataset_type_code preview) in
    let! library := first_where db_libraries (λ _ l, is_library_of (sc_department scope) (sc_station scope) l)
      by_pk in
    match library with
    | None => ret "no library"
    | Some (library_id, l) =>
        let! running := exists_where db_jobs (λ _ j,
          N.eqb (job_scope_state j) scope_id && bool_decide (job_status j = JOB_RUNNING)) in
        if running : bool then ret "building; deferred" else
        let! snapshot := snapshot_for_library library_id l in
        let digest := source_fingerprint_for_payload snapshot in
        let! dirty := _scope_is_dirty scope (Some digest) in
        if dirty : bool then ret "changed or historical snapshot unavailable; preserved" else
        when apply_ (_reconcile_clean_source scope_id scope digest ;;; ret tt) ;;;
        let! forced := exists_where db_jobs (λ _ j, N.eqb (job_scope_state j) scope_id
          && bool_decide (job_status j = JOB_PENDING) && job_allow_clean_rebuild j) in
        if forced : bool then ret "matches active publication; explicit force rebuild preserved" else
        ret (if apply_ then "matches active publication; reconciled"
             else "matches active publication; eligible")
    end).
End publication.

(** ** Removal of content *)

(** [content_path]: the key resolved below the accepted root, by parts; [None] when it leaves
    the root or has another suffix. *)
Definition resolve_parts (parts : list string) : option (list string) :=
  foldl (λ acc part, acc ≫= λ l,
    if mem_str part [""; "."] then Some l
    else if String.eqb part ".." then match l with [] => None | _ :: l' => Some l' end
    else Some (part :: l)) (Some []) parts.

Definition content_path (c : Content) : M Db unit :=
  if negb (String.prefix "/" (co_storage_key c)) && str_endswith ".pdf" (co_storage_key c)
     && opt_true (resolve_parts (str_split "/" (co_storage_key c)))
  then ret tt else library_error "Content is unavailable.".

(** [collect_content]: what entries or publications still refer to is protected. *)
Definition content_in_use (s : Db) (k : N) : bool :=
  exists_row (db_entries s) (λ _ e, bool_decide (en_content e = Some k))
  || exists_row (db_publication_contents s) (λ _ p, String.eqb (pc_content p) (str_uuid k)).

Definition collect_content (content_id : N) : M Db bool :=
  atomic (
    let! c := get_obj db_contents content_id in
    content_path c ;;;
    let! used := gets (λ s, content_in_use s content_id) in
    if used : bool then ret false else
    delete_obj db_contents content_id ;;;
    on_commit (OcRemoveContent (co_storage_key c)) ;;;
    ret true).

(** The directory and the name of a file of a library; the other paths are not touched. *)
Definition library_file (key : string) : option (string * string) :=
  match str_split "/" key with
  | [root; directory; name] =>
      if String.eqb root "file-libraries" && opt_true (identifier (JStr directory))
         && str_endswith ".pdf" name
         && opt_true (identifier (JStr (String.substring 0 (String.length name - 4) name)))
      then Some (directory, name) else None
  | _ => None
  end.

Definition reconcile_file (cutoff : Z) (dry_run : bool) (removed : Z) (key : string) : M Db Z :=
  let! known := exists_where db_contents (λ _ c, String.eqb (co_storage_key c) key) in
  if known : bool then ret removed else
  let! file := gets (λ s, db_accepted s !! key) in
  match file with
  | None => ret removed
  | Some (_, modified) =>
      if cutoff <=? modified then ret removed else
      when (negb dry_run) (remove_accepted key) ;;;
      ret (removed + 1)
  end.

(** [reconcile_orphans], a transaction for each directory. *)
Definition reconcile_orphans (others : nat → M Db unit) (grace : Z) (dry_run : bool) : M Db Z :=
  if grace <? MICROSECONDS_PER_DAY
  then raise EValue "Orphan cleanup requires at least a one-day grace period." else
  let! now := timezone_now in
  let! directories := gets (λ s, remove_dups (omap (λ r, fst <$> library_file r.1)
    (map_to_list (db_accepted s)))) in
  fold_m (λ removed directory,
    meanwhile (others 0%nat) ;;;
    let! keys := gets (λ s, filter (λ key, fst <$> library_file key = Some directory)
      ((map_to_list (db_accepted s)).*1)) in
    fold_m (reconcile_file (now - grace) dry_run) removed keys) 0 directories.
