(* ===== verification/Admin.v ===== *)
(** The administrator half of [apps/publications/services.py]: publishing,
    rejecting, rebuilding, staging, cancelling, rolling back and deleting
    publications. *)
From S2P Require Import Prelude Models Store Registry Authorization Fingerprint Artifacts.
From S2P Require Import Restore Queue Build.

(** [created], [promoted], [already_running], [skipped_current]. *)
Record BulkCounts := mkBulkCounts {
  created : Z; promoted : Z; already_running : Z; skipped_current : Z }.

Section admin.
Context `{Settings} `{Hash} `{DocumentGenerations}.

(** The publication exists and the actor may administer its scope. *)
Definition administered_publication (actor pid : N) : M Db DatasetPublication :=
  let! p := get_obj db_publications pid in
  require_publication_scope actor (pub_department p) (pub_station p)
    (pub_dataset_type_code p) ;;;
  ret p.

Definition scope_of_publication (p : DatasetPublication) : M Db (N * DatasetScopeState) :=
  _locked_scope (pub_department p) (pub_station p) (pub_dataset_type_code p).

Definition publication_event (action : string) (actor : N) (pid : N) (p : DatasetPublication)
    (extra : list (string * json)) : M Db unit :=
  record_event action (Some actor) (pub_department p) (pub_station p)
    "dataset_publication" (Some pid)
    (("dataset_type_code", JStr (pub_dataset_type_code p)) :: extra).

Definition version_metadata (p : DatasetPublication) : list (string * json) :=
  [("version_number", JInt (pub_version_number p))].

Definition record_activation (pid scope_id : N) (previous : option N) (action : string)
    (actor : N) : M Db unit :=
  modify (λ s, s <| db_activations ::= λ l, l ++
    [mkPublicationActivation pid scope_id previous action (Some actor)] |>).

(** ** Review *)

Definition publish_publication (actor pid : N) : M Db N :=
  atomic (
    let! p := administered_publication actor pid in
    guard (bool_decide (pub_status p = READY_FOR_REVIEW)) EPublication
      "Only a review-ready publication can be published." ;;;
    _validate_scope (pub_department p) (pub_station p) (pub_dataset_type_code p) ;;;
    guard (bool_decide (pub_artifact_status p = ARTIFACT_READY)) EPublication
      "Publication artifact is not ready." ;;;
    let! ' (scope_id, scope) := scope_of_publication p in
    let! p := get_obj db_publications pid in
    guard (bool_decide (pub_status p = READY_FOR_REVIEW)) EPublication
      "Only a review-ready publication can be published." ;;;
    let! definition := get_dataset_definition (pub_dataset_type_code p) in
    let! reason :=
      if is_document_definition definition
      then publication_restore_blocked_reason pid p scope_id scope false
      else ret "" in
    (if str_true reason then raise EPublication reason else ret tt) ;;;
    guard (negb (is_file_dataset (pub_dataset_type_code p)
                 && negb (Z.eqb (sc_source_revision scope) (pub_source_revision p))))
      EPublication "Publication source revision changed; build the current source." ;;;
    let! previous := publication_of (sc_current_published_publication scope) in
    supersede_current previous ;;;
    let! now := timezone_now in
    save db_publications pid (λ p,
      p <| pub_status := PUBLISHED |> <| pub_published_at := Some now |>
        <| pub_published_by := Some actor |> <| pub_supersedes := fst <$> previous |>) ;;;
    save db_scopes scope_id (λ r,
      r <| sc_current_published_publication := Some pid |> <| sc_updated_at := now |>) ;;;
    record_activation pid scope_id (fst <$> previous) "PUBLISH" actor ;;;
    publication_event "publication.published" actor pid p [] ;;;
    ret pid).

Definition reject_publication (actor pid : N) : M Db N :=
  atomic (
    let! p := administered_publication actor pid in
    guard (bool_decide (pub_status p = READY_FOR_REVIEW)) EPublication
      "Only a review-ready publication can be rejected." ;;;
    _validate_scope (pub_department p) (pub_station p) (pub_dataset_type_code p) ;;;
    save db_publications pid (λ p, p <| pub_status := REJECTED |>) ;;;
    publication_event "publication.rejected" actor pid p [] ;;;
    ret pid).

(** ** Rebuilding and staging *)

Definition scope_event (action : string) (actor : N) (department station : option N)
    (dataset_type_code : string) (scope_id : N) (revision : Z) : M Db unit :=
  record_event action (Some actor) department station "dataset_scope_state" (Some scope_id)
    [("dataset_type_code", JStr dataset_type_code); ("source_revision", JInt revision)].

Definition request_rebuild (actor : N) (department station : option N)
    (dataset_type_code : string) : M Db N :=
  atomic (
    require_publication_scope actor department station dataset_type_code ;;;
    _validate_scope department station dataset_type_code ;;;
    lock_file_scope department dataset_type_code ;;;
    let! ' (scope_id, scope) := get_or_create_scope department station dataset_type_code in
    let! busy := gets (λ s,
      exists_row (db_jobs s) (λ _ j, N.eqb (job_scope_state j) scope_id && is_active_job j)
      || exists_row (db_publications s) (λ _ p, N.eqb (pub_scope_state p) scope_id
           && match pub_status p with
              | STAGED | BUILDING | READY_FOR_REVIEW => true | _ => false end)) in
    (if (busy : bool) then raise EPublication
       "Rebuild unavailable while another publication attempt is queued, building or awaiting review."
     else ret tt) ;;;
    try_except
      (enqueue_publication_job department station dataset_type_code (Some actor)
         USER_REQUEST None true None ;;; ret tt)
      (λ e, match exn_kind e with
            | EPublicationBuild => Some (raise EPublication
                ("Rebuild source is unavailable: " +:+ exn_message e))
            | _ => None end) ;;;
    when (String.eqb dataset_type_code "department_files")
      (revoke_temporary_access actor "department_mutation" ;;; ret tt) ;;;
    on_commit OcWakeBuildWorker ;;;
    scope_event "publication.rebuild_requested" actor department station dataset_type_code
      scope_id (sc_source_revision scope) ;;;
    ret scope_id).

Definition stage_publication_update (actor : N) (department station : option N)
    (dataset_type_code : string) : M Db N :=
  atomic (
    require_publication_scope actor department station dataset_type_code ;;;
    _validate_scope department station dataset_type_code ;;;
    let! ' (scope_id, scope) := _locked_scope department station dataset_type_code in
    let! ' (clean, scope) :=
      if is_file_dataset dataset_type_code then
        let! ' (scope, _, fingerprint) := _current_source_state scope_id scope in
        _reconcile_clean_source scope_id scope fingerprint
      else ret (false, scope) in
    if (clean : bool) then ret scope_id else
    let! dirty := _scope_is_dirty scope None in
    guard dirty EPublication "This dataset scope has no unpublished changes." ;;;
    let! live := exists_where db_jobs (λ _ j,
      N.eqb (job_scope_state j) scope_id && is_active_job j) in
    guard (negb live) EPublication "A publication update is already staged or building." ;;;
    let! queued := enqueue_publication_job department station dataset_type_code (Some actor)
                     DATA_CHANGE None false None in
    guard (opt_true queued) EPublication
      "This dataset scope has no unpublished changes." ;;;
    scope_event "publication.update_staged" actor department station dataset_type_code
      scope_id (sc_source_revision scope) ;;;
    ret scope_id).

(** The promotion of the staged job at the end of [build_staged_publication]. *)
Definition promote_staged (actor jid pid : N) (p : DatasetPublication)
    (scope : DatasetScopeState) : M Db N :=
  let! now := timezone_now in
  save db_jobs jid (λ j,
    j <| job_trigger_type := USER_REQUEST |> <| job_not_before := Some now |>
      <| job_requested_by := Some actor |>) ;;;
  record_event "publication.build_now_requested" (Some actor) (sc_department scope)
    (sc_station scope) "dataset_publication" (Some pid)
    (("dataset_type_code", JStr (sc_dataset_type_code scope)) :: version_metadata p) ;;;
  on_commit OcWakeBuildWorker ;;;
  ret jid.

Definition build_staged_publication (actor scope_key : N) : M Db N :=
  atomic (
    let! given := get_obj db_scopes scope_key in
    require_publication_scope actor (sc_department given) (sc_station given)
      (sc_dataset_type_code given) ;;;
    let! ' (scope_id, scope) :=
      _locked_scope (sc_department given) (sc_station given) (sc_dataset_type_code given) in
    let! pending := first_where db_jobs (λ _ j,
      N.eqb (job_scope_state j) scope_id && bool_decide (job_status j = JOB_PENDING))
      (λ r, [job_created_at r.2]) in
    match pending ≫= λ r, (λ pid, (r, pid)) <$> job_build_publication r.2 with
    | None => raise EPublication "No staged publication is available to build."
    | Some (jid, job, pid) =>
        let! publication := find_obj db_publications pid in
        match publication with
        | Some p =>
            guard (bool_decide (pub_status p = STAGED)) EPublication
              "Only a staged publication can be built now." ;;;
            if is_file_dataset (sc_dataset_type_code scope) then
              let! running := exists_where db_jobs (λ _ j,
                N.eqb (job_scope_state j) scope_id
                && bool_decide (job_status j = JOB_RUNNING)) in
              guard (negb running) EPublication "A publication is already building." ;;;
              let! definition := get_dataset_definition (sc_dataset_type_code scope) in
              let! snapshot := build_source_payload definition (sc_department scope)
                                 (sc_station scope) in
              let! ' (clean, _) :=
                if job_allow_clean_rebuild job then ret (false, scope)
                else _reconcile_clean_source scope_id scope
                       (source_fingerprint_for_payload snapshot) in
              if (clean : bool) then ret jid else promote_staged actor jid pid p scope
            else promote_staged actor jid pid p scope
        | None => raise EPublication "Only a staged publication can be built now."
        end
    end).

(** The newest job of a publication. *)
Definition build_job_of (pid : N) : M Db (option (N * PublicationJob)) :=
  first_where db_jobs (λ _ j, bool_decide (job_build_publication j = Some pid))
    (λ r, [- job_created_at r.2]).

Definition delete_staged_publication (actor pid : N) : M Db N :=
  atomic (
    let! candidate := administered_publication actor pid in
    let! ' (scope_id, scope) := scope_of_publication candidate in
    let! job := build_job_of pid in
    let! candidate := get_obj db_publications pid in
    guard (N.eqb (pub_scope_state candidate) scope_id
           && bool_decide (pub_status candidate = STAGED))
      EPublication "Only a staged publication can be deleted." ;;;
    guard (match job with
           | Some (_, j) => bool_decide (job_status j = JOB_PENDING) | None => true end)
      EPublication "A started publication build must be cancelled instead." ;;;
    save db_publications pid (λ p, p <| pub_status := PUB_CANCELLED |>) ;;;
    match job with
    | Some (jid, _) =>
        let! now := timezone_now in
        save db_jobs jid (λ j,
          j <| job_status := JOB_CANCELLED |> <| job_completed_at := Some now |>)
    | None => ret tt
    end ;;;
    when (is_file_dataset (pub_dataset_type_code candidate)) (
      let! ' (scope, _, fingerprint) := _current_source_state scope_id scope in
      _reconcile_clean_source scope_id scope fingerprint ;;; ret tt) ;;;
    publication_event "publication.staged_deleted" actor pid candidate
      (version_metadata candidate) ;;;
    ret pid).

Definition cancel_publication_build (actor pid : N) : M Db N :=
  atomic (
    let! candidate := administered_publication actor pid in
    let! ' (scope_id, scope) := scope_of_publication candidate in
    let! job := build_job_of pid in
    match job with
    | None => raise EPublication "Publication has no build job to cancel."
    | Some (jid, job) =>
        let! candidate := get_obj db_publications pid in
        guard (N.eqb (pub_scope_state candidate) scope_id
               && bool_decide (job_status job = JOB_RUNNING)) EPublication
          "Only a building publication can be cancelled." ;;;
        guard (bool_decide (pub_status candidate = BUILDING)) EPublication
          "Only a building publication can be cancelled." ;;;
        save db_publications pid (λ p,
          p <| pub_status := PUB_CANCELLED |>
            <| pub_build_error := "Build cancelled by an administrator." |>) ;;;
        release_terminal_document_artifact_references pid
          (candidate <| pub_status := PUB_CANCELLED |>) ;;;
        let! now := timezone_now in
        save db_jobs jid (λ j,
          j <| job_status := JOB_CANCELLED |> <| job_completed_at := Some now |>
            <| job_error_category := "cancelled" |>
            <| job_error_message := "Build cancelled by an administrator." |>) ;;;
        _schedule_artifact_removal (artifact_path (pub_artifact candidate)) ;;;
        publication_event "publication.build_cancelled" actor pid candidate
          (version_metadata candidate) ;;;
        ret pid
    end).

(** ** Rollback and deletion *)

Definition _eligible_predecessor (scope_id : N) (scope : DatasetScopeState)
    (before_version : Z) : M Db (option (N * DatasetPublication)) :=
  let! candidates := select_ordered db_publications (λ _ p,
    N.eqb (pub_scope_state p) scope_id && bool_decide (pub_status p = SUPERSEDED)
    && (pub_version_number p <? before_version)
    && bool_decide (pub_artifact_status p = ARTIFACT_READY) && pub_artifact_ready p)
    (λ r, [- pub_version_number r.2]) in
  fold_m (λ found '(pid, p),
    match found with
    | Some _ => ret found
    | None =>
        let! reason := publication_restore_blocked_reason pid p scope_id scope true in
        ret (if str_true reason then None else Some (pid, p))
    end) None candidates.

Definition _activate_publication (scope_id : N) (scope : DatasetScopeState) (target : N)
    (actor : N) (action : string) : M Db unit :=
  let! previous := publication_of (sc_current_published_publication scope) in
  (match previous with
   | Some (prev, _) => if N.eqb prev target then ret tt else supersede_current previous
   | None => ret tt
   end) ;;;
  let! now := timezone_now in
  save db_publications target (λ p,
    p <| pub_status := PUBLISHED |> <| pub_published_at := Some now |>
      <| pub_published_by := Some actor |>) ;;;
  save db_scopes scope_id (λ r,
    r <| sc_current_published_publication := Some target |> <| sc_updated_at := now |>) ;;;
  record_activation target scope_id (fst <$> previous) action actor.

Definition rollback_publication (actor pid : N) : M Db N :=
  atomic (
    let! p := administered_publication actor pid in
    _validate_scope (pub_department p) (pub_station p) (pub_dataset_type_code p) ;;;
    let! ' (scope_id, scope) := scope_of_publication p in
    let! p := get_obj db_publications pid in
    let! reason := publication_restore_blocked_reason pid p scope_id scope true in
    (if str_true reason then raise EPublication reason else ret tt) ;;;
    let! previous := publication_of (sc_current_published_publication scope) in
    match previous with
    | None => raise EPublication "Dataset scope has no current publication."
    | Some (_, previous) =>
        let! newer := _newer_live_attempt_exists scope_id (pub_version_number previous) in
        guard (negb newer) EPublication
          "Rollback is unavailable while a newer attempt is staged or building." ;;;
        _activate_publication scope_id scope pid actor "ROLLBACK" ;;;
        publication_event "publication.rolled_back" actor pid p [] ;;;
        ret pid
    end).

(** The end of [delete_publication]: the row stays, the attempt is retired. *)
Definition retire_publication (pid : N) (candidate : DatasetPublication) (scope_id : N)
    (latest current : option N) : M Db unit :=
  revoke_publication_dataset_key_grants pid candidate ;;;
  save db_publications pid (λ p,
    p <| pub_status := PUB_OBSOLETE |> <| pub_source_snapshot := None |>) ;;;
  release_terminal_document_artifact_references pid
    (candidate <| pub_status := PUB_OBSOLETE |>) ;;;
  when (bool_decide (latest = Some pid)) (
    let! now := timezone_now in
    save db_scopes scope_id (λ r,
      r <| sc_latest_built_publication := current |> <| sc_updated_at := now |>)) ;;;
  _schedule_artifact_removal (artifact_path (pub_artifact candidate)).

Definition delete_publication (actor pid : N) : M Db N :=
  atomic (
    let! p := administered_publication actor pid in
    _validate_scope (pub_department p) (pub_station p) (pub_dataset_type_code p) ;;;
    let! ' (scope_id, scope) := scope_of_publication p in
    let! candidate := get_obj db_publications pid in
    guard (N.eqb (pub_scope_state candidate) scope_id) EPublication
      "Publication is outside this dataset scope." ;;;
    let! current :=
      match pub_status candidate with
      | PUBLISHED =>
          guard (bool_decide (sc_current_published_publication scope = Some pid))
            EPublication "Publication is not the authoritative active publication." ;;;
          let! newer := _newer_live_attempt_exists scope_id (pub_version_number candidate) in
          guard (negb newer) EPublication
            "Active deletion is unavailable while a newer attempt is staged or building." ;;;
          let! predecessor := _eligible_predecessor scope_id scope
                                (pub_version_number candidate) in
          match predecessor with
          | None =>
              raise EPublication "Active publication has no safe predecessor to activate."
          | Some (target, row) =>
              _activate_publication scope_id scope target actor "ROLLBACK" ;;;
              record_event "publication.active_replaced_before_delete" (Some actor)
                (pub_department candidate) (pub_station candidate) "dataset_publication"
                (Some pid) [("replacement_version", JInt (pub_version_number row))] ;;;
              ret (Some target)
          end
      | SUPERSEDED => ret (sc_current_published_publication scope)
      | _ => raise EPublication
               "Only active or superseded successful publications can be deleted."
      end in
    retire_publication pid candidate scope_id (sc_latest_built_publication scope) current ;;;
    publication_event "publication.deleted" actor pid candidate
      (version_metadata candidate) ;;;
    ret pid).

(** ** Bulk rebuild *)

Definition bulk_scope (department actor : N) (running_scope_ids : list N)
    (counts : BulkCounts) (row : N * DatasetScopeState) : M Db BulkCounts :=
  let '(scope_id, scope) := row in
  let '(mkBulkCounts c p r k) := counts in
  if mem_N scope_id running_scope_ids then ret (mkBulkCounts c p (r + 1) k) else
  let! dirty := _scope_is_dirty scope None in
  if negb (dirty || negb (opt_true (sc_latest_built_publication scope)))
  then ret (mkBulkCounts c p r (k + 1))
  else
    let! before := exists_where db_jobs (λ _ j,
      N.eqb (job_scope_state j) scope_id && bool_decide (job_status j = JOB_PENDING)) in
    let! queued := enqueue_publication_job (Some department) (sc_station scope)
      (sc_dataset_type_code scope) (Some actor) BULK_REQUEST None false None in
    match queued with
    | None => ret counts
    | Some _ =>
        if before then ret (mkBulkCounts c (p + 1) r k)
        else ret (mkBulkCounts (c + 1) p r k)
    end.

Definition bulk_request_rebuilds (actor department : N) : M Db BulkCounts :=
  atomic (
    require_department_admin actor (Some department) ;;;
    let! scopes := gets (λ s, rows (db_scopes s)
      (λ _ sc, bool_decide (sc_department sc = Some department))) in
    let! running := gets (λ s, (λ r, job_scope_state r.2) <$> rows (db_jobs s) (λ _ j,
      bool_decide (job_department j = Some department)
      && bool_decide (job_status j = JOB_RUNNING))) in
    let! counts := fold_m (bulk_scope department actor running) (mkBulkCounts 0 0 0 0) scopes in
    when (negb (created counts =? 0) || negb (promoted counts =? 0))
      (on_commit OcWakeBuildWorker) ;;;
    record_event "publication.bulk_rebuild_requested" (Some actor) (Some department) None
      "dataset_scope_state" None
      [("created", JInt (created counts)); ("promoted", JInt (promoted counts));
       ("already_running", JInt (already_running counts));
       ("skipped_current", JInt (skipped_current counts))] ;;;
    ret counts).
End admin.

(** ** Queries *)

Section queries.
Context `{DocumentGenerations}.

Lemma readonly_administered_publication actor pid : readonly (administered_publication actor pid).
Proof. unfold administered_publication. preserve. Qed.

Lemma readonly_scope_of_publication p : readonly (scope_of_publication p).
Proof. unfold scope_of_publication. preserve. Qed.

Lemma readonly_build_job_of pid : readonly (build_job_of pid).
Proof. unfold build_job_of. preserve. Qed.

Lemma readonly_eligible_predecessor c sc v : readonly (_eligible_predecessor c sc v).
Proof. unfold _eligible_predecessor. preserve. Qed.

End queries.

#[export] Hint Resolve readonly_administered_publication
  readonly_scope_of_publication
  readonly_build_job_of
  readonly_eligible_predecessor : preserves.
