(* ===== verification/Retention.v ===== *)
(** Bounded retention of publication payloads: [apps/publications/retention.py]. *)
From S2P Require Import Prelude Models Store Registry Authorization Fingerprint Artifacts.
From S2P Require Import Restore Queue Build Worker Admin.

(** The outcomes of [_process_candidate]. *)
Inductive RetentionOutcome := Skipped | Obsoleted | SnapshotPurged.

(** [RetentionResult] *)
Record RetentionResult := mkRetentionResult {
  considered : Z; obsoleted : Z; snapshots_purged : Z; skipped : Z }.

Section retention.
Context `{Settings} `{Hash} `{DocumentGenerations} `{ArtifactStore}.

Definition retained_limit : Z := PUBLICATION_RETAINED_ROLLBACK_PREDECESSORS.

Definition is_ready_predecessor (scope_id : N) (p : DatasetPublication) : bool :=
  N.eqb (pub_scope_state p) scope_id && bool_decide (pub_status p = SUPERSEDED)
  && bool_decide (pub_artifact_status p = ARTIFACT_READY) && pub_artifact_ready p.

(** The newest READY predecessors of a scope, up to the limit. *)
Definition ranked_predecessors (s : Db) (scope_id : N) : list N :=
  (take (Z.to_nat retained_limit)
     (order_by (λ r, [- pub_version_number r.2])
        (rows (db_publications s) (λ _ p, is_ready_predecessor scope_id p)))).*1.

(** [_retained_predecessor_ids]: the rank is computed per scope. *)
Definition _retained_predecessor_ids (s : Db) (scope_ids : list N) : list N :=
  concat (ranked_predecessors s <$> scope_ids).

Definition protected_ids (scope_id : N) (scope : DatasetScopeState) : M Db (list N) :=
  if PUBLICATION_RETENTION_RESTORE_AWARE_ENABLED then
    let! selected := select_restorable_predecessors scope_id scope retained_limit in
    ret selected.*1
  else gets (λ s, ranked_predecessors s scope_id).

Definition _is_retained_predecessor (scope_id : N) (scope : DatasetScopeState) (pid : N) :
    M Db bool :=
  let! retained := protected_ids scope_id scope in
  ret (mem_N pid retained).

Definition is_superseded_in (scope_id : N) (p : DatasetPublication) : bool :=
  N.eqb (pub_scope_state p) scope_id && bool_decide (pub_status p = SUPERSEDED).

Definition by_age {A} (created : A → Z) (r : N * A) : list Z := [created r.2; Z.of_N r.1].

(** The superseded part of [_candidate_ids]. *)
Definition superseded_candidates (limit : Z) : M Db (list N) :=
  if PUBLICATION_RETENTION_RESTORE_AWARE_ENABLED then
    let! history := gets db_publications in
    let! scopes := select_ordered db_scopes
      (λ scope_id _, exists_row history (λ _ p, is_superseded_in scope_id p)) by_pk in
    fold_m (λ ids '(scope_id, scope),
      let! selected := select_restorable_predecessors scope_id scope retained_limit in
      let! more := select_ordered db_publications
        (λ pid p, is_superseded_in scope_id p && negb (mem_N pid selected.*1))
        (by_age pub_created_at) in
      ret (ids ++ take (Z.to_nat (limit - Z.of_nat (length ids))) more.*1)) [] scopes
  else
    let! scope_ids := gets (λ s, (map_to_list (db_scopes s)).*1) in
    let! retained := gets (λ s, _retained_predecessor_ids s scope_ids) in
    let! candidates := select_ordered db_publications
      (λ pid p, bool_decide (pub_status p = SUPERSEDED) && negb (mem_N pid retained))
      (by_age pub_created_at) in
    ret (take (Z.to_nat limit) candidates.*1).

Definition retention_cutoff (now : Z) : Z :=
  now - PUBLICATION_TERMINAL_SNAPSHOT_RETENTION_DAYS * MICROSECONDS_PER_DAY.

Definition is_expirable_status (st : PubStatus) : bool :=
  match st with PUB_FAILED | PUB_CANCELLED => true | _ => false end.

Definition _candidate_ids (limit now : Z) : M Db (list N) :=
  let! superseded_ids := superseded_candidates limit in
  let remaining := limit - Z.of_nat (length superseded_ids) in
  if remaining <=? 0 then ret superseded_ids else
  let! terminal := select_ordered db_publications (λ _ p,
    is_expirable_status (pub_status p) && opt_true (pub_source_snapshot p)
    && (pub_created_at p <=? retention_cutoff now)) (by_age pub_created_at) in
  ret (superseded_ids ++ take (Z.to_nat remaining) terminal.*1).

Definition _terminal_timestamp (publication : DatasetPublication)
    (job : option (N * PublicationJob)) : Z :=
  match job with
  | Some (_, j) => default (pub_created_at publication) (job_completed_at j)
  | None => pub_created_at publication
  end.

Definition _live_job (scope_id : N) : M Db (option (N * PublicationJob)) :=
  first_where db_jobs (λ _ j, N.eqb (job_scope_state j) scope_id && is_active_job j)
    (λ r, [job_created_at r.2]).

(** The branch for a superseded publication. *)
Definition process_superseded (pid : N) (p : DatasetPublication) (scope_id : N)
    (scope : DatasetScopeState) (dry_run : bool) : M Db RetentionOutcome :=
  if bool_decide (sc_current_published_publication scope = Some pid) then ret Skipped else
  let! retained := _is_retained_predecessor scope_id scope pid in
  if (retained : bool) then ret Skipped else
  if dry_run then ret Obsoleted else
  retire_publication pid p scope_id (sc_latest_built_publication scope)
    (sc_current_published_publication scope) ;;;
  record_event "publication.retention_obsoleted" None (pub_department p) (pub_station p)
    "dataset_publication" (Some pid)
    [("dataset_type_code", JStr (pub_dataset_type_code p));
     ("version_number", JInt (pub_version_number p))] ;;;
  ret Obsoleted.

(** The branch for a failed or cancelled publication. *)
Definition process_terminal (pid : N) (p : DatasetPublication)
    (related_job : option (N * PublicationJob)) (now : Z) (dry_run : bool) :
    M Db RetentionOutcome :=
  if negb (is_expirable_status (pub_status p)) then ret Skipped else
  if negb (opt_true (pub_source_snapshot p)) then ret Skipped else
  if retention_cutoff now <? _terminal_timestamp p related_job then ret Skipped else
  if dry_run then ret SnapshotPurged else
  save db_publications pid (λ p, p <| pub_source_snapshot := None |>) ;;;
  release_terminal_document_artifact_references pid p ;;;
  record_event "publication.retention_snapshot_purged" None (pub_department p)
    (pub_station p) "dataset_publication" (Some pid)
    [("dataset_type_code", JStr (pub_dataset_type_code p));
     ("version_number", JInt (pub_version_number p))] ;;;
  ret SnapshotPurged.

Definition _process_candidate (now : Z) (dry_run : bool) (pid : N) : M Db RetentionOutcome :=
  atomic (
    let! preview := find_obj db_publications pid in
    match preview with
    | None => ret Skipped
    | Some preview =>
        let scope_id := pub_scope_state preview in
        let! scope := find_obj db_scopes scope_id in
        match scope with
        | None => ret Skipped
        | Some scope =>
            let! live := _live_job scope_id in
            if opt_true live then ret Skipped else
            let! related_job := first_where db_jobs (λ _ j,
              N.eqb (job_scope_state j) scope_id
              && bool_decide (job_build_publication j = Some pid))
              (λ r, [- job_created_at r.2]) in
            let! publication := find_obj db_publications pid in
            match publication with
            | None => ret Skipped
            | Some p =>
                if negb (N.eqb (pub_scope_state p) scope_id) then ret Skipped else
                match pub_status p with
                | SUPERSEDED => process_superseded pid p scope_id scope dry_run
                | _ => process_terminal pid p related_job now dry_run
                end
            end
        end
    end).

Definition count_outcome (r : RetentionResult) (o : RetentionOutcome) : RetentionResult :=
  let '(mkRetentionResult c ob pu sk) := r in
  match o with
  | Obsoleted => mkRetentionResult (c + 1) (ob + 1) pu sk
  | SnapshotPurged => mkRetentionResult (c + 1) ob (pu + 1) sk
  | Skipped => mkRetentionResult (c + 1) ob pu (sk + 1)
  end.

(** [batch_size or settings.PUBLICATION_RETENTION_BATCH_SIZE]: zero is false. *)
Definition or_batch_size (batch_size : option Z) : Z :=
  match batch_size with
  | Some b => if b =? 0 then PUBLICATION_RETENTION_BATCH_SIZE else b
  | None => PUBLICATION_RETENTION_BATCH_SIZE
  end.

(** Each candidate in a transaction of its own. *)
Definition run_publication_retention (batch_size : option Z) (dry_run : bool) :
    M Db RetentionResult :=
  let limit := or_batch_size batch_size in
  guard (1 <=? limit) EValue "Publication retention batch size must be positive." ;;;
  let! now := timezone_now in
  let! ids := _candidate_ids limit now in
  fold_m (λ result pid,
    let! outcome := commit (_process_candidate now dry_run pid) in
    ret (count_outcome result outcome)) (mkRetentionResult 0 0 0 0) ids.
End retention.

(** ** Queries *)

Section queries.
Context `{Settings} `{DocumentGenerations}.

Lemma readonly_protected_ids c sc : readonly (protected_ids c sc).
Proof. unfold protected_ids. preserve. Qed.

Lemma readonly_live_job c : readonly (_live_job c).
Proof. unfold _live_job. preserve. Qed.

Lemma readonly_superseded_candidates n : readonly (superseded_candidates n).
Proof. unfold superseded_candidates. preserve. Qed.

End queries.

#[export] Hint Resolve readonly_protected_ids
  readonly_live_job
  readonly_superseded_candidates : preserves.

Lemma readonly_is_retained_predecessor `{Settings} `{DocumentGenerations} c sc pid :
  readonly (_is_retained_predecessor c sc pid).
Proof. unfold _is_retained_predecessor. preserve. Qed.

Lemma readonly_candidate_ids `{Settings} `{DocumentGenerations} n t :
  readonly (_candidate_ids n t).
Proof. unfold _candidate_ids. preserve. Qed.

#[export] Hint Resolve readonly_is_retained_predecessor readonly_candidate_ids : preserves.
