(* ===== verification/Simulation.v ===== *)
(** Reasoning about services through the lifecycle view of the store.

    [vwlp m V Q] runs [m] from any store whose view is [V]: a service proof
    follows the code from one [save] to the next and sees only what the lifecycle
    promises.  [quiet m] says that [m] does not touch the view; [simulated m] that
    [m], whatever its outcome, moves the view by lifecycle steps. *)
From S2P Require Import Prelude Models Registry Lifecycle Store Authorization Fingerprint.
From S2P Require Import Artifacts Restore Queue Build Admin Retention.

(** ** The relations *)

Definition same_view (s s' : Db) : Prop := view s' = view s.

#[export] Instance same_view_preorder : PreOrder same_view.
Proof. unfold same_view. split; [intros s|intros s s' s'']; congruence. Qed.

Abbreviation quiet m := (preserves same_view m).

Definition sim (s s' : Db) : Prop := Inv (view s) → rtc lstep (view s) (view s').

#[export] Instance sim_preorder : PreOrder sim.
Proof.
  unfold sim. split.
  - intros s _. reflexivity.
  - intros s s' s'' H H' I. etrans; [apply H, I|]. apply H'. eapply Inv_steps; eauto.
Qed.

Abbreviation simulated m := (preserves sim m).

Definition vwlp {A} (m : M Db A) (V : View) (Q : A → View → Prop) : Prop :=
  ∀ s, view s = V → wlp m s (λ a s', Q a (view s')).

(** ** Tables outside the view *)

Class Unseen {A} (tbl : Db → A) `{!Setter tbl} : Prop :=
  unseen : ∀ f s, same_view s (s <| tbl ::= f |>).

#[export] Instance unseen_temporary_accesses : Unseen db_temporary_accesses.
Proof. intros f s. reflexivity. Qed.
#[export] Instance unseen_key_grants : Unseen db_key_grants.
Proof. intros f s. reflexivity. Qed.
#[export] Instance unseen_generation_key_grants : Unseen db_generation_key_grants.
Proof. intros f s. reflexivity. Qed.
#[export] Instance unseen_document_artifacts : Unseen db_document_artifacts.
Proof. intros f s. reflexivity. Qed.
#[export] Instance unseen_document_references : Unseen db_document_references.
Proof. intros f s. reflexivity. Qed.
#[export] Instance unseen_document_cleanups : Unseen db_document_cleanups.
Proof. intros f s. reflexivity. Qed.
#[export] Instance unseen_publication_contents : Unseen db_publication_contents.
Proof. intros f s. reflexivity. Qed.
#[export] Instance unseen_libraries : Unseen db_libraries.
Proof. intros f s. reflexivity. Qed.
#[export] Instance unseen_contents : Unseen db_contents.
Proof. intros f s. reflexivity. Qed.
#[export] Instance unseen_entries : Unseen db_entries.
Proof. intros f s. reflexivity. Qed.
#[export] Instance unseen_accepted : Unseen db_accepted.
Proof. intros f s. reflexivity. Qed.
#[export] Instance unseen_quota_policies : Unseen db_quota_policies.
Proof. intros f s. reflexivity. Qed.
#[export] Instance unseen_activations : Unseen db_activations.
Proof. intros f s. reflexivity. Qed.
#[export] Instance unseen_audit : Unseen db_audit.
Proof. intros f s. reflexivity. Qed.
#[export] Instance unseen_on_commit : Unseen db_on_commit.
Proof. intros f s. reflexivity. Qed.
#[export] Instance unseen_effects : Unseen db_effects.
Proof. intros f s. reflexivity. Qed.

Section unseen_tables.
Context {A} (tbl : Db → gmap N A) `{Unseen _ tbl}.

Lemma quiet_save k f : quiet (save tbl k f).
Proof. apply preserves_save; [exact _|exact unseen]. Qed.

Lemma quiet_create a : quiet (create tbl a).
Proof. apply preserves_create. exact unseen. Qed.

Lemma quiet_delete_obj k : quiet (delete_obj tbl k).
Proof. apply preserves_delete_obj. exact unseen. Qed.

Lemma quiet_update_where P f : quiet (update_where tbl P f).
Proof. apply preserves_update_where. exact unseen. Qed.

Lemma quiet_delete_where P : quiet (delete_where tbl P).
Proof. apply preserves_delete_where. exact unseen. Qed.
End unseen_tables.

Lemma quiet_modify {A} (tbl : Db → A) `{Unseen _ tbl} f : quiet (modify (set tbl f)).
Proof. apply preserves_modify. intros s. apply unseen. Qed.

#[export] Hint Extern 1 (preserves same_view (save _ _ _)) => apply quiet_save; exact _
  : preserves.
#[export] Hint Extern 1 (preserves same_view (create _ _)) => apply quiet_create; exact _
  : preserves.
#[export] Hint Extern 1 (preserves same_view (delete_obj _ _)) =>
  apply quiet_delete_obj; exact _ : preserves.
#[export] Hint Extern 1 (preserves same_view (update_where _ _ _)) =>
  apply quiet_update_where; exact _ : preserves.
#[export] Hint Extern 1 (preserves same_view (delete_where _ _)) =>
  apply quiet_delete_where; exact _ : preserves.

(** ** Saves that the view does not notice *)

Lemma view_save_same {A B} (m : gmap N A) (g : A → B) k a f :
  m !! k = Some a → g (f a) = g a → g <$> <[k:=f a]> m = g <$> m.
Proof.
  intros H E. rewrite fmap_insert, E. apply insert_id. rewrite lookup_fmap, H. reflexivity.
Qed.

Lemma quiet_save_scope k f : (∀ x, scope_view (f x) = scope_view x) → quiet (save db_scopes k f).
Proof.
  intros Hf s. unfold save. destruct (db_scopes s !! k) eqn:E; [|reflexivity].
  unfold same_view, view. simpl. f_equal. apply view_save_same; auto.
Qed.

Lemma quiet_save_pub k f :
  (∀ x, pub_view (f x) = pub_view x) → quiet (save db_publications k f).
Proof.
  intros Hf s. unfold save. destruct (db_publications s !! k) eqn:E; [|reflexivity].
  unfold same_view, view. simpl. f_equal. apply view_save_same; auto.
Qed.

Lemma quiet_save_job k f : (∀ x, job_view (f x) = job_view x) → quiet (save db_jobs k f).
Proof.
  intros Hf s. unfold save. destruct (db_jobs s !! k) eqn:E; [|reflexivity].
  unfold same_view, view. simpl. f_equal. apply view_save_same; auto.
Qed.

#[export] Hint Extern 2 (preserves same_view (save db_scopes _ _)) =>
  apply quiet_save_scope; intros; reflexivity : preserves.
#[export] Hint Extern 2 (preserves same_view (save db_publications _ _)) =>
  apply quiet_save_pub; intros; reflexivity : preserves.
#[export] Hint Extern 2 (preserves same_view (save db_jobs _ _)) =>
  apply quiet_save_job; intros; reflexivity : preserves.

(** ** Services that do not touch the view *)

Lemma quiet_record_event a u d x t i m : quiet (record_event a u d x t i m).
Proof. intros s. reflexivity. Qed.

Lemma quiet_on_commit c : quiet (on_commit c).
Proof. unfold on_commit. apply (quiet_modify db_on_commit). Qed.

Lemma quiet_emit e : quiet (emit e).
Proof. unfold emit. apply (quiet_modify db_effects). Qed.

Lemma quiet_record_activation p c o a u : quiet (record_activation p c o a u).
Proof. unfold record_activation. apply (quiet_modify db_activations). Qed.

#[export] Hint Resolve quiet_record_event quiet_on_commit quiet_emit quiet_record_activation
  : preserves.

Lemma quiet_revoke_publication_dataset_key_grants pid p :
  quiet (revoke_publication_dataset_key_grants pid p).
Proof. unfold revoke_publication_dataset_key_grants. preserve. Qed.

Lemma quiet_schedule_artifact_removal p : quiet (_schedule_artifact_removal p).
Proof. unfold _schedule_artifact_removal. preserve. Qed.

Lemma quiet_schedule_document_artifact_removal i p :
  quiet (_schedule_document_artifact_removal i p).
Proof. unfold _schedule_document_artifact_removal. preserve. Qed.

#[export] Hint Resolve quiet_revoke_publication_dataset_key_grants
  quiet_schedule_artifact_removal quiet_schedule_document_artifact_removal : preserves.

Lemma quiet_release_terminal_document_artifact_references pid p :
  quiet (release_terminal_document_artifact_references pid p).
Proof. unfold release_terminal_document_artifact_references, release_artifact. preserve. Qed.

Lemma quiet_revoke_access i a r u t ty b : quiet (_revoke_access i a r u t ty b).
Proof. unfold _revoke_access. preserve. Qed.

#[export] Hint Resolve quiet_release_terminal_document_artifact_references
  quiet_revoke_access : preserves.

Lemma quiet_active_temporary_access u : quiet (active_temporary_access u).
Proof. unfold active_temporary_access. preserve. Qed.

#[export] Hint Resolve quiet_active_temporary_access : preserves.

Lemma quiet_revoke_temporary_access u r : quiet (revoke_temporary_access u r).
Proof. unfold revoke_temporary_access. preserve. Qed.

Lemma quiet_pin_source pid j : quiet (pin_source pid j).
Proof. unfold pin_source. preserve. Qed.

#[export] Hint Resolve quiet_revoke_temporary_access quiet_pin_source : preserves.

(** ** Rules *)

Section rules.
Implicit Types V : View.

Lemma vwlp_mono {A} (m : M Db A) V (Q Q' : A → View → Prop) :
  vwlp m V Q → (∀ a V', Q a V' → Q' a V') → vwlp m V Q'.
Proof. intros H HQ s Hs. eapply wlp_mono; [apply H, Hs|]. auto. Qed.

Lemma vwlp_bind {A B} (m : M Db A) (k : A → M Db B) V Q :
  vwlp m V (λ a V', vwlp (k a) V' Q) → vwlp (bind m k) V Q.
Proof.
  intros H s Hs. apply wlp_bind. eapply wlp_mono; [apply H, Hs|].
  intros a s' Ha. apply Ha. reflexivity.
Qed.

Lemma vwlp_ret {A} (a : A) V (Q : A → View → Prop) : Q a V → vwlp (ret a) V Q.
Proof. intros H s <-. exact H. Qed.

Lemma vwlp_raise {A} k msg V (Q : A → View → Prop) : vwlp (raise k msg) V Q.
Proof. intros s _. exact I. Qed.

Lemma vwlp_atomic {A} (m : M Db A) V Q : vwlp m V Q → vwlp (atomic m) V Q.
Proof. intros H s Hs. apply wlp_atomic, H, Hs. Qed.

Lemma vwlp_guard (c : bool) k msg V (Q : unit → View → Prop) :
  (c = true → Q tt V) → vwlp (guard c k msg) V Q.
Proof. intros H. destruct c; [apply vwlp_ret, H, eq_refl|apply vwlp_raise]. Qed.

Lemma vwlp_when (c : bool) m V Q :
  (c = true → vwlp m V Q) → (c = false → Q tt V) → vwlp (when c m) V Q.
Proof. intros H1 H2. destruct c; [apply H1, eq_refl|apply vwlp_ret, H2, eq_refl]. Qed.

Lemma vwlp_quiet {A} (m : M Db A) V (Q : A → View → Prop) :
  quiet m → (∀ a, Q a V) → vwlp m V Q.
Proof.
  intros Hm HQ s <-. eapply wlp_mono; [apply preserves_wlp, Hm|].
  intros a s' ->. apply HQ.
Qed.

(** A query, with what its run says. *)
Lemma vwlp_query {A} (m : M Db A) V (Q : A → View → Prop) :
  readonly m → (∀ s a, view s = V → m s = (Val a, s) → Q a V) → vwlp m V Q.
Proof. intros Hm HQ s Hs. apply readonly_wlp; [exact Hm|]. intros a Ha. rewrite Hs. eauto. Qed.

(** A call of another service. *)
Lemma vwlp_call {A} (m : M Db A) V (Q : A → View → Prop) :
  simulated m → Inv V → (∀ a V', rtc lstep V V' → Inv V' → Q a V') → vwlp m V Q.
Proof.
  intros Hm I HQ s <-. eapply wlp_mono; [apply preserves_wlp, Hm|].
  intros a s' Hr. apply HQ; [apply Hr, I|]. eapply Inv_steps; [exact I|apply Hr, I].
Qed.

Lemma simulated_atomic {A} (m : M Db A) :
  (∀ V, Inv V → vwlp m V (λ _ V', rtc lstep V V')) → simulated (atomic m).
Proof.
  intros H s. unfold atomic. pose proof (H (view s)) as Hs. unfold vwlp, wlp in Hs.
  destruct (m s) as [[a|e] s'] eqn:E; simpl; intros I; [|reflexivity].
  specialize (Hs I s eq_refl). rewrite E in Hs. exact Hs.
Qed.

(** A service that rolls back when it raises. *)
Lemma simulated_vwlp {A} (m : M Db A) : (∀ s e s', m s = (Exc e, s') → s' = s) →
  (∀ V, Inv V → vwlp m V (λ _ V', rtc lstep V V')) → simulated m.
Proof.
  intros Hx Hm s I. specialize (Hm _ I s eq_refl). unfold wlp in Hm.
  destruct (m s) as [[a|e] s'] eqn:E; [exact Hm|]. apply Hx in E as ->. reflexivity.
Qed.

Lemma simulated_quiet {A} (m : M Db A) : quiet m → simulated m.
Proof. intros H s _. rewrite (H s). reflexivity. Qed.

(** *** The tables of the view *)

Lemma vwlp_get_pub k V (Q : DatasetPublication → View → Prop) :
  (∀ p, v_pubs V !! k = Some (pub_view p) → Q p V) → vwlp (get_obj db_publications k) V Q.
Proof.
  intros H. apply vwlp_query; [auto with preserves|]. intros s p <- Hp.
  apply get_obj_Val in Hp as [Hp _]. apply H. simpl. rewrite lookup_fmap, Hp. reflexivity.
Qed.

Lemma vwlp_get_scope k V (Q : DatasetScopeState → View → Prop) :
  (∀ p, v_scopes V !! k = Some (scope_view p) → Q p V) → vwlp (get_obj db_scopes k) V Q.
Proof.
  intros H. apply vwlp_query; [auto with preserves|]. intros s p <- Hp.
  apply get_obj_Val in Hp as [Hp _]. apply H. simpl. rewrite lookup_fmap, Hp. reflexivity.
Qed.

Lemma vwlp_get_job k V (Q : PublicationJob → View → Prop) :
  (∀ p, v_jobs V !! k = Some (job_view p) → Q p V) → vwlp (get_obj db_jobs k) V Q.
Proof.
  intros H. apply vwlp_query; [auto with preserves|]. intros s p <- Hp.
  apply get_obj_Val in Hp as [Hp _]. apply H. simpl. rewrite lookup_fmap, Hp. reflexivity.
Qed.

Lemma vwlp_find_pub k V (Q : option DatasetPublication → View → Prop) :
  (∀ p, v_pubs V !! k = Some (pub_view p) → Q (Some p) V) →
  (v_pubs V !! k = None → Q None V) → vwlp (find_obj db_publications k) V Q.
Proof.
  intros H1 H2. apply vwlp_query; [auto with preserves|]. intros s p <- [= <-].
  destruct (db_publications s !! k) eqn:E; [apply H1|apply H2];
    simpl; rewrite lookup_fmap, E; reflexivity.
Qed.

Lemma vwlp_find_scope_row k V (Q : option DatasetScopeState → View → Prop) :
  (∀ p, v_scopes V !! k = Some (scope_view p) → Q (Some p) V) →
  (v_scopes V !! k = None → Q None V) → vwlp (find_obj db_scopes k) V Q.
Proof.
  intros H1 H2. apply vwlp_query; [auto with preserves|]. intros s p <- [= <-].
  destruct (db_scopes s !! k) eqn:E; [apply H1|apply H2];
    simpl; rewrite lookup_fmap, E; reflexivity.
Qed.

Lemma vwlp_find_job k V (Q : option PublicationJob → View → Prop) :
  (∀ p, v_jobs V !! k = Some (job_view p) → Q (Some p) V) →
  (v_jobs V !! k = None → Q None V) → vwlp (find_obj db_jobs k) V Q.
Proof.
  intros H1 H2. apply vwlp_query; [auto with preserves|]. intros s p <- [= <-].
  destruct (db_jobs s !! k) eqn:E; [apply H1|apply H2];
    simpl; rewrite lookup_fmap, E; reflexivity.
Qed.

Lemma vwlp_save_pub k f V (Q : unit → View → Prop) :
  (∀ p, v_pubs V !! k = Some (pub_view p) →
     Q tt (mkView (v_scopes V) (<[k:=pub_view (f p)]> (v_pubs V)) (v_jobs V))) →
  vwlp (save db_publications k f) V Q.
Proof.
  intros H s <-. unfold wlp, save. destruct (db_publications s !! k) as [p|] eqn:E; [|exact I].
  unfold view. simpl. rewrite fmap_insert. apply H. simpl. rewrite lookup_fmap, E. reflexivity.
Qed.

Lemma vwlp_save_scope k f V (Q : unit → View → Prop) :
  (∀ p, v_scopes V !! k = Some (scope_view p) →
     Q tt (mkView (<[k:=scope_view (f p)]> (v_scopes V)) (v_pubs V) (v_jobs V))) →
  vwlp (save db_scopes k f) V Q.
Proof.
  intros H s <-. unfold wlp, save. destruct (db_scopes s !! k) as [p|] eqn:E; [|exact I].
  unfold view. simpl. rewrite fmap_insert. apply H. simpl. rewrite lookup_fmap, E. reflexivity.
Qed.

Lemma vwlp_save_job k f V (Q : unit → View → Prop) :
  (∀ p, v_jobs V !! k = Some (job_view p) →
     Q tt (mkView (v_scopes V) (v_pubs V) (<[k:=job_view (f p)]> (v_jobs V)))) →
  vwlp (save db_jobs k f) V Q.
Proof.
  intros H s <-. unfold wlp, save. destruct (db_jobs s !! k) as [p|] eqn:E; [|exact I].
  unfold view. simpl. rewrite fmap_insert. apply H. simpl. rewrite lookup_fmap, E. reflexivity.
Qed.

Lemma vwlp_create_pub a V (Q : N → View → Prop) :
  (∀ k, v_pubs V !! k = None →
     Q k (mkView (v_scopes V) (<[k:=pub_view a]> (v_pubs V)) (v_jobs V))) →
  vwlp (create db_publications a) V Q.
Proof.
  intros H s <-. unfold wlp, create. unfold view. simpl. rewrite fmap_insert. apply H.
  simpl. rewrite lookup_fmap, fresh_id_fresh. reflexivity.
Qed.

Lemma vwlp_create_scope a V (Q : N → View → Prop) :
  (∀ k, v_scopes V !! k = None →
     Q k (mkView (<[k:=scope_view a]> (v_scopes V)) (v_pubs V) (v_jobs V))) →
  vwlp (create db_scopes a) V Q.
Proof.
  intros H s <-. unfold wlp, create. unfold view. simpl. rewrite fmap_insert. apply H.
  simpl. rewrite lookup_fmap, fresh_id_fresh. reflexivity.
Qed.

Lemma vwlp_create_job a V (Q : N → View → Prop) :
  (∀ k, v_jobs V !! k = None →
     Q k (mkView (v_scopes V) (v_pubs V) (<[k:=job_view a]> (v_jobs V)))) →
  vwlp (create db_jobs a) V Q.
Proof.
  intros H s <-. unfold wlp, create. unfold view. simpl. rewrite fmap_insert. apply H.
  simpl. rewrite lookup_fmap, fresh_id_fresh. reflexivity.
Qed.

(** A save whose effect on the view is [g]. *)
Lemma vwlp_pub_move g k f pv V (Q : unit → View → Prop) :
  v_pubs V !! k = Some pv → (∀ x, pub_view (f x) = g (pub_view x)) →
  Q tt (mkView (v_scopes V) (<[k:=g pv]> (v_pubs V)) (v_jobs V)) →
  vwlp (save db_publications k f) V Q.
Proof.
  intros Hk Hf HQ. apply vwlp_save_pub. intros p Hp. rewrite Hf.
  rewrite Hk in Hp. injection Hp as <-. exact HQ.
Qed.

Lemma vwlp_job_move g k f jv V (Q : unit → View → Prop) :
  v_jobs V !! k = Some jv → (∀ x, job_view (f x) = g (job_view x)) →
  Q tt (mkView (v_scopes V) (v_pubs V) (<[k:=g jv]> (v_jobs V))) →
  vwlp (save db_jobs k f) V Q.
Proof.
  intros Hk Hf HQ. apply vwlp_save_job. intros p Hp. rewrite Hf.
  rewrite Hk in Hp. injection Hp as <-. exact HQ.
Qed.

Lemma vwlp_scope_move g k f sv V (Q : unit → View → Prop) :
  v_scopes V !! k = Some sv → (∀ x, scope_view (f x) = g (scope_view x)) →
  Q tt (mkView (<[k:=g sv]> (v_scopes V)) (v_pubs V) (v_jobs V)) →
  vwlp (save db_scopes k f) V Q.
Proof.
  intros Hk Hf HQ. apply vwlp_save_scope. intros p Hp. rewrite Hf.
  rewrite Hk in Hp. injection Hp as <-. exact HQ.
Qed.

(** A query over one of the tables, with the row it finds. *)
Lemma vwlp_first_job P key V (Q : option (N * PublicationJob) → View → Prop) :
  (∀ k j, v_jobs V !! k = Some (job_view j) → P k j = true → Q (Some (k, j)) V) →
  (∀ s, view s = V → (∀ k j, db_jobs s !! k = Some j → P k j = false) → Q None V) →
  vwlp (first_where db_jobs P key) V Q.
Proof.
  intros H1 H2. apply vwlp_query; [auto with preserves|]. intros s r Hs [= <-].
  destruct (head _) as [[k j]|] eqn:E.
  - apply order_by_head_Some in E as [E _]. apply rows_elem in E as [E HP].
    apply H1; [|exact HP]. rewrite <- Hs. simpl. rewrite lookup_fmap, E. reflexivity.
  - apply order_by_head_None in E. apply (H2 s Hs). intros k j Hk.
    destruct (P k j) eqn:HP; [|reflexivity].
    assert (Hin : (k, j) ∈ rows (db_jobs s) P) by (apply rows_elem; auto).
    rewrite E in Hin. inversion Hin.
Qed.

Lemma vwlp_first_scope P key V (Q : option (N * DatasetScopeState) → View → Prop) :
  (∀ k j, v_scopes V !! k = Some (scope_view j) → P k j = true → Q (Some (k, j)) V) →
  (∀ s, view s = V → (∀ k j, db_scopes s !! k = Some j → P k j = false) → Q None V) →
  vwlp (first_where db_scopes P key) V Q.
Proof.
  intros H1 H2. apply vwlp_query; [auto with preserves|]. intros s r Hs [= <-].
  destruct (head _) as [[k j]|] eqn:E.
  - apply order_by_head_Some in E as [E _]. apply rows_elem in E as [E HP].
    apply H1; [|exact HP]. rewrite <- Hs. simpl. rewrite lookup_fmap, E. reflexivity.
  - apply order_by_head_None in E. apply (H2 s Hs). intros k j Hk.
    destruct (P k j) eqn:HP; [|reflexivity].
    assert (Hin : (k, j) ∈ rows (db_scopes s) P) by (apply rows_elem; auto).
    rewrite E in Hin. inversion Hin.
Qed.
End rules.

(** ** Automation *)

(** Boolean conditions of the code as propositions. *)
Ltac bools :=
  repeat match goal with
  | H : andb _ _ = true |- _ => apply andb_true_iff in H as [? ?]
  | H : orb _ _ = false |- _ => apply orb_false_iff in H as [? ?]
  | H : negb _ = true |- _ => apply negb_true_iff in H
  | H : negb _ = false |- _ => apply negb_false_iff in H
  | H : bool_decide _ = true |- _ => apply bool_decide_eq_true in H
  | H : bool_decide _ = false |- _ => apply bool_decide_eq_false in H
  | H : N.eqb _ _ = true |- _ => apply N.eqb_eq in H
  | H : Z.eqb _ _ = true |- _ => apply Z.eqb_eq in H
  | H : String.eqb _ _ = true |- _ => apply String.eqb_eq in H
  end.

(** One step of the symbolic run of a service. *)
Ltac vstep :=
  lazymatch goal with
  | |- vwlp (bind _ _) _ _ => apply vwlp_bind
  | |- vwlp (ret _) _ _ => apply vwlp_ret
  | |- vwlp (raise _ _) _ _ => apply vwlp_raise
  | |- vwlp (atomic _) _ _ => apply vwlp_atomic
  | |- vwlp (guard _ _ _) _ _ => apply vwlp_guard; intros; bools
  | |- vwlp (get_obj db_publications _) _ _ => apply vwlp_get_pub; intros
  | |- vwlp (get_obj db_scopes _) _ _ => apply vwlp_get_scope; intros
  | |- vwlp (get_obj db_jobs _) _ _ => apply vwlp_get_job; intros
  | |- vwlp (find_obj db_publications _) _ _ => apply vwlp_find_pub; intros
  | |- vwlp (find_obj db_scopes _) _ _ => apply vwlp_find_scope_row; intros
  | |- vwlp (find_obj db_jobs _) _ _ => apply vwlp_find_job; intros
  | |- vwlp (match ?x with _ => _ end) _ _ => let E := fresh "E" in destruct x eqn:E; bools
  | _ => apply vwlp_quiet; [solve [preserve]|intros]
  end.

(** Queries and bookkeeping that the view does not notice. *)
Ltac vskip := apply vwlp_bind, vwlp_quiet; [solve [preserve]|intros].

(** A save of a status: the view's row before it is in the context. *)
Ltac moved := cbn [v_scopes v_pubs v_jobs].
Ltac pub_to st :=
  eapply (vwlp_pub_move (pub_to st)); [eassumption|intros; reflexivity|]; moved.
Ltac job_to st :=
  eapply (vwlp_job_move (job_to st)); [eassumption|intros; reflexivity|]; moved.
