(* ===== verification/QueueSim.v ===== *)
(** The queue services refine the lifecycle: marking a scope dirty, enqueueing,
    coalescing, cancelling redundant work and claiming move the view by lifecycle
    steps only. *)
From S2P Require Import Prelude Models Registry Lifecycle Store Authorization Fingerprint.
From S2P Require Import Artifacts Restore Queue Simulation.

(** ** Owners and scopes *)

Definition owner_key (o : Owner) : option N * option N * string :=
  let '(_, department, station, dataset_type_code) := o in
  (department, station, dataset_type_code).

Definition owner_type (o : Owner) : string := let '(t, _, _, _) := o in t.

(** The registry determines the scope type of an owner. *)
Lemma owner_ok_type {S} t d x c (s : S) :
  owner_ok (t, d, x, c) = true → _registered_scope_type c s = (Val t, s).
Proof.
  unfold owner_ok, validate_dataset_scope, _registered_scope_type, get_dataset_definition,
    bind, get_or_raise, ret, raise.
  destruct (DATASET_REGISTRY c) as [def|]; [|easy].
  destruct (String.eqb_spec t (scope_upper (dt_scope def))) as [->|]; easy.
Qed.

Lemma owner_key_inj o o' : owner_ok o = true → owner_ok o' = true →
  owner_key o = owner_key o' → o = o'.
Proof.
  destruct o as [[[t d] x] c], o' as [[[t' d'] x'] c']. simpl. intros H H' [= <- <- <-].
  pose proof (owner_ok_type _ _ _ _ tt H) as E. rewrite (owner_ok_type _ _ _ _ tt H') in E.
  congruence.
Qed.

(** The scope that a job, an attempt or a request names is unique. *)
Lemma same_scope V c1 c2 x y : Inv V → v_scopes V !! c1 = Some x → v_scopes V !! c2 = Some y →
  owner_key (sv_owner x) = owner_key (sv_owner y) → c1 = c2 ∧ x = y.
Proof.
  intros I Hx Hy E. assert (c1 = c2) as ->; [|split; congruence].
  eapply (inv_owner V I); [exact Hx|exact Hy|].
  eapply owner_key_inj; eauto using inv_owner_ok.
Qed.

Lemma vwlp_scope_type c V Q :
  (∀ t, (∀ o, owner_ok o = true → (owner_key o).2 = c → owner_type o = t) → Q t V) →
  vwlp (_registered_scope_type c) V Q.
Proof.
  intros H. apply vwlp_query; [auto with preserves|]. intros s t _ E. apply H.
  intros [[[t' d] x] c'] Ho. simpl. intros ->.
  rewrite (owner_ok_type _ _ _ _ s Ho) in E. congruence.
Qed.

Lemma scope_filter_owner t d x c k sc :
  scope_filter t d x c k sc = true ↔ sv_owner (scope_view sc) = (t, d, x, c).
Proof.
  unfold scope_filter, _scope_filter, scope_view. simpl.
  rewrite !andb_true_iff, !bool_decide_eq_true, !String.eqb_eq. split.
  - intros [[[-> ->] ->] ->]. reflexivity.
  - intros [= -> -> -> ->]. auto.
Qed.

Lemma vwlp_locked_scope d x c V Q :
  (∀ k sc, v_scopes V !! k = Some (scope_view sc) →
     owner_key (sv_owner (scope_view sc)) = (d, x, c) → Q (k, sc) V) →
  vwlp (_locked_scope d x c) V Q.
Proof.
  intros H. unfold _locked_scope. vskip. apply vwlp_bind, vwlp_scope_type.
  intros t _. apply vwlp_bind. unfold find_scope. apply vwlp_first_scope.
  - intros k sc Hk Hf. apply vwlp_ret, H; [exact Hk|].
    apply scope_filter_owner in Hf. rewrite Hf. reflexivity.
  - intros. apply vwlp_raise.
Qed.

(** The job that was read and the scope that was locked for it. *)
Lemma job_scope V k sc j job : Inv V →
  v_scopes V !! k = Some (scope_view sc) → v_jobs V !! j = Some (job_view job) →
  owner_key (sv_owner (scope_view sc)) =
    (job_department job, job_station job, job_dataset_type_code job) →
  job_scope_state job = k ∧ sv_owner (scope_view sc) = jv_owner (job_view job).
Proof.
  intros I Hk Hj E. destruct (inv_job_scope V I _ _ Hj) as (sv & Hs & Ho).
  destruct (same_scope V _ _ _ _ I Hs Hk) as [<- ->]; [|auto].
  rewrite Ho, E. reflexivity.
Qed.

(** ** The source and the dirty flag *)

Section queue_sim.
Context `{Settings} `{Hash}.

Lemma vwlp_current_source_state k sc V Q :
  (∀ sc' snapshot fp, scope_view sc' = scope_view sc → Q (sc', snapshot, fp) V) →
  vwlp (_current_source_state k sc) V Q.
Proof.
  intros H'. unfold _current_source_state. vskip.
  destruct (is_file_dataset _); [|apply vwlp_ret; auto].
  vskip. destruct (_ =? _); [apply vwlp_ret; auto|]. vskip. vskip. apply vwlp_ret. auto.
Qed.

(** *** Cancelling redundant pending jobs *)

Definition pending_in (V : View) (r : N * PublicationJob) : Prop :=
  v_jobs V !! r.1 = Some (job_view r.2) ∧ job_status r.2 = JOB_PENDING.

Lemma vwlp_cancel_pending now r V Q : Inv V → pending_in V r →
  (∀ V', lstep V V' → v_scopes V' = v_scopes V →
     (∀ j, j ≠ r.1 → v_jobs V' !! j = v_jobs V !! j) → Q tt V') →
  vwlp (cancel_pending now r) V Q.
Proof.
  destruct r as [jid j]. intros I [Hj Hp] HQ. simpl in *. apply vwlp_bind.
  destruct (job_build_publication j) as [pid|] eqn:B.
  - vstep. vstep. assert (Hs : pv_status (pub_view p) = STAGED).
    { eapply (inv_pending V I); [exact Hj|exact Hp|exact B|assumption]. }
    simpl in Hs. apply vwlp_when; [intros _|rewrite Hs; discriminate].
    pub_to PUB_CANCELLED. job_to JOB_CANCELLED.
    apply HQ; [|reflexivity|intros; apply lookup_insert_ne; congruence].
    eapply ls_cancel_staged; eassumption.
  - apply vwlp_ret. job_to JOB_CANCELLED.
    apply HQ; [|reflexivity|intros; apply lookup_insert_ne; congruence].
    eapply ls_cancel_pending; eassumption.
Qed.

Lemma vwlp_cancel_all now rs V Q : Inv V → NoDup rs.*1 → Forall (pending_in V) rs →
  (∀ V', rtc lstep V V' → v_scopes V' = v_scopes V → Q tt V') →
  vwlp (for_each rs (cancel_pending now)) V Q.
Proof.
  revert V. induction rs as [|r rs IH]; intros V I Hd Hp HQ; simpl.
  { apply vwlp_ret, HQ; reflexivity. }
  inversion Hd as [|? ? Hnot Hd']; subst. inversion Hp as [|? ? Hr Hp']; subst.
  apply vwlp_bind, vwlp_cancel_pending; [exact I|exact Hr|]. intros V' St Es Ej.
  apply IH; [eapply Inv_step; eassumption|exact Hd'| |].
  - rewrite Forall_forall in Hp' |- *. intros r' Hin. destruct (Hp' r' Hin) as [Hl Hs].
    split; [|exact Hs]. rewrite Ej; [exact Hl|]. intros E. apply Hnot. rewrite <- E.
    apply list_elem_of_fmap. eauto.
  - intros V'' Hr'' Es'. apply HQ; [|congruence]. eapply rtc_l; eassumption.
Qed.

Lemma rows_jobs_view s V P r : view s = V → r ∈ rows (db_jobs s) P →
  v_jobs V !! r.1 = Some (job_view r.2) ∧ P r.1 r.2 = true.
Proof.
  destruct r as [k j]. intros <- Hin. apply rows_elem in Hin as [Hk HP]. split; [|exact HP].
  simpl. rewrite lookup_fmap, Hk. reflexivity.
Qed.

Lemma rows_pubs_view s V P r : view s = V → r ∈ rows (db_publications s) P →
  v_pubs V !! r.1 = Some (pub_view r.2) ∧ P r.1 r.2 = true.
Proof.
  destruct r as [k j]. intros <- Hin. apply rows_elem in Hin as [Hk HP]. split; [|exact HP].
  simpl. rewrite lookup_fmap, Hk. reflexivity.
Qed.

(** A staged attempt always has its pending job, so nothing is left over. *)
Lemma no_unlinked_staged s c : Inv (view s) →
  rows (db_publications s) (λ pid p,
    N.eqb (pub_scope_state p) c && bool_decide (pub_status p = STAGED)
    && negb (has_active_build_job s pid)) = [].
Proof.
  intros I. apply elem_of_nil_inv. intros r Hin.
  apply (rows_pubs_view _ _ _ _ eq_refl) in Hin as [Hp HP]. bools.
  destruct (inv_staged _ I _ _ Hp) as (j & jv & Hj & Sj & Bj); [assumption|].
  simpl in Hj. rewrite lookup_fmap in Hj. destruct (db_jobs s !! j) as [job|] eqn:E; [|easy].
  simpl in Hj. injection Hj as <-.
  match goal with H : has_active_build_job _ _ = false |- _ =>
    eapply (proj1 (exists_row_false _ _)) in H; [|exact E] end.
  simpl in *. unfold is_active_job in *. rewrite Sj in *.
  rewrite bool_decide_true in * by exact Bj. discriminate.
Qed.

Lemma vwlp_cancel_redundant_pending c V Q : Inv V →
  (∀ V', rtc lstep V V' → v_scopes V' = v_scopes V → Q tt V') →
  vwlp (_cancel_redundant_pending c) V Q.
Proof.
  intros I HQ. unfold _cancel_redundant_pending. vskip. apply vwlp_bind.
  apply vwlp_query; [auto with preserves|]. intros s rs Hs [= <-].
  apply vwlp_bind, vwlp_cancel_all; [exact I|apply rows_NoDup| |].
  - apply Forall_forall. intros r Hin. apply (rows_jobs_view _ _ _ _ Hs) in Hin as [Hj HP].
    bools. split; assumption.
  - intros V' Hr Es. apply vwlp_bind, vwlp_query; [auto with preserves|].
    intros s' rs' Hs' [= <-]. rewrite no_unlinked_staged.
    + apply vwlp_ret, HQ; assumption.
    + rewrite Hs'. eapply Inv_steps; eassumption.
Qed.

Lemma vwlp_reconcile k sc fp V Q : Inv V →
  (∀ b sc' V', rtc lstep V V' → Inv V' → v_scopes V' = v_scopes V →
     scope_view sc' = scope_view sc → (b = false → V' = V) → Q (b, sc') V') →
  vwlp (_reconcile_clean_source k sc fp) V Q.
Proof.
  intros I HQ. unfold _reconcile_clean_source. vskip. destruct a.
  { apply vwlp_ret, HQ; auto. reflexivity. }
  vskip. apply vwlp_bind.
  assert (K : ∀ sc', scope_view sc' = scope_view sc → vwlp
    (bind (_cancel_redundant_pending k) (λ _, ret (true, sc'))) V Q).
  { intros sc' E. apply vwlp_bind, vwlp_cancel_redundant_pending; [exact I|].
    intros V' Hr Es. apply vwlp_ret, HQ; auto; [|discriminate]. eapply Inv_steps; eassumption. }
  destruct (_ || _); [vskip; vskip; apply vwlp_ret, K; reflexivity|apply vwlp_ret, K; reflexivity].
Qed.

(** *** Allocating the next version *)

Lemma max_version_above s c : fresh_version (view s) c (max_version s c + 1).
Proof.
  unfold max_version.
  assert (H' : ∀ l : list (N * DatasetPublication),
    0 ≤ foldr Z.max 0 ((λ r, pub_version_number r.2) <$> l) ∧
    ∀ r, r ∈ l → pub_version_number r.2 ≤ foldr Z.max 0 ((λ r, pub_version_number r.2) <$> l)).
  { induction l as [|r l [IH1 IH2]].
    - split; [reflexivity|]. intros r Hin. inversion Hin.
    - rewrite fmap_cons. cbn [foldr]. split; [lia|]. intros r' [->|Hin]%elem_of_cons; [lia|]. specialize (IH2 _ Hin). lia. }
  destruct (H' (rows (db_publications s) (λ _ p, N.eqb (pub_scope_state p) c))) as [H1 H2].
  split; [lia|]. intros p pv Hp Hc. simpl in Hp. rewrite lookup_fmap in Hp.
  destruct (db_publications s !! p) as [row|] eqn:E; [|discriminate].
  injection Hp as <-. simpl in *. specialize (H2 (p, row)). simpl in H2.
  enough (pub_version_number row ≤ foldr Z.max 0 ((λ r, pub_version_number r.2) <$>
    rows (db_publications s) (λ _ p, N.eqb (pub_scope_state p) c))) by lia.
  apply H2, rows_elem. split; [exact E|]. apply N.eqb_eq, Hc.
Qed.

Lemma vwlp_allocate k job fp snapshot V Q :
  (∀ p ver, v_pubs V !! p = None → fresh_version V k ver →
     Q p (mkView (v_scopes V)
       (<[p:=mkPV (jv_owner (job_view job)) k ver STAGED false]> (v_pubs V)) (v_jobs V))) →
  vwlp (_allocate_staged_publication k job fp snapshot) V Q.
Proof.
  intros HQ. unfold _allocate_staged_publication. vskip. apply vwlp_bind, vwlp_query;
    [auto with preserves|]. intros s n Hs [= <-]. vskip. apply vwlp_create_pub.
  intros p Hp. apply HQ; [exact Hp|]. rewrite <- Hs. apply max_version_above.
Qed.

Lemma vwlp_save_new_job job h V Q :
  h (mkExn EIntegrity "one_active_publication_job_per_scope") = Some (ret None) →
  Q None V →
  (∀ k, v_jobs V !! k = None →
     Q (Some k) (mkView (v_scopes V) (v_pubs V) (<[k:=job_view job]> (v_jobs V)))) →
  vwlp (try_except (bind (save_new_job job) (λ jid, ret (Some jid))) h) V Q.
Proof.
  intros Hh H1 H2 s <-. unfold wlp, try_except, save_new_job, bind, exists_where, gets.
  destruct (exists_row _ _); simpl.
  - rewrite Hh. exact H1.
  - unfold view. simpl. rewrite fmap_insert. apply H2. simpl.
    rewrite lookup_fmap, fresh_id_fresh. reflexivity.
Qed.

(** *** Enqueueing *)

Lemma vwlp_enqueue_new_job d x c k sc u tr db cl snapshot fp V : Inv V →
  v_scopes V !! k = Some (scope_view sc) →
  owner_key (sv_owner (scope_view sc)) = (d, x, c) → no_active_job V k →
  vwlp (enqueue_new_job d x c k sc u tr db cl snapshot fp) V (λ _ V', rtc lstep V V').
Proof.
  intros I Hk Ho Hno. unfold enqueue_new_job. vskip.
  apply vwlp_bind, vwlp_scope_type. intros t Ht.
  assert (Eo : sv_owner (scope_view sc) = (t, d, x, c)).
  { specialize (Ht _ (inv_owner_ok V I _ _ Hk)). rewrite Ho in Ht. specialize (Ht eq_refl).
    simpl in *. congruence. }
  vskip. apply vwlp_bind, vwlp_save_new_job; [reflexivity|apply vwlp_ret; reflexivity|].
  intros j Hj. apply vwlp_bind, vwlp_allocate. intros p ver Hp Hver. moved.
  apply vwlp_bind.
  eapply (vwlp_job_move (λ jv, mkJV (jv_owner jv) (jv_scope jv) (jv_status jv) (Some p)));
    [apply lookup_insert_eq|intros; reflexivity|].
  moved. rewrite insert_insert_eq. vskip. vskip. apply vwlp_ret, rtc_once.
  pose proof (ls_enqueue V k (scope_view sc) j p ver false Hk Hno Hj Hp Hver) as St.
  rewrite Eo in St. exact St.
Qed.

Lemma quiet_coalesce_pending jid j sc u tr cl snapshot fp :
  quiet (coalesce_pending jid j sc u tr cl snapshot fp).
Proof.
  unfold coalesce_pending. apply preserves_bind; [exact _|auto with preserves|intros now].
  apply preserves_bind; [exact _| |intros _; preserve].
  apply quiet_save_job. intros y. destruct tr; try reflexivity.
  unfold coalesce_job. case_bool_decide; reflexivity.
Qed.

Lemma no_active_found V k sc t d x c s : Inv V → view s = V →
  v_scopes V !! k = Some (scope_view sc) → sv_owner (scope_view sc) = (t, d, x, c) →
  (∀ j job, db_jobs s !! j = Some job → is_active_job job &&
     _scope_filter t d x c (job_scope_type job) (job_department job) (job_station job)
       (job_dataset_type_code job) = false) →
  no_active_job V k.
Proof.
  intros I Hs Hk Ho Hf j jv Hj Hc. destruct (inv_job_scope V I _ _ Hj) as (sv & Hsv & E).
  rewrite Hc, Hk in Hsv. injection Hsv as <-. rewrite Ho in E.
  rewrite <- Hs in Hj. simpl in Hj. rewrite lookup_fmap in Hj.
  destruct (db_jobs s !! j) as [job|] eqn:Ej; [|discriminate].
  injection Hj as <-. specialize (Hf _ _ Ej). simpl in E. injection E as -> -> -> ->.
  unfold _scope_filter in Hf. rewrite !String.eqb_refl, !bool_decide_true in Hf by reflexivity.
  rewrite andb_true_r in Hf. exact Hf.
Qed.

Lemma simulated_enqueue_publication_job d x c u tr db cl source :
  simulated (enqueue_publication_job d x c u tr db cl source).
Proof.
  apply simulated_atomic. intros V I. vskip.
  apply vwlp_bind, vwlp_locked_scope. intros k sc Hk Ho. apply vwlp_bind.
  eapply (vwlp_mono _ _ (λ r V', V' = V ∧ scope_view r.1.1 = scope_view sc)).
  { destruct source as [[snapshot fp]|]; [apply vwlp_ret; auto|].
    apply vwlp_bind, vwlp_current_source_state. intros sc' snapshot fp E. vskip.
    destruct (String.eqb _ _); [apply vwlp_ret; auto|]. vskip. vskip. apply vwlp_ret. auto. }
  intros [[sc' snapshot] fp] V' [-> E]. simpl in E. rewrite <- E in Hk, Ho. vskip.
  destruct (_ && _).
  { apply vwlp_bind, vwlp_reconcile; [exact I|]. intros. apply vwlp_ret. assumption. }
  apply vwlp_bind, vwlp_scope_type. intros t Ht. apply vwlp_bind, vwlp_first_job.
  - intros j job Hj Hf. destruct (bool_decide _); [apply vwlp_ret; reflexivity|].
    apply vwlp_bind, vwlp_quiet; [apply quiet_coalesce_pending|]. intros. apply vwlp_ret.
    reflexivity.
  - intros s Hs Hf. eapply vwlp_enqueue_new_job; try eassumption.
    eapply no_active_found; try eassumption.
    specialize (Ht _ (inv_owner_ok V I _ _ Hk)). rewrite Ho in Ht. specialize (Ht eq_refl).
    simpl in *. congruence.
Qed.

(** *** Scopes *)

Lemma owner_clean_ok c t d x s u s' :
  owner_clean c t d x s = (Val u, s') → owner_ok (t, d, x, c) = true.
Proof.
  unfold owner_clean, owner_ok, validate_dataset_scope, get_dataset_definition, bind,
    try_except, get_or_raise, ret, raise.
  destruct (DATASET_REGISTRY c) as [def|]; [|discriminate].
  destruct (String.eqb t (scope_upper (dt_scope def))); simpl; [|discriminate].
  destruct (String.eqb t "SYSTEM"); [destruct (_ || _); [discriminate|reflexivity]|].
  destruct (String.eqb t "DEPARTMENT"); [destruct (_ || _); [discriminate|reflexivity]|].
  destruct (String.eqb t "STATION"); [destruct (_ || _); [discriminate|reflexivity]|].
  discriminate.
Qed.

Lemma vwlp_get_or_create_scope d x c V Q : Inv V →
  (∀ k sc V', rtc lstep V V' → Inv V' → v_scopes V' !! k = Some (scope_view sc) →
     owner_key (sv_owner (scope_view sc)) = (d, x, c) → Q (k, sc) V') →
  vwlp (get_or_create_scope d x c) V Q.
Proof.
  intros I HQ. unfold get_or_create_scope. apply vwlp_bind, vwlp_scope_type. intros t _.
  apply vwlp_bind. unfold find_scope. apply vwlp_first_scope.
  - intros k sc Hk Hf. apply scope_filter_owner in Hf. apply vwlp_ret, HQ; auto; [reflexivity|].
    rewrite Hf. reflexivity.
  - intros s Hs Hf. apply vwlp_bind, vwlp_query; [auto with preserves|].
    intros s' u _ Hc. apply owner_clean_ok in Hc. vskip. apply vwlp_bind, vwlp_create_scope.
    intros k Hk. assert (St : lstep V (mkView
      (<[k:=mkSV (t, d, x, c) None None]> (v_scopes V)) (v_pubs V) (v_jobs V))).
    { apply ls_scope; [exact Hk|exact Hc|]. intros c' sv Hsv E. rewrite <- Hs in Hsv.
      simpl in Hsv. rewrite lookup_fmap in Hsv. destruct (db_scopes s !! c') as [sc|] eqn:Ec;
        [|discriminate]. injection Hsv as <-. specialize (Hf _ _ Ec).
      rewrite (proj2 (scope_filter_owner t d x c c' sc) E) in Hf. discriminate. }
    apply vwlp_ret, HQ; [apply rtc_once, St|eapply Inv_step; [exact I|exact St]| |reflexivity].
    apply lookup_insert_eq.
Qed.

(** The scopes of file libraries. *)
Lemma file_scope_ok l d : bool_decide (opt_true (lib_station l) = String.eqb (library_scope_type l) "STATION") = true →
  owner_ok (library_scope_type l, Some d, lib_station l, library_code l) = true.
Proof.
  unfold library_scope_type, library_code. intros Hs. apply bool_decide_eq_true in Hs.
  destruct (lib_department l), (lib_station l); try discriminate Hs; reflexivity.
Qed.

Lemma vwlp_lock_scope l V Q : Inv V →
  (∀ k sc V', rtc lstep V V' → Inv V' → v_scopes V' !! k = Some (scope_view sc) → Q (k, sc) V') →
  vwlp (lock_scope l) V Q.
Proof.
  intros I HQ. unfold lock_scope. vskip. unfold find_scope. apply vwlp_bind, vwlp_first_scope.
  - intros k sc Hk _. apply vwlp_ret, HQ; auto. reflexivity.
  - intros s Hs Hf. apply vwlp_bind, vwlp_guard. intros Hg. vskip. apply vwlp_bind, vwlp_create_scope.
    intros k Hk.
    match goal with |- vwlp _ ?V' _ => assert (St : lstep V V') end.
    { apply ls_scope; [exact Hk|apply file_scope_ok, Hg|]. intros c' sv Hsv E. rewrite <- Hs in Hsv.
      simpl in Hsv. rewrite lookup_fmap in Hsv. destruct (db_scopes s !! c') as [sc|] eqn:Ec;
        [|discriminate]. injection Hsv as <-. specialize (Hf _ _ Ec).
      apply (scope_filter_owner _ _ _ _ c') in E. cbn in E. congruence. }
    apply vwlp_ret, HQ; [apply rtc_once, St|eapply Inv_step; [exact I|exact St]|].
    apply lookup_insert_eq.
Qed.

Lemma simulated_initialize_library l : simulated (initialize_library l).
Proof.
  apply simulated_atomic. intros V I. vskip. apply vwlp_bind, vwlp_lock_scope; [exact I|].
  intros k sc V1 R1 I1 _. vskip.
  apply vwlp_bind, vwlp_when; intros _; [|apply vwlp_ret; exact R1].
  apply vwlp_bind, vwlp_call; [apply simulated_enqueue_publication_job|exact I1|].
  intros o V2 R2 I2. apply vwlp_ret, vwlp_ret. etrans; eassumption.
Qed.

Lemma simulated_mark_dirty d x c u : simulated (mark_dirty d x c u).
Proof.
  apply simulated_atomic. intros V I. vskip. vskip. vskip.
  apply vwlp_bind, vwlp_get_or_create_scope; [exact I|]. intros k sc V1 R1 I1 Hk Ho.
  apply vwlp_bind, vwlp_current_source_state. intros sc' snapshot fp E.
  apply vwlp_bind. eapply (vwlp_mono _ _ (λ _ V', V' = V1)).
  { destruct (is_file_dataset c); [vskip|]; apply vwlp_ret; reflexivity. }
  intros sc2 V' ->. vskip. vskip. apply vwlp_bind.
  eapply (vwlp_mono _ _ (λ _ V', rtc lstep V V' ∧ Inv V')).
  { match goal with |- vwlp (if ?b then _ else _) _ _ => destruct b end;
      [apply vwlp_ret; auto|].
    apply vwlp_bind, vwlp_reconcile; [exact I1|]. intros b sc3 V2 R2 I2 _ _ _.
    apply vwlp_ret. split; [etrans; eassumption|exact I2]. }
  intros sc3 V2 [R2 I2]. vskip. vskip. apply vwlp_bind.
  eapply (vwlp_mono _ _ (λ _ V', rtc lstep V V')).
  { match goal with |- vwlp (if ?b then _ else _) _ _ => destruct b end;
      [|apply vwlp_ret; exact R2].
    apply vwlp_bind, vwlp_call; [apply simulated_enqueue_publication_job|exact I2|].
    intros o V3 R3 I3. apply vwlp_ret. etrans; eassumption. }
  intros _ V3 R3. apply vwlp_ret. exact R3.
Qed.

(** *** Claiming *)

(** The candidate row was read before its transaction: only the identity of the
    job is sure. *)
Definition candidate_ok (V : View) (r : N * PublicationJob) : Prop :=
  ∃ jv, v_jobs V !! r.1 = Some jv ∧ jv_owner jv = jv_owner (job_view r.2).

Lemma candidate_kept V V' r : rtc lstep V V' → candidate_ok V r → candidate_ok V' r.
Proof.
  intros Hr (jv & Hj & E). destruct (steps_job _ _ _ _ Hr Hj) as (jv' & ? & ? & _).
  exists jv'. split; congruence.
Qed.

Lemma registered_job V j job : Inv V → v_jobs V !! j = Some (job_view job) →
  DATASET_REGISTRY (job_dataset_type_code job) ≠ None.
Proof.
  intros I Hj. destruct (inv_job_scope V I _ _ Hj) as (sv & Hs & E).
  pose proof (inv_owner_ok V I _ _ Hs) as Ho. rewrite E in Ho. simpl in Ho.
  unfold validate_dataset_scope, get_dataset_definition, bind, get_or_raise, raise in Ho.
  destruct (DATASET_REGISTRY _); [discriminate|discriminate Ho].
Qed.

Lemma vwlp_freeze_claim now jid pid sc p snapshot fp jv pv V Q :
  v_jobs V !! jid = Some jv → v_pubs V !! pid = Some pv →
  Q tt (mkView (v_scopes V) (<[pid:=pub_to BUILDING pv]> (v_pubs V))
          (<[jid:=job_claimed pid jv]> (v_jobs V))) →
  vwlp (freeze_claim now jid pid sc p snapshot fp) V Q.
Proof.
  intros Hj Hp HQ. apply vwlp_bind. pub_to BUILDING. vskip.
  eapply (vwlp_job_move (job_claimed pid)); [exact Hj|intros; reflexivity|exact HQ].
Qed.

Lemma vwlp_claim_job r V : Inv V → candidate_ok V r →
  vwlp (_claim_job r) V (λ _ V', rtc lstep V V').
Proof.
  destruct r as [jid preview]. intros I (jv & Hjv & Eo). simpl in Hjv. apply vwlp_atomic.
  apply vwlp_bind, vwlp_locked_scope. intros k sc Hk Ho. apply vwlp_bind, vwlp_find_job;
    [|intros; apply vwlp_ret; reflexivity]. intros job Hj.
  rewrite Hjv in Hj. injection Hj as ->. simpl in Eo. injection Eo as _ Ed Ex Ec.
  assert (Hs : job_scope_state job = k).
  { eapply (job_scope V k sc jid job I Hk Hjv). rewrite Ho. congruence. }
  pose proof (registered_job _ _ _ I Hjv) as Hr.
  destruct (bool_decide _) eqn:Hp; bools; simpl; [|apply vwlp_ret; reflexivity].
  destruct (DATASET_REGISTRY _); [|congruence]. vskip.
  apply vwlp_bind, vwlp_current_source_state. intros sc' snapshot fp E'. vskip.
  apply vwlp_bind. eapply (vwlp_mono _ _ (λ _ V', V' = V)).
  { destruct (String.eqb _ _); [|vskip]; apply vwlp_ret; reflexivity. }
  intros sc2 V' ->. apply vwlp_bind.
  eapply (vwlp_mono _ _ (λ r V', rtc lstep V V' ∧ (r.1 = false → V' = V))).
  { destruct (_ && _); [|apply vwlp_ret; simpl; split; [reflexivity|auto]].
    apply vwlp_reconcile; [exact I|]. intros b sc3 V2 R2 _ _ _ Hb. simpl. auto. }
  intros [clean sc3] V2 [R2 Hb]. simpl in Hb.
  destruct clean; [apply vwlp_ret; exact R2|]. rewrite (Hb eq_refl). clear Hb R2 V2.
  apply vwlp_bind. unfold claim_publication. simpl.
  destruct (job_build_publication job) as [pid|] eqn:B.
  - destruct (inv_build V I _ _ _ Hjv B) as (pv & Hpv & _). vstep. apply vwlp_find_pub;
      [|congruence]. intros p Hpp. apply vwlp_ret. simpl.
    assert (pv_status (pub_view p) = STAGED) as Sp by (eapply (inv_pending V I); eassumption).
    simpl in Sp. rewrite Sp. simpl. apply vwlp_bind.
    eapply vwlp_freeze_claim; [exact Hjv|exact Hpp|]. apply vwlp_ret, rtc_once.
    eapply ls_claim; eassumption.
  - vstep. apply vwlp_allocate. intros pid ver Hn Hv. vstep. apply vwlp_get_pub. moved.
    intros p Hpp. rewrite lookup_insert_eq in Hpp. apply (inj Some) in Hpp.
    assert (Sp : pv_status (pub_view p) = STAGED) by (rewrite <- Hpp; reflexivity). simpl in Sp.
    apply vwlp_ret. simpl. rewrite Sp. simpl. apply vwlp_bind.
    eapply vwlp_freeze_claim; [exact Hjv|apply lookup_insert_eq|]. moved.
    rewrite insert_insert_eq. apply vwlp_ret, rtc_once. rewrite <- Hs in Hv |- *.
    exact (ls_claim_new V jid (job_view job) pid ver false Hjv Hp B Hn Hv).
Qed.

Lemma quiet_heartbeat_job jid : quiet (heartbeat_job jid).
Proof. unfold heartbeat_job. preserve. Qed.

Lemma claim_candidates_ok s : Forall (candidate_ok (view s)) (claim_candidates s).
Proof.
  apply Forall_forall. intros [j job] Hin. unfold claim_candidates in Hin.
  apply order_by_elem in Hin. apply (rows_jobs_view _ _ _ _ eq_refl) in Hin as [Hj _].
  eexists. split; [exact Hj|reflexivity].
Qed.
End queue_sim.
