(* ===== verification/AdminSim.v ===== *)
(** The build, the administrator services, the retention and the worker loop refine
    the lifecycle: each handler is simulated by the abstract steps of its view. *)
From S2P Require Import Prelude Models Registry Lifecycle Store Authorization Fingerprint.
From S2P Require Import Artifacts Restore Queue Build Worker Admin Retention Simulation.
From S2P Require Import QueueSim.

(** What the worker needs of the code it calls: the document generation writes
    no scope, attempt or job. *)
Class BuildersQuiet `{Builders} : Prop :=
  build_document_quiet : ∀ pid s, same_view s (build_document_v2 pid s).2.

Section build_sim.
Context `{Settings} `{Hash} `{DocumentGenerations}.

Lemma quiet_queue_follow_up_if_stale job : quiet (_queue_follow_up_if_stale job).
Proof. unfold _queue_follow_up_if_stale. preserve. Qed.

Hint Resolve quiet_queue_follow_up_if_stale : preserves.

(** ** Failing *)

Lemma vwlp_fail_publication pid e pv V Q :
  v_pubs V !! pid = Some pv → pv_status pv = BUILDING →
  Q tt (mkView (v_scopes V) (<[pid:=pub_done PUB_FAILED false pv]> (v_pubs V)) (v_jobs V)) →
  vwlp (fail_publication pid e) V Q.
Proof.
  intros Hp Hs HQ. apply vwlp_bind, vwlp_find_pub; [|congruence]. intros p Hp'. vskip.
  rewrite Hp in Hp'. injection Hp' as ->. simpl in Hs.
  apply vwlp_when; [intros _|rewrite Hs; discriminate]. apply vwlp_bind.
  eapply (vwlp_pub_move (pub_done PUB_FAILED false)); [exact Hp|intros; reflexivity|].
  vskip. apply vwlp_ret. exact HQ.
Qed.

Lemma job_quit_idle V V' jid job : v_jobs V !! jid = Some (job_view job) →
  job_status job ≠ JOB_RUNNING → job_quit jid V V'.
Proof. intros Hj Hn jv p G R. rewrite Hj in G. injection G as <-. contradiction. Qed.

Lemma job_quit_at V V' jid jv pid pv : v_jobs V !! jid = Some jv → jv_build jv = Some pid →
  v_pubs V' !! pid = Some pv → past_status (pv_status pv) = true → job_quit jid V V'.
Proof. intros Hj B G P jv' p Hj' R B'. simplify_eq. eauto. Qed.

(** The job is over, one way or the other. *)
Lemma vwlp_fail_job jid m c V : Inv V →
  vwlp (fail_publication_job jid m c) V (λ _ V', rtc lstep V V' ∧ job_quit jid V V').
Proof.
  intros I. apply vwlp_atomic, vwlp_bind. vstep.
  apply vwlp_bind, vwlp_locked_scope. intros k sc Hk Ho. apply vwlp_bind, vwlp_get_job.
  intros job Hj. destruct (bool_decide _) eqn:Hr; bools;
    [|apply vwlp_ret; split; [reflexivity|eapply job_quit_idle; eassumption]]. vskip.
  destruct (inv_running V I _ _ Hj Hr) as (pid & pv & B & Hp & Hs). simpl in B. rewrite B.
  apply vwlp_bind. job_to JOB_FAILED. apply vwlp_bind.
  eapply vwlp_fail_publication; [exact Hp|exact Hs|]. vskip. vskip. apply vwlp_ret. moved.
  split; [apply rtc_once; eapply ls_end; eauto|].
  eapply job_quit_at; [exact Hj|exact B|apply lookup_insert_eq|reflexivity].
Qed.

Lemma simulated_fail_publication_job jid m c : simulated (fail_publication_job jid m c).
Proof.
  apply simulated_vwlp; [intros s e s'; apply atomic_Exc|]. intros V I.
  eapply vwlp_mono; [apply vwlp_fail_job, I|]. intros ? ? [R _]. exact R.
Qed.

(** A build that ends and leaves its artifact columns alone. *)
Lemma ls_end_to V j jv p pv stj stp :
  v_jobs V !! j = Some jv → jv_status jv = JOB_RUNNING → jv_build jv = Some p →
  v_pubs V !! p = Some pv → dead_job_status stj = true → dead_pub_status stp = true →
  lstep V (mkView (v_scopes V) (<[p := pub_to stp pv]> (v_pubs V))
    (<[j := job_to stj jv]> (v_jobs V))).
Proof. exact (ls_end V j jv p pv stj stp (pv_ready pv)). Qed.

(** ** Finalizing *)

Lemma vwlp_obsolete_attempt now jid pid p a f jv pv V Q :
  v_jobs V !! jid = Some jv → v_pubs V !! pid = Some pv →
  (∀ x, pub_view (f x) = pub_view x) →
  Q tt (mkView (v_scopes V) (<[pid:=pub_to PUB_OBSOLETE pv]> (v_pubs V))
          (<[jid:=job_to JOB_OBSOLETE jv]> (v_jobs V))) →
  vwlp (obsolete_attempt now jid pid p a f) V Q.
Proof.
  intros Hj Hp Hf HQ. vskip. apply vwlp_bind.
  eapply (vwlp_pub_move (pub_to PUB_OBSOLETE)); [exact Hp|intros x; rewrite Hf; reflexivity|].
  vskip. moved. job_to JOB_OBSOLETE. exact HQ.
Qed.

(** The current publication, as [publication_of] reads it. *)
Lemma vwlp_publication_of fk V Q :
  (fk = None → Q None V) →
  (∀ pid p, fk = Some pid → v_pubs V !! pid = Some (pub_view p) → Q (Some (pid, p)) V) →
  vwlp (publication_of fk) V Q.
Proof.
  intros Hn Hs. unfold publication_of. destruct fk as [pid|]; [|apply vwlp_ret; auto].
  apply vwlp_bind, vwlp_get_pub. intros p Hp. apply vwlp_ret. auto.
Qed.

Lemma vwlp_supersede_current previous V Q :
  match previous with
  | Some (pid, p) => v_pubs V !! pid = Some (pub_view p) | None => True end →
  Q tt (mkView (v_scopes V) (superseded (fst <$> previous) (v_pubs V)) (v_jobs V)) →
  vwlp (supersede_current previous) V Q.
Proof.
  intros Hp HQ. destruct previous as [[pid p]|]; simpl in *.
  - rewrite Hp in HQ. vskip. pub_to SUPERSEDED. exact HQ.
  - apply vwlp_ret. destruct V. exact HQ.
Qed.

Lemma superseded_neq current m p pv : current ≠ Some p → m !! p = Some pv →
  superseded current m !! p = Some pv.
Proof. intros Hne Hp. rewrite superseded_other; assumption. Qed.

(** The running job, its scope and its attempt. *)
Lemma building_attempt V k sc jid job pid : Inv V →
  v_scopes V !! k = Some (scope_view sc) → v_jobs V !! jid = Some (job_view job) →
  owner_key (sv_owner (scope_view sc)) =
    (job_department job, job_station job, job_dataset_type_code job) →
  job_status job = JOB_RUNNING → job_build_publication job = Some pid →
  ∃ pv, v_pubs V !! pid = Some pv ∧ pv_status pv = BUILDING ∧ pv_scope pv = k
    ∧ sv_current (scope_view sc) ≠ Some pid.
Proof.
  intros I Hk Hj Ho Hr B. destruct (inv_running V I _ _ Hj Hr) as (p & pv & B' & Hp & Hs).
  simpl in B'. rewrite B in B'. injection B' as <-. exists pv. split_and!; [exact Hp|exact Hs| |].
  - destruct (inv_build V I _ _ _ Hj B) as (pv' & Hp' & Es). simplify_eq. rewrite Es.
    eapply (job_scope V k sc jid job); eassumption.
  - intros E. destruct (inv_current V I _ _ _ Hk E) as (? & ? & _ & ?). congruence.
Qed.

Lemma vwlp_publish_attempt now jid job k sc pid p previous fp pv jv V Q :
  v_jobs V !! jid = Some jv → v_pubs V !! pid = Some pv →
  v_scopes V !! k = Some (scope_view sc) →
  sv_current (scope_view sc) ≠ Some pid →
  fst <$> previous = sv_current (scope_view sc) →
  match previous with
  | Some (q, row) => v_pubs V !! q = Some (pub_view row) | None => True end →
  Q tt (mkView
      (<[k := mkSV (sv_owner (scope_view sc)) (Some pid) (Some pid)]> (v_scopes V))
      (<[pid := pub_done PUBLISHED true pv]>
         (superseded (sv_current (scope_view sc)) (v_pubs V)))
      (<[jid := job_to JOB_SUCCEEDED jv]> (v_jobs V))) →
  vwlp (publish_attempt now jid job k sc pid p previous fp) V Q.
Proof.
  intros Hj Hp Hk Hne Hprev Hrow HQ. apply vwlp_bind, vwlp_supersede_current; [exact Hrow|].
  rewrite Hprev. vskip. apply vwlp_bind.
  eapply (vwlp_pub_move (pub_done PUBLISHED true)); moved;
    [apply superseded_neq; [exact Hne|exact Hp]|intros; reflexivity|].
  moved. vskip. apply vwlp_bind.
  eapply (vwlp_scope_move (λ sv, mkSV (sv_owner sv) (Some pid) (Some pid))); moved;
    [exact Hk|intros; reflexivity|].
  moved. apply vwlp_bind. job_to JOB_SUCCEEDED. vskip.
  apply vwlp_quiet; [preserve|]. intros []. exact HQ.
Qed.

(** Two reads of a job in one transaction name the same scope. *)
Lemma same_job_key (a b : PublicationJob) : job_view a = job_view b →
  (job_department a, job_station a, job_dataset_type_code a)
  = (job_department b, job_station b, job_dataset_type_code b).
Proof. intros [= _ -> -> -> _ _ _]. reflexivity. Qed.

(** The job is over, one way or the other. *)
Lemma vwlp_finalize jid summary artifact fp V : Inv V →
  vwlp (finalize_publication_job jid summary artifact fp) V
    (λ _ V', rtc lstep V V' ∧ job_quit jid V V').
Proof.
  intros I. apply vwlp_atomic. apply vwlp_bind, vwlp_get_job. intros preview Hpre.
  apply vwlp_bind, vwlp_locked_scope. intros k sc Hk Ho. apply vwlp_bind, vwlp_get_job.
  intros job Hj. assert (Ej := Hj). rewrite Hpre in Ej. apply (inj Some), same_job_key in Ej.
  rewrite Ej in Ho. destruct (bool_decide (job_status job = JOB_RUNNING)) eqn:Hr; bools; simpl;
    [|vskip; apply vwlp_ret; split; [reflexivity|]; eapply job_quit_idle; eassumption].
  destruct (job_build_publication job) as [pid|] eqn:B;
    [|destruct (inv_running V I _ _ Hj Hr) as (? & ? & ? & _); simpl in *; congruence].
  destruct (building_attempt _ _ _ _ _ _ I Hk Hj Ho Hr B) as (pv & Hp & Hs & Hc & Hne).
  vskip. apply vwlp_bind, vwlp_get_pub. intros p Hp'. rewrite Hp in Hp'. injection Hp' as ->.
  simpl in Hs. rewrite Hs. simpl. vskip. vskip. apply vwlp_bind, vwlp_quiet; [preserve|].
  intros latest. vskip. apply vwlp_bind.
  eapply (vwlp_mono _ _ (λ previous V', V' = V ∧ fst <$> previous = sv_current (scope_view sc) ∧
    match previous with
    | Some (q, row) => v_pubs V !! q = Some (pub_view row) | None => True end)).
  { apply vwlp_publication_of; [intros E|intros q row E Hq]; split_and!; auto. }
  intros previous V' (-> & Hprev & Hrow).
  match goal with |- vwlp (if ?b then _ else _) _ _ => destruct b end; [|
  match goal with |- vwlp (if ?b then _ else _) _ _ => destruct b end].
  - apply vwlp_bind. eapply vwlp_obsolete_attempt; [exact Hj|exact Hp|reflexivity|]. vskip.
    apply vwlp_bind, vwlp_call; [apply simulated_enqueue_publication_job| |].
    + eapply Inv_step; [exact I|]. eapply ls_end_to; eauto.
    + intros o V' R _. assert (St := ls_end_to V jid _ pid _ JOB_OBSOLETE PUB_OBSOLETE Hj Hr B
        Hp eq_refl eq_refl). apply vwlp_ret. split; [eapply rtc_l; [exact St|exact R]|].
      destruct (steps_past _ _ pid (pub_to PUB_OBSOLETE _) (Inv_step _ _ I St) R
        (lookup_insert_eq _ _ _) eq_refl) as (pv' & G & P).
      eapply job_quit_at; [exact Hj|exact B|exact G|exact P].
  - apply vwlp_bind. eapply vwlp_obsolete_attempt; [exact Hj|exact Hp|reflexivity|]. vskip.
    vskip. apply vwlp_ret. split; [apply rtc_once; eapply ls_end_to; eauto|].
    eapply job_quit_at; [exact Hj|exact B|apply lookup_insert_eq|reflexivity].
  - apply vwlp_bind. eapply vwlp_publish_attempt; [exact Hj|exact Hp|exact Hk|exact Hne|
      exact Hprev|exact Hrow|]. apply vwlp_ret. rewrite <- Hc in Hk |- *.
    split; [apply rtc_once; eapply ls_publish; eauto|].
    eapply job_quit_at; [exact Hj|exact B|apply lookup_insert_eq|reflexivity].
Qed.

Lemma simulated_finalize_publication_job jid summary artifact fp :
  simulated (finalize_publication_job jid summary artifact fp).
Proof.
  apply simulated_vwlp; [intros s e s'; apply atomic_Exc|]. intros V I.
  eapply vwlp_mono; [apply vwlp_finalize, I|]. intros ? ? [R _]. exact R.
Qed.

(** ** Recovering *)

Lemma vwlp_recover_job cutoff n acc jid V : Inv V →
  vwlp (recover_job cutoff n acc jid) V (λ _ V', rtc lstep V V').
Proof.
  intros I. apply vwlp_bind, vwlp_find_job; [|intros; apply vwlp_ret; reflexivity].
  intros preview Hpre. apply vwlp_bind, vwlp_locked_scope. intros k sc Hk Ho.
  apply vwlp_bind, vwlp_find_job; [|intros; apply vwlp_ret; reflexivity].
  intros job Hj. destruct (is_stale_job cutoff job) eqn:Hst; simpl; [|apply vwlp_ret; reflexivity].
  unfold is_stale_job in Hst. bools.
  destruct (inv_running V I _ _ Hj ltac:(assumption)) as (pid & pv & B & Hp & Hs).
  simpl in B. rewrite B. apply vwlp_bind.
  eapply (vwlp_mono _ _ (λ _ V', V' = mkView (v_scopes V)
    (<[pid:=pub_to PUB_FAILED pv]> (v_pubs V)) (v_jobs V))).
  { apply vwlp_bind, vwlp_find_pub; [|congruence]. intros p Hp'. rewrite Hp in Hp'.
    injection Hp' as ->. simpl in Hs. rewrite Hs. simpl. apply vwlp_bind.
    pub_to PUB_FAILED. vskip. apply vwlp_ret. reflexivity. }
  intros _ V' ->. vskip. destruct (_ <=? _).
  - apply vwlp_bind. moved. job_to JOB_FAILED. vskip. apply vwlp_ret, rtc_once.
    eapply ls_end_to; eauto.
  - apply vwlp_bind. moved.
    eapply (vwlp_job_move job_requeued).
    + exact Hj.
    + intros x. reflexivity.
    + moved. apply vwlp_ret, rtc_once. eapply ls_retry; eauto.
Qed.

(** A loop whose iterations are simulated inside one transaction. *)
Lemma vwlp_fold_sim {A B} (f : B → A → M Db B) l b V : Inv V →
  (∀ b x V, Inv V → vwlp (f b x) V (λ _ V', rtc lstep V V')) →
  vwlp (fold_m f b l) V (λ _ V', rtc lstep V V').
Proof.
  intros I Hf. revert b V I. induction l as [|x l IH]; intros b V I; simpl.
  { apply vwlp_ret. reflexivity. }
  apply vwlp_bind. eapply vwlp_mono; [apply Hf, I|]. intros b' V' R.
  eapply vwlp_mono; [apply IH; eapply Inv_steps; eassumption|].
  intros b'' V'' R'. cbv beta in *. etrans; [exact R|exact R'].
Qed.

Lemma simulated_recover_stale_jobs timeout n : simulated (recover_stale_jobs timeout n).
Proof.
  apply simulated_atomic. intros V I. vskip. vskip. vskip. vskip.
  apply vwlp_fold_sim; [exact I|]. intros. apply vwlp_recover_job. assumption.
Qed.
End build_sim.

Section admin_sim.
Context `{Settings} `{Hash} `{DocumentGenerations}.

(** ** The publication an administrator names, and its scope *)

Lemma vwlp_administered actor pid V Q :
  (∀ p, v_pubs V !! pid = Some (pub_view p) → Q p V) →
  vwlp (administered_publication actor pid) V Q.
Proof.
  intros HQ. apply vwlp_bind, vwlp_get_pub. intros p Hp. vskip. apply vwlp_ret, HQ, Hp.
Qed.

Definition pub_key (p : DatasetPublication) : option N * option N * string :=
  (pub_department p, pub_station p, pub_dataset_type_code p).

Lemma vwlp_scope_of_publication p V Q :
  (∀ k sc, v_scopes V !! k = Some (scope_view sc) →
     owner_key (sv_owner (scope_view sc)) = pub_key p → Q (k, sc) V) →
  vwlp (scope_of_publication p) V Q.
Proof. apply vwlp_locked_scope. Qed.

Lemma same_pub_key a b : pub_view a = pub_view b → pub_key a = pub_key b.
Proof. unfold pub_key. intros [= _ -> -> -> _ _ _ _]. reflexivity. Qed.

Lemma pub_scope V k sc pid p : Inv V →
  v_scopes V !! k = Some (scope_view sc) → v_pubs V !! pid = Some (pub_view p) →
  owner_key (sv_owner (scope_view sc)) = pub_key p → pub_scope_state p = k.
Proof.
  intros I Hk Hp E. destruct (inv_pub_scope V I _ _ Hp) as (sv & Hs & Ho).
  destruct (same_scope V _ _ _ _ I Hs Hk) as [Ek _]; [rewrite Ho, E; reflexivity|].
  exact Ek.
Qed.

(** What the restore policy has checked when it gives no reason. *)
Lemma metadata_restorable p k sc s r s' :
  publication_restore_metadata_blocked_reason p k sc true s = (Val r, s') →
  str_true r = false → pub_scope_state p = k ∧ pub_status p = SUPERSEDED.
Proof.
  unfold publication_restore_metadata_blocked_reason. intros E Hr.
  destruct (_ || (true && negb (bool_decide (pub_status p = SUPERSEDED)))) eqn:B.
  - injection E as <- _. discriminate.
  - rewrite andb_true_l in B. bools. auto.
Qed.

Lemma restorable pid p k sc s r s' :
  publication_restore_blocked_reason pid p k sc true s = (Val r, s') →
  str_true r = false → pub_scope_state p = k ∧ pub_status p = SUPERSEDED.
Proof.
  intros E Hr. apply bind_Val in E as (r0 & s0 & E0 & E).
  apply bind_Val in E as (def & s1 & Ed & E).
  destruct (str_true r0 || _) eqn:B.
  - injection E as <- _. eapply metadata_restorable; eassumption.
  - bools. eapply metadata_restorable; eassumption.
Qed.

Lemma not_current V k sc pid pv : Inv V → v_scopes V !! k = Some (scope_view sc) →
  v_pubs V !! pid = Some pv → pv_status pv ≠ PUBLISHED →
  sv_current (scope_view sc) ≠ Some pid.
Proof.
  intros I Hk Hp Hne E. destruct (inv_current V I _ _ _ Hk E) as (? & ? & _ & ?). congruence.
Qed.

(** The current publication of a locked scope. *)
Lemma vwlp_current sc V Q :
  (∀ previous, fst <$> previous = sv_current (scope_view sc) →
     match previous with
     | Some (q, row) => v_pubs V !! q = Some (pub_view row) | None => True end →
     Q previous V) →
  vwlp (publication_of (sc_current_published_publication sc)) V Q.
Proof.
  intros HQ. apply vwlp_publication_of; intros; apply HQ; auto.
Qed.

(** ** Review *)

Lemma simulated_publish_publication actor pid : simulated (publish_publication actor pid).
Proof.
  apply simulated_atomic. intros V I. apply vwlp_bind, vwlp_administered. intros p0 Hp0.
  vskip. vskip. vskip. apply vwlp_bind, vwlp_scope_of_publication. intros k sc Hk Ho.
  apply vwlp_bind, vwlp_get_pub. intros p Hp. assert (E := Hp). rewrite Hp0 in E.
  apply (inj Some), same_pub_key in E. rewrite E in Ho.
  apply vwlp_bind, vwlp_guard. intros Hs. bools. vskip. vskip. vskip. vskip.
  assert (Es := pub_scope _ _ _ _ _ I Hk Hp Ho).
  assert (Hne : sv_current (scope_view sc) ≠ Some pid).
  { eapply not_current; eauto. simpl. congruence. }
  apply vwlp_bind, vwlp_current. intros previous Hprev Hrow.
  apply vwlp_bind, vwlp_supersede_current; [exact Hrow|]. rewrite Hprev. vskip.
  apply vwlp_bind. eapply (vwlp_pub_move (pub_to PUBLISHED)); moved;
    [apply superseded_neq; eassumption|intros; reflexivity|].
  moved. apply vwlp_bind.
  eapply (vwlp_scope_move (λ sv, mkSV (sv_owner sv) (Some pid) (sv_latest sv))); moved;
    [exact Hk|intros; reflexivity|].
  moved. vskip. vskip. apply vwlp_ret, rtc_once. rewrite <- Es in Hk |- *.
  exact (ls_activate V pid (pub_view p) (scope_view sc) Hp (or_intror Hs) Hk).
Qed.

Lemma simulated_reject_publication actor pid : simulated (reject_publication actor pid).
Proof.
  apply simulated_atomic. intros V I. apply vwlp_bind, vwlp_administered. intros p Hp.
  apply vwlp_bind, vwlp_guard. intros Hs. bools. vskip. apply vwlp_bind. pub_to REJECTED.
  vskip. apply vwlp_ret, rtc_once. eapply ls_reject; eassumption.
Qed.

(** ** Rebuilding and staging *)

Lemma simulated_request_rebuild actor d x c : simulated (request_rebuild actor d x c).
Proof.
  apply simulated_atomic. intros V I. vskip. vskip. vskip.
  apply vwlp_bind, vwlp_get_or_create_scope; [exact I|]. intros k sc V1 R1 I1 _ _.
  vskip. vskip. apply vwlp_bind.
  eapply (vwlp_call _ V1); [|exact I1|].
  { apply preserves_try_except; [exact _| |].
    - apply preserves_bind; [exact _|apply simulated_enqueue_publication_job|intros; preserve].
    - intros e m E. destruct (exn_kind e); simplify_eq. auto with preserves. }
  intros _ V2 R2 I2. vskip. vskip. vskip. apply vwlp_ret. etrans; eassumption.
Qed.

Lemma simulated_stage_publication_update actor d x c :
  simulated (stage_publication_update actor d x c).
Proof.
  apply simulated_atomic. intros V I. vskip. vskip.
  apply vwlp_bind, vwlp_locked_scope. intros k sc Hk Ho. apply vwlp_bind.
  eapply (vwlp_mono _ _ (λ _ V', rtc lstep V V' ∧ Inv V')).
  { destruct (is_file_dataset c); [|apply vwlp_ret; split; [reflexivity|exact I]].
    apply vwlp_bind, vwlp_current_source_state. intros.
    apply vwlp_reconcile; [exact I|]. auto. }
  intros [clean sc'] V1 [R1 I1]. destruct clean; [apply vwlp_ret; exact R1|].
  vskip. vskip. vskip. vskip.
  apply vwlp_bind, vwlp_call; [apply simulated_enqueue_publication_job|exact I1|].
  intros q V2 R2 I2. vskip. vskip. apply vwlp_ret. etrans; eassumption.
Qed.

Lemma quiet_promote_staged actor jid pid p sc : quiet (promote_staged actor jid pid p sc).
Proof. unfold promote_staged. preserve. Qed.

Hint Resolve quiet_promote_staged : preserves.

Lemma simulated_build_staged_publication actor k :
  simulated (build_staged_publication actor k).
Proof.
  apply simulated_atomic. intros V I. vskip. vskip.
  apply vwlp_bind, vwlp_locked_scope. intros k' sc Hk Ho. vskip.
  destruct (_ ≫= _) as [[[jid job] pid]|]; [|apply vwlp_raise]. vskip.
  match goal with |- vwlp (match ?o with _ => _ end) _ _ => destruct o as [p|] end;
    [|apply vwlp_raise].
  vskip. destruct (is_file_dataset _); [|apply vwlp_quiet; [preserve|reflexivity]].
  vskip. vskip. vskip. vskip. apply vwlp_bind.
  eapply (vwlp_mono _ _ (λ _ V', rtc lstep V V')).
  { destruct (job_allow_clean_rebuild job); [apply vwlp_ret; reflexivity|].
    apply vwlp_reconcile; [exact I|]. auto. }
  intros [clean sc'] V1 R1. destruct clean; [apply vwlp_ret; exact R1|].
  apply vwlp_quiet; [preserve|auto].
Qed.

(** ** Cancelling *)

Lemma vwlp_build_job_of pid V Q :
  (∀ jid job, v_jobs V !! jid = Some (job_view job) → job_build_publication job = Some pid →
     Q (Some (jid, job)) V) →
  ((∀ j jv, v_jobs V !! j = Some jv → jv_build jv ≠ Some pid) → Q None V) →
  vwlp (build_job_of pid) V Q.
Proof.
  intros Hs Hn. apply vwlp_first_job.
  - intros jid job Hj Hb. bools. auto.
  - intros s <- Hf. apply Hn. intros j jv Hj E. simpl in Hj. rewrite lookup_fmap in Hj.
    destruct (db_jobs s !! j) as [job|] eqn:Ej; [|discriminate]. injection Hj as <-.
    specialize (Hf _ _ Ej). rewrite bool_decide_true in Hf by exact E. discriminate.
Qed.

Lemma simulated_delete_staged_publication actor pid :
  simulated (delete_staged_publication actor pid).
Proof.
  apply simulated_atomic. intros V I. apply vwlp_bind, vwlp_administered. intros p0 Hp0.
  apply vwlp_bind, vwlp_scope_of_publication. intros k sc Hk Ho.
  apply vwlp_bind, vwlp_build_job_of.
  - intros jid job Hj B. apply vwlp_bind, vwlp_get_pub. intros p Hp.
    apply vwlp_bind, vwlp_guard. intros Hs. bools. apply vwlp_bind, vwlp_guard. intros Hr. bools.
    apply vwlp_bind. pub_to PUB_CANCELLED. apply vwlp_bind. vskip. job_to JOB_CANCELLED.
    match goal with |- vwlp _ ?V1 _ => assert (St : lstep V V1) by
      (eapply ls_cancel_staged; eassumption) end.
    apply vwlp_bind. eapply (vwlp_mono _ _ (λ _ V', rtc lstep V V')).
    + apply vwlp_when; [intros _|intros _; apply rtc_once; exact St].
      apply vwlp_bind, vwlp_current_source_state. intros sc' snapshot fp _.
      apply vwlp_bind, vwlp_reconcile; [eapply Inv_step; eassumption|].
      intros b sc2 V2 R2 _ _ _ _. apply vwlp_ret. eapply rtc_l; eassumption.
    + intros _ V2 R2. vskip. apply vwlp_ret. exact R2.
  - intros Hn. apply vwlp_bind, vwlp_get_pub. intros p Hp.
    apply vwlp_bind, vwlp_guard. intros Hs. bools.
    destruct (inv_staged V I _ _ Hp ltac:(assumption)) as (j & jv & Hj & _ & Hb).
    destruct (Hn _ _ Hj Hb).
Qed.

Lemma simulated_cancel_publication_build actor pid :
  simulated (cancel_publication_build actor pid).
Proof.
  apply simulated_atomic. intros V I. apply vwlp_bind, vwlp_administered. intros p0 Hp0.
  apply vwlp_bind, vwlp_scope_of_publication. intros k sc Hk Ho.
  apply vwlp_bind, vwlp_build_job_of; [|intros; apply vwlp_raise].
  intros jid job Hj B. apply vwlp_bind, vwlp_get_pub. intros p Hp.
  apply vwlp_bind, vwlp_guard. intros Hs. bools. vskip.
  apply vwlp_bind. pub_to PUB_CANCELLED. vskip. vskip. apply vwlp_bind. job_to JOB_CANCELLED.
  vskip. vskip. apply vwlp_ret, rtc_once. eapply ls_end_to; eauto.
Qed.

(** ** Rollback and deletion *)

Lemma vwlp_activate_publication k sc target actor action pv V Q : Inv V →
  v_scopes V !! k = Some (scope_view sc) → v_pubs V !! target = Some pv →
  pv_status pv = SUPERSEDED → pv_scope pv = k →
  (∀ V', V' = mkView
       (<[k := mkSV (sv_owner (scope_view sc)) (Some target) (sv_latest (scope_view sc))]>
          (v_scopes V))
       (<[target := pub_to PUBLISHED pv]>
          (superseded (sv_current (scope_view sc)) (v_pubs V))) (v_jobs V) →
     lstep V V' → Q tt V') →
  vwlp (_activate_publication k sc target actor action) V Q.
Proof.
  intros I Hk Hp Hs Es HQ.
  assert (Hne : sv_current (scope_view sc) ≠ Some target).
  { eapply not_current; eauto. congruence. }
  apply vwlp_bind, vwlp_current. intros previous Hprev Hrow. apply vwlp_bind.
  assert (K : vwlp (supersede_current previous) V (λ _ V', V' = mkView (v_scopes V)
    (superseded (sv_current (scope_view sc)) (v_pubs V)) (v_jobs V))).
  { apply vwlp_supersede_current; [exact Hrow|]. rewrite Hprev. reflexivity. }
  eapply vwlp_mono.
  { destruct previous as [[q row]|].
    - destruct (N.eqb_spec q target) as [->|]; [exfalso; auto|exact K].
    - exact K. }
  intros _ V1 ->. vskip. apply vwlp_bind.
  eapply (vwlp_pub_move (pub_to PUBLISHED)); moved;
    [apply superseded_neq; eassumption|intros; reflexivity|].
  moved. apply vwlp_bind.
  eapply (vwlp_scope_move (λ sv, mkSV (sv_owner sv) (Some target) (sv_latest sv))); moved;
    [exact Hk|intros; reflexivity|].
  moved. apply vwlp_quiet; [preserve|]. intros []. apply HQ; [reflexivity|].
  rewrite <- Es in Hk |- *. eapply ls_activate; eauto.
Qed.

Lemma simulated_rollback_publication actor pid : simulated (rollback_publication actor pid).
Proof.
  apply simulated_atomic. intros V I. apply vwlp_bind, vwlp_administered. intros p0 Hp0.
  vskip. apply vwlp_bind, vwlp_scope_of_publication. intros k sc Hk Ho.
  apply vwlp_bind, vwlp_get_pub. intros p Hp.
  apply vwlp_bind, vwlp_query; [auto with preserves|]. intros s r _ Hr.
  destruct (str_true r) eqn:Er; [apply vwlp_bind, vwlp_raise|].
  destruct (restorable _ _ _ _ _ _ _ Hr Er) as [Es Hs]. vskip.
  apply vwlp_bind, vwlp_current. intros previous Hprev Hrow.
  destruct previous as [[q row]|]; [|apply vwlp_raise]. vskip. vskip. apply vwlp_bind.
  eapply vwlp_activate_publication; [exact I|exact Hk|exact Hp|exact Hs|exact Es|].
  intros V' _ St. vskip. apply vwlp_ret, rtc_once, St.
Qed.

Lemma vwlp_retire_publication pid p k latest current pv sv V Q :
  v_pubs V !! pid = Some pv → pv_status pv = SUPERSEDED → pv_scope pv = k →
  v_scopes V !! k = Some sv → sv_latest sv = latest → sv_current sv = current →
  (∀ V', lstep V V' → Q tt V') →
  vwlp (retire_publication pid p k latest current) V Q.
Proof.
  intros Hp Hs <- Hk <- <- HQ. vskip. apply vwlp_bind. pub_to PUB_OBSOLETE. vskip.
  pose proof (ls_retire V pid pv sv Hp Hs Hk) as St. apply vwlp_bind, vwlp_when.
  - intros E. vskip. rewrite E in St.
    eapply (vwlp_scope_move (λ sv', mkSV (sv_owner sv') (sv_current sv') (sv_current sv)));
      moved; [exact Hk|intros; reflexivity|]. moved.
    apply vwlp_quiet; [preserve|]. intros []. apply HQ, St.
  - intros E. rewrite E, insert_id in St by (destruct sv; exact Hk).
    apply vwlp_quiet; [preserve|]. intros []. apply HQ, St.
Qed.

Lemma vwlp_find_first (f : option (N * DatasetPublication) → N * DatasetPublication →
    M Db (option (N * DatasetPublication))) l found V Q :
  (∀ r x, f (Some r) x = ret (Some r)) →
  (∀ x s, wlp (f None x) s (λ r s', s' = s ∧ (r = None ∨ r = Some x))) →
  Q found V → (∀ r, r ∈ l → Q (Some r) V) →
  vwlp (fold_m f found l) V Q.
Proof.
  intros Hf1 Hf2 HQ Hl. revert found HQ. induction l as [|x l IH]; intros found HQ; simpl.
  { apply vwlp_ret, HQ. }
  apply vwlp_bind. destruct found as [r|].
  - rewrite Hf1. apply vwlp_ret, IH; [|exact HQ]. intros r' Hin. apply Hl. right. exact Hin.
  - intros s Hs. eapply wlp_mono; [apply Hf2|]. intros r s' [-> Hr].
    rewrite Hs. apply IH.
    + intros r' Hin. apply Hl. right. exact Hin.
    + destruct Hr as [->| ->]; [exact HQ|apply Hl; left].
Qed.

(** The predecessor a deletion activates is a superseded publication of the scope. *)
Lemma vwlp_eligible_predecessor k sc n V Q :
  Q None V →
  (∀ target row, v_pubs V !! target = Some (pub_view row) → pub_scope_state row = k →
     pub_status row = SUPERSEDED → Q (Some (target, row)) V) →
  vwlp (_eligible_predecessor k sc n) V Q.
Proof.
  intros Hn Hs. apply vwlp_bind, vwlp_query; [auto with preserves|]. intros s l Hv [= <-].
  apply vwlp_find_first.
  - intros [t row] [t' row']. reflexivity.
  - intros [t row] s'. apply wlp_bind, readonly_wlp; [auto with preserves|]. intros r _.
    apply wlp_ret. split; [reflexivity|]. destruct (str_true r); auto.
  - exact Hn.
  - intros [t row] Hin. apply order_by_elem in Hin.
    apply (rows_pubs_view _ _ _ _ Hv) in Hin as [Hp HP]. bools. apply Hs; assumption.
Qed.

Lemma simulated_delete_publication actor pid : simulated (delete_publication actor pid).
Proof.
  apply simulated_atomic. intros V I. apply vwlp_bind, vwlp_administered. intros p0 Hp0.
  vskip. apply vwlp_bind, vwlp_scope_of_publication. intros k sc Hk Ho.
  apply vwlp_bind, vwlp_get_pub. intros p Hp. apply vwlp_bind, vwlp_guard. intros Es. bools.
  apply vwlp_bind.
  eapply (vwlp_mono _ _ (λ current V', rtc lstep V V' ∧ ∃ pv sv, v_pubs V' !! pid = Some pv ∧
    pv_status pv = SUPERSEDED ∧ pv_scope pv = k ∧ v_scopes V' !! k = Some sv ∧
    sv_latest sv = sv_latest (scope_view sc) ∧ sv_current sv = current)).
  - destruct (pub_status p) eqn:Hs; try apply vwlp_raise.
    + apply vwlp_bind, vwlp_guard. intros Hc. bools. vskip. vskip.
      apply vwlp_bind, vwlp_eligible_predecessor; [apply vwlp_raise|].
      intros target row Ht Et St. apply vwlp_bind.
      eapply vwlp_activate_publication; [exact I|exact Hk|exact Ht|exact St|exact Et|].
      intros V' -> Hst. vskip. apply vwlp_ret. split; [apply rtc_once, Hst|].
      exists (pub_to SUPERSEDED (pub_view p)), (mkSV (sv_owner (scope_view sc)) (Some target)
        (sv_latest (scope_view sc))). moved. split_and!; try reflexivity.
      * rewrite lookup_insert_ne; [|intros ->; rewrite Hp in Ht; injection Ht; congruence]. simpl. rewrite Hc.
        apply superseded_same, Hp.
      * exact Es.
      * apply lookup_insert_eq.
    + apply vwlp_ret. split; [reflexivity|]. eauto 10.
  - intros current V' (R & pv & sv & Hp' & Hs' & Es' & Hk' & Hl & Hc). apply vwlp_bind.
    eapply vwlp_retire_publication; [exact Hp'|exact Hs'|exact Es'|exact Hk'|exact Hl|exact Hc|].
    intros V2 St. vskip. apply vwlp_ret. eapply rtc_r; eassumption.
Qed.

(** ** Bulk rebuild *)

Lemma simulated_bulk_request_rebuilds actor d : simulated (bulk_request_rebuilds actor d).
Proof.
  apply simulated_atomic. intros V I. vskip. vskip. vskip. apply vwlp_bind.
  eapply vwlp_mono.
  - apply vwlp_fold_sim; [exact I|]. intros counts [k sc] V1 I1. destruct counts.
    unfold bulk_scope. destruct (mem_N _ _); [apply vwlp_ret; reflexivity|]. vskip.
    destruct (negb _); [apply vwlp_ret; reflexivity|]. vskip.
    apply vwlp_bind, vwlp_call; [apply simulated_enqueue_publication_job|exact I1|].
    intros q V2 R2 _. destruct q; [|apply vwlp_ret; exact R2].
    match goal with |- vwlp (if ?b then _ else _) _ _ => destruct b end; apply vwlp_ret; exact R2.
  - intros counts V1 R1. cbv beta in R1. vskip. vskip. apply vwlp_ret. exact R1.
Qed.

(** ** Retention *)

Lemma simulated_process_candidate now dry pid : simulated (_process_candidate now dry pid).
Proof.
  apply simulated_atomic. intros V I. apply vwlp_bind, vwlp_find_pub;
    [|intros; apply vwlp_ret; reflexivity]. intros preview Hpre.
  apply vwlp_bind, vwlp_find_scope_row; [|intros; apply vwlp_ret; reflexivity].
  intros sc Hk. vskip. match goal with |- vwlp (if ?b then _ else _) _ _ => destruct b end;
    [apply vwlp_ret; reflexivity|]. vskip.
  apply vwlp_bind, vwlp_find_pub; [|intros; apply vwlp_ret; reflexivity]. intros p Hp.
  destruct (negb _); [apply vwlp_ret; reflexivity|].
  assert (T : ∀ job, vwlp (process_terminal pid p job now dry) V (λ _ V', rtc lstep V V')).
  { intros job. apply vwlp_quiet; [unfold process_terminal; preserve|reflexivity]. }
  destruct (pub_status p) eqn:Hs; try apply T. unfold process_superseded.
  destruct (bool_decide _); [apply vwlp_ret; reflexivity|]. vskip.
  match goal with |- vwlp (if ?b then _ else _) _ _ => destruct b end;
    [apply vwlp_ret; reflexivity|].
  destruct dry; [apply vwlp_ret; reflexivity|]. apply vwlp_bind.
  eapply vwlp_retire_publication; [exact Hp|exact Hs| |exact Hk|reflexivity|reflexivity|].
  - rewrite Hpre in Hp. apply (inj Some) in Hp.
    change (pv_scope (pub_view p) = pub_scope_state preview). rewrite <- Hp. reflexivity.
  - intros V1 St. vskip. apply vwlp_ret, rtc_once, St.
Qed.
End admin_sim.

Section worker_sim.
Context `{Settings} `{Hash} `{DocumentGenerations} `{ArtifactStore}.

(** ** Commit *)

Lemma quiet_remove_after_commit p : quiet (remove_after_commit p).
Proof. unfold remove_after_commit. preserve. Qed.

Hint Resolve quiet_remove_after_commit : preserves.

Lemma quiet_process_cleanup_record k : quiet (_process_cleanup_record k).
Proof. unfold _process_cleanup_record. preserve. Qed.

Lemma simulated_run_callback c : simulated (run_callback c).
Proof.
  destruct c; simpl.
  - apply simulated_quiet. auto with preserves.
  - apply simulated_quiet. auto with preserves.
  - apply simulated_quiet, quiet_process_cleanup_record.
  - apply simulated_quiet. intros s. reflexivity.
  - apply preserves_bind; [exact _|apply simulated_enqueue_publication_job|].
    auto with preserves.
Qed.

(** A transaction that commits lifecycle steps, then its callbacks. *)
Lemma commit_sim {A} (m : M Db A) s :
  (Inv (view s) → wlp m s (λ _ s', rtc lstep (view s) (view s'))) → sim s (commit m s).2.
Proof.
  intros Hm I. specialize (Hm I). unfold commit, wlp in *.
  destruct (m s) as [[a|e] s']; [|simpl; reflexivity].
  etrans; [exact Hm|].
  assert (P : simulated (bind (for_each (db_on_commit s') run_callback) (λ _, ret a))).
  { apply preserves_bind; [exact _| |auto with preserves].
    apply preserves_for_each; [exact _|]. apply simulated_run_callback. }
  specialize (P (s' <| db_on_commit := [] |>)). unfold sim in P.
  rewrite (unseen (tbl := db_on_commit)) in P. apply P.
  eapply Inv_steps; [exact I|exact Hm].
Qed.

Lemma simulated_commit {A} (m : M Db A) : simulated m → simulated (commit m).
Proof.
  intros Hm s. apply commit_sim. intros I. eapply wlp_mono; [apply preserves_wlp, Hm|].
  auto.
Qed.

(** ** Claiming *)

Lemma claim_first_sim cs s : Inv (view s) → Forall (candidate_ok (view s)) cs →
  rtc lstep (view s) (view (claim_first cs s).2).
Proof.
  revert s. induction cs as [|c cs IH]; intros s I Hc; simpl; [reflexivity|].
  inversion Hc as [|? ? Hc1 Hc2]; subst.
  assert (R : rtc lstep (view s) (view (commit (_claim_job c) s).2)).
  { apply commit_sim; [|exact I]. intros _. apply (vwlp_claim_job c); auto. }
  unfold bind. destruct (commit (_claim_job c) s) as [[o|e] s'] eqn:E; [|exact R].
  simpl in R. destruct o as [j|]; [exact R|]. etrans; [exact R|]. apply IH.
  - eapply Inv_steps; eassumption.
  - eapply Forall_impl; [exact Hc2|]. intros r. apply candidate_kept, R.
Qed.

Lemma simulated_claim_next_job : simulated claim_next_job.
Proof.
  intros s I. apply claim_first_sim; [exact I|apply claim_candidates_ok].
Qed.

(** ** Retention *)

Lemma simulated_run_publication_retention n dry : simulated (run_publication_retention n dry).
Proof.
  unfold run_publication_retention.
  apply preserves_bind; [exact _|auto with preserves|intros _].
  apply preserves_bind; [exact _|auto with preserves|intros now].
  apply preserves_bind; [exact _|auto with preserves|intros ids].
  apply preserves_fold_m; [exact _|]. intros r pid.
  apply preserves_bind; [exact _|apply simulated_commit, simulated_process_candidate|].
  auto with preserves.
Qed.
(** ** Building *)

Context `{BuildersQuiet} (interleave : nat → M Db unit)
  (Hint : ∀ n, simulated (interleave n)).

Lemma quiet_of_outcome {A} (o : outcome A) : quiet (of_outcome o).
Proof. destruct o; simpl; auto with preserves. Qed.

Lemma quiet_compensate_artifact a : quiet (_compensate_artifact a).
Proof. unfold _compensate_artifact. preserve. Qed.

Lemma readonly_build_is_still_running jid : readonly (_build_is_still_running jid).
Proof. unfold _build_is_still_running. preserve. Qed.

Hint Resolve quiet_of_outcome quiet_compensate_artifact readonly_build_is_still_running
  : preserves.
Hint Resolve Hint : preserves.
Hint Extern 9 (preserves sim _) => apply simulated_quiet : preserves.

Lemma simulated_build_failed jid a e m : build_failed jid a e = Some m → simulated m.
Proof.
  unfold build_failed. intros E. destruct (exn_kind e); simplify_eq.
  all: apply preserves_bind; [exact _|auto with preserves|intros _].
  all: apply simulated_commit, simulated_fail_publication_job.
Qed.

Lemma simulated_build_inputs jid job pid : simulated (build_inputs interleave jid job pid).
Proof. unfold build_inputs. preserve. Qed.

Lemma simulated_release_if_terminal pid : simulated (release_if_terminal pid).
Proof.
  unfold release_if_terminal. apply preserves_bind; [exact _|auto with preserves|intros p].
  apply preserves_when; [exact _|intros _].
  apply preserves_bind; [exact _| |auto with preserves].
  apply simulated_commit. auto with preserves.
Qed.

Lemma simulated_discard_created l : simulated (discard_created l).
Proof.
  apply preserves_for_each; [exact _|]. intros [i p]. apply simulated_commit, simulated_quiet.
  preserve.
Qed.

Lemma quiet_build_generation pid : quiet (build_generation pid).
Proof.
  intros s. unfold build_generation. destruct (db_publications s !! pid); [|reflexivity].
  destruct (negb _); [reflexivity|]. pose proof (build_document_quiet pid s) as B.
  destruct (build_document_v2 pid s) as [[[u|e] l] s']; [exact B|].
  destruct (exn_kind e); reflexivity.
Qed.

Hint Resolve simulated_build_inputs simulated_release_if_terminal simulated_discard_created
  quiet_build_generation : preserves.

Lemma simulated_build_outputs jid pid summary a p g :
  simulated (build_outputs interleave jid pid summary a p g).
Proof.
  unfold build_outputs. preserve. apply simulated_commit, simulated_finalize_publication_job.
Qed.

Hint Resolve simulated_build_outputs : preserves.

Lemma simulated_build_claimed_job jid : simulated (build_claimed_job interleave jid).
Proof.
  unfold build_claimed_job. apply preserves_bind; [exact _|auto with preserves|intros job].
  destruct (negb _); [auto with preserves|].
  destruct (job_build_publication job) as [pid|];
    [|apply simulated_commit, simulated_fail_publication_job].
  apply preserves_bind; [exact _| |intros [r|[[[summary a] p]|]]]; [|auto with preserves| |
    auto with preserves].
  - apply preserves_try_except; [exact _|preserve|]. intros e m E.
    destruct (build_failed jid None e) as [m'|] eqn:Ef; [|discriminate]. injection E as <-.
    apply preserves_bind; [exact _|eapply simulated_build_failed; exact Ef|].
    auto with preserves.
  - apply preserves_bind; [exact _|destruct (is_document_v2 p); auto with preserves|].
    intros [g l]. apply preserves_try_finally; [exact _| |auto with preserves].
    apply preserves_try_except; [exact _|auto with preserves|].
    intros e m E. eapply simulated_build_failed, E.
Qed.

Lemma simulated_process_next_job : simulated (process_next_job interleave).
Proof.
  unfold process_next_job.
  apply preserves_bind; [exact _|apply simulated_claim_next_job|intros [jid|]];
    [|auto with preserves].
  apply preserves_bind; [exact _|apply simulated_build_claimed_job|auto with preserves].
Qed.

Lemma simulated_build_loop n b : simulated (build_loop interleave n b).
Proof.
  revert b. induction n as [|n IH]; intros b; simpl; [auto with preserves|].
  apply preserves_bind; [exact _|apply simulated_process_next_job|intros [j|]];
    [apply IH|auto with preserves].
Qed.

Lemma simulated_initialize_missing_libraries : simulated initialize_missing_libraries.
Proof.
  assert (∀ d x, simulated (initialize_owner d x)).
  { intros d x. unfold initialize_owner. apply preserves_bind; [exact _| |intros [k l]].
    - apply simulated_commit, simulated_quiet. unfold get_or_create_library. preserve.
    - apply preserves_bind; [exact _|apply simulated_commit, simulated_initialize_library|].
      auto with preserves. }
  unfold initialize_missing_libraries. preserve.
Qed.

Lemma simulated_process_build_cycle n : simulated (process_build_cycle interleave n).
Proof.
  unfold process_build_cycle.
  apply preserves_bind; [exact _|exact simulated_initialize_missing_libraries|intros _].
  apply preserves_bind; [exact _|apply simulated_commit, simulated_recover_stale_jobs|].
  intros r. apply preserves_bind; [exact _|apply simulated_build_loop|auto with preserves].
Qed.
End worker_sim.
