(* ===== verification/System.v ===== *)
(** The publication system: its services as requests, what happens between two
    requests as environment moves, the stores that can be reached, and what holds
    in all of them. *)
From S2P Require Import Prelude Models Registry Lifecycle Store Authorization Fingerprint.
From S2P Require Import Artifacts Restore Queue Build Worker Admin Retention Simulation.
From S2P Require Import QueueSim AdminSim.

(** A call of one of the program's entry points.  [Claim] and [Build] are the two
    halves of [ProcessNextJob], for a worker that dies between them or inside. *)
Inductive Request :=
| MarkDirty (department station : option N) (dataset_type_code : string) (actor : option N)
| Enqueue (department station : option N) (dataset_type_code : string)
    (requested_by : option N) (trigger_type : TriggerType) (allow_clean_rebuild : bool)
| RequestRebuild (actor : N) (department station : option N) (dataset_type_code : string)
| StageUpdate (actor : N) (department station : option N) (dataset_type_code : string)
| BuildStaged (actor scope : N)
| DeleteStaged (actor publication : N)
| CancelBuild (actor publication : N)
| Publish (actor publication : N)
| Reject (actor publication : N)
| Rollback (actor publication : N)
| Delete (actor publication : N)
| BulkRebuild (actor department : N)
| Heartbeat (job : N)
| RecoverStale (timeout max_attempts : Z)
| FailJob (job : N) (error_message error_category : string)
| ProcessNextJob
| Claim
| Build (job : N)
| BuildCycle (batch_size : option Z)
| Retain (batch_size : option Z) (dry_run : bool).

Section system.
Context `{Settings} `{Hash} `{DocumentGenerations} `{ArtifactStore} `{Builders}.

Definition done {A} (m : M Db A) : M Db unit := bind m (λ _, ret tt).

(** What the program does for a request; [interleave] is what other sessions do
    between the transactions of a build. *)
Definition serve (interleave : nat → M Db unit) (r : Request) : M Db unit :=
  match r with
  | MarkDirty d x c u => done (commit (mark_dirty d x c u))
  | Enqueue d x c u t b =>
      done (commit (enqueue_publication_job d x c u t None b None))
  | RequestRebuild a d x c => done (commit (request_rebuild a d x c))
  | StageUpdate a d x c => done (commit (stage_publication_update a d x c))
  | BuildStaged a k => done (commit (build_staged_publication a k))
  | DeleteStaged a p => done (commit (delete_staged_publication a p))
  | CancelBuild a p => done (commit (cancel_publication_build a p))
  | Publish a p => done (commit (publish_publication a p))
  | Reject a p => done (commit (reject_publication a p))
  | Rollback a p => done (commit (rollback_publication a p))
  | Delete a p => done (commit (delete_publication a p))
  | BulkRebuild a d => done (commit (bulk_request_rebuilds a d))
  | Heartbeat j => done (commit (heartbeat_job j))
  | RecoverStale t n => done (commit (recover_stale_jobs t n))
  | FailJob j m c => done (commit (fail_publication_job j m c))
  | ProcessNextJob => done (process_next_job interleave)
  | Claim => done claim_next_job
  | Build j => done (build_claimed_job interleave j)
  | BuildCycle n => done (process_build_cycle interleave n)
  | Retain n dry => done (run_publication_retention n dry)
  end.

(** One move of the system.  Between requests time passes and people edit the
    canonical data, the organisation and the tablets: everything but the scopes, the
    attempts and the jobs.  Inside a build the other sessions are programs that
    themselves move by lifecycle steps, such as any of these requests. *)
Inductive sys_step (s : Db) : Db → Prop :=
| sys_serve interleave r : (∀ n, simulated (interleave n)) →
    sys_step s (serve interleave r s).2
| sys_environment s' : same_view s s' → sys_step s s'.

(** The store of a new installation. *)
Definition initial (s : Db) : Prop :=
  db_scopes s = ∅ ∧ db_publications s = ∅ ∧ db_jobs s = ∅.

Definition reachable (s : Db) : Prop := ∃ s0, initial s0 ∧ rtc sys_step s0 s.

Context `{!BuildersQuiet}.

Lemma simulated_serve interleave r :
  (∀ n, simulated (interleave n)) → simulated (serve interleave r).
Proof.
  intros Hint. unfold serve, done.
  destruct r; (apply preserves_bind; [exact _| |auto with preserves]);
    try apply simulated_commit.
  - apply simulated_mark_dirty.
  - apply simulated_enqueue_publication_job.
  - apply simulated_request_rebuild.
  - apply simulated_stage_publication_update.
  - apply simulated_build_staged_publication.
  - apply simulated_delete_staged_publication.
  - apply simulated_cancel_publication_build.
  - apply simulated_publish_publication.
  - apply simulated_reject_publication.
  - apply simulated_rollback_publication.
  - apply simulated_delete_publication.
  - apply simulated_bulk_request_rebuilds.
  - apply simulated_quiet, quiet_heartbeat_job.
  - apply simulated_recover_stale_jobs.
  - apply simulated_fail_publication_job.
  - apply simulated_process_next_job, Hint.
  - apply simulated_claim_next_job.
  - apply simulated_build_claimed_job, Hint.
  - apply (simulated_process_build_cycle _ Hint).
  - apply simulated_run_publication_retention.
Qed.

Lemma sys_step_sim s s' : sys_step s s' → sim s s'.
Proof.
  intros [i r Hi|s1 E].
  - apply simulated_serve, Hi.
  - intros _. rewrite E. reflexivity.
Qed.

Lemma sys_steps_sim s s' : rtc sys_step s s' → sim s s'.
Proof.
  induction 1 as [s|s s1 s2 Hs _ IH]; [reflexivity|].
  etrans; [apply sys_step_sim, Hs|exact IH].
Qed.

Lemma initial_Inv s : initial s → Inv (view s).
Proof.
  intros (E1 & E2 & E3). unfold view. rewrite E1, E2, E3, !fmap_empty. apply Inv_empty.
Qed.

Lemma reachable_Inv s : reachable s → Inv (view s).
Proof.
  intros (s0 & H0' & Hs). pose proof (initial_Inv _ H0') as I.
  eapply Inv_steps; [exact I|]. apply sys_steps_sim; assumption.
Qed.

Lemma reachable_step s s' : reachable s → rtc sys_step s s' → reachable s'.
Proof. intros (s0 & Hi & Hs) Hs'. exists s0. split; [exact Hi|]. etrans; eassumption. Qed.
End system.
