(* ===== verification/Demo.v ===== *)
(** A small installation on which the theorems are evaluated: one department with
    its administrator, one system administrator, and concrete stand-ins for the
    code that is a parameter of the model (the hash, the builders, the
    encryption). *)
From S2P Require Import Prelude Models Registry Lifecycle Store Authorization Fingerprint.
From S2P Require Import Artifacts Restore Queue Build Worker Admin Retention Simulation.
From S2P Require Import QueueSim AdminSim System.

#[export] Instance demo_settings : Settings := {|
  PUBLICATION_BUILD_SUMMARY_MAX_ITEMS := 1000;
  PUBLICATION_RETAINED_ROLLBACK_PREDECESSORS := 1;
  PUBLICATION_RETENTION_RESTORE_AWARE_ENABLED := false;
  PUBLICATION_TERMINAL_SNAPSHOT_RETENTION_DAYS := 30;
  PUBLICATION_RETENTION_BATCH_SIZE := 100;
  PUBLICATION_WORKER_BATCH_SIZE := 10;
  PUBLICATION_JOB_HEARTBEAT_TIMEOUT_SECONDS := 600;
  PUBLICATION_JOB_MAX_ATTEMPTS := 3;
  PUBLICATION_SIGNING_KEY_VERSION := "v1" |}.

#[export] Instance demo_hash : Hash := {| sha256_hex := λ x, "#" +:+ x |}.

#[export] Instance demo_generations : DocumentGenerations :=
  {| validate_ready_document_generation := λ _ _ _ _, None |}.

#[export] Instance demo_store : ArtifactStore := {| removal_fails := λ _, false |}.

Definition demo_sha : string :=
  "0123456789abcdef0123456789abcdef0123456789abcdef0123456789abcdef".

(** The encrypted artifact of an attempt. *)
Definition demo_artifact (path : string) : ArtifactEnvelope :=
  mkArtifactEnvelope path (Some 10) demo_sha (Some "nonce") (Some "cek") "AES-256-GCM"
    "AES-KW-RFC3394" "kek1" (Some "signature") "Ed25519" "v1".

#[export] Instance demo_builders : Builders := {|
  build_summary := λ _ _ p, Val (JObj [("entry_count", JInt 2);
    ("source_revision", JInt (pub_source_revision p))]);
  build_encrypted_artifact := λ _ pid _ p,
    Val (demo_artifact (pretty (default 0%N (pub_department p)) +:+ "/" +:+ pretty pid
                          +:+ "/artifact.bin"));
  build_document_v2 := λ _ s, (Val tt, [], s) |}.

#[export] Instance demo_builders_quiet : BuildersQuiet.
Proof. intros pid s. reflexivity. Qed.

(** ** The stores *)

Definition phonebook (entries : list string) : json :=
  JObj [("entries", JList (JStr <$> entries))].

Definition demo_key : string * option N * option N := ("department_phonebook", Some 1%N, None).

Definition demo_department : Department :=
  mkDepartment "Brigade" "B" DEPARTMENT_ACTIVE 30 true "T-" 3 0 "de-DE" "Europe/Berlin" 2.

(** Noon on the first day; user 1 administers department 1, user 2 the system. *)
Definition demo_start : Db := {|
  db_clock := 12 * 60 * 60 * 1000000;
  db_users := <[1%N := mkUser true true "a@fire.de" "Anna" (Some "pw") true]>
    (<[2%N := mkUser true true "b@fire.de" "Berta" (Some "pw") true]> ∅);
  db_system_roles := <[1%N := mkSystemRole 2 true]> ∅;
  db_memberships := <[1%N := mkDepartmentMembership 1 1 AUTHORITY_ACTIVE 2 None None None None]> ∅;
  db_station_admins := ∅;
  db_departments := <[1%N := demo_department]> ∅;
  db_stations := ∅; db_vehicles := ∅; db_temporary_accesses := ∅;
  db_sources := <[demo_key := phonebook ["a"; "b"]]> ∅;
  db_scopes := ∅; db_publications := ∅; db_jobs := ∅; db_activations := [];
  db_key_grants := ∅; db_generation_key_grants := ∅; db_signed_manifests := ∅;
  db_document_artifacts := ∅; db_document_references := ∅; db_document_cleanups := ∅;
  db_publication_contents := ∅; db_libraries := ∅; db_contents := ∅; db_entries := ∅;
  db_quota_policies := ∅; db_accepted := ∅; db_quarantine := ∅; db_sanitized := ∅; db_tablets := ∅; db_installations := ∅;
  db_invitations := ∅; db_adoption_requests := ∅; db_vehicle_assignments := ∅;
  db_api_activity := ∅; db_people := ∅; db_personnel_assignments := ∅; db_features := ∅;
  db_rescue_guides := ∅; db_generation_manifests := ∅; db_generation_keys := ∅;
  db_version_policies := ∅; db_retention_policies := ∅; db_setup_tokens := ∅;
  db_throttles := ∅; db_mail_eligibilities := ∅;
  db_system_mail := ∅; db_department_mail := ∅; db_recipient_policies := ∅;
  db_recipient_domains := ∅; db_delivery_requests := ∅; db_report_submissions := ∅;
  db_report_transfers := ∅; db_portal_sessions := ∅; db_spool := ∅; db_receipts := ∅;
  db_legacy_signatures := ∅;
  db_audit := []; db_on_commit := []; db_effects := [] |}.

(** Nothing happens between the transactions of a build. *)
Definition alone : nat → M Db unit := λ _, ret tt.

Definition after_day (s : Db) : Db := s <| db_clock ::= λ t, t + MICROSECONDS_PER_DAY |>.

Definition edit (entries : list string) (s : Db) : Db :=
  s <| db_sources := <[demo_key := phonebook entries]> ∅ |>.

Definition dirty_phonebook : Request := MarkDirty (Some 1%N) None "department_phonebook" (Some 1%N).

(** The first edit is queued. *)
Definition demo_queued : Db := (serve alone dirty_phonebook demo_start).2.

(** The next night it is published as version 1. *)
Definition demo_published : Db := (serve alone ProcessNextJob (after_day demo_queued)).2.

(** A second edit, and its publication. *)
Definition demo_edited : Db :=
  (serve alone dirty_phonebook (edit ["a"; "b"; "c"] demo_published)).2.

Definition demo_superseded : Db := (serve alone ProcessNextJob (after_day demo_edited)).2.

(** A third edit whose build a worker has claimed. *)
Definition demo_edited3 : Db :=
  (serve alone dirty_phonebook (edit ["c"] demo_superseded)).2.

Definition demo_building : Db := (serve alone Claim (after_day demo_edited3)).2.

Lemma alone_simulated n : simulated (alone n).
Proof. apply simulated_quiet. intros s. reflexivity. Qed.

Lemma serve_reachable r s : reachable s → reachable (serve alone r s).2.
Proof.
  intros Hr. eapply reachable_step; [exact Hr|]. apply rtc_once, sys_serve, alone_simulated.
Qed.

Lemma quiet_reachable s s' : same_view s s' → reachable s → reachable s'.
Proof.
  intros E Hr. eapply reachable_step; [exact Hr|]. apply rtc_once, sys_environment, E.
Qed.

Lemma after_day_reachable s : reachable s → reachable (after_day s).
Proof. apply quiet_reachable. reflexivity. Qed.

Lemma edit_reachable l s : reachable s → reachable (edit l s).
Proof. apply quiet_reachable. reflexivity. Qed.

Lemma demo_start_reachable : reachable demo_start.
Proof. exists demo_start. split; [repeat split|reflexivity]. Qed.

Lemma demo_queued_reachable : reachable demo_queued.
Proof. apply serve_reachable, demo_start_reachable. Qed.

Lemma demo_published_reachable : reachable demo_published.
Proof. apply serve_reachable, after_day_reachable, demo_queued_reachable. Qed.

Lemma demo_edited_reachable : reachable demo_edited.
Proof. apply serve_reachable, edit_reachable, demo_published_reachable. Qed.

Lemma demo_superseded_reachable : reachable demo_superseded.
Proof. apply serve_reachable, after_day_reachable, demo_edited_reachable. Qed.

Lemma demo_edited3_reachable : reachable demo_edited3.
Proof. apply serve_reachable, edit_reachable, demo_superseded_reachable. Qed.

Lemma demo_building_reachable : reachable demo_building.
Proof. apply serve_reachable, after_day_reachable, demo_edited3_reachable. Qed.

Lemma env_serve r s s' : same_view s s' → rtc sys_step s (serve alone r s').2.
Proof.
  intros E. eapply rtc_l; [apply sys_environment, E|].
  apply rtc_once, sys_serve, alone_simulated.
Qed.

Lemma edit_quiet l s : same_view s (edit l s).
Proof. reflexivity. Qed.

Lemma after_day_quiet s : same_view s (after_day s).
Proof. reflexivity. Qed.

(** The second edit and its build: a path from the first publication to the next. *)
Lemma demo_rebuilt_path : rtc sys_step demo_published demo_superseded.
Proof.
  unfold demo_superseded, demo_edited. etrans; [apply env_serve, edit_quiet|].
  apply env_serve, after_day_quiet.
Qed.
