(* ===== verification/SecretTheorems.v ===== *)
(** Secrets come back: what the cipher writes, it reads under the same context, also after
    the active key was changed, and nothing else; a generated key ring is a valid one. *)
From S2P Require Import Prelude Text Encoding Models Store Fingerprint ApplicationSecrets.
From S2P Require Import Demo.
From Stdlib Require Import Ascii ZifyNat.

#[local] Ltac Zify.zify_post_hook ::= Z.to_euclidean_division_equations.

(** ** A concrete cipher *)

(** The tag is sixteen characters, then the associated data, in front of the plaintext. *)
Definition demo_tag (associated : string) : string :=
  "0123456789abcdef" +:+ b64url_encode associated +:+ ":".

#[export] Instance demo_aesgcm : Aesgcm := {|
  aesgcm_encrypt := λ _ _ data associated, demo_tag associated +:+ data;
  aesgcm_decrypt := λ _ _ ciphertext associated,
    if String.eqb (str_take (String.length (demo_tag associated)) ciphertext) (demo_tag associated)
    then Some (str_drop (String.length (demo_tag associated)) ciphertext) else None;
  urandom := λ n _, str_repeat "k" n |}.

#[export] Instance demo_secret_settings : SecretSettings := {|
  application_secret_keyring := 
    Some (JObj [("keys", JObj [("1", JStr (b64encode (str_repeat "k" 32)))])]);
  APPLICATION_SECRET_KEK_VERSION := "1" |}.

(** ** The envelope reads back *)

Lemma all_chars_app P a b : all_chars P (a +:+ b) = all_chars P a && all_chars P b.
Proof.
  induction a as [|c a IH]; [reflexivity|]. rewrite str_cons_app. simpl. rewrite IH. apply andb_assoc.
Qed.

Lemma all_chars_mono (P Q : ascii → bool) s : (∀ c, P c = true → Q c = true) →
  all_chars P s = true → all_chars Q s = true.
Proof.
  intros HPQ. induction s as [|c s IH]; simpl; [reflexivity|].
  intros [Hc Hs]%andb_true_iff. rewrite (HPQ _ Hc), (IH Hs). reflexivity.
Qed.

Lemma all_chars_nomem P sep s : P sep = false → all_chars P s = true → str_mem sep s = false.
Proof.
  intros Hsep. induction s as [|c s IH]; simpl; [reflexivity|]. intros [Hc Hs]%andb_true_iff.
  rewrite (IH Hs). destruct (Ascii.eqb_spec c sep) as [->|]; [congruence|reflexivity].
Qed.

Lemma all_chars_encode P char s : (∀ n, (n < 64)%nat → all_chars P (char n) = true) →
  all_chars P (encode_with char "" "" s) = true.
Proof.
  intros HP.
  induction s as [|a|a b|a b c s IH] using str_ind_three; [reflexivity|..];
    pose proof (nat_ascii_bounded a) as Ha; try pose proof (nat_ascii_bounded b) as Hb;
    try pose proof (nat_ascii_bounded c) as Hc; cbn [encode_with];
    rewrite ?all_chars_app, ?IH, !HP by lia; reflexivity.
Qed.

Lemma b64url_chars s : all_chars is_b64url_char (b64url_encode s) = true.
Proof.
  apply all_chars_encode. intros n Hn.
  assert (K : forallb (λ n, all_chars is_b64url_char (b64url_char n)) (seq 0 64) = true)
    by (vm_compute; reflexivity).
  rewrite forallb_forall in K. apply K, in_seq. lia.
Qed.

Lemma b64url_true s : s ≠ "" → str_true (b64url_encode s) = true.
Proof.
  intros Hs. unfold str_true. destruct (String.eqb_spec (b64url_encode s) "") as [E|]; [|reflexivity].
  pose proof (b64url_decode_encode s) as D. rewrite E in D. injection D as <-. congruence.
Qed.

Lemma b64decode_url s : s ≠ "" → _b64decode (b64url_encode s) = Some s.
Proof.
  intros Hs. unfold _b64decode. rewrite (b64url_true _ Hs), b64url_chars. apply b64url_decode_encode.
Qed.

Lemma version_nomem v : version_valid v = true → str_mem ":" v = false.
Proof.
  destruct v as [|c v]; [discriminate|]. simpl. intros [[Hc _]%andb_true_iff Hv]%andb_true_iff.
  rewrite (all_chars_nomem is_version_char ":" v eq_refl Hv).
  destruct (Ascii.eqb_spec c ":") as [->|]; [discriminate Hc|reflexivity].
Qed.

Lemma parse_serialize version nonce ciphertext :
  version_valid version = true → String.length nonce = _NONCE_BYTES →
  (16 ≤ String.length ciphertext)%nat →
  _parse_envelope (serialize_envelope version nonce ciphertext) = Some (version, nonce, ciphertext).
Proof.
  intros Hv Hn Hc.
  assert (Hcolon : ∀ x, str_mem ":" (b64url_encode x) = false)
    by (intros x; apply (all_chars_nomem is_b64url_char); [reflexivity|apply b64url_chars]).
  unfold _parse_envelope, serialize_envelope.
  rewrite !str_cons_app, !str_nil_app.
  rewrite (str_split_app ":" _FORMAT) by reflexivity.
  rewrite (str_split_app ":" _FORMAT_VERSION) by reflexivity.
  rewrite (str_split_app ":" version) by apply version_nomem, Hv.
  rewrite (str_split_app ":" (b64url_encode nonce)), (str_split_nomem ":") by apply Hcolon.
  rewrite Hv, !b64decode_url by (intros ->; first [discriminate|simpl in Hc; lia]).
  rewrite Hn, (proj2 (Nat.leb_le _ _) Hc). reflexivity.
Qed.

(** ** The cipher *)

Section cipher.
Context `{AesgcmLaws}.

Lemma make_cipher_valid keys active s c s' : make_cipher keys active s = (Val c, s') →
  s' = s ∧ c = mkCipher keys active ∧ version_valid active = true ∧ is_Some (keys !! active)
  ∧ map_Forall (λ v k, key_valid v k = true) keys.
Proof.
  unfold make_cipher. destruct (_ && _) eqn:E; [|discriminate]. intros [= <- <-].
  apply andb_true_iff in E as [[Hv Hk]%andb_true_iff Hall].
  repeat (split; [solve [auto]|]). split.
  - destruct (keys !! active); [eauto|discriminate].
  - intros v k Hvk. rewrite forallb_forall in Hall.
    apply (Hall (v, k)). apply list_elem_of_In, elem_of_map_to_list, Hvk.
Qed.

(** What a valid cipher writes, any cipher with that key reads, under the same context
    only. *)
Lemma decrypt_written keys active s s1 c plaintext context text s2 c' context' s3 :
  make_cipher keys active s = (Val c, s1) →
  cipher_encrypt c plaintext context s1 = (Val text, s2) →
  ci_keys c' !! active = keys !! active →
  _parse_envelope text = Some (active, urandom _NONCE_BYTES s1,
    aesgcm_encrypt (default "" (keys !! active)) (urandom _NONCE_BYTES s1) plaintext
      (utf8_encode context))
  ∧ (context' = context → cipher_decrypt c' text context' s3 = (Val plaintext, s3))
  ∧ (context' ≠ context →
     cipher_decrypt c' text context' s3 = (secret_error "decryption_failed" s3)).
Proof.
  intros (-> & -> & Hv & [key Hk] & _)%make_cipher_valid E Ek.
  unfold cipher_encrypt, bind, gets in E. cbn in E. rewrite Hk in E. injection E as <- <-.
  assert (P := parse_serialize active (urandom _NONCE_BYTES s)
    (aesgcm_encrypt key (urandom _NONCE_BYTES s) plaintext (utf8_encode context)) Hv
    (urandom_length _ _) (aesgcm_tag _ _ _ _)).
  rewrite Hk. split; [exact P|]. unfold cipher_decrypt. rewrite P, Ek, Hk. split.
  - intros ->. rewrite aesgcm_undo. reflexivity.
  - intros Hne. rewrite aesgcm_bound; [reflexivity|]. intros Heq. apply Hne.
    apply (f_equal utf8_decode) in Heq. rewrite !utf8_decode_encode in Heq. congruence.
Qed.

Lemma readonly_configured `{SecretSettings} : readonly configured_application_secret_cipher.
Proof. unfold configured_application_secret_cipher, make_cipher, secret_error. preserve. Qed.

(** C35: Secrets come back.  When [encrypt_application_secret] returns an envelope, the
    envelope names the configured key version and nothing was written; at any later time
    [decrypt_application_secret] under the same context gives the text back, as bytes, and
    under any other context it fails with [decryption_failed]: a secret of one department
    or purpose is never opened as that of another. *)
Theorem secrets_come_back `{SecretSettings} text context envelope s s1 :
  encrypt_application_secret text context s = (Val envelope, s1) →
  s1 = s
  ∧ application_secret_key_version envelope s = (Val APPLICATION_SECRET_KEK_VERSION, s)
  ∧ ∀ later, decrypt_application_secret envelope context later = (Val (utf8_encode text), later)
  ∧ ∀ other, other ≠ context →
    decrypt_application_secret envelope other later = secret_error "decryption_failed" later.
Proof.
  intros E. apply bind_Val in E as (c & s0 & Ec & E).
  unfold configured_application_secret_cipher in Ec.
  destruct (parse_application_secret_keyring _) as [code|keys] eqn:Ep; [discriminate|].
  pose proof (make_cipher_valid _ _ _ _ _ Ec) as (-> & Hc & _).
  assert (Hs : s1 = s) by (revert E; unfold cipher_encrypt, bind, gets; cbn;
    destruct (ci_keys c !! _); [intros [= _ <-]; reflexivity|discriminate]).
  subst s1. split; [reflexivity|].
  assert (D := λ other later, decrypt_written _ _ _ _ _ _ _ _ _ (mkCipher keys
    APPLICATION_SECRET_KEK_VERSION) other later Ec E eq_refl).
  assert (Ec' : ∀ later, make_cipher keys APPLICATION_SECRET_KEK_VERSION later
    = (Val (mkCipher keys APPLICATION_SECRET_KEK_VERSION), later)).
  { intros later. revert Ec. unfold make_cipher. destruct (_ && _); [reflexivity|discriminate]. }
  split; [unfold application_secret_key_version; rewrite (proj1 (D context s)); reflexivity|].
  intros later. split; [|intros other Hother]; unfold decrypt_application_secret, bind,
    configured_application_secret_cipher; rewrite Ep, Ec'.
  - apply D. reflexivity.
  - apply D, Hother.
Qed.

(** A generated key ring is one the server accepts.  The document that
    [generate_application_secret_keyring] returns parses to the ring of its one key, and the
    cipher configured with it and the same version can be built. *)
Theorem generated_keyring_parses version s document :
  generate_application_secret_keyring version s = Some document →
  parse_application_secret_keyring (Some document) = inr {[version := urandom _KEY_BYTES s]}
  ∧ ∀ later, make_cipher {[version := urandom _KEY_BYTES s]} version later
      = (Val (mkCipher {[version := urandom _KEY_BYTES s]} version), later).
Proof.
  unfold generate_application_secret_keyring. destruct (version_valid version) eqn:Hv; [|discriminate].
  intros [= <-]. split.
  - cbn -[parse_keys version_valid b64encode b64decode].
    rewrite bool_decide_true by (repeat constructor; set_solver). cbn [parse_keys andb negb].
    rewrite Hv, b64decode_encode, urandom_length. reflexivity.
  - intros later. unfold make_cipher. rewrite Hv, lookup_singleton_eq, map_to_list_singleton.
    cbn. unfold key_valid. rewrite Hv, urandom_length. reflexivity.
Qed.
End cipher.


(** ** The concrete cipher is one *)

Lemma str_take_app a b : str_take (String.length a) (a +:+ b) = a.
Proof. induction a as [|c a IH]; [destruct b; reflexivity|]. rewrite str_cons_app. simpl. rewrite IH. reflexivity. Qed.

Lemma str_drop_app a b : str_drop (String.length a) (a +:+ b) = b.
Proof. induction a as [|c a IH]; [reflexivity|]. rewrite str_cons_app. exact IH. Qed.

Lemma str_take_drop n s : str_take n s +:+ str_drop n s = s.
Proof.
  revert s. induction n as [|n IH]; intros [|c s]; try reflexivity.
  simpl. rewrite str_cons_app, IH. reflexivity.
Qed.

Lemma demo_tag_inj a b x y : demo_tag a +:+ x = demo_tag b +:+ y → a = b.
Proof.
  unfold demo_tag. rewrite !str_app_assoc. intros E. cbn in E.
  injection E as E. rewrite !str_cons_app, !str_nil_app in E.
  apply (f_equal (str_split ":")) in E.
  rewrite !str_split_app in E by (apply (all_chars_nomem is_b64url_char); [reflexivity|apply b64url_chars]).
  injection E as E _. apply (f_equal b64url_decode) in E. rewrite !b64url_decode_encode in E. congruence.
Qed.

#[export] Instance demo_aesgcm_laws : AesgcmLaws.
Proof.
  split; cbn [aesgcm_decrypt aesgcm_encrypt urandom demo_aesgcm].
  - intros _ _ data a. rewrite str_take_app, String.eqb_refl, str_drop_app. reflexivity.
  - intros _ _ data a a' Hne.
    destruct (String.eqb_spec (str_take (String.length (demo_tag a')) (demo_tag a +:+ data)) (demo_tag a'))
      as [E|]; [|reflexivity].
    destruct Hne. apply (demo_tag_inj a a' data (str_drop (String.length (demo_tag a'))
      (demo_tag a +:+ data))).
    rewrite <- (str_take_drop (String.length (demo_tag a')) (demo_tag a +:+ data)) at 1.
    rewrite E. reflexivity.
  - intros _ _ data a. unfold demo_tag. rewrite !str_length_app. cbn. lia.
  - intros n _. induction n as [|n IH]; [reflexivity|]. cbn. rewrite <- IH at 2. reflexivity.
Qed.

Lemma secrets_come_back_witness : ∃ envelope,
  encrypt_application_secret "password" "a" demo_start = (Val envelope, demo_start)
  ∧ decrypt_application_secret envelope "a" demo_start = (Val "password", demo_start)
  ∧ decrypt_application_secret envelope "b" demo_start
    = secret_error "decryption_failed" demo_start.
Proof.
  destruct (encrypt_application_secret "password" "a" demo_start) as [[e|x] s] eqn:E.
  - destruct (secrets_come_back "password" "a" e demo_start s E) as (-> & _ & D).
    exists e. split; [reflexivity|]. destruct (D demo_start) as [D1 D2]. split; [exact D1|].
    apply D2. discriminate.
  - exfalso. apply (f_equal fst) in E. vm_compute in E. discriminate E.
Defined.

Lemma generated_keyring_parses_witness :
  parse_application_secret_keyring (generate_application_secret_keyring "2026-a" demo_start)
  = inr {["2026-a" := str_repeat "k" 32]}.
Proof. exact (proj1 (generated_keyring_parses "2026-a" demo_start _ eq_refl)). Defined.
