(* ===== verification/SystemTheorems.v ===== *)
(** What the publication system guarantees in every store it can reach, and
    along every run. *)
From S2P Require Import Prelude Models Registry Lifecycle Store Authorization Fingerprint.
From S2P Require Import Artifacts Restore Queue Build Worker Admin Retention Simulation.
From S2P Require Import QueueSim AdminSim System Demo.

(** ** From rows to the view *)

Lemma pub_row s p row : db_publications s !! p = Some row →
  v_pubs (view s) !! p = Some (pub_view row).
Proof. intros E. simpl. rewrite lookup_fmap, E. reflexivity. Qed.

Lemma job_row s j row : db_jobs s !! j = Some row → v_jobs (view s) !! j = Some (job_view row).
Proof. intros E. simpl. rewrite lookup_fmap, E. reflexivity. Qed.

Lemma row_pub s p pv : v_pubs (view s) !! p = Some pv →
  ∃ row, db_publications s !! p = Some row ∧ pv = pub_view row.
Proof.
  simpl. rewrite lookup_fmap. destruct (db_publications s !! p); [|discriminate].
  intros [= <-]. eauto.
Qed.

Lemma row_job s j jv : v_jobs (view s) !! j = Some jv →
  ∃ row, db_jobs s !! j = Some row ∧ jv = job_view row.
Proof.
  simpl. rewrite lookup_fmap. destruct (db_jobs s !! j); [|discriminate].
  intros [= <-]. eauto.
Qed.

Lemma row_scope s c sv : v_scopes (view s) !! c = Some sv →
  ∃ row, db_scopes s !! c = Some row ∧ sv = scope_view row.
Proof.
  simpl. rewrite lookup_fmap. destruct (db_scopes s !! c); [|discriminate].
  intros [= <-]. eauto.
Qed.

Section theorems.
Context `{Settings} `{Hash} `{DocumentGenerations} `{ArtifactStore} `{Builders}
  `{!BuildersQuiet}.

(** C1: Every request the program serves, with whatever other sessions do between
    the transactions of a build, and whether it succeeds or raises, moves the
    scopes, the attempts and the jobs only along the steps of the publication
    lifecycle, and keeps the lifecycle's invariant. *)
Theorem services_refine_lifecycle interleave r s :
  (∀ n, simulated (interleave n)) → Inv (view s) →
  rtc lstep (view s) (view (serve interleave r s).2) ∧ Inv (view (serve interleave r s).2).
Proof.
  intros Hi I. assert (R : rtc lstep (view s) (view (serve interleave r s).2)).
  { apply simulated_serve; assumption. }
  split; [exact R|]. eapply Inv_steps; eassumption.
Qed.

(** C5: In every reachable store a scope has at most one PUBLISHED publication; it
    is the one the scope names as current, and its artifact is ready. *)
Theorem one_published_per_scope s c sc p row :
  reachable s → db_scopes s !! c = Some sc → db_publications s !! p = Some row →
  pub_scope_state row = c → pub_status row = PUBLISHED →
  sc_current_published_publication sc = Some p
  ∧ pub_artifact_status row = ARTIFACT_READY ∧ pub_artifact_ready row = true
  ∧ ∀ p' row', db_publications s !! p' = Some row' → pub_scope_state row' = c →
      pub_status row' = PUBLISHED → p' = p.
Proof.
  intros Hr Hc Hp Ec Es. pose proof (reachable_Inv _ Hr) as I. apply pub_row in Hp.
  assert (Hk : v_scopes (view s) !! c = Some (scope_view sc)).
  { simpl. rewrite lookup_fmap, Hc. reflexivity. }
  assert (C : ∀ q qv, v_pubs (view s) !! q = Some qv → pv_status qv = PUBLISHED →
    pv_scope qv = c → sc_current_published_publication sc = Some q).
  { intros q qv Hq Eq <-. exact (inv_published _ I _ _ _ Hq Eq Hk). }
  pose proof (C _ _ Hp Es Ec) as Hcur.
  pose proof (inv_ready _ I _ _ Hp) as Hready. simpl in Hready. rewrite Es in Hready.
  specialize (Hready eq_refl). bools. split_and!; try assumption.
  intros p' row' Hp' Ec' Es'. apply pub_row in Hp'. specialize (C _ _ Hp' Es' Ec').
  congruence.
Qed.

(** In every reachable store a dataset scope has at most one job that is
    PENDING or RUNNING. *)
Theorem one_active_job_per_scope s j1 j2 a b :
  reachable s → db_jobs s !! j1 = Some a → db_jobs s !! j2 = Some b →
  is_active_job a = true → is_active_job b = true →
  (job_department a, job_station a, job_dataset_type_code a) =
    (job_department b, job_station b, job_dataset_type_code b) → j1 = j2.
Proof.
  intros Hr H1' H2' A B E. pose proof (reachable_Inv _ Hr) as I.
  apply job_row in H1', H2'. eapply (inv_active _ I); eauto.
  destruct (inv_job_scope _ I _ _ H1') as (x & Hx & Ox).
  destruct (inv_job_scope _ I _ _ H2') as (y & Hy & Oy).
  eapply (same_scope _ _ _ _ _ I Hx Hy). rewrite Ox, Oy. exact E.
Qed.

(** In every reachable store an attempt is BUILDING exactly when a RUNNING job
    is building it, and STAGED exactly when a PENDING job is going to. *)
Theorem attempts_follow_their_jobs s p row :
  reachable s → db_publications s !! p = Some row →
  (pub_status row = BUILDING ↔ ∃ j job, db_jobs s !! j = Some job ∧
     job_status job = JOB_RUNNING ∧ job_build_publication job = Some p)
  ∧ (pub_status row = STAGED ↔ ∃ j job, db_jobs s !! j = Some job ∧
     job_status job = JOB_PENDING ∧ job_build_publication job = Some p).
Proof.
  intros Hr Hp. pose proof (reachable_Inv _ Hr) as I. apply pub_row in Hp.
  split; split.
  - intros E. destruct (inv_building _ I _ _ Hp E) as (j & jv & Hj & Sj & Bj).
    apply row_job in Hj as (job & Hj & ->). eauto.
  - intros (j & job & Hj & Sj & Bj). apply job_row in Hj.
    destruct (inv_running _ I _ _ Hj Sj) as (p' & pv & B & Hp' & S). simpl in B.
    rewrite Bj in B. injection B as <-. rewrite Hp in Hp'. injection Hp' as <-. exact S.
  - intros E. destruct (inv_staged _ I _ _ Hp E) as (j & jv & Hj & Sj & Bj).
    apply row_job in Hj as (job & Hj & ->). eauto.
  - intros (j & job & Hj & Sj & Bj). apply job_row in Hj.
    exact (inv_pending _ I _ _ _ _ Hj Sj Bj Hp).
Qed.

(** Version numbers are never reused: an attempt created during any run has a
    larger version number than every attempt its scope had before. *)
Theorem versions_never_reused s s' p row q old :
  reachable s → rtc sys_step s s' →
  db_publications s' !! p = Some row → db_publications s !! p = None →
  db_publications s !! q = Some old → pub_scope_state old = pub_scope_state row →
  pub_version_number old < pub_version_number row.
Proof.
  intros Hr Hs Hp Hn Hq E. pose proof (reachable_Inv _ Hr) as I.
  destruct (steps_versions (view s) (view s') p (pub_view row) I) as [_ F].
  - apply sys_steps_sim; assumption.
  - apply pub_row, Hp.
  - simpl. rewrite lookup_fmap, Hn. reflexivity.
  - exact (F q (pub_view old) (pub_row _ _ _ Hq) E).
Qed.

(** Attempts are history: along every run an attempt keeps its row, its owner,
    its scope and its version number, its status only follows the edges of the
    status machine, and a FAILED, REJECTED, OBSOLETE or CANCELLED attempt keeps its
    status for ever. *)
Theorem attempts_are_history s s' p row :
  reachable s → rtc sys_step s s' → db_publications s !! p = Some row →
  ∃ row', db_publications s' !! p = Some row'
    ∧ continues (pub_view row) (pub_view row')
    ∧ (final_status (pub_status row) = true → pub_status row' = pub_status row).
Proof.
  intros Hr Hs Hp. pose proof (reachable_Inv _ Hr) as I.
  destruct (steps_pub (view s) (view s') p (pub_view row) I) as (pv & Hpv & C).
  - apply sys_steps_sim; assumption.
  - apply pub_row, Hp.
  - apply row_pub in Hpv as (row' & Hp' & ->). exists row'. split_and!; [exact Hp'|exact C|].
    destruct C as (_ & _ & _ & R). apply (final_edges _ _ R).
Qed.

(** A job that has ended never becomes active again, and keeps its scope, its
    owner, its status and the attempt it has built. *)
Theorem ended_jobs_stay_ended s s' j job :
  reachable s → rtc sys_step s s' → db_jobs s !! j = Some job →
  is_active_job job = false →
  ∃ job', db_jobs s' !! j = Some job' ∧ job_view job' = job_view job.
Proof.
  intros Hr Hs Hj A. pose proof (reachable_Inv _ Hr) as I.
  pose proof (steps_job_over (view s) (view s') j (job_view job) I) as S.
  apply row_job in S as (job' & Hj' & E).
  - exists job'. split; [exact Hj'|]. symmetry. exact E.
  - apply sys_steps_sim; assumption.
  - apply job_row, Hj.
  - exact A.
Qed.
End theorems.

(** ** The theorems on the small installation *)

Lemma services_refine_lifecycle_witness :
  rtc lstep (view demo_queued) (view (serve alone ProcessNextJob demo_queued).2)
  ∧ Inv (view (serve alone ProcessNextJob demo_queued).2).
Proof.
  apply services_refine_lifecycle; [exact alone_simulated|].
  apply reachable_Inv, demo_queued_reachable.
Defined.

Lemma one_published_per_scope_witness :
  ∃ sc row, db_scopes demo_superseded !! 1%N = Some sc ∧
    db_publications demo_superseded !! 2%N = Some row ∧
    sc_current_published_publication sc = Some 2%N
    ∧ pub_artifact_status row = ARTIFACT_READY ∧ pub_artifact_ready row = true
    ∧ ∀ p' row', db_publications demo_superseded !! p' = Some row' →
        pub_scope_state row' = 1%N → pub_status row' = PUBLISHED → p' = 2%N.
Proof.
  destruct (row_with (λ _, tt) (db_scopes demo_superseded !! 1%N) tt) as (sc & Hsc & _);
    [vm_compute; reflexivity|].
  destruct (row_with (λ r, (pub_scope_state r, pub_status r))
    (db_publications demo_superseded !! 2%N) (1%N, PUBLISHED)) as (row & Hrow & E);
    [vm_compute; reflexivity|]. injection E as E1 E2.
  exists sc, row. split; [exact Hsc|]. split; [exact Hrow|].
  exact (one_published_per_scope demo_superseded 1 sc 2 row demo_superseded_reachable
    Hsc Hrow E1 E2).
Defined.

Lemma one_active_job_per_scope_witness :
  ∃ row, db_jobs demo_building !! 3%N = Some row ∧ is_active_job row = true ∧
    ∀ j job, db_jobs demo_building !! j = Some job → is_active_job job = true →
      (job_department job, job_station job, job_dataset_type_code job) =
        (Some 1%N, None, "department_phonebook") → j = 3%N.
Proof.
  destruct (row_with (λ r, (is_active_job r,
      (job_department r, job_station r, job_dataset_type_code r)))
    (db_jobs demo_building !! 3%N) (true, (Some 1%N, None, "department_phonebook")))
    as (row & Hrow & E'); [vm_compute; reflexivity|].
  injection E' as E1 E2 E3 E4. exists row. split; [exact Hrow|]. split; [exact E1|].
  intros j job Hj A E.
  apply (one_active_job_per_scope demo_building j 3 job row demo_building_reachable Hj Hrow A E1).
  congruence.
Defined.

Lemma attempts_follow_their_jobs_witness :
  ∃ j job, db_jobs demo_building !! j = Some job ∧ job_status job = JOB_RUNNING
    ∧ job_build_publication job = Some 3%N.
Proof.
  destruct (row_with pub_status (db_publications demo_building !! 3%N) BUILDING)
    as (row & Hrow & E); [vm_compute; reflexivity|].
  apply (attempts_follow_their_jobs demo_building 3 row demo_building_reachable Hrow), E.
Defined.

Lemma versions_never_reused_witness :
  ∃ row old, db_publications demo_superseded !! 2%N = Some row ∧
    db_publications demo_published !! 1%N = Some old ∧
    pub_version_number old < pub_version_number row.
Proof.
  destruct (row_with pub_scope_state (db_publications demo_superseded !! 2%N) 1%N)
    as (row & Hrow & E); [vm_compute; reflexivity|].
  destruct (row_with pub_scope_state (db_publications demo_published !! 1%N) 1%N)
    as (old & Hold & E'); [vm_compute; reflexivity|].
  exists row, old. split; [exact Hrow|]. split; [exact Hold|].
  apply (versions_never_reused demo_published demo_superseded 2 row 1 old
    demo_published_reachable demo_rebuilt_path Hrow); [vm_compute; reflexivity|exact Hold|].
  congruence.
Defined.

Lemma attempts_are_history_witness :
  ∃ row row', db_publications demo_published !! 1%N = Some row ∧
    db_publications demo_superseded !! 1%N = Some row' ∧
    continues (pub_view row) (pub_view row').
Proof.
  destruct (row_with pub_scope_state (db_publications demo_published !! 1%N) 1%N)
    as (row & Hrow & E); [vm_compute; reflexivity|].
  destruct (attempts_are_history demo_published demo_superseded 1 row
    demo_published_reachable demo_rebuilt_path Hrow) as (row' & Hrow' & C & _).
  exists row, row'. auto.
Defined.

Lemma ended_jobs_stay_ended_witness :
  ∃ job job', db_jobs demo_published !! 1%N = Some job ∧
    db_jobs demo_superseded !! 1%N = Some job' ∧ job_view job' = job_view job.
Proof.
  destruct (row_with is_active_job (db_jobs demo_published !! 1%N) false)
    as (job & Hjob & E); [vm_compute; reflexivity|].
  destruct (ended_jobs_stay_ended demo_published demo_superseded 1 job
    demo_published_reachable demo_rebuilt_path Hjob E) as (job' & Hjob' & C).
  exists job, job'. auto.
Defined.
