(* ===== verification/Totality.v ===== *)
(** Which programs always return, and what a program that fails leaves unchanged:
    frames and totality. *)
From S2P Require Import Prelude Models Registry Lifecycle Store Authorization Fingerprint.
From S2P Require Import Artifacts Restore Queue Build Simulation QueueSim AdminSim.

Definition same {T} (f : Db → T) (s s' : Db) : Prop := f s' = f s.

#[export] Instance same_preorder {T} (f : Db → T) : PreOrder (same f).
Proof. unfold same. split; [intros s|intros s s' s'']; congruence. Qed.

Abbreviation keeps f m := (preserves (same f) m).

#[export] Hint Extern 1 (preserves (same _) (save _ _ _)) =>
  apply preserves_save; [exact _|intros ? ?; reflexivity] : preserves.
#[export] Hint Extern 1 (preserves (same _) (create _ _)) =>
  apply preserves_create; intros ? ?; reflexivity : preserves.
#[export] Hint Extern 1 (preserves (same _) (delete_obj _ _)) =>
  apply preserves_delete_obj; intros ? ?; reflexivity : preserves.
#[export] Hint Extern 1 (preserves (same _) (update_where _ _ _)) =>
  apply preserves_update_where; intros ? ?; reflexivity : preserves.
#[export] Hint Extern 1 (preserves (same _) (update_where_pk _ _ _)) =>
  apply preserves_update_where_pk; intros ? ?; reflexivity : preserves.
#[export] Hint Extern 1 (preserves (same _) (delete_where _ _)) =>
  apply preserves_delete_where; intros ? ?; reflexivity : preserves.
#[export] Hint Extern 1 (preserves (same _) (modify _)) =>
  apply preserves_modify; intros ?; reflexivity : preserves.

(** The function a program calls. *)
Ltac program_head m :=
  lazymatch m with
  | ?f _ => program_head f
  | ?f => f
  end.

Ltac frame :=
  repeat first
    [ progress preserve
    | lazymatch goal with
      | |- preserves (same _) (fold_m _ _ _) => fail
      | |- preserves (same _) ?m => let h := program_head m in unfold h
      end ].

Definition total {S A} (m : M S A) : Prop := ∀ s, wp m s (λ _ _, True).

(** ** Rules over the store *)

Section rules.
Implicit Types s : Db.

Lemma wlp_save {A} (tbl : Db → gmap N A) `{!Setter tbl} k f s (Q : unit → Db → Prop) :
  (∀ a, tbl s !! k = Some a → Q tt (s <| tbl ::= <[k:=f a]> |>)) → wlp (save tbl k f) s Q.
Proof. intros H. unfold wlp, save. destruct (tbl s !! k); auto. Qed.

Lemma wlp_create {A} (tbl : Db → gmap N A) `{!Setter tbl} a s (Q : N → Db → Prop) :
  (∀ k, tbl s !! k = None → Q k (s <| tbl ::= <[k:=a]> |>)) → wlp (create tbl a) s Q.
Proof. intros H. apply H, fresh_id_fresh. Qed.

Lemma wlp_get_obj {A} (tbl : Db → gmap N A) k s (Q : A → Db → Prop) :
  (∀ a, tbl s !! k = Some a → Q a s) → wlp (get_obj tbl k) s Q.
Proof. intros H. unfold wlp, get_obj. destruct (tbl s !! k); auto. Qed.

Lemma wlp_find_obj {A} (tbl : Db → gmap N A) k s (Q : option A → Db → Prop) :
  Q (tbl s !! k) s → wlp (find_obj tbl k) s Q.
Proof. auto. Qed.

Lemma wlp_frame {T A} (f : Db → T) (m : M Db A) s (Q : A → Db → Prop) :
  keeps f m → (∀ a s', f s' = f s → Q a s') → wlp m s Q.
Proof. intros Hm HQ. eapply wlp_mono; [apply preserves_wlp, Hm|]. auto. Qed.

Lemma wlp_guard (c : bool) k msg s (Q : unit → Db → Prop) :
  (c = true → Q tt s) → wlp (guard c k msg) s Q.
Proof. intros H. destruct c; [exact (H eq_refl)|exact I]. Qed.

Lemma wlp_skip {A B} (m : M Db A) (k : A → M Db B) s (Q : B → Db → Prop) :
  readonly m → (∀ a, m s = (Val a, s) → wlp (k a) s Q) → wlp (bind m k) s Q.
Proof. intros Hm HQ. apply wlp_bind, readonly_wlp; assumption. Qed.

Lemma wlp_raise {A} c msg s (Q : A → Db → Prop) : wlp (raise c msg) s Q.
Proof. exact I. Qed.

Lemma wlp_and {A} (m : M Db A) s (Q R : A → Db → Prop) :
  wlp m s Q → wlp m s R → wlp m s (λ a s', Q a s' ∧ R a s').
Proof. unfold wlp. destruct (m s) as [[a|e] s']; auto. Qed.

Lemma wlp_val {A} (m : M Db A) s a s' Q : m s = (Val a, s') → wlp m s Q → Q a s'.
Proof. unfold wlp. intros ->. auto. Qed.

(** A transaction that can not end normally leaves the store as it was. *)
Lemma atomic_refused {A} (m : M Db A) s : wlp m s (λ _ _, False) → ∃ e, atomic m s = (Exc e, s).
Proof. unfold wlp, atomic. destruct (m s) as [[a|e] s']; [tauto|eauto]. Qed.
End rules.

(** The common frames *)

Lemma keeps_publications_pin_source pid j : keeps db_publications (pin_source pid j).
Proof. frame. Qed.

Lemma keeps_jobs_pin_source pid j : keeps db_jobs (pin_source pid j).
Proof. frame. Qed.

Section common.
Context {T : Type} (f : Db → T).

Lemma keeps_release pid p :
  (∀ g s, f (s <| db_publication_contents ::= g |>) = f s) →
  (∀ g s, f (s <| db_document_references ::= g |>) = f s) →
  (∀ g s, f (s <| db_document_artifacts ::= g |>) = f s) →
  (∀ g s, f (s <| db_document_cleanups ::= g |>) = f s) →
  (∀ g s, f (s <| db_on_commit ::= g |>) = f s) →
  keeps f (release_terminal_document_artifact_references pid p).
Proof.
  intros H1 H2 H3 H4 H5.
  unfold release_terminal_document_artifact_references, release_artifact,
    _schedule_document_artifact_removal, on_commit. preserve.
  - apply preserves_delete_where. exact H1.
  - apply preserves_delete_where. exact H2.
  - apply preserves_delete_obj. exact H3.
  - apply preserves_create. exact H4.
  - apply preserves_modify. intros s. apply H5.
Qed.
End common.

(** ** Rules *)

Section wp_rules.
Context {S : Type}.

Lemma wp_bind {A B} (m : M S A) (k : A → M S B) s Q :
  wp m s (λ a s', wp (k a) s' Q) → wp (bind m k) s Q.
Proof. unfold wp, bind. destruct (m s) as [[a|e] s']; auto. Qed.

Lemma wp_mono {A} (m : M S A) s (Q Q' : A → S → Prop) :
  wp m s Q → (∀ a s', Q a s' → Q' a s') → wp m s Q'.
Proof. unfold wp. destruct (m s) as [[a|e] s']; auto. Qed.

Lemma wp_ret {A} (a : A) s (Q : A → S → Prop) : Q a s → wp (ret a) s Q.
Proof. auto. Qed.

Lemma wp_atomic {A} (m : M S A) s Q : wp m s Q → wp (atomic m) s Q.
Proof. unfold wp, atomic. destruct (m s) as [[a|e] s']; auto. Qed.

(** That a program returns and what holds when it does. *)
Lemma wp_split {A} (m : M S A) s (Q : A → S → Prop) :
  wp m s (λ _ _, True) → wlp m s Q → wp m s Q.
Proof. unfold wp, wlp. destruct (m s) as [[a|e] s']; tauto. Qed.

Lemma wp_both {A} (m : M S A) s (Q R : A → S → Prop) :
  wp m s Q → wlp m s R → wp m s (λ a s', Q a s' ∧ R a s').
Proof. unfold wp, wlp. destruct (m s) as [[a|e] s']; tauto. Qed.

Lemma wp_Val {A} (m : M S A) s Q : wp m s Q → ∃ a s', m s = (Val a, s') ∧ Q a s'.
Proof. unfold wp. destruct (m s) as [[a|e] s']; [eauto|easy]. Qed.

Lemma wp_run {A} (m : M S A) s a s' (Q : A → S → Prop) : m s = (Val a, s') → Q a s' → wp m s Q.
Proof. unfold wp. intros ->. auto. Qed.

Lemma total_ret {A} (a : A) : total (ret a : M S A).
Proof. intros s. exact I. Qed.

Lemma total_gets {A} (f : S → A) : total (gets f).
Proof. intros s. exact I. Qed.

Lemma total_modify f : total (modify f : M S unit).
Proof. intros s. exact I. Qed.

Lemma total_bind {A B} (m : M S A) (k : A → M S B) :
  total m → (∀ a, total (k a)) → total (bind m k).
Proof. intros Hm Hk s. apply wp_bind. eapply wp_mono; [apply Hm|]. intros a s' _. apply Hk. Qed.

Lemma total_when c (m : M S unit) : total m → total (when c m).
Proof. destruct c; [auto|intros; apply total_ret]. Qed.

Lemma total_fold_m {A B} (f : B → A → M S B) b l :
  (∀ b x, total (f b x)) → total (fold_m f b l).
Proof.
  intros Hf. revert b. induction l; intros b; [apply total_ret|]. apply total_bind; auto.
Qed.
End wp_rules.

Create HintDb total.
#[export] Hint Resolve total_ret total_gets total_modify : total.

Ltac total :=
  repeat first
    [ solve [eauto 2 with total]
    | lazymatch goal with
      | |- ∀ _, _ => intro
      | |- total (bind _ _) => apply total_bind
      | |- total (when _ _) => apply total_when
      | |- total (fold_m _ _ _) => apply total_fold_m
      | |- total (match ?x with _ => _ end) => destruct x
      | |- total ?m => let h := program_head m in unfold h
      end ].

(** ** The store *)

Section store_rules.
Implicit Types s : Db.

Lemma wp_save {A} (tbl : Db → gmap N A) `{!Setter tbl} k f a s (Q : unit → Db → Prop) :
  tbl s !! k = Some a → Q tt (s <| tbl ::= <[k:=f a]> |>) → wp (save tbl k f) s Q.
Proof. intros H HQ. unfold wp, save. rewrite H. exact HQ. Qed.

Lemma wp_get_obj {A} (tbl : Db → gmap N A) k a s (Q : A → Db → Prop) :
  tbl s !! k = Some a → Q a s → wp (get_obj tbl k) s Q.
Proof. intros H HQ. unfold wp, get_obj. rewrite H. exact HQ. Qed.

Lemma wp_find_obj {A} (tbl : Db → gmap N A) k s (Q : option A → Db → Prop) :
  Q (tbl s !! k) s → wp (find_obj tbl k) s Q.
Proof. auto. Qed.

(** A part that cannot fail and leaves [f] alone. *)
Lemma wp_frame {T A} (f : Db → T) (m : M Db A) s (Q : A → Db → Prop) :
  total m → keeps f m → (∀ a s', f s' = f s → Q a s') → wp m s Q.
Proof. intros Ht Hm HQ. apply wp_split; [apply Ht|]. eapply wlp_frame; eassumption. Qed.

Lemma total_create {A} (tbl : Db → gmap N A) `{!Setter tbl} a : total (create tbl a).
Proof. intros s. exact I. Qed.

Lemma total_update_where {A} (tbl : Db → gmap N A) `{!Setter tbl} P f :
  total (update_where tbl P f).
Proof. intros s. exact I. Qed.

Hint Resolve total_create total_update_where : total.

Lemma total_release pid p :
  is_terminal_status (pub_status p) = true →
  total (release_terminal_document_artifact_references pid p).
Proof.
  intros Hs. unfold release_terminal_document_artifact_references. rewrite Hs. simpl.
  apply total_bind; [apply total_ret|intros _]. total.
Qed.

Lemma total_revoke_grants pid p : total (revoke_publication_dataset_key_grants pid p).
Proof. total. Qed.
End store_rules.

#[export] Hint Resolve total_create total_update_where total_revoke_grants : total.

(** ** The scope of a job is always found *)

Definition tables (s : Db) :
    gmap N DatasetScopeState * gmap N DatasetPublication * gmap N PublicationJob :=
  (db_scopes s, db_publications s, db_jobs s).

Lemma tables_view s s' : tables s' = tables s → view s' = view s.
Proof. intros [= E1 E2 E3]. unfold view. rewrite E1, E2, E3. reflexivity. Qed.

(** The scope of a file library belongs to a department. *)
Lemma file_owner t d x c : owner_ok (t, d, x, c) = true → is_file_dataset c = true → d ≠ None.
Proof.
  intros Ho Hf ->. unfold is_file_dataset in Hf. apply orb_true_iff in Hf.
  rewrite !String.eqb_eq in Hf. unfold owner_ok, validate_dataset_scope in Ho.
  unfold bind, get_dataset_definition, get_or_raise, ret, raise in Ho.
  destruct Hf as [-> | ->].
  all: match type of Ho with context [DATASET_REGISTRY ?c] =>
    let o := eval vm_compute in (DATASET_REGISTRY c) in
    change (DATASET_REGISTRY c) with o in Ho end; cbv beta iota zeta in Ho.
  all: match type of Ho with context [String.eqb ?t (scope_upper ?u)] =>
    destruct (String.eqb_spec t (scope_upper u)) as [->|]; [|discriminate Ho] end.
  all: destruct x; discriminate Ho.
Qed.

Section found.
Context `{Settings} `{Hash}.

(** The scope of a row of the store. *)
Lemma locked_scope_found s k sc d x c :
  Inv (view s) → db_scopes s !! k = Some sc →
  owner_key (sv_owner (scope_view sc)) = (d, x, c) →
  _locked_scope d x c s = (Val (k, sc), s).
Proof.
  intros I Hk Ho.
  assert (Hv : v_scopes (view s) !! k = Some (scope_view sc)).
  { simpl. rewrite lookup_fmap, Hk. reflexivity. }
  pose proof (inv_owner_ok _ I _ _ Hv) as Hok. simpl in Hok, Ho. injection Ho as <- <- <-.
  assert (L : lock_file_scope (sc_department sc) (sc_dataset_type_code sc) s = (Val tt, s)).
  { unfold lock_file_scope. destruct (is_file_dataset _) eqn:Hf; [|reflexivity].
    pose proof (file_owner _ _ _ _ Hok Hf). destruct (sc_department sc); [reflexivity|easy]. }
  unfold _locked_scope. rewrite (bind_run _ _ _ _ _ L).
  rewrite (bind_run _ _ _ _ _ (owner_ok_type _ _ _ _ s Hok)).
  unfold find_scope, first_where, bind, gets, get_or_raise, ret, raise.
  set (l := rows _ _). assert (Hin : (k, sc) ∈ l).
  { apply rows_elem. split; [exact Hk|]. apply scope_filter_owner. reflexivity. }
  destruct (head (order_by by_pk l)) as [[k' sc']|] eqn:E.
  - apply order_by_head_Some in E as [Hin' _]. apply rows_elem in Hin' as [Hk' Hf'].
    apply scope_filter_owner in Hf'.
    assert (Hv' : v_scopes (view s) !! k' = Some (scope_view sc')).
    { simpl. rewrite lookup_fmap, Hk'. reflexivity. }
    assert (k' = k) as -> by (eapply (inv_owner _ I); [exact Hv'|exact Hv|exact Hf']).
    congruence.
  - apply order_by_head_None in E. rewrite E in Hin. inversion Hin.
Qed.

Lemma job_scope_found s jid job :
  Inv (view s) → db_jobs s !! jid = Some job →
  ∃ sc, db_scopes s !! job_scope_state job = Some sc
    ∧ sv_owner (scope_view sc) = jv_owner (job_view job)
    ∧ _locked_scope (job_department job) (job_station job) (job_dataset_type_code job) s =
        (Val (job_scope_state job, sc), s).
Proof.
  intros I Hj. assert (Hv : v_jobs (view s) !! jid = Some (job_view job)).
  { simpl. rewrite lookup_fmap, Hj. reflexivity. }
  destruct (inv_job_scope _ I _ _ Hv) as (sv & Hs & Ho). simpl in Hs. rewrite lookup_fmap in Hs.
  destruct (db_scopes s !! job_scope_state job) as [sc|] eqn:E; [|discriminate].
  injection Hs as <-. exists sc. split_and!; [reflexivity|exact Ho|].
  apply locked_scope_found; [exact I|exact E|]. rewrite Ho. reflexivity.
Qed.

Lemma running_job_found s jid job :
  Inv (view s) → db_jobs s !! jid = Some job → job_status job = JOB_RUNNING →
  ∃ pid row, job_build_publication job = Some pid ∧ db_publications s !! pid = Some row
    ∧ pub_status row = BUILDING.
Proof.
  intros I Hj Hr. assert (Hv : v_jobs (view s) !! jid = Some (job_view job)).
  { simpl. rewrite lookup_fmap, Hj. reflexivity. }
  destruct (inv_running _ I _ _ Hv Hr) as (pid & pv & B & Hp & Hs). simpl in Hp.
  rewrite lookup_fmap in Hp. destruct (db_publications s !! pid) as [row|] eqn:E; [|discriminate].
  injection Hp as <-. exists pid, row. auto.
Qed.

Lemma wp_publication_of s k sc Q :
  Inv (view s) → db_scopes s !! k = Some sc →
  (∀ o, (∀ q row, o = Some (q, row) → db_publications s !! q = Some row) →
     fst <$> o = sc_current_published_publication sc → Q o s) →
  wp (publication_of (sc_current_published_publication sc)) s Q.
Proof.
  intros I Hk HQ. unfold publication_of.
  destruct (sc_current_published_publication sc) as [q|] eqn:Ec;
    [|apply wp_ret, HQ; [discriminate|reflexivity]].
  assert (Hv : v_scopes (view s) !! k = Some (scope_view sc)).
  { simpl. rewrite lookup_fmap, Hk. reflexivity. }
  destruct (inv_current _ I _ _ _ Hv Ec) as (pv & Hp & _). simpl in Hp. rewrite lookup_fmap in Hp.
  destruct (db_publications s !! q) as [row|] eqn:E; [|discriminate].
  apply wp_bind. eapply wp_get_obj; [exact E|]. apply wp_ret, HQ; [|reflexivity].
  intros ? ? [= <- <-]. exact E.
Qed.

Lemma wp_scope_is_dirty s k sc fp Q :
  Inv (view s) → db_scopes s !! k = Some sc → (∀ b, Q b s) → wp (_scope_is_dirty sc fp) s Q.
Proof.
  intros I Hk HQ. apply wp_bind. eapply wp_publication_of; [exact I|exact Hk|].
  intros [[q row]|] _ _; [cbv zeta; destruct (_ || _)|]; apply wp_ret, HQ.
Qed.

(** Asking for a follow-up build never fails, and only registers a callback. *)
Lemma wp_queue_follow_up s jid job' job Q :
  Inv (view s) → db_jobs s !! jid = Some job' →
  owner_key (jv_owner (job_view job')) = owner_key (jv_owner (job_view job)) →
  (∀ s', tables s' = tables s → db_clock s' = db_clock s → Q tt s') → wp (_queue_follow_up_if_stale job) s Q.
Proof.
  intros I Hj Ek HQ. destruct (job_scope_found _ _ _ I Hj) as (sc & Hk & _ & E).
  simpl in Ek. injection Ek as Ed Ex Ec. rewrite Ed, Ex, Ec in E.
  apply wp_bind. eapply wp_run; [exact E|]. apply wp_bind.
  eapply wp_scope_is_dirty; [exact I|exact Hk|]. intros [|]; apply HQ; reflexivity.
Qed.
End found.
