(* ===== verification/MailInv.v ===== *)
(** The invariant of the mail configuration: usable modes, credentials in pairs, and that a
    verification recorded as successful is one of the present settings; the services of the
    system and of departments keep it. *)
From S2P Require Import Prelude Text Encoding Models Store Authorization Fingerprint Artifacts.
From S2P Require Import ApplicationSecrets SecretTheorems Tablets Roles Queue Assignments.
From S2P Require Import Organizations Manifests MailProviders.
From S2P Require Import ReportDelivery MailServices Totality.

(** ** The invariant *)

Section invariant.
Context `{MailEnvironment, MailSettings, DeliverySettings, Aesgcm, SecretSettings}.

(** The mode of a row can be used. *)
Definition mode_ok (c : SystemMailConfiguration) : Prop :=
  mc_delivery_mode c = "DISABLED"
  ∨ mc_delivery_mode c = "SMTP" ∧ smtp_complete (mc_smtp c) = true
  ∨ mc_delivery_mode c = "API" ∧ mc_api_provider c = BREVO
    ∧ str_true (mc_brevo_sender_name c) = true ∧ str_true (mc_brevo_sender_email c) = true.

(** The system's row: the selected mode is one that can be used, credentials come in
    pairs. *)
Definition system_ok (c : SystemMailConfiguration) : Prop :=
  auth_pair (mc_smtp c) = true ∧ mode_ok c.

Definition department_mode_ok (c : DepartmentMailConfiguration) : Prop :=
  md_delivery_mode c = "DISABLED" ∨ md_delivery_mode c = "SYSTEM"
  ∨ md_delivery_mode c = "CUSTOM_SMTP" ∧ smtp_complete (md_smtp c) = true.

Definition department_ok (c : DepartmentMailConfiguration) : Prop :=
  auth_pair (md_smtp c) = true ∧ department_mode_ok c.

(** A verification recorded as successful did succeed, at the recorded instant, with
    exactly the provider that the row stands for now. *)
Definition system_verified (k : N) (c : SystemMailConfiguration) : Prop :=
  mc_last_verification_outcome c = VERIFIED_SUCCESS → ∀ s p,
    find_system_mail s = Some (k, c) →
    resolve_runtime_provider runtime_registry (mc_verification_provider c) s = (Val p, s) →
    ∃ s0, provider_verify p s0 = (Val tt, s0) ∧ mc_last_verified_at c = Some (db_clock s0).

Definition department_verified (c : DepartmentMailConfiguration) : Prop :=
  md_last_smtp_verification_outcome c = VERIFIED_SUCCESS → ∀ s p,
    department_smtp_provider c (md_department c) s = (Val p, s) →
    ∃ s0, smtp_verify p s0 = (Val tt, s0) ∧ md_last_smtp_verified_at c = Some (db_clock s0).

Record MailInv (S : gmap N SystemMailConfiguration) (D : gmap N DepartmentMailConfiguration) : Prop := {
  mi_one k k' : is_Some (S !! k) → is_Some (S !! k') → k = k';
  mi_system k c : S !! k = Some c → system_ok c;
  mi_system_verified k c : S !! k = Some c → system_verified k c;
  mi_department_one k k' c c' : D !! k = Some c → D !! k' = Some c' →
    md_department c = md_department c' → k = k';
  mi_department k c : D !! k = Some c → department_ok c;
  mi_department_verified k c : D !! k = Some c → department_verified c
}.

Definition mail_inv (s : Db) : Prop := MailInv (db_system_mail s) (db_department_mail s).

(** A program whose outcome does not depend on the store. *)
Definition constant {A} (m : M Db A) : Prop := ∃ r, ∀ s, m s = (r, s).

(** Two rows stand for the same server: all but the envelope is the same, and the
    envelopes decrypt alike. *)
Record same_smtp (context : string) (c c' : SmtpSettings) : Prop := {
  ss_host : smtp_host c' = smtp_host c;
  ss_port : smtp_port c' = smtp_port c;
  ss_tls : smtp_tls_mode c' = smtp_tls_mode c;
  ss_name : smtp_sender_name c' = smtp_sender_name c;
  ss_email : smtp_sender_email c' = smtp_sender_email c;
  ss_username : smtp_username c' = smtp_username c;
  ss_configured : str_true (smtp_password_encrypted c') = str_true (smtp_password_encrypted c);
  ss_password s : smtp_password c' context s = smtp_password c context s
}.

Record same_system (c c' : SystemMailConfiguration) : Prop := {
  sy_name : mc_brevo_sender_name c' = mc_brevo_sender_name c;
  sy_email : mc_brevo_sender_email c' = mc_brevo_sender_email c;
  sy_configured : str_true (mc_brevo_api_key_encrypted c') = str_true (mc_brevo_api_key_encrypted c);
  sy_key s : decrypt_application_secret (mc_brevo_api_key_encrypted c') BREVO_API_KEY_CONTEXT s
    = decrypt_application_secret (mc_brevo_api_key_encrypted c) BREVO_API_KEY_CONTEXT s;
  sy_smtp : same_smtp SMTP_PASSWORD_CONTEXT (mc_smtp c) (mc_smtp c');
  sy_proxy : mc_outbound_mail_https_proxy c' = mc_outbound_mail_https_proxy c
}.

(** The two factories on a given row. *)
Definition smtp_of_row (c : SystemMailConfiguration) : M Db Provider :=
  configuration_error smtp_row_error (
    validate_smtp_configuration (mc_smtp c) ;;;
    guard (auth_pair (mc_smtp c)) EValue "" ;;;
    let! password := smtp_password (mc_smtp c) SMTP_PASSWORD_CONTEXT in
    ret (SmtpProvider (effective_smtp (mc_smtp c) password))).

Definition brevo_of_row (c : SystemMailConfiguration) : M Db (string * string * string) :=
  configuration_error brevo_row_error (
    validate_brevo_sender_configuration c ;;;
    guard (str_true (mc_brevo_api_key_encrypted c)) EValidation "Brevo API key is missing." ;;;
    let! raw := decrypt_application_secret (mc_brevo_api_key_encrypted c) BREVO_API_KEY_CONTEXT in
    let! api_key := decode_utf8 raw in
    ret (mc_brevo_sender_name c, mc_brevo_sender_email c, api_key)).

(** The configuration rows. *)
Definition mail_tables (s : Db) := (db_system_mail s, db_department_mail s).

(** The invariant is kept. *)
Definition evolves_mail (s s' : Db) : Prop := mail_inv s → mail_inv s'.

(** [OutboundMailHttpTransport()] for a given setting of the proxy. *)
Definition transport_over (proxy_url : string) : M Db (option string) :=
  let! proxies := _proxy_configuration proxy_url in
  if (OUTBOUND_MAIL_HTTP_CONNECT_TIMEOUT_SECONDS <=? 0)
     || (OUTBOUND_MAIL_HTTP_READ_TIMEOUT_SECONDS <=? 0)
  then transport_error else ret proxies.

End invariant.

(** ** What the handlers keep *)

Section handlers.
Context (R : relation Db) `{!PreOrder R}.

Lemma preserves_configuration_error {A} caught (m : M Db A) :
  preserves R m → preserves R (configuration_error caught m).
Proof.
  intros Hm. apply preserves_try_except; [exact _|exact Hm|]. intros e k.
  destruct (caught _); [|discriminate]. intros [= <-]. apply preserves_raise; exact _.
Qed.

Lemma preserves_or_unavailable {A} caught reason (m : M Db A) :
  preserves R m → preserves R (or_unavailable caught reason m).
Proof.
  intros Hm. apply preserves_try_except; [exact _|preserve|]. intros e k.
  destruct (caught _); [|discriminate]. intros [= <-]. apply preserves_ret; exact _.
Qed.

Lemma preserves_provider_outcome {A} (m : M Db A) :
  preserves R m → preserves R (provider_outcome m).
Proof.
  intros Hm. apply preserves_try_except; [exact _|preserve|]. intros e k.
  destruct (exn_kind e); try discriminate. intros [= <-]. apply preserves_ret; exact _.
Qed.

Lemma preserves_admission_outcome {A} (m : M Db A) :
  preserves R m → preserves R (admission_outcome m).
Proof.
  intros Hm. apply preserves_try_except; [exact _|preserve|]. intros e k.
  destruct (exn_kind e); try discriminate. intros [= <-]. apply preserves_ret; exact _.
Qed.

Lemma preserves_transport_unavailable {A} (m : M Db A) :
  preserves R m → preserves R (transport_unavailable m).
Proof.
  intros Hm. apply preserves_try_except; [exact _|exact Hm|]. intros e k.
  destruct (exn_kind e); try discriminate. intros [= <-]. apply preserves_raise; exact _.
Qed.

Lemma preserves_department_verification (m : M Db unit) :
  preserves R m → preserves R (department_verification m).
Proof.
  intros Hm. apply preserves_try_except; [exact _|preserve|]. intros e k.
  destruct (exn_kind e); try discriminate; intros [= <-]; apply preserves_ret; exact _.
Qed.
End handlers.

(** [follow R] goes down into the programs of mail. *)
Ltac follow :=
  repeat first
    [ progress preserve
    | lazymatch goal with
      | |- preserves _ (configuration_error _ _) => apply preserves_configuration_error; [exact _|]
      | |- preserves _ (or_unavailable _ _ _) => apply preserves_or_unavailable; [exact _|]
      | |- preserves _ (provider_outcome _) => apply preserves_provider_outcome; [exact _|]
      | |- preserves _ (admission_outcome _) => apply preserves_admission_outcome; [exact _|]
      | |- preserves _ (transport_unavailable _) => apply preserves_transport_unavailable; [exact _|]
      | |- preserves _ (department_verification _) => apply preserves_department_verification; [exact _|]
      | |- preserves _ (fold_m _ _ _) => fail
      | |- preserves eq (emit _) => fail
      | |- preserves _ ?m => let h := program_head m in unfold h
      end ].

Section theorems.
Context `{MailEnvironment, MailSettings, DeliverySettings, Aesgcm, SecretSettings}.

(** ** Programs whose outcome does not depend on the store *)

Lemma constant_ret {A} (a : A) : constant (ret a).
Proof. eexists. reflexivity. Qed.

Lemma constant_raise {A} k msg : constant (raise k msg : M Db A).
Proof. eexists. reflexivity. Qed.

Lemma constant_bind {A B} (m : M Db A) (k : A → M Db B) :
  constant m → (∀ a, constant (k a)) → constant (bind m k).
Proof.
  intros [r Hm] Hk. destruct r as [a|e].
  - destruct (Hk a) as [r' Ha]. exists r'. intros s. unfold bind. rewrite Hm. apply Ha.
  - exists (Exc e). intros s. unfold bind. rewrite Hm. reflexivity.
Qed.

Lemma constant_decrypt e ctx : constant (decrypt_application_secret e ctx).
Proof.
  apply constant_bind.
  - unfold configured_application_secret_cipher, make_cipher, secret_error.
    destruct (parse_application_secret_keyring _); [|destruct (_ && _)]; eauto using constant_raise, constant_ret.
  - intros c. unfold cipher_decrypt, secret_error.
    repeat case_match; eauto using constant_raise, constant_ret.
Qed.

Lemma constant_smtp_password c ctx : constant (smtp_password c ctx).
Proof.
  unfold smtp_password. destruct (str_true _); [|apply constant_ret].
  apply constant_bind; [apply constant_decrypt|]. intros raw. unfold decode_utf8, get_or_raise.
  case_match; eauto using constant_raise, constant_ret.
Qed.

Lemma constant_eq {A} (m : M Db A) s s' : constant m → (m s).1 = (m s').1.
Proof. intros [r Hr]. rewrite !Hr. reflexivity. Qed.

Lemma constant_readonly {A} (m : M Db A) : constant m → readonly m.
Proof. intros [r Hr] s. rewrite Hr. reflexivity. Qed.

(** ** A provider depends on its row only, and not on how the secrets are encrypted *)

Lemma same_smtp_refl ctx c : same_smtp ctx c c.
Proof. split; reflexivity. Qed.

Lemma same_system_refl c : same_system c c.
Proof. split; try reflexivity. apply same_smtp_refl. Qed.

Lemma same_smtp_checks ctx c c' : same_smtp ctx c c' →
  auth_pair c' = auth_pair c ∧ smtp_complete c' = smtp_complete c
  ∧ ∀ password, effective_smtp c' password = effective_smtp c password.
Proof.
  intros [E1 E2 E3 E4 E5 E6 E7 _]. unfold auth_pair, smtp_complete, effective_smtp.
  rewrite E1, E2, E3, E4, E5, E6, E7. auto.
Qed.

Lemma smtp_from_row s k c :
  find_system_mail s = Some (k, c) → smtp_from_system_configuration s = smtp_of_row c s.
Proof.
  intros E. unfold smtp_from_system_configuration, smtp_of_row, configuration_error, try_except,
    bind, gets. rewrite E. reflexivity.
Qed.

Lemma constant_guard c k msg : constant (guard c k msg : M Db unit).
Proof. destruct c; [apply constant_ret|apply constant_raise]. Qed.

Lemma constant_configuration_error {A} caught (m : M Db A) :
  constant m → constant (configuration_error caught m).
Proof.
  intros [[a|e] Hm]; unfold configuration_error, try_except.
  - exists (Val a). intros s. rewrite Hm. reflexivity.
  - destruct (caught (exn_kind e)) eqn:E.
    + eexists. intros s. rewrite Hm, E. reflexivity.
    + exists (Exc e). intros s. rewrite Hm, E. reflexivity.
Qed.

Lemma constant_smtp_of_row c : constant (smtp_of_row c).
Proof.
  apply constant_configuration_error. apply constant_bind; [apply constant_guard|intros _].
  apply constant_bind; [apply constant_guard|intros _].
  apply constant_bind; [apply constant_smtp_password|]. intros p. apply constant_ret.
Qed.

Lemma constant_brevo_of_row c : constant (brevo_of_row c).
Proof.
  apply constant_configuration_error. apply constant_bind; [apply constant_guard|intros _].
  apply constant_bind; [apply constant_guard|intros _].
  apply constant_bind; [apply constant_decrypt|]. intros raw.
  apply constant_bind; [|intros; apply constant_ret].
  unfold decode_utf8, get_or_raise. case_match; auto using constant_raise, constant_ret.
Qed.

Lemma bind_ext {A B} (m m' : M Db A) (k k' : A → M Db B) s :
  m s = m' s → (∀ a s', k a s' = k' a s') → bind m k s = bind m' k' s.
Proof. unfold bind. intros -> Hk. destruct (m' s) as [[a|e] s']; auto. Qed.

Lemma configuration_error_ext {A} caught (m m' : M Db A) s :
  m s = m' s → configuration_error caught m s = configuration_error caught m' s.
Proof. unfold configuration_error, try_except. intros ->. reflexivity. Qed.

Lemma smtp_of_row_same c c' s : same_system c c' → smtp_of_row c' s = smtp_of_row c s.
Proof.
  intros E. pose proof (same_smtp_checks _ _ _ (sy_smtp _ _ E)) as (E1 & E2 & E3).
  apply configuration_error_ext. unfold validate_smtp_configuration. rewrite E1, E2.
  apply bind_ext; [reflexivity|]. intros u s1. apply bind_ext; [reflexivity|]. intros v s2.
  apply bind_ext; [apply (ss_password _ _ _ (sy_smtp _ _ E))|]. intros p s3. rewrite E3. reflexivity.
Qed.

Lemma brevo_of_row_same c c' s : same_system c c' → brevo_of_row c' s = brevo_of_row c s.
Proof.
  intros [E1 E2 E3 E4 _ _]. apply configuration_error_ext.
  unfold validate_brevo_sender_configuration. rewrite E1, E2, E3.
  apply bind_ext; [reflexivity|]. intros u s1. apply bind_ext; [reflexivity|]. intros v s2.
  apply bind_ext; [apply E4|reflexivity].
Qed.

Lemma brevo_from_row s k c : find_system_mail s = Some (k, c) →
  brevo_from_system_configuration s
  = (let! ' (name, email, api_key) := brevo_of_row c in
     let! proxies := transport_over
       (default OUTBOUND_MAIL_HTTPS_PROXY (mc_outbound_mail_https_proxy c)) in
     ret (BrevoProvider name email api_key proxies)) s.
Proof.
  intros E. unfold brevo_from_system_configuration.
  assert (Ec : configuration_error brevo_row_error (
      let! row := gets find_system_mail in
      let! ' (_, c) := get_or_raise row EDoesNotExist "matching query does not exist." in
      validate_brevo_sender_configuration c ;;;
      guard (str_true (mc_brevo_api_key_encrypted c)) EValidation "Brevo API key is missing." ;;;
      let! raw := decrypt_application_secret (mc_brevo_api_key_encrypted c) BREVO_API_KEY_CONTEXT in
      let! api_key := decode_utf8 raw in
      ret (mc_brevo_sender_name c, mc_brevo_sender_email c, api_key)) s = brevo_of_row c s)
    by (apply configuration_error_ext; unfold bind at 1, gets; rewrite E; reflexivity).
  destruct (constant_brevo_of_row c) as [r Hr]. rewrite Hr in Ec. destruct r as [[[n e] a]|x].
  2: { rewrite (bind_exc _ _ _ _ _ Ec), (bind_exc _ _ _ _ _ (Hr s)). reflexivity. }
  rewrite (bind_run _ _ _ _ _ Ec), (bind_run _ _ _ _ _ (Hr s)).
  apply bind_ext; [|reflexivity]. unfold http_transport, bind at 1, gets, _effective_proxy_url.
  rewrite E. reflexivity.
Qed.

Lemma constant_transport_over u : constant (transport_over u).
Proof.
  apply constant_bind.
  - unfold _proxy_configuration, transport_error. repeat case_match; auto using constant_raise, constant_ret.
  - intros p. unfold transport_error. case_match; auto using constant_raise, constant_ret.
Qed.

Lemma supported_cases id : _runtime_provider_is_supported id = true → id = BREVO ∨ id = SMTP.
Proof.
  unfold _runtime_provider_is_supported, api_validator. cbn [List.find API_PROVIDER_REGISTRY fst].
  destruct (String.eqb_spec id SMTP) as [->|]; [auto|].
  destruct (String.eqb_spec BREVO id) as [<-|]; [auto|discriminate].
Qed.

(** The outcome of resolving a provider depends on the row alone. *)
Lemma resolve_same id s k c s' k' c' :
  find_system_mail s = Some (k, c) → find_system_mail s' = Some (k', c') → same_system c c' →
  (resolve_runtime_provider runtime_registry id s').1 = (resolve_runtime_provider runtime_registry id s).1
  ∧ (resolve_runtime_provider runtime_registry id s).2 = s.
Proof.
  intros E E' Hs. unfold resolve_runtime_provider.
  destruct (_runtime_provider_is_supported id) eqn:Esup; cbn [negb]; [|split; reflexivity].
  destruct (supported_cases _ Esup) as [-> | ->].
  - change (rg_providers runtime_registry !! BREVO) with (@None Provider).
    change (rg_factories runtime_registry !! BREVO) with (Some brevo_from_system_configuration).
    cbv beta iota.
    rewrite (brevo_from_row _ _ _ E), (brevo_from_row _ _ _ E').
    destruct (constant_brevo_of_row c) as [r Hr].
    destruct (constant_transport_over (default OUTBOUND_MAIL_HTTPS_PROXY
      (mc_outbound_mail_https_proxy c))) as [t Ht].
    assert (Hr' : ∀ s, brevo_of_row c' s = (r, s)) by (intros s1; rewrite (brevo_of_row_same _ _ _ Hs); apply Hr).
    rewrite (sy_proxy _ _ Hs). destruct r as [[[n e] a]|x].
    + rewrite (bind_run _ _ _ _ _ (Hr s)), (bind_run _ _ _ _ _ (Hr' s')).
      unfold bind. rewrite !Ht. destruct t; auto.
    + rewrite (bind_exc _ _ _ _ _ (Hr s)), (bind_exc _ _ _ _ _ (Hr' s')). auto.
  - change (rg_providers runtime_registry !! SMTP) with (@None Provider).
    change (rg_factories runtime_registry !! SMTP) with (Some smtp_from_system_configuration).
    cbv beta iota.
    rewrite (smtp_from_row _ _ _ E), (smtp_from_row _ _ _ E'), (smtp_of_row_same _ _ _ Hs).
    destruct (constant_smtp_of_row c) as [r Hr]. rewrite !Hr. auto.
Qed.

Lemma wlp_configuration_error {A} caught (m : M Db A) s Q :
  wlp m s Q → wlp (configuration_error caught m) s Q.
Proof.
  unfold wlp, configuration_error, try_except. destruct (m s) as [[a|e] s']; [auto|].
  destruct (caught _); auto.
Qed.

Lemma wlp_any {A} (m : M Db A) s (Q : A → Db → Prop) : (∀ a s', Q a s') → wlp m s Q.
Proof. unfold wlp. destruct (m s) as [[a|e] s']; auto. Qed.

Lemma resolved_identity id s p s' :
  resolve_runtime_provider runtime_registry id s = (Val p, s') → provider_id p = id.
Proof.
  unfold resolve_runtime_provider.
  destruct (_runtime_provider_is_supported id) eqn:Esup; cbn [negb]; [|discriminate].
  destruct (supported_cases _ Esup) as [-> | ->].
  - change (rg_providers runtime_registry !! BREVO) with (@None Provider).
    change (rg_factories runtime_registry !! BREVO) with (Some brevo_from_system_configuration).
    cbv beta iota. intros E. refine (wlp_elim _ _ (λ p _, provider_id p = BREVO) _ _ _ E).
    apply wlp_bind, wlp_any. intros [[n e] a] s1. apply wlp_bind, wlp_any. intros x s2.
    apply wlp_ret. reflexivity.
  - change (rg_providers runtime_registry !! SMTP) with (@None Provider).
    change (rg_factories runtime_registry !! SMTP) with (Some smtp_from_system_configuration).
    cbv beta iota. intros E. refine (wlp_elim _ _ (λ p _, provider_id p = SMTP) _ _ _ E).
    apply wlp_configuration_error. apply wlp_bind, wlp_any. intros row s1.
    apply wlp_bind, wlp_any. intros [k c] s2. apply wlp_bind, wlp_any. intros u s3.
    apply wlp_bind, wlp_any. intros v s4. apply wlp_bind, wlp_any. intros w s5.
    apply wlp_ret. reflexivity.
Qed.

Lemma effective_runtime mode api s p s' : resolve_effective_provider mode api s = (Val p, s') →
  resolve_runtime_provider runtime_registry (provider_id p) s = (Val p, s').
Proof.
  unfold resolve_effective_provider. repeat case_match; intros E; try discriminate;
    rewrite (resolved_identity _ _ _ _ E); exact E.
Qed.

(** ** The rows *)

Lemma find_system_lookup s k c : find_system_mail s = Some (k, c) → db_system_mail s !! k = Some c.
Proof.
  unfold find_system_mail. intros [Hin _]%order_by_head_Some. apply rows_elem in Hin. apply Hin.
Qed.

Lemma find_system_none s : find_system_mail s = None → db_system_mail s = ∅.
Proof.
  unfold find_system_mail. intros Hn%order_by_head_None. apply map_empty. intros k.
  destruct (db_system_mail s !! k) as [c|] eqn:E; [|reflexivity].
  assert (K : (k, c) ∈ rows (db_system_mail s) (λ _ _, true)) by (apply rows_elem; auto).
  rewrite Hn in K. inversion K.
Qed.

Lemma system_lookup_find s k c : mail_inv s → db_system_mail s !! k = Some c →
  find_system_mail s = Some (k, c).
Proof.
  intros I E. destruct (find_system_mail s) as [[k' c']|] eqn:F.
  - apply find_system_lookup in F.
    assert (k' = k) as -> by (apply (mi_one _ _ I); eauto). congruence.
  - apply find_system_none in F. rewrite F, lookup_empty in E. discriminate.
Qed.

Lemma mail_inv_same s s' : mail_tables s' = mail_tables s → mail_inv s → mail_inv s'.
Proof. unfold mail_inv. intros [= -> ->]. auto. Qed.

Lemma inv_save_system S D k c c' : MailInv S D → S !! k = Some c →
  system_ok c' → system_verified k c' → MailInv (<[k := c']> S) D.
Proof.
  intros [O Y V DO DY DV] Hk Hok Hv. split; [| | |exact DO|exact DY|exact DV].
  - intros i j. rewrite !lookup_insert_is_Some. intros Hi Hj. apply O.
    + destruct Hi as [<-|[_ Hi]]; eauto.
    + destruct Hj as [<-|[_ Hj]]; eauto.
  - intros j d [[<- <-]|[_ Hd]]%lookup_insert_Some; eauto.
  - intros j d [[<- <-]|[_ Hd]]%lookup_insert_Some; eauto.
Qed.

Lemma inv_create_system D k : MailInv ∅ D → MailInv {[k := new_system_mail]} D.
Proof.
  intros [_ _ _ DO DY DV]. split; [| | |exact DO|exact DY|exact DV].
  - intros i j [c [<- _]%lookup_singleton_Some] [c' [<- _]%lookup_singleton_Some]. reflexivity.
  - intros j c [_ <-]%lookup_singleton_Some. split; [reflexivity|left; reflexivity].
  - intros j c [_ <-]%lookup_singleton_Some [=].
Qed.

Lemma wlp_configuration s Q : mail_inv s →
  (∀ k c s1, mail_inv s1 → find_system_mail s1 = Some (k, c) → db_system_mail s1 !! k = Some c →
     Q (k, c) s1) → wlp _configuration s Q.
Proof.
  intros I HQ. unfold _configuration. apply wlp_skip; [preserve|]. intros row [= <-].
  destruct (find_system_mail s) as [[k c]|] eqn:F.
  - apply wlp_ret, HQ; auto using find_system_lookup.
  - apply wlp_bind, wlp_create. intros k _. apply wlp_ret.
    assert (I' : mail_inv (s <| db_system_mail ::= <[k := new_system_mail]> |>)).
    { unfold mail_inv in *. cbn. rewrite (find_system_none _ F) in *. apply inv_create_system, I. }
    assert (L : db_system_mail (s <| db_system_mail ::= <[k := new_system_mail]> |>) !! k
      = Some new_system_mail) by (cbn; apply lookup_insert_eq).
    apply HQ; auto using system_lookup_find.
Qed.

Lemma wlp_save_system s k c c' (Q : unit → Db → Prop) :
  mail_inv s → db_system_mail s !! k = Some c → mode_ok c' → system_verified k c' →
  (∀ s', mail_inv s' → Q tt s') → wlp (save_system_mail k c') s Q.
Proof.
  intros I Hk Hm Hv HQ. unfold save_system_mail. apply wlp_bind, wlp_guard. intros Hp.
  apply wlp_save. intros d Hd. apply HQ. unfold mail_inv in *. cbn.
  apply (inv_save_system _ _ _ c); auto. split; assumption.
Qed.

(** ** The system's services keep the invariant *)

#[export] Instance evolves_mail_preorder : PreOrder evolves_mail.
Proof. unfold evolves_mail. split; [intros s|intros s1 s2 s3]; auto. Qed.

Lemma evolves_mail_atomic {A} (m : M Db A) :
  (∀ s, mail_inv s → wlp m s (λ _ s', mail_inv s')) → preserves evolves_mail (atomic m).
Proof.
  intros Hm. apply preserves_atomic_wlp; [exact _|]. intros s. unfold wlp, evolves_mail.
  specialize (Hm s). unfold wlp in Hm. destruct (m s) as [[a|e] s']; auto.
Qed.

Lemma evolves_mail_keeps {A} (m : M Db A) : keeps mail_tables m → preserves evolves_mail m.
Proof. intros Hm s I. exact (mail_inv_same _ _ (Hm s) I). Qed.

Lemma wlp_kept {A} (m : M Db A) s : mail_inv s → keeps mail_tables m → wlp m s (λ _ s', mail_inv s').
Proof. intros I Hm. eapply wlp_frame; [exact Hm|]. intros a s' E. exact (mail_inv_same _ _ E I). Qed.

Lemma not_verified k c : mc_last_verification_outcome c ≠ VERIFIED_SUCCESS → system_verified k c.
Proof. intros Hne E. contradiction. Qed.

(** The change of the row [c] into [c'], audited. *)
Lemma wlp_change {A} s k c c' (rest : M Db A) :
  mail_inv s → db_system_mail s !! k = Some c → mode_ok c' → system_verified k c' →
  keeps mail_tables rest → wlp (save_system_mail k c' ;;; rest) s (λ _ s', mail_inv s').
Proof.
  intros I Hk Hm Hv Hr. apply wlp_bind. apply (wlp_save_system _ _ c); auto.
  intros s' I'. apply wlp_kept; assumption.
Qed.

Lemma constant_encrypt_readonly text ctx : readonly (encrypt_application_secret text ctx).
Proof.
  unfold encrypt_application_secret, configured_application_secret_cipher, make_cipher,
    secret_error, cipher_encrypt. preserve.
Qed.

Hint Resolve constant_encrypt_readonly : preserves.

(** A service up to the lock of the row. *)
Ltac locked := apply wlp_bind, wlp_configuration; [assumption|];
  intros k c s1 I1 F1 L1; cbv zeta.

Ltac system_service :=
  apply evolves_mail_atomic; intros s I; apply wlp_skip; [auto with preserves|]; intros _ _.

Lemma mail_configure_proxy a u : preserves evolves_mail (configure_outbound_mail_https_proxy a u).
Proof.
  system_service. cbv zeta. apply wlp_skip.
  { unfold validate_outbound_mail_https_proxy, _proxy_configuration, transport_error. preserve. }
  intros _ _. locked. destruct (bool_decide _); [apply wlp_ret; assumption|].
  apply (wlp_change _ _ c); [exact I1|exact L1| |apply not_verified; discriminate|frame].
  exact (proj2 (mi_system _ _ I1 _ _ L1)).
Qed.

Lemma mail_clear_brevo a : preserves evolves_mail (clear_brevo_api_key a).
Proof.
  system_service. locked.
  apply (wlp_change _ _ c); [exact I1|exact L1| |apply not_verified; discriminate|frame].
  exact (proj2 (mi_system _ _ I1 _ _ L1)).
Qed.

Lemma mail_replace_brevo a key : preserves evolves_mail (replace_brevo_api_key a key).
Proof.
  system_service. apply wlp_skip; [preserve|]. intros _ _. locked.
  apply wlp_skip; [auto with preserves|]. intros e _.
  apply (wlp_change _ _ c); [exact I1|exact L1| |apply not_verified; discriminate|frame].
  exact (proj2 (mi_system _ _ I1 _ _ L1)).
Qed.

Lemma mail_configure_brevo a n e : preserves evolves_mail (configure_brevo a n e).
Proof.
  system_service. locked. apply wlp_skip; [unfold full_clean; preserve|]. intros _ _.
  unfold validate_brevo_sender_configuration. apply wlp_bind, wlp_guard.
  intros [Hn He]%andb_true_iff.
  apply (wlp_change _ _ c); [exact I1|exact L1| |apply not_verified; discriminate|frame].
  destruct (mi_system _ _ I1 _ _ L1) as [_ [Hm|[Hm|Hm]]]; unfold mode_ok; cbn in *; tauto.
Qed.

Lemma mail_configure_smtp a h p t n e : preserves evolves_mail (configure_smtp a h p t n e).
Proof.
  system_service. locked. apply wlp_skip; [unfold full_clean; preserve|]. intros _ _.
  unfold validate_smtp_configuration. apply wlp_bind, wlp_guard. intros Hc.
  apply (wlp_change _ _ c); [exact I1|exact L1| |apply not_verified; discriminate|frame].
  destruct (mi_system _ _ I1 _ _ L1) as [_ [Hm|[Hm|Hm]]]; unfold mode_ok; cbn in *; tauto.
Qed.

Lemma mail_replace_smtp a u p : preserves evolves_mail (replace_smtp_credentials a u p).
Proof.
  system_service. apply wlp_skip; [preserve|]. intros _ _. locked.
  apply wlp_skip; [auto with preserves|]. intros e _.
  apply (wlp_change _ _ c); [exact I1|exact L1| |apply not_verified; discriminate|frame].
  exact (proj2 (mi_system _ _ I1 _ _ L1)).
Qed.

Lemma mail_clear_smtp a : preserves evolves_mail (clear_smtp_credentials a).
Proof.
  system_service. locked.
  apply (wlp_change _ _ c); [exact I1|exact L1| |apply not_verified; discriminate|frame].
  exact (proj2 (mi_system _ _ I1 _ _ L1)).
Qed.

(** The row says the same about servers and verification: the evidence carries over. *)
Lemma verified_same s k c c' :
  find_system_mail s = Some (k, c) → system_verified k c → same_system c c' →
  mc_verification_provider c' = mc_verification_provider c →
  mc_last_verification_outcome c' = mc_last_verification_outcome c →
  mc_last_verified_at c' = mc_last_verified_at c → system_verified k c'.
Proof.
  intros F V Hs E1 E2 E3 Eo s' p F'. rewrite E1, E3. intros Er.
  rewrite E2 in Eo. apply (V Eo s p F).
  destruct (resolve_same (mc_verification_provider c) s k c s' k c' F F' Hs) as [Ef Es].
  rewrite Er in Ef. cbn [fst] in Ef.
  destruct (resolve_runtime_provider runtime_registry (mc_verification_provider c) s) as [r s''].
  cbn in Ef, Es. subst. reflexivity.
Qed.

Lemma activation_ok c s : wlp (validate_activation c) s (λ _ s', s' = s ∧ mode_ok c).
Proof.
  unfold validate_activation, mode_ok.
  destruct (String.eqb_spec (mc_delivery_mode c) "DISABLED") as [->|]; [apply wlp_ret; auto|].
  destruct (String.eqb_spec (mc_delivery_mode c) "API") as [->|].
  - apply wlp_bind, wlp_guard. intros _. unfold validate_api_provider_configuration, api_validator.
    cbn [List.find API_PROVIDER_REGISTRY fst].
    destruct (String.eqb_spec BREVO (mc_api_provider c)) as [<-|]; [|exact I].
    apply wlp_guard. intros [[Hn He]%andb_true_iff _]%andb_true_iff. tauto.
  - destruct (String.eqb_spec (mc_delivery_mode c) "SMTP") as [->|]; [|exact I].
    apply wlp_bind, wlp_guard. intros Hc. apply wlp_guard. tauto.
Qed.

Lemma mail_set_mode a m p : preserves evolves_mail (set_delivery_mode a m p).
Proof.
  system_service. locked. apply wlp_skip; [unfold full_clean; preserve|]. intros _ _.
  apply wlp_bind. eapply wlp_mono; [apply activation_ok|]. intros u s2 [-> Hm].
  apply (wlp_change _ _ c); [exact I1|exact L1|exact Hm| |frame].
  apply (verified_same s1 k c); [exact F1|exact (mi_system_verified _ _ I1 _ _ L1)|..];
    destruct (m =? "API")%string; try reflexivity; split; try reflexivity; apply same_smtp_refl.
Qed.

Lemma readonly_normalize_hostname h : readonly (_normalize_hostname h).
Proof. follow. Qed.

Lemma readonly_connection c : readonly (_connection c).
Proof. pose proof readonly_normalize_hostname. follow. Qed.

Lemma readonly_smtp_verify c : readonly (smtp_verify c).
Proof. pose proof readonly_connection. follow. Qed.

Lemma readonly_provider_verify p : readonly (provider_verify p).
Proof. pose proof readonly_smtp_verify. destruct p; cbn [provider_verify]; follow. Qed.

Lemma readonly_resolve_effective mode api : readonly (resolve_effective_provider mode api).
Proof.
  unfold resolve_effective_provider, resolve_runtime_provider.
  assert (Hf : ∀ f id, rg_factories runtime_registry !! id = Some f →
    f = brevo_from_system_configuration ∨ f = smtp_from_system_configuration).
  { intros f id Hf. change (rg_factories runtime_registry) with
      (<[SMTP := smtp_from_system_configuration]> (<[BREVO := brevo_from_system_configuration]>
        (∅ : gmap string (M Db Provider)))) in Hf.
    apply lookup_insert_Some in Hf as [[_ <-]|[_ Hf]]; [auto|].
    apply lookup_insert_Some in Hf as [[_ <-]|[_ Hf]]; [auto|]. rewrite lookup_empty in Hf. discriminate. }
  assert (Hd : ∀ e c, readonly (decrypt_application_secret e c))
    by (intros e c; apply constant_readonly, constant_decrypt).
  assert (Hs : readonly smtp_from_system_configuration) by (unfold smtp_from_system_configuration; follow).
  assert (Hb : readonly brevo_from_system_configuration) by (unfold brevo_from_system_configuration; follow).
  repeat case_match; unfold provider_error; auto with preserves;
    match goal with Hm : rg_factories _ !! _ = Some _ |- _ => destruct (Hf _ _ Hm) as [-> | ->] end;
    assumption.
Qed.

(** The verification of the selected provider succeeded, or gave the code of its failure. *)
Lemma wlp_provider_check c s :
  wlp (provider_outcome (
      let! provider := resolve_effective_provider (mc_delivery_mode c) (mc_api_provider c) in
      provider_verify provider ;;;
      ret (provider_id provider))) s
    (λ answer s', s' = s ∧ ∀ id, answer = inr id → ∃ p,
       resolve_effective_provider (mc_delivery_mode c) (mc_api_provider c) s = (Val p, s)
       ∧ provider_verify p s = (Val tt, s) ∧ provider_id p = id).
Proof.
  pose proof (readonly_resolve_effective (mc_delivery_mode c) (mc_api_provider c) s) as Hr.
  unfold wlp, provider_outcome, try_except, bind, ret.
  destruct (resolve_effective_provider _ _ s) as [[p|e] s1]; cbn in Hr; subst s1.
  - pose proof (readonly_provider_verify p s) as Hv.
    destruct (provider_verify p s) as [[[]|e] s1] eqn:Ev; cbn in Hv; subst s1.
    + split; [reflexivity|]. intros id [= <-]. exists p. auto.
    + destruct (exn_kind e); try exact I. split; [reflexivity|discriminate].
  - destruct (exn_kind e); try exact I. split; [reflexivity|discriminate].
Qed.

Lemma mail_verify_system a : preserves evolves_mail (verify_system_mail_configuration a).
Proof.
  system_service. locked. apply wlp_skip; [preserve|]. intros now [= <-].
  apply wlp_bind. eapply wlp_mono; [apply wlp_provider_check|]. intros answer s2 [-> Ha].
  assert (Hm := proj2 (mi_system _ _ I1 _ _ L1)).
  destruct answer as [code|id].
  - apply (wlp_change _ _ c); [exact I1|exact L1|exact Hm|apply not_verified; discriminate|frame].
  - destruct (Ha id eq_refl) as (p & Er & Ev & Ei). apply effective_runtime in Er.
    apply (wlp_change _ _ c); [exact I1|exact L1|exact Hm| |frame].
    intros _ s' p' F' Er'. exists s1. split; [|reflexivity].
    cbn in Er'. rewrite <- Ei in Er'. edestruct (resolve_same (provider_id p) s1 k c) as [Ef _];
      [exact F1|exact F'|split; try reflexivity; apply same_smtp_refl|].
    rewrite Er, Er' in Ef. injection Ef as <-. exact Ev.
Qed.

(** ** The services of departments keep it *)

Lemma find_department_lookup s d k c : find_department_mail s d = Some (k, c) →
  db_department_mail s !! k = Some c ∧ md_department c = d.
Proof.
  unfold find_department_mail. intros [Hin _]%order_by_head_Some. apply rows_elem in Hin as [Hk Hd].
  split; [exact Hk|]. apply N.eqb_eq, Hd.
Qed.

Lemma find_department_none s d k c : find_department_mail s d = None →
  db_department_mail s !! k = Some c → md_department c ≠ d.
Proof.
  unfold find_department_mail. intros Hn%order_by_head_None Hk E.
  assert (K : (k, c) ∈ rows (db_department_mail s) (λ _ c, N.eqb (md_department c) d))
    by (apply rows_elem; split; [exact Hk|apply N.eqb_eq, E]).
  rewrite Hn in K. inversion K.
Qed.

Lemma inv_save_department S D k c' : MailInv S D →
  (∀ j d, D !! j = Some d → md_department d = md_department c' → j = k) →
  department_ok c' → department_verified c' → MailInv S (<[k := c']> D).
Proof.
  intros [O Y V DO DY DV] Hu Hok Hv. split; [exact O|exact Y|exact V|..].
  - intros i j d d' Hi Hj E. apply lookup_insert_Some in Hi, Hj.
    destruct Hi as [[<- <-]|[_ Hi]], Hj as [[<- <-]|[_ Hj]]; eauto.
    symmetry. eauto.
  - intros j d [[<- <-]|[_ Hd]]%lookup_insert_Some; eauto.
  - intros j d [[<- <-]|[_ Hd]]%lookup_insert_Some; eauto.
Qed.

Lemma department_not_verified c :
  md_last_smtp_verification_outcome c ≠ VERIFIED_SUCCESS → department_verified c.
Proof. intros Hne E. contradiction. Qed.

Lemma wlp_locked_department d s Q : mail_inv s →
  (∀ k c s1, mail_inv s1 → db_department_mail s1 !! k = Some c → md_department c = d →
     Q (k, c) s1) → wlp (_locked_department_configuration d) s Q.
Proof.
  intros I HQ. unfold _locked_department_configuration. apply wlp_skip; [preserve|].
  intros row [= <-]. destruct (find_department_mail s d) as [[k c]|] eqn:F.
  - apply find_department_lookup in F as [Hk Hd]. apply wlp_ret. auto.
  - apply wlp_skip; [auto with preserves|]. intros x _.
    apply wlp_bind, wlp_create. intros k Hk. apply wlp_ret. apply HQ; [|cbn; apply lookup_insert_eq|reflexivity].
    unfold mail_inv in *. cbn. apply inv_save_department; [exact I| |split; [reflexivity|left; reflexivity]|].
    + intros j e Hj E. exfalso. exact (find_department_none _ _ _ _ F Hj E).
    + apply department_not_verified. discriminate.
Qed.

Lemma wlp_department_change {A} s k c c' (rest : M Db A) :
  mail_inv s → db_department_mail s !! k = Some c → md_department c' = md_department c →
  department_mode_ok c' → department_verified c' → keeps mail_tables rest →
  wlp (save_department_mail k c' ;;; rest) s (λ _ s', mail_inv s').
Proof.
  intros I Hk Ed Hm Hv Hr. unfold save_department_mail.
  apply wlp_bind, wlp_bind, wlp_guard. intros Hp. apply wlp_save. intros d Hd.
  apply wlp_kept; [|exact Hr]. unfold mail_inv in *. cbn. apply inv_save_department; [exact I| |split; assumption|exact Hv].
  intros j e Hj E. rewrite Ed in E. exact (mi_department_one _ _ I _ _ _ _ Hj Hk E).
Qed.

Lemma readonly_manager a d : readonly (_require_department_mail_manager a d).
Proof. unfold _require_department_mail_manager. preserve. Qed.

Hint Resolve readonly_manager : preserves.

Ltac department_locked := apply wlp_bind, wlp_locked_department; [assumption|];
  intros k c s1 I1 L1 D1; cbv zeta.

Lemma mail_audit_department a x k c m b :
  keeps mail_tables (_audit_department_configuration a x k c m b).
Proof. frame. Qed.

Hint Resolve mail_audit_department : preserves.

Lemma mail_configure_department a d h p t n e :
  preserves evolves_mail (configure_department_smtp a d h p t n e).
Proof.
  system_service. department_locked. apply wlp_skip; [unfold full_clean; preserve|]. intros _ _.
  unfold validate_smtp_configuration. apply wlp_bind, wlp_guard. intros Hc.
  destruct (same_smtp_form _ _); [apply wlp_ret; exact I1|].
  apply (wlp_department_change _ _ c); [exact I1|exact L1|reflexivity| |
    apply department_not_verified; discriminate|auto with preserves].
  destruct (mi_department _ _ I1 _ _ L1) as [_ [Hm|[Hm|Hm]]]; unfold department_mode_ok; cbn in *; tauto.
Qed.

Lemma mail_replace_department a d u p :
  preserves evolves_mail (replace_department_smtp_credentials a d u p).
Proof.
  system_service. apply wlp_skip; [preserve|]. intros _ _. department_locked.
  apply wlp_skip; [auto with preserves|]. intros e _.
  apply (wlp_department_change _ _ c); [exact I1|exact L1|reflexivity| |
    apply department_not_verified; discriminate|auto with preserves].
  exact (proj2 (mi_department _ _ I1 _ _ L1)).
Qed.

Lemma mail_clear_department a d : preserves evolves_mail (clear_department_smtp_credentials a d).
Proof.
  system_service. department_locked. destruct (_ && _); [apply wlp_ret; exact I1|].
  apply (wlp_department_change _ _ c); [exact I1|exact L1|reflexivity| |
    apply department_not_verified; discriminate|auto with preserves].
  exact (proj2 (mi_department _ _ I1 _ _ L1)).
Qed.

Lemma mail_department_mode a d m : preserves evolves_mail (set_department_delivery_mode a d m).
Proof.
  system_service. department_locked. apply wlp_bind.
  apply wlp_mono with (Q := λ _ s', s' = s1 ∧ (m = "DISABLED" ∨ m = "SYSTEM"
    ∨ m = "CUSTOM_SMTP" ∧ smtp_complete (md_smtp c) = true)).
  - destruct (String.eqb_spec m "SYSTEM") as [->|].
    + apply wlp_skip; [preserve|]. intros b _. apply wlp_guard. auto.
    + destruct (String.eqb_spec m "CUSTOM_SMTP") as [->|].
      * apply wlp_bind, wlp_guard. intros Hc. apply wlp_guard. auto.
      * apply wlp_guard. intros ->%String.eqb_eq. auto.
  - intros u s2 [-> Hm]. destruct (_ =? m)%string; [apply wlp_ret; exact I1|].
    apply (wlp_department_change _ _ c); [exact I1|exact L1|reflexivity|exact Hm| |auto with preserves].
    exact (mi_department_verified _ _ I1 _ _ L1).
Qed.

Lemma constant_department_provider c d : constant (department_smtp_provider c d).
Proof. apply constant_bind; [apply constant_smtp_password|]. intros p. apply constant_ret. Qed.

(** What a recorded success of the department's verification means. *)
Lemma wlp_department_check c d s :
  wlp (department_verification (
      validate_smtp_configuration (md_smtp c) ;;;
      guard (auth_pair (md_smtp c)) EValue "" ;;;
      let! configuration := department_smtp_provider c d in
      smtp_verify configuration)) s
    (λ answer s', s' = s ∧ (answer.1 = VERIFIED_SUCCESS → ∃ p,
       department_smtp_provider c d s = (Val p, s) ∧ smtp_verify p s = (Val tt, s))).
Proof.
  pose proof (constant_readonly _ (constant_department_provider c d) s) as Hd.
  unfold wlp, department_verification, try_except, validate_smtp_configuration, guard, bind, ret, raise.
  destruct (smtp_complete _); [|exact I]. destruct (auth_pair _); [|split; [reflexivity|discriminate]].
  destruct (department_smtp_provider c d s) as [[p|e] s1]; cbn in Hd; subst s1.
  - pose proof (readonly_smtp_verify p s) as Hv.
    destruct (smtp_verify p s) as [[[]|e] s1] eqn:Ev; cbn in Hv; subst s1.
    + split; [reflexivity|]. intros _. exists p. auto.
    + destruct (exn_kind e); try exact I; split; try reflexivity; discriminate.
  - destruct (exn_kind e); try exact I; split; try reflexivity; discriminate.
Qed.

Lemma mail_verify_department a d : preserves evolves_mail (verify_department_smtp_configuration a d).
Proof.
  system_service. apply wlp_skip; [preserve|]. intros row [= <-].
  apply wlp_skip; [preserve|]. intros [k c] Eg.
  destruct (find_department_mail s d) as [[k' c']|] eqn:F; [|discriminate]. injection Eg as -> ->.
  apply find_department_lookup in F as [L1 D1].
  apply wlp_bind. eapply wlp_mono; [apply wlp_department_check|]. intros [outcome code] s1 [-> Ha].
  apply wlp_skip; [preserve|]. intros now [= <-].
  apply (wlp_department_change _ _ c); [exact I|exact L1|reflexivity|
    exact (proj2 (mi_department _ _ I _ _ L1))| |preserve].
  intros Eo s' p' Er. destruct (Ha Eo) as (p & Ep & Ev). exists s. split; [|reflexivity].
  cbn in Er. rewrite D1 in Er.
  assert (Eq := constant_eq _ s s' (constant_department_provider c d)). rewrite Ep in Eq.
  unfold department_smtp_provider in *. cbn in Er. rewrite Er in Eq. injection Eq as <-. exact Ev.
Qed.
End theorems.
