(* ===== verification/ReportInv.v ===== *)
(** The invariant of reports and their grants, what a run of the program never takes back
    about them, and that submission, downloads and clean-up keep both. *)
From S2P Require Import Prelude Text Encoding Models Registry Store Authorization Fingerprint.
From S2P Require Import ApplicationSecrets Tablets Manifests MailProviders MailServices.
From S2P Require Import ReportDelivery JsonText ReportDocuments ReportTransfer ReportPortal.
From S2P Require Import Totality.
From S2P Require Import MailInv.

(** ** Deadlines *)

Definition receipts_of (R : gmap N DownloadReceipt) (pk : N) : list Z :=
  map (λ c, rec_completed_at c.2) (rows R (λ _ c, N.eqb (rec_submission c) pk)).

(** The instant from which a report is expired, with the receipts [R]. *)
Definition deadline (R : gmap N DownloadReceipt) (pk : N) (row : ReportSubmission) : Z :=
  foldl (download_deadline (rs_created_at row)) (stored_deadline row) (receipts_of R pk).

(** ** The invariant *)

Definition ready (r : ReportSubmission) : Prop := rs_state r = SUBMISSION_READY.

(** A row promises nothing beyond seven days, or two days after its first download; while it
    is ready, its file is the one that was accepted. *)
Record row_ok `{Hash} (F : gmap string string) (r : ReportSubmission) : Prop := {
  ro_week : rs_expires_at r ≤ rs_created_at r + 7 * MICROSECONDS_PER_DAY;
  ro_download f : rs_first_download_at r = Some f →
    rs_created_at r ≤ f ∧ rs_expires_at r ≤ f + 48 * MICROSECONDS_PER_HOUR;
  ro_file : ready r → ∃ raw, F !! rs_payload_key r = Some raw ∧ sha256_hex raw = rs_payload_digest r;
  ro_key : ready r → str_true (rs_payload_key r) = true;
  ro_purged : ¬ ready r → rs_payload_key r = ""
}.

Record SubmissionInv `{Hash} (S : gmap N ReportSubmission) (F : gmap string string) : Prop := {
  si_key k r : S !! k = Some r → k ≠ 0%N;
  si_row k r : S !! k = Some r → row_ok F r;
  si_keys k k' r r' : S !! k = Some r → S !! k' = Some r' → ready r → ready r' →
    rs_payload_key r = rs_payload_key r' → k = k';
  si_identity k k' r r' : S !! k = Some r → S !! k' = Some r' →
    rs_installation r = rs_installation r' →
    rs_submission_id r = rs_submission_id r' ∨ rs_report_id r = rs_report_id r' → k = k'
}.

(** A receipt belongs to a submission and can be read. *)
Definition receipt_ok (clock : Z) (S : gmap N ReportSubmission) (c : DownloadReceipt) : Prop :=
  is_Some (S !! rec_submission c) ∧ rec_completed_at c ≤ clock
  ∧ receipt_audit_valid (rec_audit c) = true.

Definition ReceiptInv (clock : Z) (S : gmap N ReportSubmission) (R : gmap N DownloadReceipt) : Prop :=
  ∀ j c, R !! j = Some c → receipt_ok clock S c.

(** Grants: one for a token and for a request, one current for an installation and a
    recipient, for an hour. *)
Record TransferInv (T : gmap N ReportTransfer) : Prop := {
  ti_token k k' t t' : T !! k = Some t → T !! k' = Some t' →
    rt_token_digest t = rt_token_digest t' → k = k';
  ti_request k k' t t' : T !! k = Some t → T !! k' = Some t' →
    rt_installation t = rt_installation t' →
    rt_transfer_request_id t = rt_transfer_request_id t' → k = k';
  ti_current k k' t t' : T !! k = Some t → T !! k' = Some t' →
    rt_installation t = rt_installation t' → rt_recipient t = rt_recipient t' →
    rt_revoked_at t = None → rt_revoked_at t' = None → k = k';
  ti_hour k t : T !! k = Some t → rt_token_expires_at t = rt_issued_at t + MICROSECONDS_PER_HOUR
}.

(** A portal session belongs to a grant that was redeemed, which has no other one. *)
Record PortalInv (T : gmap N ReportTransfer) (P : gmap N ReportPortalSession) : Prop := {
  pi_redeemed k p : P !! k = Some p → ∃ t, T !! po_transfer p = Some t ∧ rt_consumed_at t ≠ None;
  pi_one k k' p p' : P !! k = Some p → P !! k' = Some p' → po_transfer p = po_transfer p' → k = k'
}.

(** ** What never changes back *)

(** What a submission says of itself. *)
Definition submission_identity (r : ReportSubmission) :=
  (rs_installation r, rs_submission_id r, rs_report_id r, rs_recipient r, rs_department r,
   rs_station r, rs_payload_digest r, rs_document_digest r, rs_document_schema_version r,
   rs_key_version r, rs_created_at r).

(** A row stays, as the one it was; while it is ready, its file is the same and its deadline
    does not move away. *)
Definition submission_kept (F F' : gmap string string) (R R' : gmap N DownloadReceipt) (k : N)
    (r r' : ReportSubmission) : Prop :=
  submission_identity r' = submission_identity r
  ∧ (ready r' → ready r ∧ rs_payload_key r' = rs_payload_key r
       ∧ F' !! rs_payload_key r = F !! rs_payload_key r ∧ deadline R' k r' ≤ deadline R k r).

Definition transfer_identity (t : ReportTransfer) :=
  (rt_installation t, rt_recipient t, rt_transfer_request_id t, rt_request_digest t,
   rt_recipient_email_digest t, rt_submissions t, rt_token_digest t, rt_issued_at t,
   rt_token_expires_at t).

(** A grant stays; when it was redeemed or revoked, it stays so. *)
Definition transfer_kept (t t' : ReportTransfer) : Prop :=
  transfer_identity t' = transfer_identity t
  ∧ (rt_consumed_at t ≠ None → rt_consumed_at t' = rt_consumed_at t)
  ∧ (rt_revoked_at t ≠ None → rt_revoked_at t' = rt_revoked_at t).

Definition portal_kept (p p' : ReportPortalSession) : Prop :=
  po_transfer p' = po_transfer p ∧ po_session_digest p' = po_session_digest p
  ∧ (po_logged_out_at p ≠ None → po_logged_out_at p' ≠ None).

(** Every row of [m] is in [m'], related by [Q]. *)
Definition rows_kept {A} (Q : N → A → A → Prop) (m m' : gmap N A) : Prop :=
  ∀ k a, m !! k = Some a → ∃ a', m' !! k = Some a' ∧ Q k a a'.

Record report_history (s s' : Db) : Prop := {
  rh_clock : db_clock s ≤ db_clock s';
  rh_submissions : rows_kept
    (submission_kept (db_spool s) (db_spool s') (db_receipts s) (db_receipts s'))
    (db_report_submissions s) (db_report_submissions s');
  rh_transfers : rows_kept (λ _, transfer_kept) (db_report_transfers s) (db_report_transfers s');
  rh_portals : rows_kept (λ _, portal_kept) (db_portal_sessions s) (db_portal_sessions s')
}.

(** The spool holds no more files than its disk has room for, since writing fails on a full
    disk; until then [uuid.uuid4()] gives a name that no file has. *)
Class SpoolLaws `{ReportStorage} := {
  spool_capacity : nat;
  write_room s : write_fails s = false → (size (db_spool s) < spool_capacity)%nat;
  uuid4_fresh s : (size (db_spool s) ≤ spool_capacity)%nat →
    db_spool s !! (str_uuid (uuid4 s) +:+ ".jwe") = None
}.

Definition spool_room `{SpoolLaws} (F : gmap string string) : Prop := (size F ≤ spool_capacity)%nat.

Record report_inv `{Hash, SpoolLaws} (s : Db) : Prop := {
  ri_room : spool_room (db_spool s);
  ri_submissions : SubmissionInv (db_report_submissions s) (db_spool s);
  ri_receipts : ReceiptInv (db_clock s) (db_report_submissions s) (db_receipts s);
  ri_transfers : TransferInv (db_report_transfers s);
  ri_portals : PortalInv (db_report_transfers s) (db_portal_sessions s)
}.

(** What a part of the program does to reports. *)
Definition evolves_reports `{Hash, SpoolLaws} (s s' : Db) : Prop :=
  report_inv s → report_inv s' ∧ report_history s s'.

(** The tables, with the clock. *)
Definition report_tables (s : Db) :=
  (db_clock s, db_report_submissions s, db_report_transfers s, db_portal_sessions s, db_spool s,
   db_receipts s).

(** The files outside the database. *)
Definition report_files (s : Db) := (db_spool s, db_receipts s).

(** What happens to the store when a program fails and the files are left as they are. *)
Definition with_files (s s' : Db) : Db :=
  s <| db_spool := db_spool s' |> <| db_receipts := db_receipts s' |>.

(** The program leaves the files alone when it fails. *)
Definition fails_clean {A} (m : M Db A) : Prop :=
  ∀ s e s', m s = (Exc e, s') → report_files s' = report_files s.

(** ** Lemmas on deadlines *)

Lemma foldl_deadline created d l x :
  x ≤ foldl (download_deadline created) d l
  ↔ x ≤ d ∧ ∀ c, c ∈ l → created ≤ c → x ≤ c + 48 * MICROSECONDS_PER_HOUR.
Proof.
  revert d. induction l as [|c l IH]; intros d; cbn [foldl].
  - split; [intros Hx; split; [exact Hx|intros c Hc; inversion Hc]|tauto].
  - rewrite IH. unfold download_deadline at 1. destruct (Z.leb_spec created c) as [Hc|Hc].
    + split.
      * intros [Hx Hl]. split; [lia|]. intros c' [->|Hin]%elem_of_cons Hc'; [lia|eauto].
      * intros [Hx Hl]. split; [|intros c' Hin; apply Hl; right; exact Hin].
        specialize (Hl c ltac:(left) Hc). lia.
    + split.
      * intros [Hx Hl]. split; [exact Hx|]. intros c' [->|Hin]%elem_of_cons Hc'; [lia|eauto].
      * intros [Hx Hl]. split; [exact Hx|]. intros c' Hin. apply Hl. right. exact Hin.
Qed.

Lemma elem_receipts R pk c :
  c ∈ receipts_of R pk ↔ ∃ j r, R !! j = Some r ∧ rec_submission r = pk ∧ rec_completed_at r = c.
Proof.
  unfold receipts_of. rewrite list_elem_of_fmap. split.
  - intros ([j r] & -> & Hin). apply rows_elem in Hin as [Hj Hp%N.eqb_eq]. eauto.
  - intros (j & r & Hj & Hp & <-). exists (j, r). split; [reflexivity|].
    apply rows_elem. split; [exact Hj|]. apply N.eqb_eq, Hp.
Qed.

(** The deadline is the least of its bounds. *)
Lemma le_deadline R pk r x :
  x ≤ deadline R pk r ↔ x ≤ stored_deadline r ∧ ∀ j c, R !! j = Some c → rec_submission c = pk →
    rs_created_at r ≤ rec_completed_at c → x ≤ rec_completed_at c + 48 * MICROSECONDS_PER_HOUR.
Proof.
  unfold deadline. rewrite foldl_deadline. split; intros [Hx Hl]; split; auto.
  - intros j c Hj Hp. apply Hl, elem_receipts. eauto.
  - intros c (j & r' & Hj & Hp & <-)%elem_receipts. eauto.
Qed.

Lemma deadline_stored R pk r : deadline R pk r ≤ stored_deadline r.
Proof. destruct (proj1 (le_deadline R pk r (deadline R pk r)) ltac:(lia)) as [Hx _]. exact Hx. Qed.

Lemma deadline_receipt R pk r j c : R !! j = Some c → rec_submission c = pk →
  rs_created_at r ≤ rec_completed_at c →
  deadline R pk r ≤ rec_completed_at c + 48 * MICROSECONDS_PER_HOUR.
Proof. destruct (proj1 (le_deadline R pk r (deadline R pk r)) ltac:(lia)) as [_ Hl]. eauto. Qed.

Lemma stored_deadline_ok `{Hash} F r : row_ok F r → stored_deadline r = rs_expires_at r.
Proof.
  intros [Hw Hd _ _ _]. unfold stored_deadline. destruct (rs_first_download_at r) as [f|].
  - destruct (Hd f eq_refl). lia.
  - lia.
Qed.

(** ** The relation *)

Lemma rows_kept_refl {A} (Q : N → A → A → Prop) m : (∀ k a, Q k a a) → rows_kept Q m m.
Proof. intros HQ k a Hk. eauto. Qed.

Lemma report_history_refl s : report_history s s.
Proof.
  split; [lia|apply rows_kept_refl; intros k..].
  - intros r. split; [reflexivity|]. intros Hr. split_and!; [exact Hr|reflexivity|reflexivity|lia].
  - intros t. split_and!; auto.
  - intros p. split_and!; auto.
Qed.

Lemma report_history_trans s1 s2 s3 :
  report_history s1 s2 → report_history s2 s3 → report_history s1 s3.
Proof.
  intros [C S T P] [C' S' T' P']. split; [lia| | |].
  - intros k r1 H1. destruct (S k r1 H1) as (r2 & H2 & E & D). destruct (S' k r2 H2) as (r3 & H3 & E' & D').
    exists r3. split; [exact H3|]. split; [congruence|]. intros Hr.
    destruct (D' Hr) as (Hr2 & K2 & F2 & L2). destruct (D Hr2) as (Hr1 & K1 & F1 & L1).
    split_and!; [exact Hr1|congruence| |lia]. rewrite <- F1, <- K1, F2. reflexivity.
  - intros k t1 H1. destruct (T k t1 H1) as (t2 & H2 & E & Dc & Dr).
    destruct (T' k t2 H2) as (t3 & H3 & E' & Dc' & Dr'). exists t3. split; [exact H3|].
    split_and!; [congruence| |]; intros Hn.
    + rewrite <- (Dc Hn). apply Dc'. rewrite (Dc Hn). exact Hn.
    + rewrite <- (Dr Hn). apply Dr'. rewrite (Dr Hn). exact Hn.
  - intros k p1 H1. destruct (P k p1 H1) as (p2 & H2 & E & D & L).
    destruct (P' k p2 H2) as (p3 & H3 & E' & D' & L'). exists p3. split; [exact H3|].
    split_and!; [congruence|congruence|auto].
Qed.

#[export] Instance evolves_reports_preorder `{Hash, SpoolLaws} : PreOrder evolves_reports.
Proof.
  split.
  - intros s I. split; [exact I|apply report_history_refl].
  - intros s1 s2 s3 E1 E2 I. destruct (E1 I) as [I2 D1]. destruct (E2 I2) as [I3 D2].
    split; [exact I3|]. exact (report_history_trans _ _ _ D1 D2).
Qed.

Lemma reports_same `{Hash, SpoolLaws} s s' : report_tables s' = report_tables s → evolves_reports s s'.
Proof.
  intros [= E1 E2 E3 E4 E5 E6] I. split.
  - destruct I as [I0 IS IR IT IP]. split; rewrite ?E1, ?E2, ?E3, ?E4, ?E5, ?E6; assumption.
  - pose proof (report_history_refl s) as [C S T P].
    split; rewrite ?E1, ?E2, ?E3, ?E4, ?E5, ?E6; assumption.
Qed.

Lemma reports_keep `{Hash, SpoolLaws} {A} (m : M Db A) : keeps report_tables m → preserves evolves_reports m.
Proof. intros Hm s. apply reports_same, Hm. Qed.

(** ** Transactions with files *)

Lemma with_files_same s s' : report_files s' = report_files s → with_files s s' = s.
Proof. intros [= E1 E2]. unfold with_files. rewrite E1, E2. destruct s. reflexivity. Qed.

(** A transaction that fails without touching files leaves the store as it was. *)
Lemma preserves_transaction {A} (R : relation Db) `{!PreOrder R} (m : M Db A) :
  fails_clean m → (∀ s, wlp m s (λ _ s', R s s')) → preserves R (transaction_files m).
Proof.
  intros Hc Hm s. specialize (Hm s). unfold transaction_files, wlp in *.
  destruct (m s) as [[a|e] s'] eqn:E; [exact Hm|].
  change (R s (with_files s s')). rewrite with_files_same by (eapply Hc, E). reflexivity.
Qed.

Lemma preserves_transaction_same {A} (R : relation Db) `{!PreOrder R} (m : M Db A) :
  keeps report_files m → preserves R m → preserves R (transaction_files m).
Proof.
  intros Hc Hm. apply preserves_transaction; [exact _| |].
  - intros s e s' E. specialize (Hc s). rewrite E in Hc. exact Hc.
  - intros s. apply preserves_wlp, Hm.
Qed.

Lemma fails_clean_keeps {A} (m : M Db A) : keeps report_files m → fails_clean m.
Proof. intros Hm s e s' E. specialize (Hm s). rewrite E in Hm. exact Hm. Qed.

Lemma fails_clean_bind {A B} (m : M Db A) (k : A → M Db B) :
  keeps report_files m → (∀ a, fails_clean (k a)) → fails_clean (bind m k).
Proof.
  intros Hm Hk s e s'. specialize (Hm s). unfold bind. destruct (m s) as [[a|x] s1].
  - cbn in Hm. intros E. rewrite (Hk a _ _ _ E). exact Hm.
  - intros [= <- <-]. exact Hm.
Qed.

Lemma fails_clean_if {A} (b : bool) (m1 m2 : M Db A) :
  fails_clean m1 → fails_clean m2 → fails_clean (if b then m1 else m2).
Proof. destruct b; auto. Qed.

(** ** Programs that only read *)

(** A handler that answers one class of exceptions with a program. *)
Lemma preserves_caught (R : relation Db) `{!PreOrder R} {A} (c : exn_class → bool) (m : M Db A)
    (k : Exn → M Db A) :
  preserves R m → (∀ e, preserves R (k e)) →
  preserves R (try_except m (λ e, if c (exn_kind e) then Some (k e) else None)).
Proof.
  intros Hm Hk. apply preserves_try_except; [exact _|exact Hm|]. intros e h.
  destruct (c _); [|discriminate]. intros [= <-]. apply Hk.
Qed.

Ltac read_only :=
  repeat first
    [ progress preserve
    | lazymatch goal with
      | |- preserves _ (fold_m _ _ _) => fail
      | |- preserves _ ?m => let h := program_head m in unfold h
      end ].

Section read.
Context `{Hash, Floats, Aesgcm, ReportCrypto, ReportSettings, ReportStorage, PortalSettings}.
Context `{Secrets, MailEnvironment, MailSettings, DeliverySettings, SecretSettings}.

Lemma readonly_require b : readonly (require b).
Proof. read_only. Qed.

Lemma readonly_or_invalid {A} (o : option A) : readonly (or_invalid o).
Proof. read_only. Qed.

Lemma readonly_decode v : readonly (decode v).
Proof. read_only. Qed.

Lemma readonly_inspect e : readonly (inspect_envelope e).
Proof. read_only. Qed.

Lemma readonly_content i l n : readonly (_content i l n).
Proof. read_only. Qed.

Lemma readonly_decrypt e h : readonly (decrypt_and_validate e h).
Proof. read_only. Qed.

Lemma readonly_root : readonly root.
Proof. read_only. Qed.

Lemma readonly_payload_path k : readonly (payload_path k).
Proof. read_only. Qed.

Lemma readonly_read_receipt r : readonly (read_download_receipt r).
Proof. read_only. Qed.

Lemma readonly_expiry pk r : readonly (effective_expiry pk r).
Proof. read_only. Qed.

Lemma readonly_result pk r : readonly (result pk r).
Proof. read_only. Qed.

Lemma readonly_authorize iid : readonly (authorize iid).
Proof. read_only. Qed.

Lemma readonly_recipient d p : readonly (recipient_for d p).
Proof. read_only. Qed.

Lemma readonly_verified r : readonly (load_verified_payload r).
Proof. pose proof readonly_decrypt. pose proof readonly_inspect. read_only. Qed.
End read.

#[export] Hint Resolve readonly_require readonly_or_invalid readonly_decode readonly_inspect
  readonly_content readonly_decrypt readonly_root readonly_payload_path readonly_read_receipt
  readonly_expiry readonly_result readonly_authorize readonly_recipient readonly_verified : preserves.

Section read_portal.
Context `{Hash, Floats, Aesgcm, ReportCrypto, ReportSettings, ReportStorage, PortalSettings}.
Context `{Secrets, MailEnvironment, MailSettings, DeliverySettings, SecretSettings}.

Lemma readonly_check_transfer t : readonly (check_transfer t).
Proof. read_only. Qed.

Lemma readonly_check_report pk r p i d : readonly (check_report pk r p i d).
Proof. read_only. Qed.

Lemma readonly_available pk r p i d : readonly (report_available pk r p i d).
Proof.
  pose proof readonly_check_report. unfold report_available.
  apply (preserves_caught eq is_transfer_error _ (λ _, ret false)); preserve.
Qed.

Lemma readonly_token token : readonly (token_transfer token).
Proof. pose proof readonly_check_transfer. read_only. Qed.

(** ** The effective expiry is the deadline *)

Lemma map_m_receipts (l : list (N * DownloadReceipt)) s v s' :
  map_m (λ r, let! ' (_, completed_at, _) := read_download_receipt r.2 in ret completed_at) l s
  = (Val v, s') → v = map (λ c, rec_completed_at c.2) l ∧ s' = s.
Proof.
  unfold map_m. assert (E : ∀ acc, fold_m (λ acc a,
      let! y := (let! ' (_, completed_at, _) := read_download_receipt a.2 in ret completed_at) in
      ret (acc ++ [y])) acc l s = (Val v, s') →
    v = acc ++ map (λ c, rec_completed_at c.2) l ∧ s' = s).
  { induction l as [|[k r] l IH]; intros acc; cbn [fold_m map].
    - intros [= <- <-]. rewrite app_nil_r. auto.
    - unfold bind at 1 2 3, read_download_receipt at 1, bind at 1, timezone_now, gets.
      destruct (_ || _ || _); [discriminate|]. cbn. intros E.
      apply IH in E as [-> ->]. rewrite <- app_assoc. auto. }
  intros X. apply (E [] X).
Qed.

Lemma effective_expiry_deadline pk r s d s' :
  effective_expiry pk r s = (Val d, s') → d = deadline (db_receipts s) pk r ∧ s' = s.
Proof.
  unfold effective_expiry, pending_downloads, bind, gets.
  destruct (map_m _ _ s) as [[v|e] s1] eqn:E; [|discriminate].
  apply map_m_receipts in E as [-> ->]. intros [= <- <-]. auto.
Qed.

Lemma wlp_expiry {B} pk r (k : Z → M Db B) s Q :
  wlp (k (deadline (db_receipts s) pk r)) s Q → wlp (bind (effective_expiry pk r) k) s Q.
Proof.
  intros Hk. apply wlp_skip; [apply readonly_expiry|]. intros d E.
  apply effective_expiry_deadline in E as [-> _]. exact Hk.
Qed.
End read_portal.

#[export] Hint Resolve readonly_check_transfer readonly_check_report readonly_available
  readonly_token : preserves.

(** ** Files and rows *)

Section tables.
Context `{Hash, SpoolLaws}.
Implicit Types (S : gmap N ReportSubmission) (F : gmap string string) (R : gmap N DownloadReceipt).

(** The parts of the relation that concern submissions. *)
Lemma evolves_submissions s s' :
  db_clock s' = db_clock s → db_report_transfers s' = db_report_transfers s →
  db_portal_sessions s' = db_portal_sessions s →
  (∀ j c, db_receipts s' !! j = Some c → db_receipts s !! j = Some c) →
  (spool_room (db_spool s) → spool_room (db_spool s')) →
  (SubmissionInv (db_report_submissions s) (db_spool s) →
   SubmissionInv (db_report_submissions s') (db_spool s')
   ∧ rows_kept (submission_kept (db_spool s) (db_spool s') (db_receipts s) (db_receipts s'))
       (db_report_submissions s) (db_report_submissions s')) →
  evolves_reports s s'.
Proof.
  intros E1 E2 E3 HR HF HS [I0 IS IR IT IP]. destruct (HS IS) as [IS' K].
  pose proof (report_history_refl s) as [C _ T P].
  split; split; rewrite ?E1, ?E2, ?E3; try assumption; [auto|].
  intros j c Hj. destruct (IR j c (HR j c Hj)) as ([r Hr] & Hc & Ha). split_and!; auto.
  destruct (K _ _ Hr) as (r' & Hr' & _). eauto.
Qed.

(** Rows that stay, with other files and receipts. *)
Lemma kept_same F F' R R' S :
  SubmissionInv S F →
  (∀ k r, S !! k = Some r → ready r → F' !! rs_payload_key r = F !! rs_payload_key r) →
  (∀ k r, S !! k = Some r → ready r → deadline R' k r ≤ deadline R k r) →
  SubmissionInv S F' ∧ rows_kept (submission_kept F F' R R') S S.
Proof.
  intros [Hz Hr Hk Hi] HF HR. split; [split|].
  - exact Hz.
  - intros k r Hkr. destruct (Hr k r Hkr) as [A B C D D']. split; auto.
    intros Hready. rewrite (HF k r Hkr Hready). auto.
  - exact Hk.
  - exact Hi.
  - intros k r Hkr. exists r. split; [exact Hkr|]. split; [reflexivity|]. intros Hready.
    split_and!; eauto.
Qed.

(** A file that belongs to no ready row is written or removed. *)
Lemma unreferenced_file S F R F' key :
  (∀ k r, S !! k = Some r → ready r → rs_payload_key r ≠ key) →
  (∀ key', key' ≠ key → F' !! key' = F !! key') →
  SubmissionInv S F → SubmissionInv S F' ∧ rows_kept (submission_kept F F' R R) S S.
Proof. intros Hno HF I. apply kept_same; [exact I| |lia]. intros k r Hk Hr. eauto. Qed.

Lemma fresh_file_unreferenced S F key : F !! key = None → SubmissionInv S F →
  ∀ k r, S !! k = Some r → ready r → rs_payload_key r ≠ key.
Proof.
  intros Hf I k r Hk Hr E. destruct (ro_file _ _ (si_row _ _ I k r Hk) Hr) as (raw & Hraw & _).
  congruence.
Qed.

(** A new row with its file. *)
Lemma new_submission S F R pk row raw :
  SubmissionInv S F → pk ≠ 0%N → S !! pk = None → F !! rs_payload_key row = None → row_ok (<[rs_payload_key row := raw]> F) row →
  (∀ k r, S !! k = Some r → rs_installation r = rs_installation row →
     rs_submission_id r ≠ rs_submission_id row ∧ rs_report_id r ≠ rs_report_id row) →
  let F' := <[rs_payload_key row := raw]> F in
  SubmissionInv (<[pk := row]> S) F' ∧ rows_kept (submission_kept F F' R R) S (<[pk := row]> S).
Proof.
  intros I Hz0 Hpk Hf Hok Hnew F'. pose proof (fresh_file_unreferenced _ _ _ Hf I) as Hno.
  destruct (unreferenced_file S F R F' (rs_payload_key row) Hno) as [[Hz Hr Hk Hi] K];
    [intros key' Hne; apply lookup_insert_ne; congruence|exact I|].
  split; [split|].
  - intros k r [[<- <-]|[_ Hkr]]%lookup_insert_Some; eauto.
  - intros k r [[<- <-]|[_ Hkr]]%lookup_insert_Some; [exact Hok|eauto].
  - intros k k' r r' [[<- <-]|[Hne Hkr]]%lookup_insert_Some [[<- <-]|[Hne' Hkr']]%lookup_insert_Some Hrd Hrd' E.
    + reflexivity.
    + destruct (Hno _ _ Hkr' Hrd'). congruence.
    + destruct (Hno _ _ Hkr Hrd). congruence.
    + eauto.
  - intros k k' r r' [[<- <-]|[Hne Hkr]]%lookup_insert_Some [[<- <-]|[Hne' Hkr']]%lookup_insert_Some Ei E.
    + reflexivity.
    + destruct (Hnew _ _ Hkr'); [congruence|]. destruct E; congruence.
    + destruct (Hnew _ _ Hkr); [congruence|]. destruct E; congruence.
    + eauto.
  - intros k r Hkr. destruct (K k r Hkr) as (r' & Hkr' & Q). exists r'.
    split; [|exact Q]. rewrite lookup_insert_ne; [exact Hkr'|]. congruence.
Qed.

(** A row whose state, key and times change. *)
Lemma updated_submission S F F' R R' pk row row' :
  SubmissionInv S F → S !! pk = Some row → row_ok F' row' →
  submission_kept F F' R R' pk row row' →
  (∀ k r, S !! k = Some r → k ≠ pk → ready r → F' !! rs_payload_key r = F !! rs_payload_key r) →
  (∀ k r, S !! k = Some r → k ≠ pk → ready r → deadline R' k r ≤ deadline R k r) →
  SubmissionInv (<[pk := row']> S) F' ∧ rows_kept (submission_kept F F' R R') S (<[pk := row']> S).
Proof.
  intros [Hz Hr Hk Hi] Hpk Hok Hkept HF HR. destruct Hkept as [Ei Hkept].
  assert (Ids : rs_installation row' = rs_installation row
    ∧ rs_submission_id row' = rs_submission_id row ∧ rs_report_id row' = rs_report_id row)
    by (injection Ei; intros; auto). destruct Ids as (E1 & E2 & E3).
  split; [split|].
  - intros k r [[<- <-]|[_ Hkr]]%lookup_insert_Some; eauto.
  - intros k r [[<- <-]|[Hne Hkr]]%lookup_insert_Some; [exact Hok|].
    destruct (Hr k r Hkr) as [A B C D D']. split; auto. intros Hrd.
    rewrite (HF k r Hkr ltac:(congruence) Hrd). auto.
  - intros k k' r r' [[<- <-]|[Hne Hkr]]%lookup_insert_Some [[<- <-]|[Hne' Hkr']]%lookup_insert_Some Hrd Hrd' E.
    + reflexivity.
    + destruct (Hkept Hrd) as (A & B & _). eapply Hk; eauto. congruence.
    + destruct (Hkept Hrd') as (A & B & _). eapply Hk; eauto. congruence.
    + eauto.
  - intros k k' r r' [[<- <-]|[Hne Hkr]]%lookup_insert_Some [[<- <-]|[Hne' Hkr']]%lookup_insert_Some;
      rewrite ?E1, ?E2, ?E3; intros; eauto.
  - intros k r Hkr. destruct (decide (k = pk)) as [->|Hne].
    + exists row'. split; [apply lookup_insert_eq|]. assert (r = row) as -> by congruence.
      split; [exact Ei|exact Hkept].
    + exists r. rewrite lookup_insert_ne by congruence. split; [exact Hkr|]. split; [reflexivity|].
      intros Hrd. split_and!; eauto.
Qed.
End tables.

(** ** Submission *)

Section submission.
Context `{Hash, Floats, Aesgcm, ReportCrypto, ReportSettings, ReportStorage, PortalSettings}.
Context `{Secrets, MailEnvironment, MailSettings, DeliverySettings, SecretSettings} {HU : SpoolLaws}.

(** A step that only reads is passed. *)
Lemma skip_val {A B} (m : M Db A) (k : A → M Db B) s r s' : readonly m → bind m k s = (r, s') →
  (∃ a, m s = (Val a, s) ∧ k a s = (r, s')) ∨ (∃ e, m s = (Exc e, s) ∧ r = Exc e ∧ s' = s).
Proof.
  intros Hm. specialize (Hm s). unfold bind. destruct (m s) as [[a|e] s1]; cbn in Hm; subst s1.
  - intros E. left. eauto.
  - intros [= <- <-]. right. eauto.
Qed.

(** The row of a new submission. *)
Definition new_row (iid : N) (header : json) (tablet : Tablet) (vehicle : Vehicle)
    (digest document_digest payload_key : string) (now : Z) : ReportSubmission :=
  mkReportSubmission iid (header_uuid "submission_id" header)
    (header_uuid "report_id" header) (header_uuid "recipient_personnel_id" header)
    (tb_department tablet) (ve_station vehicle) digest document_digest (Some 1) None payload_key
    (str_of (item "kid" header)) SUBMISSION_READY now
    (now + Z.min REPORT_TRANSFER_RETENTION_HOURS 168 * MICROSECONDS_PER_HOUR).

(** The rows that share an identity with the header. *)
Definition same_submission (iid : N) (header : json) (r : ReportSubmission) : bool :=
  N.eqb (rs_installation r) iid
  && (N.eqb (rs_submission_id r) (header_uuid "submission_id" header)
      || N.eqb (rs_report_id r) (header_uuid "report_id" header)).

(** What the transaction of a submission does when it ends normally. *)
Inductive accepted (iid : N) (envelope header : json) (raw digest : string) (s : Db) :
    json + N * ReportSubmission → Db → Prop :=
| accepted_before pk row j installation tablet vehicle :
    authorize iid s = (Val (installation, tablet, vehicle), s) →
    db_report_submissions s !! pk = Some row →
    rs_installation row = iid → rs_submission_id row = header_uuid "submission_id" header →
    rs_payload_digest row = digest → result pk row s = (Val j, s) →
    accepted iid envelope header raw digest s (inl j) s
| accepted_now pk installation tablet vid vehicle recipient document attachments document_digest row s' :
    authorize iid s = (Val (installation, tablet, (vid, vehicle)), s) →
    scope_matches header (tb_department tablet) (ve_station vehicle) = true →
    recipient_for (tb_department tablet) (header_uuid "recipient_personnel_id" header) s
      = (Val recipient, s) →
    (∀ k r, db_report_submissions s !! k = Some r → same_submission iid header r = false) →
    decrypt_and_validate envelope header s = (Val (document, attachments, document_digest), s) →
    pk ≠ 0%N → db_report_submissions s !! pk = None →
    row = new_row iid header tablet vehicle digest document_digest
            (str_uuid (uuid4 s) +:+ ".jwe") (db_clock s) →
    payload_path (rs_payload_key row) s = (Val tt, s) → write_fails s = false →
    s' = s <| db_spool ::= <[rs_payload_key row := raw]> |>
           <| db_report_submissions ::= <[pk := row]> |>
           <| db_audit ::= λ l, l ++ [mkAuditEvent "report_transfer.submission_accepted" None
                (Some (in_installation_uuid installation)) (Some (rs_department row))
                (Some (rs_station row)) "report_submission" (Some (rs_submission_id row))
                [("report_id", json_uuid (rs_report_id row)); ("installation_id", json_uuid iid);
                 ("accepted_at", JStr (isoformat (db_clock s)))] (db_clock s)] |> →
    accepted iid envelope header raw digest s (inr (pk, row)) s'.

(** The file is written, or nothing has changed. *)
Lemma write_payload_cases raw s r s' : spool_room (db_spool s) →
  write_payload raw s = (r, s') →
  let key := str_uuid (uuid4 s) +:+ ".jwe" in
  (r = Val key ∧ payload_path key s = (Val tt, s) ∧ write_fails s = false
     ∧ s' = s <| db_spool ::= <[key := raw]> |>)
  ∨ (∃ e, r = Exc e) ∧ report_files s' = report_files s.
Proof.
  intros Hroom E key. unfold write_payload in E. change (bind (gets uuid4) ?k s) with (k (uuid4 s) s) in E.
  cbv beta zeta in E. fold key in E.
  apply skip_val in E as [([] & Ep & E)|(e & _ & -> & ->)]; [|right; eauto|apply readonly_payload_path].
  unfold bind, gets in E. destruct (write_fails s || _) eqn:Ew; cbn in E; injection E as <- <-.
  - right. split; [eauto|]. unfold report_files. cbn.
    rewrite delete_id by (apply uuid4_fresh, Hroom). reflexivity.
  - left. apply orb_false_elim in Ew as [Ew _]. auto.
Qed.

Lemma accept_cases iid envelope header raw digest s r s' : spool_room (db_spool s) →
  accept_submission iid envelope header raw digest s = (r, s') →
  match r with
  | Val v => accepted iid envelope header raw digest s v s'
  | Exc _ => report_files s' = report_files s
  end.
Proof.
  intros Hroom E. unfold accept_submission in E.
  apply skip_val in E as [(i0 & _ & E)|(e & _ & -> & ->)]; [|reflexivity|apply readonly_get_obj].
  apply skip_val in E as [([[installation tablet] [vid vehicle]] & Ea & E)|(e & _ & -> & ->)];
    [|reflexivity|apply readonly_authorize].
  destruct (scope_matches _ _ _) eqn:Es;
    [|cbn in E; injection E as <- <-; reflexivity].
  change (bind (ret tt) ?k s) with (k tt s) in E. cbv beta in E.
  apply skip_val in E as [(rc & Erc & E)|(e & _ & -> & ->)]; [|reflexivity|apply readonly_recipient].
  apply skip_val in E as [(x & Ex & E)|(e & _ & -> & ->)]; [|reflexivity|apply readonly_first_where].
  unfold first_where, gets in Ex. injection Ex as Ex. destruct x as [[pk row]|].
  - destruct (_ || _) eqn:Eq; [injection E as <- <-; reflexivity|].
    apply orb_false_elim in Eq as [Eq1 Eq2]. apply negb_false_iff in Eq1, Eq2.
    apply N.eqb_eq in Eq1. apply String.eqb_eq in Eq2.
    apply skip_val in E as [(j & Ej & E)|(e & _ & -> & ->)]; [|reflexivity|apply readonly_result].
    injection E as <- <-. apply order_by_head_Some in Ex as [Hin _].
    apply rows_elem in Hin as [Hk [Hi _]%andb_prop]. apply N.eqb_eq in Hi.
    eapply accepted_before; eauto.
  - apply order_by_head_None in Ex.
    apply skip_val in E as [([[document attachments] dd] & Ed & E)|(e & _ & -> & ->)];
      [|reflexivity|apply readonly_decrypt].
    unfold bind at 1 in E. destruct (write_payload raw s) as [w s1] eqn:Ew.
    apply write_payload_cases in Ew as [(-> & Ep & Hw & ->)|([e ->] & Ef)];
      [|injection E as <- <-; exact Ef|exact Hroom].
    cbn in E. injection E as <- <-. eapply accepted_now; eauto.
    + intros k r Hk. apply not_true_iff_false. intros Hs.
      assert (Hin : (k, r) ∈ rows (db_report_submissions s) (λ _ r, same_submission iid header r))
        by (apply rows_elem; auto).
      unfold same_submission in Hin. rewrite Ex in Hin. inversion Hin.
    + unfold fresh_id. lia.
    + apply fresh_id_fresh.
Qed.

Lemma uuid_name_true n : str_true (str_uuid n +:+ ".jwe") = true.
Proof.
  unfold str_true. apply negb_true_iff, String.eqb_neq. intros E.
  apply (f_equal String.length) in E. rewrite str_length_app in E. cbn in E. lia.
Qed.

Lemma accepted_evolves iid envelope header raw s v s' :
  accepted iid envelope header raw (sha256_hex raw) s v s' → evolves_reports s s'.
Proof.
  intros [pk row j i t v' _ _ _ _ _ _|pk i t vid ve rc doc att dd row s1 _ _ _ Hno _ Hz Hpk Hrow _ Hw ->]; [reflexivity|].
  intros I0. pose proof (ri_room _ I0) as Hroom. revert I0.
  apply evolves_submissions; [reflexivity..|auto| |].
  { intros _. unfold spool_room. cbn. pose proof (write_room _ Hw).
    rewrite map_size_insert. destruct (db_spool s !! _); unfold id; lia. }
  intros I. cbn.
  apply (new_submission _ _ _ pk row raw I Hz Hpk).
  - rewrite Hrow. apply uuid4_fresh, Hroom.
  - rewrite Hrow. split; cbn.
    + unfold MICROSECONDS_PER_DAY, MICROSECONDS_PER_HOUR. lia.
    + discriminate.
    + intros _. exists raw. split; [apply lookup_insert_eq|reflexivity].
    + intros _. apply uuid_name_true.
    + intros Hn. destruct Hn. reflexivity.
  - intros k r Hk Hi. specialize (Hno k r Hk). unfold same_submission in Hno.
    rewrite Hrow in Hi |- *. cbn in *. rewrite Hi, N.eqb_refl in Hno. cbn in Hno.
    apply orb_false_elim in Hno as [X1 X2]. apply N.eqb_neq in X1, X2. auto.
Qed.

Lemma report_accept iid envelope header raw :
  preserves evolves_reports (transaction_files (accept_submission iid envelope header raw (sha256_hex raw))).
Proof.
  intros s I. revert I. unfold transaction_files.
  destruct (accept_submission _ _ _ _ _ s) as [[v|e] s'] eqn:E; intros I;
    apply accept_cases in E; try exact (ri_room _ I).
  - exact (accepted_evolves _ _ _ _ _ _ _ E I).
  - change (report_inv (with_files s s') ∧ report_history s (with_files s s')).
    rewrite with_files_same by exact E. split; [exact I|apply report_history_refl].
Qed.
End submission.

(** ** The clean-up and downloads *)

Section downloads.
Context `{Hash, Floats, Aesgcm, ReportCrypto, ReportSettings, ReportStorage, PortalSettings}.
Context `{Secrets, MailEnvironment, MailSettings, DeliverySettings, SecretSettings} {HU : SpoolLaws}.

Lemma receipt_readable s j c : report_inv s → db_receipts s !! j = Some c →
  read_download_receipt c s = (Val (rec_submission c, rec_completed_at c, rec_audit c), s).
Proof.
  intros I Hj. destruct (ri_receipts _ I j c Hj) as ([r Hr] & Hc & Ha).
  pose proof (si_key _ _ (ri_submissions _ I) _ _ Hr) as Hz.
  unfold read_download_receipt, bind, timezone_now, gets.
  rewrite Ha. destruct (N.eqb_spec (rec_submission c) 0); [congruence|].
  destruct (Z.ltb_spec (db_clock s) (rec_completed_at c)); [lia|]. reflexivity.
Qed.

(** With the invariant the effective expiry is always known. *)
Lemma effective_expiry_total s pk r : report_inv s →
  effective_expiry pk r s = (Val (deadline (db_receipts s) pk r), s).
Proof.
  intros I. destruct (effective_expiry pk r s) as [[d|e] s'] eqn:E.
  - apply effective_expiry_deadline in E as [-> ->]. reflexivity.
  - exfalso. unfold effective_expiry, pending_downloads in E.
    change (bind (bind (gets ?f) ?k) ?h s) with (bind (k (f s)) h s) in E. cbv beta in E.
    assert (Hl : ∀ x, x ∈ rows (db_receipts s) (λ _ c, N.eqb (rec_submission c) pk) →
      db_receipts s !! x.1 = Some x.2) by (intros [j c] Hx; apply rows_elem in Hx; tauto).
    revert Hl E. generalize (rows (db_receipts s) (λ _ c, N.eqb (rec_submission c) pk)) as l.
    intros l Hl E. unfold map_m in E.
    assert (T : ∀ acc, ∃ v, fold_m (λ acc a,
      let! y := (let! ' (_, completed_at, _) := read_download_receipt a.2 in ret completed_at) in
      ret (acc ++ [y])) acc l s = (Val v, s)).
    { clear E. induction l as [|x l IH]; intros acc; [eexists; reflexivity|].
      destruct (IH ltac:(intros y Hy; apply Hl; right; exact Hy) (acc ++ [rec_completed_at x.2])) as [v Hv].
      exists v. cbn [fold_m]. unfold bind at 1 2 3.
      rewrite (receipt_readable s x.1 x.2 I) by (apply Hl; left). exact Hv. }
    destruct (T []) as [v Hv]. unfold bind in E. unfold bind in Hv. rewrite Hv in E. discriminate E.
Qed.

Lemma result_total s pk r : report_inv s → ∃ j, result pk r s = (Val j, s).
Proof.
  intros I. unfold result. rewrite (bind_run _ _ _ _ _ (effective_expiry_total s pk r I)).
  eexists. reflexivity.
Qed.

Lemma report_submit others iid envelope : preserves evolves_reports others →
  preserves evolves_reports (submit others iid envelope).
Proof.
  intros Ho s. unfold submit.
  destruct (bind (inspect_envelope envelope) _ s) as [r s'] eqn:E. cbn [snd].
  apply skip_val in E as [(header & _ & E)|(e & _ & -> & ->)]; [|reflexivity|apply readonly_inspect].
  apply skip_val in E as [([[i t] [vid v]] & _ & E)|(e & _ & -> & ->)]; [|reflexivity|apply readonly_authorize].
  destruct (_ && _); [|cbn in E; injection E as _ <-; reflexivity].
  change (bind (ret tt) ?k s) with (k tt s) in E. cbv beta zeta in E.
  destruct (_ <? _); [cbn in E; injection E as _ <-; reflexivity|].
  change (bind (ret tt) ?k s) with (k tt s) in E. cbv beta in E.
  change (bind (meanwhile others) ?k s) with (k tt (others s).2) in E. cbv beta in E.
  etransitivity; [apply Ho|]. generalize dependent (others s).2. clear s. intros s E.
  pose proof (report_accept iid envelope header (json_dumps envelope) s) as Ha.
  unfold bind in E at 1. unfold transaction_files in *.
  destruct (accept_submission _ _ _ _ _ s) as [[v1|x] s1] eqn:Ea; cbn in Ha.
  2:{ injection E as _ <-. exact Ha. }
  intros I. apply accept_cases in Ea; [|exact (ri_room _ I)].
  destruct Ea as [pk row j ? ? ? _ _ _ _ _ _|pk ? ? ? ? ? ? ? ? row s1 _ _ _ _ _ _ _ _ _ _ _].
  { injection E as _ <-. exact (Ha I). }
  destruct (Ha I) as [I1 H1']. destruct (result_total s1 pk row I1) as [j Hj].
  unfold try_except in E. rewrite (bind_run _ _ _ _ _ Hj) in E. injection E as _ <-. auto.
Qed.

(** *** A completed download *)

Definition with_download (first expires : Z) (r : ReportSubmission) : ReportSubmission :=
  r <| rs_first_download_at := Some first |> <| rs_expires_at := expires |>.

(** The first download, with one at [completed]. *)
Definition first_download (row : ReportSubmission) (completed : Z) : Z :=
  match rs_first_download_at row with Some first => Z.min completed first | None => completed end.

Lemma min_first first completed : (if completed <? first then completed else first) = Z.min completed first.
Proof. destruct (Z.ltb_spec completed first); lia. Qed.

(** Reading and recording an event touch no report. *)
Lemma keeps_reports_event a i d x t k m :
  keeps report_tables (record_installation_event a i d x t k m).
Proof. intros s. reflexivity. Qed.

(** What recording a download does to the row. *)
Lemma wlp_record pk completed audit s : report_inv s →
  wlp (record_successful_download pk (Some completed) audit) s (λ d s',
    ∃ row first, db_report_submissions s !! pk = Some row ∧ ready row
      ∧ rs_created_at row ≤ completed ≤ db_clock s ∧ first ≤ completed
      ∧ (rs_created_at row ≤ first ∧ first = first_download row completed)
      ∧ d = deadline (db_receipts s) pk (row <| rs_first_download_at := Some first |>)
      ∧ d ≤ first + 48 * MICROSECONDS_PER_HOUR ∧ d ≤ deadline (db_receipts s) pk row
      ∧ report_tables s' = report_tables
          (s <| db_report_submissions ::= <[pk := with_download first d row]> |>)).
Proof.
  intros I. unfold record_successful_download, wlp, transaction_files.
  match goal with |- match (match ?m s with _ => _ end) with _ => _ end =>
    enough (W : wlp m s (λ d s', ∃ row first, db_report_submissions s !! pk = Some row ∧ ready row
      ∧ rs_created_at row ≤ completed ≤ db_clock s ∧ first ≤ completed
      ∧ (rs_created_at row ≤ first ∧ first = first_download row completed)
      ∧ d = deadline (db_receipts s) pk (row <| rs_first_download_at := Some first |>)
      ∧ d ≤ first + 48 * MICROSECONDS_PER_HOUR ∧ d ≤ deadline (db_receipts s) pk row
      ∧ report_tables s' = report_tables
          (s <| db_report_submissions ::= <[pk := with_download first d row]> |>)))
      by (unfold wlp in W; destruct (m s) as [[d|e] s']; [exact W|exact Logic.I]) end.
  apply wlp_bind, wlp_get_obj. intros row Hrow.
  apply wlp_skip; [apply readonly_timezone_now|]. intros now [= <-]. cbn [default]. cbv zeta.
  unfold require. destruct (_ && _) eqn:Et; [|exact Logic.I].
  apply andb_prop in Et as [Ec%Z.leb_le En%Z.leb_le]. cbn in Ec, En.
  apply wlp_bind, wlp_ret. apply wlp_expiry.
  destruct (_ || _) eqn:Ex; [exact Logic.I|]. apply orb_false_elim in Ex as [Er Ed].
  apply negb_false_iff, bool_decide_eq_true in Er. apply Z.leb_gt in Ed.
  apply wlp_bind, wlp_ret. set (first := match rs_first_download_at row with Some f => _ | None => _ end).
  pose proof (si_row _ _ (ri_submissions _ I) pk row Hrow) as Hok.
  assert (Hf : first ≤ completed ∧ rs_created_at row ≤ first
    ∧ stored_deadline (row <| rs_first_download_at := Some first |>) ≤ stored_deadline row).
  { subst first. unfold stored_deadline. cbn. destruct (rs_first_download_at row) as [f|] eqn:Ef.
    - rewrite min_first. destruct (ro_download _ _ Hok f Ef). lia.
    - lia. }
  destruct Hf as (F1 & F2 & F3).
  assert (F4 : first = first_download row completed).
  { subst first. unfold first_download. destruct (rs_first_download_at row); [apply min_first|reflexivity]. }
  clearbody first.
  apply wlp_expiry. set (d := deadline _ pk _).
  assert (D1 : d ≤ first + 48 * MICROSECONDS_PER_HOUR).
  { etransitivity; [apply deadline_stored|]. unfold stored_deadline. cbn. lia. }
  assert (D2 : d ≤ deadline (db_receipts s) pk row).
  { apply le_deadline. destruct (proj1 (le_deadline (db_receipts s) pk
      (row <| rs_first_download_at := Some first |>) d) (Z.le_refl _)) as [A B].
    split; [etransitivity; [exact A|exact F3]|exact B]. }
  apply wlp_bind, wlp_save. intros row' Hrow'. assert (row' = row) as -> by (cbn in Hrow'; congruence).
  apply wlp_bind. eapply (wlp_frame report_tables).
  { destruct audit as [[[did tid] ft]|]; [|apply preserves_ret; exact _].
    apply preserves_bind; [exact _|apply preserves_gets; exact _|]. intros known.
    apply preserves_when; [exact _|]. intros _. apply keeps_reports_event. }
  intros _ s' Es. apply wlp_ret. exists row, first. split_and!; auto. 
Qed.

Lemma record_row_ok F R pk row first d :
  row_ok F row → ready row → rs_created_at row ≤ first → d ≤ first + 48 * MICROSECONDS_PER_HOUR →
  d ≤ deadline R pk row →
  row_ok F (with_download first d row)
  ∧ submission_kept F F R R pk row (with_download first d row).
Proof.
  intros Hok Hr Hf D1 D2. pose proof (deadline_stored R pk row) as D3.
  rewrite (stored_deadline_ok F row Hok) in D3. destruct Hok as [Hw Hd Hfile Hk Hp].
  split; [split|split]; cbn.
  - lia.
  - intros f [= <-]. lia.
  - exact Hfile.
  - exact Hk.
  - intros Hn. destruct Hn. exact Hr.
  - reflexivity.
  - intros _. split_and!; [exact Hr|reflexivity|reflexivity|].
    etransitivity; [apply deadline_stored|]. unfold stored_deadline. cbn. lia.
Qed.

Lemma keeps_files_transaction {A} (m : M Db A) :
  keeps report_files m → keeps report_files (transaction_files m).
Proof.
  intros Hm s. specialize (Hm s). unfold transaction_files. destruct (m s) as [[a|e] s']; exact Hm.
Qed.

(** A transaction that touches no file leaves the store when it fails. *)
Lemma transaction_exc {A} (m : M Db A) s e s' : keeps report_files m →
  transaction_files m s = (Exc e, s') → s' = s.
Proof.
  intros Hm E. specialize (Hm s). unfold transaction_files in E.
  destruct (m s) as [[a|x] s1]; [discriminate E|]. injection E as _ <-.
  apply with_files_same. exact Hm.
Qed.

Lemma keeps_files_record pk completed audit :
  keeps report_files (record_successful_download pk completed audit).
Proof.
  apply keeps_files_transaction. repeat first [progress frame | progress cbv zeta].
Qed.

Lemma record_exc pk completed audit s e s' :
  record_successful_download pk completed audit s = (Exc e, s') → s' = s.
Proof. apply transaction_exc. repeat first [progress frame | progress cbv zeta]. Qed.

Lemma report_record pk completed audit :
  preserves evolves_reports (record_successful_download pk (Some completed) audit).
Proof.
  intros s I. pose proof (wlp_record pk completed audit s I) as W. unfold wlp in W.
  destruct (record_successful_download pk (Some completed) audit s) as [[d|e] s'] eqn:E.
  2:{ apply record_exc in E as ->. split; [exact I|apply report_history_refl]. }
  destruct W as (row & first & Hrow & Hr & _ & _ & [Hf _] & _ & D1 & D2 & Es). cbn [snd].
  enough (K : evolves_reports s (s <| db_report_submissions ::= <[pk := with_download first d row]> |>)).
  { pose proof (reports_same _ _ Es) as K'. exact (transitivity K K' I). }
  destruct (record_row_ok (db_spool s) (db_receipts s) pk row first d
    (si_row _ _ (ri_submissions _ I) pk row Hrow) Hr Hf D1 D2) as [Hok Hk].
  apply evolves_submissions; [reflexivity..|auto|auto|]. intros IS.
  apply (updated_submission _ _ _ _ _ pk row); auto. reflexivity.
Qed.

(** *** Receipts *)

(** The deadlines that a receipt brings are in the rows already. *)
Definition reconciled (s : Db) (c : DownloadReceipt) : Prop :=
  ∀ r, db_report_submissions s !! rec_submission c = Some r → ready r →
    rs_created_at r ≤ rec_completed_at c →
    stored_deadline r ≤ rec_completed_at c + 48 * MICROSECONDS_PER_HOUR.

Lemma evolves_unlink s k : (∀ c, db_receipts s !! k = Some c → reconciled s c) →
  evolves_reports s (s <| db_receipts ::= delete k |>).
Proof.
  intros Hk. apply evolves_submissions; [reflexivity..| |auto|].
  - intros j c Hj. cbn in Hj. apply lookup_delete_Some in Hj as [_ Hj]. exact Hj.
  - intros IS. apply kept_same; [exact IS|reflexivity|].
    intros pk r Hpk Hr. cbn. apply le_deadline. split; [apply deadline_stored|].
    intros j c Hj Hc Ht. destruct (decide (j = k)) as [->|Hne].
    + etransitivity; [apply deadline_stored|]. apply (Hk c Hj r); [rewrite Hc; exact Hpk|exact Hr|exact Ht].
    + eapply deadline_receipt; [rewrite lookup_delete_ne; [exact Hj|congruence]|exact Hc|exact Ht].
Qed.

Lemma report_unlink s k : (∀ c, db_receipts s !! k = Some c → reconciled s c) →
  evolves_reports s (unlink_receipt k s).2.
Proof.
  intros Hk. unfold unlink_receipt, bind, gets. destruct (receipt_unlink_fails s k); cbn; [reflexivity|].
  apply evolves_unlink, Hk.
Qed.

(** After a recorded download its receipt can go. *)
Lemma recorded_reconciled pk completed audit s d s' c : report_inv s →
  record_successful_download pk (Some completed) audit s = (Val d, s') →
  rec_submission c = pk → rec_completed_at c = completed → reconciled s' c.
Proof.
  intros I E Hc Ht r Hr Hrd Hcr. pose proof (wlp_record pk completed audit s I) as W. unfold wlp in W.
  rewrite E in W. destruct W as (row & first & Hrow & _ & _ & Hf & _ & _ & D1 & _ & Es).
  injection Es as _ ES _ _ _ _. rewrite Hc, ES in Hr. cbn in Hr. rewrite lookup_insert_eq in Hr.
  injection Hr as <-. rewrite Ht. unfold stored_deadline. cbn. lia.
Qed.

Lemma report_count c (m : M Db CleanupCounts) : preserves evolves_reports m →
  preserves evolves_reports (count_storage_failure c m).
Proof. intros Hm. unfold count_storage_failure. apply (preserves_caught _ _ _ (λ _, ret (one_failed c))); preserve. Qed.

Lemma report_reconcile c k : preserves evolves_reports (reconcile_receipt c k).
Proof.
  apply report_count. intros s I. destruct (bind (find_obj db_receipts k) _ s) as [x s'] eqn:E. cbn [snd].
  change (bind (find_obj db_receipts k) ?f s) with (f (db_receipts s !! k) s) in E. cbv beta in E.
  destruct (db_receipts s !! k) as [r|] eqn:Er; [|injection E as _ <-; split; [exact I|apply report_history_refl]].
  rewrite (bind_run _ _ _ _ _ (receipt_readable s k r I Er)) in E. cbv beta iota in E.
  change (bind (find_obj db_report_submissions ?p) ?f s) with (f (db_report_submissions s !! p) s) in E.
  cbv beta in E.
  assert (Hdone : ∀ s1, evolves_reports s s1 → reconciled s1 r → db_receipts s1 = db_receipts s →
    (unlink_receipt k ;;; ret c) s1 = (x, s') → report_inv s' ∧ report_history s s').
  { intros s1 Y1 Hr1 Er1 Eu. assert (evolves_reports s1 s') as Y2.
    { pose proof (report_unlink s1 k) as U. unfold bind in Eu.
      destruct (unlink_receipt k s1) as [[u|e] s2]; cbn in Eu, U; injection Eu as _ <-;
        apply U; intros c' Hc'; rewrite Er1, Er in Hc'; injection Hc' as <-; exact Hr1. }
    exact (transitivity Y1 Y2 I). }
  assert (Hskip : reconciled s r → (ret tt ;;; unlink_receipt k ;;; ret c) s = (x, s') →
    report_inv s' ∧ report_history s s').
  { intros Hr1. apply Hdone; [reflexivity|exact Hr1|reflexivity]. }
  destruct (db_report_submissions s !! rec_submission r) as [row|] eqn:Hrow.
  2:{ apply Hskip; [|exact E]. intros r' Hr'. congruence. }
  destruct (bool_decide (rs_state row = SUBMISSION_READY)) eqn:Eready; cbn [when] in E.
  2:{ apply Hskip; [|exact E]. intros r' Hr' Hrd. apply bool_decide_eq_false in Eready.
      destruct Eready. rewrite Hr' in Hrow. injection Hrow as <-. exact Hrd. }
  unfold bind at 1 2 in E.
  pose proof (report_record (rec_submission r) (rec_completed_at r) (rec_audit r) s) as Hrec.
  pose proof (keeps_files_record (rec_submission r) (Some (rec_completed_at r)) (rec_audit r) s) as Kf.
  destruct (record_successful_download _ _ _ s) as [[d|e] s1] eqn:Ed; cbn in Hrec, Kf.
  - eapply Hdone; [exact Hrec| |injection Kf; auto|exact E].
    eapply recorded_reconciled; [exact I|exact Ed|reflexivity..].
  - injection E as _ <-. exact (Hrec I).
Qed.

(** *** Purging *)

Lemma spool_room_subseteq F F' : F' ⊆ F → spool_room F → spool_room F'.
Proof. unfold spool_room. intros HF%map_subseteq_size. lia. Qed.

Lemma spool_room_delete F key : spool_room F → spool_room (delete key F).
Proof. apply spool_room_subseteq, delete_subseteq. Qed.

Definition purged (r : ReportSubmission) : ReportSubmission :=
  r <| rs_payload_key := "" |> <| rs_state := SUBMISSION_EXPIRED |>.

Lemma remove_payload_cases key s r s' : remove_payload key s = (r, s') →
  (r = Val tt ∧ s' = s <| db_spool ::= delete key |>)
  ∨ (∃ e, r = Exc e ∧ storage_failure (exn_kind e) = true) ∧ s' = s.
Proof.
  intros E. unfold remove_payload in E. unfold bind at 1 in E.
  destruct (payload_path key s) as [[u|e] s1] eqn:Ep.
  - pose proof (readonly_payload_path key s) as R. rewrite Ep in R. cbn in R. subst s1.
    unfold bind, gets in E. destruct (unlink_fails s key); cbn in E; injection E as <- <-; [|auto].
    right. split; [|reflexivity]. eexists. split; reflexivity.
  - pose proof (readonly_payload_path key s) as R. rewrite Ep in R. cbn in R. subst s1.
    injection E as <- <-. right. split; [|reflexivity]. exists e. split; [reflexivity|].
    unfold payload_path, root in Ep. destruct (parse_uuid _) as [n|]; [destruct (_ =? _)%string|].
    + destruct (existsb _ _); [|discriminate Ep]. injection Ep as <-. reflexivity.
    + injection Ep as <-. reflexivity.
    + injection Ep as <-. reflexivity.
Qed.

(** The transaction of one expired row. *)
Definition purge_row (now : Z) (c : CleanupCounts) (pk : N) : M Db CleanupCounts :=
  let! row := get_obj db_report_submissions pk in
  let! deadline := effective_expiry pk row in
  if negb (bool_decide (rs_state row = SUBMISSION_READY)) || (now <? deadline) then ret c else
  remove_payload (rs_payload_key row) ;;;
  save db_report_submissions pk purged ;;;
  record_installation_event "report_transfer.content_purged" None (Some (rs_department row))
    (Some (rs_station row)) "report_submission" (Some (rs_submission_id row))
    [("result", JStr "expired"); ("installation_id", json_uuid (rs_installation row))] ;;;
  ret (one_expired c).

Lemma purge_cases now c pk s r s' : purge_row now c pk s = (r, s') →
  match r with
  | Val c' => c' = c ∧ s' = s ∨ ∃ row, db_report_submissions s !! pk = Some row ∧ ready row
      ∧ deadline (db_receipts s) pk row ≤ now ∧ c' = one_expired c
      ∧ report_tables s' = report_tables (s <| db_spool ::= delete (rs_payload_key row) |>
                                            <| db_report_submissions ::= <[pk := purged row]> |>)
  | Exc _ => s' = s
  end.
Proof.
  intros E. unfold purge_row in E. unfold bind at 1, get_obj in E.
  destruct (db_report_submissions s !! pk) as [row|] eqn:Hrow; [|injection E as <- <-; reflexivity].
  apply skip_val in E as [(d & Ed & E)|(e & _ & -> & ->)]; [|reflexivity|apply readonly_expiry].
  apply effective_expiry_deadline in Ed as [-> _].
  destruct (_ || _) eqn:Eo; [injection E as <- <-; left; auto|].
  apply orb_false_elim in Eo as [Er Ed]. apply negb_false_iff, bool_decide_eq_true in Er.
  apply Z.ltb_ge in Ed. unfold bind at 1 in E.
  destruct (remove_payload (rs_payload_key row) s) as [x s1] eqn:Ex.
  apply remove_payload_cases in Ex as [[-> ->]|[(e & -> & _) ->]]; [|injection E as <- <-; reflexivity].
  unfold bind at 1, save in E. cbn in E. rewrite Hrow in E. cbn in E. injection E as <- <-.
  right. exists row. split_and!; auto.
Qed.

Lemma purged_evolves s pk row : report_inv s → db_report_submissions s !! pk = Some row → ready row →
  evolves_reports s (s <| db_spool ::= delete (rs_payload_key row) |>
                       <| db_report_submissions ::= <[pk := purged row]> |>).
Proof.
  intros I Hrow Hr. apply evolves_submissions; [reflexivity..|auto|apply spool_room_delete|]. intros IS. cbn.
  pose proof (si_row _ _ IS pk row Hrow) as [Hw Hd _ _ _].
  assert (Hn : ¬ ready (purged row)) by (unfold ready; cbn; discriminate).
  apply (updated_submission _ _ _ _ _ pk row); auto.
  - split; cbn; [exact Hw|exact Hd|tauto|tauto|reflexivity].
  - split; [reflexivity|tauto].
  - intros k r Hk Hne Hrd. apply lookup_delete_ne. intros E. apply Hne.
    eapply (si_keys _ _ IS); eauto.
  - intros. lia.
Qed.

Lemma report_purge now c pk : preserves evolves_reports (purge_submission now c pk).
Proof.
  apply report_count. change (preserves evolves_reports (transaction_files (purge_row now c pk))).
  intros s. unfold transaction_files. destruct (purge_row now c pk s) as [r s'] eqn:E.
  apply purge_cases in E. destruct r as [c'|e].
  - destruct E as [[_ ->]|(row & Hrow & Hr & _ & _ & Es)]; [reflexivity|]. cbn [snd]. intros I.
    pose proof (reports_same _ _ Es) as K. exact (transitivity (purged_evolves s pk row I Hrow Hr) K I).
  - subst s'. change (evolves_reports s (with_files s s)). rewrite with_files_same by reflexivity.
    reflexivity.
Qed.

(** *** Sweeping *)

Lemma sweep_cases referenced c key s :
  ∃ c' s', sweep_payload referenced c key s = (Val c', s')
  ∧ (s' = s ∧ (key ∈ referenced ∧ c' = c ∨ key ∉ referenced ∧ c' = one_failed c)
     ∨ key ∉ referenced ∧ c' = one_orphan c ∧ s' = s <| db_spool ::= delete key |>).
Proof.
  unfold sweep_payload. destruct (mem_str key referenced) eqn:Em.
  { apply mem_str_In in Em. exists c, s. split; [reflexivity|]. left. auto. }
  assert (Hn : key ∉ referenced) by (rewrite <- mem_str_In, Em; discriminate).
  unfold count_storage_failure, try_except, bind.
  destruct (remove_payload key s) as [r s'] eqn:E.
  apply remove_payload_cases in E as [[-> ->]|[(e & -> & Ee) ->]].
  - eexists _, _. split; [reflexivity|]. right. auto.
  - rewrite Ee. eexists _, _. split; [reflexivity|]. left. auto.
Qed.

(** The keys that rows refer to. *)
Definition referenced_keys (s : Db) : list string :=
  filter (λ k, str_true k = true) (map (λ r, rs_payload_key r.2) (map_to_list (db_report_submissions s))).

Lemma referenced_ready s k r : report_inv s → db_report_submissions s !! k = Some r → ready r →
  rs_payload_key r ∈ referenced_keys s.
Proof.
  intros I Hk Hr. pose proof (ro_key _ _ (si_row _ _ (ri_submissions _ I) k r Hk) Hr) as E.
  apply list_elem_of_filter. split; [exact E|]. apply list_elem_of_fmap.
  exists (k, r). split; [reflexivity|]. apply elem_of_map_to_list, Hk.
Qed.

(** Every other key in the list is one of a ready row. *)
Lemma referenced_row s key : report_inv s → key ∈ referenced_keys s →
  ∃ k r, db_report_submissions s !! k = Some r ∧ ready r ∧ rs_payload_key r = key.
Proof.
  intros I [E Hin]%list_elem_of_filter. apply list_elem_of_fmap in Hin as ([k r] & -> & Hin).
  apply elem_of_map_to_list in Hin. exists k, r. cbn in E |- *. split_and!; [exact Hin| |reflexivity].
  destruct (decide (ready r)) as [Hr|Hr]; [exact Hr|].
  rewrite (ro_purged _ _ (si_row _ _ (ri_submissions _ I) k r Hin) Hr) in E. discriminate E.
Qed.

(** The sweep: only the spool changes, by files that no row refers to. *)
Lemma sweep_fold referenced c files s :
  ∃ c' s', fold_m (sweep_payload referenced) c files s = (Val c', s')
  ∧ (∃ F, s' = s <| db_spool := F |>
     ∧ (∀ key, key ∈ referenced ∨ key ∉ files → F !! key = db_spool s !! key)
     ∧ (∀ key raw, F !! key = Some raw → db_spool s !! key = Some raw)
     ∧ (cc_failed c' = cc_failed c → ∀ key, key ∈ files → key ∉ referenced → F !! key = None))
  ∧ cc_failed c ≤ cc_failed c'.
Proof.
  revert c s. induction files as [|key files IH]; intros c s.
  { exists c, s. split; [reflexivity|]. split; [|lia]. exists (db_spool s). split_and!; auto.
    - destruct s. reflexivity.
    - intros _ key Hin. inversion Hin. }
  destruct (sweep_cases referenced c key s) as (c1 & s1 & E1 & Hc).
  destruct (IH c1 s1) as (c2 & s2 & E2 & (F & -> & F1 & F2 & F3) & L2).
  exists c2, (s1 <| db_spool := F |>). cbn [fold_m]. rewrite (bind_run _ _ _ _ _ E1).
  split; [exact E2|].
  destruct Hc as [[-> [[Hin ->]|[Hnin ->]]]|(Hnin & -> & ->)]; cbn in *.
  - split; [|exact L2]. exists F. split_and!; auto.
    + intros k [Hk|Hk]; apply F1; [auto|right; intros Hx; apply Hk; right; exact Hx].
    + intros Ef k [->|Hk]%elem_of_cons Hn; [tauto|auto].
  - split; [|lia]. exists F. split_and!; auto.
    + intros k [Hk|Hk]; apply F1; [auto|right; intros Hx; apply Hk; right; exact Hx].
    + intros Ef. lia.
  - split; [|exact L2]. exists F. split_and!.
    + reflexivity.
    + intros k Hk. rewrite F1 by (destruct Hk as [Hk|Hk]; [auto|right; intros Hx; apply Hk; right; exact Hx]).
      apply lookup_delete_ne. intros <-. destruct Hk as [Hk|Hk]; [auto|apply Hk; left].
    + intros k raw Hk. apply F2, lookup_delete_Some in Hk as [_ Hk]. exact Hk.
    + intros Ef k [->|Hk]%elem_of_cons Hn; [|auto].
      destruct (F !! key) as [raw|] eqn:EF; [|reflexivity].
      apply F2 in EF. rewrite lookup_delete_eq in EF. discriminate EF.
Qed.

(** The whole sweep: every file without a row goes, unless removing it fails. *)
Lemma sweep_outcome c s : report_inv s →
  (∃ e, sweep_orphans c s = (Exc e, s)) ∨ ∃ c' F, sweep_orphans c s = (Val c', s <| db_spool := F |>)
  ∧ (∀ k r, db_report_submissions s !! k = Some r → ready r →
       F !! rs_payload_key r = db_spool s !! rs_payload_key r)
  ∧ (∀ key raw, F !! key = Some raw → db_spool s !! key = Some raw)
  ∧ (cc_failed c' = cc_failed c → ∀ key raw, F !! key = Some raw →
       ∃ k r, db_report_submissions s !! k = Some r ∧ ready r ∧ rs_payload_key r = key)
  ∧ cc_failed c ≤ cc_failed c'.
Proof.
  intros I. unfold sweep_orphans, transaction_files.
  change (bind (gets ?f) ?k s) with (k (f s) s). cbv beta.
  change (filter _ (map _ _)) with (referenced_keys s).
  pose proof (readonly_root s) as Hroot. destruct (root s) as [[u|e] s1] eqn:Er; cbn in Hroot; subst s1.
  2:{ left. exists e. rewrite (bind_exc _ _ _ _ _ Er). f_equal.
      change (with_files s s = s). apply with_files_same. reflexivity. }
  rewrite (bind_run _ _ _ _ _ Er). change (bind (gets ?f) ?k s) with (k (f s) s). cbv beta.
  destruct (sweep_fold (referenced_keys s) c (map_to_list (db_spool s)).*1 s)
    as (c' & s' & E & (F & -> & F1 & F2 & F3) & L). rewrite E. right. exists c', F.
  split_and!; [reflexivity| |exact F2| |exact L].
  - intros k r Hk Hr. apply F1. left. eapply referenced_ready; eauto.
  - intros Ef key raw HF. destruct (decide (key ∈ referenced_keys s)) as [Hin|Hnin].
    + apply referenced_row; assumption.
    + rewrite (F3 Ef) in HF; [discriminate HF| |exact Hnin].
      apply list_elem_of_fmap. exists (key, raw). split; [reflexivity|].
      apply elem_of_map_to_list, F2, HF.
Qed.

Lemma report_sweep c : preserves evolves_reports (sweep_orphans c).
Proof.
  intros s I. destruct (sweep_outcome c s I) as [[e ->]|(c' & F & -> & F1 & F2 & _)].
  - split; [exact I|apply report_history_refl].
  - pose proof (spool_room_subseteq (db_spool s) F) as Hroom. revert I. change (evolves_reports s (s <| db_spool := F |>)).
    apply evolves_submissions; [reflexivity..|auto|apply Hroom, map_subseteq_spec, F2|]. intros IS.
    apply kept_same; [exact IS|exact F1|]. intros. apply Z.le_refl.
Qed.

Lemma report_cleanup others now : (∀ n, preserves evolves_reports (others n)) →
  preserves evolves_reports (cleanup others now).
Proof.
  intros Ho. assert (Hm : ∀ n, preserves evolves_reports (meanwhile (others n)))
    by (intros n; exact (Ho n)).
  pose proof report_reconcile. pose proof report_purge. pose proof report_sweep.
  unfold cleanup. preserve.
Qed.
End downloads.
