(* ===== verification/MailRotation.v ===== *)
(** Rotation re-encrypts the mail secrets under the active key and changes nothing else:
    every secret stays what it was, and in the end all of them are written with that key. *)
From S2P Require Import Prelude Text Encoding Models Store Authorization Fingerprint Artifacts.
From S2P Require Import ApplicationSecrets SecretTheorems Tablets Roles Queue Assignments.
From S2P Require Import Organizations Manifests MailProviders.
From S2P Require Import ReportDelivery MailServices Totality MailInv.

Section rotation.
Context `{MailEnvironment, MailSettings, DeliverySettings, Aesgcm, SecretSettings, !AesgcmLaws}.

(** Two envelopes under a context with the same content. *)
Definition same_secret (ctx old new : string) : Prop :=
  str_true new = str_true old
  ∧ ∀ s, decrypt_application_secret new ctx s = decrypt_application_secret old ctx s.

(** A reference found in the tables. *)
Definition live (s : Db) (r : SecretReference) : Prop :=
  match r with
  | DepartmentSmtpPassword k d => ∀ c, db_department_mail s !! k = Some c → md_department c = d
  | _ => True
  end.

(** Written with the active key. *)
Definition active (c : Cipher) (e : string) : Prop :=
  ∃ n t, _parse_envelope e = Some (ci_active_version c, n, t).

(** Nothing is left to do. *)
Definition settled (c : Cipher) (e : string) : Prop := e = "" ∨ active c e.

(** The rows stay, and stay the departments' own. *)
Definition kept_rows (s s' : Db) : Prop :=
  (∀ k, is_Some (db_system_mail s' !! k) ↔ is_Some (db_system_mail s !! k))
  ∧ ∀ k, md_department <$> db_department_mail s' !! k = md_department <$> db_department_mail s !! k.

(** The column a reference points to. *)
Definition place (r : SecretReference) : nat * N :=
  match r with
  | SystemApiKey k => (0%nat, k)
  | SystemSmtpPassword k => (1%nat, k)
  | DepartmentSmtpPassword k _ => (2%nat, k)
  end.

(** What rotation does to the stores: every reference stays, its envelope holds the same
    secret, and is the old one or one under the active key. *)
Definition rotates (c : Cipher) (s s' : Db) : Prop := ∀ r old,
  live s r → secret_value r s = Some old →
  live s' r ∧ ∃ new, secret_value r s' = Some new ∧ same_secret (reference_context r) old new
    ∧ (new = old ∨ active c new).

Lemma configured_valid c s s' : configured_application_secret_cipher s = (Val c, s') →
  s' = s ∧ make_cipher (ci_keys c) (ci_active_version c) s = (Val c, s)
  ∧ ∀ s1, configured_application_secret_cipher s1 = (Val c, s1).
Proof.
  unfold configured_application_secret_cipher.
  destruct (parse_application_secret_keyring _) as [x|keys]; [discriminate|]. intros E.
  pose proof (make_cipher_valid _ _ _ _ _ E) as (-> & -> & _). split; [reflexivity|].
  split; [exact E|]. intros s1. revert E. unfold make_cipher. destruct (_ && _); [reflexivity|discriminate].
Qed.

Lemma encrypt_true c x ctx s e s' : cipher_encrypt c x ctx s = (Val e, s') → s' = s ∧ str_true e = true.
Proof.
  unfold cipher_encrypt, bind, gets. cbn. destruct (ci_keys c !! _); [|discriminate].
  intros [= <- <-]. split; reflexivity.
Qed.

(** The new envelope holds what the old one held, under the configured keys. *)
Lemma reencrypted c value ctx s x e s1 s2 :
  configured_application_secret_cipher s = (Val c, s) →
  cipher_decrypt c value ctx s = (Val x, s1) → cipher_encrypt c x ctx s1 = (Val e, s2) →
  s2 = s ∧ str_true e = true
  ∧ active c e
  ∧ ∀ s', decrypt_application_secret value ctx s' = (Val x, s')
    ∧ decrypt_application_secret e ctx s' = (Val x, s').
Proof.
  intros Ec Ed Ee. pose proof (configured_valid _ _ _ Ec) as (_ & Em & Ea).
  assert (Hd : ∀ s', cipher_decrypt c value ctx s' = (Val x, s')).
  { intros s'. revert Ed. unfold cipher_decrypt, secret_error, raise.
    repeat case_match; intros [=]; subst; reflexivity. }
  rewrite Hd in Ed. injection Ed as <-.
  destruct (encrypt_true _ _ _ _ _ _ Ee) as [-> He].
  destruct (decrypt_written _ _ _ _ _ _ _ _ _ c ctx s Em Ee eq_refl) as (P & _ & _).
  split; [reflexivity|]. split; [exact He|]. split; [unfold active; eauto|].
  intros s'. unfold decrypt_application_secret. rewrite !(bind_run _ _ _ _ _ (Ea s')). split; [apply Hd|].
  destruct (decrypt_written _ _ _ _ _ _ _ _ _ c ctx s' Em Ee eq_refl) as (_ & D & _). apply D. reflexivity.
Qed.

Lemma same_smtp_rotated ctx c new : same_secret ctx (smtp_password_encrypted c) new →
  same_smtp ctx c (c <| smtp_password_encrypted := new |>).
Proof.
  intros [Et Ed]. split; try reflexivity; [exact Et|]. intros s. unfold smtp_password. cbn.
  destruct (str_true (smtp_username c)); [|reflexivity]. apply bind_ext; [apply Ed|reflexivity].
Qed.

Lemma mode_same c c' : mc_delivery_mode c' = mc_delivery_mode c → mc_api_provider c' = mc_api_provider c →
  same_system c c' → mode_ok c → mode_ok c'.
Proof.
  intros E1 E2 Hs. pose proof (same_smtp_checks _ _ _ (sy_smtp _ _ Hs)) as (_ & E3 & _).
  destruct Hs as [E4 E5 _ _ _ _]. unfold mode_ok. rewrite E1, E2, E3, E4, E5. auto.
Qed.

Lemma wlp_save_secret s r old new : mail_inv s → live s r → secret_value r s = Some old →
  same_secret (reference_context r) old new →
  wlp (save_secret r new) s (λ _ s', mail_inv s').
Proof.
  intros I Hl Hv Hs. destruct r as [k|k|k d]; cbn [secret_value reference_context save_secret] in *.
  - destruct (db_system_mail s !! k) as [c|] eqn:L; [|discriminate]. injection Hv as Hv. subst old.
    apply wlp_save. intros c' L'. rewrite L in L'. injection L' as <-.
    assert (Hsame : same_system c (c <| mc_brevo_api_key_encrypted := new |>))
      by (destruct Hs; split; try reflexivity; auto; apply same_smtp_refl).
    unfold mail_inv in *. cbn. destruct (mi_system _ _ I _ _ L) as [Hp Hm].
    apply (inv_save_system _ _ _ c); [exact I|exact L|split; [exact Hp|exact Hm]|].
    apply (verified_same s k c);
      [exact (system_lookup_find _ _ _ I L)|exact (mi_system_verified _ _ I _ _ L)|exact Hsame|reflexivity..].
  - destruct (db_system_mail s !! k) as [c|] eqn:L; [|discriminate]. injection Hv as Hv. subst old.
    apply wlp_bind, wlp_get_obj. intros c' L'. rewrite L in L'. injection L' as <-. cbv zeta.
    apply wlp_bind, wlp_guard. intros Hp. apply wlp_save. intros c' L'.
    rewrite L in L'. injection L' as <-.
    assert (Hsame : same_system c (c <| mc_smtp := (mc_smtp c) <| smtp_password_encrypted := new |> |>))
      by (split; try reflexivity; apply same_smtp_rotated, Hs).
    unfold mail_inv in *. cbn. destruct (mi_system _ _ I _ _ L) as [_ Hm].
    apply (inv_save_system _ _ _ c); [exact I|exact L|split; [exact Hp|]|].
    + apply (mode_same c); auto.
    + apply (verified_same s k c);
      [exact (system_lookup_find _ _ _ I L)|exact (mi_system_verified _ _ I _ _ L)|exact Hsame|reflexivity..].
  - destruct (db_department_mail s !! k) as [c|] eqn:L; [|discriminate]. injection Hv as Hv. subst old.
    specialize (Hl c L). subst d.
    apply wlp_bind, wlp_get_obj. intros c' L'. rewrite L in L'. injection L' as <-. cbv zeta.
    apply wlp_bind, wlp_guard. intros Hp. apply wlp_save. intros c' L'.
    rewrite L in L'. injection L' as <-.
    pose proof (same_smtp_rotated _ _ _ Hs) as Hsame.
    pose proof (same_smtp_checks _ _ _ Hsame) as (_ & Hc & He).
    unfold mail_inv in *. cbn. destruct (mi_department _ _ I _ _ L) as [_ Hm].
    apply inv_save_department; [exact I| |split; [exact Hp|]|].
    + intros j e Hj E. exact (mi_department_one _ _ I _ _ _ _ Hj L E).
    + unfold department_mode_ok in *. cbn. cbn in Hc. rewrite Hc. exact Hm.
    + intros Eo s' p Ep. apply (mi_department_verified _ _ I _ _ L Eo s' p).
      revert Ep. unfold department_smtp_provider, bind. cbn [md_smtp md_department set].
      cbn. rewrite (ss_password _ _ _ Hsame s'). 
      destruct (smtp_password (md_smtp c) _ s') as [[pw|x] s2]; [|auto]. rewrite He. auto.
Qed.

Lemma readonly_cipher_encrypt c x ctx : readonly (cipher_encrypt c x ctx).
Proof. unfold cipher_encrypt. preserve. Qed.

Lemma readonly_cipher_decrypt c x ctx : readonly (cipher_decrypt c x ctx).
Proof. unfold cipher_decrypt, secret_error. preserve. Qed.

Lemma readonly_key_version e : readonly (application_secret_key_version e).
Proof. unfold application_secret_key_version, secret_error. preserve. Qed.

(** The envelope that replaces [value]: none when it is written with the active key. *)
Lemma wlp_replacement c r value s (Q : option string → Db → Prop) :
  configured_application_secret_cipher s = (Val c, s) →
  (active c value → Q None s) →
  (∀ new, same_secret (reference_context r) value new → active c new → Q (Some new) s) →
  wlp (try_except (
    let! version := application_secret_key_version value in
    if String.eqb version (ci_active_version c) then ret None else
    let! plaintext := cipher_decrypt c value (reference_context r) in
    let! replacement := cipher_encrypt c plaintext (reference_context r) in
    ret (Some replacement))
    (λ e, match exn_kind e with
          | ESecret code => Some (raise (ESecretRotation (reference_label r) code) "")
          | _ => None
          end)) s Q.
Proof.
  intros Ec HN HS. unfold wlp, try_except, bind, application_secret_key_version.
  destruct (_parse_envelope value) as [[[v n] t]|] eqn:P; [|exact I]. cbn [ret].
  destruct (String.eqb_spec v (ci_active_version c)) as [->|]; [apply HN; unfold active; eauto|].
  destruct (cipher_decrypt c value (reference_context r) s) as [[x|e] s1] eqn:Ed;
    [|destruct (exn_kind e); exact I].
  destruct (cipher_encrypt c x (reference_context r) s1) as [[e|e] s2] eqn:Ee;
    [|destruct (exn_kind e); exact I].
  destruct (reencrypted _ _ _ _ _ _ _ _ Ec Ed Ee) as (-> & Ht & Hv & Hsame).
  assert (Hvt : str_true value = true).
  { destruct value; [discriminate P|reflexivity]. }
  apply HS; [split; [congruence|]|exact Hv].
  intros s'. destruct (Hsame s') as [-> ->]. reflexivity.
Qed.

#[export] Instance rotates_preorder c : PreOrder (rotates c).
Proof.
  split.
  - intros s r old Hl Hv. split; [exact Hl|]. exists old. split; [exact Hv|].
    split; [split; reflexivity|auto].
  - intros s1 s2 s3 R12 R23 r old Hl Hv.
    destruct (R12 r old Hl Hv) as (Hl2 & e2 & Hv2 & [T2 D2] & A2).
    destruct (R23 r e2 Hl2 Hv2) as (Hl3 & e3 & Hv3 & [T3 D3] & A3).
    split; [exact Hl3|]. exists e3. split; [exact Hv3|].
    split; [split; [congruence|intros s; rewrite D3; apply D2]|].
    destruct A3 as [->|A3]; [exact A2|auto].
Qed.

Lemma wlp_save_place s r new :
  is_Some (secret_value r s) →
  wlp (save_secret r new) s (λ _ s',
    (∀ r', secret_value r' s' = if decide (place r' = place r) then Some new else secret_value r' s)
    ∧ ∀ r', live s r' → live s' r').
Proof.
  intros [old Hv]. destruct r as [k|k|k d]; cbn [save_secret].
  - apply wlp_save. intros c L. split; [|intros []; exact (λ x, x)].
    intros [i|i|i e]; cbn; destruct (decide _) as [E|E]; try (injection E as ->); try discriminate E;
      rewrite ?lookup_insert_eq; try reflexivity.
    + rewrite lookup_insert_ne by congruence. reflexivity.
    + destruct (decide (k = i)) as [->|Hne]; [rewrite lookup_insert_eq, L|rewrite lookup_insert_ne by exact Hne]; reflexivity.
  - apply wlp_bind, wlp_get_obj. intros c L. cbv zeta. apply wlp_bind, wlp_guard. intros _.
    apply wlp_save. intros c' L'. rewrite L in L'. injection L' as <-. split; [|intros []; exact (λ x, x)].
    intros [i|i|i e]; cbn; destruct (decide _) as [E|E]; try (injection E as ->); try discriminate E;
      rewrite ?lookup_insert_eq; try reflexivity.
    + destruct (decide (k = i)) as [->|Hne]; [rewrite lookup_insert_eq, L|rewrite lookup_insert_ne by exact Hne]; reflexivity.
    + rewrite lookup_insert_ne by congruence. reflexivity.
  - apply wlp_bind, wlp_get_obj. intros c L. cbv zeta. apply wlp_bind, wlp_guard. intros _.
    apply wlp_save. intros c' L'. rewrite L in L'. injection L' as <-. split.
    + intros [i|i|i e]; cbn; destruct (decide _) as [E|E]; try (injection E as ->); try discriminate E;
        rewrite ?lookup_insert_eq; try reflexivity.
      rewrite lookup_insert_ne by congruence. reflexivity.
    + intros [i|i|i e] Hl; try exact I. intros c'. cbn. intros [[<- <-]|[_ Hc]]%lookup_insert_Some;
        [exact (Hl c L)|exact (Hl c' Hc)].
Qed.

Lemma same_context s r r' : live s r → live s r' → place r' = place r → is_Some (secret_value r s) →
  reference_context r' = reference_context r.
Proof.
  destruct r as [k|k|k d], r' as [k'|k'|k' d']; cbn; intros Hl Hl' [=]; subst; try reflexivity.
  intros [e [c [Hc _]]%fmap_Some]. rewrite <- (Hl c Hc), (Hl' c Hc). reflexivity.
Qed.

Lemma wlp_save_rotates c s r old new : live s r → secret_value r s = Some old →
  same_secret (reference_context r) old new → active c new →
  wlp (save_secret r new) s (λ _ s', rotates c s s' ∧ secret_value r s' = Some new).
Proof.
  intros Hl Hv Hs Ha. eapply wlp_mono; [apply wlp_save_place; eauto|]. intros u s' [Hp Hl'].
  split; [|rewrite Hp, decide_True; reflexivity]. intros r' old' Hr' Hv'. split; [exact (Hl' r' Hr')|].
  rewrite Hp. destruct (decide (place r' = place r)) as [E|E].
  - exists new. split; [reflexivity|]. split; [|auto].
    rewrite (same_context s r r') by eauto.
    assert (old' = old) as ->; [|exact Hs].
    destruct r as [k|k|k d], r' as [k'|k'|k' d']; cbn in E, Hv, Hv'; simplify_eq; congruence.
  - exists old'. split; [exact Hv'|]. split; [split; reflexivity|auto].
Qed.

(** The work on one reference: the invariant, what it does to the secrets, and that the
    reference is under the active key (or empty) in the end. *)
Lemma wlp_rotate_one c acc r s : mail_inv s → live s r →
  configured_application_secret_cipher s = (Val c, s) →
  wlp (rotate_one c acc r) s (λ acc' s', mail_inv s' ∧ rotates c s s'
    ∧ (∀ e, secret_value r s' = Some e → settled c e)
    ∧ rn_rotated acc' + rn_skipped_active acc' + rn_skipped_empty acc'
      = rn_rotated acc + rn_skipped_active acc + rn_skipped_empty acc + 1
    ∧ rn_active_version acc' = rn_active_version acc
    ∧ (rn_rotated acc' = rn_rotated acc → s' = s)
    ∧ (rn_rotated acc' = rn_rotated acc + 1 ∨ rn_rotated acc' = rn_rotated acc)).
Proof.
  intros Hi Hl Ec. apply wlp_atomic. apply wlp_skip; [preserve|]. intros value Ev.
  injection Ev as Ev. destruct value as [value|].
  2:{ apply wlp_ret. cbn. split_and!; auto; [reflexivity|congruence|lia]. }
  destruct (str_true value) eqn:Ht; cbn [negb].
  2:{ apply wlp_ret. cbn. split_and!; auto; [reflexivity| |lia].
      intros e. rewrite Ev. intros [= ->]. left. destruct e; [reflexivity|discriminate Ht]. }
  apply wlp_bind. apply wlp_replacement; [exact Ec| |].
  - intros Ha. apply wlp_ret. cbn. split_and!; auto; [reflexivity| |lia].
    intros e. rewrite Ev. intros [= <-]. right. exact Ha.
  - intros new Hs Ha. apply wlp_bind.
    eapply wlp_mono; [apply wlp_and; [apply (wlp_save_secret s r value); auto|
      apply (wlp_save_rotates c s r value); auto]|].
    intros u s' (Hi' & Hr & Hv). apply wlp_ret. cbn. split_and!; auto; try lia.
    intros e He. rewrite Hv in He. injection He as <-. right. exact Ha.
Qed.

Lemma settled_stays c s s' r : live s r → rotates c s s' →
  (∀ e, secret_value r s = Some e → settled c e) → is_Some (secret_value r s) →
  ∀ e, secret_value r s' = Some e → settled c e.
Proof.
  intros Hl Hr Hs [old Hv] e He. destruct (Hr r old Hl Hv) as (_ & new & Hn & _ & [->|Ha]).
  - rewrite Hn in He. injection He as <-. auto.
  - rewrite Hn in He. injection He as <-. right. exact Ha.
Qed.

(** The loop, whether it ends or stops at an envelope that can not be read. *)
Lemma rotate_fold c l acc s : mail_inv s → Forall (live s) l →
  Forall (λ r, is_Some (secret_value r s)) l →
  configured_application_secret_cipher s = (Val c, s) →
  match fold_m (rotate_one c) acc l s with
  | (Val acc', s') => mail_inv s' ∧ rotates c s s'
      ∧ Forall (λ r, ∀ e, secret_value r s' = Some e → settled c e) l
      ∧ rn_rotated acc' + rn_skipped_active acc' + rn_skipped_empty acc'
        = rn_rotated acc + rn_skipped_active acc + rn_skipped_empty acc + Z.of_nat (length l)
  | (Exc _, s') => mail_inv s' ∧ rotates c s s'
  end.
Proof.
  revert acc s. induction l as [|r l IH]; intros acc s Hi Hl Hv Ec; cbn [fold_m].
  - unfold ret. split_and!; auto; [reflexivity|cbn; lia].
  - inversion Hl as [|? ? Hr Hl']; subst. inversion Hv as [|? ? [old Ho] Hv']; subst.
    pose proof (wlp_rotate_one c acc r s Hi Hr Ec) as W. unfold wlp in W. unfold bind.
    destruct (rotate_one c acc r s) as [[acc'|e] s1] eqn:E.
    + destruct W as (Hi1 & R1 & S1 & C1 & _).
      assert (Hl1 : Forall (live s1) l ∧ Forall (λ r, is_Some (secret_value r s1)) l).
      { split; apply Forall_forall; intros r' Hin; rewrite Forall_forall in Hl', Hv';
          destruct (Hv' r' Hin) as [o Hr']; destruct (R1 r' o (Hl' r' Hin) Hr') as (? & n & ? & _); eauto. }
      destruct Hl1 as [Hl1 Hv1]. destruct (configured_valid _ _ _ Ec) as (_ & _ & Ea).
      specialize (IH acc' s1 Hi1 Hl1 Hv1 (Ea s1)).
      destruct (fold_m (rotate_one c) acc' l s1) as [[acc2|x] s2].
      * destruct IH as (Hi2 & R2 & S2 & C2). split_and!; [exact Hi2|etrans; eassumption| |cbn [length]; lia].
        constructor; [|exact S2]. destruct (R1 r old Hr Ho) as (Hr1 & n & Hn & _).
        apply (settled_stays c s1 s2 r); eauto.
      * destruct IH as [Hi2 R2]. split; [exact Hi2|etrans; eassumption].
    + unfold rotate_one in E. apply atomic_Exc in E. subst s1. split; [exact Hi|reflexivity].
Qed.

Lemma live_references s : mail_inv s →
  Forall (live s) (_live_secret_references s)
  ∧ Forall (λ r, is_Some (secret_value r s)) (_live_secret_references s).
Proof.
  intros Hi. unfold _live_secret_references. split; apply Forall_app; split.
  - destruct (find_system_mail s) as [[k c]|]; repeat constructor.
  - apply Forall_fmap, Forall_forall. intros [k c] Hin. apply order_by_elem, rows_elem in Hin as [Hk _].
    intros c' Hc'. cbn in *. congruence.
  - destruct (find_system_mail s) as [[k c]|] eqn:F; [|constructor]. apply find_system_lookup in F.
    repeat constructor; cbn; rewrite F; eauto.
  - apply Forall_fmap, Forall_forall. intros [k c] Hin. apply order_by_elem, rows_elem in Hin as [Hk _].
    cbn in *. rewrite Hk. eauto.
Qed.

(** A settled reference is skipped. *)
Lemma rotate_settled c acc r s : is_Some (secret_value r s) →
  (∀ e, secret_value r s = Some e → settled c e) →
  ∃ acc', rotate_one c acc r s = (Val acc', s) ∧ rn_rotated acc' = rn_rotated acc.
Proof.
  intros [e He] Hs. unfold rotate_one, atomic, bind, gets. rewrite He.
  destruct (Hs e He) as [->|(n & t & Hp)]; cbn [str_true].
  - eexists. split; reflexivity.
  - destruct (str_true e); cbn [negb]; [|eexists; split; reflexivity].
    unfold try_except, application_secret_key_version. rewrite Hp. cbn.
    rewrite String.eqb_refl. eexists. split; reflexivity.
Qed.

Lemma fold_settled c l acc s : Forall (λ r, is_Some (secret_value r s)) l →
  Forall (λ r, ∀ e, secret_value r s = Some e → settled c e) l →
  ∃ acc', fold_m (rotate_one c) acc l s = (Val acc', s) ∧ rn_rotated acc' = rn_rotated acc.
Proof.
  revert acc. induction l as [|r l IH]; intros acc Hv Hs; cbn [fold_m]; [eauto|].
  inversion Hv as [|? ? Hr Hv']; inversion Hs as [|? ? Hr' Hs']; subst.
  destruct (rotate_settled c acc r s Hr Hr') as (acc1 & E1 & <-). destruct (IH acc1 Hv' Hs') as (acc2 & E2 & <-).
  exists acc2. split; [|reflexivity]. rewrite (bind_run _ _ _ _ _ E1). exact E2.
Qed.

(** ** The whole run *)

#[export] Instance kept_rows_preorder : PreOrder kept_rows.
Proof.
  split; [intros s; split; reflexivity|]. intros s1 s2 s3 [A B] [A' B'].
  split; [intros k; rewrite A'; apply A|intros k; rewrite B'; apply B].
Qed.

Lemma kept_save_secret r new : preserves kept_rows (save_secret r new).
Proof.
  assert (Hs : ∀ k (f : SystemMailConfiguration → SystemMailConfiguration),
    preserves kept_rows (save db_system_mail k f)).
  { intros k f s. unfold save. destruct (db_system_mail s !! k) as [c|] eqn:L; [|split; reflexivity].
    split; [|reflexivity]. intros j. cbn. rewrite lookup_insert_is_Some. destruct (decide (k = j)) as [->|].
    - rewrite L. split; eauto.
    - tauto. }
  destruct r as [k|k|k d]; cbn [save_secret]; [apply Hs|preserve; apply Hs|].
  intros s. unfold bind, get_obj. destruct (db_department_mail s !! k) as [c|] eqn:L; [|split; reflexivity].
  cbv zeta. unfold guard. destruct (auth_pair _); [|split; reflexivity]. unfold ret, save. rewrite L.
  split; [reflexivity|]. intros j. cbn. destruct (decide (k = j)) as [->|Hne].
  - rewrite lookup_insert_eq, L. reflexivity.
  - rewrite lookup_insert_ne by exact Hne. reflexivity.
Qed.

Lemma kept_rotate_one c acc r : preserves kept_rows (rotate_one c acc r).
Proof.
  pose proof kept_save_secret. pose proof readonly_key_version. pose proof readonly_cipher_decrypt.
  pose proof readonly_cipher_encrypt. unfold rotate_one. preserve.
Qed.

Lemma kept_fold c l acc : preserves kept_rows (fold_m (rotate_one c) acc l).
Proof. apply preserves_fold_m; [exact _|]. intros. apply kept_rotate_one. Qed.

Lemma elem_of_references s r : mail_inv s → r ∈ _live_secret_references s ↔
  match r with
  | SystemApiKey k | SystemSmtpPassword k => is_Some (db_system_mail s !! k)
  | DepartmentSmtpPassword k d => md_department <$> db_department_mail s !! k = Some d
  end.
Proof.
  intros Hi. unfold _live_secret_references. rewrite elem_of_app, list_elem_of_fmap.
  assert (Hs : ∀ k, is_Some (db_system_mail s !! k) ↔ ∃ c, find_system_mail s = Some (k, c)).
  { intros k. split; [intros [c Hc]; exists c; exact (system_lookup_find _ _ _ Hi Hc)|].
    intros [c Hc]. exists c. exact (find_system_lookup _ _ _ Hc). }
  destruct r as [k|k|k d].
  - rewrite Hs. split.
    + intros [Hin|([j c] & [=] & _)]. destruct (find_system_mail s) as [[j c]|]; [|inversion Hin].
      apply elem_of_cons in Hin as [[= ->]|Hin]; [eauto|]. apply list_elem_of_singleton in Hin. discriminate.
    + intros [c ->]. left. left.
  - rewrite Hs. split.
    + intros [Hin|([j c] & [=] & _)]. destruct (find_system_mail s) as [[j c]|]; [|inversion Hin].
      apply elem_of_cons in Hin as [[=]|Hin]. apply list_elem_of_singleton in Hin as [= ->]. eauto.
    + intros [c ->]. left. right. left.
  - split.
    + intros [Hin|([j c] & [= -> ->] & Hin)].
      * destruct (find_system_mail s) as [[j c]|]; [|inversion Hin].
        apply elem_of_cons in Hin as [[=]|Hin]. apply list_elem_of_singleton in Hin. discriminate.
      * apply order_by_elem, rows_elem in Hin as [Hk _]. cbn in *. rewrite Hk. reflexivity.
    + intros (c & Hc & ->)%fmap_Some. right. exists (k, c). split; [reflexivity|].
      apply order_by_elem, rows_elem. auto.
Qed.

Lemma kept_references s s' r : mail_inv s → mail_inv s' → kept_rows s s' →
  r ∈ _live_secret_references s' ↔ r ∈ _live_secret_references s.
Proof.
  intros Hi Hi' [A B]. rewrite !elem_of_references by assumption. destruct r; auto. rewrite B. reflexivity.
Qed.
End rotation.
