(* ===== verification/MailSystem.v ===== *)
(** The outbound mail as a whole: its requests, what a run of them keeps, and the protocol
    of the idempotent delivery requests between concurrent sessions. *)
From S2P Require Import Prelude Text Encoding Models Store Authorization Fingerprint Artifacts.
From S2P Require Import ApplicationSecrets SecretTheorems Tablets Roles Queue Assignments.
From S2P Require Import Organizations Manifests MailProviders.
From S2P Require Import ReportDelivery MailServices Totality MailInv MailRotation.

(** ** Requests *)

Inductive MailRequest :=
| ConfigureHttpsProxy (actor : N) (proxy_url : string)
| VerifySystemMail (actor : N)
| ConfigureBrevo (actor : N) (sender_name sender_email : string)
| ReplaceBrevoApiKey (actor : N) (api_key : string)
| ClearBrevoApiKey (actor : N)
| ConfigureSmtp (actor : N) (host : string) (port : Z) (tls_mode sender_name sender_email : string)
| ReplaceSmtpCredentials (actor : N) (username password : string)
| ClearSmtpCredentials (actor : N)
| SetDeliveryMode (actor : N) (delivery_mode api_provider : string)
| GetSystemMailConfiguration
| ConfigureDepartmentSmtp (actor department : N) (host : string) (port : Z)
    (tls_mode sender_name sender_email : string)
| ReplaceDepartmentSmtpCredentials (actor department : N) (username password : string)
| ClearDepartmentSmtpCredentials (actor department : N)
| VerifyDepartmentSmtp (actor department : N)
| SetDepartmentDeliveryMode (actor department : N) (delivery_mode : string)
| SetDepartmentRecipientPolicy (actor department : N) (restriction_enabled : bool)
    (domains : list string)
| RotateMailSecrets
| SubmitReport (installation delivery_request_id recipient_personnel_id : N) (pdf : PdfInput).

Section requests.
Context `{MailEnvironment, MailSettings, DeliverySettings, Aesgcm, SecretSettings, PdfLibrary} {HL : AesgcmLaws}.

Definition unit_of {A} (m : M Db A) : M Db unit := let! _ := m in ret tt.

(** What the program does for a request; [others] is what other sessions do meanwhile. *)
Definition serve_mail (others : nat → M Db unit) (r : MailRequest) : M Db unit :=
  match r with
  | ConfigureHttpsProxy a u => configure_outbound_mail_https_proxy a u
  | VerifySystemMail a => unit_of (verify_system_mail_configuration a)
  | ConfigureBrevo a n e => configure_brevo a n e
  | ReplaceBrevoApiKey a k => replace_brevo_api_key a k
  | ClearBrevoApiKey a => clear_brevo_api_key a
  | ConfigureSmtp a h p t n e => configure_smtp a h p t n e
  | ReplaceSmtpCredentials a u p => replace_smtp_credentials a u p
  | ClearSmtpCredentials a => clear_smtp_credentials a
  | SetDeliveryMode a m p => set_delivery_mode a m p
  | GetSystemMailConfiguration => unit_of get_system_mail_configuration
  | ConfigureDepartmentSmtp a d h p t n e => configure_department_smtp a d h p t n e
  | ReplaceDepartmentSmtpCredentials a d u p => replace_department_smtp_credentials a d u p
  | ClearDepartmentSmtpCredentials a d => clear_department_smtp_credentials a d
  | VerifyDepartmentSmtp a d => unit_of (verify_department_smtp_configuration a d)
  | SetDepartmentDeliveryMode a d m => set_department_delivery_mode a d m
  | SetDepartmentRecipientPolicy a d r l => unit_of (set_department_recipient_policy a d r l)
  | RotateMailSecrets => unit_of rotate_outbound_mail_secrets
  | SubmitReport i q p pdf => unit_of (submit_tablet_report_delivery others i q p pdf)
  end.

(** A step of the system: a request, or a step of another part of the program, which
    leaves the settings alone. *)
Inductive mail_step (s : Db) : Db → Prop :=
| mail_request others r : (∀ n, preserves evolves_mail (others n)) →
    mail_step s (serve_mail others r s).2
| mail_outside s' : mail_tables s' = mail_tables s → mail_step s s'.

(** ** The settings *)

Lemma preserves_meanwhile (R : relation Db) `{!PreOrder R} m :
  preserves R m → preserves R (meanwhile m).
Proof. intros Hm s. exact (Hm s). Qed.

Lemma preserves_unit_of (R : relation Db) `{!PreOrder R} {A} (m : M Db A) :
  preserves R m → preserves R (unit_of m).
Proof. intros Hm. unfold unit_of. preserve. Qed.

Lemma mail_get_system : preserves evolves_mail get_system_mail_configuration.
Proof.
  intros s I. unfold get_system_mail_configuration.
  assert (W : wlp _configuration s (λ _ s', mail_inv s')) by (apply wlp_configuration; auto).
  unfold wlp in W. unfold bind. destruct (_configuration s) as [[[k c]|e] s1] eqn:E.
  - exact W.
  - unfold _configuration, bind, gets in E. destruct (find_system_mail s) as [[k c]|]; discriminate E.
Qed.

Lemma mail_rotation : preserves evolves_mail rotate_outbound_mail_secrets.
Proof.
  intros s I. unfold rotate_outbound_mail_secrets.
  destruct (configured_application_secret_cipher s) as [[c|e] s1] eqn:Ec.
  2:{ rewrite (bind_exc _ _ _ _ _ Ec). pose proof (readonly_configured s) as Hr.
      rewrite Ec in Hr. cbn in Hr. subst s1. exact I. }
  destruct (configured_valid _ _ _ Ec) as (-> & _).
  rewrite (bind_run _ _ _ _ _ Ec). unfold bind, gets.
  destruct (live_references s I) as [Hl Hv].
  pose proof (rotate_fold c _ (mkRotationResult (ci_active_version c) 0 0 0) s I Hl Hv Ec) as W.
  destruct (fold_m _ _ _ s) as [[acc|e] s'] eqn:Ef; rewrite ?Ef; cbn; tauto.
Qed.

Lemma readonly_validate_activation c : readonly (validate_activation c).
Proof.
  assert (Hv : ∀ v, api_validator (mc_api_provider c) = Some v → v = _validate_brevo).
  { intros v. unfold api_validator. cbn [List.find API_PROVIDER_REGISTRY fst].
    destruct (BREVO =? mc_api_provider c)%string; [|discriminate]. intros [= <-]. reflexivity. }
  unfold validate_activation, validate_api_provider_configuration, validate_smtp_configuration.
  destruct (api_validator (mc_api_provider c)) as [v|]; [rewrite (Hv v eq_refl)|].
  - unfold _validate_brevo, bind, guard, raise, ret. intros s. cbn.
    repeat (case_match; simplify_eq; cbn); reflexivity.
  - unfold get_or_raise. preserve.
Qed.

(** ** A delivery: what it keeps, for any relation that its events and messages keep *)

Section delivery.
Context (R : relation Db) `{!PreOrder R}.
Context (Hemit : ∀ e, preserves R (emit e))
  (Hevent : ∀ a i d x t k m, preserves R (record_installation_event a i d x t k m)).

Lemma delivery_decrypt e c : preserves R (decrypt_application_secret e c).
Proof. apply preserves_readonly; [exact _|]. apply constant_readonly, constant_decrypt. Qed.

Lemma delivery_connection c : preserves R (_connection c).
Proof. apply preserves_readonly; [exact _|]. apply readonly_connection. Qed.

Lemma delivery_resolve d : preserves R (resolve_department_mail_provider d).
Proof.
  pose proof delivery_decrypt. unfold resolve_department_mail_provider, _resolve_system_provider.
  assert (Hr : ∀ m p, preserves R (resolve_effective_provider m p))
    by (intros m p; apply preserves_readonly; [exact _|]; apply readonly_resolve_effective).
  assert (Ha : ∀ c, preserves R (validate_activation c))
    by (intros c; apply preserves_readonly; [exact _|]; apply readonly_validate_activation).
  follow.
Qed.

Lemma delivery_recipient d p : preserves R (_resolve_recipient d p).
Proof. follow. Qed.

Lemma delivery_admission d p pdf f : preserves R (admit_outbound_report d p pdf f).
Proof.
  pose proof delivery_recipient.
  assert (Hc : ∀ l size raw chunks, preserves R (read_chunks l size raw chunks)).
  { intros l size raw chunks. revert size raw.
    induction chunks as [|c chunks IH]; intros size raw; cbn [read_chunks]; cbv zeta; follow. }
  unfold admit_outbound_report. follow.
Qed.

Lemma delivery_attempt p email pdf : preserves R (attempt p email pdf).
Proof.
  assert (Hs : ∀ m, preserves R (provider_send p m)).
  { intros m. pose proof delivery_connection. destruct p; cbn [provider_send]; follow. }
  assert (Hp : preserves R (sender_identity p)) by (destruct p; cbn [sender_identity]; follow).
  unfold attempt. apply preserves_try_except; [exact _| |].
  - unfold send_report. follow.
  - intros e k [= <-]. apply preserves_ret; exact _.
Qed.

Context (others : nat → M Db unit) (Hothers : ∀ n, preserves R (others n)).

Lemma delivery_prepare d p pdf f : preserves R (prepare_report others d p pdf f).
Proof.
  pose proof delivery_resolve. pose proof delivery_recipient. pose proof delivery_admission.
  assert (Ho : ∀ n, preserves R (meanwhile (others n))) by (intros n; exact (Hothers n)).
  unfold prepare_report. follow.
Qed.

Lemma delivery_deliver i p pdf f : preserves R (deliver_outbound_report others i p pdf f).
Proof.
  pose proof delivery_prepare. pose proof delivery_attempt.
  assert (Ho : ∀ n, preserves R (meanwhile (others n))) by (intros n; exact (Hothers n)).
  unfold deliver_outbound_report. preserve.
Qed.
End delivery.

Lemma mail_submit others i q p pdf : (∀ n, preserves evolves_mail (others n)) →
  preserves evolves_mail (submit_tablet_report_delivery others i q p pdf).
Proof.
  intros Ho.
  assert (Hm : ∀ n, preserves evolves_mail (meanwhile (others n))) by (intros n; exact (Ho n)).
  assert (Hc : ∀ q, preserves evolves_mail (create_request q))
    by (intros r; apply evolves_mail_keeps; unfold create_request; preserve).
  assert (Hs : ∀ k f, preserves evolves_mail (save db_delivery_requests k f))
    by (intros k f; apply evolves_mail_keeps; preserve).
  assert (Hd : ∀ pdf f, preserves evolves_mail
    (deliver_outbound_report (λ n, others (n + 2)%nat) i p pdf f)).
  { intros pdf' f. apply delivery_deliver; [exact _|..]; intros; auto.
    all: apply evolves_mail_keeps; frame. }
  unfold submit_tablet_report_delivery, _claim_or_replay. preserve.
Qed.

Lemma mail_serve others r : (∀ n, preserves evolves_mail (others n)) →
  preserves evolves_mail (serve_mail others r).
Proof.
  intros Ho. destruct r; cbn [serve_mail]; try apply preserves_unit_of; try exact _.
  - apply mail_configure_proxy.
  - apply mail_verify_system.
  - apply mail_configure_brevo.
  - apply mail_replace_brevo.
  - apply mail_clear_brevo.
  - apply mail_configure_smtp.
  - apply mail_replace_smtp.
  - apply mail_clear_smtp.
  - apply mail_set_mode.
  - apply mail_get_system.
  - apply mail_configure_department.
  - apply mail_replace_department.
  - apply mail_clear_department.
  - apply mail_verify_department.
  - apply mail_department_mode.
  - apply evolves_mail_keeps. unfold set_department_recipient_policy. frame.
  - apply mail_rotation.
  - apply mail_submit, Ho.
Qed.

Lemma mail_reachable s s' : rtc mail_step s s' → mail_inv s → mail_inv s'.
Proof.
  induction 1 as [s|s s1 s2 Hs _ IH]; [auto|]. intros I. apply IH.
  destruct Hs as [others r Ho|s1 E]; [exact (mail_serve _ r Ho s I)|exact (mail_inv_same _ _ E I)].
Qed.
End requests.
