(* ===== verification/ReportPortalInv.v ===== *)
(** The grants keep the invariant of reports: requests, the one mail, redemption, the portal
    and its downloads; and the reports as a whole, with their requests. *)
From S2P Require Import Prelude Text Encoding Models Registry Store Authorization Fingerprint.
From S2P Require Import ApplicationSecrets Tablets Manifests MailProviders MailServices.
From S2P Require Import ReportDelivery JsonText ReportDocuments ReportTransfer ReportPortal.
From S2P Require Import Totality.
From S2P Require Import MailInv MailSystem ReportInv.

(** ** Requests *)

Inductive ReportRequest :=
| Submit (installation : N) (envelope : json)
| SubmissionStatus (installation submission_id : N)
| LoadSubmission (installation submission_id : N)
| RenderSubmission (installation submission_id : N)
| ReadJpeg (installation submission_id attachment_id : N)
| RequestTransfer (installation : N) (data : json)
| RevokeTransfer (installation transfer_id : N)
| Redeem (acquired : bool) (token : string)
| RevokeToken (token : string)
| ShowPortal (session : Session) (report_id : option N)
| LoadReport (session : Session) (report_id : N)
| RevokePortal (session : Session)
| Logout (session : Session)
| DownloadPdf (render : json → list (string * json) → Z → string) (session : Session)
    (prefetch : bool) (report_id : N)
| DownloadJpeg (session : Session) (prefetch preview : bool) (report_id attachment_id : N)
| Cleanup (now : option Z).

Section requests.
Context `{Hash, Floats, Aesgcm, ReportCrypto, ReportSettings, ReportStorage, PortalSettings}.
Context `{Secrets, MailEnvironment, MailSettings, DeliverySettings, SecretSettings}.

(** What the program does for a request; [others] is what other sessions do meanwhile. *)
Definition serve_report (others : nat → M Db unit) (r : ReportRequest) : M Db unit :=
  match r with
  | Submit i e => unit_of (submit (others 0%nat) i e)
  | SubmissionStatus i q => unit_of (status i q)
  | LoadSubmission i q => unit_of (load_submission i q)
  | RenderSubmission i q => unit_of (render_submission_pdf i q)
  | ReadJpeg i q a => unit_of (read_submission_jpeg i q a)
  | RequestTransfer i d => unit_of (request_transfer others i d)
  | RevokeTransfer i t => unit_of (revoke_tablet i t)
  | Redeem a t => unit_of (redeem (others 0%nat) a t)
  | RevokeToken t => revoke_token (others 0%nat) t
  | ShowPortal ss q => unit_of (portal_context ss q)
  | LoadReport ss q => unit_of (load_portal_submission ss q)
  | RevokePortal ss => revoke_portal ss
  | Logout ss => unit_of (logout ss)
  | DownloadPdf f ss p q => pdf f others ss p q
  | DownloadJpeg ss p v q a => jpeg others ss p v q a
  | Cleanup now => unit_of (cleanup others now)
  end.

Context {HU : SpoolLaws}.

(** A step of the system: a request, or a step of another part of the program, which leaves
    reports alone while time passes. *)
Inductive report_step (s : Db) : Db → Prop :=
| report_request others r : (∀ n, preserves evolves_reports (others n)) →
    report_step s (serve_report others r s).2
| report_outside s' : db_clock s ≤ db_clock s' →
    report_tables (s <| db_clock := db_clock s' |>) = report_tables s' → report_step s s'.
End requests.

(** ** Changes of grants *)

Section tables.
Context `{Hash, SpoolLaws}.
Implicit Types (T : gmap N ReportTransfer) (P : gmap N ReportPortalSession).

Lemma evolves_transfers s s' :
  db_clock s' = db_clock s → db_report_submissions s' = db_report_submissions s →
  db_spool s' = db_spool s → db_receipts s' = db_receipts s →
  (TransferInv (db_report_transfers s) → PortalInv (db_report_transfers s) (db_portal_sessions s) →
   TransferInv (db_report_transfers s') ∧ PortalInv (db_report_transfers s') (db_portal_sessions s')
   ∧ rows_kept (λ _, transfer_kept) (db_report_transfers s) (db_report_transfers s')
   ∧ rows_kept (λ _, portal_kept) (db_portal_sessions s) (db_portal_sessions s')) →
  evolves_reports s s'.
Proof.
  intros E1 E2 E3 E4 HT [I0 IS IR IT IP]. destruct (HT IT IP) as (IT' & IP' & KT & KP).
  pose proof (report_history_refl s) as [C S _ _].
  split; split; rewrite ?E1, ?E2, ?E3, ?E4; assumption.
Qed.

Lemma transfer_kept_refl t : transfer_kept t t.
Proof. split_and!; auto. Qed.

Lemma portal_kept_refl p : portal_kept p p.
Proof. split_and!; auto. Qed.

(** The same grants, each one kept. *)
Definition same_grants T T' : Prop :=
  ∀ k, match T !! k, T' !! k with
       | Some t, Some t' => transfer_kept t t'
       | None, None => True
       | _, _ => False
       end.

Lemma grants_kept T T' P : same_grants T T' → TransferInv T → PortalInv T P →
  TransferInv T' ∧ PortalInv T' P ∧ rows_kept (λ _, transfer_kept) T T'
  ∧ rows_kept (λ _, portal_kept) P P.
Proof.
  intros HT [Ht Hr Hc Hh] [Pr Po].
  assert (HT' : ∀ k t', T' !! k = Some t' → ∃ t, T !! k = Some t ∧ transfer_kept t t').
  { intros k t' Hk. specialize (HT k). rewrite Hk in HT. destruct (T !! k) as [t|]; [eauto|tauto]. }
  assert (Ids : ∀ t t', transfer_kept t t' → rt_token_digest t' = rt_token_digest t
     ∧ rt_installation t' = rt_installation t ∧ rt_recipient t' = rt_recipient t
     ∧ rt_transfer_request_id t' = rt_transfer_request_id t
     ∧ rt_token_expires_at t' = rt_token_expires_at t ∧ rt_issued_at t' = rt_issued_at t).
  { intros t t' (E & _). injection E. intros. split_and!; assumption. }
  assert (HTk : rows_kept (λ _, transfer_kept) T T').
  { intros k t Hk. specialize (HT k). rewrite Hk in HT. destruct (T' !! k) as [t'|]; [eauto|tauto]. }
  split_and!; [split| |exact HTk|apply rows_kept_refl; intros; apply portal_kept_refl].
  - intros k k' t1 t2 Y1 Y2 E. apply HT' in Y1 as (u1 & Y1 & K1), Y2 as (u2 & Y2 & K2).
    destruct (Ids _ _ K1) as (A1 & _), (Ids _ _ K2) as (A2 & _). eapply Ht; eauto. congruence.
  - intros k k' t1 t2 Y1 Y2 E E'. apply HT' in Y1 as (u1 & Y1 & K1), Y2 as (u2 & Y2 & K2).
    destruct (Ids _ _ K1) as (_ & A1 & _ & B1 & _), (Ids _ _ K2) as (_ & A2 & _ & B2 & _).
    eapply Hr; eauto; congruence.
  - intros k k' t1 t2 Y1 Y2 E E' N1 N2. apply HT' in Y1 as (u1 & Y1 & K1), Y2 as (u2 & Y2 & K2).
    destruct (Ids _ _ K1) as (_ & A1 & B1 & _), (Ids _ _ K2) as (_ & A2 & B2 & _).
    destruct K1 as (_ & _ & R1), K2 as (_ & _ & R2). eapply Hc; eauto; try congruence.
    + destruct (rt_revoked_at u1); [rewrite R1 in N1; congruence|reflexivity].
    + destruct (rt_revoked_at u2); [rewrite R2 in N2; congruence|reflexivity].
  - intros k t' Hk. apply HT' in Hk as (t & Hk & K). destruct (Ids _ _ K) as (_ & _ & _ & _ & -> & ->).
    eauto.
  - split; [|exact Po]. intros k p Hk. destruct (Pr k p Hk) as (t & Ht' & Hn).
    destruct (HTk _ _ Ht') as (t' & Ht'' & _ & Dc & _). exists t'. split; [exact Ht''|].
    rewrite (Dc Hn). exact Hn.
Qed.

Lemma same_grants_insert T k t t' : T !! k = Some t → transfer_kept t t' → same_grants T (<[k := t']> T).
Proof.
  intros Hk Hkept j. destruct (decide (j = k)) as [->|Hne].
  - rewrite lookup_insert_eq, Hk. exact Hkept.
  - rewrite lookup_insert_ne by congruence. destruct (T !! j); [apply transfer_kept_refl|exact I].
Qed.

Lemma same_grants_fmap T f : (∀ t, transfer_kept t (f t)) → same_grants T (f <$> T).
Proof. intros Hf k. rewrite lookup_fmap. destruct (T !! k); [apply Hf|exact I]. Qed.

(** A change of one row that keeps it. *)
Lemma evolves_grant s k t f : db_report_transfers s !! k = Some t → transfer_kept t (f t) →
  evolves_reports s (s <| db_report_transfers ::= <[k := f t]> |>).
Proof.
  intros Hk Hf. apply evolves_transfers; [reflexivity..|].
  intros IT IP. apply grants_kept; [|exact IT|exact IP]. eapply same_grants_insert; eassumption.
Qed.

(** A new grant. *)
Lemma evolves_new_grant s pk t :
  db_report_transfers s !! pk = None →
  (∀ k u, db_report_transfers s !! k = Some u → rt_token_digest u ≠ rt_token_digest t) →
  (∀ k u, db_report_transfers s !! k = Some u → rt_installation u = rt_installation t →
     rt_transfer_request_id u ≠ rt_transfer_request_id t) →
  (∀ k u, db_report_transfers s !! k = Some u → rt_installation u = rt_installation t →
     rt_recipient u = rt_recipient t → rt_revoked_at u ≠ None) →
  rt_token_expires_at t = rt_issued_at t + MICROSECONDS_PER_HOUR →
  evolves_reports s (s <| db_report_transfers ::= <[pk := t]> |>).
Proof.
  intros Hpk Ht Hr Hc Hh. apply evolves_transfers; [reflexivity..|].
  intros [It Ir Ic Ih] [Pr Po]. cbn. split_and!; [split| | |].
  1-3: intros k k' t1 t2 [[<- <-]|[N1 Y1]]%lookup_insert_Some [[<- <-]|[N2 Y2]]%lookup_insert_Some;
    intros; try reflexivity; eauto.
  1-6: exfalso; match goal with
    | Hk : _ !! _ = Some ?u |- _ =>
        first [ eapply Ht; [exact Hk|congruence] | eapply Hr; [exact Hk|congruence..]
              | eapply Hc; [exact Hk|congruence..] ] end.
  - intros k u [[<- <-]|[_ Hk]]%lookup_insert_Some; eauto.
  - split; [|exact Po]. intros k p Hk. destruct (Pr k p Hk) as (u & Hu & Hn). exists u.
    split; [|exact Hn]. rewrite lookup_insert_ne; [exact Hu|]. congruence.
  - intros k u Hk. exists u. rewrite lookup_insert_ne by congruence.
    split; [exact Hk|apply transfer_kept_refl].
  - apply rows_kept_refl. intros; apply portal_kept_refl.
Qed.
End tables.

(** ** The services of grants *)

Section services.
Context `{Hash, Floats, Aesgcm, ReportCrypto, ReportSettings, ReportStorage, PortalSettings}.
Context `{Secrets, MailEnvironment, MailSettings, DeliverySettings, SecretSettings} {HU : SpoolLaws}.

Lemma report_emit e : keeps report_tables (emit e).
Proof. intros s. reflexivity. Qed.

(** Sending the link only emits the message. *)
Lemma send_link_keeps {T} (f : Db → T) pk token : (∀ e, keeps f (emit e)) → keeps f (send_link pk token).
Proof.
  intros He.
  assert (Hr : ∀ d, keeps f (resolve_department_mail_provider d))
    by (intros d; apply delivery_resolve; exact _).
  assert (Hp : ∀ p m, keeps f (provider_send p m)).
  { intros p m. pose proof (delivery_connection (same f)) as Hc. destruct p; cbn [provider_send]; follow. }
  assert (Hi : ∀ p, keeps f (sender_identity p))
    by (intros p; destruct p; cbn [sender_identity]; follow).
  assert (Hm : ∀ p m, keeps f (send_message p m)).
  { intros p m. unfold send_message. apply preserves_try_except; [exact _|preserve|].
    intros e k [= <-]. preserve. }
  unfold send_link. apply preserves_try_except; [exact _| |intros e k [= <-]; preserve].
  unfold recipient_to_mail_address. preserve.
  all: follow.
Qed.

Lemma report_send_link pk token : keeps report_tables (send_link pk token).
Proof. apply send_link_keeps, report_emit. Qed.

(** A step that is passed in a transaction. *)
Ltac skip := apply wlp_skip; [preserve|].

Lemma report_collect iid d found r : readonly (collect_report iid d found r).
Proof. unfold collect_report, transfer_error. preserve. Qed.

(** Once the current grants of an installation to a recipient are revoked, none to the
    recipient is open; and the request has no grant yet. *)
Lemma replaced_grants iid request_id personnel now (m : gmap N ReportTransfer) :
  rows m (λ _ t,
    N.eqb (rt_installation t) iid && N.eqb (rt_transfer_request_id t) request_id) = [] →
  ∀ k u', ((λ t, if current_transfer iid personnel t then t <| rt_revoked_at := Some now |> else t)
      <$> m) !! k = Some u' →
    (rt_installation u' = iid → rt_transfer_request_id u' ≠ request_id)
    ∧ (rt_installation u' = iid → rt_recipient u' = personnel → rt_revoked_at u' ≠ None).
Proof.
  intros Ep k u' Hk. rewrite lookup_fmap in Hk.
  destruct (m !! k) as [u0|] eqn:H0'; [|discriminate Hk]. injection Hk as <-. split.
  - intros Ei Eq. assert (Hin : (k, u0) ∈ rows m (λ _ t,
      N.eqb (rt_installation t) iid && N.eqb (rt_transfer_request_id t) request_id)).
    { apply rows_elem. split; [exact H0'|]. apply andb_true_intro. rewrite !N.eqb_eq.
      destruct (current_transfer _ _ u0); auto. }
    rewrite Ep in Hin. inversion Hin.
  - unfold current_transfer. intros Ei Eq. destruct (rt_revoked_at u0) eqn:Er; cbn.
    + rewrite andb_false_r, Er. discriminate.
    + cbn [opt_true negb] in Ei, Eq. rewrite ?andb_true_r in *.
      destruct (_ && _) eqn:Ec; cbn in *; [discriminate|].
      rewrite Ei, Eq, !N.eqb_refl in Ec. discriminate Ec.
Qed.

(** The new grant of a claim takes the place of the current one. *)
Lemma report_claim iid request_id person fingerprint :
  preserves evolves_reports (atomic (claim_transfer iid request_id person fingerprint)).
Proof.
  pose proof report_collect as Hcol.
  apply preserves_atomic_wlp; [exact _|]. intros s. unfold claim_transfer.
  skip. intros i0 _. skip. intros [[i t] v] _. skip. intros prior Ep.
  destruct prior as [[pk row]|].
  { destruct (negb _); [exact Logic.I|]. skip. intros rc _. apply wlp_ret. reflexivity. }
  unfold first_where, gets in Ep. injection Ep as Ep. apply order_by_head_None in Ep.
  skip. intros [personnel email] _. skip. intros now [= <-]. skip. intros cands _.
  skip. intros found _. destruct (Nat.eqb _ _); [exact Logic.I|]. apply wlp_bind, wlp_ret.
  skip. intros u _. skip. intros limited _. destruct limited; [exact Logic.I|].
  apply wlp_bind, wlp_ret. destruct (validate_public_origin _); [|exact Logic.I].
  apply wlp_bind, wlp_ret. skip. intros token _. skip. intros prev _.
  apply wlp_bind. unfold wlp at 1, update_where at 1. cbv beta iota zeta.
  set (s1 := s <| db_report_transfers ::= _ |>).
  assert (E1 : evolves_reports s s1).
  { apply evolves_transfers; [reflexivity..|]. intros IT IP. apply grants_kept; [|exact IT|exact IP].
    apply same_grants_fmap. intros u'. unfold current_transfer.
    destruct (rt_revoked_at u') eqn:Er; cbn; rewrite ?andb_false_r; [apply transfer_kept_refl|].
    destruct (_ && _); [|apply transfer_kept_refl]. split_and!; [reflexivity|auto|].
    rewrite Er. congruence. }
  apply wlp_bind. eapply (wlp_frame report_tables); [preserve; intros s2; reflexivity|].
  intros _ s2 E2. apply wlp_bind. unfold create_transfer. apply wlp_skip; [preserve|].
  intros taken [= Etaken]. apply wlp_bind, wlp_guard. intros Hn. apply negb_true_iff in Hn. subst taken.
  apply wlp_create. intros pk Hpk.
  apply wlp_bind. unfold wlp at 1, record_installation_event at 1, modify at 1. apply wlp_ret.
  etransitivity; [exact E1|]. etransitivity; [apply reports_same; exact E2|].
  eapply (transitivity (y := s2 <| db_report_transfers ::= <[pk := _]> |>));
    [|apply reports_same; reflexivity].
  assert (ET : db_report_transfers s2 = db_report_transfers s1) by (injection E2; auto).
  assert (Hold : ∀ k u', db_report_transfers s2 !! k = Some u' →
    (rt_installation u' = iid → rt_transfer_request_id u' ≠ request_id)
    ∧ (rt_installation u' = iid → rt_recipient u' = personnel → rt_revoked_at u' ≠ None)).
  { intros k u' Hk. rewrite ET in Hk. exact (replaced_grants _ _ _ _ _ Ep k u' Hk). }
  apply evolves_new_grant.
  - exact Hpk.
  - intros k u' Hk.
    pose proof (proj1 (exists_row_false _ _) Hn k u' Hk) as Hne. cbn in Hne |- *.
    apply String.eqb_neq in Hne. exact Hne.
  - intros k u' Hk. apply (Hold k u' Hk).
  - intros k u' Hk. apply (Hold k u' Hk).
  - reflexivity.
Qed.

Lemma wlp_meanwhile (others : M Db unit) {B} (k : unit → M Db B) s Q :
  wlp (k tt) (others s).2 Q → wlp (bind (meanwhile others) k) s Q.
Proof. auto. Qed.

Lemma report_finish iid pk outcome : preserves evolves_reports (finish_transfer iid pk outcome).
Proof.
  unfold finish_transfer. apply preserves_atomic; [exact _|].
  apply preserves_bind; [exact _| |intros _].
  - intros s. unfold update_where_pk, modify. cbn [snd]. destruct (db_report_transfers s !! pk) as [t|] eqn:Ht.
    + etransitivity; [apply (evolves_grant s pk t (λ t, t <| rt_mail_state := outcome.1 |>
        <| rt_mail_code := outcome.2 |>) Ht); split_and!; auto|].
      apply reports_same. unfold report_tables. cbn. do 4 f_equal.
      apply map_eq. intros k. destruct (decide (k = pk)) as [->|Hne].
      * rewrite lookup_insert_eq, lookup_alter_eq, Ht. reflexivity.
      * rewrite lookup_insert_ne, lookup_alter_ne by congruence. reflexivity.
    + apply reports_same. unfold report_tables. cbn. do 4 f_equal.
      apply map_eq. intros k. destruct (decide (k = pk)) as [->|Hne].
      * rewrite lookup_alter_eq, Ht. reflexivity.
      * rewrite lookup_alter_ne by congruence. reflexivity.
  - apply reports_keep. preserve. intros s. reflexivity.
Qed.

Lemma report_transfer others iid data : (∀ n, preserves evolves_reports (others n)) →
  preserves evolves_reports (request_transfer others iid data).
Proof.
  intros Ho. assert (Hm : ∀ n, preserves evolves_reports (meanwhile (others n)))
    by (intros n; exact (Ho n)).
  pose proof report_claim. pose proof report_finish.
  assert (Hs : ∀ pk token, preserves evolves_reports (send_link pk token))
    by (intros; apply reports_keep, report_send_link).
  unfold request_transfer. preserve.
Qed.

(** A revocation. *)
Lemma evolves_revoke s k t now : db_report_transfers s !! k = Some t → rt_revoked_at t = None →
  evolves_reports s (s <| db_report_transfers ::= <[k := t <| rt_revoked_at := Some now |>]> |>).
Proof.
  intros Hk Hr. apply (evolves_grant s k t (λ t, t <| rt_revoked_at := Some now |>) Hk).
  split_and!; [reflexivity|auto|congruence].
Qed.

Lemma wlp_revocation {B} (k : unit → M Db B) pk now actor department source t s Q :
  db_report_transfers s !! pk = Some t → rt_revoked_at t = None →
  (∀ s', evolves_reports s s' → wlp (k tt) s' Q) →
  wlp (bind (save db_report_transfers pk (λ t, t <| rt_revoked_at := Some now |>) ;;;
             record_revocation actor department pk source now) k) s Q.
Proof.
  intros Ht Hr HQ. apply wlp_bind, wlp_bind, wlp_save. intros t' Ht'.
  assert (t' = t) as -> by congruence. apply HQ. etransitivity; [apply (evolves_revoke _ _ _ now Ht Hr)|].
  apply reports_same. reflexivity.
Qed.

Lemma report_revoke_tablet iid transfer : preserves evolves_reports (revoke_tablet iid transfer).
Proof.
  unfold revoke_tablet. apply preserves_bind; [exact _|preserve|intros _].
  apply preserves_atomic_wlp; [exact _|]. intros s. skip. intros i0 _. skip. intros [[i t] v] _.
  skip. intros row Er. unfold first_where, gets in Er. injection Er as Er.
  destruct row as [[pk row]|]; [|exact Logic.I]. skip. intros now [= <-].
  apply order_by_head_Some in Er as [Hin _]. apply rows_elem in Hin as [Hk _].
  destruct (rt_revoked_at row) eqn:Ev; cbn [opt_true negb when].
  - apply wlp_bind, wlp_ret, wlp_ret. reflexivity.
  - eapply wlp_revocation; [exact Hk|exact Ev|]. intros s' E. apply wlp_ret. exact E.
Qed.

(** *** Tokens *)

(** The grant that a token opens. *)
Lemma token_transfer_val token s pk row s' : token_transfer token s = (Val (pk, row), s') →
  s' = s ∧ db_report_transfers s !! pk = Some row ∧ rt_token_digest row = digest token
  ∧ rt_revoked_at row = None ∧ rt_mail_state row = MAIL_SENT ∧ db_clock s < rt_token_expires_at row
  ∧ (rt_consumed_at row = None → ∃ x, check_transfer row s = (Val x, s)).
Proof.
  unfold token_transfer. destruct (negb _); [discriminate|]. unfold find_token, first_where.
  change (bind (gets ?f) ?k s) with (k (f s) s). cbv beta.
  change (bind timezone_now ?k s) with (k (db_clock s) s). cbv beta.
  destruct (head _) as [[pk' row']|] eqn:E; [|discriminate].
  apply order_by_head_Some in E as [Hin _]. apply rows_elem in Hin as [Hk Ht%String.eqb_eq].
  destruct (_ || _ || _) eqn:Eo; [discriminate|].
  apply orb_false_elim in Eo as [[Ee Er]%orb_false_elim Em]. intros X.
  apply negb_false_iff, bool_decide_eq_true in Em. apply Z.leb_gt in Ee.
  assert (Er' : rt_revoked_at row' = None) by (destruct (rt_revoked_at row'); [discriminate Er|reflexivity]).
  destruct (rt_consumed_at row') eqn:Ec; cbn [opt_true] in X.
  - injection X as <- <- <-. split_and!; auto. congruence.
  - unfold bind in X. pose proof (readonly_check_transfer row' s) as R.
    destruct (check_transfer row' s) as [[x|e] s1] eqn:Ex; [|discriminate X]. cbn in R. subst s1.
    injection X as <- <- <-. split_and!; auto. intros _. eauto.
Qed.

Lemma evolves_redeem s pk row kp p now :
  db_report_transfers s !! pk = Some row → rt_consumed_at row = None → po_transfer p = pk →
  db_portal_sessions s !! kp = None →
  evolves_reports s (s <| db_portal_sessions ::= <[kp := p]> |>
                       <| db_report_transfers ::= <[pk := row <| rt_consumed_at := Some now |>]> |>).
Proof.
  intros Hpk Hc Hp Hkp. apply evolves_transfers; [reflexivity..|]. intros IT IP. cbn.
  assert (K : transfer_kept row (row <| rt_consumed_at := Some now |>))
    by (split_and!; [reflexivity|congruence|auto]).
  destruct (grants_kept _ _ (db_portal_sessions s)
    (same_grants_insert _ pk row _ Hpk K) IT IP) as (IT' & [Pr Po] & KT & _).
  split_and!; [exact IT'|split|exact KT|].
  - intros k q [[<- <-]|[_ Hk]]%lookup_insert_Some; [|eauto].
    rewrite Hp, lookup_insert_eq. eexists. split; [reflexivity|discriminate].
  - assert (Hno : ∀ k q, db_portal_sessions s !! k = Some q → po_transfer q ≠ pk).
    { intros k q Hk Eq. destruct (pi_redeemed _ _ IP k q Hk) as (u & Hu & Hn). rewrite Eq in Hu. congruence. }
    intros k k' q q' [[<- <-]|[N1 Y1]]%lookup_insert_Some [[<- <-]|[N2 Y2]]%lookup_insert_Some E;
      [reflexivity| | |eauto].
    + destruct (Hno _ _ Y2). congruence.
    + destruct (Hno _ _ Y1). congruence.
  - intros k q Hk. exists q. rewrite lookup_insert_ne by congruence.
    split; [exact Hk|apply portal_kept_refl].
Qed.

Lemma readonly_any_available (l : list (N * ReportSubmission)) recipient iid department b :
  readonly (fold_m (λ available r,
    let! ok := report_available r.1 r.2 recipient iid department in ret (available || ok)) b l).
Proof. preserve. Qed.

(** What the transaction of a redemption leaves. *)
Lemma wlp_redeem token s : wlp (redeem_transfer token) s (λ session s',
  ∃ pk row kp, db_report_transfers s !! pk = Some row ∧ rt_token_digest row = digest token
    ∧ rt_consumed_at row = None ∧ rt_revoked_at row = None ∧ db_portal_sessions s !! kp = None
    ∧ (∃ x, check_transfer row s = (Val x, s))
    ∧ session = mkSession (Some (new_session_key s)) (Some (str_uuid kp))
    ∧ report_tables s' = report_tables (s
        <| db_portal_sessions ::= <[kp := mkReportPortalSession pk (digest (new_session_key s)) (db_clock s) None]> |>
        <| db_report_transfers ::= <[pk := row <| rt_consumed_at := Some (db_clock s) |>]> |>)).
Proof.
  pose proof readonly_any_available. unfold redeem_transfer. skip. intros [pk row] Et.
  apply token_transfer_val in Et as (_ & Hk & Hd & Hr & _ & _ & _).
  destruct (rt_consumed_at row) eqn:Ec; [exact Logic.I|]. apply wlp_bind, wlp_ret.
  skip. intros [i t] Ex. skip. intros reports _. skip. intros available _.
  destruct available; [|exact Logic.I]. apply wlp_bind, wlp_ret.
  skip. intros key [= <-]. skip. intros now [= <-].
  apply wlp_bind, wlp_create. intros kp Hkp. apply wlp_bind, wlp_save. intros row' Hrow'.
  cbn in Hrow'. assert (row' = row) as -> by congruence.
  apply wlp_bind. unfold wlp at 1, record_installation_event, modify. apply wlp_ret.
  exists pk, row, kp. split_and!; eauto.
Qed.

Lemma report_redeem others acquired token : preserves evolves_reports others →
  preserves evolves_reports (redeem others acquired token).
Proof.
  intros Ho. unfold redeem. apply preserves_try_except; [exact _| |].
  - unfold _redeem. apply preserves_bind; [exact _|preserve|]. intros [pk row].
    apply preserves_bind; [exact _|exact Ho|intros _]. apply preserves_atomic_wlp; [exact _|].
    intros s. skip. intros i _. eapply wlp_mono; [apply wlp_redeem|].
    intros session s' (pk' & row' & kp & Hk & _ & Hc & _ & Hkp & _ & _ & Es).
    eapply transitivity; [apply (evolves_redeem s pk' row' kp
      (mkReportPortalSession pk' (digest (new_session_key s)) (db_clock s) None) (db_clock s) Hk Hc);
      [reflexivity|exact Hkp]|].
    apply reports_same. exact Es.
  - intros e k. destruct (exn_kind e); try discriminate. intros [= <-].
    apply reports_keep. unfold audit_failed_login, find_token. preserve; intros s; reflexivity.
Qed.

Lemma report_revoke_token others token : preserves evolves_reports others →
  preserves evolves_reports (revoke_token others token).
Proof.
  intros Ho. unfold revoke_token. apply preserves_bind; [exact _|preserve|]. intros [pk row].
  apply preserves_bind; [exact _|exact Ho|intros _]. apply preserves_atomic_wlp; [exact _|].
  intros s. skip. intros i _. skip. intros [pk' row'] Et.
  apply token_transfer_val in Et as (_ & Hk & _ & Hr & _).
  destruct (negb _); [exact Logic.I|]. skip. intros now [= <-].
  apply wlp_bind, wlp_save. intros t Ht. assert (t = row') as -> by (cbn in Ht; congruence).
  unfold wlp, record_revocation, record_installation_event, modify.
  etransitivity; [apply (evolves_revoke _ _ _ (db_clock s) Hk Hr)|]. apply reports_same. reflexivity.
Qed.

(** *** The portal *)

Lemma readonly_collect_available single p i d found r :
  readonly (collect_available single p i d found r).
Proof. unfold collect_available. preserve. Qed.

Lemma evolves_seen s k p p' : db_portal_sessions s !! k = Some p → portal_kept p p' →
  evolves_reports s (s <| db_portal_sessions ::= <[k := p']> |>).
Proof.
  intros Hk Hp. apply evolves_transfers; [reflexivity..|]. intros IT [Pr Po]. cbn.
  split_and!; [exact IT|split| |].
  - intros j q [[<- <-]|[_ Hj]]%lookup_insert_Some; [|eauto].
    destruct Hp as (-> & _). eauto.
  - destruct Hp as (Ep & _).
    intros j j' q q' [[<- <-]|[N1 Y1]]%lookup_insert_Some [[<- <-]|[N2 Y2]]%lookup_insert_Some E;
      [reflexivity| | |eauto].
    + eapply Po; [exact Hk|exact Y2|congruence].
    + eapply Po; [exact Y1|exact Hk|congruence].
  - apply rows_kept_refl. intros; apply transfer_kept_refl.
  - intros j q Hj. destruct (decide (j = k)) as [->|Hne].
    + exists p'. rewrite lookup_insert_eq. split; [reflexivity|]. congruence.
    + exists q. rewrite lookup_insert_ne by congruence. split; [exact Hj|apply portal_kept_refl].
Qed.

(** Who gets through [portal_context], and to what. *)
Definition portal_open (session : Session) (s : Db) (pk : N) (t : ReportTransfer) : Prop :=
  ∃ k p session_key, session_portal session = Some k ∧ se_key session = Some session_key
    ∧ db_portal_sessions s !! k = Some p ∧ po_transfer p = pk ∧ db_report_transfers s !! pk = Some t
    ∧ po_logged_out_at p = None ∧ db_clock s < po_last_seen_at p + SESSION_IDLE
    ∧ po_session_digest p = digest session_key ∧ rt_consumed_at t ≠ None
    ∧ ∃ x, check_transfer t s = (Val x, s).

(** A report that the grant gives. *)
Definition report_open (s : Db) (t : ReportTransfer) (r : N * ReportSubmission) : Prop :=
  r.1 ∈ rt_submissions t ∧ db_report_submissions s !! r.1 = Some r.2
  ∧ rs_installation r.2 = rt_installation t ∧ rs_recipient r.2 = rt_recipient t ∧ ready r.2
  ∧ db_clock s < deadline (db_receipts s) r.1 r.2.

Lemma elem_granted s t r : r ∈ granted s t →
  r.1 ∈ rt_submissions t ∧ db_report_submissions s !! r.1 = Some r.2.
Proof.
  unfold granted. intros (k & Hk & E)%list_elem_of_omap.
  destruct (db_report_submissions s !! k) as [x|] eqn:Ex; [|discriminate E].
  injection E as <-. auto.
Qed.

Lemma check_report_val pk r recipient iid department s u s' :
  check_report pk r recipient iid department s = (Val u, s') →
  s' = s ∧ rs_installation r = iid ∧ rs_recipient r = recipient ∧ rs_department r = department
  ∧ ready r ∧ db_clock s < deadline (db_receipts s) pk r.
Proof.
  unfold check_report. destruct (_ || _) eqn:Eo; [discriminate|].
  repeat match type of Eo with _ || _ = false => apply orb_false_elim in Eo as [Eo ?Hc] end.
  apply negb_false_iff, N.eqb_eq in Eo. apply negb_false_iff, N.eqb_eq in Hc2.
  apply negb_false_iff, N.eqb_eq in Hc1. apply negb_false_iff, bool_decide_eq_true in Hc.
  unfold bind at 1. destruct (effective_expiry pk r s) as [[d|e] s1] eqn:E; [|discriminate].
  apply effective_expiry_deadline in E as [-> ->].
  change (bind timezone_now ?k s) with (k (db_clock s) s). cbv beta.
  destruct (Z.leb_spec (deadline (db_receipts s) pk r) (db_clock s)); [discriminate|].
  intros [= <- <-]. split_and!; auto.
Qed.

Lemma report_available_val pk r recipient iid department s s' :
  report_available pk r recipient iid department s = (Val true, s') →
  ∃ u, check_report pk r recipient iid department s = (Val u, s).
Proof.
  unfold report_available, try_except, bind.
  pose proof (readonly_check_report pk r recipient iid department s) as R.
  destruct (check_report _ _ _ _ _ s) as [[u|e] s1]; cbn in R; subst s1; [eauto|].
  destruct (is_transfer_error _); discriminate.
Qed.

(** Every report of the list passed the check. *)
Lemma collect_fold single s t department l : ∀ found v s',
  (∀ r, r ∈ l → r ∈ granted s t) → (∀ r, r ∈ found → report_open s t r) →
  fold_m (collect_available single (rt_recipient t) (rt_installation t) department) found l s = (Val v, s') →
  s' = s ∧ ∀ r, r ∈ v → report_open s t r ∧ (r ∈ found ∨ r ∈ l).
Proof.
  induction l as [|r l IH]; intros found v s' Hl Hf E.
  { injection E as <- <-. split; [reflexivity|]. auto. }
  cbn [fold_m] in E. apply skip_val in E as [(found' & Ec & E)|(e & _ & ? & _)];
    [|discriminate|apply readonly_collect_available].
  assert (Hfound : found' = found ∨ found' = found ++ [r] ∧ report_open s t r).
  { assert (Hopen : ∀ u, check_report r.1 r.2 (rt_recipient t) (rt_installation t) department s = (Val u, s) →
      report_open s t r).
    { intros u Eu. apply check_report_val in Eu as (_ & Hi & Hp & _ & Hr & Hd).
      destruct (elem_granted s t r (Hl r ltac:(left))) as [G1 G2]. split_and!; auto. }
    unfold collect_available in Ec. destruct single.
    - apply skip_val in Ec as [(u & Eu & Ec)|(e & _ & ? & _)]; [|discriminate|apply readonly_check_report].
      injection Ec as <-. eauto.
    - apply skip_val in Ec as [(ok & Eok & Ec)|(e & _ & ? & _)]; [|discriminate|apply readonly_available].
      injection Ec as <-. destruct ok; [|auto]. apply report_available_val in Eok as [u Eu]. eauto. }
  apply IH in E as [-> Hv]; [split; [reflexivity|]| |].
  - intros x Hx. destruct (Hv x Hx) as [Ho Hin]. split; [exact Ho|].
    destruct Hin as [Hin|Hin]; [|right; right; exact Hin].
    destruct Hfound as [->|[-> _]]; [auto|]. apply elem_of_app in Hin as [Hin|Hin]; [auto|].
    apply list_elem_of_singleton in Hin as ->. right. left.
  - intros x Hx. apply Hl. right. exact Hx.
  - intros x Hx. destruct Hfound as [->|[-> Ho]]; [auto|].
    apply elem_of_app in Hx as [Hx|Hx]; [auto|]. apply list_elem_of_singleton in Hx as ->. exact Ho.
Qed.

Lemma wlp_portal session report_id s : wlp (portal_context session report_id) s (λ v s',
  let '(pk, t, available) := v in portal_open session s pk t
  ∧ (∀ r, r ∈ available → report_open s t r ∧ match report_id with Some i => rs_report_id r.2 = i | None => True end)
  ∧ (report_id ≠ None → available ≠ [])
  ∧ ∃ k p, db_portal_sessions s !! k = Some p
    ∧ s' = s <| db_portal_sessions ::= <[k := p <| po_last_seen_at := db_clock s |>]> |>).
Proof.
  unfold portal_context. destruct (session_portal session) as [k|] eqn:Ek; [|exact Logic.I].
  skip. intros cand _. destruct cand as [cand|]; [|exact Logic.I].
  destruct (se_key session) as [skey|] eqn:Es; [|exact Logic.I].
  destruct (negb _); [exact Logic.I|]. apply wlp_atomic. skip. intros t0 _. skip. intros i0 _.
  skip. intros p Hp. apply get_obj_Val in Hp as [Hp _]. skip. intros t Ht.
  apply get_obj_Val in Ht as [Ht _]. skip. intros now [= <-].
  destruct (_ || _) eqn:Eo; [exact Logic.I|]. apply orb_false_elim in Eo as [[El Ei]%orb_false_elim Ed].
  apply Z.leb_gt in Ei. apply negb_false_iff, String.eqb_eq in Ed.
  skip. intros [i tb] Ex. destruct (rt_consumed_at t) eqn:Ec; [|exact Logic.I]. cbn [opt_true negb].
  skip. intros l [= El']. apply wlp_skip.
  { apply preserves_fold_m; [exact _|]. intros. apply readonly_collect_available. }
  intros available Ea. apply collect_fold in Ea as [_ Ha].
  2:{ intros r Hr. subst l. apply list_elem_of_In, List.filter_In in Hr as [Hr _]. apply list_elem_of_In, Hr. }
  2:{ intros r Hr. inversion Hr. }
  assert (Hne : wlp (if opt_true report_id && Nat.eqb (length available) 0
    then transfer_error "report_unavailable" 404 else ret tt) s
    (λ _ s', s' = s ∧ (report_id ≠ None → available ≠ []))).
  { destruct report_id; [|split; [reflexivity|congruence]]. cbn [opt_true andb].
    destruct available; [exact Logic.I|]. split; [reflexivity|discriminate]. }
  apply wlp_bind. eapply wlp_mono; [exact Hne|]. intros _ s1 [-> Hne'].
  apply wlp_bind, wlp_save. intros p' Hp'. assert (p' = p) as -> by (cbn in Hp'; congruence).
  apply wlp_ret. split_and!; [|..].
  - exists k, p, skey. split_and!; eauto; [destruct (po_logged_out_at p); [discriminate El|reflexivity]|].
    rewrite Ec. discriminate.
  - intros r Hr. destruct (Ha r Hr) as [Ho [Hin|Hin]]; [inversion Hin|]. split; [exact Ho|].
    destruct report_id as [q|]; [|exact Logic.I]. subst l.
    apply list_elem_of_In, List.filter_In in Hin as [_ Hq]. apply N.eqb_eq, Hq.
  - exact Hne'.
  - exists k, p. auto.
Qed.

Lemma report_portal session report_id : preserves evolves_reports (portal_context session report_id).
Proof.
  intros s. destruct (portal_context session report_id s) as [[v|e] s'] eqn:E.
  - pose proof (wlp_val _ _ _ _ _ E (wlp_portal session report_id s)) as W.
    destruct v as [[pk t] available]. destruct W as (_ & _ & _ & k & p & Hk & ->).
    apply (evolves_seen s k p _ Hk). split_and!; auto.
  - unfold portal_context in E. destruct (session_portal session); [|injection E as _ <-; reflexivity].
    change (bind (find_obj ?t ?k) ?h s) with (h (t s !! k) s) in E. cbv beta in E.
    destruct (db_portal_sessions s !! _); [|injection E as _ <-; reflexivity].
    destruct (se_key session); [|injection E as _ <-; reflexivity].
    destruct (negb _); [injection E as _ <-; reflexivity|].
    apply atomic_Exc in E as ->. reflexivity.
Qed.

Lemma report_revoke_portal session : preserves evolves_reports (revoke_portal session).
Proof.
  pose proof report_portal as Hp. unfold revoke_portal. apply preserves_bind; [exact _|auto|].
  intros [[pk t] l]. apply preserves_atomic_wlp; [exact _|]. intros s. skip. intros i _.
  skip. intros now [= <-]. skip. intros row [= Er]. destruct row as [row|]; [|apply wlp_ret; reflexivity].
  destruct (rt_revoked_at row) eqn:Ev; cbn [opt_true negb when]; [apply wlp_ret; reflexivity|].
  apply wlp_bind, wlp_save. intros t' Ht'. assert (t' = row) as -> by congruence.
  unfold wlp, record_revocation, record_installation_event, modify.
  etransitivity; [apply (evolves_revoke _ _ _ (db_clock s) Ht' Ev)|]. apply reports_same. reflexivity.
Qed.

Lemma report_logout session : preserves evolves_reports (logout session).
Proof.
  unfold logout. apply preserves_bind; [exact _|preserve|]. intros now.
  apply preserves_bind; [exact _| |preserve].
  destruct (session_portal session) as [pk|]; [|preserve]. intros s.
  unfold update_where_pk, modify. cbn [snd].
  destruct (db_portal_sessions s !! pk) as [p|] eqn:Hp.
  - etransitivity; [apply (evolves_seen s pk p (p <| po_logged_out_at := Some now |>) Hp);
      split_and!; [reflexivity|reflexivity|discriminate]|].
    apply reports_same. unfold report_tables. cbn. do 3 f_equal.
    apply map_eq. intros k. destruct (decide (k = pk)) as [->|Hne].
    + rewrite lookup_insert_eq, lookup_alter_eq, Hp. reflexivity.
    + rewrite lookup_insert_ne, lookup_alter_ne by congruence. reflexivity.
  - apply reports_same. unfold report_tables. cbn. do 3 f_equal.
    apply map_eq. intros k. destruct (decide (k = pk)) as [->|Hne].
    + rewrite lookup_alter_eq, Hp. reflexivity.
    + rewrite lookup_alter_ne by congruence. reflexivity.
Qed.

Lemma keeps_files_portal session report_id : keeps report_files (portal_context session report_id).
Proof.
  unfold portal_context. preserve. 
  all: try (apply preserves_readonly; [exact _|]; apply readonly_collect_available).
Qed.

Lemma report_load session report_id : preserves evolves_reports (load_portal_submission session report_id).
Proof.
  pose proof report_portal. pose proof keeps_files_portal.
  apply preserves_transaction_same; [exact _|preserve|preserve].
Qed.

(** A loaded report has a row. *)
Lemma wlp_load session report_id s : wlp (load_portal_submission session report_id) s (λ v s',
  is_Some (db_report_submissions s' !! v.1.1.1)).
Proof.
  unfold load_portal_submission, wlp, transaction_files.
  match goal with |- match (match ?m s with _ => _ end) with _ => _ end =>
    enough (W : wlp m s (λ v s', is_Some (db_report_submissions s' !! v.1.1.1)))
      by (unfold wlp in W; destruct (m s) as [[d|e] s']; [exact W|exact Logic.I]) end.
  apply wlp_bind. unfold wlp at 1. destruct (portal_context _ _ s) as [[[[pk t] l]|e] s1]; [|exact Logic.I].
  destruct l as [|[k r] l]; [exact Logic.I|]. skip. intros row Hrow.
  apply get_obj_Val in Hrow as [Hrow _]. skip. intros d _. skip. intros now _.
  destruct (_ || _); [exact Logic.I|]. skip. intros [[row' doc] att] _. apply wlp_ret. cbn. eauto.
Qed.

(** *** Downloads *)

Lemma evolves_receipt s k c : db_receipts s !! k = None →
  is_Some (db_report_submissions s !! rec_submission c) → rec_completed_at c = db_clock s →
  receipt_audit_valid (rec_audit c) = true → evolves_reports s (s <| db_receipts ::= <[k := c]> |>).
Proof.
  intros Hk Hs Hc Ha [I0 IS IR IT IP]. pose proof (report_history_refl s) as [C S T P].
  destruct (kept_same (db_spool s) (db_spool s) (db_receipts s) (<[k := c]> (db_receipts s))
    (db_report_submissions s) IS) as [_ K].
  { reflexivity. }
  { intros pk r _ _. apply le_deadline. split; [apply deadline_stored|].
    intros j c' Hj Ec Ht. apply (deadline_receipt _ _ _ j c'); [|exact Ec|exact Ht].
    rewrite lookup_insert_ne by congruence. exact Hj. }
  split; split; try assumption.
  intros j c' Hj. cbn in Hj. apply lookup_insert_Some in Hj as [[<- <-]|[_ Hj]]; [|eapply IR; exact Hj].
  split_and!; [exact Hs|rewrite Hc; reflexivity|exact Ha].
Qed.

Lemma report_write_receipt pk completed audit s : is_Some (db_report_submissions s !! pk) →
  completed = db_clock s → receipt_audit_valid audit = true →
  evolves_reports s (write_download_receipt pk completed audit s).2
  ∧ ∀ k, (write_download_receipt pk completed audit s).1 = Val k →
      db_receipts (write_download_receipt pk completed audit s).2 !! k
      = Some (mkDownloadReceipt pk completed audit).
Proof.
  intros Hs -> Ha. unfold write_download_receipt.
  pose proof (readonly_root s) as R. destruct (root s) as [[u|e] s1] eqn:Er; cbn in R; subst s1.
  2:{ rewrite (bind_exc _ _ _ _ _ Er). split; [reflexivity|discriminate]. }
  rewrite (bind_run _ _ _ _ _ Er). unfold bind, gets. destruct (write_fails s); cbn; [split; [reflexivity|discriminate]|].
  split; [|intros k [= <-]; apply lookup_insert_eq].
  apply evolves_receipt; [apply fresh_id_fresh|exact Hs|reflexivity|exact Ha].
Qed.

(** The transaction that completes a download. *)
Definition record_completion (session : Session) (pk : N) (row : ReportSubmission) (completed : Z)
    (audit : option (N * N * string)) : M Db Z :=
  transaction_files (portal_context session (Some (rs_report_id row)) ;;;
    record_successful_download pk (Some completed) audit).

Lemma report_completion session pk row completed audit s : report_inv s →
  let x := record_completion session pk row completed audit s in
  evolves_reports s x.2 ∧ db_receipts x.2 = db_receipts s
  ∧ ∀ d c, x.1 = Val d → rec_submission c = pk → rec_completed_at c = completed → reconciled x.2 c.
Proof.
  intros I. cbv zeta. unfold record_completion.
  pose proof (keeps_files_record pk (Some completed) audit) as Kr.
  pose proof (keeps_files_portal session (Some (rs_report_id row))) as Kp.
  assert (K : keeps report_files (portal_context session (Some (rs_report_id row)) ;;;
    record_successful_download pk (Some completed) audit)) by preserve.
  assert (R : preserves evolves_reports (portal_context session (Some (rs_report_id row)) ;;;
    record_successful_download pk (Some completed) audit)).
  { pose proof report_portal. pose proof report_record. preserve. }
  pose proof (preserves_transaction_same _ _ K R s) as T.
  pose proof (keeps_files_transaction _ K s) as Kt. split_and!; [exact T|injection Kt; auto|].
  intros d c E Hc Ht. unfold transaction_files in *. unfold bind in *.
  pose proof (report_portal session (Some (rs_report_id row)) s I) as [I1 _].
  destruct (portal_context session (Some (rs_report_id row)) s) as [[v|e] s1]; [|discriminate E].
  cbn in I1. destruct (record_successful_download pk (Some completed) audit s1) as [[d'|e] s2] eqn:Er;
    [|discriminate E]. cbn. eapply recorded_reconciled; [exact I1|exact Er|exact Hc|exact Ht].
Qed.

Lemma report_complete session pk row file_type transfer s :
  is_Some (db_report_submissions s !! pk) → file_type = "pdf" ∨ file_type = "jpeg" →
  evolves_reports s (complete_download session pk row file_type transfer s).2.
Proof.
  intros Hs Hft. unfold complete_download.
  change (bind timezone_now ?k s) with (k (db_clock s) s). cbv beta.
  change (bind (gets ?f) ?k s) with (k (f s) s). cbv beta zeta.
  set (audit := Some (uuid4 s, transfer, file_type)).
  assert (Ha : receipt_audit_valid audit = true) by (destruct Hft as [-> | ->]; reflexivity).
  destruct (report_write_receipt pk (db_clock s) audit s Hs eq_refl Ha) as [Hw Hk].
  intros I.
  assert (Fin : ∀ receipt s1, evolves_reports s s1 →
    (∀ k, receipt = Some k → db_receipts s1 !! k = Some (mkDownloadReceipt pk (db_clock s) audit)) →
    evolves_reports s (try_except (transaction_files (
      portal_context session (Some (rs_report_id row)) ;;;
      record_successful_download pk (Some (db_clock s)) audit) ;;;
      match receipt with Some k => unlink_receipt k | None => ret tt end)
      (λ _, Some (ret tt)) s1).2).
  { intros receipt s1 H1' Hr. destruct (H1' I) as [I1 _].
    change (transaction_files _) with (record_completion session pk row (db_clock s) audit).
    destruct (report_completion session pk row (db_clock s) audit s1 I1) as (C1 & C2 & C3).
    etransitivity; [exact H1'|]. unfold try_except, bind.
    destruct (record_completion _ _ _ _ _ s1) as [[d|e] s2]; cbn in C1, C2, C3 |- *; [|exact C1].
    destruct receipt as [k|]; [|exact C1]. etransitivity; [exact C1|].
    pose proof (report_unlink s2 k) as U. destruct (unlink_receipt k s2) as [[u|e] s3]; cbn in U |- *;
      apply U; intros c Hc; rewrite C2, (Hr k eq_refl) in Hc; injection Hc as <-;
      apply (C3 d); reflexivity. }
  destruct (write_download_receipt pk (db_clock s) audit s) as [[k|e] s1] eqn:Ew; cbn [fst snd] in Hw, Hk.
  - rewrite (bind_run _ _ s (Some k) s1) by (unfold try_except, bind; rewrite Ew; reflexivity).
    apply (Fin (Some k) s1); [exact Hw| |exact I]. intros k' [= <-]. apply Hk. reflexivity.
  - destruct (storage_failure (exn_kind e)) eqn:Ef.
    + rewrite (bind_run _ _ s None s1) by (unfold try_except, bind; rewrite Ew, Ef; reflexivity).
      apply (Fin None s1); [exact Hw|discriminate|exact I].
    + rewrite (bind_exc _ _ s e s1) by (unfold try_except, bind; rewrite Ew, Ef; reflexivity).
      exact (Hw I).
Qed.

Lemma report_stream others session report_id n : (∀ n, preserves evolves_reports (others n)) →
  preserves evolves_reports (stream_chunks others session report_id n).
Proof.
  intros Ho. assert (Hm : ∀ n, preserves evolves_reports (meanwhile (others n)))
    by (intros k; exact (Ho k)).
  pose proof report_portal. induction n as [|n IH]; cbn [stream_chunks]; preserve.
Qed.

(** A row stays through what other sessions do. *)
Lemma row_stays s s' pk : report_history s s' → is_Some (db_report_submissions s !! pk) →
  is_Some (db_report_submissions s' !! pk).
Proof. intros Hh [r Hr]. destruct (rh_submissions _ _ Hh pk r Hr) as (r' & Hr' & _). eauto. Qed.

Lemma report_download others session prefetch pk row payload file_type s :
  (∀ n, preserves evolves_reports (others n)) → is_Some (db_report_submissions s !! pk) →
  file_type = "pdf" ∨ file_type = "jpeg" →
  evolves_reports s (download_response others session prefetch pk row payload file_type s).2.
Proof.
  intros Ho Hs Hft. unfold download_response. destruct prefetch; [reflexivity|].
  destruct (session_portal session) as [k|]; [|reflexivity].
  pose proof (readonly_get_obj db_portal_sessions k s) as R. unfold bind at 1.
  destruct (get_obj db_portal_sessions k s) as [[p|e] s1]; cbn in R; subst s1; [|reflexivity].
  intros I. pose proof (report_stream others session (rs_report_id row) (chunk_count payload) Ho s) as St.
  unfold bind. destruct (stream_chunks _ _ _ _ s) as [[u|e] s1]; cbn in St; [|exact (St I)].
  destruct (St I) as [I1 Hh].
  exact (transitivity St (report_complete session pk row file_type (po_transfer p) s1
    (row_stays _ _ _ Hh Hs) Hft) I).
Qed.

(** What is done with a report that was loaded. *)
Lemma report_after_load {B} session report_id (k : N * ReportSubmission * json * list json → M Db B) s :
  (∀ v s1, report_inv s1 → is_Some (db_report_submissions s1 !! v.1.1.1) → evolves_reports s1 (k v s1).2) →
  evolves_reports s (bind (load_portal_submission session report_id) k s).2.
Proof.
  intros Hk I. pose proof (report_load session report_id s) as L.
  pose proof (wlp_load session report_id s) as W. unfold wlp in W. unfold bind.
  destruct (load_portal_submission session report_id s) as [[v|e] s1]; cbn in L; [|exact (L I)].
  exact (transitivity L (Hk v s1 (proj1 (L I)) W) I).
Qed.

Lemma report_jpeg others session prefetch preview report_id attachment :
  (∀ n, preserves evolves_reports (others n)) →
  preserves evolves_reports (jpeg others session prefetch preview report_id attachment).
Proof.
  intros Ho s. unfold jpeg. apply report_after_load. intros [[[pk row] doc] atts] s1 I1 Hs.
  destruct (find_attachment attachment atts) as [a|]; [|reflexivity].
  pose proof (readonly_decode (item "data" a) s1) as R. unfold bind at 1.
  destruct (decode (item "data" a) s1) as [[payload|e] s2]; cbn in R; subst s2; [|reflexivity].
  destruct preview; [|apply report_download; auto].
  pose proof (report_portal session (Some report_id) s1) as P. unfold bind.
  destruct (portal_context _ _ s1) as [[v|e] s2]; exact P.
Qed.

Lemma report_pdf render others session prefetch report_id :
  (∀ n, preserves evolves_reports (others n)) →
  preserves evolves_reports (pdf render others session prefetch report_id).
Proof.
  intros Ho s. unfold pdf. apply report_after_load. intros [[[pk row] doc] atts] s1 I1 Hs.
  cbv zeta. pose proof (report_portal session (Some report_id) s1) as P. unfold bind at 1.
  destruct (portal_context _ _ s1) as [[[[tpk t] l]|e] s2]; cbn in P; [|exact P].
  destruct (P I1) as [I2 Hh].
  etransitivity; [exact P|]. unfold bind, record_installation_event, modify.
  match goal with |- evolves_reports s2 (download_response _ _ _ _ _ _ _ ?s3).2 =>
    etransitivity; [apply (reports_same s2 s3); reflexivity|] end.
  apply report_download; [exact Ho| |auto]. exact (row_stays _ _ _ Hh Hs).
Qed.

(** ** The system *)

Theorem report_serve others r : (∀ n, preserves evolves_reports (others n)) →
  preserves evolves_reports (serve_report others r).
Proof.
  intros Ho. destruct r; cbn [serve_report]; try apply preserves_unit_of; try exact _.
  - apply report_submit, Ho.
  - apply preserves_readonly; [exact _|]. unfold status. read_only.
  - apply preserves_transaction_same; [exact _|..]; [|apply preserves_readonly; [exact _|]]; read_only.
  - unfold render_submission_pdf. apply preserves_bind; [exact _| |].
    + apply preserves_transaction_same; [exact _|..]; [|apply preserves_readonly; [exact _|]]; read_only.
    + intros [[row doc] atts]. apply reports_keep. preserve. intros s. reflexivity.
  - unfold read_submission_jpeg. apply preserves_bind; [exact _| |].
    + apply preserves_transaction_same; [exact _|..]; [|apply preserves_readonly; [exact _|]]; read_only.
    + intros [[row doc] atts]. apply preserves_readonly; [exact _|]. read_only.
  - apply report_transfer, Ho.
  - apply report_revoke_tablet.
  - apply report_redeem, Ho.
  - apply report_revoke_token, Ho.
  - apply report_portal.
  - apply report_load.
  - apply report_revoke_portal.
  - apply report_logout.
  - apply report_pdf, Ho.
  - apply report_jpeg, Ho.
  - apply report_cleanup, Ho.
Qed.

Lemma report_step_evolves s s' : report_step s s' → evolves_reports s s'.
Proof.
  intros [others r Ho|s1 Hc E]; [exact (report_serve others r Ho s)|].
  injection E as E1 E2 E3 E4 E5. intros [I0 IS IR IT IP].
  pose proof (report_history_refl s) as [C S T P].
  split; split; rewrite <- ?E1, <- ?E2, <- ?E3, <- ?E4, <- ?E5; try assumption.
  intros j c Hj. destruct (IR j c Hj) as (A & B & D). split_and!; [exact A|lia|exact D].
Qed.

Lemma report_reachable s s' : rtc report_step s s' → evolves_reports s s'.
Proof.
  induction 1 as [s|s s1 s2 Hs _ IH]; [reflexivity|].
  etransitivity; [apply report_step_evolves, Hs|exact IH].
Qed.

(** Without reports the invariant holds. *)
Lemma no_reports s : db_report_submissions s = ∅ → db_report_transfers s = ∅ →
  db_portal_sessions s = ∅ → db_receipts s = ∅ → db_spool s = ∅ → report_inv s.
Proof.
  intros E1 E2 E3 E4 E5. split; rewrite ?E1, ?E2, ?E3, ?E4, ?E5; try split; try (intros j c Hj);
    intros *; rewrite ?lookup_empty in *; try discriminate.
  unfold spool_room. rewrite map_size_empty. lia.
Qed.
End services.
