(* ===== verification/ReportRequests.v ===== *)
(** The protocol of the idempotent delivery requests: what a session may rely on while
    other sessions run, what it guarantees them, and what a run leaves in the table. *)
From S2P Require Import Prelude Text Encoding Models Store Authorization Fingerprint Artifacts.
From S2P Require Import ApplicationSecrets Tablets Roles Queue Assignments.
From S2P Require Import Organizations Manifests MailProviders.
From S2P Require Import MailServices.
From S2P Require Import ReportDelivery Totality MailInv MailSystem.

Definition request_key (q : TabletReportDeliveryRequest) : N * N :=
  (dq_installation q, dq_delivery_request_id q).

(** What is fixed when the request is claimed. *)
Definition request_identity (q : TabletReportDeliveryRequest) :=
  (request_key q, dq_department q, dq_recipient_personnel_id q, dq_created_at q).

(** Requests stay, and a result once stored is final. *)
Definition requests_kept (s s' : Db) : Prop := ∀ k q, db_delivery_requests s !! k = Some q →
  ∃ q', db_delivery_requests s' !! k = Some q' ∧ request_identity q' = request_identity q
    ∧ (dq_state q ≠ DELIVERY_PROCESSING → q' = q).

(** The codes of the documented contract. *)
Definition failure_codes : list string :=
  ["recipient_not_authorized"; "recipient_email_unavailable"; "recipient_domain_not_allowed";
   "invalid_attachment"; "attachment_too_large"; "invalid_pdf"; "unsupported_pdf_encryption";
   "pdf_inspection_unavailable"; "message_rejected"; "provider_configuration";
   "delivery_unavailable"].

(** The codes of an attempt. *)
Definition attempt_codes : list string :=
  ["delivered"; "provider_unavailable"; "message_rejected"; "provider_configuration"].

Definition documented (st : DeliveryState) (code : string) : bool :=
  match st with
  | DELIVERY_PROCESSING => String.eqb code ""
  | DELIVERY_SUCCESS => String.eqb code "delivered"
  | DELIVERY_FAILED => mem_str code failure_codes
  | DELIVERY_UNKNOWN => String.eqb code "provider_unavailable"
  end.

(** What the tablet may be answered. *)
Definition documented_answer (r : TabletReportDeliveryResult) : bool :=
  match rr_state r with
  | REPORTED DELIVERY_PROCESSING => false
  | REPORTED DELIVERY_UNKNOWN =>
      mem_str (rr_code r) ["provider_unavailable"; "delivery_indeterminate"]
  | REPORTED st => documented st (rr_code r)
  | REPORTED_CONFLICT => String.eqb (rr_code r) "idempotency_conflict"
  end.

Record RequestInv (Q : gmap N TabletReportDeliveryRequest) : Prop := {
  ri_unique k k' q q' : Q !! k = Some q → Q !! k' = Some q' →
    request_key q = request_key q' → k = k';
  ri_result k q : Q !! k = Some q → documented (dq_state q) (dq_result_code q) = true;
  ri_completed k q : Q !! k = Some q →
    dq_state q = DELIVERY_PROCESSING ↔ dq_completed_at q = None
}.

Definition requests_inv (s : Db) : Prop := RequestInv (db_delivery_requests s).

(** What a session that works on a request relies on: others keep the invariant and the
    table, and do not touch its own request. *)
Definition request_rely (key : N * N) (s s' : Db) : Prop :=
  (requests_inv s → requests_inv s') ∧ requests_kept s s'
  ∧ ∀ k q, db_delivery_requests s !! k = Some q → request_key q = key →
      db_delivery_requests s' !! k = Some q.

(** What a session guarantees. *)
Definition requests_evolve (s s' : Db) : Prop :=
  (requests_inv s → requests_inv s') ∧ requests_kept s s'.

(** The row of a request: as claimed, and with its result. *)
Definition claimed (iid rid pid department : N) (now : Z) : TabletReportDeliveryRequest :=
  mkTabletReportDeliveryRequest iid department rid pid DELIVERY_PROCESSING "" now None.

Definition completed (o : ReportDeliveryOutcome) (now : Z) (q : TabletReportDeliveryRequest) :
    TabletReportDeliveryRequest :=
  q <| dq_state := _terminal_state o |> <| dq_result_code := ro_code o |>
    <| dq_completed_at := Some now |>.

(** The messages handed to providers, in order. *)
Definition sent_mail (s : Db) : list OutboundMessage :=
  omap (λ e, match e with EffSendMail _ m => Some m | _ => None end) (db_effects s).

(** A program that sends at most one message, one that satisfies [P]. *)
Definition sends_one {A} (P : OutboundMessage → Prop) (m : M Db A) : Prop :=
  ∀ s, sent_mail (m s).2 = sent_mail s
    ∨ ∃ msg, sent_mail (m s).2 = sent_mail s ++ [msg] ∧ P msg.

(** The outcome of a delivery is one of the contract. *)
Definition good_outcome (o : ReportDeliveryOutcome) : Prop :=
  documented (_terminal_state o) (ro_code o) = true
  ∧ _terminal_state o ≠ DELIVERY_PROCESSING.

(** A person who may receive a report of the department. *)
Record authorized_recipient `{MailEnvironment} (s : Db) (department personnel_id : N)
    (email : string) (person : Person) : Prop := {
  ar_person : db_people s !! personnel_id = Some person;
  ar_department : pe_department person = department;
  ar_active : pe_active person = true;
  ar_lifecycle : pe_lifecycle_status person = PERSON_ACTIVE;
  ar_commander : pe_incident_commander_eligible person = true;
  ar_verified : is_Some (pe_email_verified_at person);
  ar_email : ∃ stored, pe_incident_commander_email person = Some stored
    ∧ email = str_casefold stored ∧ validate_email email = true;
  ar_allowed : is_department_recipient_allowed department email s = (Val true, s)
}.

(** What a file holds: a stream ends at its first empty read. *)
Fixpoint stream_content (chunks : list string) : string :=
  match chunks with
  | [] => ""
  | c :: chunks' => if str_true c then c +:+ stream_content chunks' else ""
  end.

Definition pdf_content (pdf : PdfInput) : string :=
  match pdf with PdfBytes raw => raw | PdfStream chunks => stream_content chunks end.

(** The whole file, within the limit, and a PDF that only a password opens, under AES-256. *)
Record acceptable_pdf `{DeliverySettings, PdfLibrary} (pdf : PdfInput) (bytes : string) : Prop := {
  ap_content : bytes = pdf_content pdf;
  ap_size : Z.of_nat (String.length bytes) ≤ OUTBOUND_MAIL_REPORT_ATTACHMENT_MAX_BYTES;
  ap_header : str_take 5 bytes = "%PDF-";
  ap_encrypted : ∃ reader, pdf_reader bytes = Some reader ∧ pdf_is_encrypted reader = true
    ∧ pdf_decrypt_empty bytes = Some true
    ∧ _is_password_required_aes256_revision6 reader = true
}.

(** The message of a report. *)
Definition report_message (provider : Provider) (email bytes : string) : OutboundMessage :=
  mkOutboundMessage
    match provider with
    | SmtpProvider c => mkMailAddress (eff_sender_name c) (eff_sender_email c)
    | BrevoProvider name sender _ _ => mkMailAddress name sender
    end
    (mkMailAddress "FireDash recipient" email) REPORT_SUBJECT REPORT_BODY
    [mkMailAttachment REPORT_ATTACHMENT_FILENAME "application/pdf" bytes].

(** ** The relations *)

#[export] Instance requests_kept_preorder : PreOrder requests_kept.
Proof.
  split.
  - intros s k q Hq. eauto.
  - intros s1 s2 s3 A B k q Hq. destruct (A k q Hq) as (q2 & H2 & E2 & F2).
    destruct (B k q2 H2) as (q3 & H3 & E3 & F3). exists q3. split_and!; [exact H3|congruence|].
    intros Hs. specialize (F2 Hs) as ->. auto.
Qed.

#[export] Instance request_rely_preorder key : PreOrder (request_rely key).
Proof.
  split.
  - intros s. split_and!; auto. reflexivity.
  - intros s1 s2 s3 (A1 & A2 & A3) (B1 & B2 & B3). split_and!; auto. etrans; eassumption.
Qed.

#[export] Instance requests_evolve_preorder : PreOrder requests_evolve.
Proof.
  split; [intros s; split; auto; reflexivity|]. intros s1 s2 s3 [A1 A2] [B1 B2].
  split; auto. etrans; eassumption.
Qed.

Lemma rely_evolve key s s' : request_rely key s s' → requests_evolve s s'.
Proof. intros (A & B & _). split; assumption. Qed.

Lemma rely_same key s s' : db_delivery_requests s' = db_delivery_requests s → request_rely key s s'.
Proof.
  intros E. unfold request_rely, requests_inv, requests_kept. rewrite E.
  split_and!; auto. intros k q Hq. eauto.
Qed.

Lemma rely_keeps key {A} (m : M Db A) : keeps db_delivery_requests m → preserves (request_rely key) m.
Proof. intros Hm s. apply rely_same, (Hm s). Qed.

(** ** The table *)

Lemma find_request_lookup s iid rid k q : find_request s iid rid = Some (k, q) →
  db_delivery_requests s !! k = Some q ∧ request_key q = (iid, rid).
Proof.
  unfold find_request. intros [Hin _]%order_by_head_Some. apply rows_elem in Hin as [Hk Hr].
  split; [exact Hk|]. unfold is_request in Hr. apply andb_true_iff in Hr as [->%N.eqb_eq%eq_sym ->%N.eqb_eq%eq_sym].
  reflexivity.
Qed.

Lemma find_request_none s iid rid k q : find_request s iid rid = None →
  db_delivery_requests s !! k = Some q → request_key q ≠ (iid, rid).
Proof.
  unfold find_request. intros Hn%order_by_head_None Hk [= <- <-].
  assert (K : (k, q) ∈ rows (db_delivery_requests s) (λ _ r, is_request (dq_installation q)
    (dq_delivery_request_id q) r)).
  { apply rows_elem. split; [exact Hk|]. unfold is_request. rewrite !N.eqb_refl. reflexivity. }
  rewrite Hn in K. inversion K.
Qed.

Lemma lookup_find_request s k q : requests_inv s → db_delivery_requests s !! k = Some q →
  find_request s (dq_installation q) (dq_delivery_request_id q) = Some (k, q).
Proof.
  intros I Hk. destruct (find_request s _ _) as [[k' q']|] eqn:F.
  - apply find_request_lookup in F as [Hk' E].
    assert (k' = k) as -> by exact (ri_unique _ I _ _ _ _ Hk' Hk E). congruence.
  - exfalso. exact (find_request_none _ _ _ _ _ F Hk eq_refl).
Qed.

(** A new request of its key. *)
Lemma inv_claim Q k q : RequestInv Q → Q !! k = None →
  (∀ j r, Q !! j = Some r → request_key r ≠ request_key q) →
  documented (dq_state q) (dq_result_code q) = true →
  (dq_state q = DELIVERY_PROCESSING ↔ dq_completed_at q = None) → RequestInv (<[k := q]> Q).
Proof.
  intros [U D C] Hk Hu Hd Hc. split.
  - intros i j r r' [[<- <-]|[_ Hi]]%lookup_insert_Some [[<- <-]|[_ Hj]]%lookup_insert_Some E; eauto.
    + exfalso. exact (Hu _ _ Hj (eq_sym E)).
    + exfalso. exact (Hu _ _ Hi E).
  - intros j r [[<- <-]|[_ Hj]]%lookup_insert_Some; eauto.
  - intros j r [[<- <-]|[_ Hj]]%lookup_insert_Some; eauto.
Qed.

(** The result of a request. *)
Lemma inv_complete Q k q q' : RequestInv Q → Q !! k = Some q → request_key q' = request_key q →
  documented (dq_state q') (dq_result_code q') = true →
  (dq_state q' = DELIVERY_PROCESSING ↔ dq_completed_at q' = None) → RequestInv (<[k := q']> Q).
Proof.
  intros [U D C] Hk E Hd Hc. split.
  - intros i j r r' [[<- <-]|[_ Hi]]%lookup_insert_Some [[<- <-]|[_ Hj]]%lookup_insert_Some E'; eauto;
      rewrite ?E in E'; eauto.
  - intros j r [[<- <-]|[_ Hj]]%lookup_insert_Some; eauto.
  - intros j r [[<- <-]|[_ Hj]]%lookup_insert_Some; eauto.
Qed.

(** ** Sending *)

Section sending.
Context (P : OutboundMessage → Prop).

Lemma sends_keeps {A} (m : M Db A) : keeps sent_mail m → sends_one P m.
Proof. intros Hm s. left. exact (Hm s). Qed.

Lemma sends_readonly {A B} (m : M Db A) (k : A → M Db B) : readonly m →
  (∀ a, (∃ s, m s = (Val a, s)) → sends_one P (k a)) → sends_one P (bind m k).
Proof.
  intros Hm Hk s. pose proof (Hm s) as E. unfold bind.
  destruct (m s) as [[a|e] s1] eqn:Ea; cbn in E; subst s1; [|left; reflexivity].
  apply Hk. eauto.
Qed.

Lemma sends_emit {A} p msg (m : M Db A) : P msg → keeps sent_mail m →
  sends_one P (emit (EffSendMail p msg) ;;; m).
Proof.
  intros Hp Hm s. right. exists msg. split; [|exact Hp].
  unfold bind, emit, modify. pose proof (Hm (s <| db_effects ::= λ l, l ++ [EffSendMail p msg] |>)) as E.
  unfold same in E. rewrite E. unfold sent_mail. cbn. rewrite omap_app. reflexivity.
Qed.

Lemma sends_catch {A} (m : M Db A) h : sends_one P m →
  (∀ e k, h e = Some k → readonly k) → sends_one P (try_except m h).
Proof.
  intros Hm Hh s. specialize (Hm s). unfold try_except.
  destruct (m s) as [[a|e] s1] eqn:Ea; [exact Hm|]. destruct (h e) as [k|] eqn:Ek; [|exact Hm].
  pose proof (Hh e k Ek s1) as E. cbn in *. rewrite <- E. exact Hm.
Qed.
End sending.

Section protocol.
Context `{MailEnvironment, MailSettings, DeliverySettings, Aesgcm, SecretSettings, PdfLibrary}.

(** The provider hands over the message it is given. *)
Lemma sends_provider p m : sends_one (eq m) (provider_send p m).
Proof.
  destruct p as [c|n e a x]; cbn [provider_send].
  - unfold smtp_deliver. apply sends_readonly; [apply readonly_connection|]. intros cn _.
    apply sends_readonly; [preserve|]. intros answer _. apply sends_emit; [reflexivity|].
    unfold smtp_raise, provider_error. follow.
  - unfold brevo_deliver. apply sends_emit; [reflexivity|]. follow.
Qed.

Lemma sends_bind {A B} P (Q : A → Prop) (m : M Db A) (k : A → M Db B) : readonly m →
  (∀ s, wlp m s (λ a _, Q a)) → (∀ a, Q a → sends_one P (k a)) → sends_one P (bind m k).
Proof.
  intros Hm Hq Hk. apply sends_readonly; [exact Hm|]. intros a [s E]. apply Hk.
  specialize (Hq s). unfold wlp in Hq. rewrite E in Hq. exact Hq.
Qed.

Lemma mail_address_is name email s : wlp (mail_address name email) s (λ a _, a = mkMailAddress name email).
Proof.
  unfold mail_address. apply wlp_bind, wlp_any. intros _ s1. apply wlp_bind, wlp_any. intros _ s2.
  apply wlp_ret. reflexivity.
Qed.

Lemma readonly_mail_address name email : readonly (mail_address name email).
Proof. follow. Qed.

Lemma sends_report provider email bytes :
  sends_one (eq (report_message provider email bytes)) (attempt provider email bytes).
Proof.
  unfold attempt. apply sends_catch; [|intros e k [= <-]; preserve].
  assert (Hs : sends_one (eq (report_message provider email bytes)) (send_report provider email bytes)).
  { unfold send_report.
    apply (sends_bind _ (λ a, a = om_sender (report_message provider email bytes)));
      [destruct provider; apply readonly_mail_address|
       intros s; destruct provider; apply mail_address_is|].
    intros sender ->. unfold recipient_to_mail_address.
    apply (sends_bind _ (λ a, a = mkMailAddress "FireDash recipient" email));
      [apply readonly_mail_address|apply mail_address_is|]. intros recipient ->.
    apply (sends_bind _ (λ a, a = mkMailAttachment REPORT_ATTACHMENT_FILENAME "application/pdf" bytes));
      [follow| |].
    { intros s. unfold mail_attachment. apply wlp_bind, wlp_any. intros _ s1.
      apply wlp_bind, wlp_any. intros _ s2. apply wlp_bind, wlp_any. intros _ s3.
      apply wlp_ret. reflexivity. }
    intros att ->.
    apply (sends_bind _ (λ m, m = report_message provider email bytes)); [follow| |].
    { intros s. unfold outbound_message. apply wlp_bind, wlp_any. intros _ s1.
      apply wlp_bind, wlp_any. intros _ s2. apply wlp_ret. reflexivity. }
    intros m ->. apply sends_provider. }
  intros s. specialize (Hs s). unfold bind. destruct (send_report provider email bytes s) as [[a|e] s1]; exact Hs.
Qed.

(** ** Outcomes *)

Lemma mem_str_elem x l : mem_str x l = true ↔ x ∈ l.
Proof.
  unfold mem_str. rewrite existsb_exists. split.
  - intros (y & Hy & ->%String.eqb_eq). apply list_elem_of_In, Hy.
  - intros Hx. exists x. split; [apply list_elem_of_In, Hx|apply String.eqb_refl].
Qed.

(** A refusal before the attempt is a failure. *)
Lemma refusal_outcome code : code ∈ failure_codes →
  _terminal_state (mkReportDeliveryOutcome code false) = DELIVERY_FAILED
  ∧ good_outcome (mkReportDeliveryOutcome code false).
Proof.
  intros Hc. assert (E : _terminal_state (mkReportDeliveryOutcome code false) = DELIVERY_FAILED).
  { unfold _terminal_state. cbn. destruct (String.eqb_spec code PROVIDER_UNAVAILABLE) as [->|]; [|reflexivity].
    apply mem_str_elem in Hc. vm_compute in Hc. discriminate. }
  split; [exact E|]. unfold good_outcome. rewrite E. split; [apply mem_str_elem, Hc|discriminate].
Qed.

Lemma admission_code_documented code : _admission_code code ∈ failure_codes.
Proof.
  unfold _admission_code. destruct (mem_str code _) eqn:E; [|apply mem_str_elem; reflexivity].
  apply mem_str_elem in E. unfold failure_codes. set_solver.
Qed.

Lemma wlp_attempt provider email bytes s : wlp (attempt provider email bytes) s
  (λ o _, good_outcome o ∧ ro_code o ∈ attempt_codes).
Proof.
  unfold wlp, attempt, try_except, bind, ret.
  destruct (send_report provider email bytes s) as [[a|e] s1].
  - split; [split; [reflexivity|discriminate]|apply mem_str_elem; reflexivity].
  - assert (Hc : ∀ c, c = PROVIDER_UNAVAILABLE ∨ c = MESSAGE_REJECTED ∨ c = PROVIDER_CONFIGURATION →
      good_outcome (mkReportDeliveryOutcome c false) ∧ c ∈ attempt_codes).
    { intros c [->|[->| ->]]; (split; [split; [reflexivity|discriminate]|apply mem_str_elem; reflexivity]). }
    destruct (exn_kind e); apply Hc; auto. unfold _provider_code.
    destruct (mem_str code _) eqn:E; [|auto]. apply mem_str_elem in E. set_solver.
Qed.

(** ** Admission *)

Lemma wlp_resolve_recipient d pid s :
  wlp (_resolve_recipient d pid) s (λ r s', s' = s ∧ r.1 = pid
    ∧ ∃ person, authorized_recipient s d pid r.2 person).
Proof.
  unfold _resolve_recipient. apply wlp_skip; [preserve|]. intros row [= <-].
  destruct (db_people s !! pid) as [p|] eqn:Ep; [|exact I].
  destruct (N.eqb_spec (pe_department p) d) as [Ed|]; cbn [negb]; [|exact I].
  destruct (_ || negb (opt_true (pe_email_verified_at p))) eqn:Eb; [exact I|].
  apply orb_false_iff in Eb as [[[Ea El]%orb_false_iff Ei]%orb_false_iff Ev].
  apply negb_false_iff in Ea, El, Ei, Ev. apply bool_decide_eq_true in El.
  destruct (_normalized_valid_email _) as [email|] eqn:Em; [|exact I].
  apply wlp_skip; [apply preserves_readonly; [exact _|]; follow|]. intros allowed Eal.
  destruct allowed; [|exact I]. apply wlp_ret. split_and!; [reflexivity|reflexivity|]. exists p.
  split; auto.
  - destruct (pe_email_verified_at p); [eauto|discriminate].
  - unfold _normalized_valid_email in Em. destruct (pe_incident_commander_email p) as [v|]; [|discriminate].
    destruct (_ && validate_email _) eqn:Ec; [|discriminate]. injection Em as <-.
    apply andb_true_iff in Ec as [_ Ec]. exists v. auto.
Qed.

Lemma wlp_read_chunks limit size raw chunks s :
  size = Z.of_nat (String.length raw) → size ≤ limit →
  wlp (read_chunks limit size raw chunks) s (λ bytes s', s' = s
    ∧ bytes = raw +:+ stream_content chunks ∧ Z.of_nat (String.length bytes) ≤ limit).
Proof.
  revert size raw. induction chunks as [|c chunks IH]; intros size raw Es Hl; cbn [read_chunks stream_content].
  - apply wlp_ret. rewrite str_app_nil. split_and!; auto. lia.
  - destruct (str_true c); cbn [negb].
    + cbv zeta. destruct (Z.ltb_spec limit (size + Z.of_nat (String.length c))); [exact I|].
      eapply wlp_mono; [apply IH; [rewrite str_length_app; lia|lia]|].
      intros bytes s' (-> & -> & Hb). rewrite str_app_assoc in *. auto.
    + apply wlp_ret. rewrite str_app_nil. split_and!; auto. lia.
Qed.

Lemma wlp_admit d pid pdf f s :
  wlp (admit_outbound_report d pid pdf f) s (λ a s', s' = s ∧ (ad_recipient a).1 = pid
    ∧ acceptable_pdf pdf (ad_pdf_bytes a)).
Proof.
  unfold admit_outbound_report. apply wlp_bind. eapply wlp_mono; [apply wlp_resolve_recipient|].
  intros r s' (-> & Er & _). apply wlp_bind.
  apply wlp_mono with (Q := λ bytes s', s' = s ∧ bytes = pdf_content pdf
    ∧ Z.of_nat (String.length bytes) ≤ OUTBOUND_MAIL_REPORT_ATTACHMENT_MAX_BYTES).
  { unfold _read_bounded_pdf. destruct (Z.leb_spec OUTBOUND_MAIL_REPORT_ATTACHMENT_MAX_BYTES 0); [exact I|].
    destruct pdf as [raw|chunks].
    - destruct (Z.ltb_spec OUTBOUND_MAIL_REPORT_ATTACHMENT_MAX_BYTES (Z.of_nat (String.length raw))); [exact I|].
      apply wlp_ret. auto.
    - eapply wlp_mono; [apply wlp_read_chunks; [reflexivity|cbn; lia]|]. auto. }
  intros bytes s' (-> & Eb & Hl). apply wlp_bind.
  apply wlp_mono with (Q := λ _ s', s' = s ∧ acceptable_pdf pdf bytes).
  { unfold _inspect_aes256_password_pdf.
    destruct (String.eqb_spec (str_take 5 bytes) "%PDF-") as [Eh|]; cbn [negb]; [|exact I].
    destruct (pdf_reader bytes) as [reader|] eqn:Er'; [|exact I].
    destruct (pdf_is_encrypted reader) eqn:Ee; cbn [negb]; [|exact I].
    destruct (pdf_decrypt_empty bytes) as [[]|] eqn:Ed; try exact I.
    destruct (_is_password_required_aes256_revision6 reader) eqn:E6; [|exact I].
    apply wlp_ret. split; [reflexivity|]. split; eauto 6. }
  intros u s' [-> Ha]. apply wlp_bind. unfold _validated_filename.
  destruct (_ && _); [|exact I]. apply wlp_ret, wlp_ret. auto.
Qed.

Lemma wlp_admission_outcome {A} (m : M Db A) s Q : readonly m → wlp m s Q →
  wlp (admission_outcome m) s (λ r s', s' = s ∧ ∀ a, r = inr a → Q a s).
Proof.
  intros Hm Hq. pose proof (Hm s) as E. unfold wlp, admission_outcome, try_except, bind, ret in *.
  destruct (m s) as [[a|e] s1]; cbn in E; subst s1.
  - split; [reflexivity|]. intros b [= <-]. exact Hq.
  - destruct (exn_kind e); try exact I. split; [reflexivity|discriminate].
Qed.

(** What a prepared delivery rests on: the store before the last lookup of the recipient
    resolves the provider, the one of that lookup authorizes the recipient. *)
Lemma wlp_prepare others d pid pdf f s :
  let s1 := (others 0%nat s).2 in let s2 := (others 1%nat s1).2 in
  wlp (prepare_report others d pid pdf f) s (λ res s',
    match res with
    | inl o => good_outcome o
    | inr (provider, (pid', email), bytes) =>
        s' = s2 ∧ pid' = pid ∧ resolve_department_mail_provider d s1 = (Val (inr provider), s1)
        ∧ (∃ person, authorized_recipient s2 d pid email person) ∧ acceptable_pdf pdf bytes
    end).
Proof.
  intros s1 s2. unfold prepare_report. apply wlp_bind.
  eapply wlp_mono; [apply wlp_admission_outcome; [apply delivery_admission; exact _|apply wlp_admit]|].
  intros [code|a] s' [-> Ha].
  { apply wlp_ret. apply refusal_outcome, admission_code_documented. }
  destruct (Ha a eq_refl) as (_ & Ei & Hp). apply wlp_bind. unfold wlp at 1, meanwhile. fold s1.
  apply wlp_skip; [apply delivery_resolve; exact _|]. intros [reason|provider] Er.
  { apply wlp_ret. apply refusal_outcome, mem_str_elem. reflexivity. }
  apply wlp_bind. unfold wlp at 1. fold s2. apply wlp_bind. rewrite Ei.
  eapply wlp_mono; [apply wlp_admission_outcome; [apply delivery_recipient; exact _|
    apply wlp_resolve_recipient]|].
  intros [code|[pid' email]] s' [-> Hr].
  { apply wlp_ret. apply refusal_outcome, admission_code_documented. }
  destruct (Hr _ eq_refl) as (_ & Ei' & Hperson). apply wlp_ret. auto.
Qed.

(** ** One delivery *)

Lemma wlp_deliver others iid pid pdf f s :
  wlp (deliver_outbound_report others iid pid pdf f) s (λ o _, good_outcome o).
Proof.
  unfold deliver_outbound_report. apply wlp_skip; [preserve|]. intros inst _.
  apply wlp_skip; [preserve|]. intros tab _. apply wlp_bind.
  eapply wlp_mono; [apply wlp_prepare|]. intros [o|[[provider [pid' email]] bytes]] s' Hp.
  - apply wlp_ret. exact Hp.
  - apply wlp_bind. eapply wlp_mono; [apply wlp_attempt|]. intros o s2 [Ho _].
    apply wlp_bind, wlp_any. intros _ s3. apply wlp_bind, wlp_any. intros _ s4.
    apply wlp_ret. exact Ho.
Qed.

(** The message that a delivery hands to a provider, if any. *)
Lemma deliver_sends others iid pid pdf f s r s' : (∀ n, keeps sent_mail (others n)) →
  deliver_outbound_report others iid pid pdf f s = (r, s') →
  let s1 := (others 0%nat s).2 in let s2 := (others 1%nat s1).2 in
  sent_mail s' = sent_mail s ∨ ∃ inst tab provider email bytes person,
    sent_mail s' = sent_mail s ++ [report_message provider email bytes]
    ∧ db_installations s !! iid = Some inst ∧ db_tablets s !! in_tablet inst = Some tab
    ∧ resolve_department_mail_provider (tb_department tab) s1 = (Val (inr provider), s1)
    ∧ authorized_recipient s2 (tb_department tab) pid email person ∧ acceptable_pdf pdf bytes
    ∧ ∀ o, r = Val o → ro_code o ∈ attempt_codes.
Proof.
  intros Ho E s1 s2. unfold deliver_outbound_report, bind at 1, get_obj in E.
  destruct (db_installations s !! iid) as [inst|] eqn:Ei; [|injection E as <- <-; left; reflexivity].
  unfold bind at 1 in E.
  destruct (db_tablets s !! in_tablet inst) as [tab|] eqn:Et; [|injection E as <- <-; left; reflexivity].
  pose proof (wlp_prepare others (tb_department tab) pid pdf f s) as W. unfold wlp in W.
  pose proof (delivery_prepare (same sent_mail) others Ho (tb_department tab) pid pdf f s) as K.
  unfold bind at 1 in E.
  destruct (prepare_report others _ pid pdf f s) as [[[o|[[provider [pid' email]] bytes]]|e] s3];
    cbn [snd] in K; [injection E as <- <-; left; exact K| |injection E as <- <-; left; exact K].
  destruct W as (-> & -> & Er & (person & Hp) & Ha). fold s1 s2 in Er, Hp, K, E.
  assert (Hs : (sent_mail s' = sent_mail s2
      ∨ ∃ m, sent_mail s' = sent_mail s2 ++ [m] ∧ report_message provider email bytes = m)
    ∧ ∀ o, r = Val o → ro_code o ∈ attempt_codes).
  { pose proof (sends_report provider email bytes s2) as Hs.
    pose proof (wlp_attempt provider email bytes s2) as Wa. unfold wlp in Wa. unfold bind at 1 in E.
    destruct (attempt provider email bytes s2) as [[o|e] s4]; injection E as <- <-;
      [|split; [exact Hs|discriminate]].
    split; [|intros o' [= <-]; apply Wa].
    enough (Ek : sent_mail (others 2%nat s4).2 = sent_mail s4)
      by (cbn [snd] in Hs; rewrite <- Ek in Hs; exact Hs).
    exact (Ho 2%nat s4). }
  destruct Hs as [Hs Hc]. unfold same in K. rewrite K in Hs.
  destruct Hs as [->|(m & -> & <-)]; [left; reflexivity|].
  right. repeat (eexists; try eassumption).
Qed.

(** ** The claim *)

Lemma taken_find s iid rid :
  exists_row (db_delivery_requests s) (λ _ r, is_request iid rid r) = opt_true (find_request s iid rid).
Proof.
  destruct (find_request s iid rid) as [[k q]|] eqn:F; cbn.
  - apply find_request_lookup in F as [Hk [= <- <-]]. apply exists_row_true. exists k, q.
    unfold is_request. rewrite !N.eqb_refl. auto.
  - apply exists_row_false. intros k q Hk. apply not_true_iff_false. intros Hr.
    apply (find_request_none _ _ _ _ _ F Hk). unfold is_request in Hr.
    apply andb_true_iff in Hr as [<-%N.eqb_eq <-%N.eqb_eq]. reflexivity.
Qed.

Lemma claim_cases others iid rid pid s : find_request s iid rid = None →
  let s0 := (others s).2 in
  (∃ e, _claim_or_replay others iid rid pid s = (Exc e, s))
  ∨ (∃ k q, _claim_or_replay others iid rid pid s = (Val (k, q, false), s0)
      ∧ find_request s0 iid rid = Some (k, q))
  ∨ (∃ k d, let q := claimed iid rid pid d (db_clock s0) in
      _claim_or_replay others iid rid pid s
        = (Val (k, q, true), s0 <| db_delivery_requests ::= <[k := q]> |>)
      ∧ find_request s0 iid rid = None ∧ db_delivery_requests s0 !! k = None).
Proof.
  intros F s0. remember (_claim_or_replay others iid rid pid s) as out eqn:E.
  unfold _claim_or_replay, bind at 1, gets at 1 in E. rewrite F in E.
  unfold bind at 1, get_obj at 1 in E. destruct (db_installations s !! iid) as [inst|]; [|eauto].
  unfold bind at 1, get_obj at 1 in E. destruct (db_tablets s !! in_tablet inst) as [tab|]; [|eauto].
  right. unfold bind at 1, meanwhile in E. fold s0 in E.
  unfold try_except, atomic, create_request, bind, timezone_now, gets, guard in E.
  cbn [dq_installation dq_delivery_request_id] in E. rewrite taken_find in E.
  destruct (find_request s0 iid rid) as [[k q]|] eqn:F0; cbn [opt_true negb] in E.
  - left. exists k, q. cbn in E. rewrite F0 in E. auto.
  - right. unfold create in E. eexists _, (tb_department tab). split; [exact E|].
    split; [reflexivity|]. apply fresh_id_fresh.
Qed.

(** ** The whole session *)

Lemma submit_found others iid rid pid pdf s k q : find_request s iid rid = Some (k, q) →
  submit_tablet_report_delivery others iid rid pid pdf s = (Val (_replay q pid), s).
Proof.
  intros F. unfold submit_tablet_report_delivery, _claim_or_replay, bind, gets. rewrite F. reflexivity.
Qed.

Lemma submit_lost others iid rid pid pdf s k q s1 :
  _claim_or_replay (others 0%nat) iid rid pid s = (Val (k, q, false), s1) →
  submit_tablet_report_delivery others iid rid pid pdf s = (Val (_replay q pid), s1).
Proof.
  intros E. unfold submit_tablet_report_delivery. rewrite (bind_run _ _ _ _ _ E). reflexivity.
Qed.

Lemma submit_won others iid rid pid pdf s k q s1 :
  _claim_or_replay (others 0%nat) iid rid pid s = (Val (k, q, true), s1) →
  submit_tablet_report_delivery others iid rid pid pdf s =
    match deliver_outbound_report (λ n, others (n + 2)%nat) iid pid pdf REPORT_ATTACHMENT_FILENAME
            (others 1%nat s1).2 with
    | (Val o, s3) =>
        let s4 := (others 5%nat s3).2 in
        match db_delivery_requests s4 !! k with
        | Some q' =>
            (Val (mkTabletReportDeliveryResult (REPORTED (_terminal_state o)) (ro_code o)),
             s4 <| db_delivery_requests ::= <[k := completed o (db_clock s4) q']> |>)
        | None => (Exc (mkExn EDoesNotExist "matching query does not exist."), s4)
        end
    | (Exc e, s3) => (Exc e, s3)
    end.
Proof.
  intros E. unfold submit_tablet_report_delivery. rewrite (bind_run _ _ _ _ _ E). cbn [negb].
  unfold bind at 1, meanwhile at 1, bind at 1.
  destruct (deliver_outbound_report _ iid pid pdf _ _) as [[o|e] s3]; [|reflexivity].
  unfold bind at 1, meanwhile, bind at 1, atomic, bind, get_obj.
  destruct (db_delivery_requests _ !! k) as [q'|] eqn:L; [|reflexivity].
  unfold timezone_now, gets, save. cbn. rewrite L. reflexivity.
Qed.

(** ** The guarantee *)

Section guarantee.
Context (R : relation Db) `{!PreOrder R} (iid rid : N).
Context (Rsame : ∀ s s', db_delivery_requests s' = db_delivery_requests s → R s s')
  (Rclaim : ∀ s k pid d now, requests_inv s → find_request s iid rid = None →
    db_delivery_requests s !! k = None →
    R s (s <| db_delivery_requests ::= <[k := claimed iid rid pid d now]> |>))
  (Rdone : ∀ s k pid d now' o now, requests_inv s → good_outcome o →
    db_delivery_requests s !! k = Some (claimed iid rid pid d now') →
    R s (s <| db_delivery_requests ::= <[k := completed o now (claimed iid rid pid d now')]> |>)).

Lemma claim_evolves s k pid d now : requests_inv s → find_request s iid rid = None →
  db_delivery_requests s !! k = None →
  requests_evolve s (s <| db_delivery_requests ::= <[k := claimed iid rid pid d now]> |>).
Proof.
  intros I F Hk. split.
  - intros _. unfold requests_inv. cbn. apply inv_claim; auto; [|split; auto].
    intros j r Hj. exact (find_request_none _ _ _ _ _ F Hj).
  - intros j r Hj. exists r. cbn. split_and!; auto. rewrite lookup_insert_ne by congruence. exact Hj.
Qed.

Lemma done_evolves s k pid d now' o now : requests_inv s → good_outcome o →
  db_delivery_requests s !! k = Some (claimed iid rid pid d now') →
  requests_evolve s (s <| db_delivery_requests ::= <[k := completed o now (claimed iid rid pid d now')]> |>).
Proof.
  intros I [Ho Hp] Hk. split.
  - intros _. unfold requests_inv. cbn. eapply inv_complete; eauto. cbn. split; [tauto|discriminate].
  - intros j r Hj. cbn. destruct (decide (k = j)) as [<-|Hne].
    + rewrite lookup_insert_eq. eexists. split; [reflexivity|]. rewrite Hk in Hj. injection Hj as <-.
      split; [reflexivity|]. intros Hs. exfalso. apply Hs. reflexivity.
    + rewrite lookup_insert_ne by exact Hne. eauto.
Qed.

(** The delivery itself leaves the table to others. *)
Lemma work_keeps (T : relation Db) `{!PreOrder T} others pid pdf s1 :
  (∀ n, preserves T (others n)) → (∀ A (m : M Db A), keeps db_delivery_requests m → preserves T m) →
  T s1 (deliver_outbound_report (λ n, others (n + 2)%nat) iid pid pdf REPORT_ATTACHMENT_FILENAME
    (others 1%nat s1).2).2.
Proof.
  intros Ho Hs. etrans; [apply Ho|].
  apply (delivery_deliver T); [intros; apply Hs; frame..|auto].
Qed.

(** A session whose companions leave its request alone, and keep [R], keeps [R]; when it
    won the claim the row keeps its result, when it could not, nothing of its own. *)
Lemma submit_run others pid pdf s :
  (∀ n, preserves (request_rely (iid, rid)) (others n)) → (∀ n, preserves R (others n)) →
  requests_inv s → let '(r, s') := submit_tablet_report_delivery others iid rid pid pdf s in
  R s s' ∧ ∀ res, r = Val res →
    (∃ k q, find_request s' iid rid = Some (k, q) ∧ request_key q = (iid, rid)
       ∧ (res = _replay q pid
          ∨ find_request s iid rid = None ∧ dq_recipient_personnel_id q = pid
            ∧ dq_state q ≠ DELIVERY_PROCESSING
            ∧ res = mkTabletReportDeliveryResult (REPORTED (dq_state q)) (dq_result_code q))).
Proof.
  intros Hrely HR I. destruct (find_request s iid rid) as [[k q]|] eqn:F.
  { rewrite (submit_found _ _ _ _ _ _ _ _ F). split; [reflexivity|]. intros res [= <-].
    exists k, q. split_and!; auto. apply (find_request_lookup _ _ _ _ _ F). }
  pose proof (Hrely 0%nat s) as (I0 & K0 & _). specialize (I0 I). pose proof (HR 0%nat s) as R0.
  destruct (claim_cases (others 0%nat) iid rid pid s F) as [[e E]|[(k & q & E & F0)|(k & d & E & F0 & Hk)]].
  - unfold submit_tablet_report_delivery. rewrite (bind_exc _ _ _ _ _ E). split; [reflexivity|discriminate].
  - rewrite (submit_lost _ _ _ _ _ _ _ _ _ E). split; [exact R0|]. intros res [= <-].
    exists k, q. split_and!; auto. apply (find_request_lookup _ _ _ _ _ F0).
  - rewrite (submit_won _ _ _ _ _ _ _ _ _ E). set (q := claimed _ _ _ _ _) in *.
    set (s0 := (others 0%nat s).2) in *. set (s1 := s0 <| db_delivery_requests ::= _ |>).
    assert (L1 : db_delivery_requests s1 !! k = Some q) by apply lookup_insert_eq.
    assert (R1 : R s s1) by (etrans; [exact R0|apply Rclaim; assumption]).
    assert (I1 : requests_inv s1) by (eapply claim_evolves; eassumption).
    set (T := λ s s', request_rely (iid, rid) s s' ∧ R s s').
    assert (HT : PreOrder T).
    { unfold T. split; [intros x; split; reflexivity|]. intros x y z [A A'] [B B']. split; etrans; eassumption. }
    assert (Ho : ∀ n, preserves T (others n)) by (intros n x; split; [apply Hrely|apply HR]).
    assert (Hs : ∀ A (m : M Db A), keeps db_delivery_requests m → preserves T m)
      by (intros A m Hm x; split; [apply rely_same|apply Rsame]; exact (Hm x)).
    pose proof (wlp_deliver (λ n, others (n + 2)%nat) iid pid pdf REPORT_ATTACHMENT_FILENAME
      (others 1%nat s1).2) as W. unfold wlp in W.
    pose proof (work_keeps T others pid pdf s1 Ho Hs) as T3'.
    destruct (deliver_outbound_report _ iid pid pdf _ _) as [[o|e] s3]; cbn [snd] in T3'.
    2:{ split; [etrans; [exact R1|apply T3']|discriminate]. }
    cbv zeta. assert (T4 : T s1 (others 5%nat s3).2) by (etrans; [exact T3'|apply Ho]).
    destruct T4 as [(I4 & _ & L4) R4]. specialize (I4 I1). specialize (L4 k q L1 eq_refl).
    rewrite L4. split.
    + etrans; [exact R1|]. etrans; [exact R4|]. apply Rdone; assumption.
    + intros res [= <-]. exists k, (completed o (db_clock (others 5%nat s3).2) q).
      pose proof (done_evolves _ k pid d (db_clock s0) o (db_clock (others 5%nat s3).2) I4 W L4) as [I5 _].
      specialize (I5 I4). split_and!; [|reflexivity|].
      * apply (lookup_find_request _ _ (completed o (db_clock (others 5%nat s3).2) q) I5), lookup_insert_eq.
      * right. split_and!; auto. apply W.
Qed.
End guarantee.

Lemma submit_evolves others iid rid pid pdf s :
  (∀ n, preserves (request_rely (iid, rid)) (others n)) → requests_inv s →
  requests_evolve s (submit_tablet_report_delivery others iid rid pid pdf s).2.
Proof.
  intros Ho I. pose proof (submit_run requests_evolve iid rid) as Hr.
  assert (Hs : ∀ s s', db_delivery_requests s' = db_delivery_requests s → requests_evolve s s')
    by (intros x y E; apply (rely_evolve (iid, rid)), rely_same, E).
  specialize (Hr Hs (claim_evolves iid rid) (done_evolves iid rid) others pid pdf s Ho).
  destruct (submit_tablet_report_delivery others iid rid pid pdf s) as [r s'].
  apply Hr; [|exact I]. intros n x. eapply rely_evolve, Ho.
Qed.

(** What a session sends, it sends for a request that it has claimed. *)
Lemma submit_sends others iid rid pid pdf s r s' :
  (∀ n, preserves (request_rely (iid, rid)) (others n)) → (∀ n, keeps sent_mail (others n)) →
  requests_inv s → submit_tablet_report_delivery others iid rid pid pdf s = (r, s') →
  sent_mail s' = sent_mail s
  ∨ (∃ m, sent_mail s' = sent_mail s ++ [m]) ∧ find_request s iid rid = None
    ∧ (∃ k q, db_delivery_requests s' !! k = Some q ∧ request_key q = (iid, rid)
        ∧ dq_recipient_personnel_id q = pid)
    ∧ ∀ res, r = Val res → rr_code res ∈ attempt_codes.
Proof.
  intros Hrely Hq I E. destruct (find_request s iid rid) as [[k q]|] eqn:F.
  { rewrite (submit_found _ _ _ _ _ _ _ _ F) in E. injection E as <- <-. left. reflexivity. }
  destruct (claim_cases (others 0%nat) iid rid pid s F) as [[e Ec]|[(k & q & Ec & _)|(k & d & Ec & F0 & _)]].
  - unfold submit_tablet_report_delivery in E. rewrite (bind_exc _ _ _ _ _ Ec) in E.
    injection E as <- <-. left. reflexivity.
  - rewrite (submit_lost _ _ _ _ _ _ _ _ _ Ec) in E. injection E as <- <-. left. exact (Hq 0%nat s).
  - rewrite (submit_won _ _ _ _ _ _ _ _ _ Ec) in E. set (q := claimed _ _ _ _ _) in *.
    set (s1 := _ <| db_delivery_requests ::= _ |>) in *.
    assert (L1 : db_delivery_requests s1 !! k = Some q) by apply lookup_insert_eq.
    pose proof (work_keeps iid (request_rely (iid, rid)) others pid pdf s1 Hrely
      (λ A m, rely_keeps (iid, rid) m)) as (_ & _ & L3).
    destruct (deliver_outbound_report _ iid pid pdf _ _) as [o s3] eqn:Ed. specialize (L3 k q L1 eq_refl).
    cbn [snd] in L3. apply deliver_sends in Ed; [|intros n; apply Hq].
    assert (M1 : sent_mail (others 1%nat s1).2 = sent_mail s)
      by (etrans; [exact (Hq 1%nat s1)|exact (Hq 0%nat s)]).
    rewrite M1 in Ed.
    assert (Hend : sent_mail s' = sent_mail s3
      ∧ (∃ k q, db_delivery_requests s' !! k = Some q ∧ request_key q = (iid, rid)
           ∧ dq_recipient_personnel_id q = pid)
      ∧ ∀ res, r = Val res → ∃ o', o = Val o' ∧ rr_code res = ro_code o').
    { destruct o as [o|e].
      - cbv zeta in E. pose proof (Hrely 5%nat s3) as (_ & _ & L4). specialize (L4 k q L3 eq_refl).
        rewrite L4 in E. injection E as <- <-. split; [exact (Hq 5%nat s3)|]. split.
        + eexists k, _. split; [apply lookup_insert_eq|]. split; reflexivity.
        + intros res [= <-]. exists o. split; reflexivity.
      - injection E as <- <-. split; [reflexivity|]. split; [|discriminate]. exists k, q.
        split; [exact L3|]. split; reflexivity. }
    destruct Hend as (-> & Hrow & Hres).
    destruct Ed as [->|(inst & tab & p & email & bytes & person & -> & Hd)]; [left; reflexivity|].
    right. split_and!; eauto. intros res Er. destruct (Hres res Er) as (o' & -> & ->).
    destruct Hd as (_ & _ & _ & _ & _ & Hc). exact (Hc o' eq_refl).
Qed.

(** Sessions of other requests may rely on this one. *)
Lemma submit_relies others iid rid pid pdf key s : key ≠ (iid, rid) →
  (∀ n, preserves (request_rely (iid, rid)) (others n)) →
  (∀ n, preserves (request_rely key) (others n)) → requests_inv s →
  request_rely key s (submit_tablet_report_delivery others iid rid pid pdf s).2.
Proof.
  intros Hne Ho Hk I. pose proof (submit_run (request_rely key) iid rid (rely_same key)) as Hr.
  assert (Hup : ∀ s k q, request_key q = (iid, rid) →
    (∀ q', db_delivery_requests s !! k = Some q' → request_key q' = (iid, rid)) →
    requests_evolve s (s <| db_delivery_requests ::= <[k := q]> |>) →
    request_rely key s (s <| db_delivery_requests ::= <[k := q]> |>)).
  { intros x k q Eq Hq [A B]. split_and!; [exact A|exact B|]. intros j r Hj Er. cbn.
    rewrite lookup_insert_ne; [exact Hj|]. intros <-. apply Hne. rewrite <- Er. exact (Hq r Hj). }
  pose proof (Hr) as Hr'. clear Hr.
  assert (W : let '(r, s') := submit_tablet_report_delivery others iid rid pid pdf s in
    request_rely key s s' ∧ True).
  { specialize (Hr' ltac:(intros x k p d now Ix F Hx; apply Hup; [reflexivity| |apply claim_evolves; assumption];
        intros q' Hq'; congruence)
      ltac:(intros x k p d now' o now Ix Hg Hx; apply Hup; [reflexivity| |apply done_evolves; assumption];
        intros q' Hq'; rewrite Hx in Hq'; injection Hq' as <-; reflexivity)
      others pid pdf s Ho Hk I).
    destruct (submit_tablet_report_delivery others iid rid pid pdf s) as [r s'].
    split; [apply Hr'|exact Logic.I]. }
  destruct (submit_tablet_report_delivery others iid rid pid pdf s) as [r s']. apply W.
Qed.
End protocol.
