(* ===== verification/DataTheorems.v ===== *)
(** The pure parts of the publication code: the registry's table and scope check,
    the logical fingerprint of a file library, the bounds of a build summary and the
    nightly build window. *)
From S2P Require Import Prelude Models Registry Lifecycle Store Authorization Fingerprint.
From S2P Require Import Artifacts Restore Queue Demo.
From Stdlib Require Import OrdersEx.

(** ** The registry *)

(** The owner fields that fit a scope type. *)
Definition owner_shape (scope_type : string) (department station : option N) : Prop :=
  (scope_type = "SYSTEM" ∧ department = None ∧ station = None)
  ∨ (scope_type = "DEPARTMENT" ∧ department ≠ None ∧ station = None)
  ∨ (scope_type = "STATION" ∧ department ≠ None ∧ station ≠ None).

(** A file-library snapshot, as [snapshot_for_library] builds it. *)
Definition library_snapshot (library : json) (revision : Z) (folders documents : list json) :
    json :=
  JObj [("library", library); ("source_revision", JInt revision);
        ("folders", JList folders); ("documents", JList documents)].

Definition demo_folder : json :=
  JObj [("id", JStr "f1"); ("name", JStr "Plans"); ("parent_id", JNull)].

Definition demo_document (id content : string) : json :=
  JObj [("id", JStr id); ("name", JStr id); ("folder_id", JStr "f1"); ("sha256", JStr "00");
        ("size_bytes", JInt 10); ("content_id", JStr content)].

Definition demo_library : json :=
  JObj [("id", JStr "l1"); ("name", JStr "Files"); ("scope", JStr "DEPARTMENT")].

Definition demo_phonebook_summary : json :=
  JObj [("entry_count", JInt 2); ("source_revision", JInt 1)].

(** A scope is accepted exactly when its dataset is registered, its scope type
    is the registered one and its owner fields have the shape of that type; the
    definition returned is the registered one and nothing changes. *)
Theorem validate_dataset_scope_spec (s : Db) c t d x def s' :
  validate_dataset_scope c (Some t) d x s = (Val def, s') ↔
  DATASET_REGISTRY c = Some def ∧ t = scope_upper (dt_scope def) ∧ owner_shape t d x ∧ s' = s.
Proof.
  unfold validate_dataset_scope, get_dataset_definition, bind, get_or_raise, ret, raise,
    owner_shape.
  destruct (DATASET_REGISTRY c) as [def'|]; [|split; [easy|intros (? & _); discriminate]].
  destruct (String.eqb_spec t (scope_upper (dt_scope def'))) as [->|Hne]; simpl.
  2: { split; [easy|]. intros ([= ->] & -> & _). congruence. }
  destruct (String.eqb_spec (scope_upper (dt_scope def')) "SYSTEM") as [Es|Hs];
    [|destruct (String.eqb_spec (scope_upper (dt_scope def')) "DEPARTMENT") as [Ed|Hd];
      [|destruct (String.eqb_spec (scope_upper (dt_scope def')) "STATION") as [Ex|Hx]]].
  all: destruct d, x; simpl; try rewrite Es; try rewrite Ed; try rewrite Ex.
  all: split; [intros [= <- <-]|intros ([= <-] & _ & ? & ->)].
  all: naive_solver.
Qed.

(** The registry's table is well formed: every entry is found under its own
    code, codes are distinct, the scope is one of the three, the current schema
    version is supported and within its bounds, every dataset has a source builder and the one
    validator, and its summary reports a source revision. *)
Theorem registry_well_formed :
  NoDup (dt_code <$> _DEFINITIONS) ∧
  Forall (λ d, DATASET_REGISTRY (dt_code d) = Some d
    ∧ mem_str (dt_scope d) ["system"; "department"; "station"] = true
    ∧ existsb (Z.eqb (dt_current_schema_version d)) (dt_supported_schema_versions d) = true
    ∧ forallb (λ v, (dt_minimum_supported_schema_version d <=? v)
                    && (v <=? dt_maximum_supported_schema_version d))
        (dt_supported_schema_versions d) = true
    ∧ mem_str (dt_builder_service d) SOURCE_BUILDERS = true
    ∧ dt_validator_service d = "summary"
    ∧ assoc "source_revision" (dt_summary_schema d) = Some "non_negative_integer")
    _DEFINITIONS.
Proof.
  split; [apply (bool_decide_unpack _); vm_compute; exact I|].
  repeat (apply List.Forall_cons; [split_and!; reflexivity|]). apply List.Forall_nil.
Qed.

(** ** Fingerprints *)

(** The fingerprint of a file library does not depend on bookkeeping: two
    snapshots of a library with the same folders and the same documents, up to the
    source revision, the content identifiers and the order of the rows, have the
    same fingerprint. *)
Theorem fingerprint_ignores_bookkeeping `{Hash} library r r' folders folders' documents
    documents' :
  is_file_library_snapshot (library_snapshot library r folders documents) = true →
  is_file_library_snapshot (library_snapshot library r' folders' documents') = true →
  folders' ≡ₚ folders → NoDup (str_key "id" <$> folders') →
  map (without_key "content_id") documents' ≡ₚ map (without_key "content_id") documents →
  NoDup (str_key "id" <$> map (without_key "content_id") documents') →
  source_fingerprint_for_payload (library_snapshot library r' folders' documents') =
  source_fingerprint_for_payload (library_snapshot library r folders documents).
Proof.
  intros L L' Pf Nf Pd Nd. unfold source_fingerprint_for_payload.
  change (keys_are ["_exact_source_sha256"] (library_snapshot library r folders documents))
    with false.
  change (keys_are ["_exact_source_sha256"] (library_snapshot library r' folders' documents'))
    with false.
  rewrite L, L'. unfold logical_library_payload. simpl.
  rewrite (sort_by_canonical _ _ _ Pf Nf), (sort_by_canonical _ _ _ Pd Nd). reflexivity.
Qed.

Lemma fingerprint_ignores_bookkeeping_witness :
  source_fingerprint_for_payload (library_snapshot demo_library 2 [demo_folder]
    [demo_document "b" "9"; demo_document "a" "8"]) =
  source_fingerprint_for_payload (library_snapshot demo_library 1 [demo_folder]
    [demo_document "a" "1"; demo_document "b" "2"]).
Proof.
  apply fingerprint_ignores_bookkeeping; [reflexivity|reflexivity|reflexivity| | |].
  - apply (bool_decide_unpack _). vm_compute. exact I.
  - simpl. constructor.
  - apply (bool_decide_unpack _). vm_compute. exact I.
Defined.

(** ** Build summaries *)

(** A build summary that passes the validation of its dataset has exactly the
    fields of the dataset's schema; every counter is a non-negative integer, and
    every item count is within the configured limit. *)
Theorem validated_summary_bounds `{Settings} def summary (s s' : Db) u field kind :
  validate_built_summary def summary s = (Val u, s') →
  (field, kind) ∈ dt_summary_schema def →
  kind = "item_count" ∨ kind = "non_negative_integer" →
  ∃ z, jget field summary = Some (JInt z) ∧ 0 ≤ z
    ∧ (kind = "item_count" → z ≤ PUBLICATION_BUILD_SUMMARY_MAX_ITEMS).
Proof.
  unfold validate_built_summary. intros E Hin Hk.
  destruct (String.eqb _ _); [|discriminate]. unfold validate_summary in E.
  apply bind_Val in E as (u' & s1 & _ & E). revert s1 E.
  induction (dt_summary_schema def) as [|[f k] l IH]; [inversion Hin|].
  intros s1 E. apply bind_Val in E as (u1 & s2 & E1 & E2).
  apply elem_of_cons in Hin as [[= <- <-]|Hin]; [|exact (IH Hin s2 E2)]. clear IH E2.
  apply bind_Val in E1 as (value & s3 & Ev & E1). unfold get_or_raise in Ev.
  destruct (jget field summary) as [v|]; [|discriminate]. injection Ev as -> ->.
  unfold validate_summary_field in E1. apply bind_Val in E1 as (? & s4 & G1 & E1).
  apply guard_Val in G1 as [G1 ->]. apply bind_Val in E1 as (? & s5 & G2 & _).
  apply guard_Val in G2 as [G2 _].
  assert (Hm : mem_str kind ["item_count"; "non_negative_integer"] = true).
  { destruct Hk as [->| ->]; reflexivity. }
  rewrite Hm in G1. simpl in G1. destruct value; try discriminate G1. exists z.
  split_and!; [reflexivity|apply Z.leb_le, G1|]. intros ->. apply Z.leb_le. exact G2.
Qed.

Lemma validated_summary_bounds_witness :
  ∃ def z, DATASET_REGISTRY "department_phonebook" = Some def ∧
    jget "entry_count" demo_phonebook_summary = Some (JInt z) ∧ 0 ≤ z
    ∧ ("item_count" = "item_count" → z ≤ PUBLICATION_BUILD_SUMMARY_MAX_ITEMS).
Proof.
  destruct (row_with (λ _, tt) (DATASET_REGISTRY "department_phonebook") tt) as (def & E & _);
    [reflexivity|]. exists def. revert E. vm_compute (DATASET_REGISTRY _). intros [= <-].
  destruct (validated_summary_bounds (simple_definition "department_phonebook"
    "Department phonebook" "department" "json" 1
    [("entry_count", "item_count"); ("source_revision", "non_negative_integer")]
    false "publications" false false) demo_phonebook_summary demo_start demo_start tt
    "entry_count" "item_count") as (z & Hz).
  - vm_compute. reflexivity.
  - left.
  - left. reflexivity.
  - exists z. split; [reflexivity|exact Hz].
Defined.

(** ** The nightly window *)

(** A change of the source is built in the next nightly window: the time
    computed is the first instant strictly after now that is five minutes after
    midnight, whatever the start of the debounce window was. *)
Theorem data_change_waits_for_the_night now debounce :
  let t := _data_change_not_before now debounce in
  now < t ≤ now + MICROSECONDS_PER_DAY ∧ t mod MICROSECONDS_PER_DAY = NIGHTLY_OFFSET
  ∧ (∀ u, now < u → u mod MICROSECONDS_PER_DAY = NIGHTLY_OFFSET → t ≤ u)
  ∧ ∀ debounce', _data_change_not_before now debounce' = t.
Proof.
  unfold _data_change_not_before. simpl. set (D := MICROSECONDS_PER_DAY).
  assert (HD : D = 86400000000) by reflexivity.
  assert (HN : NIGHTLY_OFFSET = 300000000) by reflexivity. rewrite HN. clearbody D.
  pose proof (Z.div_mod now D ltac:(lia)) as Hd.
  pose proof (Z.mod_pos_bound now D ltac:(lia)) as Hb.
  set (q := now / D) in *. set (m := now mod D) in *.
  assert (U : ∀ u, now < u → u mod D = 300000000 → u = D * (u / D) + 300000000).
  { intros u _ Hu. rewrite <- Hu. apply Z.div_mod. lia. }
  destruct (Z.leb_spec 300000000 m) as [Hm|Hm]; (split_and!; [lia|lia| | |reflexivity]).
  - replace (now - m + 300000000 + D) with (300000000 + (q + 1) * D) by lia.
    rewrite Z.mod_add, Z.mod_small by lia. reflexivity.
  - intros u Hu Eu. specialize (U u Hu Eu). assert (q + 1 ≤ u / D) by nia. nia.
  - replace (now - m + 300000000) with (300000000 + q * D) by lia.
    rewrite Z.mod_add, Z.mod_small by lia. reflexivity.
  - intros u Hu Eu. specialize (U u Hu Eu). assert (q ≤ u / D) by nia. nia.
Qed.

Lemma data_change_waits_for_the_night_witness :
  let t := _data_change_not_before (db_clock demo_start) (Some 0) in
  t ≤ 86700000000 ∧ t = _data_change_not_before (db_clock demo_start) None.
Proof.
  destruct (data_change_waits_for_the_night (db_clock demo_start) (Some 0)) as (_ & _ & F & G).
  split; [apply F; reflexivity|symmetry; apply G].
Defined.
