(* ===== verification/TabletInv.v ===== *)
(** The invariant of the tablets: who is registered, who is installed, who has been
    invited and who holds keys; the rules by which the updates of the services keep
    it. *)
From S2P Require Import Prelude Text Versions Models Registry Lifecycle Store Authorization.
From S2P Require Import Fingerprint Artifacts ApplicationSecrets Tablets Manifests Grants.
From S2P Require Import Restore Queue.
From S2P Require Import Build Totality.

Definition current (i : AppInstallation) : Prop := current_status (in_status i) = true.

(** The asset is in stock or in service. *)
Definition asset_available (st : TabletStatus) : bool :=
  match st with TABLET_INACTIVE | TABLET_ACTIVE => true | _ => false end.

(** Some grant of the table gives the installation a key, or is going to. *)
Definition live_grant (grants : gmap N KeyGrant) (iid : N) : Prop :=
  ∃ k g, grants !! k = Some g ∧ kg_app_installation g = iid ∧ kg_status g ≠ GRANT_REVOKED.

Definition holds_key (s : Db) (iid : N) : Prop :=
  live_grant (db_key_grants s) iid ∨ live_grant (db_generation_key_grants s) iid.

Record RegisteredInv (tablets : gmap N Tablet) : Prop := mkRegisteredInv {
  reg_active : ∀ k t, tablets !! k = Some t → tb_active t = asset_available (tb_status t);
  reg_name : ∀ k k' t t', tablets !! k = Some t → tablets !! k' = Some t' →
    tb_department t = tb_department t' → tb_display_name t = tb_display_name t' → k = k';
  reg_number : ∀ k k' t t', tablets !! k = Some t → tablets !! k' = Some t' →
    tb_department t = tb_department t' → tb_asset_number t = tb_asset_number t' →
    tb_asset_number t ≠ "" → k = k'
}.

Record InstalledInv (tablets : gmap N Tablet) (installations : gmap N AppInstallation) : Prop :=
  mkInstalledInv {
  ins_uuid : ∀ k k' i i', installations !! k = Some i → installations !! k' = Some i' →
    in_installation_uuid i = in_installation_uuid i' → k = k';
  ins_current : ∀ k k' i i', installations !! k = Some i → installations !! k' = Some i' →
    in_tablet i = in_tablet i' → current i → current i' → k = k';
  ins_tablet : ∀ k i, installations !! k = Some i → current i →
    ∃ t, tablets !! in_tablet i = Some t ∧ asset_available (tb_status t) = true
}.

Record InvitedInv (invitations : gmap N AdoptionInvitation) : Prop := mkInvitedInv {
  inv_token : ∀ k k' i i', invitations !! k = Some i → invitations !! k' = Some i' →
    iv_token_hash i = iv_token_hash i' → k = k';
  inv_attempts : ∀ k i, invitations !! k = Some i →
    MAX_FAILED_ATTEMPTS ≤ iv_failed_attempt_count i → iv_revoked_at i ≠ None
}.

(** Only current installations hold keys. *)
Definition GrantedInv (s : Db) : Prop :=
  ∀ iid, holds_key s iid → ∃ i, db_installations s !! iid = Some i ∧ current i.

Record TabletInv (s : Db) : Prop := mkTabletInv {
  ti_registered : RegisteredInv (db_tablets s);
  ti_installed : InstalledInv (db_tablets s) (db_installations s);
  ti_invited : InvitedInv (db_invitations s);
  ti_granted : GrantedInv s
}.

(** The installations as they were, some of them not current any more. *)
Definition withdrawn (m m' : gmap N AppInstallation) : Prop :=
  ∀ k i', m' !! k = Some i' → ∃ i, m !! k = Some i
    ∧ in_installation_uuid i' = in_installation_uuid i ∧ in_tablet i' = in_tablet i
    ∧ (current i' → current i).

(** What the invariant looks at. *)
Definition tablet_tables (s : Db) :=
  (db_tablets s, db_installations s, db_invitations s, db_key_grants s,
   db_generation_key_grants s).

(** Everything but the key grants. *)
Definition but_grants (s : Db) : Db :=
  s <| db_key_grants := ∅ |> <| db_generation_key_grants := ∅ |>.

Definition keeps_inv (s s' : Db) : Prop := TabletInv s → TabletInv s'.

#[export] Instance keeps_inv_preorder : PreOrder keeps_inv.
Proof. split; unfold keeps_inv; [intros s|intros s s' s'']; auto. Qed.

(** ** History *)

(** An installation keeps its row and its identity; one that was withdrawn never
    changes again. *)
Definition installation_history (s s' : Db) : Prop :=
  ∀ k i, db_installations s !! k = Some i → ∃ i', db_installations s' !! k = Some i'
    ∧ in_installation_uuid i' = in_installation_uuid i ∧ in_tablet i' = in_tablet i
    ∧ in_hpke_public_key i' = in_hpke_public_key i ∧ (¬ current i → i' = i).

Definition asset_step (st st' : TabletStatus) : Prop := st' ∈ ASSET_TRANSITIONS st.

(** A tablet keeps its row, department, name and number, and its status moves along
    the transitions of the code. *)
Definition asset_history (s s' : Db) : Prop :=
  ∀ k t, db_tablets s !! k = Some t → ∃ t', db_tablets s' !! k = Some t'
    ∧ tb_department t' = tb_department t ∧ tb_display_name t' = tb_display_name t
    ∧ tb_asset_number t' = tb_asset_number t ∧ rtc asset_step (tb_status t) (tb_status t').

(** One step of the program: the invariant is kept and history respected. *)
Definition evolves (s s' : Db) : Prop :=
  TabletInv s → TabletInv s' ∧ installation_history s s' ∧ asset_history s s'.

#[export] Instance installation_history_preorder : PreOrder installation_history.
Proof.
  split.
  - intros s k i Hi. exists i. auto.
  - intros s1 s2 s3 H12 H23 k i Hi. destruct (H12 k i Hi) as (j & Hj & E1 & E2 & E3 & E4).
    destruct (H23 k j Hj) as (l & Hl & F1 & F2 & F3 & F4). exists l.
    split_and!; [exact Hl|congruence..|]. intros Hc. specialize (E4 Hc). subst j. auto.
Qed.

#[export] Instance asset_history_preorder : PreOrder asset_history.
Proof.
  split.
  - intros s k t Ht. exists t. split_and!; reflexivity || exact Ht.
  - intros s1 s2 s3 H12 H23 k t Ht. destruct (H12 k t Ht) as (t2 & Ht2 & E1 & E2 & E3 & E4).
    destruct (H23 k t2 Ht2) as (t3 & Ht3 & F1 & F2 & F3 & F4). exists t3.
    split_and!; [exact Ht3|congruence..|]. etrans; eassumption.
Qed.

#[export] Instance evolves_preorder : PreOrder evolves.
Proof.
  split.
  - intros s I. split_and!; [exact I|reflexivity..].
  - intros s1 s2 s3 H12 H23 I. destruct (H12 I) as (I2 & A & B). destruct (H23 I2) as (I3 & C & D).
    split_and!; [exact I3|etrans; eassumption..].
Qed.

Lemma same_installations s s' :
  db_installations s' = db_installations s → installation_history s s'.
Proof. intros E k i Hi. exists i. rewrite E. auto. Qed.

Lemma same_tablets s s' : db_tablets s' = db_tablets s → asset_history s s'.
Proof. intros E k t Ht. exists t. rewrite E. split_and!; reflexivity || exact Ht. Qed.

(** ** Rules *)

Lemma tables_inv s s' : tablet_tables s' = tablet_tables s → keeps_inv s s'.
Proof.
  intros [= E1 E2 E3 E4 E5] [R I V G]. split.
  - rewrite E1. exact R.
  - rewrite E1, E2. exact I.
  - rewrite E3. exact V.
  - unfold GrantedInv, holds_key. rewrite E2, E4, E5. exact G.
Qed.

Lemma keeps_tables_inv {A} (m : M Db A) : keeps tablet_tables m → preserves keeps_inv m.
Proof. intros H s. apply tables_inv, H. Qed.

Lemma inv_atomic {A} (m : M Db A) :
  (∀ s, TabletInv s → wlp m s (λ _ s', TabletInv s')) → preserves keeps_inv (atomic m).
Proof.
  intros H. apply preserves_atomic_wlp; [exact _|]. intros s.
  unfold wlp. specialize (H s). unfold wlp in H. destruct (m s) as [[a|e] s']; [|exact I].
  intros I. exact (H I).
Qed.

Lemma inv_transaction {A} (m : M Db A) :
  (∀ s, TabletInv s → wlp (atomic m) s (λ _ s', TabletInv s')) → preserves keeps_inv (atomic m).
Proof.
  intros H. apply inv_atomic. intros s I. specialize (H s I).
  unfold wlp, atomic in *. destruct (m s) as [[a|e] s']; auto.
Qed.

Lemma inv_wlp {A} (m : M Db A) s : preserves keeps_inv m → TabletInv s →
  wlp m s (λ _ s', TabletInv s').
Proof. intros H I. eapply wlp_mono; [apply preserves_wlp, H|]. auto. Qed.

(** A row that keeps what the invariant reads. *)
Lemma rows_lookup {A} (m : gmap N A) k a' : ∀ j b,
  <[k:=a']> m !! j = Some b → (j = k ∧ b = a') ∨ (j ≠ k ∧ m !! j = Some b).
Proof. intros j b H. apply lookup_insert_Some in H as [[-> ->]|[? H]]; auto. Qed.

(** ** Grants *)

Lemma revoked_not_live now g : kg_status (revoke_grant now g) = GRANT_REVOKED.
Proof. reflexivity. Qed.

Lemma update_live (P : KeyGrant → bool) now gs iid :
  live_grant ((λ g, if P g then revoke_grant now g else g) <$> gs) iid →
  ∃ k g, gs !! k = Some g ∧ kg_app_installation g = iid ∧ kg_status g ≠ GRANT_REVOKED
    ∧ P g = false.
Proof.
  intros (k & g & Hk & Ei & Hs). rewrite lookup_fmap in Hk.
  destruct (gs !! k) as [g0|] eqn:E; [|discriminate]. simpl in Hk. injection Hk as <-.
  destruct (P g0) eqn:EP; [destruct Hs; reflexivity|]. exists k, g0. auto.
Qed.

Lemma wlp_revoke_dataset_key_grants iid s (Q : Z → Db → Prop) :
  (∀ n s', but_grants s' = but_grants s →
     (∀ j, holds_key s' j → holds_key s j ∧ j ≠ iid) → Q n s') →
  wlp (revoke_dataset_key_grants iid) s Q.
Proof.
  intros HQ. unfold wlp, revoke_dataset_key_grants. cbn. apply HQ; [reflexivity|].
  intros j [H|H]; cbn in H; apply update_live in H as (k & g & Hk & Ei & Hs & HP).
  all: assert (N.eqb (kg_app_installation g) iid = false) as Ne by
    (unfold grant_revocable, grant_not_revoked in HP; destruct (N.eqb _ _); [|reflexivity];
     simpl in HP; destruct (kg_status g); try discriminate HP; done).
  all: apply N.eqb_neq in Ne; split; [|congruence].
  - left. exists k, g. auto.
  - right. exists k, g. auto.
Qed.

Lemma wlp_for_each_revoke l s (Q : unit → Db → Prop) :
  (∀ s', but_grants s' = but_grants s →
     (∀ j, holds_key s' j → holds_key s j ∧ j ∉ l.*1) → Q tt s') →
  wlp (for_each l revoke_installation_grants) s Q.
Proof.
  revert s Q. induction l as [|r l IH]; intros s Q HQ; cbn [for_each].
  - apply HQ; [reflexivity|]. intros j Hj. split; [exact Hj|apply not_elem_of_nil].
  - apply wlp_bind. unfold revoke_installation_grants. apply wlp_bind.
    apply wlp_revoke_dataset_key_grants. intros n s1 E1 H1. apply wlp_ret.
    apply IH. intros s2 E2 H2. apply HQ; [congruence|]. intros j Hj.
    apply H2 in Hj as [Hj Hl]. apply H1 in Hj as [Hj Hr]. split; [exact Hj|].
    cbn. rewrite not_elem_of_cons. auto.
Qed.

(** ** Installations *)

Lemma installed_withdrawn tablets m m' :
  withdrawn m m' → InstalledInv tablets m → InstalledInv tablets m'.
Proof.
  intros W [U C T]. split.
  - intros k k' i i' Hi Hi' Eu. apply W in Hi as (i0 & H & E & _), Hi' as (i0' & H' & E' & _).
    eapply U; [exact H|exact H'|congruence].
  - intros k k' i i' Hi Hi' Et Hc Hc'.
    apply W in Hi as (i0 & H & _ & E & F), Hi' as (i0' & H' & _ & E' & F').
    eapply C; [exact H|exact H'|congruence|auto|auto].
  - intros k i Hi Hc. apply W in Hi as (i0 & H & _ & E & F). rewrite E.
    eapply T; [exact H|auto].
Qed.

Lemma withdrawn_insert m iid i i' :
  m !! iid = Some i → in_installation_uuid i' = in_installation_uuid i →
  in_tablet i' = in_tablet i → (current i' → current i) → withdrawn m (<[iid:=i']> m).
Proof.
  intros Hi Eu Et Hc k j [[-> ->]|[Hk H]]%rows_lookup; [eauto|]. exists j. auto.
Qed.

Lemma withdrawn_update m (P : AppInstallation → bool) (f : AppInstallation → AppInstallation) :
  (∀ i, in_installation_uuid (f i) = in_installation_uuid i ∧ in_tablet (f i) = in_tablet i
    ∧ (current (f i) → current i)) →
  withdrawn m ((λ i, if P i then f i else i) <$> m).
Proof.
  intros Hf k i'. rewrite lookup_fmap. destruct (m !! k) as [i|]; [|discriminate].
  intros [= <-]. exists i. destruct (P i); [|auto]. destruct (Hf i) as (?&?&?). auto.
Qed.

(** A row of a current installation that stays current. *)
Lemma inv_save_installation iid i i' s :
  db_installations s !! iid = Some i → in_installation_uuid i' = in_installation_uuid i →
  in_tablet i' = in_tablet i → current_status (in_status i') = current_status (in_status i) →
  keeps_inv s (s <| db_installations ::= <[iid:=i']> |>).
Proof.
  intros Hi Eu Et Ec [R I V G]. split; [exact R| |exact V|].
  - eapply installed_withdrawn; [|exact I].
    eapply withdrawn_insert; [exact Hi|exact Eu|exact Et|]. unfold current. congruence.
  - intros j Hj. apply G in Hj as (k & Hk & Hc). cbn.
    destruct (decide (j = iid)) as [->|Hne].
    + exists i'. rewrite lookup_insert_eq. split; [reflexivity|]. unfold current in *. congruence.
    + exists k. rewrite lookup_insert_ne by congruence. auto.
Qed.

Lemma keeps_inv_save_installation iid f :
  (∀ i, in_installation_uuid (f i) = in_installation_uuid i ∧ in_tablet (f i) = in_tablet i
    ∧ in_status (f i) = in_status i) →
  preserves keeps_inv (save db_installations iid f).
Proof.
  intros Hf s. unfold save. destruct (db_installations s !! iid) as [i|] eqn:E; [|reflexivity].
  destruct (Hf i) as (Eu & Et & Es). apply (inv_save_installation _ i); [exact E|exact Eu|exact Et|].
  congruence.
Qed.

(** ** Invitations *)

Lemma invited_insert m iv i i' :
  m !! iv = Some i → iv_token_hash i' = iv_token_hash i →
  (MAX_FAILED_ATTEMPTS ≤ iv_failed_attempt_count i' → iv_revoked_at i' ≠ None) →
  InvitedInv m → InvitedInv (<[iv:=i']> m).
Proof.
  intros Hi Et Ha [T A]. split.
  - intros k k' j j' [[-> ->]|[Hk H]]%rows_lookup [[-> ->]|[Hk' H']]%rows_lookup E.
    + reflexivity.
    + eapply T; [exact Hi|exact H'|congruence].
    + eapply T; [exact H|exact Hi|congruence].
    + eapply T; eassumption.
  - intros k j [[-> ->]|[Hk H]]%rows_lookup; [exact Ha|eauto].
Qed.

Lemma invited_fmap m (f : AdoptionInvitation → AdoptionInvitation) :
  (∀ i, iv_token_hash (f i) = iv_token_hash i
    ∧ iv_failed_attempt_count (f i) = iv_failed_attempt_count i
    ∧ (iv_revoked_at i ≠ None → iv_revoked_at (f i) ≠ None)) →
  InvitedInv m → InvitedInv (f <$> m).
Proof.
  intros Hf [T A]. split.
  - intros k k' i i'. rewrite !lookup_fmap.
    destruct (m !! k) as [j|] eqn:E, (m !! k') as [j'|] eqn:E'; simpl; try discriminate.
    intros [= <-] [= <-]. destruct (Hf j) as (-> & _), (Hf j') as (-> & _). eauto.
  - intros k i. rewrite lookup_fmap. destruct (m !! k) as [j|] eqn:E; [|discriminate].
    intros [= <-]. destruct (Hf j) as (_ & -> & Hr). eauto.
Qed.

(** ** Tablets *)

Lemma registered_insert m tid t t' :
  m !! tid = Some t → tb_department t' = tb_department t →
  tb_display_name t' = tb_display_name t → tb_asset_number t' = tb_asset_number t →
  tb_active t' = asset_available (tb_status t') → RegisteredInv m → RegisteredInv (<[tid:=t']> m).
Proof.
  intros Ht Ed En Ea Hact [A N U]. split.
  - intros k j [[-> ->]|[Hk H]]%rows_lookup; [exact Hact|eauto].
  - intros k k' j j' [[-> ->]|[Hk H]]%rows_lookup [[-> ->]|[Hk' H']]%rows_lookup E1 E2.
    + reflexivity.
    + eapply N; [exact Ht|exact H'|congruence|congruence].
    + eapply N; [exact H|exact Ht|congruence|congruence].
    + eapply N; eassumption.
  - intros k k' j j' [[-> ->]|[Hk H]]%rows_lookup [[-> ->]|[Hk' H']]%rows_lookup E1 E2 E3.
    + reflexivity.
    + eapply U; [exact Ht|exact H'|congruence|congruence|congruence].
    + eapply U; [exact H|exact Ht|congruence|congruence|congruence].
    + eapply U; eassumption.
Qed.

(** A transition of the asset; a withdrawn asset has no current installation. *)
Lemma inv_save_tablet tid t st s :
  db_tablets s !! tid = Some t →
  (asset_available st = false →
     ∀ k i, db_installations s !! k = Some i → in_tablet i = tid → ¬ current i) →
  keeps_inv s (s <| db_tablets ::= <[tid := t <| tb_status := st |>
                                      <| tb_active := asset_available st |>]> |>).
Proof.
  intros Ht Hno [R I V G]. split; [|split|exact V|exact G].
  - eapply registered_insert; [exact Ht|reflexivity..|exact R].
  - apply (ins_uuid _ _ I).
  - apply (ins_current _ _ I).
  - intros k i Hk Hc. destruct (ins_tablet _ _ I _ _ Hk Hc) as (t0 & H0 & Ha). cbn.
    destruct (decide (in_tablet i = tid)) as [Ei|Hne].
    + rewrite Ei, lookup_insert_eq. eexists. split; [reflexivity|]. cbn.
      destruct (asset_available st) eqn:E; [reflexivity|]. destruct (Hno eq_refl _ _ Hk Ei Hc).
    + rewrite lookup_insert_ne by congruence. eauto.
Qed.
