(* ===== verification/TabletServices.v ===== *)
(** Every service of [Tablets.v] keeps the invariant of the tablets, and what the
    completion of an adoption does. *)
From S2P Require Import Prelude Text Versions Models Registry Lifecycle Store Authorization.
From S2P Require Import Fingerprint Artifacts ApplicationSecrets Tablets Manifests Grants.
From S2P Require Import Restore Queue.
From S2P Require Import Build Totality TabletInv.

(** ** Definitions *)

Definition current_row (s : Db) (iid : N) : Prop :=
  ∃ i, db_installations s !! iid = Some i ∧ current i.

(** The invariant is kept, the listed installations stay current and nobody else's
    row changes. *)
Definition keeps_current (l : list N) (s s' : Db) : Prop :=
  TabletInv s ∧ (∀ k, k ∈ l → current_row s k) →
  (TabletInv s' ∧ (∀ k, k ∈ l → current_row s' k)) ∧ installation_history s s'.

Section adoption.
Context `{Hash} `{Secrets}.

(** What a new installation is. *)
Definition new_installation (tid : N) (department : Department) (r : AdoptionRequest)
    (v : AdoptionInvitation) (credential : string) (now : Z) : AppInstallation :=
  mkAppInstallation tid (ar_installation_uuid r) (_secret_digest credential)
    INSTALLATION_ACTIVE (ar_app_version r) (ar_app_version r) (ar_app_build r) now
    (ar_hpke_public_key r) (ar_hpke_ciphersuite r) (ar_hpke_public_key_fingerprint r) now now
    (Some (iv_created_by v)) None (lease_target department now) None None "" false.

(** The installations of a tablet when a new one takes over. *)
Definition replaced (tid : N) (i : AppInstallation) : AppInstallation :=
  if N.eqb (in_tablet i) tid && current_status (in_status i)
  then i <| in_status := INSTALLATION_REPLACED |> else i.

Definition completed (now : Z) (r : AdoptionRequest) : AdoptionRequest :=
  r <| ar_completed_at := Some now |>
    <| ar_completion_replay_valid_until := Some (now + COMPLETION_REPLAY_DURATION) |>.

(** What the completion of request [rid] requires of [s] and makes of it. *)
Inductive adopted (s : Db) (rid : N) : N * string → Db → Prop :=
| Adopted r iv v t d k credential s' :
    db_adoption_requests s !! rid = Some r → ar_invitation r = Some iv →
    db_invitations s !! iv = Some v → db_tablets s !! iv_tablet v = Some t →
    db_departments s !! tb_department t = Some d →
    ar_completed_at r = None → db_clock s < ar_expires_at r →
    ar_failed_attempt_count r < MAX_FAILED_ATTEMPTS →
    iv_used_at v = None → iv_revoked_at v = None →
    dept_active d = true → tb_active t = true → asset_available (tb_status t) = true →
    _has_current_operational_assignment s (iv_tablet v) t (db_clock s) = true →
    (∀ j i, db_installations s !! j = Some i →
       in_installation_uuid i ≠ ar_installation_uuid r) →
    db_installations s !! k = None →
    db_tablets s' = db_tablets s →
    db_installations s' = <[k := new_installation (iv_tablet v) d r v credential (db_clock s)]>
      (replaced (iv_tablet v) <$> db_installations s) →
    db_invitations s' = <[iv := v <| iv_used_at := Some (db_clock s) |>]> (db_invitations s) →
    db_adoption_requests s' = <[rid := completed (db_clock s) r]> (db_adoption_requests s) →
    (∀ j, holds_key s' j → holds_key s j) →
    (∀ j i, holds_key s' j → db_installations s' !! j = Some i → in_tablet i = iv_tablet v →
       in_status i ≠ INSTALLATION_REPLACED) →
    adopted s rid (k, credential) s'.
End adoption.

(** Pass the checks and queries at the head of a transaction. *)
Ltac pass_queries :=
  repeat lazymatch goal with
  | |- wlp (bind ?m _) _ _ =>
      apply wlp_skip;
      [solve [first [preserve|let h := program_head m in unfold h; preserve]]|intros ? _]
  end.

(** ** Registration *)

Lemma registered_new m k t :
  m !! k = None → tb_active t = asset_available (tb_status t) →
  (∀ j t', m !! j = Some t' → tb_department t' = tb_department t →
     tb_display_name t' ≠ tb_display_name t
     ∧ (tb_asset_number t ≠ "" → tb_asset_number t' ≠ tb_asset_number t)) →
  RegisteredInv m → RegisteredInv (<[k:=t]> m).
Proof.
  intros Hk Ha Hu [A N U]. split.
  - intros j x [[-> ->]|[Hj Hx]]%rows_lookup; [exact Ha|eauto].
  - intros j j' x x' [[-> ->]|[Hj Hx]]%rows_lookup [[-> ->]|[Hj' Hx']]%rows_lookup E1 E2.
    + reflexivity.
    + destruct (Hu _ _ Hx') as [Hn _]; congruence.
    + destruct (Hu _ _ Hx) as [Hn _]; congruence.
    + eapply N; eassumption.
  - intros j j' x x' [[-> ->]|[Hj Hx]]%rows_lookup [[-> ->]|[Hj' Hx']]%rows_lookup E1 E2 E3.
    + reflexivity.
    + destruct (Hu _ _ Hx') as [_ Hn]; [congruence|]. destruct Hn; congruence.
    + destruct (Hu _ _ Hx) as [_ Hn]; [congruence|]. destruct Hn; congruence.
    + eapply U; eassumption.
Qed.

(** A new tablet has a name and a number of its own in its department. *)
Lemma wlp_create_tablet_row actor d name number s (Q : N → Db → Prop) :
  (∀ k, db_tablets s !! k = None →
     (∀ j t, db_tablets s !! j = Some t → tb_department t = d →
        tb_display_name t ≠ name ∧ (number ≠ "" → tb_asset_number t ≠ number)) →
     Q k (s <| db_tablets ::=
               <[k := mkTablet d number name TABLET_INACTIVE true (Some actor)]> |>)) →
  wlp (create_tablet_row actor d name number) s Q.
Proof.
  intros HQ. unfold create_tablet_row. apply wlp_bind, wlp_guard. intros _.
  unfold display_name_taken, asset_number_taken, exists_where.
  apply wlp_bind. unfold gets at 1, wlp at 1. apply wlp_bind. unfold gets at 1, wlp at 1.
  apply wlp_bind, wlp_guard. intros E. apply negb_true_iff, orb_false_iff in E as [En Ea].
  apply wlp_create. intros k Hk. apply HQ; [exact Hk|]. intros j t Hj Ed. split.
  - eapply exists_row_false in En; [|exact Hj]. rewrite Ed, N.eqb_refl in En.
    apply String.eqb_neq, En.
  - intros Hn. unfold str_true in Ea. destruct (String.eqb_spec number ""); [contradiction|].
    cbn in Ea. eapply exists_row_false in Ea; [|exact Hj]. rewrite Ed, N.eqb_refl in Ea.
    apply String.eqb_neq, Ea.
Qed.

Lemma inv_new_tablet k t s :
  db_tablets s !! k = None → tb_active t = asset_available (tb_status t) →
  (∀ j t', db_tablets s !! j = Some t' → tb_department t' = tb_department t →
     tb_display_name t' ≠ tb_display_name t
     ∧ (tb_asset_number t ≠ "" → tb_asset_number t' ≠ tb_asset_number t)) →
  keeps_inv s (s <| db_tablets ::= <[k := t]> |>).
Proof.
  intros Hk Ha Hu [R I V G]. split; [|split|exact V|exact G].
  - apply registered_new; assumption.
  - apply (ins_uuid _ _ I).
  - apply (ins_current _ _ I).
  - intros j i Hj Hc. destruct (ins_tablet _ _ I _ _ Hj Hc) as (t0 & H0 & Ha0). exists t0.
    cbn. rewrite lookup_insert_ne by congruence. auto.
Qed.

Lemma keeps_inv_create_tablet_row actor d name number :
  preserves keeps_inv (atomic (create_tablet_row actor d name number)).
Proof.
  apply inv_atomic. intros s I. apply wlp_create_tablet_row. intros k Hk Hu.
  apply inv_new_tablet; [exact Hk|reflexivity|exact Hu|exact I].
Qed.

(** The row is the last thing written, so an exception comes before it. *)
Lemma keeps_inv_create_tablet_row' actor d name number :
  preserves keeps_inv (create_tablet_row actor d name number).
Proof.
  intros s. pose proof (keeps_inv_create_tablet_row actor d name number s) as K.
  unfold atomic in K. destruct (create_tablet_row actor d name number s) as [[k|e] s'] eqn:E;
    [exact K|]. assert (s' = s) as ->; [|reflexivity].
  unfold create_tablet_row, display_name_taken, asset_number_taken, exists_where, bind, guard,
    gets, ret, raise, create in E.
  destruct (_ && _); [|congruence]. destruct (negb _); congruence.
Qed.

Lemma keeps_inv_allocation attempts actor did department name :
  preserves keeps_inv (allocation_loop attempts actor did department name).
Proof.
  revert department. induction attempts as [|n IH]; intros department; cbn [allocation_loop].
  - preserve.
  - apply preserves_bind; [exact _|apply keeps_tables_inv; frame|]. intros [number dep].
    apply preserves_bind; [exact _| |intros [tid|]; [preserve|apply IH]].
    unfold allocation_attempt, asset_number_taken. preserve. apply keeps_inv_create_tablet_row'.
Qed.

Lemma keeps_inv_create_tablet actor did name number :
  preserves keeps_inv (create_tablet actor did name number).
Proof.
  apply preserves_atomic; [exact _|].
  unfold create_manual_tablet, asset_number_taken, display_name_taken. preserve.
  - apply keeps_inv_allocation.
  - apply keeps_inv_create_tablet_row'.
  - apply keeps_tables_inv. frame.
  - apply keeps_tables_inv. frame.
Qed.

(** ** The lifecycle of the asset *)

Lemma keeps_tables_revoke_access actor reason :
  keeps tablet_tables (revoke_temporary_access actor reason).
Proof. frame. Qed.

Lemma wlp_save_tablet_status actor tid t st action s :
  TabletInv s → db_tablets s !! tid = Some t →
  (asset_available st = false →
     ∀ k i, db_installations s !! k = Some i → in_tablet i = tid → ¬ current i) →
  wlp (save_tablet_status actor tid t st (asset_available st) action) s (λ _ s', TabletInv s').
Proof.
  intros I Ht Hno. unfold save_tablet_status. apply wlp_bind, wlp_save. intros t' E.
  assert (t' = t) as -> by congruence.
  apply wlp_bind. eapply (wlp_frame tablet_tables); [frame|]. intros u s1 E1.
  apply wlp_bind. eapply (wlp_frame tablet_tables); [apply keeps_tables_revoke_access|].
  intros u' s2 E2. apply wlp_ret. eapply tables_inv; [rewrite E2, E1; reflexivity|].
  apply inv_save_tablet; assumption.
Qed.

Lemma keeps_inv_revoke_grants iid : preserves keeps_inv (revoke_dataset_key_grants iid).
Proof.
  intros s. eapply (wlp_revoke_dataset_key_grants iid s (λ _ s', keeps_inv s s')).
  intros n s' E Hh [R I V G]. apply (f_equal tablet_tables) in E as E'. injection E' as E1 E2 E3.
  split; [rewrite E1; exact R|rewrite E1, E2; exact I|rewrite E3; exact V|].
  intros j [Hj _]%Hh. rewrite E2. apply G, Hj.
Qed.

Lemma keeps_inv_withdraw_installation r : preserves keeps_inv (withdraw_installation r).
Proof.
  unfold withdraw_installation. apply preserves_bind; [exact _|apply keeps_inv_revoke_grants|].
  intros _. apply keeps_tables_inv. frame.
Qed.

Lemma not_in_rows {A} (m : gmap N A) P k a :
  m !! k = Some a → k ∉ (rows m P).*1 → P k a = false.
Proof.
  intros Hk Hn. apply not_true_is_false. intros HP. apply Hn. apply list_elem_of_fmap.
  exists (k, a). split; [reflexivity|]. apply rows_elem. auto.
Qed.

(** Withdrawing a tablet takes its installations out of service. *)
Lemma wlp_revoke_tablet_installations tid reason now s :
  TabletInv s →
  wlp (_revoke_tablet_installations tid reason now) s (λ _ s',
    TabletInv s' ∧ db_tablets s' = db_tablets s
    ∧ ∀ k i, db_installations s' !! k = Some i → in_tablet i = tid → ¬ current i).
Proof.
  intros [R I V G]. unfold _revoke_tablet_installations. cbn zeta.
  set (P := λ i, _ && _). set (f := λ i : AppInstallation, _).
  apply wlp_bind. unfold update_where at 1. cbn. apply wlp_bind, wlp_bind. cbn.
  apply wlp_bind, wlp_bind. unfold installations_of. cbn.
  set (s1 := s <| _ ::= _ |> <| _ ::= _ |>).
  apply wlp_for_each_revoke. intros s2 E2 H2. cbn.
  pose proof (f_equal tablet_tables E2) as E. injection E as E1 Ei Ev.
  assert (Hi : ∀ k i, db_installations s2 !! k = Some i →
    ∃ j, db_installations s !! k = Some j ∧ i = if P j then f j else j).
  { intros k i. rewrite Ei. cbn. rewrite lookup_fmap.
    destruct (db_installations s !! k) as [j|]; [|discriminate]. intros [= <-]. eauto. }
  assert (Hcur : ∀ j, current (if P j then f j else j) → current j ∧ P j = false).
  { intros j. unfold current. destruct (P j) eqn:EP; [discriminate|auto]. }
  split_and!.
  - split.
    + change (RegisteredInv (db_tablets s2)). rewrite E1. exact R.
    + change (InstalledInv (db_tablets s2) (db_installations s2)). rewrite E1, Ei. eapply installed_withdrawn; [|exact I]. apply withdrawn_update.
      intros j. split_and!; [reflexivity..|discriminate].
    + change (InvitedInv ((λ i, if (iv_tablet i =? tid)%N && negb (opt_true (iv_used_at i))
        && negb (opt_true (iv_revoked_at i)) then i <| iv_revoked_at := Some now |> else i)
        <$> db_invitations s2)). rewrite Ev. apply invited_fmap; [|exact V]. intros j.
      destruct (_ && _ && _); [split_and!; [reflexivity..|discriminate]|auto].
    + intros j [Hj Hn]%H2. destruct (G j Hj) as (i & Hk & Hc).
      change (∃ i, db_installations s2 !! j = Some i ∧ current i). rewrite Ei.
      change (db_installations s1) with ((λ i, if P i then f i else i) <$> db_installations s).
      rewrite lookup_fmap, Hk. eexists. split; [reflexivity|]. destruct (P i) eqn:EP; [|exact Hc].
      exfalso. eapply not_in_rows in Hn; [|rewrite lookup_fmap, Hk; reflexivity].
      rewrite EP in Hn. apply andb_false_iff in Hn as [Hn|Hn]; [|discriminate Hn].
      unfold P in EP. cbn in Hn. rewrite Hn in EP. discriminate.
  - exact E1.
  - intros k i Hk Et Hc. cbn in Hk. destruct (Hi _ _ Hk) as (j & Hj & ->).
    destruct (Hcur _ Hc) as [Hc' HP]. unfold P in HP. rewrite Hc', andb_true_r in HP.
    apply N.eqb_neq in HP. apply HP. destruct (P j); exact Et.
Qed.

Lemma keeps_inv_activate actor tid : preserves keeps_inv (activate_tablet actor tid).
Proof.
  apply inv_atomic. intros s I. apply wlp_bind, wlp_get_obj. intros t Ht.
  pass_queries.
  apply wlp_save_tablet_status; [exact I|exact Ht|discriminate].
Qed.

Lemma keeps_inv_recover actor tid : preserves keeps_inv (recover_tablet actor tid).
Proof.
  apply inv_atomic. intros s I. apply wlp_bind, wlp_get_obj. intros t Ht.
  pass_queries.
  apply wlp_save_tablet_status; [exact I|exact Ht|discriminate].
Qed.

Lemma keeps_inv_deactivate actor tid : preserves keeps_inv (deactivate_tablet actor tid).
Proof.
  apply inv_atomic. intros s I. apply wlp_bind, wlp_get_obj. intros t Ht.
  pass_queries.
  apply wlp_bind. eapply wlp_mono.
  - apply wlp_and; [|apply preserves_wlp; eapply (preserves_for_each (same db_tablets)); frame].
    apply inv_wlp; [|exact I]. apply preserves_for_each; [exact _|].
    apply keeps_inv_withdraw_installation.
  - intros u s' [I' E]. apply wlp_save_tablet_status; [exact I'|rewrite E; exact Ht|discriminate].
Qed.

Lemma keeps_inv_lost actor tid reason : preserves keeps_inv (mark_tablet_lost actor tid reason).
Proof.
  apply inv_atomic. intros s I. apply wlp_bind, wlp_get_obj. intros t Ht. pass_queries.
  apply wlp_bind. eapply wlp_mono; [apply wlp_revoke_tablet_installations, I|].
  intros u s' (I' & E & Hno). apply wlp_save_tablet_status; [exact I'|rewrite E; exact Ht|].
  intros _. exact Hno.
Qed.

Lemma keeps_inv_retire actor tid reason : preserves keeps_inv (retire_tablet actor tid reason).
Proof.
  apply inv_atomic. intros s I. apply wlp_bind, wlp_get_obj. intros t Ht. pass_queries.
  apply wlp_bind. eapply wlp_mono; [apply wlp_revoke_tablet_installations, I|].
  intros u s' (I' & E & Hno). apply wlp_save_tablet_status; [exact I'|rewrite E; exact Ht|].
  intros _. exact Hno.
Qed.

(** Rows of installations are withdrawn and their grants with them. *)
Lemma inv_withdrawn s s' :
  TabletInv s → db_tablets s' = db_tablets s → db_invitations s' = db_invitations s →
  withdrawn (db_installations s) (db_installations s') →
  (∀ j i, holds_key s' j → holds_key s j → db_installations s !! j = Some i → current i →
     ∃ i', db_installations s' !! j = Some i' ∧ current i') →
  (∀ j, holds_key s' j → holds_key s j) → TabletInv s'.
Proof.
  intros [R I V G] E1 E2 W HG Hh. split; [rewrite E1; exact R| |rewrite E2; exact V|].
  - rewrite E1. eapply installed_withdrawn; eassumption.
  - intros j Hj. destruct (G j (Hh j Hj)) as (i & Hi & Hc). exact (HG j i Hj (Hh j Hj) Hi Hc).
Qed.

Lemma keeps_inv_revoke_installation actor iid reason :
  preserves keeps_inv (revoke_installation actor iid reason).
Proof.
  apply inv_atomic. intros s I. apply wlp_bind, wlp_get_obj. intros i Hi. pass_queries.
  apply wlp_bind, wlp_save. intros i' Hi'. assert (i' = i) as -> by congruence.
  apply wlp_bind, wlp_revoke_dataset_key_grants. intros n s2 E2 H2.
  eapply (wlp_frame tablet_tables); [frame|]. intros r s3 E3.
  eapply tables_inv; [exact E3|]. pose proof (f_equal tablet_tables E2) as E.
  injection E as E1 Ei Ev. eapply inv_withdrawn; [exact I|exact E1|exact Ev| | |].
  - rewrite Ei. eapply withdrawn_insert; [exact Hi|reflexivity..|discriminate].
  - intros j k Hj _ Hk Hc. apply H2 in Hj as [_ Hne]. exists k. rewrite Ei. cbn.
    rewrite lookup_insert_ne by congruence. auto.
  - intros j [Hj _]%H2. exact Hj.
Qed.

(** ** Leases *)

#[export] Instance keeps_current_preorder l : PreOrder (keeps_current l).
Proof.
  split; unfold keeps_current.
  - intros s H. split; [exact H|reflexivity].
  - intros s s' s'' H1 H2 H. destruct (H1 H) as [H' A]. destruct (H2 H') as [H'' B].
    split; [exact H''|etrans; eassumption].
Qed.

Lemma keeps_current_tables {A} l (m : M Db A) : keeps tablet_tables m → preserves (keeps_current l) m.
Proof.
  intros H s [I C]. specialize (H s). pose proof (tables_inv _ _ H I) as I'.
  unfold current_row in *. injection H as _ E _. rewrite E.
  split; [auto|apply same_installations, E].
Qed.

Lemma keeps_current_save l iid f : iid ∈ l →
  (∀ i, in_installation_uuid (f i) = in_installation_uuid i ∧ in_tablet (f i) = in_tablet i
    ∧ in_hpke_public_key (f i) = in_hpke_public_key i ∧ (current i → current (f i))) →
  preserves (keeps_current l) (save db_installations iid f).
Proof.
  intros Hl Hf s [I C]. unfold save. destruct (C iid Hl) as (i & Hi & Hc). rewrite Hi.
  destruct (Hf i) as (Eu & Et & Ek & Hs). specialize (Hs Hc). split; [split|].
  - apply (inv_save_installation _ i); [exact Hi|exact Eu|exact Et| |exact I].
    unfold current in *. congruence.
  - intros k Hk. destruct (decide (k = iid)) as [->|Hne].
    + eexists. cbn. rewrite lookup_insert_eq. auto.
    + destruct (C k Hk) as (j & Hj & Hcj). exists j. cbn.
      rewrite lookup_insert_ne by congruence. auto.
  - intros k j Hj. cbn. destruct (decide (k = iid)) as [->|Hne].
    + assert (j = i) as -> by congruence. exists (f i). rewrite lookup_insert_eq.
      split_and!; [reflexivity|exact Eu|exact Et|exact Ek|intros Hn; contradiction].
    + exists j. rewrite lookup_insert_ne by congruence. auto.
Qed.

Lemma preserves_for_each_in {A} (R : relation Db) `{!PreOrder R} (l : list A) f :
  (∀ x, x ∈ l → preserves R (f x)) → preserves R (for_each l f).
Proof.
  induction l as [|x l IH]; intros Hf; cbn; [apply preserves_ret; exact _|].
  apply preserves_bind; [exact _|apply Hf; left|]. intros _. apply IH. intros y Hy. apply Hf.
  right. exact Hy.
Qed.

Lemma keeps_current_mark_stale l iid i d now : iid ∈ l →
  preserves (keeps_current l) (_mark_stale iid i d now).
Proof.
  intros Hl. unfold _mark_stale. apply preserves_bind; [exact _| |intros _].
  - apply keeps_current_save; [exact Hl|]. intros j. split_and!; reflexivity || done.
  - apply keeps_current_tables. frame.
Qed.

Lemma wlp_mark_stale_installations now s : TabletInv s →
  wlp (mark_stale_installations now) s (λ _ s', TabletInv s' ∧ installation_history s s').
Proof.
  intros I. apply wlp_atomic. pass_queries. apply wlp_bind. unfold gets at 1, wlp at 1.
  set (l := rows _ _). set (n := default _ _). clearbody n.
  assert (C : ∀ k, k ∈ l.*1 → current_row s k).
  { intros k ([? i] & -> & Hin)%list_elem_of_fmap. apply rows_elem in Hin as [Hk HP].
    exists i. split; [exact Hk|]. apply andb_true_iff in HP as [HP%bool_decide_eq_true_1 _].
    unfold current. rewrite HP. reflexivity. }
  apply wlp_bind. eapply wlp_mono.
  - apply preserves_wlp. apply (preserves_for_each_in (keeps_current l.*1)).
    intros [k i] Hk. unfold mark_stale_row. apply preserves_bind; [exact _| |intros t].
    + apply preserves_readonly; [exact _|]. preserve.
    + apply preserves_bind; [exact _| |intros; preserve]. apply keeps_current_mark_stale.
      apply list_elem_of_fmap. exists (k, i). auto.
  - intros u s' H. apply wlp_ret. destruct (H (conj I C)) as [[I' _] K]. auto.
Qed.

Section services.
Context `{Settings} `{Hash} `{HpkeSuite} `{Secrets} `{DeliverySettings} `{Credentials}.

Lemma telemetry_fields_kept b i r :
  in_installation_uuid (telemetry_fields b i r) = in_installation_uuid r
  ∧ in_tablet (telemetry_fields b i r) = in_tablet r
  ∧ in_status (telemetry_fields b i r) = in_status r.
Proof. destruct b; auto. Qed.

(** A save of an installation's fields that leaves its identity and, if it is
    current, keeps it so. *)
Ltac save_current :=
  apply keeps_current_save; [left|];
  let i := fresh "i" in
  intros i; unfold current, telemetry_fields;
  repeat case_match; split_and!; first [reflexivity|done].

Ltac current_step :=
  first
    [ lazymatch goal with
      | |- preserves (keeps_current _) (save db_installations _ _) => save_current
      | |- preserves (keeps_current _) (_mark_stale _ _ _ _) => apply keeps_current_mark_stale; left
      end
    | solve [apply preserves_readonly; [exact _|solve [eauto 3 with preserves]]]
    | solve [apply keeps_current_tables; frame]
    | preserve_step ].

Lemma keeps_current_recover iid i t d now :
  preserves (keeps_current [iid]) (_recover_stale_installation iid i t d now).
Proof.
  unfold _recover_stale_installation, _is_current_installation,
    _require_active_operational_tablet. repeat current_step.
Qed.

Lemma keeps_current_below_minimum iid i m :
  preserves (keeps_current [iid]) (below_minimum i m).
Proof. apply keeps_current_tables. frame. Qed.

Lemma keeps_current_operational iid i t d te m now :
  preserves (keeps_current [iid]) (check_in_operational iid i t d te m now).
Proof.
  unfold check_in_operational, check_in_current, finish_check_in,
    _require_active_operational_tablet.
  repeat first [apply keeps_current_recover|apply keeps_current_below_minimum|current_step].
Qed.

Lemma keeps_current_inactive iid i t te m now :
  preserves (keeps_current [iid]) (check_in_inactive iid i t te m now).
Proof.
  unfold check_in_inactive, _require_inactive_control_tablet.
  repeat first [apply keeps_current_below_minimum|current_step].
Qed.

(** A transaction that only works on one current installation. *)
Lemma inv_of_current {A} iid (m : M Db A) s :
  preserves (keeps_current [iid]) m → TabletInv s → current_row s iid →
  wlp m s (λ _ s', TabletInv s' ∧ installation_history s s').
Proof.
  intros Hm I C. eapply wlp_mono; [apply preserves_wlp, Hm|]. intros a s' K.
  destruct K as [[I' _] K]; [|auto]. split; [exact I|]. intros k Hk.
  apply list_elem_of_singleton in Hk. subst k. exact C.
Qed.

Lemma wlp_check_in iid c te m s : TabletInv s →
  wlp (check_in iid c te m) s (λ _ s', TabletInv s' ∧ installation_history s s').
Proof.
  intros I. apply wlp_atomic, wlp_bind, wlp_get_obj. intros i Hi.
  do 4 (apply wlp_skip; [preserve|intros ? _]). apply wlp_bind, wlp_guard. intros Hc.
  apply (inv_of_current iid); [|exact I|exists i; auto].
  destruct (bool_decide _); [apply keeps_current_inactive|apply keeps_current_operational].
Qed.

Lemma wlp_refresh iid c te m s : TabletInv s →
  wlp (refresh_installation_lease iid c te m) s
    (λ _ s', TabletInv s' ∧ installation_history s s').
Proof.
  intros I. apply wlp_atomic, wlp_bind, wlp_get_obj. intros i Hi.
  do 4 (apply wlp_skip; [preserve|intros ? _]). apply wlp_bind, wlp_guard. intros Hc.
  apply andb_true_iff in Hc as [Hc%bool_decide_eq_true_1 _].
  apply (inv_of_current iid); [|exact I|exists i; split; [exact Hi|unfold current; rewrite Hc; done]].
  unfold _require_operational_tablet.
  repeat first [apply keeps_current_below_minimum|current_step].
Qed.

(** ** Adoption *)

Lemma invited_new m k i :
  m !! k = None → (∀ j i', m !! j = Some i' → iv_token_hash i' ≠ iv_token_hash i) →
  iv_failed_attempt_count i < MAX_FAILED_ATTEMPTS → InvitedInv m → InvitedInv (<[k:=i]> m).
Proof.
  intros Hk Hu Ha [T A]. split.
  - intros j j' x x' [[-> ->]|[Hj Hx]]%rows_lookup [[-> ->]|[Hj' Hx']]%rows_lookup E.
    + reflexivity.
    + destruct (Hu _ _ Hx'). congruence.
    + destruct (Hu _ _ Hx). congruence.
    + eapply T; eassumption.
  - intros j x [[-> ->]|[Hj Hx]]%rows_lookup; [intros; lia|eauto].
Qed.

Lemma keeps_inv_create_invitation_row row :
  iv_failed_attempt_count row = 0 → preserves keeps_inv (create_invitation_row row).
Proof.
  intros E0 s. unfold create_invitation_row, exists_where, bind, gets, guard, create, ret, raise.
  destruct (exists_row _ _) eqn:E; cbn [negb]; [reflexivity|].
  intros [R I V G]. split; [exact R|exact I| |exact G].
  apply invited_new; [apply fresh_id_fresh| |rewrite E0; done|exact V].
  intros j i Hj. eapply exists_row_false in E; [|exact Hj]. apply String.eqb_neq in E. exact E.
Qed.

Lemma keeps_inv_invite actor tid e : preserves keeps_inv (create_adoption_invitation actor tid e).
Proof.
  apply preserves_atomic; [exact _|]. unfold _require_operational_tablet. preserve.
  - apply keeps_inv_create_invitation_row. reflexivity.
  - apply keeps_tables_inv. frame.
  - apply keeps_tables_inv. frame.
Qed.

Lemma keeps_inv_replacement actor tid e :
  preserves keeps_inv (initiate_installation_replacement actor tid e).
Proof.
  apply preserves_atomic; [exact _|]. preserve.
  - apply keeps_inv_invite.
  - apply keeps_tables_inv. frame.
Qed.

Lemma keeps_inv_request token uuid v b key suite :
  preserves keeps_inv (create_adoption_request token uuid v b key suite).
Proof. apply keeps_tables_inv. frame. Qed.

Lemma alter_row {A} (m : gmap N A) k a f : m !! k = Some a → alter f k m = <[k := f a]> m.
Proof.
  intros Hk. apply map_eq. intros j. destruct (decide (j = k)) as [->|Hne].
  - rewrite lookup_alter_eq, lookup_insert_eq, Hk. reflexivity.
  - rewrite lookup_alter_ne, lookup_insert_ne by congruence. reflexivity.
Qed.

Lemma wlp_count_invitation_failure iv now s :
  TabletInv s → wlp (count_invitation_failure iv now) s (λ _ s', TabletInv s').
Proof.
  intros [R I V G]. unfold count_invitation_failure. apply wlp_bind. cbn.
  apply wlp_bind, wlp_get_obj. intros i Hi. cbn in Hi. rewrite lookup_alter_eq in Hi.
  destruct (db_invitations s !! iv) as [j|] eqn:E; [|discriminate]. injection Hi as <-.
  unfold when. cbn [iv_failed_attempt_count set]. destruct (Z.leb_spec MAX_FAILED_ATTEMPTS
    (iv_failed_attempt_count (j <| iv_failed_attempt_count ::= λ n, n + 1 |>))) as [Hn|Hn].
  - split; [exact R|exact I| |exact G]. cbn.
    erewrite (alter_row (db_invitations s)) by exact E.
    erewrite alter_row by apply lookup_insert_eq. rewrite insert_insert_eq.
    eapply invited_insert; [exact E|reflexivity|discriminate|exact V].
  - split; [exact R|exact I| |exact G]. cbn. erewrite alter_row by exact E.
    eapply invited_insert; [exact E|reflexivity|intros Ha|exact V]. exfalso. lia.
Qed.

Lemma keeps_inv_failed_attempt rid : preserves keeps_inv (_record_failed_attempt rid).
Proof.
  apply inv_atomic. intros s I. pass_queries. destruct (opt_true _); [exact I|].
  destruct (_ <=? _); [exact I|]. apply wlp_bind.
  eapply (wlp_frame tablet_tables); [frame|]. intros u s1 E0.
  pose proof (tables_inv _ _ E0 I) as E1.
  pass_queries. apply wlp_bind. destruct (ar_invitation _) as [iv|].
  - eapply wlp_mono; [apply wlp_count_invitation_failure, E1|]. intros u' s2 I2.
    apply inv_wlp; [apply keeps_tables_inv; frame|exact I2].
  - apply wlp_ret, inv_wlp; [apply keeps_tables_inv; frame|exact E1].
Qed.

Lemma installed_new tablets m k i t :
  m !! k = None → (∀ j i', m !! j = Some i' → in_installation_uuid i' ≠ in_installation_uuid i) →
  (∀ j i', m !! j = Some i' → in_tablet i' = in_tablet i → ¬ current i') →
  tablets !! in_tablet i = Some t → asset_available (tb_status t) = true →
  InstalledInv tablets m → InstalledInv tablets (<[k:=i]> m).
Proof.
  intros Hk Hu Hn Ht Ha [U C T]. split.
  - intros j j' x x' [[-> ->]|[Hj Hx]]%rows_lookup [[-> ->]|[Hj' Hx']]%rows_lookup E.
    + reflexivity.
    + destruct (Hu _ _ Hx'). congruence.
    + destruct (Hu _ _ Hx). congruence.
    + eapply U; eassumption.
  - intros j j' x x' [[-> ->]|[Hj Hx]]%rows_lookup [[-> ->]|[Hj' Hx']]%rows_lookup E Hc Hc'.
    + reflexivity.
    + destruct (Hn _ _ Hx'); [congruence|exact Hc'].
    + destruct (Hn _ _ Hx); [congruence|exact Hc].
    + eapply C; eassumption.
  - intros j x [[-> ->]|[Hj Hx]]%rows_lookup Hc; eauto.
Qed.

(** A handler that only raises. *)
Lemma wlp_try_raise {A} (m : M Db A) h s Q :
  wlp m s Q → (∀ e k s', h e = Some k → wlp k s' Q) → wlp (try_except m h) s Q.
Proof.
  unfold wlp, try_except. intros Hm Hh. destruct (m s) as [[a|e] s'] eqn:E; [exact Hm|].
  destruct (h e) as [k|] eqn:Eh; [apply (Hh e), Eh|exact I].
Qed.

(** ** The new installation *)

Lemma wlp_provision tid t r v c now s (Q : N → Db → Prop) :
  (∀ k d, db_departments s !! tb_department t = Some d → db_installations s !! k = None →
    (∀ j i, db_installations s !! j = Some i →
       in_installation_uuid i ≠ ar_installation_uuid r) →
    (∀ j i, db_installations s !! j = Some i → in_tablet i = tid → ¬ current i) →
    Q k (s <| db_installations ::= <[k := new_installation tid d r v c now]> |>)) →
  wlp (provision_installation tid t r v c now) s Q.
Proof.
  intros HQ. unfold provision_installation. apply wlp_bind, wlp_get_obj. intros d Hd.
  apply wlp_try_raise.
  - apply wlp_atomic. unfold create_installation_row. apply wlp_bind.
    unfold exists_where, gets at 1, wlp at 1. apply wlp_bind, wlp_guard.
    intros E%negb_true_iff. apply wlp_create. intros k Hk. apply HQ; [exact Hd|exact Hk| |].
    + intros j i Hj. eapply exists_row_false in E; [|exact Hj].
      apply orb_false_iff in E as [E%N.eqb_neq _]. exact E.
    + intros j i Hj Et Hc. eapply exists_row_false in E; [|exact Hj].
      apply orb_false_iff in E as [_ E]. cbn in E. rewrite Et, N.eqb_refl in E.
      unfold current in Hc. rewrite Hc in E. discriminate.
  - intros e k s' Hh. destruct (exn_kind e); try discriminate. injection Hh as <-.
    apply wlp_skip; [preserve|]. intros taken _. destruct taken; exact I.
Qed.

Lemma opt_true_false {A} (o : option A) : negb (opt_true o) = true → o = None.
Proof. destruct o; [discriminate|reflexivity]. Qed.

Lemma completable r vo now s v s' :
  require_completable r vo now s = (Val v, s') →
  vo = Some v ∧ ar_completed_at r = None ∧ now < ar_expires_at r
  ∧ ar_failed_attempt_count r < MAX_FAILED_ATTEMPTS ∧ iv_used_at v = None ∧ iv_revoked_at v = None.
Proof.
  unfold require_completable. intros E.
  apply bind_Val in E as (? & ? & [E1 ->]%guard_Val & E).
  apply bind_Val in E as (? & ? & [E2 ->]%guard_Val & E).
  apply bind_Val in E as (? & ? & [E3 ->]%guard_Val & E). destruct vo as [w|]; [|discriminate].
  apply bind_Val in E as (? & ? & [E4 ->]%guard_Val & E).
  apply bind_Val in E as (? & ? & [E5 ->]%guard_Val & E). injection E as <- <-.
  split_and!; try apply opt_true_false; try assumption; [reflexivity|lia..].
Qed.

Lemma operational tid t s u s' :
  _require_operational_tablet tid t s = (Val u, s') →
  ∃ d, db_departments s !! tb_department t = Some d ∧ dept_active d = true
    ∧ tb_active t = true ∧ asset_available (tb_status t) = true
    ∧ _has_current_operational_assignment s tid t (db_clock s) = true.
Proof.
  unfold _require_operational_tablet. intros E.
  apply bind_Val in E as (now & ? & E0 & E). injection E0 as <- <-.
  apply bind_Val in E as (d & ? & [Hd ->]%get_obj_Val & E).
  apply bind_Val in E as (? & ? & [E1 ->]%guard_Val & E).
  apply bind_Val in E as (? & ? & [E2 ->]%guard_Val & E).
  apply bind_Val in E as (b & ? & E3 & E). injection E3 as <- <-.
  apply guard_Val in E as [E3 ->]. apply andb_true_iff in E1 as [Ed Et]. exists d. auto.
Qed.

Lemma invitation_found r s vo s' : invitation_of r s = (Val vo, s') →
  ∀ v, vo = Some v → ∃ iv, ar_invitation r = Some iv ∧ db_invitations s !! iv = Some v.
Proof.
  unfold invitation_of. destruct (ar_invitation r) as [iv|]; [|intros [= <- <-]; discriminate].
  intros (v & ? & [Hv ->]%get_obj_Val & [= <- <-])%bind_Val w [= <-]. eauto.
Qed.

Lemma wlp_complete rid s :
  wlp (_complete_successful_adoption rid) s (adopted s rid).
Proof.
  apply wlp_atomic, wlp_bind, wlp_get_obj. intros r Hr.
  apply wlp_skip; [unfold invitation_of; preserve|intros vo Hvo].
  apply wlp_bind. unfold timezone_now, gets at 1, wlp at 1.
  apply wlp_skip; [unfold require_completable; preserve|intros v Hv].
  apply completable in Hv as (Ev & Hc & He & Ha & Hu & Hrv).
  destruct (invitation_found _ _ _ _ Hvo v Ev) as (iv & Er & Hiv).
  apply wlp_bind, wlp_get_obj. intros t Ht.
  apply wlp_skip; [unfold _require_operational_tablet; preserve|intros u Hop].
  apply operational in Hop as (d & Hd & Hda & Hta & Hts & Has).
  apply wlp_bind. unfold installation_uuid_taken, exists_where, gets at 1, wlp at 1.
  apply wlp_bind, wlp_guard. intros Hn%negb_true_iff. apply wlp_bind. unfold gets at 1, wlp at 1.
  apply wlp_bind. unfold update_where, wlp at 1. apply wlp_bind, wlp_provision.
  intros k d' Hd' Hk _ Hno. assert (d' = d) as -> by (cbn in Hd'; congruence). clear Hd'.
  apply wlp_bind. unfold installations_of, gets at 1, wlp at 1. cbn zeta.
  set (s1 := s <| _ ::= _ |> <| _ ::= _ |>). apply wlp_bind, wlp_for_each_revoke.
  intros s2 E2 Hh. apply wlp_bind, wlp_save. intros r' Hr'.
  apply wlp_bind, wlp_save. intros v' Hv'. apply wlp_bind. cbn. rewrite Er in Hv' |- *.
  pose proof (f_equal db_adoption_requests E2) as Eq. pose proof (f_equal db_invitations E2) as Eiv.
  pose proof (f_equal db_installations E2) as Ein. pose proof (f_equal db_tablets E2) as Et.
  change (db_adoption_requests s2 = db_adoption_requests s) in Eq.
  change (db_invitations s2 = db_invitations s) in Eiv.
  change (db_installations s2 = db_installations s1) in Ein.
  change (db_invitations s2 !! iv = Some v') in Hv'.
  assert (r' = r) as -> by congruence. assert (v' = v) as -> by congruence.
  econstructor; try eassumption.
  - intros j i Hj. eapply exists_row_false in Hn; [|exact Hj]. apply N.eqb_neq, Hn.
  - cbn in Hk. rewrite lookup_fmap in Hk. destruct (db_installations s !! k); [discriminate|done].
  - cbn. rewrite Eiv. reflexivity.
  - cbn. rewrite Eq. reflexivity.
  - intros j Hj. apply Hh in Hj as [Hj _]. exact Hj.
  - intros j i Hj Hi Ei Es. apply Hh in Hj as [_ Hj].
    change (db_installations s2 !! j = Some i) in Hi. rewrite Ein in Hi.
    eapply not_in_rows in Hj; [|exact Hi]. rewrite Ei, N.eqb_refl in Hj. cbn in Hj.
    unfold has_status in Hj. apply bool_decide_eq_false_1 in Hj. auto.
Qed.

Lemma adopted_inv s rid r s' : adopted s rid r s' → keeps_inv s s'.
Proof.
  intros [r0 iv v t d k c s1 Hr Er Hv Ht Hd _ _ _ Hu Hrv _ _ Hts _ Hfresh Hk Et Ein Eiv _ Hh Hn]
    [R I V G].
  assert (W : withdrawn (db_installations s) (replaced (iv_tablet v) <$> db_installations s)).
  { apply withdrawn_update. intros i. split_and!; [reflexivity..|discriminate]. }
  split.
  - rewrite Et. exact R.
  - rewrite Et, Ein. eapply installed_new; [| | |exact Ht|exact Hts|].
    + rewrite lookup_fmap, Hk. reflexivity.
    + intros j i Hj. apply W in Hj as (i0 & Hj & -> & _). apply (Hfresh _ _ Hj).
    + intros j i Hj E. rewrite lookup_fmap in Hj.
      destruct (db_installations s !! j) as [i0|]; [|discriminate]. injection Hj as <-.
      unfold current, replaced in *. cbn in E.
      destruct (N.eqb_spec (in_tablet i0) (iv_tablet v)) as [E0|Hne]; cbn [andb] in *;
        [|contradiction]. destruct (current_status (in_status i0)) eqn:Ec; [discriminate|congruence].
    + eapply installed_withdrawn; [exact W|exact I].
  - rewrite Eiv. eapply invited_insert; [exact Hv|reflexivity| |exact V].
    apply (inv_attempts _ V _ _ Hv).
  - intros j Hj. destruct (G j (Hh j Hj)) as (i & Hi & Hc).
    assert (Hne : j ≠ k) by congruence. exists i.
    assert (E : db_installations s1 !! j = Some (replaced (iv_tablet v) i)).
    { rewrite Ein, lookup_insert_ne by congruence. rewrite lookup_fmap, Hi. reflexivity. }
    specialize (Hn j _ Hj E). unfold replaced in E, Hn. unfold current in *. rewrite Hc in E, Hn.
    destruct (N.eqb_spec (in_tablet i) (iv_tablet v)) as [Ei|]; cbn in *; [|auto].
    destruct (Hn Ei eq_refl).
Qed.

Lemma keeps_inv_complete rid : preserves keeps_inv (_complete_successful_adoption rid).
Proof.
  apply inv_transaction. intros s I. eapply wlp_mono; [apply wlp_complete|].
  intros r s' Ha. eapply adopted_inv; eassumption.
Qed.

Lemma keeps_inv_replay rid c : preserves keeps_inv (_replay_successful_completion rid c).
Proof.
  apply preserves_atomic; [exact _|]. unfold invitation_of. preserve.
  - apply keeps_inv_save_installation. auto.
  - apply keeps_tables_inv. frame.
Qed.

Lemma keeps_inv_complete_adoption others rid c b :
  preserves keeps_inv others → preserves keeps_inv (complete_adoption others rid c b).
Proof.
  intros Ho. unfold complete_adoption, invitation_of, require_completable. preserve.
  all: first [exact Ho|apply keeps_inv_replay|apply keeps_inv_complete
    |apply keeps_inv_failed_attempt].
Qed.
End services.
