(* ===== verification/DeliveryInv.v ===== *)
(** Delivery under the invariant of the tablets: who is entitled to a publication,
    and that the services of [Manifests.v] and [Grants.v] give keys to no one
    else. *)
From S2P Require Import Prelude Text Versions Models Registry Lifecycle Store Authorization.
From S2P Require Import Fingerprint Artifacts ApplicationSecrets Tablets Manifests Grants.
From S2P Require Import Restore Queue.
From S2P Require Import Build Totality TabletInv TabletServices.

(** The installation may receive the publication at [now]: it is active with a
    valid lease, on an active tablet of an active department, that is assigned to
    a vehicle in service; the publication is published and ready, belongs to the
    department, station or system scope of that vehicle, and its feature is not
    switched off. *)
Inductive entitled (s : Db) (now : Z) (iid pid : N) : Prop :=
| Entitled i t d aid a v p definition :
    db_installations s !! iid = Some i → in_status i = INSTALLATION_ACTIVE →
    now < in_authorization_valid_until i →
    db_tablets s !! in_tablet i = Some t → tb_status t = TABLET_ACTIVE → tb_active t = true →
    db_departments s !! tb_department t = Some d → dept_active d = true →
    db_vehicle_assignments s !! aid = Some a → va_tablet a = in_tablet i →
    va_valid_from a ≤ now → va_ended_at a = None →
    (∀ u, va_valid_until a = Some u → now < u) →
    vehicle_in_service s (va_vehicle a) = Some v → ve_department v = tb_department t →
    db_publications s !! pid = Some p → pub_status p = PUBLISHED →
    deliverable (tb_department t) (ve_station v) p = true →
    _publication_is_exposed_to_installation p t = true →
    DATASET_REGISTRY (pub_dataset_type_code p) = Some definition →
    is_feature_enabled (tb_department t) (dt_feature_code definition) s = (Val true, s) →
    entitled s now iid pid.

(** The current assignment of a tablet to a vehicle of its department. *)
Definition assigned_to (s : Db) (now : Z) (tid : N) (t : Tablet) (vid : N) (v : Vehicle) : Prop :=
  ∃ aid a, db_vehicle_assignments s !! aid = Some a ∧ va_tablet a = tid
    ∧ va_valid_from a ≤ now ∧ va_ended_at a = None ∧ (∀ u, va_valid_until a = Some u → now < u)
    ∧ va_vehicle a = vid ∧ vehicle_in_service s vid = Some v
    ∧ ve_department v = tb_department t.

(** The generation may be read: its library's current generation, or itself, is
    one the installation is entitled to. *)
Definition entitled_generation (s : Db) (iid pid : N) : Prop :=
  ∃ p q, db_publications s !! pid = Some p ∧ entitled s (db_clock s) iid q
    ∧ (q = pid ∨ pub_status p = SUPERSEDED
       ∧ ∃ r, db_publications s !! q = Some r ∧ pub_scope_state r = pub_scope_state p).

(** ** Queries *)

Lemma readonly_is_feature_enabled d f : readonly (is_feature_enabled d f).
Proof. unfold is_feature_enabled, get_feature_definition, feature_of. preserve. Qed.

#[export] Hint Resolve readonly_is_feature_enabled : preserves.

Lemma readonly_exposed_publications t st : readonly (exposed_publications t st).
Proof. unfold exposed_publications, expose_publication. preserve. Qed.

Lemma readonly_control_plane_context iid now : readonly (control_plane_context iid now).
Proof. unfold control_plane_context. preserve. Qed.

#[export] Hint Resolve readonly_exposed_publications readonly_control_plane_context : preserves.

Lemma readonly_authorization_context iid now : readonly (_authorization_context iid now).
Proof. unfold _authorization_context. preserve. Qed.

Lemma readonly_manifest_publications iid now : readonly (manifest_publications iid now).
Proof. unfold manifest_publications. preserve. Qed.

#[export] Hint Resolve readonly_authorization_context readonly_manifest_publications : preserves.

Lemma readonly_authorized_publications iid now : readonly (authorized_publications iid now).
Proof. unfold authorized_publications. preserve. Qed.

Lemma readonly_document_delivery p : readonly (_is_document_manifest_delivery p).
Proof. unfold _is_document_manifest_delivery. preserve. Qed.

#[export] Hint Resolve readonly_authorized_publications readonly_document_delivery : preserves.

(** ** Entitlement *)

Section entitlement.
Implicit Types s : Db.

Lemma exposed_rows t s ps0 rows0 ps s' :
  fold_m (expose_publication t) ps0 rows0 s = (Val ps, s') →
  ∀ r, r ∈ ps → r ∈ ps0 ∨ (r ∈ rows0
    ∧ _publication_is_exposed_to_installation r.2 t = true
    ∧ ∃ definition, DATASET_REGISTRY (pub_dataset_type_code r.2) = Some definition
        ∧ is_feature_enabled (tb_department t) (dt_feature_code definition) s = (Val true, s)).
Proof.
  revert ps0. induction rows0 as [|row l IH]; intros ps0; cbn [fold_m].
  - intros [= <- <-]. auto.
  - intros (ps1 & s1 & E & E')%bind_Val r Hr.
    assert (s1 = s) as ->.
    { assert (readonly (expose_publication t ps0 row)) as K
        by (unfold expose_publication; preserve).
      specialize (K s). rewrite E in K. exact (eq_sym K). }
    destruct (IH _ E' r Hr) as [Hin|(Hin & Hx)]; [|right; split; [right; exact Hin|exact Hx]].
    unfold expose_publication in E. destruct (negb _) eqn:Hexp; [injection E as <-; auto|].
    apply negb_false_iff in Hexp. apply bind_Val in E as (def & s2 & E1 & E2).
    unfold get_dataset_definition, get_or_raise in E1.
    destruct (DATASET_REGISTRY _) as [def'|] eqn:ED; [|discriminate]. injection E1 as -> <-.
    apply bind_Val in E2 as (b & s3 & E3 & E4). injection E4 as <- ->. destruct b; [|auto].
    apply elem_of_app in Hin as [Hin|Hin]; [auto|]. apply list_elem_of_singleton in Hin. subst r.
    right. split; [left|]. split; [exact Hexp|]. exists def. auto.
Qed.

Lemma in_service_row s vid v : vehicle_in_service s vid = Some v → db_vehicles s !! vid = Some v.
Proof.
  unfold vehicle_in_service. destruct (db_vehicles s !! vid) as [w|]; [|discriminate].
  destruct (_ && _); congruence.
Qed.

Lemma control_plane_spec iid now s i t v s' :
  control_plane_context iid now s = (Val (i, t, v), s') →
  s' = s ∧ db_installations s !! iid = Some i ∧ db_tablets s !! in_tablet i = Some t
  ∧ in_status i = INSTALLATION_ACTIVE ∧ now < in_authorization_valid_until i
  ∧ tb_active t = true
  ∧ (∃ d, db_departments s !! tb_department t = Some d ∧ dept_active d = true)
  ∧ (tb_status t = TABLET_INACTIVE → v = None)
  ∧ (∀ vid w, v = Some (vid, w) → assigned_to s now (in_tablet i) t vid w).
Proof.
  unfold control_plane_context. intros E.
  apply bind_Val in E as (i0 & ? & [Hi ->]%get_obj_Val & E).
  apply bind_Val in E as (t0 & ? & [Ht ->]%get_obj_Val & E).
  apply bind_Val in E as (d & ? & [Hd ->]%get_obj_Val & E).
  apply bind_Val in E as (? & ? & [G ->]%guard_Val & E).
  rewrite !andb_true_iff, bool_decide_eq_true in G. destruct G as [[[Gs Gl] Gt] Gd].
  destruct (bool_decide _) eqn:Hin.
  - injection E as -> -> <- <-. split_and!; try done; [lia|eauto].
  - apply bool_decide_eq_false_1 in Hin. apply bind_Val in E as (s0 & ? & E0 & E).
    injection E0 as <- <-. apply bind_Val in E as (o & ? & E1 & E). injection E1 as <- <-.
    destruct (head _) as [[aid a]|] eqn:Hh.
    + apply order_by_head_Some in Hh as [Hh _]. apply rows_elem in Hh as [Ha HP].
      rewrite !andb_true_iff in HP. destruct HP as [[[[P1 P2] P3] P4] P5].
      apply bind_Val in E as (w & ? & [Hw ->]%get_obj_Val & E). injection E as -> -> <- <-.
      apply N.eqb_eq in P1. apply opt_true_false in P3.
      split_and!; try done; [lia|eauto|]. intros vid w' Ev.
      destruct (N.eqb_spec (ve_department w) (tb_department t)) as [Ed|]; [|discriminate].
      injection Ev as <- <-. exists aid, a. unfold vehicle_in_service in *.
      rewrite Hw in P5 |- *. destruct (_ && _); [|discriminate].
      split_and!; try done; [lia|]. intros u Hu. rewrite Hu in P4. lia.
    + injection E as -> -> <- <-. split_and!; try done; [lia|eauto].
Qed.

Lemma authorized_spec iid now s i t vid v ps s' :
  authorized_publications iid now s = (Val (i, t, (vid, v), ps), s') →
  s' = s ∧ db_installations s !! iid = Some i ∧ db_tablets s !! in_tablet i = Some t
  ∧ in_status i = INSTALLATION_ACTIVE
  ∧ ∀ pid p, (pid, p) ∈ ps → db_publications s !! pid = Some p ∧ entitled s now iid pid.
Proof.
  unfold authorized_publications, _authorization_context. intros E.
  apply bind_Val in E as ([[i0 t0] [vid0 v0]] & s1 & E1 & E).
  apply bind_Val in E1 as ([[i1 t1] v1] & s2 & E2 & E1). apply control_plane_spec in E2 as
    (-> & Hi & Ht & Hs & Hl & Hta & (d & Hd & Hda) & _ & Hv).
  apply bind_Val in E1 as (? & ? & [G ->]%guard_Val & E1). apply bool_decide_eq_true_1 in G.
  apply bind_Val in E1 as (w & s3 & E3 & E1). destruct v1 as [w'|]; [|discriminate].
  injection E3 as -> <-. injection E1 as -> -> -> <-.
  apply bind_Val in E as (ps' & s4 & E4 & E). injection E as -> -> -> -> -> <-.
  unfold exposed_publications in E4. apply bind_Val in E4 as (l & s5 & E5 & E4).
  injection E5 as <- <-.
  assert (s4 = s) as ->.
  { pose proof (readonly_exposed_publications t (ve_station v) s) as K.
    unfold exposed_publications, bind, gets in K. rewrite E4 in K. exact (eq_sym K). }
  split_and!; try done. intros pid p Hin.
  destruct (exposed_rows _ _ _ _ _ _ E4 _ Hin) as [Hn|(Hr & Hx & def & HD & HF)];
    [inversion Hn|].
  unfold sort_by in Hr. rewrite merge_sort_Permutation in Hr. apply rows_elem in Hr as [Hp HP].
  cbn [fst snd] in *. split; [exact Hp|]. destruct (Hv _ _ eq_refl) as
    (aid & a & Ha & Eat & Hf & He & Hu & Eav & Hvs & Hvd). subst vid.
  assert (pub_status p = PUBLISHED).
  { unfold deliverable in HP. rewrite !andb_true_iff, !bool_decide_eq_true in HP. tauto. }
  econstructor; eassumption.
Qed.
End entitlement.

(** ** Key grants under the invariant *)

Lemma live_insert m k g j :
  live_grant (<[k:=g]> m) j →
  live_grant m j ∨ (kg_app_installation g = j ∧ kg_status g ≠ GRANT_REVOKED).
Proof.
  intros (k' & g' & [[-> ->]|[Hk H]]%rows_lookup & Ej & Es); [auto|]. left. exists k', g'. auto.
Qed.

Lemma inv_grants s s' :
  but_grants s' = but_grants s → (∀ j, holds_key s' j → holds_key s j ∨ current_row s j) →
  keeps_inv s s'.
Proof.
  intros E Hh [R I V G]. apply (f_equal tablet_tables) in E. injection E as E1 E2 E3.
  split; [rewrite E1; exact R|rewrite E1, E2; exact I|rewrite E3; exact V|].
  intros j Hj. rewrite E2. destruct (Hh j Hj) as [Hk|Hc]; [apply G, Hk|exact Hc].
Qed.

(** A key grant is written for an installation that is current or holds a key. *)
Lemma inv_insert_key_grant s k g :
  (kg_status g ≠ GRANT_REVOKED →
     holds_key s (kg_app_installation g) ∨ current_row s (kg_app_installation g)) →
  keeps_inv s (s <| db_key_grants ::= <[k:=g]> |>).
Proof.
  intros Hg. apply inv_grants; [reflexivity|]. intros j [Hj|Hj].
  - apply live_insert in Hj as [Hj|[<- Hs]]; [left; left; exact Hj|auto].
  - left. right. exact Hj.
Qed.

Lemma inv_insert_generation_grant s k g :
  (kg_status g ≠ GRANT_REVOKED →
     holds_key s (kg_app_installation g) ∨ current_row s (kg_app_installation g)) →
  keeps_inv s (s <| db_generation_key_grants ::= <[k:=g]> |>).
Proof.
  intros Hg. apply inv_grants; [reflexivity|]. intros j [Hj|Hj].
  - left. left. exact Hj.
  - apply live_insert in Hj as [Hj|[<- Hs]]; [left; right; exact Hj|auto].
Qed.

Lemma holds_dataset_key s k g :
  db_key_grants s !! k = Some g → kg_status g ≠ GRANT_REVOKED →
  holds_key s (kg_app_installation g).
Proof. intros Hk Hs. left. exists k, g. auto. Qed.

Lemma holds_generation_key s k g :
  db_generation_key_grants s !! k = Some g → kg_status g ≠ GRANT_REVOKED →
  holds_key s (kg_app_installation g).
Proof. intros Hk Hs. right. exists k, g. auto. Qed.

Lemma active_current s iid i :
  db_installations s !! iid = Some i → in_status i = INSTALLATION_ACTIVE → current_row s iid.
Proof. intros Hi Hs. exists i. split; [exact Hi|]. unfold current. rewrite Hs. reflexivity. Qed.

Lemma first_row {A} (tbl : Db → gmap N A) P key s k a :
  head (order_by key (rows (tbl s) P)) = Some (k, a) → tbl s !! k = Some a ∧ P k a = true.
Proof. intros [H _]%order_by_head_Some. apply rows_elem, H. Qed.

Section services.
Context `{Settings} `{Hash} `{DeliverySettings} `{HpkeSuite} `{Credentials}.

(** A grant request and what it was granted on. *)
Lemma wlp_request_grant pid iid retry s (Q : N * KeyGrant → Db → Prop) :
  (∀ r s', entitled s (db_clock s) iid pid → but_grants s' = but_grants s →
     (TabletInv s → TabletInv s') → Q r s') →
  wlp (request_dataset_key_grant pid iid retry) s Q.
Proof.
  intros HQ. apply wlp_atomic, wlp_bind. unfold timezone_now, gets at 1, wlp at 1.
  apply wlp_skip; [preserve|]. intros [[[i t] [vid v]] ps] E.
  apply authorized_spec in E as (_ & Hi & _ & Hs & Hps). apply wlp_bind, wlp_guard. intros Hm.
  apply mem_N_spec, list_elem_of_fmap in Hm as ([pid' p] & -> & Hin). cbn [fst].
  destruct (Hps _ _ Hin) as [_ He]. cbn [fst] in HQ.
  pose proof (active_current _ _ _ Hi Hs) as Hc.
  apply wlp_bind. unfold first_where, gets at 1, wlp at 1.
  destruct (head _) as [[k g]|] eqn:Eh.
  - apply first_row in Eh as [Hk Hg]. apply andb_true_iff in Hg as [_ Hg%N.eqb_eq].
    destruct (bool_decide _).
    + apply wlp_bind, wlp_save. intros g' Hg'. apply wlp_ret, HQ; [exact He|reflexivity|].
      apply inv_insert_key_grant. intros _. right. assert (g' = g) as -> by congruence.
      cbn. rewrite Hg. exact Hc.
    + destruct (_ && _); [|apply wlp_ret, HQ; auto].
      apply wlp_bind, wlp_save. intros g' Hg'. apply wlp_ret, HQ; [exact He|reflexivity|].
      apply inv_insert_key_grant. intros _. right. assert (g' = g) as -> by congruence.
      cbn. rewrite Hg. exact Hc.
  - apply wlp_bind, wlp_create. intros k Hk. apply wlp_ret, HQ; [exact He|reflexivity|].
    apply inv_insert_key_grant. intros _. right. exact Hc.
Qed.

Lemma keeps_inv_request_grant pid iid retry :
  preserves keeps_inv (request_dataset_key_grant pid iid retry).
Proof. apply inv_transaction. intros s I. apply wlp_request_grant. auto. Qed.

Lemma keeps_inv_claim_grant : preserves keeps_inv claim_next_dataset_key_grant.
Proof.
  apply inv_atomic. intros s I. apply wlp_bind. unfold first_where, gets, wlp at 1.
  destruct (head _) as [[k g]|] eqn:Eh; [|exact I].
  apply first_row in Eh as [Hk Hg]. apply bool_decide_eq_true_1 in Hg.
  apply wlp_bind, wlp_save. intros g' Hg'. assert (g' = g) as -> by congruence.
  apply wlp_ret, inv_insert_key_grant; [|exact I]. intros _. left.
  apply (holds_dataset_key _ k g); [exact Hk|congruence].
Qed.

(** Wrapping a key only reads the store. *)
Lemma readonly_hpke_info c : readonly (hpke_info c : M Db string).
Proof. unfold hpke_info. preserve. Qed.

Lemma readonly_hpke_seal x k info : readonly info → readonly (hpke_seal x k info).
Proof. intros Hi. unfold hpke_seal. preserve. Qed.

Lemma readonly_wrap_content_key g now : readonly (wrap_content_key g now).
Proof.
  unfold wrap_content_key, require_kek, raise_outcome, unwrap_key, parse_p256_public_key. preserve.
  apply readonly_hpke_seal, readonly_hpke_info.
Qed.

Lemma readonly_grant_result m now : readonly m → readonly (grant_result m now).
Proof.
  intros Hm. unfold grant_result. apply preserves_try_except; [exact _|preserve|].
  intros e k. destruct (exn_kind e); try discriminate; intros [= <-]; preserve.
Qed.

(** The updates that end a grant keep its owner. *)
Lemma grant_result_owner m now s f s' : grant_result m now s = (Val f, s') →
  ∀ g, kg_app_installation (f g) = kg_app_installation g.
Proof.
  unfold grant_result, try_except. intros E.
  destruct (bind m _ s) as [[a|e] s1] eqn:E1.
  - injection E as -> <-. apply bind_Val in E1 as ([enc w] & s2 & _ & [= <- <-]). reflexivity.
  - destruct (exn_kind e); try discriminate E; injection E as <- <-; reflexivity.
Qed.

Lemma keeps_inv_build_grant gid : preserves keeps_inv (build_claimed_dataset_key_grant gid).
Proof.
  apply inv_atomic. intros s I. apply wlp_bind, wlp_get_obj. intros g Hg.
  destruct (bool_decide _) eqn:Hr; [|exact I]. apply bool_decide_eq_true_1 in Hr. cbn [negb].
  apply wlp_skip; [preserve|intros now _].
  apply wlp_skip; [apply readonly_grant_result, readonly_wrap_content_key|intros f Hf].
  apply wlp_bind, wlp_save. intros g' Hg'. assert (g' = g) as -> by congruence.
  apply wlp_ret, inv_insert_key_grant; [|exact I]. intros _. left.
  rewrite (grant_result_owner _ _ _ _ _ Hf). apply (holds_dataset_key _ gid g); congruence.
Qed.

Lemma keeps_inv_process_grant others :
  preserves keeps_inv others → preserves keeps_inv (process_next_dataset_key_grant others).
Proof.
  intros Ho. unfold process_next_dataset_key_grant. preserve.
  all: first [apply keeps_inv_claim_grant|apply keeps_inv_build_grant].
Qed.

(** ** Generations *)

Lemma readonly_require_supported_version i : readonly (require_supported_version i).
Proof.
  unfold require_supported_version. apply preserves_try_except; [exact _| |].
  - unfold minimum_supported_app_version, parse_app_version, int_of_str. preserve.
  - intros e k. destruct (exn_kind e); try discriminate. intros [= <-]. preserve.
Qed.

Hint Resolve readonly_require_supported_version : preserves.

Lemma readonly_authorized_generation pid iid : readonly (_authorized_generation pid iid).
Proof. unfold _authorized_generation. preserve. Qed.

Hint Resolve readonly_authorized_generation : preserves.

Lemma authorized_generation_spec pid iid s i s' :
  _authorized_generation pid iid s = (Val i, s') →
  db_installations s !! iid = Some i ∧ in_status i = INSTALLATION_ACTIVE
  ∧ entitled_generation s iid pid.
Proof.
  unfold _authorized_generation. intros E.
  apply bind_Val in E as (p & ? & [Hp ->]%get_obj_Val & E).
  apply bind_Val in E as (sc & ? & [Hsc ->]%get_obj_Val & E).
  apply bind_Val in E as (now & ? & E0 & E). injection E0 as <- <-.
  apply bind_Val in E as ([[[i0 t] [vid v]] ps] & s1 & E1 & E).
  apply authorized_spec in E1 as (-> & Hi & _ & Hs & Hps).
  apply bind_Val in E as ([] & s2 & E2 & E).
  assert (s2 = s) as ->.
  { pose proof (readonly_require_supported_version i0 s) as K. rewrite E2 in K. exact (eq_sym K). }
  apply bind_Val in E as (? & ? & [_ ->]%guard_Val & E).
  apply bind_Val in E as (? & ? & [_ ->]%guard_Val & E).
  apply bind_Val in E as (? & ? & [_ ->]%guard_Val & E).
  apply bind_Val in E as (? & ? & [G ->]%guard_Val & E). injection E as -> <-.
  split_and!; [exact Hi|exact Hs|]. apply orb_true_iff in G as [G|G].
  - apply andb_true_iff in G as [G _].
    apply mem_N_spec, list_elem_of_fmap in G as ([q r] & -> & Hin).
    destruct (Hps _ _ Hin) as [_ He]. exists p, q. auto.
  - unfold retained_library in G. rewrite !andb_true_iff in G. destruct G as [[[_ Gs] _] G].
    apply bool_decide_eq_true_1 in Gs. apply existsb_exists in G as ([q r] & Hin & G).
    apply list_elem_of_In in Hin. destruct (Hps _ _ Hin) as [Hr He].
    apply andb_true_iff in G as [G%N.eqb_eq _]. exists p, q. eauto 8.
Qed.

Lemma wlp_request_generation pid iid s (Q : N * KeyGrant → Db → Prop) :
  (∀ r s', entitled_generation s iid pid → but_grants s' = but_grants s →
     (TabletInv s → TabletInv s') → Q r s') →
  wlp (request_generation_key_grant pid iid) s Q.
Proof.
  intros HQ. apply wlp_atomic. apply wlp_skip; [preserve|intros i E].
  apply authorized_generation_spec in E as (Hi & Hs & He).
  pose proof (active_current _ _ _ Hi Hs) as Hc.
  apply wlp_skip; [preserve|intros now _].
  apply wlp_bind. unfold first_where, gets at 1, wlp at 1. apply wlp_bind.
  assert (Hsave : ∀ k g s1, db_generation_key_grants s1 !! k = Some g →
    kg_app_installation g = iid → but_grants s1 = but_grants s →
    (TabletInv s → TabletInv s1) →
    wlp (match kg_status g with
         | GRANT_FAILED | GRANT_REVOKED =>
             save db_generation_key_grants k reset_grant ;;; ret (k, reset_grant g)
         | _ => ret (k, g)
         end) s1 Q).
  { intros k g s1 Hk Hg E1 I1.
    assert (Hsv : wlp (save db_generation_key_grants k reset_grant ;;; ret (k, reset_grant g)) s1 Q).
    { apply wlp_bind, wlp_save. intros g' Hg'. assert (g' = g) as -> by congruence.
      apply wlp_ret, HQ; [exact He|exact E1|]. intros I0.
      apply inv_insert_generation_grant; [|exact (I1 I0)]. intros _. right. cbn. rewrite Hg.
      apply (f_equal db_installations) in E1. change (db_installations s1 = db_installations s) in E1.
      unfold current_row. rewrite E1. exact Hc. }
    destruct (kg_status g); first [exact Hsv|apply wlp_ret, HQ; assumption]. }
  destruct (head _) as [[k g]|] eqn:Eh.
  - apply first_row in Eh as [Hk Hg]. apply andb_true_iff in Hg as [_ Hg%N.eqb_eq].
    apply wlp_ret, Hsave; [exact Hk|exact Hg|reflexivity|auto].
  - apply wlp_bind, wlp_create. intros k Hk. apply wlp_ret, Hsave.
    + apply lookup_insert_eq.
    + reflexivity.
    + reflexivity.
    + apply inv_insert_generation_grant. intros _. right. exact Hc.
Qed.

Lemma keeps_inv_request_generation pid iid :
  preserves keeps_inv (request_generation_key_grant pid iid).
Proof. apply inv_transaction. intros s I. apply wlp_request_generation. auto. Qed.

Lemma readonly_wrap_generation_key g : readonly (wrap_generation_key g).
Proof.
  unfold wrap_generation_key, existing_generation_key, _kek, raise_outcome, unwrap_key,
    parse_p256_public_key. preserve.
  apply readonly_hpke_seal. unfold generation_info. preserve.
Qed.

Lemma readonly_generation_grant_result m now :
  readonly m → readonly (generation_grant_result m now).
Proof.
  intros Hm. unfold generation_grant_result.
  apply preserves_try_except; [exact _|apply readonly_grant_result, Hm|].
  intros e k. destruct (exn_kind e); try discriminate. intros [= <-]. preserve.
Qed.

Lemma generation_result_owner m now s f s' : generation_grant_result m now s = (Val f, s') →
  ∀ g, kg_app_installation (f g) = kg_app_installation g.
Proof.
  unfold generation_grant_result, try_except. intros E.
  destruct (grant_result m now s) as [[a|e] s1] eqn:E1.
  - injection E as -> <-. eapply grant_result_owner, E1.
  - destruct (exn_kind e); try discriminate E. injection E as <- <-. reflexivity.
Qed.

Lemma keeps_inv_process_generation : preserves keeps_inv process_next_generation_key_grant.
Proof.
  apply inv_atomic. intros s I. apply wlp_bind. unfold first_where, gets, wlp at 1.
  destruct (head _) as [[k g]|] eqn:Eh; [|exact I]. apply first_row in Eh as [Hk Hg].
  assert (Hs : kg_status g ≠ GRANT_REVOKED)
    by (unfold claimable_generation_grant in Hg; destruct (kg_status g); done).
  apply wlp_bind, wlp_save. intros g0 Hg0. assert (g0 = g) as -> by congruence.
  set (g1 := g <| kg_status := GRANT_RUNNING |>).
  assert (I1 : TabletInv (s <| db_generation_key_grants ::= <[k:=g1]> |>)).
  { apply inv_insert_generation_grant; [|exact I]. intros _. left.
    apply (holds_generation_key _ k g Hk Hs). }
  apply wlp_skip; [preserve|intros now _].
  apply wlp_skip; [apply readonly_generation_grant_result, readonly_wrap_generation_key|intros f Hf].
  apply wlp_bind, wlp_save. intros g' Hg'. cbn in Hg'. rewrite lookup_insert_eq in Hg'.
  injection Hg' as <-. apply wlp_ret, inv_insert_generation_grant; [|exact I1]. intros _. left.
  rewrite (generation_result_owner _ _ _ _ _ Hf).
  apply (holds_generation_key _ k g1); [apply lookup_insert_eq|done].
Qed.

(** ** Manifests *)

Lemma keeps_tables_capabilities : keeps tablet_tables manifest_capabilities.
Proof. frame. Qed.

Lemma readonly_scope_payload p : readonly (_publication_scope_payload p).
Proof. unfold _publication_scope_payload. preserve. Qed.

Hint Resolve readonly_scope_payload : preserves.

Lemma readonly_manifest_entry pid p : readonly (_publication_manifest_entry pid p).
Proof. unfold _publication_manifest_entry. preserve. Qed.

Hint Resolve readonly_manifest_entry : preserves.

Lemma readonly_state_hash iid i t v ps g c : readonly (manifest_state_hash iid i t v ps g c).
Proof. unfold manifest_state_hash, map_m, canonical_manifest_payload. preserve. Qed.

Hint Resolve readonly_state_hash : preserves.

Lemma keeps_inv_request_manifest iid g now : preserves keeps_inv (request_manifest iid g now).
Proof.
  unfold request_manifest, request_publication_grant. preserve.
  all: first [apply keeps_inv_request_grant|apply keeps_tables_inv; frame].
Qed.

Lemma keeps_inv_claim_manifest l : preserves keeps_inv (claim_next_signed_manifest l).
Proof. apply keeps_tables_inv. frame. Qed.

Lemma keeps_inv_sign_manifest m now : preserves keeps_inv (sign_manifest m now).
Proof.
  unfold sign_manifest, map_m, manifest_grant, upgrade_if_encrypted. preserve.
  all: first [apply keeps_inv_request_grant|apply keeps_tables_inv; unfold map_m; frame].
Qed.

Lemma keeps_inv_build_manifest mid : preserves keeps_inv (build_claimed_signed_manifest mid).
Proof.
  unfold build_claimed_signed_manifest. apply preserves_atomic; [exact _|].
  apply preserves_bind; [exact _|preserve|intros m]. destruct (negb _); [preserve|].
  apply preserves_bind; [exact _|preserve|intros now]. apply preserves_bind; [exact _| |intros f].
  - apply preserves_try_except; [exact _|apply keeps_inv_sign_manifest|]. intros e k.
    destruct (exn_kind e); try discriminate; intros [= <-]; preserve.
  - apply keeps_tables_inv. frame.
Qed.

Lemma keeps_inv_process_manifest others l :
  preserves keeps_inv others → preserves keeps_inv (process_next_signed_manifest others l).
Proof.
  intros Ho. unfold process_next_signed_manifest. preserve.
  all: first [apply keeps_inv_claim_manifest|apply keeps_inv_build_manifest].
Qed.

Lemma keeps_inv_delivery_cycle others n :
  preserves keeps_inv others → preserves keeps_inv (process_delivery_cycle others n).
Proof.
  intros Ho. unfold process_delivery_cycle. generalize (mkDeliveryCycleResult 0 0 0).
  generalize ([] : list N). generalize (Z.to_nat (match n with
    | Some n0 => if n0 =? 0 then PUBLICATION_WORKER_BATCH_SIZE else n0
    | None => PUBLICATION_WORKER_BATCH_SIZE end)).
  intros k. induction k as [|k IH]; intros l r; cbn [delivery_loop]; [preserve|].
  apply preserves_bind; [exact _|apply keeps_inv_process_grant, Ho|intros a].
  apply preserves_bind; [exact _|apply keeps_inv_process_generation|intros b].
  apply preserves_bind; [exact _|apply keeps_inv_process_manifest, Ho|intros c].
  cbv zeta. destruct a, b, c; first [apply IH|preserve].
Qed.
End services.
