(* ===== verification/TabletSystem.v ===== *)
(** The tablet system as one transition system: the requests, what each may
    change, the reachable stores and their histories. *)
From S2P Require Import Prelude Text Versions Models Registry Lifecycle Store Authorization.
From S2P Require Import Fingerprint Artifacts ApplicationSecrets Tablets TabletQueries.
From S2P Require Import Manifests.
From S2P Require Import Grants Restore Queue Assignments Build Totality TabletInv.
From S2P Require Import TabletServices DeliveryInv.

(** A call of one of the entry points of the tablet services and of delivery. *)
Inductive TabletRequest :=
| CreateTablet (actor department : N) (display_name asset_number : string)
| ActivateTablet (actor tablet : N)
| DeactivateTablet (actor tablet : N)
| MarkTabletLost (actor tablet : N) (reason : string)
| RecoverTablet (actor tablet : N)
| RetireTablet (actor tablet : N) (reason : string)
| RevokeInstallation (actor installation : N) (reason : string)
| InviteAdoption (actor tablet : N) (expires_at : option Z)
| ReplaceInstallation (actor tablet : N) (expires_at : option Z)
| RequestAdoption (token : string) (installation_uuid : N) (app_version : string)
    (app_build : option Z) (hpke_public_key hpke_ciphersuite : string)
| CompleteAdoption (request : N) (challenge_response : string) (confirmed : bool)
| CheckIn (installation : N) (credential : string) (telemetry : Telemetry)
    (minimum_app_version : option AppVersion)
| RefreshLease (installation : N) (credential : string) (telemetry : Telemetry)
    (minimum_app_version : option AppVersion)
| MarkStale (now : option Z)
| RequestKeyGrant (publication installation : N) (retry_failed : bool)
| RequestGenerationGrant (publication installation : N)
| RequestManifest (installation : N) (generation : Z) (now : option Z)
| CleanupManifests (retention_days batch_size : Z) (dry_run : bool)
| SetRescueUrl (actor : N) (web_url : string)
| SetFeature (actor department : N) (feature_code : string) (enabled : bool)
| DeliveryCycle (batch_size : option Z)
| AssignVehicle (tablet vehicle actor : N) (effective_at : option Z)
| PruneActivity (now : option Z).

Section system.
Context `{Settings} `{Hash} `{HpkeSuite} `{Secrets} `{DeliverySettings} `{Credentials}.

Definition ignore {A} (m : M Db A) : M Db unit := bind m (λ _, ret tt).

(** What the program does for a request; [others] is what other sessions do
    between two transactions of one request. *)
Definition serve_tablet (others : M Db unit) (r : TabletRequest) : M Db unit :=
  match r with
  | CreateTablet a d n x => ignore (create_tablet a d n x)
  | ActivateTablet a t => ignore (activate_tablet a t)
  | DeactivateTablet a t => ignore (deactivate_tablet a t)
  | MarkTabletLost a t x => ignore (mark_tablet_lost a t x)
  | RecoverTablet a t => ignore (recover_tablet a t)
  | RetireTablet a t x => ignore (retire_tablet a t x)
  | RevokeInstallation a i x => ignore (revoke_installation a i x)
  | InviteAdoption a t e => ignore (create_adoption_invitation a t e)
  | ReplaceInstallation a t e => ignore (initiate_installation_replacement a t e)
  | RequestAdoption t u v b k c => ignore (create_adoption_request t u v b k c)
  | CompleteAdoption q c b => ignore (complete_adoption others q c b)
  | CheckIn i c t m => ignore (check_in i c t m)
  | RefreshLease i c t m => ignore (refresh_installation_lease i c t m)
  | MarkStale n => ignore (mark_stale_installations n)
  | RequestKeyGrant p i b => ignore (request_dataset_key_grant p i b)
  | RequestGenerationGrant p i => ignore (request_generation_key_grant p i)
  | RequestManifest i g n => ignore (request_manifest i g n)
  | CleanupManifests d n b => ignore (cleanup_signed_manifests d n b)
  | SetRescueUrl a u => ignore (set_vehicle_rescue_guides_web_url a u)
  | SetFeature a d f b => ignore (set_department_feature a d f b)
  | DeliveryCycle n => ignore (process_delivery_cycle others n)
  | AssignVehicle t v a e => ignore (assign_tablet_vehicle t v a e)
  | PruneActivity n => ignore (prune_tablet_api_activity n)
  end.

(** Everything else: the tablets, installations and invitations are left alone and
    key grants are at most revoked. *)
Definition outside (s s' : Db) : Prop :=
  db_tablets s' = db_tablets s ∧ db_installations s' = db_installations s
  ∧ db_invitations s' = db_invitations s ∧ ∀ iid, holds_key s' iid → holds_key s iid.

(** One move of the system: a request, inside which other sessions take steps of
    the same history, or something else. *)
Inductive tablet_step (s : Db) : Db → Prop :=
| tablet_serve others r : preserves evolves others →
    tablet_step s (serve_tablet others r s).2
| tablet_outside s' : outside s s' → tablet_step s s'.

Definition no_tablets (s : Db) : Prop :=
  db_tablets s = ∅ ∧ db_installations s = ∅ ∧ db_invitations s = ∅ ∧ db_key_grants s = ∅
  ∧ db_generation_key_grants s = ∅.

Definition tablet_reachable (s : Db) : Prop := ∃ s0, no_tablets s0 ∧ rtc tablet_step s0 s.

End system.

(** ** Steps that leave the tablets or the installations alone *)

Lemma evolves_of {A} (m : M Db A) :
  preserves keeps_inv m → keeps db_installations m → keeps db_tablets m → preserves evolves m.
Proof.
  intros Hm Hi Ht s I. split_and!; [apply Hm, I|apply same_installations, Hi|apply same_tablets, Ht].
Qed.

Lemma evolves_tables {A} (m : M Db A) :
  keeps tablet_tables m → preserves evolves m.
Proof.
  intros Hm. apply evolves_of.
  - apply keeps_tables_inv, Hm.
  - intros s. specialize (Hm s). injection Hm as _ E _. exact E.
  - intros s. specialize (Hm s). injection Hm as E _. exact E.
Qed.

Lemma evolves_atomic {A} (m : M Db A) :
  (∀ s, TabletInv s → wlp (atomic m) s (λ _ s', TabletInv s' ∧ installation_history s s'
     ∧ asset_history s s')) → preserves evolves (atomic m).
Proof.
  intros Hm s I. specialize (Hm s I). unfold wlp in Hm.
  destruct (atomic m s) as [[a|e] s'] eqn:E; [exact Hm|]. apply atomic_Exc in E. subst s'.
  split_and!; [exact I|reflexivity..].
Qed.

Lemma readonly_assets {A} (m : M Db A) : keeps db_tablets m → preserves asset_history m.
Proof. intros Hm s. apply same_tablets, Hm. Qed.

(** ** Installations *)

Lemma history_insert s k i i' :
  db_installations s !! k = Some i → current i →
  in_installation_uuid i' = in_installation_uuid i → in_tablet i' = in_tablet i →
  in_hpke_public_key i' = in_hpke_public_key i →
  installation_history s (s <| db_installations ::= <[k:=i']> |>).
Proof.
  intros Hk Hc Eu Et Ek j x Hj. cbn. destruct (decide (j = k)) as [->|Hne].
  - assert (x = i) as -> by congruence. exists i'. rewrite lookup_insert_eq.
    split_and!; [reflexivity|exact Eu|exact Et|exact Ek|intros Hn; contradiction].
  - exists x. rewrite lookup_insert_ne by congruence. split_and!; auto.
Qed.

Lemma history_update s (P : AppInstallation → bool) f :
  (∀ i, P i = true → current i) →
  (∀ i, in_installation_uuid (f i) = in_installation_uuid i ∧ in_tablet (f i) = in_tablet i
    ∧ in_hpke_public_key (f i) = in_hpke_public_key i) →
  installation_history s (s <| db_installations ::= fmap (λ i, if P i then f i else i) |>).
Proof.
  intros HP Hf k i Hk. exists (if P i then f i else i). cbn. rewrite lookup_fmap, Hk.
  cbn. destruct (P i) eqn:E; [|split_and!; auto].
  destruct (Hf i) as (?&?&?). split_and!; try done.
  intros Hn. destruct Hn. apply HP, E.
Qed.

(** A program whose last word on the installations is a step of history. *)
Lemma history_then {A} (m : M Db A) s s1 :
  keeps db_installations m → installation_history s s1 →
  wlp m s1 (λ _ s', installation_history s s').
Proof.
  intros Hm H. eapply (wlp_frame db_installations); [exact Hm|]. intros a s' E.
  etrans; [exact H|apply same_installations, E].
Qed.

Lemma history_revoke_tablet_installations tid reason now s :
  wlp (_revoke_tablet_installations tid reason now) s (λ _ s', installation_history s s').
Proof.
  unfold _revoke_tablet_installations. apply wlp_bind. unfold update_where at 1, wlp at 1.
  apply history_then; [frame|]. apply history_update.
  - intros i [_ H]%andb_true_iff. exact H.
  - auto.
Qed.

Lemma history_revoke_installation actor iid reason s :
  wlp (revoke_installation actor iid reason) s (λ _ s', installation_history s s').
Proof.
  apply wlp_atomic, wlp_bind, wlp_get_obj. intros i Hi.
  do 2 (apply wlp_skip; [preserve|intros ? _]). apply wlp_bind, wlp_guard. intros Hc.
  pass_queries. apply wlp_bind, wlp_save. intros i' Hi'. assert (i' = i) as -> by congruence.
  apply history_then; [frame|]. apply (history_insert _ _ i); auto.
Qed.

(** ** Assets *)

Lemma asset_history_insert s k t t' :
  db_tablets s !! k = Some t → tb_department t' = tb_department t →
  tb_display_name t' = tb_display_name t → tb_asset_number t' = tb_asset_number t →
  asset_step (tb_status t) (tb_status t') →
  asset_history s (s <| db_tablets ::= <[k:=t']> |>).
Proof.
  intros Hk Ed En Ea Hs j x Hj. cbn. destruct (decide (j = k)) as [->|Hne].
  - assert (x = t) as -> by congruence. exists t'. rewrite lookup_insert_eq.
    split_and!; [reflexivity|assumption..|apply rtc_once, Hs].
  - exists x. rewrite lookup_insert_ne by congruence. split_and!; reflexivity || exact Hj.
Qed.

Lemma asset_history_new s k t :
  db_tablets s !! k = None → asset_history s (s <| db_tablets ::= <[k:=t]> |>).
Proof.
  intros Hk j x Hj. exists x. cbn. rewrite lookup_insert_ne by congruence.
  split_and!; reflexivity || exact Hj.
Qed.

Lemma asset_save_tablet_status actor tid t st b action s :
  db_tablets s !! tid = Some t → asset_step (tb_status t) st →
  wlp (save_tablet_status actor tid t st b action) s (λ _ s', asset_history s s').
Proof.
  intros Ht Hs. unfold save_tablet_status. apply wlp_bind, wlp_save. intros t' Ht'.
  assert (t' = t) as -> by congruence. eapply (wlp_frame db_tablets); [frame|].
  intros a s' E. etrans; [|apply same_tablets, E].
  apply (asset_history_insert _ _ t); [exact Ht|reflexivity..|exact Hs].
Qed.

(** The shape of every transition: read the tablet, check, do some work that leaves
    the tablets alone, save the status. *)
Lemma asset_transition actor tid st b action t (m : M Db unit) s :
  db_tablets s !! tid = Some t → asset_step (tb_status t) st → keeps db_tablets m →
  wlp (m ;;; save_tablet_status actor tid t st b action) s (λ _ s', asset_history s s').
Proof.
  intros Ht Hs Hm. apply wlp_bind. eapply (wlp_frame db_tablets); [exact Hm|].
  intros a s1 E. eapply wlp_mono; [apply asset_save_tablet_status; [rewrite E; exact Ht|exact Hs]|].
  intros r s' H'. etrans; [apply same_tablets, E|exact H'].
Qed.

Ltac open_transition t Ht Hs :=
  apply wlp_atomic, wlp_bind, wlp_get_obj; intros t Ht;
  apply wlp_skip; [preserve|intros ? _];
  unfold _require_asset_transition; apply wlp_bind, wlp_guard;
  intros Hs%bool_decide_eq_true_1.

Lemma asset_activate actor tid s :
  wlp (activate_tablet actor tid) s (λ _ s', asset_history s s').
Proof. open_transition t Ht Hs. pass_queries. apply asset_save_tablet_status; assumption. Qed.

Lemma asset_recover actor tid s :
  wlp (recover_tablet actor tid) s (λ _ s', asset_history s s').
Proof. open_transition t Ht Hs. apply asset_save_tablet_status; assumption. Qed.

Lemma asset_deactivate actor tid s :
  wlp (deactivate_tablet actor tid) s (λ _ s', asset_history s s').
Proof. open_transition t Ht Hs. pass_queries. apply asset_transition; [assumption..|frame]. Qed.

Lemma asset_lost actor tid reason s :
  wlp (mark_tablet_lost actor tid reason) s (λ _ s', asset_history s s').
Proof. open_transition t Ht Hs. pass_queries. apply asset_transition; [assumption..|frame]. Qed.

Lemma asset_retire actor tid reason s :
  wlp (retire_tablet actor tid reason) s (λ _ s', asset_history s s').
Proof. open_transition t Ht Hs. pass_queries. apply asset_transition; [assumption..|frame]. Qed.

Lemma asset_create_tablet_row actor d name number :
  preserves asset_history (create_tablet_row actor d name number).
Proof.
  intros s. unfold create_tablet_row, display_name_taken, asset_number_taken, exists_where, bind,
    guard, gets, ret, raise, create.
  destruct (_ && _); [|reflexivity]. destruct (negb _); [|reflexivity].
  apply asset_history_new, fresh_id_fresh.
Qed.

Lemma asset_allocation attempts actor did department name :
  preserves asset_history (allocation_loop attempts actor did department name).
Proof.
  revert department. induction attempts as [|n IH]; intros department; cbn [allocation_loop].
  - preserve.
  - apply preserves_bind; [exact _|apply readonly_assets; frame|]. intros [number dep].
    apply preserves_bind; [exact _| |intros [tid|]; [preserve|apply IH]].
    unfold allocation_attempt, asset_number_taken. preserve. apply asset_create_tablet_row.
Qed.

Lemma asset_create_tablet actor did name number :
  preserves asset_history (create_tablet actor did name number).
Proof.
  apply preserves_atomic; [exact _|].
  unfold create_manual_tablet, asset_number_taken, display_name_taken. preserve.
  - apply asset_allocation.
  - apply asset_create_tablet_row.
  - apply readonly_assets. frame.
  - apply readonly_assets. frame.
Qed.

Section system.
Context `{Settings} `{Hash} `{HpkeSuite} `{Secrets} `{DeliverySettings} `{Credentials}.

(** ** Every request is a step of history *)

Lemma evolves_ignore {A} (m : M Db A) : preserves evolves m → preserves evolves (ignore m).
Proof. intros Hm. unfold ignore. preserve. Qed.

Lemma evolves_lifecycle {A} (m : M Db A) :
  preserves keeps_inv (atomic m) → (∀ s, wlp (atomic m) s (λ _ s', installation_history s s')) →
  (∀ s, wlp (atomic m) s (λ _ s', asset_history s s')) → preserves evolves (atomic m).
Proof.
  intros Hi Hh Ha. apply evolves_atomic. intros s I. apply wlp_and; [|apply wlp_and; auto].
  eapply wlp_mono; [apply preserves_wlp, Hi|]. auto.
Qed.

(** Nothing but the listed table is written before a lemma takes over. *)
Lemma history_frame {A} (m : M Db A) s :
  keeps db_installations m → wlp m s (λ _ s', installation_history s s').
Proof. intros Hm. apply history_then; [exact Hm|reflexivity]. Qed.

Lemma asset_frame {A} (m : M Db A) s :
  keeps db_tablets m → wlp m s (λ _ s', asset_history s s').
Proof. intros Hm. eapply (wlp_frame db_tablets); [exact Hm|]. intros a s' E. apply same_tablets, E. Qed.

Lemma evolves_activate actor tid : preserves evolves (activate_tablet actor tid).
Proof.
  apply evolves_lifecycle; [apply keeps_inv_activate|intros s; apply history_frame; frame|].
  intros s. apply asset_activate.
Qed.

Lemma evolves_recover actor tid : preserves evolves (recover_tablet actor tid).
Proof.
  apply evolves_lifecycle; [apply keeps_inv_recover|intros s; apply history_frame; frame|].
  intros s. apply asset_recover.
Qed.

Lemma evolves_deactivate actor tid : preserves evolves (deactivate_tablet actor tid).
Proof.
  apply evolves_lifecycle; [apply keeps_inv_deactivate|intros s; apply history_frame; frame|].
  intros s. apply asset_deactivate.
Qed.

(** A tablet is withdrawn: its installations first, then the asset. *)
Lemma history_withdraw {A} tid reason now (k : unit → M Db A) s :
  (∀ u, keeps db_installations (k u)) →
  wlp (let! u := _revoke_tablet_installations tid reason now in k u) s
    (λ _ s', installation_history s s').
Proof.
  intros Hk. apply wlp_bind. eapply wlp_mono; [apply history_revoke_tablet_installations|].
  intros u s1 Hw. apply history_then; [apply Hk|exact Hw].
Qed.

Lemma evolves_lost actor tid reason : preserves evolves (mark_tablet_lost actor tid reason).
Proof.
  apply evolves_lifecycle; [apply keeps_inv_lost| |intros s; apply asset_lost].
  intros s. open_transition t Ht Hs. pass_queries. apply history_withdraw. intros u. frame.
Qed.

Lemma evolves_retire actor tid reason : preserves evolves (retire_tablet actor tid reason).
Proof.
  apply evolves_lifecycle; [apply keeps_inv_retire| |intros s; apply asset_retire].
  intros s. open_transition t Ht Hs. pass_queries. apply history_withdraw. intros u. frame.
Qed.

Lemma keeps_installations_allocation n actor did d name :
  keeps db_installations (allocation_loop n actor did d name).
Proof.
  revert d. induction n as [|n IH]; intros d; cbn [allocation_loop]; [preserve|].
  apply preserves_bind; [exact _|frame|]. intros [number' d'].
  apply preserves_bind; [exact _|frame|]. intros [tid|]; [preserve|apply IH].
Qed.

Lemma keeps_installations_create_tablet actor did name number :
  keeps db_installations (create_tablet actor did name number).
Proof.
  unfold create_tablet, create_manual_tablet, _create_generated_tablet.
  generalize MAX_ASSET_NUMBER_ALLOCATION_ATTEMPTS. intros n. preserve.
  all: first [apply keeps_installations_allocation|frame].
Qed.

Lemma evolves_create_tablet actor did name number :
  preserves evolves (create_tablet actor did name number).
Proof.
  intros s I. split_and!; [apply keeps_inv_create_tablet, I| |apply asset_create_tablet].
  apply same_installations, keeps_installations_create_tablet.
Qed.

Lemma evolves_revoke_installation actor iid reason :
  preserves evolves (revoke_installation actor iid reason).
Proof.
  apply evolves_lifecycle; [apply keeps_inv_revoke_installation| |intros s; apply asset_frame].
  - intros s. apply history_revoke_installation.
  - cbv zeta. frame.
Qed.

Lemma evolves_adopted s rid r s' : adopted s rid r s' → evolves s s'.
Proof.
  intros Ha I. split_and!; [eapply adopted_inv; eassumption| |]; destruct Ha as
    [r0 iv v t d k c s' Hr Er Hv Ht Hd _ _ _ _ _ _ _ _ _ _ Hk Et Ein Eiv _ _ _].
  - intros j i Hj. exists (replaced (iv_tablet v) i). rewrite Ein.
    rewrite lookup_insert_ne by congruence. rewrite lookup_fmap, Hj. unfold replaced, current.
    split; [reflexivity|]. destruct (_ && _) eqn:E; [|auto].
    split_and!; [reflexivity..|intros Hn]. apply andb_true_iff in E as [_ E]. contradiction.
  - apply same_tablets, Et.
Qed.

Lemma evolves_complete rid : preserves evolves (_complete_successful_adoption rid).
Proof.
  apply evolves_atomic. intros s I. eapply wlp_mono; [apply wlp_complete|].
  intros r s' Ha. eapply evolves_adopted; eassumption.
Qed.

Lemma evolves_replay rid c : preserves evolves (_replay_successful_completion rid c).
Proof.
  apply evolves_lifecycle; [apply keeps_inv_replay| |intros s; apply asset_frame; frame].
  intros s. apply wlp_atomic, wlp_bind, wlp_get_obj. intros r Hr.
  do 3 (apply wlp_skip; [unfold invitation_of; preserve|intros ? _]).
  apply wlp_bind. unfold first_where, gets at 1, wlp at 1. apply wlp_bind.
  destruct (head _) as [[k i]|] eqn:Eh; [|exact Logic.I]. apply first_row in Eh as [Hk _].
  apply wlp_ret. apply wlp_skip; [preserve|intros t _].
  apply wlp_skip; [preserve|intros [] _]. apply wlp_bind, wlp_guard. intros G.
  apply wlp_skip; [preserve|intros cred _]. apply wlp_bind, wlp_save. intros i' Hi'.
  assert (i' = i) as -> by congruence. apply history_then; [frame|].
  apply (history_insert _ _ i); [exact Hk| |reflexivity..].
  unfold current. destruct (in_status i); done.
Qed.

Lemma evolves_failed_attempt rid : preserves evolves (_record_failed_attempt rid).
Proof. apply evolves_of; [apply keeps_inv_failed_attempt|frame..]. Qed.

Lemma evolves_complete_adoption others rid c b :
  preserves evolves others → preserves evolves (complete_adoption others rid c b).
Proof.
  intros Ho. unfold complete_adoption, invitation_of, require_completable. preserve.
  all: first [exact Ho|apply evolves_replay|apply evolves_complete|apply evolves_failed_attempt].
Qed.

Lemma evolves_invite actor tid e : preserves evolves (create_adoption_invitation actor tid e).
Proof. apply evolves_of; [apply keeps_inv_invite|frame..]. Qed.

Lemma evolves_replacement actor tid e :
  preserves evolves (initiate_installation_replacement actor tid e).
Proof. apply evolves_of; [apply keeps_inv_replacement|frame..]. Qed.

Lemma evolves_request token uuid v b key suite :
  preserves evolves (create_adoption_request token uuid v b key suite).
Proof. apply evolves_tables. frame. Qed.

Lemma evolves_current {A} (m : M Db A) :
  (∀ s, TabletInv s → wlp (atomic m) s (λ _ s', TabletInv s' ∧ installation_history s s')) →
  keeps db_tablets (atomic m) → preserves evolves (atomic m).
Proof.
  intros Hm Ht. apply evolves_atomic. intros s I. eapply wlp_mono.
  - apply wlp_and; [apply (Hm s I)|apply (asset_frame _ s Ht)].
  - intros a s' [[I' K] K']. auto.
Qed.

Lemma evolves_check_in iid c te m : preserves evolves (check_in iid c te m).
Proof.
  apply evolves_current; [intros s I; apply wlp_check_in, I|]. frame.
Qed.

Lemma evolves_refresh iid c te m : preserves evolves (refresh_installation_lease iid c te m).
Proof.
  apply evolves_current; [intros s I; apply wlp_refresh, I|].
  cbv zeta. frame.
Qed.

Lemma evolves_mark_stale now : preserves evolves (mark_stale_installations now).
Proof.
  apply evolves_current; [intros s I; apply wlp_mark_stale_installations, I|].
  cbv zeta. frame.
Qed.

(** ** Delivery *)

Hint Resolve readonly_grant_result readonly_wrap_content_key readonly_generation_grant_result
  readonly_wrap_generation_key readonly_state_hash readonly_manifest_entry : preserves.

Lemma evolves_request_grant pid iid b : preserves evolves (request_dataset_key_grant pid iid b).
Proof. apply evolves_of; [apply keeps_inv_request_grant|frame..]. Qed.

Lemma evolves_request_generation pid iid : preserves evolves (request_generation_key_grant pid iid).
Proof. apply evolves_of; [apply keeps_inv_request_generation|frame..]. Qed.

Lemma evolves_request_manifest iid g now : preserves evolves (request_manifest iid g now).
Proof.
  apply evolves_of; [apply keeps_inv_request_manifest| |]; unfold request_manifest, manifest_state_hash, map_m; frame.
Qed.

Lemma evolves_process_grant others :
  preserves evolves others → preserves evolves (process_next_dataset_key_grant others).
Proof.
  intros Ho. unfold process_next_dataset_key_grant. preserve.
  - apply evolves_of; [apply keeps_inv_claim_grant|frame..].
  - apply evolves_of; [apply keeps_inv_build_grant|frame..].
Qed.

Lemma evolves_process_generation : preserves evolves process_next_generation_key_grant.
Proof. apply evolves_of; [apply keeps_inv_process_generation|frame..]. Qed.

Lemma evolves_claim_manifest l : preserves evolves (claim_next_signed_manifest l).
Proof. apply evolves_tables. frame. Qed.

Lemma readonly_manifest_dataset gs r : readonly (manifest_dataset gs r).
Proof. unfold manifest_dataset, encode_bytes. preserve. all: apply readonly_scope_payload. Qed.

Lemma readonly_sign_payload p : readonly (sign_manifest_payload p).
Proof. unfold sign_manifest_payload, raise_outcome, canonical_manifest_payload. preserve. Qed.

Hint Resolve readonly_manifest_dataset readonly_sign_payload : preserves.

(** Building a manifest leaves the tablets and the installations alone. *)
Lemma keeps_sign_manifest {T} (f : Db → T) m now :
  (∀ pid iid b, keeps f (request_dataset_key_grant pid iid b)) →
  keeps f manifest_capabilities → (∀ r, keeps f (upgrade_legacy_scope_signature r)) →
  keeps f (sign_manifest m now).
Proof.
  intros Hr Hc Hu. unfold sign_manifest, map_m, manifest_grant, upgrade_if_encrypted,
    _manifest_payload. preserve; auto. all: unfold map_m; preserve.
Qed.

Lemma keeps_build_manifest {T} (f : Db → T) mid :
  (∀ m now, keeps f (sign_manifest m now)) →
  (∀ k g, keeps f (save db_signed_manifests k g)) →
  keeps f (build_claimed_signed_manifest mid).
Proof.
  intros Hs Hm. unfold build_claimed_signed_manifest. apply preserves_atomic; [exact _|].
  apply preserves_bind; [exact _|preserve|intros m]. destruct (negb _); [preserve|].
  apply preserves_bind; [exact _|preserve|intros now]. apply preserves_bind; [exact _| |intros g].
  - apply preserves_try_except; [exact _|apply Hs|]. intros e k.
    destruct (exn_kind e); try discriminate; intros [= <-]; preserve.
  - preserve.
Qed.

Lemma evolves_process_manifest others l :
  preserves evolves others → preserves evolves (process_next_signed_manifest others l).
Proof.
  intros Ho. unfold process_next_signed_manifest. preserve; [apply evolves_claim_manifest|].
  apply evolves_of; [apply keeps_inv_build_manifest| |]; apply keeps_build_manifest.
  all: intros; first [solve [frame]|apply keeps_sign_manifest; intros; frame].
Qed.

Lemma evolves_delivery_cycle others n :
  preserves evolves others → preserves evolves (process_delivery_cycle others n).
Proof.
  intros Ho. unfold process_delivery_cycle. generalize (mkDeliveryCycleResult 0 0 0).
  generalize ([] : list N). generalize (Z.to_nat (match n with
    | Some n0 => if n0 =? 0 then PUBLICATION_WORKER_BATCH_SIZE else n0
    | None => PUBLICATION_WORKER_BATCH_SIZE end)).
  intros k. induction k as [|k IH]; intros l r; cbn [delivery_loop]; [preserve|].
  apply preserves_bind; [exact _|apply evolves_process_grant, Ho|intros a].
  apply preserves_bind; [exact _|apply evolves_process_generation|intros b].
  apply preserves_bind; [exact _|apply evolves_process_manifest, Ho|intros c].
  cbv zeta. destruct a, b, c; first [apply IH|preserve].
Qed.

Theorem evolves_serve_tablet others r :
  preserves evolves others → preserves evolves (serve_tablet others r).
Proof.
  intros Ho. destruct r; cbn [serve_tablet]; apply evolves_ignore.
  all: first
    [ apply evolves_create_tablet | apply evolves_activate | apply evolves_deactivate
    | apply evolves_lost | apply evolves_recover | apply evolves_retire
    | apply evolves_revoke_installation | apply evolves_invite | apply evolves_replacement
    | apply evolves_request | apply evolves_complete_adoption, Ho | apply evolves_check_in
    | apply evolves_refresh | apply evolves_mark_stale | apply evolves_request_grant
    | apply evolves_request_generation | apply evolves_request_manifest
    | apply evolves_delivery_cycle, Ho | idtac ].
  all: apply evolves_tables; cbv zeta; frame; intros s; reflexivity.
Qed.

(** ** Reachable stores *)

Lemma evolves_outside s s' : outside s s' → evolves s s'.
Proof.
  intros (Et & Ei & Ev & Hk) [R I V G].
  split_and!; [|apply same_installations, Ei|apply same_tablets, Et].
  split; [rewrite Et; exact R|rewrite Et, Ei; exact I|rewrite Ev; exact V|].
  intros iid Hiid. rewrite Ei. apply G, Hk, Hiid.
Qed.

Lemma evolves_step s s' : tablet_step s s' → evolves s s'.
Proof.
  intros [others r Ho|s1 Hs]; [apply evolves_serve_tablet, Ho|apply evolves_outside, Hs].
Qed.

Lemma evolves_run s s' : rtc tablet_step s s' → evolves s s'.
Proof. induction 1 as [s|s1 s2 s3 Hs _ IH]; [reflexivity|]. etrans; [apply evolves_step, Hs|exact IH]. Qed.

Lemma no_tablets_inv s : no_tablets s → TabletInv s.
Proof.
  intros (Et & Ei & Ev & Ek & Eg). split.
  - rewrite Et. split; intros * H5; rewrite lookup_empty in H5; discriminate.
  - rewrite Et, Ei. split; intros * H5; rewrite lookup_empty in H5; discriminate.
  - rewrite Ev. split; intros * H5; rewrite lookup_empty in H5; discriminate.
  - intros iid [H5|H5]; destruct H5 as (k & g & H5 & _).
    + rewrite Ek, lookup_empty in H5. discriminate.
    + rewrite Eg, lookup_empty in H5. discriminate.
Qed.

Lemma tablet_reachable_inv s : tablet_reachable s → TabletInv s.
Proof. intros (s0 & H5 & Hr). apply (evolves_run s0 s Hr), no_tablets_inv, H5. Qed.
End system.

(** Withdrawing a publication is such a step: its grants are revoked. *)
Lemma outside_revoke_publication_grants pid p s :
  outside s (revoke_publication_dataset_key_grants pid p s).2.
Proof.
  assert (U : ∀ P now gs iid,
    live_grant ((λ g, if (P g : bool) then revoke_grant now g else g) <$> gs) iid →
    live_grant gs iid).
  { intros P now gs iid (k & g & Hk & Ei & Hs & _)%update_live. exists k, g. auto. }
  unfold revoke_publication_dataset_key_grants, outside. cbn.
  destruct (is_file_dataset _); (split_and!; [reflexivity..|]); intros iid [Hk|Hk]; cbn in Hk.
  all: first [left; exact Hk|right; exact Hk|left; eapply U, Hk|right; eapply U, Hk].
Qed.
