(* ===== verification/RoleInv.v ===== *)
(** The invariant of accounts and roles, what a step of the administration keeps, and
    the rules by which the updates of the services keep it. *)
From S2P Require Import Prelude Text Versions Models Registry Lifecycle Store Authorization.
From S2P Require Import Fingerprint Artifacts ApplicationSecrets Tablets Accounts Roles Restore.
From S2P Require Import Queue Build.
From S2P Require Import Totality.

(** What the invariant looks at. *)
Definition role_tables (s : Db) :=
  (db_users s, db_system_roles s, db_memberships s, db_station_admins s, db_setup_tokens s).

(** A membership by which an active user administers the department. *)
Definition admin_of (s : Db) (d k : N) (m : DepartmentMembership) : Prop :=
  db_memberships s !! k = Some m ∧ dm_active m = true ∧ dm_department m = d
  ∧ user_is_active s (dm_user m) = true.

Definition has_admin (s : Db) (d : N) : Prop := ∃ k m, admin_of s d k m.

(** An account that nothing opens again: it is inactive, has no password, no token
    that could be used, and is not the system administrator. *)
Definition closed (s : Db) (u : N) : Prop :=
  (∃ row, db_users s !! u = Some row ∧ us_is_active row = false ∧ us_password row = None)
  ∧ (∀ k t, db_setup_tokens s !! k = Some t → tk_user t = u → tk_used_at t ≠ None)
  ∧ (∀ k r, db_system_roles s !! k = Some r → sr_active r = true → sr_user r ≠ u).

(** The [*_lifecycle_provenance] constraints. *)
Definition provenance (status : AuthorityStatus) (revoked_at : option Z) (revoked_by : option N) :
    Prop :=
  match status with
  | AUTHORITY_REVOKED => revoked_at ≠ None ∧ revoked_by ≠ None
  | _ => revoked_at = None ∧ revoked_by = None
  end.

Record RoleInv (s : Db) : Prop := mkRoleInv {
  ri_member : ∀ k k' m m', db_memberships s !! k = Some m → db_memberships s !! k' = Some m' →
    dm_user m = dm_user m' → dm_active m = true → dm_active m' = true → k = k';
  ri_station : ∀ k k' a a', db_station_admins s !! k = Some a → db_station_admins s !! k' = Some a' →
    sa_user a = sa_user a' → sa_station a = sa_station a' → sa_active a = true →
    sa_active a' = true → k = k';
  ri_member_life : ∀ k m, db_memberships s !! k = Some m →
    provenance (dm_status m) (dm_revoked_at m) (dm_revoked_by m);
  ri_station_life : ∀ k a, db_station_admins s !! k = Some a →
    provenance (sa_status a) (sa_revoked_at a) (sa_revoked_by a);
  ri_email : ∀ k k' u u', db_users s !! k = Some u → db_users s !! k' = Some u' →
    us_email u = us_email u' → k = k';
  ri_token : ∀ k k' t t', db_setup_tokens s !! k = Some t → db_setup_tokens s !! k' = Some t' →
    tk_token_hash t = tk_token_hash t' → k = k'
}.

(** Authority stays with its user and its scope, and a revoked one never changes; a
    setup token stays with its secret and its user, and a used one stays used. *)
Definition authority_history (s s' : Db) : Prop :=
  (∀ k m, db_memberships s !! k = Some m → ∃ m', db_memberships s' !! k = Some m'
     ∧ dm_user m' = dm_user m ∧ dm_department m' = dm_department m
     ∧ (dm_status m = AUTHORITY_REVOKED → m' = m))
  ∧ (∀ k a, db_station_admins s !! k = Some a → ∃ a', db_station_admins s' !! k = Some a'
     ∧ sa_user a' = sa_user a ∧ sa_station a' = sa_station a
     ∧ (sa_status a = AUTHORITY_REVOKED → a' = a))
  ∧ (∀ k t, db_setup_tokens s !! k = Some t → ∃ t', db_setup_tokens s' !! k = Some t'
     ∧ tk_token_hash t' = tk_token_hash t ∧ tk_user t' = tk_user t
     ∧ (tk_used_at t ≠ None → tk_used_at t' ≠ None)).

(** One step of the administration. *)
Record role_evolves_to (s s' : Db) : Prop := mkRoleEvolves {
  re_inv : RoleInv s';
  re_admin : ∀ d, has_admin s d → has_admin s' d;
  re_closed : ∀ u, closed s u → closed s' u;
  re_history : authority_history s s'
}.

Definition role_evolves (s s' : Db) : Prop := RoleInv s → role_evolves_to s s'.

#[export] Instance authority_history_preorder : PreOrder authority_history.
Proof.
  split.
  - intros s. split_and!; intros k x Hx; exists x; auto.
  - intros s1 s2 s3 (M1 & A1 & T1) (M2 & A2 & T2). split_and!.
    + intros k m Hm. destruct (M1 k m Hm) as (m2 & H2 & E1 & E2 & E3).
      destruct (M2 k m2 H2) as (m3 & H3 & F1 & F2 & F3). exists m3.
      split_and!; [exact H3|congruence..|]. intros E. specialize (E3 E). subst m2. auto.
    + intros k a Ha. destruct (A1 k a Ha) as (a2 & H2 & E1 & E2 & E3).
      destruct (A2 k a2 H2) as (a3 & H3 & F1 & F2 & F3). exists a3.
      split_and!; [exact H3|congruence..|]. intros E. specialize (E3 E). subst a2. auto.
    + intros k t Ht. destruct (T1 k t Ht) as (t2 & H2 & E1 & E2 & E3).
      destruct (T2 k t2 H2) as (t3 & H3 & F1 & F2 & F3). exists t3.
      split_and!; [exact H3|congruence..|]. auto.
Qed.

#[export] Instance role_evolves_preorder : PreOrder role_evolves.
Proof.
  split.
  - intros s I. split; auto. reflexivity.
  - intros s1 s2 s3 R1 R2 I. destruct (R1 I) as [I2 A1 C1 H1]. destruct (R2 I2) as [I3 A2 C2 H2].
    split; auto. etrans; eassumption.
Qed.

Lemma role_tables_eq s s' : role_tables s' = role_tables s →
  db_users s' = db_users s ∧ db_system_roles s' = db_system_roles s
  ∧ db_memberships s' = db_memberships s ∧ db_station_admins s' = db_station_admins s
  ∧ db_setup_tokens s' = db_setup_tokens s.
Proof. intros [= ]. auto. Qed.

(** A step is seen through the tables only. *)
Lemma evolves_role_tables s s1 s' : role_tables s' = role_tables s1 →
  role_evolves s s1 → role_evolves s s'.
Proof.
  intros (E1 & E2 & E3 & E4 & E5)%role_tables_eq R I. destruct (R I) as [[J1 J2 J3 J4 J5 J6] A C H].
  split; [split| | |]; unfold has_admin, admin_of, closed, authority_history, user_is_active in *;
    rewrite ?E1, ?E2, ?E3, ?E4, ?E5; assumption.
Qed.

Lemma evolves_same s s' : role_tables s' = role_tables s → role_evolves s s'.
Proof. intros E. eapply evolves_role_tables; [exact E|reflexivity]. Qed.

Lemma evolves_keeps {A} (m : M Db A) : keeps role_tables m → preserves role_evolves m.
Proof. intros H s. apply evolves_same, H. Qed.

(** What comes after the last update of the tables. *)
Lemma evolves_then {A} (m : M Db A) s s1 :
  keeps role_tables m → role_evolves s s1 → wlp m s1 (λ _ s', role_evolves s s').
Proof.
  intros Hm R. eapply (wlp_frame role_tables); [exact Hm|]. intros a s' E.
  eapply evolves_role_tables; eassumption.
Qed.

(** ** Memberships *)

Section membership_rules.
Context (s s' : Db).

(** The tables but for the memberships. *)
Definition other_roles (s : Db) :=
  (db_users s, db_system_roles s, db_station_admins s, db_setup_tokens s).

Context (E : other_roles s' = other_roles s).

Lemma admin_elsewhere k m' d :
  db_memberships s' = <[k := m']> (db_memberships s) →
  (∀ m, admin_of s d k m → ∃ j mj, j ≠ k ∧ admin_of s d j mj) →
  has_admin s d → has_admin s' d.
Proof.
  intros Em Hk (j & m & Hm & Ha & Hd & Hu). injection E as E1 _ _ _.
  assert (K : ∃ j mj, j ≠ k ∧ admin_of s d j mj).
  { destruct (decide (j = k)) as [->|Hne]; [apply (Hk m)|exists j, m]; repeat split; assumption. }
  destruct K as (i & mi & Hne & Hmi & Hai & Hdi & Hui). exists i, mi.
  unfold admin_of, user_is_active in *. rewrite Em, E1, lookup_insert_ne by congruence. auto.
Qed.

Lemma role_inv_membership k m' :
  RoleInv s → db_memberships s' = <[k := m']> (db_memberships s) →
  provenance (dm_status m') (dm_revoked_at m') (dm_revoked_by m') →
  (dm_active m' = true → ∀ j mj, db_memberships s !! j = Some mj → dm_user mj = dm_user m' →
     dm_active mj = true → j = k) → RoleInv s'.
Proof.
  intros [J1 J2 J3 J4 J5 J6] Em Hp Ha. injection E as E1 E2 E3 E4.
  split; rewrite ?E1, ?E2, ?E3, ?E4; try assumption; rewrite Em.
  - intros i j mi mj [[-> ->]|[Hi Hmi]]%lookup_insert_Some [[-> ->]|[Hj Hmj]]%lookup_insert_Some;
      intros Hu H1 H2; [reflexivity|symmetry; apply (Ha H1 j mj); auto|apply (Ha H2 i mi); auto|eauto].
  - intros j m [[-> ->]|[_ Hm]]%lookup_insert_Some; [exact Hp|eauto].
Qed.

(** A change to the status of a membership. *)
Lemma evolves_membership k m m' :
  db_memberships s !! k = Some m → db_memberships s' = <[k := m']> (db_memberships s) →
  dm_user m' = dm_user m → dm_department m' = dm_department m → dm_status m ≠ AUTHORITY_REVOKED →
  (RoleInv s → provenance (dm_status m') (dm_revoked_at m') (dm_revoked_by m')) →
  (dm_active m' = true → ∀ j mj, db_memberships s !! j = Some mj → dm_user mj = dm_user m →
     dm_active mj = true → j = k) →
  (admin_of s (dm_department m) k m → ∃ j mj, j ≠ k ∧ admin_of s (dm_department m) j mj) →
  role_evolves s s'.
Proof.
  intros Hm Em Eu Ed Hr Hp Hu Hl I. specialize (Hp I). pose proof E as E'. injection E' as E1 E2 E3 E4.
  split.
  - eapply role_inv_membership; [exact I|exact Em|exact Hp|]. rewrite Eu. exact Hu.
  - intros d. apply (admin_elsewhere k m' d Em). intros m0 H0. pose proof H0 as (H0' & _ & Hd & _).
    rewrite Hm in H0'. injection H0' as <-. subst d. exact (Hl H0).
  - unfold closed. rewrite E1, E2, E4. auto.
  - split; [|rewrite E3, E4; split; intros j a Ha; exists a; auto]. rewrite Em. intros j mj Hj.
    destruct (decide (j = k)) as [->|Hne].
    + exists m'. rewrite lookup_insert_eq. rewrite Hm in Hj. injection Hj as <-.
      split_and!; [reflexivity|exact Eu|exact Ed|contradiction].
    + exists mj. rewrite lookup_insert_ne by congruence. auto.
Qed.

Lemma evolves_new_membership k m' :
  db_memberships s !! k = None → db_memberships s' = <[k := m']> (db_memberships s) →
  provenance (dm_status m') (dm_revoked_at m') (dm_revoked_by m') →
  (∀ j mj, db_memberships s !! j = Some mj → dm_user mj = dm_user m' → dm_active mj = false) →
  role_evolves s s'.
Proof.
  intros Hk Em Hp Hu I. pose proof E as E'. injection E' as E1 E2 E3 E4. split.
  - eapply role_inv_membership; [exact I|exact Em|exact Hp|]. intros _ j mj Hj Eu Ha.
    rewrite (Hu _ _ Hj Eu) in Ha. discriminate.
  - intros d. apply (admin_elsewhere k m' d Em). intros m (H0 & _). congruence.
  - unfold closed. rewrite E1, E2, E4. auto.
  - split; [|rewrite E3, E4; split; intros j a Ha; exists a; auto]. rewrite Em. intros j mj Hj.
    exists mj. rewrite lookup_insert_ne by congruence. auto.
Qed.
End membership_rules.

(** ** Station administrators *)

Section assignment_rules.
Context (s s' : Db).

Definition but_assignments (s : Db) :=
  (db_users s, db_system_roles s, db_memberships s, db_setup_tokens s).

Context (E : but_assignments s' = but_assignments s).

Lemma evolves_station_admins k a' :
  db_station_admins s' = <[k := a']> (db_station_admins s) →
  (RoleInv s → provenance (sa_status a') (sa_revoked_at a') (sa_revoked_by a')) →
  (sa_active a' = true → ∀ j aj, db_station_admins s !! j = Some aj → sa_user aj = sa_user a' →
     sa_station aj = sa_station a' → sa_active aj = true → j = k) →
  (∀ a, db_station_admins s !! k = Some a → sa_user a' = sa_user a ∧ sa_station a' = sa_station a
     ∧ sa_status a ≠ AUTHORITY_REVOKED) → role_evolves s s'.
Proof.
  intros Ea Hp Hu Hk I. specialize (Hp I). injection E as E1 E2 E3 E4. destruct I as [J1 J2 J3 J4 J5 J6].
  split; [split| | |]; unfold has_admin, admin_of, closed, user_is_active in *;
    rewrite ?E1, ?E2, ?E3, ?E4; auto; try assumption.
  - rewrite Ea.
    intros i j ai aj [[-> ->]|[Hi Hai]]%lookup_insert_Some [[-> ->]|[Hj Haj]]%lookup_insert_Some;
      intros Eu Es H1 H2; [reflexivity|symmetry; apply (Hu H1 j aj); auto|apply (Hu H2 i ai); auto|eauto].
  - rewrite Ea. intros j a [[-> ->]|[_ Ha]]%lookup_insert_Some; [exact Hp|eauto].
  - split; [rewrite E3; intros j m Hm; exists m; auto|].
    split; [|rewrite E4; intros j t Ht; exists t; auto]. rewrite Ea. intros j a Ha.
    destruct (decide (j = k)) as [->|Hne].
    + exists a'. rewrite lookup_insert_eq. destruct (Hk _ Ha) as (F1 & F2 & F3).
      split_and!; [reflexivity|exact F1|exact F2|contradiction].
    + exists a. rewrite lookup_insert_ne by congruence. auto.
Qed.
End assignment_rules.

(** ** Accounts *)

Section account_rules.
Context (s s' : Db) (E : db_memberships s' = db_memberships s ∧ db_station_admins s' = db_station_admins s).

Lemma history_accounts :
  (∀ k t, db_setup_tokens s !! k = Some t → ∃ t', db_setup_tokens s' !! k = Some t'
     ∧ tk_token_hash t' = tk_token_hash t ∧ tk_user t' = tk_user t
     ∧ (tk_used_at t ≠ None → tk_used_at t' ≠ None)) → authority_history s s'.
Proof.
  destruct E as [E3 E4]. intros Ht. split_and!; [rewrite E3|rewrite E4|exact Ht];
    intros k x Hx; exists x; auto.
Qed.

(** Users that stay active keep their departments administered. *)
Lemma admin_accounts d :
  (∀ k m, db_memberships s !! k = Some m → dm_active m = true →
     user_is_active s (dm_user m) = true → user_is_active s' (dm_user m) = true) →
  has_admin s d → has_admin s' d.
Proof.
  destruct E as [E3 _]. intros Hu (k & m & Hm & Ha & Hd & Hact). exists k, m. unfold admin_of.
  rewrite E3. split_and!; eauto.
Qed.

(** Accounts and tokens are added or changed. *)
Lemma evolves_accounts :
  db_system_roles s' = db_system_roles s →
  (RoleInv s → ∀ k k' u u', db_users s' !! k = Some u → db_users s' !! k' = Some u' →
    us_email u = us_email u' → k = k') →
  (RoleInv s → ∀ k k' t t', db_setup_tokens s' !! k = Some t → db_setup_tokens s' !! k' = Some t' →
    tk_token_hash t = tk_token_hash t' → k = k') →
  (RoleInv s → ∀ k m, db_memberships s !! k = Some m → dm_active m = true →
     user_is_active s (dm_user m) = true → user_is_active s' (dm_user m) = true) →
  (∀ u, closed s u → closed s' u) →
  (∀ k t, db_setup_tokens s !! k = Some t → ∃ t', db_setup_tokens s' !! k = Some t'
     ∧ tk_token_hash t' = tk_token_hash t ∧ tk_user t' = tk_user t
     ∧ (tk_used_at t ≠ None → tk_used_at t' ≠ None)) → role_evolves s s'.
Proof.
  intros E2 H1 H2 H3 H4 H5 I. pose proof E as [E3 E4]. specialize (H1 I). specialize (H2 I).
  pose proof I as [J1 J2 J3 J4 J5 J6]. split; [split| | |].
  1-6: rewrite ?E2, ?E3, ?E4; assumption.
  - intros d. apply admin_accounts, (H3 I).
  - exact H4.
  - apply history_accounts, H5.
Qed.
End account_rules.

(** Tokens that are the same, or of which one is new or used. *)
Lemma tokens_same (m : gmap N AccountSetupToken) k t : m !! k = Some t → ∃ t', m !! k = Some t'
  ∧ tk_token_hash t' = tk_token_hash t ∧ tk_user t' = tk_user t
  ∧ (tk_used_at t ≠ None → tk_used_at t' ≠ None).
Proof. intros Ht. exists t. auto. Qed.

Lemma tokens_insert (m : gmap N AccountSetupToken) j t0 k t :
  (∀ t1, m !! j = Some t1 → tk_token_hash t0 = tk_token_hash t1 ∧ tk_user t0 = tk_user t1
     ∧ (tk_used_at t1 ≠ None → tk_used_at t0 ≠ None)) →
  m !! k = Some t → ∃ t', <[j := t0]> m !! k = Some t' ∧ tk_token_hash t' = tk_token_hash t
    ∧ tk_user t' = tk_user t ∧ (tk_used_at t ≠ None → tk_used_at t' ≠ None).
Proof.
  intros Hj Ht. destruct (decide (j = k)) as [->|Hne].
  - exists t0. rewrite lookup_insert_eq. split; [reflexivity|auto].
  - exists t. rewrite lookup_insert_ne by exact Hne. auto.
Qed.

Lemma user_is_active_insert s s' k u v : db_users s' = <[k := u]> (db_users s) →
  user_is_active s' v = if N.eqb v k then us_is_active u else user_is_active s v.
Proof.
  intros Eu. unfold user_is_active. rewrite Eu. destruct (N.eqb_spec v k) as [->|Hne].
  - rewrite lookup_insert_eq. reflexivity.
  - rewrite lookup_insert_ne by congruence. reflexivity.
Qed.
