(* ===== verification/RoleSystem.v ===== *)
(** The services of role administration and the transition system they form. *)
From S2P Require Import Prelude Text Versions Models Registry Lifecycle Store Authorization.
From S2P Require Import Fingerprint Artifacts ApplicationSecrets Tablets Accounts Roles.
From S2P Require Import TabletQueries Manifests Grants Restore Queue Assignments Organizations.
From S2P Require Import Build Totality TabletInv TabletServices DeliveryInv TabletSystem.
From S2P Require Import RoleInv.

Inductive RoleRequest :=
| SetMailEligibility (actor department : N) (allowed : bool)
| SetVersionPolicy (actor : N) (api_major : Z) (minimum_app_version : option string)
| SetLease (actor department : N) (days : Z)
| SetSystemLease (actor department : N) (days : Z)
| SetAssetNumberPolicy (actor department : N) (auto_enabled : bool) (prefix : string) (width : Z)
| SetLocaleTimePolicy (actor department : N) (locale timezone_name : string)
| CreateDepartment (actor : N) (name short_code : string)
| ChangeDepartmentStatus (actor department : N) (status : string)
| ProvisionDepartmentAdmin (actor department : N) (email display_name : string)
| ProvisionStationAdmin (actor station : N) (email display_name : string)
| SuspendDepartmentAdmin (actor membership : N)
| ReinstateDepartmentAdmin (actor membership : N)
| RevokeDepartmentAdmin (actor membership : N)
| SuspendStationAdmin (actor assignment : N)
| ReinstateStationAdmin (actor assignment : N)
| RevokeStationAdmin (actor assignment : N)
| GrantStationAdmin (actor user station : N)
| RemoveAdministrator (actor user department : N)
| ConsumeSetupToken (raw_token password : string)
| RecordAuthFailure (scope account : string) (source_ip : option string)
| BootstrapSystemAdmin (email display_name : string)
| ReissueSystemAdminSetup.

Section system.
Context `{Settings} `{Hash} `{HpkeSuite} `{Secrets} `{DeliverySettings} `{Credentials}
  `{Accounts}.

Definition serve_role (r : RoleRequest) : M Db unit :=
  match r with
  | SetMailEligibility a d b => ignore (set_system_managed_mail_eligibility a d b)
  | SetVersionPolicy a v m => ignore (set_api_version_compatibility_policy a v m)
  | SetLease a d n => set_department_tablet_lease a d n
  | SetSystemLease a d n => set_system_department_tablet_lease a d n
  | SetAssetNumberPolicy a d b p w => set_department_tablet_asset_number_policy a d b p w
  | SetLocaleTimePolicy a d l t => set_department_locale_time_policy a d l t
  | CreateDepartment a n c => ignore (create_department a n c)
  | ChangeDepartmentStatus a d st => change_department_status a d st
  | ProvisionDepartmentAdmin a d e n => ignore (provision_department_admin a d e n)
  | ProvisionStationAdmin a st e n => ignore (provision_station_admin a st e n)
  | SuspendDepartmentAdmin a m => suspend_department_admin a m
  | ReinstateDepartmentAdmin a m => reinstate_department_admin a m
  | RevokeDepartmentAdmin a m => revoke_department_admin a m
  | SuspendStationAdmin a x => suspend_station_admin a x
  | ReinstateStationAdmin a x => reinstate_station_admin a x
  | RevokeStationAdmin a x => revoke_station_admin a x
  | GrantStationAdmin a u st => ignore (grant_station_admin a u st)
  | RemoveAdministrator a u d => permanently_remove_administrator a u d
  | ConsumeSetupToken t p => ignore (consume_setup_token t p)
  | RecordAuthFailure sc a ip => record_auth_failure sc a ip
  | BootstrapSystemAdmin e n => ignore (bootstrap_system_admin e n)
  | ReissueSystemAdminSetup => ignore reissue_system_admin_setup
  end.

(** One move: a request of the administration, a request of the tablets, or anything
    that leaves accounts and roles alone. *)
Inductive role_step (s : Db) : Db → Prop :=
| role_serve r : role_step s (serve_role r s).2
| role_tablets others r : keeps role_tables others → role_step s (serve_tablet others r s).2
| role_outside s' : role_tables s' = role_tables s → role_step s s'.

Definition role_reachable (s : Db) : Prop :=
  ∃ s0, role_tables s0 = (∅, ∅, ∅, ∅, ∅) ∧ rtc role_step s0 s.

End system.

(** ** Checks *)

Lemma readonly_lifecycle_actor a d : readonly (_require_tenant_lifecycle_actor a d).
Proof. unfold _require_tenant_lifecycle_actor. preserve. Qed.

Lemma readonly_prevent d k m : readonly (_prevent_last_effective_admin_removal d k m).
Proof. unfold _prevent_last_effective_admin_removal. preserve. Qed.

Lemma readonly_normalized_version v : readonly (normalized_version v).
Proof.
  unfold normalized_version. destruct v as [v|]; [|preserve]. destruct (str_true v); [|preserve].
  apply preserves_try_except; [exact _| |].
  - unfold parse_app_version, int_of_str. preserve.
  - intros e k. destruct (bool_decide _); [intros [= <-]; preserve|discriminate].
Qed.

#[export] Hint Resolve readonly_lifecycle_actor readonly_prevent readonly_normalized_version :
  preserves.

Lemma wlp_require_department_admin a d s (Q : unit → Db → Prop) :
  (department_is_active s d = true → mem_N d (active_department_ids s a) = true → Q tt s) →
  wlp (require_department_admin a (Some d)) s Q.
Proof.
  intros HQ. unfold require_department_admin. apply wlp_bind. unfold gets, wlp at 1.
  apply wlp_guard. intros Hc. apply HQ; unfold department_is_active;
    destruct (db_departments s !! d); try discriminate; apply andb_true_iff in Hc as [H1 H2]; assumption.
Qed.

Lemma wlp_lifecycle_actor a d s (Q : unit → Db → Prop) :
  (department_is_active s d = true → Q tt s) → wlp (_require_tenant_lifecycle_actor a d) s Q.
Proof.
  intros HQ. unfold _require_tenant_lifecycle_actor. apply wlp_skip; [preserve|]. intros b _.
  apply wlp_bind, wlp_guard. intros _. apply wlp_require_department_admin. auto.
Qed.

(** Before an effective administrator goes there is another one. *)
Lemma wlp_prevent d k m s (Q : unit → Db → Prop) :
  db_memberships s !! k = Some m → dm_department m = d → department_is_active s d = true →
  ((admin_of s d k m → ∃ j mj, j ≠ k ∧ admin_of s d j mj) → Q tt s) →
  wlp (_prevent_last_effective_admin_removal d k m) s Q.
Proof.
  intros Hm Hd Hact HQ. unfold _prevent_last_effective_admin_removal.
  destruct (dm_active m) eqn:Ha; cbn [negb].
  2:{ apply wlp_ret, HQ. intros (_ & H & _). congruence. }
  apply wlp_skip; [preserve|]. intros l [= <-].
  set (l := effective_department_admin_memberships s (Some d)).
  assert (Hl : ∀ j mj, (j, mj) ∈ l ↔ admin_of s d j mj).
  { intros j mj. unfold l, effective_department_admin_memberships. rewrite rows_elem.
    unfold effective_membership, admin_of. rewrite !andb_true_iff, N.eqb_eq. split.
    - intros (H1 & ((H2 & H3) & H4) & H5). auto.
    - intros (H1 & H2 & H3 & H4). rewrite H3. auto. }
  destruct (mem_N k l.*1) eqn:Ek; cbn [negb].
  2:{ apply wlp_ret, HQ. intros H. exfalso. apply not_true_iff_false in Ek. apply Ek, mem_N_spec.
      apply list_elem_of_fmap. exists (k, m). split; [reflexivity|]. apply Hl, H. }
  apply wlp_guard. intros Hlen. apply HQ. intros _. apply Nat.ltb_lt in Hlen.
  assert (Hnd : NoDup l.*1) by apply rows_NoDup.
  destruct l as [|[j1 m1] [|[j2 m2] l']]; cbn in Hlen; [lia|lia|].
  apply NoDup_cons in Hnd as [Hn _]. destruct (decide (j1 = k)) as [->|Hne].
  - exists j2, m2. split; [|apply Hl; do 2 constructor]. intros ->. apply Hn. left.
  - exists j1, m1. split; [exact Hne|apply Hl; left].
Qed.

Lemma keeps_roles_mutation a : keeps role_tables (department_mutation a).
Proof. frame. Qed.

Lemma keeps_roles_revoke_access u a : keeps role_tables (revoke_temporary_access_for_user u a).
Proof. frame. Qed.

#[export] Hint Resolve keeps_roles_mutation keeps_roles_revoke_access : preserves.

(** ** Department administrators *)

Lemma suspended_admin k m s : db_memberships s !! k = Some m → dm_active m = true →
  (admin_of s (dm_department m) k m → ∃ j mj, j ≠ k ∧ admin_of s (dm_department m) j mj) →
  ∀ a, wlp (suspend_membership k a) s (λ _ s', role_evolves s s').
Proof.
  intros Hm Ha Hl a. unfold suspend_membership. apply wlp_skip; [preserve|]. intros now _.
  apply wlp_save. intros m0 H0. rewrite Hm in H0. injection H0 as <-.
  apply bool_decide_eq_true_1 in Ha.
  eapply evolves_membership; [reflexivity|exact Hm|reflexivity..|congruence| |discriminate|exact Hl].
  intros I. pose proof (ri_member_life _ I _ _ Hm) as P. unfold provenance in P. rewrite Ha in P.
  exact P.
Qed.

Lemma revoked_admin k m s : db_memberships s !! k = Some m → dm_status m ≠ AUTHORITY_REVOKED →
  (admin_of s (dm_department m) k m → ∃ j mj, j ≠ k ∧ admin_of s (dm_department m) j mj) →
  ∀ a, wlp (revoke_membership k a) s (λ _ s', role_evolves s s' ∧ other_roles s' = other_roles s
    ∧ db_departments s' = db_departments s ∧ ∃ m', db_memberships s' = <[k := m']> (db_memberships s) ∧ dm_active m' = false).
Proof.
  intros Hm Hr Hl a. unfold revoke_membership. apply wlp_skip; [preserve|]. intros now _.
  apply wlp_save. intros m0 H0. rewrite Hm in H0. injection H0 as <-. split_and!.
  - eapply evolves_membership; [reflexivity|exact Hm|reflexivity..|exact Hr| |discriminate|exact Hl].
    intros _. split; discriminate.
  - reflexivity.
  - reflexivity.
  - eexists. split; reflexivity.
Qed.

(** A transaction on the membership [k] by an administrator of its department. *)
Ltac open_membership k m Hm Hact :=
  apply preserves_atomic_wlp; [exact _|]; let s := fresh "s" in intros s;
  apply wlp_bind, wlp_get_obj; intros m Hm; cbv zeta;
  apply wlp_bind, wlp_lifecycle_actor; intros Hact.

Lemma evolves_suspend_department_admin a k : preserves role_evolves (suspend_department_admin a k).
Proof.
  open_membership k m Hm Hact. apply wlp_bind, wlp_guard. intros Ha. apply wlp_bind.
  eapply wlp_prevent; [exact Hm|reflexivity|exact Hact|]. intros Hl. apply wlp_bind.
  eapply wlp_mono; [eapply suspended_admin; eassumption|]. intros u s1 R.
  apply evolves_then; [frame|exact R].
Qed.

Lemma evolves_revoke_department_admin a k : preserves role_evolves (revoke_department_admin a k).
Proof.
  open_membership k m Hm Hact. apply wlp_bind, wlp_guard. intros Hr. apply wlp_bind.
  apply negb_true_iff, bool_decide_eq_false_1 in Hr.
  eapply wlp_prevent; [exact Hm|reflexivity|exact Hact|]. intros Hl. apply wlp_bind.
  eapply wlp_mono; [eapply revoked_admin; eassumption|]. intros u s1 [R _].
  apply evolves_then; [frame|exact R].
Qed.

Lemma evolves_reinstate_department_admin a k :
  preserves role_evolves (reinstate_department_admin a k).
Proof.
  open_membership k m Hm Hact. apply wlp_bind, wlp_guard. intros Hs.
  apply bool_decide_eq_true_1 in Hs. apply wlp_skip; [preserve|]. intros e [= <-].
  apply wlp_bind, wlp_guard. intros He. apply negb_true_iff in He.
  rewrite exists_row_false in He. apply wlp_bind, wlp_save. intros m0 H0. rewrite Hm in H0.
  injection H0 as <-. apply evolves_then; [frame|].
  eapply evolves_membership; [reflexivity|exact Hm|reflexivity..|congruence| | |].
  - intros I. pose proof (ri_member_life _ I _ _ Hm) as P. unfold provenance in P. rewrite Hs in P.
    exact P.
  - intros _ j mj Hj Eu Ha. specialize (He _ _ Hj). rewrite Eu, N.eqb_refl, Ha in He. cbn in He.
    apply negb_false_iff, N.eqb_eq in He. exact He.
  - intros (_ & Ha & _). unfold dm_active in Ha. rewrite Hs in Ha. discriminate.
Qed.

(** ** Station administrators *)

Ltac open_assignment k a Ha :=
  apply preserves_atomic_wlp; [exact _|]; let s := fresh "s" in intros s;
  apply wlp_bind, wlp_get_obj; intros a Ha; apply wlp_bind, wlp_get_obj;
  let st := fresh "st" in intros st _; cbv zeta;
  apply wlp_bind, wlp_lifecycle_actor; intros _.

Lemma suspended_assignment k a s : db_station_admins s !! k = Some a → sa_active a = true →
  ∀ x, wlp (suspend_assignment k x) s (λ _ s', role_evolves s s').
Proof.
  intros Ha Hact x. unfold suspend_assignment. apply wlp_skip; [preserve|]. intros now _.
  apply wlp_save. intros a0 H0. rewrite Ha in H0. injection H0 as <-.
  apply bool_decide_eq_true_1 in Hact.
  eapply evolves_station_admins; [reflexivity..| |discriminate|].
  - intros I. pose proof (ri_station_life _ I _ _ Ha) as P. unfold provenance in P.
    rewrite Hact in P. exact P.
  - intros a1 H1. rewrite Ha in H1. injection H1 as <-. split_and!; [reflexivity..|congruence].
Qed.

Lemma revoked_assignment k a s : db_station_admins s !! k = Some a →
  sa_status a ≠ AUTHORITY_REVOKED →
  ∀ x, wlp (revoke_assignment k x) s (λ _ s', role_evolves s s' ∧ but_assignments s' = but_assignments s
    ∧ ∃ a', db_station_admins s' = <[k := a']> (db_station_admins s)).
Proof.
  intros Ha Hr x. unfold revoke_assignment. apply wlp_skip; [preserve|]. intros now _.
  apply wlp_save. intros a0 H0. rewrite Ha in H0. injection H0 as <-. split_and!.
  - eapply evolves_station_admins; [reflexivity..|intros _; split; discriminate|discriminate|].
    intros a1 H1. rewrite Ha in H1. injection H1 as <-. split_and!; [reflexivity..|exact Hr].
  - reflexivity.
  - eexists. reflexivity.
Qed.

Lemma evolves_suspend_station_admin x k : preserves role_evolves (suspend_station_admin x k).
Proof.
  open_assignment k a Ha. apply wlp_bind, wlp_guard. intros Hact. apply wlp_bind.
  eapply wlp_mono; [eapply suspended_assignment; eassumption|]. intros u s1 R.
  apply evolves_then; [frame|exact R].
Qed.

Lemma evolves_revoke_station_admin x k : preserves role_evolves (revoke_station_admin x k).
Proof.
  open_assignment k a Ha. apply wlp_bind, wlp_guard. intros Hr. apply wlp_bind.
  apply negb_true_iff, bool_decide_eq_false_1 in Hr.
  eapply wlp_mono; [eapply revoked_assignment; eassumption|]. intros u s1 [R _].
  apply evolves_then; [frame|exact R].
Qed.

Lemma evolves_reinstate_station_admin x k : preserves role_evolves (reinstate_station_admin x k).
Proof.
  open_assignment k a Ha. apply wlp_bind, wlp_guard. intros Hs.
  apply bool_decide_eq_true_1 in Hs. apply wlp_skip; [preserve|]. intros e [= <-].
  apply wlp_bind, wlp_guard. intros He. apply negb_true_iff in He.
  rewrite exists_row_false in He. apply wlp_bind, wlp_save. intros a0 H0. rewrite Ha in H0.
  injection H0 as <-. apply evolves_then; [frame|]. eapply evolves_station_admins; [reflexivity..| | |].
  - intros I. pose proof (ri_station_life _ I _ _ Ha) as P. unfold provenance in P. rewrite Hs in P.
    exact P.
  - intros _ j aj Hj Eu Es Hact. specialize (He _ _ Hj). cbn in Eu, Es.
    rewrite Eu, Es, !N.eqb_refl, Hact in He. apply negb_false_iff, N.eqb_eq in He. exact He.
  - intros a1 H1. rewrite Ha in H1. injection H1 as <-. split_and!; [reflexivity..|congruence].
Qed.

Lemma new_assignment u st x s : 
  wlp (create_station_assignment u st x) s (λ _ s', role_evolves s s').
Proof.
  unfold create_station_assignment. apply wlp_skip; [preserve|]. intros b [= <-].
  apply wlp_bind, wlp_guard. intros He. apply negb_true_iff in He. rewrite exists_row_false in He.
  apply wlp_create. intros k Hk. eapply evolves_station_admins; [reflexivity..|split; reflexivity| |].
  - intros _ j aj Hj Eu Es Hact. specialize (He _ _ Hj). cbn in Eu, Es.
    rewrite Eu, Es, !N.eqb_refl, Hact in He. discriminate.
  - intros a Ha. congruence.
Qed.

Lemma evolves_grant_station_admin x u st : preserves role_evolves (grant_station_admin x u st).
Proof.
  apply preserves_atomic_wlp; [exact _|]. intros s. apply wlp_bind, wlp_get_obj. intros station _.
  cbv zeta. apply wlp_skip; [auto with preserves|]. intros v _.
  apply wlp_skip; [auto with preserves|]. intros [[aid a]|] _; [apply wlp_ret; reflexivity|].
  apply wlp_bind. eapply wlp_mono; [apply new_assignment|]. intros aid s1 R.
  apply evolves_then; [frame|exact R].
Qed.

(** ** New accounts *)

Section accounts.
Context `{Secrets} `{Accounts}.

(** The account [u] is new and inactive, and so is its token. *)
Definition new_account (s s' : Db) (u : N) : Prop :=
  ∃ row t token,
    db_users s !! u = None ∧ db_users s' = <[u := row]> (db_users s)
    ∧ us_is_active row = false ∧ us_password row = None
    ∧ (∀ k v, db_users s !! k = Some v → us_email v ≠ us_email row)
    ∧ db_setup_tokens s !! t = None ∧ db_setup_tokens s' = <[t := token]> (db_setup_tokens s)
    ∧ tk_user token = u
    ∧ (∀ k v, db_setup_tokens s !! k = Some v → tk_token_hash v ≠ tk_token_hash token)
    ∧ db_system_roles s' = db_system_roles s ∧ db_memberships s' = db_memberships s
    ∧ db_station_admins s' = db_station_admins s.

(** A row whose key is not taken joins a table with unique keys. *)
Lemma insert_unique {A B} (key : A → B) (m : gmap N A) k a :
  (∀ i j x y, m !! i = Some x → m !! j = Some y → key x = key y → i = j) →
  (∀ i x, m !! i = Some x → i ≠ k → key x ≠ key a) →
  ∀ i j x y, <[k := a]> m !! i = Some x → <[k := a]> m !! j = Some y → key x = key y → i = j.
Proof.
  intros Hm Hk i j x y [[-> ->]|[Hi Hx]]%lookup_insert_Some [[-> ->]|[Hj Hy]]%lookup_insert_Some E.
  - reflexivity.
  - destruct (Hk j y Hy); congruence.
  - destruct (Hk i x Hx); congruence.
  - eauto.
Qed.

Lemma evolves_new_account s s' u : new_account s s' u → role_evolves s s'.
Proof.
  intros (row & t & token & Hu & Eu & Ha & Hp & He & Ht0 & Et & Htu & Hth & E2 & E3 & E4).
  apply evolves_accounts; [auto|exact E2| | | | |].
  - intros I. rewrite Eu. apply insert_unique; [apply (ri_email _ I)|]. intros i x Hx _. eauto.
  - intros I. rewrite Et. apply insert_unique; [apply (ri_token _ I)|]. intros i x Hx _. eauto.
  - intros _ k m _ _ Hact. rewrite (user_is_active_insert s s' u row) by exact Eu.
    destruct (N.eqb_spec (dm_user m) u) as [E|_]; [|exact Hact].
    unfold user_is_active in Hact. rewrite E, Hu in Hact. discriminate.
  - intros v ((r & Hv & H1 & H2) & H3 & H4). assert (v ≠ u) by congruence. split_and!.
    + exists r. rewrite Eu, lookup_insert_ne by congruence. auto.
    + rewrite Et. intros k t' [[-> ->]|[_ Ht']]%lookup_insert_Some; [congruence|eauto].
    + rewrite E2. exact H4.
  - rewrite Et. intros k x. apply tokens_insert. intros t1 Ht1. congruence.
Qed.

Lemma wlp_create_user email name s (Q : N → Db → Prop) :
  (∀ k row, db_users s !! k = None → us_password row = None →
     (∀ j v, db_users s !! j = Some v → us_email v ≠ us_email row) →
     Q k (s <| db_users ::= <[k := row]> |>)) →
  wlp (create_user email name) s Q.
Proof.
  intros HQ. unfold create_user, email_taken. apply wlp_bind, wlp_guard. intros _.
  apply wlp_bind, wlp_guard. intros _. cbv zeta. apply wlp_skip; [auto with preserves|].
  intros b [= <-]. apply wlp_bind, wlp_guard. intros He. apply negb_true_iff in He.
  rewrite exists_row_false in He. apply wlp_create. intros k Hk. apply HQ; [exact Hk|reflexivity|].
  intros j v Hj. specialize (He _ _ Hj). apply String.eqb_neq, He.
Qed.

Lemma wlp_create_token u a s (Q : N * string → Db → Prop) :
  (∀ k token raw, tk_user token = u → db_setup_tokens s !! k = None →
     (∀ j v, db_setup_tokens s !! j = Some v → tk_token_hash v ≠ tk_token_hash token) →
     Q (k, raw) (s <| db_setup_tokens ::= <[k := token]> |>)) →
  wlp (create_setup_token_for_user u a) s Q.
Proof.
  intros HQ. unfold create_setup_token_for_user. apply wlp_skip; [auto with preserves|]. intros raw _.
  apply wlp_skip; [auto with preserves|]. intros now _. apply wlp_skip; [auto with preserves|].
  intros b [= <-]. apply wlp_bind, wlp_guard. intros Hh. apply negb_true_iff in Hh.
  rewrite exists_row_false in Hh. apply wlp_bind, wlp_create. intros k Hk. apply wlp_ret, HQ;
    [reflexivity|exact Hk|]. intros j v Hj. apply String.eqb_neq, (Hh _ _ Hj).
Qed.

(** A new account becomes inactive and gets its token. *)
Lemma wlp_inactive_account k row actor s (Q : N * string → Db → Prop) :
  db_users s !! k = None →
  (∀ j v, db_users s !! j = Some v → us_email v ≠ us_email row) →
  (∀ t raw s', new_account s s' k → Q (t, raw) s') →
  wlp (save db_users k (λ u, u <| us_password := None |> <| us_is_active := false |>) ;;;
       create_setup_token_for_user k actor) (s <| db_users ::= <[k := row]> |>) Q.
Proof.
  intros Hk He HQ. apply wlp_bind, wlp_save. intros u Hu.
  cbn in Hu. rewrite lookup_insert_eq in Hu. injection Hu as <-. apply wlp_create_token.
  intros t token raw Htu Ht Hh. apply HQ.
  exists (row <| us_password := None |> <| us_is_active := false |>), t, token.
  repeat split; try assumption. cbn. apply insert_insert_eq.
Qed.

Lemma wlp_create_setup_token actor email name s (Q : N * N * string → Db → Prop) :
  (∀ u t raw s', new_account s s' u → Q (u, t, raw) s') →
  wlp (create_setup_token actor email name) s Q.
Proof.
  intros HQ. unfold create_setup_token. apply wlp_skip.
  { unfold validate_new_account_email, email_taken, duplicate_email. preserve. }
  intros email' _. unfold wlp, try_except.
  assert (W : wlp (atomic (
      let! user := create_user email' name in
      save db_users user (λ u, u <| us_password := None |> <| us_is_active := false |>) ;;;
      let! ' (token, raw_token) := create_setup_token_for_user user actor in
      ret (user, token, raw_token))) s Q).
  { apply wlp_atomic, wlp_bind, wlp_create_user. intros k row Hk _ He.
    pose proof (wlp_inactive_account k row actor s (λ r, Q (k, r.1, r.2)) Hk He) as W.
    unfold wlp, bind in *. destruct (save _ _ _ _) as [[u|e] s1]; [|exact I].
    destruct (create_setup_token_for_user _ _ _) as [[[t raw]|e] s2]; [|exact I].
    apply W. intros t' raw' s'. apply HQ. }
  unfold wlp in W. destruct (atomic _ s) as [[r|e] s1]; [exact W|].
  destruct (bool_decide _); [|exact I]. destruct (String.eqb _ _); exact I.
Qed.

Lemma new_membership u d a s : wlp (create_membership u d a) s (λ _ s', role_evolves s s').
Proof.
  unfold create_membership. apply wlp_skip; [auto with preserves|]. intros b [= <-].
  apply wlp_bind, wlp_guard. intros He. apply negb_true_iff in He. rewrite exists_row_false in He.
  apply wlp_create. intros k Hk. eapply evolves_new_membership; [reflexivity|exact Hk|reflexivity|
    split; reflexivity|]. intros j mj Hj Eu. specialize (He _ _ Hj). cbn in Eu.
  rewrite Eu, N.eqb_refl in He. exact He.
Qed.

Lemma evolves_provision_station_admin a st email name :
  preserves role_evolves (provision_station_admin a st email name).
Proof.
  apply preserves_atomic_wlp; [exact _|]. intros s. apply wlp_bind, wlp_get_obj. intros station _.
  cbv zeta. apply wlp_skip; [auto with preserves|]. intros v _. apply wlp_bind.
  apply wlp_create_setup_token. intros u t raw s1 N1. apply wlp_bind.
  eapply wlp_mono; [apply new_assignment|]. intros aid s2 R.
  apply evolves_then; [frame|]. etrans; [exact (evolves_new_account _ _ _ N1)|exact R].
Qed.

Lemma evolves_provision_department_admin a d email name :
  preserves role_evolves (provision_department_admin a d email name).
Proof.
  apply preserves_atomic_wlp; [exact _|]. intros s. apply wlp_bind, wlp_get_obj. intros dep _.
  apply wlp_skip; [auto with preserves|]. intros sys _.
  apply wlp_skip; [preserve|]. intros v _.
  apply wlp_skip; [auto with preserves|]. intros prior _. apply wlp_bind.
  apply wlp_create_setup_token. intros u t raw s1 N1. apply wlp_bind.
  eapply wlp_mono; [apply new_membership|]. intros mid s2 R.
  apply evolves_then; [frame|]. etrans; [exact (evolves_new_account _ _ _ N1)|exact R].
Qed.

(** ** The first administrator *)

Lemma evolves_bootstrap email name : preserves role_evolves (bootstrap_system_admin email name).
Proof.
  apply preserves_atomic_wlp; [exact _|]. intros s. apply wlp_skip; [auto with preserves|].
  intros b _. apply wlp_bind, wlp_guard. intros _.
  apply wlp_skip; [unfold email_taken; preserve|]. intros taken _. apply wlp_bind, wlp_guard.
  intros _. apply wlp_bind, wlp_create_user. intros k row Hk _ He.
  pose proof (wlp_inactive_account k row k s (λ r s', new_account s s' k) Hk He) as W.
  unfold wlp, bind in *. destruct (save _ _ _ _) as [[u|e] s1]; [|exact I].
  destruct (create_setup_token_for_user _ _ _) as [[[t raw]|e] s2]; [|exact I].
  specialize (W (λ _ _ _ N1, N1)). intros R. pose proof (evolves_new_account _ _ _ W R) as [J A C Hi].
  destruct W as (row' & _ & _ & Hu & _). split.
  - destruct J. split; assumption.
  - exact A.
  - intros v Hv. pose proof (C v Hv) as (C1 & C2 & C3). split_and!; [exact C1|exact C2|].
    intros j r Hr Hact. cbn in Hr. apply lookup_insert_Some in Hr as [[<- <-]|[_ Hr]];
      [|exact (C3 j r Hr Hact)]. cbn. intros <-. destruct Hv as ((rv & Hrv & _) & _). congruence.
  - exact Hi.
Qed.

(** Tokens whose identity and use are kept. *)
Lemma evolves_tokens f s :
  (∀ t, tk_token_hash (f t) = tk_token_hash t ∧ tk_user (f t) = tk_user t
     ∧ (tk_used_at t ≠ None → tk_used_at (f t) ≠ None)) →
  role_evolves s (s <| db_setup_tokens ::= fmap f |>).
Proof.
  intros Hf. apply evolves_accounts; [split; reflexivity|reflexivity|exact (ri_email s)| |auto| |].
  - intros I k k' t t'. cbn. rewrite !lookup_fmap.
    destruct (db_setup_tokens s !! k) as [u|] eqn:E, (db_setup_tokens s !! k') as [u'|] eqn:E';
      intros [= <-] [= <-]. rewrite (proj1 (Hf u)), (proj1 (Hf u')). apply (ri_token _ I); assumption.
  - intros v (C1 & C2 & C3). split_and!; [exact C1| |exact C3]. intros k t. cbn. rewrite lookup_fmap.
    destruct (db_setup_tokens s !! k) as [u|] eqn:E; intros [= <-].
    destruct (Hf u) as (_ & -> & Hu). intros Eu. apply Hu, (C2 k u E Eu).
  - intros k t Ht. exists (f t). cbn. rewrite lookup_fmap, Ht. auto.
Qed.

Lemma new_token u a s :
  (∀ v, closed s v → v ≠ u) → wlp (create_setup_token_for_user u a) s (λ _ s', role_evolves s s').
Proof.
  intros Hu. apply wlp_create_token. intros k token raw Htu Hk Hh.
  apply evolves_accounts; [split; reflexivity|reflexivity|exact (ri_email s)| |auto| |].
  - intros I. apply insert_unique; [apply (ri_token _ I)|]. intros i x Hx _. eauto.
  - intros v Hv. pose proof (Hu v Hv). destruct Hv as (C1 & C2 & C3). split_and!; [exact C1| |exact C3].
    intros j t Hj. cbn in Hj. apply lookup_insert_Some in Hj as [[<- <-]|[_ Hj]]; [congruence|].
    exact (C2 j t Hj).
  - intros j x. apply tokens_insert. intros t1 Ht1. congruence.
Qed.

Lemma evolves_reissue : preserves role_evolves reissue_system_admin_setup.
Proof.
  intros s. unfold reissue_system_admin_setup. unfold select_ordered, gets, bind.
  destruct (order_by by_pk _) as [|[k r] [|x l]] eqn:El; [reflexivity| |reflexivity].
  assert (Hr : (k, r) ∈ rows (db_system_roles s) (λ _ r, sr_active r))
    by (rewrite <- order_by_elem, El; left).
  apply rows_elem in Hr as [Hr Hact]. clear El.
  enough (W : wlp (reissue_setup k) s (λ _ s', role_evolves s s')).
  { unfold wlp, reissue_setup in *. destruct (atomic _ s) as [[a|e] s'] eqn:E; [exact W|].
    apply atomic_Exc in E as ->. reflexivity. }
  apply wlp_atomic, wlp_bind, wlp_get_obj. intros role Hr'. rewrite Hr in Hr'. injection Hr' as <-.
  apply wlp_bind, wlp_get_obj. intros user _. apply wlp_bind, wlp_guard. intros _.
  apply wlp_skip; [auto with preserves|]. intros now _.
  apply wlp_bind. unfold update_where, wlp at 1. apply wlp_bind.
  match goal with |- wlp _ ?s1 _ => assert (R : role_evolves s s1); [|assert (C : ∀ v, closed s1 v → v ≠ sr_user r)] end.
  { apply evolves_tokens. intros t. destruct (_ && _); auto. }
  { intros v (_ & _ & C3) ->. exact (C3 k r Hr Hact eq_refl). }
  eapply wlp_mono; [apply new_token, C|]. intros [t raw] s2 R2. apply wlp_ret.
  etrans; [exact R|exact R2].
Qed.

(** ** Opening and closing an account *)

Lemma evolves_consume raw password : preserves role_evolves (consume_setup_token raw password).
Proof.
  apply preserves_atomic_wlp; [exact _|]. intros s. apply wlp_skip; [auto with preserves|].
  intros found Ef. apply wlp_skip; [auto with preserves|]. intros now _.
  destruct found as [[k token]|]; [|apply wlp_ret; reflexivity].
  assert (Hk : db_setup_tokens s !! k = Some token).
  { injection Ef as Ef. apply order_by_head_Some in Ef as [Ef%rows_elem _]. apply Ef. }
  destruct (negb _ || negb _) eqn:Ec; [apply wlp_ret; reflexivity|].
  apply orb_false_iff in Ec as [_ Eu]. apply negb_false_iff, andb_true_iff in Eu as [Eu _].
  unfold set_password. apply wlp_bind, wlp_skip; [auto with preserves|]. intros hashed _.
  apply wlp_save. intros u Hu. apply wlp_bind, wlp_save. intros u1 Hu1. cbn in Hu1.
  rewrite lookup_insert_eq in Hu1. injection Hu1 as <-. apply wlp_bind, wlp_save.
  intros t1 Ht1. cbn in Ht1. rewrite Hk in Ht1. injection Ht1 as <-. apply wlp_ret.
  set (u' := u <| us_password := Some hashed |> <| us_is_active := true |>).
  match goal with |- role_evolves s ?s3 => assert (Es : db_users s3 = <[tk_user token := u']> (db_users s))
    by (cbn; apply insert_insert_eq) end.
  apply evolves_accounts; [split; reflexivity|reflexivity| | | | |].
  - intros I. rewrite Es. apply insert_unique; [apply (ri_email _ I)|]. intros i x Hx Hne.
    cbn. intros E. apply Hne, (ri_email _ I _ _ _ _ Hx Hu E).
  - intros I. cbn. apply insert_unique; [apply (ri_token _ I)|]. intros i x Hx Hne.
    cbn. intros E. apply Hne, (ri_token _ I _ _ _ _ Hx Hk E).
  - intros _ j m _ _ Hact. rewrite (user_is_active_insert s _ _ _ _ Es).
    destruct (N.eqb _ _); [reflexivity|exact Hact].
  - intros v (C1 & C2 & C3). assert (v ≠ tk_user token).
    { intros ->. apply (C2 k token Hk eq_refl). unfold opt_true in Eu.
      destruct (tk_used_at token); [discriminate|reflexivity]. }
    split_and!; [|cbn; intros j t [[<- <-]|[_ Hj]]%lookup_insert_Some; [discriminate|exact (C2 j t Hj)]|
      exact C3].
    destruct C1 as (row & Hrow & Ha & Hp). exists row. rewrite Es, lookup_insert_ne by congruence. auto.
  - intros j x. apply tokens_insert. intros t1 Ht1. cbn in Ht1. rewrite Hk in Ht1. injection Ht1 as <-.
    split_and!; [reflexivity..|discriminate].
Qed.

(** The memberships of [l] are revoked, the others as they were. *)
Definition memberships_removed (ids : list N) (s s' : Db) : Prop :=
  ∀ k m', db_memberships s' !! k = Some m' →
    (k ∈ ids ∧ dm_active m' = false) ∨ (k ∉ ids ∧ db_memberships s !! k = Some m').

Lemma remove_one_membership a did k m s : db_memberships s !! k = Some m → dm_department m = did →
  department_is_active s did = true →
  wlp (remove_membership a did (k, m)) s (λ _ s', role_evolves s s' ∧ other_roles s' = other_roles s
    ∧ db_departments s' = db_departments s
    ∧ ∃ m', db_memberships s' = <[k := m']> (db_memberships s) ∧ dm_active m' = false).
Proof.
  intros Hm Hd Hact. unfold remove_membership. cbn [fst snd]. apply wlp_bind.
  eapply wlp_prevent; [exact Hm|exact Hd|exact Hact|]. intros Hl. subst did.
  unfold when. destruct (bool_decide _) eqn:Er; cbn [negb].
  - apply wlp_ret. apply bool_decide_eq_true_1 in Er. split_and!; [reflexivity..|].
    exists m. rewrite insert_id by exact Hm. split; [reflexivity|]. unfold dm_active. rewrite Er.
    reflexivity.
  - apply bool_decide_eq_false_1 in Er. eapply revoked_admin; eassumption.
Qed.

Lemma remove_memberships a did l s : NoDup l.*1 →
  (∀ k m, (k, m) ∈ l → db_memberships s !! k = Some m ∧ dm_department m = did) →
  department_is_active s did = true →
  wlp (for_each l (remove_membership a did)) s (λ _ s', role_evolves s s'
    ∧ other_roles s' = other_roles s ∧ memberships_removed l.*1 s s').
Proof.
  revert s. induction l as [|[k m] l IH]; intros s Hn Hl Hact; cbn [for_each].
  { apply wlp_ret. split_and!; [reflexivity..|]. intros j mj Hj. right. split; [inversion 1|exact Hj]. }
  cbn in Hn. apply NoDup_cons in Hn as [Hk Hn]. destruct (Hl k m) as [Hm Hd]; [left|].
  apply wlp_bind. eapply wlp_mono; [eapply remove_one_membership; eassumption|].
  intros u s1 (R1 & O1 & D1 & m' & M1 & Ha'). eapply wlp_mono; [apply IH; [exact Hn| |]|].
  - intros j mj Hj. destruct (Hl j mj) as [H1 H2]; [right; exact Hj|]. rewrite M1.
    rewrite lookup_insert_ne; [auto|]. intros ->. apply Hk, list_elem_of_fmap. exists (j, mj). auto.
  - unfold department_is_active. rewrite D1. exact Hact.
  - intros v s2 (R2 & O2 & M2). split_and!; [etrans; eassumption|congruence|].
    intros j mj Hj. destruct (M2 j mj Hj) as [[Hin Hina]|[Hnin Hj1]].
    + left. split; [cbn; right; exact Hin|exact Hina].
    + rewrite M1 in Hj1. apply lookup_insert_Some in Hj1 as [[<- <-]|[Hne Hj1]].
      * left. split; [left|exact Ha'].
      * right. split; [|exact Hj1]. cbn. rewrite not_elem_of_cons. auto.
Qed.

Lemma remove_assignments a l s : NoDup l.*1 →
  (∀ k x, (k, x) ∈ l → db_station_admins s !! k = Some x) →
  wlp (for_each l (remove_assignment a)) s (λ _ s', role_evolves s s'
    ∧ but_assignments s' = but_assignments s).
Proof.
  revert s. induction l as [|[k x] l IH]; intros s Hn Hl; cbn [for_each].
  { apply wlp_ret. split; reflexivity. }
  cbn in Hn. apply NoDup_cons in Hn as [Hk Hn]. apply wlp_bind.
  unfold remove_assignment at 1, when. cbn [fst snd].
  destruct (bool_decide _) eqn:Er; cbn [negb].
  - apply wlp_ret, IH; [exact Hn|]. intros j y Hj. apply Hl. right. exact Hj.
  - apply bool_decide_eq_false_1 in Er.
    eapply wlp_mono; [eapply revoked_assignment; [apply Hl; left|exact Er]|].
    intros u s1 (R1 & B1 & a' & A1). eapply wlp_mono; [apply IH; [exact Hn|]|].
    + intros j y Hj. rewrite A1, lookup_insert_ne; [apply Hl; right; exact Hj|]. intros ->.
      apply Hk, list_elem_of_fmap. exists (j, y). auto.
    + intros v s2 [R2 B2]. split; [etrans; eassumption|congruence].
Qed.

(** An account without active memberships is closed for good. *)
Lemma wlp_anonymize u s :
  (∀ k m, db_memberships s !! k = Some m → dm_user m = u → dm_active m = false) →
  wlp (permanently_deactivate_and_anonymize_user u) s (λ _ s', role_evolves s s'
    ∧ ((∀ k r, db_system_roles s !! k = Some r → sr_active r = true → sr_user r ≠ u) → closed s' u)).
Proof.
  intros Hno. unfold permanently_deactivate_and_anonymize_user.
  apply wlp_skip; [auto with preserves|]. intros now _. apply wlp_skip; [preserve|]. intros token _.
  apply wlp_skip; [auto with preserves|]. intros taken [= <-]. apply wlp_bind, wlp_guard.
  intros Ht. apply negb_true_iff in Ht. rewrite exists_row_false in Ht. apply wlp_bind, wlp_save.
  intros row Hrow. apply wlp_bind. unfold update_where, wlp at 1. apply wlp_ret.
  set (row' := row <| us_email := anonymous_email token |> <| us_display_name := "Deleted administrator" |>
    <| us_is_active := false |> <| us_mfa_enabled := false |> <| us_password := None |>).
  set (s1 := s <| db_users ::= <[u := row']> |>).
  match goal with |- context [role_evolves s ?s2] => assert (T : role_evolves s1 s2) end.
  { apply evolves_tokens. intros t. destruct (_ && _); cbn; split_and!; auto. }
  split; [etrans; [|exact T]|].
  - apply evolves_accounts; [split; reflexivity|reflexivity| |intros I; exact (ri_token s I)| | |exact (tokens_same _)].
    + intros I. cbn. apply insert_unique; [apply (ri_email _ I)|]. intros i x Hx Hne E.
      specialize (Ht i x Hx). apply N.eqb_neq in Hne. rewrite Hne, E in Ht. cbn in Ht.
      rewrite String.eqb_refl in Ht. discriminate.
    + intros _ k m Hm Ha Hact. rewrite (user_is_active_insert s s1 u row') by reflexivity.
      destruct (N.eqb_spec (dm_user m) u) as [E|_]; [|exact Hact].
      rewrite (Hno k m Hm E) in Ha. discriminate.
    + intros v (C1 & C2 & C3). split_and!; [|exact C2|exact C3].
      destruct C1 as (rv & Hv & H1 & H2). cbn. destruct (decide (v = u)) as [->|Hne].
      * exists row'. rewrite lookup_insert_eq. auto.
      * exists rv. rewrite lookup_insert_ne by congruence. auto.
  - intros Hs. split_and!; [|cbn|exact Hs].
    + exists row'. cbn. rewrite lookup_insert_eq. auto.
    + intros k t. rewrite lookup_fmap. destruct (db_setup_tokens s !! k) as [t0|] eqn:E0; [|discriminate].
      intros [= <-]. destruct (N.eqb_spec (tk_user t0) u) as [E|Hne]; cbn.
      * destruct (tk_used_at t0) as [w|] eqn:Eu; cbn; [congruence|discriminate].
      * intros. congruence.
Qed.

(** What the permanent removal leaves. *)
Lemma wlp_permanently_remove a u d s :
  wlp (permanently_remove_administrator a u d) s (λ _ s', role_evolves s s'
    ∧ ((∀ k r, db_system_roles s !! k = Some r → sr_active r = true → sr_user r ≠ u) → closed s' u)).
Proof.
  unfold permanently_remove_administrator. apply wlp_atomic, wlp_bind, wlp_get_obj. intros dep _.
  apply wlp_bind, wlp_lifecycle_actor. intros Hact. apply wlp_skip; [preserve|]. intros sys _.
  apply wlp_bind, wlp_guard. intros _. apply wlp_skip; [auto with preserves|]. intros l [= <-].
  apply wlp_skip; [preserve|]. intros al [= <-]. apply wlp_bind, wlp_guard. intros _.
  apply wlp_skip; [preserve|]. intros e [= <-]. apply wlp_bind, wlp_guard. intros He.
  apply negb_true_iff, orb_false_iff in He as [He _]. rewrite exists_row_false in He.
  set (l := order_by by_pk _). set (al := order_by by_pk _).
  assert (Hl : ∀ k m, (k, m) ∈ l ↔ db_memberships s !! k = Some m ∧ dm_user m = u ∧ dm_department m = d).
  { intros k m. unfold l. rewrite order_by_elem, rows_elem, andb_true_iff, !N.eqb_eq. reflexivity. }
  apply wlp_bind. eapply wlp_mono; [apply remove_memberships; [|intros k m Hin; apply Hl in Hin as (H1 & H2 & H3); auto|exact Hact]|].
  { unfold l. rewrite order_by_perm. apply rows_NoDup. }
  intros v s1 (R1 & O1 & M1). injection O1 as U1 S1 A1 T1.
  apply wlp_bind. eapply wlp_mono; [apply remove_assignments|].
  { unfold al. rewrite order_by_perm. apply rows_NoDup. }
  { intros k x Hin. unfold al in Hin. apply order_by_elem, rows_elem in Hin as [Hin _]. congruence. }
  intros w s2 (R2 & B2). injection B2 as U2 S2 M2 T2. apply wlp_bind.
  eapply (wlp_frame role_tables); [auto with preserves|]. intros x s3 E3.
  apply role_tables_eq in E3 as E3'. destruct E3' as (U3 & S3 & M3 & A3 & T3).
  apply wlp_bind. eapply wlp_mono; [apply wlp_anonymize|].
  { intros k m Hm Eu. rewrite M3, M2 in Hm. destruct (M1 k m Hm) as [[_ Hf]|[Hn Hk]]; [exact Hf|].
    specialize (He k m Hk). rewrite Eu, N.eqb_refl in He. cbn in He. destruct (dm_active m); [|reflexivity].
    apply negb_false_iff, N.eqb_eq in He. exfalso. apply Hn, list_elem_of_fmap. exists (k, m).
    split; [reflexivity|]. apply Hl. auto. }
  intros y s4 [R4 C4]. eapply (wlp_frame role_tables); [frame|]. intros z s5 E5.
  split.
  - eapply evolves_role_tables; [exact E5|]. etrans; [exact R1|]. etrans; [exact R2|].
    etrans; [apply evolves_same, E3|exact R4].
  - intros Hs. apply role_tables_eq in E5 as (U5 & S5 & _ & _ & T5). unfold closed in *.
    rewrite U5, S5, T5. apply C4. rewrite S3, S2, S1. exact Hs.
Qed.

Lemma evolves_permanently_remove a u d : preserves role_evolves (permanently_remove_administrator a u d).
Proof.
  apply preserves_atomic_wlp; [exact _|]. intros s.
  pose proof (wlp_permanently_remove a u d s) as W. unfold permanently_remove_administrator in W.
  unfold wlp, atomic in *. match goal with |- context [match ?m s with _ => _ end] => destruct (m s) as [[r|e] s'] end;
    [apply W|exact I].
Qed.
End accounts.

(** ** Departments and settings *)

Lemma evolves_set_mail_eligibility a d b :
  preserves role_evolves (set_system_managed_mail_eligibility a d b).
Proof. apply evolves_keeps. unfold set_system_managed_mail_eligibility. cbv zeta. frame. Qed.

Lemma evolves_set_version_policy a v m :
  preserves role_evolves (set_api_version_compatibility_policy a v m).
Proof. apply evolves_keeps. frame. Qed.

Lemma evolves_set_lease a d n : preserves role_evolves (set_department_tablet_lease a d n).
Proof. apply evolves_keeps. frame. Qed.

Lemma evolves_set_system_lease a d n :
  preserves role_evolves (set_system_department_tablet_lease a d n).
Proof. apply evolves_keeps. frame. Qed.

Lemma evolves_set_asset_policy a d b p w :
  preserves role_evolves (set_department_tablet_asset_number_policy a d b p w).
Proof. apply evolves_keeps. frame. Qed.

Lemma evolves_set_locale a d l t : preserves role_evolves (set_department_locale_time_policy a d l t).
Proof. apply evolves_keeps. frame. Qed.

Lemma evolves_create_department a n c : preserves role_evolves (create_department a n c).
Proof. apply evolves_keeps. frame. Qed.

Lemma evolves_change_status a d st : preserves role_evolves (change_department_status a d st).
Proof. apply evolves_keeps. frame. Qed.

Section system.
Context `{Settings} `{Hash} `{HpkeSuite} `{Secrets} `{DeliverySettings} `{Credentials}
  `{Accounts}.

Lemma evolves_ignored {A} (m : M Db A) : preserves role_evolves m → preserves role_evolves (ignore m).
Proof. intros Hm. unfold ignore. preserve. Qed.

Lemma evolves_auth_failure sc a ip : preserves role_evolves (record_auth_failure sc a ip).
Proof. apply evolves_keeps. frame. Qed.

Hint Resolve evolves_ignored evolves_auth_failure evolves_set_mail_eligibility
  evolves_set_version_policy evolves_set_lease evolves_set_system_lease evolves_set_asset_policy
  evolves_set_locale evolves_create_department evolves_change_status
  evolves_provision_department_admin evolves_provision_station_admin
  evolves_suspend_department_admin evolves_reinstate_department_admin
  evolves_revoke_department_admin evolves_suspend_station_admin evolves_reinstate_station_admin
  evolves_revoke_station_admin evolves_grant_station_admin evolves_permanently_remove
  evolves_consume evolves_bootstrap evolves_reissue : roles.

Lemma evolves_serve_role r : preserves role_evolves (serve_role r).
Proof. destruct r; cbn [serve_role]; auto with roles nocore. Qed.

(** The tablet services leave accounts and roles alone. *)
Lemma keeps_roles_allocation n actor did d name :
  keeps role_tables (allocation_loop n actor did d name).
Proof.
  revert d. induction n as [|n IH]; intros d; cbn [allocation_loop]; [preserve|].
  apply preserves_bind; [exact _|frame|]. intros [number' d'].
  apply preserves_bind; [exact _|frame|]. intros [tid|]; [preserve|apply IH].
Qed.

Lemma keeps_roles_create_tablet actor did name number :
  keeps role_tables (create_tablet actor did name number).
Proof.
  unfold create_tablet, create_manual_tablet, _create_generated_tablet.
  generalize MAX_ASSET_NUMBER_ALLOCATION_ATTEMPTS. intros n. preserve.
  all: first [apply keeps_roles_allocation|frame].
Qed.

Lemma keeps_roles_delete_activity P : keeps role_tables (delete_activity P).
Proof. intros s. reflexivity. Qed.

Lemma keeps_roles_next_grant others :
  keeps role_tables others → keeps role_tables (process_next_dataset_key_grant others).
Proof. intros Ho. frame. all: handlers. Qed.

Lemma keeps_roles_next_generation : keeps role_tables process_next_generation_key_grant.
Proof. frame. all: handlers. Qed.

Lemma keeps_roles_next_manifest others l :
  keeps role_tables others → keeps role_tables (process_next_signed_manifest others l).
Proof. intros Ho. frame. all: handlers. Qed.

Hint Resolve keeps_roles_next_grant keeps_roles_next_generation keeps_roles_next_manifest :
  preserves.

Lemma keeps_roles_delivery_loop others n r deferred :
  keeps role_tables others → keeps role_tables (delivery_loop others n r deferred).
Proof.
  intros Ho. revert r deferred. induction n as [|n IH]; intros r deferred; cbn [delivery_loop];
    [preserve|].
  apply preserves_bind; [exact _|auto with preserves|]. intros grant.
  apply preserves_bind; [exact _|auto with preserves|]. intros document_grant.
  apply preserves_bind; [exact _|auto with preserves|]. intros manifest. cbv zeta.
  destruct grant, document_grant, manifest; first [apply IH|preserve].
Qed.

Hint Resolve keeps_roles_create_tablet keeps_roles_delete_activity keeps_roles_delivery_loop :
  preserves.

Lemma keeps_roles_serve_tablet others r :
  keeps role_tables others → keeps role_tables (serve_tablet others r).
Proof.
  intros Ho. destruct r; cbn [serve_tablet]; unfold ignore; apply preserves_bind; try exact _;
    try (intros; preserve).
  all: frame.
Qed.

(** ** Runs *)

Lemma evolves_role_step s s' : role_step s s' → role_evolves s s'.
Proof.
  intros [r|others r Ho|s1 E].
  - apply evolves_serve_role.
  - apply evolves_same, keeps_roles_serve_tablet, Ho.
  - apply evolves_same, E.
Qed.

Lemma evolves_role_run s s' : rtc role_step s s' → role_evolves s s'.
Proof.
  induction 1 as [s|s s1 s' H1' _ IH]; [reflexivity|]. etrans; [apply evolves_role_step, H1'|exact IH].
Qed.

Lemma role_reachable_inv s : role_reachable s → RoleInv s.
Proof.
  intros (s0 & E & Hr). apply (re_inv s0 s), (evolves_role_run _ _ Hr). injection E as E1 E2 E3 E4 E5.
  split; rewrite ?E1, ?E2, ?E3, ?E4, ?E5; intros *; rewrite ?lookup_empty; discriminate.
Qed.

Lemma role_reachable_step s s' : role_reachable s → rtc role_step s s' → role_reachable s'.
Proof. intros (s0 & E & Hr) Hs. exists s0. split; [exact E|]. etrans; eassumption. Qed.
End system.
