(* ===== verification/TabletDemo.v ===== *)
(** A small fleet on which the theorems of the tablets are evaluated: the
    installation of [Demo.v] with a station, a vehicle and one tablet, and concrete
    stand-ins for the cryptography and the settings of delivery. *)
From Stdlib Require Import Ascii.
From S2P Require Import Prelude Text Versions Models Registry Lifecycle Store Authorization.
From S2P Require Import Fingerprint Artifacts ApplicationSecrets Tablets TabletQueries.
From S2P Require Import Manifests Grants.
From S2P Require Import Restore Queue Assignments Build Worker Admin Retention Simulation.
From S2P Require Import QueueSim AdminSim System Demo.
From S2P Require Import Totality TabletInv TabletServices DeliveryInv.
From S2P Require Import TabletSystem.

Fixpoint repeat_char (n : nat) (c : ascii) : string :=
  match n with O => "" | S n' => String c (repeat_char n' c) end.

Definition demo_secret : string := repeat_char 32 "k"%char.

#[export] Instance demo_suite : HpkeSuite := {|
  PublicKey := string;
  from_encoded_point := Some;
  uncompressed_point := id;
  enc_length := 4;
  suite_encrypt := λ _ plaintext _ _, "enc." +:+ plaintext |}.

#[export] Instance demo_secrets : Secrets := {|
  SECRET_KEY := "secret";
  hmac_sha256 := λ key value, key +:+ "/" +:+ value;
  token_urlsafe := λ s, pretty (length (db_audit s));
  token_bytes := λ s, pretty (length (db_audit s)) |}.

#[export] Instance demo_delivery : DeliverySettings := {|
  OUTBOUND_MAIL_REPORT_ATTACHMENT_MAX_BYTES := 1000;
  report_transfer_configuration := JNull;
  urlsplit := λ _, Some ("https", Some "rescue.euroncap.com", None, None) |}.

#[export] Instance demo_credentials : Credentials := {|
  publication_kek := Val demo_secret;
  publication_signing_key := Val demo_secret;
  active_publication_signing_key := Some demo_secret;
  aes_key_unwrap := λ _ wrapped, Some wrapped;
  ed25519_public_key := id;
  ed25519_sign := λ _ message, "signed";
  read_artifact := λ _, None;
  artifact_signature_payload := λ _ _ c, c |}.

(** Nobody else is at work. *)
Definition nobody : M Db unit := ret tt.

Definition do (r : TabletRequest) (s : Db) : Db := (serve_tablet nobody r s).2.

(** Station 1 and its vehicle; a phone book is published, there is no tablet. *)
Definition fleet_start : Db :=
  demo_superseded
    <| db_stations := <[1%N := mkStation "North" "N" "" "" "" "" 1 true]> ∅ |>
    <| db_vehicles := <[1%N := mkVehicle 1 1 "Engine" "" "" true]> ∅ |>.

(** A tablet is registered and assigned to the vehicle. *)
Definition fleet_assigned : Db :=
  do (AssignVehicle 1 1 1 None) (do (CreateTablet 1 1 "Engine tablet" "") fleet_start).

(** Its adoption is invited, and a device asks for it. *)
Definition fleet_invited : Db := do (InviteAdoption 1 1 None) fleet_assigned.

Definition fleet_token : string := token_urlsafe fleet_assigned.

Definition demo_public_key : string := String (ascii_of_nat 4) (repeat_char 64 "p"%char).

Definition fleet_request (uuid : N) : TabletRequest :=
  RequestAdoption fleet_token uuid "1.2.3" (Some 7) demo_public_key HPKE_CIPHERSUITE.

Definition fleet_requested : Db := do (fleet_request 77) fleet_invited.

Definition fleet_response (s : Db) : string :=
  match db_adoption_requests s !! 1%N with Some r => ar_expected_hmac_digest r | None => "" end.

(** The device answers the challenge, and the tablet goes into service. *)
Definition fleet_adopted : Db :=
  do (CompleteAdoption 1 (fleet_response fleet_requested) true) fleet_requested.

Definition fleet_active : Db := do (ActivateTablet 1 1) fleet_adopted.

(** It asks for a manifest, and the worker prepares one. *)
Definition fleet_pending : Db := do (RequestManifest 1 1 None) fleet_active.

Definition fleet_delivered : Db := do (DeliveryCycle None) fleet_pending.

(** A second tablet joins the fleet. *)
Definition fleet_pair : Db := do (CreateTablet 1 1 "Spare tablet" "") fleet_active.

(** The credential of the installation, and the fleet a month later. *)
Definition fleet_credential : string := token_urlsafe fleet_requested.

Definition fleet_later (s : Db) : Db :=
  s <| db_clock ::= λ t, t + 29 * MICROSECONDS_PER_DAY |>.

Lemma do_step r s : tablet_step s (do r s).
Proof. apply tablet_serve. unfold nobody. preserve. Qed.

Lemma do_reachable r s : tablet_reachable s → tablet_reachable (do r s).
Proof.
  intros (s0 & Hs & Hr). exists s0. split; [exact Hs|]. eapply rtc_r; [exact Hr|apply do_step].
Qed.

Lemma fleet_start_reachable : tablet_reachable fleet_start.
Proof. exists fleet_start. split; [repeat split|reflexivity]. Qed.

Lemma fleet_assigned_reachable : tablet_reachable fleet_assigned.
Proof. apply do_reachable, do_reachable, fleet_start_reachable. Qed.

Lemma fleet_invited_reachable : tablet_reachable fleet_invited.
Proof. apply do_reachable, fleet_assigned_reachable. Qed.

Lemma fleet_requested_reachable : tablet_reachable fleet_requested.
Proof. apply do_reachable, fleet_invited_reachable. Qed.

Lemma fleet_adopted_reachable : tablet_reachable fleet_adopted.
Proof. apply do_reachable, fleet_requested_reachable. Qed.

Lemma fleet_active_reachable : tablet_reachable fleet_active.
Proof. apply do_reachable, fleet_adopted_reachable. Qed.

Lemma fleet_pending_reachable : tablet_reachable fleet_pending.
Proof. apply do_reachable, fleet_active_reachable. Qed.

Lemma fleet_delivered_reachable : tablet_reachable fleet_delivered.
Proof. apply do_reachable, fleet_pending_reachable. Qed.

Lemma fleet_pair_reachable : tablet_reachable fleet_pair.
Proof. apply do_reachable, fleet_active_reachable. Qed.
