(* ===== verification/OrganizationSystem.v ===== *)
(** The invariant of people and departments and the transition system of the
    organization services that keeps it. *)
From S2P Require Import Prelude Text Versions Models Registry Lifecycle Store Authorization.
From S2P Require Import Fingerprint Artifacts ApplicationSecrets Tablets Accounts Roles.
From S2P Require Import TabletQueries Manifests Grants Restore Queue Assignments Organizations.
From S2P Require Import Personnel Build Admin Retention Simulation QueueSim Totality.
From S2P Require Import TabletInv TabletServices DeliveryInv TabletSystem RoleInv RoleSystem.

Implicit Types (P : gmap N Person) (A : gmap N PersonnelStationAssignment).

(** Nothing in the row tells who the person was. *)
Definition nameless (p : Person) : Prop :=
  pe_personnel_number p = None ∧ pe_first_name p = None ∧ pe_last_name p = None
  ∧ pe_display_name p = "Former member" ∧ pe_incident_commander_eligible p = false
  ∧ pe_incident_commander_email p = None ∧ pe_email_verified_at p = None
  ∧ pe_lifecycle_status p ≠ PERSON_ACTIVE.

(** An open HOME assignment of the person [k]. *)
Definition home_of A (k j : N) : Prop :=
  ∃ a, A !! j = Some a ∧ ps_person a = k ∧ open_home k a = true.

Record PersonInv P A : Prop := {
  pi_consistent k p : P !! k = Some p → lifecycle_consistent p = true;
  pi_numbers k k' p p' : P !! k = Some p → P !! k' = Some p' → k ≠ k' →
    pe_lifecycle_status p = PERSON_ACTIVE → pe_lifecycle_status p' = PERSON_ACTIVE →
    pe_department p = pe_department p' → pe_personnel_number p ≠ None →
    pe_personnel_number p ≠ pe_personnel_number p';
  pi_nameless k p : P !! k = Some p → pe_lifecycle_status p = PERSON_ANONYMIZED → nameless p;
  pi_assigned k p : P !! k = Some p → ∃ j a, A !! j = Some a ∧ ps_person a = k;
  pi_home k p : P !! k = Some p → pe_lifecycle_status p = PERSON_ACTIVE → ∃ j, home_of A k j;
  pi_one_home k j j' : home_of A k j → home_of A k j' → j = j'
}.

(** A row keeps its department, does not come back into service and, once it says
    nothing about the person, never says anything again. *)
Definition person_history P P' : Prop := ∀ k p, P !! k = Some p →
  ∃ p', P' !! k = Some p' ∧ pe_department p' = pe_department p
    ∧ (pe_lifecycle_status p ≠ PERSON_ACTIVE → pe_lifecycle_status p' ≠ PERSON_ACTIVE)
    ∧ (nameless p → nameless p').

#[export] Instance person_history_preorder : PreOrder person_history.
Proof.
  split.
  - intros P k p Hp. exists p. auto.
  - intros P1 P2 P3 H12 H23 k p Hp. destruct (H12 k p Hp) as (p2 & Hp2 & E2 & S2 & N2).
    destruct (H23 k p2 Hp2) as (p3 & Hp3 & E3 & S3 & N3). exists p3. split_and!; auto. congruence.
Qed.

Inductive OrganizationRequest :=
| CreateStation (actor department : N) (form : StationForm) (active : bool)
| UpdateStation (actor station : N) (form : StationForm) (active : bool)
| DeleteStation (actor station : N)
| CreateVehicle (actor department station : N) (form : VehicleForm) (active : bool)
| UpdateVehicle (actor vehicle : N) (form : VehicleForm) (active : bool)
| RetireVehicle (actor vehicle : N)
| CreatePerson (actor department station : N) (personnel_number : option string)
    (first_name last_name : string) (eligible : bool) (email : string)
| UpdatePerson (actor person : N) (personnel_number : option string)
    (first_name last_name : string)
| SetCommanderEligibility (actor person : N) (eligible : bool) (station : option N)
| SetCommanderEmail (actor person : N) (email : string)
| VerifyCommanderEmail (actor person : N)
| SetRetentionPolicy (actor department : N) (retention_period : Z)
| OffboardPerson (actor person : N)
| AnonymizePerson (actor person : N)
| DeletePerson (actor person : N)
| CreatePersonWithHome (department station actor : N) (effective_at : option Z)
| TransferHome (person station actor : N) (effective_at : option Z)
| CreateTemporaryAssignment (person station actor : N) (valid_until : option Z)
    (reason : string)
| EndTemporaryAssignment (assignment : N) (actor : option N).

Section system.
Context `{Settings} `{Hash} `{HpkeSuite} `{Secrets} `{DeliverySettings} `{Credentials}
  `{Accounts} `{ProtectedRows}.

Definition serve_organization (r : OrganizationRequest) : M Db unit :=
  match r with
  | CreateStation a d f b => ignore (create_station a d f b)
  | UpdateStation a x f b => update_station a x f b
  | DeleteStation a x => delete_station a x
  | CreateVehicle a d x f b => ignore (create_vehicle a d x f b)
  | UpdateVehicle a v f b => update_vehicle a v f b
  | RetireVehicle a v => retire_vehicle a v
  | CreatePerson a d x n f l e m => ignore (create_person a d x n f l e m)
  | UpdatePerson a p n f l => update_person a p n f l
  | SetCommanderEligibility a p e x => set_commander_eligibility a p e x
  | SetCommanderEmail a p m => set_commander_email a p m
  | VerifyCommanderEmail a p => verify_commander_email a p
  | SetRetentionPolicy a d n => ignore (set_retention_policy a d n)
  | OffboardPerson a p => offboard_person a p
  | AnonymizePerson a p => anonymize_person a p
  | DeletePerson a p => delete_person a p
  | CreatePersonWithHome d x a e => ignore (create_person_with_home d x a e)
  | TransferHome p x a e => ignore (transfer_home p x a e)
  | CreateTemporaryAssignment p x a u m => ignore (create_temporary_assignment p x a u m)
  | EndTemporaryAssignment k a => end_temporary_assignment k a
  end.

(** Tablets, installations, invitations and grants. *)
Definition delivery_tables (s : Db) :=
  (db_tablets s, db_installations s, db_invitations s, db_key_grants s, db_generation_key_grants s).

(** What only the other systems write. *)
Definition foreign_tables (s : Db) := (role_tables s, delivery_tables s).

End system.

(** ** The row of a person *)

Lemma number_unused s o p k q : number_taken s o p = false → db_people s !! k = Some q →
  o ≠ Some k → pe_department q = pe_department p → pe_lifecycle_status q = PERSON_ACTIVE →
  pe_personnel_number q ≠ None → pe_personnel_number q ≠ pe_personnel_number p.
Proof.
  unfold number_taken. rewrite exists_row_false. intros Hn Hq Ho Ed Es En E.
  specialize (Hn k q Hq). cbv beta in Hn. unfold is_key in Hn.
  rewrite (bool_decide_eq_false_2 (o = Some k)) in Hn by exact Ho.
  rewrite Ed, N.eqb_refl, bool_decide_eq_true_2, bool_decide_eq_true_2 in Hn by assumption.
  destruct (pe_personnel_number q); [discriminate Hn|contradiction].
Qed.

Lemma allowed_spec s o p : person_allowed s o p = true →
  lifecycle_consistent p = true
  ∧ (pe_lifecycle_status p = PERSON_ACTIVE → number_taken s o p = false).
Proof.
  unfold person_allowed. intros [Hc Hn]%andb_true_iff. split; [exact Hc|]. intros Es.
  rewrite bool_decide_eq_true_2 in Hn by exact Es. destruct (number_taken s o p); [discriminate|reflexivity].
Qed.

(** What may be written over the row [p]. *)
Record person_step (p p' : Person) : Prop := {
  step_department : pe_department p' = pe_department p;
  step_active : pe_lifecycle_status p' = PERSON_ACTIVE → pe_lifecycle_status p = PERSON_ACTIVE;
  step_nameless : nameless p → nameless p';
  step_anonymized : pe_lifecycle_status p' = PERSON_ANONYMIZED → nameless p'
}.

Lemma history_save P k p p' : P !! k = Some p → person_step p p' → person_history P (<[k := p']> P).
Proof.
  intros Hp [D S N _] j q Hq. destruct (decide (j = k)) as [->|Hne].
  - rewrite Hp in Hq. injection Hq as <-. exists p'. rewrite lookup_insert_eq.
    split_and!; [reflexivity|exact D|auto|exact N].
  - exists q. rewrite lookup_insert_ne by congruence. auto.
Qed.

Lemma inv_save s k p p' A :
  PersonInv (db_people s) A → db_people s !! k = Some p →
  person_allowed s (Some k) p' = true → person_step p p' →
  PersonInv (<[k := p']> (db_people s)) A.
Proof.
  intros [C U N G H O] Hp [Hc Hn]%allowed_spec [D S _ T]. split; [| | | | |exact O].
  - intros j q [[<- <-]|[_ Hq]]%lookup_insert_Some; [exact Hc|eauto].
  - intros j j' q q' Hq Hq' Hne Es Es' Ed En. apply lookup_insert_Some in Hq, Hq'.
    destruct Hq as [[<- <-]|[_ Hq]], Hq' as [[<- <-]|[Hj Hq']]; [contradiction| | |eauto].
    + intros E. eapply (number_unused s (Some k) p' j' q'); eauto; congruence.
    + eapply number_unused; eauto; congruence.
  - intros j q [[<- <-]|[_ Hq]]%lookup_insert_Some; [exact T|eauto].
  - intros j q [[<- <-]|[_ Hq]]%lookup_insert_Some; eauto.
  - intros j q [[<- <-]|[_ Hq]]%lookup_insert_Some Es; eauto.
Qed.

(** ** Assignments *)

(** Assignments keep their person, and an assignment stays open unless it ends. *)
Lemma inv_assignments P A A' :
  PersonInv P A →
  (∀ j a, A !! j = Some a → ∃ a', A' !! j = Some a' ∧ ps_person a' = ps_person a) →
  (∀ k j, home_of A k j → ∃ j', home_of A' k j') →
  (∀ k j j', home_of A' k j → home_of A' k j' → j = j') →
  PersonInv P A'.
Proof.
  intros [C U N G H O] K1 K2 K3. split; [exact C|exact U|exact N| | |exact K3].
  - intros k p Hp. destruct (G k p Hp) as (j & a & Ha & <-). destruct (K1 j a Ha) as (a' & Ha' & E).
    exists j, a'. auto.
  - intros k p Hp Es. destruct (H k p Hp Es) as [j Hj]. eauto.
Qed.

(** A new assignment, under the constraint of the table. *)
Lemma inv_assign P A j b :
  PersonInv P A → A !! j = None →
  (open_home (ps_person b) b = true → ∀ i, ¬ home_of A (ps_person b) i) →
  PersonInv P (<[j := b]> A).
Proof.
  intros I Hj Hb. pose proof (pi_one_home _ _ I) as O. apply (inv_assignments P A); [exact I| | |].
  - intros i a Ha. exists a. rewrite lookup_insert_ne; [auto|congruence].
  - intros k i (a & Ha & Ea & Oa). exists i, a. rewrite lookup_insert_ne; [auto|congruence].
  - intros k i i' (a & Ha & Ea & Oa) (a' & Ha' & Ea' & Oa'). apply lookup_insert_Some in Ha, Ha'.
    destruct Ha as [[<- <-]|[_ Ha]], Ha' as [[<- <-]|[_ Ha']]; [reflexivity| | |].
    + exfalso. rewrite Ea in Hb. apply (Hb Oa i'). exists a'. auto.
    + exfalso. rewrite Ea' in Hb. apply (Hb Oa' i). exists a. auto.
    + eapply (O k); [exists a|exists a']; auto.
Qed.

(** An update of the columns of one assignment that is not an open HOME one. *)
Lemma inv_end P A j a f :
  PersonInv P A → A !! j = Some a → ps_person (f a) = ps_person a →
  ps_home a = false → ps_home (f a) = false → PersonInv P (<[j := f a]> A).
Proof.
  intros I Hj Ef Ha Hf. pose proof (pi_one_home _ _ I) as O.
  assert (K : ∀ k i, home_of (<[j := f a]> A) k i ↔ home_of A k i).
  { intros k i. split; intros (b & Hb & Eb & Ob).
    - apply lookup_insert_Some in Hb as [[<- <-]|[_ Hb]].
      + unfold open_home in Ob. rewrite Hf, andb_false_r in Ob. discriminate.
      + exists b. auto.
    - exists b. rewrite lookup_insert_ne; [auto|]. intros <-. rewrite Hj in Hb. injection Hb as <-.
      unfold open_home in Ob. rewrite Ha, andb_false_r in Ob. discriminate. }
  apply (inv_assignments P A); [exact I| | |].
  - intros i b Hb. destruct (decide (i = j)) as [->|Hne].
    + exists (f a). rewrite lookup_insert_eq. split; [reflexivity|]. congruence.
    + exists b. rewrite lookup_insert_ne by congruence. auto.
  - intros k i Hi. exists i. apply K, Hi.
  - intros k i i' Hi%K Hi'%K. eauto.
Qed.

(** A HOME assignment ends and another of the same person takes over. *)
Lemma inv_transfer P A aid home h k j b :
  PersonInv P A → A !! aid = Some home → ps_person home = k → ps_person h = k →
  <[aid := h]> A !! j = None → ps_person b = k → open_home k b = true →
  (∀ i, ¬ home_of (<[aid := h]> A) k i) → PersonInv P (<[j := b]> (<[aid := h]> A)).
Proof.
  intros I Ha Ek Eh Hj Eb Ob Hno. pose proof (pi_one_home _ _ I) as O.
  assert (Haj : aid ≠ j) by (intros <-; rewrite lookup_insert_eq in Hj; discriminate).
  rewrite lookup_insert_ne in Hj by exact Haj.
  assert (K : ∀ k' i, k' ≠ k → home_of (<[j := b]> (<[aid := h]> A)) k' i ↔ home_of A k' i).
  { intros k' i Hne. split; intros (a & Hi & Ea & Oa).
    - apply lookup_insert_Some in Hi as [[_ <-]|[_ Hi]]; [congruence|].
      apply lookup_insert_Some in Hi as [[_ <-]|[_ Hi]]; [congruence|]. exists a. auto.
    - exists a. rewrite !lookup_insert_ne; [auto|congruence..]. }
  assert (Kj : ∀ i, home_of (<[j := b]> (<[aid := h]> A)) k i → i = j).
  { intros i (a & Hi & Ea & Oa). apply lookup_insert_Some in Hi as [[-> _]|[_ Hi]]; [reflexivity|].
    exfalso. apply (Hno i). exists a. auto. }
  apply (inv_assignments P A); [exact I| | |].
  - intros i a Hi. destruct (decide (i = aid)) as [->|Hne].
    + exists h. rewrite lookup_insert_ne, lookup_insert_eq by congruence. split; [reflexivity|]. congruence.
    + exists a. rewrite !lookup_insert_ne; [auto|congruence..].
  - intros k' i Hi. destruct (decide (k' = k)) as [->|Hne].
    + exists j, b. rewrite lookup_insert_eq. auto.
    + exists i. apply K; assumption.
  - intros k' i i' Hi Hi'. destruct (decide (k' = k)) as [->|Hne].
    + rewrite (Kj i Hi), (Kj i' Hi'). reflexivity.
    + apply (O k'); apply K; assumption.
Qed.

(** A person and the first HOME assignment. *)
Lemma inv_hire P A k p j b :
  PersonInv P A → P !! k = None → A !! j = None → ps_person b = k → open_home k b = true →
  (∀ i, ¬ home_of A k i) → lifecycle_consistent p = true → pe_lifecycle_status p = PERSON_ACTIVE →
  (∀ i q, P !! i = Some q → pe_lifecycle_status q = PERSON_ACTIVE →
     pe_department q = pe_department p → pe_personnel_number q ≠ None →
     pe_personnel_number q ≠ pe_personnel_number p) →
  PersonInv (<[k := p]> P) (<[j := b]> A).
Proof.
  intros I Hk Hj Eb Ob Hno Hc Es Hn.
  assert (I' : PersonInv P (<[j := b]> A)).
  { apply inv_assign; [exact I|exact Hj|]. rewrite Eb. intros _. exact Hno. }
  destruct I' as [C U N G H O]. split; [| | | | |exact O].
  - intros i q [[<- <-]|[_ Hq]]%lookup_insert_Some; [exact Hc|eauto].
  - intros i i' q q' Hq Hq' Hne Eq Eq' Ed En. apply lookup_insert_Some in Hq, Hq'.
    destruct Hq as [[<- <-]|[_ Hq]], Hq' as [[<- <-]|[_ Hq']]; [contradiction| | |eauto].
    + intros E. apply (Hn i' q'); auto; congruence.
    + eauto.
  - intros i q [[<- <-]|[_ Hq]]%lookup_insert_Some Ea; [congruence|eauto].
  - intros i q [[<- <-]|[_ Hq]]%lookup_insert_Some; [|eauto]. exists j, b.
    rewrite lookup_insert_eq. auto.
  - intros i q [[<- <-]|[_ Hq]]%lookup_insert_Some Eq; [|eauto]. exists j, b.
    rewrite lookup_insert_eq. auto.
Qed.

(** A person leaves and the open assignments end. *)
Lemma inv_leave P A k p p' f :
  PersonInv P A → P !! k = Some p → lifecycle_consistent p' = true →
  pe_lifecycle_status p' = PERSON_DEPARTED →
  (∀ a, ps_person (f a) = ps_person a) → (∀ i a, open_home i (f a) = false) →
  PersonInv (<[k := p']> P) ((λ a, if open_for k a then f a else a) <$> A).
Proof.
  intros [C U N G H O] Hk Hc Es Ef Of.
  assert (K : ∀ i j, home_of ((λ a, if open_for k a then f a else a) <$> A) i j → home_of A i j).
  { intros i j (a & Ha & Ea & Oa). rewrite lookup_fmap in Ha. destruct (A !! j) as [b|] eqn:Eb;
      [|discriminate]. injection Ha as <-. destruct (open_for k b); [rewrite Of in Oa; discriminate|].
    exists b. auto. }
  split; [| | | | |intros i j j' Hj%K Hj'%K; eauto].
  - intros i q [[<- <-]|[_ Hq]]%lookup_insert_Some; [exact Hc|eauto].
  - intros i i' q q' [[<- <-]|[_ Hq]]%lookup_insert_Some [[<- <-]|[_ Hq']]%lookup_insert_Some;
      [contradiction|congruence|congruence|eauto].
  - intros i q [[<- <-]|[_ Hq]]%lookup_insert_Some Ea; [congruence|eauto].
  - assert (Hin : ∀ i q, P !! i = Some q → ∃ j a,
        ((λ a, if open_for k a then f a else a) <$> A) !! j = Some a ∧ ps_person a = i).
    { intros i q Hq. destruct (G i q Hq) as (j & a & Ha & Ea). exists j. eexists.
      rewrite lookup_fmap, Ha. split; [reflexivity|]. destruct (open_for k a); [|exact Ea].
      rewrite Ef. exact Ea. }
    intros i q [[<- <-]|[_ Hq]]%lookup_insert_Some; eauto.
  - intros i q [[<- <-]|[Hne Hq]]%lookup_insert_Some Eq; [congruence|].
    destruct (H i q Hq Eq) as (j & a & Ha & Ea & Oa). exists j, a. split_and!; [|exact Ea|exact Oa].
    rewrite lookup_fmap, Ha. cbn. unfold open_for. rewrite (proj2 (N.eqb_neq _ _)) by congruence.
    reflexivity.
Qed.

(** A person without an open HOME assignment. *)
Lemma no_home A k : exists_row A (λ _ a, open_home k a) = false → ∀ j, ¬ home_of A k j.
Proof.
  rewrite exists_row_false. intros Hn j (a & Ha & _ & Oa). specialize (Hn j a Ha). cbv beta in Hn.
  congruence.
Qed.

(** ** The services *)

Definition people_tables (s : Db) := (db_people s, db_personnel_assignments s).

Definition evolves_people (s s' : Db) : Prop :=
  PersonInv (db_people s) (db_personnel_assignments s) →
  PersonInv (db_people s') (db_personnel_assignments s')
  ∧ person_history (db_people s) (db_people s').

#[export] Instance evolves_people_preorder : PreOrder evolves_people.
Proof.
  split.
  - intros s I. split; [exact I|reflexivity].
  - intros s1 s2 s3 H12 H23 I. destruct (H12 I) as [I2 T2]. destruct (H23 I2) as [I3 T3].
    split; [exact I3|]. etrans; eassumption.
Qed.

Lemma evolves_people_keeps {B} (m : M Db B) : keeps people_tables m → preserves evolves_people m.
Proof.
  intros Hm s I. specialize (Hm s). injection Hm as E1 E2. rewrite E1, E2. split; [exact I|reflexivity].
Qed.

(** The writing of a row and what comes after it. *)
Lemma wlp_save_person pid p p' s (Q : unit → Db → Prop) :
  PersonInv (db_people s) (db_personnel_assignments s) → db_people s !! pid = Some p →
  person_step p p' →
  (∀ s', PersonInv (db_people s') (db_personnel_assignments s') →
     person_history (db_people s) (db_people s') → Q tt s') →
  wlp (save_person pid p') s Q.
Proof.
  intros I Hp St HQ. unfold save_person. apply wlp_skip; [preserve|]. intros ok [= <-].
  apply wlp_bind, wlp_guard. intros Hok. apply wlp_save. intros q _. apply HQ.
  - exact (inv_save s pid p p' _ I Hp Hok St).
  - exact (history_save _ _ _ _ Hp St).
Qed.

(** The state of the two tables after a service that began in [s]. *)
Definition people_after (s s' : Db) : Prop :=
  PersonInv (db_people s') (db_personnel_assignments s')
  ∧ person_history (db_people s) (db_people s').

Lemma evolves_people_atomic {B} (m : M Db B) :
  (∀ s, PersonInv (db_people s) (db_personnel_assignments s) → wlp m s (λ _ s', people_after s s')) →
  preserves evolves_people (atomic m).
Proof.
  intros Hm. apply preserves_atomic_wlp; [exact _|]. intros s. specialize (Hm s). unfold wlp in *.
  destruct (m s) as [[b|e] s']; [exact Hm|exact I].
Qed.

Lemma wlp_rest {B} (m : M Db B) s0 s :
  keeps people_tables m → people_after s0 s → wlp m s (λ _ s', people_after s0 s').
Proof.
  intros Hm I. eapply (wlp_frame people_tables); [exact Hm|]. intros a s' [= E1 E2].
  unfold people_after. rewrite E1, E2. exact I.
Qed.

Lemma wlp_untouched {B} (m : M Db B) s :
  keeps people_tables m → PersonInv (db_people s) (db_personnel_assignments s) →
  wlp m s (λ _ s', people_after s s').
Proof. intros Hm I. apply wlp_rest; [exact Hm|]. split; [exact I|reflexivity]. Qed.

(** The writing of a row and the rest of its service. *)
Lemma wlp_row {B} pid p p' (rest : M Db B) s :
  PersonInv (db_people s) (db_personnel_assignments s) → db_people s !! pid = Some p →
  person_step p p' → keeps people_tables rest →
  wlp (save_person pid p' ;;; rest) s (λ _ s', people_after s s').
Proof.
  intros I Hp St Hr. apply wlp_bind. eapply wlp_save_person; [exact I|exact Hp|exact St|].
  intros s' I' T. apply wlp_rest; [exact Hr|]. split; assumption.
Qed.

Section services.
Context `{Settings} `{Hash} `{ProtectedRows}.

Lemma people_mark_stations a d l : keeps people_tables (mark_stations a d l).
Proof. frame. Qed.

Lemma people_mark_visible k p a : keeps people_tables (_mark_visible_station_scopes k p a).
Proof. frame. Qed.

Lemma people_event x a k p : keeps people_tables (personnel_event x a k p).
Proof. frame. Qed.

Hint Resolve people_mark_stations people_mark_visible people_event : preserves.

(** Two columns more say nothing. *)
Lemma people_update_person a k n f l : preserves evolves_people (update_person a k n f l).
Proof.
  apply evolves_people_atomic. intros s I. apply wlp_bind, wlp_get_obj. intros p Hp.
  apply wlp_skip; [unfold _require_department_person_admin; preserve|]. intros _ _.
  apply wlp_bind, wlp_guard. intros Es. apply bool_decide_eq_true_1 in Es. cbv zeta.
  apply wlp_bind, wlp_guard. intros _. destruct (bool_decide _); [apply wlp_untouched; [preserve|exact I]|].
  eapply wlp_row; [exact I|exact Hp| |preserve]. split; cbn; [reflexivity|auto|..].
  - intros (_ & _ & _ & _ & _ & _ & _ & Hn). contradiction.
  - rewrite Es. discriminate.
Qed.

Lemma people_set_eligibility a k e x : preserves evolves_people (set_commander_eligibility a k e x).
Proof.
  apply evolves_people_atomic. intros s I. apply wlp_bind, wlp_get_obj. intros p Hp.
  apply wlp_skip; [preserve|]. intros allowed _. apply wlp_bind, wlp_guard. intros _.
  apply wlp_bind, wlp_guard. intros Es. apply bool_decide_eq_true_1 in Es.
  destruct (Bool.eqb _ _); [apply wlp_untouched; [preserve|exact I]|]. cbv zeta.
  eapply wlp_row; [exact I|exact Hp| |preserve].
  split; destruct e; cbn; auto.
  1-2: intros (_ & _ & _ & _ & _ & _ & _ & Hn); contradiction.
  all: rewrite Es; discriminate.
Qed.

Lemma people_set_email a k m : preserves evolves_people (set_commander_email a k m).
Proof.
  apply evolves_people_atomic. intros s I. apply wlp_bind, wlp_get_obj. intros p Hp.
  apply wlp_skip; [unfold _require_department_person_admin; preserve|]. intros _ _.
  apply wlp_bind, wlp_guard. intros Ee. cbv zeta.
  destruct (_ && _); [apply wlp_untouched; [preserve|exact I]|].
  eapply wlp_row; [exact I|exact Hp| |preserve]. split; cbn; [reflexivity|auto|..].
  - intros (_ & _ & _ & _ & He & _). congruence.
  - intros Es. destruct (pi_nameless _ _ I k p Hp Es) as (_ & _ & _ & _ & He & _). congruence.
Qed.

Lemma people_verify_email a k : preserves evolves_people (verify_commander_email a k).
Proof.
  apply evolves_people_atomic. intros s I. apply wlp_bind, wlp_get_obj. intros p Hp.
  apply wlp_skip; [unfold _require_department_person_admin; preserve|]. intros _ _.
  apply wlp_bind, wlp_guard. intros Ee. apply andb_true_iff in Ee as [Ee _].
  destruct (opt_true _); [apply wlp_untouched; [preserve|exact I]|].
  apply wlp_skip; [preserve|]. intros now _. cbv zeta.
  eapply wlp_row; [exact I|exact Hp| |preserve]. split; cbn; [reflexivity|auto|..].
  - intros (_ & _ & _ & _ & He & _). congruence.
  - intros Es. destruct (pi_nameless _ _ I k p Hp Es) as (_ & _ & _ & _ & He & _). congruence.
Qed.

Lemma people_anonymize a k : preserves evolves_people (anonymize_person a k).
Proof.
  apply evolves_people_atomic. intros s I. apply wlp_bind, wlp_get_obj. intros p Hp.
  apply wlp_skip; [preserve|]. intros admin _. apply wlp_bind, wlp_guard. intros _.
  apply wlp_skip; [preserve|]. intros now _. apply wlp_bind, wlp_guard. intros _. cbv zeta.
  eapply wlp_row; [exact I|exact Hp| |preserve]. split; cbn; [reflexivity|discriminate|..].
  all: intros _; split_and!; try reflexivity; discriminate.
Qed.

Lemma people_offboard a k : preserves evolves_people (offboard_person a k).
Proof.
  apply evolves_people_atomic. intros s I. apply wlp_bind, wlp_get_obj. intros p Hp. cbv zeta.
  apply wlp_skip; [preserve|]. intros admin _. apply wlp_bind, wlp_guard. intros _.
  apply wlp_skip; [unfold policy_of; preserve|]. intros found _.
  apply wlp_skip; [preserve|]. intros [j policy] _. apply wlp_skip; [preserve|]. intros now _.
  apply wlp_skip; [preserve|]. intros ids _. unfold end_open_assignments.
  apply wlp_bind, wlp_skip; [preserve|]. intros bad _. apply wlp_bind, wlp_guard. intros _.
  unfold wlp at 1, update_where, bind at 1. cbn [ret].
  unfold save_person. apply wlp_bind, wlp_skip; [preserve|]. intros ok [= <-].
  apply wlp_bind, wlp_guard. intros Hok. apply allowed_spec in Hok as [Hc _].
  apply wlp_save. intros q Hq. apply wlp_rest; [preserve|]. split.
  - eapply inv_leave; [exact I|exact Hp|exact Hc|reflexivity|reflexivity|].
    intros i b. unfold open_home. cbn. rewrite !andb_false_r. reflexivity.
  - eapply history_save; [exact Hp|]. split; cbn; try discriminate; [reflexivity|].
    intros (? & ? & ? & ? & _). split_and!; try assumption; try reflexivity. discriminate.
Qed.

Lemma taken_row k b : ps_person b = k → open_home k b = true →
  ∀ A, exists_row A (λ _ a, open_home (ps_person b) a && open_home (ps_person b) b) = false →
  ∀ i, ¬ home_of A k i.
Proof.
  intros <- Ob A Hn. apply no_home. rewrite exists_row_false in Hn |- *. intros j a Ha.
  specialize (Hn j a Ha). cbv beta in Hn. rewrite Ob, andb_true_r in Hn. exact Hn.
Qed.

(** The creation of the assignment [b]. *)
Lemma wlp_assign b s (Q : N → Db → Prop) :
  (∀ j, db_personnel_assignments s !! j = None →
     (open_home (ps_person b) b = true → ∀ i, ¬ home_of (db_personnel_assignments s) (ps_person b) i) →
     Q j (s <| db_personnel_assignments ::= <[j := b]> |>)) →
  wlp (create_personnel_assignment b) s Q.
Proof.
  intros HQ. unfold create_personnel_assignment. apply wlp_skip; [preserve|]. intros taken [= Et].
  apply wlp_bind, wlp_guard. intros Hok. apply andb_true_iff in Hok as [Hok _].
  apply negb_true_iff in Hok. rewrite <- Et in Hok. apply wlp_create. intros j Hj. apply HQ; [exact Hj|].
  intros Ob. exact (taken_row _ b eq_refl Ob _ Hok).
Qed.

(** The creation of the row [p]. *)
Lemma wlp_create_row p s (Q : N → Db → Prop) :
  (∀ k, db_people s !! k = None → lifecycle_consistent p = true →
     (pe_lifecycle_status p = PERSON_ACTIVE → number_taken s None p = false) →
     Q k (s <| db_people ::= <[k := p]> |>)) →
  wlp (create_person_row p) s Q.
Proof.
  intros HQ. unfold create_person_row. apply wlp_skip; [preserve|]. intros ok [= <-].
  apply wlp_bind, wlp_guard. intros Hok. apply allowed_spec in Hok as [Hc Hn].
  apply wlp_create. intros k Hk. apply HQ; assumption.
Qed.

Lemma people_create_person a d x n f l e m :
  preserves evolves_people (create_person a d x n f l e m).
Proof.
  apply evolves_people_atomic. intros s I. apply wlp_skip; [preserve|]. intros admin _.
  apply wlp_bind, wlp_guard. intros _. apply wlp_bind, wlp_get_obj. intros st _.
  apply wlp_bind, wlp_guard. intros _. cbv zeta. apply wlp_bind, wlp_guard. intros _.
  apply wlp_bind, wlp_guard. intros _. apply wlp_bind, wlp_create_row. intros k Hk Hc Hn.
  apply wlp_skip; [preserve|]. intros now _.
  apply wlp_bind, wlp_assign. intros j Hj Hno. apply wlp_rest; [frame|]. cbn in Hj, Hno |- *. split.
  - apply inv_hire; try assumption; try reflexivity.
    + cbn. unfold open_home. cbn. rewrite N.eqb_refl. reflexivity.
    + apply Hno. unfold open_home. cbn. rewrite N.eqb_refl. reflexivity.
    + intros i q Hq Es Ed En. eapply number_unused; [exact (Hn eq_refl)|exact Hq|discriminate|assumption..].
  - intros i q Hq. exists q. cbn. rewrite lookup_insert_ne by congruence. auto.
Qed.

Lemma people_create_with_home d x a t :
  preserves evolves_people (create_person_with_home d x a t).
Proof.
  apply evolves_people_atomic. intros s I. apply wlp_bind, wlp_get_obj. intros dep _.
  apply wlp_bind, wlp_get_obj. intros st _. apply wlp_bind, wlp_guard. intros _.
  apply wlp_skip; [unfold _validate_operational_department; preserve|]. intros _ _.
  apply wlp_bind, wlp_guard. intros _. cbv zeta. apply wlp_bind, wlp_create. intros k Hk.
  apply wlp_skip; [unfold _now; preserve|]. intros now _.
  apply wlp_bind, wlp_assign. intros j Hj Hno. apply wlp_rest; [frame|]. cbn in Hj, Hno |- *. split.
  - apply inv_hire; try assumption; try reflexivity.
    + cbn. unfold open_home. cbn. rewrite N.eqb_refl. reflexivity.
    + apply Hno. unfold open_home. cbn. rewrite N.eqb_refl. reflexivity.
    + intros i q _ _ _ En. exact En.
  - intros i q Hq. exists q. cbn. rewrite lookup_insert_ne by congruence. auto.
Qed.

Lemma people_delete a k : preserves evolves_people (delete_person a k).
Proof.
  apply evolves_people_atomic. intros s I. apply wlp_bind, wlp_get_obj. intros p Hp.
  apply wlp_skip; [unfold _require_department_person_admin; preserve|]. intros _ _.
  apply wlp_skip; [preserve|]. intros ids _. apply wlp_skip; [preserve|]. intros b [= <-].
  apply wlp_bind, wlp_guard. intros Hb. exfalso. apply negb_true_iff, orb_false_iff in Hb as [Hb _].
  destruct (pi_assigned _ _ I k p Hp) as (j & b & Ha & Ea). rewrite exists_row_false in Hb.
  specialize (Hb j b Ha). cbv beta in Hb. rewrite Ea, N.eqb_refl in Hb. discriminate.
Qed.
Lemma people_transfer k x a t : preserves evolves_people (transfer_home k x a t).
Proof.
  apply evolves_people_atomic. intros s I. apply wlp_bind, wlp_get_obj. intros p Hp.
  apply wlp_bind, wlp_get_obj. intros st _. cbv zeta. apply wlp_skip; [auto with preserves|]. intros _ _.
  apply wlp_skip; [unfold _validate_person_station, _validate_operational_department; preserve|].
  intros _ _. apply wlp_skip; [unfold _now; preserve|]. intros effective _.
  apply wlp_skip; [unfold _current_home; preserve|]. intros found Ef.
  apply wlp_skip; [preserve|]. intros [aid home] Eh. destruct found as [[]|]; [|discriminate].
  injection Eh as -> ->. injection Ef as Ef. apply order_by_head_Some in Ef as [Ef _].
  apply rows_elem in Ef as [Ha Hc]. unfold current_home_row in Hc. rewrite !andb_true_iff in Hc.
  destruct Hc as ((((Ek & Ehome) & _) & _) & _). apply N.eqb_eq in Ek.
  apply wlp_bind, wlp_guard. intros _. apply wlp_skip; [preserve|]. intros now _.
  unfold end_home. apply wlp_bind, wlp_bind, wlp_guard. intros _. apply wlp_save. intros b Hb.
  rewrite Ha in Hb. injection Hb as <-. apply wlp_bind, wlp_assign. intros j Hj Hno.
  apply wlp_rest; [frame|]. cbn in Hj, Hno |- *. split; [|reflexivity].
  eapply inv_transfer; [exact I|exact Ha|exact Ek|exact Ek|exact Hj|reflexivity| |].
  - unfold open_home. cbn. rewrite N.eqb_refl. reflexivity.
  - apply Hno. unfold open_home. cbn. rewrite N.eqb_refl. reflexivity.
Qed.

Lemma people_temporary k x a u m : preserves evolves_people (create_temporary_assignment k x a u m).
Proof.
  apply evolves_people_atomic. intros s I. apply wlp_bind, wlp_get_obj. intros p Hp.
  apply wlp_bind, wlp_get_obj. intros st _. cbv zeta. apply wlp_skip; [auto with preserves|]. intros _ _.
  apply wlp_skip; [unfold _validate_person_station, _validate_operational_department; preserve|].
  intros _ _. apply wlp_skip; [preserve|]. intros now _. apply wlp_bind, wlp_guard. intros _.
  apply wlp_bind, wlp_assign. intros j Hj Hno. apply wlp_rest; [frame|]. split; [|reflexivity].
  apply inv_assign; assumption.
Qed.

Lemma people_end_temporary j a : preserves evolves_people (end_temporary_assignment j a).
Proof.
  apply evolves_people_atomic. intros s I. apply wlp_bind, wlp_get_obj. intros b Hb.
  apply wlp_bind, wlp_guard. intros Hh. apply negb_true_iff in Hh.
  destruct (opt_true _); [apply wlp_untouched; [preserve|exact I]|].
  apply wlp_bind, wlp_get_obj. intros p Hp. cbv zeta. apply wlp_skip; [preserve|]. intros _ _.
  apply wlp_skip; [preserve|]. intros now _. apply wlp_bind, wlp_save. intros c Hc.
  rewrite Hb in Hc. injection Hc as <-. apply wlp_rest; [frame|]. split; [|reflexivity].
  apply (inv_end _ _ _ b (λ a0, a0 <| ps_ended_at := Some now |> <| ps_ended_by := a |>)); auto.
Qed.

Hint Resolve people_update_person people_set_eligibility people_set_email people_verify_email
  people_anonymize people_offboard people_create_person people_create_with_home people_delete
  people_transfer people_temporary people_end_temporary : people.

(** What a request does besides people. *)
Lemma people_serve r : preserves evolves_people (serve_organization r).
Proof.
  destruct r; cbn [serve_organization]; unfold ignore;
    first [solve [auto with people]
          |solve [apply preserves_bind; [exact _|auto with people|preserve]]
          |apply evolves_people_keeps; frame].
Qed.
(** ** Runs *)

(** A request, or anything that leaves people and their assignments alone. *)
Inductive organization_step (s : Db) : Db → Prop :=
| organization_serve r : organization_step s (serve_organization r s).2
| organization_outside s' : people_tables s' = people_tables s → organization_step s s'.

Definition organization_reachable (s : Db) : Prop :=
  ∃ s0, people_tables s0 = (∅, ∅) ∧ rtc organization_step s0 s.

Lemma people_run s s' : rtc organization_step s s' → evolves_people s s'.
Proof.
  induction 1 as [s|s s1 s' Hs _ IH]; [reflexivity|]. etrans; [|exact IH].
  destruct Hs as [r|s1 E]; [apply people_serve|]. intros I. injection E as E1 E2.
  rewrite E1, E2. split; [exact I|reflexivity].
Qed.

Lemma organization_reachable_inv s :
  organization_reachable s → PersonInv (db_people s) (db_personnel_assignments s).
Proof.
  intros (s0 & E & Hr). apply (people_run s0 s Hr). injection E as E1 E2. rewrite E1, E2. split.
  6: intros k j j' (a & Ha & _); rewrite lookup_empty in Ha; discriminate.
  all: intros *; rewrite ?lookup_empty; discriminate.
Qed.
End services.

Section system.
Context `{Settings} `{Hash} `{HpkeSuite} `{Secrets} `{DeliverySettings} `{Credentials}
  `{Accounts} `{ProtectedRows}.

Lemma foreign_mark_dirty d x c u : keeps foreign_tables (mark_dirty d x c u).
Proof. frame. Qed.

Lemma foreign_mark_station a d x : keeps foreign_tables (mark_station_personnel a d x).
Proof. pose proof foreign_mark_dirty. unfold mark_station_personnel. preserve. Qed.

Lemma foreign_department_mutation a : keeps foreign_tables (department_mutation a).
Proof. frame. Qed.

Lemma foreign_record_event a u d x t i m : keeps foreign_tables (record_event a u d x t i m).
Proof. frame. Qed.

Hint Resolve foreign_mark_dirty foreign_mark_station foreign_department_mutation
  foreign_record_event : preserves.

Definition ends_assignments (r : OrganizationRequest) : bool :=
  match r with RetireVehicle _ _ | UpdateVehicle _ _ _ _ => true | _ => false end.

Lemma foreign_serve_organization r :
  ends_assignments r = false → keeps foreign_tables (serve_organization r).
Proof. destruct r; intros E; try discriminate E; cbn [serve_organization]; frame. Qed.

(** ** To the administration: accounts and roles stay *)

Lemma keeps_roles_serve_organization r : keeps role_tables (serve_organization r).
Proof.
  destruct (ends_assignments r) eqn:E.
  - destruct r; try discriminate E; cbn [serve_organization]; frame.
  - intros s. exact (f_equal fst (foreign_serve_organization r E s)).
Qed.

(** ** To the tablets: keys are at most revoked *)

#[export] Instance outside_preorder : PreOrder outside.
Proof.
  split.
  - intros s. split_and!; auto.
  - intros s1 s2 s3 (A1 & A2 & A3 & A4) (B1 & B2 & B3 & B4). split_and!; try congruence. auto.
Qed.

Lemma outside_same {A : Type} (m : M Db A) : keeps delivery_tables m → preserves outside m.
Proof.
  intros Hm s. specialize (Hm s). injection Hm as E1 E2 E3 E4 E5. split_and!; [assumption..|].
  intros iid [Hk|Hk]; [left; rewrite <- E4|right; rewrite <- E5]; exact Hk.
Qed.

Lemma outside_revoke_installation row : preserves outside (revoke_installation_grants row).
Proof.
  unfold revoke_installation_grants. apply preserves_bind; [exact _| |preserve]. intros s.
  apply (wlp_revoke_dataset_key_grants row.1 s (λ _, outside s)). intros n s' E Hk.
  injection E; intros. split_and!; [congruence..|]. intros iid Hi. apply Hk, Hi.
Qed.

Hint Resolve outside_revoke_installation : preserves.

Lemma outside_retire_vehicle a v : preserves outside (retire_vehicle a v).
Proof.
  unfold retire_vehicle, leave_retired_vehicle. preserve.
  all: apply outside_same; frame.
Qed.

Lemma outside_update_vehicle a v f b : preserves outside (update_vehicle a v f b).
Proof.
  pose proof outside_retire_vehicle. unfold update_vehicle. preserve.
  all: apply outside_same; frame.
Qed.

Lemma outside_serve_organization r : preserves outside (serve_organization r).
Proof.
  destruct (ends_assignments r) eqn:E.
  - destruct r; try discriminate E; [apply outside_update_vehicle|apply outside_retire_vehicle].
  - apply outside_same. intros s. exact (f_equal snd (foreign_serve_organization r E s)).
Qed.
(** ** To the publications: lifecycle steps *)

Definition lifecycle_tables (s : Db) := (db_scopes s, db_publications s, db_jobs s).

Lemma simulated_same {A : Type} (m : M Db A) : keeps lifecycle_tables m → simulated m.
Proof.
  intros Hm. apply simulated_quiet. intros s. specialize (Hm s). injection Hm as E1 E2 E3.
  unfold same_view, view. rewrite E1, E2, E3. reflexivity.
Qed.

Lemma simulated_mark_station a d x : simulated (mark_station_personnel a d x).
Proof.
  unfold mark_station_personnel. pose proof simulated_mark_dirty. preserve.
Qed.

Definition marks_dirty (r : OrganizationRequest) : bool :=
  match r with
  | CreatePerson _ _ _ _ _ _ _ _ | UpdatePerson _ _ _ _ _ | SetCommanderEligibility _ _ _ _
  | SetCommanderEmail _ _ _ | VerifyCommanderEmail _ _ | OffboardPerson _ _
  | AnonymizePerson _ _ | DeletePerson _ _ | TransferHome _ _ _ _
  | CreateTemporaryAssignment _ _ _ _ _ | EndTemporaryAssignment _ _ => true
  | _ => false
  end.

Hint Resolve simulated_mark_station simulated_mark_dirty : preserves.

Lemma simulated_mark_stations a d l : simulated (mark_stations a d l).
Proof. unfold mark_stations. preserve. Qed.

Lemma simulated_mark_visible p row a : simulated (_mark_visible_station_scopes p row a).
Proof. pose proof simulated_mark_stations. unfold _mark_visible_station_scopes. preserve. Qed.

Hint Resolve simulated_mark_stations simulated_mark_visible : preserves.

Lemma simulated_serve_organization r : simulated (serve_organization r).
Proof.
  destruct (marks_dirty r) eqn:E.
  - destruct r; try discriminate E; cbn [serve_organization]; unfold ignore, create_person,
      update_person, set_commander_eligibility, set_commander_email, verify_commander_email,
      offboard_person, anonymize_person, delete_person, transfer_home,
      create_temporary_assignment, end_temporary_assignment; cbv zeta; preserve.
    all: apply simulated_same; frame.
  - apply simulated_same. destruct r; try discriminate E; cbn [serve_organization]; frame.
Qed.
End system.
