(* ===== verification/RoleDemo.v ===== *)
(** A concrete store with roles, departments and people, on which the witnesses of
    the administration theorems run. *)
From S2P Require Import Prelude Text Versions Models Registry Lifecycle Store Authorization.
From S2P Require Import Fingerprint Artifacts ApplicationSecrets Tablets Accounts Roles.
From S2P Require Import TabletQueries Manifests Grants Restore Queue Assignments Organizations.
From S2P Require Import Personnel Build Worker Admin Retention Simulation QueueSim AdminSim.
From S2P Require Import System.
From S2P Require Import Demo Totality TabletInv TabletServices DeliveryInv.
From S2P Require Import TabletSystem RoleInv RoleSystem TabletDemo.
From S2P Require Import OrganizationSystem.

#[export] Instance demo_accounts : Accounts := {|
  salted_hmac := λ salt value, salt +:+ "/" +:+ value;
  make_password := λ _ raw, "#" +:+ raw;
  normalize_email := id;
  token_hex := λ s, pretty (length (db_audit s));
  AUTH_THROTTLE_WINDOW_SECONDS := 900;
  AUTH_THROTTLE_MAX_FAILURES := 5;
  AUTH_THROTTLE_LOCKOUT_SECONDS := 900 |}.

Definition ask (r : RoleRequest) (s : Db) : Db := (serve_role r s).2.

(** Nobody has an account. *)
Definition office_start : Db :=
  demo_start <| db_users := ∅ |> <| db_system_roles := ∅ |> <| db_memberships := ∅ |>
    <| db_departments := ∅ |>.

(** User 1 is the system administrator. *)
Definition office_root : Db :=
  ask (ConsumeSetupToken "0" "root") (ask (BootstrapSystemAdmin "root@fire.de" "Root") office_start).

(** Department 1 and its first administrator, user 2. *)
Definition office_invited : Db :=
  ask (ProvisionDepartmentAdmin 1 1 "anna@fire.de" "Anna")
    (ask (CreateDepartment 1 "Brigade" "B") office_root).

Definition office_anna : Db := ask (ConsumeSetupToken "1" "anna") office_invited.

(** User 3 joins and is removed. *)
Definition office_second : Db :=
  ask (ProvisionDepartmentAdmin 2 1 "bert@fire.de" "Bert") office_anna.

Definition office_both : Db := ask (ConsumeSetupToken "2" "bert") office_second.

Definition office_removed : Db := ask (RemoveAdministrator 2 3 1) office_both.

#[export] Instance demo_rows : ProtectedRows := {|
  station_protected_elsewhere := λ _ _, false;
  person_protected_elsewhere := λ _ _, false |}.

Definition order (r : OrganizationRequest) (s : Db) : Db := (serve_organization r s).2.

Definition brigade_station : Db :=
  order (CreateStation 2 1 (mkStationForm " North " "N" "Main street" "1" "1010" "Town") true)
    office_anna.

Definition brigade_vehicle : Db :=
  order (CreateVehicle 2 1 1 (mkVehicleForm "Engine" "N-1" "") true) brigade_station.

(** The roster of the station that its publications are built from, and a retention
    period for personal data. *)
Definition brigade_policy : Db := order (SetRetentionPolicy 2 1 1000) brigade_vehicle.

Definition brigade_ready : Db :=
  brigade_policy <| db_sources ::= <[("station_personnel", Some 1%N, Some 1%N) := JObj []]> |>.

(** A member of the station, a commander with an address. *)
Definition brigade_member : Db :=
  order (CreatePerson 2 1 1 (Some "4711") "Carl" "Berg" true " Carl@Fire.de ") brigade_ready.

(** The store two milliseconds later, past the retention period. *)
Definition brigade_later (s : Db) : Db := s <| db_clock ::= λ t, t + 2000 |>.

Definition brigade_left : Db := order (OffboardPerson 2 1) (brigade_later brigade_member).

Definition brigade_forgotten : Db := order (AnonymizePerson 2 1) (brigade_later brigade_left).

(** Station administrator 9 of station 2, whose assignment of person 1 has expired, while
    the HOME assignment of the person at station 1 is open. *)
Definition brigade_guest : Db :=
  brigade_member
    <| db_users ::= <[9%N := mkUser true true "g@fire.de" "Guest" (Some "pw") true]> |>
    <| db_stations ::= <[2%N := mkStation "South" "S" "" "" "" "" 1 true]> |>
    <| db_station_admins ::= <[1%N := mkStationAdminAssignment 9 2 AUTHORITY_ACTIVE 2
         None None None None]> |>
    <| db_personnel_assignments ::= <[2%N := mkPersonnelStationAssignment 1 2 false
         (db_clock brigade_member - 20) (Some (db_clock brigade_member - 10)) "" 2 None None]> |>.

Lemma ask_step r s : role_step s (ask r s).
Proof. apply role_serve. Qed.

Lemma ask_reachable r s : role_reachable s → role_reachable (ask r s).
Proof. intros Hs. eapply role_reachable_step; [exact Hs|]. apply rtc_once, ask_step. Qed.

Lemma office_root_reachable : role_reachable office_root.
Proof. apply ask_reachable, ask_reachable. exists office_start. split; reflexivity. Qed.

Lemma office_anna_reachable : role_reachable office_anna.
Proof. apply ask_reachable, ask_reachable, ask_reachable, office_root_reachable. Qed.

Lemma office_second_reachable : role_reachable office_second.
Proof. apply ask_reachable, office_anna_reachable. Qed.

Lemma office_both_reachable : role_reachable office_both.
Proof. apply ask_reachable, office_second_reachable. Qed.

Lemma office_removed_run : rtc role_step office_anna office_removed.
Proof. do 3 (eapply rtc_r; [|apply ask_step]). reflexivity. Qed.

Lemma order_reachable r s : organization_reachable s → organization_reachable (order r s).
Proof. intros (s0 & E & Hr). exists s0. split; [exact E|]. eapply rtc_r; [exact Hr|constructor]. Qed.

Lemma outside_reachable s s' :
  people_tables s' = people_tables s → organization_reachable s → organization_reachable s'.
Proof.
  intros E (s0 & E0 & Hr). exists s0. split; [exact E0|]. eapply rtc_r; [exact Hr|].
  apply organization_outside, E.
Qed.

Lemma office_anna_people : organization_reachable office_anna.
Proof. exists office_anna. split; [vm_compute; reflexivity|apply rtc_refl]. Qed.

Lemma brigade_vehicle_reachable : organization_reachable brigade_vehicle.
Proof. apply order_reachable, order_reachable, office_anna_people. Qed.

Lemma brigade_ready_reachable : organization_reachable brigade_ready.
Proof.
  apply (outside_reachable brigade_policy); [reflexivity|].
  apply order_reachable, brigade_vehicle_reachable.
Qed.

Lemma brigade_member_reachable : organization_reachable brigade_member.
Proof. apply order_reachable, brigade_ready_reachable. Qed.

Lemma later_reachable s : organization_reachable s → organization_reachable (brigade_later s).
Proof. apply outside_reachable. reflexivity. Qed.

Lemma brigade_left_reachable : organization_reachable brigade_left.
Proof. apply order_reachable, later_reachable, brigade_member_reachable. Qed.

Lemma brigade_left_later_reachable : organization_reachable (brigade_later brigade_left).
Proof. apply later_reachable, brigade_left_reachable. Qed.
