(* ===== verification/RoleTheorems.v ===== *)
(** What the administration guarantees: failed sign-ins lock an account, departments keep an
    administrator, removed accounts stay closed, authority is unambiguous and its revocation
    final, and setup tokens open an account once. *)
From S2P Require Import Prelude Text Models Registry Store Fingerprint ApplicationSecrets.
From S2P Require Import Authorization Versions Lifecycle Artifacts Tablets Accounts Roles.
From S2P Require Import TabletQueries Manifests Grants Restore Queue Assignments Build Demo.
From S2P Require Import Totality TabletInv TabletServices DeliveryInv TabletSystem RoleInv.
From S2P Require Import RoleSystem TabletDemo RoleDemo.

Section throttling.
Context `{Secrets} `{Accounts}.

(** Sign-ins to an account that fail at the instants [ts], without an address. *)
Definition failures (scope account : string) (ts : list Z) (s : Db) : Db :=
  foldl (λ s t, (record_auth_failure scope account None (s <| db_clock := t |>)).2) s ts.

Definition account_hash (account : string) : string := _hash (str_casefold account).

(** Nothing was counted against the account in this scope. *)
Definition unthrottled (s : Db) (scope account : string) : Prop :=
  ∀ k t, db_throttles s !! k = Some t → th_scope t = scope →
    th_subject_hash t ≠ account_hash account.

Definition window : Z := AUTH_THROTTLE_WINDOW_SECONDS * MICROSECONDS_PER_SECOND.
Definition lockout : Z := AUTH_THROTTLE_LOCKOUT_SECONDS * MICROSECONDS_PER_SECOND.

(** The one row of the account after [n] failures, the last at [last], in the window
    that began at [first]. *)
Definition counted (s : Db) (scope account : string) (n first last : Z) : Prop :=
  ∃ k, (∃ t, db_throttles s !! k = Some t
    ∧ throttle_of scope "ACCOUNT" (account_hash account) t = true
    ∧ th_failure_count t = n ∧ th_window_started_at t = first
    ∧ th_locked_until t = if AUTH_THROTTLE_MAX_FAILURES <=? n then Some (last + lockout) else None)
  ∧ ∀ j t, db_throttles s !! j = Some t → th_scope t = scope →
      th_subject_hash t = account_hash account → j = k.

End throttling.

(** ** Requests without authority *)

(** Who asks, and the department whose administration the request needs; [None] is
    that of the system. *)
Definition role_authority (s : Db) (r : RoleRequest) : option (N * option N) :=
  let assignment_department x :=
    db_station_admins s !! x ≫= λ a, st_department <$> db_stations s !! sa_station a in
  match r with
  | SetMailEligibility a _ _ | SetVersionPolicy a _ _ | SetSystemLease a _ _
  | CreateDepartment a _ _ | ChangeDepartmentStatus a _ _ => Some (a, None)
  | SetLease a d _ | SetAssetNumberPolicy a d _ _ _ | SetLocaleTimePolicy a d _ _
  | RemoveAdministrator a _ d | ProvisionDepartmentAdmin a d _ _ => Some (a, Some d)
  | ProvisionStationAdmin a st _ _ | GrantStationAdmin a _ st =>
      Some (a, st_department <$> db_stations s !! st)
  | SuspendDepartmentAdmin a m | ReinstateDepartmentAdmin a m | RevokeDepartmentAdmin a m =>
      Some (a, dm_department <$> db_memberships s !! m)
  | SuspendStationAdmin a x | ReinstateStationAdmin a x | RevokeStationAdmin a x =>
      Some (a, assignment_department x)
  | ConsumeSetupToken _ _ | RecordAuthFailure _ _ _ | BootstrapSystemAdmin _ _
  | ReissueSystemAdminSetup => None
  end.

(** The life of the administrators of a department is its own affair. *)
Definition tenant_affair (r : RoleRequest) : bool :=
  match r with
  | SuspendDepartmentAdmin _ _ | ReinstateDepartmentAdmin _ _ | RevokeDepartmentAdmin _ _
  | SuspendStationAdmin _ _ | ReinstateStationAdmin _ _ | RevokeStationAdmin _ _
  | RemoveAdministrator _ _ _ => true
  | _ => false
  end.

Section throttling.
Context `{Secrets} `{Accounts}.

Lemma throttle_of_spec scope subject hash t : throttle_of scope subject hash t = true ↔
  th_scope t = scope ∧ th_subject t = subject ∧ th_subject_hash t = hash.
Proof. unfold throttle_of. rewrite !andb_true_iff, !String.eqb_eq. tauto. Qed.

Lemma count_in_window now t : now < th_window_started_at t + window →
  ∃ t', count_failure now t = t' ∧ th_scope t' = th_scope t ∧ th_subject t' = th_subject t
    ∧ th_subject_hash t' = th_subject_hash t ∧ th_failure_count t' = th_failure_count t + 1
    ∧ th_window_started_at t' = th_window_started_at t
    ∧ th_locked_until t' = if AUTH_THROTTLE_MAX_FAILURES <=? th_failure_count t + 1
                           then Some (now + lockout) else th_locked_until t.
Proof.
  intros Hw. eexists. split; [reflexivity|]. unfold count_failure.
  replace (_ <=? now) with false by (symmetry; apply Z.leb_gt; exact Hw).
  cbn [th_failure_count set set_th_failure_count].
  destruct (_ <=? th_failure_count t + 1); split_and!; reflexivity.
Qed.

(** One failure updates the row of the subject or its new one. *)
Lemma record_failure_run scope now subject value s :
  ∃ k t, record_failure scope now (subject, value) s =
      (Val tt, s <| db_throttles := <[k := count_failure now t]> (db_throttles s) |>)
    ∧ (db_throttles s !! k = Some t ∧ throttle_of scope subject (_hash value) t = true
       ∨ db_throttles s !! k = None
         ∧ t = mkAuthenticationThrottle scope subject (_hash value) 0 now None
         ∧ ∀ j r, db_throttles s !! j = Some r → throttle_of scope subject (_hash value) r = false).
Proof.
  unfold record_failure, atomic, bind, first_where, gets, ret, save, create. cbn [fst snd].
  destruct (head _) as [[k t]|] eqn:E.
  - apply order_by_head_Some in E as [E _]. apply rows_elem in E as [Hk Hf].
    exists k, t. rewrite Hk. split; [reflexivity|]. left. auto.
  - apply order_by_head_None in E. set (k := fresh_id (db_throttles s)).
    exists k, (mkAuthenticationThrottle scope subject (_hash value) 0 now None).
    pose proof (fresh_id_fresh (db_throttles s)) as Hk. fold k in Hk. cbn. fold k.
    rewrite lookup_insert_eq. split.
    + f_equal. unfold set, set_db_throttles. f_equal. apply insert_insert_eq.
    + right. split_and!; [exact Hk|reflexivity|]. intros j r Hj.
      destruct (throttle_of _ _ _ r) eqn:Er; [|reflexivity].
      assert (Hin : (j, r) ∈ rows (db_throttles s) (λ _ t, throttle_of scope subject (_hash value) t))
        by (apply rows_elem; auto).
      rewrite E in Hin. inversion Hin.
Qed.

Lemma record_account_failure scope account s :
  (record_auth_failure scope account None s).2 =
    (record_failure scope (db_clock s) ("ACCOUNT", str_casefold account) s).2.
Proof.
  unfold record_auth_failure, bind, timezone_now, gets. cbn [throttle_subjects for_each].
  destruct (record_failure_run scope (db_clock s) "ACCOUNT" (str_casefold account) s)
    as (k & t & E & _).
  unfold bind. rewrite E. reflexivity.
Qed.

Context (window_positive : 0 < AUTH_THROTTLE_WINDOW_SECONDS).

Lemma first_failure scope account now s :
  unthrottled s scope account →
  counted (failures scope account [now] s) scope account 1 now now.
Proof.
  intros U. unfold failures. cbn [foldl]. rewrite record_account_failure. cbn [db_clock set].
  destruct (record_failure_run scope now "ACCOUNT" (str_casefold account) (s <| db_clock := now |>))
    as (k & t & E & [[Hk Ht]|(Hk & -> & _)]).
  - exfalso. apply throttle_of_spec in Ht as (Es & _ & Eh). exact (U k t Hk Es Eh).
  - change (db_clock (s <| db_clock := now |>)) with now. rewrite E. exists k. split.
    + destruct (count_in_window now (mkAuthenticationThrottle scope "ACCOUNT"
        (_hash (str_casefold account)) 0 now None)) as (t' & Et & E1 & E2 & E3 & E4 & E5 & E6).
      { cbn. unfold window, MICROSECONDS_PER_SECOND. lia. }
      rewrite Et. exists t'. split; [apply lookup_insert_eq|].
      split_and!; [apply throttle_of_spec; auto|exact E4|exact E5|exact E6].
    + cbn. intros j r [[<- <-]|[_ Hj]]%lookup_insert_Some Es Eh; [reflexivity|].
      exfalso. exact (U j r Hj Es Eh).
Qed.

Lemma next_failure scope account now n first last s :
  counted s scope account n first last → now < first + window →
  counted (failures scope account [now] s) scope account (n + 1) first now.
Proof.
  intros (k & (t & Hk & Ht & En & Ef & El) & Hu) Hw. unfold failures. cbn [foldl].
  rewrite record_account_failure. change (db_clock (s <| db_clock := now |>)) with now.
  destruct (record_failure_run scope now "ACCOUNT" (str_casefold account) (s <| db_clock := now |>))
    as (j & r & E & [[Hj Hr]|(_ & _ & Hno)]).
  2:{ exfalso. specialize (Hno k t Hk). unfold account_hash in Ht. congruence. }
  rewrite E. pose proof Hr as Hr'. apply throttle_of_spec in Hr' as (Es & Esub & Eh).
  assert (j = k) as -> by exact (Hu j r Hj Es Eh). cbn in Hj. rewrite Hk in Hj. injection Hj as <-.
  rewrite <- Ef in Hw. destruct (count_in_window now t Hw) as (t' & Et & E1 & E2 & E3 & E4 & E5 & E6).
  rewrite Et. exists k. split.
  - exists t'. split; [apply lookup_insert_eq|].
    split_and!; [apply throttle_of_spec; unfold account_hash; split_and!; congruence|congruence|congruence|].
    rewrite E6, En, El. destruct (Z.leb_spec AUTH_THROTTLE_MAX_FAILURES (n + 1)); [reflexivity|].
    destruct (Z.leb_spec AUTH_THROTTLE_MAX_FAILURES n); [lia|reflexivity].
  - cbn. intros i x Hi Ex1 Ex2. apply lookup_insert_Some in Hi as [[<- <-]|[_ Hi]]; [reflexivity|].
    exact (Hu i x Hi Ex1 Ex2).
Qed.

Lemma more_failures scope account ts n first last s :
  counted s scope account n first last → Forall (λ t, t < first + window) ts →
  counted (failures scope account ts s) scope account (n + Z.of_nat (length ts)) first
    (List.last ts last).
Proof.
  revert n last s. induction ts as [|t ts IH]; intros n last s C Hts.
  - cbn. rewrite Z.add_0_r. exact C.
  - apply Forall_cons in Hts as [Ht Hts]. change (failures scope account (t :: ts) s)
      with (failures scope account ts (failures scope account [t] s)).
    replace (n + Z.of_nat (length (t :: ts))) with (n + 1 + Z.of_nat (length ts)) by (cbn [length]; lia).
    replace (List.last (t :: ts) last) with (List.last ts t).
    + apply IH; [|exact Hts]. eapply next_failure; eassumption.
    + clear. revert t last. induction ts as [|x ts IH]; intros t last; [reflexivity|].
      cbn [List.last] in *. destruct ts; [reflexivity|apply IH].
Qed.

Lemma counted_throttled scope account n first last s :
  counted s scope account n first last → is_throttled scope account None s =
    (Val ((AUTH_THROTTLE_MAX_FAILURES <=? n) && (db_clock s <? last + lockout)), s).
Proof.
  intros (k & (t & Hk & Ht & En & Ef & El) & Hu). unfold is_throttled.
  rewrite (bind_run _ _ s (db_clock s) s) by reflexivity. unfold exists_where, gets.
  f_equal. f_equal. apply eq_iff_eq_true. rewrite exists_row_true. cbn.
  apply throttle_of_spec in Ht as (Es & _ & Eh). split.
  - intros (j & r & Hj & Hc). rewrite !andb_true_iff, orb_false_r, !String.eqb_eq in Hc.
    destruct Hc as ((Er & Ehr) & Hl). assert (j = k) as -> by exact (Hu j r Hj Er Ehr).
    rewrite Hk in Hj. injection Hj as <-. rewrite El in Hl.
    destruct (_ <=? n); [exact Hl|discriminate].
  - intros Hc. apply andb_true_iff in Hc as [H1 H2]. exists k, t. split; [exact Hk|].
    rewrite El, H1, Es, Eh, !String.eqb_refl. exact H2.
Qed.

(** Failed sign-ins lock an account exactly as configured: after failures within
    one window, of which the first finds nothing counted, the account is throttled if
    and only if there were at least [AUTH_THROTTLE_MAX_FAILURES] of them and the
    lockout since the last one is not over. *)
Theorem failures_lock_the_account scope account first ts now s :
  unthrottled s scope account → Forall (λ t, t < first + window) ts →
  let s' := (failures scope account (first :: ts) s) <| db_clock := now |> in
  is_throttled scope account None s' =
    (Val ((AUTH_THROTTLE_MAX_FAILURES <=? 1 + Z.of_nat (length ts))
          && (now <? List.last ts first + lockout)), s').
Proof.
  intros U Hts s'.
  refine (counted_throttled scope account _ first (List.last ts first) s' _).
  change (counted (failures scope account ts (failures scope account [first] s)) scope account
    (1 + Z.of_nat (length ts)) first (List.last ts first)).
  apply more_failures; [|exact Hts]. apply first_failure, U.
Qed.
End throttling.

(** Five failures within a minute lock the account for a quarter of an hour. *)
Lemma failures_lock_the_account_witness :
  ∃ s', is_throttled "PASSWORD" "Anna@fire.de" None s' = (Val true, s').
Proof.
  eexists. refine (failures_lock_the_account _ "PASSWORD" "Anna@fire.de" 0
    [1000000; 2000000; 3000000; 4000000] 60000000 office_anna _ _).
  - reflexivity.
  - intros k t Hk. vm_compute in Hk. discriminate Hk.
  - repeat constructor.
Defined.

Lemma refused_ignored {A} (m : M Db A) s :
  (∃ e, m s = (Exc e, s)) → ∃ e, ignore m s = (Exc e, s).
Proof. intros [e E]. exists e. unfold ignore, bind. rewrite E. reflexivity. Qed.

Lemma not_system_admin a s (Q : unit → Db → Prop) :
  is_system_admin s a = false → wlp (require_system_admin a) s Q.
Proof. intros E. unfold require_system_admin, bind, gets, wlp. rewrite E. exact I. Qed.

Lemma not_department_admin a d s (Q : unit → Db → Prop) :
  d ∉ active_department_ids s a → wlp (require_department_admin a (Some d)) s Q.
Proof.
  intros Hd. apply wlp_require_department_admin. intros _ Hm. apply mem_N_spec in Hm. contradiction.
Qed.

Lemma not_lifecycle_actor a d s (Q : unit → Db → Prop) :
  is_system_admin s a = true ∨ d ∉ active_department_ids s a →
  wlp (_require_tenant_lifecycle_actor a d) s Q.
Proof.
  intros Ha. unfold _require_tenant_lifecycle_actor. apply wlp_skip; [preserve|]. intros b [= <-].
  apply wlp_bind, wlp_guard. intros Hb. apply negb_true_iff in Hb.
  destruct Ha as [Ha|Ha]; [congruence|]. apply not_department_admin, Ha.
Qed.

(** The administrators of the code's query. *)
Lemma effective_admins s d :
  department_is_active s d = true →
  (effective_department_admin_memberships s (Some d) ≠ [] ↔ has_admin s d).
Proof.
  intros Hd. unfold effective_department_admin_memberships, effective_membership. split.
  - intros Hne. destruct (rows _ _) as [|[k m] l] eqn:E; [contradiction|].
    assert (Hin : (k, m) ∈ (k, m) :: l) by left. rewrite <- E in Hin.
    apply rows_elem in Hin as [Hm Hc]. rewrite !andb_true_iff, N.eqb_eq in Hc.
    destruct Hc as (((H1 & H2) & _) & H3). exists k, m. repeat split; assumption.
  - intros (k & m & Hm & Ha & Ed & Hu) E.
    assert (Hin : (k, m) ∈ rows (db_memberships s) (λ _ m, dm_active m
        && user_is_active s (dm_user m) && department_is_active s (dm_department m)
        && N.eqb (dm_department m) d)).
    { apply rows_elem. split; [exact Hm|]. rewrite Ha, Hu, Ed, Hd, N.eqb_refl. reflexivity. }
    rewrite E in Hin. inversion Hin.
Qed.


Section theorems.
Context `{Settings} `{Hash} `{HpkeSuite} `{Secrets} `{DeliverySettings} `{Credentials}
  `{Accounts}.

(** C4: Along every run of the administration, with the tablet services and whatever
    leaves accounts and roles alone in between, a department that has an effective
    administrator keeps one as long as it is operational. *)
Theorem departments_keep_an_administrator s s' d :
  role_reachable s → rtc role_step s s' →
  department_is_active s d = true → department_is_active s' d = true →
  effective_department_admin_memberships s (Some d) ≠ [] →
  effective_department_admin_memberships s' (Some d) ≠ [].
Proof.
  intros I%role_reachable_inv Hr Hd Hd'. rewrite !effective_admins by assumption.
  apply (re_admin _ _ (evolves_role_run _ _ Hr I)).
Qed.

(** Nobody changes roles, settings or departments without the authority for it: a
    request of an actor who is neither a system administrator nor an effective
    administrator of the department concerned raises and changes nothing; and so does
    one of a system administrator on the life of a department's administrators. *)
Theorem strangers_change_no_roles s r a od :
  role_authority s r = Some (a, od) →
  (is_system_admin s a = false ∧ ∀ d, od = Some d → d ∉ active_department_ids s a)
  ∨ (is_system_admin s a = true ∧ tenant_affair r = true) →
  ∃ e, serve_role r s = (Exc e, s).
Proof.
  intros Ea Ha.
  assert (Hs : tenant_affair r = false → is_system_admin s a = false
      ∧ ∀ d, od = Some d → d ∉ active_department_ids s a).
  { intros Ht. destruct Ha as [Ha|[_ Ha]]; [exact Ha|congruence]. }
  assert (Hl : ∀ d, od = Some d → is_system_admin s a = true ∨ d ∉ active_department_ids s a).
  { intros d Ed. destruct Ha as [[_ Ha]|[Ha _]]; [right; auto|left; exact Ha]. }
  destruct r; cbn [role_authority serve_role tenant_affair] in *; try discriminate Ea;
    injection Ea as -> Ed; try (specialize (Hs eq_refl) as [Hs Hd]);
    repeat match goal with |- context [ignore _] => apply refused_ignored end; apply atomic_refused.
  all: try (apply wlp_bind, not_system_admin; exact Hs).
  all: try (apply wlp_bind, not_department_admin, Hd; symmetry; exact Ed).
  all: apply wlp_bind, wlp_get_obj; intros x Hx; rewrite ?Hx in Ed; cbn in Ed; cbv zeta.
  all: try (apply wlp_bind, not_lifecycle_actor, Hl; symmetry; exact Ed).
  all: try (apply wlp_bind, not_department_admin, Hd; symmetry; exact Ed).
  2-4: apply wlp_bind, wlp_get_obj; intros st Hst; rewrite Hst in Ed; cbn in Ed;
    apply wlp_bind, not_lifecycle_actor, Hl; symmetry; exact Ed.
  apply wlp_skip; [preserve|]. intros sys [= <-]. rewrite Hs. apply wlp_skip.
  { preserve. }
  intros u E. exfalso. apply bind_Val in E as (l & s1 & [= <- <-] & E).
  apply guard_Val in E as [E _]. apply mem_N_spec in E. exact (Hd _ (eq_sym Ed) E).
Qed.



(** C26: Authority is unambiguous and its revocation final: in every reachable store a
    user actively administers at most one department and holds one active assignment
    per station, accounts differ in their e-mail address, and the row of a revoked
    authority names when and by whom and never changes again. *)
Theorem authority_is_unambiguous s s' :
  role_reachable s → rtc role_step s s' →
  (∀ k k' m m', db_memberships s !! k = Some m → db_memberships s !! k' = Some m' → k ≠ k' →
     dm_active m = true → dm_active m' = true → dm_user m ≠ dm_user m')
  ∧ (∀ k k' a a', db_station_admins s !! k = Some a → db_station_admins s !! k' = Some a' → k ≠ k' →
     sa_active a = true → sa_active a' = true → sa_station a = sa_station a' →
     sa_user a ≠ sa_user a')
  ∧ (∀ k k' u u', db_users s !! k = Some u → db_users s !! k' = Some u' → k ≠ k' →
     us_email u ≠ us_email u')
  ∧ (∀ k m, db_memberships s !! k = Some m → dm_status m = AUTHORITY_REVOKED →
     dm_revoked_at m ≠ None ∧ dm_revoked_by m ≠ None ∧ db_memberships s' !! k = Some m)
  ∧ (∀ k a, db_station_admins s !! k = Some a → sa_status a = AUTHORITY_REVOKED →
     sa_revoked_at a ≠ None ∧ sa_revoked_by a ≠ None ∧ db_station_admins s' !! k = Some a).
Proof.
  intros I%role_reachable_inv Hr.
  destruct (re_history _ _ (evolves_role_run _ _ Hr I)) as (HM & HA & _).
  destruct I as [J1 J2 J3 J4 J5 _]. split_and!.
  - intros k k' m m' Hm Hm' Hne Ha Ha' E. apply Hne. eauto.
  - intros k k' a a' Hx Hx' Hne Ha Ha' Es E. apply Hne. eauto.
  - intros k k' u u' Hu Hu' Hne E. apply Hne. eauto.
  - intros k m Hm Es. pose proof (J3 k m Hm) as P. rewrite Es in P. destruct P as [P1 P2].
    destruct (HM k m Hm) as (m' & Hm' & _ & _ & E). rewrite <- (E Es) at 3. auto.
  - intros k a Ha Es. pose proof (J4 k a Ha) as P. rewrite Es in P. destruct P as [P1 P2].
    destruct (HA k a Ha) as (a' & Ha' & _ & _ & E). rewrite <- (E Es) at 3. auto.
Qed.

End theorems.

(** ** The theorems on the small administration *)

Lemma departments_keep_an_administrator_witness :
  effective_department_admin_memberships office_removed (Some 1%N) ≠ [].
Proof.
  apply (departments_keep_an_administrator office_anna office_removed 1).
  - exact office_anna_reachable.
  - exact office_removed_run.
  - vm_compute. reflexivity.
  - vm_compute. reflexivity.
  - vm_compute. discriminate.
Defined.


Lemma authority_is_unambiguous_witness :
  ∃ m, db_memberships office_removed !! 2%N = Some m ∧ dm_revoked_by m ≠ None.
Proof.
  destruct (row_with dm_status (db_memberships office_removed !! 2%N) AUTHORITY_REVOKED)
    as (m & Hm & Es); [vm_compute; reflexivity|].
  exists m. split; [exact Hm|].
  refine (proj1 (proj2 (proj1 (proj2 (proj2 (proj2
    (authority_is_unambiguous office_removed office_removed _ _)))) 2%N m Hm Es))).
  - eapply role_reachable_step; [exact office_anna_reachable|exact office_removed_run].
  - reflexivity.
Defined.


Lemma strangers_change_no_roles_witness :
  (∃ e, serve_role (SetLease 3 1 30) office_removed = (Exc e, office_removed))
  ∧ ∃ e, serve_role (RevokeDepartmentAdmin 1 1) office_anna = (Exc e, office_anna).
Proof.
  split.
  - apply (strangers_change_no_roles office_removed (SetLease 3 1 30) 3 (Some 1%N)); [reflexivity|].
    left. split; [vm_compute; reflexivity|]. intros d _.
    assert (E : active_department_ids office_removed 3 = []) by (vm_compute; reflexivity).
    rewrite E. inversion 1.
  - apply (strangers_change_no_roles office_anna (RevokeDepartmentAdmin 1 1) 1 (Some 1%N));
      [vm_compute; reflexivity|]. right. split; vm_compute; reflexivity.
Defined.
