(* ===== verification/MailDemo.v ===== *)
(** A small mail set-up on which the theorems of outbound mail are evaluated: the brigade
    of [RoleDemo.v] sends through the system's SMTP server, once it is verified,
    and its tablet reports to the verified address of a commander. *)
From Stdlib Require Import Ascii.
From S2P Require Import Prelude Text Encoding Versions Models Registry Lifecycle Store.
From S2P Require Import Authorization.
From S2P Require Import Fingerprint Artifacts Tablets Accounts TabletQueries Manifests.
From S2P Require Import ApplicationSecrets Grants Roles Restore Queue Assignments Organizations.
From S2P Require Import Personnel MailProviders.
From S2P Require Import ReportDelivery.
From S2P Require Import MailServices Demo SecretTheorems TabletSystem TabletDemo RoleSystem.
From S2P Require Import OrganizationSystem RoleDemo Totality MailInv MailSystem.
From S2P Require Import ReportRequests.

(** Two servers answer: a public one and one in the deployment's own network. *)
#[export] Instance demo_environment : MailEnvironment := {|
  validate_email := str_mem "@"%char;
  IpAddress := string;
  ip_address text := if mem_str text ["93.184.216.34"; "10.0.0.9"] then Some text else None;
  ip_str := id;
  ip_is_global a := String.eqb a "93.184.216.34";
  ip_in_network _ _ := false;
  ip_network_valid _ := true;
  idna_encode := Some;
  getaddrinfo _ host _ :=
    Some [(true, Some (if String.eqb host "intern.fire.de" then "10.0.0.9" else "93.184.216.34"))];
  smtp_open _ _ := None;
  smtp_send _ _ _ _ := inr 1;
  http_request _ _ _ _ _ _ := None;
  json_loads _ := None |}.

#[export] Instance demo_mail_settings : MailSettings := {|
  OUTBOUND_MAIL_HTTPS_PROXY := "";
  OUTBOUND_MAIL_HTTP_CONNECT_TIMEOUT_SECONDS := 5;
  OUTBOUND_MAIL_HTTP_READ_TIMEOUT_SECONDS := 20;
  OUTBOUND_MAIL_SMTP_TIMEOUT_SECONDS := 20;
  OUTBOUND_MAIL_SMTP_ALLOWED_HOSTS := [];
  OUTBOUND_MAIL_SMTP_ALLOWED_NETWORKS := [] |}.

(** Every document is one that only a password opens, under AES-256. *)
#[export] Instance demo_pdf : PdfLibrary := {|
  pdf_reader _ := Some (mkPdfReader true
    (Some (JObj [("/V", JInt 5); ("/R", JInt 6); ("/Length", JInt 256); ("/StmF", JStr "/StdCF");
      ("/StrF", JStr "/StdCF");
      ("/CF", JObj [("/StdCF", JObj [("/CFM", JStr "/AESV3"); ("/Length", JInt 32)])])]))
    (Some (5, 6, 256, "/AESV3", "/AESV3", "/AESV3")));
  pdf_decrypt_empty _ := Some true |}.

Definition alone : nat → M Db unit := λ _, ret tt.

Definition post (r : MailRequest) (s : Db) : Db := (serve_mail alone r s).2.

(** The brigade with the tablet of the fleet; its commander's address is verified. *)
Definition mail_start : Db :=
  order (VerifyCommanderEmail 2 1) brigade_member
    <| db_tablets := db_tablets fleet_active |>
    <| db_installations := db_installations fleet_active |>.

Definition mail_smtp : Db :=
  post (ReplaceSmtpCredentials 1 "fire" "password")
    (post (ConfigureSmtp 1 "mail.fire.de" 587 "STARTTLS" "FireDash" "noreply@fire.de") mail_start).

Definition mail_on : Db := post (SetDeliveryMode 1 "SMTP" "") mail_smtp.

Definition mail_verified : Db := post (VerifySystemMail 1) mail_on.

Definition mail_ready : Db :=
  post (SetDepartmentDeliveryMode 2 1 "SYSTEM") (ask (SetMailEligibility 1 1 true) mail_verified).

Definition demo_report : PdfInput := PdfBytes "%PDF-2.0".

Definition mail_sent : Db := post (SubmitReport 1 42 1 demo_report) mail_ready.

Lemma post_step r s : mail_step s (post r s).
Proof. apply mail_request. intros n. unfold alone. preserve. Qed.

Lemma mail_smtp_reachable : rtc mail_step mail_start mail_smtp.
Proof. eapply rtc_l; [apply post_step|]. apply rtc_once, post_step. Qed.

Lemma mail_eligible_step : mail_step mail_verified (ask (SetMailEligibility 1 1 true) mail_verified).
Proof. apply mail_outside. vm_compute. reflexivity. Qed.

Lemma mail_ready_reachable : rtc mail_step mail_start mail_ready.
Proof.
  transitivity mail_smtp; [apply mail_smtp_reachable|].
  transitivity mail_verified; [eapply rtc_l; [apply post_step|apply rtc_once, post_step]|].
  eapply rtc_l; [apply mail_eligible_step|apply rtc_once, post_step].
Qed.

Lemma no_requests s : db_delivery_requests s = ∅ → requests_inv s.
Proof. intros E. unfold requests_inv. rewrite E. split; intros *; rewrite ?lookup_empty; discriminate. Qed.

Lemma alone_relies key : ∀ n, preserves (request_rely key) (alone n).
Proof. intros n. unfold alone. preserve. Qed.

Lemma alone_quiet : ∀ n, keeps sent_mail (alone n).
Proof. intros n s. reflexivity. Qed.

Lemma alone_twice s : (alone 1%nat (alone 0%nat s).2).2 = s.
Proof. reflexivity. Qed.
