(* ===== verification/MailTheorems.v ===== *)
(** Theorems on outbound mail: who changes its settings, which providers and addresses it
    uses, to whom reports go and how often. *)
From S2P Require Import Prelude Text Encoding Versions Models Registry Lifecycle Store.
From S2P Require Import Authorization.
From S2P Require Import Fingerprint Artifacts Tablets Accounts TabletQueries Manifests.
From S2P Require Import ApplicationSecrets Grants Roles Restore Queue Assignments Organizations.
From S2P Require Import Personnel MailProviders.
From S2P Require Import ReportDelivery.
From S2P Require Import MailServices Demo SecretTheorems TabletSystem TabletDemo RoleSystem.
From S2P Require Import OrganizationSystem RoleDemo Totality MailInv MailRotation.
From S2P Require Import MailSystem.
From S2P Require Import ReportRequests MailDemo.

(** Who asks for a change of settings, and of which department; [None] for the rest. *)
Definition mail_actor (r : MailRequest) : option (N * option N) :=
  match r with
  | ConfigureHttpsProxy a _ | VerifySystemMail a | ConfigureBrevo a _ _ | ReplaceBrevoApiKey a _
  | ClearBrevoApiKey a | ConfigureSmtp a _ _ _ _ _ | ReplaceSmtpCredentials a _ _
  | ClearSmtpCredentials a | SetDeliveryMode a _ _ => Some (a, None)
  | ConfigureDepartmentSmtp a d _ _ _ _ _ | ReplaceDepartmentSmtpCredentials a d _ _
  | ClearDepartmentSmtpCredentials a d | VerifyDepartmentSmtp a d
  | SetDepartmentDeliveryMode a d _ | SetDepartmentRecipientPolicy a d _ _ => Some (a, Some d)
  | GetSystemMailConfiguration | RotateMailSecrets | SubmitReport _ _ _ _ => None
  end.

(** Who may: a system administrator, or one of the department for its own settings. *)
Definition may_change_mail (s : Db) (actor : N) (department : option N) : bool :=
  is_system_admin s actor
  || match department with
     | Some d =>
         match db_departments s !! d with
         | Some dep => dept_active dep && mem_N d (active_department_ids s actor)
         | None => false
         end
     | None => false
     end.

Section theorems.
Context `{MailEnvironment, MailSettings, DeliverySettings, Aesgcm, SecretSettings, PdfLibrary} {HL : AesgcmLaws}.

(** Without settings the invariant holds. *)
Lemma no_mail_settings s : db_system_mail s = ∅ → db_department_mail s = ∅ → mail_inv s.
Proof.
  intros E1 E2. unfold mail_inv. rewrite E1, E2. split; intros *; rewrite ?lookup_empty; try discriminate.
  intros [c Hc]. discriminate.
Qed.

(** A transaction that begins with a check that fails. *)
Lemma refused_at_once {A B} (m : M Db A) (k : A → M Db B) s :
  (∃ e, m s = (Exc e, s)) → ∃ e, atomic (bind m k) s = (Exc e, s).
Proof. intros [e E]. exists e. unfold atomic, bind. rewrite E. reflexivity. Qed.

Lemma refused_unit {A} (m : M Db A) s : (∃ e, m s = (Exc e, s)) → ∃ e, unit_of m s = (Exc e, s).
Proof. intros [e E]. exists e. unfold unit_of, bind. rewrite E. reflexivity. Qed.

(** Only administrators change mail settings.  A request to configure, verify or
    select a provider, to replace or clear a secret or to set the recipients of a department
    by somebody who is neither a system administrator nor an administrator of that
    department fails and leaves the store as it is. *)
Theorem strangers_change_no_mail_settings others r actor department s :
  mail_actor r = Some (actor, department) → may_change_mail s actor department = false →
  ∃ e, serve_mail others r s = (Exc e, s).
Proof.
  unfold may_change_mail. intros Hr [Hs Hd]%orb_false_iff.
  assert (Hsys : ∃ e, require_system_admin actor s = (Exc e, s)).
  { unfold require_system_admin, bind, gets, guard. rewrite Hs. eexists. reflexivity. }
  assert (Hdep : ∀ d, department = Some d → ∃ e, _require_department_mail_manager actor d s = (Exc e, s)).
  { intros d ->. unfold _require_department_mail_manager, require_department_admin, bind, gets, guard.
    rewrite Hs, Hd. eexists. reflexivity. }
  destruct r; try discriminate Hr; injection Hr as -> <-; cbn [serve_mail];
    try apply refused_unit;
    match goal with |- ∃ e, ?m s = _ => let h := program_head m in unfold h end;
    apply refused_at_once; auto.
Qed.

(** The caught programs give what they give. *)
Lemma or_unavailable_val {A} caught reason (m : M Db A) s a s' :
  or_unavailable caught reason m s = (Val (inr a), s') → m s = (Val a, s').
Proof.
  unfold or_unavailable, try_except, bind, ret.
  destruct (m s) as [[b|e] s1]; [intros [= <- <-]; reflexivity|].
  destruct (caught _); discriminate.
Qed.

(** The system's provider is resolved from settings that were verified. *)
Lemma resolved_system s p : mail_inv s → _resolve_system_provider s = (Val (inr p), s) →
  ∃ ks cs, db_system_mail s !! ks = Some cs ∧ provider_identity cs = provider_id p
    ∧ ∃ s1, provider_verify p s1 = (Val tt, s1) ∧ mc_last_verified_at cs = Some (db_clock s1).
Proof.
  intros I E. unfold _resolve_system_provider, bind at 1, gets in E.
  destruct (find_system_mail s) as [[ks cs]|] eqn:Fs; [|discriminate E].
  pose proof (find_system_lookup _ _ _ Fs) as Hks. exists ks, cs. split; [exact Hks|].
  destruct (String.eqb (mc_delivery_mode cs) "DISABLED"); [discriminate E|].
  unfold bind in E. destruct (or_unavailable is_validation _ _ s) as [[[r|u]|e] s1] eqn:Ev;
    try discriminate E.
  pose proof (preserves_or_unavailable eq is_validation "system_configuration_incomplete" _
    (readonly_validate_activation cs) s) as Hv. rewrite Ev in Hv. cbn in Hv. subst s1.
  destruct (_is_current_system_verification cs _) eqn:Ec; cbn [negb] in E; [|discriminate E].
  apply or_unavailable_val in E. unfold _is_current_system_verification in Ec.
  apply andb_true_iff in Ec as [[Ep%String.eqb_eq Eo%String.eqb_eq]%andb_true_iff _].
  assert (Ei : provider_identity cs = provider_id p).
  { unfold provider_identity. unfold resolve_effective_provider in E.
    destruct (String.eqb (mc_delivery_mode cs) "API"); [symmetry; exact (resolved_identity _ _ _ _ E)|].
    destruct (String.eqb (mc_delivery_mode cs) "SMTP"); [|discriminate E].
    symmetry. exact (resolved_identity _ _ _ _ E). }
  split; [exact Ei|]. apply effective_runtime in E.
  apply (mi_system_verified _ _ I _ _ Hks Eo s p Fs). rewrite Ep, Ei. exact E.
Qed.

(** So is a department's own server. *)
Lemma resolved_custom s k c d p : mail_inv s → db_department_mail s !! k = Some c →
  md_department c = d → _resolve_department_smtp_provider c d s = (Val (inr p), s) →
  ∃ configuration s1, p = SmtpProvider configuration ∧ provider_verify p s1 = (Val tt, s1)
    ∧ md_last_smtp_verified_at c = Some (db_clock s1).
Proof.
  intros I Hk Hd E. unfold _resolve_department_smtp_provider, bind at 1 in E.
  destruct (or_unavailable is_value_or_validation _ _ s) as [[[r|u]|e] s1] eqn:Ev; try discriminate E.
  assert (s1 = s) as ->.
  { assert (Hr : readonly (or_unavailable is_value_or_validation "department_smtp_configuration_incomplete"
      (validate_smtp_configuration (md_smtp c);;; guard (auth_pair (md_smtp c)) EValue ""))) by follow.
    specialize (Hr s). rewrite Ev in Hr. symmetry. exact Hr. }
  destruct (_is_current_department_smtp_verification c) eqn:Ec; cbn [negb] in E; [|discriminate E].
  apply or_unavailable_val in E. unfold bind in E.
  destruct (department_smtp_provider c d s) as [[cfg|e] s2] eqn:Ed; [|discriminate E].
  injection E as <- ->. apply andb_true_iff in Ec as [Eo%String.eqb_eq _]. rewrite <- Hd in Ed.
  destruct (mi_department_verified _ _ I _ _ Hk Eo s cfg Ed) as (s1 & Hv & Ht).
  exists cfg, s1. split_and!; auto.
Qed.

(** The answers to documented rows. *)
Lemma answer_documented st code : documented st code = true → st ≠ DELIVERY_PROCESSING →
  documented_answer (mkTabletReportDeliveryResult (REPORTED st) code) = true.
Proof.
  intros Hd Hp. destruct st; try exact Hd; [congruence|].
  cbn in *. rewrite Hd. reflexivity.
Qed.

Lemma replay_documented q pid : documented (dq_state q) (dq_result_code q) = true →
  documented_answer (_replay q pid) = true
  ∧ (rr_state (_replay q pid) = REPORTED_CONFLICT ↔ dq_recipient_personnel_id q ≠ pid)
  ∧ (rr_state (_replay q pid) ≠ REPORTED_CONFLICT → dq_state q ≠ DELIVERY_PROCESSING →
       _replay q pid = mkTabletReportDeliveryResult (REPORTED (dq_state q)) (dq_result_code q)).
Proof.
  intros Hd. unfold _replay. destruct (N.eqb_spec (dq_recipient_personnel_id q) pid) as [Ep|Hne]; cbn [negb].
  - destruct (bool_decide_reflect (dq_state q = DELIVERY_PROCESSING)) as [Es|Hne].
    + split_and!; [reflexivity|split; [discriminate|congruence]|congruence].
    + split_and!; [apply answer_documented; assumption|split; [discriminate|congruence]|auto].
  - split_and!; [reflexivity|tauto|cbn; tauto].
Qed.

(** C6: A provider is used only with settings that it was verified with.  Starting without
    settings, after any run of the services, when resolving the provider of a department
    gives one, the provider with exactly these settings did succeed in a verification, at the
    instant that is recorded; and it is the system's, which the department may use, or the
    department's own server. *)
Theorem resolved_providers_were_verified s0 s d p s' :
  db_system_mail s0 = ∅ → db_department_mail s0 = ∅ → rtc mail_step s0 s →
  resolve_department_mail_provider d s = (Val (inr p), s') →
  ∃ k c, db_department_mail s !! k = Some c ∧ md_department c = d
    ∧ (md_delivery_mode c = "SYSTEM" ∧ is_system_managed_mail_allowed s d = true
         ∧ (∃ ks cs, db_system_mail s !! ks = Some cs ∧ provider_identity cs = provider_id p
              ∧ ∃ s1, provider_verify p s1 = (Val tt, s1)
                  ∧ mc_last_verified_at cs = Some (db_clock s1))
       ∨ md_delivery_mode c = "CUSTOM_SMTP"
         ∧ ∃ configuration s1, p = SmtpProvider configuration
             ∧ provider_verify p s1 = (Val tt, s1)
             ∧ md_last_smtp_verified_at c = Some (db_clock s1)).
Proof.
  intros E1 E2 Hr E. assert (I : mail_inv s) by (eapply mail_reachable; [exact Hr|apply no_mail_settings; assumption]).
  pose proof (delivery_resolve eq d s) as Hs. rewrite E in Hs. cbn in Hs. subst s'.
  unfold resolve_department_mail_provider, bind at 1, gets in E.
  destruct (find_department_mail s d) as [[k c]|] eqn:F; [|discriminate E].
  apply find_department_lookup in F as [Hk Hd]. exists k, c. split; [exact Hk|]. split; [exact Hd|].
  destruct (String.eqb (md_delivery_mode c) "DISABLED"); [discriminate E|].
  destruct (String.eqb_spec (md_delivery_mode c) "SYSTEM") as [Em|_].
  - left. split; [exact Em|]. unfold bind at 1 in E.
    destruct (is_system_managed_mail_allowed s d); [|discriminate E]. split; [reflexivity|].
    exact (resolved_system _ _ I E).
  - destruct (String.eqb_spec (md_delivery_mode c) "CUSTOM_SMTP") as [Em|_]; [|discriminate E].
    right. split; [exact Em|]. exact (resolved_custom _ _ _ _ _ I Hk Hd E).
Qed.

(** C11: Reports go to authorized recipients only.  A delivery hands at most one message to
    a provider: the report, a PDF within the size limit that only a password opens under
    AES-256, whole and unchanged, from the sender of the department's provider to the
    verified address of the chosen person, who belongs to the tablet's department, is in
    active service and may command, at a domain that the department allows.  Other
    sessions may change anything in between: [s1] and [s2] are the stores in which the
    provider and, last before the attempt, the recipient were looked up. *)
Theorem reports_go_to_authorized_recipients others iid pid pdf f s r s' :
  (∀ n, keeps sent_mail (others n)) → deliver_outbound_report others iid pid pdf f s = (r, s') →
  let s1 := (others 0%nat s).2 in let s2 := (others 1%nat s1).2 in
  sent_mail s' = sent_mail s ∨ ∃ inst tab provider email bytes person,
    sent_mail s' = sent_mail s ++ [report_message provider email bytes]
    ∧ db_installations s !! iid = Some inst ∧ db_tablets s !! in_tablet inst = Some tab
    ∧ resolve_department_mail_provider (tb_department tab) s1 = (Val (inr provider), s1)
    ∧ authorized_recipient s2 (tb_department tab) pid email person ∧ acceptable_pdf pdf bytes
    ∧ ∀ o, r = Val o → ro_code o ∈ attempt_codes.
Proof. exact (deliver_sends others iid pid pdf f s r s'). Qed.

(** C2: A request is sent at most once.  While other sessions leave the request alone, a
    submission sends at most one message, and only for a request that was not there before
    and is there afterwards, even when it ends in an exception.  From then on, whatever the
    other parts of the program do to other requests, submitting the same request again,
    with any recipient or file, sends nothing, changes nothing and answers what the row
    says; a stored result is never revised. *)
Theorem a_request_is_sent_at_most_once others iid rid pid pdf s r s' :
  requests_inv s → (∀ n, preserves (request_rely (iid, rid)) (others n)) →
  (∀ n, keeps sent_mail (others n)) →
  submit_tablet_report_delivery others iid rid pid pdf s = (r, s') →
  (sent_mail s' = sent_mail s
   ∨ (∃ m, sent_mail s' = sent_mail s ++ [m]) ∧ find_request s iid rid = None
     ∧ ∃ k q, db_delivery_requests s' !! k = Some q ∧ request_key q = (iid, rid)
         ∧ dq_recipient_personnel_id q = pid)
  ∧ ∀ k q s2, db_delivery_requests s' !! k = Some q → request_key q = (iid, rid) →
      requests_evolve s' s2 →
      ∃ q2, request_identity q2 = request_identity q
        ∧ (dq_state q ≠ DELIVERY_PROCESSING → q2 = q)
        ∧ ∀ others2 pid2 pdf2,
            submit_tablet_report_delivery others2 iid rid pid2 pdf2 s2 = (Val (_replay q2 pid2), s2).
Proof.
  intros I Hrely Hq E. split.
  - destruct (submit_sends _ _ _ _ _ _ _ _ Hrely Hq I E) as [->|(A & B & C & _)]; auto.
  - intros k q s2 Hk Ek [Hi Hkept]. pose proof (submit_evolves others iid rid pid pdf s Hrely I) as [I' _].
    rewrite E in I'. specialize (Hi (I' I)). destruct (Hkept k q Hk) as (q2 & Hk2 & E2 & Hfin).
    exists q2. split; [exact E2|]. split; [exact Hfin|]. intros others2 pid2 pdf2.
    apply (submit_found _ _ _ _ _ _ k).
    assert (Ek2 : request_key q2 = (iid, rid))
      by (change (request_key q2) with (request_identity q2).1.1.1; rewrite E2; exact Ek).
    injection Ek2 as <- <-. apply lookup_find_request; assumption.
Qed.

(** C24: The answers are those of the documented contract.  A submission that answers
    leaves the request in the table; the answer is one of the state and code pairs of the
    table in [docs/tablet-api.md]; a final state of the own attempt is what the table
    stores; and a failure whose code is not a provider's means that nothing was sent. *)
Theorem answers_follow_the_contract others iid rid pid pdf s res s' :
  requests_inv s → (∀ n, preserves (request_rely (iid, rid)) (others n)) →
  (∀ n, keeps sent_mail (others n)) →
  submit_tablet_report_delivery others iid rid pid pdf s = (Val res, s') →
  requests_inv s' ∧ documented_answer res = true
  ∧ (rr_code res ∉ attempt_codes → sent_mail s' = sent_mail s)
  ∧ ∃ k q, find_request s' iid rid = Some (k, q)
      ∧ (rr_state res = REPORTED_CONFLICT ↔ dq_recipient_personnel_id q ≠ pid)
      ∧ (rr_state res ≠ REPORTED_CONFLICT → dq_state q ≠ DELIVERY_PROCESSING →
           res = mkTabletReportDeliveryResult (REPORTED (dq_state q)) (dq_result_code q)).
Proof.
  intros I Hrely Hq E. pose proof (submit_sends _ _ _ _ _ _ _ _ Hrely Hq I E) as Hs.
  pose proof (submit_evolves others iid rid pid pdf s Hrely I) as [I' _]. rewrite E in I'.
  specialize (I' I). pose proof (submit_run requests_evolve iid rid) as Hr.
  specialize (Hr (λ x y e, rely_evolve (iid, rid) x y (rely_same (iid, rid) x y e))
    (claim_evolves iid rid) (done_evolves iid rid) others pid pdf s Hrely
    (λ n x, rely_evolve _ _ _ (Hrely n x)) I).
  rewrite E in Hr. destruct Hr as [_ Hr]. destruct (Hr res eq_refl) as (k & q & F & Ek & Hres).
  destruct (find_request_lookup _ _ _ _ _ F) as [Hk _].
  pose proof (ri_result _ I' _ _ Hk) as Hdoc. split; [exact I'|].
  assert (Ha : documented_answer res = true
    ∧ (rr_state res = REPORTED_CONFLICT ↔ dq_recipient_personnel_id q ≠ pid)
    ∧ (rr_state res ≠ REPORTED_CONFLICT → dq_state q ≠ DELIVERY_PROCESSING →
         res = mkTabletReportDeliveryResult (REPORTED (dq_state q)) (dq_result_code q))).
  { destruct Hres as [->|(_ & Ep & Hp & ->)]; [apply replay_documented, Hdoc|].
    split_and!; [apply answer_documented; assumption|split; [discriminate|congruence]|auto]. }
  destruct Ha as (A1 & A2 & A3). split; [exact A1|]. split; [|exists k, q; auto].
  intros Hc. destruct Hs as [Hs|(_ & _ & _ & Hc')]; [exact Hs|]. destruct (Hc (Hc' res eq_refl)).
Qed.

(** C23: Rotating the mail secrets loses none of them.  Whatever the outcome, every stored
    envelope still decrypts to what it decrypted to before, for the purpose it was encrypted
    for, and a stop at an unreadable envelope keeps the rows rotated so far: the run can be
    repeated.  A run that ends has accounted for every stored secret once, leaves each of them
    empty or under the configured key version, and a second run rotates nothing and changes
    nothing. *)
Theorem rotation_keeps_secrets s r s' : mail_inv s → rotate_outbound_mail_secrets s = (r, s') →
  mail_inv s'
  ∧ (∀ ref old, ref ∈ _live_secret_references s → secret_value ref s = Some old →
       ∃ new, secret_value ref s' = Some new ∧ ∀ s0,
         decrypt_application_secret new (reference_context ref) s0
         = decrypt_application_secret old (reference_context ref) s0)
  ∧ ∀ res, r = Val res →
      rn_rotated res + rn_skipped_active res + rn_skipped_empty res
        = Z.of_nat (length (_live_secret_references s))
      ∧ (∀ ref e, ref ∈ _live_secret_references s → secret_value ref s' = Some e →
           e = "" ∨ application_secret_key_version e s' = (Val APPLICATION_SECRET_KEK_VERSION, s'))
      ∧ ∃ res', rotate_outbound_mail_secrets s' = (Val res', s') ∧ rn_rotated res' = 0.
Proof.
  intros Hi E. unfold rotate_outbound_mail_secrets in E.
  destruct (configured_application_secret_cipher s) as [[c|e] s1] eqn:Ec.
  2:{ rewrite (bind_exc _ _ _ _ _ Ec) in E. injection E as <- <-.
      assert (s1 = s) as -> by (pose proof (readonly_configured s) as Hr; rewrite Ec in Hr; symmetry; exact Hr).
      split; [exact Hi|]. split; [eauto|discriminate]. }
  destruct (configured_valid _ _ _ Ec) as (-> & Em & Ea).
  rewrite (bind_run _ _ _ _ _ Ec) in E. unfold bind, gets in E.
  destruct (live_references s Hi) as [Hl Hv].
  pose proof (rotate_fold c _ (mkRotationResult (ci_active_version c) 0 0 0) s Hi Hl Hv Ec) as W.
  pose proof (kept_fold c (_live_secret_references s) (mkRotationResult (ci_active_version c) 0 0 0) s) as K.
  rewrite E in W, K. cbn [snd] in K.
  assert (Hr : mail_inv s' ∧ rotates c s s') by (destruct r; tauto).
  destruct Hr as [Hi' Hr]. split; [exact Hi'|]. split.
  - intros ref old Hin Ho. rewrite Forall_forall in Hl.
    destruct (Hr ref old (Hl ref Hin) Ho) as (_ & new & Hn & [_ Hd] & _). eauto.
  - intros res ->. destruct W as (_ & _ & Hset & Hc). split; [cbn in Hc; lia|].
    rewrite Forall_forall in Hset. split.
    + intros ref e Hin He. destruct (Hset ref Hin e He) as [->|(n & t & Hp)]; [auto|].
      right. unfold application_secret_key_version. rewrite Hp.
      unfold configured_application_secret_cipher in Ec.
      destruct (parse_application_secret_keyring _); [discriminate|].
      apply make_cipher_valid in Ec as (_ & -> & _). reflexivity.
    + assert (Hv' : Forall (λ r, is_Some (secret_value r s')) (_live_secret_references s'))
        by (apply live_references, Hi').
      destruct (fold_settled c (_live_secret_references s')
        (mkRotationResult (ci_active_version c) 0 0 0) s' Hv') as (res' & E' & Er').
      { apply Forall_forall. intros ref Hin. apply Hset, (kept_references s s'); assumption. }
      exists res'. split; [|exact Er']. unfold rotate_outbound_mail_secrets.
      rewrite (bind_run _ _ _ _ _ (Ea s')). exact E'.
Qed.
End theorems.

(** ** On the small set-up *)

Lemma strangers_change_no_mail_settings_witness :
  ∃ e, serve_mail alone (ClearSmtpCredentials 2) mail_ready = (Exc e, mail_ready).
Proof.
  apply (strangers_change_no_mail_settings alone (ClearSmtpCredentials 2) 2 None);
    vm_compute; reflexivity.
Defined.

Lemma resolved_providers_were_verified_witness :
  ∃ p, (resolve_department_mail_provider 1 mail_ready).1 = Val (inr p)
    ∧ ∃ s1, provider_verify p s1 = (Val tt, s1).
Proof.
  destruct (resolve_department_mail_provider 1 mail_ready) as [[[reason|p]|e] s'] eqn:E.
  - exfalso. apply (f_equal fst) in E. vm_compute in E. discriminate E.
  - exists p. split; [reflexivity|].
    destruct (resolved_providers_were_verified mail_start mail_ready 1 p s') as (k & c & _ & _ & Hc).
    + vm_compute. reflexivity.
    + vm_compute. reflexivity.
    + apply mail_ready_reachable.
    + exact E.
    + destruct Hc as [(_ & _ & ks & cs & _ & _ & s1 & Hv & _)|(_ & cfg & s1 & _ & Hv & _)]; eauto.
  - exfalso. apply (f_equal fst) in E. vm_compute in E. discriminate E.
Defined.

Lemma reports_go_to_authorized_recipients_witness :
  let s' := (deliver_outbound_report alone 1 1 demo_report REPORT_ATTACHMENT_FILENAME mail_ready).2 in
  (length (sent_mail mail_ready) < length (sent_mail s'))%nat
  ∧ ∃ provider email bytes person,
      sent_mail s' = sent_mail mail_ready ++ [report_message provider email bytes]
      ∧ authorized_recipient mail_ready 1 1 email person.
Proof.
  destruct (deliver_outbound_report alone 1 1 demo_report REPORT_ATTACHMENT_FILENAME mail_ready)
    as [r s'] eqn:E.
  assert (Hlt : (length (sent_mail mail_ready) < length (sent_mail s'))%nat).
  { apply (f_equal (λ x, length (sent_mail x.2))) in E. cbn [snd] in E. rewrite <- E. vm_compute. lia. }
  split; [exact Hlt|].
  destruct (reports_go_to_authorized_recipients alone 1 1 demo_report REPORT_ATTACHMENT_FILENAME
    mail_ready r s' alone_quiet E)
    as [Hs|(inst & tab & p & email & bytes & person & Hs & Hi & Ht & _ & Ha & _)].
  - exfalso. cbn [snd] in Hlt. rewrite Hs in Hlt. exact (Nat.lt_irrefl _ Hlt).
  - exists p, email, bytes, person. split; [exact Hs|].
    assert (Ed : tb_department tab = 1%N).
    { destruct (row_with in_tablet (db_installations mail_ready !! 1%N) 1%N) as (inst' & Hi' & Ei);
        [vm_compute; reflexivity|].
      destruct (row_with tb_department (db_tablets mail_ready !! 1%N) 1%N) as (tab' & Ht' & Et);
        [vm_compute; reflexivity|].
      rewrite Hi in Hi'. injection Hi' as <-. rewrite Ei, Ht' in Ht. injection Ht as <-. exact Et. }
    rewrite Ed, alone_twice in Ha. exact Ha.
Defined.

Lemma a_request_is_sent_at_most_once_witness :
  length (sent_mail mail_sent) = S (length (sent_mail mail_ready))
  ∧ ∃ q, submit_tablet_report_delivery alone 1 42 7 (PdfBytes "") mail_sent
         = (Val (_replay q 7), mail_sent).
Proof.
  split; [vm_compute; reflexivity|].
  destruct (submit_tablet_report_delivery alone 1 42 1 demo_report mail_ready) as [r s'] eqn:E.
  assert (Es : s' = mail_sent).
  { change mail_sent with (unit_of (submit_tablet_report_delivery alone 1 42 1 demo_report) mail_ready).2.
    unfold unit_of, bind. rewrite E. destruct r; reflexivity. }
  destruct (row_with dq_delivery_request_id (db_delivery_requests mail_sent !! 1%N) 42%N) as (q & Hq & Ei);
    [vm_compute; reflexivity|].
  destruct (row_with dq_installation (db_delivery_requests mail_sent !! 1%N) 1%N) as (q' & Hq' & Ei');
    [vm_compute; reflexivity|].
  assert (q' = q) as -> by congruence. subst s'.
  destruct (a_request_is_sent_at_most_once alone 1 42 1 demo_report mail_ready r mail_sent) as [_ Hrest].
  - apply no_requests. vm_compute. reflexivity.
  - apply alone_relies.
  - apply alone_quiet.
  - exact E.
  - destruct (Hrest 1%N q mail_sent Hq) as (q2 & _ & _ & Ha).
    + unfold request_key. rewrite Ei, Ei'. reflexivity.
    + reflexivity.
    + exists q2. apply Ha.
Defined.

Lemma answers_follow_the_contract_witness :
  ∃ res, (submit_tablet_report_delivery alone 1 42 1 demo_report mail_ready).1 = Val res
    ∧ documented_answer res = true.
Proof.
  destruct (submit_tablet_report_delivery alone 1 42 1 demo_report mail_ready) as [[res|e] s'] eqn:E.
  - exists res. split; [reflexivity|].
    apply (answers_follow_the_contract alone 1 42 1 demo_report mail_ready res s').
    + apply no_requests. vm_compute. reflexivity.
    + apply alone_relies.
    + apply alone_quiet.
    + exact E.
  - exfalso. apply (f_equal fst) in E. vm_compute in E. discriminate E.
Defined.

Lemma rotation_keeps_secrets_witness :
  ∃ res s', rotate_outbound_mail_secrets mail_ready = (Val res, s')
    ∧ rn_rotated res + rn_skipped_active res + rn_skipped_empty res
      = Z.of_nat (length (_live_secret_references mail_ready)).
Proof.
  assert (I : mail_inv mail_ready)
    by (eapply mail_reachable; [apply mail_ready_reachable|apply no_mail_settings; vm_compute; reflexivity]).
  destruct (rotate_outbound_mail_secrets mail_ready) as [[res|e] s'] eqn:E.
  - exists res, s'. split; [reflexivity|].
    destruct (rotation_keeps_secrets mail_ready (Val res) s' I E) as (_ & _ & Hr).
    exact (proj1 (Hr res eq_refl)).
  - exfalso. apply (f_equal fst) in E. vm_compute in E. discriminate E.
Defined.
