(* ===== verification/RecipientTheorems.v ===== *)
(** Theorems on the destinations of mail: the domains that may receive reports of a
    department, and the servers an SMTP connection may reach. *)
From S2P Require Import Prelude Text Encoding Models Store Authorization Fingerprint Artifacts.
From S2P Require Import ApplicationSecrets SecretTheorems Tablets Roles Queue Assignments.
From S2P Require Import Organizations Manifests MailProviders.
From S2P Require Import MailServices.
From S2P Require Import ReportDelivery TabletDemo RoleDemo Totality MailInv MailSystem.
From S2P Require Import ReportRequests MailDemo.

(** An address at one of the domains a form lists, up to their normal form. *)
Definition at_listed_domain `{MailEnvironment} (domains : list string) (email : string) : Prop :=
  email = str_strip email ∧ ∃ domain listed normal, address_domain email = Some domain
    ∧ listed ∈ domains ∧ ∀ s, normalize_recipient_domain domain s = (Val normal, s)
                            ∧ normalize_recipient_domain listed s = (Val normal, s).

(** An address that a connection may reach: any for a host that the deployment lists,
    else a global one or one in a listed network. *)
Definition permitted_address `{MailEnvironment} (host_allowed : bool) (networks : list string)
    (ip : IpAddress) : bool :=
  host_allowed || ip_is_global ip || existsb (ip_in_network ip) networks.

(** ** Rows by their key *)

Lemma first_by_pk {A} (m : gmap N A) P k a :
  head (order_by by_pk (rows m P)) = Some (k, a) ↔
  m !! k = Some a ∧ P k a = true ∧ ∀ j b, m !! j = Some b → P j b = true → (k ≤ j)%N.
Proof.
  assert (Hle : ∀ (x y : N * A), lex_le (by_pk x) (by_pk y) = true ↔ (x.1 ≤ y.1)%N).
  { intros x y. unfold by_pk. cbn. destruct (Z.ltb_spec (Z.of_N x.1) (Z.of_N y.1)) as [Hl|Hl].
    - split; [lia|auto].
    - rewrite ?andb_true_r, ?Z.eqb_eq. destruct (Z.eqb_spec (Z.of_N x.1) (Z.of_N y.1)); split; try discriminate; lia. }
  split.
  - intros [Hin Hmin]%order_by_head_Some. apply rows_elem in Hin as [Hk HP]. split_and!; auto.
    intros j b Hj Hb. apply (Hle (k, a) (j, b)), Hmin, rows_elem. auto.
  - intros (Hk & HP & Hmin). destruct (head _) as [[j b]|] eqn:F.
    + apply order_by_head_Some in F as [Hin Hmin']. apply rows_elem in Hin as [Hj Hb].
      assert (j = k) as ->.
      { apply N.le_antisymm; [|eauto]. apply (Hle (j, b) (k, a)), Hmin', rows_elem. auto. }
      congruence.
    + apply order_by_head_None in F. exfalso.
      assert (K : (k, a) ∈ rows m P) by (apply rows_elem; auto). rewrite F in K. inversion K.
Qed.

Lemma elem_of_insert_domain d l x : x ∈ insert_domain d l ↔ x = d ∨ x ∈ l.
Proof.
  induction l as [|y l IH]; cbn [insert_domain]; [set_solver|].
  destruct (String.eqb_spec d y) as [->|]; [set_solver|].
  destruct (str_lt d y); set_solver.
Qed.

Lemma elem_of_sorted_set l x : x ∈ sorted_set l ↔ x ∈ l.
Proof.
  induction l as [|y l IH]; cbn; [reflexivity|]. rewrite elem_of_insert_domain, IH. set_solver.
Qed.

Section recipients.
Context `{MailEnvironment}.

Lemma constant_normalize d : constant (normalize_recipient_domain d).
Proof. repeat (apply constant_bind; [apply constant_guard|intros _]). apply constant_ret. Qed.

(** The normal forms of a list. *)
Lemma wlp_normalize domains s :
  wlp (normalize_domains domains) s (λ l s', s' = s
    ∧ (∀ n, n ∈ l ↔ ∃ d, d ∈ domains ∧ normalize_recipient_domain d s = (Val n, s))).
Proof.
  unfold normalize_domains.
  enough (Hg : ∀ acc, wlp (fold_m (λ l d, let! n := normalize_recipient_domain d in ret (l ++ [n]))
      acc domains) s (λ l s', s' = s
      ∧ (∀ n, n ∈ l ↔ n ∈ acc ∨ ∃ d, d ∈ domains ∧ normalize_recipient_domain d s = (Val n, s)))).
  { eapply wlp_mono; [apply Hg|]. intros l s' [-> Hl]. split; [reflexivity|]. intros n. rewrite Hl.
    split; [intros [Hin|?]; [inversion Hin|assumption]|auto]. }
  induction domains as [|d domains IH]; intros acc; cbn [fold_m].
  - apply wlp_ret. split; [reflexivity|]. set_solver.
  - destruct (constant_normalize d) as [[v|e] Hd].
    + apply wlp_bind, wlp_bind. unfold wlp at 1. rewrite Hd. apply wlp_ret.
      eapply wlp_mono; [apply IH|]. intros l s' [-> Hl]. split; [reflexivity|]. intros n.
      rewrite Hl, elem_of_app, list_elem_of_singleton. split.
      * intros [[Hn| ->]|(d' & Hd' & E)]; [auto|right; exists d; split; [left|apply Hd]|].
        right. exists d'. split; [right; exact Hd'|exact E].
      * intros [Hn|(d' & [->|Hd']%elem_of_cons & E)]; [auto| |eauto].
        rewrite Hd in E. injection E as ->. auto.
    + unfold wlp, bind. rewrite Hd. exact I.
Qed.

(** ** The policy that a change leaves *)

Definition policy_tables (s : Db) := (db_recipient_policies s, db_recipient_domains s).

Definition policy_is (s : Db) (department k : N) (restriction : bool) (normal : list string) : Prop :=
  (∃ p, find_recipient_policy s department = Some (k, p) ∧ rcp_restriction_enabled p = restriction)
  ∧ ∀ n, exists_row (db_recipient_domains s)
      (λ _ r, N.eqb (rcd_policy r) k && String.eqb (rcd_domain r) n) = true ↔ n ∈ normal.

Lemma policy_same s s' d k b l : policy_tables s' = policy_tables s →
  policy_is s d k b l → policy_is s' d k b l.
Proof. intros [= E1 E2] [A B]. unfold policy_is, find_recipient_policy. rewrite E1, E2. split; assumption. Qed.

Lemma elem_of_approved s k n : n ∈ approved_domains s k ↔
  exists_row (db_recipient_domains s)
    (λ _ r, N.eqb (rcd_policy r) k && String.eqb (rcd_domain r) n) = true.
Proof.
  unfold approved_domains. rewrite elem_of_sorted_set, list_elem_of_fmap, exists_row_true. split.
  - intros ([j r] & -> & [Hj Hr]%rows_elem). exists j, r. cbn. rewrite Hr, String.eqb_refl. auto.
  - intros (j & r & Hj & [Hr <-%String.eqb_eq]%andb_true_iff). exists (j, r).
    split; [reflexivity|]. apply rows_elem. auto.
Qed.

Lemma wlp_locked_policy d s Q :
  (∀ k p s1, find_recipient_policy s1 d = Some (k, p) → Q (k, p) s1) →
  wlp (_locked_recipient_policy d) s Q.
Proof.
  intros HQ. unfold _locked_recipient_policy. apply wlp_skip; [preserve|]. intros row [= <-].
  destruct (find_recipient_policy s d) as [[k p]|] eqn:F; [apply wlp_ret, HQ, F|].
  apply wlp_skip; [preserve|]. intros dep _. apply wlp_bind, wlp_create. intros k Hk. apply wlp_ret, HQ.
  apply first_by_pk. cbn. rewrite lookup_insert_eq, N.eqb_refl. split_and!; [reflexivity..|].
  intros j b [[<- <-]|[_ Hj]]%lookup_insert_Some Hb; [lia|].
  unfold find_recipient_policy in F. apply order_by_head_None in F.
  assert (K : (j, b) ∈ rows (db_recipient_policies s) (λ _ p, N.eqb (rcp_department p) d))
    by (apply rows_elem; auto). rewrite F in K. inversion K.
Qed.

(** The rows of the policy are replaced. *)
Lemma wlp_domains_loop k l s : wlp (for_each l (λ d,
    let! _ := create db_recipient_domains (mkDepartmentRecipientDomain k d) in ret tt)) s
  (λ _ s', db_recipient_policies s' = db_recipient_policies s
    ∧ ∀ n, exists_row (db_recipient_domains s') (λ _ r, N.eqb (rcd_policy r) k && String.eqb (rcd_domain r) n) = true
      ↔ n ∈ l ∨ exists_row (db_recipient_domains s) (λ _ r, N.eqb (rcd_policy r) k && String.eqb (rcd_domain r) n) = true).
Proof.
  revert s. induction l as [|x l IH]; intros s; cbn [for_each].
  - apply wlp_ret. split; [reflexivity|]. intros n. set_solver.
  - apply wlp_bind, wlp_bind, wlp_create. intros j Hj. apply wlp_ret.
    eapply wlp_mono; [apply IH|]. intros _ s' [-> Hs]. split; [reflexivity|]. intros n. rewrite Hs.
    rewrite !exists_row_true, elem_of_cons. cbn. split.
    + intros [Hn|(i & r & [[<- <-]|[_ Hi]]%lookup_insert_Some & Hr)]; [auto| |].
      * apply andb_true_iff in Hr as [_ <-%String.eqb_eq]. auto.
      * right. eauto.
    + intros [[->|Hn]|(i & r & Hi & Hr)]; [right| auto |right].
      * exists j, (mkDepartmentRecipientDomain k x). cbn. rewrite N.eqb_refl, String.eqb_refl.
        split; [apply lookup_insert_eq|reflexivity].
      * exists i, r. split; [|exact Hr]. rewrite lookup_insert_ne by congruence. exact Hi.
Qed.

Lemma wlp_set_policy actor d b domains s :
  wlp (set_department_recipient_policy actor d b domains) s (λ k s', ∃ normal,
    policy_is s' d k b normal
    ∧ ∀ n, n ∈ normal ↔ ∃ x, x ∈ domains ∧ normalize_recipient_domain x s = (Val n, s)).
Proof.
  unfold set_department_recipient_policy. apply wlp_atomic. apply wlp_skip.
  { unfold _require_department_mail_manager. preserve. }
  intros _ _. apply wlp_bind. eapply wlp_mono; [apply wlp_normalize|]. intros l s1 [-> Hl]. cbv zeta.
  apply wlp_bind, wlp_guard. intros _. apply wlp_bind, wlp_guard. intros _.
  apply wlp_bind, wlp_locked_policy. intros k p s1 F. apply wlp_skip; [preserve|]. intros ex [= <-].
  assert (Hn : ∀ n, n ∈ sorted_set l ↔ ∃ x, x ∈ domains ∧ normalize_recipient_domain x s = (Val n, s))
    by (intros n; rewrite elem_of_sorted_set; apply Hl).
  destruct (_ && bool_decide _) eqn:Eq.
  - apply andb_true_iff in Eq as [Eb%eqb_prop Ed%bool_decide_eq_true]. apply wlp_ret.
    exists (sorted_set l). split; [|exact Hn]. split; [eauto|]. intros n.
    rewrite <- Ed. symmetry. apply elem_of_approved.
  - apply wlp_bind, wlp_save. intros p' Hp. apply wlp_bind. unfold wlp at 1, delete_where, modify.
    apply wlp_bind. eapply wlp_mono; [apply wlp_domains_loop|]. intros _ s2 [E1 E2]. cbn in E1, E2.
    apply wlp_bind. eapply wlp_frame with (f := policy_tables); [frame|]. intros _ s3 E3.
    apply wlp_bind. eapply wlp_frame with (f := policy_tables); [frame|]. intros _ s4 E4.
    apply wlp_ret. exists (sorted_set l). split; [|exact Hn].
    apply (policy_same s2); [congruence|]. split.
    + apply first_by_pk in F as (Hk & Hd & Hmin). rewrite Hk in Hp. injection Hp as <-.
      exists (p <| rcp_restriction_enabled := b |> <| rcp_updated_by := Some actor |>).
      split; [|reflexivity]. apply first_by_pk. rewrite E1, lookup_insert_eq.
      split; [reflexivity|]. split; [exact Hd|].
      intros j q [[<- <-]|[_ Hj]]%lookup_insert_Some Hq; [lia|eauto].
    + intros n. rewrite E2. split; [|auto]. intros [Hin|(j & r & [Hj Hr]%map_lookup_filter_Some & Hm)%exists_row_true];
        [exact Hin|]. cbn in Hr. destruct (_ =? _)%N; discriminate.
Qed.

(** C34: A department's reports leave for the listed domains only.  Once a change of the
    policy succeeds, a lookup decides as the form says for as long as the policy is not
    changed again: without restriction everybody is allowed; with it exactly the addresses
    whose only at sign is followed by a domain that has the same normal form as a listed
    one.  Malformed addresses are refused, not reported as errors. *)
Theorem recipient_policy_is_enforced actor d restriction domains s k s' s2 email :
  set_department_recipient_policy actor d restriction domains s = (Val k, s') →
  policy_tables s2 = policy_tables s' →
  ∃ b, is_department_recipient_allowed d email s2 = (Val b, s2)
    ∧ (b = true ↔ restriction = false ∨ at_listed_domain domains email).
Proof.
  intros E E2. pose proof (wlp_set_policy actor d restriction domains s) as W. unfold wlp in W.
  rewrite E in W. destruct W as (l & W & Hl). apply (policy_same _ _ _ _ _ _ E2) in W as [(p & F & Hp) Hd].
  unfold is_department_recipient_allowed, bind at 1, gets at 1. rewrite F, Hp.
  destruct restriction; cbn [negb]; [|exists true; split; [reflexivity|tauto]].
  destruct (String.eqb_spec email (str_strip email)) as [Es|Hne]; cbn [negb].
  2:{ exists false. split; [reflexivity|]. unfold at_listed_domain. split; [discriminate|].
      intros [[=]|[Hs _]]. contradiction. }
  destruct (address_domain email) as [dom|] eqn:Ea.
  2:{ exists false. split; [reflexivity|]. split; [discriminate|].
      intros [[=]|(_ & dom & ? & ? & Hd' & _)]. rewrite Ea in Hd'. discriminate. }
  destruct (constant_normalize dom) as [[n|e] Hn].
  - eexists. split; [unfold bind, try_except, ret, gets; rewrite Hn; reflexivity|]. rewrite Hd, Hl. split.
    + intros (x & Hx & Ex). right. split; [exact Es|]. exists dom, x, n. split_and!; auto.
      intros s3. split; [apply Hn|]. pose proof (constant_eq _ s s3 (constant_normalize x)) as Ec.
      rewrite Ex in Ec. pose proof (constant_readonly _ (constant_normalize x) s3) as Er.
      destruct (normalize_recipient_domain x s3) as [r s4]. cbn in Ec, Er. congruence.
    + intros [[=]|(_ & dom' & x & n' & Hd' & Hx & Hs)]. rewrite Ea in Hd'. injection Hd' as <-.
      destruct (Hs s) as [Hs1 Hs2]. rewrite Hn in Hs1. injection Hs1 as ->. eauto.
  - exists false. split.
    + unfold bind, try_except, ret. rewrite Hn.
      assert (Ek : exn_kind e = EValidation).
      { specialize (Hn s). unfold normalize_recipient_domain, bind, guard, raise, ret in Hn.
        repeat (case_match; simplify_eq; try reflexivity); congruence. }
      rewrite Ek. reflexivity.
    + split; [discriminate|]. intros [[=]|(_ & dom' & x & n' & Hd' & _ & Hs)].
      rewrite Ea in Hd'. injection Hd' as <-. destruct (Hs s) as [Hs1 _]. congruence.
Qed.
End recipients.

Section destinations.
Context `{MailEnvironment, MailSettings}.

Lemma readonly_deployment_exceptions : readonly _deployment_exceptions.
Proof.
  unfold _deployment_exceptions. apply preserves_bind; [exact _| |intros hosts; unfold policy_error; preserve].
  apply preserves_fold_m; [exact _|]. intros l h. apply preserves_bind; [exact _|apply readonly_normalize_hostname|].
  intros n. preserve.
Qed.

(** The answers of the resolver, checked one by one. *)
Lemma wlp_check_records allowed networks records acc s :
  wlp (fold_m (check_record allowed networks) acc records) s (λ l s', s' = s
    ∧ (∀ a, a ∈ l ↔ a ∈ acc ∨ ∃ t ip, (true, Some t) ∈ records ∧ ip_address t = Some ip ∧ a = ip_str ip)
    ∧ ∀ text, (true, text) ∈ records → ∃ t ip, text = Some t ∧ ip_address t = Some ip
        ∧ permitted_address allowed networks ip = true ∧ ip_str ip ∈ l).
Proof.
  revert acc. induction records as [|[b text] records IH]; intros acc; cbn [fold_m].
  - apply wlp_ret. split_and!; [reflexivity| |intros text Hin; inversion Hin]. intros a. split; [auto|].
    intros [Hin|(t & ip & Hin & _)]; [exact Hin|inversion Hin].
  - apply wlp_bind. unfold check_record at 1. cbn [fst snd]. destruct b; cbn [negb].
    2:{ apply wlp_ret. eapply wlp_mono; [apply IH|]. intros l s' (-> & Hl & Hp). split_and!; auto.
        - intros a. rewrite Hl. split.
          + intros [Hin|(t & ip & Hin & Hr)]; [auto|right]. exists t, ip. split; [right; exact Hin|exact Hr].
          + intros [Hin|(t & ip & [[=]|Hin]%elem_of_cons & Hr)]; [auto|right]. eauto.
        - intros x [[=]|Hin]%elem_of_cons. auto. }
    destruct text as [t|]; [|exact I]. destruct (ip_address t) as [ip|] eqn:Ei; [|exact I].
    apply wlp_bind, wlp_ret. destruct (_ || existsb _ networks) eqn:Ep; [|exact I]. apply wlp_ret.
    set (acc' := if mem_str (ip_str ip) acc then acc else acc ++ [ip_str ip]).
    assert (Ha : ∀ a, a ∈ acc' ↔ a ∈ acc ∨ a = ip_str ip).
    { intros a. unfold acc'. destruct (mem_str _ _) eqn:Em.
      - apply mem_str_elem in Em. split; [auto|]. intros [Hin| ->]; assumption.
      - rewrite elem_of_app, list_elem_of_singleton. reflexivity. }
    eapply wlp_mono; [apply IH|]. intros l s' (-> & Hl & Hp). split_and!; [reflexivity| |].
    + intros a. rewrite Hl, Ha. split.
      * intros [[Hin| ->]|(t' & ip' & Hin & Hr)]; [auto| |]; right.
        -- exists t, ip. split; [left|auto].
        -- exists t', ip'. split; [right; exact Hin|exact Hr].
      * intros [Hin|(t' & ip' & [[= ->]|Hin]%elem_of_cons & Et & ->)]; [auto| |right; eauto].
        rewrite Ei in Et. injection Et as ->. auto.
    + intros x [[= ->]|Hin]%elem_of_cons; [|auto]. exists t, ip. split_and!; auto.
      apply Hl. left. apply Ha. auto.
Qed.

(** An SMTP connection reaches permitted addresses only.  The connection that an
    adapter opens uses exactly one kind of TLS, a positive timeout, the configured host
    and a valid port, and is pinned to the addresses that the resolver gave for the
    normalized host: at least one, and every answer of the resolver is an IP address that
    is global, in a network the deployment lists, or of a host it lists; one address that
    is none of these rejects the whole destination. *)
Theorem smtp_reaches_permitted_addresses_only `{DeliverySettings} c s cn s' :
  _connection c s = (Val cn, s') →
  s' = s ∧ cn_host cn = eff_host c ∧ cn_port cn = eff_port c ∧ 1 ≤ cn_port cn ≤ 65535
  ∧ xorb (cn_use_tls cn) (cn_use_ssl cn) = true ∧ 0 < cn_timeout cn
  ∧ ∃ host hosts networks records, _normalize_hostname (eff_host c) s = (Val host, s)
      ∧ _deployment_exceptions s = (Val (hosts, networks), s)
      ∧ getaddrinfo s host (eff_port c) = Some records ∧ cn_pinned_addresses cn ≠ []
      ∧ (∀ text, (true, text) ∈ records → ∃ t ip, text = Some t ∧ ip_address t = Some ip
           ∧ permitted_address (mem_str host hosts) networks ip = true
           ∧ ip_str ip ∈ cn_pinned_addresses cn)
      ∧ ∀ a, a ∈ cn_pinned_addresses cn → ∃ t ip, (true, Some t) ∈ records
           ∧ ip_address t = Some ip ∧ a = ip_str ip.
Proof.
  intros E. refine (wlp_elim _ _ (λ cn s', _) _ _ _ E). clear cn s' E.
  unfold _connection. destruct (Z.leb_spec OUTBOUND_MAIL_SMTP_TIMEOUT_SECONDS 0); [exact I|]. cbv zeta.
  destruct (_ || _) eqn:Et; cbn [negb]; [|exact I]. apply wlp_bind, wlp_configuration_error.
  unfold resolve_smtp_destination. apply wlp_skip; [apply readonly_normalize_hostname|].
  intros host Eh. destruct (_ && _) eqn:Ep; cbn [negb]; [|exact I].
  apply andb_true_iff in Ep as [Ep1%Z.leb_le Ep2%Z.leb_le].
  apply wlp_skip; [apply readonly_deployment_exceptions|]. intros [hosts networks] Ex.
  apply wlp_skip; [preserve|]. intros records' [= <-].
  destruct (getaddrinfo s host (eff_port c)) as [records|] eqn:Er; [|exact I]. apply wlp_bind, wlp_ret.
  apply wlp_bind. eapply wlp_mono; [apply wlp_check_records|]. intros l s' (-> & Hl & Hp).
  destruct l as [|a l]; [exact I|]. apply wlp_ret, wlp_ret. cbn [cn_host cn_port cn_use_tls cn_use_ssl cn_timeout].
  split_and!; auto.
  - destruct (String.eqb_spec (eff_tls_mode c) "STARTTLS") as [E1|]; destruct (String.eqb_spec (eff_tls_mode c) "IMPLICIT_TLS") as [E2|];
      try reflexivity; [congruence|discriminate].
  - exists host, hosts, networks, records. cbn [cn_pinned_addresses]. split_and!; auto.
    intros b Hb. apply Hl in Hb as [Hb|Hb]; [inversion Hb|exact Hb].
Qed.
End destinations.

(** ** On the small set-up *)

Lemma recipient_policy_is_enforced_witness :
  ∃ s' b, (set_department_recipient_policy 2 1 true ["Fire.de"; "rescue.at"] mail_ready).2 = s'
    ∧ is_department_recipient_allowed 1 "carl@FIRE.de" s' = (Val b, s') ∧ b = true.
Proof.
  destruct (set_department_recipient_policy 2 1 true ["Fire.de"; "rescue.at"] mail_ready)
    as [[k|e] s'] eqn:E.
  - destruct (recipient_policy_is_enforced 2 1 true ["Fire.de"; "rescue.at"] mail_ready k s' s'
      "carl@FIRE.de" E eq_refl) as (b & Eb & Hb).
    exists s', b. split_and!; [reflexivity|exact Eb|]. apply Hb. right.
    split; [reflexivity|]. exists "FIRE.de", "Fire.de", "fire.de".
    split_and!; [reflexivity|left|]. intros s. split; reflexivity.
  - exfalso. apply (f_equal fst) in E. vm_compute in E. discriminate E.
Defined.

Lemma smtp_reaches_permitted_addresses_only_witness :
  ∃ cn, _connection (mkSmtpEffectiveConfiguration "mail.fire.de" 587 "STARTTLS" "FireDash"
      "noreply@fire.de" "" "") mail_ready = (Val cn, mail_ready)
    ∧ ∀ a, a ∈ cn_pinned_addresses cn → ip_is_global a = true.
Proof.
  destruct (_connection (mkSmtpEffectiveConfiguration "mail.fire.de" 587 "STARTTLS" "FireDash"
    "noreply@fire.de" "" "") mail_ready) as [[cn|e] s'] eqn:E.
  - destruct (smtp_reaches_permitted_addresses_only _ _ _ _ E)
      as (-> & _ & _ & _ & _ & _ & host & hosts & nets & recs & Eh & Ex & Er & _ & Hall & Hp).
    exists cn. split; [reflexivity|]. intros a Ha.
    destruct (Hp a Ha) as (t & ip & Hin & Ei & ->).
    destruct (Hall _ Hin) as (t' & ip' & [= <-] & Ei' & Hperm & _).
    rewrite Ei in Ei'. injection Ei' as <-.
    apply (f_equal fst) in Ex. vm_compute in Ex. injection Ex as <- <-. unfold permitted_address in Hperm. cbn in Hperm.
    rewrite orb_false_r in Hperm. exact Hperm.
  - exfalso. apply (f_equal fst) in E. vm_compute in E. discriminate E.
Defined.
