(* ===== verification/ReportDemo.v ===== *)
(** A small set-up on which the theorems of report transfer are evaluated: a tablet of the
    brigade of [MailDemo.v], in a vehicle of its station, submits an encrypted report for the
    commander, who gets a link by mail and opens it. *)
From Stdlib Require Import Ascii.
From S2P Require Import Prelude Text Encoding Versions Models Registry Lifecycle Store.
From S2P Require Import Authorization Fingerprint ApplicationSecrets Tablets Accounts Manifests.
From S2P Require Import MailProviders MailServices ReportDelivery JsonText ReportDocuments.
From S2P Require Import ReportTransfer ReportPortal Demo SecretTheorems TabletDemo RoleDemo.
From S2P Require Import Totality MailSystem MailDemo ReportInv ReportPortalInv.

#[export] Instance demo_floats : Floats := {| float_is_finite _ := true |}.

(** One key of 3072 bits, under the number 1, that opens everything to the same secret. *)
#[export] Instance demo_report_crypto : ReportCrypto := {|
  RsaPrivateKey := unit;
  load_pem_private_key pem := if String.eqb pem "pem" then Some tt else None;
  key_size _ := 3072;
  oaep_decrypt _ _ := Some (str_repeat "k" 32);
  public_key_pem _ := "public";
  report_keyring := Some (json_dumps (JObj [("keys", JObj [("1", JStr "pem")])]));
  image_open _ := None;
  image_verify _ := true;
  image_load _ := true |}.

#[export] Instance demo_report_settings : ReportSettings := {|
  REPORT_TRANSFER_ACTIVE_KEY := "1";
  REPORT_TRANSFER_MAX_REQUEST_BYTES := 10000;
  REPORT_TRANSFER_MAX_JSON_BYTES := 10000;
  REPORT_TRANSFER_MAX_JPEG_BYTES := 10000;
  REPORT_TRANSFER_MAX_ATTACHMENTS := 4;
  REPORT_TRANSFER_MAX_IMAGE_PIXELS := 1000;
  REPORT_TRANSFER_RETENTION_HOURS := 168;
  REPORT_TRANSFER_MAILS_PER_MINUTE := 1;
  REPORT_TRANSFER_MAILS_PER_HOUR := 10;
  REPORT_TRANSFER_MAX_REPORTS := 10 |}.

(** The disk has room for twenty files; a new file gets the first free one of 21 names. *)
Definition demo_names : list N := map N.of_nat (seq 1 21).

Definition spool_name (n : N) : string := str_uuid n +:+ ".jwe".

#[export] Instance demo_report_storage : ReportStorage := {|
  REPORT_TRANSFER_ROOT := ["srv"; "reports"];
  other_roots := [Some ["srv"; "artifacts"]; None];
  uuid4 s := default 1%N (List.find (λ n, negb (opt_true (db_spool s !! spool_name n))) demo_names);
  write_fails s := Nat.leb 20 (size (db_spool s));
  unlink_fails _ _ := false;
  receipt_unlink_fails _ _ := false |}.

Lemma demo_names_distinct : NoDup (spool_name <$> demo_names).
Proof. apply (bool_decide_unpack _). vm_compute. exact I. Qed.

Lemma demo_fresh F : (size F ≤ 20)%nat →
  (F : gmap string string) !! spool_name (default 1%N
    (List.find (λ n, negb (opt_true (F !! spool_name n))) demo_names)) = None.
Proof.
  intros Hs. destruct (List.find _ demo_names) as [n|] eqn:En; cbn [default].
  { apply find_some in En as [_ Hn]. unfold id. destruct (F !! spool_name n); [discriminate Hn|reflexivity]. }
  exfalso. pose proof (find_none _ _ En) as Hn.
  assert (Hin : list_to_set (C := gset string) (spool_name <$> demo_names) ⊆ dom F).
  { intros k Hk. apply elem_of_list_to_set, list_elem_of_fmap in Hk as (n & -> & Hin).
    apply list_elem_of_In, Hn, negb_false_iff in Hin. apply elem_of_dom.
    destruct (F !! _); [eauto|discriminate Hin]. }
  apply subseteq_size in Hin. rewrite size_list_to_set in Hin by apply demo_names_distinct.
  rewrite size_dom in Hin. cbn [demo_names seq map fmap list_fmap length] in Hin. lia.
Qed.

#[export] Instance demo_spool_laws : SpoolLaws.
Proof.
  refine {| spool_capacity := 20%nat |}.
  - intros s. apply Nat.leb_gt.
  - intros s. apply demo_fresh.
Defined.

(** Tokens of 43 characters. *)
#[export] Instance demo_report_secrets : Secrets := {|
  SECRET_KEY := "secret";
  hmac_sha256 := λ key value, key +:+ "/" +:+ value;
  token_urlsafe := λ s, str_zfill 43 (pretty (length (db_audit s)));
  token_bytes := λ s, pretty (length (db_audit s)) |}.

#[export] Instance demo_portal : PortalSettings := {|
  FIREDASH_PUBLIC_ORIGIN := "https://fire.de/";
  split_origin _ := Some ("https", "fire.de", "/", "", "", None, None);
  new_session_key s := "session-" +:+ pretty (length (db_audit s)) |}.

(** The tablet is in the vehicle of the station; there is no report. *)
Definition report_ready : Db :=
  mail_ready <| db_vehicle_assignments :=
    <[1%N := mkTabletVehicleAssignment 1 1 0 None (Some 1%N) None None ""]> ∅ |>.

(** A document without attachments. *)
Definition demo_document (report_id : N) : json :=
  JObj [("attachments", JList []);
    ("finalization", JObj [
      ("author", JObj [("display_name", JStr "Carl"); ("id", JStr "7")]);
      ("finalized_at", JStr "2026-01-02T03:04:05+01:00")]);
    ("header", JList [JObj [("key", JStr "number"); ("label", JStr "Number");
      ("value", JObj [("type", JStr "integer"); ("value", JInt 12)])]]);
    ("report_id", json_uuid report_id);
    ("report_type", JStr "incident");
    ("schema_version", JInt 1);
    ("sections", JList [JObj [
      ("blocks", JList [JObj [("key", JStr "course"); ("kind", JStr "text");
        ("text", JStr "Alarm at noon.")]]);
      ("key", JStr "main"); ("title", JStr "Course")]]);
    ("title", JStr "Incident 12")].

Definition demo_header (submission_id report_id : N) : json :=
  JObj [("alg", JStr "RSA-OAEP-256"); ("department_id", json_uuid 1); ("enc", JStr "A256GCM");
    ("installation_id", json_uuid 1); ("kid", JStr "1"); ("package_version", JInt 1);
    ("recipient_personnel_id", json_uuid 1); ("report_id", json_uuid report_id);
    ("schema_version", JStr "transport-json-v1"); ("station_id", json_uuid 1);
    ("submission_id", json_uuid submission_id); ("typ", JStr "firedash-report+jwe")].

(** What a tablet sends; encryption puts a tag in front of the text, of which the last
    sixteen characters travel as the tag of the envelope. *)
Definition demo_envelope (submission_id report_id : N) : json :=
  let report := json_dumps (demo_document report_id) in
  let package := json_dumps (JObj [("attachments", JList []);
    ("report", JObj [("attachment_ids", JList []); ("data", JStr (b64url_encode report));
      ("sha256", JStr (sha256_hex report)); ("size", JInt (Z.of_nat (String.length report)))])]) in
  let protected := b64url_encode (json_dumps (demo_header submission_id report_id)) in
  let sealed := aesgcm_encrypt "" "" package protected in
  let n := (String.length sealed - 16)%nat in
  JObj [("ciphertext", JStr (b64url_encode (str_take n sealed)));
    ("encrypted_key", JStr (b64url_encode (str_repeat "w" 384)));
    ("iv", JStr (b64url_encode (str_repeat "i" 12)));
    ("protected", JStr protected); ("tag", JStr (b64url_encode (str_drop n sealed)))].

Definition report (r : ReportRequest) (s : Db) : Db := (serve_report alone r s).2.

(** The report of the tablet is accepted; a link goes out; it is opened; time passes. *)
Definition report_sent : Db := report (Submit 1 (demo_envelope 5 6)) report_ready.

Definition demo_request (request_id : N) : json :=
  JObj [("transfer_request_id", json_uuid request_id); ("recipient_personnel_id", json_uuid 1)].

Definition report_linked : Db := report (RequestTransfer 1 (demo_request 9)) report_sent.

Definition report_token : string := token_urlsafe report_sent.

Definition report_opened : Db := report (Redeem true report_token) report_linked.

Definition demo_session : Session :=
  mkSession (Some (new_session_key report_linked)) (Some (str_uuid 1)).

Definition demo_render : json → list (string * json) → Z → string := λ _ _ _, "%PDF".

Definition report_downloaded : Db :=
  report (DownloadPdf demo_render demo_session false 6) report_opened.

Definition hours_later (hours : Z) (s : Db) : Db := s <| db_clock := db_clock s + hours * MICROSECONDS_PER_HOUR |>.

Definition report_purged : Db := report (Cleanup None) (hours_later 49 report_downloaded).

(** A program that returned. *)
Definition ends_well {A} (x : outcome A * Db) : bool :=
  match x.1 with Val _ => true | Exc _ => false end.

Lemma alone_evolves : ∀ n, preserves evolves_reports (alone n).
Proof. intros n. unfold alone. preserve. Qed.

Lemma report_served r s : report_step s (report r s).
Proof. apply report_request, alone_evolves. Qed.

Lemma report_ready_inv : report_inv report_ready.
Proof. apply no_reports; vm_compute; reflexivity. Qed.

Lemma report_sent_step : report_step report_ready report_sent.
Proof. unfold report_sent. apply report_served. Qed.

Lemma report_linked_step : report_step report_sent report_linked.
Proof. unfold report_linked. apply report_served. Qed.

Lemma report_opened_step : report_step report_linked report_opened.
Proof. unfold report_opened. apply report_served. Qed.

Lemma report_downloaded_step : report_step report_opened report_downloaded.
Proof. unfold report_downloaded. apply report_served. Qed.

Lemma after_step hours s : 0 ≤ hours → report_step s (hours_later hours s).
Proof.
  intros Hh. apply report_outside; [|reflexivity]. unfold hours_later, MICROSECONDS_PER_HOUR. cbn. lia.
Qed.

#[global] Opaque report_ready report_sent report_linked report_opened report_downloaded.

Lemma report_sent_reachable : rtc report_step report_ready report_sent.
Proof. apply rtc_once, report_sent_step. Qed.

Lemma report_linked_reachable : rtc report_step report_ready report_linked.
Proof. eapply rtc_l; [apply report_sent_step|]. apply rtc_once, report_linked_step. Qed.

Lemma report_opened_reachable : rtc report_step report_ready report_opened.
Proof. eapply rtc_r; [apply report_linked_reachable|apply report_opened_step]. Qed.

Lemma reachable_inv s : rtc report_step report_ready s → report_inv s.
Proof. intros Hs. apply (report_reachable _ _ Hs), report_ready_inv. Qed.

Lemma report_downloaded_reachable : rtc report_step report_ready report_downloaded.
Proof. eapply rtc_r; [apply report_opened_reachable|apply report_downloaded_step]. Qed.

Lemma report_later : rtc report_step report_downloaded (hours_later 49 report_downloaded).
Proof. apply rtc_once, after_step. lia. Qed.
#[global] Transparent report_ready report_sent report_linked report_opened report_downloaded.
