(* ===== verification/AuditTheorems.v ===== *)
(** The audit trail: which programs append to it, and that no step of the system
    removes or rewrites a record. *)
From S2P Require Import Prelude Text Encoding Versions Models Registry Lifecycle Store.
From S2P Require Import Authorization Fingerprint Artifacts ApplicationSecrets Tablets Accounts.
From S2P Require Import Roles TabletQueries Manifests Grants Restore Queue Assignments.
From S2P Require Import Organizations Personnel MailProviders MailServices ReportDelivery Build.
From S2P Require Import Worker Admin Retention Simulation AdminSim System Demo SecretTheorems.
From S2P Require Import Totality MailInv MailSystem ReportRequests TabletInv TabletServices.
From S2P Require Import DeliveryInv TabletSystem RoleInv RoleSystem.
From S2P Require Import JsonText ReportDocuments ReportTransfer ReportPortal ReportInv.
From S2P Require Import ReportPortalInv.
From S2P Require Import TabletDemo RoleDemo OrganizationSystem MailDemo ReportDemo.

(** The trail has grown. *)
Definition recorded (s s' : Db) : Prop := db_audit s `prefix_of` db_audit s'.

#[export] Instance recorded_preorder : PreOrder recorded.
Proof. unfold recorded. split; [intros s|intros s1 s2 s3]; [reflexivity|apply transitivity]. Qed.

(** A change of another table. *)
Lemma recorded_same {A} (m : M Db A) : keeps db_audit m → preserves recorded m.
Proof. intros Hm s. unfold recorded. rewrite (Hm s). reflexivity. Qed.

#[export] Hint Extern 2 (preserves recorded (save _ _ _)) => apply recorded_same; preserve : preserves.
#[export] Hint Extern 2 (preserves recorded (create _ _)) => apply recorded_same; preserve : preserves.
#[export] Hint Extern 2 (preserves recorded (delete_obj _ _)) => apply recorded_same; preserve : preserves.
#[export] Hint Extern 2 (preserves recorded (update_where _ _ _)) => apply recorded_same; preserve : preserves.
#[export] Hint Extern 2 (preserves recorded (update_where_pk _ _ _)) => apply recorded_same; preserve : preserves.
#[export] Hint Extern 2 (preserves recorded (delete_where _ _)) => apply recorded_same; preserve : preserves.
#[export] Hint Extern 2 (preserves recorded (on_commit _)) => apply recorded_same; frame : preserves.
#[export] Hint Extern 2 (preserves recorded (emit _)) => apply recorded_same; frame : preserves.

Lemma recorded_record_event a u d x t i m : preserves recorded (record_event a u d x t i m).
Proof. intros s. unfold recorded. cbn. apply prefix_app_r. reflexivity. Qed.

#[export] Hint Resolve recorded_record_event : preserves.

(** [record] follows a program down to what it writes. *)
Ltac record :=
  repeat first
    [ progress preserve
    | lazymatch goal with
      | |- preserves recorded (fold_m _ _ _) => fail
      | |- preserves recorded (modify _) => apply recorded_same; preserve
      | |- preserves recorded ?m => let h := program_head m in unfold h
      end ].

Section audit.
Context `{Settings} `{Hash} `{HpkeSuite} `{Secrets} `{DeliverySettings} `{Credentials}
  `{Accounts} `{ProtectedRows}.

Lemma recorded_mark_dirty d x c u : preserves recorded (mark_dirty d x c u).
Proof. record. Qed.

Lemma recorded_department_mutation a : preserves recorded (department_mutation a).
Proof. record. Qed.

Hint Resolve recorded_mark_dirty recorded_department_mutation : preserves.

Lemma recorded_serve_organization r : preserves recorded (serve_organization r).
Proof. destruct r; cbn [serve_organization]; record. Qed.

Lemma recorded_serve_role r : preserves recorded (serve_role r).
Proof.
  destruct r; cbn [serve_role]; record.
  all: rewrite bool_decide_eq_true_2 in * by reflexivity; simplify_eq; record.
Qed.

(** ** The tablets *)

Lemma recorded_allocation n actor did d name :
  preserves recorded (allocation_loop n actor did d name).
Proof.
  revert d. induction n as [|n IH]; intros d; cbn [allocation_loop]; [preserve|].
  apply preserves_bind; [exact _|record|]. intros [number' d'].
  apply preserves_bind; [exact _|record|]. intros [tid|]; [preserve|apply IH].
Qed.

Lemma recorded_create_tablet actor did name number :
  preserves recorded (create_tablet actor did name number).
Proof.
  unfold create_tablet, create_manual_tablet, _create_generated_tablet.
  generalize MAX_ASSET_NUMBER_ALLOCATION_ATTEMPTS. intros n. preserve.
  all: first [apply recorded_allocation|record].
Qed.

Lemma recorded_delete_activity P : preserves recorded (delete_activity P).
Proof. apply recorded_same. intros s. reflexivity. Qed.

Lemma recorded_next_grant others :
  preserves recorded others → preserves recorded (process_next_dataset_key_grant others).
Proof. intros Ho. record. all: handlers. all: record. Qed.

Lemma recorded_next_generation : preserves recorded process_next_generation_key_grant.
Proof. record. all: handlers. all: record. Qed.

Lemma recorded_next_manifest others l :
  preserves recorded others → preserves recorded (process_next_signed_manifest others l).
Proof. intros Ho. record. all: handlers. all: record. Qed.

Hint Resolve recorded_create_tablet recorded_delete_activity recorded_next_grant
  recorded_next_generation recorded_next_manifest : preserves.

Lemma recorded_delivery_loop others n r deferred :
  preserves recorded others → preserves recorded (delivery_loop others n r deferred).
Proof.
  intros Ho. revert r deferred. induction n as [|n IH]; intros r deferred; cbn [delivery_loop];
    [preserve|].
  apply preserves_bind; [exact _|auto with preserves|]. intros grant.
  apply preserves_bind; [exact _|auto with preserves|]. intros document_grant.
  apply preserves_bind; [exact _|auto with preserves|]. intros manifest. cbv zeta.
  destruct grant, document_grant, manifest; first [apply IH|preserve].
Qed.

Hint Resolve recorded_delivery_loop : preserves.

Lemma recorded_serve_tablet others r :
  preserves recorded others → preserves recorded (serve_tablet others r).
Proof.
  intros Ho. destruct r; cbn [serve_tablet]; unfold ignore; apply preserves_bind; try exact _;
    try (intros; preserve).
  all: record.
Qed.
End audit.

Section publications.
Context `{Settings} `{Hash} `{DocumentGenerations} `{ArtifactStore} `{Builders}.
Context (build_document_records : ∀ pid s, recorded s (build_document_v2 pid s).2).
Hint Resolve recorded_mark_dirty : preserves.

Lemma recorded_callback c : preserves recorded (run_callback c).
Proof. record. Qed.
Hint Resolve recorded_callback : preserves.

Lemma recorded_commit {A} (m : M Db A) : preserves recorded m → preserves recorded (commit m).
Proof.
  intros Hm s. specialize (Hm s). unfold commit. destruct (m s) as [[a|e] s']; [|reflexivity].
  assert (K : preserves recorded (bind (for_each (db_on_commit s') run_callback) (λ _, ret a)))
    by preserve.
  etrans; [exact Hm|]. change (recorded s' (bind (for_each (db_on_commit s') run_callback) (λ _, ret a) (s' <| db_on_commit := [] |>)).2). etrans; [|apply (K (s' <| db_on_commit := [] |>))]. change (recorded s' s'). reflexivity.
Qed.
Hint Resolve recorded_commit : preserves.

Lemma recorded_fail_job jid m c : preserves recorded (commit (fail_publication_job jid m c)).
Proof. apply recorded_commit. record. Qed.

Lemma recorded_claim_first cs : preserves recorded (claim_first cs).
Proof.
  induction cs as [|c cs IH]; cbn [claim_first]; [preserve|].
  apply preserves_bind; [exact _|apply recorded_commit; record|].
  intros [j|]; [preserve|exact IH].
Qed.

Lemma recorded_build_failed jid a e m : build_failed jid a e = Some m → preserves recorded m.
Proof.
  unfold build_failed. intros E. destruct (exn_kind e); simplify_eq.
  all: apply preserves_bind; [exact _|record|intros _; apply recorded_fail_job].
Qed.

Lemma recorded_build_generation pid : preserves recorded (build_generation pid).
Proof.
  intros s. unfold build_generation. destruct (db_publications s !! pid); [|reflexivity].
  destruct (negb _); [reflexivity|]. pose proof (build_document_records pid s) as B.
  destruct (build_document_v2 pid s) as [[[u|e] l] s']; [exact B|].
  destruct (exn_kind e); reflexivity.
Qed.

Hint Resolve recorded_fail_job recorded_claim_first recorded_build_generation : preserves.

Context (interleave : nat → M Db unit) (others_record : ∀ n, preserves recorded (interleave n)).

Lemma recorded_discard_created l : preserves recorded (discard_created l).
Proof.
  apply preserves_for_each; [exact _|]. intros [i p]. apply recorded_commit. record.
Qed.

Lemma recorded_release_if_terminal pid : preserves recorded (release_if_terminal pid).
Proof.
  unfold release_if_terminal. preserve. apply recorded_commit. record.
Qed.

Hint Resolve recorded_discard_created recorded_release_if_terminal : preserves.

Lemma recorded_build_outputs jid pid summary a p g :
  preserves recorded (build_outputs interleave jid pid summary a p g).
Proof.
  unfold build_outputs. preserve. all: first [apply recorded_commit; record|record].
Qed.

Hint Resolve recorded_build_outputs : preserves.

Lemma recorded_build_claimed_job jid : preserves recorded (build_claimed_job interleave jid).
Proof.
  unfold build_claimed_job. apply preserves_bind; [exact _|auto with preserves|intros job].
  destruct (negb _); [auto with preserves|].
  destruct (job_build_publication job) as [pid|]; [|apply recorded_fail_job].
  apply preserves_bind; [exact _| |intros [r|[[[summary a] p]|]]]; [|auto with preserves| |
    auto with preserves].
  - apply preserves_try_except; [exact _|unfold build_inputs; record|]. intros e m E.
    destruct (build_failed jid None e) as [m'|] eqn:Ef; [|discriminate]. injection E as <-.
    apply preserves_bind; [exact _|eapply recorded_build_failed; exact Ef|].
    auto with preserves.
  - apply preserves_bind; [exact _|destruct (is_document_v2 p); auto with preserves|].
    intros [g l]. apply preserves_try_finally; [exact _| |auto with preserves].
    apply preserves_try_except; [exact _|auto with preserves|].
    intros e m E. eapply recorded_build_failed, E.
Qed.

Hint Resolve recorded_build_claimed_job : preserves.

Lemma recorded_process_next_job : preserves recorded (process_next_job interleave).
Proof. unfold process_next_job, claim_next_job. preserve. Qed.

Lemma recorded_build_loop n b : preserves recorded (build_loop interleave n b).
Proof.
  revert b. induction n as [|n IH]; intros b; cbn [build_loop]; [auto with preserves|].
  apply preserves_bind; [exact _|apply recorded_process_next_job|intros [j|]];
    [apply IH|auto with preserves].
Qed.

Lemma recorded_initialize : preserves recorded initialize_missing_libraries.
Proof.
  assert (∀ d x, preserves recorded (initialize_owner d x)).
  { intros d x. unfold initialize_owner. apply preserves_bind; [exact _| |intros [k l]].
    - apply recorded_commit. record.
    - apply preserves_bind; [exact _|apply recorded_commit; record|auto with preserves]. }
  unfold initialize_missing_libraries. preserve.
Qed.

Lemma recorded_process_build_cycle n : preserves recorded (process_build_cycle interleave n).
Proof.
  unfold process_build_cycle. pose proof recorded_build_loop. pose proof recorded_initialize. preserve.
  apply recorded_commit. record.
Qed.

Lemma recorded_retention n dry : preserves recorded (run_publication_retention n dry).
Proof.
  unfold run_publication_retention. preserve. apply recorded_commit. record.
Qed.

Lemma recorded_serve r : preserves recorded (serve interleave r).
Proof.
  destruct r; cbn [serve]; unfold done; (apply preserves_bind; [exact _| |auto with preserves]).
  all: try (apply recorded_commit; record).
  - apply recorded_process_next_job.
  - unfold claim_next_job. preserve.
  - apply recorded_build_claimed_job.
  - apply recorded_process_build_cycle.
  - apply recorded_retention.
Qed.
End publications.

(** ** Outbound mail *)

Section mail.
Context `{MailEnvironment, MailSettings, DeliverySettings, Aesgcm, SecretSettings, PdfLibrary}.

Lemma recorded_installation_event a i d x t k m :
  preserves recorded (record_installation_event a i d x t k m).
Proof. intros s. unfold recorded. cbn. apply prefix_app_r. reflexivity. Qed.

Lemma recorded_readonly {A} (m : M Db A) : readonly m → preserves recorded m.
Proof. apply preserves_readonly. exact _. Qed.

Lemma recorded_submit others i q p pdf : (∀ n, preserves recorded (others n)) →
  preserves recorded (submit_tablet_report_delivery others i q p pdf).
Proof.
  intros Ho.
  assert (Hm : ∀ n, preserves recorded (meanwhile (others n))) by (intros n; exact (Ho n)).
  assert (Hc : ∀ q, preserves recorded (create_request q)) by (intros r; unfold create_request; preserve).
  assert (Hd : ∀ pdf f, preserves recorded (deliver_outbound_report (λ n, others (n + 2)%nat) i p pdf f)).
  { intros pdf' f. apply delivery_deliver; [exact _|..]; intros; auto with preserves.
    apply recorded_installation_event. }
  unfold submit_tablet_report_delivery, _claim_or_replay. preserve.
Qed.

Lemma recorded_serve_mail others r : (∀ n, preserves recorded (others n)) →
  preserves recorded (serve_mail others r).
Proof.
  intros Ho.
  assert (Hr : ∀ m p, preserves recorded (resolve_effective_provider m p))
    by (intros m p; apply recorded_readonly, readonly_resolve_effective).
  assert (Ha : ∀ c, preserves recorded (validate_activation c))
    by (intros c; apply recorded_readonly, readonly_validate_activation).
  assert (Hv : ∀ p, preserves recorded (provider_verify p))
    by (intros p; apply recorded_readonly, readonly_provider_verify).
  assert (Hs : ∀ p, preserves recorded (smtp_verify p))
    by (intros p; apply recorded_readonly, readonly_smtp_verify).
  assert (He : ∀ t c, preserves recorded (encrypt_application_secret t c))
    by (intros t c; apply recorded_readonly, constant_encrypt_readonly).
  assert (Hd : ∀ t c, preserves recorded (decrypt_application_secret t c))
    by (intros t c; apply recorded_readonly, constant_readonly, constant_decrypt).
  pose proof (recorded_submit others). destruct r; cbn [serve_mail]; try apply preserves_unit_of;
    try exact _; auto; follow.
Qed.
End mail.

(** ** Report transfer *)

Section reports.
Context `{Hash, Floats, Aesgcm, ReportCrypto, ReportSettings, ReportStorage, PortalSettings}.
Context `{Secrets, MailEnvironment, MailSettings, DeliverySettings, SecretSettings}.

Lemma recorded_transaction {A} (m : M Db A) :
  preserves recorded m → preserves recorded (transaction_files m).
Proof.
  intros Hm s. specialize (Hm s). unfold transaction_files.
  destruct (m s) as [[a|e] s']; [exact Hm|]. unfold recorded. reflexivity.
Qed.

Lemma recorded_count c (m : M Db CleanupCounts) :
  preserves recorded m → preserves recorded (count_storage_failure c m).
Proof. intros Hm. unfold count_storage_failure. apply (preserves_caught _ _ _ (λ _, ret (one_failed c))); preserve. Qed.

(** Parts that only read, and the transactions of files. *)
Ltac trail :=
  repeat first
    [ progress preserve
    | progress cbv zeta
    | match goal with
      | E : _ = Some ?k |- preserves recorded ?k =>
          cbn in E; repeat case_match; first [discriminate E | injection E as <-]
      end
    | apply recorded_transaction
    | apply recorded_installation_event
    | solve [apply recorded_readonly; auto with preserves]
    | lazymatch goal with
      | |- preserves recorded (fold_m _ _ _) => fail
      | |- preserves recorded (modify _) => apply recorded_same; preserve
      | |- preserves recorded (count_storage_failure _ _) => apply recorded_count
      | |- preserves recorded (try_except _ _) =>
          apply preserves_try_except; [exact _| |let e := fresh in let k := fresh in let E := fresh in
            intros e k E; repeat case_match; first [discriminate E | injection E as <-]]
      | |- preserves recorded ?m => let h := program_head m in unfold h
      end ].

Lemma recorded_portal session q : preserves recorded (portal_context session q).
Proof. trail. Qed.

Lemma recorded_send_link pk token : preserves recorded (send_link pk token).
Proof. apply recorded_same, send_link_keeps. intros e s. reflexivity. Qed.

Lemma recorded_record pk completed audit :
  preserves recorded (record_successful_download pk completed audit).
Proof. trail. Qed.

Lemma recorded_load session q : preserves recorded (load_portal_submission session q).
Proof. pose proof recorded_portal. trail. Qed.

Lemma recorded_complete session pk row file_type transfer :
  preserves recorded (complete_download session pk row file_type transfer).
Proof. pose proof recorded_portal. pose proof recorded_record. trail. Qed.

Lemma recorded_stream others session q n : (∀ n, preserves recorded (others n)) →
  preserves recorded (stream_chunks others session q n).
Proof.
  intros Ho. assert (Hm : ∀ n, preserves recorded (meanwhile (others n))) by (intros k; exact (Ho k)).
  pose proof recorded_portal. induction n as [|n IH]; cbn [stream_chunks]; preserve.
Qed.

Lemma recorded_serve_report others r : (∀ n, preserves recorded (others n)) →
  preserves recorded (serve_report others r).
Proof.
  intros Ho.
  assert (Hm : ∀ n, preserves recorded (meanwhile (others n))) by (intros n; exact (Ho n)).
  destruct r; cbn [serve_report]; try apply preserves_unit_of; try exact _.
  all: pose proof recorded_portal; pose proof recorded_send_link; pose proof (recorded_stream others);
    pose proof recorded_load; pose proof recorded_complete; pose proof recorded_record; trail.
Qed.
End reports.

(** ** The whole program *)

Section program.
Context `{Settings} `{Hash} `{DocumentGenerations} `{ArtifactStore} `{Builders}
  `{HpkeSuite} `{Secrets} `{DeliverySettings} `{Credentials} `{Accounts}
  `{ProtectedRows, MailEnvironment, MailSettings, Aesgcm, SecretSettings, PdfLibrary}
  `{Floats, ReportCrypto, ReportSettings, ReportStorage, PortalSettings}.

(** Builders do not erase events. *)
Context (build_document_records : ∀ pid s, recorded s (build_document_v2 pid s).2).

(** A request to any of the services; inside one, other sessions do not erase events. *)
Inductive program_step (s : Db) : Db → Prop :=
| step_publications interleave r : (∀ n, preserves recorded (interleave n)) →
    program_step s (serve interleave r s).2
| step_tablets others r : preserves recorded others → program_step s (serve_tablet others r s).2
| step_roles r : program_step s (serve_role r s).2
| step_organization r : program_step s (serve_organization r s).2
| step_mail others r : (∀ n, preserves recorded (others n)) →
    program_step s (serve_mail others r s).2
| step_reports others r : (∀ n, preserves recorded (others n)) →
    program_step s (serve_report others r s).2.

Lemma recorded_step s s' : program_step s s' → recorded s s'.
Proof.
  intros [interleave r Hi|others r Ho|r|r|others r Ho|others r Ho].
  - apply recorded_serve; assumption.
  - apply recorded_serve_tablet, Ho.
  - apply recorded_serve_role.
  - apply recorded_serve_organization.
  - apply recorded_serve_mail, Ho.
  - apply recorded_serve_report, Ho.
Qed.

Lemma recorded_run s s' : rtc program_step s s' → recorded s s'.
Proof. induction 1 as [s|s s1 s' Hs _ IH]; [reflexivity|]. etrans; [apply recorded_step, Hs|exact IH]. Qed.

(** C9: The audit trail is append-only: along every run of requests to publications,
    tablets, delivery, accounts, roles, organization, personnel, outbound mail and report
    transfer, failing ones included, the events already recorded stay as they are and in their order. *)
Theorem audit_trail_is_append_only s s' :
  rtc program_step s s' → ∃ events, db_audit s' = db_audit s ++ events.
Proof. exact (recorded_run s s'). Qed.
End program.

(** On the small brigade. *)
Lemma audit_trail_is_append_only_witness :
  ∃ events, db_audit brigade_station = db_audit office_anna ++ events.
Proof.
  apply (audit_trail_is_append_only).
  - intros pid s. reflexivity.
  - apply rtc_once, step_organization.
Defined.
