(* ===== verification/StateTheorems.v ===== *)
(** What the Publications pages show of a scope agrees with its jobs and publications. *)
From S2P Require Import Prelude Models Registry Lifecycle Store Authorization Fingerprint.
From S2P Require Import Artifacts Restore Queue ScopeState Build Worker Admin Retention.
From S2P Require Import Simulation QueueSim AdminSim System Demo.
From S2P Require Import SystemTheorems.

(** A job of the scope in the given status. *)
Definition scope_job (s : Db) (c : N) (st : JobStatus) : Prop :=
  ∃ j job, db_jobs s !! j = Some job ∧ job_scope_state job = c ∧ job_status job = st.

(** The scopes of a dataset, and the versions published of them. *)
Definition of_dataset (code : string) (scopes : list (N * DatasetScopeState)) :=
  filter (λ x, sc_dataset_type_code x.2 = code) scopes.

Definition published_versions (s : Db) (scopes : list (N * DatasetScopeState)) : list Z :=
  omap (λ x, current_version s x.2) scopes.

(** A summary over the scopes [l] of one dataset, before it is finished. *)
Record summarized (s : Db) (now : Z) (l : list (N * DatasetScopeState)) (u : DatasetSummary) : Prop := {
  sum_scopes : su_scope_count u = Z.of_nat (length l);
  sum_published : su_published_scope_count u = Z.of_nat (length (published_versions s l));
  sum_none : su_distributed_version u = None → published_versions s l = [];
  sum_version v : su_distributed_version u = Some v →
    v ∈ published_versions s l ∧ ∀ w, w ∈ published_versions s l → w ≤ v;
  sum_priority x : x ∈ l →
    state_priority (scope_state s now x.1 x.2) ≤ state_priority (su_state u);
  sum_state : su_state u = NOT_PUBLISHED ∨ ∃ x, x ∈ l ∧ su_state u = scope_state s now x.1 x.2
}.

Section theorems.
Context `{Settings} `{Hash} `{DocumentGenerations} `{ArtifactStore} `{Builders}
  `{!BuildersQuiet}.

Lemma active_job_Some s c j job : active_job s c = Some (j, job) →
  db_jobs s !! j = Some job ∧ job_scope_state job = c ∧ is_active_job job = true.
Proof.
  intros E. apply order_by_head_Some in E as [E _]. apply rows_elem in E as [Hj Hc].
  apply andb_true_iff in Hc as [Hc Ha]. apply N.eqb_eq in Hc. auto.
Qed.

Lemma active_job_None s c j job : active_job s c = None → db_jobs s !! j = Some job →
  job_scope_state job = c → is_active_job job = false.
Proof.
  intros E Hj Hc. apply order_by_head_None in E.
  destruct (is_active_job job) eqn:Ea; [|reflexivity].
  assert (Hin : (j, job) ∈ rows (db_jobs s)
      (λ _ j, N.eqb (job_scope_state j) c && is_active_job j)).
  { apply rows_elem. rewrite Hc, N.eqb_refl, Ea. auto. }
  rewrite E in Hin. inversion Hin.
Qed.

Lemma is_active_spec job : is_active_job job = active_status (job_status job).
Proof. reflexivity. Qed.

(** The job the page finds is the only active job of the scope. *)
Lemma active_job_spec s c st :
  reachable s → active_status st = true →
  scope_job s c st ↔ job_status ∘ snd <$> active_job s c = Some st.
Proof.
  intros Hr Ha. pose proof (reachable_Inv _ Hr) as I. split.
  - intros (j & job & Hj & Hc & Hs). destruct (active_job s c) as [[k b]|] eqn:E.
    + apply active_job_Some in E as (Hk & Hkc & Hka).
      assert (k = j) as ->.
      { eapply (inv_active _ I); [exact (job_row _ _ _ Hk)|exact (job_row _ _ _ Hj)|exact Hka| |].
        - cbn. rewrite Hs. exact Ha.
        - cbn. congruence. }
      rewrite Hj in Hk. injection Hk as <-. cbn. rewrite Hs. reflexivity.
    + pose proof (active_job_None s c j job E Hj Hc) as Hn. rewrite is_active_spec, Hs, Ha in Hn.
      discriminate.
  - destruct (active_job s c) as [[k b]|] eqn:E; [|discriminate]. intros [= Hs].
    apply active_job_Some in E as (Hk & Hkc & _). exists k, b. auto.
Qed.

(** Without an active job no attempt of the scope is being built or waiting. *)
Lemma no_job_no_attempt s c k p :
  reachable s → active_job s c = None → latest_publication s c = Some (k, p) →
  pub_status p ≠ BUILDING ∧ pub_status p ≠ STAGED.
Proof.
  intros Hr En El. apply order_by_head_Some in El as [El _]. apply rows_elem in El as [Hp Hc].
  apply N.eqb_eq in Hc. pose proof (reachable_Inv _ Hr) as I.
  assert (K : ∀ j job, db_jobs s !! j = Some job → active_status (job_status job) = true →
      job_build_publication job = Some k → False).
  { intros j job Hj Ha Hb.
    destruct (inv_build _ I j (job_view job) k (job_row _ _ _ Hj) Hb) as (pv & Hpv & Es).
    rewrite (pub_row _ _ _ Hp) in Hpv. injection Hpv as <-. cbn in Es.
    pose proof (active_job_None s c j job En Hj) as Hn. rewrite is_active_spec, Ha in Hn.
    discriminate Hn. congruence. }
  apply pub_row in Hp as Hp'. split; intros E.
  - destruct (inv_building _ I _ _ Hp' E) as (j & jv & Hj & Es & Hb).
    apply row_job in Hj as (job & Hj & ->). apply (K j job Hj); [|exact Hb].
    cbn in Es. rewrite Es. reflexivity.
  - destruct (inv_staged _ I _ _ Hp' E) as (j & jv & Hj & Es & Hb).
    apply row_job in Hj as (job & Hj & ->). apply (K j job Hj); [|exact Hb].
    cbn in Es. rewrite Es. reflexivity.
Qed.

(** The state of a scope without an active job. *)
Lemma idle_state s c sc now :
  reachable s → active_job s c = None →
  scope_state s now c sc ≠ BUILDING_STATE ∧ scope_state s now c sc ≠ UPDATE_QUEUED
  ∧ scope_state s now c sc ≠ QUEUED.
Proof.
  intros Hr En.
  assert (K : (pub_status ∘ snd <$> latest_publication s c) ≠ Some BUILDING
      ∧ (pub_status ∘ snd <$> latest_publication s c) ≠ Some STAGED).
  { destruct (latest_publication s c) as [[k p]|] eqn:El; [|split; discriminate].
    destruct (no_job_no_attempt s c k p Hr En El) as [K1 K2]. cbn. split; congruence. }
  destruct K as [K1 K2]. unfold scope_state, compute_scope_state, _scope_state_inputs, inputs_of.
  cbn [si_active_job_status si_latest_status si_dirty si_latest_source_fingerprint
    si_current_source_fingerprint si_latest_built_status si_current_published at_job at_latest
    at_dirty at_latest_built at_current_published].
  rewrite En. cbn [fmap option_fmap option_map].
  rewrite (bool_decide_eq_false_2 (_ = Some BUILDING)) by exact K1.
  rewrite (bool_decide_eq_false_2 (_ = Some STAGED)) by exact K2.
  cbn. repeat case_match; split_and!; discriminate.
Qed.

(** The state of a scope with one. *)
Lemma running_state s c sc now j job :
  active_job s c = Some (j, job) → job_status job = JOB_RUNNING →
  scope_state s now c sc = BUILDING_STATE.
Proof.
  intros Ej Es. unfold scope_state, compute_scope_state. cbn [si_active_job_status inputs_of at_job
    _scope_state_inputs]. rewrite Ej. cbn. rewrite Es. reflexivity.
Qed.

Lemma pending_state s c sc now j job :
  active_job s c = Some (j, job) → job_status job = JOB_PENDING →
  scope_state s now c sc = match job_not_before job with
                           | Some t => if now <? t then UPDATE_QUEUED else QUEUED
                           | None => QUEUED
                           end.
Proof.
  intros Ej Es. unfold scope_state, compute_scope_state. cbn [si_active_job_status inputs_of at_job
    si_active_job_not_before _scope_state_inputs]. rewrite Ej. cbn. rewrite Es. reflexivity.
Qed.

(** C32: In every reachable store the state shown of a scope follows its jobs: it is
    "Building" exactly when a RUNNING job of the scope exists, "Queued" or "Update queued"
    exactly when a PENDING one does, and "Update queued" exactly when that job is not due
    yet; the branches for attempts without a job are never taken. *)
Theorem shown_state_follows_the_jobs s c sc now :
  reachable s →
  (scope_state s now c sc = BUILDING_STATE ↔ scope_job s c JOB_RUNNING)
  ∧ (scope_state s now c sc = QUEUED ∨ scope_state s now c sc = UPDATE_QUEUED ↔
     scope_job s c JOB_PENDING)
  ∧ (scope_state s now c sc = UPDATE_QUEUED ↔ ∃ j job t, active_job s c = Some (j, job)
       ∧ job_status job = JOB_PENDING ∧ job_not_before job = Some t ∧ now < t).
Proof.
  intros Hr. rewrite !(active_job_spec s c) by (reflexivity || exact Hr).
  destruct (active_job s c) as [[j job]|] eqn:Ej.
  2:{ destruct (idle_state s c sc now Hr Ej) as (A & B & C). cbn.
      split_and!; split; try tauto; try discriminate. intros (? & ? & ? & ? & _). discriminate. }
  apply active_job_Some in Ej as Hjob. destruct Hjob as (_ & _ & Ha).
  rewrite is_active_spec in Ha. cbn [fmap option_fmap option_map compose snd].
  destruct (job_status job) eqn:Es; try discriminate Ha.
  - rewrite (pending_state s c sc now j job Ej Es).
    assert (K : ∀ t, job_not_before job = Some t → now < t → ∃ j' job' t', Some (j, job) = Some (j', job')
      ∧ job_status job' = JOB_PENDING ∧ job_not_before job' = Some t' ∧ now < t') by eauto 8.
    destruct (job_not_before job) as [t|] eqn:Et; [destruct (Z.ltb_spec now t)|];
      (split_and!; split; [..|intros (j' & job' & t' & [= <- <-] & _ & Et' & Ht)]);
      eauto; try discriminate; try (intros [?|?]; discriminate); intros; congruence || lia || idtac.
    all: rewrite Et in Et'; injection Et' as <-; lia.
  - rewrite (running_state s c sc now j job Ej Es). split_and!; split; try discriminate; auto.
    + intros [?|?]; discriminate.
    + intros (j' & job' & t' & [= <- <-] & Es' & _). congruence.
Qed.

End theorems.

(** ** Summaries *)

Lemma summarized_empty s now : summarized s now [] empty_summary.
Proof.
  split; try reflexivity.
  - discriminate.
  - intros x Hx. inversion Hx.
  - left. reflexivity.
Qed.

Lemma published_snoc s l x :
  published_versions s (l ++ [x]) = published_versions s l ++ option_list (current_version s x.2).
Proof. unfold published_versions. rewrite omap_app. cbn. destruct (current_version s x.2); reflexivity. Qed.

Lemma summarized_snoc s now l x u :
  summarized s now l u →
  summarized s now (l ++ [x]) (add_scope (current_version s x.2) (scope_state s now x.1 x.2) u).
Proof.
  intros [S P N V R T]. split.
  - cbn. rewrite S, length_app. cbn. lia.
  - rewrite published_snoc, length_app. cbn. destruct (current_version s x.2); cbn; rewrite P; lia.
  - rewrite published_snoc. cbn. destruct (current_version s x.2) as [v|].
    + destruct (su_distributed_version u) as [w|]; [destruct (w <? v)|]; discriminate.
    + intros E. rewrite (N E). reflexivity.
  - intros v. rewrite published_snoc. cbn. destruct (current_version s x.2) as [c|]; cbn.
    2:{ rewrite app_nil_r. apply V. }
    destruct (su_distributed_version u) as [w|].
    + destruct (V w eq_refl) as [V1 V2].
      destruct (Z.ltb_spec w c); intros [= <-]; (split; [rewrite elem_of_app, ?list_elem_of_singleton; auto|]);
        intros z [Hz|Hz%list_elem_of_singleton]%elem_of_app; try (specialize (V2 z Hz)); lia.
    + intros [= <-]. rewrite (N eq_refl). cbn. split; [left|].
      intros z Hz%list_elem_of_singleton. lia.
  - intros y [Hy|Hy%list_elem_of_singleton]%elem_of_app; cbn.
    + specialize (R y Hy). destruct (Z.ltb_spec (state_priority (su_state u))
        (state_priority (scope_state s now x.1 x.2))); lia.
    + subst y. destruct (Z.ltb_spec (state_priority (su_state u))
        (state_priority (scope_state s now x.1 x.2))); lia.
  - cbn. destruct (_ <? _).
    + right. exists x. rewrite elem_of_app, list_elem_of_singleton. auto.
    + destruct T as [T|(y & Hy & T)]; [left; exact T|]. right. exists y. rewrite elem_of_app. auto.
Qed.

Lemma filter_true {A} (l : list A) : filter (λ _, true = true) l = l.
Proof.
  induction l as [|x l IH]; [reflexivity|]. rewrite filter_cons, decide_True by reflexivity.
  rewrite IH. reflexivity.
Qed.

(** The entry of a dataset only sees the scopes of that dataset. *)
Lemma summarize_lookup s now code l : ∀ m done,
  (match m !! code with Some u => summarized s now done u | None => done = [] end) →
  match foldl (summarize s now) m l !! code with
  | Some u => summarized s now (done ++ of_dataset code l) u ∧ done ++ of_dataset code l ≠ []
              ∨ summarized s now done u ∧ of_dataset code l = [] ∧ is_Some (m !! code)
  | None => done ++ of_dataset code l = []
  end.
Proof.
  induction l as [|x l IH]; intros m done Hm; cbn [foldl].
  - unfold of_dataset. cbn. destruct (m !! code) as [u|] eqn:E; [|subst; reflexivity].
    right. split_and!; [exact Hm|reflexivity|eauto].
  - unfold of_dataset. rewrite filter_cons. fold (of_dataset code l).
    destruct (decide (sc_dataset_type_code x.2 = code)) as [Ec|Ec].
    + assert (U : summarized s now (done ++ [x]) (add_scope (current_version s x.2)
          (scope_state s now x.1 x.2) (default empty_summary (m !! code)))).
      { apply summarized_snoc. destruct (m !! code) as [u|]; [exact Hm|]. subst. apply summarized_empty. }
      specialize (IH (summarize s now m x) (done ++ [x])). unfold summarize in IH at 1.
      rewrite Ec, lookup_insert_eq in IH. specialize (IH U).
      rewrite cons_middle, app_assoc. destruct (_ !! code) as [u|].
      * left. destruct IH as [[IH1 IH2]|(IH1 & IH2 & _)]; [auto|]. rewrite IH2, app_nil_r.
        split; [exact IH1|]. destruct done; discriminate.
      * destruct done; discriminate IH.
    + assert (Em : summarize s now m x !! code = m !! code) by (apply lookup_insert_ne, Ec).
      specialize (IH (summarize s now m x) done). rewrite Em in IH. exact (IH Hm).
Qed.

(** The summary of a dataset counts the scopes of the department and those that are
    published, gives the highest published version, and shows a state of one of its scopes
    of the highest priority; a dataset without a published scope is "Not published". *)
Theorem dataset_summaries_are_faithful s d code now u :
  dataset_publication_summaries s d None now !! code = Some u →
  let scopes := of_dataset code (publication_scope_queryset s d) in
  let at_ := default (db_clock s) now in
  scopes ≠ []
  ∧ su_scope_count u = Z.of_nat (length scopes)
  ∧ su_published_scope_count u = Z.of_nat (length (published_versions s scopes))
  ∧ (∀ v, su_distributed_version u = Some v ↔
       v ∈ published_versions s scopes ∧ ∀ w, w ∈ published_versions s scopes → w ≤ v)
  ∧ (published_versions s scopes = [] → su_state u = NOT_PUBLISHED)
  ∧ (published_versions s scopes ≠ [] →
       (∀ x, x ∈ scopes → state_priority (scope_state s at_ x.1 x.2) ≤ state_priority (su_state u))
       ∧ (su_state u = NOT_PUBLISHED ∨ ∃ x, x ∈ scopes ∧ su_state u = scope_state s at_ x.1 x.2)).
Proof.
  unfold dataset_publication_summaries. rewrite lookup_fmap.
  destruct (_ !! code) as [w|] eqn:E; [|discriminate]. intros [= <-]. cbv zeta.
  pose proof (summarize_lookup s (default (db_clock s) now) code
    (filter (λ x, true = true) (publication_scope_queryset s d)) ∅ [] eq_refl) as K.
  rewrite E, filter_true in K.
  cbn [app] in K. destruct K as [[K Hne]|(_ & _ & (z & Hz))]; [|rewrite lookup_empty in Hz; discriminate].
  destruct K as [S P N V R T]. unfold finish_summary. cbn. split_and!; [exact Hne|exact S|exact P| | |].
  - intros v. split; [apply V|]. intros [Hv Hmax].
    destruct (su_distributed_version w) as [v'|] eqn:Ev.
    + destruct (V v' eq_refl) as [V1 V2]. f_equal. specialize (V2 v Hv). specialize (Hmax v' V1). lia.
    + rewrite (N eq_refl) in Hv. inversion Hv.
  - intros En. destruct (su_distributed_version w) as [v'|]; [|reflexivity].
    destruct (V v' eq_refl) as [V1 _]. rewrite En in V1. inversion V1.
  - intros Hp. destruct (su_distributed_version w) as [v'|]; [|destruct Hp; auto]. cbn. auto.
Qed.

(** ** On the small installation *)

Lemma shown_state_follows_the_jobs_witness :
  ∃ sc, db_scopes demo_building !! 1%N = Some sc
    ∧ scope_job demo_building 1 JOB_RUNNING
    ∧ scope_state demo_building 0 1 sc = BUILDING_STATE.
Proof.
  destruct (row_with (λ sc, bool_decide (scope_state demo_building 0 1 sc = BUILDING_STATE))
    (db_scopes demo_building !! 1%N) true) as (sc & Hsc & Es); [vm_compute; reflexivity|].
  apply bool_decide_eq_true_1 in Es. exists sc. split_and!; [exact Hsc| |exact Es].
  apply (shown_state_follows_the_jobs demo_building 1 sc 0 demo_building_reachable), Es.
Defined.

Lemma dataset_summaries_are_faithful_witness :
  ∃ u, dataset_publication_summaries demo_superseded 1 None None !! "department_phonebook" = Some u
    ∧ su_published_scope_count u = Z.of_nat (length (published_versions demo_superseded
        (of_dataset "department_phonebook" (publication_scope_queryset demo_superseded 1)))).
Proof.
  destruct (row_with su_scope_count
    (dataset_publication_summaries demo_superseded 1 None None !! "department_phonebook") 1)
    as (u & Hu & _); [vm_compute; reflexivity|].
  exists u. split; [exact Hu|]. apply (dataset_summaries_are_faithful demo_superseded 1 _ None u Hu).
Defined.
