(* ===== verification/OrganizationTheorems.v ===== *)
(** What the organization and personnel operations guarantee, on every branch. *)
From S2P Require Import Prelude Text Versions Models Registry Lifecycle Store Authorization.
From S2P Require Import Fingerprint Artifacts ApplicationSecrets Tablets Accounts Roles.
From S2P Require Import TabletQueries Manifests Grants Restore Queue Assignments Organizations.
From S2P Require Import Personnel Build Simulation System Demo Totality TabletInv.
From S2P Require Import TabletServices DeliveryInv TabletSystem RoleInv.
From S2P Require Import RoleSystem TabletDemo OrganizationSystem.
From S2P Require Import RoleDemo AuditTheorems.

(** The constraint [one_open_vehicle_assignment_per_tablet]. *)
Definition one_open_per_tablet (m : gmap N TabletVehicleAssignment) : Prop :=
  ∀ k k' a a', m !! k = Some a → m !! k' = Some a' → va_tablet a = va_tablet a' →
    open_assignment (va_tablet a) a = true → open_assignment (va_tablet a') a' = true → k = k'.

Section theorems.
Context `{Settings} `{Hash} `{HpkeSuite} `{Secrets} `{DeliverySettings} `{Credentials}
  `{Accounts} `{ProtectedRows}.

(** C20: In every reachable store the row of a person is in one of its three states with
    the columns that go with it, an active person has exactly one open HOME assignment,
    the active people of a department differ in their numbers, and an anonymized row
    says nothing about the person. *)
Theorem people_are_kept_consistent s k p :
  organization_reachable s → db_people s !! k = Some p →
  lifecycle_consistent p = true
  ∧ (pe_lifecycle_status p = PERSON_ACTIVE → ∃ j, home_of (db_personnel_assignments s) k j
       ∧ ∀ j', home_of (db_personnel_assignments s) k j' → j' = j)
  ∧ (∀ k' p', db_people s !! k' = Some p' → k' ≠ k → pe_lifecycle_status p = PERSON_ACTIVE →
       pe_lifecycle_status p' = PERSON_ACTIVE → pe_department p' = pe_department p →
       pe_personnel_number p ≠ None → pe_personnel_number p' ≠ pe_personnel_number p)
  ∧ (pe_lifecycle_status p = PERSON_ANONYMIZED → nameless p).
Proof.
  intros I%organization_reachable_inv Hp. split_and!.
  - exact (pi_consistent _ _ I k p Hp).
  - intros Es. destruct (pi_home _ _ I k p Hp Es) as [j Hj]. exists j. split; [exact Hj|].
    intros j' Hj'. exact (pi_one_home _ _ I k j' j Hj' Hj).
  - intros k' p' Hp' Hne Es Es' Ed En E.
    exact (pi_numbers _ _ I k k' p p' Hp Hp' (not_eq_sym Hne) Es Es' (eq_sym Ed) En (eq_sym E)).
  - exact (pi_nameless _ _ I k p Hp).
Qed.

(** C10: A person is anonymized only by an administrator of the department, after having
    left and when the retention period is over; and from then on the row stays and, along
    every later run, says nothing about the person and is never active again. *)
Theorem forgotten_people_stay_forgotten s a k s1 s' :
  organization_reachable s → anonymize_person a k s = (Val tt, s1) →
  rtc organization_step s1 s' →
  (∃ p until, db_people s !! k = Some p ∧ pe_department p ∈ active_department_ids s a
     ∧ pe_lifecycle_status p = PERSON_DEPARTED ∧ pe_retention_until p = Some until
     ∧ until ≤ db_clock s)
  ∧ ∃ p', db_people s' !! k = Some p' ∧ nameless p'.
Proof.
  intros I%organization_reachable_inv E Hr.
  destruct (people_anonymize a k s I) as [I1 _]. rewrite E in I1. cbn [snd] in I1.
  assert (K : (∃ p until, db_people s !! k = Some p ∧ pe_department p ∈ active_department_ids s a
      ∧ pe_lifecycle_status p = PERSON_DEPARTED ∧ pe_retention_until p = Some until
      ∧ until ≤ db_clock s) ∧ ∃ p1, db_people s1 !! k = Some p1 ∧ nameless p1).
  { refine (wlp_val _ s tt s1 (λ _ s1, _) E _). clear E I1 Hr s1 s'.
    unfold anonymize_person. apply wlp_atomic, wlp_bind, wlp_get_obj. intros p Hp.
    apply wlp_skip; [preserve|]. intros admin [= <-]. apply wlp_bind, wlp_guard. intros Ha.
    apply wlp_skip; [preserve|]. intros now [= <-]. apply wlp_bind, wlp_guard.
    intros [Es Eu]%andb_true_iff. apply bool_decide_eq_true_1 in Es. cbv zeta.
    destruct (pe_retention_until p) as [u|] eqn:Er; [|discriminate]. apply Z.leb_le in Eu.
    unfold save_person. apply wlp_bind, wlp_skip; [preserve|]. intros ok [= <-].
    apply wlp_bind, wlp_guard. intros _. apply wlp_save. intros q Hq.
    eapply (wlp_frame people_tables); [frame|]. intros u' s2 [= E1 E2]. split.
    - exists p, u. split_and!; try assumption. apply mem_N_spec, Ha.
    - rewrite E1. exists (anonymized p (db_clock s) a). split; [apply lookup_insert_eq|].
      split_and!; try reflexivity. discriminate. }
  destruct K as [K (p1 & Hp1 & N1)]. split; [exact K|].
  destruct (people_run s1 s' Hr I1) as [_ T]. destruct (T k p1 Hp1) as (p' & Hp' & _ & _ & N').
  exists p'. auto.
Qed.

(** Offboarding needs an administrator of the department and its retention policy;
    it turns the row into a departed one without commander data whose data is kept for
    the period of the policy, ends every unlimited assignment of the person, and leaves
    every other person and every other assignment, those with an expiry included, as it
    was. *)
Theorem offboarding_ends_every_assignment s a k s' :
  offboard_person a k s = (Val tt, s') →
  ∃ p j policy, db_people s !! k = Some p ∧ pe_department p ∈ active_department_ids s a
    ∧ db_retention_policies s !! j = Some policy ∧ rp_department policy = pe_department p
    ∧ db_people s' = <[k := departed p (db_clock s) (rp_retention_period policy)]> (db_people s)
    ∧ (∀ i b, db_personnel_assignments s' !! i = Some b → open_for k b = false)
    ∧ (∀ i b, db_personnel_assignments s !! i = Some b → open_for k b = false →
         db_personnel_assignments s' !! i = Some b).
Proof.
  intros E. refine (wlp_val _ s tt s' (λ _ s', _) E _). clear E s'.
  unfold offboard_person. apply wlp_atomic, wlp_bind, wlp_get_obj. intros p Hp. cbv zeta.
  apply wlp_skip; [preserve|]. intros admin [= <-]. apply wlp_bind, wlp_guard. intros Ha.
  apply wlp_skip; [unfold policy_of; preserve|]. intros found Ef.
  apply wlp_skip; [preserve|]. intros [j policy] Ej. destruct found as [[]|]; [|discriminate].
  injection Ej as -> ->. injection Ef as Ef. apply order_by_head_Some in Ef as [Ef _].
  apply rows_elem in Ef as [Hj Hd]. apply N.eqb_eq in Hd.
  apply wlp_skip; [preserve|]. intros now [= <-]. apply wlp_skip; [preserve|]. intros ids _.
  unfold end_open_assignments. apply wlp_bind, wlp_skip; [preserve|]. intros bad _.
  apply wlp_bind, wlp_guard. intros _. unfold wlp at 1, update_where, bind at 1. cbn [ret].
  unfold save_person. apply wlp_bind, wlp_skip; [preserve|]. intros ok _.
  apply wlp_bind, wlp_guard. intros _. apply wlp_save. intros q _.
  eapply (wlp_frame people_tables); [frame|]. intros u s2 [= E1 E2]. cbn in E1, E2.
  exists p, j, policy. split_and!; try assumption.
  - apply mem_N_spec, Ha.
  - intros i b Hb. rewrite E2, lookup_fmap in Hb.
    destruct (db_personnel_assignments s !! i) as [c|]; [|discriminate]. injection Hb as <-.
    destruct (open_for k c) eqn:Eo; [|exact Eo]. unfold open_for. cbn. rewrite andb_false_r. reflexivity.
  - intros i b Hb Eo. rewrite E2, lookup_fmap, Hb. cbn. rewrite Eo. reflexivity.
Qed.

(** No person is ever deleted: in every reachable store each person has an
    assignment, which protects the row, and so every deletion raises and changes
    nothing. *)
Theorem people_are_never_deleted s a k :
  organization_reachable s → ∃ e, delete_person a k s = (Exc e, s).
Proof.
  intros I%organization_reachable_inv. apply atomic_refused.
  apply wlp_bind, wlp_get_obj. intros p Hp.
  apply wlp_skip; [unfold _require_department_person_admin; preserve|]. intros _ _.
  apply wlp_skip; [preserve|]. intros ids _. apply wlp_skip; [preserve|]. intros b [= <-].
  apply wlp_bind, wlp_guard. intros Hb. apply negb_true_iff, orb_false_iff in Hb as [Hb _].
  destruct (pi_assigned _ _ I k p Hp) as (j & b & Hj & Ej). rewrite exists_row_false in Hb.
  specialize (Hb j b Hj). cbv beta in Hb. rewrite Ej, N.eqb_refl in Hb. discriminate.
Qed.
End theorems.

(** ** The theorems on the small brigade *)

Lemma people_are_kept_consistent_witness :
  ∃ p j, db_people brigade_member !! 1%N = Some p
    ∧ home_of (db_personnel_assignments brigade_member) 1 j.
Proof.
  destruct (row_with pe_lifecycle_status (db_people brigade_member !! 1%N) PERSON_ACTIVE)
    as (p & Hp & Es); [vm_compute; reflexivity|].
  destruct (people_are_kept_consistent brigade_member 1 p brigade_member_reachable Hp)
    as (_ & Hh & _).
  destruct (Hh Es) as (j & Hj & _). exists p, j. auto.
Defined.

Lemma forgotten_people_stay_forgotten_witness :
  ∃ s1 p, anonymize_person 2 1 (brigade_later brigade_left) = (Val tt, s1)
    ∧ db_people s1 !! 1%N = Some p ∧ nameless p.
Proof.
  destruct (anonymize_person 2 1 (brigade_later brigade_left)) as [[[]|e] s1] eqn:E.
  - destruct (forgotten_people_stay_forgotten (brigade_later brigade_left) 2 1 s1 s1)
      as (_ & p & Hp & Hn); [exact brigade_left_later_reachable|exact E|apply rtc_refl|].
    exists s1, p. auto.
  - exfalso. apply (f_equal fst) in E. vm_compute in E. discriminate E.
Defined.

Lemma offboarding_ends_every_assignment_witness :
  ∃ s' p, offboard_person 2 1 (brigade_later brigade_member) = (Val tt, s')
    ∧ db_people s' !! 1%N = Some p ∧ pe_active p = false.
Proof.
  destruct (offboard_person 2 1 (brigade_later brigade_member)) as [[[]|e] s'] eqn:E.
  - destruct (offboarding_ends_every_assignment (brigade_later brigade_member) 2 1 s' E)
      as (p & j & policy & _ & _ & _ & _ & Ep & _).
    exists s'. eexists. split; [reflexivity|]. rewrite Ep, lookup_insert_eq. split; reflexivity.
  - exfalso. apply (f_equal fst) in E. vm_compute in E. discriminate E.
Defined.

Lemma people_are_never_deleted_witness :
  ∃ e, delete_person 2 1 brigade_member = (Exc e, brigade_member).
Proof. apply (people_are_never_deleted brigade_member 2 1 brigade_member_reachable). Defined.

(** ** What the code allows *)

(** [offboard_person] does not ask for the state of the person: who was anonymized can be
    offboarded again, is a departed person from then on and is kept for another period. *)
Example offboarding_reopens_the_forgotten :
  (pe_lifecycle_status <$> db_people brigade_forgotten !! 1%N) = Some PERSON_ANONYMIZED
  ∧ (let s := order (OffboardPerson 2 1) (brigade_later brigade_forgotten) in
     (λ p, (pe_lifecycle_status p, bool_decide (pe_departed_at p = Some (db_clock s))))
       <$> db_people s !! 1%N) = Some (PERSON_DEPARTED, true).
Proof. split; vm_compute; reflexivity. Qed.

(** The two conditions of [visible_to_user] may be met by two assignments of a person: the
    station whose own assignment has expired still sees the person. *)
Example expired_guests_stay_visible :
  ((visible_to_user brigade_guest 9 1).*1 = [1%N])
  ∧ _station_can_manage_visible_person brigade_guest 9 1 2 = false.
Proof. split; vm_compute; reflexivity. Qed.

Lemma on_vehicle_open vid a : on_vehicle vid a = true ↔
  va_vehicle a = vid ∧ open_assignment (va_tablet a) a = true.
Proof.
  unfold on_vehicle, open_assignment. rewrite !andb_true_iff, !N.eqb_eq. tauto.
Qed.

Lemma open_on_vehicle_spec vid tid a : open_on_vehicle vid tid a = true ↔
  va_tablet a = tid ∧ on_vehicle vid a = true.
Proof.
  unfold open_on_vehicle, on_vehicle, open_assignment. rewrite !andb_true_iff, !N.eqb_eq. tauto.
Qed.

(** The assignment of a tablet to a vehicle that was retired. *)
Definition ended (now : Z) (actor : N) (a : TabletVehicleAssignment) : TabletVehicleAssignment :=
  a <| va_valid_until := Some now |> <| va_ended_at := Some now |> <| va_ended_by := Some actor |>
    <| va_end_reason := "VEHICLE_RETIRED" |>.

(** The tables but for the assignments, the grants and the audit trail. *)
Definition fleet_tables (s : Db) :=
  (db_tablets s, db_installations s, db_invitations s, db_vehicles s, db_clock s).

(** The assignments to [vid] of the tablets of [ids] are ended, the others untouched. *)
Definition left_vehicle (vid actor : N) (now : Z) (ids : list N) (s s' : Db) : Prop :=
  fleet_tables s' = fleet_tables s
  ∧ (∀ iid, holds_key s' iid → holds_key s iid)
  ∧ (∀ k a, db_vehicle_assignments s !! k = Some a → db_vehicle_assignments s' !! k =
       Some (if bool_decide (va_tablet a ∈ ids) && on_vehicle vid a then ended now actor a else a))
  ∧ (∀ k, db_vehicle_assignments s !! k = None → db_vehicle_assignments s' !! k = None)
  ∧ (∀ k a iid i, db_vehicle_assignments s !! k = Some a → va_tablet a ∈ ids →
       on_vehicle vid a = true → db_installations s !! iid = Some i → in_tablet i = va_tablet a →
       current i → ¬ holds_key s' iid).

Lemma ended_not_on vid now actor a : on_vehicle vid (ended now actor a) = false.
Proof. unfold on_vehicle, ended. cbn. rewrite andb_false_r. reflexivity. Qed.

Lemma left_nothing vid actor now tid s :
  (∀ k a, db_vehicle_assignments s !! k = Some a → va_tablet a = tid → on_vehicle vid a = false) →
  left_vehicle vid actor now [tid] s s.
Proof.
  intros Hno. split_and!; [reflexivity|auto| |auto|].
  - intros k a Hk. rewrite Hk. destruct (bool_decide_reflect (va_tablet a ∈ [tid])) as [Hin|];
      [|reflexivity]. apply list_elem_of_singleton in Hin. rewrite (Hno k a Hk Hin). reflexivity.
  - intros k a iid i Hk Hin%list_elem_of_singleton Ho. rewrite (Hno k a Hk Hin) in Ho. discriminate.
Qed.

Lemma wlp_leave actor vid vehicle now tid s :
  one_open_per_tablet (db_vehicle_assignments s) →
  wlp (leave_retired_vehicle actor vid vehicle now tid) s
    (λ _ s', left_vehicle vid actor now [tid] s s').
Proof.
  intros U. unfold leave_retired_vehicle. apply wlp_skip; [auto with preserves|]. intros t _.
  apply wlp_skip; [auto with preserves|]. intros [[aid a]|] Ef; injection Ef as Ef.
  2:{ apply wlp_ret, left_nothing. intros k a Hk Et. apply order_by_head_None in Ef.
      destruct (on_vehicle vid a) eqn:Ho; [|reflexivity].
      assert (Hin : (k, a) ∈ rows (db_vehicle_assignments s) (λ _ a, open_on_vehicle vid tid a))
        by (apply rows_elem; rewrite open_on_vehicle_spec; auto).
      rewrite Ef in Hin. inversion Hin. }
  apply order_by_head_Some in Ef as [Ef _]. apply rows_elem in Ef as [Ha Ho].
  apply open_on_vehicle_spec in Ho as [Et Ho]. apply wlp_bind, wlp_guard. intros _.
  apply wlp_bind, wlp_save. intros a0 H0. rewrite Ha in H0. injection H0 as <-.
  set (s0 := s <| db_vehicle_assignments ::= _ |>).
  apply wlp_skip; [unfold installations_of; auto with preserves|]. intros l [= <-].
  apply wlp_bind, wlp_for_each_revoke. intros s1 E1 K1.
  eapply (wlp_frame (λ s, (fleet_tables s, db_key_grants s, db_generation_key_grants s,
    db_vehicle_assignments s))); [frame|].
  intros u s2 [= F1 F2 F3 F4 F5 G1 G2 G3].
  assert (HK : ∀ j, holds_key s2 j → holds_key s j ∧ j ∉
      (rows (db_installations s0) (λ _ i, N.eqb (in_tablet i) tid && current_status (in_status i))).*1).
  { intros j Hj. apply K1. unfold holds_key in *. rewrite G1, G2 in Hj. exact Hj. }
  assert (E : fleet_tables s1 = fleet_tables s ∧ db_vehicle_assignments s1 = <[aid := ended now actor a]>
      (db_vehicle_assignments s)).
  { split; [exact (f_equal fleet_tables E1)|exact (f_equal db_vehicle_assignments E1)]. }
  destruct E as [E2 E3]. split_and!.
  - rewrite <- E2. unfold fleet_tables. congruence.
  - intros j Hj. apply HK, Hj.
  - intros k b Hk. rewrite G3, E3. destruct (decide (k = aid)) as [->|Hne].
    + rewrite Ha in Hk. injection Hk as <-. rewrite lookup_insert_eq, Ho.
      rewrite bool_decide_eq_true_2 by (rewrite Et; left). reflexivity.
    + rewrite lookup_insert_ne by congruence. rewrite Hk.
      destruct (bool_decide_reflect (va_tablet b ∈ [tid])) as [Hin|]; [|reflexivity].
      apply list_elem_of_singleton in Hin. destruct (on_vehicle vid b) eqn:Hb; [|reflexivity].
      apply on_vehicle_open in Ho as [_ Ho], Hb as [_ Hb]. destruct Hne.
      eapply U; [exact Hk|exact Ha|congruence|exact Hb|exact Ho].
  - intros k Hk. rewrite G3, E3, lookup_insert_ne; [exact Hk|]. congruence.
  - intros k b iid i Hk Hin%list_elem_of_singleton _ Hi Eti Hc Hj. apply HK in Hj as [_ Hj].
    apply Hj, list_elem_of_fmap. exists (iid, i). split; [reflexivity|]. apply rows_elem.
    split; [exact Hi|]. rewrite Eti, Hin, N.eqb_refl. exact Hc.
Qed.

Lemma left_one_open vid actor now ids s s' :
  left_vehicle vid actor now ids s s' → one_open_per_tablet (db_vehicle_assignments s) →
  one_open_per_tablet (db_vehicle_assignments s').
Proof.
  intros (_ & _ & H3 & H4 & _) U.
  assert (K : ∀ k a', db_vehicle_assignments s' !! k = Some a' → open_assignment (va_tablet a') a' = true →
      db_vehicle_assignments s !! k = Some a').
  { intros k a' Hk Ho. destruct (db_vehicle_assignments s !! k) as [a|] eqn:E;
      [|rewrite (H4 k E) in Hk; discriminate].
    rewrite (H3 k a E) in Hk. injection Hk as <-. destruct (_ && _); [|reflexivity].
    unfold open_assignment, ended in Ho. cbn in Ho. rewrite andb_false_r in Ho. discriminate. }
  intros k k' a a' Hk Hk' Et Ho Ho'. eapply U; eauto.
Qed.

Lemma left_trans vid actor now t ids s s1 s2 :
  left_vehicle vid actor now [t] s s1 → left_vehicle vid actor now ids s1 s2 →
  left_vehicle vid actor now (t :: ids) s s2.
Proof.
  intros (A1 & A2 & A3 & A4 & A5) (B1 & B2 & B3 & B4 & B5). split_and!.
  - congruence.
  - auto.
  - intros k a Hk. specialize (A3 k a Hk). rewrite (B3 k _ A3).
    destruct (bool_decide_reflect (va_tablet a ∈ [t])) as [Hin|Hnin]; cbn.
    + apply list_elem_of_singleton in Hin. rewrite (bool_decide_eq_true_2 (va_tablet a ∈ t :: ids))
        by (rewrite Hin; left). destruct (on_vehicle vid a) eqn:Ho; cbn.
      * rewrite ended_not_on, andb_false_r. reflexivity.
      * rewrite Ho, andb_false_r. reflexivity.
    + rewrite list_elem_of_singleton in Hnin.
      rewrite (bool_decide_ext (va_tablet a ∈ t :: ids) (va_tablet a ∈ ids)); [reflexivity|].
      rewrite elem_of_cons. tauto.
  - auto.
  - intros k a iid i Hk Hin Ho Hi Et Hc Hj. injection A1 as _ Ei _ _ _.
    destruct (decide (va_tablet a = t)) as [E|Hne].
    + eapply A5; [exact Hk|rewrite E; left|exact Ho|exact Hi|exact Et|exact Hc|auto].
    + assert (Hin' : va_tablet a ∈ ids) by (apply elem_of_cons in Hin as [?|?]; [contradiction|assumption]).
      specialize (A3 k a Hk). rewrite bool_decide_eq_false_2 in A3
        by (rewrite list_elem_of_singleton; exact Hne).
      eapply B5; [exact A3|exact Hin'|exact Ho|rewrite Ei; exact Hi|exact Et|exact Hc|exact Hj].
Qed.

Lemma wlp_leave_all actor vid vehicle now ids s :
  one_open_per_tablet (db_vehicle_assignments s) →
  wlp (for_each ids (leave_retired_vehicle actor vid vehicle now)) s
    (λ _ s', left_vehicle vid actor now ids s s').
Proof.
  revert s. induction ids as [|t ids IH]; intros s U; cbn [for_each].
  - apply wlp_ret. split_and!; [reflexivity|auto| |auto|].
    + intros k a Hk. rewrite bool_decide_eq_false_2 by (inversion 1). exact Hk.
    + intros k a iid i _ Hin. inversion Hin.
  - apply wlp_bind. eapply wlp_mono; [apply wlp_leave, U|]. intros u s1 L1.
    eapply wlp_mono; [apply IH, (left_one_open _ _ _ _ _ _ L1 U)|]. intros v s2 L2.
    exact (left_trans _ _ _ _ _ _ _ _ L1 L2).
Qed.

(** What the rest of the retirement does not touch. *)
Definition tablet_tables (s : Db) :=
  (db_tablets s, db_installations s, db_invitations s, db_vehicle_assignments s,
   db_key_grants s, db_generation_key_grants s).

(** A vehicle that is retired is out of service and empty: it has no open assignment
    left, a tablet that was in it holds no key with its current installation, its other
    assignments and those of other vehicles are as they were, and no other vehicle, no
    tablet and no installation changes. *)
Theorem retired_vehicles_are_empty actor vid v s s' :
  one_open_per_tablet (db_vehicle_assignments s) → db_vehicles s !! vid = Some v →
  retire_vehicle actor vid s = (Val tt, s') →
  db_vehicles s' = <[vid := v <| ve_active := false |>]> (db_vehicles s)
  ∧ ve_active v = true
  ∧ (∀ k a, db_vehicle_assignments s' !! k = Some a → on_vehicle vid a = false)
  ∧ (∀ k a, db_vehicle_assignments s !! k = Some a → on_vehicle vid a = false →
       db_vehicle_assignments s' !! k = Some a)
  ∧ (∀ k a iid i, db_vehicle_assignments s !! k = Some a → on_vehicle vid a = true →
       db_installations s !! iid = Some i → in_tablet i = va_tablet a → current i →
       ¬ holds_key s' iid)
  ∧ db_tablets s' = db_tablets s ∧ db_installations s' = db_installations s.
Proof.
  intros U Hv E. refine (wlp_val _ s tt s' (λ _ s', _) E _). clear E s'.
  unfold retire_vehicle. apply wlp_atomic, wlp_bind, wlp_get_obj. intros w Hw.
  rewrite Hv in Hw. injection Hw as <-. cbv zeta. apply wlp_skip; [auto with preserves|]. intros [] _.
  apply wlp_bind, wlp_guard. intros Hact. apply wlp_skip; [auto with preserves|]. intros now [= <-].
  apply wlp_skip; [auto with preserves|]. intros l [= <-].
  apply wlp_bind. eapply wlp_mono; [apply wlp_leave_all, U|].
  intros [] s1 (L1 & L2 & L3 & L4 & L5). apply wlp_bind, wlp_save. intros v1 Hv1.
  injection L1 as E1 E2 E3 E4 E5. rewrite E4, Hv in Hv1. injection Hv1 as <-.
  eapply (wlp_frame (λ s, (tablet_tables s, db_vehicles s))); [frame|].
  intros _ s2 [= F1 F2 F3 F4 F5 F6 F7].
  assert (Hon : ∀ k a, db_vehicle_assignments s !! k = Some a → on_vehicle vid a = true →
      va_tablet a ∈ (λ r, va_tablet r.2) <$> order_by (λ r : N * TabletVehicleAssignment,
        [Z.of_N (va_tablet r.2)]) (rows (db_vehicle_assignments s) (λ _ a, on_vehicle vid a))).
  { intros k a Hk Ho. apply list_elem_of_fmap. exists (k, a). split; [reflexivity|].
    apply order_by_elem, rows_elem. auto. }
  split_and!.
  - rewrite F7. cbn. rewrite E4. reflexivity.
  - exact Hact.
  - intros k a Hk. rewrite F4 in Hk. cbn in Hk.
    destruct (db_vehicle_assignments s !! k) as [b|] eqn:Hb; [|rewrite (L4 k Hb) in Hk; discriminate].
    rewrite (L3 k b Hb) in Hk. destruct (on_vehicle vid b) eqn:Ho.
    + rewrite bool_decide_eq_true_2 in Hk by exact (Hon k b Hb Ho). injection Hk as <-. apply ended_not_on.
    + rewrite andb_false_r in Hk. injection Hk as <-. exact Ho.
  - intros k a Hk Ho. rewrite F4. cbn. rewrite (L3 k a Hk), Ho, andb_false_r. reflexivity.
  - intros k a iid i Hk Ho Hi Et Hc Hj.
    eapply L5; [exact Hk|exact (Hon k a Hk Ho)|exact Ho|exact Hi|exact Et|exact Hc|].
    unfold holds_key in *. rewrite F5, F6 in Hj. exact Hj.
  - rewrite F1. exact E1.
  - rewrite F2. exact E2.
Qed.

(** The stations, with what they are closed by. *)
Definition station_tables (s : Db) := (db_stations s, db_vehicles s, db_personnel_assignments s).

Lemma station_says_active x f b : station_says x f b = true → Bool.eqb (st_active x) b = true.
Proof. unfold station_says. intros E. apply andb_true_iff in E as [_ E]. exact E. Qed.

(** An edit that takes an active station out of service changes nothing but that:
    whatever else the form says is dropped, and the station has neither an active vehicle
    nor an unlimited assignment of a person. *)
Theorem closing_a_station_drops_other_edits actor sid form x s s' :
  update_station actor sid form false s = (Val tt, s') → db_stations s !! sid = Some x →
  st_active x = true →
  db_stations s' = <[sid := x <| st_active := false |>]> (db_stations s)
  ∧ (∀ k v, db_vehicles s !! k = Some v → ve_station v = sid → ve_active v = false)
  ∧ (∀ k a, db_personnel_assignments s !! k = Some a → ps_station a = sid →
       ps_valid_until a ≠ None ∨ ps_ended_at a ≠ None).
Proof.
  intros E Hx Ha. refine (wlp_val _ s tt s' (λ _ s', _) E _). clear E s'.
  unfold update_station. apply wlp_atomic, wlp_bind, wlp_get_obj. intros y Hy.
  rewrite Hx in Hy. injection Hy as <-. cbv zeta. apply wlp_skip; [auto with preserves|]. intros [] _.
  destruct (station_says _ _ _) eqn:Es.
  { apply station_says_active in Es. rewrite Ha in Es. discriminate. }
  rewrite Ha. cbn [negb andb]. apply wlp_bind. unfold deactivate_station.
  apply wlp_atomic, wlp_skip; [preserve|]. intros y _.
  apply wlp_skip; [preserve|]. intros b [= Eb]. apply wlp_bind, wlp_guard. intros Hb.
  apply negb_true_iff in Hb. rewrite <- Eb, exists_row_false in Hb.
  apply wlp_skip; [preserve|]. intros c [= Ec]. apply wlp_bind, wlp_guard. intros Hc.
  apply negb_true_iff in Hc. rewrite <- Ec, exists_row_false in Hc.
  apply wlp_save. intros z Hz. rewrite Hx in Hz. injection Hz as <-.
  eapply (wlp_frame db_stations); [frame|]. intros u s1 E1. rewrite E1. split_and!.
  - reflexivity.
  - intros k v Hk Ev. specialize (Hb k v Hk). cbv beta in Hb. rewrite Ev, N.eqb_refl in Hb. exact Hb.
  - intros k a Hk Ea. specialize (Hc k a Hk). cbv beta in Hc. rewrite Ea, N.eqb_refl in Hc.
    destruct (ps_valid_until a), (ps_ended_at a); try discriminate Hc; [left|left|right]; discriminate.
Qed.

Section deletion.
Context `{ProtectedRows}.

Lemma protected_by_audit s sid e :
  e ∈ db_audit s → ev_station e = Some sid → station_protected s sid = true.
Proof.
  intros He Es. unfold station_protected. apply orb_true_iff. left. apply orb_true_iff. right.
  apply existsb_exists. exists e. split; [apply list_elem_of_In, He|].
  unfold is_key. rewrite Es. apply bool_decide_eq_true_2. reflexivity.
Qed.

(** A station that [create_station] created can not be deleted later, however empty
    it is: the event of its creation names it and protects it. *)
Theorem created_stations_are_never_deleted actor did form active sid s s1 s2 actor' :
  create_station actor did form active s = (Val sid, s1) → recorded s1 s2 →
  ∃ e, delete_station actor' sid s2 = (Exc e, s2).
Proof.
  intros E Hr.
  assert (K : ∃ e, e ∈ db_audit s1 ∧ ev_station e = Some sid).
  { refine (wlp_val _ s sid s1 (λ sid s1, _) E _). unfold create_station.
    apply wlp_atomic, wlp_skip; [auto with preserves|]. intros [] _. cbv zeta.
    apply wlp_bind, wlp_create. intros k _. apply wlp_bind. unfold organization_event, record_event.
    unfold wlp at 1, modify. apply wlp_bind.
    eapply wlp_mono; [apply preserves_wlp, recorded_department_mutation|]. intros u s3 R.
    apply wlp_ret. eexists. split; [eapply elem_of_prefix; [|exact R]|].
    - cbn. apply elem_of_app. right. left.
    - reflexivity. }
  destruct K as (e & He & Es). apply atomic_refused. apply wlp_bind, wlp_get_obj. intros x _.
  cbv zeta. apply wlp_skip; [auto with preserves|]. intros [] _. apply wlp_skip; [preserve|].
  intros b [= <-]. apply wlp_bind, wlp_guard. intros Hb. apply negb_true_iff in Hb.
  rewrite (protected_by_audit s2 sid e) in Hb; [discriminate| |exact Es].
  eapply elem_of_prefix; [exact He|exact Hr].
Qed.
End deletion.

(** ** The theorems on the small fleet and the small brigade *)

Lemma fleet_one_open : one_open_per_tablet (db_vehicle_assignments (fleet_later fleet_active)).
Proof.
  assert (K : ∀ k a, db_vehicle_assignments (fleet_later fleet_active) !! k = Some a → k = 1%N).
  { intros k a Hk. assert (E : (map_to_list (db_vehicle_assignments (fleet_later fleet_active))).*1 = [1%N])
      by (vm_compute; reflexivity).
    apply list_elem_of_singleton. rewrite <- E. apply list_elem_of_fmap. exists (k, a).
    split; [reflexivity|]. apply elem_of_map_to_list, Hk. }
  intros k k' a a' Hk Hk' _ _ _. rewrite (K k a Hk), (K k' a' Hk'). reflexivity.
Qed.

Lemma retired_vehicles_are_empty_witness :
  ∃ s', retire_vehicle 1 1 (fleet_later fleet_active) = (Val tt, s')
    ∧ ∀ k a, db_vehicle_assignments s' !! k = Some a → on_vehicle 1 a = false.
Proof.
  destruct (row_with ve_active (db_vehicles (fleet_later fleet_active) !! 1%N) true) as (v & Hv & _);
    [vm_compute; reflexivity|].
  destruct (retire_vehicle 1 1 (fleet_later fleet_active)) as [[[]|e] s'] eqn:E.
  - exists s'. split; [reflexivity|].
    apply (retired_vehicles_are_empty 1 1 v (fleet_later fleet_active) s' fleet_one_open Hv E).
  - exfalso. apply (f_equal fst) in E. vm_compute in E. discriminate E.
Defined.

Lemma closing_a_station_drops_other_edits_witness :
  ∃ s' x, update_station 2 1 (mkStationForm "South" "S" "" "" "" "") false brigade_station
      = (Val tt, s')
    ∧ db_stations s' !! 1%N = Some x ∧ st_name x = "North".
Proof.
  destruct (row_with (λ x, (st_active x, st_name x)) (db_stations brigade_station !! 1%N)
    (true, "North")) as (x & Hx & Ex); [vm_compute; reflexivity|]. injection Ex as Ea En.
  destruct (update_station 2 1 (mkStationForm "South" "S" "" "" "" "") false brigade_station)
    as [[[]|e] s'] eqn:E.
  - destruct (closing_a_station_drops_other_edits 2 1 _ x brigade_station s' E Hx Ea) as [Es _].
    exists s'. eexists. split; [reflexivity|]. rewrite Es, lookup_insert_eq.
    split; [reflexivity|exact En].
  - exfalso. apply (f_equal fst) in E. vm_compute in E. discriminate E.
Defined.

Lemma created_stations_are_never_deleted_witness :
  ∃ e, delete_station 2 1 brigade_station = (Exc e, brigade_station).
Proof.
  destruct (create_station 2 1 (mkStationForm " North " "N" "Main street" "1" "1010" "Town") true
    office_anna) as [[sid|e] s1] eqn:E.
  - assert (brigade_station = s1) as ->.
    { change brigade_station with (ignore (create_station 2 1
        (mkStationForm " North " "N" "Main street" "1" "1010" "Town") true) office_anna).2.
      unfold ignore, bind. rewrite E. reflexivity. }
    assert (sid = 1%N) as -> by (apply (f_equal fst) in E; vm_compute in E; congruence).
    apply (created_stations_are_never_deleted 2 1 _ true 1 office_anna s1 s1 2 E). apply reflexivity.
  - exfalso. apply (f_equal fst) in E. vm_compute in E. discriminate E.
Defined.
