(* ===== verification/TabletTheorems.v ===== *)
(** What the tablet system guarantees in every store it can reach, along every run,
    and of the adoption protocol. *)
From S2P Require Import Prelude Text Versions Models Registry Lifecycle Store Authorization.
From S2P Require Import Fingerprint Artifacts ApplicationSecrets Tablets TabletQueries.
From S2P Require Import Manifests Grants.
From S2P Require Import Restore Queue Assignments Build Totality TabletInv.
From S2P Require Import TabletServices DeliveryInv TabletSystem Demo TabletDemo.





Section theorems.
Context `{Settings} `{Hash} `{HpkeSuite} `{Secrets} `{DeliverySettings} `{Credentials}.

(** C3: In every reachable store a key grant that is not revoked belongs to a current
    installation, and that installation runs on a tablet that is in stock or in
    service: a lost or retired tablet and a withdrawn installation hold no key. *)
Theorem only_current_installations_hold_keys s iid :
  tablet_reachable s → holds_key s iid →
  ∃ i t, db_installations s !! iid = Some i ∧ current i
    ∧ db_tablets s !! in_tablet i = Some t ∧ asset_available (tb_status t) = true.
Proof.
  intros [R I V G]%tablet_reachable_inv (i & Hi & Hc)%G.
  destruct (ins_tablet _ _ I _ _ Hi Hc) as (t & Ht & Ha). exists i, t. auto.
Qed.

(** C18: In every reachable store two current installations are on different tablets,
    two installations have different identities, and two tablets of a department
    differ in name and, when they have one, in asset number. *)
Theorem fleet_is_unambiguous s :
  tablet_reachable s →
  (∀ k k' i i', db_installations s !! k = Some i → db_installations s !! k' = Some i' → k ≠ k' →
     in_installation_uuid i ≠ in_installation_uuid i'
     ∧ (in_tablet i = in_tablet i' → current i → ¬ current i'))
  ∧ (∀ k k' t t', db_tablets s !! k = Some t → db_tablets s !! k' = Some t' → k ≠ k' →
     tb_department t = tb_department t' → tb_display_name t ≠ tb_display_name t'
     ∧ (tb_asset_number t ≠ "" → tb_asset_number t ≠ tb_asset_number t')).
Proof.
  intros [[_ N U] [Q C _] _ _]%tablet_reachable_inv. split.
  - intros k k' i i' Hi Hi' Hk. split; [|intros E Hc Hc']; [intros E|]; apply Hk; eauto.
  - intros k k' t t' Ht Ht' Hk E. split; [|intros Hn]; intros E'; apply Hk; eauto.
Qed.

(** C19: Along every run a tablet keeps its row, department, name and number and its
    status only follows the transitions of the code, so that a retired tablet stays
    retired; an installation keeps its identity, its tablet and its public key, and
    the row of an installation that was withdrawn never changes again. *)
Theorem fleet_history_is_kept s s' :
  tablet_reachable s → rtc tablet_step s s' →
  (∀ k t, db_tablets s !! k = Some t → ∃ t', db_tablets s' !! k = Some t'
     ∧ tb_department t' = tb_department t ∧ tb_display_name t' = tb_display_name t
     ∧ tb_asset_number t' = tb_asset_number t ∧ rtc asset_step (tb_status t) (tb_status t')
     ∧ (tb_status t = TABLET_RETIRED → tb_status t' = TABLET_RETIRED))
  ∧ (∀ k i, db_installations s !! k = Some i → ∃ i', db_installations s' !! k = Some i'
     ∧ in_installation_uuid i' = in_installation_uuid i ∧ in_tablet i' = in_tablet i
     ∧ in_hpke_public_key i' = in_hpke_public_key i ∧ (¬ current i → i' = i)).
Proof.
  intros I%tablet_reachable_inv Hr. destruct (evolves_run _ _ Hr I) as (_ & Hi & Ht).
  split; [|exact Hi]. intros k t Hk. destruct (Ht k t Hk) as (t' & Hk' & E1 & E2 & E3 & E4).
  exists t'. split_and!; [exact Hk'|assumption..|]. intros E. rewrite E in E4.
  inversion E4 as [|? st ? Hs]; subst; [congruence|]. inversion Hs.
Qed.

(** ** Adoption *)

(** C12: The transaction that completes an adoption does what [adopted] says: it
    succeeds only for an open, unexpired request with fewer than five failed proofs,
    whose invitation is neither used nor revoked and whose tablet is operational
    and assigned; it creates exactly one installation, with the identity and key of
    the request, a lease of the department's length and a credential of which only
    the digest is stored; it marks the tablet's current installation as replaced
    and takes every key from it; and it uses the invitation up. *)
Theorem adoption_is_as_specified rid s r s' :
  _complete_successful_adoption rid s = (Val r, s') → adopted s rid r s'.
Proof. intros E. exact (wlp_elim _ _ _ _ _ (wlp_complete rid s) E). Qed.




(** In every reachable store an invitation with five failed proofs is revoked, and
    a request on it can not be completed any more: the transaction raises and leaves
    the store as it was, with the right answer too. *)
Theorem five_failed_proofs_end_an_invitation s rid r iv v :
  tablet_reachable s → db_adoption_requests s !! rid = Some r → ar_invitation r = Some iv →
  db_invitations s !! iv = Some v → MAX_FAILED_ATTEMPTS ≤ iv_failed_attempt_count v →
  iv_revoked_at v ≠ None ∧ ∃ e, _complete_successful_adoption rid s = (Exc e, s).
Proof.
  intros [_ _ V _]%tablet_reachable_inv Hr Ei Hv Hf. pose proof (inv_attempts _ V _ _ Hv Hf) as K.
  split; [exact K|]. destruct (_complete_successful_adoption rid s) as [[a|e] s'] eqn:E.
  - destruct (wlp_elim _ _ _ _ _ (wlp_complete rid s) E). congruence.
  - exists e. apply atomic_Exc in E as ->. reflexivity.
Qed.
End theorems.

(** ** The theorems on the small fleet *)

Lemma only_current_installations_hold_keys_witness :
  holds_key fleet_delivered 1 ∧ ∃ i t, db_installations fleet_delivered !! 1%N = Some i
    ∧ current i ∧ db_tablets fleet_delivered !! in_tablet i = Some t
    ∧ asset_available (tb_status t) = true.
Proof.
  assert (Hk : holds_key fleet_delivered 1).
  { left. destruct (row_with (λ g, (kg_app_installation g, kg_status g))
      (db_key_grants fleet_delivered !! 1%N) (1%N, GRANT_READY)) as (g & Hg & E);
      [vm_compute; reflexivity|]. injection E as E1 E2. exists 1%N, g.
    split_and!; [exact Hg|exact E1|congruence]. }
  split; [exact Hk|].
  exact (only_current_installations_hold_keys _ _ fleet_delivered_reachable Hk).
Defined.

Lemma fleet_is_unambiguous_witness :
  ∃ t t', db_tablets fleet_pair !! 1%N = Some t ∧ db_tablets fleet_pair !! 2%N = Some t'
    ∧ tb_display_name t ≠ tb_display_name t' ∧ tb_asset_number t ≠ tb_asset_number t'.
Proof.
  destruct (row_with (λ t, (tb_department t, String.eqb (tb_asset_number t) ""))
    (db_tablets fleet_pair !! 1%N) (1%N, false)) as (t & Ht & E); [vm_compute; reflexivity|].
  destruct (row_with tb_department (db_tablets fleet_pair !! 2%N) 1%N) as (t' & Ht' & E');
    [vm_compute; reflexivity|].
  injection E as E1 E2. apply String.eqb_neq in E2. exists t, t'.
  destruct (proj2 (fleet_is_unambiguous fleet_pair fleet_pair_reachable) 1%N 2%N t t' Ht Ht')
    as [D N]; [lia|congruence|]. auto.
Defined.

Lemma fleet_history_is_kept_witness :
  ∃ t t', db_tablets fleet_assigned !! 1%N = Some t ∧ db_tablets fleet_active !! 1%N = Some t'
    ∧ rtc asset_step (tb_status t) (tb_status t').
Proof.
  assert (Hr : rtc tablet_step fleet_assigned fleet_active).
  { do 4 (eapply rtc_r; [|apply do_step]). reflexivity. }
  destruct (row_with (λ _, tt) (db_tablets fleet_assigned !! 1%N) tt) as (t & Ht & _);
    [vm_compute; reflexivity|].
  destruct (proj1 (fleet_history_is_kept fleet_assigned fleet_active fleet_assigned_reachable Hr)
    1%N t Ht) as (t' & Ht' & _ & _ & _ & Hs & _).
  exists t, t'. auto.
Defined.

Lemma adoption_is_as_specified_witness :
  ∃ credential s', adopted fleet_requested 1 (1%N, credential) s'.
Proof.
  destruct (_complete_successful_adoption 1 fleet_requested) as [[[k c]|e] s'] eqn:E.
  - assert (k = 1%N) as -> by (apply (f_equal fst) in E; vm_compute in E; congruence).
    exists c, s'. exact (adoption_is_as_specified 1 fleet_requested (1%N, c) s' E).
  - exfalso. apply (f_equal fst) in E. vm_compute in E. discriminate.
Defined.


Lemma five_failed_proofs_end_an_invitation_witness :
  ∃ s e, tablet_reachable s ∧ _complete_successful_adoption 1 s = (Exc e, s).
Proof.
  set (fail := do (CompleteAdoption 1 "no" true)).
  set (s := fail (fail (fail (fail (fail fleet_requested))))).
  assert (Hr : tablet_reachable s).
  { do 5 apply do_reachable. exact fleet_requested_reachable. }
  destruct (row_with ar_invitation (db_adoption_requests s !! 1%N) (Some 1%N)) as (r & Hq & Ei);
    [vm_compute; reflexivity|].
  destruct (row_with iv_failed_attempt_count (db_invitations s !! 1%N) 5) as (v & Hv & Ef);
    [vm_compute; reflexivity|].
  destruct (five_failed_proofs_end_an_invitation s 1 r 1 v Hr Hq Ei Hv) as (_ & e & E).
  - rewrite Ef. done.
  - exists s, e. split; [exact Hr|exact E].
Defined.
