(* ===== verification/LeaseTheorems.v ===== *)
(** Tablets and their installations: numbers are always found, a tablet is assigned to one
    vehicle at a time, and what installations may do on their own: credentials, the
    authorization lease, and how leases end. *)
From Stdlib Require Import Ascii.
From S2P Require Import Prelude Text Models Registry Store Fingerprint ApplicationSecrets.
From S2P Require Import Authorization Versions Lifecycle Artifacts Tablets TabletQueries.
From S2P Require Import Manifests.
From S2P Require Import Grants Restore Queue Assignments Build Demo Totality TabletInv.
From S2P Require Import TabletServices DeliveryInv TabletSystem TabletDemo.




(** What an assignment is after the tablet got another one at [effective]. *)
Definition handed_over (tid : N) (effective now : Z) (a a' : TabletVehicleAssignment) : Prop :=
  if open_assignment tid a
  then va_valid_from a < effective ∧ va_valid_until a' = Some effective
       ∧ va_ended_at a' = Some now ∧ va_vehicle a' = va_vehicle a
  else a' = a.

(** The authorization of a row or of the object that stands for it, when [i] was
    the row of the installation at the start of a check-in: as it was, or renewed
    for an active tablet of an active department because it was stale or about to
    run out. *)
Definition lease_kept_or_due (i : AppInstallation) (t : Tablet) (d : Department) (now : Z)
    (j : AppInstallation) : Prop :=
  in_authorization_valid_until j = in_authorization_valid_until i
  ∨ (in_authorization_valid_until j = lease_target d now
     ∧ tb_status t = TABLET_ACTIVE ∧ dept_active d = true
     ∧ (in_status i = INSTALLATION_STALE
        ∨ in_authorization_valid_until i - now ≤ AUTO_RENEW_THRESHOLD)).

(** What the check-in of installation [iid] keeps in mind: its row and the rest. *)
Definition checking_in (iid : N) (L : AppInstallation → Prop) (s s' : Db) : Prop :=
  (∃ j, db_installations s' !! iid = Some j ∧ L j)
  ∧ (∀ k, k ≠ iid → db_installations s' !! k = db_installations s !! k)
  ∧ db_departments s' = db_departments s.

(** The object was stale, or its lease was about to run out. *)
Definition due (i x : AppInstallation) (now : Z) : Prop :=
  in_status x = INSTALLATION_STALE → in_status i = INSTALLATION_STALE
    ∨ in_authorization_valid_until i - now ≤ AUTO_RENEW_THRESHOLD.

(** An expired lease, ended. *)
Definition expired (now : Z) (i : AppInstallation) : bool :=
  bool_decide (in_status i = INSTALLATION_ACTIVE) && (in_authorization_valid_until i <=? now).

Definition ended (now : Z) (i : AppInstallation) : AppInstallation :=
  i <| in_status := INSTALLATION_STALE |> <| in_stale_at := Some now |>.

(** The rows that a withdrawn tablet leaves behind: its installations have no key, its
    invitations are spent and its adoptions cannot be replayed. *)
Definition withdrawn_fleet (tid : N) (now : Z) (s : Db) : Prop :=
  (∀ k i, db_installations s !! k = Some i → in_tablet i = tid → ¬ current i ∧ ¬ holds_key s k)
  ∧ (∀ k v, db_invitations s !! k = Some v → iv_tablet v = tid →
       iv_used_at v ≠ None ∨ iv_revoked_at v ≠ None)
  ∧ (∀ q r, db_adoption_requests s !! q = Some r → replayable s tid now r = false).

Definition fleet_tables (s : Db) :=
  (db_installations s, db_invitations s, db_adoption_requests s, db_key_grants s,
   db_generation_key_grants s).

(** What a withdrawal does to an invitation. *)
Definition withdrawn_invitation (tid : N) (now : Z) (v : AdoptionInvitation) :
    AdoptionInvitation :=
  if N.eqb (iv_tablet v) tid && negb (opt_true (iv_used_at v)) && negb (opt_true (iv_revoked_at v))
  then v <| iv_revoked_at := Some now |> else v.

(** ** Numbers *)








(** ** Allocation *)







(** ** Assignments *)

Lemma wlp_run {A} (m : M Db A) s a s' (Q : A → Db → Prop) :
  m s = (Val a, s') → Q a s' → wlp m s Q.
Proof. unfold wlp. intros ->. auto. Qed.

Lemma validated_pair t v s u s' :
  _validate_tablet_vehicle t v s = (Val u, s') →
  tb_active t = true ∧ ve_active v = true ∧ tb_department t = ve_department v.
Proof.
  unfold _validate_tablet_vehicle, _validate_operational_department. intros E.
  apply bind_Val in E as (d & ? & [_ ->]%get_obj_Val & E).
  apply bind_Val in E as (? & ? & [_ ->]%guard_Val & E).
  apply bind_Val in E as (? & ? & [G ->]%guard_Val & _).
  rewrite !andb_true_iff, N.eqb_eq in G. tauto.
Qed.

Lemma wlp_end_current tid actor effective now s (Q : unit → Db → Prop) o :
  o = head (order_by by_pk (rows (db_vehicle_assignments s) (λ _ a, open_assignment tid a))) →
  (∀ s', (∀ k a, db_vehicle_assignments s !! k = Some a →
     ∃ a', db_vehicle_assignments s' !! k = Some a'
       ∧ (a' = a ∨ handed_over tid effective now a a')) →
     (∀ k, db_vehicle_assignments s' !! k = None → db_vehicle_assignments s !! k = None) →
     Q tt s') →
  wlp (match o with
       | Some (aid, a) => end_vehicle_assignment aid a actor effective now
       | None => ret tt
       end) s Q.
Proof.
  intros Eo HQ. destruct o as [[aid a]|].
  - symmetry in Eo. apply first_row in Eo as [Ha Hopen]. unfold end_vehicle_assignment.
    apply wlp_bind, wlp_guard. intros Hw%Z.ltb_lt. apply wlp_save. intros a' Ha'.
    assert (a' = a) as -> by congruence. apply HQ; intros k; cbn.
    + intros b Hb. destruct (decide (k = aid)) as [->|Hne].
      * assert (b = a) as -> by congruence. eexists. rewrite lookup_insert_eq.
        split; [reflexivity|]. right. unfold handed_over. rewrite Hopen. auto.
      * exists b. rewrite lookup_insert_ne by congruence. auto.
    + destruct (decide (k = aid)) as [->|Hne]; [rewrite lookup_insert_eq; discriminate|].
      rewrite lookup_insert_ne by congruence. auto.
  - apply wlp_ret, HQ; [|auto]. intros k a Ha. exists a. auto.
Qed.

Section assignments.
Context `{Settings} `{Hash}.

(** Assigning a tablet makes the new assignment its only open one: it joins an
    active tablet and an active vehicle of one department; the assignment the tablet
    had is ended at the moment the new one takes effect, which is later than it
    began, and no other assignment changes. *)
Theorem tablets_have_one_vehicle tid vid actor effective_at s aid s' :
  assign_tablet_vehicle tid vid actor effective_at s = (Val aid, s') →
  let effective := default (db_clock s) effective_at in
  (∃ t v, db_tablets s !! tid = Some t ∧ db_vehicles s !! vid = Some v ∧ tb_active t = true
     ∧ ve_active v = true ∧ tb_department t = ve_department v)
  ∧ db_vehicle_assignments s !! aid = None
  ∧ (∃ a, db_vehicle_assignments s' !! aid = Some a ∧ va_vehicle a = vid
       ∧ va_valid_from a = effective ∧ open_assignment tid a = true)
  ∧ (∀ k a, db_vehicle_assignments s' !! k = Some a → open_assignment tid a = true → k = aid)
  ∧ (∀ k a, db_vehicle_assignments s !! k = Some a → ∃ a', db_vehicle_assignments s' !! k = Some a'
       ∧ handed_over tid effective (db_clock s) a a').
Proof.
  cbv zeta. intros E. pattern aid, s'. eapply wlp_val; [exact E|]. clear E aid s'.
  apply wlp_atomic, wlp_bind, wlp_get_obj. intros v Hv. apply wlp_bind, wlp_get_obj. intros t Ht.
  apply wlp_skip; [unfold _authorize_tablet_vehicle_assignment; preserve|intros ? _].
  apply wlp_skip; [unfold _validate_tablet_vehicle, _validate_operational_department; preserve|].
  intros ? (Hta & Hva & Hd)%validated_pair.
  do 3 (apply wlp_bind; eapply wlp_run; [reflexivity|]). apply wlp_bind.
  set (now := db_clock s). set (effective := default now effective_at).
  eapply (wlp_end_current tid actor effective now); [reflexivity|]. intros s1 Hrows Hnone.
  apply wlp_bind. unfold create_vehicle_assignment. apply wlp_bind.
  unfold exists_where, gets at 1, wlp at 1. apply wlp_bind, wlp_guard.
  intros [G%negb_true_iff _]%andb_true_iff. apply wlp_create. intros aid Hk.
  apply wlp_bind, (wlp_frame db_vehicle_assignments); [frame|]. intros ? s2 E2.
  apply wlp_bind, (wlp_frame db_vehicle_assignments); [frame|]. intros ? s3 E3. apply wlp_ret.
  rewrite E2 in E3. clear E2. cbn in E3.
  assert (Hopen : ∀ k a, db_vehicle_assignments s1 !! k = Some a → open_assignment tid a = false).
  { intros k a' Ha'. eapply exists_row_false in G; [|exact Ha']. cbn in G.
    unfold open_assignment at 2 in G. cbn in G. rewrite N.eqb_refl, andb_true_r in G. exact G. }
  split_and!.
  - exists t, v. auto.
  - apply Hnone, Hk.
  - eexists. rewrite E3, lookup_insert_eq. split_and!; [reflexivity..|].
    unfold open_assignment. cbn. rewrite N.eqb_refl. reflexivity.
  - intros k a'. rewrite E3. intros [[-> _]|[_ Ha']]%rows_lookup Ho; [reflexivity|].
    rewrite (Hopen _ _ Ha') in Ho. discriminate.
  - intros k b Hb. destruct (Hrows k b Hb) as (b' & Hb' & Hh). exists b'.
    rewrite E3, lookup_insert_ne by congruence. split; [exact Hb'|].
    destruct Hh as [->|Hh]; [|exact Hh]. unfold handed_over. rewrite (Hopen _ _ Hb'). reflexivity.
Qed.
End assignments.

(** ** The theorems on the small fleet *)


Lemma tablets_have_one_vehicle_witness :
  ∃ s', ∀ k a, db_vehicle_assignments s' !! k = Some a → open_assignment 1 a = true → k = 2%N.
Proof.
  set (s := fleet_later (fleet_active <| db_vehicles ::= <[2%N := mkVehicle 1 1 "Ladder" "" "" true]> |>)).
  destruct (assign_tablet_vehicle 1 2 1 None s) as [[aid|e] s'] eqn:E.
  - exists s'. assert (aid = 2%N) as -> by (apply (f_equal fst) in E; vm_compute in E; congruence).
    apply (tablets_have_one_vehicle 1 2 1 None s 2 s' E).
  - exfalso. apply (f_equal fst) in E. vm_compute in E. discriminate.
Defined.

(** ** Rules *)

Lemma checking_in_save iid L f s s1 :
  checking_in iid L s s1 → (∀ j, L j → L (f j)) →
  ∀ (Q : unit → Db → Prop), (∀ s2, checking_in iid L s s2 → Q tt s2) →
  wlp (save db_installations iid f) s1 Q.
Proof.
  intros ((j & Hj & HL) & Ho & Hd) Hf Q HQ. apply wlp_save. intros j' Hj'. apply HQ.
  assert (j' = j) as -> by congruence. split_and!; cbn.
  - exists (f j). rewrite lookup_insert_eq. auto.
  - intros k Hk. rewrite lookup_insert_ne by congruence. auto.
  - exact Hd.
Qed.

Lemma wlp_const {A} (P : Prop) (m : M Db A) s : P → wlp m s (λ _ _, P).
Proof. intros HP. unfold wlp. destruct (m s) as [[a|e] s']; auto. Qed.

(** A part that leaves installations and departments alone. *)
Lemma checking_in_frame {A} iid L (m : M Db A) s s1 (Q : A → Db → Prop) :
  checking_in iid L s s1 → keeps (λ s, (db_installations s, db_departments s)) m →
  (∀ a s2, checking_in iid L s s2 → Q a s2) → wlp m s1 Q.
Proof.
  intros C Hm HQ. eapply wlp_frame; [exact Hm|]. intros a s2 [= E1 E2]. apply HQ.
  unfold checking_in. rewrite E1, E2. exact C.
Qed.

Section leases.
Context `{Settings} `{Hash} `{HpkeSuite} `{Secrets} `{DeliverySettings} `{Credentials}.

Lemma telemetry_valid_until i te now :
  in_authorization_valid_until (apply_telemetry i te now).1 = in_authorization_valid_until i
  ∧ in_status (apply_telemetry i te now).1 = in_status i.
Proof.
  unfold apply_telemetry, update_app_telemetry. destruct (te_app_version te); [|auto].
  destruct (String.eqb _ _), (te_build_supplied te); auto.
Qed.

Lemma telemetry_fields_valid_until b x j :
  in_authorization_valid_until (telemetry_fields b x j) = in_authorization_valid_until j.
Proof. destruct b; reflexivity. Qed.

(** An active operational tablet is active, in an active department. *)
Lemma active_operational tid t now s u s' :
  _require_active_operational_tablet tid t now s = (Val u, s') →
  tb_status t = TABLET_ACTIVE
  ∧ ∀ d, db_departments s !! tb_department t = Some d → dept_active d = true.
Proof.
  unfold _require_active_operational_tablet. intros E.
  apply bind_Val in E as (d & ? & [Hd ->]%get_obj_Val & E).
  apply bind_Val in E as (? & ? & [E1 ->]%guard_Val & E).
  apply bind_Val in E as (? & ? & [E2 ->]%guard_Val & E).
  apply andb_true_iff in E1 as [E1 _]. apply bool_decide_eq_true_1 in E2.
  split; [exact E2|]. congruence.
Qed.

Lemma renew_due i t d now x :
  lease_kept_or_due i t d now x → lease_kept_or_due i t d now (_renew_lease_if_due x t d now).1.
Proof.
  intros L. unfold _renew_lease_if_due. destruct (negb _) eqn:E; [exact L|].
  apply negb_false_iff in E. unfold _eligible_for_lease_renewal in E.
  rewrite !andb_true_iff, !bool_decide_eq_true in E. destruct E as [[[[_ _] _] Et] Ed].
  destruct (Z.ltb_spec AUTO_RENEW_THRESHOLD (in_authorization_valid_until x - now)); [exact L|].
  right. split_and!; [reflexivity|exact Et|exact Ed|]. destruct L as [L|(_ & _ & _ & L)]; [|exact L].
  right. rewrite <- L. assumption.
Qed.

(** ** Credentials *)

(** Whoever presents a credential that does not match the stored digest, or
    speaks for an installation that was withdrawn, gets an exception from check-in
    and from lease refresh, and the store is left as it was. *)
Theorem bad_credentials_change_nothing iid credential telemetry minimum i s :
  db_installations s !! iid = Some i → (verify_credential i credential = false ∨ ¬ current i) →
  (∃ e, check_in iid credential telemetry minimum s = (Exc e, s))
  ∧ (∃ e, refresh_installation_lease iid credential telemetry minimum s = (Exc e, s)).
Proof.
  intros Hi Hbad.
  assert (K : ∀ (m : M Db AppInstallation),
    wlp (atomic m) s (λ _ _, verify_credential i credential = true ∧ current i) →
    ∃ e, atomic m s = (Exc e, s)).
  { intros m Hm. unfold wlp in Hm. destruct (atomic m s) as [[a|e] s'] eqn:E.
    - destruct Hm as [Hv Hc], Hbad; [congruence|contradiction].
    - apply atomic_Exc in E as ->. eauto. }
  split; apply K; apply wlp_atomic, wlp_bind, wlp_get_obj; intros i' Hi';
    assert (i' = i) as -> by congruence; do 3 (apply wlp_skip; [preserve|intros ? _]);
    apply wlp_bind, wlp_guard; intros Hv; apply wlp_bind, wlp_guard; intros Hc.
  - apply wlp_const. auto.
  - apply wlp_const. apply andb_true_iff in Hc as [Hc%bool_decide_eq_true_1 _].
    unfold current. rewrite Hc. auto.
Qed.

(** ** The lease *)

Notation L i t d now := (lease_kept_or_due i t d now).

Lemma wlp_recover_lease iid i x t d now s s1 (Q : AppInstallation → Db → Prop) :
  checking_in iid (L i t d now) s s1 → db_departments s !! tb_department t = Some d →
  (in_status x = INSTALLATION_STALE → in_status i = INSTALLATION_STALE
     ∨ in_authorization_valid_until i - now ≤ AUTO_RENEW_THRESHOLD) →
  (∀ y s2, L i t d now y → checking_in iid (L i t d now) s s2 → Q y s2) →
  wlp (_recover_stale_installation iid x t d now) s1 Q.
Proof.
  intros C Hd Hx HQ. unfold _recover_stale_installation.
  apply wlp_skip; [unfold _is_current_installation; preserve|intros b _].
  apply wlp_bind, wlp_guard. intros Hs. apply andb_true_iff in Hs as [Hs%bool_decide_eq_true_1 _].
  apply wlp_skip; [unfold _require_active_operational_tablet; preserve|intros u Ha].
  apply active_operational in Ha as [Ht Hda].
  assert (Hact : dept_active d = true).
  { apply Hda. destruct C as (_ & _ & ->). exact Hd. }
  assert (K : ∀ j, in_authorization_valid_until j = lease_target d now → L i t d now j)
    by (intros j Ej; right; auto).
  cbv zeta. apply wlp_bind. eapply checking_in_save; [exact C| |].
  - intros j _. apply K. reflexivity.
  - intros s2 C2. apply wlp_bind. eapply checking_in_frame; [exact C2|frame|].
    intros u' s3 C3. apply wlp_ret, HQ; [apply K; reflexivity|exact C3].
Qed.

Lemma wlp_finish_check_in iid i x t d b now s s1 (Q : AppInstallation → Db → Prop) :
  L i t d now x → checking_in iid (L i t d now) s s1 →
  (∀ y s2, checking_in iid (L i t d now) s s2 → Q y s2) →
  wlp (finish_check_in iid x t d b now) s1 Q.
Proof.
  intros Lx C HQ. pose proof (renew_due _ _ _ _ _ Lx) as Lr. unfold finish_check_in.
  destruct (_renew_lease_if_due x t d now) as [w renewed]. cbn [fst] in Lr.
  apply wlp_bind. eapply checking_in_save; [exact C| |intros s2 C2; apply wlp_ret, HQ, C2].
  intros j Lj. unfold lease_kept_or_due. rewrite telemetry_fields_valid_until.
  destruct renewed; [exact Lr|exact Lj].
Qed.

Lemma wlp_check_in_current iid i x t d te m now s s1 (Q : AppInstallation → Db → Prop) :
  checking_in iid (L i t d now) s s1 → db_departments s !! tb_department t = Some d →
  in_authorization_valid_until x = in_authorization_valid_until i → due i x now →
  (∀ y s2, checking_in iid (L i t d now) s s2 → Q y s2) →
  wlp (check_in_current iid x t d te m now) s1 Q.
Proof.
  intros C Hd Ev Es HQ. unfold check_in_current.
  destruct (telemetry_valid_until x te now) as [Ev' Es'].
  destruct (apply_telemetry x te now) as [y b]. cbn [fst] in Ev', Es'.
  assert (Ly : L i t d now y) by (left; congruence).
  unfold due in Es. rewrite <- Es' in Es.
  apply wlp_bind. eapply checking_in_frame; [exact C|frame|]. intros below s3 C3. destruct below.
  - apply wlp_bind. destruct b; cbn [when]; [|apply wlp_ret, wlp_ret, HQ, C3].
    eapply checking_in_save; [exact C3|intros j Hj; exact Hj|]. intros s4 C4. apply wlp_ret, HQ, C4.
  - apply wlp_bind. destruct (bool_decide _).
    + eapply wlp_recover_lease; [exact C3|exact Hd|exact Es|].
      intros z s4 Lz C4. eapply wlp_finish_check_in; eassumption.
    + apply wlp_skip; [unfold _require_active_operational_tablet; preserve|intros u _].
      apply wlp_ret. eapply wlp_finish_check_in; [exact Ly|exact C3|exact HQ].
Qed.

Lemma wlp_check_in_operational iid i t d te m now s s1 (Q : AppInstallation → Db → Prop) :
  checking_in iid (L i t d now) s s1 → db_departments s !! tb_department t = Some d →
  (∀ y s2, checking_in iid (L i t d now) s s2 → Q y s2) →
  wlp (check_in_operational iid i t d te m now) s1 Q.
Proof.
  intros C Hd HQ. unfold check_in_operational. apply wlp_bind.
  destruct (_ && _) eqn:E.
  - apply andb_true_iff in E as [_ E%Z.leb_le]. unfold _mark_stale. apply wlp_bind.
    eapply checking_in_save; [exact C|intros j Hj; exact Hj|]. intros s2 C2.
    apply wlp_bind. eapply checking_in_frame; [exact C2|frame|]. intros u s3 C3. apply wlp_ret.
    eapply wlp_check_in_current; [exact C3|exact Hd|reflexivity| |exact HQ].
    intros _. right. unfold AUTO_RENEW_THRESHOLD, MICROSECONDS_PER_MINUTE. lia.
  - apply wlp_ret. eapply wlp_check_in_current; [exact C|exact Hd|reflexivity| |exact HQ].
    intros Es. left. exact Es.
Qed.

Lemma wlp_check_in_inactive iid i t d te m now s s1 (Q : AppInstallation → Db → Prop) :
  checking_in iid (L i t d now) s s1 → (∀ y s2, checking_in iid (L i t d now) s s2 → Q y s2) →
  wlp (check_in_inactive iid i t te m now) s1 Q.
Proof.
  intros C HQ. unfold check_in_inactive.
  apply wlp_skip; [unfold _require_inactive_control_tablet; preserve|intros u _].
  destruct (apply_telemetry i te now) as [y b]. apply wlp_bind.
  eapply checking_in_save; [exact C| |].
  - intros j Lj. unfold lease_kept_or_due. rewrite telemetry_fields_valid_until. exact Lj.
  - intros s2 C2. apply wlp_bind. eapply checking_in_frame; [exact C2|frame|].
    intros below s3 C3. apply wlp_ret, HQ, C3.
Qed.

(** C27: A check-in that succeeds was made with the right credential by a current
    installation.  It leaves the lease alone, or sets it to the department's lease
    from now, and the latter only for an active tablet of an active department and
    when the installation was stale or had at most 48 hours left.  No other
    installation changes. *)
Theorem check_in_renews_a_due_lease iid credential telemetry minimum s r s' :
  check_in iid credential telemetry minimum s = (Val r, s') →
  ∃ i t d j, db_installations s !! iid = Some i ∧ db_tablets s !! in_tablet i = Some t
    ∧ db_departments s !! tb_department t = Some d
    ∧ verify_credential i credential = true ∧ current i
    ∧ db_installations s' !! iid = Some j ∧ lease_kept_or_due i t d (db_clock s) j
    ∧ ∀ k, k ≠ iid → db_installations s' !! k = db_installations s !! k.
Proof.
  intros E. pattern r, s'. eapply wlp_val; [exact E|]. clear E.
  apply wlp_atomic, wlp_bind, wlp_get_obj. intros i Hi.
  apply wlp_bind, wlp_get_obj. intros t Ht. apply wlp_bind, wlp_get_obj. intros d Hd.
  apply wlp_bind. unfold timezone_now, gets at 1, wlp at 1.
  apply wlp_bind, wlp_guard. intros Hv. apply wlp_bind, wlp_guard. intros Hc.
  assert (C : checking_in iid (L i t d (db_clock s)) s s).
  { split_and!; [exists i; split; [exact Hi|left; reflexivity]|auto|reflexivity]. }
  assert (K : ∀ (y : AppInstallation) s2, checking_in iid (L i t d (db_clock s)) s s2 →
    ∃ i t d j, db_installations s !! iid = Some i ∧ db_tablets s !! in_tablet i = Some t
    ∧ db_departments s !! tb_department t = Some d
    ∧ verify_credential i credential = true ∧ current i
    ∧ db_installations s2 !! iid = Some j ∧ lease_kept_or_due i t d (db_clock s) j
    ∧ ∀ k, k ≠ iid → db_installations s2 !! k = db_installations s !! k).
  { intros y s2 ((j & Hj & Lj) & Ho & _). exists i, t, d, j. split_and!; assumption. }
  destruct (bool_decide _).
  - eapply wlp_check_in_inactive; [exact C|exact K].
  - eapply wlp_check_in_operational; [exact C|exact Hd|exact K].
Qed.
(** ** The end of leases *)

Lemma wp_mark_stale_rows now l s :
  NoDup l.*1 → (∀ k i, (k, i) ∈ l → db_installations s !! k = Some i) →
  (∀ k i, (k, i) ∈ l → ∃ t, db_tablets s !! in_tablet i = Some t) →
  wp (for_each l (mark_stale_row now)) s (λ _ s',
    ∀ k, db_installations s' !! k =
      if bool_decide (k ∈ l.*1) then ended now <$> db_installations s !! k
      else db_installations s !! k).
Proof.
  revert s. induction l as [|[k i] l IH]; intros s Hn Hi Ht; cbn [for_each].
  - apply wp_ret. intros k. rewrite bool_decide_eq_false_2; [reflexivity|apply not_elem_of_nil].
  - destruct (Ht k i) as [t Et]; [left|]. inversion Hn as [|? ? Hk Hn']; subst.
    apply wp_bind, wp_bind. eapply wp_get_obj; [exact Et|]. apply wp_bind, wp_bind.
    eapply wp_save; [apply Hi; left|]. apply wp_bind. cbn. apply wp_ret, wp_ret.
    eapply wp_mono; [apply IH; [exact Hn'| |]|].
    + intros k' i' Hin. cbn. rewrite lookup_insert_ne; [apply Hi; right; exact Hin|].
      intros ->. apply Hk, list_elem_of_fmap. exists (k', i'). auto.
    + intros k' i' Hin. apply (Ht k' i'). right. exact Hin.
    + intros u s' E k'. rewrite E. cbn. destruct (decide (k' = k)) as [->|Hne].
      * rewrite bool_decide_eq_false_2 by exact Hk. rewrite bool_decide_eq_true_2 by left.
        rewrite lookup_insert_eq, (Hi k i) by left. reflexivity.
      * rewrite lookup_insert_ne by congruence.
        rewrite (bool_decide_ext (k' ∈ l.*1) (k' ∈ k :: l.*1)); [reflexivity|].
        rewrite elem_of_cons. tauto.
Qed.

(** C40: In every reachable store the periodic task that ends leases succeeds: exactly
    the active installations whose lease has run out become stale, with the time
    recorded, nothing else changes in the installations, and the task reports how
    many there were. *)
Theorem expired_leases_end now s :
  tablet_reachable s → let clock := default (db_clock s) now in
  ∃ n s', mark_stale_installations now s = (Val n, s')
    ∧ db_installations s' =
        (λ i, if expired clock i then ended clock i else i) <$> db_installations s
    ∧ n = Z.of_nat (length (rows (db_installations s) (λ _, expired clock))).
Proof.
  intros [_ I _ _]%tablet_reachable_inv. cbv zeta.
  apply wp_Val, wp_atomic, wp_bind. cbn. apply wp_bind. cbn.
  set (n := default _ _). set (l := rows _ _).
  apply wp_bind. eapply wp_mono; [apply wp_mark_stale_rows|].
  - apply rows_NoDup.
  - intros k i Hin. apply rows_elem in Hin as [Hk _]. exact Hk.
  - intros k i [Hk HP]%rows_elem. apply andb_true_iff in HP as [HP%bool_decide_eq_true_1 _].
    destruct (ins_tablet _ _ I k i Hk) as (t & Ht & _); [unfold current; rewrite HP; done|].
    exists t. exact Ht.
  - intros u s' E. apply wp_ret. split; [|reflexivity]. apply map_eq. intros k.
    rewrite E, lookup_fmap. destruct (db_installations s !! k) as [i|] eqn:Hk; [|by case_bool_decide].
    cbn. case_bool_decide as Hin.
    + apply list_elem_of_fmap in Hin as ([k' i'] & Ek & Hin). cbn in Ek. subst k'.
      apply rows_elem in Hin as [Hk' HP]. assert (i' = i) as -> by congruence.
      unfold expired. rewrite HP. reflexivity.
    + destruct (expired n i) eqn:Ex; [|reflexivity]. destruct Hin. apply list_elem_of_fmap.
      exists (k, i). split; [reflexivity|]. apply rows_elem. auto.
Qed.
(** ** Withdrawal *)

Lemma replayable_invitations s s' tid now r :
  db_invitations s' = withdrawn_invitation tid now <$> db_invitations s →
  replayable s' tid now r = replayable s tid now r.
Proof.
  intros E. unfold replayable. rewrite E. destruct (ar_invitation r) as [iv|]; [cbn|reflexivity].
  rewrite lookup_fmap. destruct (db_invitations s !! iv) as [v|]; [cbn|reflexivity].
  unfold withdrawn_invitation. destruct (_ && negb (opt_true (iv_used_at v)) && _); reflexivity.
Qed.

Lemma wlp_withdraw_offers tid reason now s :
  wlp (_revoke_tablet_installations tid reason now) s (λ _ s',
    db_invitations s' = withdrawn_invitation tid now <$> db_invitations s
    ∧ ∀ q r, db_adoption_requests s' !! q = Some r → replayable s tid now r = false).
Proof.
  unfold _revoke_tablet_installations. cbn zeta. apply wlp_bind. unfold update_where at 1. cbn.
  apply wlp_bind, wlp_bind. cbn. apply wlp_bind, wlp_bind. unfold installations_of. cbn.
  apply wlp_for_each_revoke. intros s2 E _. cbn. apply (f_equal (λ s, (db_invitations s,
    db_adoption_requests s))) in E. cbn in E. injection E as Ei Er. split; [rewrite Ei; reflexivity|].
  intros q r. rewrite Er, lookup_fmap.
  destruct (db_adoption_requests s !! q) as [r0|]; [|discriminate]. intros [= <-].
  match goal with |- context [if replayable ?a _ _ _ then _ else _] =>
    change (replayable a tid now) with (replayable s tid now) end.
  destruct (replayable s tid now r0) eqn:Ep; [|exact Ep].
  unfold replayable. cbn. rewrite !andb_false_r. reflexivity.
Qed.

Lemma wlp_withdraw tid reason now s :
  TabletInv s → wlp (_revoke_tablet_installations tid reason now) s (λ _, withdrawn_fleet tid now).
Proof.
  intros I. eapply wlp_mono.
  - apply wlp_and; [apply wlp_revoke_tablet_installations, I|apply wlp_withdraw_offers].
  - intros u s' [([_ _ _ G] & _ & Hno) [Ei Hr]]. split_and!.
    + intros k i Hk Et. pose proof (Hno k i Hk Et) as Hc. split; [exact Hc|].
      intros (j & Hj & Hcj)%G. congruence.
    + intros k v. rewrite Ei, lookup_fmap. destruct (db_invitations s !! k) as [w|]; [|discriminate].
      intros [= <-]. unfold withdrawn_invitation.
      destruct (N.eqb_spec (iv_tablet w) tid) as [Et|Hn]; [|intros; contradiction]. intros _.
      destruct (iv_used_at w) eqn:Eu; cbn; [left; congruence|]. right.
      destruct (iv_revoked_at w) eqn:Ew; cbn; congruence.
    + intros q r Hq. rewrite (replayable_invitations s) by exact Ei. eapply Hr, Hq.
Qed.
(** What [withdrawn_fleet] looks at. *)
Lemma withdrawn_fleet_frame tid now s s' :
  fleet_tables s' = fleet_tables s → withdrawn_fleet tid now s → withdrawn_fleet tid now s'.
Proof.
  intros [= E1 E2 E3 E4 E5]. unfold withdrawn_fleet, holds_key, replayable.
  rewrite E1, E2, E3, E4, E5. auto.
Qed.

Lemma wlp_withdraw_tablet actor tid st reason action t s :
  TabletInv s → db_tablets s !! tid = Some t →
  wlp (_revoke_tablet_installations tid reason (db_clock s) ;;;
       save_tablet_status actor tid t st false action) s
    (λ _ s', (∃ t', db_tablets s' !! tid = Some t' ∧ tb_status t' = st ∧ tb_active t' = false)
       ∧ withdrawn_fleet tid (db_clock s) s').
Proof.
  intros I Ht. apply wlp_bind. eapply wlp_mono; [apply wlp_withdraw, I|]. intros u s1 W.
  unfold save_tablet_status. apply wlp_bind, wlp_save. intros t' Ht'.
  eapply (wlp_frame (λ s, (db_tablets s, fleet_tables s))); [frame|]. intros r s' [= E1 E2 E3 E4 E5 E6].
  split.
  - eexists. rewrite E1. cbn. rewrite lookup_insert_eq. split_and!; reflexivity.
  - eapply withdrawn_fleet_frame; [|exact W]. unfold fleet_tables. congruence.
Qed.

(** C28: A tablet that is reported lost or retired leaves nothing behind that could
    still be used: it is inactive, none of its installations is current or holds a
    key, every invitation for it is used or revoked, and no completed adoption can
    be replayed. *)
Theorem withdrawal_is_complete actor tid reason s t s' :
  tablet_reachable s →
  mark_tablet_lost actor tid reason s = (Val t, s')
  ∨ retire_tablet actor tid reason s = (Val t, s') →
  (∃ row, db_tablets s' !! tid = Some row ∧ asset_available (tb_status row) = false
     ∧ tb_active row = false)
  ∧ withdrawn_fleet tid (db_clock s) s'.
Proof.
  intros I%tablet_reachable_inv [E|E]; apply atomic_Val in E; revert E;
    apply (wlp_elim _ _ (λ _ s', (∃ row, db_tablets s' !! tid = Some row
      ∧ asset_available (tb_status row) = false ∧ tb_active row = false)
      ∧ withdrawn_fleet tid (db_clock s) s'));
    apply wlp_bind, wlp_get_obj; intros t0 Ht0; do 2 (apply wlp_skip; [unfold
      _require_asset_transition; preserve|intros ? _]);
    apply wlp_bind; unfold timezone_now, gets at 1, wlp at 1;
    (eapply wlp_mono; [apply wlp_withdraw_tablet; [exact I|exact Ht0]|]);
    intros r s1 [(row & Hrow & Es & Ea) W]; (split; [|exact W]); exists row; rewrite Es; auto.
Qed.
End leases.

(** ** The theorems on the small fleet *)

Lemma bad_credentials_change_nothing_witness :
  ∃ e, check_in 1 "wrong" (mkTelemetry None None false) None fleet_active = (Exc e, fleet_active).
Proof.
  destruct (row_with (λ i, verify_credential i "wrong") (db_installations fleet_active !! 1%N) false)
    as (i & Hi & Ev); [vm_compute; reflexivity|].
  apply (bad_credentials_change_nothing 1 "wrong" (mkTelemetry None None false) None i
    fleet_active Hi (or_introl Ev)).
Defined.

Lemma check_in_renews_a_due_lease_witness :
  ∃ s' i t d j, lease_kept_or_due i t d (db_clock (fleet_later fleet_active)) j
    ∧ db_installations s' !! 1%N = Some j.
Proof.
  destruct (check_in 1 fleet_credential (mkTelemetry (Some "1.2.4") None true) None
    (fleet_later fleet_active)) as [[r|e] s'] eqn:E.
  - destruct (check_in_renews_a_due_lease _ _ _ _ _ _ _ E)
      as (i & t & d & j & _ & _ & _ & _ & _ & Hj & Hl & _).
    exists s', i, t, d, j. split; [exact Hl|exact Hj].
  - exfalso. apply (f_equal fst) in E. vm_compute in E. discriminate.
Defined.

Lemma expired_leases_end_witness :
  ∃ n s', mark_stale_installations (Some 2808000000000) fleet_active = (Val n, s')
    ∧ n = 1.
Proof.
  destruct (expired_leases_end (Some 2808000000000) fleet_active fleet_active_reachable)
    as (n & s' & E & _ & En).
  exists n, s'. split; [exact E|]. rewrite En. vm_compute. reflexivity.
Defined.

Lemma withdrawal_is_complete_witness :
  ∃ s', withdrawn_fleet 1 (db_clock fleet_delivered) s'.
Proof.
  destruct (mark_tablet_lost 1 1 "left behind" fleet_delivered) as [[t|e] s'] eqn:E.
  - exists s'. apply (withdrawal_is_complete 1 1 "left behind" fleet_delivered t s'
      fleet_delivered_reachable (or_introl E)).
  - exfalso. apply (f_equal fst) in E. vm_compute in E. discriminate.
Defined.
