(* ===== verification/DeliveryTheorems.v ===== *)
(** What delivery gives out: keys only to installations that are entitled to them,
    manifests only for the present state, and what the clean-up of manifests keeps. *)
From S2P Require Import Prelude Text Versions Models Registry Lifecycle Store Authorization.
From S2P Require Import Fingerprint Artifacts ApplicationSecrets Tablets TabletQueries.
From S2P Require Import Manifests Grants.
From S2P Require Import Restore Queue Assignments Build Totality TabletInv.
From S2P Require Import TabletServices DeliveryInv TabletSystem Demo TabletDemo.

Section delivery.
Context `{Settings} `{Hash} `{HpkeSuite} `{Secrets} `{DeliverySettings} `{Credentials}.

(** The content key of the publication, sealed for the public key of the
    installation. *)
Definition sealed_for (s : Db) (g : KeyGrant) (i : AppInstallation) (p : DatasetPublication)
    (enc wrapped : string) : Prop :=
  ∃ kek wrapped_cek cek public_key info,
    publication_kek = Val kek ∧ artifact_wrapped_cek (pub_artifact p) = Some wrapped_cek
    ∧ aes_key_unwrap kek wrapped_cek = Some cek
    ∧ parse_p256_public_key (in_hpke_public_key i) s = (Val public_key, s)
    ∧ hpke_info (mkHPKEContext (kg_publication g) (kg_app_installation g) (in_tablet i)
        (pub_department p) (pub_station p) (pub_dataset_type_code p) (pub_version_number p)
        (pub_schema_version p) (artifact_sha256 (pub_artifact p))) s = (Val info, s)
    ∧ enc = str_take enc_length (suite_encrypt s cek public_key info)
    ∧ wrapped = str_drop enc_length (suite_encrypt s cek public_key info).

Lemma readonly_Val {A} (m : M Db A) s a s' : readonly m → m s = (Val a, s') → s' = s.
Proof. intros Hm E. specialize (Hm s). rewrite E in Hm. exact (eq_sym Hm). Qed.

Lemma wrap_content_key_spec g now s enc wrapped s' :
  wrap_content_key g now s = (Val (enc, wrapped), s') →
  entitled s now (kg_app_installation g) (kg_publication g)
  ∧ ∃ i p, db_installations s !! kg_app_installation g = Some i
      ∧ db_publications s !! kg_publication g = Some p ∧ sealed_for s g i p enc wrapped.
Proof.
  unfold wrap_content_key. intros E.
  apply bind_Val in E as ([[[i t] [vid v]] ps] & s1 & E1 & E).
  apply authorized_spec in E1 as (-> & Hi & _ & _ & Hps).
  apply bind_Val in E as (p & ? & [Hp ->]%get_obj_Val & E).
  apply bind_Val in E as (? & ? & [Hm ->]%guard_Val & E).
  apply bind_Val in E as (kek & s1 & E2 & E).
  assert (s1 = s ∧ publication_kek = Val kek) as [-> Hkek].
  { unfold require_kek, raise_outcome in E2. destruct publication_kek as [kk|ee]; [|discriminate].
    apply bind_Val in E2 as (? & ? & [= <- <-] & E2).
    apply bind_Val in E2 as (? & ? & [_ ->]%guard_Val & [= -> <-]). auto. }
  apply bind_Val in E as (wc & s1 & E3 & E).
  destruct (artifact_wrapped_cek (pub_artifact p)) as [wc'|] eqn:Ewc; [|discriminate].
  injection E3 as -> <-. apply bind_Val in E as (cek & s1 & E4 & E). unfold unwrap_key in E4.
  destruct (aes_key_unwrap kek wc) as [c|] eqn:Ecek; [|discriminate]. injection E4 as -> <-.
  apply bind_Val in E as (pk & s1 & E5 & E).
  assert (s1 = s) as -> by (eapply readonly_Val; [|exact E5]; unfold parse_p256_public_key; preserve).
  unfold hpke_seal in E. apply bind_Val in E as (info & s1 & E6 & E).
  assert (s1 = s) as -> by (eapply readonly_Val; [apply readonly_hpke_info|exact E6]).
  injection E as <- <- <-. split.
  - apply mem_N_spec, list_elem_of_fmap in Hm as ([q r] & Eq & Hin).
    rewrite Eq. apply (Hps _ _ Hin).
  - exists i, p. split_and!; [exact Hi|exact Hp|]. exists kek, wc, cek, pk, info.
    split_and!; try assumption; reflexivity.
Qed.

Lemma grant_result_ready m now s f s' g :
  grant_result m now s = (Val f, s') → kg_status (f g) = GRANT_READY →
  ∃ enc wrapped, m s = (Val (enc, wrapped), s') ∧ f = ready_grant enc wrapped now.
Proof.
  unfold grant_result, try_except. intros E Hs. destruct (bind m _ s) as [[a|e] s1] eqn:E1.
  - injection E as -> <-. apply bind_Val in E1 as ([enc w] & s2 & E1 & [= <- <-]). eauto.
  - destruct (exn_kind e); try discriminate E; injection E as <- <-; discriminate Hs.
Qed.

(** C8: A claimed key grant becomes READY only while its installation is entitled to
    the publication: active, with a valid lease, on an active tablet assigned to a
    vehicle in service, the publication published, deliverable there and its feature
    enabled.  The key it then holds is the publication's content key, sealed for the
    installation's own public key in a context that names both, and no other row of
    the store changes. *)
Theorem ready_keys_are_entitled gid s g0 r s' :
  build_claimed_dataset_key_grant gid s = (Val r, s') →
  db_key_grants s !! gid = Some g0 → kg_status g0 ≠ GRANT_READY → kg_status r.2 = GRANT_READY →
  entitled s (db_clock s) (kg_app_installation g0) (kg_publication g0)
  ∧ (∃ i p enc wrapped, db_installations s !! kg_app_installation g0 = Some i
       ∧ db_publications s !! kg_publication g0 = Some p ∧ sealed_for s g0 i p enc wrapped
       ∧ r.2 = ready_grant enc wrapped (db_clock s) g0)
  ∧ s' = s <| db_key_grants ::= <[gid := r.2]> |>.
Proof.
  intros E Hg Hn Hr. apply atomic_Val in E. apply bind_Val in E as (g & ? & [Hg' ->]%get_obj_Val & E).
  assert (g = g0) as -> by congruence. destruct (negb _); [injection E as <- <-; contradiction|].
  apply bind_Val in E as (now & ? & [= <- <-] & E). apply bind_Val in E as (f & s1 & E1 & E).
  assert (s1 = s) as ->
    by (eapply readonly_Val; [apply readonly_grant_result, readonly_wrap_content_key|exact E1]).
  apply bind_Val in E as (u & s2 & E2 & [= <- <-]). unfold save in E2. rewrite Hg in E2.
  injection E2 as <- <-. cbn [snd] in *.
  destruct (grant_result_ready _ _ _ _ _ _ E1 Hr) as (enc & w & E3 & ->).
  apply wrap_content_key_spec in E3 as (He & i & p & Hi & Hp & Hsealed).
  split_and!; [exact He| |reflexivity]. exists i, p, enc, w. auto.
Qed.

(** ** Manifests *)


(** The clean-up of manifests removes at most a batch of them, and only ones that
    ended before the retention period began: no manifest that is PENDING or RUNNING,
    and never the newest READY manifest of an active installation; it adds and
    changes none. *)
Theorem manifest_cleanup_is_safe days batch dry_run s n s' :
  cleanup_signed_manifests days batch dry_run s = (Val n, s') →
  0 ≤ n ≤ batch ∧ (∀ k m, db_signed_manifests s' !! k = Some m → db_signed_manifests s !! k = Some m)
  ∧ ∀ k m, db_signed_manifests s !! k = Some m → db_signed_manifests s' !! k = None →
      dry_run = false ∧ sm_status m ≠ MANIFEST_PENDING ∧ sm_status m ≠ MANIFEST_RUNNING
      ∧ (∃ t, sm_completed_at m = Some t ∧ t < db_clock s - days * MICROSECONDS_PER_DAY)
      ∧ is_latest_active_ready s k m = false.
Proof.
  intros E. unfold cleanup_signed_manifests in E.
  apply bind_Val in E as (? & ? & [G ->]%guard_Val & E). apply andb_true_iff in G as [_ G%Z.leb_le].
  apply bind_Val in E as (now & ? & [= <- <-] & E). apply bind_Val in E as (ids & ? & E0 & E).
  injection E0 as <- <-. set (l := order_by _ _) in E. set (ids := (take _ l).*1) in E.
  assert (Hn : (length ids ≤ Z.to_nat batch)%nat).
  { unfold ids. rewrite length_fmap, length_take. lia. }
  destruct dry_run.
  - injection E as <- <-. split_and!; [lia|lia|auto|]. intros k m Hk Hk'. congruence.
  - apply bind_Val in E as (? & ? & [= <- <-] & [= <- <-]). cbn. split_and!; [lia|lia| |].
    + intros k m Hk. apply map_lookup_filter_Some in Hk as [Hk _]. exact Hk.
    + intros k m Hk Hk'. apply map_lookup_filter_None in Hk' as [Hk'|Hk']; [congruence|].
      specialize (Hk' m Hk). cbn in Hk'. apply not_false_iff_true, mem_N_spec in Hk'.
      apply list_elem_of_fmap in Hk' as ([k' m'] & -> & Hin). cbn in *.
      apply elem_of_take in Hin as (j & Hj & _).
      apply list_elem_of_lookup_2, order_by_elem, rows_elem in Hj as [Hk' HP].
      assert (m' = m) as -> by congruence. unfold manifest_expired in HP.
      rewrite !andb_true_iff, negb_true_iff in HP. destruct HP as [[HP1 HP2] HP3].
      destruct (sm_completed_at m) as [t|]; [|discriminate]. apply Z.ltb_lt in HP2.
      split_and!; [reflexivity| | |exists t; auto|exact HP3];
        intros Es; rewrite Es in HP1; discriminate.
Qed.
End delivery.

(** ** The theorems on the small fleet *)

Lemma ready_keys_are_entitled_witness :
  ∃ s, entitled s (db_clock s) 1 2.
Proof.
  set (s := (claim_next_dataset_key_grant fleet_pending).2).
  destruct (row_with (λ g, (kg_status g, kg_app_installation g, kg_publication g))
    (db_key_grants s !! 1%N) (GRANT_RUNNING, 1%N, 2%N)) as (g & Hg & Eg);
    [vm_compute; reflexivity|]. injection Eg as Es Ei Ep.
  destruct (build_claimed_dataset_key_grant 1 s) as [[r|e] s'] eqn:E.
  - exists s. rewrite <- Ei, <- Ep.
    assert (Hr : kg_status r.2 = GRANT_READY).
    { assert (K : (λ o, match o with Val r => Some (kg_status r.2) | Exc _ => None end)
        (build_claimed_dataset_key_grant 1 s).1 = Some GRANT_READY) by (vm_compute; reflexivity).
      rewrite E in K. injection K as K. exact K. }
    apply (ready_keys_are_entitled 1 s g r s' E Hg); [rewrite Es; intros K; discriminate K|exact Hr].
  - exfalso. apply (f_equal fst) in E. vm_compute in E. discriminate.
Defined.


Lemma manifest_cleanup_is_safe_witness :
  ∃ n s', cleanup_signed_manifests 1 10 false (fleet_later fleet_delivered) = (Val n, s')
    ∧ 0 ≤ n ≤ 10.
Proof.
  destruct (cleanup_signed_manifests 1 10 false (fleet_later fleet_delivered))
    as [[n|e] s'] eqn:E.
  - exists n, s'. split; [reflexivity|].
    apply (manifest_cleanup_is_safe 1 10 false (fleet_later fleet_delivered) n s' E).
  - exfalso. apply (f_equal fst) in E. vm_compute in E. discriminate.
Defined.
