(* ===== verification/QueueTheorems.v ===== *)
(** The functional behaviour of the queue: what a claim freezes, and how requests
    for the same scope coalesce. *)
From S2P Require Import Prelude Models Registry Lifecycle Store Authorization Fingerprint.
From S2P Require Import Artifacts Restore Queue Build Worker Simulation QueueSim System.
From S2P Require Import Totality Demo.

(** The tables a claim reads, besides the scopes. *)
Definition core (s : Db) :
    Z * gmap (string * option N * option N) json * gmap N DatasetPublication
    * gmap N PublicationJob :=
  (db_clock s, db_sources s, db_publications s, db_jobs s).

Definition scope_key (sc : DatasetScopeState) : string * option N * option N :=
  (sc_dataset_type_code sc, sc_department sc, sc_station sc).

Definition job_source (j : PublicationJob) : string * option N * option N :=
  (job_dataset_type_code j, job_department j, job_station j).

(** Which jobs and attempts exist. *)
Definition row_keys (s : Db) : gset N * gset N := (dom (db_jobs s), dom (db_publications s)).

Definition refreshed (fingerprint : string) (snapshot : json) (revision : Z)
    (p : DatasetPublication) : DatasetPublication :=
  p <| pub_source_revision := revision |> <| pub_source_fingerprint := fingerprint |>
    <| pub_source_snapshot := Some snapshot |>.

(** ** Lemmas on the code's helpers *)

Lemma registry_code c def : DATASET_REGISTRY c = Some def → dt_code def = c.
Proof.
  unfold DATASET_REGISTRY. generalize _DEFINITIONS. intros l.
  enough (K : ∀ acc, (∀ d, acc = Some d → dt_code d = c) →
    fold_left (λ acc d, if String.eqb (dt_code d) c then Some d else acc) l acc = Some def →
    dt_code def = c) by (apply K; discriminate).
  induction l as [|d l IH]; simpl; intros acc Ha; [apply Ha|]. apply IH. intros d' E.
  destruct (String.eqb_spec (dt_code d) c); [congruence|auto].
Qed.

(** What a scope is published from: the payload that the builder of its dataset computes. *)
Definition is_source (s : Db) (key : string * option N * option N) (snapshot : json) : Prop :=
  ∃ definition s', DATASET_REGISTRY key.1.1 = Some definition
    ∧ build_source_payload definition key.1.2 key.2 s = (Val snapshot, s').

Lemma source_of_scope sc s snapshot s' :
  _current_source_snapshot sc s = (Val snapshot, s') → is_source s (scope_key sc) snapshot.
Proof.
  intros E. apply bind_Val in E as (def & s1 & E1 & E). unfold get_dataset_definition in E1.
  destruct (DATASET_REGISTRY _) as [d|] eqn:R; [|discriminate]. injection E1 as -> ->.
  exists def, s'. split; [exact R|exact E].
Qed.

Section claim.
Context `{Settings} `{Hash}.

Lemma wlp_current_source_state k sc s Q :
  (∀ sc' snapshot s', is_source s (scope_key sc) snapshot → core s' = core s →
     scope_key sc' = scope_key sc →
     Q (sc', snapshot, source_fingerprint_for_payload snapshot) s') →
  wlp (_current_source_state k sc) s Q.
Proof.
  intros HQ. unfold _current_source_state. apply wlp_bind.
  assert (K : keeps core (_current_source_snapshot sc)) by auto with preserves.
  specialize (K s). unfold wlp at 1.
  destruct (_current_source_snapshot sc s) as [[snapshot|e] s1] eqn:E; [|exact I].
  apply source_of_scope in E. change (core s1 = core s) in K.
  destruct (is_file_dataset _); [|apply wlp_ret, HQ; auto].
  apply wlp_skip; [auto with preserves|]. intros revision _.
  destruct (_ =? _); [apply wlp_ret, HQ; auto|].
  apply wlp_skip; [auto with preserves|]. intros now _. apply wlp_bind, wlp_save.
  intros r _. apply wlp_ret, HQ; auto.
Qed.

Lemma reconcile_false k sc fp s :
  wlp (_reconcile_clean_source k sc fp) s (λ r s', r.1 = false → s' = s).
Proof.
  apply wlp_skip; [auto with preserves|]. intros dirty _.
  destruct dirty; [apply wlp_ret; auto|].
  apply wlp_skip; [auto with preserves|]. intros stored _. apply wlp_bind.
  match goal with |- wlp ?m _ _ => destruct (m s) as [[sc'|e] s1] eqn:E1 end;
    unfold wlp at 1; rewrite E1; [|exact I].
  apply wlp_bind. destruct (_cancel_redundant_pending k s1) as [[u|e] s2] eqn:E2;
    unfold wlp at 1; rewrite E2; [|exact I].
  apply wlp_ret. discriminate.
Qed.

Lemma locked_scope_key d x c s r s' :
  _locked_scope d x c s = (Val r, s') → scope_key r.2 = (c, d, x).
Proof.
  intros E. apply bind_Val in E as (u & s1 & _ & E). apply bind_Val in E as (t & s2 & _ & E).
  apply bind_Val in E as (o & s3 & Eo & E). unfold find_scope, first_where, gets in Eo.
  injection Eo as <- ->. unfold get_or_raise in E.
  destruct (head _) as [r'|] eqn:Eh; [|discriminate]. injection E as -> ->.
  apply order_by_head_Some in Eh as [Hin _]. destruct r as [k sc].
  apply rows_elem in Hin as [_ Hf]. apply scope_filter_owner in Hf. unfold scope_key. simpl in *.
  congruence.
Qed.

(** What [claim_publication] hands over: a staged attempt. *)
Lemma wlp_claim_publication k job fp snapshot s Q :
  (∀ pid, job_build_publication job = Some pid →
     ∃ p, db_publications s !! pid = Some p ∧ pub_status p = STAGED) →
  (∀ pid p s', pub_status p = STAGED → db_sources s' = db_sources s →
     db_clock s' = db_clock s → db_jobs s' = db_jobs s → Q (Some (pid, p)) s') →
  wlp (claim_publication k job fp snapshot) s Q.
Proof.
  intros Hst HQ. unfold claim_publication. destruct (job_build_publication job) as [pid|].
  - destruct (Hst _ eq_refl) as (p & Hp & Sp). apply wlp_bind, wlp_find_obj. rewrite Hp.
    apply wlp_ret, HQ; auto.
  - apply wlp_bind. unfold _allocate_staged_publication.
    apply wlp_skip; [auto with preserves|]. intros def _.
    apply wlp_skip; [auto with preserves|]. intros n _.
    apply wlp_skip; [auto with preserves|]. intros now _. apply wlp_create. intros pid _.
    apply wlp_bind, wlp_get_obj. simpl. intros p Hp. rewrite lookup_insert_eq in Hp.
    injection Hp as <-. apply wlp_ret, HQ; reflexivity.
Qed.

Lemma wlp_freeze_claim now jid pid sc p snapshot fp s Q :
  (∀ row job s', db_publications s' !! pid = Some row → pub_status row = BUILDING →
     pub_source_snapshot row = Some snapshot → pub_source_fingerprint row = fp →
     db_jobs s !! jid = Some job →
     (∃ job', db_jobs s' !! jid = Some job' ∧ job_status job' = JOB_RUNNING ∧
        job_build_publication job' = Some pid ∧ job_heartbeat_at job' = Some now ∧
        job_attempt_count job' = job_attempt_count job + 1 ∧ job_source job' = job_source job) →
     Q tt s') →
  wlp (freeze_claim now jid pid sc p snapshot fp) s Q.
Proof.
  intros HQ. apply wlp_bind, wlp_save. intros row Hrow. apply wlp_bind.
  eapply (wlp_frame (λ s, (db_publications s, db_jobs s))).
  - destruct (is_file_dataset _); [|unfold when; auto with preserves]. frame.
  - intros u s1 [= E1 E2]. apply wlp_save. intros job Hjob. eapply HQ.
    + simpl. rewrite E1. simpl. apply lookup_insert_eq.
    + reflexivity.
    + reflexivity.
    + reflexivity.
    + rewrite E2 in Hjob. exact Hjob.
    + simpl. eexists. split; [apply lookup_insert_eq|]. split_and!; reflexivity.
Qed.

(** Claiming freezes the source: when a worker claims a job, the job is RUNNING
    with a fresh heartbeat and one more attempt, its attempt is BUILDING, and the
    snapshot the attempt will be built from is the canonical source of the job's
    scope at that moment, stored with its fingerprint. *)
Theorem claim_freezes_source s jid preview j s' :
  Inv (view s) → candidate_ok (view s) (jid, preview) →
  _claim_job (jid, preview) s = (Val (Some j), s') →
  j = jid ∧ ∃ old job pid row snapshot,
    db_jobs s !! jid = Some old ∧ job_status old = JOB_PENDING
    ∧ db_jobs s' !! jid = Some job ∧ job_status job = JOB_RUNNING
    ∧ job_build_publication job = Some pid ∧ job_heartbeat_at job = Some (db_clock s)
    ∧ job_attempt_count job = job_attempt_count old + 1
    ∧ db_publications s' !! pid = Some row ∧ pub_status row = BUILDING
    ∧ pub_source_snapshot row = Some snapshot
    ∧ is_source s (job_source job) snapshot
    ∧ pub_source_fingerprint row = source_fingerprint_for_payload snapshot.
Proof.
  intros I (jv & Hjv & Eo) E. cbn [fst snd] in Hjv, Eo.
  refine (wlp_val _ s (Some j) s' (λ r s', r = Some j → j = jid ∧ ∃ old job pid row snapshot,
    db_jobs s !! jid = Some old ∧ job_status old = JOB_PENDING
    ∧ db_jobs s' !! jid = Some job ∧ job_status job = JOB_RUNNING
    ∧ job_build_publication job = Some pid ∧ job_heartbeat_at job = Some (db_clock s)
    ∧ job_attempt_count job = job_attempt_count old + 1
    ∧ db_publications s' !! pid = Some row ∧ pub_status row = BUILDING
    ∧ pub_source_snapshot row = Some snapshot
    ∧ is_source s (job_source job) snapshot
    ∧ pub_source_fingerprint row = source_fingerprint_for_payload snapshot) E _ eq_refl).
  clear E. apply wlp_atomic, wlp_skip; [auto with preserves|]. intros [k sc] Hk.
  apply locked_scope_key in Hk. simpl in Hk. apply wlp_bind, wlp_find_obj.
  destruct (db_jobs s !! jid) as [old|] eqn:Hold; [|apply wlp_ret; discriminate].
  destruct (bool_decide _) eqn:Hp; simpl; [|apply wlp_ret; discriminate]. bools.
  assert (Hv : v_jobs (view s) !! jid = Some (job_view old)).
  { simpl. rewrite lookup_fmap, Hold. reflexivity. }
  rewrite Hjv in Hv. injection Hv as ->. simpl in Eo. injection Eo as _ Ed Ex Ec.
  pose proof (registered_job _ _ _ I Hjv) as Hr.
  destruct (DATASET_REGISTRY _); [clear Hr|congruence].
  apply wlp_skip; [auto with preserves|]. intros now [= <-]. apply wlp_bind.
  apply wlp_current_source_state. intros sc' snapshot s1 Hsrc [= C1 C2 C3 C4] Hk'.
  apply wlp_skip; [auto with preserves|]. intros stored _. apply wlp_bind.
  eapply (wlp_frame core); [frame|]. intros sc2 s2 [= D1 D2 D3 D4]. apply wlp_bind.
  eapply (wlp_mono _ _ (λ r s', r.1 = false → s' = s2)).
  { match goal with |- wlp (if ?b then _ else _) _ _ => destruct b end;
      [apply reconcile_false|apply wlp_ret; auto]. }
  intros [clean sc3] s3 Hc. simpl in Hc. destruct clean; [apply wlp_ret; discriminate|].
  rewrite (Hc eq_refl). clear Hc s3. apply wlp_bind, wlp_claim_publication.
  - simpl. intros pid B. destruct (inv_build _ I _ _ _ Hjv B) as (pv & Hpv & _).
    pose proof (inv_pending _ I _ _ _ _ Hjv Hp B Hpv) as Sp. simpl in Hpv.
    rewrite lookup_fmap in Hpv. destruct (db_publications s !! pid) as [p|] eqn:Ep;
      [|discriminate]. injection Hpv as <-. exists p. split; [congruence|exact Sp].
  - intros pid p s4 Sp F1 F2 F3. rewrite Sp. simpl. apply wlp_bind, wlp_freeze_claim.
    intros row job s5 Hrow Hb Hs Hf Hjob (job' & Hj' & R & B & Hh & Ha & Hsrc').
    apply wlp_ret. intros [= <-]. split; [reflexivity|].
    assert (job = old) as -> by congruence.
    exists old, job', pid, row, snapshot. split_and!; try assumption; try reflexivity.
    rewrite Hsrc'. replace (job_source old) with (scope_key sc); [exact Hsrc|].
    unfold job_source. congruence.
Qed.

(** ** Coalescing *)

Lemma dom_insert_same {A} (m : gmap N A) k a b : m !! k = Some a → dom (<[k := b]> m) = dom m.
Proof.
  intros E. rewrite dom_insert_L. apply elem_of_dom_2 in E. set_solver.
Qed.

Lemma keeps_keys_save_job k f : keeps row_keys (save db_jobs k f).
Proof.
  intros s. unfold save, same, row_keys. destruct (db_jobs s !! k) eqn:E; [|reflexivity].
  simpl. rewrite (dom_insert_same _ _ _ _ E). reflexivity.
Qed.

Lemma keeps_keys_save_pub k f : keeps row_keys (save db_publications k f).
Proof.
  intros s. unfold save, same, row_keys. destruct (db_publications s !! k) eqn:E; [|reflexivity].
  simpl. rewrite (dom_insert_same _ _ _ _ E). reflexivity.
Qed.

Hint Extern 0 (preserves (same row_keys) (save db_jobs _ _)) => apply keeps_keys_save_job
  : preserves.
Hint Extern 0 (preserves (same row_keys) (save db_publications _ _)) => apply keeps_keys_save_pub
  : preserves.

Lemma keeps_keys_reconcile k sc fp : keeps row_keys (_reconcile_clean_source k sc fp).
Proof. unfold _reconcile_clean_source, _cancel_redundant_pending. frame. Qed.

(** The one active job of a scope. *)
Lemma active_job_unique s jid job jid' job' : Inv (view s) →
  db_jobs s !! jid = Some job → db_jobs s !! jid' = Some job' →
  is_active_job job = true → is_active_job job' = true →
  jv_owner (job_view job') = jv_owner (job_view job) → jid' = jid ∧ job' = job.
Proof.
  intros I Hj Hj' A A' E. assert (jid' = jid) as ->; [|split; congruence].
  assert (Hv : v_jobs (view s) !! jid = Some (job_view job))
    by (simpl; rewrite lookup_fmap, Hj; reflexivity).
  assert (Hv' : v_jobs (view s) !! jid' = Some (job_view job'))
    by (simpl; rewrite lookup_fmap, Hj'; reflexivity).
  destruct (inv_job_scope _ I _ _ Hv) as (sv & Hs & Ho).
  destruct (inv_job_scope _ I _ _ Hv') as (sv' & Hs' & Ho').
  eapply (inv_active _ I); [exact Hv'|exact Hv|exact A'|exact A|].
  eapply (inv_owner _ I); [exact Hs'|exact Hs|congruence].
Qed.

Lemma wlp_coalesce_pending jid job sc u tr cl snapshot fp s (Q : N → Db → Prop) :
  db_jobs s !! jid = Some job →
  (∀ s', db_jobs s' = <[jid := coalesce_job (db_clock s) (sc_source_revision sc) cl tr u job]>
       (db_jobs s) →
     db_publications s' = match job_build_publication job with
       | Some pid => alter (λ p, if bool_decide (pub_status p = STAGED)
                                 then refreshed fp snapshot (sc_source_revision sc) p else p)
                       pid (db_publications s)
       | None => db_publications s
       end → Q jid s') →
  wlp (coalesce_pending jid job sc u tr cl snapshot fp) s Q.
Proof.
  intros Hj HQ. unfold coalesce_pending. apply wlp_skip; [auto with preserves|].
  intros now [= <-]. apply wlp_bind, wlp_save. intros j Ej. rewrite Hj in Ej. injection Ej as <-.
  destruct (job_build_publication job) as [pid|]; [|apply wlp_ret, HQ; reflexivity].
  apply wlp_bind, wlp_find_obj. simpl.
  destruct (db_publications s !! pid) as [p|] eqn:Hp.
  - apply wlp_bind. destruct (bool_decide _) eqn:Hs.
    + apply wlp_save. intros p' Hp'. apply wlp_ret, HQ; [reflexivity|]. simpl in *.
      rewrite Hp in Hp'. injection Hp' as <-. symmetry. apply map_eq. intros i.
      destruct (decide (i = pid)) as [->|Hne].
      * rewrite lookup_alter_eq, lookup_insert_eq, Hp. simpl. rewrite Hs. reflexivity.
      * rewrite lookup_alter_ne, lookup_insert_ne by congruence. reflexivity.
    + apply wlp_ret, wlp_ret, HQ; [reflexivity|]. simpl. symmetry. apply map_eq. intros i.
      destruct (decide (i = pid)) as [->|Hne].
      * rewrite lookup_alter_eq, Hp. simpl. rewrite Hs. reflexivity.
      * rewrite lookup_alter_ne by congruence. reflexivity.
  - apply wlp_ret, HQ; [reflexivity|]. simpl. symmetry. apply map_eq. intros i.
    destruct (decide (i = pid)) as [->|Hne].
    + rewrite lookup_alter_eq, Hp. reflexivity.
    + rewrite lookup_alter_ne by congruence. reflexivity.
Qed.

Lemma wlp_enqueue_source (source : option (json * string)) k sc s (Q : _ → Db → Prop) :
  (∀ sc' snapshot fp s', core s' = core s → Q (sc', snapshot, fp) s') →
  wlp (match source with
       | Some (snapshot, fingerprint) => ret (sc, snapshot, fingerprint)
       | None =>
           let! ' (scope, snapshot, fingerprint) := _current_source_state k sc in
           let! stored := _stored_source_fingerprint scope fingerprint in
           if String.eqb (sc_current_source_fingerprint scope) stored
           then ret (scope, snapshot, fingerprint)
           else
             let! now := timezone_now in
             save db_scopes k (λ r,
               r <| sc_current_source_fingerprint := stored |> <| sc_updated_at := now |>) ;;;
             ret (scope <| sc_current_source_fingerprint := stored |>, snapshot, fingerprint)
       end) s Q.
Proof.
  intros HQ. destruct source as [[snapshot fp]|]; [apply wlp_ret, HQ; reflexivity|].
  apply wlp_bind, wlp_current_source_state. intros sc' snapshot s1 _ E _.
  apply wlp_skip; [auto with preserves|]. intros stored _.
  destruct (String.eqb _ _); [apply wlp_ret, HQ, E|].
  apply wlp_skip; [auto with preserves|]. intros now _. apply wlp_bind, wlp_save.
  intros r _. apply wlp_ret, HQ, E.
Qed.

(** The query for the active job of a scope finds its pending job. *)
Lemma active_job_found s jid job t : Inv (view s) → db_jobs s !! jid = Some job →
  job_status job = JOB_PENDING → t = job_scope_type job →
  head (order_by by_pk (rows (db_jobs s) (λ _ j, is_active_job j &&
    _scope_filter t (job_department job) (job_station job) (job_dataset_type_code job)
      (job_scope_type j) (job_department j) (job_station j) (job_dataset_type_code j))))
  = Some (jid, job).
Proof.
  intros I Hj Hp ->. set (P := λ (_ : N) j, _). set (l := rows _ _).
  assert (A : is_active_job job = true) by (unfold is_active_job; rewrite Hp; reflexivity).
  destruct (head (order_by by_pk l)) as [[jid' job']|] eqn:Eh.
  - apply order_by_head_Some in Eh as [Hin _]. apply rows_elem in Hin as [Hj' HP].
    apply andb_true_iff in HP as [A' F].
    destruct (active_job_unique s jid job jid' job') as [-> ->]; try assumption; [|reflexivity].
    unfold _scope_filter in F. bools. unfold job_view. simpl. congruence.
  - apply order_by_head_None in Eh. exfalso. assert (Hin : (jid, job) ∈ l).
    { apply rows_elem. split; [exact Hj|]. unfold P. rewrite A. unfold _scope_filter.
      rewrite !String.eqb_refl, !bool_decide_true by reflexivity. reflexivity. }
    rewrite Eh in Hin. inversion Hin.
Qed.

(** Requests coalesce: while a scope has a PENDING job, a request for the scope
    never creates a job or an attempt.  Either it takes up the pending job, which gets
    the new revision, the trigger and the time of the request while its staged attempt
    gets the new snapshot and fingerprint; or it finds that nothing is to be built. *)
Theorem requests_coalesce s jid job requested_by trigger_type debounce clean source r s' :
  Inv (view s) → db_jobs s !! jid = Some job → job_status job = JOB_PENDING →
  enqueue_publication_job (job_department job) (job_station job) (job_dataset_type_code job)
    requested_by trigger_type debounce clean source s = (Val r, s') →
  (r = Some jid ∧ ∃ revision snapshot fingerprint,
     db_jobs s' = <[jid := coalesce_job (db_clock s) revision clean trigger_type requested_by job]>
       (db_jobs s)
     ∧ db_publications s' = match job_build_publication job with
       | Some pid => alter (refreshed fingerprint snapshot revision) pid (db_publications s)
       | None => db_publications s
       end)
  ∨ (r = None ∧ clean = false ∧ row_keys s' = row_keys s).
Proof.
  intros I Hj Hp E. pattern r, s'. eapply wlp_val; [exact E|]. clear E r s'.
  destruct (job_scope_found _ _ _ I Hj) as (sc & Hk & Ho & L).
  pose proof (inv_owner_ok _ I) as Hok.
  apply wlp_atomic, wlp_skip; [auto with preserves|]. intros u _. apply wlp_bind.
  eapply wp_wlp, wp_run; [exact L|]. apply wlp_bind, wlp_enqueue_source.
  intros sc' snapshot fp s1 [= C1 C2 C3 C4]. apply wlp_skip; [auto with preserves|].
  intros dirty _. destruct (negb clean && negb dirty) eqn:Hd.
  { apply wlp_bind. eapply wlp_frame; [apply keeps_keys_reconcile|]. intros rc s2 K.
    apply wlp_ret. right. apply andb_true_iff in Hd as [Hd _]. apply negb_true_iff in Hd.
    split_and!; [reflexivity|exact Hd|]. rewrite K. unfold row_keys. congruence. }
  apply wlp_skip; [auto with preserves|]. intros t Et.
  assert (Ht : t = job_scope_type job).
  { assert (Hv : v_scopes (view s) !! job_scope_state job = Some (scope_view sc))
      by (simpl; rewrite lookup_fmap, Hk; reflexivity).
    specialize (Hok _ _ Hv). rewrite Ho in Hok. simpl in Hok.
    rewrite (owner_ok_type _ _ _ _ s1 Hok) in Et. congruence. }
  apply wlp_skip; [auto with preserves|]. intros active Ea.
  unfold first_where, gets in Ea. injection Ea as Ea. rewrite C4 in Ea.
  assert (active = Some (jid, job)) as ->.
  { rewrite <- Ea. eapply active_job_found; [exact I|exact Hj|exact Hp|exact Ht]. }
  rewrite Hp. cbn [bool_decide decide_rel]. apply wlp_bind.
  eapply wlp_coalesce_pending; [rewrite C4; exact Hj|]. intros s2 E1 E2. apply wlp_ret. left.
  split; [reflexivity|]. exists (sc_source_revision sc'), snapshot, fp. split; [congruence|].
  rewrite E2, C3. destruct (job_build_publication job) as [pid|] eqn:B; [|reflexivity].
  apply alter_ext. intros p Hpid.
  assert (Hv : v_jobs (view s) !! jid = Some (job_view job))
    by (simpl; rewrite lookup_fmap, Hj; reflexivity).
  pose proof (inv_pending _ I _ _ pid (pub_view p) Hv Hp B) as S. simpl in S.
  rewrite lookup_fmap, Hpid in S. rewrite (S eq_refl). reflexivity.
Qed.
End claim.

Definition demo_candidate : PublicationJob :=
  default (new_job 0 "" None None "" 0 (new_scope 0 "" None None "") None DATA_CHANGE None false)
    (db_jobs demo_edited3 !! 3%N).

Lemma claim_freezes_source_witness :
  ∃ s', _claim_job (3%N, demo_candidate) demo_edited3 = (Val (Some 3%N), s') ∧
    ∃ job, db_jobs s' !! 3%N = Some job ∧ job_status job = JOB_RUNNING.
Proof.
  exists (_claim_job (3%N, demo_candidate) demo_edited3).2.
  assert (E : _claim_job (3%N, demo_candidate) demo_edited3 =
    (Val (Some 3%N), (_claim_job (3%N, demo_candidate) demo_edited3).2)).
  { rewrite (surjective_pairing (_claim_job _ _)) at 1. f_equal. }
  split; [exact E|].
  assert (V : v_jobs (view demo_edited3) !! 3%N = Some (job_view demo_candidate))
    by (vm_compute; reflexivity).
  destruct (claim_freezes_source demo_edited3 3 demo_candidate 3
    (_claim_job (3%N, demo_candidate) demo_edited3).2
    (reachable_Inv _ demo_edited3_reachable)
    (ex_intro _ (job_view demo_candidate) (conj V eq_refl)) E)
    as (_ & old & job & pid & row & snapshot & _ & _ & Hj & R & _).
  - exists job. split; assumption.
Defined.

(** A second edit while version 3 waits in the queue. *)
Definition demo_request : M Db (option N) :=
  enqueue_publication_job (job_department demo_candidate) (job_station demo_candidate)
    (job_dataset_type_code demo_candidate) (Some 1%N) USER_REQUEST None false None.

Lemma requests_coalesce_witness :
  ∃ s', demo_request demo_edited3 = (Val (Some 3%N), s')
    ∧ job_trigger_type <$> db_jobs s' !! 3%N = Some USER_REQUEST.
Proof.
  assert (Hj : db_jobs demo_edited3 !! 3%N = Some demo_candidate) by (vm_compute; reflexivity).
  assert (Hp : job_status demo_candidate = JOB_PENDING) by (vm_compute; reflexivity).
  destruct (demo_request demo_edited3) as [[r|e] s'] eqn:E.
  - assert (R : r = Some 3%N) by (apply (f_equal fst) in E; vm_compute in E; congruence).
    subst r. exists s'. split; [reflexivity|]. unfold demo_request in E.
    destruct (requests_coalesce demo_edited3 3 demo_candidate (Some 1%N) USER_REQUEST None
      false None (Some 3%N) s' (reachable_Inv _ demo_edited3_reachable) Hj Hp E)
      as [(_ & revision & snapshot & fp & J & _)|(R & _)]; [|discriminate].
    rewrite J, lookup_insert_eq. reflexivity.
  - exfalso. apply (f_equal fst) in E. vm_compute in E. discriminate.
Defined.
