(* ===== verification/AccessTheorems.v ===== *)
(** Who may administer a publication scope: the policy that
    [require_publication_scope] enforces, and that a request without that authority
    changes nothing. *)
From S2P Require Import Prelude Models Registry Store Authorization Fingerprint.
From S2P Require Import Artifacts Restore Queue Build Worker Admin System Demo.

(** ** The roles *)

Definition effective (s : Db) (u : N) : Prop :=
  ∃ row, db_users s !! u = Some row ∧ us_is_authenticated row = true ∧ us_is_active row = true.

Definition system_admin (s : Db) (u : N) : Prop :=
  effective s u ∧ ∃ k r, db_system_roles s !! k = Some r ∧ sr_user r = u ∧ sr_active r = true.

(** An active member of an active department. *)
Definition department_admin (s : Db) (u d : N) : Prop :=
  effective s u ∧ (∃ dep, db_departments s !! d = Some dep ∧ dept_active dep = true)
  ∧ ∃ k m, db_memberships s !! k = Some m ∧ dm_user m = u ∧ dm_department m = d
      ∧ dm_active m = true.

(** The administrator of an active station of an active department. *)
Definition station_admin (s : Db) (u st : N) : Prop :=
  effective s u
  ∧ (∃ x dep, db_stations s !! st = Some x ∧ st_active x = true
       ∧ db_departments s !! st_department x = Some dep ∧ dept_active dep = true)
  ∧ ∃ k a, db_station_admins s !! k = Some a ∧ sa_user a = u ∧ sa_station a = st
      ∧ sa_active a = true.

Definition station_of (s : Db) (st d : N) : Prop :=
  ∃ x, db_stations s !! st = Some x ∧ st_department x = d.

(** ** The policy *)

Definition may_administer (s : Db) (u : N) (department station : option N) (c : string) : Prop :=
  ∃ def, DATASET_REGISTRY c = Some def ∧
    if String.eqb (dt_scope def) "system"
    then department = None ∧ station = None ∧ system_admin s u
    else ∃ d, department = Some d ∧
      if String.eqb c "station_files"
      then ¬ system_admin s u ∧ ∃ st, station = Some st ∧
             (department_admin s u d ∧ station_of s st d
              ∨ (∀ d', ¬ department_admin s u d') ∧ station_admin s u st)
      else department_admin s u d ∧ (c = "department_files" → ¬ system_admin s u).

(** The authority a request needs. *)
Definition authority (s : Db) (r : Request) : Prop :=
  match r with
  | RequestRebuild a d x c | StageUpdate a d x c => may_administer s a d x c
  | BuildStaged a k => ∃ sc, db_scopes s !! k = Some sc ∧
      may_administer s a (sc_department sc) (sc_station sc) (sc_dataset_type_code sc)
  | DeleteStaged a p | CancelBuild a p | Publish a p | Reject a p | Rollback a p | Delete a p =>
      ∃ row, db_publications s !! p = Some row ∧
        may_administer s a (pub_department row) (pub_station row) (pub_dataset_type_code row)
  | BulkRebuild a d => department_admin s a d
  | _ => True
  end.

(** ** The role queries *)

Lemma user_effective_spec s u : user_effective s u = true ↔ effective s u.
Proof.
  unfold user_effective, effective. destruct (db_users s !! u) as [row|].
  - rewrite andb_true_iff. split; [eauto|]. intros (? & [= <-] & ?). assumption.
  - split; [discriminate|]. intros (? & ? & _). discriminate.
Qed.

Lemma is_system_admin_spec s u : is_system_admin s u = true ↔ system_admin s u.
Proof.
  unfold is_system_admin, system_admin. rewrite andb_true_iff, user_effective_spec, exists_row_true.
  setoid_rewrite andb_true_iff. setoid_rewrite N.eqb_eq. reflexivity.
Qed.

Lemma has_active_membership_spec s u d : has_active_membership s u d = true ↔
  ∃ k m, db_memberships s !! k = Some m ∧ dm_user m = u ∧ dm_department m = d ∧ dm_active m = true.
Proof.
  unfold has_active_membership. rewrite exists_row_true. setoid_rewrite andb_true_iff.
  setoid_rewrite andb_true_iff. setoid_rewrite N.eqb_eq. naive_solver.
Qed.

Lemma rows_keys {A} (m : gmap N A) P k :
  k ∈ (rows m P).*1 ↔ ∃ a, m !! k = Some a ∧ P k a = true.
Proof.
  rewrite list_elem_of_fmap. split.
  - intros ([k' a] & -> & H). apply rows_elem in H. eauto.
  - intros (a & H). exists (k, a). split; [reflexivity|]. apply rows_elem, H.
Qed.

Lemma active_department_ids_spec s u d : d ∈ active_department_ids s u ↔ department_admin s u d.
Proof.
  unfold active_department_ids, department_admin. destruct (user_effective s u) eqn:E.
  - apply user_effective_spec in E. rewrite rows_keys. setoid_rewrite andb_true_iff.
    setoid_rewrite has_active_membership_spec. naive_solver.
  - split; [inversion 1|]. intros [He%user_effective_spec _]. congruence.
Qed.

Lemma active_station_ids_spec s u st : st ∈ active_station_ids s u ↔ station_admin s u st.
Proof.
  unfold active_station_ids, station_admin. destruct (user_effective s u) eqn:E.
  - apply user_effective_spec in E. rewrite rows_keys. setoid_rewrite andb_true_iff.
    setoid_rewrite andb_true_iff. setoid_rewrite exists_row_true. setoid_rewrite andb_true_iff.
    setoid_rewrite andb_true_iff. setoid_rewrite N.eqb_eq. split.
    + intros (x & Hx & ((k & a & Hk & [Hu Hs] & Ha) & Hact) & Hd).
      destruct (db_departments s !! st_department x) as [dep|] eqn:Ed; [|discriminate].
      split_and!; eauto 10.
    + intros (_ & (x & dep & Hx & Hact & Hd & Had) & k & a & Hk & Hu & Hs & Ha).
      exists x. rewrite Hd. split_and!; eauto 10.
  - split; [inversion 1|]. intros [He%user_effective_spec _]. congruence.
Qed.

(** ** The checks *)

Lemma guard_passes {S} (b : bool) k msg (s : S) : guard b k msg s = (Val tt, s) ↔ b = true.
Proof. destruct b; split; easy. Qed.

Lemma require_system_admin_spec s u : require_system_admin u s = (Val tt, s) ↔ system_admin s u.
Proof. rewrite <- is_system_admin_spec. apply guard_passes. Qed.

Lemma require_department_admin_spec s u d :
  require_department_admin u (Some d) s = (Val tt, s) ↔ department_admin s u d.
Proof.
  etrans; [apply guard_passes|]. simpl. rewrite <- active_department_ids_spec.
  destruct (db_departments s !! d) as [dep|] eqn:E.
  - rewrite andb_true_iff, mem_N_spec. split; [tauto|]. intros Hd. split; [|exact Hd].
    apply active_department_ids_spec in Hd as (_ & (dep' & E' & Ha) & _). congruence.
  - split; [discriminate|]. intros Hd.
    apply active_department_ids_spec in Hd as (_ & (dep' & E' & Ha) & _). congruence.
Qed.

Lemma require_no_department s u : require_department_admin u None s ≠ (Val tt, s).
Proof. discriminate. Qed.

Lemma no_departments s u : active_department_ids s u = [] ↔ ∀ d, ¬ department_admin s u d.
Proof.
  setoid_rewrite <- active_department_ids_spec. split; [intros -> d; inversion 1|].
  apply elem_of_nil_inv.
Qed.

Lemma require_department_scope_spec s u d :
  require_scope u (Some d) None s = (Val tt, s) ↔ ¬ system_admin s u ∧ department_admin s u d.
Proof.
  unfold require_scope, bind, gets. rewrite <- is_system_admin_spec, <- active_department_ids_spec.
  destruct (is_system_admin s u); [split; [discriminate|tauto]|].
  destruct (mem_N d _) eqn:E.
  - apply mem_N_spec in E. split; [auto|reflexivity].
  - split; [discriminate|]. intros [_ Hd%mem_N_spec]. congruence.
Qed.

Lemma require_station_scope_spec s u st : require_scope u None st s = (Val tt, s) ↔
  ¬ system_admin s u ∧ (∀ d, ¬ department_admin s u d) ∧ ∃ x, st = Some x ∧ station_admin s u x.
Proof.
  unfold require_scope, bind, gets. rewrite <- is_system_admin_spec, <- no_departments.
  setoid_rewrite <- active_station_ids_spec.
  destruct (is_system_admin s u); [split; [discriminate|tauto]|].
  destruct st as [x|]; [|split; [discriminate|]; intros (_ & _ & ? & ? & _); discriminate].
  destruct (active_department_ids s u); [|split; [discriminate|]; intros (_ & ? & _); discriminate].
  destruct (mem_N x _) eqn:E.
  - apply mem_N_spec in E. split; [eauto|reflexivity].
  - split; [discriminate|]. intros (_ & _ & ? & [= <-] & Hx%mem_N_spec). congruence.
Qed.

(** Station files, for an administrator of the department. *)
Lemma station_in_department_check s u d (st : option N) :
  mem_N d (active_department_ids s u) = true →
  (let! stations := gets db_stations in
   if match st with
      | Some k => match stations !! k with Some x => N.eqb (st_department x) d | None => false end
      | None => false
      end
   then require_department_admin u (Some d)
   else raise EPermissionDenied "Station does not belong to this department.") s = (Val tt, s)
  ↔ ∃ k, st = Some k ∧ station_of s k d.
Proof.
  intros Hd%mem_N_spec%active_department_ids_spec. unfold bind, gets, station_of.
  destruct st as [k|]; [|split; [discriminate|intros (? & ? & _); discriminate]].
  destruct (db_stations s !! k) as [x|] eqn:E.
  - destruct (N.eqb_spec (st_department x) d) as [Ex|Hne].
    + rewrite require_department_admin_spec. split; [intros _; eauto 10|auto].
    + split; [discriminate|]. intros (? & [= <-] & ? & ? & ?). congruence.
  - split; [discriminate|]. intros (? & [= <-] & ? & ? & ?). congruence.
Qed.

Lemma require_station_files s u d x :
  (if negb (is_system_admin s u) && mem_N d (active_department_ids s u) then
     let! stations := gets db_stations in
     if match x with
        | Some k => match stations !! k with Some x => N.eqb (st_department x) d | None => false end
        | None => false
        end
     then require_department_admin u (Some d)
     else raise EPermissionDenied "Station does not belong to this department."
   else require_scope u None x) s = (Val tt, s)
  ↔ ¬ system_admin s u ∧ ∃ st, x = Some st ∧
      (department_admin s u d ∧ station_of s st d
       ∨ (∀ d', ¬ department_admin s u d') ∧ station_admin s u st).
Proof.
  destruct (is_system_admin s u) eqn:A; simpl.
  { apply is_system_admin_spec in A. rewrite require_station_scope_spec. tauto. }
  assert (NA : ¬ system_admin s u) by (rewrite <- is_system_admin_spec; congruence).
  destruct (mem_N d _) eqn:D.
  - rewrite station_in_department_check by exact D. apply mem_N_spec, active_department_ids_spec in D.
    naive_solver.
  - rewrite require_station_scope_spec.
    assert (ND : ¬ department_admin s u d)
      by (rewrite <- active_department_ids_spec, <- mem_N_spec; congruence).
    naive_solver.
Qed.

Lemma require_registered s u d x c def : DATASET_REGISTRY c = Some def →
  require_publication_scope u d x c s = (Val tt, s) ↔
  if String.eqb (dt_scope def) "system" then d = None ∧ x = None ∧ system_admin s u
  else ∃ dep, d = Some dep ∧
    if String.eqb c "station_files"
    then ¬ system_admin s u ∧ ∃ st, x = Some st ∧
           (department_admin s u dep ∧ station_of s st dep
            ∨ (∀ d', ¬ department_admin s u d') ∧ station_admin s u st)
    else department_admin s u dep ∧ (c = "department_files" → ¬ system_admin s u).
Proof.
  intros Hd. unfold require_publication_scope, get_dataset_definition. rewrite Hd.
  unfold get_or_raise. rewrite (bind_run (ret def) _ s def s eq_refl).
  destruct (String.eqb (dt_scope def) "system").
  { destruct d as [d|], x as [x|]; simpl; try (split; [discriminate|intros (? & ? & _); discriminate]).
    rewrite require_system_admin_spec. tauto. }
  rewrite (bind_run (gets _) _ s _ s eq_refl), (bind_run (gets _) _ s _ s eq_refl).
  destruct d as [d|]; [|split; [|intros (? & ? & _); discriminate]].
  - transitivity (if String.eqb c "station_files"
      then ¬ system_admin s u ∧ ∃ st, x = Some st ∧
           (department_admin s u d ∧ station_of s st d
            ∨ (∀ d', ¬ department_admin s u d') ∧ station_admin s u st)
      else department_admin s u d ∧ (c = "department_files" → ¬ system_admin s u));
      [|split; [eauto|intros (? & [= <-] & ?); assumption]].
    destruct (String.eqb_spec c "station_files") as [->|Hs].
    + apply require_station_files.
    + unfold is_file_dataset. destruct (String.eqb_spec c "department_files") as [->|Hf].
      * simpl. rewrite require_department_scope_spec. tauto.
      * rewrite (proj2 (String.eqb_neq _ _) Hs). simpl. rewrite require_department_admin_spec. tauto.
  - destruct (String.eqb_spec c "station_files") as [->|Hs].
    + destruct (is_system_admin s u) eqn:A; [|discriminate]. simpl. intros E.
      apply require_station_scope_spec in E as [NA _]. apply is_system_admin_spec in A. contradiction.
    + simpl. destruct (String.eqb _ _); discriminate.
Qed.

(** The authorization policy of publications, exactly: a system dataset needs a
    system administrator; a station's files an administrator of the department the
    station belongs to or, for users who administer no department, of the station,
    and never a system administrator; a department's files an administrator of the
    department who is not a system administrator; any other dataset an
    administrator of the department.  The check changes nothing. *)
Theorem require_publication_scope_spec s u d x c s' :
  require_publication_scope u d x c s = (Val tt, s') ↔ s' = s ∧ may_administer s u d x c.
Proof.
  assert (R : readonly (require_publication_scope u d x c)) by auto with preserves.
  specialize (R s). enough (E : require_publication_scope u d x c s = (Val tt, s) ↔
    may_administer s u d x c).
  { split.
    - intros E'. rewrite E' in R. simpl in R. subst s'. split; [reflexivity|]. apply E, E'.
    - intros [-> Hm]. apply E, Hm. }
  clear R s'. unfold may_administer. destruct (DATASET_REGISTRY c) as [def|] eqn:Hd.
  - rewrite (require_registered _ _ _ _ _ _ Hd). split; [eauto|]. intros (? & [= <-] & Hm). exact Hm.
  - split; [|intros (? & ? & _); discriminate]. unfold require_publication_scope, bind,
      get_dataset_definition. rewrite Hd. discriminate.
Qed.

(** ** Requests *)

Lemma require_passes s u d x c t s' :
  require_publication_scope u d x c s = (Val t, s') → s' = s ∧ may_administer s u d x c.
Proof.
  intros E. assert (R : readonly (require_publication_scope u d x c)) by auto with preserves.
  specialize (R s). rewrite E in R. simpl in R. subst s'. split; [reflexivity|]. destruct t.
  unfold may_administer. destruct (DATASET_REGISTRY c) as [def|] eqn:Hd.
  - apply (require_registered _ _ _ _ _ _ Hd) in E. eauto.
  - exfalso. revert E. unfold require_publication_scope, bind, get_dataset_definition.
    rewrite Hd. discriminate.
Qed.

Section requests.
Context `{Settings} `{Hash} `{DocumentGenerations} `{ArtifactStore} `{Builders}.

Lemma administered_authority s u p row s' : administered_publication u p s = (Val row, s') →
  ∃ row, db_publications s !! p = Some row ∧
    may_administer s u (pub_department row) (pub_station row) (pub_dataset_type_code row).
Proof.
  intros E. apply bind_Val in E as (r & s1 & E1 & E). apply get_obj_Val in E1 as [E1 ->].
  apply bind_Val in E as (t & s2 & E2 & _). apply require_passes in E2 as [_ Hm]. eauto.
Qed.

(** A transaction that cannot return leaves the store as it is. *)
Lemma refused {B} (m : M Db B) s :
  (∀ a s', m s ≠ (Val a, s')) → ∃ e, done (commit (atomic m)) s = (Exc e, s).
Proof.
  intros Hc. unfold done, commit, atomic, bind. destruct (m s) as [[a|e] s'] eqn:E; [|eauto].
  exfalso. eapply Hc. reflexivity.
Qed.

(** C14: Tenant isolation: a request whose actor has no authority over the scope, the
    publication or the department it names raises and leaves the whole store as it
    is: no row, no audit event, no effect outside. *)
Theorem unauthorised_requests_change_nothing interleave r s :
  ¬ authority s r → ∃ e, serve interleave r s = (Exc e, s).
Proof.
  intros Hn. destruct r; simpl in Hn |- *; try (exfalso; exact (Hn I)).
  all: apply refused; intros a s' E; apply Hn; apply bind_Val in E as (t & s1 & E1 & E).
  all: try (eapply administered_authority; exact E1).
  - apply require_passes in E1. tauto.
  - apply require_passes in E1. tauto.
  - apply get_obj_Val in E1 as [E1 ->]. apply bind_Val in E as (u & s2 & E2 & _).
    apply require_passes in E2 as [_ Hm]. eauto.
  - destruct t. pose proof (readonly_require_department_admin actor (Some department) s) as R.
    rewrite E1 in R. simpl in R. subst s1. apply require_department_admin_spec, E1.
Qed.
End requests.

(** User 2 administers the system, not the department. *)
Lemma unauthorised_requests_change_nothing_witness :
  ∃ e, serve alone (Rollback 2 1) demo_superseded = (Exc e, demo_superseded).
Proof.
  apply unauthorised_requests_change_nothing. intros (row & Hrow & def & Hdef & Hm).
  assert (K : (λ p, (pub_department p, pub_dataset_type_code p)) <$>
    db_publications demo_superseded !! 1%N = Some (Some 1%N, "department_phonebook"))
    by (vm_compute; reflexivity).
  rewrite Hrow in K. injection K as E1 E2. rewrite E2 in Hdef.
  assert (S : dt_scope <$> Some def = Some "department")
    by (rewrite <- Hdef; vm_compute; reflexivity).
  injection S as S. rewrite S, E1, E2 in Hm. simpl in Hm.
  destruct Hm as (d & [= <-] & Ha & _). apply active_department_ids_spec in Ha.
  assert (N : active_department_ids demo_superseded 2 = []) by (vm_compute; reflexivity).
  rewrite N in Ha. inversion Ha.
Defined.
