(* ===== verification/WorkerTheorems.v ===== *)
(** How a build job ends without a publication: a build that fails, jobs whose worker is
    gone, and the end of every build, whatever other sessions do between its transactions. *)
From S2P Require Import Prelude Models Registry Store Fingerprint Authorization Lifecycle.
From S2P Require Import Artifacts Restore Queue Build Worker Simulation QueueSim AdminSim.
From S2P Require Import System.
From S2P Require Import Demo Totality QueueTheorems.

(** One attempt and one job change. *)
Definition moved_rows (s s' : Db) (pid : N) (row : DatasetPublication) (jid : N)
    (job : PublicationJob) : Prop :=
  tables s' = (db_scopes s, <[pid := row]> (db_publications s), <[jid := job]> (db_jobs s)).

(** What [recover_stale_jobs] makes of a job. *)
Definition recovered_job (now cutoff max_attempts : Z) (j : PublicationJob) : PublicationJob :=
  if negb (is_stale_job cutoff j) then j
  else if max_attempts <=? job_attempt_count j then
    j <| job_status := JOB_FAILED |> <| job_completed_at := Some now |>
      <| job_error_category := "retry_exhausted" |>
      <| job_error_message := "Publication build exceeded the maximum retry attempts." |>
  else
    j <| job_status := JOB_PENDING |> <| job_started_at := None |>
      <| job_heartbeat_at := None |> <| job_build_publication := None |>
      <| job_error_category := "retryable_timeout" |>
      <| job_error_message := "Worker heartbeat timed out; the build will be retried." |>.

Definition lost_attempt (p : DatasetPublication) : DatasetPublication :=
  p <| pub_status := PUB_FAILED |> <| pub_build_error := "Worker heartbeat timed out." |>.

(** The attempt is the build of one of these jobs, which is stale. *)
Definition lost_by (s : Db) (cutoff : Z) (ids : list N) (p : N) : bool :=
  existsb (λ k, match db_jobs s !! k with
                | Some j => is_stale_job cutoff j && bool_decide (job_build_publication j = Some p)
                | None => false
                end) ids.

(** What the recovery of the jobs [ids] makes of a store. *)
Definition recovered (now cutoff max_attempts : Z) (ids : list N) (s s' : Db) : Prop :=
  db_clock s' = db_clock s ∧ db_scopes s' = db_scopes s
  ∧ (∀ k, db_jobs s' !! k =
       (if bool_decide (k ∈ ids) then recovered_job now cutoff max_attempts else id)
         <$> db_jobs s !! k)
  ∧ (∀ p, db_publications s' !! p =
       (if lost_by s cutoff ids p then lost_attempt else id) <$> db_publications s !! p).

#[local] Arguments str_take : simpl never.

Section jobs.
Context `{Settings} `{Hash}.

Lemma view_moved s s' pid row jid job : moved_rows s s' pid row jid job →
  view s' = mkView (v_scopes (view s)) (<[pid := pub_view row]> (v_pubs (view s)))
    (<[jid := job_view job]> (v_jobs (view s))).
Proof. intros [= E1 E2 E3]. unfold view. rewrite E1, E2, E3, !fmap_insert. reflexivity. Qed.

Lemma moved_job s s' pid row jid job :
  moved_rows s s' pid row jid job → db_jobs s' !! jid = Some job.
Proof. intros [= _ _ ->]. apply lookup_insert_eq. Qed.

Lemma lookup_view_job s jid job :
  db_jobs s !! jid = Some job → v_jobs (view s) !! jid = Some (job_view job).
Proof. intros E. simpl. rewrite lookup_fmap, E. reflexivity. Qed.

Lemma lookup_view_pub s pid row :
  db_publications s !! pid = Some row → v_pubs (view s) !! pid = Some (pub_view row).
Proof. intros E. simpl. rewrite lookup_fmap, E. reflexivity. Qed.

(** The invariant after a running build has ended or has gone back to the queue. *)
Lemma Inv_moved s s' pid row row' jid job job' : Inv (view s) →
  db_jobs s !! jid = Some job → job_status job = JOB_RUNNING →
  job_build_publication job = Some pid → db_publications s !! pid = Some row →
  moved_rows s s' pid row' jid job' →
  (∃ stp ready stj, pub_view row' = pub_done stp ready (pub_view row)
     ∧ job_view job' = job_to stj (job_view job)
     ∧ dead_job_status stj = true ∧ dead_pub_status stp = true)
  ∨ pub_view row' = pub_to PUB_FAILED (pub_view row)
    ∧ job_view job' = job_requeued (job_view job) →
  Inv (view s').
Proof.
  intros I Hj Hr B Hp E Hd. apply lookup_view_job in Hj. apply lookup_view_pub in Hp.
  rewrite (view_moved _ _ _ _ _ _ E). eapply Inv_step; [exact I|].
  destruct Hd as [(stp & ready & stj & -> & -> & D1 & D2)|[-> ->]].
  - eapply ls_end; eauto.
  - eapply ls_retry; eauto.
Qed.

(** ** Failing *)

Lemma wp_fail_publication pid row error s (Q : unit → Db → Prop) :
  db_publications s !! pid = Some row → pub_status row = BUILDING →
  (∀ s', tables s' = (db_scopes s, <[pid := row <| pub_status := PUB_FAILED |>
       <| pub_artifact_status := ARTIFACT_FAILED |> <| pub_build_error := error |>]>
       (db_publications s), db_jobs s) → Q tt s') →
  wp (fail_publication pid error) s Q.
Proof.
  intros Hp Hs HQ. unfold fail_publication. apply wp_bind, wp_find_obj. rewrite Hp.
  apply wp_bind. eapply (wp_frame tables); [total|frame|]. intros [] s1 [= E1 E2 E3].
  rewrite Hs. simpl. apply wp_bind. eapply wp_save; [rewrite E2; exact Hp|]. apply wp_bind.
  eapply (wp_frame tables); [apply total_release; reflexivity|
    apply keeps_release; reflexivity|].
  intros _ s2 [= F1 F2 F3]. apply wp_ret, HQ. unfold tables. simpl in *.
  rewrite F1, F2, F3, E1, E2, E3. reflexivity.
Qed.

(** A failing build is always recorded: from a store with the invariant,
    failing a running job returns, the job is FAILED with the message and the
    category, its attempt is FAILED, and no other job, attempt or scope changes. *)
Theorem failed_build_is_recorded s jid job message category :
  Inv (view s) → db_jobs s !! jid = Some job → job_status job = JOB_RUNNING →
  ∃ pid row s', job_build_publication job = Some pid
    ∧ db_publications s !! pid = Some row ∧ pub_status row = BUILDING
    ∧ fail_publication_job jid message category s = (Val jid, s')
    ∧ moved_rows s s' pid
        (row <| pub_status := PUB_FAILED |> <| pub_artifact_status := ARTIFACT_FAILED |>
             <| pub_build_error := str_take 2000 message |>) jid
        (job <| job_status := JOB_FAILED |> <| job_completed_at := Some (db_clock s) |>
             <| job_error_message := str_take 2000 message |>
             <| job_error_category := str_take 32 category |>).
Proof.
  intros I Hj Hr. destruct (running_job_found _ _ _ I Hj Hr) as (pid & row & B & Hp & Sb).
  destruct (job_scope_found _ _ _ I Hj) as (sc & Hk & _ & L).
  exists pid, row. match goal with |- ∃ s', ?P ∧ ?Q ∧ ?R ∧ ?m s = _ ∧ moved_rows _ _ _ ?r _ ?j =>
    enough (W : wp m s (λ r0 s', r0 = jid ∧ moved_rows s s' pid r jid j)) end.
  { apply wp_Val in W as (r0 & s' & E & -> & M). exists s'. auto. }
  apply wp_atomic, wp_bind. eapply wp_get_obj; [exact Hj|]. apply wp_bind.
  eapply wp_run; [exact L|]. apply wp_bind. eapply wp_get_obj; [exact Hj|].
  rewrite Hr. simpl. apply wp_bind, wp_ret, wp_bind. eapply wp_save; [exact Hj|].
  apply wp_bind. rewrite B. eapply wp_fail_publication; [exact Hp|exact Sb|].
  intros s1 E1. apply wp_bind. eapply (wp_frame tables); [total|frame|]. intros [] s2 E2.
  rewrite E1 in E2. apply wp_bind.
  assert (I2 : Inv (view s2)).
  { eapply (Inv_moved s s2); [exact I|exact Hj|exact Hr|exact B|exact Hp|exact E2|].
    left. exists PUB_FAILED, false, JOB_FAILED. split_and!; reflexivity. }
  eapply wp_queue_follow_up; [exact I2|injection E2 as _ _ ->; apply lookup_insert_eq|
    reflexivity|].
  intros s3 E3 _. apply wp_ret. split; [reflexivity|]. unfold moved_rows. rewrite E3. exact E2.
Qed.

(** ** Recovering *)

Lemma stale_running cutoff j : is_stale_job cutoff j = true → job_status j = JOB_RUNNING.
Proof. unfold is_stale_job. intros E. bools. assumption. Qed.

Lemma wp_recover_job cutoff n acc jid job s : Inv (view s) → db_jobs s !! jid = Some job →
  is_stale_job cutoff job = true →
  wp (recover_job cutoff n acc jid) s (λ r s', r = acc + 1 ∧ Inv (view s')
    ∧ db_clock s' = db_clock s ∧ ∃ pid row, job_build_publication job = Some pid
    ∧ db_publications s !! pid = Some row
    ∧ moved_rows s s' pid (lost_attempt row) jid (recovered_job (db_clock s) cutoff n job)).
Proof.
  intros I Hj Hst. pose proof (stale_running _ _ Hst) as Hr.
  destruct (running_job_found _ _ _ I Hj Hr) as (pid & row & B & Hp & Sb).
  destruct (job_scope_found _ _ _ I Hj) as (sc & Hk & _ & L).
  set (job' := recovered_job (db_clock s) cutoff n job).
  assert (HI : ∀ s', moved_rows s s' pid (lost_attempt row) jid job' → Inv (view s')).
  { intros s' M. eapply (Inv_moved s s'); [exact I|exact Hj|exact Hr|exact B|exact Hp|exact M|].
    unfold job', recovered_job. rewrite Hst. simpl. destruct (_ <=? _); [left|right; split; reflexivity].
    exists PUB_FAILED, (pv_ready (pub_view row)), JOB_FAILED. split_and!; reflexivity. }
  enough (W : wp (recover_job cutoff n acc jid) s (λ r s', r = acc + 1 ∧
    db_clock s' = db_clock s ∧ moved_rows s s' pid (lost_attempt row) jid job')).
  { eapply wp_mono; [exact W|]. intros r s' (-> & C & M). cbv beta. eauto 10. }
  unfold job', recovered_job in *. rewrite Hst in *. cbn [negb] in *.
  apply wp_bind, wp_find_obj. rewrite Hj. apply wp_bind. eapply wp_run; [exact L|].
  apply wp_bind, wp_find_obj. rewrite Hj, Hst. cbn [negb]. rewrite B. apply wp_bind.
  eapply (wp_mono _ _ (λ _ s', db_clock s' = db_clock s ∧
    tables s' = (db_scopes s, <[pid := lost_attempt row]> (db_publications s), db_jobs s))).
  { apply wp_bind, wp_find_obj. rewrite Hp, Sb. cbn [bool_decide when decide_rel].
    apply wp_bind. eapply wp_save; [exact Hp|]. apply wp_bind.
    eapply (wp_frame (λ s, (db_clock s, tables s))); [apply total_release; reflexivity|
      apply keeps_release; reflexivity|].
    intros _ s1 [= C1 E1 H2 H3]. apply wp_ret. split; [exact C1|]. unfold tables.
    rewrite E1, H2, H3. reflexivity. }
  intros _ s1 [C1 E1]. injection E1 as E1 E2 E3. apply wp_bind, wp_ret. rewrite C1.
  destruct (n <=? job_attempt_count job).
  - apply wp_bind. eapply wp_save; [rewrite E3; exact Hj|]. apply wp_bind.
    match goal with |- wp _ ?s2 (λ _ s', wp _ _ (λ _ s'', _ ∧ _ ∧ moved_rows _ _ _ ?r _ ?j)) =>
      assert (M : moved_rows s s2 pid r jid j) by
        (unfold moved_rows, tables; simpl; rewrite E1, E2, E3; reflexivity) end.
    eapply wp_queue_follow_up; [exact (HI _ M)|apply lookup_insert_eq|reflexivity|].
    intros s3 E C3. apply wp_ret. split_and!; [reflexivity|rewrite C3; exact C1|].
    unfold moved_rows. rewrite E. exact M.
  - apply wp_bind. eapply wp_save; [rewrite E3; exact Hj|]. apply wp_ret.
    split_and!; [reflexivity|exact C1|]. unfold moved_rows, tables. simpl.
    rewrite E1, E2, E3. reflexivity.
Qed.

Lemma recover_job_kept cutoff n acc jid s : Inv (view s) →
  (∀ job, db_jobs s !! jid = Some job → is_stale_job cutoff job = false) →
  wp (recover_job cutoff n acc jid) s (λ r s', r = acc ∧ s' = s).
Proof.
  intros I Hns. apply wp_bind, wp_find_obj. destruct (db_jobs s !! jid) as [job|] eqn:Hj;
    [|apply wp_ret; auto].
  destruct (job_scope_found _ _ _ I Hj) as (sc & _ & _ & L). apply wp_bind.
  eapply wp_run; [exact L|]. apply wp_bind, wp_find_obj. rewrite Hj, (Hns _ eq_refl).
  apply wp_ret; auto.
Qed.

Lemma lost_attempt_idem p : lost_attempt (lost_attempt p) = lost_attempt p.
Proof. reflexivity. Qed.

Lemma recovered_nil now cutoff n s : recovered now cutoff n [] s s.
Proof. split_and!; try reflexivity; intros k; simpl; rewrite option_fmap_id; reflexivity. Qed.

Lemma existsb_ext_in {A} (f g : A → bool) l :
  (∀ x, x ∈ l → f x = g x) → existsb f l = existsb g l.
Proof.
  induction l as [|x l IH]; intros E; simpl; [reflexivity|].
  rewrite E by left. f_equal. apply IH. intros y Hy. apply E. right. exact Hy.
Qed.

(** One more job. *)
Lemma recovered_cons now cutoff n jid ids s s1 s' job pid row :
  jid ∉ ids → db_jobs s !! jid = Some job → is_stale_job cutoff job = true →
  job_build_publication job = Some pid → db_publications s !! pid = Some row →
  db_clock s1 = db_clock s →
  moved_rows s s1 pid (lost_attempt row) jid (recovered_job now cutoff n job) →
  recovered now cutoff n ids s1 s' → recovered now cutoff n (jid :: ids) s s'.
Proof.
  intros Hni Hj Hst B Hp Hc [= E1 E2 E3] (R1 & R2 & R3 & R4).
  assert (Hlost : ∀ p, lost_by s cutoff (jid :: ids) p =
                         bool_decide (Some pid = Some p) || lost_by s1 cutoff ids p).
  { intros p. unfold lost_by. simpl. rewrite Hj, Hst, B. f_equal. apply existsb_ext_in.
    intros k Hk. rewrite E3, lookup_insert_ne; [reflexivity|]. intros ->. contradiction. }
  split_and!; [congruence|congruence| |].
  - intros k. rewrite R3. destruct (decide (k = jid)) as [->|Hne].
    + rewrite E3, lookup_insert_eq, Hj. rewrite (bool_decide_eq_true_2 (jid ∈ jid :: ids)) by left.
      rewrite bool_decide_eq_false_2 by exact Hni. reflexivity.
    + rewrite E3, lookup_insert_ne by congruence. f_equal.
      rewrite (bool_decide_ext (k ∈ jid :: ids) (k ∈ ids)) by set_solver. reflexivity.
  - intros p. rewrite R4, Hlost, E2. destruct (decide (p = pid)) as [->|Hne].
    + rewrite bool_decide_eq_true_2, lookup_insert_eq, Hp by reflexivity. simpl.
      destruct (lost_by s1 cutoff ids pid); reflexivity.
    + rewrite bool_decide_eq_false_2, lookup_insert_ne by congruence. reflexivity.
Qed.

Lemma wp_recover_jobs cutoff n ids acc s : Inv (view s) → NoDup ids →
  Forall (λ k, ∃ j, db_jobs s !! k = Some j ∧ is_stale_job cutoff j = true) ids →
  wp (fold_m (recover_job cutoff n) acc ids) s (λ r s',
    r = acc + Z.of_nat (length ids) ∧ recovered (db_clock s) cutoff n ids s s').
Proof.
  revert acc s. induction ids as [|jid ids IH]; intros acc s I Hnd Hst; simpl.
  { apply wp_ret. split; [lia|apply recovered_nil]. }
  inversion Hnd as [|? ? Hni Hnd']; subst. inversion Hst as [|? ? (job & Hj & Hs) Hst']; subst.
  apply wp_bind. eapply wp_mono; [eapply wp_recover_job; eassumption|].
  intros r s1 (-> & I1 & C1 & pid & row & B & Hp & M). eapply wp_mono; [apply IH|].
  - exact I1.
  - exact Hnd'.
  - apply Forall_forall. intros k Hk. rewrite Forall_forall in Hst'.
    destruct (Hst' _ Hk) as (j & Hkj & Hsj). exists j. split; [|exact Hsj].
    injection M as _ _ ->. rewrite lookup_insert_ne; [exact Hkj|]. intros ->. contradiction.
  - intros r s' (-> & R). rewrite C1 in R. split; [lia|]. eapply recovered_cons; eassumption.
Qed.

Lemma recovered_perm now cutoff n ids ids' s s' : ids ≡ₚ ids' →
  recovered now cutoff n ids s s' → recovered now cutoff n ids' s s'.
Proof.
  intros P (R1 & R2 & R3 & R4). split_and!; [exact R1|exact R2| |].
  - intros k. rewrite R3, (bool_decide_ext (k ∈ ids) (k ∈ ids')) by (rewrite P; reflexivity).
    reflexivity.
  - intros p. rewrite R4. enough (lost_by s cutoff ids p = lost_by s cutoff ids' p) as -> by auto.
    apply eq_iff_eq_true. unfold lost_by. rewrite !existsb_exists.
    split; intros (k & Hin & E); exists k; split; [|exact E| |exact E];
      apply list_elem_of_In; apply list_elem_of_In in Hin; rewrite P in *; exact Hin.
Qed.

(** Recovery is complete and exact: it always returns the number of lost jobs;
    each of them has failed, when its attempts are used up, or waits in the queue
    without an attempt, and its old attempt has FAILED; everything else is as it
    was, and no job is left that lost its worker. *)
Theorem recovery_is_complete s timeout max_attempts :
  Inv (view s) → 0 < timeout → 1 ≤ max_attempts →
  let cutoff := db_clock s - timeout in
  let lost := rows (db_jobs s) (λ _ j, is_stale_job cutoff j) in
  ∃ s', recover_stale_jobs timeout max_attempts s = (Val (Z.of_nat (length lost)), s')
    ∧ db_scopes s' = db_scopes s
    ∧ (∀ k, db_jobs s' !! k =
         recovered_job (db_clock s) cutoff max_attempts <$> db_jobs s !! k)
    ∧ (∀ p, db_publications s' !! p =
         (if lost_by s cutoff lost.*1 p then lost_attempt else id) <$> db_publications s !! p)
    ∧ rows (db_jobs s') (λ _ j, is_stale_job cutoff j) = [].
Proof.
  intros I Ht Hm cutoff lost.
  enough (W : wp (recover_stale_jobs timeout max_attempts) s (λ r s',
    r = Z.of_nat (length lost) ∧ recovered (db_clock s) cutoff max_attempts lost.*1 s s')).
  { apply wp_Val in W as (r & s' & E & -> & _ & R2 & R3 & R4).
    assert (R3' : ∀ k, db_jobs s' !! k =
      recovered_job (db_clock s) cutoff max_attempts <$> db_jobs s !! k).
    { intros k. rewrite R3. destruct (bool_decide (k ∈ lost.*1)) eqn:Hk; [reflexivity|].
      apply bool_decide_eq_false in Hk. destruct (db_jobs s !! k) as [j|] eqn:Hj; [|reflexivity].
      simpl. f_equal. unfold recovered_job. destruct (is_stale_job cutoff j) eqn:Hs; [|reflexivity].
      exfalso. apply Hk. apply list_elem_of_fmap. exists (k, j). split; [reflexivity|].
      apply rows_elem. auto. }
    exists s'. split_and!; [exact E|exact R2|exact R3'|exact R4|].
    apply elem_of_nil_inv. intros [k j] Hin. apply rows_elem in Hin as [Hk Hs].
    rewrite R3' in Hk. destruct (db_jobs s !! k) as [j0|]; [|discriminate]. injection Hk as <-.
    unfold recovered_job in Hs. destruct (is_stale_job cutoff j0) eqn:Hs0; simpl in Hs; [|congruence].
    destruct (_ <=? _); discriminate. }
  apply wp_atomic. apply wp_bind. rewrite (proj2 (Z.ltb_lt _ _) Ht). apply wp_ret, wp_bind.
  rewrite (proj2 (Z.leb_le _ _) Hm). apply wp_ret, wp_bind, wp_ret, wp_bind, wp_ret.
  fold cutoff. set (ids := (order_by _ _).*1).
  assert (P : ids ≡ₚ lost.*1) by (apply fmap_Permutation, order_by_perm).
  eapply wp_mono; [apply (wp_recover_jobs cutoff max_attempts ids 0 s I)|].
  - rewrite P. apply rows_NoDup.
  - apply Forall_forall. intros k Hk. rewrite P in Hk.
    apply list_elem_of_fmap in Hk as ([k' j] & -> & Hin). apply rows_elem in Hin. eauto.
  - intros r s' (-> & R). split; [rewrite P, length_fmap; reflexivity|].
    eapply recovered_perm; [exact P|exact R].
Qed.
End jobs.

(** The worker of the claimed job is lost. *)
Definition demo_lost : Db := after_day demo_building.

Definition demo_running : PublicationJob :=
  default demo_candidate (db_jobs demo_building !! 3%N).

Lemma failed_build_is_recorded_witness :
  ∃ s', fail_publication_job 3 "boom" "build" demo_building = (Val 3%N, s')
    ∧ job_status <$> db_jobs s' !! 3%N = Some JOB_FAILED.
Proof.
  assert (Hj : db_jobs demo_building !! 3%N = Some demo_running) by (vm_compute; reflexivity).
  destruct (failed_build_is_recorded demo_building 3 demo_running "boom" "build"
    (reachable_Inv _ demo_building_reachable) Hj ltac:(vm_compute; reflexivity))
    as (pid & row & s' & _ & _ & _ & E & M).
  exists s'. split; [exact E|]. rewrite (moved_job _ _ _ _ _ _ M). reflexivity.
Defined.

Lemma recovery_is_complete_witness :
  ∃ s', recover_stale_jobs 600000000 3 demo_lost = (Val 1, s')
    ∧ job_status <$> db_jobs s' !! 3%N = Some JOB_PENDING.
Proof.
  destruct (recovery_is_complete demo_lost 600000000 3
    (reachable_Inv _ (after_day_reachable _ demo_building_reachable)) eq_refl ltac:(lia))
    as (s' & E & _ & Hjobs & _).
  exists s'. split.
  - exact E.
  - rewrite Hjobs. vm_compute. reflexivity.
Defined.

Section worker.
Context `{Settings} `{Hash} `{DocumentGenerations} `{ArtifactStore} `{BuildersQuiet}.
Context (interleave : nat → M Db unit) (Hint : ∀ n, simulated (interleave n)).
Context (jid pid : N).

(** The attempt is over, or still built by the job. *)
Definition held (s : Db) : Prop := Inv (view s) ∧ in_hands jid pid (view s).

Definition over (s : Db) : Prop :=
  Inv (view s) ∧ ∃ pv, v_pubs (view s) !! pid = Some pv ∧ past_status (pv_status pv) = true.

Lemma held_sim s s' : sim s s' → held s → held s'.
Proof.
  intros R [I K]. specialize (R I). split; [eapply Inv_steps|eapply steps_in_hands]; eassumption.
Qed.

Lemma over_sim s s' : sim s s' → over s → over s'.
Proof.
  intros R (I & pv & G & P). specialize (R I). split; [eapply Inv_steps; eassumption|].
  eapply steps_past; eassumption.
Qed.

Lemma wlp_held {A} (m : M Db A) s (Q : A → Db → Prop) : simulated m → held s →
  (∀ a s', held s' → Q a s') → wlp m s Q.
Proof.
  intros Hm K HQ. eapply wlp_mono; [apply preserves_wlp, Hm|]. intros a s' R.
  eapply HQ, held_sim; [exact R|exact K].
Qed.

Lemma wlp_over {A} (m : M Db A) s (Q : A → Db → Prop) : simulated m → over s →
  (∀ a s', over s' → Q a s') → wlp m s Q.
Proof.
  intros Hm K HQ. eapply wlp_mono; [apply preserves_wlp, Hm|]. intros a s' R.
  eapply HQ, over_sim; [exact R|exact K].
Qed.

(** *** Rules *)

Lemma wlp_try_except {A} (m : M Db A) h s (Q : A → Db → Prop) : simulated m → held s →
  wlp m s Q → (∀ e k s', held s' → h e = Some k → wlp k s' Q) → wlp (try_except m h) s Q.
Proof.
  intros Hm K HQ Hh. specialize (Hm s). unfold wlp, try_except in *.
  destruct (m s) as [[a|e] s'] eqn:E; [exact HQ|]. destruct (h e) as [k|] eqn:Eh; [|exact I].
  apply (Hh e k s'); [|exact Eh]. eapply held_sim; [exact Hm|exact K].
Qed.

Lemma wlp_try_finally {A} (m : M Db A) f s (Q : A → Db → Prop) :
  wlp m s (λ a s', wlp f s' (λ _ s'', Q a s'')) → wlp (try_finally m f) s Q.
Proof.
  unfold wlp, try_finally. destruct (m s) as [[a|e] s']; destruct (f s') as [[u|e'] s'']; auto.
Qed.

Lemma wlp_commit_over {A} (m : M Db A) s :
  wlp m s (λ _ s', over s') → wlp (commit m) s (λ _ s', over s').
Proof.
  unfold wlp at 1. unfold wlp, commit. destruct (m s) as [[a|e] s']; [|auto]. intros K.
  apply wlp_bind. eapply wlp_over.
  - apply preserves_for_each; [exact _|]. apply simulated_run_callback.
  - assert (R : sim s' (s' <| db_on_commit := [] |>)) by (intros _; reflexivity).
    exact (over_sim _ _ R K).
  - intros u s2 K2. apply wlp_ret, K2.
Qed.

(** A service that ends the job's build ends the attempt. *)
Lemma wlp_quit {A} (m : M Db A) s :
  (∀ V, Inv V → vwlp m V (λ _ V', rtc lstep V V' ∧ job_quit jid V V')) → held s →
  wlp m s (λ _ s', over s').
Proof.
  intros Hm (I & pv & G & K). eapply wlp_mono; [apply (Hm _ I s eq_refl)|].
  cbv beta. intros a s' [R Qt]. split; [eapply Inv_steps; eassumption|].
  destruct K as [P|(S & jv & Gj & Rj & B)]; [eapply steps_past; eassumption|].
  eapply Qt; eassumption.
Qed.

(** The checkpoint sees a cancelled build. *)
Lemma not_running_over s s' : held s → _build_is_still_running jid s = (Val false, s') → over s.
Proof.
  intros (I & pv & G & K) [= E _]. split; [exact I|]. exists pv. split; [exact G|].
  destruct K as [P|(S & jv & Gj & R & B)]; [exact P|]. exfalso. simpl in Gj, G.
  rewrite lookup_fmap in Gj. rewrite lookup_fmap in G. destruct (db_jobs s !! jid) as [job|]; [|discriminate].
  injection Gj as <-. simpl in R, B. rewrite R, B in E. simpl in E.
  destruct (db_publications s !! pid) as [row|]; [|discriminate]. injection G as <-.
  simpl in S. rewrite S in E. discriminate.
Qed.

(** *** The build *)

Hint Resolve quiet_of_outcome quiet_compensate_artifact readonly_build_is_still_running
  simulated_discard_created simulated_release_if_terminal Hint : preserves.
Hint Extern 9 (preserves sim _) => apply simulated_quiet : preserves.

Lemma wlp_build_failed a e k s : held s → build_failed jid a e = Some k →
  wlp k s (λ _ s', over s').
Proof.
  intros K E. unfold build_failed in E.
  enough (F : ∀ message category, wlp (_compensate_artifact a ;;;
    commit (fail_publication_job jid message category)) s (λ _ s', over s'))
    by (destruct (exn_kind e); simplify_eq; apply F).
  intros m c. apply wlp_bind, wlp_held; [auto with preserves|exact K|]. intros u s1 K1.
  apply wlp_commit_over, wlp_quit; [intros; apply vwlp_fail_job; assumption|exact K1].
Qed.

Lemma wlp_checkpoint (Q : bool → Db → Prop) s : held s →
  (Q true s) → (over s → Q false s) → wlp (_build_is_still_running jid) s Q.
Proof.
  intros K Ht Hf. apply readonly_wlp; [auto with preserves|]. intros [|] E; [exact Ht|].
  apply Hf. eapply not_running_over; eassumption.
Qed.

Lemma wlp_build_inputs job s : held s →
  wlp (build_inputs interleave jid job pid) s (λ r s', held s' ∧ (r = None → over s')).
Proof.
  intros K. unfold build_inputs.
  apply wlp_bind, wlp_held; [auto with preserves|exact K|]. intros def s1 K1.
  apply wlp_bind, wlp_held; [auto with preserves|exact K1|]. intros u s2 K2.
  apply wlp_bind, wlp_held; [auto with preserves|exact K2|]. intros p s3 K3.
  apply wlp_bind, wlp_held; [preserve|exact K3|]. intros v s4 K4.
  apply wlp_bind, wlp_held; [auto with preserves|exact K4|]. intros store s5 K5.
  apply wlp_bind, wlp_held; [auto with preserves|exact K5|]. intros summary s6 K6.
  apply wlp_bind, wlp_held; [apply Hint|exact K6|]. intros w s7 K7.
  apply wlp_bind, wlp_checkpoint; [exact K7| |].
  - simpl. destruct (is_document_v2 p); [apply wlp_ret; easy|].
    apply wlp_bind, wlp_held; [auto with preserves|exact K7|]. intros store' s8 K8.
    apply wlp_bind, wlp_held; [auto with preserves|exact K8|]. intros a s9 K9.
    apply wlp_ret. easy.
  - intros O. apply wlp_ret. auto.
Qed.

Lemma wlp_build_generation s : held s →
  wlp (build_generation pid) s (λ r s', held s' ∧ (r.1 = Val false → over s')).
Proof.
  intros K. eapply wlp_mono; [apply (wlp_and _ _ (λ _ s', held s')
    (λ r s', r.1 = Val false → over s'))|auto].
  - apply wlp_held; [apply simulated_quiet, quiet_build_generation|exact K|auto].
  - unfold wlp, build_generation. destruct (db_publications s !! pid) as [p|] eqn:Hp;
      [|discriminate]. destruct (bool_decide _) eqn:S; simpl.
    + destruct (build_document_v2 pid s) as [[[u|e] l] s']; [discriminate|].
      destruct (exn_kind e); discriminate.
    + intros _. destruct K as (I & pv & G & K). split; [exact I|]. exists pv. split; [exact G|].
      destruct K as [P|[E _]]; [exact P|]. apply bool_decide_eq_false in S. exfalso.
      simpl in G. rewrite lookup_fmap, Hp in G. injection G as <-. exact (S E).
Qed.

Lemma wlp_build_outputs summary a p g s : held s → (g = Val false → over s) →
  wlp (build_outputs interleave jid pid summary a p g) s (λ _ s', over s').
Proof.
  intros K O. unfold build_outputs. apply wlp_bind.
  destruct g as [proceed|e]; [|exact I]. apply wlp_ret.
  destruct proceed; cbn [negb]; [|apply wlp_ret, O; reflexivity].
  apply wlp_bind, wlp_held; [preserve|exact K|]. intros u s1 K1.
  apply wlp_bind, wlp_held; [apply Hint|exact K1|]. intros v s2 K2.
  apply wlp_bind, wlp_checkpoint; [exact K2| |]; cbn [negb].
  - apply wlp_bind, wlp_held; [apply Hint|exact K2|]. intros w s3 K3.
    apply wlp_commit_over, wlp_quit; [intros; apply vwlp_finalize; assumption|exact K3].
  - intros O2. apply wlp_bind, wlp_over;
      [apply simulated_quiet, quiet_compensate_artifact|exact O2|]. intros w s3 O3.
    apply wlp_ret, O3.
Qed.

(** C13: A worker finishes what it builds: when the build of a claimed job returns,
    whatever summary, artifact or failure the builders gave and whatever other
    sessions did between its transactions, the attempt the job was building is
    neither STAGED nor BUILDING, and every later store keeps it so. *)
Theorem finished_builds_leave_no_attempt s job r s' :
  Inv (view s) → db_jobs s !! jid = Some job → job_status job = JOB_RUNNING →
  job_build_publication job = Some pid →
  build_claimed_job interleave jid s = (Val r, s') →
  Inv (view s') ∧ ∀ s2, rtc lstep (view s') (view s2) →
    ∃ row, db_publications s2 !! pid = Some row ∧ past_status (pub_status row) = true.
Proof.
  intros I Hj Hr B E.
  assert (O : over s').
  { refine (wlp_val _ _ _ _ (λ _ s', over s') E _). clear E r s'.
    assert (K : held s).
    { split; [exact I|]. destruct (running_job_found _ _ _ I Hj Hr) as (p & row & B' & Hp & S).
      rewrite B in B'. injection B' as <-. exists (pub_view row).
      split; [apply lookup_view_pub, Hp|]. right. split; [exact S|]. exists (job_view job).
      split_and!; [apply lookup_view_job, Hj|exact Hr|exact B]. }
    unfold build_claimed_job. apply wlp_bind, wlp_get_obj. intros j Ej. rewrite Hj in Ej.
    injection Ej as <-. rewrite Hr, B. cbn [bool_decide decide_rel negb].
    apply wlp_bind. eapply (wlp_mono _ _ (λ i s1, held s1 ∧
      match i with inl _ | inr None => over s1 | inr (Some _) => True end)).
    - apply wlp_try_except; [|exact K| |].
      + apply preserves_bind; [exact _|apply simulated_build_inputs; exact Hint|].
        auto with preserves.
      + apply wlp_bind. eapply wlp_mono; [apply wlp_build_inputs, K|].
        intros o s1 [K1 O1]. apply wlp_ret. split; [exact K1|]. destruct o; auto.
      + intros e k s1 K1 Ek. destruct (build_failed jid None e) as [m|] eqn:Ef; [|discriminate].
        injection Ek as <-. apply wlp_bind. eapply wlp_mono; [eapply wlp_build_failed; eassumption|].
        cbv beta. intros x s2 O2. apply wlp_ret. split; [|exact O2].
        destruct O2 as (I2 & pv & G & P). split; [exact I2|]. exists pv. auto.
    - intros [x|[[[summary a] p]|]] s1 [K1 O1]; try (apply wlp_ret; exact O1).
      apply wlp_bind. eapply (wlp_mono _ _ (λ x s2, held s2 ∧ (x.1 = Val false → over s2))).
      { destruct (is_document_v2 p); [apply wlp_build_generation, K1|].
        apply wlp_ret. split; [exact K1|discriminate]. }
      intros [g created] s2 [K2 O2]. simpl in O2. apply wlp_try_finally.
      eapply wlp_mono; [apply wlp_try_except|].
      + apply simulated_build_outputs. exact Hint.
      + exact K2.
      + apply wlp_build_outputs; [exact K2|exact O2].
      + intros e k s3 K3 Ek. eapply wlp_build_failed; eassumption.
      + cbv beta. intros x s3 O3. apply wlp_over; [auto with preserves|exact O3|auto]. }
  split; [apply O|]. intros s2 R. destruct (over_sim s' s2 (λ _, R) O) as (_ & pv & G & P).
  simpl in G. rewrite lookup_fmap in G.
  destruct (db_publications s2 !! pid) as [row|]; [|discriminate]. injection G as <-. eauto.
Qed.
End worker.

(** While the worker builds version 3, an administrator cancels it. *)
Definition cancelling (n : nat) : M Db unit :=
  if Nat.eqb n 2 then serve alone (CancelBuild 1 3) else ret tt.

Lemma cancelling_simulated n : simulated (cancelling n).
Proof.
  unfold cancelling. destruct (Nat.eqb n 2).
  - apply simulated_serve, alone_simulated.
  - apply simulated_quiet. intros s. reflexivity.
Qed.

Lemma finished_builds_leave_no_attempt_witness :
  ∃ s' row, build_claimed_job cancelling 3 demo_building = (Val 3%N, s')
    ∧ db_publications s' !! 3%N = Some row ∧ pub_status row = PUB_CANCELLED
    ∧ past_status (pub_status row) = true.
Proof.
  assert (Hj : db_jobs demo_building !! 3%N = Some demo_running) by (vm_compute; reflexivity).
  assert (Hr : job_status demo_running = JOB_RUNNING) by (vm_compute; reflexivity).
  assert (B : job_build_publication demo_running = Some 3%N) by (vm_compute; reflexivity).
  destruct (build_claimed_job cancelling 3 demo_building) as [[r|e] s'] eqn:E.
  - destruct (finished_builds_leave_no_attempt cancelling cancelling_simulated 3 3 demo_building
      demo_running r s' (reachable_Inv _ demo_building_reachable) Hj Hr B E) as [_ K].
    destruct (K s' ltac:(reflexivity)) as (row & Hrow & P).
    assert (C : (r, pub_status <$> db_publications s' !! 3%N) = (3%N, Some PUB_CANCELLED)).
    { change s' with (Val (A := unit) tt, s').2. replace s' with (build_claimed_job cancelling 3
        demo_building).2 by (rewrite E; reflexivity).
      apply (f_equal fst) in E. vm_compute in E. injection E as <-. vm_compute. reflexivity. }
    injection C as -> C. rewrite Hrow in C. injection C as C. exists s', row. auto.
  - exfalso. apply (f_equal fst) in E. vm_compute in E. discriminate.
Defined.
