(* ===== verification/PublishTheorems.v ===== *)
(** Publishing and rolling back: what one publication leaves behind. *)
From S2P Require Import Prelude Models Registry Lifecycle Store Authorization Fingerprint.
From S2P Require Import Artifacts Restore Queue Build Worker Admin Simulation QueueSim AdminSim.
From S2P Require Import System Demo Totality WorkerTheorems.

(** Nobody holds a live key of the publication. *)
Definition no_live_grant (grants : gmap N KeyGrant) (pid : N) : Prop :=
  ∀ g grant, grants !! g = Some grant → kg_publication grant = pid →
    kg_status grant = GRANT_REVOKED.

(** No attempt newer than this version waits or is under construction. *)
Definition no_newer_attempt (s : Db) (k : N) (version : Z) : Prop :=
  ∀ p row, db_publications s !! p = Some row → pub_scope_state row = k →
    version < pub_version_number row → pub_status row ≠ STAGED ∧ pub_status row ≠ BUILDING.

(** The rows after the current publication has given way. *)
Definition superseded_rows (previous : option (N * DatasetPublication))
    (rows : gmap N DatasetPublication) : gmap N DatasetPublication :=
  match previous with
  | Some (q, row) => <[q := row <| pub_status := SUPERSEDED |>]> rows
  | None => rows
  end.

(** A file library whose source has moved on since the claim. *)
Definition source_moved (sc : DatasetScopeState) (row : DatasetPublication) : bool :=
  is_file_dataset (pub_dataset_type_code row)
  && negb (Z.eqb (sc_source_revision sc) (pub_source_revision row)).

(** What the readers of every scope get. *)
Definition currents (s : Db) : gmap N (option N) :=
  sc_current_published_publication <$> db_scopes s.

(** The attempt and its job end without a publication; every scope serves what it
    served. *)
Definition discarded (s s' : Db) (jid pid : N) : Prop :=
  (∃ row', db_publications s' !! pid = Some row' ∧ pub_status row' = PUB_OBSOLETE)
  ∧ (∃ job', db_jobs s' !! jid = Some job' ∧ job_status job' = JOB_OBSOLETE)
  ∧ currents s' = currents s.

(** The attempt is the scope's current publication, with the results of the build;
    the previous one is superseded, and nothing else changes. *)
Definition published (s s' : Db) (jid pid k : N) (row : DatasetPublication)
    (previous : option (N * DatasetPublication)) (summary : json)
    (artifact : option ArtifactEnvelope) (fingerprint : string) : Prop :=
  ∃ row' job' sc',
    tables s' = (<[k := sc']> (db_scopes s),
      <[pid := row']> (superseded_rows previous (db_publications s)),
      <[jid := job']> (db_jobs s))
    ∧ sc_current_published_publication sc' = Some pid
    ∧ sc_latest_built_publication sc' = Some pid
    ∧ job_status job' = JOB_SUCCEEDED
    ∧ pub_status row' = PUBLISHED ∧ pub_published_at row' = Some (db_clock s)
    ∧ pub_artifact_status row' = ARTIFACT_READY ∧ pub_artifact_ready row' = true
    ∧ pub_build_summary row' = summary
    ∧ pub_artifact row' = default (pub_artifact row) artifact
    ∧ pub_source_snapshot row' = pub_source_snapshot row
    ∧ pub_source_fingerprint row' = fingerprint
    ∧ pub_supersedes row' = fst <$> previous.

Section publish.
Context `{Settings} `{Hash} `{DocumentGenerations} `{ArtifactStore}.

(** The fingerprint that [finalize_publication_job] compares and stores. *)
Definition final_fingerprint (row : DatasetPublication) (given : string) : string :=
  if is_file_dataset (pub_dataset_type_code row) then publication_source_fingerprint row
  else str_or given (pub_source_fingerprint row).

(** The result is what is already published, and no clean rebuild was asked for. *)
Definition nothing_new (job : PublicationJob) (row : DatasetPublication) (given : string)
    (previous : option (N * DatasetPublication)) : bool :=
  match previous with
  | Some (_, prev) =>
      str_true (pub_source_fingerprint prev)
      && String.eqb (publication_source_fingerprint prev) (final_fingerprint row given)
      && negb (job_allow_clean_rebuild job)
  | None => false
  end.

End publish.

Section rollback.
Context `{Settings} `{Hash} `{DocumentGenerations}.

Lemma revoked_grants (grants : gmap N KeyGrant) pid now (P : KeyGrant → bool) :
  (∀ g, P g = false → kg_status g = GRANT_REVOKED) →
  no_live_grant ((λ g, if N.eqb (kg_publication g) pid && P g then revoke_grant now g else g)
                   <$> grants) pid.
Proof.
  intros HP g grant E Hp. rewrite lookup_fmap in E.
  destruct (grants !! g) as [g0|]; [|discriminate]. injection E as <-.
  destruct (N.eqb (kg_publication g0) pid) eqn:Eq; simpl in *.
  - destruct (P g0) eqn:EP; [reflexivity|apply HP, EP].
  - apply N.eqb_neq in Eq. contradiction.
Qed.

Lemma wlp_revoke_grants pid row s (Q : Z → Db → Prop) :
  (∀ n s', no_live_grant (db_key_grants s') pid →
     (is_file_dataset (pub_dataset_type_code row) = false →
        no_live_grant (db_generation_key_grants s') pid) →
     tables s' = tables s → db_clock s' = db_clock s → db_activations s' = db_activations s →
     Q n s') →
  wlp (revoke_publication_dataset_key_grants pid row) s Q.
Proof.
  intros HQ. unfold revoke_publication_dataset_key_grants.
  apply wlp_skip; [auto with preserves|]. intros now _.
  assert (G1 : ∀ g, grant_revocable g = false → kg_status g = GRANT_REVOKED).
  { unfold grant_revocable. intros g. destruct (kg_status g); easy. }
  assert (G2 : ∀ g, grant_not_revoked g = false → kg_status g = GRANT_REVOKED).
  { unfold grant_not_revoked. intros g E. bools.
    destruct (decide (kg_status g = GRANT_REVOKED)); tauto. }
  destruct (is_file_dataset _).
  - apply wlp_bind, wlp_ret, wlp_bind. unfold update_where, wlp at 1. apply wlp_ret, HQ;
      try reflexivity; [|discriminate]. apply revoked_grants, G1.
  - apply wlp_bind. unfold update_where at 1, wlp at 1. apply wlp_bind.
    unfold update_where, wlp at 1. apply wlp_ret, HQ; try reflexivity.
    + apply revoked_grants, G1.
    + intros _. apply revoked_grants, G2.
Qed.

(** The current publication gives way, with its keys. *)
Lemma wlp_supersede_keys q row s (Q : unit → Db → Prop) :
  db_publications s !! q = Some row →
  (∀ s', no_live_grant (db_key_grants s') q →
     (is_file_dataset (pub_dataset_type_code row) = false →
        no_live_grant (db_generation_key_grants s') q) →
     tables s' = (db_scopes s, <[q := row <| pub_status := SUPERSEDED |>]> (db_publications s),
       db_jobs s) →
     db_clock s' = db_clock s → db_activations s' = db_activations s → Q tt s') →
  wlp (supersede_current (Some (q, row))) s Q.
Proof.
  intros Hq HQ. apply wlp_bind, wlp_revoke_grants. intros n s1 N1 N2 T C A.
  injection T as T1 T2 T3. apply wlp_save. intros row' Hrow. rewrite T2, Hq in Hrow.
  injection Hrow as <-. apply HQ; [exact N1|exact N2| |exact C|exact A].
  unfold tables. simpl. rewrite T1, T2, T3. reflexivity.
Qed.

Lemma newer_attempt_spec s k v b s' : _newer_live_attempt_exists k v s = (Val b, s') →
  b = false → no_newer_attempt s k v.
Proof.
  intros [= <- _] E p row Hp Hk Hv. rewrite exists_row_false in E. specialize (E _ _ Hp).
  rewrite Hk, N.eqb_refl, (proj2 (Z.ltb_lt _ _) Hv) in E. simpl in E.
  destruct (pub_status row); easy.
Qed.

Lemma publication_scope_found s pid row : Inv (view s) → db_publications s !! pid = Some row →
  ∃ sc, db_scopes s !! pub_scope_state row = Some sc
    ∧ _locked_scope (pub_department row) (pub_station row) (pub_dataset_type_code row) s =
        (Val (pub_scope_state row, sc), s).
Proof.
  intros I Hp. destruct (inv_pub_scope _ I _ _ (lookup_view_pub _ _ _ Hp)) as (sv & Hs & Ho).
  simpl in Hs. rewrite lookup_fmap in Hs.
  destruct (db_scopes s !! pub_scope_state row) as [sc|] eqn:E; [|discriminate].
  injection Hs as <-. exists sc. split; [reflexivity|].
  apply locked_scope_found; [exact I|exact E|]. rewrite Ho. reflexivity.
Qed.

Lemma wlp_activate k sc pid row q prev actor action s (Q : unit → Db → Prop) :
  db_scopes s !! k = Some sc → sc_current_published_publication sc = Some q → q ≠ pid →
  db_publications s !! pid = Some row → db_publications s !! q = Some prev →
  (∀ s', tables s' = (<[k := sc <| sc_current_published_publication := Some pid |>
                               <| sc_updated_at := db_clock s |>]> (db_scopes s),
       <[pid := row <| pub_status := PUBLISHED |> <| pub_published_at := Some (db_clock s) |>
                    <| pub_published_by := Some actor |>]>
         (<[q := prev <| pub_status := SUPERSEDED |>]> (db_publications s)), db_jobs s) →
     no_live_grant (db_key_grants s') q →
     (is_file_dataset (pub_dataset_type_code prev) = false →
        no_live_grant (db_generation_key_grants s') q) →
     db_activations s' = db_activations s ++
       [mkPublicationActivation pid k (Some q) action (Some actor)] → Q tt s') →
  wlp (_activate_publication k sc pid actor action) s Q.
Proof.
  intros Hk Hc Hne Hp Hq HQ. unfold _activate_publication, publication_of. rewrite Hc.
  apply wlp_bind, wlp_bind, wlp_get_obj. intros prev' Hq'. rewrite Hq in Hq'. injection Hq' as <-.
  apply wlp_ret, wlp_bind. destruct (N.eqb_spec q pid); [contradiction|].
  apply wlp_supersede_keys; [exact Hq|]. intros s1 N1 N2 [= T1 T2 T3] C A.
  apply wlp_skip; [auto with preserves|]. intros now [= <-]. rewrite C. apply wlp_bind, wlp_save.
  intros row' Hrow. rewrite T2, lookup_insert_ne, Hp in Hrow by congruence. injection Hrow as <-.
  apply wlp_bind, wlp_save. intros sc' Hsc. simpl in Hsc. rewrite T1, Hk in Hsc. injection Hsc as <-.
  unfold record_activation, modify, wlp. apply HQ.
  - unfold tables. simpl. rewrite T1, T2, T3. reflexivity.
  - exact N1.
  - exact N2.
  - simpl. rewrite A. reflexivity.
Qed.

(** Rolling back: when it returns, the target was a superseded publication of its
    scope and no newer attempt than the current publication was waiting or under
    construction; now the target is PUBLISHED and current, the previous publication
    is SUPERSEDED and nobody holds a live key of it, the activation is recorded, and
    no other publication, scope or job has changed. *)
Theorem rollback_restores actor pid s r s' :
  Inv (view s) → rollback_publication actor pid s = (Val r, s') →
  r = pid ∧ ∃ row sc q prev,
    db_publications s !! pid = Some row ∧ pub_status row = SUPERSEDED
    ∧ db_scopes s !! pub_scope_state row = Some sc
    ∧ sc_current_published_publication sc = Some q ∧ q ≠ pid
    ∧ db_publications s !! q = Some prev
    ∧ no_newer_attempt s (pub_scope_state row) (pub_version_number prev)
    ∧ tables s' = (<[pub_scope_state row := sc <| sc_current_published_publication := Some pid |>
                       <| sc_updated_at := db_clock s |>]> (db_scopes s),
        <[pid := row <| pub_status := PUBLISHED |> <| pub_published_at := Some (db_clock s) |>
                     <| pub_published_by := Some actor |>]>
          (<[q := prev <| pub_status := SUPERSEDED |>]> (db_publications s)), db_jobs s)
    ∧ no_live_grant (db_key_grants s') q
    ∧ (is_file_dataset (pub_dataset_type_code prev) = false →
         no_live_grant (db_generation_key_grants s') q)
    ∧ db_activations s' = db_activations s ++
        [mkPublicationActivation pid (pub_scope_state row) (Some q) "ROLLBACK" (Some actor)].
Proof.
  intros I E. pattern r, s'. eapply wlp_val; [exact E|]. clear E r s'.
  apply wlp_atomic, wlp_bind, wlp_bind, wlp_get_obj. intros row Hp.
  apply wlp_skip; [auto with preserves|]. intros u _. apply wlp_ret.
  apply wlp_skip; [auto with preserves|]. intros v _. apply wlp_bind.
  destruct (publication_scope_found _ _ _ I Hp) as (sc & Hk & L).
  eapply wp_wlp, wp_run; [exact L|]. apply wlp_bind, wlp_get_obj. intros row' Hp'.
  rewrite Hp in Hp'. injection Hp' as <-.
  apply wlp_skip; [auto with preserves|]. intros reason Er.
  destruct (str_true reason) eqn:Es; [apply wlp_bind, wlp_raise|].
  destruct (restorable _ _ _ _ _ _ _ Er Es) as [_ Hs].
  apply wlp_bind, wlp_ret, wlp_bind. eapply wp_wlp, wp_publication_of; [exact I|exact Hk|].
  intros [[q prev]|] Hprev Hc; [|apply wlp_raise]. specialize (Hprev _ _ eq_refl). simpl in Hc.
  assert (Hne : q ≠ pid).
  { intros ->. assert (Hv : v_scopes (view s) !! pub_scope_state row = Some (scope_view sc))
      by (simpl; rewrite lookup_fmap, Hk; reflexivity).
    destruct (inv_current _ I _ _ _ Hv (eq_sym Hc)) as (pv & Hpv & _ & Sp).
    rewrite (lookup_view_pub _ _ _ Hp) in Hpv. injection Hpv as <-. simpl in Sp. congruence. }
  apply wlp_skip; [auto with preserves|]. intros newer En. apply wlp_bind, wlp_guard.
  intros Hn. apply negb_true_iff in Hn. apply wlp_bind.
  eapply wlp_activate; [exact Hk|symmetry; exact Hc|exact Hne|exact Hp|exact Hprev|].
  intros s1 T N1 N2 A. apply wlp_bind.
  set (f := λ s, (tables s, db_key_grants s, db_generation_key_grants s, db_activations s)).
  eapply (wlp_frame f); [frame|]. intros w s2 [= F1 F2 F3 F4 F5 F6]. apply wlp_ret.
  split; [reflexivity|]. exists row, sc, q, prev. split_and!; auto.
  - eapply newer_attempt_spec; eassumption.
  - rewrite <- T. unfold tables. congruence.
  - rewrite F4. exact N1.
  - rewrite F5. exact N2.
  - rewrite F6. exact A.
Qed.
End rollback.

(** The administrator of department 1 goes back to version 1. *)
Lemma rollback_restores_witness :
  ∃ s', rollback_publication 1 1 demo_superseded = (Val 1%N, s')
    ∧ ∃ row, db_publications s' !! 1%N = Some row ∧ pub_status row = PUBLISHED.
Proof.
  destruct (rollback_publication 1 1 demo_superseded) as [[r|e] s'] eqn:E.
  - destruct (rollback_restores 1 1 demo_superseded r s' (reachable_Inv _ demo_superseded_reachable) E)
      as (-> & row & sc & q & prev & _ & _ & _ & _ & _ & _ & _ & T & _).
    exists s'. split; [reflexivity|].
    pose proof (f_equal (λ t, t.1.2 !! 1%N) T) as P. cbn [fst snd tables] in P.
    rewrite lookup_insert_eq in P. eexists. split; [exact P|reflexivity].
  - exfalso. apply (f_equal fst) in E. vm_compute in E. discriminate.
Defined.

Section publish.
Context `{Settings} `{Hash} `{DocumentGenerations} `{ArtifactStore}.

Lemma wlp_supersede_current previous s (Q : unit → Db → Prop) :
  (∀ q row, previous = Some (q, row) → db_publications s !! q = Some row) →
  (∀ s', tables s' = (db_scopes s, superseded_rows previous (db_publications s), db_jobs s) →
     db_clock s' = db_clock s → Q tt s') →
  wlp (supersede_current previous) s Q.
Proof.
  intros Hp HQ. unfold supersede_current. destruct previous as [[q row]|];
    [|apply wlp_ret, HQ; reflexivity].
  apply wlp_bind. eapply (wlp_frame (λ s, (db_clock s, tables s))); [frame|].
  intros _ s1 [= C1 E1 E2 E3]. apply wlp_save. intros row' Hrow.
  rewrite E2, (Hp _ _ eq_refl) in Hrow. injection Hrow as <-.
  apply HQ; [|exact C1]. unfold tables. simpl. rewrite E1, E2, E3. reflexivity.
Qed.

Lemma wlp_publish_attempt now jid job k sc pid p previous fp s (Q : unit → Db → Prop) :
  (∀ q row, previous = Some (q, row) → db_publications s !! q = Some row) →
  db_scopes s !! k = Some sc →
  (∀ s' row row' job' sc', superseded_rows previous (db_publications s) !! pid = Some row →
     tables s' = (<[k := sc']> (db_scopes s),
       <[pid := row']> (superseded_rows previous (db_publications s)),
       <[jid := job']> (db_jobs s)) →
     row' = row <| pub_build_summary := pub_build_summary p |>
       <| pub_source_fingerprint := pub_source_fingerprint p |>
       <| pub_change_summary := pub_change_summary p |>
       <| pub_artifact_status := ARTIFACT_READY |> <| pub_artifact_ready := true |>
       <| pub_artifact := pub_artifact p |> <| pub_status := PUBLISHED |>
       <| pub_published_at := Some now |> <| pub_supersedes := fst <$> previous |> →
     job_status job' = JOB_SUCCEEDED →
     sc_current_published_publication sc' = Some pid →
     sc_latest_built_publication sc' = Some pid → Q tt s') →
  wlp (publish_attempt now jid job k sc pid p previous fp) s Q.
Proof.
  intros Hp Hk HQ. unfold publish_attempt. apply wlp_bind, wlp_supersede_current; [exact Hp|].
  intros s1 [= E1 E2 E3] C1. apply wlp_skip; [auto with preserves|]. intros u _.
  apply wlp_bind, wlp_save. intros row Hrow. rewrite E2 in Hrow.
  apply wlp_skip; [auto with preserves|]. intros changed _.
  apply wlp_bind, wlp_save. intros sc0 Hsc. apply wlp_bind, wlp_save. intros job0 Hjob.
  apply wlp_bind. eapply (wlp_frame tables); [frame|]. intros u' s2 T2.
  eapply (wlp_frame tables); [frame|]. intros [] s3 T3.
  eapply HQ; [exact Hrow| |reflexivity| | |].
  - rewrite T3, T2. unfold tables. simpl. rewrite E1, E2, E3. reflexivity.
  - reflexivity.
  - reflexivity.
  - reflexivity.
Qed.

Lemma currents_insert (m : gmap N DatasetScopeState) k x y :
  m !! k = Some x → sc_current_published_publication y = sc_current_published_publication x →
  sc_current_published_publication <$> <[k := y]> m = sc_current_published_publication <$> m.
Proof.
  intros E Hy. rewrite fmap_insert, Hy. apply insert_id. rewrite lookup_fmap, E. reflexivity.
Qed.

Lemma keeps_currents_save k f :
  (∀ x, sc_current_published_publication (f x) = sc_current_published_publication x) →
  keeps currents (save db_scopes k f).
Proof.
  intros Hf s. unfold save, same, currents. destruct (db_scopes s !! k) as [x|] eqn:E;
    [|reflexivity]. eapply currents_insert; [exact E|apply Hf].
Qed.

Hint Extern 0 (preserves (same currents) (save db_scopes _ _)) =>
  apply keeps_currents_save; intros ?; reflexivity : preserves.

Lemma keeps_currents_enqueue d x c u t db cl source :
  keeps currents (enqueue_publication_job d x c u t db cl source).
Proof. frame. Qed.

Lemma wlp_obsolete_attempt now jid pid p a f row s (Q : unit → Db → Prop) :
  db_publications s !! pid = Some row →
  (∀ s' job, db_jobs s !! jid = Some job →
     tables s' = (db_scopes s,
       <[pid := f (row <| pub_status := PUB_OBSOLETE |> <| pub_source_snapshot := None |>)]>
         (db_publications s),
       <[jid := job <| job_status := JOB_OBSOLETE |> <| job_completed_at := Some now |>]>
         (db_jobs s)) → Q tt s') →
  wlp (obsolete_attempt now jid pid p a f) s Q.
Proof.
  intros Hp HQ. unfold obsolete_attempt. apply wlp_bind.
  eapply (wlp_frame tables); [frame|]. intros u s1 [= E1 E2 E3]. apply wlp_bind, wlp_save.
  intros row' Hrow. rewrite E2, Hp in Hrow. injection Hrow as <-. apply wlp_bind.
  eapply (wlp_frame tables); [apply keeps_release; reflexivity|].
  intros v s2 [= F1 F2 F3]. apply wlp_save. intros job Hj. rewrite F3, E3 in Hj.
  eapply HQ; [exact Hj|]. unfold tables. simpl. rewrite F1, F2, F3, E1, E2, E3. reflexivity.
Qed.

Lemma superseded_rows_other previous rows pid :
  fst <$> previous ≠ Some pid → superseded_rows previous rows !! pid = rows !! pid.
Proof.
  destruct previous as [[q row]|]; [|reflexivity]. simpl. intros Hne.
  apply lookup_insert_ne. congruence.
Qed.

Lemma Inv_obsolete s s' jid job pid row row' job' : Inv (view s) →
  db_jobs s !! jid = Some job → job_status job = JOB_RUNNING →
  job_build_publication job = Some pid → db_publications s !! pid = Some row →
  moved_rows s s' pid row' jid job' → pub_view row' = pub_to PUB_OBSOLETE (pub_view row) →
  job_view job' = job_to JOB_OBSOLETE (job_view job) → Inv (view s').
Proof.
  intros I Hj Hr B Hp M E1 E2. eapply Inv_moved; [exact I|exact Hj|exact Hr|exact B|exact Hp|exact M|].
  left. exists PUB_OBSOLETE, (pv_ready (pub_view row)), JOB_OBSOLETE. split_and!; auto.
Qed.

Lemma discarded_steps s s2 s3 jid pid row job :
  db_publications s2 !! pid = Some row → pub_status row = PUB_OBSOLETE →
  db_jobs s2 !! jid = Some job → job_status job = JOB_OBSOLETE → currents s2 = currents s →
  Inv (view s2) → sim s2 s3 → currents s3 = currents s2 → discarded s s3 jid pid.
Proof.
  intros Hp Sp Hj Sj Hc I R Hc'. specialize (R I). split_and!.
  - destruct (steps_pub _ _ _ _ I R (lookup_view_pub _ _ _ Hp)) as (pv & Hpv & _ & _ & _ & Hs).
    apply final_edges in Hs; [|simpl; rewrite Sp; reflexivity]. simpl in Hpv.
    rewrite lookup_fmap in Hpv. destruct (db_publications s3 !! pid) as [row'|]; [|discriminate].
    injection Hpv as <-. exists row'. split; [reflexivity|]. simpl in Hs. congruence.
  - pose proof (steps_job_over _ _ _ _ I R (lookup_view_job _ _ _ Hj)) as Hjv.
    specialize (Hjv ltac:(simpl; rewrite Sj; reflexivity)). simpl in Hjv.
    rewrite lookup_fmap in Hjv. destruct (db_jobs s3 !! jid) as [job'|]; [|discriminate].
    injection Hjv. intros. exists job'. split; [reflexivity|]. congruence.
  - congruence.
Qed.

(** The build is given up because the source has moved on: the scope is built again. *)
Lemma wlp_give_up s now jid job pid row p a d x c actor t cl :
  Inv (view s) → db_jobs s !! jid = Some job → job_status job = JOB_RUNNING →
  job_build_publication job = Some pid → db_publications s !! pid = Some row →
  wlp (obsolete_attempt now jid pid p a id;;;
       obsolete_event jid job "source_revision_changed" [];;;
       enqueue_publication_job d x c actor t None cl None;;; ret jid) s
    (λ r s', r = jid ∧ discarded s s' jid pid).
Proof.
  intros I Hj Hr B Hp. apply wlp_bind. eapply wlp_obsolete_attempt; [exact Hp|].
  intros s1 job1 Hj1 E1. rewrite Hj in Hj1. injection Hj1 as <-. apply wlp_bind.
  eapply (wlp_frame tables); [frame|]. intros u1 s2 E2. rewrite E1 in E2.
  apply wlp_bind. eapply wlp_mono; [apply wlp_and; apply preserves_wlp|].
  - apply simulated_enqueue_publication_job.
  - apply keeps_currents_enqueue.
  - intros o s3 [R C]. apply wlp_ret. split; [reflexivity|].
    assert (I2 : Inv (view s2))
      by (eapply Inv_obsolete; [exact I|exact Hj|exact Hr|exact B|exact Hp|exact E2|
            reflexivity|reflexivity]).
    injection E2 as F1 F2 F3.
    eapply discarded_steps; [rewrite F2; apply lookup_insert_eq|reflexivity|
      rewrite F3; apply lookup_insert_eq|reflexivity|unfold currents; congruence|
      exact I2|exact R|exact C].
Qed.

(** The build is given up because its result is what is published already. *)
Lemma wlp_same_result s now jid job pid k sc row p a f g reason details :
  db_scopes s !! k = Some sc → db_publications s !! pid = Some row →
  (∀ x, pub_status (f x) = pub_status x) →
  (∀ x, sc_current_published_publication (g x) = sc_current_published_publication x) →
  wlp (obsolete_attempt now jid pid p a f;;; save db_scopes k g;;;
       obsolete_event jid job reason details;;; ret jid) s
    (λ r s', r = jid ∧ discarded s s' jid pid).
Proof.
  intros Hk Hp Hf Hg. apply wlp_bind. eapply wlp_obsolete_attempt; [exact Hp|].
  intros s1 job1 Hj1 E1. injection E1 as F1 F2 F3. apply wlp_bind.
  apply wlp_save. intros sc1 Hsc1. rewrite F1, Hk in Hsc1. injection Hsc1 as <-.
  apply wlp_bind. eapply (wlp_frame tables); [frame|]. intros u1 s2 [= G1 G2 G3].
  apply wlp_ret. split; [reflexivity|]. split_and!.
  - rewrite G2, F2. eexists. split; [apply lookup_insert_eq|apply Hf].
  - rewrite G3, F3. eexists. split; [apply lookup_insert_eq|reflexivity].
  - unfold currents. rewrite G1, F1. eapply currents_insert; [exact Hk|apply Hg].
Qed.

(** What ends a build: when finalizing a running job returns, either the source
    of the file library has moved on or the result is what is already published, and
    the attempt and the job are OBSOLETE with no scope affected; or the attempt, with
    its summary, artifact and fingerprint, is the current and the latest publication
    of the job's scope, the previous one is SUPERSEDED and the job SUCCEEDED. *)
Theorem finalizing_publishes_or_discards s jid job summary artifact given r s' :
  Inv (view s) → db_jobs s !! jid = Some job → job_status job = JOB_RUNNING →
  finalize_publication_job jid summary artifact given s = (Val r, s') →
  r = jid ∧ ∃ pid row sc previous,
    job_build_publication job = Some pid ∧ db_publications s !! pid = Some row
    ∧ db_scopes s !! job_scope_state job = Some sc
    ∧ fst <$> previous = sc_current_published_publication sc
    ∧ (∀ q prev, previous = Some (q, prev) → db_publications s !! q = Some prev)
    ∧ if source_moved sc row || nothing_new job row given previous
      then discarded s s' jid pid
      else published s s' jid pid (job_scope_state job) row previous summary artifact
             (final_fingerprint row given).
Proof.
  intros I Hj Hr E. destruct (running_job_found _ _ _ I Hj Hr) as (pid & row & B & Hp & Sb).
  destruct (job_scope_found _ _ _ I Hj) as (sc & Hk & Ho & L).
  assert (Hne : sc_current_published_publication sc ≠ Some pid).
  { intros Ec. assert (Hv : v_scopes (view s) !! job_scope_state job = Some (scope_view sc))
      by (simpl; rewrite lookup_fmap, Hk; reflexivity).
    destruct (inv_current _ I _ _ _ Hv Ec) as (pv & Hpv & _ & Sp).
    rewrite (lookup_view_pub _ _ _ Hp) in Hpv. injection Hpv as <-. simpl in Sp. congruence. }
  pattern r, s'. eapply wlp_val; [exact E|]. clear E r s'.
  apply wlp_atomic, wlp_bind, wlp_get_obj. intros j Ej. rewrite Hj in Ej. injection Ej as <-.
  apply wlp_bind. eapply wp_wlp, wp_run; [exact L|].
  apply wlp_bind, wlp_get_obj. intros j Ej. rewrite Hj in Ej. injection Ej as <-.
  rewrite Hr, B. cbn [bool_decide decide_rel negb].
  apply wlp_skip; [auto with preserves|]. intros now [= <-].
  apply wlp_bind, wlp_get_obj. intros p Ep. rewrite Hp in Ep. injection Ep as <-.
  rewrite Sb. cbn [bool_decide decide_rel negb].
  apply wlp_skip; [auto with preserves|]. intros def _.
  apply wlp_skip; [auto with preserves|]. intros u _.
  apply wlp_skip; [auto with preserves|]. intros latest _.
  apply wlp_skip; [auto with preserves|]. intros change _.
  apply wlp_bind. eapply wp_wlp, wp_publication_of; [exact I|exact Hk|].
  intros previous Hprev Hcur. fold (final_fingerprint row given).
  match goal with |- wlp ?m _ _ => set (prog := m) end.
  enough (W : wlp prog s (λ r s', r = jid ∧ if source_moved sc row || nothing_new job row given previous
      then discarded s s' jid pid
      else published s s' jid pid (job_scope_state job) row previous summary artifact
             (final_fingerprint row given))).
  { eapply wlp_mono; [exact W|]. intros r s' [-> HQ]. split; [reflexivity|].
    exists pid, row, sc, previous. split_and!; first [reflexivity|assumption]. }
  unfold prog. clear prog. cbv zeta.
  match goal with |- wlp (if ?c then _ else _) _ _ => change c with (source_moved sc row) end.
  destruct (source_moved sc row); simpl.
  - eapply wlp_give_up; eassumption.
  - match goal with |- wlp (if ?c then _ else _) _ _ =>
      change c with (nothing_new job row given previous) end.
    destruct (nothing_new job row given previous).
    + eapply wlp_same_result; first [eassumption|reflexivity].
    + apply wlp_bind. eapply wlp_publish_attempt; [exact Hprev|exact Hk|].
      intros s1 row0 row' job' sc' Hrow0 T Er Ej Ec El. apply wlp_ret. split; [reflexivity|].
      rewrite superseded_rows_other in Hrow0 by (rewrite Hcur; exact Hne).
      rewrite Hp in Hrow0. injection Hrow0 as <-.
      exists row', job', sc'. subst row'. split_and!; try assumption; try reflexivity.
Qed.
End publish.

Definition demo_summary : json :=
  JObj [("entry_count", JInt 1); ("source_revision", JInt 3)].

(** The worker ends the build of version 3. *)
Definition demo_finalize : M Db N :=
  finalize_publication_job 3 demo_summary (Some (demo_artifact "1/3/artifact.bin")) "".

Lemma finalizing_publishes_or_discards_witness :
  ∃ s' row previous, demo_finalize demo_building = (Val 3%N, s')
    ∧ published demo_building s' 3 3 (job_scope_state demo_running) row previous demo_summary
        (Some (demo_artifact "1/3/artifact.bin")) (final_fingerprint row "").
Proof.
  exists (demo_finalize demo_building).2.
  assert (Hj : db_jobs demo_building !! 3%N = Some demo_running) by (vm_compute; reflexivity).
  assert (E : demo_finalize demo_building = (Val 3%N, (demo_finalize demo_building).2)).
  { rewrite (surjective_pairing (demo_finalize _)) at 1. f_equal. }
  assert (C : pub_status <$> db_publications (demo_finalize demo_building).2 !! 3%N
              = Some PUBLISHED) by (vm_compute; reflexivity).
  destruct (finalizing_publishes_or_discards demo_building 3 demo_running demo_summary
    (Some (demo_artifact "1/3/artifact.bin")) "" 3 _
    (reachable_Inv _ demo_building_reachable) Hj ltac:(vm_compute; reflexivity) E)
    as (_ & pid & row & sc & previous & B & _ & _ & _ & _ & HQ).
  assert (B3 : job_build_publication demo_running = Some 3%N) by (vm_compute; reflexivity).
  rewrite B3 in B. injection B as <-. exists row, previous. split; [exact E|].
  destruct (_ || _); [|exact HQ]. destruct HQ as ((row' & Hr & S) & _).
  rewrite Hr in C. simpl in C. congruence.
Defined.
