(* ===== verification/RetentionTheorems.v ===== *)
(** Artifacts and retention: a publication that is over gives back its document references,
    an artifact disappears with its last reference, its ciphertext only after its row; and
    what a retention pass keeps and how much it may do. *)
From S2P Require Import Prelude Models Registry Store Fingerprint Authorization Lifecycle.
From S2P Require Import Artifacts Restore Queue Build Worker Admin Retention Simulation.
From S2P Require Import QueueSim.
From S2P Require Import AdminSim System Demo Totality WorkerTheorems PublishTheorems.

(** Some publication needs the artifact. *)
Definition referenced (s : Db) (a : N) : bool :=
  exists_row (db_document_references s) (λ _ r, N.eqb (dr_document_artifact r) a).

Definition referenced_by (s : Db) (pid a : N) : bool :=
  exists_row (db_document_references s)
    (λ _ r, N.eqb (dr_publication r) pid && N.eqb (dr_document_artifact r) a).

Definition referenced_elsewhere (s : Db) (pid a : N) : bool :=
  exists_row (db_document_references s)
    (λ _ r, negb (N.eqb (dr_publication r) pid) && N.eqb (dr_document_artifact r) a).

(** The removal of the artifact's ciphertext is recorded and registered. *)
Definition removal_queued (s : Db) (a : N) : Prop :=
  ∃ k c, db_document_cleanups s !! k = Some c ∧ dc_artifact_id c = a
    ∧ OcRemoveDocumentArtifact k ∈ db_on_commit s.

(** What [release_artifact] and the loop over it leave. *)
Definition released (ids : list N) (s s' : Db) : Prop :=
  db_document_references s' = db_document_references s
  ∧ (∀ a, db_document_artifacts s' !! a =
       if bool_decide (a ∈ ids) && negb (referenced s a) then None
       else db_document_artifacts s !! a)
  ∧ (∀ a, removal_queued s a → removal_queued s' a)
  ∧ (∀ a, a ∈ ids → referenced s a = false → removal_queued s' a).

(** What a pass may make of a publication. *)
Definition aged `{Settings} (s : Db) (q : N) (row row' : DatasetPublication) : Prop :=
  row' = row
  ∨ pub_status row = SUPERSEDED ∧ q ∉ ranked_predecessors s (pub_scope_state row)
    ∧ row' = row <| pub_status := PUB_OBSOLETE |> <| pub_source_snapshot := None |>
  ∨ is_expirable_status (pub_status row) = true ∧ row' = row <| pub_source_snapshot := None |>.

Definition aged_rows `{Settings} (s s' : Db) : Prop :=
  ∀ q, match db_publications s !! q, db_publications s' !! q with
       | Some row, Some row' => aged s q row row'
       | None, None => True
       | _, _ => False
       end.

(** The READY predecessors of a scope that are newer than a version. *)
Definition newer (s : Db) (c : N) (v : Z) : list (N * DatasetPublication) :=
  rows (db_publications s) (λ _ p, is_ready_predecessor c p && (v <? pub_version_number p)).

(** A callback that only removes a file. *)
Definition removal (c : OnCommit) : Prop :=
  match c with OcRemoveArtifact _ | OcRemoveDocumentArtifact _ => True | _ => False end.

Definition only_removals (s s' : Db) : Prop :=
  Forall removal (db_on_commit s) → Forall removal (db_on_commit s').

#[export] Instance only_removals_preorder : PreOrder only_removals.
Proof. unfold only_removals. split; [intros s|intros s s' s'']; auto. Qed.

Lemma released_nil s : released [] s s.
Proof.
  split_and!; auto. intros a Ha. inversion Ha.
Qed.

Lemma wlp_schedule_removal a path s (Q : unit → Db → Prop) :
  (∀ s', db_document_references s' = db_document_references s →
     db_document_artifacts s' = db_document_artifacts s →
     (∀ b, removal_queued s b → removal_queued s' b) → removal_queued s' a → Q tt s') →
  wlp (_schedule_document_artifact_removal a path) s Q.
Proof.
  intros HQ. unfold _schedule_document_artifact_removal.
  apply wlp_skip; [auto with preserves|]. intros [[k c]|] E.
  - apply wlp_bind, wlp_ret. unfold first_where, gets in E. injection E as E.
    apply order_by_head_Some in E as [Hin _]. apply rows_elem in Hin as [Hk Hc].
    apply N.eqb_eq in Hc. apply HQ; [reflexivity|reflexivity| |].
    + intros b (k' & c' & Hk' & Hc' & Hin). exists k', c'. split_and!; [exact Hk'|exact Hc'|].
      apply elem_of_app. left. exact Hin.
    + exists k, c. split_and!; [exact Hk|exact Hc|]. apply elem_of_app. right. left.
  - apply wlp_bind, wlp_create. intros k Hk. apply HQ; [reflexivity|reflexivity| |].
    + intros b (k' & c' & Hk' & Hc' & Hin). exists k', c'. split_and!; [|exact Hc'|].
      * simpl. rewrite lookup_insert_ne; [exact Hk'|congruence].
      * apply elem_of_app. left. exact Hin.
    + exists k. eexists. split_and!; [apply lookup_insert_eq|reflexivity|].
      apply elem_of_app. right. left.
Qed.

Lemma wlp_release_artifact q a art s :
  wlp (release_artifact q (a, art)) s (λ q' s', released [a] s s'
    ∧ q' = if referenced s a then q else q + 1).
Proof.
  unfold release_artifact. apply wlp_skip; [auto with preserves|]. intros r [= <-].
  fold (referenced s a). destruct (referenced s a) eqn:R.
  - apply wlp_ret. split; [|reflexivity]. split_and!; auto.
    + intros b. destruct (decide (b = a)) as [->|Hne]; [rewrite R, andb_false_r; reflexivity|].
      rewrite bool_decide_eq_false_2 by set_solver. reflexivity.
    + intros b ->%list_elem_of_singleton E. congruence.
  - apply wlp_bind. unfold delete_obj, modify, wlp at 1. apply wlp_bind, wlp_schedule_removal.
    intros s1 E1 E2 Hm Hq. apply wlp_ret. split; [|reflexivity]. split_and!.
    + exact E1.
    + intros b. rewrite E2. simpl. destruct (decide (b = a)) as [->|Hne].
      * rewrite bool_decide_eq_true_2 by left. rewrite R. apply lookup_delete_eq.
      * rewrite bool_decide_eq_false_2 by set_solver. apply lookup_delete_ne. congruence.
    + intros b Hb. apply Hm. exact Hb.
    + intros b ->%list_elem_of_singleton _. exact Hq.
Qed.

Lemma wlp_release_artifacts q (l : list (N * DocumentArtifact)) s :
  wlp (fold_m release_artifact q l) s (λ q' s', released l.*1 s s'
    ∧ q' = q + Z.of_nat (length (filter (λ a, referenced s a = false) l.*1))).
Proof.
  revert q s. induction l as [|[a art] l IH]; intros q s; simpl.
  { apply wlp_ret. split; [apply released_nil|simpl; lia]. }
  apply wlp_bind. eapply wlp_mono; [apply wlp_release_artifact|].
  intros q1 s1 [(R1 & R2 & R3 & R4) Hq1]. eapply wlp_mono; [apply IH|].
  intros q2 s2 [(S1 & S2 & S3 & S4) Hq2].
  assert (Er : ∀ b, referenced s1 b = referenced s b) by (intros b; unfold referenced; rewrite R1; reflexivity).
  split.
  - split_and!; [congruence| |auto|].
    + intros b. rewrite S2, R2, Er. destruct (referenced s b); simpl; rewrite ?andb_false_r; [reflexivity|].
      rewrite !andb_true_r. destruct (decide (b ∈ l.*1)) as [Hl|Hl].
      * rewrite !bool_decide_eq_true_2 by set_solver. reflexivity.
      * rewrite (bool_decide_eq_false_2 (b ∈ l.*1)) by exact Hl.
        rewrite (bool_decide_ext (b ∈ [a]) (b ∈ a :: l.*1)) by set_solver. reflexivity.
    + intros b Hb E. apply elem_of_cons in Hb as [->|Hb].
      * apply S3, R4; [left|exact E].
      * apply S4; [exact Hb|rewrite Er; exact E].
  - rewrite Hq2, Hq1, filter_cons.
    assert (Ef : filter (λ b, referenced s1 b = false) l.*1 = filter (λ b, referenced s b = false) l.*1)
      by (apply list_filter_iff; intros b; rewrite Er; reflexivity).
    rewrite Ef. destruct (referenced s a) eqn:R; destruct (decide _); try congruence; cbn [length];
      change (list_fmap _ _ fst l) with l.*1; lia.
Qed.

(** The identifiers of the artifacts that a publication references, as the code
    collects them. *)
Definition reference_ids (m : gmap N DocumentArtifactReference) (pid : N) : list N :=
  (λ r, dr_document_artifact r.2) <$> rows m (λ _ r, N.eqb (dr_publication r) pid).

Lemma elem_of_reference_ids s pid a :
  a ∈ reference_ids (db_document_references s) pid ↔ referenced_by s pid a = true.
Proof.
  unfold reference_ids, referenced_by. rewrite list_elem_of_fmap, exists_row_true.
  setoid_rewrite andb_true_iff. setoid_rewrite N.eqb_eq. split.
  - intros ([k r] & -> & Hin). apply rows_elem in Hin as [Hk Hp]. apply N.eqb_eq in Hp. eauto 10.
  - intros (k & r & Hk & Hp & Ha). exists (k, r). split; [symmetry; exact Ha|].
    apply rows_elem. rewrite N.eqb_eq. auto.
Qed.

(** The references that are left once those of a publication are deleted. *)
Definition references_left (s s' : Db) (pid : N) : Prop :=
  ∀ k r, db_document_references s' !! k = Some r ↔
    db_document_references s !! k = Some r ∧ dr_publication r ≠ pid.

Lemma delete_references s s' pid :
  db_document_references s' =
    filter (λ r, N.eqb (dr_publication r.2) pid = false) (db_document_references s) →
  references_left s s' pid.
Proof. intros F k r. rewrite F, map_lookup_filter_Some. simpl. rewrite N.eqb_neq. reflexivity. Qed.

Lemma referenced_left s s' pid a :
  references_left s s' pid → referenced s' a = referenced_elsewhere s pid a.
Proof.
  unfold references_left. intros K. apply eq_iff_eq_true. unfold referenced, referenced_elsewhere.
  rewrite !exists_row_true. setoid_rewrite K. setoid_rewrite andb_true_iff.
  setoid_rewrite negb_true_iff. setoid_rewrite N.eqb_neq. naive_solver.
Qed.

Lemma no_references s s' pid :
  db_document_references s' = db_document_references s →
  (∀ a, referenced_by s pid a = false) → references_left s s' pid.
Proof.
  intros E Hno k r. rewrite E. split; [|tauto]. intros Hk. split; [exact Hk|]. intros Hp.
  specialize (Hno (dr_document_artifact r)). unfold referenced_by in Hno.
  rewrite exists_row_false in Hno. specialize (Hno _ _ Hk).
  rewrite !(proj2 (N.eqb_eq _ _)) in Hno; [discriminate|reflexivity|exact Hp].
Qed.

(** The artifacts the code visits are the stored ones among those identifiers. *)
Lemma elem_of_artifacts (m : gmap N DocumentArtifact) ids a :
  a ∈ (order_by by_pk (rows m (λ k _, existsb (N.eqb k) ids))).*1
    ↔ a ∈ ids ∧ is_Some (m !! a).
Proof.
  rewrite order_by_perm, list_elem_of_fmap. split.
  - intros ([k row] & -> & Hin). apply rows_elem in Hin as [Hk Hin].
    apply mem_N_spec in Hin. split; [exact Hin|]. simpl. rewrite Hk. eauto.
  - intros [Hin [row Hk]]. exists (a, row). split; [reflexivity|]. apply rows_elem.
    split; [exact Hk|]. apply mem_N_spec, Hin.
Qed.

(** The artifacts that are left when those of [l] without a reference are removed. *)
Lemma artifacts_left s s2 s' l pid :
  (∀ a, a ∈ l ↔ referenced_by s pid a = true ∧ is_Some (db_document_artifacts s !! a)) →
  references_left s s2 pid → db_document_artifacts s2 = db_document_artifacts s →
  released l s2 s' → ∀ a, db_document_artifacts s' !! a =
    if referenced_by s pid a && negb (referenced_elsewhere s pid a) then None
    else db_document_artifacts s !! a.
Proof.
  intros Hl K E (_ & R & _) a. rewrite R, (referenced_left _ _ _ a K), E.
  destruct (referenced_elsewhere s pid a); [rewrite !andb_false_r; reflexivity|].
  rewrite !andb_true_r. destruct (db_document_artifacts s !! a) eqn:Ea.
  - destruct (referenced_by s pid a) eqn:Eb.
    + rewrite bool_decide_eq_true_2 by (apply Hl; rewrite Ea; eauto). reflexivity.
    + rewrite bool_decide_eq_false_2; [reflexivity|]. rewrite Hl. intros [? _]. congruence.
  - destruct (bool_decide _), (referenced_by s pid a); reflexivity.
Qed.

(** Releasing a publication's references frees exactly what nobody else needs:
    after it no reference of the publication is left and those of other publications
    are untouched; an artifact row disappears if and only if this publication
    referenced it and no other one does, and the removal of its ciphertext is then
    recorded and registered for the commit. *)
Theorem release_frees_the_unreferenced pid p s n s' :
  release_terminal_document_artifact_references pid p s = (Val n, s') →
  is_terminal_status (pub_status p) = true
  ∧ references_left s s' pid
  ∧ (∀ a, db_document_artifacts s' !! a =
       if referenced_by s pid a && negb (referenced_elsewhere s pid a) then None
       else db_document_artifacts s !! a)
  ∧ (∀ a row, db_document_artifacts s !! a = Some row → db_document_artifacts s' !! a = None →
       removal_queued s' a).
Proof.
  intros E. pattern n, s'. eapply wlp_val; [exact E|]. clear E n s'.
  unfold release_terminal_document_artifact_references.
  apply wlp_bind, wlp_guard. intros Ht. apply wlp_bind.
  eapply (wlp_frame (λ s, (db_document_references s, db_document_artifacts s))); [frame|].
  intros u s1 [= E1 E2]. apply wlp_skip; [auto with preserves|]. intros refs [= <-].
  rewrite E1. fold (reference_ids (db_document_references s) pid).
  destruct (reference_ids _ pid) as [|i ids'] eqn:Eids.
  - apply wlp_ret. assert (Hno : ∀ a, referenced_by s pid a = false).
    { intros a. apply not_true_iff_false. rewrite <- elem_of_reference_ids, Eids. inversion 1. }
    split_and!; [exact Ht|exact (no_references _ _ _ E1 Hno)| |congruence].
    intros a. rewrite Hno, E2. reflexivity.
  - rewrite <- Eids. clear Eids i ids'.
    apply wlp_skip; [auto with preserves|]. intros artifacts [= <-].
    pose proof (elem_of_artifacts (db_document_artifacts s1)
      (reference_ids (db_document_references s) pid)) as Hl.
    setoid_rewrite elem_of_reference_ids in Hl. setoid_rewrite E2 in Hl.
    rewrite E2.
    apply wlp_bind. unfold delete_where, modify, wlp at 1.
    eapply wlp_mono; [apply wlp_release_artifacts|]. cbv beta. intros q s' [R _].
    match type of R with released _ ?s2 _ => assert (K : references_left s s2 pid)
      by (apply delete_references; simpl; rewrite E1; reflexivity) end.
    pose proof (artifacts_left _ _ _ _ _ Hl K E2 R) as A. destruct R as (R1 & _ & _ & R4).
    split_and!; [exact Ht|intros k r; rewrite R1; apply K|exact A|].
    intros a row Ha Hn. rewrite A, Ha in Hn. destruct (_ && _) eqn:Eb; [|discriminate].
    apply andb_true_iff in Eb as [Eb1 Eb2]. apply negb_true_iff in Eb2. apply R4.
    + apply Hl. rewrite Ha. eauto.
    + rewrite (referenced_left _ _ _ _ K). exact Eb2.
Qed.

(** A queued cleanup spares what is stored: it always returns, and it removes a
    file and its own row only when the path is the canonical one of the artifact, the
    artifact's row is gone and no other artifact has the path; otherwise, or when the
    removal fails, nothing changes and the cleanup stays queued. *)
Theorem cleanup_spares_stored `{ArtifactStore} k s :
  ∃ s', _process_cleanup_record k s = (Val tt, s') ∧
  (s' = s ∨ ∃ c, db_document_cleanups s !! k = Some c
     ∧ dc_artifact_path c = document_artifact_relative_path (dc_artifact_id c)
     ∧ db_document_artifacts s !! dc_artifact_id c = None
     ∧ (∀ a row, db_document_artifacts s !! a = Some row → da_artifact_path row ≠ dc_artifact_path c)
     ∧ removal_fails (dc_artifact_path c) = false
     ∧ s' = s <| db_effects ::= λ l, l ++ [EffRemoveArtifact (dc_artifact_path c)] |>
              <| db_document_cleanups ::= delete k |>).
Proof.
  unfold _process_cleanup_record, bind, find_obj, gets.
  destruct (db_document_cleanups s !! k) as [c|] eqn:Ek; [|eauto].
  destruct (String.eqb_spec (dc_artifact_path c) (document_artifact_relative_path (dc_artifact_id c)))
    as [Ep|]; simpl; [|eauto].
  destruct (db_document_artifacts s !! dc_artifact_id c) eqn:Ea; simpl; [eauto|].
  destruct (exists_row _ _) eqn:Ex; simpl; [eauto|].
  destruct (removal_fails (dc_artifact_path c)) eqn:Er; simpl; [eauto|].
  eexists. split; [reflexivity|]. right. exists c. split_and!; try assumption; try reflexivity.
  intros a row Ha E. rewrite exists_row_false in Ex. specialize (Ex _ _ Ha).
  apply String.eqb_neq in Ex. contradiction.
Qed.

(** Artifact 1 is shared by the publications 1 and 2, artifact 2 belongs to 1. *)
Definition demo_documents : Db :=
  demo_superseded
    <| db_document_artifacts := <[1%N := mkDocumentArtifact "department_fire_plans" 1 "s1" "p1"]>
         (<[2%N := mkDocumentArtifact "department_fire_plans" 2 "s2" "p2"]> ∅) |>
    <| db_document_references := <[1%N := mkDocumentArtifactReference 1 1 1]>
         (<[2%N := mkDocumentArtifactReference 2 1 1]>
           (<[3%N := mkDocumentArtifactReference 1 2 2]> ∅)) |>.

Lemma release_frees_the_unreferenced_witness :
  ∃ row n s', db_publications demo_documents !! 1%N = Some row
    ∧ release_terminal_document_artifact_references 1 (row <| pub_status := PUB_OBSOLETE |>)
        demo_documents = (Val n, s')
    ∧ is_Some (db_document_artifacts s' !! 1%N) ∧ db_document_artifacts s' !! 2%N = None.
Proof.
  destruct (row_with pub_dataset_type_code (db_publications demo_documents !! 1%N)
    "department_phonebook") as (row & Hrow & C); [vm_compute; reflexivity|].
  destruct (release_terminal_document_artifact_references 1 (row <| pub_status := PUB_OBSOLETE |>)
    demo_documents) as [[n|e] s'] eqn:E.
  - exists row, n, s'. split; [exact Hrow|]. split; [exact E|].
    destruct (release_frees_the_unreferenced 1 _ demo_documents n s' E) as (_ & _ & A & _).
    rewrite !A. split; vm_compute; eauto.
  - exfalso. unfold release_terminal_document_artifact_references in E.
    change (pub_dataset_type_code (row <| pub_status := PUB_OBSOLETE |>))
      with (pub_dataset_type_code row) in E.
    rewrite C in E. apply (f_equal fst) in E. vm_compute in E. discriminate.
Defined.

(** ** Lists *)

Lemma rows_length_le {A} (m m' : gmap N A) P P' :
  (∀ k a, m' !! k = Some a → P' k a = true → ∃ a0, m !! k = Some a0 ∧ P k a0 = true) →
  (length (rows m' P') ≤ length (rows m P))%nat.
Proof.
  intros H. rewrite <- (length_fmap fst (rows m' P')), <- (length_fmap fst (rows m P)).
  apply submseteq_length, NoDup_submseteq; [apply rows_NoDup|].
  intros k Hk. apply list_elem_of_fmap in Hk as ([k' a] & -> & Hin).
  apply rows_elem in Hin as [Hk HP]. destruct (H _ _ Hk HP) as (a0 & Hk0 & HP0).
  apply list_elem_of_fmap. exists (k', a0). split; [reflexivity|]. apply rows_elem. auto.
Qed.

(** The first [n] of a list without ties: the elements with fewer than [n] before
    them. *)
Lemma take_ranked {A} (v : A → Z) n l x :
  StronglySorted (λ a b, v b < v a) l →
  x ∈ take n l ↔ x ∈ l ∧ (length (filter (λ y, (v x < v y)%Z) l) < n)%nat.
Proof.
  intros Hs. revert n. induction Hs as [|a l Hs IH Hall]; intros n.
  { rewrite take_nil. split; [inversion 1|]. intros [Hx _]. inversion Hx. }
  rewrite Forall_forall in Hall. destruct n as [|n]; [split; [inversion 1|]; intros [_ ?]; lia|].
  simpl take. rewrite !elem_of_cons, IH, filter_cons. split.
  - intros [->|[Hx Hl]].
    + split; [auto|]. destruct (decide _); [lia|].
      enough (filter (λ y, (v a < v y)%Z) l = []) as -> by (simpl; lia).
      apply elem_of_nil_inv. intros y [Hv Hy]%list_elem_of_filter. apply Hall in Hy. lia.
    + split; [auto|]. destruct (decide _); simpl; lia.
  - intros [[->|Hx] Hl]; [auto|right]. split; [exact Hx|].
    apply Hall in Hx. destruct (decide _); [simpl in Hl; lia|contradiction].
Qed.

Section retention.
Context `{Settings} `{Hash} `{DocumentGenerations} `{ArtifactStore}.

(** Being kept, without the sort. *)
Lemma ranked_iff s c q : Inv (view s) → q ∈ ranked_predecessors s c ↔
  ∃ row, db_publications s !! q = Some row ∧ is_ready_predecessor c row = true
    ∧ (length (newer s c (pub_version_number row)) < Z.to_nat retained_limit)%nat.
Proof.
  intros I. unfold ranked_predecessors. set (l := rows _ _).
  set (v := λ r : N * DatasetPublication, pub_version_number r.2).
  set (L := order_by (λ r, [- v r]) l).
  assert (Hl : ∀ r, r ∈ L ↔ db_publications s !! r.1 = Some r.2 ∧ is_ready_predecessor c r.2 = true).
  { intros [k a]. unfold L, l. rewrite order_by_elem.
    apply (rows_elem _ (λ _ p, is_ready_predecessor c p)). }
  assert (HS : StronglySorted (λ a b, v b < v a) L).
  { pose proof (order_by_sorted (λ r, [- v r]) l) as Hs. fold L in Hs.
    assert (Hnd : NoDup L.*1) by (unfold L; rewrite order_by_perm; apply rows_NoDup).
    assert (Hd : ∀ x y, x ∈ L → y ∈ L → v x = v y → x.1 = y.1).
    { intros x y Hx Hy E. apply Hl in Hx as [Hx Px], Hy as [Hy Py].
      apply lookup_view_pub in Hx, Hy. unfold is_ready_predecessor in Px, Py. bools.
      eapply (inv_version _ I); [exact Hx|exact Hy| |exact E]. simpl. congruence. }
    clear Hl. revert Hnd Hd. induction Hs as [|a L' Hs IH Hall]; intros Hnd Hd; constructor.
    - inversion Hnd; subst. apply IH; [assumption|]. intros. apply Hd; try right; assumption.
    - rewrite Forall_forall in Hall |- *. intros b Hb. pose proof (Hall _ Hb) as K.
      unfold key_le in K. simpl in K. inversion Hnd as [|? ? Hni]; subst.
      destruct (Z.ltb_spec (- v a) (- v b)); [lia|]. destruct (Z.eqb_spec (- v a) (- v b)); [|discriminate].
      exfalso. apply Hni. apply list_elem_of_fmap. exists b. split; [|exact Hb].
      apply Hd; [left|right; exact Hb|lia]. }
  assert (HC : ∀ x, length (filter (λ y, (v x < v y)%Z) L) = length (newer s c (v x))).
  { intros x. unfold L, newer. rewrite order_by_perm. unfold l, rows. rewrite list_filter_filter.
    f_equal. apply list_filter_iff. intros [k a]. simpl. rewrite andb_true_iff, Z.ltb_lt. tauto. }
  rewrite list_elem_of_fmap. split.
  - intros ([k a] & -> & Hin). apply (take_ranked v _ _ _ HS) in Hin as [Hin Hlen].
    rewrite HC in Hlen. apply Hl in Hin as [Hk Hr]. exists a. auto.
  - intros (a & Hk & Hr & Hlen). exists (q, a). split; [reflexivity|].
    apply (take_ranked v _ _ _ HS). rewrite HC. split; [apply Hl; auto|exact Hlen].
Qed.

Lemma aged_rows_refl s : aged_rows s s.
Proof. intros q. destruct (db_publications s !! q); [left; reflexivity|constructor]. Qed.

Lemma ready_superseded c row : is_ready_predecessor c row = true →
  pub_status row = SUPERSEDED ∧ pub_scope_state row = c.
Proof. unfold is_ready_predecessor. intros E. bools. auto. Qed.

(** What aging does to a row, seen from the row it leaves. *)
Lemma aged_superseded s q row row' :
  aged s q row row' → pub_status row' = SUPERSEDED → row' = row.
Proof.
  intros [->|[(_ & _ & ->)|(E & ->)]] S; [reflexivity|discriminate|].
  simpl in S. rewrite S in E. discriminate.
Qed.

Lemma ranked_kept s s1 c q : Inv (view s) → Inv (view s1) → aged_rows s s1 →
  q ∈ ranked_predecessors s c → q ∈ ranked_predecessors s1 c.
Proof.
  intros I I1 Ha Hq. pose proof Hq as Hr. apply (ranked_iff _ _ _ I) in Hr as (row & Hp & Hr & Hl).
  pose proof (ready_superseded _ _ Hr) as [Hs Hc]. pose proof (Ha q) as Hq1. rewrite Hp in Hq1.
  destruct (db_publications s1 !! q) as [row1|] eqn:Hp1; [|contradiction].
  assert (row1 = row) as ->.
  { destruct Hq1 as [->|[(_ & Hn & _)|(E & _)]]; [reflexivity|rewrite Hc in Hn; contradiction|].
    rewrite Hs in E. discriminate. }
  apply (ranked_iff _ _ _ I1). exists row. split_and!; [exact Hp1|exact Hr|].
  eapply Nat.le_lt_trans; [|exact Hl]. apply rows_length_le. intros k a Hk HP.
  apply andb_true_iff in HP as [HP1 HP2].
  pose proof (Ha k) as Hak. rewrite Hk in Hak.
  destruct (db_publications s !! k) as [a0|]; [|contradiction].
  exists a0. split; [reflexivity|]. apply aged_superseded in Hak as <-.
  - rewrite HP1, HP2. reflexivity.
  - eapply ready_superseded. eassumption.
Qed.

Lemma aged_rows_trans s s1 s2 : Inv (view s) → Inv (view s1) →
  aged_rows s s1 → aged_rows s1 s2 → aged_rows s s2.
Proof.
  intros I I1 H1' H2' q. specialize (H2' q). pose proof (H1' q) as Hq.
  destruct (db_publications s !! q) as [row|] eqn:E0, (db_publications s1 !! q) as [row1|] eqn:E1,
    (db_publications s2 !! q) as [row2|] eqn:E2; try contradiction; [|constructor].
  destruct Hq as [->|[(Hs & Hn & ->)|(He & ->)]].
  - destruct H2' as [->|[(Hs & Hn & ->)|(He & ->)]]; [left; reflexivity| |right; right; auto].
    right; left. split_and!; [exact Hs| |reflexivity]. intros Hin. apply Hn.
    exact (ranked_kept _ _ _ _ I I1 H1' Hin).
  - destruct H2' as [->|[(Hs' & _)|(He & _)]]; [|discriminate..]. right; left. auto.
  - destruct H2' as [->|[(Hs' & _)|(_ & ->)]].
    + right; right. auto.
    + simpl in Hs'. rewrite Hs' in He. discriminate.
    + right; right. auto.
Qed.

(** ** One candidate *)

Lemma aged_insert s s' q row row' : db_publications s !! q = Some row → aged s q row row' →
  db_publications s' = <[q := row']> (db_publications s) → aged_rows s s'.
Proof.
  intros Hq Ha E k. rewrite E. destruct (decide (k = q)) as [->|Hne].
  - rewrite Hq, lookup_insert_eq. exact Ha.
  - rewrite lookup_insert_ne by congruence. apply aged_rows_refl.
Qed.

Lemma aged_same s s' : db_publications s' = db_publications s → aged_rows s s'.
Proof. intros E q. rewrite E. apply aged_rows_refl. Qed.

(** What one candidate, or the whole pass, leaves. *)
Definition pass (dry : bool) (s s' : Db) : Prop :=
  aged_rows s s' ∧ db_jobs s' = db_jobs s ∧ currents s' = currents s
  ∧ (dry = true → tables s' = tables s).

Lemma pass_refl dry s : pass dry s s.
Proof. split_and!; auto using aged_rows_refl. Qed.

Lemma wlp_retire pid row scope_id latest current s (Q : unit → Db → Prop) :
  db_publications s !! pid = Some row →
  (∀ s', db_publications s' = <[pid := row <| pub_status := PUB_OBSOLETE |>
            <| pub_source_snapshot := None |>]> (db_publications s) →
     db_jobs s' = db_jobs s → currents s' = currents s → Q tt s') →
  wlp (retire_publication pid row scope_id latest current) s Q.
Proof.
  intros Hp HQ. unfold retire_publication. set (f := λ s, (db_publications s, db_jobs s, currents s)).
  apply wlp_bind. eapply (wlp_frame f); [frame|]. intros u s1 [= A1 A2 A3].
  apply wlp_bind, wlp_save. intros row' Hrow. rewrite A1, Hp in Hrow. injection Hrow as <-.
  apply wlp_bind. eapply (wlp_frame f); [apply keeps_release; reflexivity|]. intros v s2 [= B1 B2 B3].
  apply wlp_bind. eapply (wlp_mono _ _ (λ _ s3, f s3 = f s2)).
  { destruct (bool_decide _); [|apply wlp_ret; reflexivity].
    apply wlp_skip; [auto with preserves|]. intros now _. apply wlp_save. intros sc Hsc.
    unfold f. simpl. f_equal. unfold currents. simpl.
    eapply currents_insert; [exact Hsc|reflexivity]. }
  intros w s3 [= C1 C2 C3]. eapply (wlp_frame f); [frame|]. intros [] s4 [= D1 D2 D3].
  apply HQ.
  - rewrite D1, C1, B1. simpl. rewrite A1. reflexivity.
  - rewrite D2, C2, B2. simpl. exact A2.
  - rewrite D3, C3, B3. simpl. unfold currents in *. exact A3.
Qed.

Lemma wlp_process_superseded pid row scope_id scope dry s :
  PUBLICATION_RETENTION_RESTORE_AWARE_ENABLED = false →
  db_publications s !! pid = Some row → pub_status row = SUPERSEDED →
  pub_scope_state row = scope_id →
  wlp (process_superseded pid row scope_id scope dry) s (λ _ s', pass dry s s').
Proof.
  intros Hr Hp Hs Hc. unfold process_superseded, _is_retained_predecessor, protected_ids.
  destruct (bool_decide _); [apply wlp_ret, pass_refl|].
  apply wlp_skip; [rewrite Hr; auto with preserves|]. intros retained E. rewrite Hr in E.
  injection E as <-. destruct (mem_N _ _) eqn:Hm; [apply wlp_ret, pass_refl|].
  destruct dry; [apply wlp_ret, pass_refl|]. apply wlp_bind, (wlp_retire _ row); [exact Hp|].
  intros s1 E1 E2 E3. apply wlp_bind.
  eapply (wlp_frame (λ s, (db_publications s, db_jobs s, currents s))); [frame|].
  intros u s2 [= F1 F2 F3]. apply wlp_ret. split_and!; [|congruence|congruence|discriminate].
  eapply aged_insert; [exact Hp| |rewrite F1; exact E1]. right; left.
  split_and!; [exact Hs| |reflexivity]. rewrite Hc. intros Hin%mem_N_spec. congruence.
Qed.

Lemma wlp_process_terminal pid row job now dry s :
  db_publications s !! pid = Some row →
  wlp (process_terminal pid row job now dry) s (λ _ s', pass dry s s').
Proof.
  intros Hp. unfold process_terminal.
  destruct (is_expirable_status _) eqn:He; [|apply wlp_ret, pass_refl]. simpl.
  destruct (negb _); [apply wlp_ret, pass_refl|].
  destruct (_ <? _); [apply wlp_ret, pass_refl|].
  destruct dry; [apply wlp_ret, pass_refl|]. apply wlp_bind, wlp_save. intros row' Hrow.
  rewrite Hp in Hrow. injection Hrow as <-. set (f := λ s, (db_publications s, db_jobs s, currents s)).
  apply wlp_bind. eapply (wlp_frame f); [apply keeps_release; reflexivity|]. intros u s1 [= E1 E2 E3].
  apply wlp_bind. eapply (wlp_frame f); [frame|]. intros v s2 [= F1 F2 F3]. apply wlp_ret.
  simpl in E1, E2. split_and!; [|congruence|unfold currents in *; simpl in *; congruence|discriminate].
  eapply aged_insert; [exact Hp|right; right; auto|congruence].
Qed.

Lemma wlp_process_candidate now dry pid s :
  PUBLICATION_RETENTION_RESTORE_AWARE_ENABLED = false →
  wlp (_process_candidate now dry pid) s (λ _ s', pass dry s s').
Proof.
  intros Hr. apply wlp_atomic, wlp_bind, wlp_find_obj.
  destruct (db_publications s !! pid) as [preview|] eqn:Hp; [|apply wlp_ret, pass_refl].
  apply wlp_bind, wlp_find_obj.
  destruct (db_scopes s !! pub_scope_state preview) as [scope|]; [|apply wlp_ret, pass_refl].
  apply wlp_skip; [auto with preserves|]. intros live _.
  destruct (opt_true live); [apply wlp_ret, pass_refl|].
  apply wlp_skip; [auto with preserves|]. intros job _. apply wlp_bind, wlp_find_obj. rewrite Hp.
  rewrite N.eqb_refl. simpl.
  destruct (pub_status preview) eqn:Hs; try (apply wlp_process_terminal; exact Hp).
  apply wlp_process_superseded; auto.
Qed.

Lemma removals_on_commit c : removal c → preserves only_removals (on_commit c).
Proof.
  intros Hc s Hs. simpl. apply Forall_app. split; [exact Hs|]. constructor; [exact Hc|constructor].
Qed.

Hint Extern 1 (preserves only_removals (save _ _ _)) =>
  apply preserves_save; [exact _|intros ? ? ?; assumption] : preserves.
Hint Extern 1 (preserves only_removals (create _ _)) =>
  apply preserves_create; intros ? ? ?; assumption : preserves.
Hint Extern 1 (preserves only_removals (delete_obj _ _)) =>
  apply preserves_delete_obj; intros ? ? ?; assumption : preserves.
Hint Extern 1 (preserves only_removals (update_where _ _ _)) =>
  apply preserves_update_where; intros ? ? ?; assumption : preserves.
Hint Extern 1 (preserves only_removals (delete_where _ _)) =>
  apply preserves_delete_where; intros ? ? ?; assumption : preserves.
Hint Extern 1 (preserves only_removals (modify _)) =>
  apply preserves_modify; intros ? ?; assumption : preserves.
Hint Extern 1 (preserves only_removals (on_commit _)) =>
  apply removals_on_commit; exact I : preserves.

Lemma removals_process_candidate now dry pid :
  preserves only_removals (_process_candidate now dry pid).
Proof.
  unfold _process_candidate, process_superseded, process_terminal, retire_publication,
    revoke_publication_dataset_key_grants, release_terminal_document_artifact_references,
    release_artifact, _schedule_document_artifact_removal, _schedule_artifact_removal,
    record_event. preserve.
Qed.

(** ** Committing it *)

Lemma removal_callback c : removal c →
  keeps (λ s, (tables s, db_on_commit s)) (run_callback c).
Proof. destruct c; simpl; try contradiction; intros _; frame. Qed.

Lemma wlp_commit_removals {A} (m : M Db A) s (Q : A → Db → Prop) :
  wlp m s (λ a s', Forall removal (db_on_commit s') ∧
    ∀ s2, tables s2 = tables s' → db_on_commit s2 = [] → Q a s2) →
  wlp (commit m) s Q.
Proof.
  unfold wlp, commit. destruct (m s) as [[a|e] s']; [|auto]. intros [Hr HQ].
  apply wlp_bind. eapply (wlp_frame (λ s, (tables s, db_on_commit s))).
  - revert Hr. generalize (db_on_commit s'). induction 1 as [|c l Hc _ IH]; simpl.
    + apply preserves_ret, _.
    + apply preserves_bind; [exact _|apply removal_callback, Hc|intros _; exact IH].
  - intros u s2 [= E1 E2 E3 E4]. apply wlp_ret, HQ; [|exact E4]. unfold tables. congruence.
Qed.

Lemma pass_tables dry s s1 s2 : tables s2 = tables s1 → pass dry s s1 → pass dry s s2.
Proof.
  intros E (P1 & P2 & P3 & P4). pose proof E as [= E1 E2 E3]. split_and!.
  - intros q. rewrite E2. apply P1.
  - congruence.
  - unfold currents in *. congruence.
  - intros D. rewrite E. auto.
Qed.

Lemma pass_trans dry s s1 s2 : Inv (view s) → Inv (view s1) →
  pass dry s s1 → pass dry s1 s2 → pass dry s s2.
Proof.
  intros I I1 (P1 & P2 & P3 & P4) (R1 & R2 & R3 & R4). split_and!; [|congruence..|].
  - eapply (aged_rows_trans s s1); assumption.
  - intros D. rewrite R4 by exact D. auto.
Qed.

Lemma wlp_candidate now dry pid s :
  PUBLICATION_RETENTION_RESTORE_AWARE_ENABLED = false → Inv (view s) → db_on_commit s = [] →
  wlp (commit (_process_candidate now dry pid)) s
    (λ _ s', pass dry s s' ∧ Inv (view s') ∧ db_on_commit s' = []).
Proof.
  intros Hr I Hc. eapply wlp_mono; [apply wlp_and|].
  - apply wlp_commit_removals. eapply wlp_mono; [apply wlp_and|].
    + apply (wlp_process_candidate _ dry _ _ Hr).
    + apply preserves_wlp, removals_process_candidate.
    + cbv beta. intros o s1 [P R]. split.
      * apply R. rewrite Hc. constructor.
      * intros s2 E Hc2. exact (conj (pass_tables _ _ _ _ E P) Hc2).
  - apply preserves_wlp, simulated_commit, simulated_process_candidate.
  - cbv beta. intros o s2 [[P Hc2] Hs]. split_and!; [exact P| |exact Hc2].
    eapply Inv_steps; [exact I|apply Hs, I].
Qed.

Lemma wlp_candidates now dry ids r s :
  PUBLICATION_RETENTION_RESTORE_AWARE_ENABLED = false → Inv (view s) → db_on_commit s = [] →
  wlp (fold_m (λ result pid, let! outcome := commit (_process_candidate now dry pid) in
                             ret (count_outcome result outcome)) r ids) s
    (λ _ s', pass dry s s').
Proof.
  intros Hr. revert r s. induction ids as [|pid ids IH]; intros r s I Hc; simpl.
  { apply wlp_ret, pass_refl. }
  apply wlp_bind, wlp_bind. eapply wlp_mono; [apply wlp_candidate; assumption|].
  intros o s1 (P & I1 & Hc1). apply wlp_ret. eapply wlp_mono; [apply IH; assumption|].
  intros r' s2 P2. eapply (pass_trans _ s s1); assumption.
Qed.

(** A retention pass keeps what it must: it changes a publication only if that is
    superseded and not among the newest READY predecessors of its scope, which are
    then retired, or failed or cancelled, which lose their frozen source; so the
    newest predecessors, up to the configured number, the current publication of
    every scope and all jobs stay as they are, and a dry run changes no row. *)
Theorem retention_keeps_newest batch dry s res s' :
  PUBLICATION_RETENTION_RESTORE_AWARE_ENABLED = false → Inv (view s) → db_on_commit s = [] →
  run_publication_retention batch dry s = (Val res, s') →
  aged_rows s s' ∧ db_jobs s' = db_jobs s ∧ currents s' = currents s
  ∧ (dry = true → tables s' = tables s)
  ∧ (∀ c q, q ∈ ranked_predecessors s c → db_publications s' !! q = db_publications s !! q)
  ∧ (∀ c sc q, db_scopes s !! c = Some sc → sc_current_published_publication sc = Some q →
       db_publications s' !! q = db_publications s !! q).
Proof.
  intros Hr I Hc E.
  assert (P : pass dry s s').
  { refine (wlp_val _ _ _ _ (λ _ s', pass dry s s') E _). unfold run_publication_retention.
    apply wlp_skip; [auto with preserves|]. intros u _.
    apply wlp_skip; [auto with preserves|]. intros now _.
    apply wlp_skip; [auto with preserves|]. intros ids _. apply wlp_candidates; assumption. }
  destruct P as (Ha & Hj & Hcur & Hd).
  assert (K : ∀ q row, db_publications s !! q = Some row → is_expirable_status (pub_status row) = false →
    (pub_status row = SUPERSEDED → q ∈ ranked_predecessors s (pub_scope_state row)) →
    db_publications s' !! q = db_publications s !! q).
  { intros q row Hq He Hk. specialize (Ha q). rewrite Hq in Ha |- *.
    destruct (db_publications s' !! q) as [row'|]; [|contradiction].
    destruct Ha as [->|[(S & N & _)|(S & _)]]; [reflexivity|destruct (N (Hk S))|congruence]. }
  split_and!; [exact Ha|exact Hj|exact Hcur|exact Hd| |].
  - intros c q Hq. pose proof Hq as Hr'. apply (ranked_iff _ _ _ I) in Hr' as (row & Hp & R & _).
    apply ready_superseded in R as [S <-]. eapply K; [exact Hp|rewrite S; reflexivity|auto].
  - intros c sc q Hk Hcu. assert (Hv : v_scopes (view s) !! c = Some (scope_view sc))
      by (simpl; rewrite lookup_fmap, Hk; reflexivity).
    destruct (inv_current _ I _ _ _ Hv Hcu) as (pv & Hp & _ & S). simpl in Hp.
    rewrite lookup_fmap in Hp. destruct (db_publications s !! q) as [row|] eqn:Hq; [|discriminate].
    injection Hp as <-. simpl in S. rewrite <- Hq.
    eapply K; [exact Hq|rewrite S; reflexivity|congruence].
Qed.
(** ** How much one pass does *)

Lemma wlp_fold_inv {A B} (f : B → A → M Db B) (J : B → Prop) l b s :
  (∀ b x s, J b → wlp (f b x) s (λ b' _, J b')) → J b → wlp (fold_m f b l) s (λ b' _, J b').
Proof.
  intros Hf. revert b s. induction l as [|x l IH]; intros b s Hb; simpl; [apply wlp_ret, Hb|].
  apply wlp_bind. eapply wlp_mono; [apply Hf, Hb|]. intros b' s' Hb'. apply IH, Hb'.
Qed.

Lemma take_rest {A} (ids more : list A) limit : Z.of_nat (length ids) ≤ limit →
  Z.of_nat (length (ids ++ take (Z.to_nat (limit - Z.of_nat (length ids))) more)) ≤ limit.
Proof. intros Hl. rewrite length_app, length_take. lia. Qed.

Lemma wlp_superseded_candidates limit s : 0 ≤ limit →
  wlp (superseded_candidates limit) s (λ ids _, Z.of_nat (length ids) ≤ limit).
Proof.
  intros Hl. unfold superseded_candidates.
  destruct PUBLICATION_RETENTION_RESTORE_AWARE_ENABLED.
  - apply wlp_skip; [auto with preserves|]. intros history _.
    apply wlp_skip; [auto with preserves|]. intros scopes _.
    apply wlp_fold_inv; [|simpl; lia]. intros ids [k sc] s1 Hb.
    apply wlp_skip; [auto with preserves|]. intros selected _.
    apply wlp_skip; [auto with preserves|]. intros more _. apply wlp_ret, take_rest, Hb.
  - apply wlp_skip; [auto with preserves|]. intros scopes _.
    apply wlp_skip; [auto with preserves|]. intros retained _.
    apply wlp_skip; [auto with preserves|]. intros candidates _. apply wlp_ret.
    rewrite length_take. lia.
Qed.

Lemma wlp_candidate_ids limit now s : 0 ≤ limit →
  wlp (_candidate_ids limit now) s (λ ids _, Z.of_nat (length ids) ≤ limit).
Proof.
  intros Hl. apply wlp_bind. eapply wlp_mono; [apply wlp_superseded_candidates, Hl|].
  intros ids s1 Hb. cbv zeta beta in *. destruct (_ <=? 0); [apply wlp_ret, Hb|].
  apply wlp_skip; [auto with preserves|]. intros terminal _. apply wlp_ret, take_rest, Hb.
Qed.

(** A retention pass is bounded: with a positive limit, the batch size given or the
    configured one, it considers at most that many publications, and every one of
    them is counted as retired, purged or skipped. *)
Theorem retention_is_bounded batch dry s res s' :
  run_publication_retention batch dry s = (Val res, s') →
  1 ≤ or_batch_size batch ∧ 0 ≤ considered res ≤ or_batch_size batch
  ∧ considered res = obsoleted res + snapshots_purged res + skipped res.
Proof.
  intros E. pattern res. refine (wlp_val _ _ _ _ (λ res _, _) E _). clear E res s'.
  unfold run_publication_retention. apply wlp_bind, wlp_guard. intros Hl. apply Z.leb_le in Hl.
  apply wlp_skip; [auto with preserves|]. intros now _. apply wlp_bind.
  eapply wlp_mono; [apply wlp_candidate_ids; lia|]. cbv beta. intros ids s1 Hn.
  enough (K : ∀ l r s, wlp (fold_m (λ result pid,
      let! outcome := commit (_process_candidate now dry pid) in ret (count_outcome result outcome))
      r l) s (λ r' _, considered r' = considered r + Z.of_nat (length l)
        ∧ considered r' - (obsoleted r' + snapshots_purged r' + skipped r')
          = considered r - (obsoleted r + snapshots_purged r + skipped r))).
  { eapply wlp_mono; [apply K|]. simpl. intros r s2 [K1 K2]. lia. }
  clear. induction l as [|pid l IH]; intros r s; simpl; [apply wlp_ret; lia|].
  apply wlp_bind, wlp_bind.
  match goal with |- wlp ?m _ _ => destruct (m s) as [[o|e] s1] eqn:E end;
    unfold wlp at 1; rewrite E; [|exact I].
  apply wlp_ret. eapply wlp_mono; [apply IH|]. intros r' s2 [K1 K2]. destruct r, o; simpl in *; lia.
Qed.
End retention.

(** Version 3 is published: versions 1 and 2 are its predecessors, one of which is kept. *)
Definition demo_three : Db := (serve alone (Build 3) demo_building).2.

Lemma demo_three_reachable : reachable demo_three.
Proof. apply serve_reachable, demo_building_reachable. Qed.

Lemma retention_keeps_newest_witness :
  ∃ res s' row, run_publication_retention None false demo_three = (Val res, s')
    ∧ obsoleted res = 1 ∧ db_publications s' !! 2%N = Some row ∧ pub_status row = SUPERSEDED.
Proof.
  assert (R : PUBLICATION_RETENTION_RESTORE_AWARE_ENABLED = false) by reflexivity.
  assert (C : db_on_commit demo_three = []) by (vm_compute; reflexivity).
  assert (Q : 2%N ∈ ranked_predecessors demo_three 1) by (vm_compute; left).
  destruct (row_with pub_status (db_publications demo_three !! 2%N) SUPERSEDED)
    as (row & Hrow & S); [vm_compute; reflexivity|].
  destruct (run_publication_retention None false demo_three) as [[res|e] s'] eqn:E.
  - assert (O : obsoleted res = 1).
    { apply (f_equal fst) in E. vm_compute in E. injection E as <-. reflexivity. }
    exists res, s', row. split_and!; [reflexivity|exact O| |exact S].
    destruct (retention_keeps_newest None false demo_three res s' R
      (reachable_Inv _ demo_three_reachable) C E) as (_ & _ & _ & _ & K & _).
    rewrite (K _ _ Q). exact Hrow.
  - exfalso. apply (f_equal fst) in E. vm_compute in E. discriminate.
Defined.

Lemma retention_is_bounded_witness :
  ∃ res s', run_publication_retention (Some 5) true demo_three = (Val res, s')
    ∧ 0 ≤ considered res ≤ 5.
Proof.
  destruct (run_publication_retention (Some 5) true demo_three) as [[res|e] s'] eqn:E.
  - exists res, s'. split; [reflexivity|].
    destruct (retention_is_bounded (Some 5) true demo_three res s' E) as (_ & B & _). exact B.
  - exfalso. apply (f_equal fst) in E. vm_compute in E. discriminate.
Defined.
