(* ===== verification/ReportTheorems.v ===== *)
(** The theorems on report transfer: access by link, submission, expiry and clean-up. *)
From Stdlib Require Import Ascii.
From S2P Require Import Prelude Text Encoding Models Registry Store Authorization Fingerprint.
From S2P Require Import ApplicationSecrets Tablets Manifests MailProviders MailServices.
From S2P Require Import ReportDelivery JsonText ReportDocuments ReportTransfer ReportPortal.
From S2P Require Import Totality.
From S2P Require Import MailInv MailSystem ReportRequests ReportInv ReportPortalInv.
From S2P Require Import Demo SecretTheorems TabletDemo MailDemo ReportDemo.

Section definitions.
Context `{Hash, MailEnvironment, MailSettings, Secrets}.

(** A grant that gives access: it was sent and not revoked, its tablet is in service in an
    active department, and its recipient is still authorized under the same mailbox. *)
Definition grant_alive (s : Db) (t : ReportTransfer) : Prop :=
  rt_revoked_at t = None ∧ rt_mail_state t = MAIL_SENT
  ∧ ∃ installation tablet department email person,
      db_installations s !! rt_installation t = Some installation
      ∧ db_tablets s !! in_tablet installation = Some tablet
      ∧ db_departments s !! tb_department tablet = Some department
      ∧ in_revoked_at installation = None
      ∧ in_status installation ∈ [INSTALLATION_ACTIVE; INSTALLATION_STALE]
      ∧ tb_active tablet = true ∧ tb_status tablet = TABLET_ACTIVE
      ∧ dept_status department = DEPARTMENT_ACTIVE
      ∧ authorized_recipient s (tb_department tablet) (rt_recipient t) email person
      ∧ email_digest email = rt_recipient_email_digest t.

(** What a browser that presents [session] is: the one in which the link of [t] was
    redeemed, active within half an hour. *)
Definition session_of (session : Session) (s : Db) (pk : N) : Prop :=
  ∃ k p session_key, session_portal session = Some k ∧ se_key session = Some session_key
    ∧ db_portal_sessions s !! k = Some p ∧ po_transfer p = pk
    ∧ po_logged_out_at p = None ∧ db_clock s < po_last_seen_at p + SESSION_IDLE
    ∧ po_session_digest p = digest session_key.
End definitions.

(** A program whose parts do not look at the store. *)
Ltac constant :=
  repeat first
    [ apply constant_ret | apply constant_raise | apply constant_guard
    | apply constant_bind; [|intros ?] | case_match
    | lazymatch goal with |- constant ?m => let h := program_head m in unfold h end ].

Section access.
Context `{Hash, Floats, Aesgcm, ReportCrypto, ReportSettings, ReportStorage, PortalSettings}.
Context `{Secrets, MailEnvironment, MailSettings, DeliverySettings, SecretSettings} {HU : SpoolLaws}.

Lemma check_transfer_alive t s x : check_transfer t s = (Val x, s) → grant_alive s t.
Proof.
  unfold check_transfer. destruct (_ || _) eqn:Eo; [discriminate|].
  apply orb_false_elim in Eo as [Er Em%negb_false_iff%bool_decide_eq_true].
  intros E. apply skip_val in E as [(i & Hi & E)|(e & _ & ? & _)]; [|discriminate|preserve].
  apply get_obj_Val in Hi as [Hi _].
  apply skip_val in E as [(tb & Ht & E)|(e & _ & ? & _)]; [|discriminate|preserve].
  apply get_obj_Val in Ht as [Ht _].
  apply skip_val in E as [(d & Hd & E)|(e & _ & ? & _)]; [|discriminate|preserve].
  apply get_obj_Val in Hd as [Hd _]. unfold installation_serves in E.
  destruct (_ && _) eqn:Es in E; [|discriminate]. cbn [negb] in E.
  apply andb_prop in Es as [[[[Ea Erv]%andb_prop Etb]%andb_prop Ets]%andb_prop Eds].
  apply bool_decide_eq_true in Ets, Eds. apply negb_true_iff in Erv.
  apply skip_val in E as [([pid email] & Hr & E)|(e & _ & ? & _)]; [|discriminate|preserve].
  destruct (String.eqb_spec (email_digest email) (rt_recipient_email_digest t)) as [Ed|]; [|discriminate].
  unfold recipient_for, try_except, resolve_report_recipient in Hr.
  pose proof (wlp_resolve_recipient (tb_department tb) (rt_recipient t) s) as W. unfold wlp in W.
  destruct (_resolve_recipient _ _ s) as [[v|e] s1] eqn:Ev.
  2:{ destruct (exn_kind e); cbn in Hr; discriminate Hr. }
  injection Hr as ->. destruct W as (_ & _ & person & Hp). cbn in Hp.
  split_and!; [destruct (rt_revoked_at t); [discriminate Er|reflexivity]|exact Em|].
  exists i, tb, d, email, person. split_and!; auto.
  - destruct (in_revoked_at i); [discriminate Erv|reflexivity].
  - apply orb_true_iff in Ea as [Ea|Ea]; apply bool_decide_eq_true in Ea; rewrite Ea; set_solver.
Qed.

Lemma transaction_files_Val {A} (m : M Db A) s a s' :
  transaction_files m s = (Val a, s') → m s = (Val a, s').
Proof. unfold transaction_files. destruct (m s) as [[b|e] s1]; [auto|discriminate]. Qed.

(** A verified report is the row itself. *)
Lemma load_verified_row row s row' document attachments s' :
  load_verified_payload row s = (Val (row', document, attachments), s') → row' = row.
Proof.
  unfold load_verified_payload. destruct (negb _); [discriminate|]. intros E.
  apply skip_val in E as [(u & _ & E)|(e & _ & ? & _)]; [|discriminate|preserve].
  apply skip_val in E as [(file & _ & E)|(e & _ & ? & _)]; [|discriminate|preserve].
  destruct file as [raw|]; [|discriminate]. destruct (negb _); [discriminate|].
  apply skip_val in E as [(env & _ & E)|(e & _ & ? & _)]; [|discriminate|preserve].
  apply skip_val in E as [(header & _ & E)|(e & _ & ? & _)]; [|discriminate|preserve].
  destruct (negb _); [discriminate|].
  apply skip_val in E as [([[d a] g] & _ & E)|(e & _ & ? & _)]; [|discriminate|preserve].
  destruct (_ && _); [|discriminate]. injection E as <- _ _ _. reflexivity.
Qed.

(** A token that was redeemed opens nothing. *)
Lemma used_token others acquired token s pk t : report_inv s →
  preserves evolves_reports others →
  db_report_transfers s !! pk = Some t → rt_token_digest t = digest token →
  rt_consumed_at t ≠ None → ∃ e, (redeem others acquired token s).1 = Exc e.
Proof.
  intros I Ho Hk Hd Hc. unfold redeem, try_except.
  assert (R : ∃ e s', _redeem others token s = (Exc e, s')).
  { unfold _redeem. pose proof (readonly_token token s) as Rt. unfold bind at 1.
    destruct (token_transfer token s) as [[[pk' row]|e] s1]; cbn in Rt; subst s1; [|eauto].
    unfold bind, meanwhile. destruct (Ho s I) as [I1 Hh]. generalize dependent (others s).2. intros s1 I1 Hh.
    destruct (rh_transfers _ _ Hh pk t Hk) as (t1 & Hk1 & Ei & Ec & _).
    specialize (Ec Hc).
    assert (Et : rt_token_digest t1 = rt_token_digest t) by (injection Ei; auto).
    edestruct (atomic_refused (get_obj db_installations (rt_installation row) ;;;
      redeem_transfer token) s1) as [e E]; [|exists e, s1; exact E].
    apply wlp_skip; [preserve|]. intros i _. eapply wlp_mono; [apply wlp_redeem|].
    intros session s' (pk2 & row2 & kp & Hk2 & Hd2 & Hc2 & _).
    assert (pk2 = pk) as ->.
    { eapply (ti_token _ (ri_transfers _ I1)); [exact Hk2|exact Hk1|congruence]. }
    assert (row2 = t1) as -> by congruence. congruence. }
  destruct R as (e & s' & ->). unfold bind, reraise. destruct (exn_kind e); cbn; try (eexists; reflexivity).
  destruct (audit_failed_login _ _ _ s') as [[?|?] ?]; eexists; reflexivity.
Qed.

Lemma redeem_val others acquired token s session s1 :
  redeem others acquired token s = (Val session, s1) →
  redeem_transfer token (others s).2 = (Val session, s1).
Proof.
  unfold redeem, try_except. destruct (_redeem others token s) as [[v|e] s'] eqn:E.
  - intros [= -> ->]. unfold _redeem in E.
    apply skip_val in E as [([pk row] & _ & E)|(e & _ & ? & _)]; [|discriminate|preserve].
    unfold bind at 1, meanwhile in E. apply atomic_Val in E.
    apply skip_val in E as [(i & _ & E)|(e & _ & ? & _)]; [exact E|discriminate|preserve].
  - destruct (exn_kind e); try discriminate. unfold bind, reraise.
    destruct (audit_failed_login _ _ _ s') as [[?|?] ?]; discriminate.
Qed.

(** C15: A link opens one portal session, once.  When a link is redeemed, the grant it
    belongs to is alive and was not redeemed before; whatever happens later, redeeming the
    same link fails, and the session of the browser that redeemed it stays the only one of
    the grant. *)
Theorem links_open_once others acquired token s session s1 s2 :
  report_inv s → preserves evolves_reports others →
  redeem others acquired token s = (Val session, s1) → rtc report_step s1 s2 →
  (∀ others2 acquired2, preserves evolves_reports others2 →
     ∃ e, (redeem others2 acquired2 token s2).1 = Exc e)
  ∧ ∃ pk t k session_key, db_report_transfers (others s).2 !! pk = Some t
      ∧ rt_token_digest t = digest token ∧ rt_consumed_at t = None ∧ grant_alive (others s).2 t
      ∧ session = mkSession (Some session_key) (Some (str_uuid k))
      ∧ ∀ k' p, db_portal_sessions s2 !! k' = Some p → po_transfer p = pk →
          k' = k ∧ po_session_digest p = digest session_key.
Proof.
  intros I Ho E Hr. pose proof (report_redeem others acquired token Ho s I) as [I1 _].
  rewrite E in I1. cbn in I1. apply redeem_val in E.
  pose proof (wlp_val _ _ _ _ _ E (wlp_redeem token _))
    as (pk & t & kp & Hk & Hd & Hc & _ & _ & [x Hx] & -> & Es).
  injection Es as _ _ ET EP _ _. cbn in ET, EP.
  destruct (report_reachable _ _ Hr I1) as [I2 [_ _ HT HP]]. split.
  - intros others2 acquired2 Ho2.
    assert (Ht : db_report_transfers s1 !! pk = Some (t <| rt_consumed_at := Some (db_clock (others s).2) |>))
      by (rewrite ET; apply lookup_insert_eq).
    destruct (HT _ _ Ht) as (t2 & Ht2 & Ei & Ec & _).
    apply (used_token _ _ _ _ pk t2 I2 Ho2 Ht2).
    + transitivity (rt_token_digest t); [injection Ei; auto|exact Hd].
    + rewrite Ec by discriminate. discriminate.
  - exists pk, t, kp, (new_session_key (others s).2).
    split_and!; try assumption; [eapply check_transfer_alive, Hx|reflexivity|].
    intros k' p Hp Et. set (p0 := mkReportPortalSession pk (digest (new_session_key (others s).2)) (db_clock (others s).2) None) in *.
    assert (Hp0 : db_portal_sessions s1 !! kp = Some p0) by (rewrite EP; apply lookup_insert_eq).
    destruct (HP _ _ Hp0) as (p2 & Hp2 & Et2 & Ed2 & _).
    assert (k' = kp) as -> by (eapply (pi_one _ _ (ri_portals _ I2)); [exact Hp|exact Hp2|rewrite Et, Et2; reflexivity]).
    split; [reflexivity|]. assert (p = p2) as -> by congruence. exact Ed2.
Qed.

(** C7: The portal shows what the link gives, and nothing else.  A browser gets the reports
    of a grant only in the session in which the link was redeemed, while that session is in
    use and the grant alive: not revoked, its tablet in service, its recipient authorized
    under the mailbox the link was sent to.  Every report it gets is one of the grant, for
    its recipient and from its tablet, not purged and before its deadline; a report that is
    opened is the one that was asked for, and its file is verified. *)
Theorem portal_opens_granted_reports session s :
  (∀ report_id pk t reports s', portal_context session report_id s = (Val (pk, t, reports), s') →
    session_of session s pk ∧ db_report_transfers s !! pk = Some t ∧ rt_consumed_at t ≠ None
    ∧ grant_alive s t
    ∧ (∀ r, r ∈ reports → report_open s t r
         ∧ match report_id with Some i => rs_report_id r.2 = i | None => True end))
  ∧ (∀ i pk row document attachments s',
      load_portal_submission session i s = (Val (pk, row, document, attachments), s') →
      ∃ tpk t, session_of session s tpk ∧ db_report_transfers s !! tpk = Some t ∧ grant_alive s t
        ∧ report_open s t (pk, row) ∧ rs_report_id row = i
        ∧ load_verified_payload row s' = (Val (row, document, attachments), s')).
Proof.
  assert (P : ∀ report_id pk t reports s', portal_context session report_id s = (Val (pk, t, reports), s') →
    (session_of session s pk ∧ db_report_transfers s !! pk = Some t ∧ rt_consumed_at t ≠ None
    ∧ grant_alive s t
    ∧ (∀ r, r ∈ reports → report_open s t r
         ∧ match report_id with Some i => rs_report_id r.2 = i | None => True end))
    ∧ db_report_submissions s' = db_report_submissions s).
  { intros report_id pk t reports s' E.
    destruct (wlp_val _ _ _ _ _ E (wlp_portal session report_id s))
      as ((k & p & key & A1 & A2 & A3 & A4 & A5 & A6 & A7 & A8 & A9 & x & A10) & B & _ & ? & ? & _ & ->).
    split; [|reflexivity]. split_and!; auto; [exists k, p, key; split_and!; auto|].
    eapply check_transfer_alive, A10. }
  split; [intros; eapply P; eassumption|].
  intros i pk row document attachments s' E. unfold load_portal_submission in E.
  apply transaction_files_Val in E.
  apply bind_Val in E as ([[tpk t] l] & s1 & Ep & E).
  destruct (P _ _ _ _ _ Ep) as [(A & B & _ & C & D) Es]. destruct l as [|[k r] l]; [discriminate E|].
  destruct (D (k, r) ltac:(left)) as [Do Di].
  apply skip_val in E as [(row0 & Hr & E)|(e & _ & ? & _)]; [|discriminate|preserve].
  apply get_obj_Val in Hr as [Hr _]. rewrite Es in Hr.
  assert (row0 = r) as -> by (destruct Do as (_ & Hk & _); cbn in Hk; congruence).
  apply skip_val in E as [(d & _ & E)|(e & _ & ? & _)]; [|discriminate|preserve].
  apply skip_val in E as [(now & _ & E)|(e & _ & ? & _)]; [|discriminate|preserve].
  destruct (_ || _); [discriminate E|].
  apply skip_val in E as [([[row1 doc] att] & Hl & E)|(e & _ & ? & _)]; [|discriminate|preserve].
  injection E as <- <- <- <- <-. pose proof (load_verified_row _ _ _ _ _ _ Hl) as ->.
  exists tpk, t. split_and!; auto.
Qed.

(** C31: Access is unambiguous.  In every store that is reached from one without reports a
    link belongs to one grant, a tablet has one grant for each request and one that is not
    revoked for each recipient, a link can be redeemed for one hour at most, and a grant has
    at most one portal session, and only when its link was redeemed. *)
Theorem grants_are_unambiguous s0 s :
  db_report_submissions s0 = ∅ → db_report_transfers s0 = ∅ → db_portal_sessions s0 = ∅ →
  db_receipts s0 = ∅ → db_spool s0 = ∅ → rtc report_step s0 s →
  (∀ k k' t t', db_report_transfers s !! k = Some t → db_report_transfers s !! k' = Some t' →
     rt_token_digest t = rt_token_digest t'
     ∨ rt_installation t = rt_installation t'
       ∧ (rt_transfer_request_id t = rt_transfer_request_id t'
          ∨ rt_recipient t = rt_recipient t' ∧ rt_revoked_at t = None ∧ rt_revoked_at t' = None) →
     k = k')
  ∧ (∀ k t, db_report_transfers s !! k = Some t →
       rt_token_expires_at t = rt_issued_at t + MICROSECONDS_PER_HOUR)
  ∧ (∀ k p, db_portal_sessions s !! k = Some p →
       (∃ t, db_report_transfers s !! po_transfer p = Some t ∧ rt_consumed_at t ≠ None)
       ∧ ∀ k' p', db_portal_sessions s !! k' = Some p' → po_transfer p' = po_transfer p → k' = k).
Proof.
  intros E1 E2 E3 E4 E5 Hr.
  destruct (report_reachable _ _ Hr (no_reports s0 E1 E2 E3 E4 E5)) as [[_ _ _ [Tt Tr Tc Th] [Pr Po]] _].
  split_and!; [|exact Th|].
  - intros k k' t t' Hk Hk' [E|[E [E'|(E' & N1 & N2)]]]; eauto.
  - intros k p Hk. split; [eauto|]. intros k' p' Hk' E. eauto.
Qed.
End access.


(** ** Submission *)

Section submission.
Context `{Hash, Floats, Aesgcm, ReportCrypto, ReportSettings, ReportStorage, PortalSettings}.
Context `{Secrets, MailEnvironment, MailSettings, DeliverySettings, SecretSettings} {HU : SpoolLaws}.

(** How a submission ends; [s1] is the store when its transaction begins. *)
Lemma submit_cases others iid envelope s r s' :
  report_inv s → preserves evolves_reports others → submit others iid envelope s = (r, s') →
  let s1 := (others s).2 in
  match r with
  | Exc _ => s' = s ∨ s' = s1
  | Val (answer, created) => ∃ header v, inspect_envelope envelope s = (Val header, s)
      ∧ str_is "installation_id" (str_uuid iid) header = true
      ∧ accepted iid envelope header (json_dumps envelope) (sha256_hex (json_dumps envelope)) s1 v s'
      ∧ match v with
        | inl j => answer = j ∧ created = false
        | inr (pk, row) => created = true ∧ result pk row s' = (Val answer, s')
        end
  end.
Proof.
  intros I Ho E. cbv zeta. unfold submit in E.
  apply skip_val in E as [(header & Eh & E)|(e & _ & -> & ->)]; [|auto|preserve].
  apply skip_val in E as [([[i t] [vid v]] & _ & E)|(e & _ & -> & ->)]; [|auto|preserve].
  destruct (_ && _) eqn:Es; [|cbn in E; injection E as <- <-; auto].
  change (bind (ret tt) ?k s) with (k tt s) in E. cbv beta zeta in E.
  destruct (_ <? _); [cbn in E; injection E as <- <-; auto|].
  change (bind (ret tt) ?k s) with (k tt s) in E. cbv beta in E.
  change (bind (meanwhile others) ?k s) with (k tt (others s).2) in E. cbv beta in E.
  apply andb_prop in Es as [Es _]. destruct (Ho s I) as [I1 _]. revert I1 E.
  generalize (others s).2. intros s1 I1 E. pose proof (report_accept iid envelope header (json_dumps envelope) s1 I1) as Ha.
  unfold bind at 1 in E. unfold transaction_files in *.
  destruct (accept_submission _ _ _ _ _ s1) as [[v1|x] s2] eqn:Ea; cbn in Ha;
    apply accept_cases in Ea; try exact (ri_room _ I1).
  - destruct v1 as [j|[pk row]].
    + injection E as <- <-. exists header, (inl j). split_and!; auto.
    + destruct Ha as [I2 _]. destruct (result_total s2 pk row I2) as [j Hj].
      unfold try_except in E. rewrite (bind_run _ _ _ _ _ Hj) in E. injection E as <- <-.
      exists header, (inr (pk, row)). split_and!; auto.
  - injection E as <- <-. right. change (with_files s1 s2 = s1). apply with_files_same, Ea.
Qed.

(** The event of an accepted report. *)
Definition acceptance_event (installation : AppInstallation) (row : ReportSubmission) : AuditEvent :=
  mkAuditEvent "report_transfer.submission_accepted" None
    (Some (in_installation_uuid installation)) (Some (rs_department row)) (Some (rs_station row))
    "report_submission" (Some (rs_submission_id row))
    [("report_id", json_uuid (rs_report_id row)); ("installation_id", json_uuid (rs_installation row));
     ("accepted_at", JStr (isoformat (rs_created_at row)))] (rs_created_at row).

(** A row in the table rules out that the same tablet adds another one. *)
Lemma accepted_again iid envelope header raw digest s v s' pk row :
  accepted iid envelope header raw digest s v s' → db_report_submissions s !! pk = Some row →
  rs_installation row = iid → rs_submission_id row = header_uuid "submission_id" header →
  ∃ j, v = inl j.
Proof.
  intros [|? ? ? ? ? ? ? ? ? ? ? ? ? ? Hno] Hk Hi Hs; [eauto|]. exfalso.
  specialize (Hno pk row Hk). unfold same_submission in Hno.
  rewrite Hi, Hs, !N.eqb_refl in Hno. discriminate Hno.
Qed.

(** The header does not depend on the store. *)
Lemma header_known envelope s s' h : inspect_envelope envelope s = (Val h, s) →
  inspect_envelope envelope s' = (Val h, s').
Proof.
  assert (C : constant (inspect_envelope envelope)) by constant.
  destruct C as [o C]. rewrite !C. intros [= ->]. reflexivity.
Qed.

(** C16: A package is accepted once.  A submission that fails has changed nothing.  One that
    is answered as new has stored the package under a new name and added one row, for the
    identities of its header, with the digest of the package and at most seven days to live,
    and one event; the tablet had no row with the submission's or the report's number.  Any
    other answer is about the row that the tablet's earlier submission of the very same
    package has made, and changes nothing.  From then on the package is never new again. *)
Theorem packages_are_accepted_once others iid envelope s r s' :
  report_inv s → preserves evolves_reports others → submit others iid envelope s = (r, s') →
  let s1 := (others s).2 in
  let package := json_dumps envelope in
  match r with
  | Exc _ => s' = s ∨ s' = s1
  | Val (answer, true) => ∃ header pk row installation,
      inspect_envelope envelope s = (Val header, s)
      ∧ db_report_submissions s1 !! pk = None ∧ db_spool s1 !! rs_payload_key row = None
      ∧ (∀ k r, db_report_submissions s1 !! k = Some r → same_submission iid header r = false)
      ∧ rs_installation row = iid ∧ rs_submission_id row = header_uuid "submission_id" header
      ∧ rs_report_id row = header_uuid "report_id" header
      ∧ rs_recipient row = header_uuid "recipient_personnel_id" header
      ∧ rs_payload_digest row = sha256_hex package ∧ ready row ∧ rs_created_at row = db_clock s1
      ∧ rs_expires_at row ≤ rs_created_at row + 7 * MICROSECONDS_PER_DAY
      ∧ s' = s1 <| db_spool ::= <[rs_payload_key row := package]> |>
                <| db_report_submissions ::= <[pk := row]> |>
                <| db_audit ::= λ l, l ++ [acceptance_event installation row] |>
      ∧ result pk row s' = (Val answer, s')
      ∧ ∀ others2 s2 a c s3, rtc report_step s' s2 → preserves evolves_reports others2 →
          submit others2 iid envelope s2 = (Val (a, c), s3) → c = false
  | Val (answer, false) => s' = s1 ∧ ∃ header pk row,
      inspect_envelope envelope s = (Val header, s) ∧ db_report_submissions s1 !! pk = Some row
      ∧ rs_installation row = iid ∧ rs_submission_id row = header_uuid "submission_id" header
      ∧ rs_payload_digest row = sha256_hex package ∧ result pk row s1 = (Val answer, s1)
  end.
Proof.
  intros I Ho E s1 package. pose proof (submit_cases _ _ _ _ _ _ I Ho E) as C. cbv zeta in C.
  fold s1 package in C. destruct (Ho s I) as [I1 _]. fold s1 in I1.
  pose proof (report_submit others iid envelope Ho s I) as [I' _]. rewrite E in I'. cbn in I'.
  destruct r as [[answer created]|e]; [|exact C].
  destruct C as (header & v & Eh & _ & Ha & Hv).
  destruct Ha as [pk row j ? ? ? ? Hk Hi Hs Hd Hr|
    pk installation tablet vid vehicle rc document attachments dd row s3 _ _ _ Hno _ _ Hpk Hrow _ Hw Hs'].
  { destruct Hv as [-> ->]. split; [reflexivity|]. exists header, pk, row. split_and!; auto. }
  destruct Hv as [-> Hr]. exists header, pk, row, installation.
  assert (Hok : row_ok (db_spool s3) row).
  { eapply si_row; [apply (ri_submissions _ I')|]. rewrite Hs'. cbn. apply lookup_insert_eq. }
  split_and!; try (rewrite Hrow; reflexivity); auto.
  - rewrite Hrow. apply uuid4_fresh, (ri_room _ I1).
  - apply Hok.
  - rewrite Hs'. rewrite Hrow. reflexivity.
  - intros others2 s2 a c s4 Hst Ho2 E2. destruct (report_reachable _ _ Hst I') as [I2 Hh].
    pose proof (submit_cases _ _ _ _ _ _ I2 Ho2 E2) as C2. cbv zeta in C2.
    destruct C2 as (header2 & v2 & Eh2 & _ & Ha2 & Hv2).
    apply (header_known _ _ s2) in Eh. assert (header2 = header) as -> by congruence.
    assert (Hrow1 : db_report_submissions s3 !! pk = Some row) by (rewrite Hs'; cbn; apply lookup_insert_eq).
    destruct (rh_submissions _ _ Hh _ _ Hrow1) as (row2 & Hrow2 & Ei2 & _).
    destruct (rh_submissions _ _ (proj2 (Ho2 s2 I2)) _ _ Hrow2) as (row3 & Hrow3 & Ei3 & _).
    assert (Ei : submission_identity row3 = submission_identity row) by congruence.
    assert (Ea : rs_installation row3 = rs_installation row) by (injection Ei; auto).
    assert (Eb : rs_submission_id row3 = rs_submission_id row) by (injection Ei; auto).
    destruct (accepted_again _ _ _ _ _ _ _ _ pk row3 Ha2 Hrow3) as [j ->];
      [rewrite Ea, Hrow; reflexivity|rewrite Eb, Hrow; reflexivity|].
    apply Hv2.
Qed.
End submission.


(** ** Reading an accepted report *)

(** Sorting the members of an object does not change what is found under a key. *)
Lemma assoc_elem {A} k (l : list (string * A)) a : NoDup l.*1 →
  assoc k l = Some a ↔ (k, a) ∈ l.
Proof.
  induction l as [|[k' b] l IH]; cbn; intros Hl.
  - split; [discriminate|intros X; inversion X].
  - apply NoDup_cons in Hl as [Hn Hl]. rewrite elem_of_cons.
    destruct (String.eqb_spec k' k) as [->|Hne].
    + split; [intros [= ->]; auto|]. intros [[= ->]|Hin]; [reflexivity|]. destruct Hn.
      apply list_elem_of_fmap. exists (k, a). auto.
    + rewrite IH by exact Hl. split; [auto|]. intros [[= -> ->]|Hin]; [congruence|exact Hin].
Qed.

Lemma assoc_permutation {A} k (l l' : list (string * A)) : NoDup l.*1 → l ≡ₚ l' →
  assoc k l = assoc k l'.
Proof.
  intros Hl P. assert (Hl' : NoDup l'.*1) by (rewrite <- P; exact Hl).
  destruct (assoc k l') as [a|] eqn:E.
  - apply assoc_elem in E; [|exact Hl']. apply assoc_elem; [exact Hl|]. rewrite P. exact E.
  - destruct (assoc k l) as [a|] eqn:E'; [|reflexivity]. apply assoc_elem in E'; [|exact Hl].
    rewrite P in E'. apply assoc_elem in E'; [congruence|exact Hl'].
Qed.

Lemma assoc_map {A B} (f : A → B) k (l : list (string * A)) :
  assoc k (map (λ kv, (kv.1, f kv.2)) l) = f <$> assoc k l.
Proof. induction l as [|[k' a] l IH]; [reflexivity|]. cbn. destruct (String.eqb k' k); auto. Qed.

Lemma keys_map {A B} (f : A → B) (l : list (string * A)) :
  (map (λ kv, (kv.1, f kv.2)) l).*1 = l.*1.
Proof. induction l as [|[k a] l IH]; [reflexivity|]. cbn. f_equal. exact IH. Qed.

Lemma item_sorted k l : NoDup l.*1 → item k (sort_keys (JObj l)) = sort_keys (item k (JObj l)).
Proof.
  intros Hl. unfold item, jget. cbn [sort_keys].
  rewrite (assoc_permutation k _ (map (λ kv, (kv.1, sort_keys kv.2)) l)).
  - rewrite assoc_map. destruct (assoc k l); reflexivity.
  - rewrite sort_by_Permutation, keys_map. exact Hl.
  - apply sort_by_Permutation.
Qed.

Lemma forallb_permutation {A} (P : A → bool) l l' : l ≡ₚ l' → forallb P l = forallb P l'.
Proof. induction 1; cbn; [reflexivity|congruence|rewrite !andb_assoc, (andb_comm (P y)); reflexivity|congruence]. Qed.

Lemma existsb_permutation {A} (P : A → bool) l l' : l ≡ₚ l' → existsb P l = existsb P l'.
Proof. induction 1; cbn; [reflexivity|congruence|rewrite !orb_assoc, (orb_comm (P y)); reflexivity|congruence]. Qed.

Lemma keys_are_sorted ks l : keys_are ks (sort_keys (JObj l)) = keys_are ks (JObj l).
Proof.
  unfold keys_are, has_keys. cbn [sort_keys jkeys].
  assert (P : (sort_by fst (map (λ kv, (kv.1, sort_keys kv.2)) l)).*1 ≡ₚ l.*1)
    by (rewrite sort_by_Permutation, keys_map; reflexivity).
  f_equal; [|apply forallb_permutation, P].
  unfold mem_str. induction ks as [|k ks IH]; [reflexivity|]. cbn [forallb].
  rewrite IH. f_equal. apply existsb_permutation, P.
Qed.

(** An identifier is the canonical form of what it stands for. *)
Lemma identifier_text k header n : identifier (item k header) = Some n →
  header_uuid k header = n ∧ str_is k (str_uuid n) header = true ∧ str_of (item k header) = str_uuid n.
Proof.
  unfold header_uuid, str_is. intros E. rewrite E. split; [reflexivity|]. unfold identifier in E.
  destruct (item k header) as [| | | |v| |]; try discriminate E.
  destruct (parse_uuid v) as [m|]; [|discriminate E].
  destruct (String.eqb_spec (str_uuid m) v) as [Em|]; [|discriminate E]. injection E as ->.
  rewrite Em, String.eqb_refl. auto.
Qed.

Section reading.
Context `{Hash, Floats, Aesgcm, ReportCrypto, ReportSettings, ReportStorage, PortalSettings}.
Context `{Secrets, MailEnvironment, MailSettings, DeliverySettings, SecretSettings} {HU : SpoolLaws}.

Lemma constant_fold_m {A B} (f : A → B → M Db A) l : (∀ a b, constant (f a b)) →
  ∀ a, constant (fold_m f a l).
Proof.
  intros Hf. induction l as [|b l IH]; intros a; cbn [fold_m]; [apply constant_ret|].
  apply constant_bind; [apply Hf|exact IH].
Qed.

Lemma constant_decrypt_report envelope header : constant (decrypt_and_validate envelope header).
Proof.
  unfold decrypt_and_validate.
  assert (Hc : ∀ seen i, constant (check_attachment header seen i)) by (intros; constant).
  apply constant_bind; [constant|]. intros keys. destruct (assoc _ keys); [|constant].
  apply constant_bind; [constant|]. intros raw. apply constant_bind; [constant|]. intros package.
  apply constant_bind; [constant|intros _]. apply constant_bind; [constant|]. intros text.
  apply constant_bind; [constant|]. intros document. apply constant_bind; [constant|intros _].
  destruct (item "attachments" package); try (solve [constant]).
  destruct (item "attachment_ids" _); try (solve [constant]).
  repeat (apply constant_bind; [first [apply constant_fold_m, Hc|constant]|intros ?]). constant.
Qed.

(** What was decrypted is about the report of the header. *)
Lemma decrypted_report envelope header s document attachments d :
  decrypt_and_validate envelope header s = (Val (document, attachments, d), s) →
  str_is "report_id" (str_of (item "report_id" header)) document = true.
Proof.
  assert (W : wlp (decrypt_and_validate envelope header) s (λ v _,
    str_is "report_id" (str_of (item "report_id" header)) v.1.1 = true)).
  { unfold decrypt_and_validate. apply wlp_skip; [preserve|]. intros keys _.
    destruct (assoc _ keys); [|exact I].
    apply wlp_skip; [read_only|]. intros raw _. apply wlp_skip; [read_only|]. intros package _.
    apply wlp_skip; [preserve|]. intros _ _. apply wlp_skip; [preserve|]. intros text _.
    apply wlp_skip; [read_only|]. intros document' _. apply wlp_skip; [preserve|]. intros _ _.
    destruct (item "attachments" package); try exact I.
    destruct (item "attachment_ids" _); try exact I.
    apply wlp_skip; [preserve|]. intros _ _. apply wlp_skip; [preserve|]. intros _ _.
    apply wlp_skip; [apply preserves_fold_m; [exact _|intros; read_only]|]. intros seen _.
    apply wlp_skip; [preserve|]. intros ids _. apply wlp_skip; [preserve|]. intros _ _.
    apply wlp_skip; [preserve|]. intros _ _. apply wlp_skip; [read_only|]. intros digest _.
    unfold require. destruct (str_is _ _ document') eqn:E; [|exact I].
    apply wlp_bind, wlp_ret, wlp_ret. exact E. }
  intros E. exact (wlp_val _ _ _ _ _ E W).
Qed.

(** What an inspected envelope is. *)
Lemma inspected envelope s h : inspect_envelope envelope s = (Val h, s) →
  (∃ l, envelope = JObj l) ∧ keys_are JWE_FIELDS envelope = true
  ∧ (∀ f, f ∈ JWE_FIELDS → is_str (item f envelope) = true) ∧ header_valid h = true.
Proof.
  unfold inspect_envelope, require. destruct (keys_are _ _) eqn:Ek; [|discriminate].
  change (bind (ret tt) ?k s) with (k tt s). cbv beta. destruct (forallb _ _) eqn:Ef; [|discriminate].
  change (bind (ret tt) ?k s) with (k tt s). cbv beta. destruct (Nat.leb _ _); [|discriminate].
  change (bind (ret tt) ?k s) with (k tt s). cbv beta. intros E.
  apply skip_val in E as [(raw & _ & E)|(e & _ & ? & _)]; [|discriminate|preserve].
  apply skip_val in E as [(header & _ & E)|(e & _ & ? & _)]; [|discriminate|preserve].
  destruct (header_valid header) eqn:Eh; [|discriminate E]. injection E as <-. split_and!; auto.
  - unfold keys_are, has_keys in Ek. destruct envelope; try discriminate Ek. eauto.
  - intros f Hf. rewrite forallb_forall in Ef. apply Ef, list_elem_of_In, Hf.
Qed.

(** The canonical envelope says the same as the one that came. *)
Lemma canonical_envelope envelope s h header : NoDup (jkeys envelope) →
  inspect_envelope envelope s = (Val h, s) →
  printable envelope = true
  ∧ inspect_envelope (sort_keys envelope) = inspect_envelope envelope
  ∧ decrypt_and_validate (sort_keys envelope) header = decrypt_and_validate envelope header.
Proof.
  intros Hd E. destruct (inspected _ _ _ E) as ([l ->] & Hk & Hs & _). cbn [jkeys] in Hd.
  assert (Hi : ∀ f, f ∈ JWE_FIELDS → item f (sort_keys (JObj l)) = item f (JObj l)).
  { intros f Hf. rewrite item_sorted by exact Hd. specialize (Hs f Hf).
    destruct (item f (JObj l)); try discriminate Hs. reflexivity. }
  split_and!.
  - cbn [printable]. rewrite bool_decide_eq_true_2 by exact Hd. apply forallb_forall.
    intros [k v] Hin%list_elem_of_In. cbn [snd]. unfold keys_are in Hk.
    apply andb_prop in Hk as [_ Hk]. rewrite forallb_forall in Hk. cbn [jkeys] in Hk.
    assert (Hf : k ∈ JWE_FIELDS).
    { apply mem_str_In, Hk, list_elem_of_In, list_elem_of_fmap. exists (k, v). auto. }
    specialize (Hs k Hf). unfold item, jget in Hs.
    rewrite (proj2 (assoc_elem k l v Hd) Hin) in Hs. cbn in Hs. destruct v; try discriminate Hs. reflexivity.
  - unfold inspect_envelope. rewrite keys_are_sorted. unfold JWE_FIELDS in *. cbn [forallb].
    rewrite !Hi by set_solver. reflexivity.
  - unfold decrypt_and_validate, unwrap_package. rewrite !Hi by set_solver. reflexivity.
Qed.

(** The header that was accepted belongs to the row. *)
Lemma accepted_header header row iid tablet vehicle : header_valid header = true →
  str_is "installation_id" (str_uuid iid) header = true →
  scope_matches header (tb_department tablet) (ve_station vehicle) = true →
  rs_installation row = iid → rs_department row = tb_department tablet →
  rs_station row = ve_station vehicle → rs_recipient row = header_uuid "recipient_personnel_id" header →
  rs_submission_id row = header_uuid "submission_id" header →
  rs_report_id row = header_uuid "report_id" header →
  header_of_row header row = true ∧ str_of (item "report_id" header) = str_uuid (rs_report_id row).
Proof.
  intros Hv Hi Hs E1 E2 E3 E4 E5 E6.
  assert (Hid : ∀ f, f ∈ ["recipient_personnel_id"; "submission_id"; "report_id"] →
    ∃ n, identifier (item f header) = Some n).
  { intros f Hf. unfold header_valid in Hv. apply andb_prop in Hv as [_ Hv].
    rewrite forallb_forall in Hv. specialize (Hv f). unfold is_identifier in Hv.
    destruct (identifier (item f header)) as [n|]; [eauto|]. cbn [opt_true] in Hv.
    discriminate Hv. apply list_elem_of_In. set_solver. }
  destruct (Hid "recipient_personnel_id") as [n1 I1]; [set_solver|].
  destruct (Hid "submission_id") as [n2 I2]; [set_solver|].
  destruct (Hid "report_id") as [n3 I3]; [set_solver|].
  apply identifier_text in I1 as (A1 & B1 & _), I2 as (A2 & B2 & _), I3 as (A3 & B3 & C3).
  unfold scope_matches in Hs. apply andb_prop in Hs as [Hs1 Hs2].
  unfold header_of_row. rewrite E1, E2, E3, E4, E5, E6, A1, A2, A3, Hi, Hs1, Hs2, B1, B2, B3. auto.
Qed.

(** A package in the spool that its row describes can be loaded. *)
Lemma payload_reads envelope header row s document attachments :
  printable envelope = true → rs_document_schema_version row = Some 1 →
  payload_path (rs_payload_key row) s = (Val tt, s) →
  db_spool s !! rs_payload_key row = Some (json_dumps envelope) →
  rs_payload_digest row = sha256_hex (json_dumps envelope) →
  inspect_envelope (sort_keys envelope) s = (Val header, s) → header_of_row header row = true →
  decrypt_and_validate (sort_keys envelope) header s
    = (Val (document, attachments, rs_document_digest row), s) →
  str_is "report_id" (str_uuid (rs_report_id row)) document = true →
  load_verified_payload row s = (Val (row, document, attachments), s).
Proof.
  intros Hp Hv Hpath Hfile Hdig Hi Hh Hd Hid. unfold load_verified_payload.
  rewrite Hv, bool_decide_eq_true_2 by reflexivity. cbn [negb].
  rewrite (bind_run _ _ _ _ _ Hpath). change (bind (gets ?f) ?k s) with (k (f s) s). cbv beta.
  rewrite Hfile, Hdig, String.eqb_refl. cbn [negb].
  unfold parse_json at 1. rewrite (parse_canonical envelope Hp).
  cbn [or_invalid]. change (bind (ret ?a) ?k s) with (k a s). cbv beta.
  rewrite (bind_run _ _ _ _ _ Hi), Hh. cbn [negb].
  rewrite (bind_run _ _ _ _ _ Hd). cbn beta iota. rewrite String.eqb_refl, Hid. reflexivity.
Qed.

(** C21: An accepted report can be read.  A package that was accepted is, as long as its row
    is not purged, and whatever else happens, loaded from the spool with the very document
    and attachments that were validated when it was accepted; the row still says what it said
    then.  The dictionary [envelope] has every key once. *)
Theorem accepted_reports_stay_readable others iid envelope s answer s1 s2 :
  report_inv s → preserves evolves_reports others → NoDup (jkeys envelope) →
  submit others iid envelope s = (Val (answer, true), s1) → rtc report_step s1 s2 →
  ∃ header document attachments pk row row2,
    inspect_envelope envelope s = (Val header, s)
    ∧ decrypt_and_validate envelope header s = (Val (document, attachments, rs_document_digest row), s)
    ∧ db_report_submissions s1 !! pk = Some row ∧ ready row
    ∧ db_report_submissions s2 !! pk = Some row2
    ∧ submission_identity row2 = submission_identity row
    ∧ (ready row2 → load_verified_payload row2 s2 = (Val (row2, document, attachments), s2)).
Proof.
  intros I Ho Hd E Hr. pose proof (submit_cases _ _ _ _ _ _ I Ho E) as C. cbv zeta in C.
  pose proof (report_submit others iid envelope Ho s I) as [I1 _]. rewrite E in I1. cbn in I1.
  destruct C as (header & v & Eh & Hinst & Ha & Hv).
  destruct (inspected _ _ _ Eh) as (_ & _ & _ & Hvalid).
  destruct (canonical_envelope envelope s header header Hd Eh) as (Hp & Ci & Cd).
  destruct Ha as [? ? ? ? ? ? ? ? ? ? ? ?|
    pk installation tablet vid vehicle rc document attachments dd row s3 Hauth Hscope _ Hno Hdec _ Hpk Hrow Hpath Hw Hs'];
    [destruct Hv; discriminate|].
  assert (Cdec : constant (decrypt_and_validate envelope header)) by apply constant_decrypt_report.
  destruct (report_reachable _ _ Hr I1) as [I2 Hh].
  assert (Hrow1 : db_report_submissions s3 !! pk = Some row) by (rewrite Hs'; cbn; apply lookup_insert_eq).
  destruct (rh_submissions _ _ Hh _ _ Hrow1) as (row2 & Hrow2 & Ei & Hkept).
  assert (Hpath2 : payload_path (rs_payload_key row2) s2 = (Val tt, s2) ∨ ¬ ready row2).
  { destruct (decide (ready row2)) as [Hrd|]; [left|right; assumption].
    destruct (Hkept Hrd) as (_ & -> & _).
    assert (Cp : constant (payload_path (rs_payload_key row))) by constant.
    destruct Cp as [o Cp]. rewrite Cp in Hpath |- *. congruence. }
  destruct Cdec as [o Cdec]. rewrite Cdec in Hdec. injection Hdec as ->.
  exists header, document, attachments, pk, row, row2. split_and!; auto; [rewrite Cdec, Hrow; reflexivity|..].
  { rewrite Hrow. reflexivity. }
  intros Hrd. destruct (Hkept Hrd) as (_ & Ek & Ef & _). destruct Hpath2 as [Hpath2|]; [|contradiction].
  pose proof Ei as Ei2. rewrite Hrow in Ei2. injection Ei2 as R1 R2 R3 R4 R5 R6 R7 R8 R9 R10 R11.
  destruct (accepted_header header row2 iid tablet vehicle Hvalid Hinst Hscope) as [Hhead Hrep];
    try assumption.
  assert (Hfile : db_spool s3 !! rs_payload_key row = Some (json_dumps envelope))
    by (rewrite Hs'; cbn; apply lookup_insert_eq).
  apply (payload_reads envelope header); auto.
  - rewrite Ek, Ef. exact Hfile.
  - rewrite Ci. exact (header_known _ _ s2 _ Eh).
  - rewrite Cd, Cdec. congruence.
  - rewrite <- Hrep. exact (decrypted_report _ _ s _ _ _ (Cdec s)).
Qed.
End reading.


(** ** Expiry *)

Section expiry.
Context `{Hash, Floats, Aesgcm, ReportCrypto, ReportSettings, ReportStorage, PortalSettings}.
Context `{Secrets, MailEnvironment, MailSettings, DeliverySettings, SecretSettings} {HU : SpoolLaws}.

(** An expired report is not loaded for its tablet. *)
Lemma expired_not_loaded s pk row : report_inv s → db_report_submissions s !! pk = Some row →
  (ready row → deadline (db_receipts s) pk row ≤ db_clock s) →
  ∃ e, (load_submission (rs_installation row) (rs_submission_id row) s).1 = Exc e.
Proof.
  intros I Hk He. destruct (load_submission _ _ s) as [[v|e] s'] eqn:E; [|eexists; reflexivity].
  exfalso. unfold load_submission in E. apply transaction_files_Val in E.
  apply skip_val in E as [([[i t] [vid ve]] & _ & E)|(e & _ & ? & _)]; [|discriminate|preserve].
  apply skip_val in E as [(found & Ef & E)|(e & _ & ? & _)]; [|discriminate|preserve].
  destruct found as [[k r]|]; [|discriminate E]. unfold first_where, gets in Ef. injection Ef as Ef.
  apply order_by_head_Some in Ef as [Hin _]. apply rows_elem in Hin as [Hr Hq].
  apply andb_prop in Hq as [[[Hi%N.eqb_eq Hs%N.eqb_eq]%andb_prop _]%andb_prop _].
  assert (k = pk) as -> by (eapply (si_identity _ _ (ri_submissions _ I)); eauto).
  assert (r = row) as -> by congruence.
  rewrite (bind_run _ _ _ _ _ (effective_expiry_total s pk row I)) in E.
  change (bind timezone_now ?f s) with (f (db_clock s) s) in E. cbv beta in E.
  destruct (bool_decide (rs_state row = SUBMISSION_READY)) eqn:Er; [|discriminate E].
  apply bool_decide_eq_true in Er. specialize (He Er).
  destruct (Z.leb_spec (deadline (db_receipts s) pk row) (db_clock s)); [discriminate E|lia].
Qed.

(** C22: Reports expire, and stay expired.  The deadline of a report is at most seven days
    after it was accepted and two days after its first download; along every run it only
    comes nearer, and a download that completes brings it within two days of that instant.
    Once it has passed, no browser and no tablet gets the report any more. *)
Theorem reports_expire_for_good s s' pk row :
  report_inv s → db_report_submissions s !! pk = Some row → rtc report_step s s' →
  let at_ := deadline (db_receipts s) pk row in
  at_ ≤ rs_created_at row + 7 * MICROSECONDS_PER_DAY
  ∧ (∀ first, rs_first_download_at row = Some first → at_ ≤ first + 48 * MICROSECONDS_PER_HOUR)
  ∧ ∃ row', db_report_submissions s' !! pk = Some row'
      ∧ submission_identity row' = submission_identity row
      ∧ (ready row' → ready row ∧ deadline (db_receipts s') pk row' ≤ at_)
      ∧ (∀ completed audit d s2, record_successful_download pk (Some completed) audit s' = (Val d, s2) →
           d ≤ completed + 48 * MICROSECONDS_PER_HOUR
           ∧ ∃ row2, db_report_submissions s2 !! pk = Some row2 ∧ deadline (db_receipts s2) pk row2 ≤ d)
      ∧ (at_ ≤ db_clock s' →
           (∀ session report_id tpk t reports s2 r,
              portal_context session report_id s' = (Val (tpk, t, reports), s2) → (pk, r) ∉ reports)
           ∧ (∀ session report_id r document attachments s2,
                load_portal_submission session report_id s' ≠ (Val (pk, r, document, attachments), s2))
           ∧ ∃ e, (load_submission (rs_installation row) (rs_submission_id row) s').1 = Exc e).
Proof.
  intros I Hk Hr at_. destruct (report_reachable _ _ Hr I) as [I' Hh].
  pose proof (si_row _ _ (ri_submissions _ I) pk row Hk) as Hok.
  assert (Hst : at_ ≤ stored_deadline row) by apply deadline_stored.
  rewrite (stored_deadline_ok _ _ Hok) in Hst. destruct Hok as [Hw Hd _ _ _].
  split_and!; [lia|intros first Hf; destruct (Hd first Hf); lia|].
  destruct (rh_submissions _ _ Hh _ _ Hk) as (row' & Hk' & Ei & Hkept). exists row'.
  assert (Hkept' : ready row' → ready row ∧ deadline (db_receipts s') pk row' ≤ at_)
    by (intros Hrd; destruct (Hkept Hrd) as (? & _ & _ & ?); auto).
  split_and!; [exact Hk'|exact Ei|exact Hkept'| |].
  - intros completed audit d s2 E.
    destruct (wlp_val _ _ _ _ _ E (wlp_record pk completed audit s' I'))
      as (r & first & _ & _ & _ & Hf & _ & _ & D1 & _ & Es). injection Es as _ ES _ _ _ _.
    split; [lia|]. eexists. rewrite ES. split; [apply lookup_insert_eq|].
    etransitivity; [apply deadline_stored|]. unfold stored_deadline. cbn. lia.
  - intros Hat.
    assert (Hno : ∀ t r, ¬ report_open s' t (pk, r)).
    { intros t r (_ & Hr' & _ & _ & Hrd & Hdl). cbn in *. assert (r = row') as -> by congruence.
      destruct (Hkept' Hrd). lia. }
    split_and!.
    + intros session rid tpk t reports s2 r E Hin.
      destruct (wlp_val _ _ _ _ _ E (wlp_portal session rid s')) as (_ & B & _).
      apply (Hno t r), (B _ Hin).
    + intros session rid r document attachments s2 E. unfold load_portal_submission in E.
      apply transaction_files_Val, bind_Val in E as ([[tpk t] l] & s1 & Ep & E).
      destruct (wlp_val _ _ _ _ _ Ep (wlp_portal session (Some rid) s')) as (_ & B & _).
      destruct l as [|[k q] l]; [discriminate E|].
      destruct (B (k, q) ltac:(left)) as [Ho _].
      apply skip_val in E as [(row0 & _ & E)|(e & _ & ? & _)]; [|discriminate|preserve].
      apply skip_val in E as [(d & _ & E)|(e & _ & ? & _)]; [|discriminate|preserve].
      apply skip_val in E as [(now & _ & E)|(e & _ & ? & _)]; [|discriminate|preserve].
      destruct (_ || _); [discriminate E|].
      apply skip_val in E as [([[row1 doc] att] & _ & E)|(e & _ & ? & _)]; [|discriminate|preserve].
      injection E as -> _ _ _ _. exact (Hno t q Ho).
    + assert (Es : rs_installation row = rs_installation row' ∧ rs_submission_id row = rs_submission_id row')
        by (injection Ei; auto).
      destruct Es as [-> ->]. apply (expired_not_loaded s' pk row' I' Hk').
      intros Hrd. destruct (Hkept' Hrd). lia.
Qed.
End expiry.


(** ** Clean-up *)

Section cleaning.
Context `{Hash, Floats, Aesgcm, ReportCrypto, ReportSettings, ReportStorage, PortalSettings}.
Context `{Secrets, MailEnvironment, MailSettings, DeliverySettings, SecretSettings} {HU : SpoolLaws}.

(** Submissions are what they were, up to the place where a download is recorded: every ready
    row is ready with the same key and deadline. *)
Definition same_deadlines (s s' : Db) : Prop :=
  ∀ pk row, db_report_submissions s !! pk = Some row → ready row →
    ∃ row', db_report_submissions s' !! pk = Some row' ∧ ready row'
      ∧ rs_payload_key row' = rs_payload_key row
      ∧ deadline (db_receipts s') pk row' = deadline (db_receipts s) pk row.

#[local] Instance same_deadlines_preorder : PreOrder same_deadlines.
Proof.
  split; [intros s pk row; eauto|]. intros s1 s2 s3 A B pk row Hk Hr.
  destruct (A pk row Hk Hr) as (r2 & H2' & R2 & K2 & D2). destruct (B pk r2 H2' R2) as (r3 & H3' & R3 & K3 & D3).
  exists r3. split_and!; congruence.
Qed.

(** Recording fails only in ways that the clean-up counts. *)
Lemma record_failure pk completed audit s e s' : report_inv s →
  is_Some (db_report_submissions s !! pk) →
  record_successful_download pk (Some completed) audit s = (Exc e, s') →
  storage_failure (exn_kind e) = true ∧ s' = s.
Proof.
  intros I [row Hrow] E. split; [|exact (record_exc _ _ _ _ _ _ E)]. unfold record_successful_download in E.
  unfold transaction_files in E. match type of E with (match ?m s with _ => _ end) = _ =>
    destruct (m s) as [[d|x] s1] eqn:Em; [discriminate E|] end.
  injection E as -> _.
  unfold bind at 1, get_obj in Em. rewrite Hrow in Em.
  change (bind timezone_now ?f s) with (f (db_clock s) s) in Em. cbv beta zeta in Em.
  unfold require in Em. destruct (_ && _); [|injection Em as <- _; reflexivity].
  change (bind (ret tt) ?k s) with (k tt s) in Em. cbv beta in Em.
  rewrite (bind_run _ _ _ _ _ (effective_expiry_total s pk row I)) in Em.
  destruct (_ || _); [injection Em as <- _; reflexivity|].
  change (bind (ret tt) ?k s) with (k tt s) in Em. cbv beta in Em.
  rewrite (bind_run _ _ _ _ _ (effective_expiry_total s pk _ I)) in Em.
  unfold bind at 1, save in Em. rewrite Hrow in Em.
  destruct audit as [[[did tid] ft]|]; [|discriminate Em].
  unfold bind, gets, when in Em. destruct (negb _); discriminate Em.
Qed.

(** The receipts [R'] are some of [R]. *)
Definition fewer_receipts (R R' : gmap N DownloadReceipt) : Prop :=
  ∀ j c, R' !! j = Some c → R !! j = Some c.

(** A recorded download leaves the deadline that its receipt gave. *)
Lemma recorded_deadline F R R' pk row first d j c :
  row_ok F row → d = deadline R pk (row <| rs_first_download_at := Some first |>) →
  first = first_download row (rec_completed_at c) → fewer_receipts R R' →
  R !! j = Some c → rec_submission c = pk → rs_created_at row ≤ rec_completed_at c →
  deadline R' pk (with_download first d row) = deadline R pk row.
Proof.
  intros Hok Hd Hf HR Hj Ep Hcr. unfold first_download in Hf.
  assert (A1 := deadline_stored R pk row). assert (A2 := deadline_receipt R pk row j c Hj Ep Hcr).
  assert (Hle : deadline R pk row ≤ stored_deadline (row <| rs_first_download_at := Some first |>)).
  { revert A1. unfold stored_deadline. cbn. destruct (rs_first_download_at row); subst first; lia. }
  assert (Hfewer : ∀ j' c', R !! j' = Some c' → rec_submission c' = pk →
    rs_created_at row ≤ rec_completed_at c' →
    deadline R pk row ≤ rec_completed_at c' + 48 * MICROSECONDS_PER_HOUR)
    by (intros; eapply deadline_receipt; eauto).
  assert (Ed : d = deadline R pk row).
  { apply Z.le_antisymm; subst d; apply le_deadline; split; try exact Hle; try exact Hfewer.
    - etransitivity; [apply deadline_stored|]. unfold stored_deadline. cbn.
      destruct Hok as [_ Hfd _ _ _]. destruct (rs_first_download_at row) as [f|]; subst first; lia.
    - intros. eapply deadline_receipt; eauto. }
  apply Z.le_antisymm.
  - etransitivity; [apply deadline_stored|]. unfold stored_deadline. cbn. lia.
  - apply le_deadline. split; [|intros; eapply Hfewer; eauto].
    revert A1 Hle. unfold stored_deadline. cbn. rewrite Ed. lia.
Qed.

(** Receipts of other reports do not matter. *)
Lemma other_deadline R R' pk r : fewer_receipts R R' →
  (∀ j c, R !! j = Some c → rec_submission c = pk → R' !! j = Some c) →
  deadline R' pk r = deadline R pk r.
Proof.
  intros HR HR'. apply Z.le_antisymm; apply le_deadline; (split; [apply deadline_stored|]);
    intros j c Hj Ep Hc; eapply deadline_receipt; eauto.
Qed.

Lemma unlink_cases k s :
  (unlink_receipt k s = (Val tt, s <| db_receipts ::= delete k |>))
  ∨ (∃ e, unlink_receipt k s = (Exc e, s) ∧ storage_failure (exn_kind e) = true).
Proof.
  unfold unlink_receipt, bind, gets. destruct (receipt_unlink_fails s k); [right|left; reflexivity].
  eexists. split; reflexivity.
Qed.

(** What reconciling one receipt leaves: [done] says that the receipt is gone. *)
Definition reconciled_to (k : N) (s s' : Db) (done : Prop) : Prop :=
  fewer_receipts (db_receipts s) (db_receipts s') ∧ db_clock s' = db_clock s ∧ same_deadlines s s'
  ∧ (done → db_receipts s' !! k = None).

Lemma unlink_reconciled (c : CleanupCounts) k s r : db_receipts s !! k = Some r →
  (∀ row, db_report_submissions s !! rec_submission r = Some row → ready row →
     deadline (delete k (db_receipts s)) (rec_submission r) row
     = deadline (db_receipts s) (rec_submission r) row) →
  ∃ x s', (unlink_receipt k ;;; ret c) s = (x, s')
  ∧ (x = Val c ∨ ∃ e, x = Exc e ∧ storage_failure (exn_kind e) = true)
  ∧ reconciled_to k s s' (x = Val c).
Proof.
  intros Hk Hd. unfold bind. destruct (unlink_cases k s) as [->|(e & -> & He)].
  - eexists _, _. split; [reflexivity|]. split; [auto|]. split_and!; [|reflexivity| |].
    + intros j c' Hj. cbn in Hj. apply lookup_delete_Some in Hj as [_ Hj]. exact Hj.
    + intros pk row Hrow Hr. exists row. split_and!; [exact Hrow|exact Hr|reflexivity|]. cbn.
      destruct (decide (pk = rec_submission r)) as [->|Hne]; [apply Hd; assumption|].
      apply other_deadline.
      * intros j c' Hj. apply lookup_delete_Some in Hj as [_ Hj]. exact Hj.
      * intros j c' Hj Ep. rewrite lookup_delete_ne; [exact Hj|]. intros ->. congruence.
    + intros _. apply lookup_delete_eq.
  - eexists _, _. split; [reflexivity|]. split; [eauto|].
    split_and!; [intros j c' Hj; exact Hj|reflexivity|reflexivity|discriminate].
Qed.

Lemma count_outcome (c : CleanupCounts) (m : M Db CleanupCounts) k s x s' :
  m s = (x, s') → (x = Val c ∨ ∃ e, x = Exc e ∧ storage_failure (exn_kind e) = true) →
  reconciled_to k s s' (x = Val c) →
  ∃ c' s', count_storage_failure c m s = (Val c', s') ∧ cc_failed c ≤ cc_failed c'
  ∧ reconciled_to k s s' (cc_failed c' = cc_failed c).
Proof.
  intros Em Hx (A & B & C & D). unfold count_storage_failure, try_except. rewrite Em.
  destruct Hx as [->|(e & -> & He)].
  - exists c, s'. split; [reflexivity|]. split; [lia|]. split_and!; auto.
  - rewrite He. exists (one_failed c), s'. split; [reflexivity|]. cbn. split; [lia|].
    split_and!; auto. cbn. lia.
Qed.

(** Recording the download of a receipt again keeps every deadline. *)
Lemma recorded_again k r row s d s1 : report_inv s → db_receipts s !! k = Some r →
  db_report_submissions s !! rec_submission r = Some row →
  record_successful_download (rec_submission r) (Some (rec_completed_at r)) (rec_audit r) s = (Val d, s1) →
  reconciled_to k s s1 False ∧ db_receipts s1 = db_receipts s
  ∧ ∃ row', db_report_submissions s1 !! rec_submission r = Some row'
      ∧ ∀ R', fewer_receipts (db_receipts s) R' →
          deadline R' (rec_submission r) row' = deadline (db_receipts s) (rec_submission r) row.
Proof.
  intros I Ek Erow Ed.
  pose proof (wlp_record (rec_submission r) (rec_completed_at r) (rec_audit r) s I) as W.
  unfold wlp in W. rewrite Ed in W.
  destruct W as (row1 & first & Hrow1 & Hr1 & [Hcr _] & _ & [_ Hf] & Hd & _ & _ & Es).
  assert (row1 = row) as -> by congruence. injection Es as Ec ES _ _ _ ER. cbn in Ec, ES, ER.
  pose proof (si_row _ _ (ri_submissions _ I) _ _ Hrow1) as Hok.
  assert (Hdl : ∀ R', fewer_receipts (db_receipts s) R' →
    deadline R' (rec_submission r) (with_download first d row)
    = deadline (db_receipts s) (rec_submission r) row)
    by (intros R' HR'; exact (recorded_deadline _ _ _ _ _ _ _ _ _ Hok Hd Hf HR' Ek eq_refl Hcr)).
  split_and!; [split_and!; [intros j c' Hj; congruence|exact Ec| |tauto]|exact ER|].
  - intros pk q Hq Hrq. rewrite ES, ER. destruct (decide (pk = rec_submission r)) as [->|Hne].
    + assert (q = row) as -> by congruence. exists (with_download first d row).
      split_and!; [apply lookup_insert_eq|exact Hr1|reflexivity|]. apply Hdl. intros j c' Hj. exact Hj.
    + exists q. rewrite lookup_insert_ne by congruence. auto.
  - exists (with_download first d row). split; [rewrite ES; apply lookup_insert_eq|exact Hdl].
Qed.

Lemma reconcile_outcome c k s : report_inv s →
  ∃ c' s', reconcile_receipt c k s = (Val c', s') ∧ cc_failed c ≤ cc_failed c'
  ∧ reconciled_to k s s' (cc_failed c' = cc_failed c).
Proof.
  intros I. unfold reconcile_receipt.
  match goal with |- ∃ _ _, count_storage_failure c ?x s = _ ∧ _ => set (m := x) end.
  assert (M : ∃ x s', m s = (x, s') ∧ (x = Val c ∨ ∃ e, x = Exc e ∧ storage_failure (exn_kind e) = true)
    ∧ reconciled_to k s s' (x = Val c)).
  { subst m. change (bind (find_obj ?t ?j) ?f s) with (f (t s !! j) s). cbv beta.
    destruct (db_receipts s !! k) as [r|] eqn:Ek.
    2:{ eexists _, s. split; [reflexivity|]. split; [auto|].
        split_and!; [intros j c' Hj; exact Hj|reflexivity|reflexivity|auto]. }
    rewrite (bind_run _ _ _ _ _ (receipt_readable s k r I Ek)). cbv beta iota.
    change (bind (find_obj ?t ?j) ?f s) with (f (t s !! j) s). cbv beta.
    destruct (db_report_submissions s !! rec_submission r) as [row|] eqn:Erow.
    2:{ apply (unlink_reconciled c k s r Ek). congruence. }
    destruct (bool_decide (rs_state row = SUBMISSION_READY)) eqn:Er; cbn [when].
    2:{ apply (unlink_reconciled c k s r Ek). intros row' Hrow' Hr'.
        apply bool_decide_eq_false in Er. destruct Er. unfold ready in Hr'. congruence. }
    unfold bind at 1 2.
    destruct (record_successful_download _ _ _ s) as [[d|e] s1] eqn:Ed.
    2:{ destruct (record_failure _ _ _ _ _ _ I ltac:(eauto) Ed) as [He ->].
        exists (Exc e), s. split; [reflexivity|]. split; [eauto|].
        split_and!; [intros j c' Hj; exact Hj|reflexivity|reflexivity|discriminate]. }
    destruct (recorded_again k r row s d s1 I Ek Erow Ed) as (Hs1 & ER & row' & Hrow' & Hdl).
    rewrite <- ER in Ek.
    destruct (unlink_reconciled c k s1 r Ek) as (x & s2 & E2 & Hx & Hs2).
    { intros q Hq _. rewrite Hrow' in Hq. injection Hq as <-.
      rewrite ER. rewrite !Hdl; [reflexivity|intros j c' Hj; exact Hj|].
      intros j c' Hj. apply lookup_delete_Some in Hj as [_ Hj]. exact Hj. }
    exists x, s2. split; [exact E2|]. split; [exact Hx|].
    destruct Hs1 as (A1 & A2 & A3 & _), Hs2 as (B1 & B2 & B3 & B4).
    split_and!; [intros j c' Hj; auto|congruence|etransitivity; eassumption|exact B4]. }
  destruct M as (x & s' & Em & Hx & Hs'). exact (count_outcome _ _ _ _ _ _ Em Hx Hs').
Qed.

(** All receipts: what none of them failed leaves. *)
Lemma reconcile_all l : ∀ c s, report_inv s → ∃ c' s', fold_m reconcile_receipt c l s = (Val c', s')
  ∧ cc_failed c ≤ cc_failed c' ∧ fewer_receipts (db_receipts s) (db_receipts s')
  ∧ db_clock s' = db_clock s ∧ same_deadlines s s' ∧ report_inv s'
  ∧ (cc_failed c' = cc_failed c → ∀ k, k ∈ l → db_receipts s' !! k = None).
Proof.
  induction l as [|k l IH]; intros c s I.
  { exists c, s. split_and!; auto; [lia|intros j c' Hj; exact Hj|reflexivity|]. intros _ k Hk. inversion Hk. }
  destruct (reconcile_outcome c k s I) as (c1 & s1 & E1 & L1 & A1 & A2 & A3 & A4).
  pose proof (report_reconcile c k s I) as [I1 _]. rewrite E1 in I1. cbn in I1.
  destruct (IH c1 s1 I1) as (c2 & s2 & E2 & L2 & B1 & B2 & B3 & I2 & B4).
  exists c2, s2. cbn [fold_m]. rewrite (bind_run _ _ _ _ _ E1).
  split_and!; [exact E2|lia|intros j c' Hj; auto|congruence|etransitivity; eassumption|exact I2|].
  intros Ef j [->|Hj]%elem_of_cons; [|apply B4; [lia|exact Hj]].
  destruct (db_receipts s2 !! k) as [r|] eqn:Er; [|reflexivity].
  apply B1 in Er. rewrite A4 in Er by lia. discriminate Er.
Qed.

Lemma purge_outcome now c pk s : report_inv s → is_Some (db_report_submissions s !! pk) →
  ∃ c' s', purge_submission now c pk s = (Val c', s') ∧ cc_failed c ≤ cc_failed c'
  ∧ db_receipts s' = db_receipts s ∧ db_clock s' = db_clock s
  ∧ (s' = s ∨ ∃ row, db_report_submissions s !! pk = Some row ∧ deadline (db_receipts s) pk row ≤ now
       ∧ db_report_submissions s' = <[pk := purged row]> (db_report_submissions s))
  ∧ (cc_failed c' = cc_failed c → ∀ row, db_report_submissions s' !! pk = Some row → ready row →
       now < deadline (db_receipts s) pk row).
Proof.
  intros I [row Hrow]. unfold purge_submission.
  change (count_storage_failure c (transaction_files ?m)) with (count_storage_failure c (transaction_files (purge_row now c pk))).
  unfold count_storage_failure, try_except, transaction_files, purge_row.
  unfold bind at 1, get_obj. rewrite Hrow.
  rewrite (bind_run _ _ _ _ _ (effective_expiry_total s pk row I)).
  destruct (_ || _) eqn:Eo.
  { exists c, s. split_and!; auto; [lia|]. intros _ r Hr Hrd. assert (r = row) as -> by congruence.
    apply orb_true_iff in Eo as [Eo|Eo%Z.ltb_lt]; [|exact Eo].
    apply negb_true_iff, bool_decide_eq_false in Eo. destruct Eo. exact Hrd. }
  apply orb_false_elim in Eo as [_ Ed%Z.ltb_ge]. unfold bind at 1.
  destruct (remove_payload (rs_payload_key row) s) as [x s1] eqn:Ex.
  apply remove_payload_cases in Ex as [[-> ->]|[(e & -> & He) ->]].
  - unfold bind at 1, save. cbn [db_report_submissions].
    change (db_report_submissions (s <| db_spool ::= ?f |>)) with (db_report_submissions s). rewrite Hrow.
    eexists _, _. split; [reflexivity|]. split; [cbn; lia|]. split; [reflexivity|]. split; [reflexivity|].
    split; [right; exists row; auto|]. intros _ r Hr Hrd. cbn in Hr. rewrite lookup_insert_eq in Hr.
    injection Hr as <-. discriminate Hrd.
  - rewrite He. eexists _, _. split; [reflexivity|].
    change (s <| db_spool := _ |> <| db_receipts := _ |>) with (with_files s s).
    rewrite with_files_same by reflexivity. cbn. split; [lia|]. split_and!; auto. lia.
Qed.

Lemma purge_all now l : ∀ c s, report_inv s → (∀ k, k ∈ l → is_Some (db_report_submissions s !! k)) →
  ∃ c' s', fold_m (purge_submission now) c l s = (Val c', s') ∧ cc_failed c ≤ cc_failed c'
  ∧ db_receipts s' = db_receipts s ∧ db_clock s' = db_clock s ∧ report_inv s'
  ∧ (∀ k row, db_report_submissions s !! k = Some row → now < deadline (db_receipts s) k row →
       db_report_submissions s' !! k = Some row)
  ∧ (∀ k row, db_report_submissions s' !! k = Some row → ready row → db_report_submissions s !! k = Some row)
  ∧ (cc_failed c' = cc_failed c → ∀ k row, k ∈ l → db_report_submissions s' !! k = Some row →
       ready row → now < deadline (db_receipts s') k row).
Proof.
  induction l as [|pk l IH]; intros c s I Hl.
  { exists c, s. split_and!; auto; [lia|]. intros _ k row Hk. inversion Hk. }
  destruct (purge_outcome now c pk s I (Hl pk ltac:(left))) as (c1 & s1 & E1 & L1 & R1 & C1 & H1' & F1).
  pose proof (report_purge now c pk s I) as [I1 Hh1]. rewrite E1 in I1, Hh1. cbn in I1, Hh1.
  destruct (IH c1 s1 I1) as (c2 & s2 & E2 & L2 & R2 & C2 & I2 & A2 & B2 & F2).
  { intros k Hk. apply (row_stays s s1 k Hh1), Hl. right. exact Hk. }
  exists c2, s2. cbn [fold_m]. rewrite (bind_run _ _ _ _ _ E1).
  split_and!; [exact E2|lia|congruence|congruence|exact I2| | |].
  - intros k row Hk Hd. apply A2; [|rewrite R1; exact Hd].
    destruct H1' as [->|(r & Hr & Hd' & ->)]; [exact Hk|].
    rewrite lookup_insert_ne; [exact Hk|]. intros ->. assert (r = row) as -> by congruence. lia.
  - intros k row Hk Hrd. apply B2 in Hk; [|exact Hrd].
    destruct H1' as [->|(r & Hr & Hd' & E)]; [exact Hk|]. rewrite E in Hk.
    apply lookup_insert_Some in Hk as [[<- <-]|[_ Hk]]; [discriminate Hrd|exact Hk].
  - intros Ef k row [->|Hin]%elem_of_cons Hk Hrd; [|apply F2; [lia|assumption..]].
    rewrite R2, R1. apply F1; [lia| |exact Hrd]. apply B2; assumption.
Qed.

Lemma sweep_total c s : root s = (Val tt, s) → ∃ c' s', sweep_orphans c s = (Val c', s').
Proof.
  intros Hroot. unfold sweep_orphans, transaction_files.
  change (bind (gets ?f) ?k s) with (k (f s) s). cbv beta.
  change (filter _ (map _ _)) with (referenced_keys s). rewrite (bind_run _ _ _ _ _ Hroot).
  change (bind (gets ?f) ?k s) with (k (f s) s). cbv beta.
  destruct (sweep_fold (referenced_keys s) c (map_to_list (db_spool s)).*1 s) as (c' & s' & E & _).
  rewrite E. eauto.
Qed.

(** Every ready row is in the query when its stored deadline has passed. *)
Lemma past_deadline_stored now r : ready r → past_deadline now r = (stored_deadline r <=? now).
Proof.
  intros Hr. unfold past_deadline. rewrite bool_decide_eq_true_2 by exact Hr. cbn [andb].
  unfold stored_deadline. destruct (rs_first_download_at r) as [f|].
  - destruct (Z.leb_spec (rs_expires_at r) now), (Z.leb_spec (rs_created_at r) (now - 7 * MICROSECONDS_PER_DAY)),
      (Z.leb_spec f (now - 48 * MICROSECONDS_PER_HOUR)); cbn; symmetry; (apply Z.leb_le || apply Z.leb_gt); lia.
  - destruct (Z.leb_spec (rs_expires_at r) now), (Z.leb_spec (rs_created_at r) (now - 7 * MICROSECONDS_PER_DAY));
      cbn; symmetry; (apply Z.leb_le || apply Z.leb_gt); lia.
Qed.

Lemma root_stays s s0 : root s = (Val tt, s) → root s0 = (Val tt, s0).
Proof.
  assert (C : constant root) by constant. destruct C as [o C]. rewrite !C. congruence.
Qed.

(** The clean-up finds exactly the rows past their deadline. *)
Lemma past_rows now (m : gmap N ReportSubmission) k :
  k ∈ (rows m (λ _ r, past_deadline now r)).*1
  ↔ ∃ r, m !! k = Some r ∧ past_deadline now r = true.
Proof.
  rewrite list_elem_of_fmap. split.
  - intros ([j r] & -> & Hin). apply rows_elem in Hin. cbn in *. eauto.
  - intros (r & Hk & Hr). exists (k, r). split; [reflexivity|]. apply rows_elem. auto.
Qed.

Lemma no_receipts_left (R R' : gmap N DownloadReceipt) : fewer_receipts R R' →
  (∀ k, k ∈ (map_to_list R).*1 → R' !! k = None) → ∀ j, R' !! j = None.
Proof.
  intros Hf Hn j. destruct (R' !! j) as [r|] eqn:Ej; [|reflexivity].
  rewrite Hn in Ej; [discriminate Ej|]. apply Hf in Ej. apply list_elem_of_fmap. exists (j, r).
  split; [reflexivity|]. apply elem_of_map_to_list, Ej.
Qed.

(** A ready row that the clean-up did not select, without receipts, is before its deadline. *)
Lemma unselected_alive now pk row R : ready row → past_deadline now row = false →
  (∀ j, R !! j = None) → now < deadline R pk row.
Proof.
  intros Hr Hn Hnone. rewrite past_deadline_stored in Hn by exact Hr. apply Z.leb_gt in Hn.
  assert (stored_deadline row ≤ deadline R pk row); [|lia].
  apply le_deadline. split; [lia|]. intros j c Hj. rewrite Hnone in Hj. discriminate Hj.
Qed.

(** C30: Clean-up ends and does its work.  While the spool can be used, a clean-up returns,
    whatever other sessions do in between.  When it counts no failure, every file in the
    spool is one of a report that is not purged.  When nobody else is at work, every report
    before its deadline stays with its file, and without a failure no other one is left. *)
Theorem cleanup_removes_what_expired others now s :
  report_inv s → (∀ n, preserves evolves_reports (others n)) → root s = (Val tt, s) →
  ∃ c s', cleanup others now s = (Val c, s')
    ∧ (cc_failed c = 0 → ∀ key raw, db_spool s' !! key = Some raw →
         ∃ pk row, db_report_submissions s' !! pk = Some row ∧ ready row ∧ rs_payload_key row = key)
    ∧ ((∀ n s0, (others n s0).2 = s0) → let instant := default (db_clock s) now in
         (∀ pk row, db_report_submissions s !! pk = Some row → ready row →
            instant < deadline (db_receipts s) pk row →
            ∃ row', db_report_submissions s' !! pk = Some row' ∧ ready row'
              ∧ rs_payload_key row' = rs_payload_key row
              ∧ db_spool s' !! rs_payload_key row = db_spool s !! rs_payload_key row)
         ∧ (cc_failed c = 0 → ∀ pk row, db_report_submissions s' !! pk = Some row → ready row →
              instant < deadline (db_receipts s') pk row)).
Proof.
  intros I Ho Hroot. pose proof (report_cleanup others now Ho s I) as [_ Hh].
  unfold cleanup in *. change (bind timezone_now ?f s) with (f (db_clock s) s) in *. cbv beta zeta in *.
  rewrite (bind_run _ _ _ _ _ Hroot) in *. change (bind (gets ?f) ?k s) with (k (f s) s) in *. cbv beta in *.
  destruct (reconcile_all (map_to_list (db_receipts s)).*1 (mkCleanupCounts 0 0 0) s I)
    as (c1 & s1 & E1 & L1 & A1 & C1 & D1 & I1 & F1). cbn in L1, F1.
  rewrite (bind_run _ _ _ _ _ E1) in *.
  change (bind (meanwhile (others 0%nat)) ?k s1) with (k tt (others 0%nat s1).2) in *. cbv beta in *.
  destruct (Ho 0%nat s1 I1) as [I2 _]. set (s2 := (others 0%nat s1).2) in *.
  change (bind (gets ?f) ?k s2) with (k (f s2) s2) in *. cbv beta in *.
  set (pks := (rows (db_report_submissions s2) (λ _ r, past_deadline (default (db_clock s) now) r)).*1) in *.
  assert (Hpks : ∀ k, k ∈ pks ↔ _) by (intros k; apply past_rows).
  destruct (purge_all (default (db_clock s) now) pks c1 s2 I2) as (c2 & s3 & E2 & L2 & R3 & C3 & I3 & A3 & B3 & F3).
  { intros k Hk. apply Hpks in Hk as (r & Hr & _). eauto. }
  rewrite (bind_run _ _ _ _ _ E2) in *.
  change (bind (meanwhile (others 1%nat)) ?k s3) with (k tt (others 1%nat s3).2) in *. cbv beta in *.
  destruct (Ho 1%nat s3 I3) as [I4 _]. set (s4 := (others 1%nat s3).2) in *.
  destruct (sweep_total c2 s4 (root_stays s s4 Hroot)) as (c4 & s5 & E5). rewrite E5 in *. cbn in Hh.
  destruct (sweep_outcome c2 s4 I4) as [[e E]|(c' & F & E & _ & _ & G3 & L3)]; [congruence|].
  rewrite E5 in E. injection E as -> ->.
  assert (Hz : cc_failed c' = 0 → cc_failed c1 = 0 ∧ cc_failed c2 = cc_failed c1 ∧ cc_failed c' = cc_failed c2) by lia.
  eexists _, _. split; [reflexivity|]. split.
  { intros Hf key raw Hk. apply Hz in Hf as (_ & _ & Hf). exact (G3 Hf key raw Hk). }
  intros Hsame. cbv zeta.
  assert (E12 : s2 = s1) by apply Hsame. assert (E34 : s4 = s3) by apply Hsame.
  change (db_report_submissions (s4 <| db_spool := F |>)) with (db_report_submissions s4).
  change (db_receipts (s4 <| db_spool := F |>)) with (db_receipts s4). rewrite E34. split.
  - intros pk row Hk Hr Hd. destruct (D1 pk row Hk Hr) as (r1 & Hk1 & Hr1 & K1 & D1').
    exists r1. assert (Hk3 : db_report_submissions s3 !! pk = Some r1).
    { apply A3; [rewrite E12; exact Hk1|]. rewrite E12, D1'. exact Hd. }
    split_and!; [exact Hk3|exact Hr1|exact K1|].
    destruct (rh_submissions _ _ Hh pk row Hk) as (r' & Hk' & _ & Q).
    change (db_report_submissions s4 !! pk = Some r') in Hk'. rewrite E34 in Hk'.
    assert (r' = r1) as -> by congruence. apply (Q Hr1).
  - intros Hf pk row Hk Hr. apply Hz in Hf as (Hf1 & Hf2 & _).
    destruct (decide (pk ∈ pks)) as [Hin|Hnin]; [exact (F3 Hf2 pk row Hin Hk Hr)|].
    assert (Hk2 : db_report_submissions s2 !! pk = Some row) by (apply B3; assumption).
    apply unselected_alive; [exact Hr|apply not_true_iff_false; intros Hp; apply Hnin, Hpks; eauto|].
    rewrite R3, E12. apply (no_receipts_left _ _ A1), F1. lia.
Qed.
End cleaning.


(** ** The mail with the link *)

Section mail.
Context `{Hash, Floats, Aesgcm, ReportCrypto, ReportSettings, ReportStorage, PortalSettings}.
Context `{Secrets, MailEnvironment, MailSettings, DeliverySettings, SecretSettings} {HU : SpoolLaws}.

Definition link_message (provider : Provider) (email token : string) : OutboundMessage :=
  mkOutboundMessage
    match provider with
    | SmtpProvider c => mkMailAddress (eff_sender_name c) (eff_sender_email c)
    | BrevoProvider name sender _ _ => mkMailAddress name sender
    end
    (mkMailAddress "FireDash recipient" email) LINK_SUBJECT (link_body token) [].

(** The grant [t] can be mailed to [email] now. *)
Definition mail_authorized (s : Db) (t : ReportTransfer) (email : string) : Prop :=
  rt_revoked_at t = None ∧ db_clock s < rt_token_expires_at t
  ∧ email_digest email = rt_recipient_email_digest t
  ∧ ∃ department person, authorized_recipient s department (rt_recipient t) email person.

Lemma recipient_for_val d p s v s' : recipient_for d p s = (Val v, s') →
  ∃ person, authorized_recipient s d p v.2 person.
Proof.
  unfold recipient_for, try_except, resolve_report_recipient. intros E.
  pose proof (wlp_resolve_recipient d p s) as W. unfold wlp in W.
  destruct (_resolve_recipient _ _ s) as [[v1|e] s1].
  - injection E as <- _. apply W.
  - destruct (exn_kind e); cbn in E; discriminate E.
Qed.

Lemma caught_state {A} (m : M Db A) (a : A) s : (try_except m (λ _, Some (ret a)) s).2 = (m s).2.
Proof. unfold try_except. destruct (m s) as [[b|e] s']; reflexivity. Qed.

Lemma send_link_sends pk token s :
  sent_mail (send_link pk token s).2 = sent_mail s
  ∨ ∃ t provider email, sent_mail (send_link pk token s).2 = sent_mail s ++ [link_message provider email token]
      ∧ db_report_transfers s !! pk = Some t ∧ mail_authorized s t email.
Proof.
  remember (send_link pk token s).2 as s' eqn:E'. unfold send_link in E'. rewrite caught_state in E'.
  unfold bind at 1, get_obj in E'.
  destruct (db_report_transfers s !! pk) as [t|] eqn:Et; [|left; rewrite E'; reflexivity].
  change (bind timezone_now ?f s) with (f (db_clock s) s) in E'. cbv beta in E'.
  destruct (_ || _) eqn:Eo in E'; [left; rewrite E'; reflexivity|].
  apply orb_false_elim in Eo as [Er Ee%Z.leb_gt].
  pose proof (readonly_authorize (rt_installation t) s) as R. unfold bind at 1 in E'.
  destruct (authorize (rt_installation t) s) as [[[[i tb] v]|e] s1]; cbn in R; subst s1; [|left; rewrite E'; reflexivity].
  pose proof (readonly_recipient (tb_department tb) (rt_recipient t) s) as R. unfold bind at 1 in E'.
  destruct (recipient_for _ _ s) as [[[pid email]|e] s1] eqn:Ep; cbn in R; subst s1; [|left; rewrite E'; reflexivity].
  apply recipient_for_val in Ep as [person Hp]. cbn in Hp.
  destruct (String.eqb_spec (email_digest email) (rt_recipient_email_digest t)) as [Ed|]; [|left; rewrite E'; reflexivity].
  cbn [negb] in E'. unfold bind at 1 in E'.
  pose proof (delivery_resolve (same (λ s, s)) (tb_department tb) s) as R. unfold same in R.
  destruct (resolve_department_mail_provider _ s) as [[[o|provider]|e] s1]; cbn in R; subst s1;
    try (left; rewrite E'; reflexivity).
  assert (Hs : sends_one (eq (link_message provider email token)) (
    let! sender := sender_identity provider in
    let! recipient := recipient_to_mail_address email in
    let! message := outbound_message sender recipient LINK_SUBJECT (link_body token) [] in
    send_message provider message)).
  { apply (sends_bind _ (λ a, a = om_sender (link_message provider email token)));
      [destruct provider; apply readonly_mail_address|intros s1; destruct provider; apply mail_address_is|].
    intros sender ->. unfold recipient_to_mail_address.
    apply (sends_bind _ (λ a, a = mkMailAddress "FireDash recipient" email));
      [apply readonly_mail_address|apply mail_address_is|]. intros recipient ->.
    apply (sends_bind _ (λ m, m = link_message provider email token)); [follow| |].
    { intros s1. unfold outbound_message. apply wlp_bind, wlp_any. intros _ s2.
      apply wlp_bind, wlp_any. intros _ s3. apply wlp_ret. reflexivity. }
    intros m ->. unfold send_message. apply sends_catch; [|intros e k [= <-]; preserve].
    intros s1. pose proof (sends_provider provider (link_message provider email token) s1) as Hs.
    unfold bind. destruct (provider_send _ _ s1) as [[a|e] s2]; exact Hs. }
  cbv beta iota in E'. destruct (Hs s) as [E|(msg & E & <-)]; rewrite <- E' in E; [left; exact E|]. right. exists t, provider, email.
  split; [exact E|]. split; [exact eq_refl|].
  split_and!; [destruct (rt_revoked_at t); [discriminate Er|reflexivity]|exact Ee|exact Ed|eauto].
Qed.

(** The grant that a claim leaves; a request that is known gets no new one. *)
Lemma wlp_claim iid request_id person fingerprint s :
  wlp (claim_transfer iid request_id person fingerprint) s (λ v s',
    match v with
    | inr (pk, token) => (∃ t, db_report_transfers s' !! pk = Some t ∧ rt_token_digest t = digest token
          ∧ rt_installation t = iid ∧ rt_transfer_request_id t = request_id)
        ∧ ∀ k t, db_report_transfers s !! k = Some t → rt_installation t = iid →
            rt_transfer_request_id t ≠ request_id
    | inl _ => True
    end).
Proof.
  pose proof report_collect as Hcol. unfold claim_transfer.
  apply wlp_skip; [preserve|]. intros i0 _. apply wlp_skip; [preserve|]. intros [[i t] v] _.
  apply wlp_skip; [preserve|]. intros prior Ep.
  destruct prior as [[pk row]|].
  { destruct (negb _); [exact Logic.I|]. apply wlp_skip; [preserve|]. intros rc _. apply wlp_ret. exact Logic.I. }
  unfold first_where, gets in Ep. injection Ep as Ep. apply order_by_head_None in Ep.
  apply wlp_skip; [preserve|]. intros [personnel email] _. apply wlp_skip; [preserve|]. intros now _.
  apply wlp_skip; [preserve|]. intros cands _. apply wlp_skip; [preserve|]. intros found _.
  destruct (Nat.eqb _ _); [exact Logic.I|]. apply wlp_bind, wlp_ret.
  apply wlp_skip; [preserve|]. intros u _. apply wlp_skip; [preserve|]. intros limited _.
  destruct limited; [exact Logic.I|].
  apply wlp_bind, wlp_ret. destruct (validate_public_origin _); [|exact Logic.I].
  apply wlp_bind, wlp_ret. apply wlp_skip; [preserve|]. intros token _.
  apply wlp_skip; [preserve|]. intros prev _.
  apply wlp_bind, wlp_any. intros _ s1. apply wlp_bind, wlp_any. intros _ s2. apply wlp_bind.
  unfold create_transfer. apply wlp_skip; [preserve|]. intros taken _.
  apply wlp_bind, wlp_guard. intros _. apply wlp_create. intros pk Hpk.
  apply wlp_bind. unfold wlp at 1, record_installation_event at 1, modify at 1. apply wlp_ret. split.
  - eexists. split; [cbn; apply lookup_insert_eq|]. auto.
  - intros k g Hk Hi Hq.
    assert (Hin : (k, g) ∈ rows (db_report_transfers s) (λ _ t,
      N.eqb (rt_installation t) iid && N.eqb (rt_transfer_request_id t) request_id)).
    { apply rows_elem. split; [exact Hk|]. rewrite Hi, Hq, !N.eqb_refl. reflexivity. }
    rewrite Ep in Hin. inversion Hin.
Qed.

Lemma keeps_mail_claim iid request_id person fingerprint :
  keeps sent_mail (claim_transfer iid request_id person fingerprint).
Proof. pose proof report_collect. follow. Qed.

Lemma keeps_mail_finish iid pk outcome : keeps sent_mail (finish_transfer iid pk outcome).
Proof. follow. Qed.

(** What a request sends. *)
Lemma request_sends others iid data request_id s :
  report_inv s → (∀ n, preserves evolves_reports (others n)) → (∀ n, keeps sent_mail (others n)) →
  uuid_field "transfer_request_id" data = Some request_id →
  let s' := (request_transfer others iid data s).2 in
  sent_mail s' = sent_mail s ∨ ∃ sm pk t token provider email,
    sent_mail s' = sent_mail s ++ [link_message provider email token]
    ∧ (∀ k u, db_report_transfers (others 0%nat s).2 !! k = Some u → rt_installation u = iid →
         rt_transfer_request_id u ≠ request_id)
    ∧ db_report_transfers sm !! pk = Some t ∧ rt_installation t = iid
    ∧ rt_transfer_request_id t = request_id ∧ rt_token_digest t = digest token
    ∧ mail_authorized sm t email.
Proof.
  intros I Ho Hq Hid. cbv zeta. destruct (request_transfer others iid data s) as [r s'] eqn:E. cbn [snd].
  unfold request_transfer in E.
  apply skip_val in E as [(u1 & _ & E)|(e & _ & _ & ->)]; [|auto|preserve].
  rewrite Hid in E. change (bind (or_invalid (Some ?a)) ?k s) with (k a s) in E. cbv beta in E.
  apply skip_val in E as [(person & _ & E)|(e & _ & _ & ->)]; [|auto|preserve].
  apply skip_val in E as [(x & _ & E)|(e & _ & _ & ->)]; [|auto|preserve].
  change (bind (meanwhile (others 0%nat)) ?k s) with (k tt (others 0%nat s).2) in E. cbv beta zeta in E.
  destruct (Ho 0%nat s I) as [I1 _]. pose proof (Hq 0%nat s) as Q0. unfold same in Q0. rewrite <- Q0. clear Q0.
  revert I1 E. generalize (others 0%nat s).2. intros s1 I1 E. unfold bind at 1 in E.
  match type of E with context [atomic (claim_transfer ?a ?b ?c ?d)] =>
    pose proof (report_claim a b c d s1) as Hev; pose proof (wlp_claim a b c d s1) as W;
    pose proof (keeps_mail_claim a b c d s1) as Km end.
  unfold wlp in W. unfold same in Km. unfold atomic in *.
  destruct (claim_transfer _ _ _ _ s1) as [[[j|[pk token]]|e] s2]; cbn [snd] in Hev, Km, E;
    [injection E as _ <-; left; exact Km| |injection E as _ <-; left; reflexivity].
  destruct W as [(t & Hk & Ht & Hi & Hreq) Hno]. destruct (Hev I1) as [I2 _].
  change (bind (meanwhile (others 1%nat)) ?k s2) with (k tt (others 1%nat s2).2) in E. cbv beta in E.
  destruct (Ho 1%nat s2 I2) as [I3 Hh]. pose proof (Hq 1%nat s2) as Q1. unfold same in Q1.
  revert I3 Hh Q1 E. generalize (others 1%nat s2).2. intros s3 I3 Hh Q1 E.
  destruct (rh_transfers _ _ Hh _ _ Hk) as (t3 & Hk3 & Ei & _).
  assert (Hend : sent_mail s' = sent_mail (send_link pk token s3).2).
  { unfold bind at 1 in E. destruct (send_link pk token s3) as [[outcome|e] s4]; [|injection E as _ <-; reflexivity].
    change (bind (meanwhile (others 2%nat)) ?k s4) with (k tt (others 2%nat s4).2) in E. cbv beta in E.
    pose proof (Hq 2%nat s4) as Q2. unfold same in Q2. cbn [snd]. rewrite <- Q2.
    pose proof (keeps_mail_finish iid pk outcome (others 2%nat s4).2) as Kf. unfold same in Kf.
    unfold bind at 1 in E. destruct (finish_transfer _ _ _ _) as [[v|e] s5]; cbn [snd] in Kf;
      [|injection E as _ <-; exact Kf].
    rewrite <- Kf. pose proof (readonly_get_obj db_report_transfers pk s5) as R. unfold bind in E.
    destruct (get_obj db_report_transfers pk s5) as [[q|err] s6]; cbn in R; subst s6;
      injection E as _ <-; reflexivity. }
  rewrite Hend. destruct (send_link_sends pk token s3) as [S|(t4 & provider & email & S & Hk4 & Hm)]; rewrite S, Q1, Km;
    [left; reflexivity|right].
  assert (t4 = t3) as -> by congruence. exists s3, pk, t3, token, provider, email.
  assert (Hids : rt_token_digest t3 = rt_token_digest t ∧ rt_installation t3 = rt_installation t
    ∧ rt_transfer_request_id t3 = rt_transfer_request_id t) by (injection Ei; intros; auto).
  destruct Hids as (J1 & J2 & J3). split_and!; auto; congruence.
Qed.

(** C25: A link is mailed once.  A request for a grant hands at most one message to a
    provider: the link of the new grant that it has made, for a request that the tablet had
    not made before, to the address of the recipient at that moment, who is authorized and
    still has the mailbox that the grant is bound to.  Once the grant is there, no later
    request of the same number sends anything, whatever it says and whatever else happens. *)
Theorem links_are_mailed_once others iid data request_id s r s' :
  report_inv s → (∀ n, preserves evolves_reports (others n)) → (∀ n, keeps sent_mail (others n)) →
  uuid_field "transfer_request_id" data = Some request_id →
  request_transfer others iid data s = (r, s') →
  (sent_mail s' = sent_mail s ∨ ∃ sm pk t token provider email,
     sent_mail s' = sent_mail s ++ [link_message provider email token]
     ∧ (∀ k u, db_report_transfers (others 0%nat s).2 !! k = Some u → rt_installation u = iid →
          rt_transfer_request_id u ≠ request_id)
     ∧ db_report_transfers sm !! pk = Some t ∧ rt_installation t = iid
     ∧ rt_transfer_request_id t = request_id ∧ rt_token_digest t = digest token
     ∧ mail_authorized sm t email)
  ∧ ∀ pk t s2, db_report_transfers s' !! pk = Some t → rt_installation t = iid →
      rt_transfer_request_id t = request_id → rtc report_step s' s2 →
      ∀ others2 data2, (∀ n, preserves evolves_reports (others2 n)) → (∀ n, keeps sent_mail (others2 n)) →
        uuid_field "transfer_request_id" data2 = Some request_id →
        sent_mail (request_transfer others2 iid data2 s2).2 = sent_mail s2.
Proof.
  intros I Ho Hq Hid E. split.
  - pose proof (request_sends others iid data request_id s I Ho Hq Hid) as P. rewrite E in P. exact P.
  - intros pk t s2 Hk Hi Hreq Hr others2 data2 Ho2 Hq2 Hid2.
    pose proof (report_transfer others iid data Ho s I) as [I1 _]. rewrite E in I1. cbn in I1.
    destruct (report_reachable _ _ Hr I1) as [I2 Hh].
    destruct (request_sends others2 iid data2 request_id s2 I2 Ho2 Hq2 Hid2) as [?|(sm & ? & ? & ? & ? & ? & _ & Hno & _)]; [assumption|].
    exfalso. destruct (rh_transfers _ _ Hh _ _ Hk) as (t2 & Hk2 & Ei & _).
    destruct (Ho2 0%nat s2 I2) as [_ Hh2].
    destruct (rh_transfers _ _ Hh2 _ _ Hk2) as (t3 & Hk3 & Ei3 & _).
    assert (Et : transfer_identity t3 = transfer_identity t) by congruence.
    apply (Hno pk t3 Hk3); injection Et; intros; congruence.
Qed.
End mail.

(** The link that the commander got is opened. *)
Lemma links_open_once_witness : ∃ session s1,
  redeem (alone 0%nat) true report_token report_linked = (Val session, s1)
  ∧ (∃ e, (redeem (alone 0%nat) true report_token s1).1 = Exc e)
  ∧ is_Some (se_key session).
Proof.
  assert (V : ends_well (redeem (alone 0%nat) true report_token report_linked) = true)
    by (vm_compute; reflexivity).
  destruct (redeem (alone 0%nat) true report_token report_linked) as [[session|e] s1] eqn:E;
    [|discriminate V].
  destruct (links_open_once (alone 0%nat) true report_token report_linked session s1 s1
    (reachable_inv _ report_linked_reachable) (alone_evolves 0%nat) E (rtc_refl _ _))
    as [A (pk & t & k & key & _ & _ & _ & _ & -> & _)].
  exists (mkSession (Some key) (Some (str_uuid k))), s1.
  split; [reflexivity|]. split; [apply A, alone_evolves|eexists; reflexivity].
Defined.

(** The commander's browser sees the report. *)
Lemma portal_opens_granted_reports_witness : ∃ pk t r,
  db_report_transfers report_opened !! pk = Some t ∧ grant_alive report_opened t
  ∧ report_open report_opened t r ∧ rs_report_id r.2 = 6%N.
Proof.
  assert (V : match portal_context demo_session (Some 6%N) report_opened with
              | (Val (_, _, _ :: _), _) => true | _ => false end = true)
    by (vm_compute; reflexivity).
  destruct (portal_context demo_session (Some 6%N) report_opened) as [[[[pk t] [|r l]]|e] s1] eqn:E;
    try discriminate V.
  destruct (portal_opens_granted_reports demo_session report_opened) as [P _].
  destruct (P _ _ _ _ _ E) as (_ & A & _ & B & C).
  destruct (C r ltac:(left)) as [D F]. exists pk, t, r.
  split; [exact A|]. split; [exact B|]. split; [exact D|exact F].
Defined.

Lemma grants_are_unambiguous_witness : ∃ t,
  db_report_transfers report_opened !! 1%N = Some t
  ∧ rt_token_expires_at t = rt_issued_at t + MICROSECONDS_PER_HOUR.
Proof.
  assert (V : bool_decide (is_Some (db_report_transfers report_opened !! 1%N)) = true)
    by (vm_compute; reflexivity).
  destruct (proj1 (bool_decide_eq_true _) V) as [t Ht]. exists t. split; [exact Ht|].
  destruct (grants_are_unambiguous report_ready report_opened) as (_ & H & _);
    [vm_compute; reflexivity..|apply report_opened_reachable|exact (H _ _ Ht)].
Defined.

(** A package is accepted, and again. *)
Lemma packages_are_accepted_once_witness : ∃ a s1,
  submit (alone 0%nat) 1 (demo_envelope 5 6) report_ready = (Val (a, true), s1)
  ∧ ∀ a2 c s2, submit (alone 0%nat) 1 (demo_envelope 5 6) s1 = (Val (a2, c), s2) → c = false.
Proof.
  assert (V : match submit (alone 0%nat) 1 (demo_envelope 5 6) report_ready with
              | (Val (_, true), _) => true | _ => false end = true) by (vm_compute; reflexivity).
  destruct (submit (alone 0%nat) 1 (demo_envelope 5 6) report_ready) as [[[a [|]]|e] s1] eqn:E;
    try discriminate V.
  exists a, s1. split; [reflexivity|].
  destruct (packages_are_accepted_once (alone 0%nat) 1 (demo_envelope 5 6) report_ready _ _
    report_ready_inv (alone_evolves 0%nat) E) as (h & pk & row & inst & _ & _ & _ & _ & _ & _ & _ & _ & _
      & _ & _ & _ & _ & _ & Hagain).
  intros a2 c s2. exact (Hagain (alone 0%nat) s1 a2 c s2 (rtc_refl _ _) (alone_evolves 0%nat)).
Defined.

(** It is still there when the link was sent. *)
Lemma accepted_reports_stay_readable_witness : ∃ document attachments pk row2,
  db_report_submissions report_linked !! pk = Some row2
  ∧ (ready row2 → load_verified_payload row2 report_linked = (Val (row2, document, attachments), report_linked)).
Proof.
  assert (V : match submit (alone 0%nat) 1 (demo_envelope 5 6) report_ready with
              | (Val (_, true), _) => true | _ => false end = true) by (vm_compute; reflexivity).
  destruct (submit (alone 0%nat) 1 (demo_envelope 5 6) report_ready) as [[[a [|]]|e] s1] eqn:E;
    try discriminate V.
  assert (Es : s1 = report_sent).
  { change report_sent with (unit_of (submit (alone 0%nat) 1 (demo_envelope 5 6)) report_ready).2.
    unfold unit_of, bind. rewrite E. reflexivity. }
  destruct (accepted_reports_stay_readable (alone 0%nat) 1 (demo_envelope 5 6) report_ready a s1 report_linked
    report_ready_inv (alone_evolves 0%nat)) as (h & doc & att & pk & row & row2 & _ & Hd & _ & _ & A & _ & B).
  - apply (bool_decide_unpack _). vm_compute. exact I.
  - exact E.
  - rewrite Es. apply rtc_once, report_linked_step.
  - exists doc, att, pk, row2. split; [exact A|exact B].
Defined.

(** The report was downloaded, and 49 hours later it is gone. *)
Lemma reports_expire_for_good_witness : ∃ row row',
  db_report_submissions report_downloaded !! 1%N = Some row
  ∧ db_report_submissions (hours_later 49 report_downloaded) !! 1%N = Some row'
  ∧ ∃ e, (load_submission (rs_installation row) (rs_submission_id row) (hours_later 49 report_downloaded)).1 = Exc e.
Proof.
  assert (V : match db_report_submissions report_downloaded !! 1%N with
    | Some row => deadline (db_receipts report_downloaded) 1 row <=? db_clock (hours_later 49 report_downloaded)
    | None => false end = true) by (vm_compute; reflexivity).
  destruct (db_report_submissions report_downloaded !! 1%N) as [row|] eqn:Hrow; [|discriminate V].
  apply Z.leb_le in V.
  destruct (reports_expire_for_good report_downloaded (hours_later 49 report_downloaded) 1 row
    (reachable_inv _ report_downloaded_reachable) Hrow report_later) as (_ & _ & row' & Hk & _ & _ & _ & He).
  exists row, row'. split; [reflexivity|]. split; [exact Hk|]. apply He, V.
Defined.

(** The spool after the report has expired. *)
Lemma cleanup_removes_what_expired_witness : ∃ c s',
  cleanup alone None (hours_later 49 report_downloaded) = (Val c, s')
  ∧ (cc_failed c = 0 → ∀ pk row, db_report_submissions s' !! pk = Some row → ready row →
       default (db_clock (hours_later 49 report_downloaded)) None < deadline (db_receipts s') pk row).
Proof.
  destruct (cleanup_removes_what_expired alone None (hours_later 49 report_downloaded)) as (c & s' & E & _ & Q).
  - apply reachable_inv. transitivity report_downloaded; [apply report_downloaded_reachable|apply report_later].
  - exact alone_evolves.
  - vm_compute. reflexivity.
  - exists c, s'. split; [exact E|]. destruct (Q (λ _ _, eq_refl)) as [_ G]. exact G.
Defined.

(** The tablet asks for the link. *)
Lemma links_are_mailed_once_witness : ∃ email provider token,
  sent_mail (request_transfer alone 1 (demo_request 9) report_sent).2
  = sent_mail report_sent ++ [link_message provider email token].
Proof.
  assert (V : uuid_field "transfer_request_id" (demo_request 9) = Some 9%N) by (vm_compute; reflexivity).
  assert (L : Nat.eqb (length (sent_mail (request_transfer alone 1 (demo_request 9) report_sent).2))
    (length (sent_mail report_sent)) = false) by (vm_compute; reflexivity).
  destruct (request_transfer alone 1 (demo_request 9) report_sent) as [r s'] eqn:E.
  destruct (links_are_mailed_once alone 1 (demo_request 9) 9 report_sent r s'
    (reachable_inv _ report_sent_reachable) alone_evolves (λ _ _, eq_refl) V E)
    as [[Q|(sm & pk & t & token & provider & email & Q & _)] _].
  - exfalso. change (Nat.eqb (length (sent_mail s')) (length (sent_mail report_sent)) = false) in L.
    rewrite Q, Nat.eqb_refl in L. discriminate L.
  - exists email, provider, token. exact Q.
Defined.
