(* ===== verification/DocumentTheorems.v ===== *)
(** What the reader of report packages establishes: canonical JSON is read back as it was
    written, and a document that is validated stays within its bounds, with distinct keys and
    references to attachments that exist. *)
From Stdlib Require Import Ascii.
From S2P Require Import Prelude Text Encoding Models Registry Store Fingerprint.
From S2P Require Import ApplicationSecrets JsonText ReportDocuments.
From S2P Require Import ReportDemo.

(** ** The parts of a document *)

Definition section_keys (sect : json) : list string :=
  str_of (item "key" sect) :: map (λ b, str_of (item "key" b)) (elements (item "blocks" sect)).

Definition document_sections (document : json) : list json := elements (item "sections" document).

Definition document_blocks (document : json) : list json :=
  concat (map (λ s, elements (item "blocks" s)) (document_sections document)).

(** The cells of a table; other blocks have none. *)
Definition cells_of (block : json) : Z :=
  if str_is "kind" "table" block
  then Z.of_nat (length (concat (map elements (elements (item "rows" block))))) else 0.

Definition total_cells (blocks : list json) : Z := foldr (λ b n, cells_of b + n) 0 blocks.

(** The attachments a block refers to. *)
Definition references (block : json) : list string :=
  if str_is "kind" "attachment_refs" block
  then map str_of (elements (item "attachment_ids" block)) else [].

(** ** Lemmas *)

Lemma sequence_bounds value minimum maximum : sequence value minimum maximum = true →
  minimum ≤ Z.of_nat (length (elements value)) ≤ maximum.
Proof.
  unfold sequence. destruct value; try discriminate. cbn.
  intros [A%Z.leb_le B%Z.leb_le]%andb_prop. lia.
Qed.

Lemma table_rows_cells width rows : ∀ cells cells', table_rows width rows cells = Some cells' →
  cells ≤ 4000 → cells' = cells + Z.of_nat (length (concat (map elements rows))) ∧ cells' ≤ 4000.
Proof.
  induction rows as [|row rows IH]; intros cells cells'; cbn [table_rows map concat].
  - intros [= <-] Hc. cbn. lia.
  - destruct (_ && _) eqn:E; [|discriminate].
    apply andb_prop in E as [[_ E%Z.leb_le]%andb_prop _]. intros Hr Hc.
    apply IH in Hr as [-> Hb]; [|exact E]. rewrite length_app. lia.
Qed.

Lemma is_kind block kind k : item "kind" block = JStr kind →
  str_is "kind" k block = String.eqb kind k.
Proof. intros E. unfold str_is. rewrite E. reflexivity. Qed.

(** A block adds its cells and refers to attachments only. *)
Lemma block_cells_bounds ids block cells cells' : block_cells ids block cells = Some cells' →
  cells ≤ 4000 →
  cells' = cells + cells_of block ∧ cells' ≤ 4000 ∧ ∀ r, r ∈ references block → r ∈ ids.
Proof.
  unfold block_cells, cells_of, references. destruct (item "kind" block) as [| | | |kind| |] eqn:Ek;
    try discriminate. rewrite !(is_kind _ _ _ Ek). intros E Hc.
  destruct (String.eqb_spec kind "text") as [->|_].
  { cbn. destruct (_ && _); [|discriminate]. injection E as <-. split_and!; [lia|lia|]. intros r Hr. inversion Hr. }
  destruct (String.eqb_spec kind "fields") as [->|_].
  { cbn. destruct (_ && _); [|discriminate]. injection E as <-. split_and!; [lia|lia|]. intros r Hr. inversion Hr. }
  destruct (String.eqb_spec kind "table") as [->|_].
  { cbv zeta in E. destruct (_ && _); [|discriminate]. apply table_rows_cells in E as [-> Hb]; [|exact Hc].
    cbn. split_and!; [reflexivity|exact Hb|]. intros r Hr. inversion Hr. }
  destruct (String.eqb_spec kind "attachment_refs") as [->|_]; [|discriminate].
  cbv zeta in E. destruct (_ && _) eqn:Ec; [|discriminate]. injection E as <-. cbn.
  apply andb_prop in Ec as [[_ Ec]%andb_prop _]. rewrite forallb_forall in Ec.
  split_and!; [lia|lia|]. intros r (i & -> & Hi)%list_elem_of_fmap.
  apply list_elem_of_In, Ec, andb_prop in Hi as [_ Hi]. apply mem_str_In, Hi.
Qed.

Lemma section_blocks_bounds ids blocks : ∀ keys cells keys' cells',
  section_blocks ids blocks keys cells = Some (keys', cells') → NoDup keys → cells ≤ 4000 →
  keys' = keys ++ map (λ b, str_of (item "key" b)) blocks ∧ NoDup keys'
  ∧ cells' = cells + total_cells blocks ∧ cells' ≤ 4000
  ∧ ∀ b r, b ∈ blocks → r ∈ references b → r ∈ ids.
Proof.
  induction blocks as [|b blocks IH]; intros keys cells keys' cells'; cbn [section_blocks].
  - intros [= <- <-] Hk Hc. cbn. rewrite app_nil_r. split_and!; auto; [lia|]. intros b r Hb. inversion Hb.
  - destruct (_ && _) eqn:E; [|discriminate]. apply andb_prop in E as [_ Hn%negb_true_iff].
    destruct (block_cells ids b cells) as [cells1|] eqn:Eb; [|discriminate]. intros Es Hk Hc.
    apply block_cells_bounds in Eb as (E1 & Hc1 & Hr1); [|exact Hc].
    assert (Hk1 : NoDup (keys ++ [str_of (item "key" b)])).
    { apply NoDup_app. split_and!; [exact Hk| |apply NoDup_singleton].
      intros x Hx ->%list_elem_of_singleton. apply mem_str_In in Hx. congruence. }
    apply IH in Es as (-> & Hk' & -> & Hc' & Hr'); [|exact Hk1|exact Hc1].
    rewrite <- app_assoc in *. cbn in *. split_and!; auto; [unfold total_cells; cbn; lia|].
    intros b' r [->|Hb]%elem_of_cons; [apply Hr1|apply Hr', Hb].
Qed.

Lemma sections_bounds ids sections : ∀ keys total cells,
  sections_valid ids sections keys total cells = true → NoDup keys → total ≤ 200 → cells ≤ 4000 →
  let blocks := concat (map (λ s, elements (item "blocks" s)) sections) in
  NoDup (keys ++ concat (map section_keys sections))
  ∧ total + Z.of_nat (length blocks) ≤ 200 ∧ cells + total_cells blocks ≤ 4000
  ∧ ∀ b r, b ∈ blocks → r ∈ references b → r ∈ ids.
Proof.
  induction sections as [|sect sections IH]; intros keys total cells; cbn [sections_valid].
  - intros _ Hk Ht Hc. cbn. rewrite app_nil_r. split_and!; auto; [lia|lia|]. intros b r Hb. inversion Hb.
  - intros E Hk Ht Hc. cbv zeta in E.
    apply andb_prop in E as [[[[[[_ _]%andb_prop _]%andb_prop Hn%negb_true_iff]%andb_prop _]%andb_prop Ht'%Z.leb_le]%andb_prop E].
    destruct (section_blocks _ _ _ _) as [[keys1 cells1]|] eqn:Eb; [|discriminate].
    apply section_blocks_bounds in Eb as (-> & Hk1 & -> & Hc1 & Hr1); [| |exact Hc].
    2:{ apply NoDup_app. split_and!; [exact Hk| |apply NoDup_singleton].
        intros x Hx ->%list_elem_of_singleton. apply mem_str_In in Hx. congruence. }
    destruct (IH _ _ _ E Hk1 Ht' Hc1) as (A & B & C & D). cbn [map concat].
    assert (Et : ∀ l1 l2, total_cells (l1 ++ l2) = total_cells l1 + total_cells l2).
    { intros l1 l2. unfold total_cells. induction l1 as [|x l1 IHl]; cbn; [reflexivity|]. lia. }
    rewrite length_app, Et. split_and!; [|lia|lia|].
    + unfold section_keys at 1. rewrite <- !app_assoc in A. exact A.
    + intros b r [Hb|Hb]%elem_of_app; [apply Hr1, Hb|apply D, Hb].
Qed.

Lemma attachment_ids_distinct l : ∀ ids ids', attachment_ids l ids = Some ids' → NoDup ids →
  ids' = ids ++ map (λ a, str_of (item "id" a)) l ∧ NoDup ids'.
Proof.
  induction l as [|a l IH]; intros ids ids'; cbn [attachment_ids].
  - intros [= <-] Hi. cbn. rewrite app_nil_r. auto.
  - cbv zeta. destruct (_ && _) eqn:E; [|discriminate]. intros Ei Hi.
    apply andb_prop in E as [[[_ Hn%negb_true_iff]%andb_prop _]%andb_prop _].
    apply IH in Ei as [-> Hi'].
    + rewrite <- app_assoc in *. auto.
    + apply NoDup_app. split_and!; [exact Hi| |apply NoDup_singleton].
      intros x Hx ->%list_elem_of_singleton. apply mem_str_In in Hx. congruence.
Qed.

Lemma same_strings_spec l1 l2 : same_strings l1 l2 = true → ∀ x, x ∈ l1 ↔ x ∈ l2.
Proof.
  unfold same_strings. intros [A B]%andb_prop x. rewrite forallb_forall in A, B.
  split; intros Hx; apply mem_str_In; [apply A|apply B]; apply list_elem_of_In, Hx.
Qed.


(** ** The theorems *)

(** C37: A validated document is bounded and consistent.  It has the number of the report, at
    most 50 sections, 200 blocks and 4000 cells in all, 32 attachments and one megabyte; the
    keys of its sections and blocks are distinct over the whole document; its attachments are
    distinct and exactly those whose digests came with the package; and it refers to no other
    one, in its blocks or as its signature. *)
Theorem validated_documents_are_bounded document report_id hashes :
  validate_document document report_id hashes = true →
  let attachments := map (λ a, str_of (item "id" a)) (elements (item "attachments" document)) in
  Z.of_nat (length (document_sections document)) ≤ 50
  ∧ Z.of_nat (length (document_blocks document)) ≤ 200
  ∧ total_cells (document_blocks document) ≤ 4000
  ∧ Z.of_nat (length attachments) ≤ 32
  ∧ Z.of_nat (String.length (json_dumps document)) ≤ 1024 * 1024
  ∧ NoDup (concat (map section_keys (document_sections document)))
  ∧ NoDup attachments ∧ (∀ x, x ∈ attachments ↔ x ∈ hashes.*1)
  ∧ (∀ b r, b ∈ document_blocks document → r ∈ references b → r ∈ attachments)
  ∧ (∀ i, jget "signature_attachment_id" (item "finalization" document) = Some i →
       str_of i ∈ attachments)
  ∧ ∃ n, identifier report_id = Some n ∧ item "report_id" document = JStr (str_uuid n).
Proof.
  intros E attachments. unfold validate_document in E.
  apply andb_prop in E as [E Eids].
  apply andb_prop in E as [[[[[[_ Hid]%andb_prop _]%andb_prop _]%andb_prop _]%andb_prop _]%andb_prop Hatt].
  destruct (attachment_ids _ []) as [ids|] eqn:Ea; [|discriminate Eids].
  apply attachment_ids_distinct in Ea as [-> Hd]; [|apply NoDup_nil_2]. cbn [app] in *.
  fold attachments in Eids, Hd.
  apply andb_prop in Eids as [[[[[Hs _]%andb_prop Hsec]%andb_prop Hval]%andb_prop Hfin]%andb_prop Hsize%Z.leb_le].
  apply sequence_bounds in Hatt, Hsec.
  destruct (sections_bounds _ _ _ _ _ Hval ltac:(apply NoDup_nil_2) ltac:(lia) ltac:(lia)) as (A & B & C & D).
  split_and!; try assumption.
  - apply Hsec.
  - unfold attachments. rewrite length_map. apply Hatt.
  - apply same_strings_spec, Hs.
  - intros i Hi. unfold finalization_valid in Hfin. rewrite Hi in Hfin.
    apply andb_prop in Hfin as [_ [_ Hm]%andb_prop]. apply mem_str_In, Hm.
  - destruct (identifier report_id) as [n|]; [|discriminate Hid]. exists n. split; [reflexivity|].
    destruct (item "report_id" document); try discriminate Hid. apply String.eqb_eq in Hid. congruence.
Qed.

(** The document of the demonstration. *)
Lemma validated_documents_are_bounded_witness :
  validate_document (demo_document 6) (json_uuid 6) [] = true
  ∧ Z.of_nat (length (document_blocks (demo_document 6))) ≤ 200.
Proof.
  assert (V : validate_document (demo_document 6) (json_uuid 6) [] = true) by (vm_compute; reflexivity).
  split; [exact V|].
  destruct (validated_documents_are_bounded (demo_document 6) (json_uuid 6) [] V) as (_ & H & _). exact H.
Defined.


